(* ===== verification/_CoqProject ===== *)
-Q . S2P
Prelude.v
GoString.v
GoTime.v
GoSort.v
GoDate.v
GoPath.v
GoSha256.v
GoCrypto.v
IamTypes.v
IamRules.v
IamAudit.v
IamPolicy.v
IamVerify.v
IamSpec.v
IamCorrect.v
IamState.v
IamTheorems.v
Registry.v
RegistryCorrect.v
ProviderPorts.v
PortsCorrect.v
PortsAdapter.v
PortsTheorems.v
PortsConformance.v
IdentitySession.v
Programs.v
StateStore.v
GoHttp.v
ControlPlane.v
ControlPlaneCorrect.v
ControlPlaneRun.v
ControlPlaneTheorems.v
ControlPlaneSamples.v
GoJson.v
GoJsonCorrect.v
StrictJson.v
StrictJsonCorrect.v
GoRfc3339.v
GoDuration.v
JsonStructs.v
DrillTypes.v
DrillValidate.v
DrillJournal.v
DrillFiles.v
DrillEngine.v
DrillCodec.v
DrillJournalCorrect.v
DrillBound.v
DrillHeld.v
DrillCorrect.v
DrillFacts.v
DrillRun.v
DrillSamples.v
DrillTheorems.v
OslTypes.v
OslValidate.v
OslDecode.v
OslSample.v
OslObserve.v
OslSurvive.v
OslSeal.v
OslTrace.v
OslBound.v
OslRuns.v
OslTheorems.v
OslCluster.v
HaTypes.v
HaWave.v
HaMembers.v
HaBuild.v
HaReady.v
HaVerified.v
HaCodec.v
HaBack.v
HaTheorems.v
HaSamples.v
GoPublicKeys.v
IdentityTokens.v
IdentityFlows.v
IdentityTheorems.v
