(* ===== verification/Prelude.v ===== *)
(** * CloudRING: a verification library for the control-plane core

    CloudRING is a control plane for private clouds.  This library models the
    Go code of its core: who may do what (pkg/iam), which modules an
    installation is made of (pkg/registry), the ports through which providers
    are driven (pkg/providerports), the HTTP control plane with its sessions
    and its durable state (pkg/controlplane, pkg/identity), the transaction of
    a backup drill (pkg/backup/drill), the evidence of the loss of one server
    (pkg/resilience/oneserverloss), the expansion of a cluster in waves
    (pkg/kubeadm), and the tokens and flows of OpenID Connect that stand
    before the policy (pkg/identity, pkg/iam/oidc_verifier.go).

    Every operation is a definition with the source's name, its guards in the
    order of the source and its errors as values; pure code is a function,
    stateful code passes its state, and code that other processes can
    interfere with is a tree of calls (Programs).

    ** Parts

    Shared by all parts
    - Prelude: Go errors and results, notation, automation, list lemmas.
    - GoString, GoTime, GoSort, GoDate, GoPath, GoRfc3339, GoDuration: what the
      code uses of strings, regexp, time, sort and path.  GoSha256, GoCrypto:
      crypto/sha256, encoding/hex, crypto/hmac, encoding/base64,
      encoding/binary, all executable.
    - GoJson, GoJsonCorrect: the texts of encoding/json, with their round trip.
      StrictJson, StrictJsonCorrect: internal/strictjson/strictjson.go and the
      decoding of texts into Go types; JsonStructs: the tactics that prove
      that a record is read back from its text.
    - GoPublicKeys: what is used of math/big, crypto/rsa (PKCS #1 v1.5 over
      SHA-256) and crypto/ecdsa with crypto/elliptic (P-256), executable.
    - GoHttp: what the control plane and the identity flows use of net/http
      and net/url; the parsers of addresses are its interface [NetParsers].
    - Programs: programs as trees of calls, interleavings and crashes of any
      number of processes, a rely-guarantee logic with its soundness theorem,
      the interpreter of one process, and the traces of its calls.

    pkg/iam.  IamTypes, IamRules, IamAudit, IamPolicy, IamState, IamVerify model
    types.go, rules.go, audit.go and audit_event.go, policy.go,
    state_loader.go, and verify*.go.  IamSpec is an access model without the
    engine's control flow; IamCorrect and IamTheorems show that the engine
    implements it and what follows for tenants, roles, audits and break-glass.
    The audit sink is an interface ([AuditSinkLaws]) with the package's two
    sinks as instances.

    pkg/registry.  Registry models registry.go; RegistryCorrect shows that the
    dependency search is exact and what validation establishes.

    pkg/providerports.  ProviderPorts models ports.go; PortsAdapter shows that
    the in-memory adapter implements a ledger; PortsCorrect, PortsTheorems and
    PortsConformance have the digests, the replay behaviour, the isolation of
    tenants and the conformance suite.

    pkg/controlplane and pkg/identity/session.go.  IdentitySession models the
    cookies and request tokens; StateStore the durable store as a relation
    that lets any call fail and any other process write in between;
    ControlPlane the handlers of server.go, portal.go and state.go.
    ControlPlaneCorrect proves them under interleaving and crashes,
    ControlPlaneRun without faults, ControlPlaneTheorems and
    ControlPlaneSamples state the promises and apply them.

    pkg/backup/drill.  DrillTypes, DrillValidate, DrillJournal, DrillFiles,
    DrillEngine model types.go and digest.go, validate.go, journal.go with
    internal/privateartifact/privateartifact.go and adapter.go, and engine.go.
    DrillCodec, DrillJournalCorrect, DrillBound, DrillHeld, DrillCorrect and
    DrillFacts prove the transaction under concurrency and crashes; DrillRun
    its completion and its rollback when nothing fails; DrillSamples and
    DrillTheorems a sample and the promises.

    pkg/resilience/oneserverloss.  OslTypes, OslValidate, OslDecode, OslSample
    and OslObserve model types.go (with pkg/kubeidentity/hash.go), validate.go,
    decode.go, sample.go and observe.go; the observer is a program whose calls
    list and read a cluster, read the clock, sleep and talk to the fault
    procedure.  OslSurvive says what an accepted receipt proves, OslSeal which
    receipts are accepted, OslTrace and OslRuns what a run consists of,
    OslBound that it ends; OslTheorems has the promises and OslCluster a
    cluster that loses a server, on which they are tried.

    pkg/kubeadm.  HaTypes, HaWave and HaBuild model ha_wave.go (and the
    patterns of render.go): the records with their texts, the checks, the
    planner [BuildHAWavePlan] and the verifier [VerifyHAWave].  HaMembers has
    the sets of members, HaReady and HaVerified what makes a plan and a report
    ready, HaCodec and HaBack that ready artifacts are read back; HaTheorems
    and HaSamples the promises and a cluster that grows to three members.

    pkg/identity, tokens and flows.  IdentityTokens models identity.go, jwt.go,
    discovery_jwks.go and jwks_parse.go; IdentityFlows authorization_code.go,
    bootstrap.go, management.go and the adapter pkg/iam/oidc_verifier.go;
    IdentityTheorems what follows for tokens, keys, caches, authorization
    requests and the decisions of the policy behind the adapter.

    ** What the theorems show

    - An authorization is granted exactly when the access model grants it;
      every decision leaves an audit event, a grant that could not be audited
      is a denial, tenants are isolated, an owner is always left.
    - Every write of the control plane is authorised by the session or the
      operator token, at most one session is live and one installation bound
      per store, and responses are truthful, in every interleaving of requests
      that may die and for every clock; logins are limited; request tokens are
      bound to their session; a login is followed by a page and a logout when
      nothing fails.
    - A module registry is accepted exactly when it is well formed and its
      dependencies have no cycle.
    - A lifecycle adapter replays what it has served, refuses a reused key
      with another request, and never crosses tenants.
    - The journal of a drill stays readable and bound to its plan through any
      interleaving of operators and crashes; the adapter is only asked for a
      step after the journal says so; an accepted receipt stands for a
      complete run; a run interrupted before its rollback can be ended; the
      digest of the last entry stands for the journal.
    - An accepted survival receipt proves that the same workloads, machine and
      data were served, watched without gaps, through the loss of exactly one
      server; the observer ends, tells the fault procedure to begin only after
      a stable healthy state, and its receipts hold every sample of the run.
    - A wave is planned exactly when its evidence is there; a verified wave
      adds one member, and two waves and a survived loss make three members.
    - An accepted token was signed by a key of the configuration within its
      window; it stays accepted until it expires, by the issuer and by those
      who hold its published keys; a decision behind the OIDC adapter is backed
      by such a token.
    - Strict JSON accepts exactly the texts without duplicate fields, and
      encoders and decoders are inverse.

    ** Bounds and fuel

    Recursion that is not structural has fuel, and a lemma that the fuel is
    enough: the registry's search has one unit per module plus two
    ([visit_fuel]); the JSON reader the length of its text
    ([parse_value_fuel]); [ParseQuery] the length of the query plus one; the
    contract verifier recurses once; decimal numbers have twenty digits
    ([FormatInt]), which an int64 never exceeds; SHA-256 pads to whole blocks
    of 64 bytes and consumes one per unit.  The loops of [Observe] have one unit
    per sample of [maximumSamples], 4096, which [observations_end] proves
    enough, and a paged listing twenty pages, the limit of the source.  A
    session document is created with
    at most three attempts ([create_attempts]) and a drill has thirteen steps
    ([ApplySteps]), as in the source.  Machine integers are integers with
    their wrap-around written out where an operation can exceed 64 bits
    ([int64_wrap], [duration_add]); the difference of two times saturates
    ([time_Sub]) and a sum that leaves the 64-bit seconds does ([Add]).

    ** What is assumed

    Code that is not part of the repository is a parameter: the texts of the
    control plane's stored documents ([JsonCodec]) and the parsers of net and
    net/url ([NetParsers]).  The state store, the clock, random bytes, file
    systems, locks, adapters and clusters are relations or arbitrary functions
    that admit every answer their documentation allows, failures included;
    what a theorem needs of a clock is a hypothesis of it.  SHA-256 is
    computed.  Where a conclusion needs that two texts have different digests,
    its alternative is that these very texts, named by the values the theorem
    is about (two requests, two journals' entries, two tokens, the texts an
    HMAC hashes), are a collision.

    ** Not modelled

    A nil slice and an empty one are one list; where Go distinguishes them in
    a text (null or []) the model writes what the source's value is.  Times
    carry no zone: only UTC texts are accepted by the code modelled here.
    [bytes.ToLower] and [strings.ToLower] are modelled on ASCII.  Page
    templates, style sheets, process start-up, file permissions, the Windows
    variants, the recovery workers of backups, the rendering and inventory
    checks of kubeadm, the SQL journal under the state store, the OpenBao apply
    engine, the OCS contracts, the roadmap programme, source and manifest
    checks, site tooling and commands are left out: they are input and output
    around external tools, schemas of third-party validators, or not reached.
    The nil contexts that the OIDC adapter refuses do not occur: the policy
    calls it with a context. *)

From stdpp Require Import gmap strings list fin_maps.
From Stdlib Require Import ZArith Lia.

(** ** Notation of the translated code

    Go's string equality tests are boolean; they are written [==] and [!=] so
    that a guard of the model reads like the guard of the source. *)

Declare Scope go_scope.
Delimit Scope go_scope with go.

Notation "a == b" := (String.eqb a b)
  (at level 70, no associativity) : go_scope.
Notation "a != b" := (negb (String.eqb a b))
  (at level 70, no associativity) : go_scope.

Open Scope go_scope.

(** ** Go errors

    An error made by [errors.New] is a value with a message; the packages
    modelled here give every sentinel a message of its own, so the message
    identifies the sentinel.  [fmt.Errorf] with the %w verb wraps an error
    behind a prefix. *)

Inductive goerror :=
  | errors_New (message : string)
  | Errorf_w (prefix : string) (inner : goerror).

Fixpoint Error (err : goerror) : string :=
  match err with
  | errors_New message => message
  | Errorf_w prefix inner => String.append prefix (Error inner)
  end.

#[export] Instance goerror_eq_dec : EqDecision goerror.
Proof. solve_decision. Defined.

(** [errors.Is]: the error itself or one it wraps. *)
Fixpoint errors_Is (err target : goerror) : bool :=
  bool_decide (err = target) ||
  match err with
  | errors_New _ => false
  | Errorf_w _ inner => errors_Is inner target
  end.

(** A Go call that returns a value or a non-nil error. *)
Inductive result (A : Type) :=
  | Ok (value : A)
  | Err (err : goerror).
Arguments Ok {A} value.
Arguments Err {A} err.

Definition is_Ok {A} (r : result A) : bool :=
  match r with Ok _ => true | Err _ => false end.

Definition is_nil {A} (o : option A) : bool :=
  match o with None => true | Some _ => false end.

Lemma is_nil_true {A} (o : option A) : is_nil o = true <-> o = None.
Proof. by destruct o. Qed.

(** ** [context.Context]

    The modelled code passes a context on, tests it against nil (the [option]
    around it) and asks it for cancellation. *)

Record Context_ := mkContext {
  ctx_Err : option goerror;
  ctx_values : list (string * string)
}.

Definition context_Background : Context_ :=
  {| ctx_Err := None; ctx_values := [] |}.

(** ** Loops that return at the first failure *)

Section first_error.
Context {A E : Type}.

(** [for _, x := range xs { if err := check(x); err != nil { return err } }] *)
Fixpoint first_error (check : A -> option E) (xs : list A) : option E :=
  match xs with
  | [] => None
  | x :: rest =>
      match check x with
      | Some err => Some err
      | None => first_error check rest
      end
  end.

Lemma first_error_None (check : A -> option E) xs :
  first_error check xs = None <-> Forall (fun x => check x = None) xs.
Proof.
  induction xs as [|x xs IH]; simpl; [by split; [constructor|]|].
  rewrite Forall_cons. destruct (check x); [naive_solver|]. rewrite IH. naive_solver.
Qed.

Lemma first_error_Some (check : A -> option E) xs err :
  first_error check xs = Some err -> exists x, x ∈ xs /\ check x = Some err.
Proof.
  induction xs as [|x xs IH]; simpl; [done|].
  destruct (check x) eqn:Hx; intros H; simplify_eq.
  - exists x. by split; [left|].
  - destruct (IH H) as (y & Hy & Hc). exists y. by split; [right|].
Qed.

(** Whether such a loop succeeds does not depend on the order of the
    elements: the range over a Go map visits them in an unspecified order. *)
Lemma first_error_perm (check : A -> option E) xs ys :
  xs ≡ₚ ys -> is_nil (first_error check xs) = is_nil (first_error check ys).
Proof.
  intros Hp.
  assert (first_error check xs = None <-> first_error check ys = None) as Hiff.
  { rewrite !first_error_None. by rewrite Hp. }
  destruct (first_error check xs), (first_error check ys); naive_solver.
Qed.

End first_error.

#[export] Instance first_error_nil_proper {A E} (check : A -> option E) :
  Proper ((≡ₚ) ==> eq) (fun xs => is_nil (first_error check xs)).
Proof. intros xs ys. apply first_error_perm. Qed.

(** The same loop over a Go map, in the order of [map_to_list]. *)
Definition map_first_error {V E} (check : string -> V -> option E) (m : gmap string V)
  : option E :=
  first_error (fun kv => check kv.1 kv.2) (map_to_list m).

Lemma map_first_error_None {V E} (check : string -> V -> option E) (m : gmap string V) :
  map_first_error check m = None <->
  forall k v, m !! k = Some v -> check k v = None.
Proof.
  unfold map_first_error. rewrite first_error_None, Forall_forall. split.
  - intros H k v Hkv. apply (H (k, v)). by apply elem_of_map_to_list.
  - intros H [k v] Hin. apply H. by apply elem_of_map_to_list.
Qed.

Lemma forallb_elem {A} (f : A -> bool) (xs : list A) :
  forallb f xs = true <-> forall x, x ∈ xs -> f x = true.
Proof. rewrite forallb_forall. by setoid_rewrite <- list_elem_of_In. Qed.

Lemma existsb_elem {A} (f : A -> bool) (xs : list A) :
  existsb f xs = true <-> exists x, x ∈ xs /\ f x = true.
Proof. rewrite existsb_exists. by setoid_rewrite <- list_elem_of_In. Qed.

(** A property every step keeps holds wherever the steps lead. *)
Lemma rtc_preserves {A} (R : relation A) (P : A -> Prop) x y :
  (forall a b, R a b -> P a -> P b) -> rtc R x y -> P x -> P y.
Proof. intros Hstep Hr. induction Hr; eauto. Qed.

(** ** Automation

    [go_simp] turns the boolean guards among the hypotheses into the
    propositions they decide; [go_cases] follows the control flow of the
    translated code in a hypothesis or the goal. *)

Lemma string_neqb_true (a b : string) : (a != b) = true <-> a <> b.
Proof. by rewrite negb_true_iff, String.eqb_neq. Qed.

Lemma string_neqb_false (a b : string) : (a != b) = false <-> a = b.
Proof. by rewrite negb_false_iff, String.eqb_eq. Qed.

Ltac go_simp :=
  repeat match goal with
  | H : true = false |- _ => discriminate H
  | H : false = true |- _ => discriminate H
  | H : true = true |- _ => clear H
  | H : false = false |- _ => clear H
  | H : _ && _ = true |- _ => apply andb_true_iff in H; destruct H
  | H : _ || _ = false |- _ => apply orb_false_iff in H; destruct H
  | H : (_ != _) = true |- _ => apply string_neqb_true in H
  | H : (_ != _) = false |- _ => apply string_neqb_false in H
  | H : String.eqb _ _ = true |- _ => apply String.eqb_eq in H
  | H : String.eqb _ _ = false |- _ => apply String.eqb_neq in H
  | H : negb _ = true |- _ => apply negb_true_iff in H
  | H : negb _ = false |- _ => apply negb_false_iff in H
  | H : Z.ltb _ _ = true |- _ => apply Z.ltb_lt in H
  | H : Z.ltb _ _ = false |- _ => apply Z.ltb_ge in H
  | H : Z.leb _ _ = true |- _ => apply Z.leb_le in H
  | H : Z.leb _ _ = false |- _ => apply Z.leb_gt in H
  | H : Z.eqb _ _ = true |- _ => apply Z.eqb_eq in H
  | H : Z.eqb _ _ = false |- _ => apply Z.eqb_neq in H
  | H : Nat.ltb _ _ = true |- _ => apply Nat.ltb_lt in H
  | H : Nat.ltb _ _ = false |- _ => apply Nat.ltb_ge in H
  | H : Nat.leb _ _ = true |- _ => apply Nat.leb_le in H
  | H : Nat.leb _ _ = false |- _ => apply Nat.leb_gt in H
  | H : Nat.eqb _ _ = true |- _ => apply Nat.eqb_eq in H
  | H : Nat.eqb _ _ = false |- _ => apply Nat.eqb_neq in H
  | H : existsb _ _ = true |- _ => apply existsb_elem in H
  | H : forallb _ _ = true |- _ => rewrite forallb_elem in H
  | H : bool_decide _ = true |- _ => apply bool_decide_eq_true_1 in H
  | H : bool_decide _ = false |- _ => apply bool_decide_eq_false_1 in H
  | H : is_Some None |- _ => destruct H; discriminate
  | H : exists _, _ |- _ => destruct H
  | H : _ /\ _ |- _ => destruct H
  end; simplify_eq/=.

(** One step along the control flow of [H]. *)
Ltac go_step H :=
  match type of H with
  | context [match ?e with _ => _ end] =>
      lazymatch e with
      | context [match _ with _ => _ end] => fail
      | _ => let E := fresh "E" in destruct e eqn:E
      end
  end; simplify_eq/=.

Ltac go_cases H := repeat (go_step H; try done).

(** Case analysis on the first condition of the goal. *)
Ltac go_if H :=
  match goal with
  | |- context [if ?b then _ else _] => destruct b eqn:H
  end.

(** Walks the guards of the goal to the last branch, refuting each early
    return with [tac]. *)
Ltac go_guards tac :=
  repeat (let G := fresh "G" in go_if G; [exfalso; go_simp; solve [tac] | go_simp]).

(** The same on the goal. *)
Ltac go_goal_step :=
  match goal with
  | |- context [match ?e with _ => _ end] =>
      lazymatch e with
      | context [match _ with _ => _ end] => fail
      | _ => let E := fresh "E" in destruct e eqn:E
      end
  end; simplify_eq/=.

Create HintDb cloudring.
Create Rewrite HintDb cloudring.
#[export] Hint Rewrite String.eqb_eq String.eqb_neq andb_true_iff orb_true_iff
  negb_true_iff negb_false_iff Z.ltb_lt Z.leb_le Z.eqb_eq Nat.ltb_lt Nat.leb_le
  Nat.eqb_eq string_neqb_true string_neqb_false : cloudring.
