(* ===== verification/GoString.v ===== *)
(** * Go strings

    A Go string is a sequence of bytes; [string] of the standard library is a
    list of 8-bit characters, which is the same thing.  This file holds the
    functions of packages [strings], [path] and [regexp] that the modelled
    code uses, as far as it uses them, with the lemmas the components share:
    trimming, prefixes, anchored patterns over ASCII classes, and the
    cancellation lemmas for NUL-separated encodings. *)

From stdpp Require Import gmap strings list fin_maps.
From Stdlib Require Import Ascii String ZArith Lia.
From S2P Require Import Prelude.

Definition len (s : string) : nat := String.length s.

Definition code (c : ascii) : nat := nat_of_ascii c.

(** Appending behaves like a constructor on the left. *)
Lemma string_app_cons (c : ascii) (s t : string) : String c s +:+ t = String c (s +:+ t).
Proof. done. Qed.

(** ** Character classes *)

Definition in_range (lo hi : nat) (c : ascii) : bool :=
  (lo <=? code c) && (code c <=? hi).

Definition is_lower : ascii -> bool := in_range 97 122.
Definition is_upper : ascii -> bool := in_range 65 90.
Definition is_digit : ascii -> bool := in_range 48 57.
Definition is_hex_lower (c : ascii) : bool := is_digit c || in_range 97 102 c.
Definition is_char (n : nat) (c : ascii) : bool := code c =? n.

Fixpoint all_chars (f : ascii -> bool) (s : string) : bool :=
  match s with
  | EmptyString => true
  | String c rest => f c && all_chars f rest
  end.

Fixpoint any_char (f : ascii -> bool) (s : string) : bool :=
  match s with
  | EmptyString => false
  | String c rest => f c || any_char f rest
  end.

Lemma all_chars_app f s t : all_chars f (s +:+ t) = all_chars f s && all_chars f t.
Proof. induction s as [|c s IH]; simpl; [done|]. by rewrite IH, andb_assoc. Qed.

Lemma all_chars_impl (f g : ascii -> bool) s :
  (forall c, f c = true -> g c = true) -> all_chars f s = true -> all_chars g s = true.
Proof.
  intros H. induction s as [|c s IH]; simpl; [done|].
  rewrite !andb_true_iff. naive_solver.
Qed.

Lemma any_char_all f s : any_char f s = negb (all_chars (fun c => negb (f c)) s).
Proof. induction s as [|c s IH]; simpl; [done|]. rewrite IH. by destruct (f c). Qed.

(** ** [strings.TrimSpace]

    White space is what [unicode.IsSpace] accepts, in its UTF-8 encoding:
    six ASCII characters, two two-byte and sixteen three-byte sequences. *)

Definition ascii_space (a : ascii) : bool :=
  in_range 9 13 a || is_char 32 a.

Definition space2 (a b : ascii) : bool :=
  is_char 194 a && (is_char 133 b || is_char 160 b).

Definition space3 (a b c : ascii) : bool :=
  (is_char 225 a && is_char 154 b && is_char 128 c) ||
  (is_char 226 a && is_char 128 b &&
     (in_range 128 138 c || is_char 168 c || is_char 169 c || is_char 175 c)) ||
  (is_char 226 a && is_char 129 b && is_char 159 c) ||
  (is_char 227 a && is_char 128 b && is_char 128 c).

(** [rev] tells the direction the bytes of an encoding are met in. *)
Fixpoint trim_front (rev : bool) (s : string) : string :=
  match s with
  | EmptyString => EmptyString
  | String a r =>
      if ascii_space a then trim_front rev r
      else match r with
      | EmptyString => s
      | String b r' =>
          if (if rev then space2 b a else space2 a b) then trim_front rev r'
          else match r' with
          | EmptyString => s
          | String c r'' =>
              if (if rev then space3 c b a else space3 a b c)
              then trim_front rev r'' else s
          end
      end
  end.

Fixpoint string_rev_app (s acc : string) : string :=
  match s with
  | EmptyString => acc
  | String c r => string_rev_app r (String c acc)
  end.

Definition string_rev (s : string) : string := string_rev_app s EmptyString.

Definition TrimSpace (s : string) : string :=
  string_rev (trim_front true (string_rev (trim_front false s))).

Definition blank (s : string) : bool := TrimSpace s == EmptyString.

(** ** Prefixes and substrings *)

Definition HasPrefix (s prefix : string) : bool := String.prefix prefix s.

Fixpoint drop_chars (n : nat) (s : string) : string :=
  match n, s with
  | S n, String _ r => drop_chars n r
  | _, _ => s
  end.

Definition TrimPrefix (s prefix : string) : string :=
  if HasPrefix s prefix then drop_chars (len prefix) s else s.

Fixpoint take_chars (n : nat) (s : string) : string :=
  match n, s with
  | S n, String c r => String c (take_chars n r)
  | _, _ => EmptyString
  end.

Fixpoint Contains (s sub : string) : bool :=
  HasPrefix s sub ||
  match s with
  | EmptyString => false
  | String _ r => Contains r sub
  end.

(** [strings.ContainsAny] with ASCII [chars]. *)
Definition ContainsAny (s chars : string) : bool :=
  any_char (fun c => any_char (Ascii.eqb c) chars) s.

Lemma HasPrefix_app s t : HasPrefix (s +:+ t) s = true.
Proof.
  unfold HasPrefix. induction s as [|c s IH]; simpl; [by destruct t|].
  by destruct (ascii_dec c c).
Qed.

Lemma take_chars_length n s : n <= len s -> len (take_chars n s) = n.
Proof.
  revert s. induction n as [|n IH]; intros s Hn; [done|].
  destruct s as [|c s]; simpl in *; [lia|]. f_equal. apply IH. lia.
Qed.

Lemma take_chars_all f n s :
  all_chars f s = true -> all_chars f (take_chars n s) = true.
Proof.
  revert s. induction n as [|n IH]; intros [|c s]; simpl; try done.
  rewrite !andb_true_iff. naive_solver.
Qed.

Lemma len_app s t : len (s +:+ t) = len s + len t.
Proof. induction s as [|c s IH]; simpl; [done|]. by rewrite IH. Qed.

(** ** Byte order

    Go compares strings bytewise. *)

Definition string_lt (a b : string) : bool := String.ltb a b.

(** ** NUL-separated encodings *)

Definition NUL : string := String (ascii_of_nat 0) EmptyString.

Definition no_nul (s : string) : bool := all_chars (fun c => negb (is_char 0 c)) s.

Lemma string_app_assoc (a b c : string) : (a +:+ b) +:+ c = a +:+ (b +:+ c).
Proof. induction a as [|x a IH]; [done|]. by rewrite !string_app_cons, IH. Qed.

Lemma string_app_nil_r (a : string) : a +:+ "" = a.
Proof. induction a as [|x a IH]; [done|]. by rewrite string_app_cons, IH. Qed.

(** Two NUL-free fields followed by a NUL are the same field. *)
Lemma nul_field_inj a b s t :
  no_nul a = true -> no_nul b = true ->
  a +:+ NUL +:+ s = b +:+ NUL +:+ t -> a = b /\ s = t.
Proof.
  unfold no_nul. revert b. induction a as [|x a IH]; intros [|y b] Ha Hb H;
    rewrite ?string_app_cons in H; simpl in Ha, Hb.
  - by injection H.
  - injection H as <- H. by cbn in Hb.
  - injection H as -> H. by cbn in Ha.
  - injection H as -> H. go_simp. destruct (IH b) as [-> ->]; done.
Qed.

(** ** Anchored patterns over ASCII classes

    [^[first][rest]{lo,hi}$]. *)

Definition match_first_rest (first rest : ascii -> bool) (lo hi : nat) (s : string) : bool :=
  match s with
  | EmptyString => false
  | String c r => first c && all_chars rest r && (lo <=? len r) && (len r <=? hi)
  end.

(** [^[first](?:[rest]{0,hi}[last])?$] for a [last] that is part of [first]:
    one character, or up to [hi] of [rest] between two. *)
(** [last_char c s] is the last character of [c] followed by [s]. *)
Fixpoint last_char (c : ascii) (s : string) : ascii :=
  match s with
  | EmptyString => c
  | String d r => last_char d r
  end.

Definition match_first_last (first rest last : ascii -> bool) (hi : nat) (s : string) : bool :=
  match s with
  | EmptyString => false
  | String c r => first c && all_chars rest r && last (last_char c r) && (len r <=? S hi)
  end.

Definition lower_digit (c : ascii) : bool := is_lower c || is_digit c.
Definition one_of (chars : string) (c : ascii) : bool := any_char (Ascii.eqb c) chars.

Definition alphanumeric (c : ascii) : bool := is_lower c || is_upper c || is_digit c.

(** Lower-case hexadecimal texts of one length: [hex.DecodeString] and
    [strings.ToLower] accept no others of that length. *)
Definition hex_of_length (n : nat) (s : string) : bool :=
  all_chars is_hex_lower s && (len s =? n)%nat.

(** [strings.Split] at a character: one more part than there are separators. *)
Fixpoint Split_char (sep : ascii) (s : string) : list string :=
  match s with
  | EmptyString => [EmptyString]
  | String c r =>
      if Ascii.eqb c sep then EmptyString :: Split_char sep r
      else match Split_char sep r with
           | part :: parts => String c part :: parts
           | [] => [String c EmptyString]
           end
  end.

(** [strings.Join] *)
Fixpoint Join (parts : list string) (sep : string) : string :=
  match parts with
  | [] => EmptyString
  | [part] => part
  | part :: parts => part +:+ sep +:+ Join parts sep
  end.

Lemma all_chars_no_nul (f : ascii -> bool) s :
  (forall c, f c = true -> negb (is_char 0 c) = true) ->
  all_chars f s = true -> no_nul s = true.
Proof. intros H. by apply all_chars_impl. Qed.

(** A class that lies above a code excludes the characters below it. *)
Lemma in_range_not_char lo hi n c :
  n < lo -> in_range lo hi c = true -> negb (is_char n c) = true.
Proof. unfold in_range, is_char. intros Hn H. go_simp. apply negb_true_iff, Nat.eqb_neq. lia. Qed.

(** ** Decimal rendering of small naturals, for [fmt.Sprintf] with %d *)

Definition digit (n : nat) : ascii := ascii_of_nat (48 + n).

Fixpoint decimal_fuel (fuel n : nat) (acc : string) : string :=
  match fuel with
  | 0 => acc
  | S fuel =>
      let acc := String (digit (n mod 10)) acc in
      if n <? 10 then acc else decimal_fuel fuel (n / 10) acc
  end.

(** [S n] digits are more than the decimal form of [n] has. *)
Definition decimal (n : nat) : string := decimal_fuel (S n) n EmptyString.
