(* ===== verification/GoTime.v ===== *)
(** * Go integers and instants

    [int64] values are integers with two's-complement wrap-around.  An instant
    ([time.Time]) is its distance in nanoseconds from the zero time, January 1
    of year 1 UTC, so the zero value is 0; a [time.Duration] is an [int64] of
    nanoseconds.  [Sub] saturates at the [int64] bounds, as documented. *)

From stdpp Require Import base.
From Stdlib Require Import ZArith Lia.
From S2P Require Import Prelude.

#[local] Open Scope Z_scope.

Definition min_int64 : Z := -9223372036854775808.
Definition max_int64 : Z := 9223372036854775807.

(** The value an [int64] operation leaves. *)
Definition int64_wrap (z : Z) : Z :=
  (z - min_int64) mod 18446744073709551616 + min_int64.

Definition is_int64 (z : Z) : Prop := min_int64 <= z <= max_int64.

Lemma int64_wrap_id z : is_int64 z -> int64_wrap z = z.
Proof.
  unfold is_int64, int64_wrap, min_int64, max_int64. intros H.
  rewrite Z.mod_small; lia.
Qed.

Lemma int64_wrap_range z : is_int64 (int64_wrap z).
Proof.
  unfold is_int64, int64_wrap, min_int64, max_int64.
  pose proof (Z.mod_pos_bound (z - -9223372036854775808) 18446744073709551616).
  lia.
Qed.

(** ** Durations *)

Definition Duration : Type := Z.

Definition Nanosecond : Duration := 1.
Definition Second : Duration := 1000000000.
Definition Minute : Duration := 60 * Second.
Definition Hour : Duration := 60 * Minute.

(** Multiplication and truncating division of durations. *)
Definition duration_mul (a b : Z) : Duration := int64_wrap (a * b).
Definition duration_div (a b : Z) : Z := int64_wrap (Z.quot a b).
Definition duration_add (a b : Z) : Duration := int64_wrap (a + b).

(** ** Instants *)

Definition Time : Type := Z.

Definition time_zero : Time := 0.
Definition IsZero (t : Time) : bool := t =? 0.
Definition After (t u : Time) : bool := u <? t.
Definition Before (t u : Time) : bool := t <? u.
Definition time_Add (t : Time) (d : Duration) : Time := t + d.

Definition time_Sub (t u : Time) : Duration :=
  Z.max min_int64 (Z.min max_int64 (t - u)).

Lemma time_Sub_range t u : is_int64 (time_Sub t u).
Proof. unfold is_int64, time_Sub, min_int64, max_int64. lia. Qed.

(** A bound below the saturation point is a bound on the real distance. *)
Lemma time_Sub_le t u d : d < max_int64 -> time_Sub t u <= d -> t - u <= d.
Proof. unfold time_Sub, min_int64, max_int64. lia. Qed.

Lemma time_Sub_le_iff t u d : 0 <= d < max_int64 -> time_Sub t u <= d <-> t - u <= d.
Proof. unfold time_Sub, min_int64, max_int64. lia. Qed.

Lemma time_Sub_exact t u : is_int64 (t - u) -> time_Sub t u = t - u.
Proof. unfold is_int64, time_Sub, min_int64, max_int64. lia. Qed.

(** Unix time: Go keeps the seconds of an instant in an [int64]; the sums wrap. *)

Definition unix_epoch : Z := 62135596800.
Definition Unix (t : Time) : Z := int64_wrap (t / Second - unix_epoch).
Definition time_Unix (sec : Z) : Time := int64_wrap (sec + unix_epoch) * Second.

Ltac go_time :=
  unfold IsZero, After, Before, time_Add, Second, Minute, Hour, Nanosecond in *;
  go_simp; try lia.
