(* ===== verification/GoSort.v ===== *)
(** * Go's [sort] package

    [sort.Slice] and [sort.Strings] as insertion sort.  For a strict total
    order the result is the only sorted permutation, so it is what any sorting
    algorithm returns ([sort_Slice_unique]). *)

From stdpp Require Import list strings sorting.
From Stdlib Require Import Lia.
From S2P Require Import Prelude GoString.

Section sort.
Context {A : Type} (less : A -> A -> bool).

Fixpoint sort_insert (x : A) (xs : list A) : list A :=
  match xs with
  | [] => [x]
  | y :: rest => if less y x then y :: sort_insert x rest else x :: xs
  end.

Definition sort_Slice (xs : list A) : list A := foldr sort_insert [] xs.

Lemma sort_insert_perm x xs : sort_insert x xs ≡ₚ x :: xs.
Proof.
  induction xs as [|y xs IH]; simpl; [done|]. case_match; [|done].
  rewrite IH. apply Permutation_swap.
Qed.

Lemma sort_Slice_perm xs : sort_Slice xs ≡ₚ xs.
Proof.
  induction xs as [|x xs IH]; simpl; [done|]. by rewrite sort_insert_perm, IH.
Qed.

Definition not_after (x y : A) : Prop := less y x = false.

Hypothesis less_trans : forall x y z, less x y = true -> less y z = true -> less x z = true.
Hypothesis less_irrefl : forall x, less x x = false.

Lemma sort_insert_hd y x xs :
  less y x = true -> HdRel not_after y xs -> HdRel not_after y (sort_insert x xs).
Proof.
  intros Hy Hh. assert (less x y = false) as Hxy.
  { destruct (less x y) eqn:E; [|done]. by rewrite <- (less_irrefl y), (less_trans y x y). }
  destruct Hh as [|z xs Hz]; simpl; [by constructor|]. case_match; by constructor.
Qed.

Lemma sort_insert_sorted x xs : Sorted not_after xs -> Sorted not_after (sort_insert x xs).
Proof.
  induction 1 as [|y xs Hs IH Hh]; simpl; [by repeat constructor|].
  destruct (less y x) eqn:E.
  - constructor; [done|]. by apply sort_insert_hd.
  - by repeat constructor.
Qed.

Lemma sort_Slice_sorted xs : Sorted not_after (sort_Slice xs).
Proof.
  induction xs as [|x xs IH]; simpl; [constructor|]. by apply sort_insert_sorted.
Qed.

Hypothesis less_total : forall x y, less x y = false -> less y x = false -> x = y.

Lemma not_after_trans : Transitive not_after.
Proof.
  unfold not_after. intros x y z Hxy Hyz. destruct (less z x) eqn:Hzx; [|done].
  destruct (less y z) eqn:E1; [by rewrite <- Hxy, (less_trans y z x)|].
  by rewrite (less_total _ _ Hyz E1), Hxy in Hzx.
Qed.

(** The result is determined by the elements. *)
Lemma sort_Slice_unique xs ys :
  Sorted not_after ys -> ys ≡ₚ xs -> sort_Slice xs = ys.
Proof.
  intros Hs Hp. pose proof not_after_trans.
  assert (AntiSymm eq not_after) by (intros x y ? ?; by apply less_total).
  apply (StronglySorted_unique not_after).
  - apply Sorted_StronglySorted, sort_Slice_sorted. done.
  - by apply Sorted_StronglySorted.
  - by rewrite sort_Slice_perm.
Qed.

Lemma sort_Slice_order xs ys : xs ≡ₚ ys -> sort_Slice xs = sort_Slice ys.
Proof.
  intros Hp. apply sort_Slice_unique; [apply sort_Slice_sorted|].
  by rewrite sort_Slice_perm.
Qed.

End sort.

(** ** Strings *)

Definition sort_Strings (xs : list string) : list string := sort_Slice string_lt xs.

Lemma string_compare_eq a : String.compare a a = Eq.
Proof.
  pose proof (String.compare_antisym a a). by destruct (String.compare a a).
Qed.

Lemma string_lt_irrefl a : string_lt a a = false.
Proof. unfold string_lt, String.ltb. by rewrite string_compare_eq. Qed.

Lemma string_lt_total a b : string_lt a b = false -> string_lt b a = false -> a = b.
Proof.
  unfold string_lt, String.ltb. rewrite (String.compare_antisym b a).
  destruct (String.compare a b) eqn:E; simpl; try done. intros _ _.
  by apply String.compare_eq_iff.
Qed.

Lemma string_lt_cons x a y b :
  string_lt (String x a) (String y b) =
  match Ascii.compare x y with Eq => string_lt a b | Lt => true | Gt => false end.
Proof. unfold string_lt, String.ltb. simpl. by destruct (Ascii.compare x y). Qed.

Lemma ascii_compare_N x y : Ascii.compare x y = N.compare (Ascii.N_of_ascii x) (Ascii.N_of_ascii y).
Proof. done. Qed.

Lemma string_lt_trans a b c :
  string_lt a b = true -> string_lt b c = true -> string_lt a c = true.
Proof.
  revert b c. induction a as [|x a IH]; intros [|y b] [|z c]; try done.
  rewrite !string_lt_cons, !ascii_compare_N.
  destruct (N.compare_spec (Ascii.N_of_ascii x) (Ascii.N_of_ascii y)) as [Hxy|Hxy|Hxy],
    (N.compare_spec (Ascii.N_of_ascii y) (Ascii.N_of_ascii z)) as [Hyz|Hyz|Hyz];
    try done; intros H1 H2;
    destruct (N.compare_spec (Ascii.N_of_ascii x) (Ascii.N_of_ascii z)); try done; try lia.
  by apply (IH b).
Qed.

Lemma sort_Strings_perm xs : sort_Strings xs ≡ₚ xs.
Proof. apply sort_Slice_perm. Qed.

Lemma sort_Strings_order xs ys : xs ≡ₚ ys -> sort_Strings xs = sort_Strings ys.
Proof.
  apply sort_Slice_order; [apply string_lt_trans|apply string_lt_irrefl|apply string_lt_total].
Qed.

Lemma sort_Strings_idemp xs : sort_Strings (sort_Strings xs) = sort_Strings xs.
Proof. apply sort_Strings_order, sort_Strings_perm. Qed.

#[export] Instance sort_Strings_proper : Proper ((≡ₚ) ==> eq) sort_Strings.
Proof. intros xs ys. apply sort_Strings_order. Qed.
