(* ===== verification/GoDate.v ===== *)
(** * Go's civil dates

    [time.Date] in UTC and [Format] with the RFC 3339 layout at second
    precision, on the proleptic Gregorian calendar. *)

From stdpp Require Import base strings.
From Stdlib Require Import ZArith Lia String Ascii.
From S2P Require Import Prelude GoString GoTime.

#[local] Open Scope Z_scope.

Definition leap (year : Z) : bool :=
  (year mod 4 =? 0) && (negb (year mod 100 =? 0) || (year mod 400 =? 0)).

Definition days_in_month (year month : Z) : Z :=
  if month =? 2 then (if leap year then 29 else 28)
  else if (month =? 4) || (month =? 6) || (month =? 9) || (month =? 11) then 30 else 31.

(** Days from January 1 of year 1 to January 1 of [year]. *)
Definition days_before_year (year : Z) : Z :=
  let y := year - 1 in 365 * y + y / 4 - y / 100 + y / 400.

Fixpoint days_before_month (year : Z) (months : nat) : Z :=
  match months with
  | O => 0
  | S m => days_before_month year m + days_in_month year (Z.of_nat (S m))
  end.

(** [time.Date(year, month, day, hour, min, sec, 0, time.UTC)] *)
Definition time_Date (year month day hour min sec : Z) : Time :=
  (((days_before_year year + days_before_month year (Z.to_nat (month - 1)) + (day - 1)) * 24
    + hour) * 60 + min) * Minute + sec * Second.

(** The month a day of the year lies in, and the day of that month. *)
Fixpoint month_of (fuel : nat) (year month yday : Z) : Z * Z :=
  match fuel with
  | O => (month, yday + 1)
  | S fuel =>
      if yday <? days_in_month year month then (month, yday + 1)
      else month_of fuel year (month + 1) (yday - days_in_month year month)
  end.

(** The year a day lies in: an estimate from the mean length of a year is at
    most one too large. *)
Definition year_of (day : Z) : Z :=
  let guess := day * 400 / 146097 + 1 in
  if day <? days_before_year guess then guess - 1
  else if days_before_year (guess + 1) <=? day then guess + 1 else guess.

Definition padded (width : nat) (z : Z) : string :=
  let digits := decimal (Z.to_nat z) in
  String.append (String.string_of_list_ascii (repeat (digit 0) (width - len digits))) digits.

(** [t.UTC().Format(time.RFC3339)] *)
Definition Format_RFC3339 (t : Time) : string :=
  let seconds := t / Second in
  let day := seconds / 86400 in
  let year := year_of day in
  let '(month, mday) := month_of 11 year 1 (day - days_before_year year) in
  let clock := seconds mod 86400 in
  padded 4 year +:+ "-" +:+ padded 2 month +:+ "-" +:+ padded 2 mday +:+ "T" +:+
  padded 2 (clock / 3600) +:+ ":" +:+ padded 2 (clock / 60 mod 60) +:+ ":" +:+
  padded 2 (clock mod 60) +:+ "Z".

Lemma Format_RFC3339_samples :
  Format_RFC3339 (time_Date 2026 6 24 12 0 0) = "2026-06-24T12:00:00Z" /\
  Format_RFC3339 (time_Date 2024 2 29 23 59 58) = "2024-02-29T23:59:58Z" /\
  Format_RFC3339 (time_Date 1999 12 31 0 0 1) = "1999-12-31T00:00:01Z" /\
  time_Date 1970 1 1 0 0 0 = 62135596800 * Second.
Proof. vm_compute. done. Qed.
