(* ===== verification/GoPath.v ===== *)
(** * Go's [path] package

    [path.Clean] and [path.IsAbs] on slash-separated paths.  [Clean] resolves
    the elements of the path one by one: empty and dot elements vanish, a
    dot-dot element removes the element before it, and stays only at the front
    of a relative path. *)

From stdpp Require Import strings list.
From Stdlib Require Import Ascii String Lia.
From S2P Require Import Prelude GoString.

#[local] Open Scope nat_scope.

Definition slash : ascii := "/"%char.

(** The elements between the slashes. *)
Fixpoint split_slash (s : string) : list string :=
  match s with
  | EmptyString => [EmptyString]
  | String c rest =>
      if Ascii.eqb c slash then EmptyString :: split_slash rest
      else match split_slash rest with
      | [] => [String c EmptyString]
      | e :: es => String c e :: es
      end
  end.

Definition path_IsAbs (s : string) : bool := HasPrefix s "/".

(** [stack] is the output so far, last element first. *)
Fixpoint resolve (rooted : bool) (elements stack : list string) : list string :=
  match elements with
  | [] => stack
  | e :: rest =>
      if (e == "") || (e == ".") then resolve rooted rest stack
      else if e == ".." then
        match stack with
        | [] => resolve rooted rest (if rooted then [] else [".."])
        | top :: below =>
            if top == ".." then resolve rooted rest (".." :: stack)
            else resolve rooted rest below
        end
      else resolve rooted rest (e :: stack)
  end.

Definition path_Clean (s : string) : string :=
  let rooted := path_IsAbs s in
  let elements := reverse (resolve rooted (split_slash s) []) in
  let joined := String.concat "/" elements in
  if rooted then "/" +:+ joined
  else match elements with [] => "." | _ => joined end.

Definition no_slash (e : string) : bool := all_chars (fun c => negb (Ascii.eqb c slash)) e.

(** An element that names something below the current directory. *)
Definition plain (e : string) : bool := (e != "") && (e != ".") && (e != "..") && no_slash e.

Lemma split_slash_no_slash s : Forall (fun e => no_slash e = true) (split_slash s).
Proof.
  induction s as [|c s IH]; simpl; [by repeat constructor|].
  destruct (Ascii.eqb c slash) eqn:Hc; [by constructor|].
  destruct (split_slash s) as [|e es]; [by repeat constructor; unfold no_slash; simpl; rewrite Hc|].
  inversion IH; subst. constructor; [|done]. unfold no_slash in *. simpl. by rewrite Hc.
Qed.

(** A resolved stack: plain elements on top of dot-dot elements. *)
Definition resolved (stack : list string) : Prop :=
  exists ups names, stack = names ++ ups /\
    Forall (fun e => plain e = true) names /\ Forall (fun e => e = "..") ups.

Lemma resolved_push e stack : plain e = true -> resolved stack -> resolved (e :: stack).
Proof.
  intros He (ups & names & -> & Hn & Hu). exists ups, (e :: names). by repeat constructor.
Qed.

Lemma resolve_resolved rooted elements stack :
  Forall (fun e => no_slash e = true) elements -> resolved stack ->
  resolved (resolve rooted elements stack).
Proof.
  intros He. revert stack. induction He as [|e es Hns He IH]; simpl; [done|].
  intros stack Hs. destruct (e == "") eqn:H1; simpl; [by apply IH|].
  destruct (e == ".") eqn:H2; simpl; [by apply IH|].
  destruct (e == "..") eqn:H3.
  - destruct stack as [|top below].
    { apply IH. destruct rooted; [by exists [], []|]. exists [".."], []. by repeat constructor. }
    destruct Hs as (ups & names & Heq & Hn & Hu).
    destruct (top == "..") eqn:Ht; go_simp; apply IH.
    + destruct names as [|name names]; simplify_list_eq.
      * exists (".." :: ".." :: below), []. by repeat constructor; inversion Hu.
      * inversion Hn as [|? ? Hp _]; subst. done.
    + destruct names as [|name names]; simplify_list_eq.
      * inversion Hu; subst. done.
      * exists ups, names. inversion Hn; subst. done.
  - apply IH. apply resolved_push; [|done]. unfold plain. by rewrite H1, H2, H3, Hns.
Qed.

(** Joining elements keeps the first element's prefix. *)
Lemma concat_cons_cons e f es :
  String.concat "/" (e :: f :: es) = e +:+ ("/" +:+ String.concat "/" (f :: es)).
Proof. done. Qed.

(** What a clean relative path looks like: some dot-dot elements, then plain
    ones. *)
Lemma path_Clean_relative s :
  path_IsAbs s = false -> path_Clean s = s -> s <> "." ->
  exists ups names, s = String.concat "/" (ups ++ names) /\ ups ++ names <> [] /\
    Forall (fun e => e = "..") ups /\ Forall (fun e => plain e = true) names.
Proof.
  intros Habs Hc Hdot. unfold path_Clean in Hc. rewrite Habs in Hc.
  destruct (resolve_resolved false (split_slash s) []) as (ups & names & Heq & Hn & Hu).
  { apply split_slash_no_slash. }
  { by exists [], []. }
  exists (reverse ups), (reverse names). rewrite Heq, reverse_app in Hc.
  destruct (reverse ups ++ reverse names) as [|e es] eqn:He; [congruence|].
  split; [done|]. split; [done|]. by rewrite !Forall_reverse.
Qed.

Lemma clean_below s :
  path_IsAbs s = false -> path_Clean s = s -> s <> "." -> HasPrefix s "../" = false ->
  s = ".." \/ exists names, s = String.concat "/" names /\ names <> [] /\
    Forall (fun e => plain e = true) names.
Proof.
  intros Habs Hc Hdot Hpre.
  destruct (path_Clean_relative s Habs Hc Hdot) as (ups & names & -> & Hne & Hu & Hn).
  destruct ups as [|up ups]; [right; by exists names|].
  inversion Hu; subst. rewrite <- app_comm_cons in Hpre |- *.
  destruct (ups ++ names) as [|e es]; [by left|].
  exfalso. rewrite concat_cons_cons in Hpre.
  change (HasPrefix ("../" +:+ String.concat "/" (e :: es)) "../" = false) in Hpre.
  by rewrite HasPrefix_app in Hpre.
Qed.

(** The converse: a path of plain names is already clean. *)
Lemma split_slash_element e : no_slash e = true -> split_slash e = [e].
Proof.
  induction e as [|c e IH]; [done|]. unfold no_slash in *. cbn.
  intros [Hc He]%andb_true_iff. apply negb_true_iff in Hc. by rewrite Hc, IH.
Qed.

Lemma split_slash_app e s : no_slash e = true ->
  split_slash (e +:+ ("/" +:+ s)) = e :: split_slash s.
Proof.
  induction e as [|c e IH]; [done|]. unfold no_slash in *. rewrite string_app_cons. cbn.
  intros [Hc He]%andb_true_iff. apply negb_true_iff in Hc. by rewrite Hc, IH.
Qed.

Lemma plain_no_slash e : plain e = true -> no_slash e = true.
Proof. unfold plain. by intros []%andb_true_iff. Qed.

Lemma split_slash_concat names :
  names <> [] -> Forall (fun e => plain e = true) names ->
  split_slash (String.concat "/" names) = names.
Proof.
  intros Hne Hn. induction Hn as [|e es He Hes IH]; [done|].
  destruct es as [|f es].
  - apply split_slash_element. by apply plain_no_slash.
  - rewrite concat_cons_cons, split_slash_app by (by apply plain_no_slash). by rewrite IH.
Qed.

Lemma resolve_plain rooted names stack :
  Forall (fun e => plain e = true) names ->
  resolve rooted names stack = reverse names ++ stack.
Proof.
  intros Hn. revert stack. induction Hn as [|e es He Hes IH]; intros stack; [done|].
  unfold plain in He. go_simp. cbn [resolve].
  rewrite (proj2 (String.eqb_neq e "")), (proj2 (String.eqb_neq e ".")),
    (proj2 (String.eqb_neq e "..")) by done.
  cbn [orb]. by rewrite IH, reverse_cons, <- app_assoc.
Qed.

Lemma HasPrefix_cons c s d p :
  HasPrefix (String c s) (String d p) = true -> d = c /\ HasPrefix s p = true.
Proof. unfold HasPrefix. cbn. by destruct (ascii_dec d c). Qed.

Lemma first_element s e es :
  split_slash s = e :: es -> e <> "" -> e <> "." -> e <> ".." ->
  path_IsAbs s = false /\ s <> "." /\ HasPrefix s "../" = false.
Proof.
  intros Hs He Hdot Hup. unfold path_IsAbs. split; [|split].
  - destruct (HasPrefix s "/") eqn:Hp; [|done].
    destruct s as [|c s]; [discriminate Hp|].
    apply HasPrefix_cons in Hp as [<- _]. cbn in Hs. by simplify_eq.
  - intros ->. cbn in Hs. by simplify_eq.
  - destruct (HasPrefix s "../") eqn:Hp; [|done].
    do 3 (destruct s as [|? s]; [discriminate Hp|]; apply HasPrefix_cons in Hp as [<- Hp]).
    cbn in Hs. by simplify_eq.
Qed.

Lemma concat_plain_first names :
  names <> [] -> Forall (fun e => plain e = true) names ->
  path_IsAbs (String.concat "/" names) = false /\
  String.concat "/" names <> "." /\ HasPrefix (String.concat "/" names) "../" = false.
Proof.
  intros Hne Hn. pose proof (split_slash_concat names Hne Hn) as Hs.
  destruct Hn as [|e es He Hes]; [done|].
  unfold plain in He. go_simp. by apply (first_element _ e es).
Qed.

(** A relative path is clean and stays below the current directory exactly when
    it is made of plain names, the parent directory apart. *)
Lemma clean_below_iff s :
  (path_IsAbs s = false /\ path_Clean s = s /\ s <> "." /\ HasPrefix s "../" = false) <->
  (s = ".." \/ exists names, s = String.concat "/" names /\ names <> [] /\
    Forall (fun e => plain e = true) names).
Proof.
  split.
  - intros (? & ? & ? & ?). by apply clean_below.
  - intros [->|(names & -> & Hne & Hn)]; [by vm_compute|].
    destruct (concat_plain_first names Hne Hn) as (Habs & Hdot & Hup).
    repeat (split; [done|]). split; [|done].
    unfold path_Clean. rewrite Habs, split_slash_concat, resolve_plain by done.
    rewrite app_nil_r, reverse_involutive. by destruct names.
Qed.
