(* ===== verification/GoSha256.v ===== *)
(** * Go's [crypto/sha256] and [encoding/hex]

    The SHA-256 function of FIPS 180-4 on byte strings, executable, and the
    hexadecimal encoding of its digest.  Words are 32-bit integers. *)

From stdpp Require Import strings list.
From Stdlib Require Import ZArith Ascii Lia.
From S2P Require Import Prelude GoString.

#[local] Open Scope Z_scope.

Definition w32 (z : Z) : Z := Z.land z 4294967295.
Definition add32 (a b : Z) : Z := w32 (a + b).
Definition rotr (n x : Z) : Z := Z.lor (Z.shiftr x n) (w32 (Z.shiftl x (32 - n))).

Definition sigma0 (x : Z) : Z := Z.lxor (Z.lxor (rotr 7 x) (rotr 18 x)) (Z.shiftr x 3).
Definition sigma1 (x : Z) : Z := Z.lxor (Z.lxor (rotr 17 x) (rotr 19 x)) (Z.shiftr x 10).
Definition Sigma0 (x : Z) : Z := Z.lxor (Z.lxor (rotr 2 x) (rotr 13 x)) (rotr 22 x).
Definition Sigma1 (x : Z) : Z := Z.lxor (Z.lxor (rotr 6 x) (rotr 11 x)) (rotr 25 x).
Definition Ch (x y z : Z) : Z := Z.lxor (Z.land x y) (Z.land (Z.lxor x 4294967295) z).
Definition Maj (x y z : Z) : Z := Z.lxor (Z.lxor (Z.land x y) (Z.land x z)) (Z.land y z).

(** The constants of the standard are the first 32 bits of the fractional parts
    of roots of the first primes.  [root k n] is the integer k-th root of [n],
    found bit by bit. *)
Fixpoint root (bits : nat) (k n r : Z) : Z :=
  match bits with
  | O => r
  | S bits =>
      let r' := Z.setbit r (Z.of_nat bits) in
      root bits k n (if r' ^ k <=? n then r' else r)
  end.

Definition root_fraction (k p : Z) : Z := w32 (root 40 k (Z.shiftl p (32 * k)) 0).

Definition is_prime (n : Z) : bool :=
  forallb (fun d => negb (n mod Z.of_nat d =? 0)) (seq 2 (Z.to_nat n - 2)).

Definition first_primes : list Z :=
  Eval vm_compute in List.filter is_prime (List.map Z.of_nat (seq 2 310)).

Definition round_constants : list Z :=
  Eval vm_compute in List.map (root_fraction 3) first_primes.

Record hash_state := HS { ha : Z; hb : Z; hc : Z; hd : Z; he : Z; hf : Z; hg : Z; hh : Z }.

Definition initial_state : hash_state :=
  Eval vm_compute in
  let h i := root_fraction 2 (nth i first_primes 0) in
  HS (h 0%nat) (h 1%nat) (h 2%nat) (h 3%nat) (h 4%nat) (h 5%nat) (h 6%nat) (h 7%nat).

Definition hash_round (s : hash_state) (kw : Z * Z) : hash_state :=
  let t1 := w32 (hh s + Sigma1 (he s) + Ch (he s) (hf s) (hg s) + kw.1 + kw.2) in
  let t2 := add32 (Sigma0 (ha s)) (Maj (ha s) (hb s) (hc s)) in
  HS (add32 t1 t2) (ha s) (hb s) (hc s) (add32 (hd s) t1) (he s) (hf s) (hg s).

(** The message schedule, latest word first. *)
Fixpoint schedule (n : nat) (rev : list Z) : list Z :=
  match n with
  | O => rev
  | S n =>
      let w i := nth i rev 0 in
      schedule n (w32 (sigma1 (w 1%nat) + w 6%nat + sigma0 (w 14%nat) + w 15%nat) :: rev)
  end.

Definition compress (s : hash_state) (block : list Z) : hash_state :=
  let words := reverse (schedule 48 (reverse block)) in
  let r := foldl hash_round s (zip round_constants words) in
  HS (add32 (ha s) (ha r)) (add32 (hb s) (hb r)) (add32 (hc s) (hc r)) (add32 (hd s) (hd r))
     (add32 (he s) (he r)) (add32 (hf s) (hf r)) (add32 (hg s) (hg r)) (add32 (hh s) (hh r)).

(** [n] bytes of [z], most significant first. *)
Fixpoint be_bytes (n : nat) (z : Z) : list Z :=
  match n with
  | O => []
  | S m => Z.land (Z.shiftr z (8 * Z.of_nat m)) 255 :: be_bytes m z
  end.

Fixpoint be_words (bytes : list Z) : list Z :=
  match bytes with
  | a :: b :: c :: d :: rest =>
      Z.shiftl a 24 + Z.shiftl b 16 + Z.shiftl c 8 + d :: be_words rest
  | _ => []
  end.

Fixpoint string_bytes (s : string) : list Z :=
  match s with
  | EmptyString => []
  | String c rest => Z.of_N (N_of_ascii c) :: string_bytes rest
  end.

Definition pad (message : list Z) : list Z :=
  let n := Z.of_nat (length message) in
  message ++ [128] ++ repeat 0 (Z.to_nat ((55 - n) mod 64)) ++ be_bytes 8 (8 * n).

Fixpoint digest_blocks (fuel : nat) (words : list Z) (s : hash_state) : hash_state :=
  match fuel with
  | O => s
  | S fuel =>
      match words with
      | [] => s
      | _ => digest_blocks fuel (drop 16 words) (compress s (take 16 words))
      end
  end.

(** [sha256.Sum256]; a block takes sixteen of the words. *)
Definition Sum256 (message : string) : list Z :=
  let words := be_words (pad (string_bytes message)) in
  let s := digest_blocks (length words) words initial_state in
  flat_map (be_bytes 4) [ha s; hb s; hc s; hd s; he s; hf s; hg s; hh s].

(** ** Hexadecimal *)

Definition hex_digit (z : Z) : ascii :=
  let n := Z.to_nat (Z.land z 15) in
  ascii_of_nat (if (n <? 10)%nat then 48 + n else 87 + n)%nat.

Fixpoint EncodeToString (bytes : list Z) : string :=
  match bytes with
  | [] => EmptyString
  | b :: rest => String (hex_digit (Z.shiftr b 4)) (String (hex_digit b) (EncodeToString rest))
  end.

(** [hex.EncodeToString(hash.Sum(nil))] of a hash that was written [message]. *)
Definition sha256_hex (message : string) : string := EncodeToString (Sum256 message).

Example sha256_abc :
  sha256_hex "abc" = "ba7816bf8f01cfea414140de5dae2223b00361a396177a9cb410ff61f20015ad".
Proof. vm_compute. reflexivity. Qed.

Example sha256_empty :
  sha256_hex "" = "e3b0c44298fc1c149afbf4c8996fb92427ae41e4649b934ca495991b7852b855".
Proof. vm_compute. reflexivity. Qed.

Example sha256_two_blocks :
  sha256_hex "abcdbcdecdefdefgefghfghighijhijkijkljklmklmnlmnomnopnopq" =
  "248d6a61d20638b8e5c026930c3e6039a33ce45964ff2167f6ecedd419db06c1".
Proof. vm_compute. reflexivity. Qed.

(** ** Shape of digests *)

Lemma be_bytes_length n z : length (be_bytes n z) = n.
Proof. induction n; simpl; auto. Qed.

Lemma Sum256_length message : length (Sum256 message) = 32%nat.
Proof. done. Qed.

(** A byte of a Go [[]byte]. *)
Definition is_byte (b : Z) : Prop := 0 <= b < 256.

Lemma land_byte z : is_byte (Z.land z 255).
Proof.
  unfold is_byte. change 255 with (Z.ones 8). rewrite Z.land_ones by lia.
  apply Z.mod_pos_bound. lia.
Qed.

Lemma be_bytes_bytes n z : Forall is_byte (be_bytes n z).
Proof. induction n; simpl; constructor; [apply land_byte|done]. Qed.

Lemma Sum256_bytes message : Forall is_byte (Sum256 message).
Proof.
  unfold Sum256. generalize (digest_blocks (length (be_words (pad (string_bytes message))))
    (be_words (pad (string_bytes message))) initial_state).
  intros s. cbn [flat_map]. rewrite !Forall_app. repeat split; try apply be_bytes_bytes.
  constructor.
Qed.

Lemma hex_digit_is_hex z : is_hex_lower (hex_digit z) = true.
Proof.
  unfold hex_digit. assert (0 <= Z.land z 15 < 16) as Hz.
  { replace 15 with (Z.ones 4) by done. rewrite Z.land_ones by lia. apply Z.mod_pos_bound. lia. }
  generalize dependent (Z.land z 15). intros n Hn.
  assert (exists k, n = Z.of_nat k /\ (k < 16)%nat) as (k & -> & Hk)
    by (exists (Z.to_nat n); lia).
  rewrite Nat2Z.id. do 16 (destruct k as [|k]; [done|]). lia.
Qed.

Lemma EncodeToString_hex bytes : all_chars is_hex_lower (EncodeToString bytes) = true.
Proof. induction bytes; simpl; [done|]. by rewrite !hex_digit_is_hex. Qed.

Lemma EncodeToString_len bytes : len (EncodeToString bytes) = (2 * length bytes)%nat.
Proof. unfold len in *. induction bytes; simpl; lia. Qed.

Lemma sha256_hex_len message : len (sha256_hex message) = 64%nat.
Proof. unfold sha256_hex. by rewrite EncodeToString_len, Sum256_length. Qed.

Lemma sha256_hex_hex message : all_chars is_hex_lower (sha256_hex message) = true.
Proof. apply EncodeToString_hex. Qed.

(** Two messages with one digest. *)
Definition collision (a b : string) : Prop := a <> b /\ sha256_hex a = sha256_hex b.

Lemma sha256_hex_inj_or a b : sha256_hex a = sha256_hex b -> a = b \/ collision a b.
Proof.
  intros H. destruct (decide (a = b)) as [?|Hn]; [by left|]. by right.
Qed.

Lemma hex_digit_inj a b : 0 <= a < 16 -> 0 <= b < 16 -> hex_digit a = hex_digit b -> a = b.
Proof.
  intros Ha Hb H.
  assert (forallb (fun i => forallb (fun j =>
    implb (Ascii.eqb (hex_digit (Z.of_nat i)) (hex_digit (Z.of_nat j))) (i =? j)%nat)
    (seq 0 16)) (seq 0 16) = true) as Hall by (vm_compute; reflexivity).
  rewrite forallb_forall in Hall. specialize (Hall (Z.to_nat a)). rewrite in_seq in Hall.
  specialize (Hall ltac:(lia)). rewrite forallb_forall in Hall.
  specialize (Hall (Z.to_nat b)). rewrite in_seq in Hall. specialize (Hall ltac:(lia)).
  rewrite !Z2Nat.id, H, Ascii.eqb_refl in Hall by lia. simpl in Hall.
  apply Nat.eqb_eq in Hall. lia.
Qed.

Lemma hex_digit_mod z : hex_digit z = hex_digit (z mod 16).
Proof.
  unfold hex_digit. change 15 with (Z.ones 4). rewrite !Z.land_ones by lia.
  by rewrite Z.mod_mod.
Qed.

Lemma EncodeToString_inj a b :
  Forall is_byte a -> Forall is_byte b -> EncodeToString a = EncodeToString b -> a = b.
Proof.
  unfold is_byte. intros Ha. revert b. induction Ha as [|x a Hx Ha IH]; intros b Hb;
    destruct Hb as [|y b Hy Hb]; cbn; try done.
  intros [= H1 H2 H]. f_equal; [|by apply IH].
  rewrite hex_digit_mod, (hex_digit_mod y) in H2. rewrite !Z.shiftr_div_pow2 in H1 by lia.
  change (2 ^ 4) with 16 in H1.
  apply hex_digit_inj in H2; [|apply Z.mod_pos_bound; lia..].
  apply hex_digit_inj in H1; [|split; [apply Z.div_pos; lia|apply Z.div_lt_upper_bound; lia]..].
  rewrite (Z.div_mod x 16), (Z.div_mod y 16) by lia. lia.
Qed.

Lemma Sum256_inj_or a b : Sum256 a = Sum256 b -> a = b \/ collision a b.
Proof. intros H. apply sha256_hex_inj_or. unfold sha256_hex. by rewrite H. Qed.

(** Proofs about digests use the lemmas above, never the rounds. *)
#[global] Opaque Sum256 sha256_hex.
