(* ===== verification/GoCrypto.v ===== *)
(** * Byte strings, HMAC and base64

    Go's [[]byte] is a list of integers below 256.  [crypto/hmac] over SHA-256,
    [base64.RawURLEncoding] and the big-endian integers of [encoding/binary]. *)

From stdpp Require Import strings list.
From Stdlib Require Import ZArith Ascii Lia.
From S2P Require Import Prelude GoString GoTime GoSha256.

#[local] Open Scope Z_scope.

(** ** Strings as bytes *)

Fixpoint bytes_string (bytes : list Z) : string :=
  match bytes with
  | [] => EmptyString
  | b :: rest => String (ascii_of_N (Z.to_N b)) (bytes_string rest)
  end.

Lemma string_bytes_bytes_string bytes :
  Forall is_byte bytes -> string_bytes (bytes_string bytes) = bytes.
Proof.
  unfold is_byte. induction 1 as [|b bytes Hb _ IH]; [done|]. cbn.
  rewrite IH, N_ascii_embedding by lia. f_equal. lia.
Qed.

Lemma bytes_string_inj a b :
  Forall is_byte a -> Forall is_byte b -> bytes_string a = bytes_string b -> a = b.
Proof.
  intros Ha Hb H. by rewrite <- (string_bytes_bytes_string a), H, string_bytes_bytes_string.
Qed.

Lemma string_bytes_bytes s : Forall is_byte (string_bytes s).
Proof.
  induction s as [|c s IH]; cbn; constructor; [|done].
  unfold is_byte. pose proof (N_ascii_bounded c). lia.
Qed.

Lemma string_bytes_inj s t : string_bytes s = string_bytes t -> s = t.
Proof.
  revert t. induction s as [|c s IH]; intros [|d t]; cbn; try done.
  intros [= Hc Ht]. f_equal; [|by apply IH].
  rewrite <- (ascii_N_embedding c), <- (ascii_N_embedding d). f_equal. lia.
Qed.

(** [sha256.Sum256] of a byte string. *)
Definition Sum256_bytes_of (bytes : list Z) : list Z := Sum256 (bytes_string bytes).

(** ** HMAC

    A key longer than the 64-byte block is hashed first; keys are padded with
    zeros. *)

Definition hmac_pad (key : list Z) (mask : Z) : list Z :=
  let key := if (64 <? length key)%nat then Sum256_bytes_of key else key in
  List.map (Z.lxor mask) (key ++ repeat 0 (64 - length key)).

Definition hmac_sha256 (key message : list Z) : list Z :=
  Sum256_bytes_of (hmac_pad key 92 ++ Sum256_bytes_of (hmac_pad key 54 ++ message)).

Lemma lxor_byte a b : is_byte a -> is_byte b -> is_byte (Z.lxor a b).
Proof.
  unfold is_byte. intros Ha Hb. split; [by apply Z.lxor_nonneg; lia|].
  destruct (Z.eq_dec (Z.lxor a b) 0) as [->|Hne]; [lia|].
  change 256 with (2 ^ 8). apply Z.log2_lt_pow2.
  { pose proof (proj2 (Z.lxor_nonneg a b)). lia. }
  pose proof (Z.log2_lxor a b ltac:(lia) ltac:(lia)).
  assert (Z.log2 a < 8 /\ Z.log2 b < 8) as [? ?].
  { split; [destruct (Z.eq_dec a 0) as [->|]|destruct (Z.eq_dec b 0) as [->|]]; try done;
      apply Z.log2_lt_pow2; lia. }
  lia.
Qed.

Lemma hmac_pad_bytes key mask :
  is_byte mask -> Forall is_byte key -> Forall is_byte (hmac_pad key mask).
Proof.
  intros Hm Hk. unfold hmac_pad. apply Forall_fmap.
  apply Forall_impl with (P := is_byte); [|intros b; by apply lxor_byte].
  apply Forall_app. split.
  - case_match; [apply Sum256_bytes|done].
  - apply Forall_forall. intros b Hb%list_elem_of_In%repeat_spec. subst. done.
Qed.

(** The two texts an HMAC hashes. *)
Definition hmac_inner (key message : list Z) : string :=
  bytes_string (hmac_pad key 54 ++ message).
Definition hmac_outer (key message : list Z) : string :=
  bytes_string (hmac_pad key 92 ++ Sum256 (hmac_inner key message)).

(** A SHA-256 collision of the texts hashed for these two messages. *)
Definition hmac_collision (key a b : list Z) : Prop :=
  collision (hmac_inner key a) (hmac_inner key b) \/
  collision (hmac_outer key a) (hmac_outer key b).

(** Two messages with one HMAC under one key are equal, or the texts hashed
    for them collide. *)
Lemma hmac_inj_or key a b :
  Forall is_byte key -> Forall is_byte a -> Forall is_byte b ->
  hmac_sha256 key a = hmac_sha256 key b -> a = b \/ hmac_collision key a b.
Proof.
  intros Hk Ha Hb H. unfold hmac_sha256, Sum256_bytes_of in H.
  apply Sum256_inj_or in H as [H|]; [|by right; right].
  apply bytes_string_inj in H;
    [|apply Forall_app; split; [by apply hmac_pad_bytes|apply Sum256_bytes]..].
  apply app_inv_head, Sum256_inj_or in H as [H|]; [|by right; left].
  apply bytes_string_inj in H;
    [|apply Forall_app; split; [by apply hmac_pad_bytes|done]..].
  left. by apply app_inv_head in H.
Qed.

Lemma hmac_length key message : length (hmac_sha256 key message) = 32%nat.
Proof. apply Sum256_length. Qed.

Lemma hmac_bytes key message : Forall is_byte (hmac_sha256 key message).
Proof. apply Sum256_bytes. Qed.

(** The second test case of RFC 4231. *)
Example hmac_sha256_jefe :
  EncodeToString (hmac_sha256 (string_bytes "Jefe")
    (string_bytes "what do ya want for nothing?")) =
  "5bdcc146bf60754e6a042426089575c75a003f089d2739839dec58b964ec3843".
Proof. vm_compute. reflexivity. Qed.

(** ** Big-endian integers *)

Definition be_value (bytes : list Z) : Z := foldl (fun acc b => acc * 256 + b) 0 bytes.

Lemma be_value_app acc bytes :
  foldl (fun acc b => acc * 256 + b) acc bytes =
  acc * 256 ^ Z.of_nat (length bytes) + be_value bytes.
Proof.
  unfold be_value. revert acc. induction bytes as [|b bytes IH]; intros acc; cbn [foldl length].
  - change (Z.of_nat 0) with 0. lia.
  - rewrite (IH (acc * 256 + b)), (IH (0 * 256 + b)), Nat2Z.inj_succ, Z.pow_succ_r by lia. lia.
Qed.

Lemma be_value_bytes n z : be_value (be_bytes n z) = z mod 256 ^ Z.of_nat n.
Proof.
  induction n as [|n IH]; [by rewrite Z.mod_1_r|]. cbn [be_bytes].
  unfold be_value. cbn [foldl]. rewrite be_value_app, IH, be_bytes_length.
  change 255 with (Z.ones 8). rewrite Z.land_ones, Z.shiftr_div_pow2 by lia.
  replace (2 ^ (8 * Z.of_nat n)) with (256 ^ Z.of_nat n)
    by (change 256 with (2 ^ 8); by rewrite <- Z.pow_mul_r by lia).
  change (2 ^ 8) with 256. rewrite Nat2Z.inj_succ, Z.pow_succ_r by lia.
  rewrite (Z.mul_comm 256), Z.rem_mul_r by (try apply Z.pow_nonzero; lia). lia.
Qed.

(** [binary.Write] and [binary.Read] of an [int64] in big-endian order. *)
Definition put_int64 (z : Z) : list Z := be_bytes 8 z.
Definition get_int64 (bytes : list Z) : Z := int64_wrap (be_value bytes).

Lemma put_int64_bytes z : Forall is_byte (put_int64 z).
Proof. apply be_bytes_bytes. Qed.

Lemma get_put_int64 z : is_int64 z -> get_int64 (put_int64 z) = z.
Proof.
  intros Hz. unfold get_int64, put_int64. rewrite be_value_bytes.
  change (256 ^ Z.of_nat 8) with 18446744073709551616.
  rewrite <- (int64_wrap_id z) at 2 by done. unfold int64_wrap. f_equal.
  by rewrite Zminus_mod_idemp_l.
Qed.

(** ** [base64.RawURLEncoding]

    The decoder ignores carriage returns and line feeds and does not look at
    the unused bits of a partial last group. *)

Definition b64_char (n : Z) : ascii :=
  ascii_of_N (Z.to_N (
    if n <? 26 then 65 + n else if n <? 52 then 71 + n else if n <? 62 then n - 4
    else if n =? 62 then 45 else 95)).

Definition b64_value (c : ascii) : option Z :=
  let n := Z.of_N (N_of_ascii c) in
  if (65 <=? n) && (n <=? 90) then Some (n - 65)
  else if (97 <=? n) && (n <=? 122) then Some (n - 71)
  else if (48 <=? n) && (n <=? 57) then Some (n + 4)
  else if n =? 45 then Some 62 else if n =? 95 then Some 63 else None.

Fixpoint b64_encode (bytes : list Z) : string :=
  match bytes with
  | a :: b :: c :: rest =>
      String (b64_char (a / 4)) (String (b64_char (a mod 4 * 16 + b / 16))
        (String (b64_char (b mod 16 * 4 + c / 64)) (String (b64_char (c mod 64))
          (b64_encode rest))))
  | [a; b] =>
      String (b64_char (a / 4)) (String (b64_char (a mod 4 * 16 + b / 16))
        (String (b64_char (b mod 16 * 4)) EmptyString))
  | [a] => String (b64_char (a / 4)) (String (b64_char (a mod 4 * 16)) EmptyString)
  | [] => EmptyString
  end.

Fixpoint b64_strip (s : string) : string :=
  match s with
  | EmptyString => EmptyString
  | String c rest =>
      if is_char 10 c || is_char 13 c then b64_strip rest else String c (b64_strip rest)
  end.

Fixpoint b64_groups (s : string) : option (list Z) :=
  match s with
  | EmptyString => Some []
  | String w (String x (String y (String z rest))) =>
      w ← b64_value w; x ← b64_value x; y ← b64_value y; z ← b64_value z;
      bytes ← b64_groups rest;
      Some (w * 4 + x / 16 :: x mod 16 * 16 + y / 4 :: y mod 4 * 64 + z :: bytes)
  | String w (String x (String y EmptyString)) =>
      w ← b64_value w; x ← b64_value x; y ← b64_value y;
      Some [w * 4 + x / 16; x mod 16 * 16 + y / 4]
  | String w (String x EmptyString) =>
      w ← b64_value w; x ← b64_value x; Some [w * 4 + x / 16]
  | String _ EmptyString => None
  end.

Definition b64_decode (s : string) : option (list Z) := b64_groups (b64_strip s).

Lemma b64_char_spec n : 0 <= n < 64 ->
  b64_value (b64_char n) = Some n /\ (is_char 10 (b64_char n) || is_char 13 (b64_char n)) = false.
Proof.
  intros Hn.
  assert (forallb (fun i => let c := b64_char (Z.of_nat i) in
    bool_decide (b64_value c = Some (Z.of_nat i)) && negb (is_char 10 c || is_char 13 c))
    (seq 0 64) = true) as Hall by (vm_compute; reflexivity).
  rewrite forallb_forall in Hall. specialize (Hall (Z.to_nat n)). rewrite in_seq, Z2Nat.id in Hall
    by lia. specialize (Hall ltac:(lia)). cbv zeta in Hall.
  apply andb_true_iff in Hall as [H1 H2]. apply bool_decide_eq_true in H1.
  by apply negb_true_iff in H2.
Qed.

(** Lists in steps of three. *)
Lemma three_ind {A} (P : list A -> Prop) :
  P [] -> (forall a, P [a]) -> (forall a b, P [a; b]) ->
  (forall a b c rest, P rest -> P (a :: b :: c :: rest)) -> forall xs, P xs.
Proof.
  intros H0 H1 H2 H3. fix IH 1. intros [|a [|b [|c rest]]];
    [exact H0|apply H1|apply H2|apply H3, IH].
Qed.

Lemma b64_round_trip bytes : Forall is_byte bytes -> b64_decode (b64_encode bytes) = Some bytes.
Proof.
  unfold b64_decode, is_byte. induction bytes as [|a|a b|a b c rest IH] using three_ind;
    intros H; cbn [b64_encode b64_strip]; decompose_Forall_hyps; [done|..].
  all: repeat match goal with
    | |- context [b64_strip (String (b64_char ?n) _)] =>
        cbn [b64_strip]; rewrite (proj2 (b64_char_spec n ltac:(Z.to_euclidean_division_equations; lia)))
    | |- context [is_char 10 (b64_char ?n)] =>
        rewrite (proj2 (b64_char_spec n ltac:(Z.to_euclidean_division_equations; lia)))
    end; cbn [b64_groups b64_strip].
  all: repeat match goal with
    | |- context [b64_value (b64_char ?n)] =>
        rewrite (proj1 (b64_char_spec n ltac:(Z.to_euclidean_division_equations; lia)))
    end; cbn.
  3: rewrite IH by done; cbn.
  all: repeat f_equal; Z.to_euclidean_division_equations; lia.
Qed.

Lemma b64_encode_len bytes :
  (3 * len (b64_encode bytes) <= 4 * length bytes + 2)%nat.
Proof. unfold len. induction bytes using three_ind; cbn [b64_encode String.length length]; lia. Qed.

Lemma b64_encode_nonempty bytes : bytes <> [] -> b64_encode bytes <> "".
Proof. by destruct bytes as [|? [|? [|? ?]]]. Qed.
