(* ===== verification/IamTypes.v ===== *)
(** * Package [iam]: data

    The types of [pkg/iam/types.go].  String-valued enumerations stay strings,
    because the code distinguishes unknown values from known ones. *)

From stdpp Require Import gmap strings list fin_maps.
From Stdlib Require Import ZArith.
From S2P Require Import Prelude GoString GoTime.

(** ** Sentinel errors *)

Definition ErrUnknownPrincipal := errors_New "iam: unknown principal".
Definition ErrUnknownAction := errors_New "iam: unknown action".
Definition ErrUnknownTenant := errors_New "iam: unknown tenant".
Definition ErrUnknownProject := errors_New "iam: unknown project".
Definition ErrCrossTenant := errors_New "iam: cross-tenant access denied".
Definition ErrObjectScope := errors_New "iam: object scope denied".
Definition ErrTenantSuspended := errors_New "iam: tenant suspended".
Definition ErrTenantDeleting := errors_New "iam: tenant deleting".
Definition ErrTenantState := errors_New "iam: invalid tenant lifecycle state".
Definition ErrLastOwner := errors_New "iam: last owner removal denied".
Definition ErrReasonRequired := errors_New "iam: explicit reason required".
Definition ErrTicketRequired := errors_New "iam: support ticket reference required".
Definition ErrAuditRequired := errors_New "iam: durable audit required".
Definition ErrTokenExpired := errors_New "iam: api token expired".
Definition ErrTokenRevoked := errors_New "iam: api token revoked".
Definition ErrTokenScope := errors_New "iam: api token scope denied".
Definition ErrSupportGrant := errors_New "iam: support grant denied".
Definition ErrRoleDenied := errors_New "iam: role denied".
Definition ErrAuthentication := errors_New "iam: trusted authentication evidence required".
Definition ErrMFARequired := errors_New "iam: multi-factor assurance required".
Definition ErrSessionAssurance := errors_New "iam: fresh session assurance required".
Definition ErrBreakGlass := errors_New "iam: break-glass context required".
Definition ErrTargetPrincipal :=
  errors_New "iam: target principal is not an owner of the project".

(** ** Enumerations *)

Definition Action : Type := string.
Definition ActionProjectRead : Action := "project.read".
Definition ActionProjectWrite : Action := "project.write".
Definition ActionProjectManage : Action := "project.manage".
Definition ActionOwnerRemove : Action := "owner.remove".
Definition ActionTenantExport : Action := "tenant.export".
Definition ActionTenantRecover : Action := "tenant.recover".

Definition Role : Type := string.
Definition RoleOwner : Role := "owner".
Definition RoleTenantAdmin : Role := "tenant_admin".
Definition RoleTenantViewer : Role := "tenant_viewer".
Definition RoleSupport : Role := "support".
Definition RolePlatformAdmin : Role := "platform_admin".

Definition TenantState : Type := string.
Definition TenantStateActive : TenantState := "active".
Definition TenantStateSuspended : TenantState := "suspended".
Definition TenantStateDeleting : TenantState := "deleting".
Definition TenantStateRecovering : TenantState := "recovering".
Definition TenantStateExporting : TenantState := "exporting".

Definition AuditResult : Type := string.
Definition AuditResultAllow : AuditResult := "allow".
Definition AuditResultDeny : AuditResult := "deny".

Definition CredentialClass : Type := string.
Definition CredentialClassInteractiveSession : CredentialClass := "interactive_session".
Definition CredentialClassShortLivedAPIToken : CredentialClass := "short_lived_api_token".
Definition CredentialClassSupportGrant : CredentialClass := "support_grant".
Definition CredentialClassBreakGlass : CredentialClass := "break_glass".

Definition MFAMethodClass : Type := string.
Definition MFAMethodNone : MFAMethodClass := "none".
Definition MFAMethodTOTP : MFAMethodClass := "totp".
Definition MFAMethodWebAuthn : MFAMethodClass := "webauthn".
Definition MFAMethodHardwareKey : MFAMethodClass := "hardware_key".
Definition MFAMethodExternalIDP : MFAMethodClass := "external_idp".

Definition SessionState : Type := string.
Definition SessionStateFresh : SessionState := "fresh".
Definition SessionStateStale : SessionState := "stale".
Definition SessionStateAbsent : SessionState := "absent".
Definition SessionStateRevoked : SessionState := "revoked".

(** ** Authentication evidence *)

Record MFAAssurance := {
  mfa_Required : bool;
  mfa_Satisfied : bool;
  mfa_MethodClass : MFAMethodClass
}.

Record SessionAssurance := {
  sa_State : SessionState;
  sa_MaxAgeSeconds : Z;
  sa_ReauthenticationRequired : bool
}.

Record AuthenticationProof := {
  ap_VerifiedAt : Time;
  ap_ExpiresAt : Time
}.

Record AuthenticationResult := {
  ar_SubjectID : string;
  ar_APITokenRef : string;
  ar_CredentialClass : CredentialClass;
  ar_MFA : MFAAssurance;
  ar_Session : SessionAssurance;
  ar_Proof : AuthenticationProof
}.

(** ** The directory *)

Record Organization := { org_ID : string; org_Name : string }.

Record Quotas := { q_Projects : Z; q_CPU : Z; q_MemoryGB : Z }.

Record Tenant := {
  tenant_ID : string;
  tenant_OrgID : string;
  tenant_State : TenantState;
  tenant_Quotas : Quotas
}.

Record NamespaceScope := {
  ns_Namespace : string;
  ns_Actions : list Action
}.

Record Project := {
  proj_ID : string;
  proj_TenantID : string;
  proj_OrgID : string;
  proj_Namespace : string;
  proj_Scopes : list NamespaceScope
}.

Record Membership := {
  mem_OrgID : string;
  mem_TenantID : string;
  mem_ProjectID : string;
  mem_Role : Role
}.

Record Principal := {
  prin_ID : string;
  prin_Groups : list string;
  prin_Memberships : list Membership;
  prin_Support : bool
}.

Record APIToken := {
  tok_Reference : string;
  tok_SubjectID : string;
  tok_SecretHashRef : string;
  tok_TenantID : string;
  tok_ProjectID : string;
  tok_Scopes : list Action;
  tok_ExpiresAt : Time;
  tok_RevokedAt : Time
}.

Record SupportGrant := {
  grant_Reference : string;
  grant_SubjectID : string;
  grant_TenantID : string;
  grant_ProjectID : string;
  grant_Actions : list Action;
  grant_TicketRef : string;
  grant_Reason : string;
  grant_ExpiresAt : Time
}.

(** ** Requests and decisions *)

Record PrincipalRef := { pr_ID : string; pr_APITokenRef : string }.

Record TargetRef := {
  tr_OrgID : string;
  tr_TenantID : string;
  tr_ProjectID : string;
  tr_Namespace : string;
  tr_Resource : string;
  tr_Name : string
}.

Record RequestContext := {
  rc_TicketRef : string;
  rc_CorrelationID : string;
  rc_Reason : string;
  rc_Now : Time;
  rc_TargetPrincipal : string
}.

Record AuthorizationRequest := {
  req_Subject : PrincipalRef;
  req_Action : Action;
  req_Target : TargetRef;
  req_Context : RequestContext;
  req_SupportGrantRef : string;
  req_BreakGlass : bool
}.

Record Decision := {
  d_Allowed : bool;
  d_Err : option goerror;
  d_PolicyRule : string;
  d_CredentialClass : CredentialClass;
  d_MFA : MFAAssurance;
  d_Session : SessionAssurance;
  d_Proof : AuthenticationProof
}.

(** ** Zero values *)

Definition zero_MFA : MFAAssurance :=
  {| mfa_Required := false; mfa_Satisfied := false; mfa_MethodClass := "" |}.
Definition zero_Session : SessionAssurance :=
  {| sa_State := ""; sa_MaxAgeSeconds := 0; sa_ReauthenticationRequired := false |}.
Definition zero_Proof : AuthenticationProof :=
  {| ap_VerifiedAt := time_zero; ap_ExpiresAt := time_zero |}.
Definition zero_AuthenticationResult : AuthenticationResult :=
  {| ar_SubjectID := ""; ar_APITokenRef := ""; ar_CredentialClass := "";
     ar_MFA := zero_MFA; ar_Session := zero_Session; ar_Proof := zero_Proof |}.
Definition zero_Quotas : Quotas := {| q_Projects := 0; q_CPU := 0; q_MemoryGB := 0 |}.
Definition zero_Tenant : Tenant :=
  {| tenant_ID := ""; tenant_OrgID := ""; tenant_State := ""; tenant_Quotas := zero_Quotas |}.
Definition zero_Project : Project :=
  {| proj_ID := ""; proj_TenantID := ""; proj_OrgID := ""; proj_Namespace := "";
     proj_Scopes := [] |}.
Definition zero_Principal : Principal :=
  {| prin_ID := ""; prin_Groups := []; prin_Memberships := []; prin_Support := false |}.
Definition zero_APIToken : APIToken :=
  {| tok_Reference := ""; tok_SubjectID := ""; tok_SecretHashRef := "";
     tok_TenantID := ""; tok_ProjectID := ""; tok_Scopes := [];
     tok_ExpiresAt := time_zero; tok_RevokedAt := time_zero |}.
Definition zero_Decision : Decision :=
  {| d_Allowed := false; d_Err := None; d_PolicyRule := ""; d_CredentialClass := "";
     d_MFA := zero_MFA; d_Session := zero_Session; d_Proof := zero_Proof |}.

(** ** Trusted verifiers

    [AuthenticationVerifier.Authenticate]: a result and a possibly nil error. *)

Definition AuthenticationVerifier : Type :=
  Context_ -> AuthorizationRequest -> Time -> AuthenticationResult * option goerror.

(** [AuthenticationFunc] turns a possibly nil function into a verifier. *)
Definition AuthenticationFunc_Authenticate (verify : option AuthenticationVerifier)
  : AuthenticationVerifier :=
  fun ctx request at_ =>
    match verify with
    | None => (zero_AuthenticationResult, Some ErrAuthentication)
    | Some verify => verify ctx request at_
    end.

(** ** Clocks

    A clock answers [Now] given what the operating system's clock shows. *)

Definition Clock : Type := Time -> Time.
Definition FixedClock (At : Time) : Clock := fun _ => At.
Definition systemClock : Clock := fun wall => wall.

(** The smart constructors of [policy.go]. *)
Definition allow (rule : string) : Decision :=
  {| d_Allowed := true; d_Err := None; d_PolicyRule := rule; d_CredentialClass := "";
     d_MFA := zero_MFA; d_Session := zero_Session; d_Proof := zero_Proof |}.

Definition deny (err : goerror) (rule : string) : Decision :=
  {| d_Allowed := false; d_Err := Some err; d_PolicyRule := rule; d_CredentialClass := "";
     d_MFA := zero_MFA; d_Session := zero_Session; d_Proof := zero_Proof |}.
