(* ===== verification/IamRules.v ===== *)
(** * Package [iam]: rules

    The pure predicates of [pkg/iam/rules.go] and their characterisations. *)

From stdpp Require Import gmap strings list fin_maps.
From Stdlib Require Import ZArith Lia.
From S2P Require Import Prelude GoString GoTime IamTypes.

Definition actionAllowed (actions : list Action) (want : Action) : bool :=
  existsb (fun action => action == want) actions.

Definition knownAction (action : Action) : bool :=
  existsb (String.eqb action)
    [ActionProjectRead; ActionProjectWrite; ActionProjectManage;
     ActionOwnerRemove; ActionTenantExport; ActionTenantRecover].

Definition knownSatisfiedMFAMethod (method : MFAMethodClass) : bool :=
  existsb (String.eqb method)
    [MFAMethodTOTP; MFAMethodWebAuthn; MFAMethodHardwareKey; MFAMethodExternalIDP].

Definition with_Required (mfa : MFAAssurance) : MFAAssurance :=
  {| mfa_Required := true; mfa_Satisfied := mfa_Satisfied mfa;
     mfa_MethodClass := mfa_MethodClass mfa |}.

Definition normalizedMFA (request : AuthorizationRequest) (credential : CredentialClass)
    (mfa : MFAAssurance) : MFAAssurance :=
  if (credential != CredentialClassShortLivedAPIToken) &&
     ((req_Action request != ActionProjectRead) ||
      (req_SupportGrantRef request != "") || req_BreakGlass request)
  then with_Required mfa else mfa.

Definition principalRequiresMFA (principal : Principal) : bool :=
  prin_Support principal ||
  existsb (fun membership => mem_Role membership == RolePlatformAdmin)
    (prin_Memberships principal).

Definition lifecycleAllows (state : TenantState) (action : Action) : option goerror :=
  if state == TenantStateActive then None
  else if state == TenantStateSuspended then
    if (action == ActionTenantExport) || (action == ActionTenantRecover) ||
       (action == ActionProjectRead)
    then None else Some ErrTenantSuspended
  else if state == TenantStateDeleting then
    if (action == ActionTenantExport) || (action == ActionProjectRead)
    then None else Some ErrTenantDeleting
  else if state == TenantStateRecovering then
    if (action == ActionTenantRecover) || (action == ActionProjectRead)
    then None else Some ErrTenantSuspended
  else if state == TenantStateExporting then
    if (action == ActionTenantExport) || (action == ActionProjectRead)
    then None else Some ErrTenantSuspended
  else Some ErrTenantState.

Definition membershipRoleAllows (role : Role) (action : Action) : bool :=
  if role == RoleOwner then
    (action == ActionProjectRead) || (action == ActionProjectWrite) ||
    (action == ActionProjectManage) || (action == ActionOwnerRemove)
  else if role == RoleTenantAdmin then
    (action == ActionProjectRead) || (action == ActionProjectWrite) ||
    (action == ActionProjectManage)
  else if role == RoleTenantViewer then action == ActionProjectRead
  else if role == RoleSupport then action == ActionProjectRead
  else role == RolePlatformAdmin.

Fixpoint hasTenantAccess_loop (memberships : list Membership) (target : TargetRef) : bool :=
  match memberships with
  | [] => false
  | membership :: rest =>
      if mem_Role membership == RolePlatformAdmin then true
      else if (mem_OrgID membership == tr_OrgID target) &&
              (mem_TenantID membership == tr_TenantID target) &&
              ((mem_ProjectID membership == "") ||
               (mem_ProjectID membership == tr_ProjectID target))
      then true
      else hasTenantAccess_loop rest target
  end.

Definition hasTenantAccess (principal : Principal) (target : TargetRef) : bool :=
  hasTenantAccess_loop (prin_Memberships principal) target.

Fixpoint roleAllows_loop (memberships : list Membership) (action : Action)
    (target : TargetRef) : bool :=
  match memberships with
  | [] => false
  | membership :: rest =>
      if mem_Role membership == RolePlatformAdmin then true
      else if (mem_OrgID membership != tr_OrgID target) ||
              (mem_TenantID membership != tr_TenantID target)
      then roleAllows_loop rest action target
      else if (mem_ProjectID membership != "") &&
              (mem_ProjectID membership != tr_ProjectID target)
      then roleAllows_loop rest action target
      else if membershipRoleAllows (mem_Role membership) action then true
      else roleAllows_loop rest action target
  end.

Definition roleAllows (principal : Principal) (action : Action) (target : TargetRef) : bool :=
  roleAllows_loop (prin_Memberships principal) action target.

Fixpoint ruleForRole_loop (memberships : list Membership) (action : Action)
    (target : TargetRef) : string :=
  match memberships with
  | [] => "role_denied"
  | membership :: rest =>
      if mem_Role membership == RolePlatformAdmin then "platform_admin_lifecycle"
      else if (mem_OrgID membership != tr_OrgID target) ||
              (mem_TenantID membership != tr_TenantID target)
      then ruleForRole_loop rest action target
      else if (mem_ProjectID membership != "") &&
              (mem_ProjectID membership != tr_ProjectID target)
      then ruleForRole_loop rest action target
      else if (mem_Role membership == RoleTenantAdmin) && (action == ActionProjectManage)
      then "tenant_admin_project_manage"
      else if membershipRoleAllows (mem_Role membership) action
      then mem_Role membership
      else ruleForRole_loop rest action target
  end.

Definition ruleForRole (principal : Principal) (action : Action) (target : TargetRef)
  : string :=
  ruleForRole_loop (prin_Memberships principal) action target.

Definition targetWithinProjectScope (target : TargetRef) (project : Project)
    (action : Action) : bool :=
  if tr_Namespace target == "" then false
  else if (proj_Namespace project != "") && (tr_Namespace target == proj_Namespace project)
  then true
  else existsb (fun scope => (ns_Namespace scope == tr_Namespace target) &&
                             actionAllowed (ns_Actions scope) action)
         (proj_Scopes project).

Definition sameProject (membership : Membership) (project : Project) : bool :=
  (mem_OrgID membership == proj_OrgID project) &&
  (mem_TenantID membership == proj_TenantID project) &&
  (mem_ProjectID membership == proj_ID project).

Definition principalOwns (principal : Principal) (project : Project) : bool :=
  existsb (fun membership => (mem_Role membership == RoleOwner) &&
                             sameProject membership project)
    (prin_Memberships principal).

(** ** Characterisations *)

Lemma actionAllowed_elem actions want :
  actionAllowed actions want = true <-> want ∈ actions.
Proof.
  unfold actionAllowed. rewrite existsb_elem. split.
  - intros (x & Hx & He). by apply String.eqb_eq in He as ->.
  - intros H. exists want. by rewrite String.eqb_refl.
Qed.

(** A membership covers a target when it names its organization and tenant,
    and either the whole tenant or the target's project. *)
Definition covers (membership : Membership) (target : TargetRef) : Prop :=
  mem_OrgID membership = tr_OrgID target /\
  mem_TenantID membership = tr_TenantID target /\
  (mem_ProjectID membership = "" \/ mem_ProjectID membership = tr_ProjectID target).

Definition platform_admin (principal : Principal) : Prop :=
  exists membership, membership ∈ prin_Memberships principal /\
    mem_Role membership = RolePlatformAdmin.

Definition coversb (membership : Membership) (target : TargetRef) : bool :=
  (mem_OrgID membership == tr_OrgID target) &&
  (mem_TenantID membership == tr_TenantID target) &&
  ((mem_ProjectID membership == "") || (mem_ProjectID membership == tr_ProjectID target)).

Lemma coversb_iff membership target : coversb membership target = true <-> covers membership target.
Proof.
  unfold coversb, covers. rewrite !andb_true_iff, orb_true_iff, !String.eqb_eq. tauto.
Qed.

Lemma existsb_admin_or (f : Membership -> bool) principal :
  existsb (fun m => (mem_Role m == RolePlatformAdmin) || f m) (prin_Memberships principal) = true <->
  platform_admin principal \/
  exists m, m ∈ prin_Memberships principal /\ f m = true.
Proof.
  unfold platform_admin. rewrite existsb_elem. split.
  - intros (m & Hm & [Hr|Hf]%orb_true_iff); go_simp; [left|right]; by exists m.
  - intros [(m & Hm & Hr)|(m & Hm & Hf)]; exists m; split; try done.
    + by rewrite Hr.
    + by rewrite Hf, orb_true_r.
Qed.

Lemma hasTenantAccess_iff principal target :
  hasTenantAccess principal target = true <->
  platform_admin principal \/
  exists membership, membership ∈ prin_Memberships principal /\ covers membership target.
Proof.
  setoid_rewrite <- coversb_iff.
  rewrite <- (existsb_admin_or (fun m => coversb m target)).
  unfold hasTenantAccess.
  assert (forall ms, hasTenantAccess_loop ms target =
    existsb (fun m => (mem_Role m == RolePlatformAdmin) || coversb m target) ms) as ->; [|done].
  induction ms as [|m ms IH]; simpl; [done|]. rewrite IH. unfold coversb.
  by destruct (mem_Role m == _), (_ && _).
Qed.

Lemma roleAllows_iff principal action target :
  roleAllows principal action target = true <->
  platform_admin principal \/
  exists membership, membership ∈ prin_Memberships principal /\ covers membership target /\
    membershipRoleAllows (mem_Role membership) action = true.
Proof.
  setoid_rewrite <- coversb_iff. setoid_rewrite <- andb_true_iff.
  rewrite <- (existsb_admin_or (fun m => coversb m target && membershipRoleAllows (mem_Role m) action)).
  unfold roleAllows.
  assert (forall ms, roleAllows_loop ms action target =
    existsb (fun m => (mem_Role m == RolePlatformAdmin) ||
      (coversb m target && membershipRoleAllows (mem_Role m) action)) ms) as ->; [|done].
  induction ms as [|m ms IH]; simpl; [done|]. rewrite IH. unfold coversb.
  by destruct (mem_Role m == _), (mem_OrgID m == _), (mem_TenantID m == _),
    (mem_ProjectID m == ""), (mem_ProjectID m == _), (membershipRoleAllows _ _).
Qed.

(** Only a platform administrator may recover a tenant. *)
Lemma recover_role role :
  membershipRoleAllows role ActionTenantRecover = true <-> role = RolePlatformAdmin.
Proof.
  split; [|by intros ->]. unfold membershipRoleAllows.
  repeat (case_match; [by vm_compute|]). by rewrite String.eqb_eq.
Qed.

Lemma roleAllows_recover principal target :
  roleAllows principal ActionTenantRecover target = true <-> platform_admin principal.
Proof.
  rewrite roleAllows_iff. split; [|by left].
  intros [?|(m & Hm & _ & Hr)]; [done|]. apply recover_role in Hr. by exists m.
Qed.

Lemma principalOwns_iff principal project :
  principalOwns principal project = true <->
  exists membership, membership ∈ prin_Memberships principal /\
    mem_Role membership = RoleOwner /\ sameProject membership project = true.
Proof.
  unfold principalOwns. rewrite existsb_elem.
  split; intros (m & Hm & H); exists m; split; try done.
  - apply andb_true_iff in H as [Hr Hs]. by apply String.eqb_eq in Hr.
  - destruct H as [-> ->]. by vm_compute.
Qed.

(** Outside the active state only reads, exports and recoveries pass. *)
Lemma lifecycleAllows_inactive state action :
  lifecycleAllows state action = None -> state <> TenantStateActive ->
  action = ActionProjectRead \/ action = ActionTenantExport \/ action = ActionTenantRecover.
Proof.
  unfold lifecycleAllows. intros H Hs.
  repeat case_match; go_simp; try done;
    repeat match goal with
    | E : _ || _ = true |- _ => apply orb_true_iff in E as [E|E]; go_simp
    end; auto.
Qed.

(** An allowing role always explains itself with a rule. *)
Lemma ruleForRole_allowed principal action target :
  roleAllows principal action target = true ->
  ruleForRole principal action target <> "role_denied".
Proof.
  unfold roleAllows, ruleForRole.
  induction (prin_Memberships principal) as [|m ms IH]; simpl; [done|].
  repeat case_match; try done; go_simp.
  intros _ Hr. rewrite Hr in *. done.
Qed.
