(* ===== verification/IamAudit.v ===== *)
(** * Package [iam]: audit sinks

    [pkg/iam/audit.go].  A sink is a value of some state type [S] together with
    its methods; the methods of [MemoryAuditSink] run under its mutex, so each
    is one step on the state.  What a sink promises to the policy is the class
    [AuditSinkLaws]; the two sinks of the package are instances. *)

From stdpp Require Import gmap strings list fin_maps.
From Stdlib Require Import ZArith Lia.
From S2P Require Import Prelude GoString GoTime IamTypes.

#[local] Open Scope nat_scope.

Record AuditEvent := {
  ev_Actor : string;
  ev_RepresentedSubject : string;
  ev_Action : Action;
  ev_Target : TargetRef;
  ev_Reason : string;
  ev_TicketRef : string;
  ev_CorrelationID : string;
  ev_Result : AuditResult;
  ev_PolicyRule : string;
  ev_Timestamp : Time;
  ev_Error : string;
  ev_BreakGlass : bool;
  ev_SupportGrantRef : string;
  ev_APITokenRef : string;
  ev_TargetPrincipal : string;
  ev_TargetLifecycle : TenantState;
  ev_TargetNamespace : string;
  ev_TargetResource : string;
  ev_TargetResourceName : string;
  ev_TargetOrganization : string;
  ev_TargetTenant : string;
  ev_TargetProject : string;
  ev_CredentialClass : CredentialClass;
  ev_MFA : MFAAssurance;
  ev_Session : SessionAssurance;
  ev_Proof : AuthenticationProof
}.

Record SecurityEvent := {
  sev_Type : string;
  sev_Actor : string;
  sev_Subject : string;
  sev_Result : AuditResult;
  sev_Reason : string;
  sev_CorrelationID : string;
  sev_Timestamp : Time
}.

(** ** Interfaces

    The methods [DurableAuditSink] adds to [AuditSink]. *)
Record DurableAuditSink (S : Type) := {
  dur_Ready : Context_ -> S -> option goerror;
  dur_Durable : S -> bool
}.
Arguments dur_Ready {S}. Arguments dur_Durable {S}.

(** An [AuditSink] value: [sink_asDurable] and [sink_asReader] are what the
    type assertions to [DurableAuditSink] and [AuditEventReader] yield. *)
Record AuditSink (S : Type) := {
  sink_Append : AuditEvent -> S -> S * option goerror;
  sink_asDurable : option (DurableAuditSink S);
  sink_asReader : option (S -> list AuditEvent)
}.
Arguments sink_Append {S}. Arguments sink_asDurable {S}. Arguments sink_asReader {S}.

Record SecurityAuditSink (S : Type) := {
  sec_Ready : Context_ -> S -> option goerror;
  sec_Durable : S -> bool;
  sec_AppendSecurityEvent : Context_ -> SecurityEvent -> S -> S * option goerror
}.
Arguments sec_Ready {S}. Arguments sec_Durable {S}. Arguments sec_AppendSecurityEvent {S}.

(** What the policy relies on: a successful [Append] leaves the event at the
    end of the journal, no [Append] loses an earlier event, and a reader
    returns the journal. *)
Class AuditSinkLaws {S : Type} (sink : AuditSink S) (journal : S -> list AuditEvent) := {
  append_committed event s s' :
    sink_Append sink event s = (s', None) -> journal s' = journal s ++ [event];
  append_keeps event s s' err :
    sink_Append sink event s = (s', err) -> journal s `prefix_of` journal s';
  reader_reads read s :
    sink_asReader sink = Some read -> read s = journal s
}.

(** ** Security events *)

Definition AppendDurableSecurityEvent {S} (ctx : option Context_)
    (sink : option (SecurityAuditSink S)) (event : SecurityEvent) (s : S)
  : S * option goerror :=
  match ctx, sink with
  | Some ctx, Some sink =>
      if negb (sec_Durable sink s) then (s, Some ErrAuditRequired)
      else if blank (sev_Type event) || (128 <? len (sev_Type event)) ||
         blank (sev_CorrelationID event) || (256 <? len (sev_CorrelationID event)) ||
         IsZero (sev_Timestamp event) ||
         ((sev_Result event != AuditResultAllow) && (sev_Result event != AuditResultDeny))
      then (s, Some (Errorf_w "security audit event is invalid: " ErrAuditRequired))
      else match sec_Ready sink ctx s with
      | Some _ =>
          (s, Some (Errorf_w "security audit dependency is unavailable: " ErrAuditRequired))
      | None =>
          match sec_AppendSecurityEvent sink ctx event s with
          | (s', Some _) =>
              (s', Some (Errorf_w "append security audit event: " ErrAuditRequired))
          | (s', None) => (s', None)
          end
      end
  | _, _ => (s, Some ErrAuditRequired)
  end.

(** ** The in-memory sink *)

Record MemoryAuditSink := {
  mas_events : list AuditEvent;
  mas_securityEvents : list SecurityEvent;
  mas_maxEvents : Z
}.

Definition NewBoundedMemoryAuditSink (maxEvents : Z) : MemoryAuditSink :=
  {| mas_events := []; mas_securityEvents := [];
     mas_maxEvents :=
       (if (maxEvents <=? 0)%Z || (4096 <? maxEvents)%Z then 1024 else maxEvents)%Z |}.

Definition NewMemoryAuditSink : MemoryAuditSink := NewBoundedMemoryAuditSink 1024.

Definition mas_count (sink : MemoryAuditSink) : Z :=
  Z.of_nat (length (mas_events sink)) + Z.of_nat (length (mas_securityEvents sink)).

Definition errCapacity := errors_New "iam: ephemeral audit capacity reached".

Definition MemoryAuditSink_Append (event : AuditEvent) (sink : MemoryAuditSink)
  : MemoryAuditSink * option goerror :=
  if (mas_maxEvents sink <=? mas_count sink)%Z then (sink, Some errCapacity)
  else ({| mas_events := mas_events sink ++ [event];
           mas_securityEvents := mas_securityEvents sink;
           mas_maxEvents := mas_maxEvents sink |}, None).

Definition MemoryAuditSink_AppendSecurityEvent (ctx : Context_) (event : SecurityEvent)
    (sink : MemoryAuditSink) : MemoryAuditSink * option goerror :=
  if (mas_maxEvents sink <=? mas_count sink)%Z then (sink, Some errCapacity)
  else ({| mas_events := mas_events sink;
           mas_securityEvents := mas_securityEvents sink ++ [event];
           mas_maxEvents := mas_maxEvents sink |}, None).

Definition MemoryAuditSink_Events (sink : MemoryAuditSink) : list AuditEvent :=
  mas_events sink.
Definition MemoryAuditSink_SecurityEvents (sink : MemoryAuditSink) : list SecurityEvent :=
  mas_securityEvents sink.
Definition MemoryAuditSink_Ready (ctx : Context_) (sink : MemoryAuditSink) : option goerror :=
  None.
Definition MemoryAuditSink_Durable (sink : MemoryAuditSink) : bool := false.

Definition MemoryAuditSink_ops : AuditSink MemoryAuditSink :=
  {| sink_Append := MemoryAuditSink_Append;
     sink_asDurable := Some {| dur_Ready := MemoryAuditSink_Ready;
                               dur_Durable := MemoryAuditSink_Durable |};
     sink_asReader := Some MemoryAuditSink_Events |}.

Definition MemoryAuditSink_security : SecurityAuditSink MemoryAuditSink :=
  {| sec_Ready := MemoryAuditSink_Ready;
     sec_Durable := MemoryAuditSink_Durable;
     sec_AppendSecurityEvent := MemoryAuditSink_AppendSecurityEvent |}.

(** ** The failing sink, generic in the state it never touches *)

Definition FailingAuditSink_Append {S} (event : AuditEvent) (s : S) : S * option goerror :=
  (s, Some ErrAuditRequired).
Definition FailingAuditSink_Events {S} (s : S) : list AuditEvent := [].
Definition FailingAuditSink_Ready {S} (ctx : Context_) (s : S) : option goerror := None.
Definition FailingAuditSink_Durable {S} (s : S) : bool := true.

Definition FailingAuditSink_ops {S} : AuditSink S :=
  {| sink_Append := FailingAuditSink_Append;
     sink_asDurable := Some {| dur_Ready := FailingAuditSink_Ready;
                               dur_Durable := FailingAuditSink_Durable |};
     sink_asReader := Some FailingAuditSink_Events |}.

(** ** The sinks keep the laws *)

#[export] Instance MemoryAuditSink_laws :
  AuditSinkLaws MemoryAuditSink_ops mas_events.
Proof.
  split; simpl.
  - intros event s s'. unfold MemoryAuditSink_Append. case_match; intros; by simplify_eq.
  - intros event s s' err. unfold MemoryAuditSink_Append.
    case_match; intros; simplify_eq/=; [done|]. by apply prefix_app_r.
  - intros read s [= <-]. done.
Qed.

#[export] Instance FailingAuditSink_laws {S} :
  AuditSinkLaws (@FailingAuditSink_ops S) (fun _ => []).
Proof.
  split; simpl; unfold FailingAuditSink_Append; intros; by simplify_eq.
Qed.

(** ** Capacity of the in-memory sink *)

Inductive mas_step : MemoryAuditSink -> MemoryAuditSink -> Prop :=
  | mas_step_append event s :
      mas_step s (MemoryAuditSink_Append event s).1
  | mas_step_security ctx event s :
      mas_step s (MemoryAuditSink_AppendSecurityEvent ctx event s).1.

Definition mas_bounded (sink : MemoryAuditSink) : Prop :=
  (0 < mas_maxEvents sink <= 4096 /\ mas_count sink <= mas_maxEvents sink)%Z.

Lemma NewBounded_bounded maxEvents : mas_bounded (NewBoundedMemoryAuditSink maxEvents).
Proof.
  unfold mas_bounded, mas_count, NewBoundedMemoryAuditSink. simpl.
  destruct (_ || _) eqn:H; [lia|]. go_simp. lia.
Qed.

Lemma mas_step_bounded s s' : mas_step s s' -> mas_bounded s -> mas_bounded s'.
Proof.
  unfold mas_bounded, mas_count. intros Hstep Hb.
  destruct Hstep as [event s|ctx event s]; revert Hb;
    unfold MemoryAuditSink_Append, MemoryAuditSink_AppendSecurityEvent, mas_count;
    case_match; simpl; rewrite ?length_app; simpl; intros; go_simp; lia.
Qed.
