(* ===== verification/IamPolicy.v ===== *)
(** * Package [iam]: the policy engine

    [pkg/iam/policy.go], [evaluateAssurance] of [rules.go] and
    [pkg/iam/audit_event.go].  A policy is parameterised by the state type [S]
    of its audit sink; authorization threads the sink's state. *)

From stdpp Require Import gmap strings list fin_maps.
From Stdlib Require Import ZArith Lia.
From S2P Require Import Prelude GoString GoTime IamTypes IamRules IamAudit.

Record PolicyConfig (S : Type) := {
  cfg_Clock : option Clock;
  cfg_AuditSink : option (AuditSink S);
  cfg_AuthenticationVerifier : option AuthenticationVerifier;
  cfg_AuthenticationProofMaxAge : Duration;
  cfg_AuthenticationProofFutureSkew : Duration;
  cfg_AllowEphemeralAudit : bool
}.
Arguments cfg_Clock {S}. Arguments cfg_AuditSink {S}.
Arguments cfg_AuthenticationVerifier {S}. Arguments cfg_AuthenticationProofMaxAge {S}.
Arguments cfg_AuthenticationProofFutureSkew {S}. Arguments cfg_AllowEphemeralAudit {S}.

Record Policy (S : Type) := {
  p_Organizations : gmap string Organization;
  p_Tenants : gmap string Tenant;
  p_Projects : gmap string Project;
  p_Principals : gmap string Principal;
  p_APITokens : gmap string APIToken;
  p_SupportGrants : gmap string SupportGrant;
  p_clock : Clock;
  p_AuditSink : option (AuditSink S);
  p_authenticator : option AuthenticationVerifier;
  p_proofMaxAge : Duration;
  p_proofSkew : Duration;
  p_allowEphemeralAudit : bool
}.
Arguments p_Organizations {S}. Arguments p_Tenants {S}. Arguments p_Projects {S}.
Arguments p_Principals {S}. Arguments p_APITokens {S}. Arguments p_SupportGrants {S}.
Arguments p_clock {S}. Arguments p_AuditSink {S}. Arguments p_authenticator {S}.
Arguments p_proofMaxAge {S}. Arguments p_proofSkew {S}. Arguments p_allowEphemeralAudit {S}.

Record resolvedSubject := {
  rs_principal : Principal;
  rs_actor : string;
  rs_represented : string;
  rs_apiGrant : APIToken;
  rs_authnClass : CredentialClass;
  rs_mfa : MFAAssurance;
  rs_session : SessionAssurance;
  rs_proof : AuthenticationProof
}.

Definition rs_with_mfa (subject : resolvedSubject) (mfa : MFAAssurance) : resolvedSubject :=
  {| rs_principal := rs_principal subject; rs_actor := rs_actor subject;
     rs_represented := rs_represented subject; rs_apiGrant := rs_apiGrant subject;
     rs_authnClass := rs_authnClass subject; rs_mfa := mfa;
     rs_session := rs_session subject; rs_proof := rs_proof subject |}.

Definition rs_with_actor (subject : resolvedSubject) (actor : string) : resolvedSubject :=
  {| rs_principal := rs_principal subject; rs_actor := actor;
     rs_represented := rs_represented subject; rs_apiGrant := rs_apiGrant subject;
     rs_authnClass := rs_authnClass subject; rs_mfa := rs_mfa subject;
     rs_session := rs_session subject; rs_proof := rs_proof subject |}.

Definition rs_with_principal (subject : resolvedSubject) (principal : Principal)
  : resolvedSubject :=
  {| rs_principal := principal; rs_actor := rs_actor subject;
     rs_represented := rs_represented subject; rs_apiGrant := rs_apiGrant subject;
     rs_authnClass := rs_authnClass subject; rs_mfa := rs_mfa subject;
     rs_session := rs_session subject; rs_proof := rs_proof subject |}.

Definition evaluateAssurance (request : AuthorizationRequest) (subject : resolvedSubject)
  : Decision :=
  let mfa := normalizedMFA request (rs_authnClass subject) (rs_mfa subject) in
  let session := rs_session subject in
  if mfa_Required mfa &&
     (negb (mfa_Satisfied mfa) || negb (knownSatisfiedMFAMethod (mfa_MethodClass mfa)))
  then deny ErrMFARequired "mfa_required"
  else if rs_authnClass subject == CredentialClassShortLivedAPIToken then
    if (sa_State session != SessionStateAbsent) || negb (sa_MaxAgeSeconds session =? 0)%Z ||
       sa_ReauthenticationRequired session
    then deny ErrSessionAssurance "session_assurance_denied"
    else zero_Decision
  else if (sa_State session != SessionStateFresh) || (sa_MaxAgeSeconds session <=? 0)%Z ||
          sa_ReauthenticationRequired session
  then deny ErrSessionAssurance "session_assurance_denied"
  else zero_Decision.

Section Policy.
Context {S : Type}.
Implicit Types policy : Policy S.

Definition NewPolicy (config : PolicyConfig S) : Policy S :=
  {| p_Organizations := ∅; p_Tenants := ∅; p_Projects := ∅; p_Principals := ∅;
     p_APITokens := ∅; p_SupportGrants := ∅;
     p_clock := match cfg_Clock config with Some clock => clock | None => systemClock end;
     p_AuditSink := cfg_AuditSink config;
     p_authenticator := cfg_AuthenticationVerifier config;
     p_proofMaxAge := cfg_AuthenticationProofMaxAge config;
     p_proofSkew := cfg_AuthenticationProofFutureSkew config;
     p_allowEphemeralAudit := cfg_AllowEphemeralAudit config |}.

Definition AuditEvents policy (s : S) : list AuditEvent :=
  match p_AuditSink policy with
  | Some sink =>
      match sink_asReader sink with Some reader => reader s | None => [] end
  | None => []
  end.

(** The receiver only supplies the two configured bounds. *)
Definition maxConfiguredProofAge : Duration := (24 * Hour)%Z.
Definition maxConfiguredProofSkew : Duration := (5 * Minute)%Z.

Definition validateAuthenticationProof policy (result : AuthenticationResult) (now : Time)
  : option goerror :=
  if (p_proofMaxAge policy <=? 0)%Z || (maxConfiguredProofAge <? p_proofMaxAge policy)%Z ||
     (p_proofSkew policy <? 0)%Z || (maxConfiguredProofSkew <? p_proofSkew policy)%Z
  then Some ErrAuthentication
  else
  let proof := ar_Proof result in
  if IsZero (ap_VerifiedAt proof) || IsZero (ap_ExpiresAt proof) ||
     negb (After (ap_ExpiresAt proof) (ap_VerifiedAt proof)) ||
     negb (Before now (ap_ExpiresAt proof)) ||
     After (ap_VerifiedAt proof) (time_Add now (p_proofSkew policy))
  then Some ErrAuthentication
  else
  let age := time_Sub now (ap_VerifiedAt proof) in
  let age := if (age <? 0)%Z then 0%Z else age in
  if (p_proofMaxAge policy <? age)%Z then Some ErrAuthentication
  else if ar_CredentialClass result != CredentialClassShortLivedAPIToken then
    let maxSessionSeconds := duration_div (p_proofMaxAge policy) Second in
    let maxAgeSeconds := sa_MaxAgeSeconds (ar_Session result) in
    if (maxAgeSeconds <=? 0)%Z || (maxSessionSeconds <? maxAgeSeconds)%Z ||
       (duration_mul maxAgeSeconds Second <? age)%Z
    then Some ErrAuthentication
    else None
  else None.

Definition authenticate policy (ctx : option Context_) (request : AuthorizationRequest)
    (now : Time) : AuthenticationResult * option goerror :=
  match ctx, p_authenticator policy with
  | Some ctx, Some authenticator =>
      let '(result, err) := authenticator ctx request now in
      match err with
      | Some _ => (zero_AuthenticationResult, Some ErrAuthentication)
      | None =>
          match validateAuthenticationProof policy result now with
          | Some _ => (zero_AuthenticationResult, Some ErrAuthentication)
          | None => (result, None)
          end
      end
  | _, _ => (zero_AuthenticationResult, Some ErrAuthentication)
  end.

Definition resolveTarget policy (target : TargetRef) : Tenant * Project * option goerror :=
  match p_Organizations policy !! tr_OrgID target with
  | None => (zero_Tenant, zero_Project, Some ErrUnknownTenant)
  | Some organization =>
  if org_ID organization != tr_OrgID target
  then (zero_Tenant, zero_Project, Some ErrUnknownTenant) else
  match p_Tenants policy !! tr_TenantID target with
  | None => (zero_Tenant, zero_Project, Some ErrUnknownTenant)
  | Some tenant =>
  if (tenant_ID tenant != tr_TenantID target) || (tenant_OrgID tenant != tr_OrgID target)
  then (zero_Tenant, zero_Project, Some ErrUnknownTenant) else
  match p_Projects policy !! tr_ProjectID target with
  | None => (tenant, zero_Project, Some ErrUnknownProject)
  | Some project =>
  if (proj_ID project != tr_ProjectID target) ||
     (proj_TenantID project != tr_TenantID target) ||
     (proj_OrgID project != tr_OrgID target)
  then (tenant, zero_Project, Some ErrUnknownProject)
  else (tenant, project, None)
  end end end.

Definition evaluateBreakGlass policy (request : AuthorizationRequest)
    (subject : resolvedSubject) : Decision :=
  if blank (rc_Reason (req_Context request))
  then deny ErrReasonRequired "break_glass_reason_required"
  else if blank (rc_TicketRef (req_Context request))
  then deny ErrTicketRequired "break_glass_ticket_required"
  else if negb (roleAllows (rs_principal subject) ActionTenantRecover (req_Target request))
  then deny ErrRoleDenied "role_denied"
  else allow "break_glass".

Definition evaluateSupportGrant policy (request : AuthorizationRequest)
    (subject : resolvedSubject) (now : Time) : Decision :=
  match p_SupportGrants policy !! req_SupportGrantRef request with
  | None => deny ErrSupportGrant "support_grant_denied"
  | Some grant =>
  if (grant_Reference grant != req_SupportGrantRef request) ||
     (grant_SubjectID grant != prin_ID (rs_principal subject))
  then deny ErrSupportGrant "support_grant_denied"
  else if negb (prin_Support (rs_principal subject))
  then deny ErrSupportGrant "support_grant_denied"
  else if blank (rc_TicketRef (req_Context request)) ||
          (rc_TicketRef (req_Context request) != grant_TicketRef grant)
  then deny ErrTicketRequired "support_ticket_required"
  else if blank (rc_Reason (req_Context request)) || blank (grant_Reason grant)
  then deny ErrReasonRequired "support_reason_required"
  else if IsZero (grant_ExpiresAt grant) || negb (Before now (grant_ExpiresAt grant))
  then deny ErrSupportGrant "support_grant_denied"
  else if (grant_TenantID grant != tr_TenantID (req_Target request)) ||
          (grant_ProjectID grant != tr_ProjectID (req_Target request))
  then deny ErrCrossTenant "cross_tenant_denied"
  else if negb (actionAllowed (grant_Actions grant) (req_Action request))
  then deny ErrSupportGrant "support_grant_denied"
  else allow "support_grant"
  end.

Definition evaluateAPIToken policy (request : AuthorizationRequest) (token : APIToken)
    (now : Time) : option goerror :=
  if IsZero (tok_RevokedAt token) && negb (IsZero (tok_ExpiresAt token)) &&
     Before now (tok_ExpiresAt token)
  then
    if (tok_TenantID token != tr_TenantID (req_Target request)) ||
       (tok_ProjectID token != tr_ProjectID (req_Target request))
    then Some ErrCrossTenant
    else if (tok_SecretHashRef token == "") ||
            negb (actionAllowed (tok_Scopes token) (req_Action request))
    then Some ErrTokenScope
    else None
  else if negb (IsZero (tok_RevokedAt token)) then Some ErrTokenRevoked
  else Some ErrTokenExpired.

Definition requestTime policy (wall : Time) : Time := p_clock policy wall.

(** The range over [policy.Principals]: [Some owners] when it runs to the end,
    [None] when a malformed or duplicated identity ends it early. *)
Fixpoint owner_loop (entries : list (string * Principal)) (project : Project)
    (identities owners : gset string) : option (gset string) :=
  match entries with
  | [] => Some owners
  | (reference, principal) :: rest =>
      if (reference == "") || (prin_ID principal == "") ||
         (reference != prin_ID principal)
      then None
      else if bool_decide (prin_ID principal ∈ identities) then None
      else owner_loop rest project ({[prin_ID principal]} ∪ identities)
             (if principalOwns principal project
              then {[prin_ID principal]} ∪ owners else owners)
  end.

Definition removingLastOwner policy (targetPrincipal : string) (project : Project) : bool :=
  if targetPrincipal == "" then true
  else match owner_loop (map_to_list (p_Principals policy)) project ∅ ∅ with
  | None => true
  | Some owners =>
      negb (bool_decide (targetPrincipal ∈ owners)) || (size owners <=? 1)%nat
  end.

Definition evaluate policy (request : AuthorizationRequest) (subject : resolvedSubject)
    (now : Time) : Decision :=
  if negb (knownAction (req_Action request)) then deny ErrUnknownAction "fail_closed" else
  match d_Err (evaluateAssurance request subject) with
  | Some _ => evaluateAssurance request subject
  | None =>
  if (req_Action request == ActionTenantRecover) && negb (req_BreakGlass request)
  then deny ErrBreakGlass "break_glass_required" else
  match resolveTarget policy (req_Target request) with
  | (_, _, Some err) => deny err "fail_closed"
  | (tenant, project, None) =>
  if negb (targetWithinProjectScope (req_Target request) project (req_Action request))
  then deny ErrObjectScope "object_scope_denied" else
  match lifecycleAllows (tenant_State tenant) (req_Action request) with
  | Some err => deny err "tenant_lifecycle_write_denied"
  | None =>
  let targetPrincipal := rc_TargetPrincipal (req_Context request) in
  let ownerTarget :=
    match p_Principals policy !! targetPrincipal with
    | None => false
    | Some principal =>
        (prin_ID principal == targetPrincipal) && principalOwns principal project
    end in
  if (req_Action request == ActionOwnerRemove) && negb ownerTarget
  then deny ErrTargetPrincipal "owner_target_denied"
  else if (req_Action request == ActionOwnerRemove) &&
          removingLastOwner policy targetPrincipal project
  then deny ErrLastOwner "last_owner_guard"
  else if req_BreakGlass request then evaluateBreakGlass policy request subject
  else if req_SupportGrantRef request != "" then evaluateSupportGrant policy request subject now
  else if pr_APITokenRef (req_Subject request) != "" then
    match evaluateAPIToken policy request (rs_apiGrant subject) now with
    | Some err => deny err "api_token_denied"
    | None => allow "api_token_scope"
    end
  else if negb (hasTenantAccess (rs_principal subject) (req_Target request))
  then deny ErrCrossTenant "cross_tenant_denied"
  else if negb (roleAllows (rs_principal subject) (req_Action request) (req_Target request))
  then deny ErrRoleDenied "role_denied"
  else allow (ruleForRole (rs_principal subject) (req_Action request) (req_Target request))
  end end end.

Definition resolveSubject policy (request : AuthorizationRequest)
    (authentication : AuthenticationResult) (authenticationErr : option goerror) (now : Time)
  : resolvedSubject * Decision :=
  let subject :=
    {| rs_principal := zero_Principal; rs_actor := pr_ID (req_Subject request);
       rs_represented := ""; rs_apiGrant := zero_APIToken;
       rs_authnClass := ar_CredentialClass authentication;
       rs_mfa := ar_MFA authentication; rs_session := ar_Session authentication;
       rs_proof := ar_Proof authentication |} in
  let class := ar_CredentialClass authentication in
  let tokenRef := pr_APITokenRef (req_Subject request) in
  let class_denied := (subject, deny ErrAuthentication "authentication_class_denied") in
  if negb (is_nil authenticationErr) || (ar_SubjectID authentication == "") ||
     (ar_SubjectID authentication != pr_ID (req_Subject request))
  then (subject, deny ErrAuthentication "authentication_required")
  else if
    (if req_BreakGlass request then class != CredentialClassBreakGlass
     else if req_SupportGrantRef request != "" then class != CredentialClassSupportGrant
     else (tokenRef == "") && (class != CredentialClassInteractiveSession))
  then class_denied
  else if tokenRef != "" then
    if (class != CredentialClassShortLivedAPIToken) ||
       (ar_APITokenRef authentication != tokenRef)
    then class_denied
    else match p_APITokens policy !! tokenRef with
    | None =>
        (rs_with_actor subject ("api-token-" +:+ tokenRef),
         deny ErrUnknownPrincipal "fail_closed")
    | Some apiGrant =>
    if (tok_Reference apiGrant != tokenRef) ||
       (tok_SubjectID apiGrant != ar_SubjectID authentication)
    then (rs_with_actor subject ("api-token-" +:+ tokenRef),
          deny ErrUnknownPrincipal "fail_closed")
    else match p_Principals policy !! tok_SubjectID apiGrant with
    | None =>
        (rs_with_actor subject ("api-grant:" +:+ tok_Reference apiGrant),
         deny ErrUnknownPrincipal "fail_closed")
    | Some principal =>
    if prin_ID principal != tok_SubjectID apiGrant
    then (rs_with_actor subject ("api-grant:" +:+ tok_Reference apiGrant),
          deny ErrUnknownPrincipal "fail_closed")
    else
    let subject :=
      {| rs_principal := principal; rs_actor := "api-grant:" +:+ tok_Reference apiGrant;
         rs_represented := tok_SubjectID apiGrant; rs_apiGrant := apiGrant;
         rs_authnClass := class; rs_mfa := ar_MFA authentication;
         rs_session := ar_Session authentication; rs_proof := ar_Proof authentication |} in
    if negb (IsZero (tok_RevokedAt apiGrant))
    then (subject, deny ErrTokenRevoked "api_token_denied")
    else if IsZero (tok_ExpiresAt apiGrant) || negb (Before now (tok_ExpiresAt apiGrant))
    then (subject, deny ErrTokenExpired "api_token_denied")
    else (subject, zero_Decision)
    end end
  else match p_Principals policy !! pr_ID (req_Subject request) with
  | None =>
      (rs_with_principal subject zero_Principal, deny ErrUnknownPrincipal "fail_closed")
  | Some principal =>
      if prin_ID principal != pr_ID (req_Subject request)
      then (rs_with_principal subject principal, deny ErrUnknownPrincipal "fail_closed")
      else (rs_with_principal subject principal, zero_Decision)
  end.

Definition auditDenied (decision : Decision) (err : goerror) : Decision :=
  {| d_Allowed := false; d_Err := Some err; d_PolicyRule := "audit_required";
     d_CredentialClass := d_CredentialClass decision; d_MFA := d_MFA decision;
     d_Session := d_Session decision; d_Proof := d_Proof decision |}.

(** The event [audit] appends. *)
Definition auditEvent policy (request : AuthorizationRequest) (subject : resolvedSubject)
    (decision : Decision) (now : Time) : AuditEvent :=
  {| ev_Actor := if rs_actor subject == "" then pr_ID (req_Subject request)
                 else rs_actor subject;
     ev_RepresentedSubject := rs_represented subject;
     ev_Action := req_Action request;
     ev_Target := req_Target request;
     ev_Reason := rc_Reason (req_Context request);
     ev_TicketRef := rc_TicketRef (req_Context request);
     ev_CorrelationID := rc_CorrelationID (req_Context request);
     ev_Result := if d_Allowed decision then AuditResultAllow else AuditResultDeny;
     ev_PolicyRule := d_PolicyRule decision;
     ev_Timestamp := now;
     ev_Error := match d_Err decision with Some err => Error err | None => "" end;
     ev_BreakGlass := req_BreakGlass request;
     ev_SupportGrantRef := req_SupportGrantRef request;
     ev_APITokenRef := pr_APITokenRef (req_Subject request);
     ev_TargetPrincipal := rc_TargetPrincipal (req_Context request);
     ev_TargetLifecycle :=
       match p_Tenants policy !! tr_TenantID (req_Target request) with
       | Some tenant => tenant_State tenant
       | None => ""
       end;
     ev_TargetNamespace := tr_Namespace (req_Target request);
     ev_TargetResource := tr_Resource (req_Target request);
     ev_TargetResourceName := tr_Name (req_Target request);
     ev_TargetOrganization := tr_OrgID (req_Target request);
     ev_TargetTenant := tr_TenantID (req_Target request);
     ev_TargetProject := tr_ProjectID (req_Target request);
     ev_CredentialClass := d_CredentialClass decision;
     ev_MFA := d_MFA decision;
     ev_Session := d_Session decision;
     ev_Proof := d_Proof decision |}.

Definition audit policy (ctx : Context_) (request : AuthorizationRequest)
    (subject : resolvedSubject) (decision : Decision) (now : Time) (s : S) : S * Decision :=
  let event := auditEvent policy request subject decision now in
  match p_AuditSink policy with
  | None => (s, auditDenied decision ErrAuditRequired)
  | Some sink =>
  match sink_asDurable sink with
  | None => (s, auditDenied decision ErrAuditRequired)
  | Some durableSink =>
  if negb (p_allowEphemeralAudit policy) && negb (dur_Durable durableSink s)
  then (s, auditDenied decision ErrAuditRequired)
  else match dur_Ready durableSink ctx s with
  | Some _ => (s, auditDenied decision ErrAuditRequired)
  | None =>
      match sink_Append sink event s with
      | (s', Some _) =>
          (s', auditDenied decision (Errorf_w "append audit event: " ErrAuditRequired))
      | (s', None) => (s', decision)
      end
  end end end.

(** The evidence the decision carries besides the verdict. *)
Definition with_evidence (decision : Decision) (subject : resolvedSubject) : Decision :=
  {| d_Allowed := d_Allowed decision; d_Err := d_Err decision;
     d_PolicyRule := d_PolicyRule decision;
     d_CredentialClass := rs_authnClass subject; d_MFA := rs_mfa subject;
     d_Session := rs_session subject; d_Proof := rs_proof subject |}.

(** The subject [AuthorizeContext] evaluates: MFA normalised for the request
    and required of privileged principals. *)
Definition assuredSubject (request : AuthorizationRequest) (subject : resolvedSubject)
  : resolvedSubject :=
  let mfa := normalizedMFA request (rs_authnClass subject) (rs_mfa subject) in
  rs_with_mfa subject
    (if principalRequiresMFA (rs_principal subject) then with_Required mfa else mfa).

Definition AuthorizeContext policy (ctx : option Context_) (request : AuthorizationRequest)
    (wall : Time) (s : S) : S * Decision :=
  let ctx := match ctx with Some ctx => ctx | None => context_Background end in
  let now := requestTime policy wall in
  let '(authentication, authenticationErr) := authenticate policy (Some ctx) request now in
  let '(subject, decision) :=
    resolveSubject policy request authentication authenticationErr now in
  let subject := assuredSubject request subject in
  let decision :=
    match d_Err decision with
    | None => evaluate policy request subject now
    | Some _ => decision
    end in
  audit policy ctx request subject (with_evidence decision subject) now s.

Definition Authorize policy (request : AuthorizationRequest) (wall : Time) (s : S)
  : S * Decision :=
  AuthorizeContext policy (Some context_Background) request wall s.

End Policy.
