(* ===== verification/IamVerify.v ===== *)
(** * Package [iam]: the contract verifier

    [pkg/iam/verify.go], [verify_fixture.go], [verify_edge_cases.go] and
    [verify_result.go]: the package's own executable contract, a synthetic
    directory and the requests that must be allowed or denied on it.  Each
    policy owns its audit sink, whose state is threaded through the requests
    made of it; [wall] is the system clock, which a [FixedClock] ignores. *)

From stdpp Require Import gmap strings list fin_maps.
From Stdlib Require Import ZArith Lia.
From S2P Require Import Prelude GoString GoTime GoSort GoDate IamTypes IamRules IamAudit IamPolicy.

Definition Scenario : Type := string.
Definition ScenarioHappy : Scenario := "happy".
Definition ScenarioEdge : Scenario := "edge".

Definition Status : Type := string.
Definition StatusReady : Status := "ready".
Definition StatusBlocked : Status := "blocked".

Record VerifyOptions := { vo_Scenario : Scenario; vo_EvidencePath : string }.

Record RoleCoverage := { rcv_TenantAdmin : bool; rcv_Owner : bool; rcv_Viewer : bool }.
Record LifecycleClaims := {
  lc_SuspendedWriteDenied : bool; lc_DeletingWriteDenied : bool; lc_LastOwnerGuard : bool }.
Record IdentityContract := {
  ic_AuthenticatedSubjectCovered : bool; ic_MFAEnforcementCovered : bool;
  ic_SessionEnforcementCovered : bool }.

Record VerifyCoverage := {
  vc_Organization : bool;
  vc_ActiveTenant : bool;
  vc_ActiveProject : bool;
  vc_Roles : RoleCoverage;
  vc_Quotas : bool;
  vc_APITokenReadScope : bool;
  vc_SupportGrantWithTicketReason : bool;
  vc_BreakGlassWithTicketReason : bool;
  vc_AuditAppend : bool;
  vc_Lifecycle : LifecycleClaims;
  vc_IdentityContract : IdentityContract;
  vc_PlaintextSecretsAbsent : bool
}.

Record SourceSafetyClaims := {
  ssc_NoPlaintextSecrets : bool; ssc_SyntheticIDsOnly : bool; ssc_NoTenantData : bool;
  ssc_LinkedRequirements : list string }.

Record VerifyCase := {
  case_ID : string; case_Expected : string; case_Observed : string;
  case_PolicyRule : string; case_Error : string; case_Audited : bool;
  case_ReadinessClaimed : bool; case_Executable : bool }.

Record VerifyBlocker := {
  blk_ID : string; blk_Message : string; blk_Expected : string; blk_Observed : string;
  blk_PolicyRule : string; blk_Audited : bool; blk_ReadinessClaimed : bool;
  blk_Executable : bool; blk_Err : option goerror }.

Record VerifyReport := {
  vr_SchemaVersion : string;
  vr_GeneratedAt : string;
  vr_Scenario : Scenario;
  vr_Status : Status;
  vr_ReadinessClaimed : bool;
  vr_Target : string;
  vr_SyntheticOnly : bool;
  vr_Requirements : list string;
  vr_Coverage : VerifyCoverage;
  vr_Cases : list VerifyCase;
  vr_Blockers : list VerifyBlocker;
  vr_AuditEventCount : nat;
  vr_SourceSafety : SourceSafetyClaims;
  vr_NonClaims : list string;
  vr_ControlObservations : list string
}.

Definition zero_IdentityContract : IdentityContract := Build_IdentityContract false false false.
Definition zero_LifecycleClaims : LifecycleClaims := Build_LifecycleClaims false false false.
Definition zero_VerifyCoverage : VerifyCoverage :=
  {| vc_Organization := false; vc_ActiveTenant := false; vc_ActiveProject := false;
     vc_Roles := Build_RoleCoverage false false false; vc_Quotas := false;
     vc_APITokenReadScope := false; vc_SupportGrantWithTicketReason := false;
     vc_BreakGlassWithTicketReason := false; vc_AuditAppend := false;
     vc_Lifecycle := zero_LifecycleClaims; vc_IdentityContract := zero_IdentityContract;
     vc_PlaintextSecretsAbsent := false |}.

(** ** Fixtures *)

Definition fixedVerifierTime : Time := time_Date 2026 6 24 12 0 0.

Definition syntheticContractAuthenticationVerifier : AuthenticationVerifier :=
  AuthenticationFunc_Authenticate (Some (fun _ request at_ =>
    let proof := {| ap_VerifiedAt := at_; ap_ExpiresAt := time_Add at_ Hour |} in
    let mfa := {| mfa_Required := true; mfa_Satisfied := true;
                  mfa_MethodClass := MFAMethodExternalIDP |} in
    let session := {| sa_State := SessionStateFresh; sa_MaxAgeSeconds := 3600;
                      sa_ReauthenticationRequired := false |} in
    let result class :=
      {| ar_SubjectID := pr_ID (req_Subject request); ar_APITokenRef := "";
         ar_CredentialClass := class; ar_MFA := mfa; ar_Session := session;
         ar_Proof := proof |} in
    (if pr_APITokenRef (req_Subject request) != "" then
       {| ar_SubjectID := pr_ID (req_Subject request);
          ar_APITokenRef := pr_APITokenRef (req_Subject request);
          ar_CredentialClass := CredentialClassShortLivedAPIToken;
          ar_MFA := {| mfa_Required := false; mfa_Satisfied := false;
                       mfa_MethodClass := MFAMethodNone |};
          ar_Session := {| sa_State := SessionStateAbsent; sa_MaxAgeSeconds := 0;
                           sa_ReauthenticationRequired := false |};
          ar_Proof := proof |}
     else if req_BreakGlass request then result CredentialClassBreakGlass
     else if req_SupportGrantRef request != "" then result CredentialClassSupportGrant
     else result CredentialClassInteractiveSession, None))).

Definition principal (id : string) (memberships : list Membership) (support : bool)
  : Principal :=
  {| prin_ID := id; prin_Groups := []; prin_Memberships := memberships;
     prin_Support := support |}.

Definition membership (org tenant project : string) (role : Role) : Membership :=
  {| mem_OrgID := org; mem_TenantID := tenant; mem_ProjectID := project; mem_Role := role |}.

Definition repeated (n : nat) (c : string) : string := String.concat "" (repeat c n).

Definition token (reference digit : string) (expires revoked : Time) : APIToken :=
  {| tok_Reference := reference; tok_SubjectID := "viewer-a";
     tok_SecretHashRef := "sha256:" +:+ repeated 64 digit; tok_TenantID := "tenant-a";
     tok_ProjectID := "project-a"; tok_Scopes := [ActionProjectRead];
     tok_ExpiresAt := expires; tok_RevokedAt := revoked |}.

Definition grant (reference subject ticket reason : string) (expires : Time) : SupportGrant :=
  {| grant_Reference := reference; grant_SubjectID := subject; grant_TenantID := "tenant-a";
     grant_ProjectID := "project-a"; grant_Actions := [ActionProjectRead];
     grant_TicketRef := ticket; grant_Reason := reason; grant_ExpiresAt := expires |}.

Definition happyPolicy (now : Time) : Policy MemoryAuditSink :=
  let policy := NewPolicy
    {| cfg_Clock := Some (FixedClock now);
       cfg_AuditSink := Some MemoryAuditSink_ops;
       cfg_AuthenticationVerifier := Some syntheticContractAuthenticationVerifier;
       cfg_AuthenticationProofMaxAge := Hour;
       cfg_AuthenticationProofFutureSkew := Minute;
       cfg_AllowEphemeralAudit := true |} in
  {| p_Organizations :=
       {[ "org-a" := {| org_ID := "org-a"; org_Name := "Synthetic Organization A" |} ]};
     p_Tenants := {[ "tenant-a" :=
       {| tenant_ID := "tenant-a"; tenant_OrgID := "org-a"; tenant_State := TenantStateActive;
          tenant_Quotas := {| q_Projects := 8; q_CPU := 64; q_MemoryGB := 256 |} |} ]};
     p_Projects := {[ "project-a" :=
       {| proj_ID := "project-a"; proj_TenantID := "tenant-a"; proj_OrgID := "org-a";
          proj_Namespace := "tenant-a-system";
          proj_Scopes := [{| ns_Namespace := "tenant-a-readonly";
                             ns_Actions := [ActionProjectRead] |}] |} ]};
     p_Principals := list_to_map [
       ("tenant-admin-a", principal "tenant-admin-a"
          [membership "org-a" "tenant-a" "project-a" RoleTenantAdmin] false);
       ("owner-a", principal "owner-a"
          [membership "org-a" "tenant-a" "project-a" RoleOwner] false);
       ("viewer-a", principal "viewer-a"
          [membership "org-a" "tenant-a" "project-a" RoleTenantViewer] false);
       ("platform-admin", principal "platform-admin"
          [membership "org-a" "tenant-a" "" RolePlatformAdmin] false);
       ("support-user", principal "support-user" [] true);
       ("support-shadow", principal "support-shadow" [] true)];
     p_APITokens := {[ "tok-read-a" :=
       token "tok-read-a" "1" (time_Add now (4 * Hour)%Z) time_zero ]};
     p_SupportGrants := list_to_map [
       ("support-grant-a", grant "support-grant-a" "support-user" "SUP-1000"
          "tenant requested diagnostics" (time_Add now Hour));
       ("support-grant-owner-a", grant "support-grant-owner-a" "owner-a" "SUP-1001"
          "tenant requested owner diagnostics" (time_Add now Hour));
       ("support-grant-expired-a", grant "support-grant-expired-a" "support-user" "SUP-1002"
          "tenant requested expired diagnostics" (time_Add now (- Minute)%Z))];
     p_clock := p_clock policy; p_AuditSink := p_AuditSink policy;
     p_authenticator := p_authenticator policy; p_proofMaxAge := p_proofMaxAge policy;
     p_proofSkew := p_proofSkew policy;
     p_allowEphemeralAudit := p_allowEphemeralAudit policy |}.

Definition edgePolicy (now : Time) : Policy MemoryAuditSink :=
  let policy := happyPolicy now in
  let tenant id org state :=
    {| tenant_ID := id; tenant_OrgID := org; tenant_State := state;
       tenant_Quotas := zero_Quotas |} in
  let project id tenant org namespace :=
    {| proj_ID := id; proj_TenantID := tenant; proj_OrgID := org;
       proj_Namespace := namespace; proj_Scopes := [] |} in
  {| p_Organizations :=
       <["org-b" := {| org_ID := "org-b"; org_Name := "Synthetic Organization B" |}]>
         (p_Organizations policy);
     p_Tenants :=
       <["tenant-deleting" := tenant "tenant-deleting" "org-a" TenantStateDeleting]>
       (<["tenant-suspended" := tenant "tenant-suspended" "org-a" TenantStateSuspended]>
       (<["tenant-b" := tenant "tenant-b" "org-b" TenantStateActive]> (p_Tenants policy)));
     p_Projects :=
       <["project-deleting" :=
           project "project-deleting" "tenant-deleting" "org-a" "tenant-deleting-system"]>
       (<["project-suspended" :=
           project "project-suspended" "tenant-suspended" "org-a" "tenant-suspended-system"]>
       (<["project-b" := project "project-b" "tenant-b" "org-b" "tenant-b-system"]>
         (p_Projects policy)));
     p_Principals :=
       <["owner-deleting" := principal "owner-deleting"
           [membership "org-a" "tenant-deleting" "project-deleting" RoleOwner] false]>
         (p_Principals policy);
     p_APITokens :=
       <["tok-revoked-a" :=
           token "tok-revoked-a" "3" (time_Add now Hour) (time_Add now (- Minute)%Z)]>
       (<["tok-expired-a" := token "tok-expired-a" "2" (time_Add now (- Minute)%Z) time_zero]>
         (p_APITokens policy));
     p_SupportGrants := p_SupportGrants policy;
     p_clock := p_clock policy; p_AuditSink := p_AuditSink policy;
     p_authenticator := p_authenticator policy; p_proofMaxAge := p_proofMaxAge policy;
     p_proofSkew := p_proofSkew policy;
     p_allowEphemeralAudit := p_allowEphemeralAudit policy |}.

(** [policy.AuditSink = sink] and [policy.authenticator = authenticator] *)
Definition set_AuditSink {S} (policy : Policy S) (sink : option (AuditSink S)) : Policy S :=
  {| p_Organizations := p_Organizations policy; p_Tenants := p_Tenants policy;
     p_Projects := p_Projects policy; p_Principals := p_Principals policy;
     p_APITokens := p_APITokens policy; p_SupportGrants := p_SupportGrants policy;
     p_clock := p_clock policy; p_AuditSink := sink;
     p_authenticator := p_authenticator policy; p_proofMaxAge := p_proofMaxAge policy;
     p_proofSkew := p_proofSkew policy;
     p_allowEphemeralAudit := p_allowEphemeralAudit policy |}.

Definition set_authenticator {S} (policy : Policy S)
    (authenticator : option AuthenticationVerifier) : Policy S :=
  {| p_Organizations := p_Organizations policy; p_Tenants := p_Tenants policy;
     p_Projects := p_Projects policy; p_Principals := p_Principals policy;
     p_APITokens := p_APITokens policy; p_SupportGrants := p_SupportGrants policy;
     p_clock := p_clock policy; p_AuditSink := p_AuditSink policy;
     p_authenticator := authenticator; p_proofMaxAge := p_proofMaxAge policy;
     p_proofSkew := p_proofSkew policy;
     p_allowEphemeralAudit := p_allowEphemeralAudit policy |}.

Definition policyWithFailingAudit (now : Time) : Policy MemoryAuditSink :=
  set_AuditSink (happyPolicy now) (Some FailingAuditSink_ops).

Definition policyWithoutAuthentication (now : Time) : Policy MemoryAuditSink :=
  set_authenticator (edgePolicy now) None.

Definition policyWithMFADenied (now : Time) : Policy MemoryAuditSink :=
  set_authenticator (edgePolicy now)
    (Some (AuthenticationFunc_Authenticate (Some (fun ctx request _ =>
      let '(result, _) := syntheticContractAuthenticationVerifier ctx request now in
      ({| ar_SubjectID := ar_SubjectID result; ar_APITokenRef := ar_APITokenRef result;
          ar_CredentialClass := ar_CredentialClass result;
          ar_MFA := {| mfa_Required := mfa_Required (ar_MFA result); mfa_Satisfied := false;
                       mfa_MethodClass := mfa_MethodClass (ar_MFA result) |};
          ar_Session := ar_Session result; ar_Proof := ar_Proof result |}, None))))).

Definition policyWithStaleSession (now : Time) : Policy MemoryAuditSink :=
  set_authenticator (edgePolicy now)
    (Some (AuthenticationFunc_Authenticate (Some (fun ctx request _ =>
      let '(result, _) := syntheticContractAuthenticationVerifier ctx request now in
      let session := ar_Session result in
      ({| ar_SubjectID := ar_SubjectID result; ar_APITokenRef := ar_APITokenRef result;
          ar_CredentialClass := ar_CredentialClass result; ar_MFA := ar_MFA result;
          ar_Session := {| sa_State := SessionStateStale;
                           sa_MaxAgeSeconds := sa_MaxAgeSeconds session;
                           sa_ReauthenticationRequired :=
                             sa_ReauthenticationRequired session |};
          ar_Proof := ar_Proof result |}, None))))).

Definition verifierTargetFor (orgID tenantID projectID : string) : TargetRef :=
  {| tr_OrgID := orgID; tr_TenantID := tenantID; tr_ProjectID := projectID;
     tr_Namespace := tenantID +:+ "-system"; tr_Resource := "project"; tr_Name := projectID |}.

Definition verifierTarget (projectID : string) : TargetRef :=
  if projectID == "project-suspended" then verifierTargetFor "org-a" "tenant-suspended" projectID
  else if projectID == "project-deleting"
  then verifierTargetFor "org-a" "tenant-deleting" projectID
  else verifierTargetFor "org-a" "tenant-a" projectID.

Definition requestContext (now : Time) (correlationID reason : string) : RequestContext :=
  {| rc_TicketRef := ""; rc_CorrelationID := correlationID; rc_Reason := reason;
     rc_Now := now; rc_TargetPrincipal := "" |}.

Definition context (now : Time) (correlationID reason ticket target : string)
  : RequestContext :=
  {| rc_TicketRef := ticket; rc_CorrelationID := correlationID; rc_Reason := reason;
     rc_Now := now; rc_TargetPrincipal := target |}.

Definition request (subject token : string) (action : Action) (target : TargetRef)
    (ctx : RequestContext) (supportGrant : string) (breakGlass : bool)
  : AuthorizationRequest :=
  {| req_Subject := {| pr_ID := subject; pr_APITokenRef := token |}; req_Action := action;
     req_Target := target; req_Context := ctx; req_SupportGrantRef := supportGrant;
     req_BreakGlass := breakGlass |}.

Definition newline : string := String (Ascii.ascii_of_nat 10) "".

(** The policy a request is put to: the scenario's own, whose sink collects the
    events of all such requests, or one made for the request alone. *)
Inductive asked :=
  | shared
  | own (policy : Policy MemoryAuditSink).

(** A check of the contract: the case, the error a denial must carry ([None]
    for an expected allow), the policy and the request. *)
Definition check : Type := string * option goerror * asked * AuthorizationRequest.

(** The requests of [verifyHappy], in order. *)
Definition happyCases (now : Time) : list check :=
  [("tenant_admin_project_manage", None, shared,
     (request "tenant-admin-a" "" ActionProjectManage
       (verifierTarget "project-a")
       (requestContext now "corr-admin-manage" "manage project") "" false));
   ("owner_project_write", None, shared,
     (request "owner-a" "" ActionProjectWrite
       (verifierTarget "project-a")
       (requestContext now "corr-owner-write" "write owned resource") "" false));
   ("viewer_project_read", None, shared,
     (request "viewer-a" "" ActionProjectRead
       (verifierTarget "project-a")
       (requestContext now "corr-viewer-read" "read project") "" false));
   ("api_token_read_scope", None, shared,
     (request "viewer-a" "tok-read-a" ActionProjectRead
       (verifierTarget "project-a")
       (requestContext now "corr-token-read" "read via scoped token") "" false));
   ("support_grant_ticket_reason", None, shared,
     (request "support-user" "" ActionProjectRead
       (verifierTarget "project-a")
       (context now "corr-support-read" "tenant requested diagnostics" "SUP-1000" "")
       "support-grant-a" false));
   ("break_glass_ticket_reason", None, shared,
     (request "platform-admin" "" ActionTenantRecover
       (verifierTarget "project-a")
       (context now "corr-break-glass-recover" "recover tenant during incident" "INC-42" "")
       "" true))].

(** The requests of [verifyEdge], in order. *)
Definition edgeCases (now : Time) : list check :=
  [("authentication_required", Some ErrAuthentication, own (policyWithoutAuthentication now),
     (request "viewer-a" "" ActionProjectRead
       (verifierTarget "project-a")
       (requestContext now "corr-auth-required" "unverified subject reference") "" false));
   ("mfa_required", Some ErrMFARequired, own (policyWithMFADenied now),
     (request "tenant-admin-a" "" ActionProjectWrite
       (verifierTarget "project-a")
       (requestContext now "corr-mfa-required" "write without mfa assurance") "" false));
   ("session_assurance_denied", Some ErrSessionAssurance, own (policyWithStaleSession now),
     (request "viewer-a" "" ActionProjectRead
       (verifierTarget "project-a")
       (requestContext now "corr-session-stale" "read with stale session") "" false));
   ("break_glass_required", Some ErrBreakGlass, shared,
     (request "platform-admin" "" ActionTenantRecover
       (verifierTarget "project-a")
       (requestContext now "corr-break-glass-required" "recover without break-glass context")
       "" false));
   ("cross_tenant_denied", Some ErrCrossTenant, shared,
     (request "tenant-admin-a" "" ActionProjectWrite
       (verifierTargetFor "org-b" "tenant-b" "project-b")
       (requestContext now "corr-cross-tenant" "attempt cross tenant write") "" false));
   ("tenant_lifecycle_write_denied", Some ErrTenantSuspended, shared,
     (request "tenant-admin-a" "" ActionProjectWrite
       (verifierTarget "project-suspended")
       (requestContext now "corr-suspended-write" "attempt suspended write") "" false));
   ("tenant_deleting_write_denied", Some ErrTenantDeleting, shared,
     (request "owner-deleting" "" ActionProjectWrite
       (verifierTarget "project-deleting")
       (requestContext now "corr-deleting-write" "attempt deleting write") "" false));
   ("api_token_expired", Some ErrTokenExpired, shared,
     (request "viewer-a" "tok-expired-a" ActionProjectRead
       (verifierTarget "project-a")
       (requestContext now "corr-token-expired" "expired token read") "" false));
   ("api_token_revoked", Some ErrTokenRevoked, shared,
     (request "viewer-a" "tok-revoked-a" ActionProjectRead
       (verifierTarget "project-a")
       (requestContext now "corr-token-revoked" "revoked token read") "" false));
   ("api_token_scope_denied", Some ErrTokenScope, shared,
     (request "viewer-a" "tok-read-a" ActionProjectWrite
       (verifierTarget "project-a")
       (requestContext now "corr-token-scope" "wrong token scope") "" false));
   ("audit_required", None, own (policyWithFailingAudit now),
     (request "viewer-a" "" ActionProjectRead
       (verifierTarget "project-a")
       (requestContext now "corr-audit-required" "read project") "" false));
   ("last_owner_guard", Some ErrLastOwner, shared,
     (request "owner-a" "" ActionOwnerRemove
       (verifierTarget "project-a")
       (context now "corr-last-owner" "remove owner" "" "owner-a")
       "" false));
   ("break_glass_reason_required", Some ErrReasonRequired, shared,
     (request "platform-admin" "" ActionTenantRecover
       (verifierTarget "project-a")
       (context now "corr-break-glass" "" "" "")
       "" true));
   ("break_glass_ticket_required", Some ErrTicketRequired, shared,
     (request "platform-admin" "" ActionTenantRecover
       (verifierTarget "project-a")
       (context now "corr-break-glass-ticket" "recover tenant during incident" "" "")
       "" true))].

Definition edgeSupportRequests (now : Time) : list check :=
  [("support_ticket_required", Some ErrTicketRequired, shared,
     (request "support-user" "" ActionProjectRead
       (verifierTarget "project-a")
       (requestContext now "corr-support-ticket" "support without ticket")
       "support-grant-a" false));
   ("support_reason_required", Some ErrReasonRequired, shared,
     (request "support-user" "" ActionProjectRead
       (verifierTarget "project-a")
       (context now "corr-support-reason" "" "SUP-1000" "")
       "support-grant-a" false));
   ("support_grant_expired", Some ErrSupportGrant, shared,
     (request "support-user" "" ActionProjectRead
       (verifierTarget "project-a")
       (context now "corr-support-expired" "tenant requested expired diagnostics" "SUP-1002" "")
       "support-grant-expired-a" false));
   ("support_principal_required", Some ErrSupportGrant, shared,
     (request "owner-a" "" ActionProjectRead
       (verifierTarget "project-a")
       (context now "corr-support-principal" "tenant requested owner diagnostics" "SUP-1001" "")
       "support-grant-owner-a" false));
   ("support_grant_absent", Some ErrSupportGrant, shared,
     (request "support-user" "" ActionProjectRead
       (verifierTarget "project-a")
       (context now "corr-support-absent" "tenant requested missing grant diagnostics" "SUP-404" "")
       "support-grant-missing" false));
   ("support_grant_subject_mismatch", Some ErrSupportGrant, shared,
     (request "support-shadow" "" ActionProjectRead
       (verifierTarget "project-a")
       (context now "corr-support-subject" "tenant requested diagnostics" "SUP-1000" "")
       "support-grant-a" false));
   ("support_grant_action_denied", Some ErrSupportGrant, shared,
     (request "support-user" "" ActionProjectWrite
       (verifierTarget "project-a")
       (context now "corr-support-action" "tenant requested diagnostics" "SUP-1000" "")
       "support-grant-a" false));
   ("support_grant_tenant_mismatch", Some ErrCrossTenant, shared,
     (request "support-user" "" ActionProjectRead
       (verifierTargetFor "org-b" "tenant-b" "project-b")
       (context now "corr-support-tenant" "tenant requested diagnostics" "SUP-1000" "")
       "support-grant-a" false))].

Definition edgeInputRequests (now : Time) : list check :=
  [("malformed_input_audited_no_claims", Some ErrUnknownPrincipal, shared,
     (request ("unknown" +:+ newline +:+ "cloudring_iam_contract_ok") "" ActionProjectRead
       (verifierTarget "project-a")
       (requestContext now "corr-malformed-input" "malformed principal rejected") "" false))].

(** ** Results *)

Definition blocker (id message expected observed rule : string) (err : option goerror)
  : VerifyBlocker :=
  {| blk_ID := id; blk_Message := message; blk_Expected := expected; blk_Observed := observed;
     blk_PolicyRule := rule; blk_Audited := true; blk_ReadinessClaimed := false;
     blk_Executable := true; blk_Err := err |}.

Definition errorMessage (err : option goerror) : string :=
  match err with Some err => Error err | None => "" end.

Definition caseResult (blocker : VerifyBlocker) : VerifyCase :=
  {| case_ID := blk_ID blocker; case_Expected := blk_Expected blocker;
     case_Observed := blk_Observed blocker; case_PolicyRule := blk_PolicyRule blocker;
     case_Error := errorMessage (blk_Err blocker); case_Audited := blk_Audited blocker;
     case_ReadinessClaimed := blk_ReadinessClaimed blocker;
     case_Executable := blk_Executable blocker |}.

Definition blockersToCases (blockers : list VerifyBlocker) : list VerifyCase :=
  map caseResult blockers.

Definition normalizeBlockers (blockers : list VerifyBlocker) : list VerifyBlocker :=
  sort_Slice (fun a b => string_lt (blk_ID a) (blk_ID b)) blockers.

Definition tokenSecretRefsOnly {S} (policy : Policy S) : bool :=
  forallb (fun kv => negb (tok_SecretHashRef kv.2 == "")) (map_to_list (p_APITokens policy)).

Definition failClosedBlocker (id message rule : string) : VerifyBlocker :=
  blocker id message "deny" "deny" rule None.

Section Run.
Context (wall : Time).

Definition verifyAllowed (id : string) (policy : Policy MemoryAuditSink) (request : AuthorizationRequest)
    (s : MemoryAuditSink) : MemoryAuditSink * VerifyBlocker :=
  let '(s, decision) := Authorize policy request wall s in
  (s, if d_Allowed decision
      then blocker id "allow observed" "allow" "allow" (d_PolicyRule decision) None
      else blocker id "expected allow was denied" "allow" "deny" (d_PolicyRule decision)
             (d_Err decision)).

Definition verifyDenied (id : string) (want : goerror) (policy : Policy MemoryAuditSink)
    (request : AuthorizationRequest) (s : MemoryAuditSink) : MemoryAuditSink * VerifyBlocker :=
  let '(s, decision) := Authorize policy request wall s in
  (s, if d_Allowed decision
      then blocker id "expected deny was allowed" "deny" "allow" (d_PolicyRule decision) None
      else if negb (match d_Err decision with
                    | Some err => errors_Is err want
                    | None => false
                    end)
      then blocker id "expected deny error was not observed" "deny" "deny"
             (d_PolicyRule decision) (d_Err decision)
      else blocker id "deny observed" "deny" "deny" (d_PolicyRule decision) (d_Err decision)).

(** Runs checks in order against [policy] and its sink. *)
Fixpoint run_checks (policy : Policy MemoryAuditSink) (checks : list check) (s : MemoryAuditSink)
  : MemoryAuditSink * list VerifyBlocker :=
  match checks with
  | [] => (s, [])
  | (id, want, to, request) :: rest =>
      let verify := match want with
                    | Some want => verifyDenied id want
                    | None => verifyAllowed id
                    end in
      let '(s, result) :=
        match to with
        | shared => verify policy request s
        | own policy => (s, (verify policy request NewMemoryAuditSink).2)
        end in
      let '(s, results) := run_checks policy rest s in
      (s, result :: results)
  end.

Definition newReport (scenario : Scenario) (status : Status) : VerifyReport :=
  {| vr_SchemaVersion := "cloudring.iam.verify/v1";
     vr_GeneratedAt := Format_RFC3339 fixedVerifierTime;
     vr_Scenario := scenario; vr_Status := status; vr_ReadinessClaimed := false;
     vr_Target := "CloudRING IAM tenant/project access contract";
     vr_SyntheticOnly := true;
     vr_Requirements :=
       ["CR-IAM-001"; "CR-IAM-002"; "CR-IAM-005"; "CR-IAM-007"; "CR-IAM-008"; "CR-IAM-013";
        "CR-IAM-016"; "CR-IAM-017"; "CR-IAM-018"; "CR-SEC-001..027"; "CR-CAPEVID-047"];
     vr_Coverage := zero_VerifyCoverage; vr_Cases := []; vr_Blockers := [];
     vr_AuditEventCount := 0;
     vr_SourceSafety :=
       {| ssc_NoPlaintextSecrets := true; ssc_SyntheticIDsOnly := true;
          ssc_NoTenantData := true;
          ssc_LinkedRequirements :=
            ["tenant_lifecycle"; "iam"; "audit"; "support"; "api_tokens"; "source_safety"] |};
     vr_NonClaims :=
       ["synthetic contract verification does not claim installation readiness";
        "does not claim production identity-provider readiness";
        "does not contain real tenant data, private endpoints, credentials, auth headers, cookies, or token values";
        "does not mutate live cloud, Kubernetes, GitOps, DNS, billing, support, or identity systems"];
     vr_ControlObservations :=
       ["stdout markers are static"; "JSON evidence is emitted from typed structs";
        "blocked reports do not claim readiness"] |}.

(** The fields a scenario fills in. *)
Definition with_results (report : VerifyReport) (coverage : VerifyCoverage)
    (cases : list VerifyCase) (blockers : list VerifyBlocker) (count : nat) : VerifyReport :=
  {| vr_SchemaVersion := vr_SchemaVersion report; vr_GeneratedAt := vr_GeneratedAt report;
     vr_Scenario := vr_Scenario report; vr_Status := vr_Status report;
     vr_ReadinessClaimed := vr_ReadinessClaimed report; vr_Target := vr_Target report;
     vr_SyntheticOnly := vr_SyntheticOnly report; vr_Requirements := vr_Requirements report;
     vr_Coverage := coverage; vr_Cases := cases; vr_Blockers := blockers;
     vr_AuditEventCount := count; vr_SourceSafety := vr_SourceSafety report;
     vr_NonClaims := vr_NonClaims report;
     vr_ControlObservations := vr_ControlObservations report |}.

Definition denied_with (policy : Policy MemoryAuditSink) (request : AuthorizationRequest)
    (want : goerror) : bool :=
  let decision := (Authorize policy request wall NewMemoryAuditSink).2 in
  negb (d_Allowed decision) &&
  match d_Err decision with Some err => errors_Is err want | None => false end.

Definition assuranceCoverage (now : Time) (events : list AuditEvent) : IdentityContract :=
  if (length events =? 0)%nat then zero_IdentityContract else
  let authenticated := forallb (fun event => negb (ev_CredentialClass event == "")) events in
  let session := forallb (fun event =>
    negb ((ev_CredentialClass event != CredentialClassShortLivedAPIToken) &&
          (sa_State (ev_Session event) != SessionStateFresh))) events in
  let mfa := forallb (fun event =>
    negb (mfa_Required (ev_MFA event) &&
          (negb (mfa_Satisfied (ev_MFA event)) ||
           negb (knownSatisfiedMFAMethod (mfa_MethodClass (ev_MFA event)))))) events in
  {| ic_AuthenticatedSubjectCovered := authenticated &&
       denied_with (policyWithoutAuthentication now)
         (request "viewer-a" "" ActionProjectRead (verifierTarget "project-a")
            (requestContext now "corr-auth-coverage" "authentication coverage") "" false)
         ErrAuthentication;
     ic_MFAEnforcementCovered := mfa &&
       denied_with (policyWithMFADenied now)
         (request "tenant-admin-a" "" ActionProjectWrite (verifierTarget "project-a")
            (requestContext now "corr-mfa-coverage" "mfa coverage") "" false)
         ErrMFARequired;
     ic_SessionEnforcementCovered := session &&
       denied_with (policyWithStaleSession now)
         (request "viewer-a" "" ActionProjectRead (verifierTarget "project-a")
            (requestContext now "corr-session-coverage" "session coverage") "" false)
         ErrSessionAssurance |}.

Definition verifyHappy : VerifyReport :=
  let now := fixedVerifierTime in
  let policy := happyPolicy now in
  let '(s, results) := run_checks policy (happyCases now) NewMemoryAuditSink in
  let cases := blockersToCases results in
  let events := AuditEvents policy s in
  let tenant := default zero_Tenant (p_Tenants policy !! "tenant-a") in
  with_results (newReport ScenarioHappy StatusReady)
    {| vc_Organization := (size (p_Organizations policy) =? 1)%nat;
       vc_ActiveTenant := tenant_State tenant == TenantStateActive;
       vc_ActiveProject :=
         proj_ID (default zero_Project (p_Projects policy !! "project-a")) == "project-a";
       vc_Roles := {| rcv_TenantAdmin := true; rcv_Owner := true; rcv_Viewer := true |};
       vc_Quotas := (0 <? q_Projects (tenant_Quotas tenant))%Z &&
                    (0 <? q_CPU (tenant_Quotas tenant))%Z &&
                    (0 <? q_MemoryGB (tenant_Quotas tenant))%Z;
       vc_APITokenReadScope := true; vc_SupportGrantWithTicketReason := true;
       vc_BreakGlassWithTicketReason := true;
       vc_AuditAppend := (length events =? length cases)%nat;
       vc_Lifecycle := zero_LifecycleClaims;
       vc_IdentityContract := assuranceCoverage now events;
       vc_PlaintextSecretsAbsent := tokenSecretRefsOnly policy |}
    cases [] (length events).

Definition verifyMalformedScenario : VerifyReport :=
  let blockers := [failClosedBlocker "malformed_scenario" "scenario rejected" "fail_closed"] in
  with_results (newReport "malformed" StatusBlocked) zero_VerifyCoverage
    (blockersToCases blockers) blockers 1.

(** What [VerifyContract] returns: the report, the exit code and the error. *)
Definition outcome : Type := VerifyReport * Z * option goerror.

Section Contract.
(** [VerifyContract], which [verifyEdge] calls back for malformed scenarios;
    [None] stands for a run that never ends. *)
Context (contract : VerifyOptions -> option outcome).

Definition verifyScenarioInputDenied (id : string) (scenario : Scenario)
  : option VerifyBlocker :=
  match contract {| vo_Scenario := scenario; vo_EvidencePath := "" |} with
  | None => None
  | Some (_, _, Some err) =>
      Some (blocker id "scenario verifier error" "deny" "error" "fail_closed" (Some err))
  | Some (report, code, None) =>
      Some (if (code =? 2)%Z && (vr_Status report == StatusBlocked) &&
               negb (vr_ReadinessClaimed report) &&
               match vr_Blockers report with
               | [only] => blk_ID only == "malformed_scenario"
               | _ => false
               end
            then blocker id "scenario rejected" "deny" "deny" "fail_closed" None
            else blocker id "scenario was not rejected" "deny" "allow" "fail_closed" None)
  end.

Definition edgeSupportCases (now : Time) (policy : Policy MemoryAuditSink) (s : MemoryAuditSink)
  : MemoryAuditSink * list VerifyBlocker :=
  run_checks policy (edgeSupportRequests now) s.

Definition edgeInputCases (now : Time) (policy : Policy MemoryAuditSink) (s : MemoryAuditSink)
  : option (MemoryAuditSink * list VerifyBlocker) :=
  match verifyScenarioInputDenied "malformed_scenario" "unknown",
        verifyScenarioInputDenied "stdout_control_character_denied"
          ("bad" +:+ newline +:+ "cloudring_iam_contract_ok") with
  | Some first, Some second =>
      let '(s, results) := run_checks policy (edgeInputRequests now) s in
      Some (s, first :: second :: results)
  | _, _ => None
  end.

Definition verifyEdge : option VerifyReport :=
  let now := fixedVerifierTime in
  let policy := edgePolicy now in
  let '(s, checks) := run_checks policy (edgeCases now) NewMemoryAuditSink in
  let '(s, support) := edgeSupportCases now policy s in
  match edgeInputCases now policy s with
  | None => None
  | Some (s, input) =>
      let blockers := normalizeBlockers (checks ++ support ++ input) in
      let coverage :=
        {| vc_Organization := false; vc_ActiveTenant := false; vc_ActiveProject := false;
           vc_Roles := vc_Roles zero_VerifyCoverage; vc_Quotas := false;
           vc_APITokenReadScope := false; vc_SupportGrantWithTicketReason := false;
           vc_BreakGlassWithTicketReason := false; vc_AuditAppend := true;
           vc_Lifecycle := {| lc_SuspendedWriteDenied := true;
                              lc_DeletingWriteDenied := true; lc_LastOwnerGuard := true |};
           vc_IdentityContract := zero_IdentityContract;
           vc_PlaintextSecretsAbsent := tokenSecretRefsOnly policy |} in
      Some (with_results (newReport ScenarioEdge StatusBlocked) coverage
              (blockersToCases blockers) blockers (length (AuditEvents policy s)))
  end.

End Contract.

(** [privateartifact.WriteNewJSON]: writing the evidence file. *)
Context (WriteNewJSON : string -> VerifyReport -> option goerror).

Definition writeVerifyEvidence (path : string) (report : VerifyReport) : option goerror :=
  if path == "" then None
  else match WriteNewJSON path report with
  | Some err => Some (Errorf_w "write iam evidence: " err)
  | None => None
  end.

(** [VerifyContract] calls itself through [verifyEdge]: [fuel] bounds the depth. *)
Fixpoint VerifyContract (fuel : nat) (opts : VerifyOptions) : option outcome :=
  match fuel with
  | O => None
  | S fuel =>
      let finish report code :=
        Some (report, code, writeVerifyEvidence (vo_EvidencePath opts) report) in
      if (vo_Scenario opts == "") || (vo_Scenario opts == ScenarioHappy)
      then finish verifyHappy 0%Z
      else if vo_Scenario opts == ScenarioEdge then
        match verifyEdge (VerifyContract fuel) with
        | None => None
        | Some report => finish report 2%Z
        end
      else finish verifyMalformedScenario 2%Z
  end.

End Run.

Lemma VerifyContract_S wall write fuel opts :
  VerifyContract wall write (S fuel) opts =
  let finish report code :=
    Some (report, code, writeVerifyEvidence write (vo_EvidencePath opts) report) in
  if (vo_Scenario opts == "") || (vo_Scenario opts == ScenarioHappy)
  then finish (verifyHappy wall) 0%Z
  else if vo_Scenario opts == ScenarioEdge then
    match verifyEdge wall (VerifyContract wall write fuel) with
    | None => None
    | Some report => finish report 2%Z
    end
  else finish verifyMalformedScenario 2%Z.
Proof. done. Qed.
