(* ===== verification/IamSpec.v ===== *)
(** * Package [iam]: what an authorization means

    An abstract access model, stated without the engine's control flow, and
    the lemmas that the functions of [IamPolicy] decide its clauses. *)

From stdpp Require Import gmap strings list fin_maps.
From Stdlib Require Import ZArith Lia.
From S2P Require Import Prelude GoString GoTime IamTypes IamRules IamAudit IamPolicy.

(** ** Assurance *)

Definition MFA_required (request : AuthorizationRequest) (subject : resolvedSubject) : Prop :=
  mfa_Required (rs_mfa subject) = true \/
  (rs_authnClass subject <> CredentialClassShortLivedAPIToken /\
   (req_Action request <> ActionProjectRead \/ req_SupportGrantRef request <> "" \/
    req_BreakGlass request = true)).

Definition MFA_satisfied (subject : resolvedSubject) : Prop :=
  mfa_Satisfied (rs_mfa subject) = true /\
  mfa_MethodClass (rs_mfa subject) ∈
    [MFAMethodTOTP; MFAMethodWebAuthn; MFAMethodHardwareKey; MFAMethodExternalIDP].

Definition Session_ok (subject : resolvedSubject) : Prop :=
  sa_ReauthenticationRequired (rs_session subject) = false /\
  (rs_authnClass subject = CredentialClassShortLivedAPIToken /\
     sa_State (rs_session subject) = SessionStateAbsent /\
     sa_MaxAgeSeconds (rs_session subject) = 0%Z \/
   rs_authnClass subject <> CredentialClassShortLivedAPIToken /\
     sa_State (rs_session subject) = SessionStateFresh /\
     (0 < sa_MaxAgeSeconds (rs_session subject))%Z).

Definition Assured (request : AuthorizationRequest) (subject : resolvedSubject) : Prop :=
  (MFA_required request subject -> MFA_satisfied subject) /\ Session_ok subject.

(** ** Targets *)

Definition InScope (target : TargetRef) (project : Project) (action : Action) : Prop :=
  tr_Namespace target <> "" /\
  (tr_Namespace target = proj_Namespace project \/
   exists scope, scope ∈ proj_Scopes project /\
     ns_Namespace scope = tr_Namespace target /\ action ∈ ns_Actions scope).

Definition LifecycleOpen (state : TenantState) (action : Action) : Prop :=
  state = TenantStateActive \/
  (state = TenantStateSuspended /\
     action ∈ [ActionTenantExport; ActionTenantRecover; ActionProjectRead]) \/
  (state = TenantStateDeleting /\ action ∈ [ActionTenantExport; ActionProjectRead]) \/
  (state = TenantStateRecovering /\ action ∈ [ActionTenantRecover; ActionProjectRead]) \/
  (state = TenantStateExporting /\ action ∈ [ActionTenantExport; ActionProjectRead]).

Section Spec.
Context {S : Type}.
Implicit Types policy : Policy S.

Definition Resolved policy (target : TargetRef) (tenant : Tenant) (project : Project) : Prop :=
  (exists organization, p_Organizations policy !! tr_OrgID target = Some organization /\
     org_ID organization = tr_OrgID target) /\
  p_Tenants policy !! tr_TenantID target = Some tenant /\
  tenant_ID tenant = tr_TenantID target /\ tenant_OrgID tenant = tr_OrgID target /\
  p_Projects policy !! tr_ProjectID target = Some project /\
  proj_ID project = tr_ProjectID target /\ proj_TenantID project = tr_TenantID target /\
  proj_OrgID project = tr_OrgID target.

Definition Owns policy (reference : string) (project : Project) : Prop :=
  exists principal, p_Principals policy !! reference = Some principal /\
    principalOwns principal project = true.

(** Every directory entry is filed under its own, non-empty identity. *)
Definition WellKeyed policy : Prop :=
  forall reference principal, p_Principals policy !! reference = Some principal ->
    reference <> "" /\ prin_ID principal = reference.

(** The owner named by the request may go: it owns the project and somebody
    else keeps owning it. *)
Definition OwnerRemovable policy (target : string) (project : Project) : Prop :=
  WellKeyed policy /\ Owns policy target project /\
  exists other, other <> target /\ Owns policy other project.

(** ** Routes to an allow *)

Definition BreakGlassRoute (request : AuthorizationRequest) (subject : resolvedSubject) : Prop :=
  blank (rc_Reason (req_Context request)) = false /\
  blank (rc_TicketRef (req_Context request)) = false /\
  platform_admin (rs_principal subject).

Definition SupportRoute policy (request : AuthorizationRequest) (subject : resolvedSubject)
    (now : Time) : Prop :=
  exists grant, p_SupportGrants policy !! req_SupportGrantRef request = Some grant /\
    grant_Reference grant = req_SupportGrantRef request /\
    grant_SubjectID grant = prin_ID (rs_principal subject) /\
    prin_Support (rs_principal subject) = true /\
    blank (rc_TicketRef (req_Context request)) = false /\
    rc_TicketRef (req_Context request) = grant_TicketRef grant /\
    blank (rc_Reason (req_Context request)) = false /\
    blank (grant_Reason grant) = false /\
    grant_ExpiresAt grant <> 0%Z /\ (now < grant_ExpiresAt grant)%Z /\
    grant_TenantID grant = tr_TenantID (req_Target request) /\
    grant_ProjectID grant = tr_ProjectID (req_Target request) /\
    req_Action request ∈ grant_Actions grant.

Definition TokenRoute (request : AuthorizationRequest) (token : APIToken) (now : Time) : Prop :=
  tok_RevokedAt token = 0%Z /\ tok_ExpiresAt token <> 0%Z /\ (now < tok_ExpiresAt token)%Z /\
  tok_TenantID token = tr_TenantID (req_Target request) /\
  tok_ProjectID token = tr_ProjectID (req_Target request) /\
  tok_SecretHashRef token <> "" /\ req_Action request ∈ tok_Scopes token.

Definition RoleRoute (request : AuthorizationRequest) (subject : resolvedSubject) : Prop :=
  platform_admin (rs_principal subject) \/
  exists membership, membership ∈ prin_Memberships (rs_principal subject) /\
    covers membership (req_Target request) /\
    membershipRoleAllows (mem_Role membership) (req_Action request) = true.

(** Exactly one route applies to a request. *)
Definition Route policy (request : AuthorizationRequest) (subject : resolvedSubject)
    (now : Time) : Prop :=
  if req_BreakGlass request then BreakGlassRoute request subject
  else if req_SupportGrantRef request != "" then SupportRoute policy request subject now
  else if pr_APITokenRef (req_Subject request) != ""
  then TokenRoute request (rs_apiGrant subject) now
  else RoleRoute request subject.

Definition Permitted policy (request : AuthorizationRequest) (subject : resolvedSubject)
    (now : Time) : Prop :=
  knownAction (req_Action request) = true /\
  Assured request subject /\
  (req_Action request = ActionTenantRecover -> req_BreakGlass request = true) /\
  exists tenant project,
    Resolved policy (req_Target request) tenant project /\
    InScope (req_Target request) project (req_Action request) /\
    LifecycleOpen (tenant_State tenant) (req_Action request) /\
    (req_Action request = ActionOwnerRemove ->
       OwnerRemovable policy (rc_TargetPrincipal (req_Context request)) project) /\
    Route policy request subject now.

(** ** Authentication *)

Definition ProofFresh policy (result : AuthenticationResult) (now : Time) : Prop :=
  let proof := ar_Proof result in
  (0 < p_proofMaxAge policy <= 24 * Hour /\ 0 <= p_proofSkew policy <= 5 * Minute /\
   ap_VerifiedAt proof <> 0 /\ ap_ExpiresAt proof <> 0 /\
   ap_VerifiedAt proof < ap_ExpiresAt proof /\ now < ap_ExpiresAt proof /\
   ap_VerifiedAt proof <= now + p_proofSkew policy /\
   now - ap_VerifiedAt proof <= p_proofMaxAge policy /\
   (ar_CredentialClass result <> CredentialClassShortLivedAPIToken ->
      0 < sa_MaxAgeSeconds (ar_Session result) /\
      sa_MaxAgeSeconds (ar_Session result) * Second <= p_proofMaxAge policy /\
      now - ap_VerifiedAt proof <= sa_MaxAgeSeconds (ar_Session result) * Second))%Z.

(** The verifier's answer for this request passed the proof bounds. *)
Definition Verified policy (ctx : Context_) (request : AuthorizationRequest) (now : Time)
    (result : AuthenticationResult) : Prop :=
  exists authenticator, p_authenticator policy = Some authenticator /\
    authenticator ctx request now = (result, None) /\ ProofFresh policy result now.

Definition ClassMatches (request : AuthorizationRequest) (class : CredentialClass) : Prop :=
  if pr_APITokenRef (req_Subject request) != "" then
    req_BreakGlass request = false /\ req_SupportGrantRef request = "" /\
    class = CredentialClassShortLivedAPIToken
  else if req_BreakGlass request then class = CredentialClassBreakGlass
  else if req_SupportGrantRef request != "" then class = CredentialClassSupportGrant
  else class = CredentialClassInteractiveSession.

(** The evidence names the requested subject, and the directory knows it. *)
Definition Identified policy (request : AuthorizationRequest)
    (result : AuthenticationResult) (now : Time) (subject : resolvedSubject) : Prop :=
  ar_SubjectID result <> "" /\ ar_SubjectID result = pr_ID (req_Subject request) /\
  ClassMatches request (ar_CredentialClass result) /\
  rs_authnClass subject = ar_CredentialClass result /\
  rs_mfa subject = ar_MFA result /\ rs_session subject = ar_Session result /\
  rs_proof subject = ar_Proof result /\
  p_Principals policy !! pr_ID (req_Subject request) = Some (rs_principal subject) /\
  prin_ID (rs_principal subject) = pr_ID (req_Subject request) /\
  if pr_APITokenRef (req_Subject request) != "" then
    let tokenRef := pr_APITokenRef (req_Subject request) in
    ar_APITokenRef result = tokenRef /\
    p_APITokens policy !! tokenRef = Some (rs_apiGrant subject) /\
    tok_Reference (rs_apiGrant subject) = tokenRef /\
    tok_SubjectID (rs_apiGrant subject) = pr_ID (req_Subject request) /\
    rs_represented subject = pr_ID (req_Subject request) /\
    rs_actor subject = "api-grant:" +:+ tokenRef /\
    tok_RevokedAt (rs_apiGrant subject) = 0%Z /\
    tok_ExpiresAt (rs_apiGrant subject) <> 0%Z /\
    (now < tok_ExpiresAt (rs_apiGrant subject))%Z
  else
    rs_apiGrant subject = zero_APIToken /\ rs_represented subject = "" /\
    rs_actor subject = pr_ID (req_Subject request).

(** ** The sink took the event *)

Definition Committed policy (ctx : Context_) (event : AuditEvent) (s s' : S) : Prop :=
  exists sink durable, p_AuditSink policy = Some sink /\
    sink_asDurable sink = Some durable /\
    (p_allowEphemeralAudit policy = true \/ dur_Durable durable s = true) /\
    dur_Ready durable ctx s = None /\ sink_Append sink event s = (s', None).

End Spec.

(** ** The engine decides the clauses *)

Lemma knownSatisfied_iff method :
  knownSatisfiedMFAMethod method = true <->
  method ∈ [MFAMethodTOTP; MFAMethodWebAuthn; MFAMethodHardwareKey; MFAMethodExternalIDP].
Proof.
  unfold knownSatisfiedMFAMethod. rewrite existsb_elem. split.
  - intros (m & Hm & He). by apply String.eqb_eq in He as ->.
  - intros H. exists method. by rewrite String.eqb_refl.
Qed.

Lemma normalizedMFA_required request subject :
  mfa_Required (normalizedMFA request (rs_authnClass subject) (rs_mfa subject)) = true <->
  MFA_required request subject.
Proof.
  unfold normalizedMFA, MFA_required. go_if H; simpl.
  - split; [|done]. intros _. right. go_simp. split; [done|].
    apply orb_true_iff in H0 as [[?|?]%orb_true_iff|?]; go_simp; auto.
  - split; [auto|]. intros [?|[Hc Hr]]; [done|]. apply andb_false_iff in H as [H|H]; go_simp.
    destruct Hr as [?|[?|?]]; congruence.
Qed.

Lemma normalizedMFA_same request credential mfa :
  mfa_Satisfied (normalizedMFA request credential mfa) = mfa_Satisfied mfa /\
  mfa_MethodClass (normalizedMFA request credential mfa) = mfa_MethodClass mfa.
Proof. unfold normalizedMFA. by case_match. Qed.

Lemma evaluateAssurance_iff request subject :
  d_Err (evaluateAssurance request subject) = None <-> Assured request subject.
Proof.
  unfold evaluateAssurance, Assured, Session_ok, MFA_satisfied.
  rewrite <- normalizedMFA_required, <- knownSatisfied_iff.
  destruct (normalizedMFA_same request (rs_authnClass subject) (rs_mfa subject)) as [-> ->].
  set (required := mfa_Required _).
  go_if Hm; simpl.
  { apply andb_true_iff in Hm as [Hr Hm]. split; [done|]. intros [H _].
    destruct (H Hr) as [Hs Hk]. by rewrite Hs, Hk in Hm. }
  assert (required = true -> mfa_Satisfied (rs_mfa subject) = true /\
    knownSatisfiedMFAMethod (mfa_MethodClass (rs_mfa subject)) = true) as Hreq.
  { intros Hr. rewrite Hr in Hm. simpl in Hm. by go_simp. }
  go_if Hc; go_simp.
  - go_if Hs; simpl; go_simp.
    + split; [done|]. intros (_ & Hre & [(_ & Hst & Hz)|[? _]]); [|done].
      by rewrite Hst, Hz, Hre in Hs.
    + split; [|done]. intros _. split; [done|]. split; [done|]. left. done.
  - go_if Hs; simpl; go_simp.
    + split; [done|]. intros (_ & Hre & [[? _]|(_ & Hst & Hz)]); [done|].
      rewrite Hst, Hre in Hs. simpl in Hs. rewrite orb_false_r in Hs. go_simp. lia.
    + split; [|done]. intros _. split; [done|]. split; [done|]. right. done.
Qed.

Lemma targetWithinProjectScope_iff target project action :
  targetWithinProjectScope target project action = true <-> InScope target project action.
Proof.
  unfold targetWithinProjectScope, InScope.
  destruct (tr_Namespace target == "") eqn:Hn; go_simp.
  { rewrite Hn. split; [done|]. by intros []. }
  go_if Hp; go_simp.
  { split; [|done]. intros _. split; [done|]. by left. }
  rewrite existsb_elem. split.
  - intros (scope & Hs & He). split; [done|]. right. exists scope. go_simp.
    by rewrite <- actionAllowed_elem.
  - intros [_ [Heq|(scope & Hs & Hns & Ha)]].
    + apply andb_false_iff in Hp as [Hp|Hp]; go_simp; congruence.
    + exists scope. split; [done|]. apply actionAllowed_elem in Ha.
      by rewrite Hns, String.eqb_refl, Ha.
Qed.

Lemma lifecycleAllows_iff state action :
  lifecycleAllows state action = None <-> LifecycleOpen state action.
Proof.
  unfold lifecycleAllows, LifecycleOpen.
  rewrite !list_elem_of_In. simpl.
  repeat (case_match; go_simp);
    repeat match goal with
    | H : _ || _ = true |- _ => apply orb_true_iff in H as [H|H]
    end; go_simp; split; intros; try done; try tauto;
    repeat match goal with
    | H : _ \/ _ |- _ => destruct H
    | H : _ /\ _ |- _ => destruct H
    end; simplify_eq; try tauto; try done; by intuition congruence.
Qed.
