(* ===== verification/IamCorrect.v ===== *)
(** * Package [iam]: the engine implements the access model

    Lemmas for the stateful parts of the engine, then the theorems. *)

From stdpp Require Import gmap strings list fin_maps.
From Stdlib Require Import ZArith Lia.
From S2P Require Import Prelude GoString GoTime IamTypes IamRules IamAudit IamPolicy IamSpec.

Section Correct.
Context {St : Type}.
Implicit Types policy : Policy St.

(** ** Targets *)

Lemma resolveTarget_iff policy target tenant project :
  resolveTarget policy target = (tenant, project, None) <->
  Resolved policy target tenant project.
Proof.
  unfold resolveTarget, Resolved. split.
  - intros H. go_cases H. go_simp. repeat (split; [by eauto|]). done.
  - intros ((org & -> & ->) & -> & -> & -> & -> & -> & -> & ->).
    by rewrite !String.eqb_refl.
Qed.

Lemma resolveTarget_err policy target :
  (exists tenant project, resolveTarget policy target = (tenant, project, None)) \/
  (exists tenant project err, resolveTarget policy target = (tenant, project, Some err)).
Proof.
  destruct (resolveTarget policy target) as [[tenant project] [err|]]; [right|left]; eauto.
Qed.

(** ** Owners *)

Definition entry_ok (entry : string * Principal) : bool :=
  negb ((entry.1 == "") || (prin_ID entry.2 == "") || (entry.1 != prin_ID entry.2)).

Definition owners_of (entries : list (string * Principal)) (project : Project) : gset string :=
  list_to_set (filter (fun e => principalOwns e.2 project = true) entries).*1.

Lemma entry_ok_iff reference principal :
  entry_ok (reference, principal) = true <-> reference <> "" /\ prin_ID principal = reference.
Proof.
  unfold entry_ok. rewrite negb_true_iff, !orb_false_iff, !String.eqb_neq, string_neqb_false.
  simpl. naive_solver.
Qed.

Lemma owner_loop_spec entries project identities owners :
  NoDup entries.*1 -> (forall k, k ∈ entries.*1 -> k ∉ identities) ->
  owner_loop entries project identities owners =
  if forallb entry_ok entries then Some (owners ∪ owners_of entries project) else None.
Proof.
  unfold owners_of. revert identities owners.
  induction entries as [|[k p] entries IH]; intros identities owners Hnd Hfresh; simpl.
  { f_equal. set_solver. }
  unfold entry_ok at 1. simpl.
  destruct ((k == "") || (prin_ID p == "") || (k != prin_ID p)) eqn:Hok; [done|]. simpl.
  apply orb_false_iff in Hok as [_ Hk]. apply string_neqb_false in Hk as <-.
  apply NoDup_cons in Hnd as [Hk Hnd].
  rewrite bool_decide_eq_false_2 by (apply Hfresh; left).
  rewrite IH; [|done|].
  2:{ intros k' Hk' Hin. apply elem_of_union in Hin as [->%elem_of_singleton|Hin]; [done|].
      by apply (Hfresh k'); [right|]. }
  go_if Hall; [|done]. f_equal. rewrite filter_cons. simpl.
  destruct (principalOwns p project) eqn:Ho; simpl; set_solver.
Qed.

Lemma elem_of_owners_of policy project reference :
  reference ∈ owners_of (map_to_list (p_Principals policy)) project <->
  Owns policy reference project.
Proof.
  unfold owners_of, Owns. rewrite elem_of_list_to_set, list_elem_of_fmap. split.
  - intros ([k p] & -> & [Ho Hin]%list_elem_of_filter). apply elem_of_map_to_list in Hin. eauto.
  - intros (p & Hp & Ho). exists (reference, p). split; [done|].
    apply list_elem_of_filter. split; [done|]. by apply elem_of_map_to_list.
Qed.

Lemma WellKeyed_forallb policy :
  forallb entry_ok (map_to_list (p_Principals policy)) = true <-> WellKeyed policy.
Proof.
  rewrite forallb_elem. unfold WellKeyed. split.
  - intros H k p Hkp. apply entry_ok_iff, (H (k, p)). by apply elem_of_map_to_list.
  - intros H [k p] Hkp%elem_of_map_to_list. by apply entry_ok_iff, H.
Qed.

(** A set with a member has two members iff it is larger than one. *)
Lemma size_two (X : gset string) (x : string) :
  x ∈ X -> (1 < size X)%nat <-> exists y, y <> x /\ y ∈ X.
Proof.
  intros Hx. split.
  - intros Hsize. destruct (decide (X ∖ {[x]} = ∅)) as [Hempty|Hnot].
    + assert (X ⊆ {[x]}) as Hsub by (by apply empty_difference_subseteq_L).
      apply subseteq_size in Hsub. rewrite size_singleton in Hsub. lia.
    + apply set_choose_L in Hnot as [y Hy]. exists y. set_solver.
  - intros (y & Hne & Hy).
    assert (({[x]} ∪ {[y]} : gset string) ⊆ X) as Hsub by set_solver.
    apply subseteq_size in Hsub. rewrite size_union, !size_singleton in Hsub by set_solver. lia.
Qed.

Lemma removingLastOwner_iff policy target project :
  removingLastOwner policy target project = false <->
  OwnerRemovable policy target project.
Proof.
  unfold removingLastOwner, OwnerRemovable.
  rewrite owner_loop_spec; [|apply NoDup_fst_map_to_list|set_solver].
  rewrite <- WellKeyed_forallb. setoid_rewrite <- elem_of_owners_of.
  set (owners := owners_of _ _). rewrite (union_empty_l_L owners).
  go_if Ht; go_simp.
  { split; [done|]. intros (Hk & Ho & _). apply elem_of_owners_of in Ho as (p & Hp & _).
    apply WellKeyed_forallb in Hk. by apply Hk in Hp as []. }
  go_if Hall; [|naive_solver].
  rewrite orb_false_iff, negb_false_iff, bool_decide_eq_true, Nat.leb_gt.
  split.
  - intros [Ho Hs]. apply (size_two owners target Ho) in Hs. done.
  - intros (_ & Ho & Hother). split; [done|]. by apply (size_two owners target Ho).
Qed.

(** ** Routes *)

Lemma evaluateBreakGlass_iff policy request subject :
  d_Allowed (evaluateBreakGlass policy request subject) = true <->
  BreakGlassRoute request subject.
Proof.
  unfold evaluateBreakGlass, BreakGlassRoute.
  rewrite <- (roleAllows_recover _ (req_Target request)).
  split.
  - intros H. go_cases H. by go_simp.
  - intros (? & ? & ?). by go_guards ltac:(congruence).
Qed.

Lemma evaluateSupportGrant_iff policy request subject now :
  d_Allowed (evaluateSupportGrant policy request subject now) = true <->
  SupportRoute policy request subject now.
Proof.
  unfold evaluateSupportGrant, SupportRoute. setoid_rewrite <- actionAllowed_elem. split.
  - intros H. go_cases H. go_time. by exists s.
  - intros (grant & -> & Href & Hsub & Hsup & Hbt & Ht & Hr & Hgr & Hz & Hexp & Htn & Hp & Ha).
    rewrite Href, Hsub, Hsup, Hbt, Ht, Hr, Hgr, Htn, Hp, Ha, !String.eqb_refl. simpl.
    unfold IsZero, Before. by go_guards ltac:(lia).
Qed.

Lemma evaluateAPIToken_iff policy request token now :
  evaluateAPIToken policy request token now = None <-> TokenRoute request token now.
Proof.
  unfold evaluateAPIToken, TokenRoute. rewrite <- actionAllowed_elem. split.
  - intros H. go_cases H. by go_time.
  - intros (-> & Hz & Hexp & -> & -> & Hs & ->). unfold IsZero, Before. simpl.
    rewrite (proj2 (Z.eqb_neq _ _) Hz), (proj2 (Z.ltb_lt _ _) Hexp), !String.eqb_refl. simpl.
    by rewrite (proj2 (String.eqb_neq _ _) Hs).
Qed.

(** ** Evaluation *)

(** A role that allows an action also gives access to the tenant. *)
Lemma roleAllows_access principal action target :
  roleAllows principal action target = true -> hasTenantAccess principal target = true.
Proof. rewrite roleAllows_iff, hasTenantAccess_iff. intros [?|(m & ? & ? & _)]; eauto. Qed.

(** The last part of [evaluate], behind the structural checks. *)
Definition evaluateRoute policy (request : AuthorizationRequest) (subject : resolvedSubject)
    (now : Time) : Decision :=
  if req_BreakGlass request then evaluateBreakGlass policy request subject
  else if req_SupportGrantRef request != "" then evaluateSupportGrant policy request subject now
  else if pr_APITokenRef (req_Subject request) != "" then
    match evaluateAPIToken policy request (rs_apiGrant subject) now with
    | Some err => deny err "api_token_denied"
    | None => allow "api_token_scope"
    end
  else if negb (hasTenantAccess (rs_principal subject) (req_Target request))
  then deny ErrCrossTenant "cross_tenant_denied"
  else if negb (roleAllows (rs_principal subject) (req_Action request) (req_Target request))
  then deny ErrRoleDenied "role_denied"
  else allow (ruleForRole (rs_principal subject) (req_Action request) (req_Target request)).

Lemma evaluateRoute_iff policy request subject now :
  d_Allowed (evaluateRoute policy request subject now) = true <->
  Route policy request subject now.
Proof.
  unfold evaluateRoute, Route.
  go_if Hb; [apply evaluateBreakGlass_iff|].
  go_if Hs; [apply evaluateSupportGrant_iff|].
  go_if Ht.
  - rewrite <- (evaluateAPIToken_iff policy). by destruct (evaluateAPIToken _ _ _ _).
  - unfold RoleRoute. rewrite <- roleAllows_iff.
    destruct (roleAllows _ _ _) eqn:Hr; [by rewrite (roleAllows_access _ _ _ Hr)|].
    by destruct (hasTenantAccess _ _).
Qed.

(** The owner guard of [evaluate]. *)
Definition ownerTargetOK policy (target : string) (project : Project) : bool :=
  match p_Principals policy !! target with
  | None => false
  | Some principal => (prin_ID principal == target) && principalOwns principal project
  end.

Lemma ownerTargetOK_removable policy target project :
  ownerTargetOK policy target project && negb (removingLastOwner policy target project) = true
  <-> OwnerRemovable policy target project.
Proof.
  rewrite andb_true_iff, negb_true_iff, removingLastOwner_iff. split; [by intros []|].
  intros H. split; [|done]. destruct H as (Hk & (p & Hp & Ho) & _).
  unfold ownerTargetOK. rewrite Hp. destruct (Hk _ _ Hp) as [_ ->].
  by rewrite String.eqb_refl, Ho.
Qed.

Lemma evaluate_unfold policy request subject now :
  evaluate policy request subject now =
  if negb (knownAction (req_Action request)) then deny ErrUnknownAction "fail_closed" else
  match d_Err (evaluateAssurance request subject) with
  | Some _ => evaluateAssurance request subject
  | None =>
  if (req_Action request == ActionTenantRecover) && negb (req_BreakGlass request)
  then deny ErrBreakGlass "break_glass_required" else
  match resolveTarget policy (req_Target request) with
  | (_, _, Some err) => deny err "fail_closed"
  | (tenant, project, None) =>
  if negb (targetWithinProjectScope (req_Target request) project (req_Action request))
  then deny ErrObjectScope "object_scope_denied" else
  match lifecycleAllows (tenant_State tenant) (req_Action request) with
  | Some err => deny err "tenant_lifecycle_write_denied"
  | None =>
  let target := rc_TargetPrincipal (req_Context request) in
  if (req_Action request == ActionOwnerRemove) && negb (ownerTargetOK policy target project)
  then deny ErrTargetPrincipal "owner_target_denied"
  else if (req_Action request == ActionOwnerRemove) && removingLastOwner policy target project
  then deny ErrLastOwner "last_owner_guard"
  else evaluateRoute policy request subject now
  end end end.
Proof. reflexivity. Qed.

(** An assurance failure is a denial. *)
Lemma evaluateAssurance_not_allowed request subject :
  d_Allowed (evaluateAssurance request subject) = false.
Proof. unfold evaluateAssurance. by repeat (case_match; try done). Qed.

Lemma evaluate_iff policy request subject now :
  d_Allowed (evaluate policy request subject now) = true <->
  Permitted policy request subject now.
Proof.
  rewrite evaluate_unfold. unfold Permitted. split.
  - intros H. go_step H. go_step H; [by rewrite evaluateAssurance_not_allowed in H|].
    go_step H.
    destruct (resolveTarget _ _) as [[tenant project] [err|]] eqn:Hr; [done|].
    do 4 go_step H.
    apply negb_false_iff in E, E2. split; [done|].
    split; [by apply evaluateAssurance_iff|]. split.
    { intros Hact. rewrite Hact in E1. by destruct (req_BreakGlass request). }
    exists tenant, project. split; [by apply resolveTarget_iff|].
    split; [by apply targetWithinProjectScope_iff|].
    split; [by apply lifecycleAllows_iff|]. split; [|by apply evaluateRoute_iff].
    intros Hact. rewrite Hact in E4, E5. simpl in E4, E5. apply negb_false_iff in E4.
    apply ownerTargetOK_removable. by rewrite E4, E5.
  - intros (-> & Has%evaluateAssurance_iff & Hbg & tenant & project & Hr%resolveTarget_iff &
      Hs%targetWithinProjectScope_iff & Hl%lifecycleAllows_iff & Hown & Hroute%evaluateRoute_iff).
    rewrite Has, Hr, Hs, Hl. simpl.
    go_if Hrec.
    { go_simp. rewrite (Hbg H) in *. done. }
    destruct (req_Action request == ActionOwnerRemove) eqn:Hor; [|done].
    apply String.eqb_eq in Hor. specialize (Hown Hor).
    apply ownerTargetOK_removable, andb_true_iff in Hown as [-> Hown].
    apply negb_true_iff in Hown. by rewrite Hown.
Qed.

(** ** Authentication *)

(** The wrap-around operations of [validateAuthenticationProof] are exact on
    the values its guards let through. *)
Lemma session_seconds_exact maxAge seconds :
  (0 < maxAge <= 24 * Hour)%Z -> (0 < seconds)%Z ->
  (seconds <= duration_div maxAge Second)%Z <-> (seconds * Second <= maxAge)%Z.
Proof.
  intros Hm Hs. unfold duration_div, Hour, Minute, Second in *.
  rewrite Z.quot_div_nonneg by lia.
  rewrite int64_wrap_id.
  - pose proof (Z.mul_div_le maxAge 1000000000). pose proof (Z.div_le_lower_bound maxAge 1000000000 seconds).
    split; lia.
  - unfold is_int64, min_int64, max_int64.
    pose proof (Z.div_pos maxAge 1000000000). pose proof (Z.mul_div_le maxAge 1000000000). lia.
Qed.

Lemma session_age_exact maxAge seconds :
  (0 < maxAge <= 24 * Hour)%Z -> (0 < seconds)%Z -> (seconds * Second <= maxAge)%Z ->
  duration_mul seconds Second = (seconds * Second)%Z.
Proof.
  intros Hm Hs Hle. unfold duration_mul. apply int64_wrap_id.
  unfold is_int64, min_int64, max_int64, Hour, Minute, Second in *. lia.
Qed.

Lemma clamped_age now verified d :
  (0 <= d < max_int64)%Z ->
  (d <? (if (time_Sub now verified <? 0) then 0 else time_Sub now verified))%Z = false <->
  (now - verified <= d)%Z.
Proof.
  intros Hd. rewrite Z.ltb_ge, <- (time_Sub_le_iff now verified d Hd).
  destruct (Z.ltb_spec (time_Sub now verified) 0); lia.
Qed.

Lemma validateAuthenticationProof_iff policy result now :
  validateAuthenticationProof policy result now = None <-> ProofFresh policy result now.
Proof.
  unfold validateAuthenticationProof, ProofFresh, maxConfiguredProofAge, maxConfiguredProofSkew.
  cbv zeta. set (age := if (_ <? 0)%Z then _ else _).
  destruct (_ || _ || _ || _) eqn:Hcfg; [split; [done|]|].
  { intros (? & ? & _). apply not_false_iff_true in Hcfg. destruct Hcfg.
    rewrite !orb_false_iff, !Z.leb_gt, !Z.ltb_ge. lia. }
  rewrite !orb_false_iff, Z.leb_gt, !Z.ltb_ge in Hcfg.
  assert (forall d, (0 <= d <= 24 * Hour)%Z -> (d <? age)%Z = false <->
    (now - ap_VerifiedAt (ar_Proof result) <= d)%Z) as Hage.
  { intros d Hd. apply clamped_age. unfold max_int64, Hour, Minute, Second in *. lia. }
  destruct (_ || _ || _ || _ || _) eqn:Hproof; [split; [done|]|].
  { intros (_ & _ & ? & ? & ? & ? & ? & _). apply not_false_iff_true in Hproof. destruct Hproof.
    unfold IsZero, After, Before, time_Add.
    rewrite !orb_false_iff, !negb_false_iff, !Z.eqb_neq, !Z.ltb_lt, !Z.ltb_ge. done. }
  unfold IsZero, After, Before, time_Add in Hproof.
  rewrite !orb_false_iff, !negb_false_iff, !Z.eqb_neq, !Z.ltb_lt, !Z.ltb_ge in Hproof.
  destruct (p_proofMaxAge policy <? age)%Z eqn:Hmax; [split; [done|]|].
  { intros (? & _ & _ & _ & _ & _ & _ & ? & _). apply not_false_iff_true in Hmax.
    destruct Hmax. apply Hage; lia. }
  apply Hage in Hmax; [|lia].
  destruct (ar_CredentialClass result == _) eqn:Hclass; simpl; go_simp.
  { split; [|done]. intros _. repeat split; try lia; tauto. }
  destruct (_ || _ || _) eqn:Hs; (split; [|intros (? & ? & ? & ? & ? & ? & ? & ? & Hsec)]).
  - done.
  - destruct (Hsec Hclass) as (Hpos & Hle & Hold). apply not_false_iff_true in Hs. destruct Hs.
    rewrite !orb_false_iff, Z.leb_gt, Z.ltb_ge. split; [split; [done|]|].
    + by apply session_seconds_exact.
    + rewrite (session_age_exact (p_proofMaxAge policy)) by done.
      apply Hage; [unfold Second in *; lia|done].
  - intros _. rewrite !orb_false_iff, Z.leb_gt, Z.ltb_ge in Hs. destruct Hs as [[Hpos Hle] Hold].
    apply session_seconds_exact in Hle; [|lia|done].
    rewrite (session_age_exact (p_proofMaxAge policy)) in Hold by (done || lia).
    apply Hage in Hold; [|unfold Second in *; lia]. repeat split; try lia; tauto.
  - done.
Qed.

Lemma authenticate_iff policy ctx request now result :
  authenticate policy (Some ctx) request now = (result, None) <->
  Verified policy ctx request now result.
Proof.
  unfold authenticate, Verified. setoid_rewrite <- validateAuthenticationProof_iff. split.
  - intros H. go_cases H. eauto.
  - intros (f & -> & -> & ->). done.
Qed.

Lemma resolveSubject_err policy request result err now :
  is_nil err = false -> d_Err (resolveSubject policy request result err now).2 <> None.
Proof. intros Herr. unfold resolveSubject. by rewrite Herr. Qed.

Lemma resolveSubject_sound policy request result now subject decision :
  resolveSubject policy request result None now = (subject, decision) ->
  d_Err decision = None -> Identified policy request result now subject.
Proof.
  intros H Hnone. unfold resolveSubject in H. simpl in H.
  destruct (_ || _) eqn:Hauth in H; simplify_eq/=.
  apply orb_false_iff in Hauth as [Hne%String.eqb_neq Heq%string_neqb_false].
  unfold Identified, ClassMatches. rewrite Heq in *.
  destruct (req_BreakGlass request), (req_SupportGrantRef request == "") eqn:Hg,
    (pr_APITokenRef (req_Subject request) == "") eqn:Ht; simpl in *;
    go_cases H; go_time; simpl in *; try done;
    try match goal with
    | E : ar_CredentialClass result = _, H : ar_CredentialClass result = _ |- _ =>
        rewrite E in H; discriminate H
    end; repeat (split; [done || congruence|]); (done || congruence).
Qed.

Lemma resolveSubject_complete policy request result now subject :
  Identified policy request result now subject ->
  resolveSubject policy request result None now = (subject, zero_Decision).
Proof.
  intros (Hne & Heq & Hclass & Hc & Hm & Hs & Hp & Hprin & Hid & Hrest).
  destruct subject as [principal actor represented grant class mfa session proof].
  unfold resolveSubject, rs_with_principal, ClassMatches, IsZero, Before in *.
  simpl in *. subst. rewrite Heq in *. rewrite String.eqb_refl, Hprin.
  rewrite (proj2 (String.eqb_neq _ _) Hne). simpl.
  destruct (pr_APITokenRef (req_Subject request) == "") eqn:Ht; simpl in *.
  - destruct Hrest as (-> & -> & ->). rewrite Hid, String.eqb_refl. simpl.
    destruct (req_BreakGlass request); [by rewrite Hclass|].
    destruct (req_SupportGrantRef request == ""); by rewrite Hclass.
  - destruct Hclass as (-> & -> & ->).
    destruct Hrest as (-> & Htok & Href & Hsub & -> & -> & Hrev & Hexp & Hnow).
    rewrite Htok, Href, Hsub, !String.eqb_refl, Hprin, Hid, String.eqb_refl, Hrev. simpl.
    by rewrite (proj2 (Z.eqb_neq _ _) Hexp), (proj2 (Z.ltb_lt _ _) Hnow).
Qed.

(** ** Auditing *)

Lemma audit_cases policy ctx request subject decision now s s' d :
  audit policy ctx request subject decision now s = (s', d) ->
  (d = decision /\ Committed policy ctx (auditEvent policy request subject decision now) s s') \/
  (d_Allowed d = false /\ (exists err, d_Err d = Some err /\ errors_Is err ErrAuditRequired = true) /\
   d_PolicyRule d = "audit_required" /\
   ~ exists s2, Committed policy ctx (auditEvent policy request subject decision now) s s2).
Proof.
  unfold audit, Committed. intros H.
  assert (forall dec err, auditDenied dec err = d -> errors_Is err ErrAuditRequired = true ->
    (~ exists s2 sink durable, p_AuditSink policy = Some sink /\
       sink_asDurable sink = Some durable /\
       (p_allowEphemeralAudit policy = true \/ dur_Durable durable s = true) /\
       dur_Ready durable ctx s = None /\
       sink_Append sink (auditEvent policy request subject decision now) s = (s2, None)) ->
    d_Allowed d = false /\ (exists err, d_Err d = Some err /\ errors_Is err ErrAuditRequired = true) /\
    d_PolicyRule d = "audit_required" /\
    ~ exists s2 sink durable, p_AuditSink policy = Some sink /\
       sink_asDurable sink = Some durable /\
       (p_allowEphemeralAudit policy = true \/ dur_Durable durable s = true) /\
       dur_Ready durable ctx s = None /\
       sink_Append sink (auditEvent policy request subject decision now) s = (s2, None)) as Hden.
  { intros dec err <- Herr Hno. simpl. eauto 6. }
  go_cases H;
    try (right; eapply Hden; [reflexivity|reflexivity|];
         intros (s2 & sink & durable & ? & ? & [?|?] & ? & ?); go_simp; congruence).
  left. split; [done|]. eexists _, _. split; [done|]. split; [done|]. split; [|done].
  destruct (p_allowEphemeralAudit policy), (dur_Durable _ _); simpl in *; auto.
Qed.

(** ** Whole authorizations *)

(** A decision is an allow exactly when it carries no error. *)
Definition consistent (d : Decision) : Prop := d_Allowed d = true <-> d_Err d = None.

Lemma consistent_allow rule : consistent (allow rule).
Proof. done. Qed.

Lemma consistent_deny err rule : consistent (deny err rule).
Proof. done. Qed.

Lemma evaluateRoute_consistent policy request subject now :
  consistent (evaluateRoute policy request subject now).
Proof.
  unfold evaluateRoute, evaluateBreakGlass, evaluateSupportGrant.
  repeat (case_match; try done).
Qed.

Lemma evaluate_consistent policy request subject now :
  consistent (evaluate policy request subject now).
Proof.
  rewrite evaluate_unfold.
  go_if E; [done|]. destruct (d_Err (evaluateAssurance _ _)) eqn:Ea.
  { unfold consistent. by rewrite Ea, evaluateAssurance_not_allowed. }
  go_if E1; [done|]. destruct (resolveTarget _ _) as [[tenant project] [err|]]; [done|].
  go_if E2; [done|]. case_match; [done|].
  cbv zeta. go_if E3; [done|]. go_if E4; [done|]. apply evaluateRoute_consistent.
Qed.

(** The verdict before auditing. *)
Definition verdict policy (ctx : Context_) (request : AuthorizationRequest) (now : Time)
  : resolvedSubject * Decision :=
  let '(authentication, authenticationErr) := authenticate policy (Some ctx) request now in
  let '(subject, decision) :=
    resolveSubject policy request authentication authenticationErr now in
  let subject := assuredSubject request subject in
  (subject, with_evidence (match d_Err decision with
                           | None => evaluate policy request subject now
                           | Some _ => decision
                           end) subject).

Lemma AuthorizeContext_verdict policy ctx request wall s :
  AuthorizeContext policy (Some ctx) request wall s =
  let '(subject, decision) := verdict policy ctx request (requestTime policy wall) in
  audit policy ctx request subject decision (requestTime policy wall) s.
Proof.
  unfold AuthorizeContext, verdict.
  destruct (authenticate _ _ _ _) as [authentication err].
  by destruct (resolveSubject _ _ _ _ _) as [subject decision].
Qed.

Lemma AuthorizeContext_nil policy request wall s :
  AuthorizeContext policy None request wall s =
  AuthorizeContext policy (Some context_Background) request wall s.
Proof. done. Qed.

Lemma resolveSubject_denies policy request result err now :
  d_Allowed (resolveSubject policy request result err now).2 = false.
Proof. unfold resolveSubject. repeat (case_match; try done). Qed.

Lemma verdict_consistent policy ctx request now :
  consistent (verdict policy ctx request now).2.
Proof.
  unfold verdict. destruct (authenticate _ _ _ _) as [result err].
  pose proof (resolveSubject_denies policy request result err now) as Hden.
  destruct (resolveSubject _ _ _ _ _) as [subject decision]. simpl in *.
  destruct (d_Err decision) eqn:Hd; unfold consistent; simpl.
  - by rewrite Hden, Hd.
  - apply evaluate_consistent.
Qed.

Lemma verdict_allowed policy ctx request now subject decision :
  verdict policy ctx request now = (subject, decision) ->
  d_Allowed decision = true <->
  exists result subject0, Verified policy ctx request now result /\
    Identified policy request result now subject0 /\
    subject = assuredSubject request subject0 /\
    Permitted policy request subject now.
Proof.
  unfold verdict. intros H.
  destruct (authenticate _ _ _ _) as [result err] eqn:Ha.
  destruct (resolveSubject _ _ _ _ _) as [subject0 decision0] eqn:Hr. simplify_eq.
  split.
  - intros Hal. destruct (d_Err decision0) eqn:Hd0; simpl in Hal.
    { pose proof (resolveSubject_denies policy request result err now) as Hden.
      rewrite Hr in Hden. simpl in Hden. congruence. }
    destruct err as [err|].
    { pose proof (resolveSubject_err policy request result (Some err) now eq_refl) as Hden.
      by rewrite Hr in Hden. }
    exists result, subject0. apply authenticate_iff in Ha.
    split; [done|]. split; [by eapply resolveSubject_sound|]. split; [done|].
    by apply evaluate_iff.
  - intros (result' & subject1 & Hv & Hi & Heq & Hp).
    apply authenticate_iff in Hv. rewrite Ha in Hv. simplify_eq.
    apply resolveSubject_complete in Hi. rewrite Hr in Hi. simplify_eq. simpl.
    by apply evaluate_iff.
Qed.

Lemma AuthorizeContext_cases policy ctx request wall s s' d :
  AuthorizeContext policy (Some ctx) request wall s = (s', d) ->
  let now := requestTime policy wall in
  exists subject decision, verdict policy ctx request now = (subject, decision) /\
  ((d = decision /\ Committed policy ctx (auditEvent policy request subject decision now) s s') \/
   (d_Allowed d = false /\
    (exists err, d_Err d = Some err /\ errors_Is err ErrAuditRequired = true) /\
    d_PolicyRule d = "audit_required" /\
    ~ exists s2, Committed policy ctx (auditEvent policy request subject decision now) s s2)).
Proof.
  rewrite AuthorizeContext_verdict.
  destruct (verdict _ _ _ _) as [subject decision] eqn:Hv. intros H now.
  apply audit_cases in H. exists subject, decision. split; [exact Hv|exact H].
Qed.

Lemma AuthorizeContext_allowed policy ctx request wall s s' d :
  AuthorizeContext policy (Some ctx) request wall s = (s', d) ->
  let now := requestTime policy wall in
  d_Allowed d = true <->
  exists result subject0, let subject := assuredSubject request subject0 in
    Verified policy ctx request now result /\
    Identified policy request result now subject0 /\
    Permitted policy request subject now /\
    Committed policy ctx
      (auditEvent policy request subject
         (with_evidence (evaluate policy request subject now) subject) now) s s'.
Proof.
  intros H now. rewrite AuthorizeContext_verdict in H.
  destruct (verdict _ _ _ _) as [subject decision] eqn:Hver.
  pose proof (verdict_allowed _ _ _ _ _ _ Hver) as Hal. fold now in Hver.
  assert (forall result subject0, Verified policy ctx request now result ->
    Identified policy request result now subject0 ->
    subject = assuredSubject request subject0 /\
    decision = with_evidence (evaluate policy request subject now) subject) as Hsub.
  { intros result subject0 Hv%authenticate_iff Hi%resolveSubject_complete.
    unfold verdict in Hver. rewrite Hv, Hi in Hver. by simplify_eq/=. }
  apply audit_cases in H as [[-> Hc]|(Hno & _ & _ & Hnc)].
  - rewrite Hal. split.
    + intros (result & subject0 & Hv & Hi & Hs & Hp). exists result, subject0.
      destruct (Hsub _ _ Hv Hi) as [_ Heq]. simpl. rewrite <- Hs, <- Heq. done.
    + intros (result & subject0 & Hv & Hi & Hp & _). exists result, subject0.
      destruct (Hsub _ _ Hv Hi) as [-> _]. done.
  - split; [congruence|]. intros (result & subject0 & Hv & Hi & Hp & Hc).
    destruct Hnc. exists s'. destruct (Hsub _ _ Hv Hi) as [Hs Heq]. by rewrite Heq, Hs.
Qed.

End Correct.
