(* ===== verification/IamState.v ===== *)
(** * Package [iam]: loading a directory

    [pkg/iam/state_loader.go].  A range over a Go map visits the entries in an
    unspecified order; the model visits them in the order of [map_to_list], and
    [validatePolicyState_iff] shows that acceptance does not depend on it. *)

From stdpp Require Import gmap strings list fin_maps.
From Stdlib Require Import ZArith Lia.
From S2P Require Import Prelude GoString GoTime IamTypes IamRules IamAudit IamPolicy IamSpec.

Record PolicyState := {
  ps_Organizations : gmap string Organization;
  ps_Tenants : gmap string Tenant;
  ps_Projects : gmap string Project;
  ps_Principals : gmap string Principal;
  ps_APITokens : gmap string APIToken;
  ps_SupportGrants : gmap string SupportGrant
}.

Record PolicyStateLoader := {
  loader_Ready : Context_ -> option goerror;
  loader_LoadPolicyState : Context_ -> result PolicyState
}.

Definition knownTenantState (state : TenantState) : bool :=
  existsb (String.eqb state)
    [TenantStateActive; TenantStateSuspended; TenantStateDeleting;
     TenantStateRecovering; TenantStateExporting].

Definition knownRole (role : Role) : bool :=
  existsb (String.eqb role)
    [RoleOwner; RoleTenantAdmin; RoleTenantViewer; RoleSupport; RolePlatformAdmin].

(** ** Validation, one check per loop body *)

Definition check_organization (reference : string) (organization : Organization)
  : option goerror :=
  if (reference == "") || (org_ID organization != reference)
  then Some (errors_New "iam: organization reference mismatch") else None.

Definition check_tenant (state : PolicyState) (reference : string) (tenant : Tenant)
  : option goerror :=
  if (reference == "") || (tenant_ID tenant != reference) || (tenant_OrgID tenant == "")
  then Some (errors_New "iam: tenant reference mismatch")
  else if is_nil (ps_Organizations state !! tenant_OrgID tenant) ||
          negb (knownTenantState (tenant_State tenant))
  then Some (errors_New "iam: tenant organization or lifecycle is invalid") else None.

Definition check_actions (message : string) (actions : list Action) : option goerror :=
  first_error (fun action => if negb (knownAction action)
                             then Some (errors_New message) else None) actions.

Definition check_scope (scope : NamespaceScope) : option goerror :=
  if (ns_Namespace scope == "") || (length (ns_Actions scope) =? 0)%nat
  then Some (errors_New "iam: project namespace scope is invalid")
  else check_actions "iam: project namespace scope contains an unknown action"
         (ns_Actions scope).

Definition check_project (state : PolicyState) (reference : string) (project : Project)
  : option goerror :=
  let boundary_invalid :=
    Some (errors_New "iam: project reference or tenant boundary is invalid") in
  match ps_Tenants state !! proj_TenantID project with
  | None => boundary_invalid
  | Some tenant =>
      if (reference == "") || (proj_ID project != reference) || (proj_OrgID project == "") ||
         (tenant_OrgID tenant != proj_OrgID project) || (proj_Namespace project == "")
      then boundary_invalid
      else first_error check_scope (proj_Scopes project)
  end.

Definition check_membership (state : PolicyState) (membership : Membership) : option goerror :=
  let boundary_invalid := Some (errors_New "iam: principal membership boundary is invalid") in
  let project_invalid := Some (errors_New "iam: principal project membership is invalid") in
  match ps_Tenants state !! mem_TenantID membership with
  | None => boundary_invalid
  | Some tenant =>
      if (tenant_OrgID tenant != mem_OrgID membership) || negb (knownRole (mem_Role membership))
      then boundary_invalid
      else if mem_ProjectID membership != "" then
        match ps_Projects state !! mem_ProjectID membership with
        | None => project_invalid
        | Some project =>
            if (proj_TenantID project != mem_TenantID membership) ||
               (proj_OrgID project != mem_OrgID membership)
            then project_invalid else None
        end
      else None
  end.

Definition check_principal (state : PolicyState) (reference : string) (principal : Principal)
  : option goerror :=
  if (reference == "") || (prin_ID principal != reference)
  then Some (errors_New "iam: principal reference mismatch")
  else first_error (check_membership state) (prin_Memberships principal).

(** [state.Principals[id]], the zero principal when absent. *)
Definition principal_at (state : PolicyState) (id : string) : Principal :=
  default zero_Principal (ps_Principals state !! id).

Definition check_token (state : PolicyState) (reference : string) (apiGrant : APIToken)
  : option goerror :=
  let invalid := Some (errors_New "iam: api token reference or scope is invalid") in
  match ps_Projects state !! tok_ProjectID apiGrant with
  | None => invalid
  | Some project =>
      if (reference == "") || (tok_Reference apiGrant != reference) ||
         (tok_SecretHashRef apiGrant == "") ||
         (prin_ID (principal_at state (tok_SubjectID apiGrant)) != tok_SubjectID apiGrant) ||
         (proj_TenantID project != tok_TenantID apiGrant) ||
         (length (tok_Scopes apiGrant) =? 0)%nat
      then invalid
      else check_actions "iam: api token contains an unknown action" (tok_Scopes apiGrant)
  end.

Definition check_grant (state : PolicyState) (reference : string) (grant : SupportGrant)
  : option goerror :=
  let invalid := Some (errors_New "iam: support grant reference or scope is invalid") in
  match ps_Projects state !! grant_ProjectID grant with
  | None => invalid
  | Some project =>
      if (reference == "") || (grant_Reference grant != reference) ||
         (prin_ID (principal_at state (grant_SubjectID grant)) != grant_SubjectID grant) ||
         (proj_TenantID project != grant_TenantID grant) ||
         (length (grant_Actions grant) =? 0)%nat
      then invalid
      else check_actions "iam: support grant contains an unknown action" (grant_Actions grant)
  end.

(** [if err := check; err != nil { return err }] before the rest. *)
Definition or_else (check rest : option goerror) : option goerror :=
  match check with Some err => Some err | None => rest end.

Definition validatePolicyState (state : PolicyState) : option goerror :=
  if (size (ps_Organizations state) =? 0)%nat || (size (ps_Tenants state) =? 0)%nat ||
     (size (ps_Projects state) =? 0)%nat || (size (ps_Principals state) =? 0)%nat
  then Some (errors_New
    "iam: policy state requires organizations, tenants, projects, and principals")
  else
  or_else (map_first_error check_organization (ps_Organizations state))
  (or_else (map_first_error (check_tenant state) (ps_Tenants state))
  (or_else (map_first_error (check_project state) (ps_Projects state))
  (or_else (map_first_error (check_principal state) (ps_Principals state))
  (or_else (map_first_error (check_token state) (ps_APITokens state))
           (map_first_error (check_grant state) (ps_SupportGrants state)))))).

(** ** Clones: a loop that files a copy of each value in a fresh map *)

Definition clone_map {V} (copy : V -> V) (values : gmap string V) : gmap string V :=
  foldr (fun entry cloned => <[entry.1 := copy entry.2]> cloned) ∅ (map_to_list values).

Definition cloneOrganizations := clone_map (fun value : Organization => value).
Definition cloneTenants := clone_map (fun value : Tenant => value).

Definition cloneProjects := clone_map (fun value =>
  {| proj_ID := proj_ID value; proj_TenantID := proj_TenantID value;
     proj_OrgID := proj_OrgID value; proj_Namespace := proj_Namespace value;
     proj_Scopes := map (fun scope =>
       {| ns_Namespace := ns_Namespace scope; ns_Actions := [] ++ ns_Actions scope |})
       ([] ++ proj_Scopes value) |}).

Definition clonePrincipals := clone_map (fun value =>
  {| prin_ID := prin_ID value; prin_Groups := [] ++ prin_Groups value;
     prin_Memberships := [] ++ prin_Memberships value; prin_Support := prin_Support value |}).

Definition cloneAPITokens := clone_map (fun value =>
  {| tok_Reference := tok_Reference value; tok_SubjectID := tok_SubjectID value;
     tok_SecretHashRef := tok_SecretHashRef value; tok_TenantID := tok_TenantID value;
     tok_ProjectID := tok_ProjectID value; tok_Scopes := [] ++ tok_Scopes value;
     tok_ExpiresAt := tok_ExpiresAt value; tok_RevokedAt := tok_RevokedAt value |}).

Definition cloneSupportGrants := clone_map (fun value =>
  {| grant_Reference := grant_Reference value; grant_SubjectID := grant_SubjectID value;
     grant_TenantID := grant_TenantID value; grant_ProjectID := grant_ProjectID value;
     grant_Actions := [] ++ grant_Actions value; grant_TicketRef := grant_TicketRef value;
     grant_Reason := grant_Reason value; grant_ExpiresAt := grant_ExpiresAt value |}).

Definition NewPolicyFromState {S} (ctx : option Context_) (config : PolicyConfig S)
    (loader : option PolicyStateLoader) (s : S) : result (Policy S) :=
  match ctx, loader with
  | Some ctx, Some loader =>
  if is_nil (cfg_AuthenticationVerifier config)
  then Err (errors_New "iam: authentication verifier is required")
  else if (cfg_AuthenticationProofMaxAge config <=? 0)%Z ||
          (24 * Hour <? cfg_AuthenticationProofMaxAge config)%Z ||
          (cfg_AuthenticationProofFutureSkew config <? 0)%Z ||
          (5 * Minute <? cfg_AuthenticationProofFutureSkew config)%Z
  then Err (errors_New "iam: authentication proof bounds are invalid")
  else match (match cfg_AuditSink config with
              | Some sink => sink_asDurable sink
              | None => None
              end) with
  | None => Err ErrAuditRequired
  | Some audit =>
  if negb (dur_Durable audit s) || cfg_AllowEphemeralAudit config then Err ErrAuditRequired
  else match dur_Ready audit ctx s with
  | Some _ => Err (Errorf_w "iam: audit dependency is unavailable: " ErrAuditRequired)
  | None =>
  match loader_Ready loader ctx with
  | Some err => Err (Errorf_w "iam: policy state dependency is unavailable: " err)
  | None =>
  match loader_LoadPolicyState loader ctx with
  | Err err => Err (Errorf_w "iam: load policy state: " err)
  | Ok state =>
  match validatePolicyState state with
  | Some err => Err err
  | None =>
      let policy := NewPolicy config in
      Ok {| p_Organizations := cloneOrganizations (ps_Organizations state);
            p_Tenants := cloneTenants (ps_Tenants state);
            p_Projects := cloneProjects (ps_Projects state);
            p_Principals := clonePrincipals (ps_Principals state);
            p_APITokens := cloneAPITokens (ps_APITokens state);
            p_SupportGrants := cloneSupportGrants (ps_SupportGrants state);
            p_clock := p_clock policy; p_AuditSink := p_AuditSink policy;
            p_authenticator := p_authenticator policy; p_proofMaxAge := p_proofMaxAge policy;
            p_proofSkew := p_proofSkew policy;
            p_allowEphemeralAudit := p_allowEphemeralAudit policy |}
  end end end end end
  | _, _ => Err (errors_New "iam: policy state loader is required")
  end.

(** ** What an accepted directory is *)

Definition ScopesKnown (scopes : list NamespaceScope) : Prop :=
  Forall (fun scope => ns_Namespace scope <> "" /\ ns_Actions scope <> [] /\
                       Forall (fun action => knownAction action = true) (ns_Actions scope)) scopes.

Definition MembershipKnown (state : PolicyState) (membership : Membership) : Prop :=
  (exists tenant, ps_Tenants state !! mem_TenantID membership = Some tenant /\
     tenant_OrgID tenant = mem_OrgID membership) /\
  knownRole (mem_Role membership) = true /\
  (mem_ProjectID membership <> "" ->
   exists project, ps_Projects state !! mem_ProjectID membership = Some project /\
     proj_TenantID project = mem_TenantID membership /\
     proj_OrgID project = mem_OrgID membership).

(** A credential for a subject: the subject is in the directory, except that
    the empty subject passes too, because the zero principal has its ID. *)
Definition CredentialKnown (state : PolicyState) (subject tenant project : string)
    (actions : list Action) : Prop :=
  (subject = "" \/ is_Some (ps_Principals state !! subject)) /\
  (exists p, ps_Projects state !! project = Some p /\ proj_TenantID p = tenant) /\
  actions <> [] /\ Forall (fun action => knownAction action = true) actions.

Record WellFormed (state : PolicyState) : Prop := {
  wf_nonempty : ps_Organizations state <> ∅ /\ ps_Tenants state <> ∅ /\
    ps_Projects state <> ∅ /\ ps_Principals state <> ∅;
  wf_organizations reference organization :
    ps_Organizations state !! reference = Some organization ->
    reference <> "" /\ org_ID organization = reference;
  wf_tenants reference tenant : ps_Tenants state !! reference = Some tenant ->
    reference <> "" /\ tenant_ID tenant = reference /\ tenant_OrgID tenant <> "" /\
    is_Some (ps_Organizations state !! tenant_OrgID tenant) /\
    knownTenantState (tenant_State tenant) = true;
  wf_projects reference project : ps_Projects state !! reference = Some project ->
    reference <> "" /\ proj_ID project = reference /\ proj_OrgID project <> "" /\
    proj_Namespace project <> "" /\
    (exists tenant, ps_Tenants state !! proj_TenantID project = Some tenant /\
       tenant_OrgID tenant = proj_OrgID project) /\
    ScopesKnown (proj_Scopes project);
  wf_principals reference principal : ps_Principals state !! reference = Some principal ->
    reference <> "" /\ prin_ID principal = reference /\
    Forall (MembershipKnown state) (prin_Memberships principal);
  wf_tokens reference token : ps_APITokens state !! reference = Some token ->
    reference <> "" /\ tok_Reference token = reference /\ tok_SecretHashRef token <> "" /\
    CredentialKnown state (tok_SubjectID token) (tok_TenantID token) (tok_ProjectID token)
      (tok_Scopes token);
  wf_grants reference grant : ps_SupportGrants state !! reference = Some grant ->
    reference <> "" /\ grant_Reference grant = reference /\
    CredentialKnown state (grant_SubjectID grant) (grant_TenantID grant)
      (grant_ProjectID grant) (grant_Actions grant)
}.

(** ** Each check decides its clause *)

Lemma or_else_None check rest : or_else check rest = None <-> check = None /\ rest = None.
Proof. destruct check; simpl; naive_solver. Qed.

Lemma size_eqb_empty {V} (m : gmap string V) : (size m =? 0)%nat = false <-> m <> ∅.
Proof. by rewrite Nat.eqb_neq, map_size_empty_iff. Qed.

Lemma length_eqb_nil {A} (xs : list A) : (length xs =? 0)%nat = false <-> xs <> [].
Proof. by destruct xs. Qed.

Lemma check_actions_None message actions :
  check_actions message actions = None <->
  Forall (fun action => knownAction action = true) actions.
Proof.
  unfold check_actions. rewrite first_error_None. apply Forall_iff. intros action.
  by destruct (knownAction action).
Qed.

Lemma guard_None {E} (b : bool) (err : E) rest :
  (if b then Some err else rest) = None <-> b = false /\ rest = None.
Proof. destruct b; naive_solver. Qed.

Lemma string_eqb_false_iff a b : (a == b) = false <-> a <> b.
Proof. apply String.eqb_neq. Qed.

Create Rewrite HintDb checks.
#[local] Hint Rewrite @guard_None orb_false_iff String.eqb_eq string_neqb_false string_eqb_false_iff
  negb_false_iff @length_eqb_nil check_actions_None @first_error_None : checks.

Lemma check_scope_None scope :
  check_scope scope = None <->
  ns_Namespace scope <> "" /\ ns_Actions scope <> [] /\
  Forall (fun action => knownAction action = true) (ns_Actions scope).
Proof. unfold check_scope. autorewrite with checks. tauto. Qed.

Lemma check_organization_None reference organization :
  check_organization reference organization = None <->
  reference <> "" /\ org_ID organization = reference.
Proof. unfold check_organization. autorewrite with checks. intuition. Qed.

Lemma is_nil_false {A} (o : option A) : is_nil o = false <-> is_Some o.
Proof. destruct o; simpl; split; by intros H. Qed.

Lemma check_tenant_None state reference tenant :
  check_tenant state reference tenant = None <->
  reference <> "" /\ tenant_ID tenant = reference /\ tenant_OrgID tenant <> "" /\
  is_Some (ps_Organizations state !! tenant_OrgID tenant) /\
  knownTenantState (tenant_State tenant) = true.
Proof. unfold check_tenant. autorewrite with checks. rewrite is_nil_false. intuition. Qed.

Lemma lookup_exists {V} (m : gmap string V) k (P : V -> Prop) v :
  m !! k = Some v -> (exists x, m !! k = Some x /\ P x) <-> P v.
Proof.
  intros H. split; [|by exists v]. intros (x & Hx & Hp). congruence.
Qed.

Lemma check_project_None state reference project :
  check_project state reference project = None <->
  reference <> "" /\ proj_ID project = reference /\ proj_OrgID project <> "" /\
  proj_Namespace project <> "" /\
  (exists tenant, ps_Tenants state !! proj_TenantID project = Some tenant /\
     tenant_OrgID tenant = proj_OrgID project) /\
  ScopesKnown (proj_Scopes project).
Proof.
  unfold check_project, ScopesKnown.
  destruct (ps_Tenants state !! _) as [tenant|] eqn:Ht.
  - autorewrite with checks.
    rewrite (Forall_iff _ _ _ check_scope_None).
    split; [intros [? ?]|intros (? & ? & ? & ? & (? & [= <-] & ?) & ?)]; [|tauto].
    do 4 (split; [tauto|]). split; [|done]. exists tenant. tauto.
  - split; [done|]. intros (_ & _ & _ & _ & (? & ? & _) & _). done.
Qed.

Lemma check_membership_None state membership :
  check_membership state membership = None <-> MembershipKnown state membership.
Proof.
  unfold check_membership, MembershipKnown.
  destruct (ps_Tenants state !! _) as [tenant|] eqn:Ht; cycle 1.
  { split; [done|]. by intros ((? & ? & _) & _). }
  rewrite guard_None, orb_false_iff, string_neqb_false, negb_false_iff.
  assert ((exists t, Some tenant = Some t /\ tenant_OrgID t = mem_OrgID membership) <->
    tenant_OrgID tenant = mem_OrgID membership) as ->.
  { split; [by intros (? & [= ->] & ?)|by exists tenant]. }
  destruct (mem_ProjectID membership != "") eqn:Hp; go_simp; [|naive_solver].
  destruct (ps_Projects state !! _) as [project|] eqn:Hproj; cycle 1.
  { split; [by intros [_ ?]|]. intros (_ & _ & H). by destruct (H Hp) as (? & ? & _). }
  autorewrite with checks. split.
  - intros [[? ?] [? _]]. do 2 (split; [done|]). intros _. by exists project.
  - intros (? & ? & H). by destruct (H Hp) as (? & [= ->] & ? & ?).
Qed.

Lemma check_principal_None state reference principal :
  check_principal state reference principal = None <->
  reference <> "" /\ prin_ID principal = reference /\
  Forall (MembershipKnown state) (prin_Memberships principal).
Proof.
  unfold check_principal. autorewrite with checks.
  rewrite (Forall_iff _ _ _ (check_membership_None state)). tauto.
Qed.

Definition principals_keyed (state : PolicyState) : Prop :=
  forall reference principal, ps_Principals state !! reference = Some principal ->
    prin_ID principal = reference.

Lemma principal_at_iff state subject :
  principals_keyed state ->
  prin_ID (principal_at state subject) = subject <->
  subject = "" \/ is_Some (ps_Principals state !! subject).
Proof.
  intros Hk. unfold principal_at.
  destruct (ps_Principals state !! subject) as [principal|] eqn:Hs; simpl.
  - split; [by right|]. intros _. by apply Hk.
  - split; [by left|]. intros [?|[? ?]]; done.
Qed.

Lemma check_token_None state reference token :
  principals_keyed state ->
  check_token state reference token = None <->
  reference <> "" /\ tok_Reference token = reference /\ tok_SecretHashRef token <> "" /\
  CredentialKnown state (tok_SubjectID token) (tok_TenantID token) (tok_ProjectID token)
    (tok_Scopes token).
Proof.
  intros Hk. unfold check_token, CredentialKnown.
  rewrite <- (principal_at_iff _ _ Hk).
  destruct (ps_Projects state !! _) as [project|] eqn:Hp.
  - autorewrite with checks. split; [intros [? ?]|intros (? & ? & ? & ? & (? & [= <-] & ?) & ?)].
    + do 3 (split; [tauto|]). split; [tauto|]. split; [exists project|]; tauto.
    + tauto.
  - split; [done|]. intros (_ & _ & _ & _ & (? & ? & _) & _). done.
Qed.

Lemma check_grant_None state reference grant :
  principals_keyed state ->
  check_grant state reference grant = None <->
  reference <> "" /\ grant_Reference grant = reference /\
  CredentialKnown state (grant_SubjectID grant) (grant_TenantID grant)
    (grant_ProjectID grant) (grant_Actions grant).
Proof.
  intros Hk. unfold check_grant, CredentialKnown.
  rewrite <- (principal_at_iff _ _ Hk).
  destruct (ps_Projects state !! _) as [project|] eqn:Hp.
  - autorewrite with checks. split; [intros [? ?]|intros (? & ? & ? & (? & [= <-] & ?) & ?)].
    + do 2 (split; [tauto|]). split; [tauto|]. split; [exists project|]; tauto.
    + tauto.
  - split; [done|]. intros (_ & _ & _ & (? & ? & _) & _). done.
Qed.

Lemma validatePolicyState_iff state : validatePolicyState state = None <-> WellFormed state.
Proof.
  unfold validatePolicyState.
  rewrite guard_None, !orb_false_iff, !size_eqb_empty, !or_else_None, !map_first_error_None.
  setoid_rewrite check_organization_None. setoid_rewrite check_tenant_None.
  setoid_rewrite check_project_None. setoid_rewrite check_principal_None.
  split.
  - intros (Hne & Ho & Ht & Hp & Hpr & Htok & Hg).
    assert (principals_keyed state) as Hk by (intros ? ? H; by apply Hpr in H as (_ & ? & _)).
    split; try done; [tauto| |].
    + intros reference token H. by apply check_token_None, Htok.
    + intros reference grant H. by apply check_grant_None, Hg.
  - intros [Hne Ho Ht Hp Hpr Htok Hg].
    assert (principals_keyed state) as Hk by (intros ? ? H; by apply Hpr in H as (_ & ? & _)).
    split; [tauto|]. do 4 (split; [done|]). split.
    + intros reference token H. by apply check_token_None, Htok.
    + intros reference grant H. by apply check_grant_None, Hg.
Qed.

(** ** Clones are equal to what they copy *)

Lemma clone_map_id {V} (copy : V -> V) (values : gmap string V) :
  (forall value, copy value = value) -> clone_map copy values = values.
Proof.
  intros Hc. unfold clone_map.
  transitivity (list_to_map (M := gmap string V) (map_to_list values));
    [|apply list_to_map_to_list].
  induction (map_to_list values) as [|[k v] entries IH]; simpl; [done|].
  by rewrite IH, Hc.
Qed.

Lemma cloneOrganizations_id values : cloneOrganizations values = values.
Proof. by apply clone_map_id. Qed.
Lemma cloneTenants_id values : cloneTenants values = values.
Proof. by apply clone_map_id. Qed.
Lemma clonePrincipals_id values : clonePrincipals values = values.
Proof. apply clone_map_id. by intros []. Qed.
Lemma cloneAPITokens_id values : cloneAPITokens values = values.
Proof. apply clone_map_id. by intros []. Qed.
Lemma cloneSupportGrants_id values : cloneSupportGrants values = values.
Proof. apply clone_map_id. by intros []. Qed.
Lemma cloneProjects_id values : cloneProjects values = values.
Proof.
  apply clone_map_id. intros [id tenant org namespace scopes]. simpl. f_equal.
  induction scopes as [|[] scopes IH]; simpl; [done|]. by rewrite IH.
Qed.

(** The directory of a policy. *)
Definition directory {S} (policy : Policy S) : PolicyState :=
  {| ps_Organizations := p_Organizations policy; ps_Tenants := p_Tenants policy;
     ps_Projects := p_Projects policy; ps_Principals := p_Principals policy;
     ps_APITokens := p_APITokens policy; ps_SupportGrants := p_SupportGrants policy |}.

Lemma NewPolicyFromState_Ok {S} ctx (config : PolicyConfig S) loader s policy :
  NewPolicyFromState ctx config loader s = Ok policy ->
  exists ctx' loader' sink durable, ctx = Some ctx' /\ loader = Some loader' /\
    loader_Ready loader' ctx' = None /\
    loader_LoadPolicyState loader' ctx' = Ok (directory policy) /\
    WellFormed (directory policy) /\
    is_Some (p_authenticator policy) /\
    (0 < p_proofMaxAge policy <= 24 * Hour)%Z /\ (0 <= p_proofSkew policy <= 5 * Minute)%Z /\
    p_allowEphemeralAudit policy = false /\
    p_AuditSink policy = Some sink /\ sink_asDurable sink = Some durable /\
    dur_Durable durable s = true /\ dur_Ready durable ctx' s = None.
Proof.
  unfold NewPolicyFromState. intros H.
  destruct ctx as [ctx|], loader as [loader|]; [|done..].
  destruct (is_nil _) eqn:Hv; [done|]. destruct (_ || _ || _ || _) eqn:Hb; [done|].
  destruct (cfg_AuditSink config) as [sink|] eqn:Hs; [|done].
  destruct (sink_asDurable sink) as [durable|] eqn:Hd; [|done].
  destruct (negb _ || _) eqn:Hdur; [done|]. destruct (dur_Ready durable ctx s) eqn:Hr.
  { done. }
  destruct (loader_Ready _ _) eqn:Hlr; [done|].
  destruct (loader_LoadPolicyState _ _) as [state|] eqn:Hl; [|done].
  destruct (validatePolicyState state) eqn:Hval; [done|]. injection H as <-.
  rewrite cloneOrganizations_id, cloneTenants_id, cloneProjects_id, clonePrincipals_id,
    cloneAPITokens_id, cloneSupportGrants_id.
  apply validatePolicyState_iff in Hval. apply is_nil_false in Hv.
  exists ctx, loader, sink, durable. unfold directory. simpl. go_simp.
  destruct state. simpl in *. do 6 (split; [done|]). do 2 (split; [lia|]). done.
Qed.

(** The rest of the policy is the configuration. *)
Lemma NewPolicyFromState_config {S} ctx (config : PolicyConfig S) loader s policy :
  NewPolicyFromState ctx config loader s = Ok policy ->
  p_authenticator policy = cfg_AuthenticationVerifier config /\
  p_AuditSink policy = cfg_AuditSink config /\
  p_proofMaxAge policy = cfg_AuthenticationProofMaxAge config /\
  p_proofSkew policy = cfg_AuthenticationProofFutureSkew config.
Proof. unfold NewPolicyFromState. intros H. repeat case_match; try done. by injection H as <-. Qed.

(** In a well-formed directory every project can be resolved. *)
Lemma WellFormed_resolves {S} (policy : Policy S) reference project :
  WellFormed (directory policy) -> p_Projects policy !! reference = Some project ->
  exists tenant, forall namespace resource name, resolveTarget policy
    {| tr_OrgID := proj_OrgID project; tr_TenantID := proj_TenantID project;
       tr_ProjectID := reference; tr_Namespace := namespace; tr_Resource := resource;
       tr_Name := name |} = (tenant, project, None).
Proof.
  intros Hwf Hp.
  destruct (wf_projects _ Hwf _ _ Hp) as (_ & Hid & _ & _ & (tenant & Ht & Ho) & _).
  destruct (wf_tenants _ Hwf _ _ Ht) as (_ & Htid & _ & [org Horg] & _).
  destruct (wf_organizations _ Hwf _ _ Horg) as [_ Hoid]. simpl in *.
  exists tenant. intros namespace resource name. unfold resolveTarget. simpl.
  rewrite <- Ho, Horg, Hoid, Ht, Htid, Hp, Hid, Ho. by rewrite !String.eqb_refl.
Qed.
