(* ===== verification/IamTheorems.v ===== *)
(** * Package [iam]: theorems

    What the authorization engine guarantees to the code behind it. *)

From stdpp Require Import gmap strings list fin_maps.
From Stdlib Require Import ZArith Lia.
From S2P Require Import Prelude GoString GoTime IamTypes IamRules IamAudit IamPolicy IamVerify IamSpec IamCorrect IamState.

(** ** Vocabulary of the statements *)

(** An audit event that records the decision on a request. *)
Definition Describes (request : AuthorizationRequest) (now : Time) (d : Decision)
    (event : AuditEvent) : Prop :=
  ev_Result event = (if d_Allowed d then AuditResultAllow else AuditResultDeny) /\
  ev_PolicyRule event = d_PolicyRule d /\ ev_Action event = req_Action request /\
  ev_Target event = req_Target request /\
  ev_CorrelationID event = rc_CorrelationID (req_Context request) /\
  ev_Timestamp event = now /\ ev_BreakGlass event = req_BreakGlass request /\
  ev_CredentialClass event = d_CredentialClass d /\
  ev_Error event = match d_Err d with Some err => Error err | None => "" end.

(** A denial for want of an audit record. *)
Definition AuditDenied (d : Decision) : Prop :=
  d_Allowed d = false /\ d_PolicyRule d = "audit_required" /\
  exists err, d_Err d = Some err /\ errors_Is err ErrAuditRequired = true.

Definition MembershipCovers (principal : Principal) (request : AuthorizationRequest) : Prop :=
  exists membership, membership ∈ prin_Memberships principal /\
    covers membership (req_Target request) /\
    membershipRoleAllows (mem_Role membership) (req_Action request) = true.

Definition TokenCovers {St} (policy : Policy St) (principal : Principal)
    (request : AuthorizationRequest) (now : Time) : Prop :=
  exists token, p_APITokens policy !! pr_APITokenRef (req_Subject request) = Some token /\
    tok_SubjectID token = prin_ID principal /\
    tok_TenantID token = tr_TenantID (req_Target request) /\
    tok_ProjectID token = tr_ProjectID (req_Target request) /\
    req_Action request ∈ tok_Scopes token /\
    tok_RevokedAt token = 0%Z /\ (now < tok_ExpiresAt token)%Z.

Definition GrantCovers {St} (policy : Policy St) (principal : Principal)
    (request : AuthorizationRequest) (now : Time) : Prop :=
  exists grant, p_SupportGrants policy !! req_SupportGrantRef request = Some grant /\
    grant_SubjectID grant = prin_ID principal /\ prin_Support principal = true /\
    grant_TenantID grant = tr_TenantID (req_Target request) /\
    grant_ProjectID grant = tr_ProjectID (req_Target request) /\
    req_Action request ∈ grant_Actions grant /\ (now < grant_ExpiresAt grant)%Z.

(** What is on record about an allowed break-glass request. *)
Definition Accountable {St} (policy : Policy St) (request : AuthorizationRequest)
    (d : Decision) : Prop :=
  exists principal, p_Principals policy !! pr_ID (req_Subject request) = Some principal /\
    platform_admin principal /\
    blank (rc_Reason (req_Context request)) = false /\
    blank (rc_TicketRef (req_Context request)) = false /\
    pr_APITokenRef (req_Subject request) = "" /\
    d_CredentialClass d = CredentialClassBreakGlass /\ mfa_Satisfied (d_MFA d) = true.

(** The principal to remove owns the target project, and so does another. *)
Definition OwnerRemains {St} (policy : Policy St) (request : AuthorizationRequest) : Prop :=
  exists project, p_Projects policy !! tr_ProjectID (req_Target request) = Some project /\
    Owns policy (rc_TargetPrincipal (req_Context request)) project /\
    exists other, other <> rc_TargetPrincipal (req_Context request) /\
      Owns policy other project.

Section Theorems.
Context {St : Type}.
Implicit Types policy : Policy St.

(** C1. Refinement: [AuthorizeContext] allows a request exactly when the
    configured verifier produced fresh evidence for it, the evidence
    identifies the requested subject in the directory, the access model
    permits the request for that subject, and the audit sink committed the
    event describing it. *)
Theorem authorize_refines_access_model policy ctx request wall s :
  let now := requestTime policy wall in
  d_Allowed (AuthorizeContext policy (Some ctx) request wall s).2 = true <->
  exists result subject0, let subject := assuredSubject request subject0 in
    Verified policy ctx request now result /\
    Identified policy request result now subject0 /\
    Permitted policy request subject now /\
    Committed policy ctx
      (auditEvent policy request subject
         (with_evidence (evaluate policy request subject now) subject) now)
      s (AuthorizeContext policy (Some ctx) request wall s).1.
Proof.
  intros now. destruct (AuthorizeContext _ _ _ _ _) as [s' d] eqn:H.
  exact (AuthorizeContext_allowed _ _ _ _ _ _ _ H).
Qed.

(** C2. Safety: against any sink that keeps the sink laws, every decision is
    either journaled by exactly one appended event that repeats the verdict,
    the rule and the request, or it is a denial because auditing failed. *)
Theorem every_decision_is_journaled policy ctx request wall s s' d sink journal :
  AuditSinkLaws sink journal -> p_AuditSink policy = Some sink ->
  AuthorizeContext policy ctx request wall s = (s', d) ->
  (exists event, journal s' = journal s ++ [event] /\
     Describes request (requestTime policy wall) d event) \/
  AuditDenied d.
Proof.
  intros Hlaws Hsink H.
  assert (exists ctx', AuthorizeContext policy (Some ctx') request wall s = (s', d)) as [ctx' H'].
  { destruct ctx as [ctx|]; [by exists ctx|by exists context_Background]. }
  destruct (AuthorizeContext_cases _ _ _ _ _ _ _ H')
    as (subject & decision & _ & [[-> Hc]|(? & ? & ? & _)]); [left|by right; split].
  destruct Hc as (sink' & durable & Hs & _ & _ & _ & Happ). simplify_eq.
  apply append_committed in Happ. eexists. split; [exact Happ|]. done.
Qed.

(** Fail closed: a decision carries an error exactly when it is not an
    allow, whatever the policy, the verifier, the sink and the request. *)
Theorem decision_allowed_iff_no_error policy ctx request wall s :
  consistent (AuthorizeContext policy ctx request wall s).2.
Proof.
  assert (exists ctx', AuthorizeContext policy ctx request wall s =
    AuthorizeContext policy (Some ctx') request wall s) as [ctx' ->].
  { destruct ctx as [ctx|]; [by exists ctx|by exists context_Background]. }
  destruct (AuthorizeContext _ _ _ _ _) as [s' d] eqn:H.
  pose proof (verdict_consistent policy ctx' request (requestTime policy wall)) as Hc.
  apply AuthorizeContext_cases in H as (subject & decision & Hv & [[-> _]|(Hn & (err & He & _) & _)]).
  - by rewrite Hv in Hc.
  - unfold consistent. simpl. by rewrite Hn, He.
Qed.

(** C3. Tenant isolation: an allowed request of a subject that is not a
    platform administrator is covered by a membership in the target's
    organization and tenant whose role allows the action, or by a token or
    support grant issued for exactly the target's tenant and project and
    listing the action. *)
Theorem allowed_requests_stay_in_tenant policy ctx request wall s principal :
  d_Allowed (AuthorizeContext policy (Some ctx) request wall s).2 = true ->
  p_Principals policy !! pr_ID (req_Subject request) = Some principal ->
  ~ platform_admin principal ->
  MembershipCovers principal request \/
  TokenCovers policy principal request (requestTime policy wall) \/
  GrantCovers policy principal request (requestTime policy wall).
Proof.
  destruct (AuthorizeContext _ _ _ _ _) as [s' d] eqn:H. simpl. intros Hal Hp Hadmin.
  apply (AuthorizeContext_allowed _ _ _ _ _ _ _ H) in Hal
    as (result & subject & _ & Hi & (_ & _ & _ & tenant & project & _ & _ & _ & _ & Hr) & _).
  destruct Hi as (_ & _ & _ & _ & _ & _ & _ & Hprin & Hid & Htok). simplify_eq.
  unfold Route in Hr. simpl in Hr.
  destruct (req_BreakGlass request); [by destruct Hr as (_ & _ & ?)|].
  destruct (req_SupportGrantRef request != "").
  { destruct Hr as (grant & ? & ? & ? & ? & _ & _ & _ & _ & _ & ? & ? & ? & ?).
    right. right. exists grant. done. }
  destruct (pr_APITokenRef (req_Subject request) != "").
  { destruct Htok as (_ & ? & _ & ? & _). destruct Hr as (? & ? & ? & ? & ? & ? & ?).
    right. left. exists (rs_apiGrant subject). simpl in *. rewrite Hid. done. }
  left. destruct Hr as [?|?]; done.
Qed.

(** C4. Break-glass is accountable: an allowed break-glass request came from
    a platform administrator with break-glass credentials and a satisfied
    second factor, and states a reason and a ticket. *)
Theorem break_glass_is_accountable policy ctx request wall s :
  d_Allowed (AuthorizeContext policy (Some ctx) request wall s).2 = true ->
  req_BreakGlass request = true ->
  Accountable policy request (AuthorizeContext policy (Some ctx) request wall s).2.
Proof.
  destruct (AuthorizeContext _ _ _ _ _) as [s' d] eqn:H. simpl. unfold Accountable. intros Hal Hb.
  apply (AuthorizeContext_allowed _ _ _ _ _ _ _ H) in Hal as Hm.
  destruct Hm as (result & subject & Hv & Hi & (_ & [Hmfa _] & _ & tenant & project & _ & _ & _ & _ & Hr) & _).
  unfold Route in Hr. rewrite Hb in Hr. destruct Hr as (? & ? & ?).
  pose proof Hi as (_ & _ & Hclass & Hc & _ & _ & _ & Hprin & _ & _).
  unfold ClassMatches in Hclass. rewrite Hb in Hclass.
  destruct (pr_APITokenRef (req_Subject request) != "") eqn:Ht;
    [by destruct Hclass as [? _]|]. apply string_neqb_false in Ht.
  destruct (AuthorizeContext_cases _ _ _ _ _ _ _ H)
    as (subject' & decision & Hver & [[-> _]|(Hn & _)]); [|congruence].
  assert (subject' = assuredSubject request subject /\
    d_CredentialClass decision = rs_authnClass subject' /\ d_MFA decision = rs_mfa subject')
    as (-> & -> & ->).
  { apply authenticate_iff in Hv. apply resolveSubject_complete in Hi.
    unfold verdict in Hver. rewrite Hv, Hi in Hver. by simplify_eq/=. }
  exists (rs_principal subject). split; [done|]. do 4 (split; [done|]). simpl.
  split; [congruence|].
  apply Hmfa. right. simpl. rewrite Hc, Hclass. split; [done|]. by right; right.
Qed.

(** C5. Owner removal keeps an owner: when it is allowed, the named principal
    owns the target project and another principal owns it too. *)
Theorem owner_removal_keeps_an_owner policy ctx request wall s :
  d_Allowed (AuthorizeContext policy (Some ctx) request wall s).2 = true ->
  req_Action request = ActionOwnerRemove ->
  OwnerRemains policy request.
Proof.
  destruct (AuthorizeContext _ _ _ _ _) as [s' d] eqn:H. simpl. intros Hal Ha.
  apply (AuthorizeContext_allowed _ _ _ _ _ _ _ H) in Hal
    as (result & subject & _ & _ & (_ & _ & _ & tenant & project & Hres & _ & _ & Hown & _) & _).
  destruct (Hown Ha) as (_ & ? & ?). exists project.
  destruct Hres as (_ & _ & _ & _ & ? & _). done.
Qed.

(** C6. Second factor: an allowed request of a support principal or platform
    administrator, by any credential, and every allowed mutation by anything
    but an API token, has a satisfied second factor of a known method. *)
Theorem privileged_requests_have_mfa policy ctx request wall s s' d principal :
  AuthorizeContext policy (Some ctx) request wall s = (s', d) -> d_Allowed d = true ->
  p_Principals policy !! pr_ID (req_Subject request) = Some principal ->
  principalRequiresMFA principal = true \/
  (pr_APITokenRef (req_Subject request) = "" /\ req_Action request <> ActionProjectRead) ->
  mfa_Satisfied (d_MFA d) = true /\ knownSatisfiedMFAMethod (mfa_MethodClass (d_MFA d)) = true.
Proof.
  intros H Hal Hp Hreq. apply (AuthorizeContext_allowed _ _ _ _ _ _ _ H) in Hal as Hm.
  destruct Hm as (result & subject & Hv & Hi & (_ & [Hmfa _] & _) & _).
  destruct (AuthorizeContext_cases _ _ _ _ _ _ _ H)
    as (subject' & decision & Hver & [[-> _]|(Hn & _)]); [|congruence].
  pose proof Hi as (_ & _ & Hclass & Hc & _ & _ & _ & Hprin & _).
  assert (d_MFA decision = rs_mfa (assuredSubject request subject)) as ->.
  { apply authenticate_iff in Hv. apply resolveSubject_complete in Hi.
    unfold verdict in Hver. rewrite Hv, Hi in Hver. by simplify_eq/=. }
  rewrite Hp in Hprin. injection Hprin as ->. rewrite knownSatisfied_iff. apply Hmfa.
  destruct Hreq as [Hpriv|[Ht Ha]].
  - left. simpl. by rewrite Hpriv.
  - right. simpl. rewrite Hc. split; [|by left]. unfold ClassMatches in Hclass.
    rewrite Ht in Hclass. simpl in Hclass. intros Htok. rewrite Htok in Hclass.
    destruct (req_BreakGlass request); [done|]. by destruct (req_SupportGrantRef request != "").
Qed.

(** Tenant lifecycle: a request allowed on a tenant that is not active is
    a read, an export or a recovery, and a recovery is a break-glass request. *)
Theorem inactive_tenants_are_read_only policy ctx request wall s tenant :
  d_Allowed (AuthorizeContext policy (Some ctx) request wall s).2 = true ->
  p_Tenants policy !! tr_TenantID (req_Target request) = Some tenant ->
  tenant_State tenant <> TenantStateActive ->
  req_Action request = ActionProjectRead \/ req_Action request = ActionTenantExport \/
  (req_Action request = ActionTenantRecover /\ req_BreakGlass request = true).
Proof.
  destruct (AuthorizeContext _ _ _ _ _) as [s' d] eqn:H. simpl. intros Hal Ht Hs.
  apply (AuthorizeContext_allowed _ _ _ _ _ _ _ H) in Hal
    as (result & subject & _ & _ & (_ & _ & Hrec & tenant' & project & Hres & _ & Hl & _) & _).
  destruct Hres as (_ & Ht' & _). rewrite Ht in Ht'. injection Ht' as <-.
  apply lifecycleAllows_iff in Hl.
  destruct (lifecycleAllows_inactive _ _ Hl Hs) as [?|[?|?]]; auto.
Qed.

(** [validateAuthenticationProof] accepts a proof exactly when the
    real, unbounded distances and lifetimes lie in the configured bounds; its
    saturating and wrapping 64-bit arithmetic changes no verdict. *)
Theorem proof_validation_is_exact policy result now :
  validateAuthenticationProof policy result now = None <-> ProofFresh policy result now.
Proof. apply validateAuthenticationProof_iff. Qed.

End Theorems.

(** ** The loaded directory *)

(** [validatePolicyState] accepts a directory exactly when it is
    well-formed; in particular acceptance does not depend on the order in
    which the maps are visited. *)
Theorem state_validation_is_exact state :
  validatePolicyState state = None <-> WellFormed state.
Proof. apply validatePolicyState_iff. Qed.

(** C7. A policy built by [NewPolicyFromState] can do its work: its directory
    is the very state the loader, ready, returned for the given context, and
    is well-formed; every project of it resolves and no principal is misfiled;
    its verifier, its proof bounds and its audit sink are those of the
    configuration, the verifier is present, the bounds are in range, and the
    sink is durable and was ready for that context. *)
Theorem loaded_policy_is_operational {S} ctx (config : PolicyConfig S) loader s policy :
  NewPolicyFromState ctx config loader s = Ok policy ->
  exists ctx' loader', ctx = Some ctx' /\ loader = Some loader' /\
  loader_Ready loader' ctx' = None /\
  loader_LoadPolicyState loader' ctx' = Ok (directory policy) /\
  WellFormed (directory policy) /\ WellKeyed policy /\
  (forall reference project, p_Projects policy !! reference = Some project ->
     exists tenant, forall namespace resource name,
       resolveTarget policy
         {| tr_OrgID := proj_OrgID project; tr_TenantID := proj_TenantID project;
            tr_ProjectID := reference; tr_Namespace := namespace; tr_Resource := resource;
            tr_Name := name |} = (tenant, project, None)) /\
  p_authenticator policy = cfg_AuthenticationVerifier config /\
  p_AuditSink policy = cfg_AuditSink config /\
  p_proofMaxAge policy = cfg_AuthenticationProofMaxAge config /\
  p_proofSkew policy = cfg_AuthenticationProofFutureSkew config /\
  is_Some (p_authenticator policy) /\ p_allowEphemeralAudit policy = false /\
  (0 < p_proofMaxAge policy <= 24 * Hour)%Z /\ (0 <= p_proofSkew policy <= 5 * Minute)%Z /\
  exists sink durable, p_AuditSink policy = Some sink /\
    sink_asDurable sink = Some durable /\ dur_Durable durable s = true /\
    dur_Ready durable ctx' s = None.
Proof.
  intros H. pose proof (NewPolicyFromState_config _ _ _ _ _ H) as (Hc1 & Hc2 & Hc3 & Hc4).
  apply NewPolicyFromState_Ok in H
    as (ctx' & loader' & sink & durable & Hctx & Hloader & Hlr & Hload & Hwf & Hauth & Hage & Hskew &
        Heph & Hs & Hd & Hdur & Hready).
  exists ctx', loader'. do 5 (split; [done|]). split.
  { intros reference principal Hp. by destruct (wf_principals _ Hwf _ _ Hp) as (? & ? & _). }
  split; [intros; by eapply WellFormed_resolves|].
  do 8 (split; [done|]). by exists sink, durable.
Qed.

(** ** The in-memory sink and the contract verifier *)

(** Whatever is appended to a sink of
    [NewBoundedMemoryAuditSink], it never holds more events than its capacity,
    and the capacity is at most 4096. *)
Theorem memory_sink_never_overflows maxEvents s :
  rtc mas_step (NewBoundedMemoryAuditSink maxEvents) s ->
  (0 < mas_maxEvents s <= 4096 /\ mas_count s <= mas_maxEvents s)%Z.
Proof.
  intros H. change (mas_bounded s).
  eapply rtc_preserves; [apply mas_step_bounded|done|apply NewBounded_bounded].
Qed.

(** A report of the contract verifier that found nothing unexpected: all
    expected allows are allowed and journaled, every enforcement check holds. *)
Definition report_ready (report : VerifyReport) : bool :=
  (vr_Status report == StatusReady) && (length (vr_Blockers report) =? 0)%nat &&
  (length (vr_Cases report) =? 6)%nat &&
  forallb (fun case => (case_Observed case == "allow") && (case_Error case == ""))
    (vr_Cases report) &&
  (vr_AuditEventCount report =? length (vr_Cases report))%nat &&
  vc_AuditAppend (vr_Coverage report) &&
  ic_AuthenticatedSubjectCovered (vc_IdentityContract (vr_Coverage report)) &&
  ic_MFAEnforcementCovered (vc_IdentityContract (vr_Coverage report)) &&
  ic_SessionEnforcementCovered (vc_IdentityContract (vr_Coverage report)).

(** A blocked report: every case is a denial of the kind the case names. *)
Definition report_blocked (report : VerifyReport) : bool :=
  (vr_Status report == StatusBlocked) && negb (length (vr_Blockers report) =? 0)%nat &&
  (length (vr_Cases report) =? length (vr_Blockers report))%nat &&
  forallb (fun blocker => (blk_Observed blocker == "deny") &&
    (if blk_ID blocker == "audit_required"
     then blk_Message blocker == "expected allow was denied"
     else (blk_Message blocker == "deny observed") ||
          (blk_Message blocker == "scenario rejected"))) (vr_Blockers report).

Lemma verifyHappy_ready wall :
  vr_ReadinessClaimed (verifyHappy wall) = false /\ report_ready (verifyHappy wall) = true.
Proof. vm_compute. split; reflexivity. Qed.

Lemma verifyMalformed_blocked :
  vr_ReadinessClaimed verifyMalformedScenario = false /\
  report_blocked verifyMalformedScenario = true.
Proof. vm_compute. split; reflexivity. Qed.

Lemma verifyEdge_blocked wall write fuel :
  exists report, verifyEdge wall (VerifyContract wall write (S fuel)) = Some report /\
    vr_ReadinessClaimed report = false /\ report_blocked report = true.
Proof. eexists. vm_compute. split; [reflexivity|]. split; reflexivity. Qed.

(** [VerifyContract] terminates (its recursion is two calls deep) for any
    options, clock and artifact writer; it exits with 0 exactly for the happy
    scenario, whose requests the engine allows, and with 2 otherwise, when all
    requests are denied with the error the case expects; no report claims
    readiness. *)
Theorem verify_contract_reports wall write fuel opts :
  exists report code err,
    VerifyContract wall write (2 + fuel) opts = Some (report, code, err) /\
    vr_ReadinessClaimed report = false /\
    if (vo_Scenario opts == "") || (vo_Scenario opts == ScenarioHappy)
    then code = 0%Z /\ report_ready report = true
    else code = 2%Z /\ report_blocked report = true.
Proof.
  destruct (verifyEdge_blocked wall write fuel) as (edge & He & Hedge).
  pose proof (verifyHappy_ready wall) as [? ?]. destruct verifyMalformed_blocked as [? ?].
  change (2 + fuel)%nat with (S (S fuel)). rewrite VerifyContract_S, He. cbv zeta. clear He.
  generalize dependent (verifyHappy wall). generalize dependent verifyMalformedScenario.
  intros malformed ? ? happy ? ?.
  destruct ((vo_Scenario opts == "") || (vo_Scenario opts == ScenarioHappy));
    [|destruct (vo_Scenario opts == ScenarioEdge)];
    eexists _, _, _; (split; [reflexivity|]); tauto.
Qed.

(** The contract verifier reports every outcome as audited: of a policy
    whose sink fails every append, [verifyAllowed] observes the denial of any
    request and sets the audited flag, although no audit event was recorded. *)
Theorem failed_audits_are_reported_as_audited wall id policy request s :
  let '(s', result) := verifyAllowed wall id (set_AuditSink policy (Some FailingAuditSink_ops))
                         request s in
  blk_Observed result = "deny" /\ blk_Audited result = true /\
  s' = s /\ AuditEvents (set_AuditSink policy (Some FailingAuditSink_ops)) s' = [].
Proof.
  unfold verifyAllowed, Authorize. rewrite AuthorizeContext_verdict.
  destruct (verdict _ _ _ _) as [subject decision]. unfold audit. cbn.
  rewrite andb_false_r. done.
Qed.

(** ** Witnesses

    The theorems at the requests of the contract verifier. *)

Definition at_noon : Time := fixedVerifierTime.

Definition sample (request : AuthorizationRequest) : MemoryAuditSink * Decision :=
  AuthorizeContext (edgePolicy at_noon) (Some context_Background) request 0%Z
    NewMemoryAuditSink.

Definition manage_request : AuthorizationRequest :=
  request "tenant-admin-a" "" ActionProjectManage (verifierTarget "project-a")
    (requestContext at_noon "corr-admin-manage" "manage project") "" false.

Definition recover_request : AuthorizationRequest :=
  request "platform-admin" "" ActionTenantRecover (verifierTarget "project-a")
    (context at_noon "corr-break-glass-recover" "recover tenant during incident" "INC-42" "")
    "" true.

Definition deleting_read_request : AuthorizationRequest :=
  request "owner-deleting" "" ActionProjectRead (verifierTarget "project-deleting")
    (requestContext at_noon "corr-deleting-read" "read before deletion") "" false.

(** The happy policy with a second owner of project-a. *)
Definition two_owners : Policy MemoryAuditSink :=
  let policy := happyPolicy at_noon in
  {| p_Organizations := p_Organizations policy; p_Tenants := p_Tenants policy;
     p_Projects := p_Projects policy;
     p_Principals := <["owner-b" := principal "owner-b"
       [membership "org-a" "tenant-a" "project-a" RoleOwner] false]> (p_Principals policy);
     p_APITokens := p_APITokens policy; p_SupportGrants := p_SupportGrants policy;
     p_clock := p_clock policy; p_AuditSink := p_AuditSink policy;
     p_authenticator := p_authenticator policy; p_proofMaxAge := p_proofMaxAge policy;
     p_proofSkew := p_proofSkew policy;
     p_allowEphemeralAudit := p_allowEphemeralAudit policy |}.

Definition owner_remove_request : AuthorizationRequest :=
  request "owner-a" "" ActionOwnerRemove (verifierTarget "project-a")
    (context at_noon "corr-owner-remove" "hand over" "" "owner-b") "" false.

Lemma every_decision_is_journaled_witness :
  (exists event, mas_events (sample manage_request).1 = mas_events NewMemoryAuditSink ++ [event] /\
     Describes manage_request at_noon (sample manage_request).2 event) \/
  AuditDenied (sample manage_request).2.
Proof.
  exact (every_decision_is_journaled (edgePolicy at_noon) (Some context_Background)
    manage_request 0%Z NewMemoryAuditSink _ _ MemoryAuditSink_ops mas_events _ eq_refl
    (surjective_pairing _)).
Defined.

Lemma allowed_requests_stay_in_tenant_witness :
  let tenant_admin := principal "tenant-admin-a"
    [membership "org-a" "tenant-a" "project-a" RoleTenantAdmin] false in
  MembershipCovers tenant_admin manage_request \/
  TokenCovers (edgePolicy at_noon) tenant_admin manage_request at_noon \/
  GrantCovers (edgePolicy at_noon) tenant_admin manage_request at_noon.
Proof.
  intros tenant_admin.
  apply (allowed_requests_stay_in_tenant (edgePolicy at_noon) context_Background
    manage_request 0%Z NewMemoryAuditSink tenant_admin).
  - vm_compute. reflexivity.
  - vm_compute. reflexivity.
  - unfold platform_admin. intros (m & Hm & Hr).
    apply list_elem_of_singleton in Hm. subst m. discriminate Hr.
Defined.

Lemma break_glass_is_accountable_witness :
  Accountable (edgePolicy at_noon) recover_request (sample recover_request).2.
Proof.
  apply (break_glass_is_accountable (edgePolicy at_noon) context_Background recover_request
    0%Z NewMemoryAuditSink); vm_compute; reflexivity.
Defined.

Lemma owner_removal_keeps_an_owner_witness : OwnerRemains two_owners owner_remove_request.
Proof.
  apply (owner_removal_keeps_an_owner two_owners context_Background owner_remove_request
    0%Z NewMemoryAuditSink); vm_compute; reflexivity.
Defined.

Lemma privileged_requests_have_mfa_witness :
  mfa_Satisfied (d_MFA (sample recover_request).2) = true /\
  knownSatisfiedMFAMethod (mfa_MethodClass (d_MFA (sample recover_request).2)) = true.
Proof.
  apply (privileged_requests_have_mfa (edgePolicy at_noon) context_Background recover_request
    0%Z NewMemoryAuditSink (sample recover_request).1 _
    (principal "platform-admin" [membership "org-a" "tenant-a" "" RolePlatformAdmin] false)).
  - apply surjective_pairing.
  - vm_compute. reflexivity.
  - vm_compute. reflexivity.
  - left. vm_compute. reflexivity.
Defined.

Lemma inactive_tenants_are_read_only_witness :
  req_Action deleting_read_request = ActionProjectRead \/
  req_Action deleting_read_request = ActionTenantExport \/
  (req_Action deleting_read_request = ActionTenantRecover /\
   req_BreakGlass deleting_read_request = true).
Proof.
  apply (inactive_tenants_are_read_only (edgePolicy at_noon) context_Background
    deleting_read_request 0%Z NewMemoryAuditSink
    {| tenant_ID := "tenant-deleting"; tenant_OrgID := "org-a";
       tenant_State := TenantStateDeleting; tenant_Quotas := zero_Quotas |}).
  - vm_compute. reflexivity.
  - vm_compute. reflexivity.
  - discriminate.
Defined.

(** A durable sink for production policies: the events themselves. *)
Definition durable_sink : AuditSink (list AuditEvent) :=
  {| sink_Append event s := (s ++ [event], None);
     sink_asDurable := Some {| dur_Ready _ _ := None; dur_Durable _ := true |};
     sink_asReader := Some (fun s => s) |}.

Definition production_config : PolicyConfig (list AuditEvent) :=
  {| cfg_Clock := None; cfg_AuditSink := Some durable_sink;
     cfg_AuthenticationVerifier := Some syntheticContractAuthenticationVerifier;
     cfg_AuthenticationProofMaxAge := Hour; cfg_AuthenticationProofFutureSkew := Minute;
     cfg_AllowEphemeralAudit := false |}.

Definition edge_loader : PolicyStateLoader :=
  {| loader_Ready _ := None; loader_LoadPolicyState _ := Ok (directory (edgePolicy at_noon)) |}.

Definition production_policy : Policy (list AuditEvent) :=
  match NewPolicyFromState (Some context_Background) production_config (Some edge_loader) [] with
  | Ok policy => policy
  | Err _ => NewPolicy production_config
  end.

Lemma loaded_policy_is_operational_witness :
  loader_LoadPolicyState edge_loader context_Background = Ok (directory production_policy) /\
  WellFormed (directory production_policy) /\ WellKeyed production_policy /\
  p_Projects production_policy !! "project-b" <> None.
Proof.
  destruct (loaded_policy_is_operational (Some context_Background) production_config
    (Some edge_loader) [] production_policy)
    as (ctx' & loader' & Hctx & Hloader & _ & Hload & Hwf & Hwk & _).
  - vm_compute. reflexivity.
  - injection Hctx as <-. injection Hloader as <-. split; [exact Hload|]. split; [exact Hwf|]. split; [exact Hwk|]. vm_compute. discriminate.
Defined.

Lemma memory_sink_never_overflows_witness :
  let s := (MemoryAuditSink_AppendSecurityEvent context_Background
    {| sev_Type := "login"; sev_Actor := ""; sev_Subject := ""; sev_Result := AuditResultAllow;
       sev_Reason := ""; sev_CorrelationID := "c"; sev_Timestamp := 1%Z |}
    (NewBoundedMemoryAuditSink 5000)).1 in
  (0 < mas_maxEvents s <= 4096 /\ mas_count s <= mas_maxEvents s)%Z.
Proof.
  intros s. apply (memory_sink_never_overflows 5000).
  apply rtc_once. apply mas_step_security.
Defined.
