(* ===== verification/Registry.v ===== *)
(** * Package [registry]: the module registry contract

    [pkg/registry/registry.go]: the registry document, its validation, and the
    depth-first search that rejects cyclic dependencies. *)

From stdpp Require Import gmap strings list fin_maps relations.
From Stdlib Require Import ZArith Lia.
From S2P Require Import Prelude GoString GoPath.

#[local] Open Scope nat_scope.

Definition SchemaVersion : string := "cloudring.module-registry/v1".

(** [^[a-z][a-z0-9-]*$] *)
Definition identifierPattern (s : string) : bool :=
  match s with
  | EmptyString => false
  | String c rest =>
      is_lower c && all_chars (fun c => is_lower c || is_digit c || is_char 45 c) rest
  end.

(** ** Data *)

Record SourceSafety := {
  ss_SyntheticFixture : bool;
  ss_ContainsServiceImplementationRefs : bool;
  ss_ContainsProviderEndpoints : bool;
  ss_ContainsSecrets : bool;
  ss_MutatesServices : bool
}.

Record DependencyResolution := {
  dr_Strategy : string;
  dr_CyclePolicy : string;
  dr_MissingDependencyPolicy : string;
  dr_EvidenceRef : string
}.

Record Dependency := { dep_ModuleID : string; dep_State : string }.

Record Operation := {
  op_Action : string;
  op_OperationID : string;
  op_Idempotent : bool;
  op_IdempotencyKey : string;
  op_PolicyAware : bool;
  op_AuditReceiptRef : string;
  op_EvidenceReceiptRef : string;
  op_RollbackRequired : bool;
  op_RollbackHookRef : string;
  op_NextAction : string
}.

Record Operations := {
  ops_Install : Operation;
  ops_Update : Operation;
  ops_Remove : Operation;
  ops_Suspend : Operation;
  ops_Deprecate : Operation
}.

(** [ServiceImplementationRefs] is a pointer: [None] is nil. *)
Record Module_ := {
  mod_ID : string;
  mod_DisplayName : string;
  mod_PackageRef : string;
  mod_Channel : string;
  mod_Version : string;
  mod_State : string;
  mod_LifecycleStates : list string;
  mod_Dependencies : list Dependency;
  mod_EntitlementScope : string;
  mod_Operations : Operations;
  mod_ServiceImplementationRefs : option (list string)
}.

Record PlanRequest := {
  plan_Name : string;
  plan_ModuleID : string;
  plan_Action : string;
  plan_CurrentState : string;
  plan_TargetVersion : string
}.

Record Registry := {
  r_SchemaVersion : string;
  r_RegistryID : string;
  r_ModelVersion : string;
  r_SourceSafety : SourceSafety;
  r_DependencyResolution : DependencyResolution;
  r_Modules : list Module_;
  r_PlanRequests : list PlanRequest
}.

Record ValidationError := { ve_Path : string; ve_Code : string; ve_Message : string }.

Definition ValidationError_Error (e : ValidationError) : string :=
  "path=" +:+ ve_Path e +:+ " code=" +:+ ve_Code e +:+ " message=" +:+ ve_Message e.

Definition invalid (path code message : string) : option ValidationError :=
  Some {| ve_Path := path; ve_Code := code; ve_Message := message |}.

(** ** Field checks *)

Definition SourceSafety_validate (s : SourceSafety) : option ValidationError :=
  if negb (ss_SyntheticFixture s)
  then invalid "sourceSafety.syntheticFixture" "source-safety.synthetic"
         "must be true for a public contract fixture"
  else if ss_ContainsServiceImplementationRefs s
  then invalid "sourceSafety.containsServiceImplementationReferences"
         "source-safety.implementation-reference" "must be false"
  else if ss_ContainsProviderEndpoints s
  then invalid "sourceSafety.containsProviderEndpoints" "source-safety.provider-endpoint"
         "must be false"
  else if ss_ContainsSecrets s
  then invalid "sourceSafety.containsSecrets" "source-safety.secret" "must be false"
  else if ss_MutatesServices s
  then invalid "sourceSafety.mutatesServices" "source-safety.mutation" "must be false"
  else None.

Definition DependencyResolution_validate (d : DependencyResolution) : option ValidationError :=
  if dr_Strategy d != "topological"
  then invalid "dependencyResolution.strategy" "dependencies.strategy" "must be topological"
  else if dr_CyclePolicy d != "block"
  then invalid "dependencyResolution.cyclePolicy" "dependencies.cycle-policy" "must be block"
  else if dr_MissingDependencyPolicy d != "block"
  then invalid "dependencyResolution.missingDependencyPolicy" "dependencies.missing-policy"
         "must be block"
  else if blank (dr_EvidenceRef d)
  then invalid "dependencyResolution.evidenceRef" "dependencies.evidence" "must not be empty"
  else None.

Definition validPackageRef (value : string) : bool :=
  if blank value || (TrimSpace value != value) || Contains value "://" ||
     any_char (is_char 92) value
  then false
  else
    let clean := path_Clean value in
    (clean == value) && negb (path_IsAbs value) && (clean != ".") &&
    negb (HasPrefix clean "../").

Definition moduleStates : list string :=
  ["installable"; "installed"; "suspended"; "deprecated"; "not-installed"].

Definition validModuleState (value : string) : bool := existsb (String.eqb value) moduleStates.

Definition validOperation (value : string) : bool :=
  existsb (String.eqb value) ["install"; "update"; "remove"; "suspend"; "deprecate"].

(** [fmt.Sprintf("%s[%d]", prefix, index)] *)
Definition indexed (prefix : string) (index : nat) : string :=
  prefix +:+ "[" +:+ decimal index +:+ "]".

(** A loop over a slice with its index, stopping at the first error. *)
Fixpoint range_error {A} (check : nat -> A -> option ValidationError) (index : nat)
    (xs : list A) : option ValidationError :=
  match xs with
  | [] => None
  | x :: rest =>
      match check index x with
      | Some err => Some err
      | None => range_error check (S index) rest
      end
  end.

(** The required fields of a record must not be blank. *)
Definition required_fields (prefix code : string) (fields : list (string * string))
  : option ValidationError :=
  first_error (fun field => if blank field.2
    then invalid (prefix +:+ "." +:+ field.1) code "must not be empty" else None) fields.

Fixpoint lifecycle_loop (prefix : string) (index : nat) (states : list string)
    (seen : gset string) : ValidationError + gset string :=
  let path := indexed (prefix +:+ ".lifecycleStates") index in
  match states with
  | [] => inr seen
  | state :: rest =>
      if negb (validModuleState state)
      then inl {| ve_Path := path; ve_Code := "module.lifecycle-state";
                  ve_Message := "is not supported" |}
      else if bool_decide (state ∈ seen)
      then inl {| ve_Path := path; ve_Code := "module.lifecycle-state.duplicate";
                  ve_Message := "lifecycle states must be unique" |}
      else lifecycle_loop prefix (S index) rest ({[state]} ∪ seen)
  end.

Definition validateLifecycleStates (prefix : string) (states : list string)
  : option ValidationError :=
  match lifecycle_loop prefix 0 states ∅ with
  | inl err => Some err
  | inr seen =>
      if negb (size seen =? length moduleStates)
      then invalid (prefix +:+ ".lifecycleStates") "module.lifecycle-state.missing"
             "all v1 lifecycle states are required"
      else None
  end.

Definition validateOperation (prefix : string) (item : string * Operation)
  : option ValidationError :=
  let '(name, value) := item in
  let path := prefix +:+ "." +:+ name in
  if op_Action value != name
  then invalid (path +:+ ".action") "operation.action" "must match the operation key"
  else match required_fields path "operation.required"
    [("operationId", op_OperationID value); ("idempotencyKey", op_IdempotencyKey value);
     ("auditReceiptRef", op_AuditReceiptRef value);
     ("evidenceReceiptRef", op_EvidenceReceiptRef value);
     ("rollbackHookRef", op_RollbackHookRef value); ("nextAction", op_NextAction value)] with
  | Some err => Some err
  | None =>
      if negb (op_Idempotent value) || negb (op_PolicyAware value) ||
         negb (op_RollbackRequired value)
      then invalid path "operation.safety-flags"
             "idempotent, policyAware, and rollbackRequired must all be true"
      else None
  end.

Definition named_operations (operations : Operations) : list (string * Operation) :=
  [("install", ops_Install operations); ("update", ops_Update operations);
   ("remove", ops_Remove operations); ("suspend", ops_Suspend operations);
   ("deprecate", ops_Deprecate operations)].

Definition validateOperations (prefix : string) (operations : Operations)
  : option ValidationError :=
  first_error (validateOperation prefix) (named_operations operations).

Definition validateDependency (prefix id : string) (index : nat) (dependency : Dependency)
  : option ValidationError :=
  let path := indexed (prefix +:+ ".dependencies") index in
  if negb (identifierPattern (dep_ModuleID dependency))
  then invalid (path +:+ ".moduleId") "dependency.module-id"
         "must be a lowercase stable identifier"
  else if dep_ModuleID dependency == id
  then invalid (path +:+ ".moduleId") "dependency.self" "a module cannot depend on itself"
  else if (dep_State dependency != "installed") && (dep_State dependency != "installable")
  then invalid (path +:+ ".state") "dependency.state" "must be installed or installable"
  else None.

Definition validateModule (index : nat) (module : Module_) (known : gmap string Module_)
  : option ValidationError :=
  let prefix := indexed "modules" index in
  if negb (identifierPattern (mod_ID module))
  then invalid (prefix +:+ ".id") "module.id" "must be a lowercase stable identifier"
  else if negb (is_nil (known !! mod_ID module))
  then invalid (prefix +:+ ".id") "module.id.duplicate" "module IDs must be unique"
  else match required_fields prefix "module.required"
    [("displayName", mod_DisplayName module); ("channel", mod_Channel module);
     ("version", mod_Version module); ("entitlementScope", mod_EntitlementScope module)] with
  | Some err => Some err
  | None =>
  if negb (validPackageRef (mod_PackageRef module))
  then invalid (prefix +:+ ".packageRef") "module.package-reference"
         "must be a relative provider-neutral package path"
  else if negb (validModuleState (mod_State module))
  then invalid (prefix +:+ ".state") "module.state" "is not a supported lifecycle state"
  else match validateLifecycleStates prefix (mod_LifecycleStates module) with
  | Some err => Some err
  | None =>
  if negb (is_nil (mod_ServiceImplementationRefs module))
  then invalid (prefix +:+ ".serviceImplementationRefs") "module.implementation-reference"
         "public registry records must not carry service implementation references"
  else match range_error (validateDependency prefix (mod_ID module)) 0
               (mod_Dependencies module) with
  | Some err => Some err
  | None => validateOperations (prefix +:+ ".operations") (mod_Operations module)
  end end end.

(** The loop of [Validate] that fills the module index. *)
Fixpoint index_modules (index : nat) (modules : list Module_) (known : gmap string Module_)
  : ValidationError + gmap string Module_ :=
  match modules with
  | [] => inr known
  | module :: rest =>
      match validateModule index module known with
      | Some err => inl err
      | None => index_modules (S index) rest (<[mod_ID module := module]> known)
      end
  end.

(** ** Dependencies *)

Definition zero_dependencies : list Dependency := [].

(** [known[id].Dependencies], empty for an unknown module. *)
Definition dependencies_of (known : gmap string Module_) (id : string) : list string :=
  match known !! id with
  | Some module => map dep_ModuleID (mod_Dependencies module)
  | None => map dep_ModuleID zero_dependencies
  end.

Definition cycle_error : ValidationError :=
  {| ve_Path := "modules.dependencies"; ve_Code := "dependency.cycle";
     ve_Message := "dependency graph must be acyclic" |}.

(** The marks of the search: the maps [visiting] and [visited]. *)
Record marks := { visiting : gset string; visited : gset string }.

(** A call of [visit] leaves an error or the marks; [None]: out of fuel. *)
Definition visit_result : Type := option (ValidationError + marks).

Fixpoint visit_all (visit : string -> marks -> visit_result) (ids : list string) (m : marks)
  : visit_result :=
  match ids with
  | [] => Some (inr m)
  | id :: rest =>
      match visit id m with
      | Some (inr m) => visit_all visit rest m
      | failed => failed
      end
  end.

Fixpoint visit (known : gmap string Module_) (fuel : nat) (id : string) (m : marks)
  : visit_result :=
  match fuel with
  | 0 => None
  | S fuel =>
      if bool_decide (id ∈ visiting m) then Some (inl cycle_error)
      else if bool_decide (id ∈ visited m) then Some (inr m)
      else
        match visit_all (visit known fuel) (dependencies_of known id)
                {| visiting := {[id]} ∪ visiting m; visited := visited m |} with
        | Some (inr m) =>
            Some (inr {| visiting := visiting m ∖ {[id]}; visited := {[id]} ∪ visited m |})
        | failed => failed
        end
  end.

(** Nested visits add declared modules to [visiting], one each. *)
Definition visit_fuel (known : gmap string Module_) : nat := S (S (size known)).

Definition check_declared (known : gmap string Module_) (index : nat) (module : Module_)
  : option ValidationError :=
  range_error (fun dependencyIndex dependency =>
    if is_nil (known !! dep_ModuleID dependency)
    then invalid (indexed (indexed "modules" index +:+ ".dependencies") dependencyIndex +:+
                  ".moduleId") "dependency.missing" "dependency module is not declared"
    else None) 0 (mod_Dependencies module).

(** [None] when the search runs out of fuel, [Some None] for success. *)
Definition validateDependencies (modules : list Module_) (known : gmap string Module_)
  : option (option ValidationError) :=
  match range_error (check_declared known) 0 modules with
  | Some err => Some (Some err)
  | None =>
      match visit_all (visit known (visit_fuel known)) (map mod_ID modules)
              {| visiting := ∅; visited := ∅ |} with
      | None => None
      | Some (inl err) => Some (Some err)
      | Some (inr _) => Some None
      end
  end.

(** ** Plans *)

Definition validatePlan (index : nat) (plan : PlanRequest) (modules : gmap string Module_)
    (seen : gset string) : ValidationError + gset string :=
  let prefix := indexed "planRequests" index in
  let fail path code message :=
    inl {| ve_Path := prefix +:+ path; ve_Code := code; ve_Message := message |} in
  if negb (identifierPattern (plan_Name plan))
  then fail ".name" "plan.name" "must be a lowercase stable identifier"
  else if bool_decide (plan_Name plan ∈ seen)
  then fail ".name" "plan.name.duplicate" "plan names must be unique"
  else match modules !! plan_ModuleID plan with
  | None => fail ".moduleId" "plan.module-missing" "plan module is not declared"
  | Some module =>
      if negb (validOperation (plan_Action plan))
      then fail ".action" "plan.action" "is not a supported operation"
      else if negb (validModuleState (plan_CurrentState plan)) ||
              blank (plan_CurrentState plan)
      then fail ".currentState" "plan.current-state" "must be a supported lifecycle state"
      else if blank (plan_TargetVersion plan) ||
              (plan_TargetVersion plan != mod_Version module)
      then fail ".targetVersion" "plan.target-version"
             "must match the declared module version"
      else inr ({[plan_Name plan]} ∪ seen)
  end.

Fixpoint validate_plans (index : nat) (plans : list PlanRequest)
    (modules : gmap string Module_) (seen : gset string) : option ValidationError :=
  match plans with
  | [] => None
  | plan :: rest =>
      match validatePlan index plan modules seen with
      | inl err => Some err
      | inr seen => validate_plans (S index) rest modules seen
      end
  end.

(** [Registry.Validate]; the outer [None] is a search out of fuel. *)
Definition Validate (r : Registry) : option (option ValidationError) :=
  if r_SchemaVersion r != SchemaVersion
  then Some (invalid "schemaVersion" "schema.version"
               "must be the CloudRING module registry v1 contract")
  else if negb (identifierPattern (r_RegistryID r))
  then Some (invalid "registryId" "registry.id" "must be a lowercase stable identifier")
  else if blank (r_ModelVersion r)
  then Some (invalid "modelVersion" "registry.model-version" "must not be empty")
  else match SourceSafety_validate (r_SourceSafety r) with
  | Some err => Some (Some err)
  | None =>
  match DependencyResolution_validate (r_DependencyResolution r) with
  | Some err => Some (Some err)
  | None =>
  if length (r_Modules r) =? 0
  then Some (invalid "modules" "modules.empty" "at least one module is required")
  else match index_modules 0 (r_Modules r) ∅ with
  | inl err => Some (Some err)
  | inr moduleIndex =>
  match validateDependencies (r_Modules r) moduleIndex with
  | None => None
  | Some (Some err) => Some (Some err)
  | Some None =>
  if length (r_PlanRequests r) =? 0
  then Some (invalid "planRequests" "plans.empty" "at least one plan request is required")
  else Some (validate_plans 0 (r_PlanRequests r) moduleIndex ∅)
  end end end end.
