(* ===== verification/RegistryCorrect.v ===== *)
(** * Package [registry]: what validation establishes *)

From stdpp Require Import gmap strings list fin_maps relations.
From Stdlib Require Import Lia.
From S2P Require Import Prelude GoString GoPath Registry.

#[local] Open Scope nat_scope.

(** * Package [registry]: the dependency search is exact

    The depth-first search of [validateDependencies] terminates within its
    fuel, and succeeds exactly when the dependency graph has no cycle. *)

(** [edge known a b]: module [a] depends on module [b]. *)
Definition edge (known : gmap string Module_) (a b : string) : Prop :=
  b ∈ dependencies_of known a.

Definition Acyclic (known : gmap string Module_) : Prop :=
  forall id, ~ tc (edge known) id id.

Lemma sn_no_cycle {A} (R : relation A) x : sn R x -> ~ tc R x x.
Proof.
  induction 1 as [x _ IH]. intros Hc. inversion Hc as [? ? Hx|? y ? Hxy Hyx]; subst.
  - by apply (IH x).
  - apply (IH y Hxy). by eapply tc_r.
Qed.

Section Search.
Context (known : gmap string Module_).

(** ** A successful search *)

Record clean (m m' : marks) : Prop := {
  clean_visiting : visiting m' = visiting m;
  clean_visited : visited m ⊆ visited m';
  clean_sn : forall id, id ∈ visited m' -> sn (edge known) id
}.

Definition sound (m : marks) : Prop := forall id, id ∈ visited m -> sn (edge known) id.

(** What a successful call of [visit] leaves behind. *)
Definition visit_ok (visit : string -> marks -> visit_result) : Prop :=
  forall id m m', visit id m = Some (inr m') -> sound m -> clean m m' /\ id ∈ visited m'.

Lemma visit_all_ok visit ids m m' :
  visit_ok visit -> visit_all visit ids m = Some (inr m') -> sound m ->
  clean m m' /\ Forall (fun id => id ∈ visited m') ids.
Proof.
  intros Hv. revert m. induction ids as [|id ids IH]; simpl; intros m H Hs.
  { simplify_eq. split; [split; [reflexivity|reflexivity|exact Hs]|constructor]. }
  destruct (visit id m) as [[err|m1]|] eqn:E; [done| |done].
  destruct (Hv _ _ _ E Hs) as [[Hvg Hvd Hsn] Hid].
  destruct (IH _ H Hsn) as [[Hvg' Hvd' Hsn'] Hall].
  split; [split; [congruence|by etrans|done]|]. constructor; [by apply Hvd'|done].
Qed.

Lemma visit_visit_ok fuel : visit_ok (visit known fuel).
Proof.
  induction fuel as [|fuel IH]; intros id m m' H Hs; simpl in H; [done|].
  destruct (bool_decide (id ∈ visiting m)) eqn:Hvg; [done|].
  destruct (bool_decide (id ∈ visited m)) eqn:Hvd; go_simp; [split; [split; [reflexivity|reflexivity|exact Hs]|done]|].
  destruct (visit_all _ _ _) as [[err|m1]|] eqn:E; simplify_eq.
  destruct (visit_all_ok _ _ _ _ IH E Hs) as [[Hg Hd Hsn] Hall]. simpl in *.
  split; [split; simpl|by apply elem_of_union_l, elem_of_singleton].
  - rewrite Hg. clear -Hvg. set_solver.
  - by apply union_subseteq_r'.
  - intros x [->%elem_of_singleton|Hx]%elem_of_union; [|by apply Hsn].
    constructor. intros y Hy. apply Hsn. rewrite Forall_forall in Hall. by apply Hall.
Qed.

(** ** A failed search *)

(** Every module being visited depends on [id]. *)
Definition above (m : marks) (id : string) : Prop :=
  forall x, x ∈ visiting m -> tc (edge known) x id.

Definition visit_fails (visit : string -> marks -> visit_result) : Prop :=
  forall id m err, visit id m = Some (inl err) -> sound m -> above m id ->
    err = cycle_error /\ ~ Acyclic known.

Lemma visit_all_fails visit ids m err :
  visit_ok visit -> visit_fails visit -> visit_all visit ids m = Some (inl err) ->
  sound m -> Forall (above m) ids -> err = cycle_error /\ ~ Acyclic known.
Proof.
  intros Hok Hf. revert m. induction ids as [|id ids IH]; simpl; intros m H Hs Ha; [done|].
  apply Forall_cons in Ha as [Ha Has].
  destruct (visit id m) as [[err'|m1]|] eqn:E; simplify_eq; [by eapply Hf|].
  destruct (Hok _ _ _ E Hs) as [[Hg _ Hsn] _]. apply (IH m1 H Hsn).
  eapply Forall_impl; [exact Has|]. intros x Hx y. rewrite Hg. apply Hx.
Qed.

Lemma visit_visit_fails fuel : visit_fails (visit known fuel).
Proof.
  induction fuel as [|fuel IH]; intros id m err H Hs Ha; simpl in H; [done|].
  destruct (bool_decide (id ∈ visiting m)) eqn:Hvg; go_simp.
  { split; [done|]. intros Hac. by apply (Hac id), Ha. }
  destruct (bool_decide (id ∈ visited m)); go_simp.
  destruct (visit_all _ _ _) as [[err'|m1]|] eqn:E; simplify_eq.
  eapply visit_all_fails; [apply visit_visit_ok|exact IH|exact E|done|].
  apply Forall_forall. intros next Hnext x. simpl.
  intros [->%elem_of_singleton|Hx]%elem_of_union; [by apply tc_once|].
  eapply tc_r; [by apply Ha|done].
Qed.

(** ** Termination *)

(** Modules a nested visit can still enter. *)
Definition unvisited (m : marks) : nat := size (dom known ∖ visiting m).

Definition visit_ends (visit : string -> marks -> visit_result) (bound : nat) : Prop :=
  forall id m, sound m -> unvisited m < bound -> visit id m <> None.

Lemma visit_all_ends visit bound ids m :
  visit_ok visit -> visit_ends visit bound -> sound m -> unvisited m < bound ->
  visit_all visit ids m <> None.
Proof.
  intros Hok He. revert m. induction ids as [|id ids IH]; simpl; intros m Hs Hb; [done|].
  pose proof (He id m Hs Hb). destruct (visit id m) as [[err|m1]|] eqn:E; [done| |done].
  destruct (Hok _ _ _ E Hs) as [[Hg _ Hsn] _]. apply IH; [done|].
  unfold unvisited in *. by rewrite Hg.
Qed.

Lemma visit_visit_ends fuel : visit_ends (visit known (S fuel)) fuel.
Proof.
  induction fuel as [|fuel IH]; intros id m Hs Hb; [lia|].
  cbn [visit]. case_bool_decide as Hvg; [done|]. case_bool_decide as Hvd; [done|].
  destruct (known !! id) as [module|] eqn:Hk.
  - destruct (visit_all _ _ _) as [[err|m1]|] eqn:E; [done|done|]. exfalso. revert E.
    apply (visit_all_ends _ fuel); [apply (visit_visit_ok (S fuel))|exact IH|exact Hs|].
    unfold unvisited in *. simpl.
    assert (dom known ∖ ({[id]} ∪ visiting m) ⊂ dom known ∖ visiting m) as Hlt.
    { apply elem_of_dom_2 in Hk. clear -Hk Hvg. set_solver. }
    apply subset_size in Hlt. lia.
  - unfold dependencies_of. by rewrite Hk.
Qed.

End Search.

(** * Package [registry]: what validation establishes *)

(** ** Dependencies *)

Lemma range_error_None {A} (check : nat -> A -> option ValidationError) index xs :
  range_error check index xs = None <->
  forall i x, xs !! i = Some x -> check (index + i) x = None.
Proof.
  revert index. induction xs as [|x xs IH]; intros index; simpl; [done|].
  destruct (check index x) eqn:E.
  - split; [done|]. intros H. specialize (H 0 x eq_refl). rewrite Nat.add_0_r in H. congruence.
  - rewrite IH. split.
    + intros H [|i] y Hy; simplify_eq/=; [by rewrite Nat.add_0_r|].
      rewrite <- Nat.add_succ_comm. by apply H.
    + intros H i y Hy. rewrite Nat.add_succ_comm. by apply (H (S i)).
Qed.

(** A check whose success does not depend on the index. *)
Lemma range_error_Forall {A} (check : nat -> A -> option ValidationError) P index xs :
  (forall i x, check i x = None <-> P x) ->
  range_error check index xs = None <-> Forall P xs.
Proof.
  intros Hc. rewrite range_error_None, Forall_lookup. setoid_rewrite Hc. done.
Qed.

Definition declared (known : gmap string Module_) (module : Module_) : Prop :=
  Forall (fun dependency => is_Some (known !! dep_ModuleID dependency)) (mod_Dependencies module).

Lemma check_declared_None known index module :
  check_declared known index module = None <-> declared known module.
Proof.
  apply range_error_Forall. intros i dependency.
  destruct (known !! _); simpl; [by split|]. split; [done|]. by intros [].
Qed.

Section dependencies.
Context (modules : list Module_) (known : gmap string Module_).
Hypothesis indexed_all : forall id, is_Some (known !! id) <-> id ∈ map mod_ID modules.

Definition no_marks : marks := {| visiting := ∅; visited := ∅ |}.

Lemma no_marks_sound : sound known no_marks.
Proof. intros id Hid. by apply elem_of_empty in Hid. Qed.

Lemma visit_modules_ends :
  visit_all (visit known (visit_fuel known)) (map mod_ID modules) no_marks <> None.
Proof.
  apply (visit_all_ends known _ (S (size known)));
    [apply visit_visit_ok|apply visit_visit_ends|apply no_marks_sound|].
  unfold unvisited. simpl. rewrite difference_empty_L, size_dom. lia.
Qed.

Lemma all_sn_acyclic :
  Forall (fun id => sn (edge known) id) (map mod_ID modules) -> Acyclic known.
Proof.
  intros Hsn id Hc. rewrite Forall_forall in Hsn.
  destruct (known !! id) as [module|] eqn:Hk.
  - eapply sn_no_cycle; [|exact Hc]. apply Hsn, indexed_all. by rewrite Hk.
  - assert (exists next, edge known id next) as [next Hn] by (inversion Hc; eauto).
    unfold edge, dependencies_of in Hn. rewrite Hk in Hn. by apply elem_of_nil in Hn.
Qed.

Lemma visit_modules_iff :
  (exists m, visit_all (visit known (visit_fuel known)) (map mod_ID modules) no_marks
             = Some (inr m)) <-> Acyclic known.
Proof.
  split.
  - intros [m H]. apply all_sn_acyclic.
    destruct (visit_all_ok _ _ _ _ _ (visit_visit_ok _ _) H no_marks_sound) as [[_ _ Hsn] Hv].
    eapply Forall_impl; [exact Hv|]. exact Hsn.
  - intros Hac. pose proof visit_modules_ends.
    destruct (visit_all _ _ _) as [[err|m]|] eqn:E; [exfalso|by eauto|done].
    destruct (visit_all_fails known _ _ _ _ (visit_visit_ok _ _) (visit_visit_fails _ _) E)
      as [_ Hn]; [apply no_marks_sound| |by apply Hn].
    apply Forall_forall. intros id _ x Hx. by apply elem_of_empty in Hx.
Qed.

Lemma validateDependencies_ends : validateDependencies modules known <> None.
Proof.
  unfold validateDependencies. case_match; [done|]. pose proof visit_modules_ends.
  fold no_marks. by destruct (visit_all _ _ _) as [[]|].
Qed.

Lemma validateDependencies_iff :
  validateDependencies modules known = Some None <->
  Forall (declared known) modules /\ Acyclic known.
Proof.
  unfold validateDependencies. rewrite <- visit_modules_iff.
  rewrite <- (range_error_Forall _ _ 0 modules (check_declared_None known)).
  destruct (range_error _ _ _); [split; [done|by intros [? _]]|].
  fold no_marks. destruct (visit_all _ _ _) as [[err|m]|]; split; try done.
  - by intros [_ [m H]].
  - intros _. split; [done|]. by exists m.
  - by intros [_ [m H]].
Qed.

End dependencies.

(** ** Modules *)

Definition OperationOK (item : string * Operation) : Prop :=
  op_Action item.2 = item.1 /\
  Forall (fun value => blank value = false)
    [op_OperationID item.2; op_IdempotencyKey item.2; op_AuditReceiptRef item.2;
     op_EvidenceReceiptRef item.2; op_RollbackHookRef item.2; op_NextAction item.2] /\
  op_Idempotent item.2 = true /\ op_PolicyAware item.2 = true /\
  op_RollbackRequired item.2 = true.

Record ModuleOK (module : Module_) : Prop := {
  mok_id : identifierPattern (mod_ID module) = true;
  mok_required : Forall (fun value => blank value = false)
    [mod_DisplayName module; mod_Channel module; mod_Version module;
     mod_EntitlementScope module];
  mok_package : validPackageRef (mod_PackageRef module) = true;
  mok_state : mod_State module ∈ moduleStates;
  mok_lifecycle : mod_LifecycleStates module ≡ₚ moduleStates;
  mok_references : mod_ServiceImplementationRefs module = None;
  mok_dependencies : Forall (fun dependency =>
    identifierPattern (dep_ModuleID dependency) = true /\
    dep_ModuleID dependency <> mod_ID module /\
    dep_State dependency ∈ ["installed"; "installable"]) (mod_Dependencies module);
  mok_operations : Forall OperationOK (named_operations (mod_Operations module))
}.

Lemma guard_invalid (b : bool) path code message rest :
  (if b then invalid path code message else rest) = None <-> b = false /\ rest = None.
Proof. destruct b; naive_solver. Qed.

Lemma then_None (check rest : option ValidationError) :
  match check with Some err => Some err | None => rest end = None <->
  check = None /\ rest = None.
Proof. destruct check; naive_solver. Qed.

Lemma existsb_eqb value values : existsb (String.eqb value) values = true <-> value ∈ values.
Proof.
  rewrite existsb_elem. split.
  - intros (x & Hx & He). by apply String.eqb_eq in He as ->.
  - intros H. exists value. by rewrite String.eqb_refl.
Qed.

Lemma validModuleState_iff value : validModuleState value = true <-> value ∈ moduleStates.
Proof. apply existsb_eqb. Qed.

Lemma required_fields_None prefix code fields :
  required_fields prefix code fields = None <->
  Forall (fun value => blank value = false) (map snd fields).
Proof.
  unfold required_fields. rewrite first_error_None, Forall_fmap. apply Forall_iff.
  intros [name value]. simpl. by destruct (blank value).
Qed.

Lemma lifecycle_loop_iff prefix index states seen seen' :
  lifecycle_loop prefix index states seen = inr seen' <->
  Forall (fun state => state ∈ moduleStates) states /\ NoDup states /\
  (forall state, state ∈ states -> state ∉ seen) /\ seen' = list_to_set states ∪ seen.
Proof.
  revert index seen. induction states as [|state states IH]; intros index seen; simpl.
  { rewrite union_empty_l_L. split; [intros [= ->]|by intros (_ & _ & _ & ->)].
    split; [done|]. split; [constructor|]. split; [|done]. by intros ? ?%elem_of_nil. }
  rewrite Forall_cons, NoDup_cons, <- validModuleState_iff.
  destruct (validModuleState state); simpl; [|naive_solver].
  case_bool_decide as Hs.
  { split; [done|]. intros (_ & _ & H & _). by destruct (H state); [left|]. }
  rewrite IH. split.
  - intros (Hall & Hnd & Hns & ->). split; [done|]. split; [split; [|done]|].
    { intros Hin. apply (Hns state Hin). by apply elem_of_union_l, elem_of_singleton. }
    split; [|set_solver]. intros x [->|Hx]%elem_of_cons; [done|].
    intros Hin. apply (Hns x Hx). by apply elem_of_union_r.
  - intros ([_ Hall] & [Hni Hnd] & Hns & ->). do 2 (split; [done|]). split; [|set_solver].
    intros x Hx [->%elem_of_singleton|Hin]%elem_of_union; [done|]. by apply (Hns x); [right|].
Qed.

Lemma moduleStates_NoDup : NoDup moduleStates.
Proof. apply (bool_decide_unpack _). vm_compute. exact I. Qed.

Lemma validateLifecycleStates_None prefix states :
  validateLifecycleStates prefix states = None <-> states ≡ₚ moduleStates.
Proof.
  unfold validateLifecycleStates.
  destruct (lifecycle_loop prefix 0 states ∅) as [err|seen] eqn:E.
  - split; [done|]. intros Hp. exfalso.
    assert (lifecycle_loop prefix 0 states ∅ = inr (list_to_set states ∪ ∅)) as H;
      [|by rewrite H in E].
    apply lifecycle_loop_iff. split; [apply Forall_forall; intros x; by rewrite Hp|].
    split; [rewrite Hp; exact moduleStates_NoDup|].
    split; [|reflexivity]. intros x _ Hx. by apply elem_of_empty in Hx.
  - apply lifecycle_loop_iff in E as (Hall & Hnd & _ & ->).
    rewrite union_empty_r_L, size_list_to_set, guard_invalid, negb_false_iff, Nat.eqb_eq by done.
    split; [|by intros ->]. intros [Hlen _]. apply submseteq_length_Permutation; [|lia].
    apply NoDup_submseteq; [done|]. by rewrite Forall_forall in Hall.
Qed.

Lemma validateOperation_None prefix item :
  validateOperation prefix item = None <-> OperationOK item.
Proof.
  destruct item as [name value]. unfold validateOperation, OperationOK. simpl.
  rewrite guard_invalid, string_neqb_false, then_None, required_fields_None, guard_invalid,
    !orb_false_iff, !negb_false_iff. simpl. tauto.
Qed.

Lemma validateDependency_None prefix id index dependency :
  validateDependency prefix id index dependency = None <->
  identifierPattern (dep_ModuleID dependency) = true /\ dep_ModuleID dependency <> id /\
  dep_State dependency ∈ ["installed"; "installable"].
Proof.
  unfold validateDependency.
  rewrite !guard_invalid, negb_false_iff, String.eqb_neq, andb_false_iff, !string_neqb_false.
  rewrite !elem_of_cons, elem_of_nil. tauto.
Qed.

Lemma is_nil_None {A} (o : option A) : negb (is_nil o) = false <-> o = None.
Proof. by destruct o. Qed.

Lemma validateModule_None index module known :
  validateModule index module known = None <->
  ModuleOK module /\ known !! mod_ID module = None.
Proof.
  unfold validateModule. cbv zeta.
  rewrite !guard_invalid, then_None, !guard_invalid, then_None, !guard_invalid, then_None.
  rewrite required_fields_None, validateLifecycleStates_None, !is_nil_None, !negb_false_iff.
  rewrite validModuleState_iff.
  rewrite (range_error_Forall _ _ 0 _ (validateDependency_None _ _)).
  unfold validateOperations. rewrite first_error_None.
  rewrite (Forall_iff _ _ _ (validateOperation_None _)). simpl.
  split; [intros ?; split; [split|]; tauto|]. intros [[] ?]. tauto.
Qed.

(** ** The module index *)

Definition index_of (modules : list Module_) : gmap string Module_ :=
  list_to_map (map (fun module => (mod_ID module, module)) modules).

Lemma index_modules_iff index modules known known' :
  index_modules index modules known = inr known' <->
  Forall ModuleOK modules /\ NoDup (map mod_ID modules) /\
  (forall module, module ∈ modules -> known !! mod_ID module = None) /\
  known' = index_of modules ∪ known.
Proof.
  revert index known. induction modules as [|module modules IH]; intros index known; simpl.
  { unfold index_of. simpl. rewrite map_empty_union. split; [intros [= ->]|by intros (_ & _ & _ & ->)].
    split; [done|]. split; [constructor|]. split; [|done]. by intros ? ?%elem_of_nil. }
  rewrite Forall_cons, NoDup_cons.
  destruct (validateModule index module known) eqn:E.
  { split; [done|]. intros ([Hm _] & _ & Hk & _). exfalso.
    assert (validateModule index module known = None) as H; [|by rewrite H in E].
    apply validateModule_None. split; [done|]. apply Hk. by left. }
  apply validateModule_None in E as [Hm Hk]. rewrite IH.
  assert (forall ms, mod_ID module ∉ map mod_ID ms ->
    index_of ms ∪ <[mod_ID module := module]> known = index_of (module :: ms) ∪ known) as Hidx.
  { intros ms Hn. unfold index_of. simpl. rewrite <- insert_union_l, insert_union_r; [done|].
    apply not_elem_of_list_to_map_1. rewrite <- list_fmap_compose. done. }
  split.
  - intros (Hall & Hnd & Hns & ->).
    assert (mod_ID module ∉ map mod_ID modules) as Hn.
    { intros (m & He & Hin)%list_elem_of_fmap. specialize (Hns m Hin).
      by rewrite <- He, lookup_insert_eq in Hns. }
    do 2 (split; [done|]). split; [|by apply Hidx].
    intros m [->|Hin]%elem_of_cons; [done|]. specialize (Hns m Hin).
    by apply lookup_insert_None in Hns as [? _].
  - intros ([_ Hall] & [Hn Hnd] & Hns & ->). do 2 (split; [done|]). split; [|by rewrite Hidx].
    intros m Hin. apply lookup_insert_None. split; [by apply Hns; right|].
    intros He. apply Hn. rewrite He. by apply list_elem_of_fmap_2.
Qed.

Lemma index_of_lookup modules id :
  is_Some (index_of modules !! id) <-> id ∈ map mod_ID modules.
Proof.
  unfold index_of. rewrite <- elem_of_dom, dom_list_to_map_L, elem_of_list_to_set.
  by rewrite <- list_fmap_compose.
Qed.

Lemma index_of_lookup_Some modules id module :
  NoDup (map mod_ID modules) ->
  index_of modules !! id = Some module <-> module ∈ modules /\ mod_ID module = id.
Proof.
  intros Hnd. unfold index_of. rewrite <- elem_of_list_to_map.
  - rewrite list_elem_of_fmap. naive_solver.
  - by rewrite <- list_fmap_compose.
Qed.

(** ** Plans *)

Record PlanOK (known : gmap string Module_) (plan : PlanRequest) : Prop := {
  pok_name : identifierPattern (plan_Name plan) = true;
  pok_module : exists module, known !! plan_ModuleID plan = Some module /\
    plan_TargetVersion plan = mod_Version module;
  pok_action : plan_Action plan ∈ ["install"; "update"; "remove"; "suspend"; "deprecate"];
  pok_state : plan_CurrentState plan ∈ moduleStates;
  pok_version : blank (plan_TargetVersion plan) = false
}.

Lemma moduleStates_not_blank state : state ∈ moduleStates -> blank state = false.
Proof.
  unfold moduleStates. rewrite !elem_of_cons, elem_of_nil.
  intros [->|[->|[->|[->|[->|[]]]]]]; reflexivity.
Qed.

Lemma validatePlan_iff index plan known seen seen' :
  validatePlan index plan known seen = inr seen' <->
  PlanOK known plan /\ (plan_Name plan ∉ seen) /\ seen' = {[plan_Name plan]} ∪ seen.
Proof.
  unfold validatePlan. cbv zeta.
  destruct (identifierPattern (plan_Name plan)) eqn:Hn; simpl;
    [|split; [done|intros [[? _ _ _ _] _]; congruence]].
  case_bool_decide as Hs; [by split; [done|intros (_ & ? & _)]|].
  destruct (known !! plan_ModuleID plan) as [module|] eqn:Hm;
    [|split; [done|intros [[_ (? & ? & _) _ _ _] _]; congruence]].
  destruct (validOperation (plan_Action plan)) eqn:Ha; simpl; cycle 1.
  { split; [done|]. intros [[_ _ H _ _] _]. apply existsb_eqb in H.
    unfold validOperation in Ha. congruence. }
  destruct (validModuleState (plan_CurrentState plan)) eqn:Hst; simpl; cycle 1.
  { split; [done|]. intros [[_ _ _ H _] _]. apply validModuleState_iff in H. congruence. }
  apply validModuleState_iff in Hst. rewrite (moduleStates_not_blank _ Hst).
  destruct (blank (plan_TargetVersion plan)) eqn:Hb; simpl;
    [split; [done|intros [[_ _ _ _ ?] _]; congruence]|].
  destruct (plan_TargetVersion plan != mod_Version module) eqn:Hv; go_simp.
  { split; [done|]. intros [[_ (? & ? & ?) _ _ _] _]. congruence. }
  split; [intros [= <-]|by intros (_ & _ & ->)].
  split; [split; eauto|done]. by apply existsb_eqb.
Qed.

Lemma validate_plans_None index plans known seen :
  validate_plans index plans known seen = None <->
  Forall (PlanOK known) plans /\ NoDup (map plan_Name plans) /\
  (forall plan, plan ∈ plans -> plan_Name plan ∉ seen).
Proof.
  revert index seen. induction plans as [|plan plans IH]; intros index seen; simpl.
  { split; [|done]. intros _. split; [done|]. split; [constructor|].
    by intros ? ?%elem_of_nil. }
  rewrite Forall_cons, NoDup_cons.
  destruct (validatePlan index plan known seen) as [err|seen'] eqn:E.
  - split; [done|]. intros ([Hok _] & _ & Hns). exfalso.
    assert (validatePlan index plan known seen = inr ({[plan_Name plan]} ∪ seen)) as H;
      [|by rewrite H in E].
    apply validatePlan_iff. split; [done|]. split; [|done]. apply Hns. by left.
  - apply validatePlan_iff in E as (Hok & Hn & ->). rewrite IH. split.
    + intros (Hall & Hnd & Hns). split; [done|]. split; [split; [|done]|].
      * intros (p & He & Hp)%list_elem_of_fmap. apply (Hns p Hp).
        rewrite <- He. by apply elem_of_union_l, elem_of_singleton.
      * intros p [->|Hp]%elem_of_cons; [done|]. intros Hin. apply (Hns p Hp).
        by apply elem_of_union_r.
    + intros ([_ Hall] & [Hni Hnd] & Hns). do 2 (split; [done|]).
      intros p Hp [He%elem_of_singleton|Hin]%elem_of_union.
      * apply Hni. rewrite <- He. by apply list_elem_of_fmap_2.
      * by apply (Hns p); [right|].
Qed.

(** ** The whole document *)

Definition SourceSafe (s : SourceSafety) : Prop :=
  ss_SyntheticFixture s = true /\ ss_ContainsServiceImplementationRefs s = false /\
  ss_ContainsProviderEndpoints s = false /\ ss_ContainsSecrets s = false /\
  ss_MutatesServices s = false.

Definition Blocking (d : DependencyResolution) : Prop :=
  dr_Strategy d = "topological" /\ dr_CyclePolicy d = "block" /\
  dr_MissingDependencyPolicy d = "block" /\ blank (dr_EvidenceRef d) = false.

(** [a] depends on [b] in the document. *)
Definition depends (modules : list Module_) (a b : string) : Prop :=
  exists module, module ∈ modules /\ mod_ID module = a /\
    b ∈ map dep_ModuleID (mod_Dependencies module).

Record RegistryOK (r : Registry) : Prop := {
  rok_schema : r_SchemaVersion r = SchemaVersion;
  rok_id : identifierPattern (r_RegistryID r) = true;
  rok_model : blank (r_ModelVersion r) = false;
  rok_safety : SourceSafe (r_SourceSafety r);
  rok_resolution : Blocking (r_DependencyResolution r);
  rok_nonempty : r_Modules r <> [] /\ r_PlanRequests r <> [];
  rok_modules : Forall ModuleOK (r_Modules r);
  rok_unique : NoDup (map mod_ID (r_Modules r));
  rok_declared a b : depends (r_Modules r) a b -> b ∈ map mod_ID (r_Modules r);
  rok_acyclic a : ~ tc (depends (r_Modules r)) a a;
  rok_plan_names : NoDup (map plan_Name (r_PlanRequests r));
  rok_plans : Forall (PlanOK (index_of (r_Modules r))) (r_PlanRequests r)
}.

Lemma SourceSafety_validate_None s : SourceSafety_validate s = None <-> SourceSafe s.
Proof.
  unfold SourceSafety_validate, SourceSafe. rewrite !guard_invalid, negb_false_iff. tauto.
Qed.

Lemma DependencyResolution_validate_None d :
  DependencyResolution_validate d = None <-> Blocking d.
Proof.
  unfold DependencyResolution_validate, Blocking. rewrite !guard_invalid, !string_neqb_false.
  tauto.
Qed.

Lemma edge_depends modules a b :
  NoDup (map mod_ID modules) -> edge (index_of modules) a b <-> depends modules a b.
Proof.
  intros Hnd. unfold edge, dependencies_of, depends.
  destruct (index_of modules !! a) as [module|] eqn:Hm.
  - apply index_of_lookup_Some in Hm as [Hin Hid]; [|done]. split; [by eauto|].
    intros (module' & Hin' & Hid' & Hb). assert (module' = module) as ->; [|done].
    assert (Some module' = Some module) as [=]; [|done].
    rewrite <- (proj2 (index_of_lookup_Some modules a module' Hnd) (conj Hin' Hid')).
    by rewrite <- (proj2 (index_of_lookup_Some modules a module Hnd) (conj Hin Hid)).
  - split; [by intros ?%elem_of_nil|]. intros (module & Hin & Hid & _).
    by rewrite (proj2 (index_of_lookup_Some modules a module Hnd) (conj Hin Hid)) in Hm.
Qed.

Lemma Acyclic_depends modules :
  NoDup (map mod_ID modules) ->
  Acyclic (index_of modules) <-> forall a, ~ tc (depends modules) a a.
Proof.
  intros Hnd. assert (forall a b, tc (edge (index_of modules)) a b <-> tc (depends modules) a b)
    as Htc; [|unfold Acyclic; by setoid_rewrite Htc].
  intros a b. split; apply (tc_congruence (fun x => x));
    intros x y; by rewrite edge_depends.
Qed.

Lemma declared_depends modules :
  Forall (declared (index_of modules)) modules <->
  forall a b, depends modules a b -> b ∈ map mod_ID modules.
Proof.
  unfold declared, depends. rewrite Forall_forall. setoid_rewrite Forall_forall.
  setoid_rewrite index_of_lookup. split.
  - intros H a b (module & Hin & _ & (d & -> & Hd)%list_elem_of_fmap). by eapply H.
  - intros H module Hin d Hd. apply (H (mod_ID module)).
    exists module. split; [done|]. split; [done|]. by apply list_elem_of_fmap_2.
Qed.

Lemma length_eqb_0 {A} (xs : list A) : (length xs =? 0) = true <-> xs = [].
Proof. by destruct xs. Qed.

Lemma Validate_ends r : Validate r <> None.
Proof.
  unfold Validate. repeat (case_match; try done).
  match goal with H : index_modules _ _ _ = _ |- _ =>
    apply index_modules_iff in H as (_ & _ & _ & ->) end.
  rewrite map_union_empty in *.
  exfalso. by eapply validateDependencies_ends.
Qed.

Lemma Validate_modules_iff r known :
  index_modules 0 (r_Modules r) ∅ = inr known <->
  Forall ModuleOK (r_Modules r) /\ NoDup (map mod_ID (r_Modules r)) /\
  known = index_of (r_Modules r).
Proof.
  rewrite index_modules_iff, map_union_empty. split; [naive_solver|].
  intros (? & ? & ?). do 3 (split; [done|]). done.
Qed.

Lemma Validate_sound r : Validate r = Some None -> RegistryOK r.
Proof.
  unfold Validate, invalid. intros H.
  destruct (r_SchemaVersion r != SchemaVersion) eqn:Hsv; [done|].
  destruct (negb (identifierPattern (r_RegistryID r))) eqn:Hid; [done|].
  destruct (blank (r_ModelVersion r)) eqn:Hmv; [done|].
  destruct (SourceSafety_validate _) eqn:Hss; [done|].
  destruct (DependencyResolution_validate _) eqn:Hdr; [done|].
  destruct (length (r_Modules r) =? 0) eqn:Hm; [done|].
  destruct (index_modules _ _ _) as [|known] eqn:Hi; [done|].
  apply Validate_modules_iff in Hi as (Hmods & Hnd & ->).
  destruct (validateDependencies _ _) as [[|]|] eqn:Hd; try done.
  apply validateDependencies_iff in Hd as [Hdec Hac]; [|apply index_of_lookup].
  destruct (length (r_PlanRequests r) =? 0) eqn:Hp; [done|].
  injection H as (Hplans & Hpn & _)%validate_plans_None. go_simp.
  apply SourceSafety_validate_None in Hss. apply DependencyResolution_validate_None in Hdr.
  split; try done.
  - split; intros Hnil; by rewrite Hnil in *.
  - by apply declared_depends.
  - by apply Acyclic_depends.
Qed.

Lemma Validate_complete r : RegistryOK r -> Validate r = Some None.
Proof.
  intros [Hsv Hid Hmv Hss Hdr [Hm Hp] Hmods Hnd Hdec Hac Hpn Hplans]. unfold Validate.
  rewrite Hsv, String.eqb_refl, Hid, Hmv. simpl.
  rewrite (proj2 (SourceSafety_validate_None _) Hss).
  rewrite (proj2 (DependencyResolution_validate_None _) Hdr).
  rewrite (proj2 (Validate_modules_iff r (index_of (r_Modules r)))) by done.
  rewrite (proj2 (validateDependencies_iff _ _ (index_of_lookup _))).
  2:{ split; [by apply declared_depends|by apply Acyclic_depends]. }
  destruct (r_Modules r); [done|]. destruct (r_PlanRequests r); [done|]. simpl.
  f_equal. apply (validate_plans_None 0 (_ :: _)). done.
Qed.

(** ** Theorems *)

(** C35. [Registry.Validate] terminates on every document, whatever its
    dependency graph, and accepts it exactly when it is well-formed: unique
    module and plan names, every dependency declared, no dependency cycle,
    every module with all five lifecycle states and safe operations, and every
    plan for a declared module at its declared version. *)
Theorem registry_validation_is_exact r :
  (exists outcome, Validate r = Some outcome) /\
  (Validate r = Some None <-> RegistryOK r).
Proof.
  split.
  - destruct (Validate r) eqn:H; [by eauto|]. by apply Validate_ends in H.
  - split; [apply Validate_sound|apply Validate_complete].
Qed.

(** The dependency search of an index of modules terminates and finds a
    missing dependency or a cycle exactly when there is one. *)
Theorem dependency_search_is_exact modules :
  NoDup (map mod_ID modules) ->
  validateDependencies modules (index_of modules) <> None /\
  (validateDependencies modules (index_of modules) = Some None <->
   (forall a b, depends modules a b -> b ∈ map mod_ID modules) /\
   forall a, ~ tc (depends modules) a a).
Proof.
  intros Hnd. split; [apply validateDependencies_ends|].
  rewrite validateDependencies_iff by apply index_of_lookup.
  by rewrite declared_depends, Acyclic_depends.
Qed.

(** [validPackageRef] accepts exactly the references without surrounding
    space, scheme or backslash that are a slash-separated list of plain names,
    and the parent directory itself: its escape test looks for the prefix
    [../] only, so dot-dot alone leaves the package tree. *)
Theorem package_references_are_exact value :
  validPackageRef value = true <->
  TrimSpace value = value /\ Contains value "://" = false /\
  any_char (is_char 92) value = false /\
  (value = ".." \/ exists names, value = String.concat "/" names /\ names <> [] /\
    Forall (fun e => plain e = true) names).
Proof.
  rewrite <- clean_below_iff. unfold validPackageRef, blank. split.
  - intros H. case_match; [done|]. cbv zeta in H. go_simp.
    repeat split; congruence.
  - intros (Htrim & Hscheme & Hslash & Habs & Hclean & Hdot & Hup).
    rewrite Htrim, Hscheme, Hslash, Hclean, Habs, Hup, !String.eqb_refl.
    destruct (decide (value = "")) as [->|Hne]; [discriminate Hclean|].
    by rewrite (proj2 (String.eqb_neq value "")), (proj2 (String.eqb_neq value ".")).
Qed.

(** ** Witnesses *)

Definition sample_operation (name : string) : Operation :=
  {| op_Action := name; op_OperationID := "op"; op_Idempotent := true;
     op_IdempotencyKey := "key"; op_PolicyAware := true; op_AuditReceiptRef := "audit";
     op_EvidenceReceiptRef := "evidence"; op_RollbackRequired := true;
     op_RollbackHookRef := "hook"; op_NextAction := "next" |}.

Definition sample_module (id : string) (dependencies : list string) : Module_ :=
  {| mod_ID := id; mod_DisplayName := "Module"; mod_PackageRef := "packages/module";
     mod_Channel := "stable"; mod_Version := "1.0.0"; mod_State := "installed";
     mod_LifecycleStates := reverse moduleStates;
     mod_Dependencies :=
       map (fun id => {| dep_ModuleID := id; dep_State := "installed" |}) dependencies;
     mod_EntitlementScope := "tenant";
     mod_Operations :=
       {| ops_Install := sample_operation "install"; ops_Update := sample_operation "update";
          ops_Remove := sample_operation "remove"; ops_Suspend := sample_operation "suspend";
          ops_Deprecate := sample_operation "deprecate" |};
     mod_ServiceImplementationRefs := None |}.

Definition sample_registry (modules : list Module_) : Registry :=
  {| r_SchemaVersion := SchemaVersion; r_RegistryID := "registry"; r_ModelVersion := "1";
     r_SourceSafety :=
       {| ss_SyntheticFixture := true; ss_ContainsServiceImplementationRefs := false;
          ss_ContainsProviderEndpoints := false; ss_ContainsSecrets := false;
          ss_MutatesServices := false |};
     r_DependencyResolution :=
       {| dr_Strategy := "topological"; dr_CyclePolicy := "block";
          dr_MissingDependencyPolicy := "block"; dr_EvidenceRef := "evidence" |};
     r_Modules := modules;
     r_PlanRequests :=
       [{| plan_Name := "plan"; plan_ModuleID := "base"; plan_Action := "install";
           plan_CurrentState := "installable"; plan_TargetVersion := "1.0.0" |}] |}.

Definition diamond : list Module_ :=
  [sample_module "top" ["left"; "right"]; sample_module "left" ["base"];
   sample_module "right" ["base"]; sample_module "base" []].

(** A diamond of dependencies is accepted, a cycle is found. *)
Lemma sample_registries :
  Validate (sample_registry diamond) = Some None /\
  Validate (sample_registry (sample_module "base" ["top"] :: take 3 diamond)) =
    Some (Some cycle_error).
Proof. vm_compute. done. Qed.

Lemma dependency_search_is_exact_witness :
  validateDependencies diamond (index_of diamond) <> None /\
  forall a, ~ tc (depends diamond) a a.
Proof.
  destruct (dependency_search_is_exact diamond) as [Hends Hiff].
  - apply (bool_decide_unpack _). vm_compute. exact I.
  - split; [exact Hends|]. apply Hiff. vm_compute. reflexivity.
Defined.
