(* ===== verification/ProviderPorts.v ===== *)
(** * Package [providerports]: provider-neutral lifecycle ports

    [pkg/providerports/ports.go]: lifecycle requests and receipts with their
    SHA-256 commitments, the port interface, the adapter registry, the
    in-memory reference adapter and the conformance suite. *)

From stdpp Require Import gmap strings list fin_maps.
From Stdlib Require Import ZArith Lia.
From S2P Require Import Prelude GoString GoSort GoSha256.

#[local] Open Scope nat_scope.

Definition ProvisionRequestSchemaVersion := "cloudring.provider-ports.provision-request/v1".
Definition ProvisionReceiptSchemaVersion := "cloudring.provider-ports.provision-receipt/v1".
Definition commitmentDomainPrefix := "cloudring/provider-ports/commitment/v1".
Definition MaxParametersCount := 64.
Definition MaxParameterValue := 1024.

Definition ServiceCategory : Type := string.
Definition allServiceCategories : list ServiceCategory :=
  ["compute"; "volume"; "network"; "kubernetes"; "object-storage"; "backup";
   "access-control"; "support"; "external-integration"].

Definition BackendFamily : Type := string.
Definition allBackendFamilies : list BackendFamily :=
  ["kubevirt"; "openstack"; "proxmox"; "bare-metal"].

Definition LifecycleVerb : Type := string.
Definition VerbProvision : LifecycleVerb := "provision".
Definition VerbResume : LifecycleVerb := "resume".
Definition VerbResize : LifecycleVerb := "resize".
Definition VerbHold : LifecycleVerb := "hold".
Definition VerbSuspend : LifecycleVerb := "suspend".
Definition VerbDeprovision : LifecycleVerb := "deprovision".
Definition allLifecycleVerbs : list LifecycleVerb :=
  [VerbProvision; VerbResume; VerbResize; VerbHold; VerbSuspend; VerbDeprovision].

Definition ResourceState : Type := string.
Definition StateReady : ResourceState := "ready".
Definition StateSuspended : ResourceState := "suspended".
Definition StateDeleted : ResourceState := "deleted".
Definition StateFailed : ResourceState := "failed".
Definition StateDenied : ResourceState := "denied".
Definition StateBlocked : ResourceState := "blocked".
Definition StateRetryable : ResourceState := "retryable".
Definition allResourceStates : list ResourceState :=
  ["pending"; "provisioning"; StateReady; "degraded"; StateSuspended; "deprovisioning";
   StateDeleted; StateFailed; StateDenied; StateBlocked; StateRetryable].

Definition HealthStatus : Type := string.
Definition HealthReady : HealthStatus := "ready".
Definition allHealthStatuses : list HealthStatus := [HealthReady; "degraded"; "unavailable"].

Definition ErrInvalidRequest := errors_New "providerports: invalid provision request".
Definition ErrInvalidReceipt := errors_New "providerports: invalid provision receipt".
Definition ErrInvalidHealthStatus := errors_New "providerports: invalid health status".
Definition ErrInvalidAdapterDescriptor :=
  errors_New "providerports: invalid adapter descriptor".
Definition ErrAdapterAlreadyRegistered :=
  errors_New "providerports: adapter already registered".
Definition ErrAdapterNotFound := errors_New "providerports: adapter not found".
Definition ErrIdempotencyConflict :=
  errors_New "providerports: idempotency key reused with different request parameters".
Definition ErrTenantIsolationViolation :=
  errors_New "providerports: cross-tenant or cross-project access denied".
Definition ErrResourceNotFound := errors_New "providerports: resource not found".
Definition ErrContextCanceled :=
  errors_New "providerports: operation canceled by caller context".

(** [slices.Contains] *)
Definition Contains_ (values : list string) (value : string) : bool :=
  existsb (fun v => v == value) values.

Definition ValidServiceCategory (c : ServiceCategory) : bool := Contains_ allServiceCategories c.
Definition ValidBackendFamily (f : BackendFamily) : bool := Contains_ allBackendFamilies f.
Definition ValidLifecycleVerb (v : LifecycleVerb) : bool := Contains_ allLifecycleVerbs v.
Definition ValidResourceState (s : ResourceState) : bool := Contains_ allResourceStates s.
Definition ValidHealthStatus (s : HealthStatus) : bool := Contains_ allHealthStatuses s.

(** ** Patterns *)

Definition is_alnum (c : Ascii.ascii) : bool := is_lower c || is_digit c.
(** [a-z0-9._-] *)
Definition is_ident_char (c : Ascii.ascii) : bool :=
  is_alnum c || is_char 46 c || is_char 95 c || is_char 45 c.

(** The last character satisfies [f]; false for the empty string. *)
Fixpoint last_char (f : Ascii.ascii -> bool) (s : string) : bool :=
  match s with
  | EmptyString => false
  | String c EmptyString => f c
  | String _ rest => last_char f rest
  end.

(** [^[a-z0-9][a-z0-9._-]{1,62}[a-z0-9]$] *)
Definition identifierPattern (s : string) : bool :=
  match s with
  | EmptyString => false
  | String c _ =>
      (3 <=? len s) && (len s <=? 64) && is_alnum c && all_chars is_ident_char s &&
      last_char is_alnum s
  end.

(** [^[a-z][a-z0-9_.-]{0,62}$] *)
Definition paramKeyPattern (s : string) : bool :=
  match s with
  | EmptyString => false
  | String c rest => is_lower c && (len rest <=? 62) && all_chars is_ident_char rest
  end.

(** [^[a-f0-9]{64}$] *)
Definition digestPattern (s : string) : bool := (len s =? 64) && all_chars is_hex_lower s.

Definition validIdentifier (value : string) : bool :=
  identifierPattern value && negb (Contains value "..").

(** ** Requests and receipts *)

Record Parameter_ := { par_Key : string; par_Value : string }.

Record ProvisionRequest := {
  rq_SchemaVersion : string;
  rq_ServiceCategory : ServiceCategory;
  rq_AdapterID : string;
  rq_TenantID : string;
  rq_ProjectID : string;
  rq_ResourceID : string;
  rq_IdempotencyKey : string;
  rq_Verb : LifecycleVerb;
  rq_Parameters : list Parameter_
}.

Record ProvisionReceipt := {
  rp_SchemaVersion : string;
  rp_RequestSHA256 : string;
  rp_CommitmentSHA256 : string;
  rp_OperationID : string;
  rp_ProviderHandle : string;
  rp_AdapterID : string;
  rp_ServiceCategory : ServiceCategory;
  rp_TenantID : string;
  rp_ProjectID : string;
  rp_ResourceID : string;
  rp_State : ResourceState;
  rp_BlockerCode : string
}.

#[export] Instance Parameter_eq_dec : EqDecision Parameter_.
Proof. solve_decision. Defined.
#[export] Instance ProvisionRequest_eq_dec : EqDecision ProvisionRequest.
Proof. solve_decision. Defined.
#[export] Instance ProvisionReceipt_eq_dec : EqDecision ProvisionReceipt.
Proof. solve_decision. Defined.

Definition zero_ProvisionRequest : ProvisionRequest :=
  {| rq_SchemaVersion := ""; rq_ServiceCategory := ""; rq_AdapterID := ""; rq_TenantID := "";
     rq_ProjectID := ""; rq_ResourceID := ""; rq_IdempotencyKey := ""; rq_Verb := "";
     rq_Parameters := [] |}.

Definition zero_ProvisionReceipt : ProvisionReceipt :=
  {| rp_SchemaVersion := ""; rp_RequestSHA256 := ""; rp_CommitmentSHA256 := "";
     rp_OperationID := ""; rp_ProviderHandle := ""; rp_AdapterID := "";
     rp_ServiceCategory := ""; rp_TenantID := ""; rp_ProjectID := ""; rp_ResourceID := "";
     rp_State := ""; rp_BlockerCode := "" |}.

Record HealthReport := {
  hr_AdapterID : string;
  hr_ServiceCategory : ServiceCategory;
  hr_BackendFamily : BackendFamily;
  hr_Status : HealthStatus;
  hr_Reason : string
}.

Definition ValidateHealthReport (report : HealthReport) : option goerror :=
  if negb (validIdentifier (hr_AdapterID report)) ||
     negb (ValidServiceCategory (hr_ServiceCategory report)) ||
     negb (ValidBackendFamily (hr_BackendFamily report)) ||
     negb (ValidHealthStatus (hr_Status report)) ||
     ((hr_Status report != HealthReady) && blank (hr_Reason report))
  then Some ErrInvalidHealthStatus else None.

(** The loop over the parameters; [previous] is the key before. *)
Fixpoint validate_parameters (previous : option string) (params : list Parameter_)
  : option goerror :=
  match params with
  | [] => None
  | param :: rest =>
      if negb (paramKeyPattern (par_Key param)) || blank (par_Value param) ||
         (MaxParameterValue <? len (par_Value param)) ||
         any_char (is_char 0) (par_Value param)
      then Some ErrInvalidRequest
      else if match previous with
              | Some key => negb (string_lt key (par_Key param))
              | None => false
              end
      then Some ErrInvalidRequest
      else validate_parameters (Some (par_Key param)) rest
  end.

Definition ValidateProvisionRequest (req : ProvisionRequest) : option goerror :=
  if (rq_SchemaVersion req != ProvisionRequestSchemaVersion) ||
     negb (ValidServiceCategory (rq_ServiceCategory req)) ||
     negb (validIdentifier (rq_AdapterID req)) ||
     negb (validIdentifier (rq_TenantID req)) ||
     negb (validIdentifier (rq_ProjectID req)) ||
     negb (validIdentifier (rq_ResourceID req)) ||
     negb (validIdentifier (rq_IdempotencyKey req)) ||
     negb (ValidLifecycleVerb (rq_Verb req)) ||
     (MaxParametersCount <? length (rq_Parameters req))
  then Some ErrInvalidRequest
  else validate_parameters None (rq_Parameters req).

Definition NewProvisionRequest (category : ServiceCategory)
    (adapterID tenantID projectID resourceID idempotencyKey : string) (verb : LifecycleVerb)
    (params : gmap string string) : result ProvisionRequest :=
  let sortedParams := sort_Slice (fun a b => string_lt (par_Key a) (par_Key b))
    (map (fun kv => {| par_Key := kv.1; par_Value := kv.2 |}) (map_to_list params)) in
  let req := {| rq_SchemaVersion := ProvisionRequestSchemaVersion;
                rq_ServiceCategory := category; rq_AdapterID := adapterID;
                rq_TenantID := tenantID; rq_ProjectID := projectID;
                rq_ResourceID := resourceID; rq_IdempotencyKey := idempotencyKey;
                rq_Verb := verb; rq_Parameters := sortedParams |} in
  match ValidateProvisionRequest req with
  | Some err => Err err
  | None => Ok req
  end.

(** [writeField] writes a value and a zero byte; the fields in order. *)
Definition write_fields (fields : list string) : string :=
  foldr (fun value rest => value +:+ (NUL +:+ rest)) "" fields.

Definition request_fields (req : ProvisionRequest) : list string :=
  [rq_SchemaVersion req; rq_ServiceCategory req; rq_AdapterID req; rq_TenantID req;
   rq_ProjectID req; rq_ResourceID req; rq_IdempotencyKey req; rq_Verb req] ++
  flat_map (fun p => [par_Key p; par_Value p]) (rq_Parameters req).

Definition RequestSHA256 (req : ProvisionRequest) : result string :=
  match ValidateProvisionRequest req with
  | Some err => Err err
  | None => Ok (sha256_hex (write_fields (request_fields req)))
  end.

Definition ReceiptCommitmentSHA256 (req : ProvisionRequest) (state : ResourceState)
    (providerHandle : string) : result string :=
  match RequestSHA256 req with
  | Err err => Err err
  | Ok reqDigest =>
      if negb (ValidResourceState state) || negb (validIdentifier providerHandle)
      then Err ErrInvalidReceipt
      else Ok (sha256_hex (commitmentDomainPrefix +:+ NUL +:+ reqDigest +:+ NUL +:+ state +:+
                           NUL +:+ providerHandle))
  end.

Definition requiresBlocker (state : ResourceState) : bool :=
  (state == StateBlocked) || (state == StateDenied) || (state == StateFailed) ||
  (state == StateRetryable).

Definition ValidateProvisionReceipt (req : ProvisionRequest) (receipt : ProvisionReceipt)
  : option goerror :=
  match RequestSHA256 req with
  | Err _ => Some ErrInvalidReceipt
  | Ok reqDigest =>
  match ReceiptCommitmentSHA256 req (rp_State receipt) (rp_ProviderHandle receipt) with
  | Err _ => Some ErrInvalidReceipt
  | Ok expectedCommitment =>
  if (rp_SchemaVersion receipt != ProvisionReceiptSchemaVersion) ||
     (rp_RequestSHA256 receipt != reqDigest) ||
     negb (digestPattern (rp_CommitmentSHA256 receipt)) ||
     (rp_CommitmentSHA256 receipt != expectedCommitment) ||
     negb (validIdentifier (rp_OperationID receipt)) ||
     (rp_AdapterID receipt != rq_AdapterID req) ||
     (rp_ServiceCategory receipt != rq_ServiceCategory req) ||
     (rp_TenantID receipt != rq_TenantID req) ||
     (rp_ProjectID receipt != rq_ProjectID req) ||
     (rp_ResourceID receipt != rq_ResourceID req)
  then Some ErrInvalidReceipt
  else if requiresBlocker (rp_State receipt) && negb (validIdentifier (rp_BlockerCode receipt))
  then Some ErrInvalidReceipt
  else if negb (requiresBlocker (rp_State receipt)) && (rp_BlockerCode receipt != "")
  then Some ErrInvalidReceipt
  else None
  end end.

Definition NewProvisionReceipt (req : ProvisionRequest) (operationID : string)
    (state : ResourceState) (providerHandle blockerCode : string) : result ProvisionReceipt :=
  match RequestSHA256 req with
  | Err _ => Err ErrInvalidReceipt
  | Ok reqDigest =>
  match ReceiptCommitmentSHA256 req state providerHandle with
  | Err _ => Err ErrInvalidReceipt
  | Ok commitment =>
      let receipt :=
        {| rp_SchemaVersion := ProvisionReceiptSchemaVersion; rp_RequestSHA256 := reqDigest;
           rp_CommitmentSHA256 := commitment; rp_OperationID := operationID;
           rp_ProviderHandle := providerHandle; rp_AdapterID := rq_AdapterID req;
           rp_ServiceCategory := rq_ServiceCategory req; rp_TenantID := rq_TenantID req;
           rp_ProjectID := rq_ProjectID req; rp_ResourceID := rq_ResourceID req;
           rp_State := state; rp_BlockerCode := blockerCode |} in
      match ValidateProvisionReceipt req receipt with
      | Some err => Err err
      | None => Ok receipt
      end
  end end.

(** ** Ports

    A port is a state with the methods of [ProviderPort]; the category-specific
    interfaces add methods that the reference adapter forwards to
    [ExecuteLifecycle]. *)

Record ProviderPort (P : Type) := {
  port_AdapterID : P -> string;
  port_ServiceCategory : P -> ServiceCategory;
  port_BackendFamily : P -> BackendFamily;
  port_ExecuteLifecycle : option Context_ -> ProvisionRequest -> P -> P * result ProvisionReceipt;
  port_InspectResource : option Context_ -> string -> string -> string -> P ->
    result ProvisionReceipt;
  port_Health : option Context_ -> P -> result HealthReport
}.
Arguments port_AdapterID {P}. Arguments port_ServiceCategory {P}.
Arguments port_BackendFamily {P}. Arguments port_ExecuteLifecycle {P}.
Arguments port_InspectResource {P}. Arguments port_Health {P}.

Definition checkContext (ctx : option Context_) : option goerror :=
  match ctx with
  | None => Some ErrContextCanceled
  | Some ctx =>
      match ctx_Err ctx with
      | Some _ => Some ErrContextCanceled
      | None => None
      end
  end.

Definition stateForVerb (verb : LifecycleVerb) : ResourceState :=
  if (verb == VerbHold) || (verb == VerbSuspend) then StateSuspended
  else if verb == VerbDeprovision then StateDeleted
  else StateReady.

(** ** The in-memory adapter *)

Record idempotencyEntry := { ie_requestSHA256 : string; ie_receipt : ProvisionReceipt }.

Record storedResource := {
  sr_tenantID : string;
  sr_projectID : string;
  sr_receipt : ProvisionReceipt
}.

Record InMemoryAdapter := {
  ad_adapterID : string;
  ad_serviceCategory : ServiceCategory;
  ad_backendFamily : BackendFamily;
  ad_healthStatus : HealthStatus;
  ad_healthReason : string;
  ad_idempotencyLog : gmap string idempotencyEntry;
  ad_resources : gmap string storedResource
}.

Definition NewInMemoryAdapter (adapterID : string) (category : ServiceCategory)
    (family : BackendFamily) : result InMemoryAdapter :=
  if negb (validIdentifier adapterID) || negb (ValidServiceCategory category) ||
     negb (ValidBackendFamily family)
  then Err ErrInvalidAdapterDescriptor
  else Ok {| ad_adapterID := adapterID; ad_serviceCategory := category;
             ad_backendFamily := family; ad_healthStatus := HealthReady;
             ad_healthReason := ""; ad_idempotencyLog := ∅; ad_resources := ∅ |}.

Definition health_report (a : InMemoryAdapter) (status : HealthStatus) (reason : string)
  : HealthReport :=
  {| hr_AdapterID := ad_adapterID a; hr_ServiceCategory := ad_serviceCategory a;
     hr_BackendFamily := ad_backendFamily a; hr_Status := status; hr_Reason := reason |}.

Definition SetHealth (status : HealthStatus) (reason : string) (a : InMemoryAdapter)
  : InMemoryAdapter * option goerror :=
  match ValidateHealthReport (health_report a status reason) with
  | Some err => (a, Some err)
  | None =>
      ({| ad_adapterID := ad_adapterID a; ad_serviceCategory := ad_serviceCategory a;
          ad_backendFamily := ad_backendFamily a; ad_healthStatus := status;
          ad_healthReason := reason; ad_idempotencyLog := ad_idempotencyLog a;
          ad_resources := ad_resources a |}, None)
  end.

Definition Health (ctx : option Context_) (a : InMemoryAdapter) : result HealthReport :=
  match checkContext ctx with
  | Some err => Err err
  | None => Ok (health_report a (ad_healthStatus a) (ad_healthReason a))
  end.

Definition idempotency_key (req : ProvisionRequest) : string :=
  rq_TenantID req +:+ NUL +:+ rq_ProjectID req +:+ NUL +:+ rq_ResourceID req +:+ NUL +:+
  rq_IdempotencyKey req.

(** [hdl-<family>-<ten bytes of a digest>] *)
Definition provider_handle (family : BackendFamily) (req : ProvisionRequest) : string :=
  "hdl-" +:+ family +:+ "-" +:+
  EncodeToString (take 10 (Sum256 (family +:+ NUL +:+ rq_TenantID req +:+ NUL +:+
                                   rq_ProjectID req +:+ NUL +:+ rq_ResourceID req))).

(** The value of a call whose error the code drops. *)
Definition dropping_error {A} (zero : A) (r : result A) : A :=
  match r with Ok value => value | Err _ => zero end.

Definition ExecuteLifecycle (ctx : option Context_) (req : ProvisionRequest)
    (a : InMemoryAdapter) : InMemoryAdapter * result ProvisionReceipt :=
  match checkContext ctx with
  | Some err => (a, Err err)
  | None =>
  match ValidateProvisionRequest req with
  | Some err => (a, Err err)
  | None =>
  if (rq_AdapterID req != ad_adapterID a) || (rq_ServiceCategory req != ad_serviceCategory a)
  then (a, Err ErrInvalidRequest) else
  let reqDigest := dropping_error "" (RequestSHA256 req) in
  let refused :=
    match ad_resources a !! rq_ResourceID req with
    | Some existing =>
        if (sr_tenantID existing != rq_TenantID req) ||
           (sr_projectID existing != rq_ProjectID req)
        then Some ErrTenantIsolationViolation else None
    | None => if rq_Verb req != VerbProvision then Some ErrResourceNotFound else None
    end in
  match refused with
  | Some err => (a, Err err)
  | None =>
  let idemKey := idempotency_key req in
  match ad_idempotencyLog a !! idemKey with
  | Some prior =>
      if ie_requestSHA256 prior != reqDigest
      then (a, Err ErrIdempotencyConflict)
      else (a, Ok (ie_receipt prior))
  | None =>
      let targetState := stateForVerb (rq_Verb req) in
      let opID := "op-" +:+ take_chars 24 reqDigest in
      let handle := provider_handle (ad_backendFamily a) req in
      let receipt := dropping_error zero_ProvisionReceipt
        (NewProvisionReceipt req opID targetState handle "") in
      ({| ad_adapterID := ad_adapterID a; ad_serviceCategory := ad_serviceCategory a;
          ad_backendFamily := ad_backendFamily a; ad_healthStatus := ad_healthStatus a;
          ad_healthReason := ad_healthReason a;
          ad_idempotencyLog :=
            <[idemKey := {| ie_requestSHA256 := reqDigest; ie_receipt := receipt |}]>
              (ad_idempotencyLog a);
          ad_resources :=
            <[rq_ResourceID req := {| sr_tenantID := rq_TenantID req;
                                      sr_projectID := rq_ProjectID req;
                                      sr_receipt := receipt |}]> (ad_resources a) |},
       Ok receipt)
  end end end end.

Definition InspectResource (ctx : option Context_) (tenantID projectID resourceID : string)
    (a : InMemoryAdapter) : result ProvisionReceipt :=
  match checkContext ctx with
  | Some err => Err err
  | None =>
  if negb (validIdentifier tenantID) || negb (validIdentifier projectID) ||
     negb (validIdentifier resourceID)
  then Err ErrInvalidRequest
  else match ad_resources a !! resourceID with
  | None => Err ErrResourceNotFound
  | Some stored =>
      if (sr_tenantID stored != tenantID) || (sr_projectID stored != projectID)
      then Err ErrTenantIsolationViolation
      else Ok (sr_receipt stored)
  end end.

Definition InMemoryAdapter_port : ProviderPort InMemoryAdapter :=
  {| port_AdapterID := ad_adapterID; port_ServiceCategory := ad_serviceCategory;
     port_BackendFamily := ad_backendFamily; port_ExecuteLifecycle := ExecuteLifecycle;
     port_InspectResource := InspectResource; port_Health := Health |}.

(** ** The registry of ports *)

Record AdapterDescriptor := {
  desc_AdapterID : string;
  desc_ServiceCategory : ServiceCategory;
  desc_BackendFamily : BackendFamily
}.

Definition registryKey (category : ServiceCategory) (adapterID : string) : string :=
  category +:+ NUL +:+ adapterID.

Section ProviderRegistry.
Context {P : Type} (methods : ProviderPort P).

(** [port] is nil when [None]. *)
Definition Register (port : option P) (adapters : gmap string P)
  : gmap string P * option goerror :=
  match port with
  | None => (adapters, Some ErrInvalidAdapterDescriptor)
  | Some port =>
      if negb (validIdentifier (port_AdapterID methods port)) ||
         negb (ValidServiceCategory (port_ServiceCategory methods port)) ||
         negb (ValidBackendFamily (port_BackendFamily methods port))
      then (adapters, Some ErrInvalidAdapterDescriptor)
      else
        let key := registryKey (port_ServiceCategory methods port)
                     (port_AdapterID methods port) in
        match adapters !! key with
        | Some _ => (adapters, Some ErrAdapterAlreadyRegistered)
        | None => (<[key := port]> adapters, None)
        end
  end.

Definition Lookup (category : ServiceCategory) (adapterID : string) (adapters : gmap string P)
  : result P :=
  if negb (ValidServiceCategory category) || negb (validIdentifier adapterID)
  then Err ErrInvalidAdapterDescriptor
  else match adapters !! registryKey category adapterID with
  | None => Err ErrAdapterNotFound
  | Some port => Ok port
  end.

Definition describe (port : P) : AdapterDescriptor :=
  {| desc_AdapterID := port_AdapterID methods port;
     desc_ServiceCategory := port_ServiceCategory methods port;
     desc_BackendFamily := port_BackendFamily methods port |}.

Definition descriptor_less (a b : AdapterDescriptor) : bool :=
  if desc_ServiceCategory a != desc_ServiceCategory b
  then string_lt (desc_ServiceCategory a) (desc_ServiceCategory b)
  else string_lt (desc_AdapterID a) (desc_AdapterID b).

Definition List (adapters : gmap string P) : list AdapterDescriptor :=
  sort_Slice descriptor_less (map (fun kv => describe kv.2) (map_to_list adapters)).

End ProviderRegistry.

(** ** The conformance suite *)

Record ConformanceResult := {
  cr_AdapterID : string;
  cr_ServiceCategory : ServiceCategory;
  cr_BackendFamily : BackendFamily;
  cr_Passed : bool;
  cr_VerifiedChecks : list string
}.

(** [errors.Is(err, target)] for the error of a call, nil for a success. *)
Definition fails_with {A} (r : result A) (target : goerror) : bool :=
  match r with Ok _ => false | Err err => errors_Is err target end.

Section Conformance.
Context {P : Type} (methods : ProviderPort P).

Definition suite_request (port : P) (tenant key : string) (verb : LifecycleVerb)
    (params : gmap string string) : result ProvisionRequest :=
  NewProvisionRequest (port_ServiceCategory methods port) (port_AdapterID methods port)
    tenant "project-core" "res-conformance-01" key verb params.

Definition transitions : list (string * LifecycleVerb * ResourceState) :=
  [("idem-resize-01", VerbResize, StateReady); ("idem-hold-01", VerbHold, StateSuspended);
   ("idem-resume-01", VerbResume, StateReady);
   ("idem-suspend-01", VerbSuspend, StateSuspended);
   ("idem-deprov-01", VerbDeprovision, StateDeleted)].

Fixpoint run_transitions (ctx : Context_) (steps : list (string * LifecycleVerb * ResourceState))
    (port : P) : P * option goerror :=
  match steps with
  | [] => (port, None)
  | (idemKey, verb, expectedState) :: rest =>
      let stepReq := dropping_error zero_ProvisionRequest
        (suite_request port "tenant-alpha" idemKey verb ∅) in
      match port_ExecuteLifecycle methods (Some ctx) stepReq port with
      | (port, Err err) => (port, Some err)
      | (port, Ok stepReceipt) =>
          if negb (is_nil (ValidateProvisionReceipt stepReq stepReceipt)) ||
             (rp_State stepReceipt != expectedState)
          then (port, Some ErrInvalidReceipt)
          else run_transitions ctx rest port
      end
  end.

Definition canceledCtx (ctx : Context_) : Context_ :=
  {| ctx_Err := Some (errors_New "context canceled"); ctx_values := ctx_values ctx |}.

Definition RunConformanceSuite (port : option P) : option P * result ConformanceResult :=
  match port with
  | None => (None, Err ErrInvalidAdapterDescriptor)
  | Some port =>
  let ctx := context_Background in
  let failed port err := (Some port, Err err) in
  match port_Health methods (Some ctx) port with
  | Err err => failed port err
  | Ok health =>
  match ValidateHealthReport health with
  | Some err => failed port err
  | None =>
  match suite_request port "tenant-alpha" "idem-create-01" VerbProvision
          {["profile" := "standard-v1"]} with
  | Err err => failed port err
  | Ok req =>
  match port_ExecuteLifecycle methods (Some ctx) req port with
  | (port, Err err) => failed port err
  | (port, Ok firstReceipt) =>
  if negb (is_nil (ValidateProvisionReceipt req firstReceipt)) ||
     (rp_State firstReceipt != StateReady)
  then failed port ErrInvalidReceipt
  else match port_ExecuteLifecycle methods (Some ctx) req port with
  | (port, Err err) => failed port err
  | (port, Ok replayReceipt) =>
  if negb (bool_decide (replayReceipt = firstReceipt)) then failed port ErrIdempotencyConflict
  else
  let conflictingReq := dropping_error zero_ProvisionRequest
    (suite_request port "tenant-alpha" "idem-create-01" VerbProvision
       {["profile" := "mutated-v2"]}) in
  let '(port, conflict) := port_ExecuteLifecycle methods (Some ctx) conflictingReq port in
  if negb (fails_with conflict ErrIdempotencyConflict)
  then failed port ErrIdempotencyConflict
  else if negb (fails_with (port_InspectResource methods (Some ctx) "tenant-bravo"
                  "project-core" "res-conformance-01" port) ErrTenantIsolationViolation)
  then failed port ErrTenantIsolationViolation
  else
  let crossTenantMutate := dropping_error zero_ProvisionRequest
    (suite_request port "tenant-bravo" "idem-bravo-01" VerbDeprovision ∅) in
  let '(port, cross) := port_ExecuteLifecycle methods (Some ctx) crossTenantMutate port in
  if negb (fails_with cross ErrTenantIsolationViolation)
  then failed port ErrTenantIsolationViolation
  else match run_transitions ctx transitions port with
  | (port, Some err) => failed port err
  | (port, None) =>
  let '(port, canceled) := port_ExecuteLifecycle methods (Some (canceledCtx ctx)) req port in
  if negb (fails_with canceled ErrContextCanceled)
  then failed port ErrContextCanceled
  else (Some port, Ok
    {| cr_AdapterID := port_AdapterID methods port;
       cr_ServiceCategory := port_ServiceCategory methods port;
       cr_BackendFamily := port_BackendFamily methods port; cr_Passed := true;
       cr_VerifiedChecks :=
         ["health_report_schema"; "provision_receipt_commitment";
          "idempotent_replay_determinism"; "idempotency_conflict_rejection";
          "tenant_and_project_isolation"; "lifecycle_state_transitions";
          "context_cancellation_propagation"] |})
  end end end end end end
  end.

End Conformance.
