(* ===== verification/PortsCorrect.v ===== *)
(** * Package [providerports]: requests, receipts and digests *)

From stdpp Require Import gmap strings list fin_maps sorting.
From Stdlib Require Import ZArith Lia.
From S2P Require Import Prelude GoString GoSort GoSha256 ProviderPorts.

#[local] Open Scope nat_scope.

(** ** Identifiers *)

Lemma Contains__elem values value : Contains_ values value = true <-> value ∈ values.
Proof.
  unfold Contains_. rewrite existsb_elem. split.
  - intros (v & Hv & He). by apply String.eqb_eq in He as ->.
  - intros H. exists value. by rewrite String.eqb_refl.
Qed.

Lemma is_ident_char_no_nul s : all_chars is_ident_char s = true -> no_nul s = true.
Proof.
  apply all_chars_no_nul. intros [[] [] [] [] [] [] [] []]; vm_compute; tauto.
Qed.

Lemma validIdentifier_no_nul s : validIdentifier s = true -> no_nul s = true.
Proof.
  unfold validIdentifier, identifierPattern. intros H. destruct s as [|c s]; go_simp.
  by apply is_ident_char_no_nul.
Qed.

Lemma elem_no_nul values value :
  forallb no_nul values = true -> Contains_ values value = true -> no_nul value = true.
Proof. rewrite forallb_elem, Contains__elem. auto. Qed.

(** ** Encodings *)

Lemma write_fields_inj xs ys :
  Forall (fun x => no_nul x = true) xs -> Forall (fun y => no_nul y = true) ys ->
  write_fields xs = write_fields ys -> xs = ys.
Proof.
  intros Hx. revert ys. induction Hx as [|x xs Hx Hxs IH]; intros ys Hy H;
    destruct Hy as [|y ys Hy Hys]; simpl in H; [done| | |].
  - exfalso. destruct y; rewrite ?string_app_cons in H; done.
  - exfalso. destruct x; rewrite ?string_app_cons in H; done.
  - apply nul_field_inj in H as [-> H]; [|done|done]. by rewrite (IH ys).
Qed.

Lemma parameter_fields_inj (ps qs : list Parameter_) :
  flat_map (fun p => [par_Key p; par_Value p]) ps =
  flat_map (fun p => [par_Key p; par_Value p]) qs -> ps = qs.
Proof.
  revert qs. induction ps as [|[k v] ps IH]; intros [|[k' v'] qs] H; simplify_eq/=; [done|].
  by rewrite (IH qs).
Qed.

(** ** Validated requests *)

Record RequestOK (req : ProvisionRequest) : Prop := {
  qok_schema : rq_SchemaVersion req = ProvisionRequestSchemaVersion;
  qok_category : rq_ServiceCategory req ∈ allServiceCategories;
  qok_adapter : validIdentifier (rq_AdapterID req) = true;
  qok_tenant : validIdentifier (rq_TenantID req) = true;
  qok_project : validIdentifier (rq_ProjectID req) = true;
  qok_resource : validIdentifier (rq_ResourceID req) = true;
  qok_key : validIdentifier (rq_IdempotencyKey req) = true;
  qok_verb : rq_Verb req ∈ allLifecycleVerbs;
  qok_count : length (rq_Parameters req) <= MaxParametersCount;
  qok_params : Forall (fun p => paramKeyPattern (par_Key p) = true /\
    blank (par_Value p) = false /\ len (par_Value p) <= MaxParameterValue /\
    no_nul (par_Value p) = true) (rq_Parameters req);
  qok_order : Sorted (fun a b => string_lt (par_Key a) (par_Key b) = true) (rq_Parameters req)
}.

Lemma validate_parameters_None previous params :
  validate_parameters previous params = None <->
  Forall (fun p => paramKeyPattern (par_Key p) = true /\ blank (par_Value p) = false /\
    len (par_Value p) <= MaxParameterValue /\ no_nul (par_Value p) = true) params /\
  Sorted (fun a b => string_lt (par_Key a) (par_Key b) = true) params /\
  match previous, params with
  | Some key, p :: _ => string_lt key (par_Key p) = true
  | _, _ => True
  end.
Proof.
  revert previous. induction params as [|p params IH]; intros previous; simpl.
  { split; [|done]. intros _. split; [done|]. split; [constructor|by destruct previous]. }
  rewrite Forall_cons. rewrite any_char_all. fold (no_nul (par_Value p)).
  destruct (negb _ || _ || _ || _) eqn:Hp.
  { split; [done|]. intros ([(Hk & Hb & Hl & Hn) _] & _).
    rewrite Hk, Hb, Hn in Hp. simpl in Hp. rewrite orb_false_r in Hp. go_simp. lia. }
  go_simp. destruct (match previous with Some _ => _ | None => _ end) eqn:Hprev.
  { split; [done|]. intros (_ & _ & Hlt). destruct previous; [|done]. by rewrite Hlt in Hprev. }
  rewrite IH. split.
  - intros (Hall & Hs & Hh). split; [done|]. split.
    + constructor; [done|]. destruct params; constructor; done.
    + destruct previous; [|done]. by go_simp.
  - intros ([_ Hall] & Hs & _). inversion Hs as [|? ? Hs' Hh]; subst.
    split; [done|]. split; [done|]. by inversion Hh.
Qed.

Lemma ValidateProvisionRequest_iff req : ValidateProvisionRequest req = None <-> RequestOK req.
Proof.
  unfold ValidateProvisionRequest, ValidServiceCategory, ValidLifecycleVerb.
  destruct (_ || _) eqn:H.
  - split; [done|]. intros [Hs Hc Ha Ht Hp Hr Hk Hv Hn _ _].
    apply Contains__elem in Hc, Hv. rewrite Hs, Hc, Ha, Ht, Hp, Hr, Hk, Hv in H.
    simpl in H. go_simp. lia.
  - go_simp. rewrite validate_parameters_None. split.
    + intros (Hp & Ho & _). split; try done; by apply Contains__elem.
    + intros []. done.
Qed.

Lemma paramKeyPattern_no_nul key : paramKeyPattern key = true -> no_nul key = true.
Proof.
  intros H. apply is_ident_char_no_nul. destruct key as [|c rest]; [done|]. simpl in H. go_simp.
  unfold is_ident_char, is_alnum. match goal with H : is_lower c = true |- _ => rewrite H end.
  done.
Qed.

Lemma request_fields_no_nul req :
  RequestOK req -> Forall (fun field => no_nul field = true) (request_fields req).
Proof.
  intros [Hs Hc Ha Ht Hp Hr Hk Hv _ Hps _]. apply Contains__elem in Hc, Hv.
  unfold request_fields. apply Forall_app. split.
  - rewrite Hs. repeat constructor; try (by apply validIdentifier_no_nul).
    + by apply (elem_no_nul allServiceCategories).
    + by apply (elem_no_nul allLifecycleVerbs).
  - induction Hps as [|p ps (Hkey & _ & _ & Hval) Hps IH]; simpl; [done|].
    constructor; [by apply paramKeyPattern_no_nul|]. by constructor.
Qed.

Lemma request_encoding_inj r1 r2 :
  RequestOK r1 -> RequestOK r2 ->
  write_fields (request_fields r1) = write_fields (request_fields r2) -> r1 = r2.
Proof.
  intros H1 H2 H. apply write_fields_inj in H; [|by apply request_fields_no_nul..].
  unfold request_fields in H. simpl in H. injection H as Hs Hc Ha Ht Hp Hr Hk Hv Hps.
  apply parameter_fields_inj in Hps. destruct r1, r2. simpl in *. by subst.
Qed.

Definition request_digest (req : ProvisionRequest) : string :=
  sha256_hex (write_fields (request_fields req)).

(** The encodings of two different requests that have one SHA-256 digest. *)
Definition request_collision (r1 r2 : ProvisionRequest) : Prop :=
  collision (write_fields (request_fields r1)) (write_fields (request_fields r2)).

Lemma request_digest_inj_or r1 r2 :
  RequestOK r1 -> RequestOK r2 -> request_digest r1 = request_digest r2 ->
  r1 = r2 \/ request_collision r1 r2.
Proof.
  intros H1 H2 [He|Hc]%sha256_hex_inj_or; [left|by right]. by apply request_encoding_inj.
Qed.

Lemma RequestSHA256_ok req : RequestOK req -> RequestSHA256 req = Ok (request_digest req).
Proof. intros H%ValidateProvisionRequest_iff. unfold RequestSHA256. by rewrite H. Qed.

(** ** Generated identifiers are valid *)

Definition not_dot (c : Ascii.ascii) : bool := negb (is_char 46 c).

Lemma no_dots s : all_chars not_dot s = true -> Contains s ".." = false.
Proof.
  induction s as [|c s IH]; simpl; [done|]. intros H. go_simp. rewrite IH by done.
  rewrite orb_false_r. unfold HasPrefix. simpl.
  case_match; [by subst|done].
Qed.

Lemma hex_is_alnum c : is_hex_lower c = true -> is_alnum c = true.
Proof. destruct c as [[] [] [] [] [] [] [] []]; vm_compute; tauto. Qed.

Lemma alnum_is_ident c : is_alnum c = true -> is_ident_char c && not_dot c = true.
Proof. destruct c as [[] [] [] [] [] [] [] []]; vm_compute; tauto. Qed.

Lemma last_char_app f s t : t <> "" -> last_char f (s +:+ t) = last_char f t.
Proof.
  intros Ht. induction s as [|c s IH]; [done|]. rewrite string_app_cons. simpl.
  destruct (s +:+ t) eqn:E; [|done]. destruct s; rewrite ?string_app_cons in E; done.
Qed.

Lemma last_char_all f s : s <> "" -> all_chars f s = true -> last_char f s = true.
Proof.
  induction s as [|c s IH]; [done|]. simpl. intros _ H. go_simp. destruct s; [done|].
  by apply IH.
Qed.

Lemma all_chars_andb f g s :
  all_chars (fun c => f c && g c) s = all_chars f s && all_chars g s.
Proof.
  induction s as [|c s IH]; simpl; [done|]. rewrite IH.
  destruct (f c), (g c), (all_chars f s), (all_chars g s); done.
Qed.

(** An alphanumeric tail after a prefix of identifier characters. *)
Lemma prefixed_identifier c prefix tail :
  is_alnum c = true ->
  all_chars (fun c => is_ident_char c && not_dot c) (String c prefix) = true ->
  all_chars is_alnum tail = true -> 1 <= len tail ->
  3 <= len (String c prefix) + len tail <= 64 ->
  validIdentifier (String c prefix +:+ tail) = true.
Proof.
  intros Hc Hp Ht Hlt Hlen.
  assert (all_chars (fun c => is_ident_char c && not_dot c) (String c prefix +:+ tail) = true)
    as Hall.
  { rewrite all_chars_app, Hp. simpl. eapply all_chars_impl; [exact alnum_is_ident|done]. }
  rewrite all_chars_andb in Hall. apply andb_true_iff in Hall as [Hid Hdot].
  unfold validIdentifier. rewrite (no_dots _ Hdot), andb_true_r.
  assert (tail <> "") as Hne by (intros ->; unfold len in Hlt; simpl in Hlt; lia).
  pose proof (last_char_app is_alnum (String c prefix) tail Hne) as Hlast.
  rewrite (last_char_all _ _ Hne Ht) in Hlast.
  pose proof (len_app (String c prefix) tail) as Hla.
  rewrite string_app_cons in *. unfold identifierPattern.
  rewrite Hc, Hid, Hlast, Hla, !andb_true_r. apply andb_true_iff.
  rewrite !Nat.leb_le. lia.
Qed.

Definition operation_id (req : ProvisionRequest) : string :=
  "op-" +:+ take_chars 24 (request_digest req).

Lemma operation_id_valid req : validIdentifier (operation_id req) = true.
Proof.
  apply prefixed_identifier; try done.
  - eapply all_chars_impl; [exact hex_is_alnum|]. apply take_chars_all, sha256_hex_hex.
  - rewrite take_chars_length; [lia|]. unfold request_digest. rewrite sha256_hex_len. lia.
  - rewrite take_chars_length; [unfold len; simpl; lia|].
    unfold request_digest. rewrite sha256_hex_len. lia.
Qed.

Lemma provider_handle_valid family req :
  family ∈ allBackendFamilies -> validIdentifier (provider_handle family req) = true.
Proof.
  intros Hf. unfold provider_handle.
  set (bytes := take 10 (Sum256 _)).
  assert (length bytes = 10) as Hlen.
  { unfold bytes. rewrite length_take, Sum256_length. lia. }
  assert (len (EncodeToString bytes) = 20) as He by (rewrite EncodeToString_len; lia).
  assert (all_chars is_alnum (EncodeToString bytes) = true) as Ha.
  { eapply all_chars_impl; [exact hex_is_alnum|]. apply EncodeToString_hex. }
  clearbody bytes. rewrite <- (string_app_assoc family), <- string_app_assoc.
  unfold allBackendFamilies in Hf. rewrite !elem_of_cons, elem_of_nil in Hf.
  destruct Hf as [->|[->|[->|[->|[]]]]];
    (apply prefixed_identifier; [done|done|done|lia|rewrite He; unfold len; simpl; lia]).
Qed.

Lemma stateForVerb_valid verb : ValidResourceState (stateForVerb verb) = true.
Proof. unfold stateForVerb. by repeat case_match. Qed.

Lemma stateForVerb_no_blocker verb : requiresBlocker (stateForVerb verb) = false.
Proof. unfold stateForVerb. by repeat case_match. Qed.

(** ** Receipts *)

Definition commitment (req : ProvisionRequest) (state : ResourceState) (handle : string) : string :=
  sha256_hex (commitmentDomainPrefix +:+ NUL +:+ request_digest req +:+ NUL +:+ state +:+
              NUL +:+ handle).

(** The receipt the adapter writes for a request it executes. *)
Definition fresh_receipt (family : BackendFamily) (req : ProvisionRequest) : ProvisionReceipt :=
  let state := stateForVerb (rq_Verb req) in
  let handle := provider_handle family req in
  {| rp_SchemaVersion := ProvisionReceiptSchemaVersion;
     rp_RequestSHA256 := request_digest req;
     rp_CommitmentSHA256 := commitment req state handle;
     rp_OperationID := operation_id req; rp_ProviderHandle := handle;
     rp_AdapterID := rq_AdapterID req; rp_ServiceCategory := rq_ServiceCategory req;
     rp_TenantID := rq_TenantID req; rp_ProjectID := rq_ProjectID req;
     rp_ResourceID := rq_ResourceID req; rp_State := state; rp_BlockerCode := "" |}.

Record ReceiptOK (req : ProvisionRequest) (receipt : ProvisionReceipt) : Prop := {
  pok_schema : rp_SchemaVersion receipt = ProvisionReceiptSchemaVersion;
  pok_digest : rp_RequestSHA256 receipt = request_digest req;
  pok_state : rp_State receipt ∈ allResourceStates;
  pok_handle : validIdentifier (rp_ProviderHandle receipt) = true;
  pok_commitment : rp_CommitmentSHA256 receipt =
    commitment req (rp_State receipt) (rp_ProviderHandle receipt);
  pok_operation : validIdentifier (rp_OperationID receipt) = true;
  pok_identity : rp_AdapterID receipt = rq_AdapterID req /\
    rp_ServiceCategory receipt = rq_ServiceCategory req /\
    rp_TenantID receipt = rq_TenantID req /\ rp_ProjectID receipt = rq_ProjectID req /\
    rp_ResourceID receipt = rq_ResourceID req;
  pok_blocker : if requiresBlocker (rp_State receipt)
    then validIdentifier (rp_BlockerCode receipt) = true else rp_BlockerCode receipt = ""
}.

Lemma ReceiptCommitment_ok req state handle :
  RequestOK req ->
  ReceiptCommitmentSHA256 req state handle =
  if ValidResourceState state && validIdentifier handle
  then Ok (commitment req state handle) else Err ErrInvalidReceipt.
Proof.
  intros H. unfold ReceiptCommitmentSHA256. rewrite RequestSHA256_ok by done.
  by destruct (ValidResourceState state), (validIdentifier handle).
Qed.

Lemma digestPattern_sha message : digestPattern (sha256_hex message) = true.
Proof. unfold digestPattern. by rewrite sha256_hex_len, sha256_hex_hex. Qed.

Lemma ValidateProvisionReceipt_iff req receipt :
  RequestOK req -> ValidateProvisionReceipt req receipt = None <-> ReceiptOK req receipt.
Proof.
  intros Hq. unfold ValidateProvisionReceipt.
  rewrite RequestSHA256_ok, ReceiptCommitment_ok by done.
  destruct (ValidResourceState (rp_State receipt)) eqn:Hst; simpl; cycle 1.
  { split; [done|]. intros []. apply Contains__elem in pok_state0.
    unfold ValidResourceState in Hst. congruence. }
  destruct (validIdentifier (rp_ProviderHandle receipt)) eqn:Hh; [|split; [done|intros []; congruence]].
  destruct (_ || _) eqn:Hor.
  - split; [done|]. intros [Hs Hd _ _ Hc Ho (Ha & Hcat & Ht & Hp & Hr) _].
    rewrite Hs, Hd, Hc, Ho, Ha, Hcat, Ht, Hp, Hr in Hor. unfold commitment in Hor.
    by rewrite digestPattern_sha, !String.eqb_refl in Hor.
  - go_simp. apply Contains__elem in Hst. split.
    + intros Hb. split; try done. destruct (requiresBlocker _); simpl in Hb; case_match; go_simp; done.
    + intros []. destruct (requiresBlocker _); simpl.
      * by rewrite pok_blocker0.
      * by rewrite pok_blocker0.
Qed.

Lemma fresh_receipt_OK family req :
  family ∈ allBackendFamilies -> ReceiptOK req (fresh_receipt family req).
Proof.
  intros Hf. split; simpl; try done.
  - apply Contains__elem, stateForVerb_valid.
  - by apply provider_handle_valid.
  - apply operation_id_valid.
  - by rewrite stateForVerb_no_blocker.
Qed.

Lemma NewProvisionReceipt_fresh family req :
  RequestOK req -> family ∈ allBackendFamilies ->
  NewProvisionReceipt req (operation_id req) (stateForVerb (rq_Verb req))
    (provider_handle family req) "" = Ok (fresh_receipt family req).
Proof.
  intros Hq Hf. unfold NewProvisionReceipt.
  rewrite RequestSHA256_ok, ReceiptCommitment_ok by done.
  rewrite stateForVerb_valid, provider_handle_valid by done. simpl. cbv zeta.
  change (ValidateProvisionReceipt _ _)
    with (ValidateProvisionReceipt req (fresh_receipt family req)).
  by rewrite (proj2 (ValidateProvisionReceipt_iff req _ Hq) (fresh_receipt_OK family req Hf)).
Qed.
