(* ===== verification/PortsAdapter.v ===== *)
(** * Package [providerports]: the in-memory adapter implements a ledger

    The abstract adapter is the list of the requests it has executed.  The
    maps of [InMemoryAdapter] represent that list, and [ExecuteLifecycle]
    refines the abstract operation, unless the request collides under SHA-256
    with the prior request of its operation. *)

From stdpp Require Import gmap strings list fin_maps.
From Stdlib Require Import ZArith Lia.
From S2P Require Import Prelude GoString GoSort GoSha256 ProviderPorts PortsCorrect.

#[local] Open Scope nat_scope.

(** ** The ledger *)

Definition same_operation (r1 r2 : ProvisionRequest) : Prop :=
  rq_TenantID r1 = rq_TenantID r2 /\ rq_ProjectID r1 = rq_ProjectID r2 /\
  rq_ResourceID r1 = rq_ResourceID r2 /\ rq_IdempotencyKey r1 = rq_IdempotencyKey r2.

#[export] Instance same_operation_dec r1 r2 : Decision (same_operation r1 r2).
Proof. unfold same_operation. apply _. Defined.

Definition Ledger : Type := list ProvisionRequest.

(** The last executed request for a resource, and for an operation. *)
Definition latest (l : Ledger) (resourceID : string) : option ProvisionRequest :=
  last (filter (fun r => rq_ResourceID r = resourceID) l).
Definition prior (l : Ledger) (req : ProvisionRequest) : option ProvisionRequest :=
  last (filter (fun r => same_operation r req) l).

(** Executing a valid request addressed to the adapter. *)
Definition ledger_execute (family : BackendFamily) (req : ProvisionRequest) (l : Ledger)
  : Ledger * result ProvisionReceipt :=
  match latest l (rq_ResourceID req) with
  | Some r =>
      if decide (rq_TenantID r = rq_TenantID req /\ rq_ProjectID r = rq_ProjectID req)
      then match prior l req with
        | Some r =>
            if decide (r = req) then (l, Ok (fresh_receipt family r))
            else (l, Err ErrIdempotencyConflict)
        | None => (l ++ [req], Ok (fresh_receipt family req))
        end
      else (l, Err ErrTenantIsolationViolation)
  | None =>
      if decide (rq_Verb req = VerbProvision)
      then (l ++ [req], Ok (fresh_receipt family req))
      else (l, Err ErrResourceNotFound)
  end.

(** ** Representation *)

Definition entry_of (family : BackendFamily) (r : ProvisionRequest) : idempotencyEntry :=
  {| ie_requestSHA256 := request_digest r; ie_receipt := fresh_receipt family r |}.

Definition stored_of (family : BackendFamily) (r : ProvisionRequest) : storedResource :=
  {| sr_tenantID := rq_TenantID r; sr_projectID := rq_ProjectID r;
     sr_receipt := fresh_receipt family r |}.

Definition log_of (family : BackendFamily) (l : Ledger) : gmap string idempotencyEntry :=
  foldl (fun log r => <[idempotency_key r := entry_of family r]> log) ∅ l.

Definition resources_of (family : BackendFamily) (l : Ledger) : gmap string storedResource :=
  foldl (fun resources r => <[rq_ResourceID r := stored_of family r]> resources) ∅ l.

Definition addressed (a : InMemoryAdapter) (req : ProvisionRequest) : Prop :=
  rq_AdapterID req = ad_adapterID a /\ rq_ServiceCategory req = ad_serviceCategory a.

Record Represents (a : InMemoryAdapter) (l : Ledger) : Prop := {
  rep_family : ad_backendFamily a ∈ allBackendFamilies;
  rep_log : ad_idempotencyLog a = log_of (ad_backendFamily a) l;
  rep_resources : ad_resources a = resources_of (ad_backendFamily a) l;
  rep_requests : Forall (fun r => RequestOK r /\ addressed a r) l
}.

Lemma last_filter_snoc {A} (P : A -> Prop) `{!forall x, Decision (P x)} l x :
  last (filter P (l ++ [x])) = if decide (P x) then Some x else last (filter P l).
Proof.
  rewrite filter_app, filter_cons, filter_nil. case_decide.
  - by rewrite last_snoc.
  - by rewrite app_nil_r.
Qed.

Lemma filter_ext_Forall {A} (P Q : A -> Prop) `{!forall x, Decision (P x)}
    `{!forall x, Decision (Q x)} l :
  Forall (fun x => P x <-> Q x) l -> filter P l = filter Q l.
Proof.
  induction 1 as [|x l Hx Hl IH]; [done|]. rewrite !filter_cons, IH.
  repeat case_decide; tauto.
Qed.

Lemma log_of_lookup family l k :
  log_of family l !! k = entry_of family <$> last (filter (fun r => idempotency_key r = k) l).
Proof.
  induction l as [|r l IH] using rev_ind; [done|].
  unfold log_of in *. rewrite foldl_app, (last_filter_snoc (fun r => idempotency_key r = k)).
  simpl.
  case_decide as Hk; [by rewrite Hk, lookup_insert_eq|]. by rewrite lookup_insert_ne.
Qed.

Lemma resources_of_lookup family l resourceID :
  resources_of family l !! resourceID = stored_of family <$> latest l resourceID.
Proof.
  unfold latest. induction l as [|r l IH] using rev_ind; [done|].
  unfold resources_of in *.
  rewrite foldl_app, (last_filter_snoc (fun r => rq_ResourceID r = resourceID)). simpl.
  case_decide as Hk; [by rewrite Hk, lookup_insert_eq|]. by rewrite lookup_insert_ne.
Qed.

Lemma idempotency_key_iff r1 r2 :
  RequestOK r1 -> RequestOK r2 ->
  idempotency_key r1 = idempotency_key r2 <-> same_operation r1 r2.
Proof.
  intros H1 H2. unfold idempotency_key, same_operation. split.
  - intros H. destruct H1, H2.
    apply nul_field_inj in H as [Ht H]; [|by apply validIdentifier_no_nul..].
    apply nul_field_inj in H as [Hp H]; [|by apply validIdentifier_no_nul..].
    apply nul_field_inj in H as [Hr H]; [|by apply validIdentifier_no_nul..]. done.
  - by intros (-> & -> & -> & ->).
Qed.

Lemma log_of_prior family l req :
  Forall RequestOK l -> RequestOK req ->
  log_of family l !! idempotency_key req = entry_of family <$> prior l req.
Proof.
  intros Hl Hq. rewrite log_of_lookup. unfold prior. f_equal. f_equal.
  apply filter_ext_Forall. eapply Forall_impl; [exact Hl|]. intros r Hr.
  by apply idempotency_key_iff.
Qed.

Lemma last_filter_Some {A} (P : A -> Prop) `{!forall x, Decision (P x)} l x :
  last (filter P l) = Some x -> P x /\ x ∈ l.
Proof.
  intros Hl. rewrite <- list_elem_of_filter. apply last_Some in Hl as [l' ->].
  apply elem_of_app. right. by left.
Qed.

(** ** Every step keeps the representation *)

(** The adapter after it executed a new request. *)
Definition executed (req : ProvisionRequest) (a : InMemoryAdapter) : InMemoryAdapter :=
  {| ad_adapterID := ad_adapterID a; ad_serviceCategory := ad_serviceCategory a;
     ad_backendFamily := ad_backendFamily a; ad_healthStatus := ad_healthStatus a;
     ad_healthReason := ad_healthReason a;
     ad_idempotencyLog := <[idempotency_key req := entry_of (ad_backendFamily a) req]>
       (ad_idempotencyLog a);
     ad_resources := <[rq_ResourceID req := stored_of (ad_backendFamily a) req]>
       (ad_resources a) |}.

(** [ExecuteLifecycle] on a live context and a valid request addressed to the
    adapter: the receipt it writes is [fresh_receipt], never the zero value
    of a dropped error. *)
Lemma ExecuteLifecycle_valid ctx req a :
  checkContext ctx = None -> RequestOK req -> addressed a req ->
  ad_backendFamily a ∈ allBackendFamilies ->
  ExecuteLifecycle ctx req a =
  match ad_resources a !! rq_ResourceID req with
  | Some existing =>
      if (sr_tenantID existing == rq_TenantID req) &&
         (sr_projectID existing == rq_ProjectID req)
      then match ad_idempotencyLog a !! idempotency_key req with
        | Some e => if ie_requestSHA256 e == request_digest req
                    then (a, Ok (ie_receipt e)) else (a, Err ErrIdempotencyConflict)
        | None => (executed req a, Ok (fresh_receipt (ad_backendFamily a) req))
        end
      else (a, Err ErrTenantIsolationViolation)
  | None =>
      if rq_Verb req == VerbProvision
      then match ad_idempotencyLog a !! idempotency_key req with
        | Some e => if ie_requestSHA256 e == request_digest req
                    then (a, Ok (ie_receipt e)) else (a, Err ErrIdempotencyConflict)
        | None => (executed req a, Ok (fresh_receipt (ad_backendFamily a) req))
        end
      else (a, Err ErrResourceNotFound)
  end.
Proof.
  intros Hctx Hq [Ha Hc] Hf. unfold ExecuteLifecycle.
  rewrite Hctx, (proj2 (ValidateProvisionRequest_iff req) Hq), Ha, Hc, !String.eqb_refl.
  rewrite RequestSHA256_ok by done. cbn [negb orb dropping_error].
  fold (operation_id req). rewrite NewProvisionReceipt_fresh by done. cbn [dropping_error].
  destruct (ad_resources a !! rq_ResourceID req) as [existing|].
  - destruct (sr_tenantID existing == rq_TenantID req); cbn [negb orb andb]; [|done].
    destruct (sr_projectID existing == rq_ProjectID req); cbn [negb]; [|done].
    destruct (ad_idempotencyLog a !! idempotency_key req) as [e|]; [|done].
    by destruct (ie_requestSHA256 e == request_digest req).
  - destruct (rq_Verb req == VerbProvision); cbn [negb]; [|done].
    destruct (ad_idempotencyLog a !! idempotency_key req) as [e|]; [|done].
    by destruct (ie_requestSHA256 e == request_digest req).
Qed.

Lemma Represents_executed a l req :
  Represents a l -> RequestOK req -> addressed a req -> Represents (executed req a) (l ++ [req]).
Proof.
  intros [Hf Hlog Hres Hall] Hq Ha. split; simpl; [done| | |].
  - unfold log_of. by rewrite foldl_app, Hlog.
  - unfold resources_of. by rewrite foldl_app, Hres.
  - apply Forall_app. split; [done|]. by constructor.
Qed.

Lemma Represents_requests a l : Represents a l -> Forall RequestOK l.
Proof. intros [_ _ _ H]. eapply Forall_impl; [exact H|]. by intros r [? _]. Qed.

(** The log knows an operation only if its resource is stored. *)
Lemma prior_None l req : latest l (rq_ResourceID req) = None -> prior l req = None.
Proof.
  unfold latest, prior. rewrite !last_None. intros H.
  destruct (filter (fun r => same_operation r req) l) as [|r rest] eqn:E; [done|]. exfalso.
  assert (r ∈ filter (fun r => same_operation r req) l) as Hr by (rewrite E; by left).
  apply list_elem_of_filter in Hr as [(_ & _ & Hid & _) Hin].
  assert (r ∈ filter (fun x => rq_ResourceID x = rq_ResourceID req) l) as Hr'.
  { by apply list_elem_of_filter. }
  rewrite H in Hr'. by apply elem_of_nil in Hr'.
Qed.

(** The bookkeeping of [ExecuteLifecycle] in terms of the ledger. *)
Lemma ExecuteLifecycle_refines ctx req a l :
  checkContext ctx = None -> RequestOK req -> addressed a req -> Represents a l ->
  (exists r, prior l req = Some r /\ request_collision r req) \/
  exists a' l' outcome, ExecuteLifecycle ctx req a = (a', outcome) /\
    ledger_execute (ad_backendFamily a) req l = (l', outcome) /\ Represents a' l'.
Proof.
  intros Hctx Hq Ha Hrep. pose proof Hrep as [Hf Hlog Hres Hall].
  rewrite ExecuteLifecycle_valid by done. unfold ledger_execute.
  rewrite Hres, resources_of_lookup, Hlog, (log_of_prior _ _ _ (Represents_requests _ _ Hrep) Hq).
  destruct (latest l (rq_ResourceID req)) as [r|] eqn:Hlatest; simpl.
  - destruct (decide (_ /\ _)) as [[-> ->]|Hn].
    + rewrite !String.eqb_refl. simpl. destruct (prior l req) as [r'|] eqn:Hp; simpl.
      * destruct (request_digest r' == request_digest req) eqn:Hd;
          [apply String.eqb_eq in Hd|apply String.eqb_neq in Hd].
        -- pose proof Hp as [_ Hin]%last_filter_Some.
           destruct (request_digest_inj_or r' req) as [->|Hcoll]; [|done|done| |by left; eauto].
           { by apply (proj1 (Forall_forall _ _) Hall r' Hin). }
           rewrite decide_True by reflexivity. right. eexists _, _, _.
           split; [reflexivity|]. split; [reflexivity|exact Hrep].
        -- right. rewrite decide_False by (intros ->; by apply Hd).
           eexists _, _, _. split; [reflexivity|]. split; [reflexivity|exact Hrep].
      * right. eexists _, _, _. split; [reflexivity|]. split; [reflexivity|].
        by apply Represents_executed.
    + right. destruct (_ && _) eqn:E; [exfalso; go_simp; tauto|]. eexists _, _, _.
      split; [reflexivity|]. split; [reflexivity|exact Hrep].
  - right. rewrite (prior_None _ _ Hlatest). simpl.
    destruct (rq_Verb req == VerbProvision) eqn:Hv;
      [apply String.eqb_eq in Hv|apply String.eqb_neq in Hv].
    + rewrite decide_True by done. eexists _, _, _. split; [reflexivity|].
      split; [reflexivity|].
      by apply Represents_executed.
    + rewrite decide_False by done. eexists _, _, _. split; [reflexivity|].
      split; [reflexivity|exact Hrep].
Qed.
