(* ===== verification/PortsTheorems.v ===== *)
(** * Package [providerports]: theorems *)

From stdpp Require Import gmap strings list fin_maps sorting.
From Stdlib Require Import ZArith Lia.
From S2P Require Import Prelude GoString GoSort GoSha256 ProviderPorts PortsCorrect PortsAdapter.

#[local] Open Scope nat_scope.

(** ** Runs of an adapter *)

Inductive ad_step : InMemoryAdapter -> InMemoryAdapter -> Prop :=
  | ad_step_execute ctx req a : ad_step a (ExecuteLifecycle ctx req a).1
  | ad_step_health status reason a : ad_step a (SetHealth status reason a).1.

Definition same_identity (a a' : InMemoryAdapter) : Prop :=
  ad_adapterID a' = ad_adapterID a /\ ad_serviceCategory a' = ad_serviceCategory a /\
  ad_backendFamily a' = ad_backendFamily a.

(** What no later step undoes: logged operations and resource owners. *)
Record later (a a' : InMemoryAdapter) : Prop := {
  later_identity : same_identity a a';
  later_log k e : ad_idempotencyLog a !! k = Some e -> ad_idempotencyLog a' !! k = Some e;
  later_owner id s : ad_resources a !! id = Some s ->
    exists s', ad_resources a' !! id = Some s' /\
      sr_tenantID s' = sr_tenantID s /\ sr_projectID s' = sr_projectID s
}.

#[export] Instance later_preorder : PreOrder later.
Proof.
  split.
  - intros a. split; [done|done|eauto].
  - intros a b c [(? & ? & ?) Hl1 Ho1] [(? & ? & ?) Hl2 Ho2]. split.
    + unfold same_identity. split; [congruence|]. split; congruence.
    + auto.
    + intros id s (s1 & Hs1 & ? & ?)%Ho1. destruct (Ho2 _ _ Hs1) as (s2 & ? & ? & ?).
      exists s2. split; [done|]. split; congruence.
Qed.

(** The request is served on a live context, valid, and addressed here. *)
Definition accepted (ctx : option Context_) (req : ProvisionRequest) (a : InMemoryAdapter)
  : Prop :=
  checkContext ctx = None /\ RequestOK req /\ addressed a req /\
  forall s, ad_resources a !! rq_ResourceID req = Some s ->
    sr_tenantID s = rq_TenantID req /\ sr_projectID s = rq_ProjectID req.

(** The three ways a call ends: refused, replayed, executed. *)
Inductive call_outcome (ctx : option Context_) (req : ProvisionRequest) (a : InMemoryAdapter)
  : InMemoryAdapter -> result ProvisionReceipt -> Prop :=
  | call_refused err : call_outcome ctx req a a (Err err)
  | call_replayed e :
      accepted ctx req a -> ad_idempotencyLog a !! idempotency_key req = Some e ->
      ie_requestSHA256 e = request_digest req ->
      call_outcome ctx req a a (Ok (ie_receipt e))
  | call_executed :
      accepted ctx req a -> ad_idempotencyLog a !! idempotency_key req = None ->
      call_outcome ctx req a (executed req a) (Ok (fresh_receipt (ad_backendFamily a) req)).

Lemma ExecuteLifecycle_outcome ctx req a a' outcome :
  ad_backendFamily a ∈ allBackendFamilies ->
  ExecuteLifecycle ctx req a = (a', outcome) -> call_outcome ctx req a a' outcome.
Proof.
  intros Hf H. destruct (checkContext ctx) eqn:Hctx.
  { unfold ExecuteLifecycle in H. rewrite Hctx in H. injection H as <- <-. constructor. }
  destruct (ValidateProvisionRequest req) eqn:Hv.
  { unfold ExecuteLifecycle in H. rewrite Hctx, Hv in H. injection H as <- <-. constructor. }
  destruct ((rq_AdapterID req != ad_adapterID a) ||
            (rq_ServiceCategory req != ad_serviceCategory a)) eqn:Ha.
  { unfold ExecuteLifecycle in H. rewrite Hctx, Hv, Ha in H. injection H as <- <-.
    constructor. }
  apply ValidateProvisionRequest_iff in Hv. apply orb_false_iff in Ha as [Ha Hc].
  apply string_neqb_false in Ha, Hc.
  rewrite ExecuteLifecycle_valid in H by done.
  assert ((forall s, ad_resources a !! rq_ResourceID req = Some s ->
      sr_tenantID s = rq_TenantID req /\ sr_projectID s = rq_ProjectID req) ->
    (match ad_idempotencyLog a !! idempotency_key req with
     | Some e => if ie_requestSHA256 e == request_digest req
                 then (a, Ok (ie_receipt e)) else (a, Err ErrIdempotencyConflict)
     | None => (executed req a, Ok (fresh_receipt (ad_backendFamily a) req))
     end = (a', outcome)) -> call_outcome ctx req a a' outcome) as Hserve.
  { intros Hs E. assert (accepted ctx req a) by done.
    destruct (ad_idempotencyLog a !! _) as [e|] eqn:Hl.
    - destruct (_ == _) eqn:Hd; injection E as <- <-; [|constructor].
      apply String.eqb_eq in Hd. by constructor.
    - injection E as <- <-. by constructor. }
  destruct (ad_resources a !! rq_ResourceID req) as [s|] eqn:Hs.
  - destruct (_ && _) eqn:Ho; [|injection H as <- <-; constructor].
    apply andb_true_iff in Ho as [Ht Hp]. apply String.eqb_eq in Ht, Hp.
    apply Hserve; [|done]. by intros ? [= <-].
  - destruct (_ == _); [by apply Hserve|injection H as <- <-; constructor].
Qed.

Lemma executed_later req a :
  ad_idempotencyLog a !! idempotency_key req = None ->
  (forall s, ad_resources a !! rq_ResourceID req = Some s ->
     sr_tenantID s = rq_TenantID req /\ sr_projectID s = rq_ProjectID req) ->
  later a (executed req a).
Proof.
  intros Hl Ho. split; simpl; [done| |].
  - intros k e Hk. rewrite lookup_insert_ne; [done|]. intros <-. congruence.
  - intros id s Hs. destruct (decide (rq_ResourceID req = id)) as [<-|Hn].
    + rewrite lookup_insert_eq. eexists. split; [done|]. simpl. by destruct (Ho s Hs) as [-> ->].
    + rewrite lookup_insert_ne by done. eauto.
Qed.

Lemma ad_step_later a a' :
  ad_backendFamily a ∈ allBackendFamilies -> ad_step a a' -> later a a'.
Proof.
  intros Hf Hstep. destruct Hstep as [ctx req a|status reason a].
  - destruct (ExecuteLifecycle ctx req a) as [a' outcome] eqn:E. simpl.
    destruct (ExecuteLifecycle_outcome _ _ _ _ _ Hf E) as [err|e _ _ _|(_ & _ & _ & Ho) Hl];
      [reflexivity|reflexivity|]. by apply executed_later.
  - unfold SetHealth. case_match; simpl; [reflexivity|]. split; simpl; [done|done|eauto].
Qed.

Lemma ad_steps_later a a' :
  ad_backendFamily a ∈ allBackendFamilies -> rtc ad_step a a' -> later a a'.
Proof.
  intros Hf Hr. induction Hr as [a|a b c Hab _ IH]; [reflexivity|].
  pose proof (ad_step_later _ _ Hf Hab) as Hl. etrans; [exact Hl|]. apply IH.
  by destruct Hl as [(_ & _ & ->) _ _].
Qed.

(** ** The ledger behind a reachable adapter *)

Lemma ad_step_Represents a a' l :
  Represents a l -> ad_step a a' -> exists l', Represents a' l'.
Proof.
  intros Hrep Hstep. destruct Hstep as [ctx req a|status reason a].
  - destruct (ExecuteLifecycle ctx req a) as [a' outcome] eqn:E. simpl.
    destruct (ExecuteLifecycle_outcome _ _ _ _ _ (rep_family _ _ Hrep) E)
      as [err|e _ _ _|(_ & Hq & Ha & _) _]; [by eauto|by eauto|].
    exists (l ++ [req]). by apply Represents_executed.
  - exists l. unfold SetHealth. case_match; simpl; [done|]. by destruct Hrep.
Qed.

Lemma NewInMemoryAdapter_Represents id category family a :
  NewInMemoryAdapter id category family = Ok a ->
  Represents a [] /\ validIdentifier id = true /\ ad_adapterID a = id /\
  ad_serviceCategory a = category /\ ad_backendFamily a = family.
Proof.
  unfold NewInMemoryAdapter. destruct (_ || _) eqn:H; [done|]. intros [= <-]. go_simp.
  split; [|done]. split; simpl; try done. by apply Contains__elem.
Qed.

Definition reachable (a : InMemoryAdapter) : Prop :=
  exists id category family a0,
    NewInMemoryAdapter id category family = Ok a0 /\ rtc ad_step a0 a.

Lemma reachable_Represents a : reachable a -> exists l, Represents a l.
Proof.
  intros (id & category & family & a0 & (H0 & _)%NewInMemoryAdapter_Represents & Hr).
  eapply (rtc_preserves _ (fun a => exists l, Represents a l)); [|exact Hr|eauto].
  intros a1 a2 Hstep [l Hl]. by eapply ad_step_Represents.
Qed.

Lemma reachable_family a : reachable a -> ad_backendFamily a ∈ allBackendFamilies.
Proof. by intros [l []]%reachable_Represents. Qed.

Lemma reachable_steps a a' : reachable a -> rtc ad_step a a' -> reachable a'.
Proof.
  intros (id & category & family & a0 & H0 & Hr) Hs.
  exists id, category, family, a0. split; [done|]. by etrans.
Qed.

(** A logged operation has a stored resource. *)
Lemma logged_resource a req e :
  reachable a -> RequestOK req -> ad_idempotencyLog a !! idempotency_key req = Some e ->
  is_Some (ad_resources a !! rq_ResourceID req).
Proof.
  intros [l Hrep]%reachable_Represents Hq He. pose proof Hrep as [_ Hlog Hres _].
  rewrite Hlog, (log_of_prior _ _ _ (Represents_requests _ _ Hrep) Hq) in He.
  rewrite Hres, resources_of_lookup. destruct (latest l _) eqn:Hl; [by eexists|].
  by rewrite (prior_None _ _ Hl) in He.
Qed.

(** What the log and the resources say of a request that was served. *)
Definition on_record (req : ProvisionRequest) (receipt : ProvisionReceipt)
    (a : InMemoryAdapter) : Prop :=
  (exists e, ad_idempotencyLog a !! idempotency_key req = Some e /\
     ie_requestSHA256 e = request_digest req /\ ie_receipt e = receipt) /\
  exists s, ad_resources a !! rq_ResourceID req = Some s /\
    sr_tenantID s = rq_TenantID req /\ sr_projectID s = rq_ProjectID req.

Lemma ExecuteLifecycle_Ok ctx req a a' receipt :
  reachable a -> ExecuteLifecycle ctx req a = (a', Ok receipt) ->
  accepted ctx req a /\ on_record req receipt a'.
Proof.
  intros Hreach H. pose proof (reachable_family _ Hreach) as Hf.
  apply ExecuteLifecycle_outcome in H; [|done].
  inversion H as [|e Hacc Hl Hd|Hacc Hl]; subst; (split; [done|]).
  - split; [by exists e|]. destruct Hacc as (_ & Hq & _ & Ho).
    destruct (logged_resource _ _ _ Hreach Hq Hl) as [s Hs]. exists s.
    by destruct (Ho s Hs).
  - split; simpl; rewrite lookup_insert_eq; eexists; done.
Qed.

Lemma on_record_later req receipt a a' :
  later a a' -> on_record req receipt a -> on_record req receipt a'.
Proof.
  intros [_ Hl Ho] [(e & He & Hd & Hr) (s & Hs & Ht & Hp)]. split.
  - exists e. auto.
  - destruct (Ho _ _ Hs) as (s' & ? & ? & ?). exists s'. split; [done|]. split; congruence.
Qed.

Lemma addressed_later a a' req : later a a' -> addressed a req -> addressed a' req.
Proof. intros [(Ha & Hc & _) _ _]. unfold addressed. by rewrite Ha, Hc. Qed.

(** What is left of a served request after any further calls. *)
Lemma served ctx req receipt a a1 a2 :
  reachable a -> ExecuteLifecycle ctx req a = (a1, Ok receipt) -> rtc ad_step a1 a2 ->
  RequestOK req /\ addressed a req /\ later a a2 /\
  ad_backendFamily a2 ∈ allBackendFamilies /\ on_record req receipt a2.
Proof.
  intros Hreach H Hr.
  pose proof (ad_step_execute ctx req a) as Hstep. rewrite H in Hstep.
  pose proof (ad_step_later _ _ (reachable_family _ Hreach) Hstep) as Hl1.
  assert (reachable a1) as Hreach1 by (eapply reachable_steps; [done|by apply rtc_once]).
  pose proof (ad_steps_later _ _ (reachable_family _ Hreach1) Hr) as Hl2.
  pose proof (reachable_family _ (reachable_steps _ _ Hreach1 Hr)) as Hf2.
  apply ExecuteLifecycle_Ok in H as [(_ & Hq & Ha & _) Hrec]; [|done].
  do 2 (split; [done|]). split; [by etrans|]. split; [done|]. by eapply on_record_later.
Qed.

(** ** Theorems *)

(** C36. The request digest binds the whole request: two valid requests with
    one digest are equal, or their two encodings are a SHA-256 collision. *)
Theorem request_digest_binds_request r1 r2 digest :
  RequestSHA256 r1 = Ok digest -> RequestSHA256 r2 = Ok digest ->
  r1 = r2 \/ request_collision r1 r2.
Proof.
  unfold RequestSHA256. intros H1 H2.
  destruct (ValidateProvisionRequest r1) eqn:Hv1; [done|].
  destruct (ValidateProvisionRequest r2) eqn:Hv2; [done|].
  apply ValidateProvisionRequest_iff in Hv1, Hv2. injection H1 as H1. injection H2 as H2.
  apply request_digest_inj_or; [done|done|]. exact (eq_trans H1 (eq_sym H2)).
Qed.

(** C37. Refinement: whatever calls were made of an adapter, its maps represent
    a ledger of executed requests; and whatever ledger they represent,
    [ExecuteLifecycle] answers every valid request addressed to the adapter as
    that ledger does and leaves maps that represent the ledger's next state,
    unless the request collides under SHA-256 with the different request the
    ledger holds for the same tenant, project, resource and key. *)
Theorem adapter_implements_ledger a :
  reachable a ->
  (exists l, Represents a l) /\ forall l ctx req,
    Represents a l ->
    checkContext ctx = None -> ValidateProvisionRequest req = None -> addressed a req ->
    (exists r, prior l req = Some r /\ request_collision r req) \/
    exists a' l' outcome, ExecuteLifecycle ctx req a = (a', outcome) /\
      ledger_execute (ad_backendFamily a) req l = (l', outcome) /\ Represents a' l'.
Proof.
  intros Hr. split; [by apply reachable_Represents|].
  intros l ctx req Hl Hctx Hq%ValidateProvisionRequest_iff Ha.
  by apply ExecuteLifecycle_refines.
Qed.

(** A request that was served once gets the same receipt and
    changes nothing, however many other calls come in between. *)
Lemma served_requests_replay ctx ctx' req receipt a a1 a2 :
  reachable a -> ExecuteLifecycle ctx req a = (a1, Ok receipt) -> rtc ad_step a1 a2 ->
  checkContext ctx' = None ->
  ExecuteLifecycle ctx' req a2 = (a2, Ok receipt).
Proof.
  intros Hreach H Hr Hctx.
  destruct (served _ _ _ _ _ _ Hreach H Hr)
    as (Hq & Ha & Hl & Hf & (e & He & Hd & Hrc) & s & Hs & Ht & Hp).
  rewrite ExecuteLifecycle_valid by first [done|by eapply addressed_later].
  by rewrite Hs, Ht, Hp, !String.eqb_refl, He, Hd, String.eqb_refl, Hrc.
Qed.

(** Idempotency keys are not reused: a different valid request for the
    same tenant, project, resource and key as a served one is refused with
    [ErrIdempotencyConflict] and changes nothing, unless the two collide. *)
Lemma reused_keys_conflict ctx ctx' req req' receipt a a1 a2 :
  reachable a -> ExecuteLifecycle ctx req a = (a1, Ok receipt) -> rtc ad_step a1 a2 ->
  checkContext ctx' = None -> ValidateProvisionRequest req' = None -> addressed a req' ->
  same_operation req' req -> req' <> req ->
  ExecuteLifecycle ctx' req' a2 = (a2, Err ErrIdempotencyConflict) \/
  request_collision req req'.
Proof.
  intros Hreach H Hr Hctx Hq'%ValidateProvisionRequest_iff Ha' Hsame Hne.
  destruct (served _ _ _ _ _ _ Hreach H Hr)
    as (Hq & _ & Hl & Hf & (e & He & Hd & _) & s & Hs & Ht & Hp).
  pose proof (proj2 (idempotency_key_iff req' req Hq' Hq) Hsame) as Hkey.
  destruct Hsame as (Ht' & Hp' & Hr' & _).
  rewrite ExecuteLifecycle_valid by first [done|by eapply addressed_later].
  rewrite Hr', Hs, Ht, Hp, Ht', Hp', !String.eqb_refl, Hkey, He, Hd.
  destruct (request_digest req == request_digest req') eqn:Hdig; [|by left].
  apply String.eqb_eq in Hdig. right.
  destruct (request_digest_inj_or _ _ Hq Hq' Hdig) as [Heq|Hc]; [congruence|done].
Qed.

(** C38. Requests are idempotent: once a request is served, whatever other calls
    come in between, the same request gets the same receipt and changes nothing,
    and a different valid request for the same tenant, project, resource and key
    is refused with [ErrIdempotencyConflict] and changes nothing, unless the
    encodings of these two requests are a SHA-256 collision. *)
Theorem requests_are_idempotent ctx ctx' req receipt a a1 a2 :
  reachable a -> ExecuteLifecycle ctx req a = (a1, Ok receipt) -> rtc ad_step a1 a2 ->
  checkContext ctx' = None ->
  ExecuteLifecycle ctx' req a2 = (a2, Ok receipt) /\
  forall req', ValidateProvisionRequest req' = None -> addressed a req' ->
    same_operation req' req -> req' <> req ->
    ExecuteLifecycle ctx' req' a2 = (a2, Err ErrIdempotencyConflict) \/
    request_collision req req'.
Proof.
  intros Hreach H Hr Hctx. split; [by eapply served_requests_replay|].
  intros req' Hv Ha Hs Hne. by eapply (reused_keys_conflict ctx ctx' req req').
Qed.

(** C39. Tenant isolation: once a resource is served for a tenant and project,
    every other tenant or project is refused, to execute and to inspect, and
    changes nothing; the owner keeps reading a receipt. *)
Theorem resources_stay_with_their_tenant ctx ctx' req receipt a a1 a2 tenant project :
  reachable a -> ExecuteLifecycle ctx req a = (a1, Ok receipt) -> rtc ad_step a1 a2 ->
  checkContext ctx' = None -> validIdentifier tenant = true -> validIdentifier project = true ->
  (tenant, project) <> (rq_TenantID req, rq_ProjectID req) ->
  InspectResource ctx' tenant project (rq_ResourceID req) a2 = Err ErrTenantIsolationViolation /\
  (exists own, InspectResource ctx' (rq_TenantID req) (rq_ProjectID req) (rq_ResourceID req) a2
               = Ok own) /\
  forall req', ValidateProvisionRequest req' = None -> addressed a req' ->
    rq_ResourceID req' = rq_ResourceID req -> rq_TenantID req' = tenant ->
    rq_ProjectID req' = project ->
    ExecuteLifecycle ctx' req' a2 = (a2, Err ErrTenantIsolationViolation).
Proof.
  intros Hreach H Hr Hctx Htenant Hproject Hne.
  destruct (served _ _ _ _ _ _ Hreach H Hr) as (Hq & _ & Hl & Hf & _ & s & Hs & Ht & Hp).
  assert ((rq_TenantID req == tenant) && (rq_ProjectID req == project) = false) as Hother.
  { apply andb_false_iff. rewrite !String.eqb_neq.
    destruct (decide (rq_TenantID req = tenant)) as [<-|]; [right; congruence|by left]. }
  destruct Hq as [_ _ _ Hqt Hqp Hqr _ _ _ _ _].
  split; [|split].
  - unfold InspectResource. rewrite Hctx, Htenant, Hproject, Hqr, Hs, Ht, Hp. simpl.
    by rewrite <- negb_andb, Hother.
  - unfold InspectResource. rewrite Hctx, Hqt, Hqp, Hqr, Hs, Ht, Hp. simpl.
    rewrite !String.eqb_refl. simpl. by eexists.
  - intros req' Hq'%ValidateProvisionRequest_iff Ha' Hrid <- <-.
    rewrite ExecuteLifecycle_valid by first [done|by eapply addressed_later].
    by rewrite Hrid, Hs, Ht, Hp, Hother.
Qed.

(** A receipt is as good for any request with the digest and the identity. *)
Lemma ReceiptOK_transfer r req receipt :
  request_digest r = request_digest req ->
  rq_AdapterID r = rq_AdapterID req -> rq_ServiceCategory r = rq_ServiceCategory req ->
  rq_TenantID r = rq_TenantID req -> rq_ProjectID r = rq_ProjectID req ->
  rq_ResourceID r = rq_ResourceID req -> ReceiptOK r receipt -> ReceiptOK req receipt.
Proof.
  intros Hd Ha Hc Ht Hp Hr [Hs Hdg Hst Hh Hcm Hop (? & ? & ? & ? & ?) Hb].
  split; [exact Hs|exact (eq_trans Hdg Hd)|exact Hst|exact Hh| |exact Hop| |exact Hb].
  - rewrite Hcm. unfold commitment. rewrite Hd. reflexivity.
  - repeat split; congruence.
Qed.

(** Every receipt the adapter hands out validates against the request it
    answers, replays included: identifiers, digest, commitment and state. *)
Theorem receipts_are_valid ctx req receipt a a' :
  reachable a -> ExecuteLifecycle ctx req a = (a', Ok receipt) ->
  ValidateProvisionReceipt req receipt = None.
Proof.
  intros Hreach H. pose proof (reachable_family _ Hreach) as Hf.
  destruct (reachable_Represents _ Hreach) as [l Hrep].
  apply ExecuteLifecycle_outcome in H; [|done].
  inversion H as [|e (_ & Hq & [Ha Hc] & _) Hl Hd|(_ & Hq & _ & _) _]; subst;
    apply ValidateProvisionReceipt_iff; [done| |done|by apply fresh_receipt_OK].
  pose proof (log_of_prior (ad_backendFamily a') _ _ (Represents_requests _ _ Hrep) Hq) as Hlog.
  rewrite <- (rep_log _ _ Hrep), Hl in Hlog.
  destruct (prior l req) as [r|] eqn:Hprior; [|done]. simpl in Hlog. injection Hlog as ->.
  apply last_filter_Some in Hprior as [(Ht & Hp & Hr & _) Hin].
  pose proof (proj1 (Forall_forall _ _) (rep_requests _ _ Hrep) r Hin) as [Hrq [Hra Hrc]].
  eapply ReceiptOK_transfer; [exact Hd|congruence..| |by apply fresh_receipt_OK]. exact Hr.
Qed.
