(* ===== verification/PortsConformance.v ===== *)
(** * Package [providerports]: the conformance suite and the registry *)

From stdpp Require Import gmap strings list fin_maps sorting.
From Stdlib Require Import ZArith Lia.
From S2P Require Import Prelude GoString GoSort GoSha256 ProviderPorts PortsCorrect PortsAdapter PortsTheorems.

#[local] Open Scope nat_scope.

(** ** The conformance suite on the reference adapter *)

Section suite.
Context (category : ServiceCategory) (id : string) (family : BackendFamily).
Hypothesis category_ok : ValidServiceCategory category = true.
Hypothesis id_ok : validIdentifier id = true.
Hypothesis family_ok : family ∈ allBackendFamilies.

(** A request of the suite. *)
Definition suite_req (tenant key : string) (verb : LifecycleVerb) (ps : list Parameter_)
  : ProvisionRequest :=
  {| rq_SchemaVersion := ProvisionRequestSchemaVersion; rq_ServiceCategory := category;
     rq_AdapterID := id; rq_TenantID := tenant; rq_ProjectID := "project-core";
     rq_ResourceID := "res-conformance-01"; rq_IdempotencyKey := key; rq_Verb := verb;
     rq_Parameters := ps |}.

Lemma suite_req_OK tenant key verb ps :
  validIdentifier tenant && validIdentifier key && ValidLifecycleVerb verb &&
    (length ps <=? MaxParametersCount) && is_nil (validate_parameters None ps) = true ->
  ValidateProvisionRequest (suite_req tenant key verb ps) = None.
Proof.
  rewrite !andb_true_iff. intros [[[[Ht Hk] Hv] Hl] Hp].
  unfold ValidateProvisionRequest. cbn [suite_req rq_SchemaVersion rq_ServiceCategory
    rq_AdapterID rq_TenantID rq_ProjectID rq_ResourceID rq_IdempotencyKey rq_Verb rq_Parameters].
  rewrite category_ok, id_ok, Ht, Hk, Hv, String.eqb_refl, Nat.ltb_antisym, Hl.
  by destruct (validate_parameters None ps).
Qed.

Definition suite_adapter (a : InMemoryAdapter) : Prop :=
  ad_adapterID a = id /\ ad_serviceCategory a = category /\ ad_backendFamily a = family.

Lemma suite_request_Ok a tenant key verb params ps :
  suite_adapter a ->
  sort_Slice (fun a b => string_lt (par_Key a) (par_Key b))
    (map (fun kv => {| par_Key := kv.1; par_Value := kv.2 |}) (map_to_list params)) = ps ->
  validIdentifier tenant && validIdentifier key && ValidLifecycleVerb verb &&
    (length ps <=? MaxParametersCount) && is_nil (validate_parameters None ps) = true ->
  suite_request InMemoryAdapter_port a tenant key verb params
  = Ok (suite_req tenant key verb ps).
Proof.
  intros (Hid & Hc & _) Hps H. apply suite_req_OK in H.
  unfold suite_request, NewProvisionRequest. cbn [InMemoryAdapter_port port_ServiceCategory
    port_AdapterID]. rewrite Hid, Hc, Hps. fold (suite_req tenant key verb ps). by rewrite H.
Qed.

Lemma same_identity_suite a a' : same_identity a a' -> suite_adapter a -> suite_adapter a'.
Proof. intros (? & ? & ?) (? & ? & ?). unfold suite_adapter. split_and!; congruence. Qed.

(** One call of the suite, as the ledger answers it. *)
Lemma suite_step a l req l' outcome :
  suite_adapter a -> Represents a l -> ValidateProvisionRequest req = None ->
  rq_AdapterID req = id -> rq_ServiceCategory req = category ->
  ledger_execute family req l = (l', outcome) -> prior l req = None ->
  exists a', ExecuteLifecycle (Some context_Background) req a = (a', outcome) /\
    Represents a' l' /\ suite_adapter a'.
Proof.
  intros Ha Hrep Hq%ValidateProvisionRequest_iff Hid Hc Hl Hnew.
  destruct (ExecuteLifecycle_refines (Some context_Background) req a l)
    as [(r & Hr & _)|(a' & l'' & outcome' & He & Hle & Hrep')]; [done|done| |done| |].
  { destruct Ha as (? & ? & _). split; congruence. }
  { by rewrite Hnew in Hr. }
  destruct Ha as (Hai & Hac & Haf). rewrite Haf, Hl in Hle. injection Hle as -> ->.
  exists a'. split; [done|]. split; [done|].
  assert (ad_step a a') as Hstep.
  { pose proof (ad_step_execute (Some context_Background) req a) as H. by rewrite He in H. }
  apply (same_identity_suite a); [|done]. apply ad_step_later; [by rewrite Haf|done].
Qed.

Lemma suite_validates a req receipt a' :
  reachable a -> ExecuteLifecycle (Some context_Background) req a = (a', Ok receipt) ->
  is_nil (ValidateProvisionReceipt req receipt) = true.
Proof. intros Hr He. by rewrite (receipts_are_valid _ _ _ _ _ Hr He). Qed.

Definition profile (value : string) : list Parameter_ :=
  [{| par_Key := "profile"; par_Value := value |}].

Definition create_req : ProvisionRequest :=
  suite_req "tenant-alpha" "idem-create-01" VerbProvision (profile "standard-v1").

(** The requests of the transitions, and the ledger after the first [n]. *)
Definition step_req (step : string * LifecycleVerb * ResourceState) : ProvisionRequest :=
  suite_req "tenant-alpha" step.1.1 step.1.2 [].

Lemma ledger_execute_new req l r :
  latest l (rq_ResourceID req) = Some r -> rq_TenantID r = rq_TenantID req ->
  rq_ProjectID r = rq_ProjectID req -> prior l req = None ->
  ledger_execute family req l = (l ++ [req], Ok (fresh_receipt family req)).
Proof.
  intros Hl Ht Hp Hpr. unfold ledger_execute. by rewrite Hl, decide_True, Hpr.
Qed.

Lemma transition_step done step rest :
  done ++ step :: rest = transitions ->
  ledger_execute family (step_req step) (create_req :: map step_req done) =
  (create_req :: map step_req (done ++ [step]), Ok (fresh_receipt family (step_req step))) /\
  stateForVerb step.1.2 = step.2 /\
  ValidateProvisionRequest (step_req step) = None /\
  prior (create_req :: map step_req done) (step_req step) = None.
Proof.
  intros H. split; [|split; [|split]].
  - rewrite map_app. apply (ledger_execute_new _ (create_req :: map step_req done)
      (List.last (map step_req done) create_req)).
    all: do 5 (destruct done as [|? done]; [injection H as -> ->; vm_compute; reflexivity
      |injection H as -> H]); by destruct done.
  - do 5 (destruct done as [|? done]; [injection H as -> ->; vm_compute; reflexivity
      |injection H as -> H]); by destruct done.
  - apply suite_req_OK.
    do 5 (destruct done as [|? done]; [injection H as -> ->; vm_compute; reflexivity
      |injection H as -> H]); by destruct done.
  - do 5 (destruct done as [|? done]; [injection H as -> ->; vm_compute; reflexivity
      |injection H as -> H]); by destruct done.
Qed.

Lemma reachable_execute ctx req a a' outcome :
  reachable a -> ExecuteLifecycle ctx req a = (a', outcome) -> reachable a'.
Proof.
  intros Hr He. eapply reachable_steps; [exact Hr|]. apply rtc_once.
  pose proof (ad_step_execute ctx req a) as H. by rewrite He in H.
Qed.

Lemma run_transitions_passes rest done a :
  done ++ rest = transitions -> suite_adapter a -> reachable a ->
  Represents a (create_req :: map step_req done) ->
  exists a', run_transitions InMemoryAdapter_port context_Background rest a = (a', None) /\
    suite_adapter a' /\ reachable a'.
Proof.
  revert done a. induction rest as [|step rest IH]; intros done a Hd Ha Hr Hrep.
  { by exists a. }
  destruct (transition_step _ _ _ Hd) as (Hle & Hst & Hq & Hnew).
  destruct (suite_step _ _ _ _ _ Ha Hrep Hq eq_refl eq_refl Hle Hnew)
    as (a' & He & Hrep' & Ha').
  pose proof (reachable_execute _ _ _ _ _ Hr He) as Hr'.
  pose proof (suite_validates _ _ _ _ Hr He) as Hval.
  destruct (IH (done ++ [step]) a') as (a2 & Hrun & Ha2 & Hr2); [|done|done|done|].
  { by rewrite <- app_assoc. }
  exists a2. split; [|done]. destruct step as [[key verb] state]. cbn [run_transitions].
  rewrite (suite_request_Ok a "tenant-alpha" key verb ∅ []); [|done|done|].
  - cbn [dropping_error].
    change (suite_req "tenant-alpha" key verb []) with (step_req (key, verb, state)).
    change (port_ExecuteLifecycle InMemoryAdapter_port) with ExecuteLifecycle.
    rewrite He, Hval. cbn [negb orb]. cbn [fst snd] in Hst.
    change (rp_State (fresh_receipt family (step_req (key, verb, state))))
      with (stateForVerb verb).
    by rewrite Hst, String.eqb_refl.
  - destruct (validIdentifier "tenant-alpha" && validIdentifier key && ValidLifecycleVerb verb)
      eqn:Hok; [done|]. exfalso. revert Hok Hd. clear.
    intros Hok Hd. do 5 (destruct done as [|? done]; [injection Hd as -> -> ->; done
      |injection Hd as -> Hd]); by destruct done.
Qed.

(** The first call of the suite. *)
Lemma suite_create a :
  suite_adapter a -> Represents a [] ->
  exists a1, ExecuteLifecycle (Some context_Background) create_req a =
    (a1, Ok (fresh_receipt family create_req)) /\ Represents a1 [create_req] /\
    suite_adapter a1.
Proof.
  intros Ha Hrep.
  apply (suite_step a [] create_req [create_req] (Ok (fresh_receipt family create_req)) Ha Hrep);
    [by apply suite_req_OK|reflexivity|reflexivity| |reflexivity].
  unfold ledger_execute. change (latest [] _) with (@None ProvisionRequest).
  by rewrite decide_True.
Qed.

Definition conflict_req : ProvisionRequest :=
  suite_req "tenant-alpha" "idem-create-01" VerbProvision (profile "mutated-v2").

Definition cross_req : ProvisionRequest :=
  suite_req "tenant-bravo" "idem-bravo-01" VerbDeprovision [].

Lemma addressed_suite a tenant key verb ps :
  suite_adapter a -> addressed a (suite_req tenant key verb ps).
Proof. by intros (Hid & Hc & _). Qed.

(** The middle of the suite: replay, conflict and isolation. *)
Lemma suite_refusals a a1 receipt :
  reachable a -> suite_adapter a ->
  ExecuteLifecycle (Some context_Background) create_req a = (a1, Ok receipt) ->
  request_collision create_req conflict_req \/
  (ExecuteLifecycle (Some context_Background) create_req a1 = (a1, Ok receipt) /\
   ExecuteLifecycle (Some context_Background) conflict_req a1 =
     (a1, Err ErrIdempotencyConflict) /\
   InspectResource (Some context_Background) "tenant-bravo" "project-core"
     "res-conformance-01" a1 = Err ErrTenantIsolationViolation /\
   ExecuteLifecycle (Some context_Background) cross_req a1 =
     (a1, Err ErrTenantIsolationViolation)).
Proof.
  intros Hr Ha He.
  destruct (reused_keys_conflict _ (Some context_Background) _ conflict_req _ _ _ a1 Hr He)
    as [Hconf|Hc]; [by apply rtc_refl|reflexivity|by apply suite_req_OK|by apply addressed_suite
    |by split_and!|intros [=]| |by left].
  destruct (resources_stay_with_their_tenant _ (Some context_Background) _ _ _ _ a1
    "tenant-bravo" "project-core" Hr He) as (Hins & _ & Hcross);
    [by apply rtc_refl|reflexivity|reflexivity|reflexivity|intros [=]|].
  right. split; [by eapply served_requests_replay; [..|apply rtc_refl|]|].
  split; [done|]. split; [done|].
  apply Hcross; [by apply suite_req_OK|by apply addressed_suite|done..].
Qed.

Lemma suite_passes a :
  suite_adapter a -> reachable a -> Represents a [] ->
  ValidateHealthReport (health_report a (ad_healthStatus a) (ad_healthReason a)) = None ->
  request_collision create_req conflict_req \/
  exists a' r, RunConformanceSuite InMemoryAdapter_port (Some a) = (Some a', Ok r) /\
    cr_Passed r = true /\ cr_AdapterID r = id /\ cr_ServiceCategory r = category /\
    cr_BackendFamily r = family.
Proof.
  intros Ha Hr Hrep Hh.
  destruct (suite_create a Ha Hrep) as (a1 & He & Hrep1 & Ha1).
  pose proof (reachable_execute _ _ _ _ _ Hr He) as Hr1.
  pose proof (suite_validates _ _ _ _ Hr He) as Hval.
  destruct (suite_refusals a a1 _ Hr Ha He) as [Hc|(Hrp & Hcf & Hins & Hcr)]; [by left|].
  destruct (run_transitions_passes transitions [] a1 eq_refl Ha1 Hr1 Hrep1)
    as (a2 & Hrun & Ha2 & _).
  right. destruct Ha2 as (Hid & Hcat & Hfam).
  exists a2. eexists. split.
  - unfold RunConformanceSuite. cbn [InMemoryAdapter_port port_Health Health checkContext
      context_Background ctx_Err]. rewrite Hh.
    rewrite (suite_request_Ok a "tenant-alpha" "idem-create-01" VerbProvision _
      (profile "standard-v1")) by done.
    change (port_ExecuteLifecycle InMemoryAdapter_port) with ExecuteLifecycle.
    change (port_InspectResource InMemoryAdapter_port) with InspectResource.
    fold create_req. rewrite He, Hval.
    change (rp_State (fresh_receipt family create_req)) with StateReady.
    change (negb true || (StateReady != StateReady)) with false. cbv iota.
    rewrite Hrp, bool_decide_true by reflexivity. cbn [negb].
    rewrite (suite_request_Ok a1 "tenant-alpha" "idem-create-01" VerbProvision _
      (profile "mutated-v2")) by done.
    cbn [dropping_error]. fold conflict_req. rewrite Hcf. cbn [fails_with].
    change (errors_Is ErrIdempotencyConflict ErrIdempotencyConflict) with true. cbn [negb].
    rewrite Hins. cbn [fails_with].
    change (errors_Is ErrTenantIsolationViolation ErrTenantIsolationViolation) with true.
    cbn [negb].
    rewrite (suite_request_Ok a1 "tenant-bravo" "idem-bravo-01" VerbDeprovision ∅ []) by done.
    cbn [dropping_error]. fold cross_req. rewrite Hcr. cbn [fails_with].
    change (errors_Is ErrTenantIsolationViolation ErrTenantIsolationViolation) with true.
    cbn [negb]. rewrite Hrun. reflexivity.
  - cbn. by split_and!.
Qed.
End suite.

(** Every adapter [NewInMemoryAdapter] returns passes
    [RunConformanceSuite], unless the suite's create request and its mutation
    of it collide under SHA-256. *)
Theorem conformance_suite_passes id category family a :
  NewInMemoryAdapter id category family = Ok a ->
  request_collision (create_req category id) (conflict_req category id) \/
  exists a' r, RunConformanceSuite InMemoryAdapter_port (Some a) = (Some a', Ok r) /\
    cr_Passed r = true /\ cr_AdapterID r = id /\ cr_ServiceCategory r = category /\
    cr_BackendFamily r = family.
Proof.
  intros Hnew. pose proof (NewInMemoryAdapter_Represents _ _ _ _ Hnew)
    as (Hrep & Hid & Hai & Hac & Haf).
  pose proof (rep_family _ _ Hrep) as Hf. rewrite Haf in Hf.
  assert (ValidServiceCategory category = true) as Hcat.
  { unfold NewInMemoryAdapter in Hnew. destruct (_ || _) eqn:E; [done|]. by go_simp. }
  apply suite_passes; try done.
  - by exists id, category, family, a.
  - unfold NewInMemoryAdapter in Hnew. destruct (_ || _) eqn:E; [done|]. injection Hnew as <-.
    go_simp. unfold ValidateHealthReport. cbn [health_report hr_AdapterID hr_ServiceCategory
      hr_BackendFamily hr_Status hr_Reason ad_adapterID ad_serviceCategory ad_backendFamily
      ad_healthStatus ad_healthReason].
    rewrite Hid, Hcat. apply Contains__elem in Hf. unfold ValidBackendFamily. by rewrite Hf.
Qed.

(** The suite run for real on one adapter. *)
Example conformance_suite_runs :
  match NewInMemoryAdapter "adapter-01" "volume" "bare-metal" with
  | Ok a => match (RunConformanceSuite InMemoryAdapter_port (Some a)).2 with
            | Ok r => cr_Passed r
            | Err _ => false
            end
  | Err _ => false
  end = true.
Proof. vm_compute. reflexivity. Qed.

(** ** The registry *)

Lemma descriptor_less_iff a b :
  descriptor_less a b = true <->
  string_lt (desc_ServiceCategory a) (desc_ServiceCategory b) = true \/
  (desc_ServiceCategory a = desc_ServiceCategory b /\
   string_lt (desc_AdapterID a) (desc_AdapterID b) = true).
Proof.
  unfold descriptor_less. destruct (_ != _) eqn:H; go_simp.
  - split; [by left|]. by intros [?|[? _]].
  - split; [by right|]. intros [Hlt|[_ ?]]; [|done].
    rewrite H, string_lt_irrefl in Hlt. done.
Qed.

Lemma descriptor_less_irrefl a : descriptor_less a a = false.
Proof.
  destruct (descriptor_less a a) eqn:H; [|done].
  apply descriptor_less_iff in H as [H|[_ H]]; by rewrite string_lt_irrefl in H.
Qed.

Lemma descriptor_less_trans a b c :
  descriptor_less a b = true -> descriptor_less b c = true -> descriptor_less a c = true.
Proof.
  rewrite !descriptor_less_iff. intros [H1|[E1 H1]] [H2|[E2 H2]].
  - left. by eapply string_lt_trans.
  - left. by rewrite <- E2.
  - left. by rewrite E1.
  - right. split; [congruence|]. by eapply string_lt_trans.
Qed.

Lemma descriptor_less_total a b :
  descriptor_less a b = false -> descriptor_less b a = false ->
  desc_ServiceCategory a = desc_ServiceCategory b /\ desc_AdapterID a = desc_AdapterID b.
Proof.
  unfold descriptor_less.
  destruct (String.eqb_spec (desc_ServiceCategory a) (desc_ServiceCategory b)) as [->|Hn].
  - rewrite String.eqb_refl. intros H1 H2. split; [done|]. by apply string_lt_total.
  - rewrite (proj2 (String.eqb_neq _ _) (not_eq_sym Hn)). intros H1 H2.
    by destruct Hn; apply string_lt_total.
Qed.

Section registry.
Context {P : Type} (methods : ProviderPort P).

Definition describable (port : P) : Prop :=
  validIdentifier (port_AdapterID methods port) = true /\
  ValidServiceCategory (port_ServiceCategory methods port) = true /\
  ValidBackendFamily (port_BackendFamily methods port) = true.

Definition key_of (port : P) : string :=
  registryKey (port_ServiceCategory methods port) (port_AdapterID methods port).

(** A registry: the result of any sequence of [Register] calls. *)
Inductive registered : gmap string P -> Prop :=
  | registered_new : registered ∅
  | registered_register port adapters :
      registered adapters -> registered (Register methods port adapters).1.

Lemma registered_keyed adapters key port :
  registered adapters -> adapters !! key = Some port -> describable port /\ key = key_of port.
Proof.
  intros Hreg. revert key port. induction Hreg as [|p adapters _ IH]; intros key port; [done|].
  destruct p as [p|]; simpl; [|apply IH].
  destruct (_ || _) eqn:Hv; simpl; [apply IH|].
  destruct (adapters !! _) eqn:He; simpl; [apply IH|].
  destruct (decide (key_of p = key)) as [<-|Hn].
  - unfold key_of. rewrite lookup_insert_eq. intros [= <-]. go_simp. by unfold describable.
  - unfold key_of in Hn. rewrite lookup_insert_ne by done. apply IH.
Qed.

Lemma registryKey_inj c i c' i' :
  ValidServiceCategory c = true -> ValidServiceCategory c' = true ->
  registryKey c i = registryKey c' i' -> c = c' /\ i = i'.
Proof.
  intros Hc Hc' H. apply nul_field_inj in H; [done|..]; by apply (elem_no_nul allServiceCategories).
Qed.

Lemma Register_spec port adapters :
  describable port ->
  Register methods (Some port) adapters =
  match adapters !! key_of port with
  | Some _ => (adapters, Some ErrAdapterAlreadyRegistered)
  | None => (<[key_of port := port]> adapters, None)
  end.
Proof. intros (H1 & H2 & H3). unfold Register, key_of. by rewrite H1, H2, H3. Qed.

Lemma Register_None port adapters adapters' :
  Register methods port adapters = (adapters', None) ->
  exists p, port = Some p /\ describable p /\ adapters !! key_of p = None /\
    adapters' = <[key_of p := p]> adapters.
Proof.
  destruct port as [p|]; simpl; [|done]. destruct (_ || _) eqn:Hv; [done|].
  destruct (adapters !! _) eqn:He; [done|]. intros [= <-]. exists p. go_simp.
  by unfold describable.
Qed.
End registry.

(** After a successful [Register], [Lookup] finds the port
    under its category and identifier, every other lookup is as before, and
    registering a port of that identity again is refused and changes nothing. *)
Lemma registered_ports_are_found {P} (methods : ProviderPort P) port adapters adapters' :
  Register methods (Some port) adapters = (adapters', None) ->
  Lookup (port_ServiceCategory methods port) (port_AdapterID methods port) adapters' = Ok port /\
  (forall category id,
     (category, id) <> (port_ServiceCategory methods port, port_AdapterID methods port) ->
     Lookup category id adapters' = Lookup category id adapters) /\
  forall port', port_ServiceCategory methods port' = port_ServiceCategory methods port ->
    port_AdapterID methods port' = port_AdapterID methods port ->
    ValidBackendFamily (port_BackendFamily methods port') = true ->
    Register methods (Some port') adapters' = (adapters', Some ErrAdapterAlreadyRegistered).
Proof.
  intros (p & [= <-] & (Hid & Hcat & Hfam) & Hnew & ->)%Register_None. split; [|split].
  - unfold Lookup. rewrite Hid, Hcat. simpl. unfold key_of. by rewrite lookup_insert_eq.
  - intros category id Hne. unfold Lookup.
    destruct (ValidServiceCategory category) eqn:Hc; [|done].
    destruct (validIdentifier id); [|done]. simpl. rewrite lookup_insert_ne; [done|].
    intros Hk. by apply registryKey_inj in Hk as [<- <-].
  - intros port' Hc Hi Hf.
    rewrite Register_spec by (unfold describable; rewrite Hc, Hi; done).
    unfold key_of. by rewrite Hc, Hi, lookup_insert_eq.
Qed.

(** [List] shows exactly the registered ports, once each, in the order of
    category and identifier. *)
Lemma list_is_sorted_and_complete {P} (methods : ProviderPort P) adapters :
  registered methods adapters ->
  Sorted (fun a b => descriptor_less a b = true) (List methods adapters) /\
  forall d, d ∈ List methods adapters <->
    exists port, Lookup (desc_ServiceCategory d) (desc_AdapterID d) adapters = Ok port /\
      describe methods port = d.
Proof.
  intros Hreg. unfold List.
  set (ds := map (fun kv => describe methods kv.2) (map_to_list adapters)).
  split.
  - assert (NoDup (map (fun d => registryKey (desc_ServiceCategory d) (desc_AdapterID d)) ds))
      as Hnd.
    { unfold ds. rewrite map_map.
      assert (map (fun kv : string * P => registryKey (desc_ServiceCategory (describe methods kv.2))
          (desc_AdapterID (describe methods kv.2))) (map_to_list adapters)
        = (map_to_list adapters).*1) as ->; [|apply NoDup_fst_map_to_list].
      apply map_ext_in. intros [k p] Hin%list_elem_of_In%elem_of_map_to_list.
      by destruct (registered_keyed methods _ _ _ Hreg Hin) as [_ ->]. }
    rewrite <- (sort_Slice_perm descriptor_less ds) in Hnd.
    pose proof (sort_Slice_sorted descriptor_less descriptor_less_trans descriptor_less_irrefl ds)
      as Hs. revert Hnd.
    induction Hs as [|d ds' Hs IH Hh]; [constructor|]. rewrite fmap_cons, NoDup_cons.
    intros [Hni Hnd]. constructor; [by apply IH|].
    destruct Hh as [|d' ds' Hd]; constructor.
    unfold not_after in Hd. destruct (descriptor_less d d') eqn:E; [done|]. exfalso. apply Hni.
    destruct (descriptor_less_total _ _ E Hd) as [-> ->]. by left.
  - intros d. rewrite (sort_Slice_perm descriptor_less ds). unfold ds.
    rewrite list_elem_of_fmap. split.
    + intros ([k port] & -> & Hin%elem_of_map_to_list). exists port. split; [|done].
      destruct (registered_keyed methods _ _ _ Hreg Hin) as [(Hi & Hc & _) ->].
      unfold Lookup. simpl. rewrite Hi, Hc. simpl. unfold key_of in Hin. by rewrite Hin.
    + intros (port & Hl & <-). unfold Lookup in Hl. destruct (_ || _); [done|].
      destruct (adapters !! _) as [port'|] eqn:He; [|done]. injection Hl as ->.
      eexists (_, port). split; [done|]. by apply elem_of_map_to_list.
Qed.

(** Registered ports are found and listed: after a successful [Register],
    [Lookup] finds the port under its category and identifier, finds every other
    port as before, a second port of that name is refused, and [List] shows
    exactly the registered ports, once each, in the order of category and
    identifier. *)
Theorem registered_ports_are_listed {P} (methods : ProviderPort P) port adapters adapters' :
  registered methods adapters -> Register methods (Some port) adapters = (adapters', None) ->
  Lookup (port_ServiceCategory methods port) (port_AdapterID methods port) adapters' = Ok port /\
  (forall category id,
     (category, id) <> (port_ServiceCategory methods port, port_AdapterID methods port) ->
     Lookup category id adapters' = Lookup category id adapters) /\
  (forall port', port_ServiceCategory methods port' = port_ServiceCategory methods port ->
    port_AdapterID methods port' = port_AdapterID methods port ->
    ValidBackendFamily (port_BackendFamily methods port') = true ->
    Register methods (Some port') adapters' = (adapters', Some ErrAdapterAlreadyRegistered)) /\
  Sorted (fun a b => descriptor_less a b = true) (List methods adapters') /\
  forall d, d ∈ List methods adapters' <->
    exists port, Lookup (desc_ServiceCategory d) (desc_AdapterID d) adapters' = Ok port /\
      describe methods port = d.
Proof.
  intros Hreg Hr. destruct (registered_ports_are_found _ _ _ _ Hr) as (H1 & H2 & H3).
  pose proof (registered_register methods (Some port) adapters Hreg) as Hreg'. rewrite Hr in Hreg'.
  destruct (list_is_sorted_and_complete _ _ Hreg') as [H4 H5]. by split_and!.
Qed.

(** ** Witnesses *)

Definition sample_adapter : InMemoryAdapter :=
  {| ad_adapterID := "adapter-01"; ad_serviceCategory := "compute";
     ad_backendFamily := "kubevirt"; ad_healthStatus := HealthReady; ad_healthReason := "";
     ad_idempotencyLog := ∅; ad_resources := ∅ |}.

Definition background : option Context_ := Some context_Background.

Definition sample_create : ProvisionRequest := create_req "compute" "adapter-01".
Definition sample_conflict : ProvisionRequest := conflict_req "compute" "adapter-01".

Definition sample_executed : InMemoryAdapter :=
  (ExecuteLifecycle background sample_create sample_adapter).1.

Definition sample_receipt : ProvisionReceipt :=
  dropping_error zero_ProvisionReceipt
    (ExecuteLifecycle background sample_create sample_adapter).2.

Lemma sample_adapter_new :
  NewInMemoryAdapter "adapter-01" "compute" "kubevirt" = Ok sample_adapter.
Proof. vm_compute. reflexivity. Qed.

Lemma sample_reachable : reachable sample_adapter.
Proof.
  exists "adapter-01", "compute", "kubevirt", sample_adapter.
  split; [exact sample_adapter_new|apply rtc_refl].
Qed.

Lemma sample_served :
  ExecuteLifecycle background sample_create sample_adapter = (sample_executed, Ok sample_receipt).
Proof. vm_compute. reflexivity. Qed.

(** A run after the first call: a health change and a refused request. *)
Definition sample_later : InMemoryAdapter :=
  (ExecuteLifecycle background sample_conflict
    (SetHealth "degraded" "maintenance" sample_executed).1).1.

Lemma sample_run : rtc ad_step sample_executed sample_later.
Proof.
  eapply rtc_l; [apply (ad_step_health "degraded" "maintenance")|].
  apply rtc_once. apply ad_step_execute.
Qed.

Lemma request_digest_binds_request_witness :
  sample_create = sample_create \/ request_collision sample_create sample_create.
Proof.
  apply (request_digest_binds_request sample_create sample_create
    (dropping_error "" (RequestSHA256 sample_create))); vm_compute; reflexivity.
Defined.

Lemma sample_ledger : Represents sample_later [sample_create].
Proof.
  split; [apply (bool_decide_unpack _); vm_compute; exact I|vm_compute; reflexivity
    |vm_compute; reflexivity|].
  constructor; [|constructor]. split.
  - apply ValidateProvisionRequest_iff. vm_compute. reflexivity.
  - split; vm_compute; reflexivity.
Qed.

Lemma sample_later_reachable : reachable sample_later.
Proof.
  eapply reachable_steps; [exact sample_reachable|].
  eapply rtc_l; [|exact sample_run].
  exact (ad_step_execute background sample_create sample_adapter).
Qed.

(** The adapter after a run answers a reused key as the ledger does. *)
Lemma adapter_implements_ledger_witness :
  (exists l, Represents sample_later l) /\
  ((exists r, prior [sample_create] sample_conflict = Some r /\
     request_collision r sample_conflict) \/
   exists a' l', ExecuteLifecycle background sample_conflict sample_later =
       (a', Err ErrIdempotencyConflict) /\
     ledger_execute (ad_backendFamily sample_later) sample_conflict [sample_create] =
       (l', Err ErrIdempotencyConflict) /\ Represents a' l').
Proof.
  destruct (adapter_implements_ledger sample_later sample_later_reachable) as [Hl H].
  split; [exact Hl|].
  destruct (H [sample_create] background sample_conflict sample_ledger)
    as [Hc|(a' & l' & outcome & He & Hle & Hrep)].
  - vm_compute. reflexivity.
  - vm_compute. reflexivity.
  - split; vm_compute; reflexivity.
  - left. exact Hc.
  - right. exists a', l'.
    assert (outcome = Err ErrIdempotencyConflict) as ->.
    { change (outcome = (l', Err ErrIdempotencyConflict).2).
      replace outcome with (l', outcome).2 by reflexivity. rewrite <- Hle. vm_compute. reflexivity. }
    split; [exact He|]. split; [exact Hle|exact Hrep].
Defined.

Lemma requests_are_idempotent_witness :
  ExecuteLifecycle background sample_create sample_later = (sample_later, Ok sample_receipt) /\
  (ExecuteLifecycle background sample_conflict sample_later =
    (sample_later, Err ErrIdempotencyConflict) \/
   request_collision sample_create sample_conflict).
Proof.
  destruct (requests_are_idempotent background background sample_create sample_receipt
    sample_adapter sample_executed sample_later sample_reachable sample_served sample_run) as [H1 H2];
    [vm_compute; reflexivity|]. split; [exact H1|]. apply H2.
  - vm_compute. reflexivity.
  - split; vm_compute; reflexivity.
  - repeat split; vm_compute; reflexivity.
  - discriminate.
Defined.

Lemma resources_stay_with_their_tenant_witness :
  InspectResource background "tenant-bravo" "project-core" "res-conformance-01" sample_later
    = Err ErrTenantIsolationViolation.
Proof.
  apply (resources_stay_with_their_tenant background background sample_create sample_receipt
    sample_adapter sample_executed sample_later "tenant-bravo" "project-core" sample_reachable
    sample_served sample_run); [vm_compute; reflexivity..|].
  discriminate.
Defined.

Lemma receipts_are_valid_witness : ValidateProvisionReceipt sample_create sample_receipt = None.
Proof.
  apply (receipts_are_valid background sample_create sample_receipt sample_adapter
    sample_executed sample_reachable sample_served).
Defined.
