(* ===== verification/IdentitySession.v ===== *)
(** * Session cookies and request tokens

    [pkg/identity/session.go]: the host-only session cookies and the
    [CSRFManager] that ties a form to the session it was rendered for.  The
    random nonce of a token is an argument of [Issue]. *)

From stdpp Require Import strings list.
From Stdlib Require Import ZArith Ascii Lia.
From S2P Require Import Prelude GoString GoTime GoSha256 GoCrypto.

#[local] Open Scope Z_scope.

(** ** Cookies *)

Definition SameSiteMode : Type := string.
Definition SameSiteLax : SameSiteMode := "Lax".
Definition SameSiteStrict : SameSiteMode := "Strict".

(** [http.SameSite] *)
Definition http_SameSiteLaxMode : Z := 2.
Definition http_SameSiteStrictMode : Z := 3.

Record CookiePolicy := {
  cp_Name : string; cp_Value : string; cp_Path : string;
  cp_Lifetime : Duration; cp_SameSite : SameSiteMode
}.

(** The fields of [http.Cookie] the package sets. *)
Record Cookie := {
  ck_Name : string; ck_Value : string; ck_Path : string; ck_Expires : Time;
  ck_MaxAge : Z; ck_Secure : bool; ck_HttpOnly : bool; ck_SameSite : Z
}.

(** [http.Cookie.Valid]: a token for a name, an expiry that is unset or in a
    year from 1601 on, and printable values and paths. *)
Definition token_char (c : ascii) : bool :=
  is_digit c || is_lower c || is_upper c ||
  any_char (Ascii.eqb c) "!#$%&'*+-.^_`|~".

Definition year_1601 : Time := 50491123200 * Second.

Definition Cookie_Valid (c : Cookie) : bool :=
  (ck_Name c != "") && all_chars token_char (ck_Name c) &&
  (IsZero (ck_Expires c) || (year_1601 <=? ck_Expires c)) &&
  all_chars (fun b => in_range 32 126 b && negb (is_char 34 b || is_char 59 b || is_char 92 b))
    (ck_Value c) &&
  all_chars (fun b => in_range 32 126 b && negb (is_char 59 b)) (ck_Path c).

Definition newSecureHostCookie (name value path : string) (expires : Time) (maxAge : Z)
    (sameSite : Z) : Cookie :=
  {| ck_Name := name; ck_Value := value; ck_Path := path; ck_Expires := expires;
     ck_MaxAge := maxAge; ck_Secure := true; ck_HttpOnly := true;
     ck_SameSite := if sameSite =? http_SameSiteStrictMode then http_SameSiteStrictMode
                    else http_SameSiteLaxMode |}.

Definition validateHostCookiePolicy (name value path : string) (sameSitePolicy : SameSiteMode)
    (requireValue : bool) : result Z :=
  if negb (HasPrefix name "__Host-")
  then Err (errors_New "session cookie name must use the __Host- prefix")
  else if path != "/" then Err (errors_New "__Host- session cookie path must be /")
  else if requireValue && (value == "") then Err (errors_New "cookie value is required")
  else
  let candidate := newSecureHostCookie name value path time_zero 0 http_SameSiteLaxMode in
  if negb (Cookie_Valid candidate) then Err (errors_New "cookie name or value is invalid")
  else if sameSitePolicy == SameSiteStrict then Ok http_SameSiteStrictMode
  else if (sameSitePolicy == SameSiteLax) || (sameSitePolicy == "") then Ok http_SameSiteLaxMode
  else Err (errors_New "cookie SameSite must be Lax or Strict").

Definition NewSessionCookie (policy : CookiePolicy) (now : Time) : result Cookie :=
  match validateHostCookiePolicy (cp_Name policy) (cp_Value policy) (cp_Path policy)
          (cp_SameSite policy) true with
  | Err err => Err err
  | Ok sameSite =>
      if (cp_Lifetime policy <? Second) || (24 * Hour <? cp_Lifetime policy)
      then Err (errors_New "cookie lifetime must be positive and bounded")
      else Ok (newSecureHostCookie (cp_Name policy) (cp_Value policy) (cp_Path policy)
                 (time_Add now (cp_Lifetime policy))
                 (duration_div (cp_Lifetime policy) Second) sameSite)
  end.

Definition ExpireSessionCookie (policy : CookiePolicy) (now : Time) : result Cookie :=
  match validateHostCookiePolicy (cp_Name policy) "" (cp_Path policy) (cp_SameSite policy)
          false with
  | Err err => Err err
  | Ok sameSite =>
      Ok (newSecureHostCookie (cp_Name policy) "" (cp_Path policy) (time_Add now (- Hour))
            (-1) sameSite)
  end.

(** ** Unix time *)

(** An instant [time.Time] can hold. *)
Definition is_Time (t : Time) : Prop := is_int64 (t / Second).

(** The instant to the second. *)
Definition truncated (t : Time) : Time := t / Second * Second.

Lemma int64_wrap_add a b : int64_wrap (int64_wrap a + b) = int64_wrap (a + b).
Proof.
  unfold int64_wrap. f_equal.
  replace ((a - min_int64) mod 18446744073709551616 + min_int64 + b - min_int64)
    with ((a - min_int64) mod 18446744073709551616 + b) by lia.
  rewrite Zplus_mod_idemp_l. f_equal. lia.
Qed.

Lemma time_Unix_Unix t : is_Time t -> time_Unix (Unix t) = truncated t.
Proof.
  intros Ht. unfold time_Unix, Unix, truncated. rewrite int64_wrap_add.
  f_equal. replace (t / Second - unix_epoch + unix_epoch) with (t / Second) by lia.
  by apply int64_wrap_id.
Qed.

(** ** Request tokens *)

Record CSRFManager := {
  csrf_keyMaterial : list Z;
  csrf_maxAge : Duration
}.

Definition minCSRFKeyMaterialBytes : nat := 32.
Definition maxEncodedCSRFTokenBytes : nat := 128.

Definition NewCSRFManager (keyMaterial : list Z) (maxAge : Duration) : CSRFManager :=
  {| csrf_keyMaterial := keyMaterial; csrf_maxAge := maxAge |}.

Definition csrfMAC (manager : CSRFManager) (sessionID : string) (message : list Z) : list Z :=
  hmac_sha256 (csrf_keyMaterial manager) (string_bytes sessionID ++ [0] ++ message).

(** [rand.Read] fills the nonce or fails. *)
Definition Issue (manager : CSRFManager) (sessionID : string) (now : Time)
    (rand : nat -> result (list Z)) : result string :=
  if (length (csrf_keyMaterial manager) <? minCSRFKeyMaterialBytes)%nat
  then Err (errors_New "csrf key material must be at least 32 bytes")
  else if sessionID == "" then Err (errors_New "session id is required")
  else match rand 16%nat with
  | Err err => Err err
  | Ok nonce =>
      let message := nonce ++ put_int64 (Unix now) in
      let mac := csrfMAC manager sessionID message in
      let raw := message ++ mac in
      Ok (b64_encode raw)
  end.

Definition CSRF_Check (manager : CSRFManager) (csrfValue sessionID : string) (now : Time)
    : option goerror :=
  if (length (csrf_keyMaterial manager) <? minCSRFKeyMaterialBytes)%nat
  then Some (errors_New "csrf key material must be at least 32 bytes")
  else if csrfValue == "" then Some (errors_New "csrf token is required")
  else if (maxEncodedCSRFTokenBytes <? len csrfValue)%nat
  then Some (errors_New "csrf token is malformed")
  else if sessionID == "" then Some (errors_New "session id is required")
  else match b64_decode csrfValue with
  | None => Some (errors_New "csrf token is malformed")
  | Some raw =>
      if negb (length raw =? 16 + 8 + 32)%nat
      then Some (errors_New "csrf token length is invalid")
      else
      let message := take 24 raw in
      let wantMAC := csrfMAC manager sessionID message in
      let gotMAC := drop 24 raw in
      if negb (bool_decide (wantMAC = gotMAC))
      then Some (errors_New "csrf token signature is invalid")
      else
      let issuedAtUnix := get_int64 (take 8 (drop 16 message)) in
      let issuedAt := time_Unix issuedAtUnix in
      if (csrf_maxAge manager <=? 0) || Before now issuedAt ||
         (csrf_maxAge manager <? time_Sub now issuedAt)
      then Some (errors_New "csrf token is expired")
      else None
  end.

(** ** What a token proves

    A token of [Issue] is accepted for the session it was issued for, from the
    second of its issue until its age passes the limit. *)

Definition csrf_window (manager : CSRFManager) (now later : Time) : Prop :=
  0 < csrf_maxAge manager /\ truncated now <= later <= truncated now + csrf_maxAge manager.

Definition fills (rand : nat -> result (list Z)) : Prop :=
  forall n bytes, rand n = Ok bytes -> length bytes = n /\ Forall is_byte bytes.

Lemma csrf_message_inj sid sid' message :
  length message = 24%nat ->
  string_bytes sid ++ [0] ++ message = string_bytes sid' ++ [0] ++ message -> sid = sid'.
Proof. intros _ H. apply string_bytes_inj. by apply app_inv_tail in H. Qed.

(** The token of a nonce, and what [CSRF_Check] makes of it. *)
Lemma CSRF_Check_raw manager sid now nonce mac :
  (minCSRFKeyMaterialBytes <= length (csrf_keyMaterial manager))%nat -> sid <> "" ->
  length nonce = 16%nat -> Forall is_byte nonce -> length mac = 32%nat -> Forall is_byte mac ->
  is_Time now -> csrf_maxAge manager < max_int64 -> forall later,
  let message := nonce ++ put_int64 (Unix now) in
  CSRF_Check manager (b64_encode (message ++ mac)) sid later = None <->
  csrfMAC manager sid message = mac /\ csrf_window manager now later.
Proof.
  intros Hkey Hsid Hn Hnb Hm Hmb Ht Hmax later message.
  assert (length message = 24%nat) as Hlen.
  { unfold message, put_int64. rewrite length_app, be_bytes_length. lia. }
  assert (Forall is_byte (message ++ mac)) as Hb.
  { unfold message, put_int64. rewrite !Forall_app. auto using be_bytes_bytes. }
  unfold CSRF_Check, csrf_window.
  rewrite (proj2 (Nat.ltb_ge _ _)) by done.
  assert (message ++ mac <> []) as Hne
    by (intros E; apply (f_equal length) in E; rewrite length_app, Hlen in E; discriminate E).
  rewrite (proj2 (String.eqb_neq _ _)) by (by apply b64_encode_nonempty).
  assert (len (b64_encode (message ++ mac)) <= maxEncodedCSRFTokenBytes)%nat as Hshort.
  { pose proof (b64_encode_len (message ++ mac)) as He. rewrite length_app, Hlen, Hm in He.
    unfold maxEncodedCSRFTokenBytes. lia. }
  rewrite (proj2 (Nat.ltb_ge _ _)) by exact Hshort.
  rewrite (proj2 (String.eqb_neq _ _)) by done.
  rewrite b64_round_trip by done. rewrite length_app, Hlen, Hm. cbn [Nat.eqb Nat.add negb].
  rewrite take_app_length', drop_app_length' by done.
  replace (take 8 (drop 16 message)) with (put_int64 (Unix now)).
  2: { unfold message. by rewrite drop_app_length', take_ge by done. }
  rewrite get_put_int64, time_Unix_Unix by (done || apply int64_wrap_range).
  destruct (bool_decide _) eqn:Hd; cbn [negb].
  - apply bool_decide_eq_true in Hd. split.
    + intros H. case_match; [done|]. split; [done|]. go_time.
      pose proof (time_Sub_le_iff later (truncated now) (csrf_maxAge manager)). lia.
    + intros (_ & Hpos & Hlo & Hhi). case_match; [|done]. exfalso.
      pose proof (time_Sub_le_iff later (truncated now) (csrf_maxAge manager)).
      repeat match goal with H : _ || _ = true |- _ => apply orb_true_iff in H as [?|?] end;
        go_time.
  - apply bool_decide_eq_false in Hd. split; [done|]. intros [? _]. done.
Qed.

(** A token of [Issue] for another session is a SHA-256 collision. *)
Lemma Issue_spec manager sid now rand token :
  Issue manager sid now rand = Ok token ->
  (minCSRFKeyMaterialBytes <= length (csrf_keyMaterial manager))%nat /\ sid <> "" /\
  exists nonce, rand 16%nat = Ok nonce /\
    token = b64_encode ((nonce ++ put_int64 (Unix now)) ++
                        csrfMAC manager sid (nonce ++ put_int64 (Unix now))).
Proof.
  unfold Issue. intros H. repeat (case_match; simplify_eq). go_simp. eauto.
Qed.

(** The text [csrfMAC] authenticates for a session's token. *)
Definition csrf_text (sid : string) (nonce : list Z) (now : Time) : list Z :=
  string_bytes sid ++ [0] ++ nonce ++ put_int64 (Unix now).

(** Request tokens are bound to their session and their time: of two
    sessions only the one the token was issued for passes [Check], and exactly
    from the second of the issue to the end of the configured age, or the two
    sessions' authenticated texts collide. *)
Lemma issued_tokens_check manager sid now rand token sid' later :
  Issue manager sid now rand = Ok token -> fills rand -> is_Time now ->
  csrf_maxAge manager < max_int64 -> Forall is_byte (csrf_keyMaterial manager) ->
  exists nonce, rand 16%nat = Ok nonce /\
  (hmac_collision (csrf_keyMaterial manager) (csrf_text sid' nonce now) (csrf_text sid nonce now) \/
   (CSRF_Check manager token sid' later = None <->
    sid' = sid /\ csrf_window manager now later)).
Proof.
  intros (Hkey & Hsid & nonce & Hr & ->)%Issue_spec Hf Ht Hmax Hkb.
  exists nonce. split; [done|]. destruct (Hf _ _ Hr) as [Hn Hnb].
  destruct (decide (sid' = "")) as [->|Hsid'].
  { right. split; [|by intros [<- _]]. unfold CSRF_Check.
    repeat case_match; try done. }
  assert (Forall is_byte (nonce ++ put_int64 (Unix now))) as Hb
    by (rewrite Forall_app; auto using put_int64_bytes).
  pose proof (CSRF_Check_raw manager sid' now nonce
    (csrfMAC manager sid (nonce ++ put_int64 (Unix now))) Hkey Hsid' Hn Hnb
    (hmac_length _ _) (hmac_bytes _ _) Ht Hmax later) as Hc. cbv zeta in Hc.
  destruct (decide (sid' = sid)) as [->|Hne].
  { right. rewrite Hc. by split; intros [_ ?]. }
  destruct (decide (csrfMAC manager sid' (nonce ++ put_int64 (Unix now)) =
                    csrfMAC manager sid (nonce ++ put_int64 (Unix now)))) as [He|He].
  - left. assert (forall s, Forall is_byte
      (string_bytes s ++ [0] ++ nonce ++ put_int64 (Unix now))) as Hall.
    { intros s. rewrite !Forall_app. split; [apply string_bytes_bytes|].
      split; [by repeat constructor|]. auto using put_int64_bytes. }
    apply hmac_inj_or in He as [He|]; [|done|done|by apply Hall..].
    apply app_inv_tail in He. by apply string_bytes_inj in He.
  - right. rewrite Hc. by split; intros [? _].
Qed.
