(* ===== verification/Programs.v ===== *)
(** * Programs, interleavings and crashes

    A stateful operation is translated into the tree of the calls it makes
    ([prog]), over a signature of calls [E].  The meaning of a call is a
    relation on worlds, given the process that makes it.  [pool_step] runs any
    number of processes, one call at a time in any order, and lets a process
    die at any point.

    [wp] is a rely-guarantee logic for it: between two calls of a process the
    others may change the world within its rely [R]; every call it makes must
    be one it is allowed to make.  [pool_sound] composes the processes. *)

From stdpp Require Import base list relations.
From Stdlib Require Import Lia.
From S2P Require Import Prelude.

Inductive prog (E : Type -> Type) (A : Type) : Type :=
  | Ret (a : A)
  | Vis {X : Type} (e : E X) (k : X -> prog E A).
Arguments Ret {E A} a.
Arguments Vis {E A X} e k.

Fixpoint prog_bind {E A B} (f : A -> prog E B) (p : prog E A) : prog E B :=
  match p with
  | Ret a => f a
  | Vis e k => Vis e (fun x => prog_bind f (k x))
  end.

#[export] Instance prog_ret E : MRet (prog E) := fun A => Ret.
#[export] Instance prog_mbind E : MBind (prog E) := fun A B => prog_bind.

Definition call {E X} (e : E X) : prog E X := Vis e Ret.

(** ** Interleavings *)

Section Pool.
Context {E : Type -> Type} {W : Type}.
Context (perform : nat -> forall X, E X -> W -> X -> W -> Prop) (killed : nat -> W -> W).

(** The processes with their jobs; a dead one has no program any more. *)
Context {J B : Type} (handler : J -> prog E B).

#[local] Abbreviation pool := (list (J * option (prog E B))).

Inductive pool_step : W * pool -> W * pool -> Prop :=
  | pool_spawn w ps j :
      pool_step (w, ps) (w, ps ++ [(j, Some (handler j))])
  | pool_call w ps i j X (e : E X) k x w' :
      ps !! i = Some (j, Some (Vis e k)) -> perform i X e w x w' ->
      pool_step (w, ps) (w', <[i := (j, Some (k x))]> ps)
  | pool_kill w ps i j p :
      ps !! i = Some (j, Some p) ->
      pool_step (w, ps) (killed i w, <[i := (j, None)]> ps).

(** ** The logic *)

Definition guarantee : Type := W -> forall X, E X -> Prop.

Context (R : nat -> W -> W -> Prop) `{!forall i, PreOrder (R i)} (I : W -> Prop).

Fixpoint wp {A} (G : guarantee) (i : nat) (p : prog E A) (Q : W -> A -> Prop) (w : W) : Prop :=
  match p with
  | Ret a => Q w a
  | Vis e k =>
      forall w1, R i w w1 -> I w1 ->
      G w1 _ e /\ forall x w2, perform i _ e w1 x w2 -> I w2 -> wp G i (k x) Q w2
  end.

Definition stable {A} (i : nat) (Q : W -> A -> Prop) : Prop :=
  forall w w' a, R i w w' -> Q w a -> Q w' a.

Lemma wp_rely {A} G i (p : prog E A) Q w w' :
  stable i Q -> R i w w' -> wp G i p Q w -> wp G i p Q w'.
Proof.
  intros HQ Hr. destruct p as [a|X e k]; cbn; [by apply HQ|].
  intros Hp w1 H1 HI. apply Hp; [|done]. by etrans.
Qed.

Lemma wp_mono {A} G i (p : prog E A) (Q Q' : W -> A -> Prop) w :
  (forall w' a, Q w' a -> Q' w' a) -> wp G i p Q w -> wp G i p Q' w.
Proof.
  intros HQ. revert w. induction p as [a|X e k IH]; cbn; intros w Hp; [by apply HQ|].
  intros w1 H1 HI. destruct (Hp w1 H1 HI) as [He Hk]. split; [done|]. eauto.
Qed.

Lemma wp_bind {A C} G i (p : prog E A) (f : A -> prog E C) Q w :
  wp G i p (fun w a => wp G i (f a) Q w) w -> wp G i (p ≫= f) Q w.
Proof.
  revert w. induction p as [a|X e k IH]; cbn; intros w Hp; [done|].
  intros w1 H1 HI. destruct (Hp w1 H1 HI) as [He Hk]. split; [done|]. eauto.
Qed.

(** ** Soundness *)

Context (G : J -> nat -> guarantee) (Q : J -> nat -> W -> B -> Prop).
Context (step_I : forall j i w X (e : E X) x w',
  I w -> G j i w X e -> perform i X e w x w' -> I w').
Context (step_R : forall j i i' w X (e : E X) x w',
  I w -> G j i w X e -> perform i X e w x w' -> i' <> i -> R i' w w').
Context (kill_I : forall i w, I w -> I (killed i w)).
Context (kill_R : forall i i' w, I w -> i' <> i -> R i' w (killed i w)).
Context (Q_stable : forall j i, stable i (Q j i)).
Context (handler_wp : forall j i w, I w -> wp (G j i) i (handler j) (Q j i) w).

Definition pool_ok (c : W * pool) : Prop :=
  I c.1 /\ forall i j p, c.2 !! i = Some (j, Some p) -> wp (G j i) i p (Q j i) c.1.

Lemma pool_step_ok c c' : pool_step c c' -> pool_ok c -> pool_ok c'.
Proof.
  intros [w ps j|w ps i j X e k x w' Hi Hx|w ps i j p Hi] [HI Hps]; cbn in *.
  - split; [done|]. intros i j' p [Hl|[_ Hl]]%lookup_app_Some; [by eapply Hps|].
    destruct (i - length ps) as [|n]; cbn in Hl; simplify_eq. by apply handler_wp.
  - pose proof (Hps _ _ _ Hi) as Hw. cbn in Hw.
    destruct (Hw w) as [He Hk]; [done|done|].
    assert (I w') as HI' by (by eapply step_I). split; [done|]. cbn.
    intros i' j' p Hl. destruct (decide (i' = i)) as [->|Hne].
    + rewrite list_lookup_insert_eq in Hl by (by eapply lookup_lt_Some). simplify_eq. by apply Hk.
    + rewrite list_lookup_insert_ne in Hl by done. eapply wp_rely; [apply Q_stable| |by eapply Hps].
      by eapply step_R.
  - split; [by apply kill_I|]. cbn. intros i' j' q Hl. destruct (decide (i' = i)) as [->|Hne].
    + rewrite list_lookup_insert_eq in Hl by (by eapply lookup_lt_Some). by simplify_eq.
    + rewrite list_lookup_insert_ne in Hl by done. eapply wp_rely; [apply Q_stable| |by eapply Hps].
      by apply kill_R.
Qed.

Lemma pool_sound w c : I w -> rtc pool_step (w, []) c -> pool_ok c.
Proof.
  intros HI Hs. eapply (rtc_preserves _ pool_ok); [|exact Hs|].
  - intros a b. apply pool_step_ok.
  - by split.
Qed.

(** A call a process is about to make is allowed, and an answer is as promised. *)
Lemma pending_allowed c i j X (e : E X) k :
  pool_ok c -> c.2 !! i = Some (j, Some (Vis e k)) -> G j i c.1 X e.
Proof. intros [HI Hp] Hi. by apply (Hp _ _ _ Hi). Qed.

Lemma finished_ok c i j b : pool_ok c -> c.2 !! i = Some (j, Some (Ret b)) -> Q j i c.1 b.
Proof. intros [HI Hp] Hi. exact (Hp _ _ _ Hi). Qed.
End Pool.

(** One call in a proof of [wp]: the world [w1] it is made in, its answer. *)
Ltac wp_call w1 Hr HI x w2 Hx HI2 :=
  cbn; intros w1 Hr HI; split; [try exact Logic.I|intros x w2 Hx HI2].

(** ** One process alone

    Running a program with a function that answers its calls. *)

Section Exec.
Context {E : Type -> Type} {W : Type} (answer : forall X, E X -> W -> X * W).

Fixpoint exec {A} (p : prog E A) (w : W) : A * W :=
  match p with
  | Ret a => (a, w)
  | Vis e k => let '(x, w') := answer _ e w in exec (k x) w'
  end.

Lemma exec_bind {A C} (p : prog E A) (f : A -> prog E C) w :
  exec (p ≫= f) w = let '(a, w') := exec p w in exec (f a) w'.
Proof.
  revert w. induction p as [a|X e k IH]; intros w; [done|]. cbn.
  destruct (answer X e w) as [x w']. apply IH.
Qed.

(** The first [n] calls of a program. *)
Fixpoint advance {A} (n : nat) (p : prog E A) (w : W) : prog E A * W :=
  match n, p with
  | S n, Vis e k => let '(x, w') := answer _ e w in advance n (k x) w'
  | _, _ => (p, w)
  end.

Lemma exec_advance {A} (p : prog E A) w : exists n, advance n p w = (Ret (exec p w).1, (exec p w).2).
Proof.
  revert w. induction p as [a|X e k IH]; intros w; [by exists 0|]. cbn.
  destruct (answer X e w) as [x w'] eqn:He. destruct (IH x w') as [n Hn]. exists (S n). cbn. by rewrite He.
Qed.

(** If the answers are possible, the run is one of the pool's. *)
Context (perform : nat -> forall X, E X -> W -> X -> W -> Prop) (killed : nat -> W -> W).
Context {J B : Type} (handler : J -> prog E B).
Context (i : nat) (possible : forall w X (e : E X), perform i X e w (answer X e w).1 (answer X e w).2).

Lemma advance_pool j n (p : prog E B) ps w : length ps = i ->
  rtc (pool_step perform killed handler) (w, ps ++ [(j, Some p)])
    ((advance n p w).2, ps ++ [(j, Some (advance n p w).1)]).
Proof.
  intros Hi. revert p w. induction n as [|n IH]; intros p w; [by destruct p|].
  destruct p as [b|X e k]; [done|]. cbn.
  pose proof (possible w X e) as He. destruct (answer X e w) as [x w']. cbn in He.
  eapply rtc_l; [|apply IH].
  assert (ps ++ [(j, Some (k x))] = <[i := (j, Some (k x))]> (ps ++ [(j, Some (Vis e k))])) as ->.
  { by rewrite insert_app_r_alt, Hi, Nat.sub_diag by lia. }
  eapply pool_call; [|exact He]. by rewrite lookup_app_r, Hi, Nat.sub_diag by lia.
Qed.

Lemma exec_pool j (p : prog E B) ps w : length ps = i ->
  rtc (pool_step perform killed handler) (w, ps ++ [(j, Some p)])
    ((exec p w).2, ps ++ [(j, Some (Ret (exec p w).1))]).
Proof.
  intros Hi. destruct (exec_advance p w) as [n Hn]. pose proof (advance_pool j n p ps w Hi) as H. by rewrite Hn in H.
Qed.

(** A job that arrives and runs to its end. *)
Lemma job_pool j ps w : length ps = i ->
  rtc (pool_step perform killed handler) (w, ps)
    ((exec (handler j) w).2, ps ++ [(j, Some (Ret (exec (handler j) w).1))]).
Proof. intros Hi. eapply rtc_l; [apply (pool_spawn perform killed handler w ps j)|by apply exec_pool]. Qed.
End Exec.

(** * Traces

    The complete runs of a program: the calls it made with their answers, in
    order, and what it returned.  A program is a finite tree, so every
    environment that answers its calls drives it to the end of such a run. *)

Section Traces.
Context {E : Type -> Type}.

Inductive event : Type :=
  | Event {X : Type} (e : E X) (x : X).

Fixpoint returns {A} (p : prog E A) (tr : list event) (a : A) : Prop :=
  match p with
  | Ret b => tr = [] /\ a = b
  | Vis e k => exists x rest, tr = Event e x :: rest /\ returns (k x) rest a
  end.

Lemma returns_bind {A B} (p : prog E A) (f : A -> prog E B) tr b :
  returns (p ≫= f) tr b <-> exists tr1 tr2 a, tr = tr1 ++ tr2 /\ returns p tr1 a /\ returns (f a) tr2 b.
Proof.
  revert tr. induction p as [a|X e k IH]; intros tr; cbn.
  - split; [by exists [], tr, a|]. by intros (tr1 & tr2 & a' & -> & [-> ->] & H).
  - split.
    + intros (x & rest & -> & H). apply IH in H as (tr1 & tr2 & a & -> & H1 & H2).
      exists (Event e x :: tr1), tr2, a. split_and!; [done| |done]. by exists x, tr1.
    + intros (tr1 & tr2 & a & -> & (x & rest & -> & H1) & H2). exists x, (rest ++ tr2).
      split; [done|]. apply IH. by exists rest, tr2, a.
Qed.

Lemma returns_call {X} (e : E X) tr x : returns (call e) tr x <-> tr = [Event e x].
Proof.
  unfold call. cbn. split; [|intros ->; by exists x, []].
  by intros (y & rest & -> & -> & <-).
Qed.

(** An answering function gives one run. *)
Section Answers.
Context {W : Type} (answer : forall X, E X -> W -> X * W).

(** The run and its result, computed together. *)
Fixpoint run_trace {A} (p : prog E A) (w : W) : list event * A :=
  match p with
  | Ret a => ([], a)
  | Vis e k =>
      let '(x, w') := answer _ e w in
      let '(tr, a) := run_trace (k x) w' in (Event e x :: tr, a)
  end.

Lemma run_trace_returns {A} (p : prog E A) w : returns p (run_trace p w).1 (run_trace p w).2.
Proof.
  revert w. induction p as [a|X e k IH]; intros w; cbn; [done|].
  destruct (answer X e w) as [x w']. specialize (IH x w'). destruct (run_trace (k x) w') as [tr a].
  by exists x, tr.
Qed.
End Answers.
End Traces.
Arguments event E : clear implicits.
