(* ===== verification/StateStore.v ===== *)
(** * Programs over the durable state store

    The control plane's handlers call [StateStore] (pkg/controlplane/state.go),
    a revisioned document store that other handlers and other replicas use at
    the same time, read the clock, draw random bytes and take a mutex.  These
    calls are a signature ([effect]) for the programs of Programs; their meaning
    is [perform], a relation on worlds that lets every call fail, and lets a
    write that took effect report a failure.

    The histories of the documents only grow ([later]); that is what a program
    relies on, and its guarantee says which writes it may make
    ([store_sound]). *)

From stdpp Require Import gmap strings list relations.
From Stdlib Require Import ZArith Lia.
From S2P Require Import Prelude GoString GoTime GoSha256 Programs.

#[local] Open Scope Z_scope.

(** [transactionalstate.ErrConflict] and [ErrNotFound] *)
Definition ErrConflict : goerror := errors_New "transactional state revision conflict".
Definition ErrNotFound : goerror := errors_New "transactional state document not found".

Lemma errors_Is_refl err : errors_Is err err = true.
Proof. destruct err; cbn; by rewrite bool_decide_eq_true_2. Qed.

(** The other errors of [Store.Load] and [Store.Save]; a failure to save can
    hide a write that took effect when its answer is lost or does not parse. *)
Definition load_errors : list goerror := [
  errors_New "transactional state request is invalid";
  errors_New "load transactional state document";
  errors_New "stored transactional state document is invalid"].

Definition lost_errors : list goerror := [
  errors_New "save transactional state document";
  errors_New "saved transactional state document is invalid"].

Definition save_errors : list goerror := [
  errors_New "transactional state save request is invalid";
  errors_New "transactional state document is invalid";
  errors_New "save transactional state document"].

(** [transactionalstate.Document] over the type of document texts. *)
Record Document {V : Type} := {
  doc_Scope : string; doc_Key : string; doc_Revision : Z; doc_Value : V;
  doc_UpdatedAt : Time
}.
Arguments Document V : clear implicits.

Definition Key_ : Type := string * string.

(** ** Calls and programs

    [V] is the type of document texts, [M] the state a mutex guards. *)

Inductive effect (V M : Type) : Type -> Type :=
  | Ready : effect V M (option goerror)
  | Load (scope key : string) : effect V M (result (Document V))
  | Save (scope key : string) (expectedRevision : Z) (value : V)
      : effect V M (result (Document V))
  | Now : effect V M Time
  | Rand (n : nat) : effect V M (result (list Z))
  | Locked (process : nat) (body : M -> M * bool) : effect V M bool.
Arguments Ready {V M}.
Arguments Load {V M} scope key.
Arguments Save {V M} scope key expectedRevision value.
Arguments Now {V M}.
Arguments Rand {V M} n.
Arguments Locked {V M} process body.

(** A program over the store with an answer of type [A]. *)
Abbreviation store V M A := (prog (effect V M) A).

(** The instants the clock may show.  Theorems hold for every [Clock]; one that
    confines the readings to an interval is a run within that interval. *)
Class Clock := clock_reads : Time -> Prop.

(** ** Worlds

    The store keeps every value a document had: the revision is their number,
    the current value is the last one.  [loaded] and [saved] are the answers
    of [Store.Load] and [Store.Save] (pkg/transactionalstate/store.go): a save
    inserts the first revision or updates the expected one, and any call can
    fail. *)

Record world {V M : Type} := {
  w_documents : gmap Key_ (list V);
  w_guarded : gmap nat M
}.
Arguments world V M : clear implicits.

Section Semantics.
Context {V M : Type}.

(** What the store makes of a text it is given, if it accepts it, and the state
    of a mutex no one locked yet. *)
Context (canonicalJSON : V -> option V) (initial : M) {clk : Clock}.

Implicit Types w : world V M.

Definition history w (key : Key_) : list V := default [] (w_documents w !! key).

Definition append_value w (key : Key_) (value : V) : world V M :=
  {| w_documents := <[key := history w key ++ [value]]> (w_documents w);
     w_guarded := w_guarded w |}.

Definition document (scope key : string) (values : list V) (value : V) (at_ : Time)
    : Document V :=
  {| doc_Scope := scope; doc_Key := key; doc_Revision := Z.of_nat (length values);
     doc_Value := value; doc_UpdatedAt := at_ |}.

Inductive loaded w (scope key : string) : result (Document V) -> Prop :=
  | load_found values value at_ :
      history w (scope, key) = values -> last values = Some value ->
      loaded w scope key (Ok (document scope key values value at_))
  | load_absent :
      history w (scope, key) = [] -> loaded w scope key (Err ErrNotFound)
  | load_failed err :
      err ∈ load_errors -> loaded w scope key (Err err).

Inductive saved w (scope key : string) (expected : Z) (value : V)
    : result (Document V) -> world V M -> Prop :=
  | save_done text at_ :
      Z.of_nat (length (history w (scope, key))) = expected ->
      canonicalJSON value = Some text ->
      saved w scope key expected value
        (Ok (document scope key (history w (scope, key) ++ [text]) text at_))
        (append_value w (scope, key) text)
  | save_lost text err :
      Z.of_nat (length (history w (scope, key))) = expected ->
      canonicalJSON value = Some text -> err ∈ lost_errors ->
      saved w scope key expected value (Err err) (append_value w (scope, key) text)
  | save_conflict :
      Z.of_nat (length (history w (scope, key))) <> expected ->
      saved w scope key expected value (Err ErrConflict) w
  | save_failed err :
      err ∈ save_errors ->
      saved w scope key expected value (Err err) w.

Definition drawn (n : nat) (r : result (list Z)) : Prop :=
  forall bytes, r = Ok bytes -> length bytes = n /\ Forall is_byte bytes.

Definition lock w (process : nat) (body : M -> M * bool) : world V M * bool :=
  let '(m, b) := body (default initial (w_guarded w !! process)) in
  ({| w_documents := w_documents w; w_guarded := <[process := m]> (w_guarded w) |}, b).

Definition perform {X} (e : effect V M X) w : X -> world V M -> Prop :=
  match e in effect _ _ X return X -> world V M -> Prop with
  | Ready => fun _ w' => w' = w
  | Load scope key => fun r w' => w' = w /\ loaded w scope key r
  | Save scope key expected value => saved w scope key expected value
  | Now => fun t w' => w' = w /\ clock_reads t
  | Rand n => fun r w' => w' = w /\ drawn n r
  | Locked process body => fun b w' => (w', b) = lock w process body
  end.

(** ** Worlds only grow *)

Definition later w w' : Prop := forall key, history w key `prefix_of` history w' key.

#[export] Instance later_preorder : PreOrder later.
Proof.
  split; [by intros w key|]. intros w1 w2 w3 H1 H2 key. by etrans; [apply H1|apply H2].
Qed.

Lemma history_append w key value key' :
  history (append_value w key value) key' =
  if decide (key = key') then history w key ++ [value] else history w key'.
Proof.
  unfold history, append_value. cbn. case_decide as Hk; [subst|].
  - by rewrite lookup_insert_eq.
  - by rewrite lookup_insert_ne.
Qed.

Lemma later_append w key value : later w (append_value w key value).
Proof.
  intros key'. rewrite history_append. case_decide as Hk; [subst|done]. by apply prefix_app_r.
Qed.

Lemma history_lock w process body key : history (lock w process body).1 key = history w key.
Proof. unfold lock. by destruct (body _). Qed.

Lemma perform_later {X} (e : effect V M X) w x w' : perform e w x w' -> later w w'.
Proof.
  destruct e; cbn; try (by intros ->); try (by intros [-> _]).
  - by intros []; try apply later_append.
  - intros H key. rewrite <- (history_lock w process body), <- H. done.
Qed.

(** ** The faultless store

    Answers for programs that run alone: every call succeeds, the clock stands
    still at [clock] and [random n] is drawn. *)

Context (clock : Time) (random : nat -> list Z).

Definition answer (X : Type) (e : effect V M X) w : X * world V M :=
  match e in effect _ _ X return X * world V M with
  | Ready => (None, w)
  | Load scope key =>
      (match last (history w (scope, key)) with
       | Some value => Ok (document scope key (history w (scope, key)) value clock)
       | None => Err ErrNotFound
       end, w)
  | Save scope key expected value =>
      if negb (Z.of_nat (length (history w (scope, key))) =? expected)
      then (Err ErrConflict, w)
      else match canonicalJSON value with
      | None => (Err (errors_New "transactional state document is invalid"), w)
      | Some text =>
          (Ok (document scope key (history w (scope, key) ++ [text]) text clock),
           append_value w (scope, key) text)
      end
  | Now => (clock, w)
  | Rand n => (Ok (random n), w)
  | Locked process body => let '(w', b) := lock w process body in (b, w')
  end.

Lemma answer_perform X (e : effect V M X) w :
  clock_reads clock -> (forall n, drawn n (Ok (random n))) ->
  perform e w (answer X e w).1 (answer X e w).2.
Proof.
  intros Ht Hr. destruct e; cbn; try done.
  - split; [done|]. destruct (last (history w (scope, key))) as [v|] eqn:Hl.
    + by apply load_found.
    + apply load_absent. by apply last_None in Hl.
  - destruct (_ =? _) eqn:Hn; cbn [negb]; go_simp; [|by apply save_conflict].
    destruct (canonicalJSON value) eqn:Hc; [by apply save_done|].
    apply save_failed. unfold save_errors. by set_solver.
  - by destruct (lock w process body).
Qed.

End Semantics.

(** ** Writes under an invariant

    [store_guarantee] says which writes a program may make. *)

Section Logic.
Context {V M : Type} (canonicalJSON : V -> option V) (initial : M) {clk : Clock}.
Implicit Types w : world V M.

Definition store_guarantee : Type := world V M -> Key_ -> Z -> V -> Prop.

Definition allows (G : store_guarantee) w (X : Type) (e : effect V M X) : Prop :=
  match e with
  | Save scope key expected value => G w (scope, key) expected value
  | _ => True
  end.

(** The calls mean the same whichever process makes them. *)
Definition store_perform (i : nat) (X : Type) (e : effect V M X) w : X -> world V M -> Prop :=
  perform canonicalJSON initial e w.

Definition store_rely (i : nat) : world V M -> world V M -> Prop := later.

#[export] Instance store_rely_preorder i : PreOrder (store_rely i) := later_preorder.

Context (I : world V M -> Prop).

#[local] Abbreviation store_wp G i := (wp store_perform store_rely I (allows G) i).

Definition store_stable {A} (Q : world V M -> A -> Prop) : Prop :=
  forall w w' a, later w w' -> Q w a -> Q w' a.

(** What a program ends with may use that the world grew meanwhile. *)
Lemma store_wp_mono {A} G i (p : store V M A) (Q Q' : world V M -> A -> Prop) w :
  (forall w' a, later w w' -> Q w' a -> Q' w' a) -> store_wp G i p Q w -> store_wp G i p Q' w.
Proof.
  revert w. induction p as [a|X e k IH]; cbn; intros w HQ Hp; [by apply HQ|].
  intros w1 Hl HI. destruct (Hp w1 Hl HI) as [He Hk]. split; [done|].
  intros x w2 Hx HI2. pose proof (perform_later _ _ _ _ _ _ Hx) as Hl2.
  apply IH; [|by apply Hk]. intros w' a Hl'. apply HQ. by etrans; [|etrans].
Qed.

(** A program that writes nothing meets any guarantee. *)
Fixpoint silent {A} (p : store V M A) : Prop :=
  match p with
  | Ret _ => True
  | Vis e k =>
      match e with Save _ _ _ _ => False | _ => True end /\ forall x, silent (k x)
  end.

Lemma silent_wp {A} G i (p : store V M A) w w0 :
  I w -> later w0 w -> silent p -> store_wp G i p (fun w' _ => later w0 w' /\ I w') w.
Proof.
  revert w. induction p as [a|X e k IH]; cbn; [done|]. intros w HI Hl0 [He Hk] w1 Hl1 HI1. split.
  - by destruct e.
  - intros x w2 Hx HI2. apply IH; [done| |done]. etrans; [done|].
    etrans; [done|]. by eapply perform_later.
Qed.

Lemma wp_silent_bind {A B} G i (p : store V M A) (f : A -> store V M B) Q w :
  I w -> silent p -> (forall a w', later w w' -> I w' -> store_wp G i (f a) Q w') ->
  store_wp G i (p ≫= f) Q w.
Proof.
  intros HI Hp Hf. apply wp_bind. eapply store_wp_mono; [|by apply (silent_wp G i p w w)].
  intros w' a _ [Hl HI']. by apply Hf.
Qed.

(** Reading the clock. *)
Lemma wp_now_bind {B} G i (f : Time -> store V M B) Q w :
  (forall t w', later w w' -> I w' -> clock_reads t -> store_wp G i (f t) Q w') ->
  store_wp G i (call Now ≫= f) Q w.
Proof. intros Hf w1 Hl HI. split; [done|]. intros t w2 [-> Ht] _. by apply Hf. Qed.

Lemma silent_bind {A B} (p : store V M A) (f : A -> store V M B) :
  silent p -> (forall a, silent (f a)) -> silent (p ≫= f).
Proof. intros Hp Hf. induction p; cbn in *; [done|]. naive_solver. Qed.

(** ** Interleavings

    Programs, each with the job it does, take their calls in any order and may
    die between two calls, which leaves the world as it is. *)

Context {R B : Type} (handler : R -> store V M B).

Definition store_step := pool_step store_perform (fun _ w => w) handler.

Context (G : R -> store_guarantee) (Q : R -> world V M -> B -> Prop).
Context (I_locked : forall w process body, I w -> I (lock initial w process body).1).
Context (I_append : forall w r key expected value text, I w -> G r w key expected value ->
  Z.of_nat (length (history w key)) = expected -> canonicalJSON value = Some text ->
  I (append_value w key text)).
Context (Q_stable : forall r, store_stable (Q r)).
Context (handler_wp : forall r i w, I w -> store_wp (G r) i (handler r) (Q r) w).

Lemma perform_I r w X (e : effect V M X) x w' :
  I w -> allows (G r) w X e -> perform canonicalJSON initial e w x w' -> I w'.
Proof.
  intros HI HG. destruct e; cbn in *; try (by intros ->); try (by intros [-> _]).
  - intros []; eauto.
  - intros H. pose proof (I_locked w process body HI) as HI'. by rewrite <- H in HI'.
Qed.

(** Whatever the interleaving, the invariant holds, the next write of every
    program is allowed, and every finished program has its result. *)
Lemma store_sound w0 w pool :
  I w0 -> rtc store_step (w0, []) (w, pool) ->
  I w /\
  (forall i r scope key expected value k,
     pool !! i = Some (r, Some (Vis (Save scope key expected value) k)) ->
     G r w (scope, key) expected value) /\
  (forall i r b, pool !! i = Some (r, Some (Ret b)) -> Q r w b).
Proof.
  intros HI Hr.
  assert (pool_ok store_perform store_rely I (fun r _ => allows (G r)) (fun r _ => Q r) (w, pool)) as Hok.
  { eapply (pool_sound store_perform (fun _ w => w) handler); [..|exact HI|exact Hr]; try done.
    - apply _.
    - intros r i w1 X e x w2. apply perform_I.
    - intros r i i' w1 X e x w2 _ _ Hx _. by eapply perform_later.
    - intros r i. exact (Q_stable r). }
  split; [apply Hok|]. split.
  - intros i r scope key expected value k Hi. exact (pending_allowed _ _ _ _ _ _ _ _ _ _ _ Hok Hi).
  - intros i r b Hi. exact (finished_ok _ _ _ _ _ _ _ _ _ Hok Hi).
Qed.
End Logic.

(** One call in a proof of [wp]: the world [w1] it is made in, its answer. *)
Ltac wp_step w1 Hl HI x w2 Hx HI2 :=
  cbn; intros w1 Hl HI; split; [try exact Logic.I|intros x w2 Hx HI2].
