(* ===== verification/GoHttp.v ===== *)
(** * Go's [net/http] requests, responses and forms

    The part of [http.Request] and [http.ResponseWriter] the control plane
    uses.  Header names are in canonical form; the cookies are the pairs
    [request.Cookies] parses from the header.  A response is what was written:
    status, headers, cookies and body. *)

From stdpp Require Import gmap strings list.
From Stdlib Require Import ZArith Ascii Lia.
From S2P Require Import Prelude GoString GoTime IdentitySession.

Record Request := {
  r_Method : string;
  r_Path : string;
  r_RawQuery : string;
  r_Fragment : string;
  r_Host : string;
  r_Header : gmap string (list string);
  r_Cookies : list (string * string);
  r_Body : string
}.

Definition Header_Values (request : Request) (name : string) : list string :=
  default [] (r_Header request !! name).

Definition Header_Get (request : Request) (name : string) : string :=
  default "" (head (Header_Values request name)).

Definition MethodGet : string := "GET".
Definition MethodPost : string := "POST".

Definition StatusOK : Z := 200.
Definition StatusSeeOther : Z := 303.
Definition StatusBadRequest : Z := 400.
Definition StatusUnauthorized : Z := 401.
Definition StatusForbidden : Z := 403.
Definition StatusNotFound : Z := 404.
Definition StatusMethodNotAllowed : Z := 405.
Definition StatusTooManyRequests : Z := 429.
Definition StatusServiceUnavailable : Z := 503.

(** ** URL-encoded forms *)

(** [strings.Cut] at a character. *)
Fixpoint cut (sep : ascii) (s : string) : string * string :=
  match s with
  | EmptyString => (EmptyString, EmptyString)
  | String c rest =>
      if Ascii.eqb c sep then (EmptyString, rest)
      else let '(before, after) := cut sep rest in (String c before, after)
  end.

Definition unhex (c : ascii) : option nat :=
  if is_digit c then Some (code c - 48)
  else if in_range 97 102 c then Some (code c - 87)
  else if in_range 65 70 c then Some (code c - 55)
  else None.

(** [url.QueryUnescape] *)
Fixpoint QueryUnescape (s : string) : option string :=
  match s with
  | EmptyString => Some EmptyString
  | String c rest =>
      if is_char 37 c then
        match rest with
        | String h (String l rest) =>
            h ← unhex h; l ← unhex l; s ← QueryUnescape rest;
            Some (String (ascii_of_nat (16 * h + l)) s)
        | _ => None
        end
      else s ← QueryUnescape rest;
           Some (String (if is_char 43 c then " "%char else c) s)
  end.

Definition Values : Type := gmap string (list string).

Definition Values_add (values : Values) (key value : string) : Values :=
  <[key := default [] (values !! key) ++ [value]]> values.

(** The next part of a query, a pair or nothing, and the rest; no result when the
    part is malformed. *)
Definition next_pair (query : string) : option (option (string * string) * string) :=
  let '(key, query) := cut "&"%char query in
  if Contains key ";" then None
  else if key == "" then Some (None, query)
  else
  let '(key, value) := cut "="%char key in
  key ← QueryUnescape key; value ← QueryUnescape value;
  Some (Some (key, value), query).

(** [url.ParseQuery]: no result when any part of the query is malformed. *)
Fixpoint ParseQuery_fuel (fuel : nat) (query : string) (values : Values) : option Values :=
  match fuel with
  | O => None
  | S fuel =>
      if query == "" then Some values
      else match next_pair query with
      | None => None
      | Some (None, rest) => ParseQuery_fuel fuel rest values
      | Some (Some (key, value), rest) =>
          ParseQuery_fuel fuel rest (Values_add values key value)
      end
  end.

(** Every part takes at least one character of the query. *)
Definition ParseQuery (query : string) : option Values :=
  ParseQuery_fuel (S (len query)) query ∅.

(** [url.URL] with its derived parts, and the parsers of [net] and [net/url]. *)
Record URL := {
  url_Scheme : string; url_Opaque : string; url_HasUser : bool; url_Host : string;
  url_Hostname : string; url_Port : string; url_Path : string; url_RawQuery : string;
  url_Fragment : string; url_String : string
}.

Class NetParsers := {
  url_Parse : string -> option URL;
  net_SplitHostPort : string -> option (string * string);
  net_ParseIP : string -> bool
}.

(** [request.ParseForm] of a POST request with an URL-encoded body behind
    [http.MaxBytesReader]. *)
Definition ParseForm (request : Request) (maxBytes : nat) : option Values :=
  if (maxBytes <? len (r_Body request))%nat then None else ParseQuery (r_Body request).

Definition Values_Get (values : Values) (key : string) : string :=
  default "" (head (default [] (values !! key))).

Lemma cut_length sep s : (len (cut sep s).2 <= len s)%nat /\
  (s <> "" -> len (cut sep s).2 < len s)%nat.
Proof.
  unfold len. induction s as [|c s [IH1 IH2]]; cbn; [by split|].
  destruct (Ascii.eqb c sep); cbn; [by split; [|intros _]; lia|].
  destruct (cut sep s) as [before after]; cbn in *. split; [|intros _]; lia.
Qed.

Lemma next_pair_rest query pair rest :
  query <> "" -> next_pair query = Some (pair, rest) -> (len rest < len query)%nat.
Proof.
  intros Hne H. pose proof (proj2 (cut_length "&"%char query) Hne) as Hc.
  unfold next_pair in H. destruct (cut "&"%char query) as [key after].
  destruct (Contains key ";"); [done|]. destruct (key == ""); [by simplify_eq|].
  destruct (cut "="%char key) as [k v].
  destruct (QueryUnescape k), (QueryUnescape v); cbn in *; by simplify_eq.
Qed.

(** The fuel is enough: more changes nothing. *)
Lemma ParseQuery_fuel_enough fuel query values :
  (len query < fuel)%nat ->
  ParseQuery_fuel fuel query values = ParseQuery_fuel (S fuel) query values.
Proof.
  revert query values. induction fuel as [|fuel IH]; intros query values Hf; [lia|].
  cbn [ParseQuery_fuel] in *. destruct (query == "") eqn:Hq; [done|]. go_simp.
  destruct (next_pair query) as [[[[key value]|] rest]|] eqn:Hn; [..|done];
    apply next_pair_rest in Hn; try done; apply IH; lia.
Qed.

Example ParseQuery_samples :
  ParseQuery "token=ab%2Bc+d&x=1&x=2" = Some {[ "token" := ["ab+c d"]; "x" := ["1"; "2"] ]} /\
  ParseQuery "a;b=1" = None /\ ParseQuery "a=%zz" = None /\ ParseQuery "&&a" = Some {["a" := [""]]}.
Proof. repeat split; vm_compute; reflexivity. Qed.
