(* ===== verification/ControlPlane.v ===== *)
(** * The control plane server

    [pkg/controlplane]: the configuration, the durable installation binding and
    operator session (state.go), and the HTTP handlers (server.go, portal.go)
    as programs over the state store.  The text of a stored document is
    abstract: [JsonCodec] is what [json.Marshal] and [strictjson.DecodeExact]
    do for a type, [NetParsers] what the parsers of [net] and [net/url] do.
    Page templates and the style sheet are not modelled; a rendered page is its
    view. *)

From stdpp Require Import gmap strings list.
From Stdlib Require Import ZArith Ascii Lia.
From S2P Require Import Prelude GoString GoTime GoPath GoSha256 GoCrypto IdentitySession GoHttp Programs StateStore.

#[local] Open Scope Z_scope.

(** ** Configuration (config.go) *)

Definition APIVersion : string := "cloudring.org/v1alpha1".
Definition DevelopmentProfile : string := "development".
Definition RuntimeKind : string := "CloudRINGDevelopmentRuntime".

Definition installationPattern : string -> bool :=
  match_first_rest is_lower (fun c => is_lower c || is_digit c || is_char 45 c) 2 62.
Definition rolePattern : string -> bool :=
  match_first_rest is_lower (fun c => is_lower c || is_digit c || is_char 95 c) 2 62.
Definition operatorTokenPattern (s : string) : bool :=
  (len s =? 64)%nat && all_chars is_hex_lower s.

Definition errConfiguration : goerror := errors_New "control plane configuration is invalid".

Record Config := {
  cfg_APIVersion : string; cfg_Kind : string; cfg_Profile : string;
  cfg_InstallationID : string; cfg_PublicOrigin : string; cfg_ListenAddress : string;
  cfg_TLSCertificateFile : string; cfg_TLSPrivateKeyFile : string;
  cfg_DatabaseDSNFile : string; cfg_DevelopmentOperatorTokenFile : string;
  cfg_MigrationOwnerRole : string; cfg_ApplicationRole : string
}.

Definition validIdentity (version kind expectedKind profile installationID : string) : bool :=
  (version == APIVersion) && (kind == expectedKind) && (profile == DevelopmentProfile) &&
  installationPattern installationID.

Definition validRoles (owner application : string) : bool :=
  rolePattern owner && rolePattern application && (owner != application).

Definition validFilePath (path : string) : bool :=
  path_IsAbs path && (path_Clean path == path) &&
  negb (any_char (fun c => is_char 0 c || is_char 13 c || is_char 10 c) path).

(** [strconv.Atoi] of an unsigned decimal that fits; a sign or anything else
    would not survive the comparison with [strconv.Itoa]. *)
Fixpoint digits_value (s : string) (acc : Z) : option Z :=
  match s with
  | EmptyString => Some acc
  | String c rest =>
      if is_digit c then
        let acc := 10 * acc + (Z.of_nat (code c) - 48) in
        if 65535 <? acc then None else digits_value rest acc
      else None
  end.

Definition validPort (value : string) : bool :=
  match digits_value value 0 with
  | Some port => (0 <? port) && (port <=? 65535) && (decimal (Z.to_nat port) == value)
  | None => false
  end.

Definition Validate `{NetParsers} (config : Config) : option goerror :=
  if negb (validIdentity (cfg_APIVersion config) (cfg_Kind config) RuntimeKind
             (cfg_Profile config) (cfg_InstallationID config)) ||
     negb (validRoles (cfg_MigrationOwnerRole config) (cfg_ApplicationRole config))
  then Some errConfiguration
  else match url_Parse (cfg_PublicOrigin config) with
  | None => Some errConfiguration
  | Some origin =>
  if (url_Scheme origin != "https") || (url_Hostname origin == "") || url_HasUser origin ||
     (url_Path origin != "") || (url_RawQuery origin != "") || (url_Fragment origin != "") ||
     (url_Opaque origin != "") ||
     any_char (fun c => is_char 13 c || is_char 10 c || is_char 92 c || is_char 37 c)
       (url_Host origin) ||
     (url_String origin != cfg_PublicOrigin config)
  then Some errConfiguration
  else if (url_Port origin != "") && negb (validPort (url_Port origin))
  then Some errConfiguration
  else match net_SplitHostPort (cfg_ListenAddress config) with
  | None => Some errConfiguration
  | Some (host, port) =>
  if negb (validPort port) || ((host != "") && negb (net_ParseIP host))
  then Some errConfiguration
  else first_error (fun path => if validFilePath path then None else Some errConfiguration)
    [cfg_TLSCertificateFile config; cfg_TLSPrivateKeyFile config;
     cfg_DatabaseDSNFile config; cfg_DevelopmentOperatorTokenFile config]
  end end.

(** ** Durable state (state.go) *)

Definition stateScope : string := "controlplane".
Definition installationKey : string := "installation".
Definition sessionKey : string := "development-operator-session".

Definition errState : goerror := errors_New "control plane durable state is unavailable".
Definition errBinding : goerror :=
  errors_New "control plane installation identity does not match durable state".
Definition errSessionInvalid : goerror := errors_New "session is invalid".

Record Product := { product_ID : string }.

(** A nil slice is [None]. *)
Record installationState := {
  ist_SchemaVersion : Z; ist_InstallationID : string; ist_Profile : string;
  ist_OperatorID : string; ist_OperatorTokenSHA256 : string; ist_CreatedAt : Time;
  ist_Products : option (list Product)
}.

Record sessionState := {
  ss_SchemaVersion : Z; ss_InstallationID : string; ss_OperatorID : string;
  ss_TokenSHA256 : string; ss_CreatedAt : Time; ss_ExpiresAt : Time; ss_Revoked : bool
}.

(** [json.Marshal] and [strictjson.DecodeExact] for a type, over the type of
    document texts, and what the store makes of a text. *)
Class JsonCodec (V A : Type) := {
  json_Marshal : A -> result V;
  DecodeExact : V -> result A
}.

Class JsonText (V : Type) := canonicalJSON : V -> option V.
#[global] Arguments canonicalJSON {V _} value : simpl never, rename.

Record LoginLimiter := { ll_Window : Time; ll_Attempts : Z }.
Definition new_limiter : LoginLimiter := {| ll_Window := time_zero; ll_Attempts := 0 |}.

Definition tokenHash (token : string) : string := sha256_hex token.

Definition equalHash (first second : string) : bool :=
  (len first =? 64)%nat && (len second =? 64)%nat && (first == second).

Definition sessionLifetime : Duration := 30 * Minute.
Definition operatorID (installationID : string) : string := "dev-operator:" +:+ installationID.

Record BuildInfo := {
  build_GoVersion : string; build_SourceRevision : string; build_SourceModified : bool
}.

(** The process stands for the memory the login mutex guards. *)
Record Server := {
  srv_config : Config; srv_operatorToken : string; srv_originHost : string;
  srv_build : BuildInfo; srv_csrf : CSRFManager; srv_process : nat
}.

Section State.
Context {V : Type} `{!JsonCodec V installationState, !JsonCodec V sessionState}.
Let P : Type -> Type := prog (effect V LoginLimiter).

Definition validateInstallation (document : Document V) (installationID operatorToken : string)
    : result installationState :=
  match DecodeExact (A := installationState) (doc_Value document) with
  | Err _ => Err errBinding
  | Ok state =>
      if negb (ist_SchemaVersion state =? 1) || (doc_Revision document <? 1) ||
         (ist_InstallationID state != installationID) ||
         (ist_Profile state != DevelopmentProfile) ||
         (ist_OperatorID state != operatorID installationID) ||
         negb (equalHash (ist_OperatorTokenSHA256 state) (tokenHash operatorToken)) ||
         IsZero (ist_CreatedAt state) ||
         match ist_Products state with None => true | Some products => negb (length products =? 0)%nat end
      then Err errBinding
      else Ok state
  end.

Definition initial_installation (installationID operatorToken : string) (now : Time)
    : installationState :=
  {| ist_SchemaVersion := 1; ist_InstallationID := installationID;
     ist_Profile := DevelopmentProfile; ist_OperatorID := operatorID installationID;
     ist_OperatorTokenSHA256 := tokenHash operatorToken; ist_CreatedAt := now;
     ist_Products := Some [] |}.

Definition bootstrap (installationID operatorToken : string) (now : Time)
    : P (result installationState) :=
  unready ← call Ready;
  match unready with
  | Some _ => Ret (Err errState)
  | None =>
  first ← call (Load stateScope installationKey);
  let resolve (r : result (Document V)) : P (result installationState) :=
    match r with
    | Err _ => Ret (Err errState)
    | Ok document => Ret (validateInstallation document installationID operatorToken)
    end in
  match first with
  | Err err =>
      if errors_Is err ErrNotFound then
        match json_Marshal (initial_installation installationID operatorToken now) with
        | Err _ => Ret (Err errState)
        | Ok body =>
            created ← call (Save stateScope installationKey 0 body);
            match created with
            | Err _ => again ← call (Load stateScope installationKey); resolve again
            | Ok _ => resolve created
            end
        end
      else resolve first
  | Ok _ => resolve first
  end
  end.

Definition loadInstallation (server : Server) : P (result installationState) :=
  loaded ← call (Load stateScope installationKey);
  match loaded with
  | Err _ => Ret (Err errState)
  | Ok document =>
      Ret (validateInstallation document (cfg_InstallationID (srv_config server))
             (srv_operatorToken server))
  end.

Definition new_session (server : Server) (sessionToken : string) (now : Time) : sessionState :=
  {| ss_SchemaVersion := 1; ss_InstallationID := cfg_InstallationID (srv_config server);
     ss_OperatorID := operatorID (cfg_InstallationID (srv_config server));
     ss_TokenSHA256 := tokenHash sessionToken; ss_CreatedAt := now;
     ss_ExpiresAt := time_Add now sessionLifetime; ss_Revoked := false |}.

(** The readback holds the session that was to be written. *)
Definition confirmed (state : sessionState) (readback : result (Document V)) : bool :=
  match readback with
  | Err _ => false
  | Ok document =>
      match DecodeExact (A := sessionState) (doc_Value document) with
      | Err _ => false
      | Ok observed => equalHash (ss_TokenSHA256 observed) (ss_TokenSHA256 state)
      end
  end.

(** The end of an iteration, from the failed save on. *)
Definition confirm_session (retry : P (result string)) (sessionToken : string)
    (state : sessionState) (err : goerror) : P (result string) :=
  readback ← call (Load stateScope sessionKey);
  if confirmed state readback then Ret (Ok sessionToken)
  else if negb (errors_Is err ErrConflict) then Ret (Err errState)
  else retry.

Definition save_session (retry : P (result string)) (sessionToken : string)
    (state : sessionState) (body : V) (revision : Z) : P (result string) :=
  stored ← call (Save stateScope sessionKey revision body);
  match stored with
  | Ok _ => Ret (Ok sessionToken)
  | Err err => confirm_session retry sessionToken state err
  end.

(** The body of [for range 3], tried at most [n] times. *)
Fixpoint create_attempts (n : nat) (sessionToken : string) (state : sessionState) (body : V)
    : P (result string) :=
  match n with
  | O => Ret (Err errState)
  | S n =>
      let retry := create_attempts n sessionToken state body in
      document ← call (Load stateScope sessionKey);
      match document with
      | Err loadErr =>
          if negb (errors_Is loadErr ErrNotFound) then Ret (Err errState)
          else save_session retry sessionToken state body 0
      | Ok document => save_session retry sessionToken state body (doc_Revision document)
      end
  end.

Definition createSession (server : Server) (now : Time) : P (result string) :=
  drawn ← call (Rand 32);
  match drawn with
  | Err _ => Ret (Err errState)
  | Ok tokenBytes =>
      let sessionToken := EncodeToString tokenBytes in
      let state := new_session server sessionToken now in
      match json_Marshal state with
      | Err _ => Ret (Err errState)
      | Ok body => create_attempts 3 sessionToken state body
      end
  end.

(** The test of [loadSession] on the document it read. *)
Definition session_valid (server : Server) (state : sessionState) (revision : Z)
    (token : string) (now : Time) : bool :=
  (ss_SchemaVersion state =? 1) && (1 <=? revision) && negb (ss_Revoked state) &&
  (ss_InstallationID state == cfg_InstallationID (srv_config server)) &&
  (ss_OperatorID state == operatorID (cfg_InstallationID (srv_config server))) &&
  equalHash (ss_TokenSHA256 state) (tokenHash token) &&
  negb (After (ss_CreatedAt state) now) && After (ss_ExpiresAt state) now &&
  (time_Sub (ss_ExpiresAt state) (ss_CreatedAt state) =? sessionLifetime).

Definition loadSession (server : Server) (token : string) (now : Time)
    : P (result (Document V)) :=
  if negb (operatorTokenPattern token) then Ret (Err errSessionInvalid)
  else
  loaded ← call (Load stateScope sessionKey);
  match loaded with
  | Err err => Ret (Err err)
  | Ok document =>
      match DecodeExact (A := sessionState) (doc_Value document) with
      | Err _ => Ret (Err errSessionInvalid)
      | Ok state =>
          if session_valid server state (doc_Revision document) token now
          then Ret (Ok document) else Ret (Err errSessionInvalid)
      end
  end.

Definition revoked (state : sessionState) : sessionState :=
  {| ss_SchemaVersion := ss_SchemaVersion state; ss_InstallationID := ss_InstallationID state;
     ss_OperatorID := ss_OperatorID state; ss_TokenSHA256 := ss_TokenSHA256 state;
     ss_CreatedAt := ss_CreatedAt state; ss_ExpiresAt := ss_ExpiresAt state;
     ss_Revoked := true |}.

Definition revokeSession (server : Server) (document : Document V) (token : string)
    : P (option goerror) :=
  match DecodeExact (A := sessionState) (doc_Value document) with
  | Err _ => Ret (Some errState)
  | Ok state =>
  match json_Marshal (revoked state) with
  | Err _ => Ret (Some errState)
  | Ok body =>
      stored ← call (Save stateScope sessionKey (doc_Revision document) body);
      match stored with
      | Ok _ => Ret None
      | Err _ =>
          now ← call Now;
          readback ← loadSession server token now;
          match readback with
          | Err err =>
              if errors_Is err errSessionInvalid || errors_Is err ErrNotFound
              then Ret None else Ret (Some errState)
          | Ok _ => Ret (Some errState)
          end
      end
  end end.

(** ** Responses (server.go, portal.go) *)

Definition sessionCookieName : string := "__Host-cloudring-dev-session".
Definition maximumFormBytes : nat := 1024.

Record ComponentStatus := { cs_Database : string }.

Record ProviderStatus := {
  ps_APIVersion : string; ps_InstallationID : string; ps_Profile : string;
  ps_Status : string; ps_OperatorID : string; ps_CreatedAt : Time;
  ps_Products : option (list Product); ps_Components : ComponentStatus; ps_Build : BuildInfo
}.

Record portalView := {
  pv_Provider : option ProviderStatus; pv_CSRF : string;
  pv_AuthenticationFailed : bool; pv_Unavailable : bool
}.

Inductive body :=
  | JSON_error (code : string)
  | JSON_status (status : string)
  | JSON_provider (status : ProviderStatus)
  | Portal (view : portalView)
  | PortalCSS
  | NoBody.

(** The headers and cookies set so far. *)
Record Headers := { h_Fields : gmap string string; h_Cookies : list Cookie }.

Record Response := { rs_Status : Z; rs_Headers : Headers; rs_Body : body }.

Definition Header_Set (name value : string) (h : Headers) : Headers :=
  {| h_Fields := <[name := value]> (h_Fields h); h_Cookies := h_Cookies h |}.
Definition SetCookie (cookie : Cookie) (h : Headers) : Headers :=
  {| h_Fields := h_Fields h; h_Cookies := h_Cookies h ++ [cookie] |}.
Definition WriteHeader (status : Z) (h : Headers) (b : body) : Response :=
  {| rs_Status := status; rs_Headers := h; rs_Body := b |}.

Definition writeJSON (h : Headers) (status : Z) (value : body) : Response :=
  WriteHeader status (Header_Set "Content-Type" "application/json; charset=utf-8" h) value.

Definition writeError (h : Headers) (status : Z) (code : string) : Response :=
  writeJSON h status (JSON_error code).

Definition renderPortal (h : Headers) (status : Z) (view : portalView) : Response :=
  WriteHeader status (Header_Set "Content-Type" "text/html; charset=utf-8" h) (Portal view).

Definition view_empty : portalView :=
  {| pv_Provider := None; pv_CSRF := ""; pv_AuthenticationFailed := false;
     pv_Unavailable := false |}.
Definition view_unavailable : portalView :=
  {| pv_Provider := None; pv_CSRF := ""; pv_AuthenticationFailed := false;
     pv_Unavailable := true |}.
Definition view_failed : portalView :=
  {| pv_Provider := None; pv_CSRF := ""; pv_AuthenticationFailed := true;
     pv_Unavailable := false |}.
Definition view_provider (status : ProviderStatus) (csrf : string) : portalView :=
  {| pv_Provider := Some status; pv_CSRF := csrf; pv_AuthenticationFailed := false;
     pv_Unavailable := false |}.

(** [None] when the method is the expected one. *)
Definition allowMethod (h : Headers) (request : Request) (method : string) : option Response :=
  if r_Method request == method then None
  else Some (writeError (Header_Set "Allow" method h) StatusMethodNotAllowed
               "method_not_allowed").

Definition setHeaders (api : bool) (h : Headers) : Headers :=
  let h := Header_Set "Cache-Control" "no-store" h in
  let h := Header_Set "Strict-Transport-Security" "max-age=31536000" h in
  let h := Header_Set "X-Frame-Options" "DENY" h in
  let h := Header_Set "X-Content-Type-Options" "nosniff" h in
  let h := Header_Set "Referrer-Policy" "no-referrer" h in
  let h := Header_Set "Permissions-Policy"
             "camera=(), microphone=(), geolocation=(), payment=(), usb=()" h in
  let h := Header_Set "Cross-Origin-Opener-Policy" "same-origin" h in
  let h := Header_Set "Cross-Origin-Resource-Policy" "same-origin" h in
  if api
  then Header_Set "Content-Security-Policy"
         "default-src 'none'; object-src 'none'; base-uri 'none'; frame-ancestors 'none'; sandbox" h
  else Header_Set "Content-Security-Policy"
         "default-src 'none'; style-src 'self'; object-src 'none'; base-uri 'none'; frame-ancestors 'none'; form-action 'self'" h.

(** ** Guards of the handlers *)

(** The form, or the response that refuses the request. *)
Definition sameOriginForm (server : Server) (h : Headers) (request : Request)
    : Values + Response :=
  if (Header_Get request "Origin" != cfg_PublicOrigin (srv_config server)) ||
     (Header_Get request "Content-Type" != "application/x-www-form-urlencoded")
  then inr (writeError h StatusForbidden "request_denied")
  else match ParseForm request maximumFormBytes with
  | None => inr (writeError h StatusBadRequest "invalid_request")
  | Some form => inl form
  end.

(** The locked section of [allowLogin]. *)
Definition allowLogin (now : Time) (m : LoginLimiter) : LoginLimiter * bool :=
  let m := if IsZero (ll_Window m) || (Minute <=? time_Sub now (ll_Window m))
           then {| ll_Window := now; ll_Attempts := 0 |} else m in
  let attempts := int64_wrap (ll_Attempts m + 1) in
  ({| ll_Window := ll_Window m; ll_Attempts := attempts |}, attempts <=? 30).

Definition requestSessionToken (request : Request) : string * bool :=
  let values := List.map snd
    (List.filter (fun cookie => cookie.1 == sessionCookieName) (r_Cookies request)) in
  let sessionToken := default "" (last values) in
  (sessionToken, (length values =? 1)%nat && operatorTokenPattern sessionToken).

(** A form of exactly one field [name] with one value. *)
Definition single_field (form : Values) (name : string) : bool :=
  (size form =? 1)%nat && (length (default [] (form !! name)) =? 1)%nat.

(** ** Handlers *)

Definition ready (server : Server) : P (option goerror) :=
  unready ← call Ready;
  match unready with
  | Some _ => Ret (Some errState)
  | None =>
      installation ← loadInstallation server;
      Ret (match installation with Err err => Some err | Ok _ => None end)
  end.

Definition providerStatus (server : Server) : P (result ProviderStatus) :=
  unready ← call Ready;
  match unready with
  | Some _ => Ret (Err errState)
  | None =>
      installation ← loadInstallation server;
      Ret (match installation with
      | Err err => Err err
      | Ok state =>
          Ok {| ps_APIVersion := APIVersion; ps_InstallationID := ist_InstallationID state;
                ps_Profile := ist_Profile state; ps_Status := "ready";
                ps_OperatorID := ist_OperatorID state; ps_CreatedAt := ist_CreatedAt state;
                ps_Products := ist_Products state;
                ps_Components := {| cs_Database := "writable" |};
                ps_Build := srv_build server |}
      end)
  end.

Definition health (server : Server) (h : Headers) (request : Request) : P Response :=
  match allowMethod h request MethodGet with
  | Some denied => Ret denied
  | None =>
      if r_Path request == "/healthz/live"
      then Ret (writeJSON h StatusOK (JSON_status "live"))
      else if r_Path request == "/healthz/ready" then
        unready ← ready server;
        Ret (match unready with
             | Some _ => writeError h StatusServiceUnavailable "not_ready"
             | None => writeJSON h StatusOK (JSON_status "ready")
             end)
      else Ret (writeError h StatusNotFound "not_found")
  end.

(** The bearer token is the operator's. *)
Definition bearer_valid (server : Server) (request : Request) : bool :=
  match Header_Values request "Authorization" with
  | [value] =>
      HasPrefix value "Bearer " && operatorTokenPattern (TrimPrefix value "Bearer ") &&
      equalHash (tokenHash (TrimPrefix value "Bearer ")) (tokenHash (srv_operatorToken server))
  | _ => false
  end.

Definition provider (server : Server) (h : Headers) (request : Request) : P Response :=
  match allowMethod h request MethodGet with
  | Some denied => Ret denied
  | None =>
      if negb (bearer_valid server request)
      then Ret (writeError (Header_Set "WWW-Authenticate" "Bearer" h) StatusUnauthorized
                  "authentication_required")
      else
      status ← providerStatus server;
      Ret (match status with
           | Err _ => writeError h StatusServiceUnavailable "not_ready"
           | Ok status => writeJSON h StatusOK (JSON_provider status)
           end)
  end.

Definition expireCookie (server : Server) (h : Headers) : P Headers :=
  now ← call Now;
  Ret (match ExpireSessionCookie
         {| cp_Name := sessionCookieName; cp_Value := ""; cp_Path := "/"; cp_Lifetime := 0;
            cp_SameSite := SameSiteStrict |} now with
       | Err _ => h
       | Ok cookie => SetCookie cookie h
       end).

(** [server.csrf.Issue] draws its nonce after its own checks. *)
Definition issue_csrf (server : Server) (sessionID : string) (now : Time) : P (result string) :=
  match Issue (srv_csrf server) sessionID now (fun n => Ok (repeat 0 n)) with
  | Err err => Ret (Err err)
  | Ok _ =>
      drawn ← call (Rand 16);
      Ret (Issue (srv_csrf server) sessionID now (fun _ => drawn))
  end.

Definition portal (server : Server) (h : Headers) (request : Request) : P Response :=
  match allowMethod h request MethodGet with
  | Some denied => Ret denied
  | None =>
  unready ← ready server;
  match unready with
  | Some _ => Ret (renderPortal h StatusServiceUnavailable view_unavailable)
  | None =>
  let '(token, present) := requestSessionToken request in
  if negb present then Ret (renderPortal h StatusOK view_empty)
  else
  now ← call Now;
  session ← loadSession server token now;
  match session with
  | Err _ =>
      h ← expireCookie server h;
      Ret (renderPortal h StatusUnauthorized view_failed)
  | Ok _ =>
  status ← providerStatus server;
  match status with
  | Err _ => Ret (renderPortal h StatusServiceUnavailable view_unavailable)
  | Ok status =>
  now ← call Now;
  csrf ← issue_csrf server token now;
  Ret (match csrf with
       | Err _ => writeError h StatusServiceUnavailable "not_ready"
       | Ok csrf => renderPortal h StatusOK (view_provider status csrf)
       end)
  end end end end.

Definition token_valid (server : Server) (form : Values) : bool :=
  single_field form "token" && operatorTokenPattern (Values_Get form "token") &&
  equalHash (tokenHash (Values_Get form "token")) (tokenHash (srv_operatorToken server)).

Definition session_cookie (token : string) (now : Time) : result Cookie :=
  NewSessionCookie
    {| cp_Name := sessionCookieName; cp_Value := token; cp_Path := "/";
       cp_Lifetime := sessionLifetime; cp_SameSite := SameSiteStrict |} now.

Definition login (server : Server) (h : Headers) (request : Request) : P Response :=
  if r_Method request == MethodGet then portal server h request
  else match allowMethod h request MethodPost with
  | Some denied => Ret denied
  | None =>
  match sameOriginForm server h request with
  | inr denied => Ret denied
  | inl form =>
  now ← call Now;
  allowed ← call (Locked (srv_process server) (allowLogin now));
  if negb allowed
  then Ret (writeError (Header_Set "Retry-After" "60" h) StatusTooManyRequests
              "login_rate_limited")
  else if negb (token_valid server form)
  then Ret (renderPortal h StatusUnauthorized view_failed)
  else
  unready ← ready server;
  match unready with
  | Some _ => Ret (renderPortal h StatusServiceUnavailable view_unavailable)
  | None =>
  now ← call Now;
  created ← createSession server now;
  match created with
  | Err _ => Ret (writeError h StatusServiceUnavailable "not_ready")
  | Ok token =>
  now ← call Now;
  Ret (match session_cookie token now with
       | Err _ => writeError h StatusServiceUnavailable "not_ready"
       | Ok cookie =>
           WriteHeader StatusSeeOther (Header_Set "Location" "/" (SetCookie cookie h)) NoBody
       end)
  end end end end.

Definition logout (server : Server) (h : Headers) (request : Request) : P Response :=
  match allowMethod h request MethodPost with
  | Some denied => Ret denied
  | None =>
  match sameOriginForm server h request with
  | inr denied => Ret denied
  | inl form =>
  let '(token, present) := requestSessionToken request in
  let refused := Ret (writeError h StatusForbidden "request_denied") in
  if negb present || negb (single_field form "csrf") then refused
  else
  now ← call Now;
  if negb (is_nil (CSRF_Check (srv_csrf server) (Values_Get form "csrf") token now))
  then refused
  else
  unready ← ready server;
  match unready with
  | Some _ => Ret (writeError h StatusServiceUnavailable "not_ready")
  | None =>
  now ← call Now;
  session ← loadSession server token now;
  match session with
  | Err _ => Ret (writeError h StatusUnauthorized "authentication_required")
  | Ok document =>
  unrevoked ← revokeSession server document token;
  match unrevoked with
  | Some _ => Ret (writeError h StatusServiceUnavailable "logout_unverified")
  | None =>
      h ← expireCookie server h;
      Ret (WriteHeader StatusSeeOther (Header_Set "Location" "/" h) NoBody)
  end end end end end.

Definition ServeHTTP (server : Server) (request : Request) : P Response :=
  let h := setHeaders (HasPrefix (r_Path request) "/api/" ||
                       HasPrefix (r_Path request) "/healthz/")
             {| h_Fields := ∅; h_Cookies := [] |} in
  if (r_RawQuery request != "") || (r_Fragment request != "")
  then Ret (writeError h StatusBadRequest "invalid_request")
  else if HasPrefix (r_Path request) "/healthz/" then health server h request
  else if (r_Host request != srv_originHost server) ||
          ((Header_Get request "Origin" != "") &&
           (Header_Get request "Origin" != cfg_PublicOrigin (srv_config server)))
  then Ret (writeError h StatusForbidden "origin_denied")
  else if r_Path request == "/api/v1/provider" then provider server h request
  else if r_Path request == "/" then portal server h request
  else if r_Path request == "/login" then login server h request
  else if r_Path request == "/logout" then logout server h request
  else if r_Path request == "/assets/portal.css" then
    Ret (match allowMethod h request MethodGet with
         | Some denied => denied
         | None => WriteHeader StatusOK
                     (Header_Set "Content-Type" "text/css; charset=utf-8" h) PortalCSS
         end)
  else Ret (writeError h StatusNotFound "not_found").

(** [New]; the context and the store are given, and the portal template is a
    constant that parses. *)
Definition new_server (config : Config) (operatorToken originHost : string)
    (build : BuildInfo) (process : nat) : Server :=
  {| srv_config := config; srv_operatorToken := operatorToken; srv_originHost := originHost;
     srv_build := build;
     srv_csrf := NewCSRFManager (Sum256 ("cloudring-development-csrf-v1:" +:+ operatorToken))
                   sessionLifetime;
     srv_process := process |}.

Definition New `{NetParsers} (config : Config) (operatorToken : string) (build : BuildInfo)
    (process : nat) : P (result Server) :=
  if negb (is_nil (Validate config)) || negb (operatorTokenPattern operatorToken)
  then Ret (Err errConfiguration)
  else
  now ← call Now;
  installation ← bootstrap (cfg_InstallationID config) operatorToken now;
  Ret (match installation with
  | Err err => Err err
  | Ok _ =>
      match url_Parse (cfg_PublicOrigin config) with
      | None => Err errConfiguration
      | Some origin => Ok (new_server config operatorToken (url_Host origin) build process)
      end
  end).
End State.
