(* ===== verification/ControlPlaneCorrect.v ===== *)
(** * The control plane under interleaving

    What a codec of stored texts must keep, the log the session document
    keeps in every execution ([session_log]), and the [wp] of the handlers:
    what each call writes and what its response says. *)

From stdpp Require Import gmap strings list.
From Stdlib Require Import ZArith Lia.
From S2P Require Import Prelude GoString GoTime GoSha256 GoCrypto IdentitySession GoHttp Programs StateStore ControlPlane.

#[local] Open Scope Z_scope.

(** ** Codecs

    Text of printable ASCII survives the round trip through the store, and
    instants have a text up to the year 9999. *)

Definition wire_text (s : string) : Prop := all_chars (in_range 32 126) s = true.

Definition year_10000 : Time := 315537897600 * Second.
Definition wire_time (t : Time) : Prop := 0 <= t < year_10000.

Class WireType (A : Type) := {
  texts : A -> list string;
  times : A -> list Time
}.

#[export] Instance installation_wire : WireType installationState := {
  texts s := [ist_InstallationID s; ist_Profile s; ist_OperatorID s; ist_OperatorTokenSHA256 s];
  times s := [ist_CreatedAt s]
}.

#[export] Instance session_wire : WireType sessionState := {
  texts s := [ss_InstallationID s; ss_OperatorID s; ss_TokenSHA256 s];
  times s := [ss_CreatedAt s; ss_ExpiresAt s]
}.

Class JsonCodecLaws (V A : Type) `{!JsonCodec V A, !JsonText V, !WireType A} := {
  json_round_trip (a : A) (value text : V) :
    Forall wire_text (texts a) -> json_Marshal a = Ok value ->
    canonicalJSON value = Some text -> DecodeExact text = Ok a;
  json_total (a : A) :
    Forall wire_text (texts a) -> Forall wire_time (times a) ->
    exists value text, json_Marshal a = Ok value /\ canonicalJSON value = Some text
}.

(** ** Texts of the state *)

(** An inclusion of character classes, by cases on the character. *)
Ltac by_characters := let c := fresh in intros c;
  destruct c as [[] [] [] [] [] [] [] []]; vm_compute; congruence.

Lemma hex_wire s : all_chars is_hex_lower s = true -> wire_text s.
Proof. apply all_chars_impl. by_characters. Qed.

Lemma tokenHash_wire token : wire_text (tokenHash token).
Proof. apply hex_wire, sha256_hex_hex. Qed.

Lemma installation_wire_text id : installationPattern id = true -> wire_text id.
Proof.
  unfold installationPattern, match_first_rest, wire_text. destruct id as [|c id]; [done|].
  intros H. go_simp. cbn. apply andb_true_iff. split.
  - match goal with H : is_lower c = true |- _ => revert H end. revert c. by_characters.
  - eapply all_chars_impl; [|done]. by_characters.
Qed.

Lemma operatorID_wire id : wire_text id -> wire_text (operatorID id).
Proof. unfold operatorID, wire_text. intros H. by rewrite all_chars_app, H. Qed.

Lemma equalHash_iff a b : equalHash a b = true <-> len a = 64%nat /\ a = b.
Proof.
  unfold equalHash. split.
  - intros H. go_simp. by split.
  - intros [H ->]. by rewrite H, String.eqb_refl.
Qed.

Lemma equalHash_tokens a b :
  equalHash (tokenHash a) (tokenHash b) = true -> a = b \/ collision a b.
Proof. intros [_ H]%equalHash_iff. by apply sha256_hex_inj_or. Qed.

Lemma EncodeToString_token bytes :
  length bytes = 32%nat -> operatorTokenPattern (EncodeToString bytes) = true.
Proof.
  intros H. unfold operatorTokenPattern. by rewrite EncodeToString_len, H, EncodeToString_hex.
Qed.

(** ** The session log *)

(** The state a login of [token] at [created] writes, and its revocation. *)
Definition session_entry (server : Server) (token : string) (created : Time) (r : bool)
    : sessionState :=
  let state := new_session server token created in if r then revoked state else state.

Section Log.
Context {V : Type} `{!JsonCodec V sessionState}.
Context (server : Server).

Definition entry_of (v : V) (token : string) (created : Time) (r : bool) : Prop :=
  DecodeExact v = Ok (session_entry server token created r).

(** Every revision is a login, or revokes the session of the revision before. *)
Inductive session_log : list V -> Prop :=
  | log_empty : session_log []
  | log_login values v token created :
      session_log values -> operatorTokenPattern token = true ->
      entry_of v token created false -> session_log (values ++ [v])
  | log_logout values v v' token created :
      session_log (values ++ [v]) -> operatorTokenPattern token = true ->
      entry_of v token created false -> entry_of v' token created true ->
      session_log ((values ++ [v]) ++ [v']).

Lemma session_log_entry values v :
  session_log values -> v ∈ values -> exists token created r,
    operatorTokenPattern token = true /\ entry_of v token created r.
Proof.
  intros Hs. revert v. induction Hs as [|values v token created Hs IH Ht He|
    values v v' token created Hs IH Ht He He']; intros u Hu.
  - by apply not_elem_of_nil in Hu.
  - apply elem_of_app in Hu as [Hu|Hu%list_elem_of_singleton]; [by apply IH|]. subst. eauto.
  - apply elem_of_app in Hu as [Hu|Hu%list_elem_of_singleton]; [by apply IH|]. subst. eauto.
Qed.
End Log.

(** ** Jobs and what they may write *)

Section Handlers.
Context {V : Type} `{JsonText V, JsonCodec V installationState, JsonCodec V sessionState}.
Context `{!JsonCodecLaws V installationState, !JsonCodecLaws V sessionState, NetParsers}.
Context {clk : Clock} (server : Server).
Context (server_id : installationPattern (cfg_InstallationID (srv_config server)) = true).

#[local] Abbreviation world := (StateStore.world V LoginLimiter).
Implicit Types w : world.

(** A process that starts, or a request that is served. *)
Inductive job :=
  | Start (config : Config) (operatorToken : string) (build : BuildInfo) (process : nat)
  | Serve (request : Request).

Inductive outcome :=
  | Started (r : result Server)
  | Served (response : Response).

Definition run_job (j : job) : store V LoginLimiter outcome :=
  match j with
  | Start config operatorToken build process =>
      r ← New config operatorToken build process; Ret (Started r)
  | Serve request => response ← ServeHTTP server request; Ret (Served response)
  end.

Definition sessionDocument : Key_ := (stateScope, sessionKey).
Definition installationDocument : Key_ := (stateScope, installationKey).

(** The token is a live session's in the store. *)
Definition Accepted w (token : string) (now : Time) : Prop :=
  operatorTokenPattern token = true /\
  exists v state, last (history w sessionDocument) = Some v /\
    DecodeExact (A := sessionState) v = Ok state /\
    session_valid server state (Z.of_nat (length (history w sessionDocument))) token now = true.

(** A form posted to the configured host from the configured origin. *)
Definition same_origin (request : Request) (form : Values) : Prop :=
  r_Host request = srv_originHost server /\ r_Method request = MethodPost /\
  Header_Get request "Origin" = cfg_PublicOrigin (srv_config server) /\
  ParseForm request maximumFormBytes = Some form.

(** A login by the operator token writes a fresh session; a logout by a session
    token and its request token revokes the revision that holds the session. *)
Inductive Authorised (request : Request) w (expected : Z) (value : V) : Prop :=
  | authorised_login form token created :
      same_origin request form -> r_Path request = "/login" ->
      token_valid server form = true -> operatorTokenPattern token = true ->
      json_Marshal (new_session server token created) = Ok value ->
      Authorised request w expected value
  | authorised_logout form token seen v state now :
      same_origin request form -> r_Path request = "/logout" ->
      requestSessionToken request = (token, true) ->
      CSRF_Check (srv_csrf server) (Values_Get form "csrf") token seen = None ->
      history w sessionDocument !! Z.to_nat (expected - 1) = Some v ->
      DecodeExact v = Ok state -> session_valid server state expected token now = true ->
      json_Marshal (revoked state) = Ok value ->
      Authorised request w expected value.

Definition may_write (j : job) : store_guarantee := fun w key expected value =>
  match j with
  | Start config operatorToken _ _ =>
      key = installationDocument /\ expected = 0 /\
      Validate config = None /\ operatorTokenPattern operatorToken = true /\
      exists now, json_Marshal
        (initial_installation (cfg_InstallationID config) operatorToken now) = Ok value
  | Serve request => key = sessionDocument /\ Authorised request w expected value
  end.

(** ** The invariant of the store *)

Definition installation_log (values : list V) : Prop :=
  values = [] \/ exists v id token now, values = [v] /\
    DecodeExact v = Ok (initial_installation id token now).

Definition store_ok w : Prop :=
  session_log server (history w sessionDocument) /\
  installation_log (history w installationDocument).

Lemma session_entry_texts token created r :
  Forall wire_text (texts (session_entry server token created r)).
Proof.
  pose proof (installation_wire_text _ server_id) as Hid.
  pose proof (operatorID_wire _ Hid) as Hop. pose proof (tokenHash_wire token) as Hh.
  assert (texts (session_entry server token created r) =
    [cfg_InstallationID (srv_config server); operatorID (cfg_InstallationID (srv_config server));
     tokenHash token]) as -> by by destruct r.
  exact (Forall_cons_2 _ _ _ Hid (Forall_cons_2 _ _ _ Hop
    (Forall_cons_2 _ _ _ Hh (Forall_nil_2 _)))).
Qed.

Lemma initial_installation_texts id token now :
  installationPattern id = true -> Forall wire_text (texts (initial_installation id token now)).
Proof.
  intros Hid. pose proof (installation_wire_text _ Hid) as Hw.
  pose proof (operatorID_wire _ Hw) as Hop. pose proof (tokenHash_wire token) as Hh.
  assert (wire_text DevelopmentProfile) as Hp by reflexivity.
  exact (Forall_cons_2 _ _ _ Hw (Forall_cons_2 _ _ _ Hp (Forall_cons_2 _ _ _ Hop
    (Forall_cons_2 _ _ _ Hh (Forall_nil_2 _))))).
Qed.

(** The state a valid session decodes to, as an entry of the token that
    passed: entries depend on the token by its hash alone. *)
Lemma session_valid_entry token' created r state revision token now :
  state = session_entry server token' created r ->
  session_valid server state revision token now = true ->
  r = false /\ state = session_entry server token created false /\
  created <= now < created + sessionLifetime.
Proof.
  intros -> Hv. unfold session_valid in Hv. go_simp.
  destruct r; [discriminate|]. cbn [session_entry new_session ss_TokenSHA256 ss_CreatedAt
    ss_ExpiresAt] in *.
  match goal with H : equalHash _ _ = true |- _ => apply equalHash_iff in H as [_ Hh] end.
  split; [exact eq_refl|]. split.
  - unfold session_entry, new_session. rewrite Hh. exact eq_refl.
  - clear Hh. unfold After in *. go_simp.
    match goal with H : _ < time_Add _ _ |- _ => unfold time_Add in H end. lia.
Qed.

Lemma session_valid_revision state revision token now :
  session_valid server state revision token now = true -> 1 <= revision.
Proof.
  unfold session_valid. intros Hv. destruct (1 <=? revision) eqn:Hr.
  - by apply Z.leb_le in Hr.
  - rewrite andb_false_r in Hv. discriminate Hv.
Qed.

(** The document [loadSession] returned, in the world it was read from. *)
Definition Held w (document : Document V) (token : string) (now : Time) : Prop :=
  operatorTokenPattern token = true /\
  doc_Revision document = Z.of_nat (length (history w sessionDocument)) /\
  last (history w sessionDocument) = Some (doc_Value document) /\
  exists state, DecodeExact (A := sessionState) (doc_Value document) = Ok state /\
    session_valid server state (doc_Revision document) token now = true.

Lemma Held_Accepted w document token now : Held w document token now -> Accepted w token now.
Proof.
  intros (Ht & Hr & Hl & state & Hd & Hv). split; [done|]. rewrite Hr in Hv. eauto.
Qed.

Lemma Held_lookup w w' document token now :
  Held w document token now -> later w w' ->
  history w' sessionDocument !! Z.to_nat (doc_Revision document - 1) = Some (doc_Value document).
Proof.
  intros (_ & Hr & Hl & _) Hw. rewrite last_lookup in Hl.
  eapply prefix_lookup_Some; [|apply Hw]. rewrite Hr, <- Hl. f_equal. lia.
Qed.

(** The invariant bounds what a held document can be. *)
Lemma Held_entry w document token now :
  store_ok w -> Held w document token now -> exists created,
    entry_of server (doc_Value document) token created false /\
    created <= now < created + sessionLifetime.
Proof.
  intros [Hlog _] (_ & _ & Hl & state & Hd & Hv).
  destruct (session_log_entry server _ _ Hlog (last_Some_elem_of _ _ Hl))
    as (token' & created & r & _ & He).
  unfold entry_of in *. rewrite He in Hd. injection Hd as Hstate.
  destruct (session_valid_entry _ _ _ _ _ _ _ (eq_sym Hstate) Hv) as (-> & Heq & Hnow).
  exists created. split; [|exact Hnow]. rewrite He, Hstate, Heq. exact eq_refl.
Qed.

Lemma store_ok_locked w process body :
  store_ok w -> store_ok (lock new_limiter w process body).1.
Proof. unfold store_ok. by rewrite !history_lock. Qed.

Lemma session_not_installation : sessionDocument <> installationDocument.
Proof. done. Qed.

Lemma lookup_last {A} (xs : list A) n x :
  xs !! n = Some x -> length xs = S n -> exists init, xs = init ++ [x].
Proof.
  intros Hx Hlen. destruct xs as [|y xs _] using rev_ind; [done|].
  rewrite length_app in Hlen. cbn in Hlen.
  rewrite lookup_app_r, list_lookup_singleton in Hx by lia. case_match; simplify_eq. eauto.
Qed.

Lemma entry_round_trip token created r value text :
  json_Marshal (session_entry server token created r) = Ok value ->
  canonicalJSON value = Some text -> entry_of server text token created r.
Proof. intros Hm Hc. eapply json_round_trip; [apply session_entry_texts|exact Hm|exact Hc]. Qed.

Lemma authorised_append w request expected value text :
  store_ok w -> Authorised request w expected value ->
  Z.of_nat (length (history w sessionDocument)) = expected -> canonicalJSON value = Some text ->
  session_log server (history w sessionDocument ++ [text]).
Proof.
  intros [Hlog _] Ha Hlen Hc.
  destruct Ha as [form token created _ _ _ Ht Hm|
    form token seen v state now _ _ Htok _ Hv Hd Hvalid Hm].
  - apply (log_login server _ _ token created); [exact Hlog|exact Ht|].
    exact (entry_round_trip token created false value text Hm Hc).
  - assert (v ∈ history w sessionDocument) as Hin by (by eapply list_elem_of_lookup_2).
    destruct (session_log_entry server _ _ Hlog Hin) as (token' & created & r & _ & He).
    unfold entry_of in He. rewrite Hd in He. injection He as Hstate.
    destruct (session_valid_entry _ _ _ _ _ _ _ Hstate Hvalid) as (-> & Heq & _).
    pose proof (session_valid_revision _ _ _ _ Hvalid) as Hpos.
    destruct (lookup_last _ _ _ Hv ltac:(clear - Hlen Hpos; lia)) as [values Hvalues].
    rewrite Hvalues. apply (log_logout server values v text token created).
    + by rewrite <- Hvalues.
    + clear - Htok. unfold requestSessionToken in Htok. injection Htok as <- Hp. by go_simp.
    + unfold entry_of. rewrite Hd, Heq. exact eq_refl.
    + rewrite Heq in Hm. exact (entry_round_trip token created true value text Hm Hc).
Qed.

Lemma store_ok_append w j key expected value text :
  store_ok w -> may_write j w key expected value ->
  Z.of_nat (length (history w key)) = expected -> canonicalJSON value = Some text ->
  store_ok (append_value w key text).
Proof.
  intros Hok Hmay Hlen Hc. destruct j as [config token build process|request]; cbn in Hmay.
  - destruct Hmay as (-> & -> & Hvalid & _ & now & Hm). destruct Hok as [Hs Hi].
    assert (history w installationDocument = []) as Hnil
      by (by apply length_zero_iff_nil; lia).
    unfold store_ok. rewrite !history_append, decide_False by done. rewrite decide_True by done.
    split; [exact Hs|]. right. rewrite Hnil. do 4 eexists. split; [exact eq_refl|].
    eapply json_round_trip; [|exact Hm|exact Hc]. apply initial_installation_texts.
    unfold Validate, validIdentity in Hvalid. case_match eqn:Hid; [done|]. by go_simp.
  - destruct Hmay as [-> Ha]. unfold store_ok. rewrite !history_append.
    rewrite decide_True, decide_False by done. split; [by eapply authorised_append|apply Hok].
Qed.

(** ** What a response says *)

Definition fresh_session w (token : string) : Prop :=
  operatorTokenPattern token = true /\
  exists v state, v ∈ history w sessionDocument /\ DecodeExact v = Ok state /\
    ss_TokenSHA256 state = tokenHash token.

(** The token's session is over: no instant makes the store accept the token,
    because the session is revoked or replaced; or it is still the last
    document, and the clock showed an instant outside of its half hour. *)
Definition Ended w (token : string) : Prop :=
  (forall t, ~ Accepted w token t) \/
  exists v created expired, last (history w sessionDocument) = Some v /\
    entry_of server v token created false /\
    clock_reads expired /\ ~ (created <= expired < created + sessionLifetime).

(** On a clock that shows only instants of the stored session's half hour, an
    ended session is revoked or replaced. *)
Lemma Ended_revoked w token :
  Ended w token ->
  (forall v created t, last (history w sessionDocument) = Some v ->
     entry_of server v token created false -> clock_reads t ->
     created <= t < created + sessionLifetime) ->
  forall t, ~ Accepted w token t.
Proof.
  intros [Hno|(v & created & t & Hl & He & Ht & Hout)] Hin; [exact Hno|].
  destruct Hout. exact (Hin v created t Hl He Ht).
Qed.

(** A page or status that shows the installation answers the operator token or
    a live session; a redirect follows a stored login, or a session that was
    live at an instant the clock showed and over afterwards. *)
Definition shows (request : Request) w (b : body) : Prop :=
  match b with
  | JSON_provider _ =>
      r_Host request = srv_originHost server /\ bearer_valid server request = true
  | Portal {| pv_Provider := Some _ |} =>
      r_Host request = srv_originHost server /\
      exists token now w0, requestSessionToken request = (token, true) /\ later w0 w /\
        clock_reads now /\ Accepted w0 token now
  | _ => True
  end.

Definition redirects (request : Request) w (response : Response) : Prop :=
  exists form, same_origin request form /\
  ((r_Path request = "/login" /\ token_valid server form = true /\
    exists token now cookie, session_cookie token now = Ok cookie /\
      h_Cookies (rs_Headers response) = [cookie] /\ fresh_session w token) \/
   (r_Path request = "/logout" /\
    exists token seen now w0 w1, requestSessionToken request = (token, true) /\
      CSRF_Check (srv_csrf server) (Values_Get form "csrf") token seen = None /\
      later w0 w1 /\ later w1 w /\ clock_reads now /\ Accepted w0 token now /\ Ended w1 token)).

Definition Truthful (request : Request) w (response : Response) : Prop :=
  shows request w (rs_Body response) /\
  (rs_Status response = StatusSeeOther -> redirects request w response).

Lemma fresh_session_stable w w' token : later w w' -> fresh_session w token -> fresh_session w' token.
Proof.
  intros Hl (Ht & v & state & Hv & Hd & Hs). split; [done|]. exists v, state. split; [|done].
  apply list_elem_of_lookup in Hv as [i Hi]. eapply list_elem_of_lookup_2.
  eapply prefix_lookup_Some; [exact Hi|apply Hl].
Qed.

Lemma Truthful_stable request : store_stable (Truthful request).
Proof.
  intros w w' response Hl [Hs Hr]. split.
  - destruct (rs_Body response) as [| | |[[?|] ? ? ?]| |]; try done. cbn in *.
    destruct Hs as (Hh & token & now & w0 & Ht & Hw & Ha). split; [done|].
    exists token, now, w0. split; [done|]. split; [by etrans|done].
  - intros H3. destruct (Hr H3) as (form & Hform & [(Hp & Htok & token & now & cookie & Hc & Hh & Hf)
      |(Hp & token & seen & now & w0 & w1 & Ht & Hcs & Hw & Hw1 & Ha & Hna)]);
      exists form; (split; [done|]); [left|right]; (split; [done|]).
    + split; [done|]. exists token, now, cookie. repeat (split; [done|]).
      by eapply fresh_session_stable.
    + exists token, seen, now, w0, w1. repeat (split; [done|]).
      split; [by etrans|done].
Qed.

(** ** The calls of the handlers *)

Lemma silent_call X (e : effect V LoginLimiter X) :
  match e with Save _ _ _ _ => False | _ => True end -> silent (call e).
Proof. intros He. by split. Qed.

Lemma silent_loadInstallation : silent (loadInstallation (V := V) server).
Proof. split; [done|]. by intros []. Qed.

Lemma silent_ready : silent (ready (V := V) server).
Proof.
  split; [done|]. intros [?|]; [done|]. apply silent_bind; [apply silent_loadInstallation|done].
Qed.

Lemma silent_providerStatus : silent (providerStatus (V := V) server).
Proof.
  split; [done|]. intros [?|]; [done|]. apply silent_bind; [apply silent_loadInstallation|done].
Qed.

Lemma silent_expireCookie h : silent (expireCookie (V := V) server h).
Proof. by split. Qed.

Lemma silent_issue_csrf sid now : silent (issue_csrf (V := V) server sid now).
Proof. unfold issue_csrf. destruct (Issue _ _ _ _); by repeat split. Qed.

Section Caller.
Context (who : nat).

#[local] Abbreviation WP G :=
  (wp (store_perform canonicalJSON new_limiter) store_rely store_ok (allows G) who).

Lemma not_accepted_pattern w token now :
  operatorTokenPattern token = false -> ~ Accepted w token now.
Proof. intros Hp [Ht _]. congruence. Qed.

Lemma load_errors_plain err :
  err ∈ load_errors -> errors_Is err errSessionInvalid || errors_Is err ErrNotFound = false.
Proof.
  revert err. apply Forall_forall. repeat constructor.
Qed.

(** A revocation that took effect leaves no session. *)
Lemma revoked_not_accepted w text token created token' now :
  last (history w sessionDocument) = Some text -> entry_of server text token created true ->
  ~ Accepted w token' now.
Proof.
  intros Hl He (_ & v & state & Hv & Hd & Hvalid).
  rewrite Hl in Hv. injection Hv as <-. unfold entry_of in He. rewrite He in Hd.
  injection Hd as Hstate.
  destruct (session_valid_entry token created true _ _ _ _ (eq_sym Hstate) Hvalid) as (Hr & _).
  discriminate Hr.
Qed.

(** A document that a reading of the clock refuses is a session that ended. *)
Lemma refused_Ended w v state token now :
  store_ok w -> last (history w sessionDocument) = Some v -> DecodeExact v = Ok state ->
  session_valid server state (Z.of_nat (length (history w sessionDocument))) token now = false ->
  clock_reads now -> Ended w token.
Proof.
  intros [Hlog _] Hl Hd Hv Hnow.
  destruct (session_log_entry server _ _ Hlog (last_Some_elem_of _ _ Hl))
    as (token' & created & r & _ & He).
  pose proof He as He'. unfold entry_of in He'. rewrite Hd in He'. injection He' as ->.
  destruct r; [left; intros t; by eapply revoked_not_accepted|].
  assert (forall t, Accepted w token t -> tokenHash token' = tokenHash token /\
    session_valid server (new_session server token' created)
      (Z.of_nat (length (history w sessionDocument))) token t = true) as Hacc.
  { intros t (_ & v' & state & Hv' & Hd' & Hvalid). rewrite Hl in Hv'. injection Hv' as <-.
    rewrite Hd in Hd'. injection Hd' as <-. split; [|done].
    destruct (session_valid_entry token' created false _ _ _ _ eq_refl Hvalid) as (_ & Heq & _).
    exact (f_equal ss_TokenSHA256 Heq). }
  destruct (decide (tokenHash token' = tokenHash token)) as [Hh|Hh].
  2: { left. intros t Ha. by destruct (Hacc t Ha). }
  destruct (decide (created <= now < created + sessionLifetime)) as [Hin|Hout].
  - left. intros t Ha. destruct (Hacc t Ha) as [_ Hvalid].
    change (session_valid server (new_session server token' created)
      (Z.of_nat (length (history w sessionDocument))) token now = false) in Hv.
    unfold session_valid in Hvalid, Hv. cbn [new_session ss_CreatedAt ss_ExpiresAt] in *.
    assert (After created now = false /\ After (time_Add created sessionLifetime) now = true)
      as [Hc1 Hc2].
    { unfold After, time_Add. split; [apply Z.ltb_ge|apply Z.ltb_lt]; lia. }
    rewrite Hc1, Hc2 in Hv. apply andb_true_iff in Hvalid as [Hvalid Hlife].
    apply andb_true_iff in Hvalid as [Hvalid _]. apply andb_true_iff in Hvalid as [Hvalid _].
    rewrite Hvalid, Hlife in Hv. discriminate Hv.
  - right. exists v, created, now. repeat (split; [done|]).
    unfold entry_of. rewrite Hd. cbn [session_entry]. unfold new_session. by rewrite Hh.
Qed.

Lemma wp_loadSession G token now w :
  store_ok w ->
  WP G (loadSession server token now)
    (fun w' r => exists w0, later w w0 /\ later w0 w' /\ store_ok w0 /\ store_ok w' /\
      match r with
      | Ok document => Held w0 document token now
      | Err err => errors_Is err errSessionInvalid || errors_Is err ErrNotFound = true ->
                   clock_reads now -> Ended w0 token
      end) w.
Proof.
  intros Hok. unfold loadSession. destruct (operatorTokenPattern token) eqn:Hp; cbn [negb].
  2: { exists w. repeat (split; [done|]). intros _ _. left. intros t.
       by apply not_accepted_pattern. }
  wp_step w1 Hl Hok1 r w2 Hr Hok2. destruct Hr as [-> Hr].
  destruct Hr as [values v at_ Hh Hv|Hh|err Herr]; cbn.
  - change (history w1 sessionDocument = values) in Hh. subst values.
    destruct (DecodeExact v) as [state|err] eqn:Hd.
    + destruct (session_valid server state _ token now) eqn:Hvalid; exists w1;
        repeat (split; [done|]).
      * repeat (split; [done|]). eauto.
      * intros _ Hnow. by apply (refused_Ended w1 v state token now).
    + exists w1. repeat (split; [done|]). intros _ _. left.
      intros t (_ & v' & state & Hv' & Hd' & _). rewrite Hv in Hv'. injection Hv' as <-.
      rewrite Hd in Hd'. discriminate Hd'.
  - exists w1. repeat (split; [done|]). intros _ _. left. intros t (_ & v & state & Hv & _).
    change (history w1 sessionDocument = []) in Hh. by rewrite Hh in Hv.
  - exists w1. repeat (split; [done|]). intros He. exfalso.
    rewrite (load_errors_plain _ Herr) in He. discriminate He.
Qed.

(** What a logout knows when it holds the session document of its token. *)
Lemma held_logout w w0 request form token seen document now state value :
  same_origin request form -> r_Path request = "/logout" ->
  requestSessionToken request = (token, true) ->
  CSRF_Check (srv_csrf server) (Values_Get form "csrf") token seen = None ->
  Held w0 document token now -> later w0 w ->
  DecodeExact (doc_Value document) = Ok state -> json_Marshal (revoked state) = Ok value ->
  Authorised request w (doc_Revision document) value.
Proof.
  intros Hform Hpath Htok Hcsrf Hheld Hl Hd Hm.
  pose proof (Held_lookup _ _ _ _ _ Hheld Hl) as Hv.
  destruct Hheld as (_ & _ & _ & state' & Hd' & Hvalid). rewrite Hd in Hd'.
  injection Hd' as <-. by eapply authorised_logout.
Qed.

Lemma wp_revokeSession request form token seen document now w0 w :
  same_origin request form -> r_Path request = "/logout" ->
  requestSessionToken request = (token, true) ->
  CSRF_Check (srv_csrf server) (Values_Get form "csrf") token seen = None ->
  store_ok w0 -> Held w0 document token now -> later w0 w -> store_ok w ->
  WP (may_write (Serve request)) (revokeSession server document token)
    (fun w' r => store_ok w' /\ (r = None -> exists w1, later w0 w1 /\ later w1 w' /\
                                   Ended w1 token)) w.
Proof.
  intros Hform Hpath Htok Hcsrf Hok0 Hheld Hl Hok. unfold revokeSession.
  destruct (Held_entry _ _ _ _ Hok0 Hheld) as (created & He & _).
  destruct (DecodeExact _) as [state|err] eqn:Hd; [|by split].
  destruct (json_Marshal (revoked state)) as [value|err] eqn:Hm; [|by split].
  intros w1 Hl1 Hok1. split.
  { split; [done|]. eapply held_logout; try done. by etrans. }
  intros stored w2 Hs Hok2. cbn in Hs.
  unfold entry_of in He. rewrite Hd in He. injection He as ->.
  destruct Hs as [text at_ Hlen Hc|text err Hlen Hc _|Hne|err _].
  1: { cbn. split; [done|]. intros _.
       exists (append_value w1 (stateScope, sessionKey) text).
       split; [etrans; [exact Hl|]; etrans; [exact Hl1|]; apply later_append|].
       split; [done|]. left. intros t. apply (revoked_not_accepted _ text token created).
       - rewrite history_append, decide_True by done. by rewrite last_snoc.
       - exact (entry_round_trip token created true value text Hm Hc). }
  all: wp_step w3 Hl3 Hok3 clock w4 Hclock Hok4; apply wp_bind;
    (eapply store_wp_mono; [|by apply wp_loadSession]);
    intros w5 r _ (w6 & Hl6 & Hl7 & _ & Hok5 & Hr); destruct Hclock as [-> Hclock];
    (destruct r as [?|rerr]; [by split|]); case_match; (split; [done|]); try done;
    intros _; exists w6; split; [|split; [done|by apply Hr]];
    (etrans; [exact Hl|]); (etrans; [exact Hl1|]); (etrans; [|exact Hl6]);
    (etrans; [|exact Hl3]); try done; apply later_append.
Qed.

Lemma fresh_session_appended w token created value text :
  operatorTokenPattern token = true ->
  json_Marshal (new_session server token created) = Ok value -> canonicalJSON value = Some text ->
  fresh_session (append_value w sessionDocument text) token.
Proof.
  intros Ht Hm Hc. split; [done|]. exists text, (session_entry server token created false).
  split; [|split].
  - rewrite history_append, decide_True by done. apply elem_of_app. right.
    by apply list_elem_of_singleton.
  - exact (entry_round_trip token created false value text Hm Hc).
  - exact eq_refl.
Qed.

Section Creation.
Context (request : Request) (form : Values) (token : string) (created : Time) (value : V).
Context (Hform : same_origin request form) (Hpath : r_Path request = "/login").
Context (Hvalid : token_valid server form = true) (Htoken : operatorTokenPattern token = true).
Context (Hm : json_Marshal (new_session server token created) = Ok value).

Let created_post : world -> result string -> Prop := fun w r =>
  store_ok w /\ forall t, r = Ok t -> t = token /\ fresh_session w t.

Lemma created_post_Ok w : store_ok w -> fresh_session w token -> created_post w (Ok token).
Proof. intros Hok Hf. split; [done|]. intros t Ht. injection Ht as <-. by split. Qed.

Lemma created_post_Err w err : store_ok w -> created_post w (Err err).
Proof. by split. Qed.

Lemma wp_confirm_session retry err w :
  store_ok w -> (forall w', store_ok w' -> WP (may_write (Serve request)) retry created_post w') ->
  WP (may_write (Serve request))
    (confirm_session retry token (new_session server token created) err) created_post w.
Proof.
  intros Hok Hretry. wp_step w1 Hl1 Hok1 readback w2 Hr Hok2. destruct Hr as [-> Hr].
  destruct (confirmed _ readback) eqn:Hconf.
  - apply created_post_Ok; [done|]. destruct Hr as [values v at_ Hh Hv| |]; try done.
    cbn in Hconf. destruct (DecodeExact v) as [observed|] eqn:Hd; [|done].
    apply equalHash_iff in Hconf as [_ Hhash].
    split; [done|]. exists v, observed. split; [|by split].
    change (history w1 sessionDocument = values) in Hh. rewrite Hh.
    by apply last_Some_elem_of.
  - destruct (negb _); [by apply created_post_Err|]. by apply Hretry.
Qed.

Lemma wp_save_session retry revision w :
  store_ok w -> (forall w', store_ok w' -> WP (may_write (Serve request)) retry created_post w') ->
  WP (may_write (Serve request))
    (save_session retry token (new_session server token created) value revision)
    created_post w.
Proof.
  intros Hok Hretry w1 Hl1 Hok1. split.
  { split; [done|]. by eapply authorised_login. }
  intros stored w2 Hs Hok2. cbn in Hs.
  destruct Hs as [text at_ Hlen Hc|text err Hlen Hc _|Hne|err _];
    try by apply wp_confirm_session.
  apply created_post_Ok; [done|]. by eapply fresh_session_appended.
Qed.

Lemma wp_create_attempts n w :
  store_ok w ->
  WP (may_write (Serve request))
    (create_attempts n token (new_session server token created) value) created_post w.
Proof.
  revert w. induction n as [|n IH]; intros w Hok; [by apply created_post_Err|].
  cbn [create_attempts]. wp_step w1 Hl1 Hok1 found w2 Hload Hok2.
  destruct found as [found|err]; cbn; [by apply wp_save_session|].
  destruct (negb _); [by apply created_post_Err|by apply wp_save_session].
Qed.
End Creation.

Lemma wp_createSession request form created w :
  same_origin request form -> r_Path request = "/login" -> token_valid server form = true ->
  store_ok w ->
  WP (may_write (Serve request)) (createSession server created)
    (fun w' r => store_ok w' /\ forall t, r = Ok t -> fresh_session w' t) w.
Proof.
  intros Hform Hpath Hvalid Hok. wp_step w1 Hl1 Hok1 r w2 Hd Hok2. destruct Hd as [-> Hd].
  destruct r as [bytes|err]; [|by split]. cbn.
  destruct (Hd bytes eq_refl) as [Hlen _].
  destruct (json_Marshal _) as [value|err] eqn:Hm; [|by split].
  eapply store_wp_mono; [|exact (wp_create_attempts request form (EncodeToString bytes) created
    value Hform Hpath Hvalid (EncodeToString_token _ Hlen) Hm 3 w1 Hok2)].
  intros w' r _ [Hok' Hr]. split; [done|]. intros t Ht. by destruct (Hr t Ht) as [-> ?].
Qed.

(** ** The handlers *)

Section Serving.
Context (request : Request).
Context (host_ok : r_Host request = srv_originHost server).

#[local] Abbreviation SERVES p w :=
  (WP (may_write (Serve request)) p (Truthful request) w).

(** A response that shows nothing and does not redirect. *)
Lemma quiet_truthful w h status b :
  match b with JSON_provider _ | Portal {| pv_Provider := Some _ |} => False | _ => True end ->
  status <> StatusSeeOther -> Truthful request w (WriteHeader status h b).
Proof. intros Hb Hs. split; [|done]. by destruct b as [| | |[[]]| |]. Qed.

Ltac quiet := apply quiet_truthful; [exact Logic.I|discriminate].

Lemma wp_allowMethod h method p w :
  (r_Method request = method -> SERVES p w) ->
  SERVES (match allowMethod h request method with Some denied => Ret denied | None => p end) w.
Proof.
  intros Hp. unfold allowMethod. destruct (r_Method request == method) eqn:Hm.
  - apply Hp. by go_simp.
  - cbn. quiet.
Qed.

Lemma wp_health h w : store_ok w -> SERVES (health server h request) w.
Proof.
  intros Hok. apply wp_allowMethod. intros _. destruct (_ == _); [cbn; quiet|].
  destruct (_ == _); [|cbn; quiet]. apply wp_silent_bind; [done|apply silent_ready|].
  intros [?|] w' _ _; cbn; quiet.
Qed.

Lemma wp_provider h w : store_ok w -> SERVES (provider server h request) w.
Proof.
  intros Hok. apply wp_allowMethod. intros _.
  destruct (bearer_valid server request) eqn:Hb; cbn [negb]; [|cbn; quiet].
  apply wp_silent_bind; [done|apply silent_providerStatus|].
  intros [status|?] w' _ _; cbn; [|quiet]. split; [|done]. by split.
Qed.

Lemma wp_portal h w : store_ok w -> SERVES (portal server h request) w.
Proof.
  intros Hok. apply wp_allowMethod. intros _.
  apply wp_silent_bind; [done|apply silent_ready|]. intros [?|] w1 Hl1 Hok1; [cbn; quiet|].
  destruct (requestSessionToken request) as [token [|]] eqn:Htok; cbn [negb]; [|cbn; quiet].
  apply wp_now_bind. intros now w2 Hl2 Hok2 Hnow.
  apply wp_bind. eapply store_wp_mono; [|by apply wp_loadSession].
  intros w3 session _ (w0 & _ & Hl3 & Hok0 & Hok3 & Hs). destruct session as [found|err].
  2: { apply wp_silent_bind; [done|apply silent_expireCookie|]. intros h' w4 _ _. cbn. quiet. }
  apply wp_silent_bind; [done|apply silent_providerStatus|].
  intros [status|?] w4 Hl4 Hok4; [|cbn; quiet].
  apply wp_silent_bind; [done|by split|]. intros clock w5 Hl5 Hok5.
  apply wp_silent_bind; [done|apply silent_issue_csrf|].
  intros [csrf|?] w6 Hl6 Hok6; cbn; [|quiet]. split; [|done]. cbn. split; [done|].
  exists token, now, w0. split; [done|]. split; [|split; [done|by eapply Held_Accepted]].
  etrans; [exact Hl3|]. etrans; [exact Hl4|]. by etrans.
Qed.

Lemma wp_sameOriginForm h (p : Values -> store V LoginLimiter Response) w :
  r_Method request = MethodPost ->
  (forall form, same_origin request form -> SERVES (p form) w) ->
  SERVES (match sameOriginForm server h request with
          | inr denied => Ret denied | inl form => p form end) w.
Proof.
  intros Hmeth Hp. unfold sameOriginForm.
  destruct (_ || _) eqn:Ho; [cbn; quiet|]. go_simp.
  destruct (ParseForm request maximumFormBytes) as [form|] eqn:Hf; [|cbn; quiet].
  by apply Hp.
Qed.

Lemma wp_login h w :
  h_Cookies h = [] -> r_Path request = "/login" -> store_ok w -> SERVES (login server h request) w.
Proof.
  intros Hh Hpath Hok. unfold login.
  destruct (r_Method request == MethodGet); [by apply wp_portal|].
  apply wp_allowMethod. intros Hmeth. apply wp_sameOriginForm; [done|]. intros form Hform.
  apply wp_silent_bind; [done|by split|]. intros now w1 Hl1 Hok1.
  apply wp_silent_bind; [done|by split|]. intros allowed w2 Hl2 Hok2.
  destruct allowed; cbn [negb]; [|cbn; quiet].
  destruct (token_valid server form) eqn:Hvalid; cbn [negb]; [|cbn; quiet].
  apply wp_silent_bind; [done|apply silent_ready|]. intros [?|] w3 Hl3 Hok3; [cbn; quiet|].
  apply wp_silent_bind; [done|by split|]. intros created w4 Hl4 Hok4.
  apply wp_bind. eapply store_wp_mono; [|by eapply wp_createSession].
  intros w5 session _ [Hok5 Hs]. destruct session as [token|err]; [|cbn; quiet].
  apply wp_silent_bind; [done|by split|]. intros clock w6 Hl6 Hok6. cbn.
  destruct (session_cookie token clock) as [cookie|err] eqn:Hc; [|quiet].
  split; [done|]. intros _. exists form. split; [done|]. left. split; [done|]. split; [done|].
  exists token, clock, cookie. split; [done|]. split; [by cbn; rewrite Hh|].
  eapply fresh_session_stable; [exact Hl6|by apply Hs].
Qed.

Lemma wp_logout h w :
  r_Path request = "/logout" -> store_ok w -> SERVES (logout server h request) w.
Proof.
  intros Hpath Hok. apply wp_allowMethod. intros Hmeth. apply wp_sameOriginForm; [done|].
  intros form Hform. destruct (requestSessionToken request) as [token [|]] eqn:Htok;
    cbn [negb orb]; [|cbn; quiet].
  destruct (single_field form "csrf"); cbn [negb]; [|cbn; quiet].
  apply wp_silent_bind; [done|by split|]. intros seen w1 Hl1 Hok1.
  destruct (CSRF_Check _ _ _ seen) as [?|] eqn:Hcsrf; cbn [is_nil negb]; [cbn; quiet|].
  apply wp_silent_bind; [done|apply silent_ready|]. intros [?|] w2 Hl2 Hok2; [cbn; quiet|].
  apply wp_now_bind. intros now w3 Hl3 Hok3 Hnow.
  apply wp_bind. eapply store_wp_mono; [|by apply wp_loadSession].
  intros w4 session _ (w0 & _ & Hl4 & Hok0 & Hok4 & Hs). destruct session as [found|err];
    [|cbn; quiet].
  apply wp_bind. eapply store_wp_mono; [|exact (wp_revokeSession request form token seen found now
    w0 w4 Hform Hpath Htok Hcsrf Hok0 Hs Hl4 Hok4)].
  intros w5 unrevoked _ [Hok5 Hr]. destruct unrevoked as [?|]; [cbn; quiet|].
  destruct (Hr eq_refl) as (w6 & Hl6 & Hl7 & Hno).
  apply wp_silent_bind; [done|apply silent_expireCookie|]. intros h' w7 Hl8 Hok7. cbn.
  split; [done|]. intros _. exists form. split; [done|]. right. split; [done|].
  exists token, seen, now, w0, w6. repeat (split; [done|]). split; [by etrans|].
  split; [done|]. split; [by eapply Held_Accepted|done].
Qed.

Lemma wp_css h w :
  SERVES (Ret (match allowMethod h request MethodGet with
    | Some denied => denied
    | None => WriteHeader StatusOK
                (Header_Set "Content-Type" "text/css; charset=utf-8" h) PortalCSS
    end)) w.
Proof. cbn. unfold allowMethod. destruct (_ == _); quiet. Qed.
End Serving.

Lemma wp_ServeHTTP request w :
  store_ok w ->
  WP (may_write (Serve request)) (ServeHTTP server request) (Truthful request) w.
Proof.
  intros Hok. unfold ServeHTTP. destruct (_ || _); [by apply quiet_truthful|].
  destruct (HasPrefix _ "/healthz/"); [by apply wp_health|].
  destruct (r_Host request != srv_originHost server) eqn:Hh; cbn [orb];
    [by apply quiet_truthful|]. go_simp.
  destruct (_ && _); [by apply quiet_truthful|].
  destruct (r_Path request == "/api/v1/provider"); [by apply wp_provider|].
  destruct (r_Path request == "/"); [by apply wp_portal|].
  destruct (r_Path request == "/login") eqn:Hlogin; go_simp.
  { by apply wp_login; [|unfold setHeaders; case_match| |]. }
  destruct (r_Path request == "/logout") eqn:Hlogout; go_simp; [by apply wp_logout|].
  destruct (r_Path request == "/assets/portal.css"); [apply wp_css|by apply quiet_truthful].
Qed.

(** ** Starting a process *)

(** The store is bound to the identity and the operator token. *)
Definition Bound w (id token : string) : Prop :=
  exists v state, v ∈ history w installationDocument /\
    DecodeExact (A := installationState) v = Ok state /\
    ist_InstallationID state = id /\ ist_OperatorTokenSHA256 state = tokenHash token.

Lemma Bound_stable w w' id token : later w w' -> Bound w id token -> Bound w' id token.
Proof.
  intros Hl (v & state & Hv & Hd & Hs). exists v, state. split; [|done].
  apply list_elem_of_lookup in Hv as [i Hi]. eapply list_elem_of_lookup_2.
  eapply prefix_lookup_Some; [exact Hi|apply Hl].
Qed.

Definition bound_post (config : Config) (token : string) w (r : result installationState) : Prop :=
  is_Ok r = true -> Bound w (cfg_InstallationID config) token.

Lemma validateInstallation_Bound w (found : Document V) id token state :
  doc_Value found ∈ history w installationDocument ->
  validateInstallation found id token = Ok state -> Bound w id token.
Proof.
  intros Hin Hv. unfold validateInstallation in Hv.
  destruct (DecodeExact _) as [state'|] eqn:Hd; [|discriminate Hv].
  destruct (_ || _) eqn:Hg in Hv; [discriminate Hv|]. clear Hv.
  exists (doc_Value found), state'. split; [done|]. split; [done|].
  repeat match goal with H : _ || _ = false |- _ => apply orb_false_iff in H as [H ?] end.
  split.
  - match goal with H : (ist_InstallationID _ != _) = false |- _ => by apply string_neqb_false in H end.
  - match goal with H : negb (equalHash _ _) = false |- _ =>
      apply negb_false_iff, equalHash_iff in H as [_ H]; exact H end.
Qed.

Lemma loaded_in w (found : Document V) :
  loaded w stateScope installationKey (Ok found) ->
  doc_Value found ∈ history w installationDocument.
Proof. inversion 1; subst. cbn. by apply last_Some_elem_of. Qed.

Section Starting.
Context (config : Config) (token : string) (build : BuildInfo) (process : nat).
Context (Hvalid : Validate config = None) (Htoken : operatorTokenPattern token = true).

#[local] Abbreviation STARTS p w :=
  (WP (may_write (Start config token build process)) p (bound_post config token) w).

Lemma wp_resolve r w :
  (forall found, r = Ok found -> doc_Value found ∈ history w installationDocument) ->
  STARTS (match r with
     | Err _ => Ret (Err errState)
     | Ok found => Ret (validateInstallation found (cfg_InstallationID config) token)
     end) w.
Proof.
  intros Hr. destruct r as [found|err]; [|done]. cbn. intros Hok.
  destruct (validateInstallation _ _ _) as [state|] eqn:Hv; [|done].
  by eapply validateInstallation_Bound; [apply Hr|exact Hv].
Qed.

Lemma wp_bootstrap now w :
  STARTS (bootstrap (cfg_InstallationID config) token now) w.
Proof.
  wp_step w1 Hl1 Hok1 unready w2 Hu Hok2. destruct unready; [done|].
  wp_step w3 Hl3 Hok3 r1 w4 Hf Hok4. destruct Hf as [-> Hf].
  destruct r1 as [found|err]; [apply (wp_resolve (Ok found))|].
  { intros ? [= <-]. by apply loaded_in. }
  destruct (errors_Is err ErrNotFound); [|done].
  destruct (json_Marshal _) as [value|] eqn:Hm; [|done].
  intros w5 Hl5 Hok5. split; [cbn; eauto 10|]. intros created w6 Hc Hok6.
  destruct created as [found|serr].
  - apply (wp_resolve (Ok found)). intros ? [= <-]. cbn in Hc.
    inversion Hc; subst. cbn. rewrite history_append, decide_True by done.
    apply elem_of_app. right. by apply list_elem_of_singleton.
  - wp_step w7 Hl7 Hok7 r2 w8 Ha Hok8. destruct Ha as [-> Ha].
    apply (wp_resolve r2). intros found ->. by apply loaded_in.
Qed.
End Starting.

(** What a finished job says. *)
Definition job_post (j : job) w (o : outcome) : Prop :=
  match j, o with
  | Serve request, Served response => Truthful request w response
  | Start config token build process, Started r =>
      forall s, r = Ok s -> Bound w (cfg_InstallationID config) token
  | _, _ => False
  end.

Lemma wp_New config token build process w :
  store_ok w ->
  WP (may_write (Start config token build process)) (New config token build process)
    (fun w' r => forall s, r = Ok s -> Bound w' (cfg_InstallationID config) token) w.
Proof.
  intros Hok. unfold New.
  destruct (Validate config) eqn:Hvalid; cbn [is_nil negb orb]; [by cbn|].
  destruct (operatorTokenPattern token) eqn:Htoken; cbn [negb]; [|by cbn].
  apply wp_silent_bind; [done|by split|]. intros now w1 Hl1 Hok1.
  apply wp_bind. eapply store_wp_mono; [|by apply (wp_bootstrap config token build process)].
  intros w2 r _ Hb. cbn. intros s Hs. apply Hb. by destruct r.
Qed.

Lemma wp_run_job j w :
  store_ok w -> WP (may_write j) (run_job j) (job_post j) w.
Proof.
  intros Hok. destruct j as [config token build process|request]; apply wp_bind;
    (eapply store_wp_mono; [|]).
  2: by apply wp_New.
  3: by apply wp_ServeHTTP.
  - intros w' r _ Hr. exact Hr.
  - intros w' r _ Hr. exact Hr.
Qed.

End Caller.

Lemma job_post_stable j : store_stable (job_post j).
Proof.
  intros w w' o Hl. destruct j as [config token build process|request], o as [r|response];
    cbn; try done.
  - intros Hb s Hs. eapply Bound_stable; [exact Hl|by eapply Hb].
  - by apply Truthful_stable.
Qed.

(** Any execution of processes that start and requests that are served, each of
    which may die between two calls. *)
Definition execution w (pool : list (job * option (store V LoginLimiter outcome))) : Prop :=
  rtc (store_step canonicalJSON new_limiter run_job)
    ({| w_documents := ∅; w_guarded := ∅ |}, []) (w, pool).

Lemma execution_sound w pool :
  execution w pool ->
  store_ok w /\
  (forall i j scope key expected value k,
     pool !! i = Some (j, Some (Vis (Save scope key expected value) k)) ->
     may_write j w (scope, key) expected value) /\
  (forall i j o, pool !! i = Some (j, Some (Ret o)) -> job_post j w o).
Proof.
  intros Hx. eapply (store_sound canonicalJSON new_limiter store_ok run_job may_write job_post);
    [exact store_ok_locked|exact store_ok_append|exact job_post_stable| | |exact Hx].
  - intros j who w'. apply wp_run_job.
  - split; [constructor|by left].
Qed.
End Handlers.
