(* ===== verification/ControlPlaneRun.v ===== *)
(** * The control plane when nothing fails

    The handlers under the interpreter of the faultless store: the start of a
    process on an empty store, and the life of a session from the login over
    the page to the logout. *)

From stdpp Require Import gmap strings list.
From Stdlib Require Import ZArith Lia.
From S2P Require Import Prelude GoString GoTime GoSha256 GoCrypto IdentitySession GoHttp Programs StateStore ControlPlane ControlPlaneCorrect.

#[local] Open Scope Z_scope.

#[local] Arguments errors_Is : simpl never.
#[local] Arguments validateInstallation : simpl never.
#[local] Arguments session_valid : simpl never.
#[local] Arguments history : simpl never.
#[local] Arguments append_value : simpl never.
#[local] Arguments operatorTokenPattern : simpl never.

Section Runs.
Context {V : Type} `{JsonText V, JsonCodec V installationState, JsonCodec V sessionState}.
Context `{!JsonCodecLaws V installationState, !JsonCodecLaws V sessionState, NetParsers}.
Context (random : nat -> list Z) (random_ok : forall n, drawn n (Ok (random n))).

#[local] Abbreviation world := (StateStore.world V LoginLimiter).
#[local] Abbreviation run t p w := (exec (answer canonicalJSON new_limiter t random) p w).
Implicit Types w : world.

(** The store holds the installation of the server. *)
Definition installed (server : Server) w (state : installationState) : Prop :=
  exists v, history w installationDocument = [v] /\
    DecodeExact v = Ok state /\ ist_SchemaVersion state = 1 /\
    ist_InstallationID state = cfg_InstallationID (srv_config server) /\
    ist_Profile state = DevelopmentProfile /\
    ist_OperatorID state = operatorID (cfg_InstallationID (srv_config server)) /\
    ist_OperatorTokenSHA256 state = tokenHash (srv_operatorToken server) /\
    ist_CreatedAt state <> 0 /\ ist_Products state = Some [].

Lemma equalHash_refl token : equalHash (tokenHash token) (tokenHash token) = true.
Proof. apply equalHash_iff. split; [apply sha256_hex_len|exact eq_refl]. Qed.

Lemma validateInstallation_ok (found : Document V) id token state :
  DecodeExact (doc_Value found) = Ok state -> 1 <= doc_Revision found ->
  ist_SchemaVersion state = 1 -> ist_InstallationID state = id ->
  ist_Profile state = DevelopmentProfile -> ist_OperatorID state = operatorID id ->
  ist_OperatorTokenSHA256 state = tokenHash token -> ist_CreatedAt state <> 0 ->
  ist_Products state = Some [] -> validateInstallation found id token = Ok state.
Proof.
  intros Hd Hr Hs Hi Hp Ho Ht Hc Hl. unfold validateInstallation.
  rewrite Hd, Hs, Hi, Hp, Ho, Ht, Hl, equalHash_refl, !String.eqb_refl. cbn.
  rewrite (proj2 (Z.ltb_ge _ _)) by done. unfold IsZero.
  by rewrite (proj2 (Z.eqb_neq _ _)) by done.
Qed.

Lemma run_loadInstallation server t w state :
  installed server w state -> run t (loadInstallation server) w = (Ok state, w).
Proof.
  intros (v & Hh & Hd & Hv). cbn.
  change (stateScope, installationKey) with installationDocument. rewrite Hh. cbn.
  f_equal. by apply validateInstallation_ok; try apply Hv.
Qed.

Lemma run_ready server t w state :
  installed server w state -> run t (ready server) w = (None, w).
Proof.
  intros Hi. unfold ready. rewrite exec_bind. cbn [exec answer call].
  by rewrite exec_bind, (run_loadInstallation _ _ _ _ Hi).
Qed.

Definition status_of (server : Server) (state : installationState) : ProviderStatus :=
  {| ps_APIVersion := APIVersion; ps_InstallationID := ist_InstallationID state;
     ps_Profile := ist_Profile state; ps_Status := "ready";
     ps_OperatorID := ist_OperatorID state; ps_CreatedAt := ist_CreatedAt state;
     ps_Products := ist_Products state;
     ps_Components := {| cs_Database := "writable" |}; ps_Build := srv_build server |}.

Lemma run_providerStatus server t w state :
  installed server w state ->
  run t (providerStatus server) w = (Ok (status_of server state), w).
Proof.
  intros Hi. unfold providerStatus. rewrite exec_bind. cbn [exec answer call].
  by rewrite exec_bind, (run_loadInstallation _ _ _ _ Hi).
Qed.

(** A process starts on an empty store. *)
Lemma run_New config token build process origin t :
  Validate config = None -> operatorTokenPattern token = true ->
  url_Parse (cfg_PublicOrigin config) = Some origin -> t <> 0 -> wire_time t ->
  let server := new_server config token (url_Host origin) build process in
  exists w state,
    run t (New config token build process) {| w_documents := ∅; w_guarded := ∅ |} = (Ok server, w) /\
    installed server w state /\ history w sessionDocument = [] /\ w_guarded w = ∅.
Proof.
  intros Hvalid Htoken Horigin Ht Hwire server.
  set (state := initial_installation (cfg_InstallationID config) token t).
  assert (installationPattern (cfg_InstallationID config) = true) as Hid.
  { unfold Validate, validIdentity in Hvalid. case_match eqn:Hg; [done|]. by go_simp. }
  pose proof (initial_installation_texts _ token t Hid) as Htexts.
  destruct (json_total (V := V) state Htexts ltac:(by repeat constructor; apply Hwire))
    as (value & text & Hm & Hc).
  pose proof (json_round_trip state value text Htexts Hm Hc) as Hd.
  exists (append_value {| w_documents := ∅; w_guarded := ∅ |} installationDocument text), state.
  assert (history (M := LoginLimiter) (V := V) {| w_documents := ∅; w_guarded := ∅ |}
    (stateScope, installationKey) = []) as Hempty by done.
  split; [|split; [|split]].
  - unfold New. rewrite Hvalid, Htoken. cbn [is_nil negb orb]. rewrite exec_bind.
    cbn [exec answer call]. rewrite exec_bind. unfold bootstrap. cbn.
    fold state. rewrite Hm, !Hempty. cbn. rewrite errors_Is_refl. cbn. rewrite Hc, !Hempty. cbn.
    change (Z.of_nat 0 =? 0) with true. cbn.
    rewrite (validateInstallation_ok _ _ _ state); try done. by rewrite Horigin.
  - exists text. split; [done|]. split; [exact Hd|]. repeat split; try done.
  - done.
  - done.
Qed.

(** ** Sessions *)

Lemma answer_save t scope key value text w :
  canonicalJSON value = Some text ->
  answer canonicalJSON new_limiter t random _
    (Save scope key (Z.of_nat (length (history w (scope, key)))) value) w =
  (Ok (document scope key (history w (scope, key) ++ [text]) text t),
   append_value w (scope, key) text).
Proof. intros Hc. unfold answer. by rewrite Z.eqb_refl, Hc. Qed.

Definition session_times (t : Time) : Prop := wire_time t /\ wire_time (t + sessionLifetime).

(** A login stores the session of the token that was drawn, whatever session
    was stored before. *)
Lemma run_createSession server t w :
  installationPattern (cfg_InstallationID (srv_config server)) = true -> session_times t ->
  let token := EncodeToString (random 32) in
  exists text, entry_of server text token t false /\ operatorTokenPattern token = true /\
    run t (createSession server t) w = (Ok token, append_value w sessionDocument text).
Proof.
  intros Hid [Ht1 Ht2] token.
  destruct (random_ok 32 (random 32) eq_refl) as [Hlen _].
  pose proof (session_entry_texts server Hid token t false) as Htexts.
  destruct (json_total (V := V) (session_entry server token t false) Htexts) as (value & text & Hm & Hc).
  { exact (Forall_cons_2 _ _ _ Ht1 (Forall_cons_2 _ _ _ Ht2 (Forall_nil_2 _))). }
  exists text. split; [|split].
  - exact (json_round_trip _ _ _ Htexts Hm Hc).
  - by apply EncodeToString_token.
  - unfold createSession. rewrite exec_bind. cbn [exec answer call]. fold token.
    change (session_entry server token t false) with (new_session server token t) in Hm.
    rewrite Hm. cbn [create_attempts]. rewrite exec_bind. cbn [exec answer call].
    assert (forall retry, run t (save_session retry token (new_session server token t) value
        (Z.of_nat (length (history w sessionDocument)))) w =
      (Ok token, append_value w sessionDocument text)) as Hsave.
    { intros retry. unfold save_session. rewrite exec_bind. cbn [exec call].
      unfold sessionDocument. by rewrite (answer_save _ _ _ _ _ _ Hc). }
    destruct (last (history w (stateScope, sessionKey))) as [v|] eqn:Hl.
    + apply Hsave.
    + rewrite errors_Is_refl. cbn [negb]. apply last_None in Hl.
      specialize (Hsave (create_attempts 2 token (new_session server token t) value)).
      unfold sessionDocument in Hsave. rewrite Hl in Hsave. apply Hsave.
Qed.

(** The store's session is the token's. *)
Definition live (server : Server) w (token : string) (created : Time) : Prop :=
  operatorTokenPattern token = true /\
  exists v, last (history w sessionDocument) = Some v /\ entry_of server v token created false.

Lemma live_valid server token created t revision :
  1 <= revision -> created <= t < created + sessionLifetime -> session_times created ->
  session_valid server (session_entry server token created false) revision token t = true.
Proof.
  intros Hr Ht [Hw _]. unfold session_valid, session_entry, new_session.
  cbn [ss_SchemaVersion ss_Revoked ss_InstallationID ss_OperatorID ss_TokenSHA256 ss_CreatedAt
       ss_ExpiresAt].
  rewrite equalHash_refl, !String.eqb_refl, (proj2 (Z.leb_le _ _)) by done.
  unfold After, time_Add. rewrite (proj2 (Z.ltb_ge t created)) by lia.
  rewrite (proj2 (Z.ltb_lt _ _)) by lia. cbn [negb andb].
  rewrite time_Sub_exact; [apply Z.eqb_eq; lia|].
  unfold is_int64, min_int64, max_int64, sessionLifetime, Minute, Second. lia.
Qed.

Lemma run_loadSession server token created t w :
  live server w token created -> created <= t < created + sessionLifetime ->
  session_times created ->
  exists v, last (history w sessionDocument) = Some v /\ entry_of server v token created false /\
    run t (loadSession server token t) w =
      (Ok (document stateScope sessionKey (history w sessionDocument) v t), w).
Proof.
  intros (Hp & v & Hl & He) Ht Hw. exists v. split; [done|]. split; [done|].
  unfold loadSession. rewrite Hp. cbn [negb]. rewrite exec_bind. cbn [exec answer call].
  change (stateScope, sessionKey) with sessionDocument. rewrite Hl. cbn [doc_Value document].
  unfold entry_of in He. rewrite He. cbn [doc_Revision document].
  rewrite live_valid; [done| |done|done].
  assert (history w sessionDocument <> []) as Hne by (intros Hn; by rewrite Hn in Hl).
  destruct (history w sessionDocument); [done|]. cbn. lia.
Qed.

(** ** Requests of the browser *)

Record addressed (server : Server) (request : Request) (path method : string) : Prop := {
  to_query : r_RawQuery request = "" /\ r_Fragment request = "";
  to_host : r_Host request = srv_originHost server;
  to_origin : Header_Get request "Origin" = "" \/
              Header_Get request "Origin" = cfg_PublicOrigin (srv_config server);
  to_path : r_Path request = path;
  to_method : r_Method request = method
}.

Definition carries (request : Request) (token : string) : Prop :=
  r_Cookies request = [(sessionCookieName, token)].

Definition posts (server : Server) (request : Request) (path : string) (form : Values) : Prop :=
  addressed server request path MethodPost /\ same_origin server request form /\
  Header_Get request "Content-Type" = "application/x-www-form-urlencoded".

Definition page_headers : Headers := setHeaders false {| h_Fields := ∅; h_Cookies := [] |}.

(** Dispatch to the handlers of the pages. *)
Lemma serve_page server request path method t w :
  addressed server request path method -> path ∈ ["/"; "/login"; "/logout"] ->
  run t (ServeHTTP server request) w =
  run t (if path == "/" then portal server page_headers request
         else if path == "/login" then login server page_headers request
         else logout server page_headers request) w.
Proof.
  intros [[Hq Hf] Hh Ho Hp _] Hpath. unfold ServeHTTP. rewrite Hq, Hf, Hh, Hp. cbn [negb orb].
  assert (HasPrefix path "/api/" = false /\ HasPrefix path "/healthz/" = false /\
          (path == "/api/v1/provider") = false /\
          ((path == "/") || (path == "/login") || (path == "/logout")) = true)
    as (-> & -> & -> & Hcases).
  { clear Hp. revert path Hpath. apply Forall_forall. by repeat constructor. }
  rewrite !String.eqb_refl. cbn [negb orb].
  replace ((_ != "") && (_ != _)) with false.
  2: { destruct Ho as [->| ->]; [done|]. by rewrite String.eqb_refl, andb_false_r. }
  cbn [negb orb]. destruct (path == "/"), (path == "/login"), (path == "/logout"); done.
Qed.

Lemma requestSessionToken_carries request token :
  carries request token -> requestSessionToken request = (token, operatorTokenPattern token).
Proof. unfold carries, requestSessionToken. by intros ->. Qed.

Lemma sameOriginForm_posts server h request path form :
  posts server request path form -> sameOriginForm server h request = inl form.
Proof.
  intros (_ & (_ & _ & Ho & Hf) & Hct). unfold sameOriginForm.
  by rewrite Ho, Hct, !String.eqb_refl, Hf.
Qed.

Lemma allowMethod_same h request method :
  r_Method request = method -> allowMethod h request method = None.
Proof. intros <-. unfold allowMethod. by rewrite String.eqb_refl. Qed.

(** A token of hexadecimal digits is a valid cookie. *)
Lemma session_cookie_ok token t :
  operatorTokenPattern token = true ->
  session_cookie token t =
  Ok (newSecureHostCookie sessionCookieName token "/" (time_Add t sessionLifetime) 1800
        http_SameSiteStrictMode).
Proof.
  unfold operatorTokenPattern. intros Hp. go_simp.
  unfold session_cookie, NewSessionCookie, validateHostCookiePolicy.
  cbn [cp_Name cp_Value cp_Path cp_SameSite cp_Lifetime].
  assert (Cookie_Valid (newSecureHostCookie sessionCookieName token "/" time_zero 0
    http_SameSiteLaxMode) = true) as ->.
  { unfold Cookie_Valid, newSecureHostCookie. cbn [ck_Name ck_Value ck_Path ck_Expires].
    rewrite !andb_true_iff. repeat split; try done.
    eapply all_chars_impl; [|done]. by_characters. }
  assert ((token == "") = false) as -> by (apply String.eqb_neq; intros ->; done).
  reflexivity.
Qed.

(** ** The pages *)

Lemma installed_documents server w w' state :
  history w' installationDocument = history w installationDocument ->
  installed server w state -> installed server w' state.
Proof. unfold installed. by intros ->. Qed.

Lemma installed_append server w state text :
  installed server w state -> installed server (append_value w sessionDocument text) state.
Proof. apply installed_documents. by rewrite history_append, decide_False. Qed.

Lemma run_login server request form state t w :
  installationPattern (cfg_InstallationID (srv_config server)) = true ->
  installed server w state -> session_times t -> posts server request "/login" form ->
  token_valid server form = true ->
  (lock new_limiter w (srv_process server) (allowLogin t)).2 = true ->
  let token := EncodeToString (random 32) in
  exists response w' cookie, run t (ServeHTTP server request) w = (response, w') /\
    rs_Status response = StatusSeeOther /\ h_Cookies (rs_Headers response) = [cookie] /\
    ck_Name cookie = sessionCookieName /\ ck_Value cookie = token /\
    live server w' token t /\ installed server w' state.
Proof.
  intros Hid Hi Ht Hposts Hvalid Hlock token.
  pose proof Hposts as [Haddr _].
  rewrite (serve_page _ _ _ _ _ _ Haddr) by by right; left.
  change ("/login" == "/") with false. change ("/login" == "/login") with true. cbv iota.
  unfold login. rewrite (to_method _ _ _ _ Haddr).
  change (MethodPost == MethodGet) with false. cbv iota.
  rewrite (allowMethod_same _ _ _ (to_method _ _ _ _ Haddr)),
    (sameOriginForm_posts _ _ _ _ _ Hposts).
  rewrite exec_bind. cbn [exec answer call]. rewrite exec_bind. cbn [exec answer call].
  destruct (lock new_limiter w (srv_process server) (allowLogin t)) as [w1 allowed] eqn:Hw1.
  cbn in Hlock. subst allowed. rewrite Hvalid. cbn [negb].
  assert (forall key, history w1 key = history w key) as Hsame.
  { intros key. pose proof (history_lock new_limiter w (srv_process server) (allowLogin t) key) as Hk.
    by rewrite Hw1 in Hk. }
  assert (installed server w1 state) as Hi1 by (eapply installed_documents; [apply Hsame|done]).
  rewrite exec_bind, (run_ready _ _ _ _ Hi1). cbv iota beta. rewrite exec_bind.
  cbn [exec answer call].
  destruct (run_createSession server t w1 Hid Ht) as (text & He & Hp & Hrun).
  rewrite exec_bind, Hrun. cbv iota beta. fold token. rewrite exec_bind.
  cbn [exec answer call].
  rewrite (session_cookie_ok _ _ Hp). do 3 eexists. split; [reflexivity|].
  split; [reflexivity|]. split; [reflexivity|]. split; [reflexivity|]. split; [reflexivity|].
  split; [|by apply installed_append]. split; [exact Hp|]. exists text.
  split; [|exact He]. rewrite history_append, decide_True by done. by rewrite last_snoc.
Qed.

Definition csrf_ready (server : Server) : Prop :=
  length (csrf_keyMaterial (srv_csrf server)) = 32%nat /\
  Forall is_byte (csrf_keyMaterial (srv_csrf server)) /\
  csrf_maxAge (srv_csrf server) = sessionLifetime.

Lemma run_issue_csrf server token t w :
  csrf_ready server -> operatorTokenPattern token = true -> exists csrf,
    Issue (srv_csrf server) token t (fun n => Ok (random n)) = Ok csrf /\
    run t (issue_csrf server token t) w = (Ok csrf, w).
Proof.
  intros (Hlen & _ & _) Hp. unfold issue_csrf, Issue. rewrite Hlen.
  change (32 <? minCSRFKeyMaterialBytes)%nat with false.
  assert ((token == "") = false) as -> by (apply String.eqb_neq; by intros ->).
  cbv iota. eexists. split; [reflexivity|]. rewrite exec_bind. reflexivity.
Qed.

Lemma run_page server request token created state t w :
  installed server w state -> csrf_ready server -> session_times created ->
  created <= t < created + sessionLifetime -> live server w token created ->
  addressed server request "/" MethodGet -> carries request token ->
  exists csrf, Issue (srv_csrf server) token t (fun n => Ok (random n)) = Ok csrf /\
    run t (ServeHTTP server request) w =
      (renderPortal page_headers StatusOK (view_provider (status_of server state) csrf), w).
Proof.
  intros Hi Hkey Hw Ht Hlive Haddr Hcarry.
  destruct (run_issue_csrf server token t w Hkey (proj1 Hlive)) as (csrf & Hissue & Hrun).
  exists csrf. split; [exact Hissue|].
  rewrite (serve_page _ _ _ _ _ _ Haddr) by by left.
  change ("/" == "/") with true. cbv iota. unfold portal.
  rewrite (allowMethod_same _ _ _ (to_method _ _ _ _ Haddr)), exec_bind, (run_ready _ _ _ _ Hi).
  rewrite (requestSessionToken_carries _ _ Hcarry), (proj1 Hlive). cbn [negb].
  rewrite exec_bind. cbn [exec answer call].
  destruct (run_loadSession server token created t w Hlive Ht Hw) as (v & _ & _ & Hload).
  rewrite exec_bind, Hload. cbv iota beta.
  rewrite exec_bind, (run_providerStatus _ _ _ _ Hi). cbv iota beta.
  rewrite exec_bind. cbn [exec answer call]. rewrite exec_bind, Hrun. reflexivity.
Qed.

(** The page of a revoked session asks to sign in again. *)
Lemma run_page_refused server request token token' created state text t w :
  installed server w state -> last (history w sessionDocument) = Some text ->
  entry_of server text token' created true -> operatorTokenPattern token = true ->
  addressed server request "/" MethodGet -> carries request token ->
  exists response, run t (ServeHTTP server request) w = (response, w) /\
    rs_Status response = StatusUnauthorized /\ rs_Body response = Portal view_failed.
Proof.
  intros Hi Hl He Hp Haddr Hcarry.
  rewrite (serve_page _ _ _ _ _ _ Haddr) by by left.
  change ("/" == "/") with true. cbv iota. unfold portal.
  rewrite (allowMethod_same _ _ _ (to_method _ _ _ _ Haddr)), exec_bind, (run_ready _ _ _ _ Hi).
  rewrite (requestSessionToken_carries _ _ Hcarry), Hp. cbn [negb].
  rewrite exec_bind. cbn [exec answer call].
  assert (run t (loadSession server token t) w = (Err errSessionInvalid, w)) as Hload.
  { unfold loadSession. rewrite Hp. cbn [negb]. rewrite exec_bind. cbn [exec answer call].
    change (stateScope, sessionKey) with sessionDocument. rewrite Hl. cbn [doc_Value document].
    unfold entry_of in He. rewrite He. unfold session_valid. cbn [session_entry ss_Revoked revoked].
    rewrite andb_false_r. reflexivity. }
  rewrite exec_bind, Hload. cbv iota beta. rewrite exec_bind. unfold expireCookie.
  rewrite exec_bind. cbn [exec answer call]. eexists. split; [reflexivity|]. by split.
Qed.

Lemma wire_is_Time t : wire_time t -> is_Time t.
Proof.
  unfold wire_time, is_Time, is_int64, min_int64, max_int64, year_10000, Second. intros Ht.
  pose proof (Z.div_pos t 1000000000). pose proof (Z.div_le_upper_bound t 1000000000
    315537897600). lia.
Qed.

(** A fresh request token of the session passes. *)
Lemma issued_token_passes server token csrf t t' :
  csrf_ready server -> wire_time t -> truncated t <= t' <= truncated t + sessionLifetime ->
  Issue (srv_csrf server) token t (fun n => Ok (random n)) = Ok csrf ->
  CSRF_Check (srv_csrf server) csrf token t' = None.
Proof.
  intros (Hlen & Hkb & Hage) Ht Ht' (Hkey & Hsid & nonce & Hr & ->)%Issue_spec.
  injection Hr as <-. destruct (random_ok 16 (random 16) eq_refl) as [Hn Hnb].
  apply CSRF_Check_raw; try done.
  - apply hmac_bytes.
  - by apply wire_is_Time.
  - by rewrite Hage.
  - split; [exact eq_refl|]. unfold csrf_window. by rewrite Hage.
Qed.

Lemma run_revokeSession server token created v t w :
  installationPattern (cfg_InstallationID (srv_config server)) = true ->
  session_times created -> entry_of server v token created false -> exists text,
    entry_of server text token created true /\
    run t (revokeSession server (document stateScope sessionKey (history w sessionDocument) v t)
             token) w = (None, append_value w sessionDocument text).
Proof.
  intros Hid [Ht1 Ht2] He. unfold entry_of in He.
  pose proof (session_entry_texts server Hid token created true) as Htexts.
  destruct (json_total (V := V) (session_entry server token created true) Htexts)
    as (value & text & Hm & Hc).
  { exact (Forall_cons_2 _ _ _ Ht1 (Forall_cons_2 _ _ _ Ht2 (Forall_nil_2 _))). }
  exists text. split; [exact (json_round_trip _ _ _ Htexts Hm Hc)|].
  unfold revokeSession. cbn [doc_Value document]. rewrite He.
  change (revoked (session_entry server token created false))
    with (session_entry server token created true). rewrite Hm, exec_bind.
  cbn [exec call doc_Revision document]. unfold sessionDocument.
  by rewrite (answer_save _ _ _ _ _ _ Hc).
Qed.

Lemma run_logout server request form token created csrf state t t' w :
  installationPattern (cfg_InstallationID (srv_config server)) = true ->
  installed server w state -> csrf_ready server -> session_times created ->
  created <= t' < created + sessionLifetime -> live server w token created -> wire_time t ->
  truncated t <= t' <= truncated t + sessionLifetime ->
  Issue (srv_csrf server) token t (fun n => Ok (random n)) = Ok csrf ->
  posts server request "/logout" form -> form = {["csrf" := [csrf]]} -> carries request token ->
  exists response w' text, run t' (ServeHTTP server request) w = (response, w') /\
    rs_Status response = StatusSeeOther /\ last (history w' sessionDocument) = Some text /\
    entry_of server text token created true /\ installed server w' state.
Proof.
  intros Hid Hi Hkey Hw Ht Hlive Hwire Hwin Hissue Hposts -> Hcarry.
  pose proof Hposts as [Haddr _].
  rewrite (serve_page _ _ _ _ _ _ Haddr) by by right; right; left.
  change ("/logout" == "/") with false. change ("/logout" == "/login") with false. cbv iota.
  unfold logout.
  rewrite (allowMethod_same _ _ _ (to_method _ _ _ _ Haddr)),
    (sameOriginForm_posts _ _ _ _ _ Hposts),
    (requestSessionToken_carries _ _ Hcarry), (proj1 Hlive).
  change (single_field {["csrf" := [csrf]]} "csrf") with true. cbn [negb orb].
  rewrite exec_bind. cbn [exec answer call].
  change (Values_Get {["csrf" := [csrf]]} "csrf") with csrf.
  rewrite (issued_token_passes _ _ _ _ _ Hkey Hwire Hwin Hissue). cbn [is_nil negb].
  rewrite exec_bind, (run_ready _ _ _ _ Hi). cbv iota beta.
  rewrite exec_bind. cbn [exec answer call].
  destruct (run_loadSession server token created t' w Hlive Ht Hw) as (v & _ & He & Hload).
  rewrite exec_bind, Hload. cbv iota beta.
  destruct (run_revokeSession server token created v t' w Hid Hw He) as (text & He' & Hrev).
  rewrite exec_bind, Hrev. cbv iota beta. rewrite exec_bind. unfold expireCookie.
  rewrite exec_bind. cbn [exec answer call].
  do 3 eexists.
  split; [reflexivity|]. split; [reflexivity|].
  split; [|split; [exact He'|by apply installed_append]].
  rewrite history_append, decide_True by done. by rewrite last_snoc.
Qed.
End Runs.
