(* ===== verification/ControlPlaneTheorems.v ===== *)
(** * What the control plane promises

    The theorems about [pkg/controlplane] and the request tokens of
    [pkg/identity]: in any interleaving of starting processes and served
    requests over a store that can fail at any call, writes are authorised,
    responses are truthful and at most one session is live; the login limit;
    and the life of a session when nothing fails. *)

From stdpp Require Import gmap strings list.
From Stdlib Require Import ZArith Lia.
From S2P Require Import Prelude GoString GoTime GoSha256 GoCrypto IdentitySession GoHttp Programs StateStore ControlPlane ControlPlaneCorrect ControlPlaneRun.

#[local] Open Scope Z_scope.

Section Interleavings.
Context {V : Type} `{JsonText V, JsonCodec V installationState, JsonCodec V sessionState}.
Context `{!JsonCodecLaws V installationState, !JsonCodecLaws V sessionState, NetParsers}.
Context {clk : Clock} (server : Server).

(** C8. Every write is authorised: whatever processes start, requests are
    served, calls fail and requests die, a pending write of a starting process creates the
    installation document, and one of a request is a login that presents the
    operator token and stores a fresh session, or a logout that presents the
    session and its request token and revokes the revision that holds exactly
    this session; both come from the configured host and origin by POST. *)
Theorem every_write_is_authorised w pool i j scope key expected value k :
  installationPattern (cfg_InstallationID (srv_config server)) = true ->
  execution server w pool ->
  pool !! i = Some (j, Some (Vis (Save scope key expected value) k)) ->
  may_write server j w (scope, key) expected value.
Proof.
  intros Hid Hx Hi. destruct (execution_sound server Hid w pool Hx) as (_ & Hw & _).
  by eapply Hw.
Qed.

(** C9. Responses are truthful: a response that shows the installation
    answers the operator token or a session that was live, a login redirect
    carries a session that is stored, and a logout redirect means that the
    session was live at an instant the clock showed and then had ended, even
    when the answer of the store was lost: at no instant whatever does the
    store accept its token any more, as after every revocation, or the token's
    unrevoked session is still stored and the clock showed an instant outside
    of its half hour.  The set of instants the clock shows is arbitrary; if
    they are all in the session's half hour, the logout has revoked it, or
    found it revoked or replaced ([Ended_revoked]). *)
Theorem responses_are_truthful w pool i request response :
  installationPattern (cfg_InstallationID (srv_config server)) = true ->
  execution server w pool ->
  pool !! i = Some (Serve request, Some (Ret (Served response))) ->
  Truthful server request w response.
Proof.
  intros Hid Hx Hi. destruct (execution_sound server Hid w pool Hx) as (_ & _ & Ho).
  exact (Ho _ _ _ Hi).
Qed.

(** C10. One live session: in every execution the tokens the store accepts are
    one token, or collide under SHA-256, and a token is accepted only for
    thirty minutes from the instant its login recorded. *)
Theorem one_session_is_live w pool :
  installationPattern (cfg_InstallationID (srv_config server)) = true ->
  execution server w pool ->
  exists created, forall token now, Accepted server w token now ->
    created <= now < created + sessionLifetime /\
    forall token' now', Accepted server w token' now' -> token' = token \/ collision token' token.
Proof.
  intros Hid Hx. destruct (execution_sound server Hid w pool Hx) as ([Hlog _] & _ & _).
  destruct (last (history w sessionDocument)) as [v|] eqn:Hl.
  2: { exists 0. intros token now (_ & v & state & Hv & _). congruence. }
  destruct (session_log_entry server _ _ Hlog (last_Some_elem_of _ _ Hl))
    as (token0 & created & r & _ & He).
  assert (forall token now, Accepted server w token now ->
    created <= now < created + sessionLifetime /\ tokenHash token = tokenHash token0) as Hacc.
  { intros token now (_ & v' & state & Hv & Hd & Hvalid). rewrite Hl in Hv. injection Hv as <-.
    unfold entry_of in He. rewrite Hd in He. injection He as Hstate.
    destruct (session_valid_entry server _ _ _ _ _ _ _ Hstate Hvalid) as (-> & Heq & Hnow).
    split; [exact Hnow|]. rewrite Hstate in Heq.
    exact (eq_sym (f_equal ss_TokenSHA256 Heq)). }
  exists created. intros token now Ha. destruct (Hacc _ _ Ha) as [Hnow Hh]. split; [exact Hnow|].
  intros token' now' Ha'. destruct (Hacc _ _ Ha') as [_ Hh'].
  apply sha256_hex_inj_or. unfold tokenHash in *. congruence.
Qed.

(** C11. A store holds one installation: the processes that ever started on it
    have one installation identity and one operator token, up to SHA-256
    collisions; no start replaces the identity of another. *)
Theorem one_installation_per_store w pool i i' config config' token token' build build'
    process process' s s' :
  installationPattern (cfg_InstallationID (srv_config server)) = true ->
  execution server w pool ->
  pool !! i = Some (Start config token build process, Some (Ret (Started (Ok s)))) ->
  pool !! i' = Some (Start config' token' build' process', Some (Ret (Started (Ok s')))) ->
  cfg_InstallationID config = cfg_InstallationID config' /\
  (token = token' \/ collision token token').
Proof.
  intros Hid Hx Hi Hi'. destruct (execution_sound server Hid w pool Hx) as ([_ Hlog] & _ & Ho).
  pose proof (Ho _ _ _ Hi s eq_refl) as (v & state & Hv & Hd & Hs & Ht).
  pose proof (Ho _ _ _ Hi' s' eq_refl) as (v' & state' & Hv' & Hd' & Hs' & Ht').
  assert (v = v') as <-.
  { destruct Hlog as [Hnil|(u & id & tk & now & Hu & _)].
    - rewrite Hnil in Hv. by apply not_elem_of_nil in Hv.
    - rewrite Hu in Hv, Hv'. apply list_elem_of_singleton in Hv, Hv'. congruence. }
  rewrite Hd in Hd'. injection Hd' as <-. split; [congruence|].
  apply sha256_hex_inj_or. unfold tokenHash in *. congruence.
Qed.
End Interleavings.

(** ** The life of a session *)

Section Life.
Context {V : Type} `{JsonText V, JsonCodec V installationState, JsonCodec V sessionState}.
Context `{!JsonCodecLaws V installationState, !JsonCodecLaws V sessionState, NetParsers}.

(** C12. Liveness: when no call fails, a process starts on an empty store, the
    login with the operator token sets the session cookie, the page shows the
    installation and a request token for thirty minutes, the logout with this
    token redirects, and the page then refuses the cookie. *)
Theorem session_lives_and_ends random config token build process origin t0 t1 t2 t3 t4
    form login page logout page' :
  let server := new_server config token (url_Host origin) build process in
  let run {A} t (p : store V LoginLimiter A) w := exec (answer canonicalJSON new_limiter t random) p w in
  let session := EncodeToString (random 32%nat) in
  (forall n, drawn n (Ok (random n))) ->
  Validate config = None -> operatorTokenPattern token = true ->
  url_Parse (cfg_PublicOrigin config) = Some origin ->
  0 < t0 -> wire_time t0 -> session_times t1 -> t1 <= t2 <= t3 -> t3 < t1 + sessionLifetime ->
  t3 <= truncated t2 + sessionLifetime ->
  posts server login "/login" form -> token_valid server form = true ->
  addressed server page "/" MethodGet -> carries page session ->
  (forall csrf, Issue (srv_csrf server) session t2 (fun n => Ok (random n)) = Ok csrf ->
     posts server (logout csrf) "/logout" {["csrf" := [csrf]]} /\
     carries (logout csrf) session) ->
  addressed server page' "/" MethodGet -> carries page' session ->
  exists csrf status cookie r1 r3 r4 w0 w1 w3,
    run t0 (New config token build process) {| w_documents := ∅; w_guarded := ∅ |}
      = (Ok server, w0) /\
    run t1 (ServeHTTP server login) w0 = (r1, w1) /\ rs_Status r1 = StatusSeeOther /\
    h_Cookies (rs_Headers r1) = [cookie] /\ ck_Name cookie = sessionCookieName /\
    ck_Value cookie = session /\
    run t2 (ServeHTTP server page) w1
      = (renderPortal page_headers StatusOK (view_provider status csrf), w1) /\
    ps_InstallationID status = cfg_InstallationID config /\
    run t3 (ServeHTTP server (logout csrf)) w1 = (r3, w3) /\ rs_Status r3 = StatusSeeOther /\
    run t4 (ServeHTTP server page') w3 = (r4, w3) /\ rs_Status r4 = StatusUnauthorized /\
    rs_Body r4 = Portal view_failed.
Proof.
  intros server run session Hr Hvalid Htoken Horigin Ht0 Hw0 Hw1 Ht2 Ht3 Hwin Hlogin Hform
    Hpage Hcarry Hlogout Hpage' Hcarry'.
  assert (installationPattern (cfg_InstallationID (srv_config server)) = true) as Hid.
  { unfold Validate, validIdentity in Hvalid. case_match eqn:Hg; [done|]. by go_simp. }
  assert (csrf_ready server) as Hkey.
  { split; [apply Sum256_length|]. split; [apply Sum256_bytes|reflexivity]. }
  destruct (run_New random config token build process origin t0) as (w0 & state & E0 & Hi & _ & Hg);
    try done; [lia|].
  destruct (run_login random Hr server login form state t1 w0)
    as (r1 & w1 & cookie & E1 & Hs1 & Hc & Hn & Hv & Hlive & Hi1); try done.
  { unfold lock. rewrite Hg. reflexivity. }
  destruct (run_page random server page session t1 state t2 w1)
    as (csrf & Hissue & E2); try done; [lia|].
  destruct (Hlogout csrf Hissue) as [Hpost Hcl].
  assert (truncated t2 <= t2) as Htr
    by (unfold truncated; pose proof (Z.mul_div_le t2 Second); unfold Second in *; lia).
  destruct (run_logout random Hr server (logout csrf) {["csrf" := [csrf]]} session t1 csrf state t2 t3 w1)
    as (r3 & w3 & text & E3 & Hs3 & Hl3 & He3 & Hi3); try done; [lia| |lia|].
  { destruct Hw1 as [[] []]. unfold wire_time. lia. }
  destruct (run_page_refused random server page' session session t1 state text t4 w3)
    as (r4 & E4 & Hs4 & Hb4); try done; [apply Hlive|].
  exists csrf, (status_of server state), cookie, r1, r3, r4, w0, w1, w3.
  repeat (split; [done|]). split; [|by repeat (split; [done|])].
  destruct Hi as (v & _ & _ & _ & Hinst & _). exact Hinst.
Qed.
End Life.

(** ** The login limit *)

(** The answers to logins that arrive at [times], one after the other. *)
Fixpoint login_answers (times : list Time) (m : LoginLimiter) : list bool :=
  match times with
  | [] => []
  | t :: times => (allowLogin t m).2 :: login_answers times (allowLogin t m).1
  end.

Definition granted (answers : list bool) : Z := Z.of_nat (length (List.filter id answers)).

Lemma granted_cons b answers : granted (b :: answers) = (if b then 1 else 0) + granted answers.
Proof. unfold granted. destruct b; cbn [List.filter id length]; lia. Qed.

Lemma granted_nil : granted [] = 0.
Proof. done. Qed.

#[local] Arguments granted : simpl never.
#[local] Arguments allowLogin : simpl never.

Definition counts (m : LoginLimiter) (n : nat) : Prop :=
  0 <= ll_Attempts m /\ ll_Attempts m + Z.of_nat n <= max_int64.

(** One attempt inside a window that has begun. *)
Lemma allowLogin_inside start t m n :
  0 < start -> start <= ll_Window m < start + Minute -> start <= t < start + Minute ->
  counts m (S n) ->
  allowLogin t m = ({| ll_Window := ll_Window m; ll_Attempts := ll_Attempts m + 1 |},
                    ll_Attempts m + 1 <=? 30).
Proof.
  intros Hs Hw Ht [Ha Hn]. unfold allowLogin, IsZero.
  rewrite (proj2 (Z.eqb_neq (ll_Window m) 0)) by lia.
  rewrite (proj2 (Z.leb_gt Minute (time_Sub t (ll_Window m)))).
  2: { unfold time_Sub, min_int64, max_int64, Minute, Second in *. lia. }
  cbn [orb]. rewrite int64_wrap_id; [done|].
  unfold is_int64, min_int64, max_int64 in *. lia.
Qed.

Lemma inside_limit start times m :
  0 < start -> Forall (fun t => start <= t < start + Minute) times ->
  start <= ll_Window m < start + Minute -> counts m (length times) ->
  granted (login_answers times m) <= Z.max 0 (30 - ll_Attempts m).
Proof.
  intros Hs Ht. revert m. induction Ht as [|t times Ht _ IH]; intros m Hw Hc; cbn;
    [rewrite granted_nil; lia|].
  rewrite (allowLogin_inside start t m (length times)) by done. cbn. rewrite granted_cons.
  destruct Hc as [Ha Hn].
  specialize (IH {| ll_Window := ll_Window m; ll_Attempts := ll_Attempts m + 1 |} Hw).
  cbn in IH, Hn. assert (granted (login_answers times
    {| ll_Window := ll_Window m; ll_Attempts := ll_Attempts m + 1 |}) <=
    Z.max 0 (30 - (ll_Attempts m + 1))) by (apply IH; split; cbn; lia).
  destruct (_ <=? 30) eqn:Hg; go_simp; lia.
Qed.

(** C13. Logins are limited: whatever the state of the limiter, of the login
    attempts that arrive within one minute, in any number and order, at most
    sixty are let through, thirty of each of the two counting windows that
    can meet the minute; and an attempt a minute or more after its window
    began is always let through, so nobody is locked out. *)
Theorem logins_are_limited start times m :
  0 < start -> Forall (fun t => start <= t < start + Minute) times -> counts m (length times) ->
  granted (login_answers times m) <= 60 /\
  forall t, Minute <= t - ll_Window m -> (allowLogin t m).2 = true.
Proof.
  intros Hs Ht Hc. split.
  2: { intros t Hl. unfold allowLogin. replace (Minute <=? time_Sub t (ll_Window m)) with true.
       2: { symmetry. apply Z.leb_le. unfold time_Sub, max_int64, min_int64, Minute, Second in *. lia. }
       by rewrite orb_true_r. }
  enough (granted (login_answers times m) <= Z.max 0 (30 - ll_Attempts m) + 30)
    by (destruct Hc; lia).
  revert m Hc. induction Ht as [|t times Ht Hts IH]; intros m Hc; cbn;
    [rewrite granted_nil; lia|].
  rewrite granted_cons. destruct Hc as [Ha Hn]. cbn [length] in Hn.
  destruct (IsZero (ll_Window m) || (Minute <=? time_Sub t (ll_Window m))) eqn:Hreset.
  - assert (allowLogin t m = ({| ll_Window := t; ll_Attempts := 1 |}, true)) as ->
      by (unfold allowLogin; by rewrite Hreset).
    cbn. pose proof (inside_limit start times {| ll_Window := t; ll_Attempts := 1 |} Hs Hts Ht)
      as Hin. cbn in Hin. assert (counts {| ll_Window := t; ll_Attempts := 1 |} (length times))
      as Hc' by (split; cbn; lia). specialize (Hin Hc'). lia.
  - assert (allowLogin t m = ({| ll_Window := ll_Window m; ll_Attempts := ll_Attempts m + 1 |},
      ll_Attempts m + 1 <=? 30)) as ->.
    { unfold allowLogin. rewrite Hreset, int64_wrap_id; [done|].
      unfold is_int64, min_int64, max_int64 in *. lia. }
    cbn. specialize (IH {| ll_Window := ll_Window m; ll_Attempts := ll_Attempts m + 1 |}).
    cbn in IH. assert (granted (login_answers times
      {| ll_Window := ll_Window m; ll_Attempts := ll_Attempts m + 1 |}) <=
      Z.max 0 (30 - (ll_Attempts m + 1)) + 30) by (apply IH; split; cbn; lia).
    destruct (_ <=? 30) eqn:Hg; go_simp; lia.
Qed.

(** ** Request tokens *)

(** C14. Request tokens are bound to their session and their time: a token
    [Issue] made for a session passes [Check] for exactly this session, from
    the second of its issue to the end of the configured age, unless the texts
    hashed for the token under the two sessions (the session, the token's
    nonce and its time, in the inner or the outer pass of the HMAC) are a
    SHA-256 collision. *)
Theorem request_tokens_are_bound manager sid now rand token sid' later :
  Issue manager sid now rand = Ok token -> fills rand -> is_Time now ->
  csrf_maxAge manager < max_int64 -> Forall is_byte (csrf_keyMaterial manager) ->
  exists nonce, rand 16%nat = Ok nonce /\
  (hmac_collision (csrf_keyMaterial manager) (csrf_text sid' nonce now) (csrf_text sid nonce now) \/
   (CSRF_Check manager token sid' later = None <->
    sid' = sid /\ csrf_window manager now later)).
Proof. apply issued_tokens_check. Qed.
