(* ===== verification/ControlPlaneSamples.v ===== *)
(** * The control plane's theorems at work

    A concrete codec, parser, configuration and browser, and the theorems of
    ControlPlaneTheorems applied to their executions. *)

From stdpp Require Import gmap strings list.
From Stdlib Require Import ZArith Ascii Lia.
From S2P Require Import Prelude GoString GoTime GoSha256 GoCrypto IdentitySession GoHttp Programs StateStore ControlPlane ControlPlaneCorrect ControlPlaneRun ControlPlaneTheorems.

#[local] Open Scope Z_scope.

(** ** A codec and parsers *)

Inductive stored := StoredInstallation (s : installationState) | StoredSession (s : sessionState).

Definition dated (t : Time) : bool := (0 <=? t) && (t <? year_10000).

#[export] Instance stored_text : JsonText stored := Some.

#[export] Instance stored_installation : JsonCodec stored installationState := {
  json_Marshal s := if dated (ist_CreatedAt s) then Ok (StoredInstallation s)
                    else Err (errors_New "json");
  DecodeExact v := match v with StoredInstallation s => Ok s | _ => Err (errors_New "json") end
}.

#[export] Instance stored_session : JsonCodec stored sessionState := {
  json_Marshal s := if dated (ss_CreatedAt s) && dated (ss_ExpiresAt s) then Ok (StoredSession s)
                    else Err (errors_New "json");
  DecodeExact v := match v with StoredSession s => Ok s | _ => Err (errors_New "json") end
}.

Lemma dated_wire t : wire_time t -> dated t = true.
Proof. unfold wire_time, dated. intros [H1 H2]. apply andb_true_iff. split; lia. Qed.

#[export] Instance stored_installation_laws : JsonCodecLaws stored installationState.
Proof.
  split.
  - intros s v text _ Hm Hc. cbn in Hm. destruct (dated _); [|done]. injection Hm as <-.
    by injection Hc as <-.
  - intros s _ Ht. apply Forall_cons in Ht as [Ht _]. cbn.
    rewrite (dated_wire _ Ht). eauto.
Qed.

#[export] Instance stored_session_laws : JsonCodecLaws stored sessionState.
Proof.
  split.
  - intros s v text _ Hm Hc. cbn in Hm. destruct (_ && _); [|done]. injection Hm as <-.
    by injection Hc as <-.
  - intros s _ Ht. apply Forall_cons in Ht as [Hc Ht]. apply Forall_cons in Ht as [He _]. cbn.
    rewrite (dated_wire _ Hc), (dated_wire _ He). eauto.
Qed.

(** Origins of the form [https://host] and addresses of the form [host:port]. *)
#[export] Instance sample_parsers : NetParsers := {
  url_Parse s :=
    if HasPrefix s "https://" then
      let host := TrimPrefix s "https://" in
      Some {| url_Scheme := "https"; url_Opaque := ""; url_HasUser := false; url_Host := host;
              url_Hostname := host; url_Port := ""; url_Path := ""; url_RawQuery := "";
              url_Fragment := ""; url_String := s |}
    else None;
  net_SplitHostPort s := Some (cut ":"%char s);
  net_ParseIP s := s == "127.0.0.1"
}.

(** ** A configuration and a browser *)

Definition sample_config : Config :=
  {| cfg_APIVersion := APIVersion; cfg_Kind := RuntimeKind; cfg_Profile := DevelopmentProfile;
     cfg_InstallationID := "dev-one"; cfg_PublicOrigin := "https://cloud.example";
     cfg_ListenAddress := "127.0.0.1:8443"; cfg_TLSCertificateFile := "/tls/cert";
     cfg_TLSPrivateKeyFile := "/tls/key"; cfg_DatabaseDSNFile := "/db/dsn";
     cfg_DevelopmentOperatorTokenFile := "/operator/token";
     cfg_MigrationOwnerRole := "cloudring_owner"; cfg_ApplicationRole := "cloudring_app" |}.

Definition sample_token : string := EncodeToString (repeat 171 32).
Definition sample_random (n : nat) : list Z := repeat 7 n.
Definition sample_session : string := EncodeToString (sample_random 32).
Definition sample_build : BuildInfo :=
  {| build_GoVersion := "go"; build_SourceRevision := "r"; build_SourceModified := false |}.
Definition sample_server : Server :=
  new_server sample_config sample_token "cloud.example" sample_build 0.

Definition sample_request (path method : string) (cookies : list (string * string))
    (body : string) : Request :=
  {| r_Method := method; r_Path := path; r_RawQuery := ""; r_Fragment := "";
     r_Host := "cloud.example";
     r_Header := {[ "Origin" := ["https://cloud.example"];
                    "Content-Type" := ["application/x-www-form-urlencoded"] ]};
     r_Cookies := cookies; r_Body := body |}.

Definition sample_login : Request :=
  sample_request "/login" MethodPost [] ("token=" +:+ sample_token).
Definition sample_page : Request :=
  sample_request "/" MethodGet [(sessionCookieName, sample_session)] "".

Definition noon : Time := 63871545600 * Second.
Definition sample_start : job := Start sample_config sample_token sample_build 0.
Definition empty_world : world stored LoginLimiter :=
  {| w_documents := ∅; w_guarded := ∅ |}.

#[local] Abbreviation run p w :=
  (exec (answer canonicalJSON new_limiter noon sample_random) p w).

Lemma sample_random_ok n : drawn n (Ok (sample_random n)).
Proof.
  intros bytes [= <-]. split; [apply repeat_length|]. apply Forall_forall.
  intros b Hb%list_elem_of_In%repeat_spec. by subst b.
Qed.

(** The clock shows noon. *)
#[export] Instance sample_clock : Clock := eq noon.

(** An execution in which jobs arrive one after the other. *)
Fixpoint arrivals (jobs : list job) (w : world stored LoginLimiter)
    (pool : list (job * option (store stored LoginLimiter outcome)))
    : world stored LoginLimiter * list (job * option (store stored LoginLimiter outcome)) :=
  match jobs with
  | [] => (w, pool)
  | j :: jobs =>
      arrivals jobs (run (run_job sample_server j) w).2
        (pool ++ [(j, Some (Ret (run (run_job sample_server j) w).1))])
  end.

Lemma arrivals_steps jobs w pool :
  rtc (store_step canonicalJSON new_limiter (run_job sample_server)) (w, pool)
    (arrivals jobs w pool).
Proof.
  revert w pool. induction jobs as [|j jobs IH]; intros w pool; [done|].
  etrans; [eapply (job_pool (answer canonicalJSON new_limiter noon sample_random)); [|reflexivity]|].
  { intros w1 X e. by apply answer_perform; [|apply sample_random_ok]. }
  apply IH.
Qed.

Lemma arrivals_execution jobs :
  execution sample_server (arrivals jobs empty_world []).1 (arrivals jobs empty_world []).2.
Proof.
  unfold execution. rewrite <- surjective_pairing. apply (arrivals_steps jobs empty_world []).
Qed.

(** ** Witnesses *)

Definition started : world stored LoginLimiter := (arrivals [sample_start] empty_world []).1.

Definition pending (p : store stored LoginLimiter outcome)
    : option (string * string * Z * stored) :=
  match p with
  | Ret _ => None
  | Vis e _ =>
      match e with
      | Save scope key expected value => Some (scope, key, expected, value)
      | _ => None
      end
  end.

Lemma pending_save p scope key expected value :
  pending p = Some (scope, key, expected, value) ->
  exists k, p = Vis (Save scope key expected value) k.
Proof. destruct p as [|X e k]; [done|]. destruct e; cbn; intros [= <- <- <- <-]. by eexists. Qed.

(** The login, stopped before its write. *)
Definition paused_login : store stored LoginLimiter outcome * world stored LoginLimiter :=
  advance (answer canonicalJSON new_limiter noon sample_random) 7
    (run_job sample_server (Serve sample_login)) started.

Definition sample_state : sessionState := new_session sample_server sample_session noon.

Lemma paused_execution :
  execution sample_server paused_login.2
    ((arrivals [sample_start] empty_world []).2 ++ [(Serve sample_login, Some paused_login.1)]).
Proof.
  unfold execution. etrans; [apply (arrivals_execution [sample_start])|].
  eapply rtc_l; [apply (pool_spawn (store_perform canonicalJSON new_limiter) (fun _ w => w) (run_job sample_server)
    _ _ (Serve sample_login))|].
  eapply (advance_pool (answer canonicalJSON new_limiter noon sample_random)); [|reflexivity].
  intros w1 X e. by apply answer_perform; [|apply sample_random_ok].
Qed.

Lemma every_write_is_authorised_witness :
  exists w pool k, execution sample_server w pool /\
    pool !! 1%nat = Some (Serve sample_login,
      Some (Vis (Save stateScope sessionKey 0 (StoredSession sample_state)) k)) /\
    may_write sample_server (Serve sample_login) w sessionDocument 0 (StoredSession sample_state).
Proof.
  destruct (pending_save paused_login.1 stateScope sessionKey 0 (StoredSession sample_state))
    as [k Hk]; [vm_compute; reflexivity|].
  pose proof paused_execution as Hx. rewrite Hk in Hx.
  do 2 eexists. exists k. split; [exact Hx|]. split; [reflexivity|].
  exact (every_write_is_authorised sample_server _ _ 1 (Serve sample_login) _ _ _ _ k
    ltac:(vm_compute; reflexivity) Hx eq_refl).
Defined.

Lemma run_job_serve request w :
  (run (run_job sample_server (Serve request)) w).1 = Served (run (ServeHTTP sample_server request) w).1.
Proof.
  cbn [run_job]. rewrite exec_bind. by destruct (exec _ (ServeHTTP _ _) w).
Qed.

Definition login_pool := arrivals [sample_start; Serve sample_login] empty_world [].

Lemma one_session_is_live_witness :
  execution sample_server login_pool.1 login_pool.2 /\
  exists created, forall token now, Accepted sample_server login_pool.1 token now ->
    created <= now < created + sessionLifetime /\
    forall token' now', Accepted sample_server login_pool.1 token' now' ->
      token' = token \/ collision token' token.
Proof.
  pose proof (arrivals_execution [sample_start; Serve sample_login]) as Hx.
  split; [exact Hx|].
  exact (one_session_is_live sample_server _ _ ltac:(vm_compute; reflexivity) Hx).
Defined.

(** A second replica starts on the same store. *)
Definition second_start : job := Start sample_config sample_token sample_build 1.
Definition start_pool := arrivals [sample_start; second_start] empty_world [].

Lemma one_installation_per_store_witness :
  exists s s',
    start_pool.2 !! 0%nat = Some (sample_start, Some (Ret (Started (Ok s)))) /\
    start_pool.2 !! 1%nat = Some (second_start, Some (Ret (Started (Ok s')))) /\
    (cfg_InstallationID sample_config = cfg_InstallationID sample_config /\
     (sample_token = sample_token \/ collision sample_token sample_token)).
Proof.
  assert (start_pool.2 !! 0%nat = Some (sample_start, Some (Ret (Started (Ok sample_server))))) as H0
    by (vm_compute; reflexivity).
  assert (start_pool.2 !! 1%nat = Some (second_start, Some (Ret (Started (Ok
    (new_server sample_config sample_token "cloud.example" sample_build 1)))))) as H1
    by (vm_compute; reflexivity).
  do 2 eexists. split; [exact H0|]. split; [exact H1|].
  exact (one_installation_per_store sample_server _ _ 0 1 sample_config sample_config
    sample_token sample_token sample_build sample_build 0 1 _ _ ltac:(vm_compute; reflexivity)
    (arrivals_execution [sample_start; second_start]) H0 H1).
Defined.

Lemma logins_are_limited_witness :
  granted (login_answers (repeat noon 100) new_limiter) <= 60 /\
  forall t, Minute <= t - ll_Window new_limiter -> (allowLogin t new_limiter).2 = true.
Proof.
  apply (logins_are_limited noon).
  - reflexivity.
  - apply Forall_forall. intros t Ht%list_elem_of_In%repeat_spec. subst t.
    split; [apply Z.le_refl|reflexivity].
  - split; [apply Z.le_refl|]. apply Z.leb_le. vm_compute. reflexivity.
Defined.

Definition sample_csrf : result string :=
  Issue (srv_csrf sample_server) sample_session noon (fun n => Ok (sample_random n)).

Lemma request_tokens_are_bound_witness :
  exists token nonce, sample_csrf = Ok token /\
  (hmac_collision (csrf_keyMaterial (srv_csrf sample_server))
     (csrf_text "another session" nonce noon) (csrf_text sample_session nonce noon) \/
   (CSRF_Check (srv_csrf sample_server) token "another session" noon = None <->
    "another session" = sample_session /\ csrf_window (srv_csrf sample_server) noon noon)).
Proof.
  destruct sample_csrf as [token|err] eqn:Hi; [|vm_compute in Hi; discriminate Hi].
  exists token.
  destruct (request_tokens_are_bound (srv_csrf sample_server) sample_session noon
    (fun n => Ok (sample_random n)) token "another session" noon) as (nonce & _ & H);
    [..|exists nonce; split; [reflexivity|exact H]].
  - exact Hi.
  - exact sample_random_ok.
  - apply wire_is_Time. split; [discriminate|reflexivity].
  - reflexivity.
  - apply Sum256_bytes.
Defined.

Definition sample_logout (csrf : string) : Request :=
  sample_request "/logout" MethodPost [(sessionCookieName, sample_session)] ("csrf=" +:+ csrf).

(** The login and then the logout with its request token, both answered. *)
Definition logout_pool :=
  arrivals [sample_start; Serve sample_login;
    Serve (sample_logout match sample_csrf with Ok csrf => csrf | Err _ => "" end)] empty_world [].

Lemma responses_are_truthful_witness :
  exists response request response',
    rs_Status response = StatusSeeOther /\ rs_Status response' = StatusSeeOther /\
    r_Path request = "/logout" /\
    Truthful sample_server sample_login logout_pool.1 response /\
    Truthful sample_server request logout_pool.1 response'.
Proof.
  pose proof (arrivals_execution [sample_start; Serve sample_login;
    Serve (sample_logout match sample_csrf with Ok csrf => csrf | Err _ => "" end)]) as Hx.
  set (logout := sample_logout match sample_csrf with Ok csrf => csrf | Err _ => "" end) in *.
  exists (run (ServeHTTP sample_server sample_login) started).1, logout,
    (run (ServeHTTP sample_server logout) login_pool.1).1.
  assert (logout_pool.2 !! 1%nat = Some (Serve sample_login,
    Some (Ret (Served (run (ServeHTTP sample_server sample_login) started).1)))) as H1.
  { rewrite <- run_job_serve. reflexivity. }
  assert (logout_pool.2 !! 2%nat = Some (Serve logout,
    Some (Ret (Served (run (ServeHTTP sample_server logout) login_pool.1).1)))) as H2.
  { rewrite <- run_job_serve. reflexivity. }
  split; [vm_compute; reflexivity|]. split; [vm_compute; reflexivity|]. split; [reflexivity|].
  split.
  - exact (responses_are_truthful sample_server _ _ 1 sample_login _ ltac:(vm_compute; reflexivity)
      Hx H1).
  - exact (responses_are_truthful sample_server _ _ 2 logout _ ltac:(vm_compute; reflexivity)
      Hx H2).
Defined.

Definition sample_origin : URL :=
  {| url_Scheme := "https"; url_Opaque := ""; url_HasUser := false;
     url_Host := "cloud.example"; url_Hostname := "cloud.example"; url_Port := "";
     url_Path := ""; url_RawQuery := ""; url_Fragment := "";
     url_String := "https://cloud.example" |}.

Lemma sample_addressed path method cookies body :
  addressed sample_server (sample_request path method cookies body) path method.
Proof. split; try reflexivity; [by split|by right]. Qed.

Lemma sample_posts path cookies body form :
  ParseForm (sample_request path MethodPost cookies body) maximumFormBytes = Some form ->
  posts sample_server (sample_request path MethodPost cookies body) path form.
Proof.
  intros Hf. split; [apply sample_addressed|]. split; [|reflexivity]. by repeat (split; [reflexivity|]).
Qed.

Lemma session_lives_and_ends_witness :
  exists csrf status cookie r1 r3 r4 (w0 w1 w3 : world stored LoginLimiter),
    run (New sample_config sample_token sample_build 0) empty_world = (Ok sample_server, w0) /\
    run (ServeHTTP sample_server sample_login) w0 = (r1, w1) /\ rs_Status r1 = StatusSeeOther /\
    h_Cookies (rs_Headers r1) = [cookie] /\ ck_Name cookie = sessionCookieName /\
    ck_Value cookie = sample_session /\
    run (ServeHTTP sample_server sample_page) w1
      = (renderPortal page_headers StatusOK (view_provider status csrf), w1) /\
    ps_InstallationID status = cfg_InstallationID sample_config /\
    run (ServeHTTP sample_server (sample_logout csrf)) w1 = (r3, w3) /\
    rs_Status r3 = StatusSeeOther /\
    run (ServeHTTP sample_server sample_page) w3 = (r4, w3) /\
    rs_Status r4 = StatusUnauthorized /\ rs_Body r4 = Portal view_failed.
Proof.
  assert (wire_time noon) as Hnoon by (split; [discriminate|reflexivity]).
  apply (session_lives_and_ends (V := stored) sample_random sample_config sample_token
    sample_build 0 sample_origin noon noon noon noon noon {["token" := [sample_token]]}
    sample_login sample_page sample_logout sample_page).
  - exact sample_random_ok.
  - vm_compute. reflexivity.
  - vm_compute. reflexivity.
  - reflexivity.
  - reflexivity.
  - exact Hnoon.
  - split; [exact Hnoon|]. split; [discriminate|reflexivity].
  - split; apply Z.le_refl.
  - reflexivity.
  - discriminate.
  - apply sample_posts. vm_compute. reflexivity.
  - vm_compute. reflexivity.
  - apply sample_addressed.
  - reflexivity.
  - intros csrf Hc. split; [|reflexivity]. apply sample_posts.
    assert (sample_csrf = Ok csrf) as Hi by exact Hc.
    vm_compute in Hi. injection Hi as <-. vm_compute. reflexivity.
  - apply sample_addressed.
  - reflexivity.
Defined.
