(* ===== verification/GoJson.v ===== *)
(** * Go's [encoding/json] texts

    Trees, the compact text [json.Marshal] writes for them (HTML characters,
    control characters, invalid UTF-8 and the two line separators escaped), and
    the reader behind [json.Valid] and [json.Decoder] with [UseNumber].  What
    is written is read back (GoJsonCorrect). *)

From stdpp Require Import strings list.
From Stdlib Require Import ZArith Ascii Lia.
From S2P Require Import Prelude GoString GoTime.

Inductive json :=
  | JNull
  | JBool (b : bool)
  | JNumber (literal : string)
  | JString (s : string)
  | JArray (elements : list json)
  | JObject (members : list (string * json)).

(** Induction with the hypothesis for every part of an array or object. *)
Definition json_parts_ind (P : json -> Prop)
    (HNull : P JNull) (HBool : forall b, P (JBool b)) (HNumber : forall n, P (JNumber n))
    (HString : forall s, P (JString s))
    (HArray : forall xs, Forall P xs -> P (JArray xs))
    (HObject : forall ms, Forall (fun m => P m.2) ms -> P (JObject ms)) : forall j, P j :=
  fix visit (j : json) : P j :=
    match j with
    | JNull => HNull
    | JBool b => HBool b
    | JNumber n => HNumber n
    | JString s => HString s
    | JArray xs => HArray xs
        ((fix all (xs : list json) : Forall P xs :=
            match xs with
            | [] => Forall_nil_2 P
            | x :: rest => Forall_cons_2 P x rest (visit x) (all rest)
            end) xs)
    | JObject ms => HObject ms
        ((fix all (ms : list (string * json)) : Forall (fun m => P m.2) ms :=
            match ms with
            | [] => Forall_nil_2 _
            | m :: rest => Forall_cons_2 (fun m => P m.2) m rest (visit m.2) (all rest)
            end) ms)
    end.

(** ** UTF-8

    The encodings [utf8.DecodeRune] accepts, by the length of the sequence. *)

Definition continuation : ascii -> bool := in_range 128 191.

Definition utf8_2 (a b : ascii) : bool := in_range 194 223 a && continuation b.

Definition utf8_3 (a b c : ascii) : bool :=
  (is_char 224 a && in_range 160 191 b ||
   is_char 237 a && in_range 128 159 b ||
   (in_range 225 236 a || in_range 238 239 a) && continuation b) && continuation c.

Definition utf8_4 (a b c d : ascii) : bool :=
  (is_char 240 a && in_range 144 191 b ||
   is_char 244 a && in_range 128 143 b ||
   in_range 241 243 a && continuation b) && continuation c && continuation d.

Definition is_ascii (c : ascii) : bool := code c <? 128.

(** [utf8.ValidString] *)
Inductive utf8 : string -> Prop :=
  | utf8_nil : utf8 EmptyString
  | utf8_ascii a s : is_ascii a = true -> utf8 s -> utf8 (String a s)
  | utf8_two a b s : utf8_2 a b = true -> utf8 s -> utf8 (String a (String b s))
  | utf8_three a b c s :
      utf8_3 a b c = true -> utf8 s -> utf8 (String a (String b (String c s)))
  | utf8_four a b c d s :
      utf8_4 a b c d = true -> utf8 s -> utf8 (String a (String b (String c (String d s)))).

(** The bytes of U+FFFD, and [utf8.AppendRune] for a code point that is not a
    surrogate. *)
Definition bytes (codes : list Z) : string :=
  String.string_of_list_ascii (List.map (fun z => ascii_of_N (Z.to_N z)) codes).

Definition replacement : string := bytes [239; 191; 189]%Z.

Definition AppendRune (r : Z) : string :=
  (if r <? 128 then bytes [r]
   else if r <? 2048 then bytes [192 + r / 64; 128 + r mod 64]
   else if r <? 65536 then bytes [224 + r / 4096; 128 + r / 64 mod 64; 128 + r mod 64]
   else bytes [240 + r / 262144; 128 + r / 4096 mod 64; 128 + r / 64 mod 64;
               128 + r mod 64])%Z.

(** ** Writing *)

Definition quote : ascii := ascii_of_nat 34.
Definition backslash : ascii := ascii_of_nat 92.
Definition newline : ascii := ascii_of_nat 10.

Definition hex_char (n : nat) : ascii := ascii_of_nat (if n <? 10 then 48 + n else 87 + n).

Definition short_escape (c : ascii) : string := String backslash (String c EmptyString).
Definition long_escape (c : ascii) : string :=
  String backslash "u00" +:+ String (hex_char (code c / 16)) (String (hex_char (code c mod 16)) "").

(** [htmlSafeSet] and the escapes of the other ASCII characters. *)
Definition escape_ascii (c : ascii) : string :=
  if is_char 34 c || is_char 92 c then short_escape c
  else if is_char 8 c then short_escape "b"
  else if is_char 12 c then short_escape "f"
  else if is_char 10 c then short_escape "n"
  else if is_char 13 c then short_escape "r"
  else if is_char 9 c then short_escape "t"
  else if (code c <? 32) || is_char 60 c || is_char 62 c || is_char 38 c then long_escape c
  else String c EmptyString.

Definition escape_three (a b c : ascii) : string :=
  if is_char 226 a && is_char 128 b && (is_char 168 c || is_char 169 c)
  then String backslash "u202" +:+ String (hex_char (code c mod 16)) ""
  else String a (String b (String c "")).

(** [appendString] without the quotes. *)
Fixpoint escape (s : string) : string :=
  match s with
  | EmptyString => EmptyString
  | String a r =>
      let invalid (_ : unit) := String backslash "ufffd" +:+ escape r in
      if is_ascii a then escape_ascii a +:+ escape r
      else match r with
      | EmptyString => invalid tt
      | String b r =>
      if utf8_2 a b then String a (String b (escape r))
      else match r with
      | EmptyString => invalid tt
      | String c r =>
      if utf8_3 a b c then escape_three a b c +:+ escape r
      else match r with
      | EmptyString => invalid tt
      | String d r =>
      if utf8_4 a b c d then String a (String b (String c (String d (escape r))))
      else invalid tt
      end end end
  end.

Definition print_string (s : string) : string :=
  String quote (escape s +:+ String quote EmptyString).

(** The parts of a list with commas in between. *)
Fixpoint commas (parts : list string) : string :=
  match parts with
  | [] => ""
  | [part] => part
  | part :: rest => part +:+ "," +:+ commas rest
  end.

Fixpoint print (j : json) : string :=
  match j with
  | JNull => "null"
  | JBool true => "true"
  | JBool false => "false"
  | JNumber literal => literal
  | JString s => print_string s
  | JArray xs => "[" +:+ commas (List.map print xs) +:+ "]"
  | JObject ms =>
      "{" +:+ commas (List.map (fun m => print_string m.1 +:+ ":" +:+ print m.2) ms) +:+ "}"
  end.

(** ** Reading strings *)

Definition hex_value (c : ascii) : option Z :=
  if is_digit c then Some (Z.of_nat (code c - 48))
  else if in_range 97 102 c then Some (Z.of_nat (code c - 87))
  else if in_range 65 70 c then Some (Z.of_nat (code c - 55))
  else None.

Definition hex4 (a b c d : ascii) : option Z :=
  match hex_value a, hex_value b, hex_value c, hex_value d with
  | Some a, Some b, Some c, Some d => Some (((a * 16 + b) * 16 + c) * 16 + d)%Z
  | _, _, _, _ => None
  end.

(** What a backslash and the character after it stand for, but for [u]. *)
Definition unescape (e : ascii) : option ascii :=
  if is_char 34 e || is_char 92 e || is_char 47 e then Some e
  else if Ascii.eqb e "b" then Some (ascii_of_nat 8)
  else if Ascii.eqb e "f" then Some (ascii_of_nat 12)
  else if Ascii.eqb e "n" then Some (ascii_of_nat 10)
  else if Ascii.eqb e "r" then Some (ascii_of_nat 13)
  else if Ascii.eqb e "t" then Some (ascii_of_nat 9)
  else None.

Definition high_surrogate (r : Z) : bool := ((55296 <=? r) && (r <? 56320))%Z.
Definition low_surrogate (r : Z) : bool := ((56320 <=? r) && (r <? 57344))%Z.

Definition unit_rune (r : Z) : string :=
  if high_surrogate r || low_surrogate r then replacement else AppendRune r.

Definition prepend (head : string) (r : option (string * string)) : option (string * string) :=
  option_map (fun p => (head +:+ p.1, p.2)) r.

(** One character of a string literal, or its closing quote. *)
Inductive scanned :=
  | Close (rest : string)
  | Malformed
  | Chars (head rest : string).

(** After [\u] and four digits: a low surrogate may follow. *)
Definition scan_unit (unit1 : Z) (r : string) : scanned :=
  let single := Chars (unit_rune unit1) r in
  if high_surrogate unit1 then
    match r with
    | String b (String u (String g1 (String g2 (String g3 (String g4 r))))) =>
        match hex4 g1 g2 g3 g4 with
        | Some unit2 =>
            if is_char 92 b && Ascii.eqb u "u" && low_surrogate unit2
            then Chars (AppendRune (65536 + (unit1 - 55296) * 1024 + (unit2 - 56320))%Z) r
            else single
        | None => single
        end
    | _ => single
    end
  else single.

(** After a backslash. *)
Definition scan_escape (r : string) : scanned :=
  match r with
  | EmptyString => Malformed
  | String e r =>
      if Ascii.eqb e "u" then
        match r with
        | String h1 (String h2 (String h3 (String h4 r))) =>
            match hex4 h1 h2 h3 h4 with
            | Some unit1 => scan_unit unit1 r
            | None => Malformed
            end
        | _ => Malformed
        end
      else match unescape e with
           | Some c => Chars (String c EmptyString) r
           | None => Malformed
           end
  end.

(** A byte that is not ASCII and what follows. *)
Definition scan_multi (a : ascii) (r : string) : scanned :=
  let invalid := Chars replacement r in
  match r with
  | EmptyString => Malformed
  | String b r =>
  if utf8_2 a b then Chars (String a (String b EmptyString)) r
  else match r with
  | EmptyString => invalid
  | String c r =>
  if utf8_3 a b c then Chars (String a (String b (String c EmptyString))) r
  else match r with
  | EmptyString => invalid
  | String d r =>
  if utf8_4 a b c d then Chars (String a (String b (String c (String d EmptyString)))) r
  else invalid
  end end end.

Definition scan_char (s : string) : scanned :=
  match s with
  | EmptyString => Malformed
  | String a r =>
      if is_char 34 a then Close r
      else if is_char 92 a then scan_escape r
      else if code a <? 32 then Malformed
      else if is_ascii a then Chars (String a EmptyString) r
      else scan_multi a r
  end.

(** The rest of a string literal after its opening quote: the string it stands
    for and the text after the closing quote. *)
Fixpoint parse_chars_fuel (fuel : nat) (s : string) : option (string * string) :=
  match fuel with
  | 0 => None
  | S fuel =>
      match scan_char s with
      | Close rest => Some (EmptyString, rest)
      | Malformed => None
      | Chars head rest => prepend head (parse_chars_fuel fuel rest)
      end
  end.

Definition parse_chars (s : string) : option (string * string) :=
  parse_chars_fuel (S (len s)) s.

(** ** Reading numbers *)

(** The digits at the front of a text and the rest. *)
Fixpoint span_digits (s : string) : string * string :=
  match s with
  | String c r =>
      if is_digit c then let '(ds, rest) := span_digits r in (String c ds, rest) else ("", s)
  | EmptyString => ("", "")
  end.

Definition span_digits1 (s : string) : option (string * string) :=
  let '(ds, rest) := span_digits s in if ds == "" then None else Some (ds, rest).

Definition parse_integer (s : string) : option (string * string) :=
  match s with
  | String c r =>
      if is_char 48 c then Some (String c "", r)
      else if is_digit c then Some (span_digits s) else None
  | EmptyString => None
  end.

Definition parse_fraction (s : string) : option (string * string) :=
  match s with
  | String c r =>
      if is_char 46 c then prepend (String c "") (span_digits1 r) else Some ("", s)
  | EmptyString => Some ("", "")
  end.

Definition parse_exponent (s : string) : option (string * string) :=
  match s with
  | String c r =>
      if is_char 101 c || is_char 69 c then
        match r with
        | String d r' =>
            if is_char 43 d || is_char 45 d
            then prepend (String c (String d "")) (span_digits1 r')
            else prepend (String c "") (span_digits1 r)
        | EmptyString => None
        end
      else Some ("", s)
  | EmptyString => Some ("", "")
  end.

Definition parse_unsigned (s : string) : option (string * string) :=
  match parse_integer s with
  | None => None
  | Some (i, s) =>
  match parse_fraction s with
  | None => None
  | Some (f, s) => prepend (i +:+ f) (parse_exponent s)
  end end.

Definition parse_number (s : string) : option (string * string) :=
  match s with
  | String c r =>
      if is_char 45 c then prepend (String c "") (parse_unsigned r) else parse_unsigned s
  | EmptyString => None
  end.

(** ** Reading values *)

Definition json_space (c : ascii) : bool :=
  is_char 32 c || is_char 9 c || is_char 10 c || is_char 13 c.

Fixpoint skip_space (s : string) : string :=
  match s with
  | String c r => if json_space c then skip_space r else s
  | EmptyString => EmptyString
  end.

(** The text after a given character, spaces before it skipped. *)
Definition expect (n : nat) (s : string) : option string :=
  match skip_space s with
  | String c r => if is_char n c then Some r else None
  | EmptyString => None
  end.

Definition literal (word : string) (value : json) (s : string) : option (json * string) :=
  if HasPrefix s word then Some (value, drop_chars (len word) s) else None.

(** Elements up to a closing bracket, after the opening one and its spaces. *)
Fixpoint parse_elements (value : string -> option (json * string)) (fuel : nat) (s : string)
    : option (list json * string) :=
  match fuel with
  | 0 => None
  | S fuel =>
      match value s with
      | None => None
      | Some (x, s) =>
          match skip_space s with
          | String c r =>
              if is_char 93 c then Some ([x], r)
              else if is_char 44 c then
                option_map (fun p => (x :: p.1, p.2)) (parse_elements value fuel r)
              else None
          | EmptyString => None
          end
      end
  end.

Definition parse_member (value : string -> option (json * string)) (s : string)
    : option ((string * json) * string) :=
  match expect 34 s with
  | None => None
  | Some s =>
  match parse_chars s with
  | None => None
  | Some (key, s) =>
  match expect 58 s with
  | None => None
  | Some s => option_map (fun p => ((key, p.1), p.2)) (value s)
  end end end.

Fixpoint parse_members (value : string -> option (json * string)) (fuel : nat) (s : string)
    : option (list (string * json) * string) :=
  match fuel with
  | 0 => None
  | S fuel =>
      match parse_member value s with
      | None => None
      | Some (m, s) =>
          match skip_space s with
          | String c r =>
              if is_char 125 c then Some ([m], r)
              else if is_char 44 c then
                option_map (fun p => (m :: p.1, p.2)) (parse_members value fuel r)
              else None
          | EmptyString => None
          end
      end
  end.

Fixpoint parse_value (fuel : nat) (s : string) : option (json * string) :=
  match fuel with
  | 0 => None
  | S fuel =>
      let s := skip_space s in
      match s with
      | EmptyString => None
      | String c r =>
          if is_char 34 c then option_map (fun p => (JString p.1, p.2)) (parse_chars r)
          else if is_char 91 c then
            match skip_space r with
            | String d r' =>
                if is_char 93 d then Some (JArray [], r')
                else option_map (fun p => (JArray p.1, p.2))
                       (parse_elements (parse_value fuel) fuel r)
            | EmptyString => None
            end
          else if is_char 123 c then
            match skip_space r with
            | String d r' =>
                if is_char 125 d then Some (JObject [], r')
                else option_map (fun p => (JObject p.1, p.2))
                       (parse_members (parse_value fuel) fuel r)
            | EmptyString => None
            end
          else if is_char 110 c then literal "null" JNull s
          else if is_char 116 c then literal "true" (JBool true) s
          else if is_char 102 c then literal "false" (JBool false) s
          else option_map (fun p => (JNumber p.1, p.2)) (parse_number s)
      end
  end.

(** A whole text: one value and spaces.  Every call of [parse_value] reads a
    character, so the length of the text is fuel enough ([GoJsonCorrect.parse_value_fuel]). *)
Definition parse (s : string) : option json :=
  match parse_value (S (len s)) s with
  | Some (j, rest) => if skip_space rest == "" then Some j else None
  | None => None
  end.
