(* ===== verification/GoJsonCorrect.v ===== *)
(** * The laws of JSON texts

    Texts that are written from UTF-8 strings are read back ([parse_print]), so
    writing is injective; what is read holds UTF-8 strings only
    ([parse_utf8]); and the reader's fuel is enough ([parse_value_fuel]). *)

From stdpp Require Import strings list.
From Stdlib Require Import ZArith Ascii Lia.
From S2P Require Import Prelude GoString GoTime GoJson.

(** ** What is read is UTF-8, and shorter *)

Lemma utf8_app s t : utf8 s -> utf8 t -> utf8 (s +:+ t).
Proof.
  induction 1; intros Ht; rewrite ?string_app_cons; [done|..].
  - apply utf8_ascii; auto.
  - apply utf8_two; auto.
  - apply utf8_three; auto.
  - apply utf8_four; auto.
Qed.

Lemma utf8_single c : is_ascii c = true -> utf8 (String c "").
Proof. intros H. apply utf8_ascii; [done|constructor]. Qed.

Lemma code_byte z : (0 <= z < 256)%Z -> code (ascii_of_N (Z.to_N z)) = Z.to_nat z.
Proof.
  intros H. unfold code, nat_of_ascii. rewrite N_ascii_embedding by lia. apply Z_N_nat.
Qed.

Ltac byte_bounds :=
  unfold is_char, continuation, in_range; rewrite !code_byte by lia;
  repeat first [rewrite orb_true_iff | rewrite andb_true_iff];
  rewrite ?Nat.leb_le, ?Nat.eqb_eq.

Lemma AppendRune_utf8 r :
  (0 <= r < 55296 \/ 57344 <= r < 1114112)%Z -> utf8 (AppendRune r).
Proof.
  intros Hr. unfold AppendRune. repeat case_match; go_simp; cbn.
  - apply utf8_single. unfold is_ascii. rewrite code_byte by lia. apply Nat.ltb_lt. lia.
  - apply utf8_two; [|constructor]. unfold utf8_2.
    pose proof (Z.div_mod r 64). pose proof (Z.mod_pos_bound r 64).
    byte_bounds. lia.
  - apply utf8_three; [|constructor]. unfold utf8_3.
    pose proof (Z.div_mod r 64). pose proof (Z.mod_pos_bound r 64).
    pose proof (Z.div_mod (r / 64) 64). pose proof (Z.mod_pos_bound (r / 64) 64).
    assert (r / 4096 = r / 64 / 64)%Z as -> by (by rewrite Z.div_div by lia).
    byte_bounds. lia.
  - apply utf8_four; [|constructor]. unfold utf8_4.
    pose proof (Z.div_mod r 64). pose proof (Z.mod_pos_bound r 64).
    pose proof (Z.div_mod (r / 64) 64). pose proof (Z.mod_pos_bound (r / 64) 64).
    pose proof (Z.div_mod (r / 64 / 64) 64). pose proof (Z.mod_pos_bound (r / 64 / 64) 64).
    assert (r / 4096 = r / 64 / 64)%Z as -> by (by rewrite Z.div_div by lia).
    assert (r / 262144 = r / 64 / 64 / 64)%Z as -> by (by rewrite !Z.div_div by lia).
    byte_bounds. lia.
Qed.

Lemma hex_value_bound c v : hex_value c = Some v -> (0 <= v < 16)%Z.
Proof.
  unfold hex_value, is_digit, in_range. intros H. repeat case_match; simplify_eq; go_simp; lia.
Qed.

Lemma hex4_bound a b c d r : hex4 a b c d = Some r -> (0 <= r < 65536)%Z.
Proof.
  unfold hex4. intros H. repeat case_match; simplify_eq.
  repeat match goal with E : hex_value _ = Some _ |- _ => apply hex_value_bound in E end. lia.
Qed.

Lemma unit_rune_utf8 r : (0 <= r < 65536)%Z -> utf8 (unit_rune r).
Proof.
  intros Hr. unfold unit_rune, high_surrogate, low_surrogate. case_match.
  - unfold replacement, bytes. cbn. apply utf8_three; [done|constructor].
  - apply AppendRune_utf8. go_simp. apply andb_false_iff in H, H0. go_simp. lia.
Qed.

Lemma char_of_code n c : is_char n c = true -> c = ascii_of_nat n.
Proof. intros H. apply Nat.eqb_eq in H as <-. symmetry. apply ascii_nat_embedding. Qed.

Lemma unescape_ascii e c : unescape e = Some c -> is_ascii c = true.
Proof.
  unfold unescape. intros H. repeat case_match; simplify_eq; try done.
  rewrite !orb_true_iff in H0. destruct H0 as [[H0|H0]|H0]; apply char_of_code in H0; by subst.
Qed.


Lemma len_String c s : len (String c s) = S (len s).
Proof. done. Qed.

Lemma scan_unit_sound r s head rest :
  (0 <= r < 65536)%Z -> scan_unit r s = Chars head rest -> utf8 head /\ len rest <= len s.
Proof.
  unfold scan_unit. intros Hr H.
  assert (Chars (unit_rune r) s = Chars head rest -> utf8 head /\ len rest <= len s) as Hs.
  { intros [= <- <-]. split; [by apply unit_rune_utf8|lia]. }
  destruct (high_surrogate r) eqn:Hh; [|auto].
  do 6 (destruct s as [|? s]; [by auto|]). destruct (hex4 _ _ _ _) as [g|] eqn:Hg; [|auto].
  destruct (_ && _ && _) eqn:Hl; [|auto]. injection H as <- <-.
  split; [|rewrite !len_String; lia]. apply AppendRune_utf8. apply hex4_bound in Hg.
  unfold high_surrogate, low_surrogate in *. go_simp. lia.
Qed.

Lemma scan_escape_sound s head rest :
  scan_escape s = Chars head rest -> utf8 head /\ len rest < len s.
Proof.
  unfold scan_escape. intros H. destruct s as [|e s]; [done|]. destruct (Ascii.eqb e "u").
  - do 4 (destruct s as [|? s]; [done|]). destruct (hex4 _ _ _ _) as [r|] eqn:Hr; [|done].
    apply scan_unit_sound in H as [??]; [|by eapply hex4_bound]. rewrite !len_String. split; [done|lia].
  - destruct (unescape e) eqn:He; [|done]. injection H as <- <-. rewrite len_String.
    split; [eapply utf8_single, unescape_ascii, He|lia].
Qed.

Lemma replacement_utf8 : utf8 replacement.
Proof. apply utf8_three; [done|constructor]. Qed.

Lemma scan_multi_sound a s head rest :
  scan_multi a s = Chars head rest -> utf8 head /\ len rest <= len s.
Proof.
  unfold scan_multi. intros H.
  assert (Chars replacement s = Chars head rest -> utf8 head /\ len rest <= len s) as Hs.
  { intros [= <- <-]. split; [apply replacement_utf8|lia]. }
  destruct s as [|b s]; [done|].
  destruct (utf8_2 a b) eqn:H2.
  { injection H as <- <-. rewrite !len_String. split; [apply utf8_two; [done|constructor]|lia]. }
  destruct s as [|c s]; [auto|]. destruct (utf8_3 a b c) eqn:H3.
  { injection H as <- <-. rewrite !len_String. split; [apply utf8_three; [done|constructor]|lia]. }
  destruct s as [|d s]; [auto|]. destruct (utf8_4 a b c d) eqn:H4; [|auto].
  injection H as <- <-. rewrite !len_String. split; [apply utf8_four; [done|constructor]|lia].
Qed.

Lemma scan_char_sound s head rest :
  scan_char s = Chars head rest -> utf8 head /\ len rest < len s.
Proof.
  unfold scan_char. intros H. destruct s as [|a s]; [done|]. rewrite len_String.
  repeat case_match; try done.
  - apply scan_escape_sound in H as [??]. split; [done|lia].
  - injection H as <- <-. split; [by apply utf8_single|lia].
  - apply scan_multi_sound in H as [??]. split; [done|lia].
Qed.

Lemma scan_char_close s rest : scan_char s = Close rest -> len rest < len s.
Proof.
  unfold scan_char. intros H. destruct s as [|a s]; [done|].
  destruct (is_char 34 a); [injection H as <-; rewrite len_String; lia|].
  destruct (is_char 92 a); [|by repeat case_match; unfold scan_multi in H; repeat case_match].
  unfold scan_escape, scan_unit in H. by repeat case_match.
Qed.

Lemma parse_chars_enough f1 f2 s :
  len s < f1 -> len s < f2 -> parse_chars_fuel f1 s = parse_chars_fuel f2 s.
Proof.
  revert f2 s. induction f1 as [|f1 IH]; intros [|f2] s H1 H2; try lia. cbn.
  destruct (scan_char s) as [rest| |head rest] eqn:E; [done..|].
  apply scan_char_sound in E as [_ E]. f_equal. apply IH; lia.
Qed.

(** The reader of string literals without its fuel. *)
Lemma parse_chars_eq s :
  parse_chars s =
  match scan_char s with
  | Close rest => Some (EmptyString, rest)
  | Malformed => None
  | Chars head rest => prepend head (parse_chars rest)
  end.
Proof.
  unfold parse_chars at 1. cbn [parse_chars_fuel].
  destruct (scan_char s) as [rest| |head rest] eqn:E; [done..|].
  apply scan_char_sound in E as [_ E]. f_equal. apply parse_chars_enough; lia.
Qed.

Lemma prepend_Some head r x rest :
  prepend head r = Some (x, rest) -> exists y, r = Some (y, rest) /\ x = head +:+ y.
Proof. destruct r as [[y t]|]; cbn; [|done]. intros H. simplify_eq. eauto. Qed.

(** Strong induction on the length of a text. *)
Lemma len_ind (P : string -> Prop) :
  (forall s, (forall t, len t < len s -> P t) -> P s) -> forall s, P s.
Proof.
  intros H s. remember (len s) as n eqn:Hn. revert s Hn.
  induction n as [n IH] using lt_wf_ind. intros s ->. apply H. intros t Ht. by eapply IH.
Qed.

Lemma parse_chars_sound s :
  forall x rest, parse_chars s = Some (x, rest) -> utf8 x /\ len rest < len s.
Proof.
  induction s as [s IH] using len_ind. intros x rest. rewrite parse_chars_eq.
  destruct (scan_char s) as [t| |head t] eqn:E; [| done |]; intros H.
  - injection H as <- <-. split; [constructor|by apply scan_char_close].
  - apply scan_char_sound in E as [Hu Hl]. apply prepend_Some in H as (y & Hy & ->).
    destruct (IH t Hl _ _ Hy). split; [by apply utf8_app|lia].
Qed.

(** ** What is written is read back *)

Lemma prepend_app (x y : string) r : prepend x (prepend y r) = prepend (x +:+ y) r.
Proof. destruct r as [[a b]|]; cbn; [|done]. by rewrite string_app_assoc. Qed.

Lemma parse_escape_ascii a t :
  is_ascii a = true -> parse_chars (escape_ascii a +:+ t) = prepend (String a "") (parse_chars t).
Proof.
  intros Ha.
  destruct a as [[] [] [] [] [] [] [] []]; try discriminate Ha; clear Ha;
    rewrite parse_chars_eq; reflexivity.
Qed.

(** The lead byte of a longer sequence is no character of the syntax. *)
Lemma is_char_above n c : n < code c -> is_char n c = false.
Proof. intros H. apply Nat.eqb_neq. lia. Qed.

Lemma utf8_2_lead a b : utf8_2 a b = true -> 194 <= code a <= 223.
Proof. unfold utf8_2, in_range. intros H. go_simp. lia. Qed.

Lemma utf8_3_lead a b c : utf8_3 a b c = true -> 224 <= code a <= 239.
Proof.
  unfold utf8_3, in_range, is_char. intros H. apply andb_true_iff in H as [H _].
  rewrite !orb_true_iff, !andb_true_iff, !orb_true_iff, !andb_true_iff, !Nat.leb_le, !Nat.eqb_eq in H. lia.
Qed.

Lemma utf8_4_lead a b c d : utf8_4 a b c d = true -> 240 <= code a <= 244.
Proof.
  unfold utf8_4, in_range, is_char. intros H. apply andb_true_iff in H as [H _].
  apply andb_true_iff in H as [H _].
  rewrite !orb_true_iff, !andb_true_iff, !Nat.leb_le, !Nat.eqb_eq in H. lia.
Qed.

Lemma utf8_2_not_lead a b : 224 <= code a -> utf8_2 a b = false.
Proof.
  intros H. destruct (utf8_2 a b) eqn:E; [|done]. apply utf8_2_lead in E. lia.
Qed.

Lemma utf8_3_not_lead a b c : 240 <= code a -> utf8_3 a b c = false.
Proof.
  intros H. destruct (utf8_3 a b c) eqn:E; [|done]. apply utf8_3_lead in E. lia.
Qed.

Lemma not_ascii a : 128 <= code a -> is_ascii a = false.
Proof. intros H. apply Nat.ltb_ge. lia. Qed.

Ltac lead_byte :=
  rewrite parse_chars_eq; unfold scan_char, scan_multi; rewrite ?(is_char_above 34), ?(is_char_above 92) by lia;
  rewrite ?(proj2 (Nat.ltb_ge _ 32)) by lia; rewrite ?not_ascii by lia.

Lemma parse_two a b t : utf8_2 a b = true ->
  parse_chars (String a (String b t)) = prepend (String a (String b "")) (parse_chars t).
Proof.
  intros H. pose proof (utf8_2_lead _ _ H) as Ha. lead_byte. by rewrite H.
Qed.

Lemma parse_three a b c t : utf8_3 a b c = true ->
  parse_chars (String a (String b (String c t))) =
  prepend (String a (String b (String c ""))) (parse_chars t).
Proof.
  intros H. pose proof (utf8_3_lead _ _ _ H) as Ha. lead_byte.
  by rewrite utf8_2_not_lead, H by lia.
Qed.

Lemma parse_four a b c d t : utf8_4 a b c d = true ->
  parse_chars (String a (String b (String c (String d t)))) =
  prepend (String a (String b (String c (String d "")))) (parse_chars t).
Proof.
  intros H. pose proof (utf8_4_lead _ _ _ _ H) as Ha. lead_byte.
  by rewrite utf8_2_not_lead, utf8_3_not_lead, H by lia.
Qed.

Lemma parse_escape_three a b c t : utf8_3 a b c = true ->
  parse_chars (escape_three a b c +:+ t) =
  prepend (String a (String b (String c ""))) (parse_chars t).
Proof.
  intros H. unfold escape_three. destruct (_ && _ && _) eqn:E; [|by apply parse_three].
  clear H. go_simp. apply orb_true_iff in H0 as [Hc|Hc];
    apply char_of_code in H, H1, Hc; subst; rewrite parse_chars_eq; reflexivity.
Qed.

Lemma escape_multi a r : 128 <= code a ->
  escape (String a r) =
  let invalid := String backslash "ufffd" +:+ escape r in
  match r with
  | EmptyString => invalid
  | String b r =>
  if utf8_2 a b then String a (String b (escape r))
  else match r with
  | EmptyString => invalid
  | String c r =>
  if utf8_3 a b c then escape_three a b c +:+ escape r
  else match r with
  | EmptyString => invalid
  | String d r =>
  if utf8_4 a b c d then String a (String b (String c (String d (escape r)))) else invalid
  end end end.
Proof. intros H. cbn [escape]. by rewrite (not_ascii a H). Qed.

Lemma parse_chars_escape s rest :
  utf8 s -> parse_chars (escape s +:+ String quote rest) = Some (s, rest).
Proof.
  induction 1 as [|a s Ha Hs IH|a b s Ha Hs IH|a b c s Ha Hs IH|a b c d s Ha Hs IH]; [done|..].
  - cbn [escape]. rewrite Ha, string_app_assoc, parse_escape_ascii by done. by rewrite IH.
  - pose proof (utf8_2_lead _ _ Ha). rewrite escape_multi by lia. cbn zeta iota beta. rewrite Ha.
    rewrite !string_app_cons, parse_two by done. by rewrite IH.
  - pose proof (utf8_3_lead _ _ _ Ha). rewrite escape_multi by lia. cbn zeta iota beta.
    rewrite utf8_2_not_lead, Ha by lia.
    rewrite string_app_assoc, parse_escape_three by done. by rewrite IH.
  - pose proof (utf8_4_lead _ _ _ _ Ha). rewrite escape_multi by lia. cbn zeta iota beta.
    rewrite utf8_2_not_lead, utf8_3_not_lead, Ha by lia.
    rewrite !string_app_cons, parse_four by done. by rewrite IH.
Qed.

(** ** Numbers in context *)

(** No character that could continue a number. *)
Definition ends_number (s : string) : bool :=
  match s with
  | EmptyString => true
  | String c _ =>
      negb (is_digit c || is_char 46 c || is_char 101 c || is_char 69 c ||
            is_char 43 c || is_char 45 c)
  end.

(** A reader that stopped in front of [r] stops there when more text follows. *)
Definition extends (read : string -> option (string * string)) : Prop :=
  forall s x r rest, read s = Some (x, r) -> (r = "" -> ends_number rest = true) ->
  read (s +:+ rest) = Some (x, r +:+ rest).

Lemma ends_number_inv c s : ends_number (String c s) = true ->
  is_digit c = false /\ is_char 46 c = false /\ is_char 101 c = false /\ is_char 69 c = false.
Proof. cbn [ends_number]. rewrite negb_true_iff, !orb_false_iff. tauto. Qed.

Lemma span_digits_extends s rest :
  ((span_digits s).2 = "" -> ends_number rest = true) ->
  span_digits (s +:+ rest) = ((span_digits s).1, (span_digits s).2 +:+ rest).
Proof.
  induction s as [|c s IH]; rewrite ?string_app_cons; cbn; intros H.
  - specialize (H eq_refl). destruct rest as [|d rest]; [done|]. apply ends_number_inv in H as (Hd & _).
    change (span_digits (String d rest) = ("", String d rest)). cbn [span_digits]. by rewrite Hd.
  - destruct (is_digit c); [|done]. destruct (span_digits s) as [ds r]. cbn in *.
    by rewrite (IH H).
Qed.

Lemma span_digits1_extends : extends span_digits1.
Proof.
  intros s x r rest. unfold span_digits1. pose proof (span_digits_extends s rest) as H.
  destruct (span_digits s) as [ds t]. cbn in H. destruct (ds == "") eqn:E; [done|].
  intros [= <- <-] Hr. rewrite (H Hr). by rewrite E.
Qed.

Lemma prepend_extends (head : string) (read : string -> option (string * string)) s x r rest :
  extends read -> prepend head (read s) = Some (x, r) -> (r = "" -> ends_number rest = true) ->
  prepend head (read (s +:+ rest)) = Some (x, r +:+ rest).
Proof.
  intros He H Hr. apply prepend_Some in H as (y & Hy & ->). by rewrite (He _ _ _ _ Hy Hr).
Qed.

Lemma parse_integer_extends : extends parse_integer.
Proof.
  intros [|c s] x r rest; [done|]. rewrite string_app_cons. cbn. destruct (is_char 48 c); [by intros [= <- <-]|].
  destruct (is_digit c) eqn:E; [|done]. intros [= H] Hr.
  pose proof (span_digits_extends (String c s) rest) as Hs. rewrite string_app_cons in Hs.
    cbn in Hs. rewrite E in Hs.
  destruct (span_digits s) as [ds t]. cbn in Hs. simplify_eq. rewrite Hs by done. done.
Qed.

Lemma parse_fraction_extends : extends parse_fraction.
Proof.
  intros [|c s] x r rest; rewrite ?string_app_cons; cbn.
  - intros [= <- <-] Hr. specialize (Hr eq_refl). destruct rest as [|d rest]; [done|].
    apply ends_number_inv in Hr as (_ & Hd & _). change (parse_fraction (String d rest) = Some ("", String d rest)).
    cbn [parse_fraction]. by rewrite Hd.
  - destruct (is_char 46 c); [|by intros [= <- <-]].
    by apply prepend_extends, span_digits1_extends.
Qed.

Lemma parse_exponent_extends : extends parse_exponent.
Proof.
  intros [|c s] x r rest; rewrite ?string_app_cons; cbn.
  - intros [= <- <-] Hr. specialize (Hr eq_refl). destruct rest as [|d rest]; [done|].
    apply ends_number_inv in Hr as (_ & _ & H1 & H2). change (parse_exponent (String d rest) = Some ("", String d rest)).
    cbn [parse_exponent].
    by rewrite H1, H2.
  - destruct (is_char 101 c || is_char 69 c); [|by intros [= <- <-]].
    destruct s as [|d s]; [done|]. rewrite string_app_cons.
    destruct (is_char 43 d || is_char 45 d).
    + by apply prepend_extends, span_digits1_extends.
    + rewrite <- string_app_cons. by apply prepend_extends, span_digits1_extends.
Qed.

Lemma parse_exponent_rest s x r : parse_exponent s = Some (x, r) -> s = "" -> r = "".
Proof. intros H ->. by injection H. Qed.

Lemma parse_fraction_rest s x r : parse_fraction s = Some (x, r) -> s = "" -> r = "".
Proof. intros H ->. by injection H. Qed.

Lemma parse_unsigned_extends : extends parse_unsigned.
Proof.
  intros s x r rest. unfold parse_unsigned.
  destruct (parse_integer s) as [[i s1]|] eqn:Hi; [|done].
  destruct (parse_fraction s1) as [[f s2]|] eqn:Hf; [|done].
  intros H Hr. pose proof H as Hx. apply prepend_Some in Hx as (y & Hy & _).
  assert (s2 = "" -> ends_number rest = true) as H2
    by (intros E; exact (Hr (parse_exponent_rest _ _ _ Hy E))).
  assert (s1 = "" -> ends_number rest = true) as H1
    by (intros E; exact (H2 (parse_fraction_rest _ _ _ Hf E))).
  rewrite (parse_integer_extends _ _ _ _ Hi H1), (parse_fraction_extends _ _ _ _ Hf H2).
  by apply prepend_extends; [apply parse_exponent_extends| |].
Qed.

Lemma parse_number_extends : extends parse_number.
Proof.
  intros [|c s] x r rest; [done|]. rewrite string_app_cons. cbn [parse_number].
  destruct (is_char 45 c).
  - by apply prepend_extends, parse_unsigned_extends.
  - rewrite <- string_app_cons. by apply parse_unsigned_extends.
Qed.

(** ** Values *)

(** Every string of a tree, keys included, and every number. *)
Fixpoint json_all (text number : string -> Prop) (j : json) : Prop :=
  match j with
  | JNull | JBool _ => True
  | JNumber n => number n
  | JString s => text s
  | JArray xs =>
      (fix all xs :=
         match xs with [] => True | x :: r => json_all text number x /\ all r end) xs
  | JObject ms =>
      (fix all ms :=
         match ms with
         | [] => True
         | m :: r => (text m.1 /\ json_all text number m.2) /\ all r
         end) ms
  end.

Lemma json_all_array text number xs :
  json_all text number (JArray xs) <-> Forall (json_all text number) xs.
Proof. induction xs as [|x xs IH]; cbn in *; [done|]. by rewrite Forall_cons, IH. Qed.

Lemma json_all_object text number ms :
  json_all text number (JObject ms) <->
  Forall (fun m => text m.1 /\ json_all text number m.2) ms.
Proof. induction ms as [|m ms IH]; cbn in *; [done|]. by rewrite Forall_cons, IH. Qed.

Definition well_formed : json -> Prop :=
  json_all utf8 (fun n => parse_number n = Some (n, "")).

(** The character a value begins with. *)
Definition begins_value (s : string) : Prop :=
  exists c r, s = String c r /\ json_space c = false /\ is_char 93 c = false.

Lemma number_begins n : parse_number n = Some (n, "") ->
  exists c r, n = String c r /\ (is_char 45 c || is_digit c) = true.
Proof.
  destruct n as [|c r]; [done|]. cbn. intros H. exists c, r. split; [done|].
  destruct (is_char 45 c); [done|]. unfold parse_unsigned, parse_integer in H.
  destruct (is_char 48 c) eqn:E; [apply char_of_code in E; by subst|].
  by destruct (is_digit c).
Qed.

Lemma number_char c : (is_char 45 c || is_digit c) = true ->
  json_space c = false /\ is_char 93 c = false /\ is_char 34 c = false /\
  is_char 91 c = false /\ is_char 123 c = false /\ is_char 110 c = false /\
  is_char 116 c = false /\ is_char 102 c = false.
Proof.
  unfold json_space, is_digit, in_range, is_char. intros H.
  assert (45 <= code c <= 57) as Hc.
  { apply orb_true_iff in H as [H|H]; go_simp; lia. }
  rewrite !orb_false_iff, !Nat.eqb_neq. lia.
Qed.

Lemma print_begins j : well_formed j -> begins_value (print j).
Proof.
  destruct j as [|[]|n|s|xs|ms]; intros H; cbn;
    try (eexists _, _; split_and!; [reflexivity|done|done]).
  apply number_begins in H as (c & r & -> & Hc). apply number_char in Hc as (? & ? & _).
  by exists c, r.
Qed.

Lemma begins_app s t : begins_value s -> begins_value (s +:+ t).
Proof. intros (c & r & -> & ?). rewrite string_app_cons. unfold begins_value. eauto. Qed.

Lemma skip_space_begins s : begins_value s -> skip_space s = s.
Proof. intros (c & r & -> & Hc & _). cbn. by rewrite Hc. Qed.

Lemma commas_begins parts rest : parts <> [] -> Forall begins_value parts ->
  begins_value (commas parts +:+ rest).
Proof.
  intros Hne H. destruct H as [|p parts Hp _]; [done|].
  destruct parts; cbn [commas]; rewrite ?string_app_assoc; by apply begins_app.
Qed.

Lemma print_nonempty j : well_formed j -> 0 < len (print j).
Proof. intros H. destruct (print_begins j H) as (c & r & -> & _). rewrite len_String. lia. Qed.

Lemma commas_len parts p : p ∈ parts -> len p <= len (commas parts).
Proof.
  induction parts as [|q parts IH]; intros H; [by apply elem_of_nil in H|].
  apply elem_of_cons in H as [->|H].
  - destruct parts; cbn [commas]; rewrite ?len_app; lia.
  - specialize (IH H). destruct parts; [by apply elem_of_nil in H|].
    cbn [commas] in *. rewrite !len_app. lia.
Qed.

Lemma commas_count parts : Forall (fun p => 0 < len p) parts -> length parts <= len (commas parts).
Proof.
  induction 1 as [|p parts Hp _ IH]; [done|].
  destruct parts; cbn [commas length] in *; rewrite ?len_app; lia.
Qed.

Lemma begins_not_close s : begins_value s -> exists c r,
  s = String c r /\ skip_space s = String c r /\ is_char 93 c = false.
Proof. intros H. rewrite skip_space_begins by done. destruct H as (c & r & -> & _ & ?). eauto. Qed.

(** A reader of values that reads back what is printed. *)
Definition reads_back (value : string -> option (json * string)) (x : json) : Prop :=
  forall rest, ends_number rest = true -> value (print x +:+ rest) = Some (x, rest).

Lemma commas_more {A} (f : A -> string) x xs : xs <> [] ->
  commas (List.map f (x :: xs)) = f x +:+ "," +:+ commas (List.map f xs).
Proof. by destruct xs. Qed.

(** The text after a printed element of a longer list. *)
Lemma comma_between (p q rest : string) : (p +:+ "," +:+ q) +:+ rest = p +:+ String ","%char (q +:+ rest).
Proof. by rewrite !string_app_assoc, string_app_cons. Qed.

Ltac at_comma closing :=
  match goal with
  | |- context [skip_space (String ","%char ?s)] =>
      change (skip_space (String ","%char s)) with (String ","%char s)
  end; cbn iota beta;
  change (is_char closing ",") with false; change (is_char 44 ",") with true; cbn iota beta.

Lemma parse_elements_commas value fuel xs rest :
  xs <> [] -> length xs <= fuel -> Forall (reads_back value) xs ->
  parse_elements value fuel (commas (List.map print xs) +:+ String "]"%char rest) = Some (xs, rest).
Proof.
  revert xs. induction fuel as [|fuel IH]; intros xs Hne Hf Hx.
  { destruct xs; [done|cbn in Hf; lia]. }
  destruct Hx as [|x xs Hx Hxs]; [done|]. cbn [length] in Hf. cbn [parse_elements].
  destruct (decide (xs = [])) as [->|Hxs'].
  - change (commas (List.map print [x])) with (print x). by rewrite Hx.
  - rewrite commas_more, comma_between, Hx by done. at_comma 93.
    by rewrite IH by (done || lia).
Qed.

Lemma parse_member_print value key x rest :
  utf8 key -> reads_back value x -> ends_number rest = true ->
  parse_member value ((print_string key +:+ ":" +:+ print x) +:+ rest) = Some ((key, x), rest).
Proof.
  intros Hk Hx Hr. unfold parse_member, print_string.
  rewrite !string_app_cons, !string_app_assoc, !string_app_cons.
  change (expect 34 (String quote ?s)) with (Some s). cbn iota beta.
  change ("" +:+ ?s) with s. rewrite parse_chars_escape by done.
  change (expect 58 (String ":"%char ?s)) with (Some s). cbn iota beta. by rewrite Hx.
Qed.

Definition print_member (m : string * json) : string := print_string m.1 +:+ ":" +:+ print m.2.

Lemma parse_members_commas value fuel ms rest :
  ms <> [] -> length ms <= fuel -> Forall (fun m => utf8 m.1 /\ reads_back value m.2) ms ->
  parse_members value fuel (commas (List.map print_member ms) +:+ String "}"%char rest) =
  Some (ms, rest).
Proof.
  revert ms. induction fuel as [|fuel IH]; intros ms Hne Hf Hx.
  { destruct ms; [done|cbn in Hf; lia]. }
  destruct Hx as [|[key x] ms [Hk Hx] Hms]; [done|]. cbn [length] in Hf. cbn [parse_members].
  destruct (decide (ms = [])) as [->|Hms'].
  - change (commas (List.map print_member [(key, x)])) with (print_member (key, x)).
    by rewrite (parse_member_print value key x) by done.
  - rewrite commas_more, comma_between by done.
    rewrite (parse_member_print value key x) by done. at_comma 125.
    by rewrite IH by (done || lia).
Qed.

Lemma print_object ms :
  print (JObject ms) = String "{"%char (commas (List.map print_member ms) +:+ "}").
Proof. done. Qed.

Lemma print_array xs :
  print (JArray xs) = String "["%char (commas (List.map print xs) +:+ "]").
Proof. done. Qed.

Lemma print_member_len m : len (print m.2) < len (print_member m).
Proof.
  unfold print_member, print_string. rewrite string_app_cons, len_String, !len_app. lia.
Qed.

Lemma parse_array fuel xs rest :
  xs <> [] -> Forall well_formed xs -> length xs <= fuel ->
  Forall (reads_back (parse_value fuel)) xs ->
  parse_value (S fuel) (print (JArray xs) +:+ rest) = Some (JArray xs, rest).
Proof.
  intros Hne Hw Hl Hx. rewrite print_array, string_app_cons, string_app_assoc. cbn [parse_value].
  set (r := commas _ +:+ _). change (skip_space (String "["%char r)) with (String "["%char r).
  cbn iota beta. change (is_char 34 "[") with false. change (is_char 91 "[") with true. cbn iota.
  assert (begins_value r) as Hr.
  { apply commas_begins; [by destruct xs|]. apply Forall_map.
    eapply Forall_impl; [exact Hw|]. apply print_begins. }
  destruct (begins_not_close r Hr) as (d & r' & _ & -> & Hd). rewrite Hd. unfold r.
  rewrite string_app_cons. change ("" +:+ ?s) with s. by rewrite parse_elements_commas.
Qed.

Lemma commas_members_begins ms rest : ms <> [] ->
  exists r, commas (List.map print_member ms) +:+ rest = String quote r.
Proof.
  destruct ms as [|m [|m' ms]]; intros H; [done|..];
    cbn [List.map commas]; unfold print_member at 1, print_string;
    rewrite !string_app_cons; by eexists.
Qed.

Lemma parse_object fuel ms rest :
  ms <> [] -> length ms <= fuel ->
  Forall (fun m => utf8 m.1 /\ reads_back (parse_value fuel) m.2) ms ->
  parse_value (S fuel) (print (JObject ms) +:+ rest) = Some (JObject ms, rest).
Proof.
  intros Hne Hl Hx. rewrite print_object, string_app_cons, string_app_assoc. cbn [parse_value].
  set (r := commas _ +:+ _). change (skip_space (String "{"%char r)) with (String "{"%char r).
  cbn iota beta. change (is_char 34 "{") with false. change (is_char 91 "{") with false.
  change (is_char 123 "{") with true. cbn iota.
  destruct (commas_members_begins ms ("}" +:+ rest) Hne) as [r' Hr]. fold r in Hr.
  rewrite Hr at 1. change (skip_space (String quote r')) with (String quote r').
  cbn iota beta. change (is_char 125 quote) with false. cbn iota. unfold r.
  rewrite string_app_cons. change ("" +:+ ?s) with s. by rewrite parse_members_commas.
Qed.

Lemma parse_number_value fuel n rest :
  parse_number n = Some (n, "") -> ends_number rest = true ->
  parse_value (S fuel) (n +:+ rest) = Some (JNumber n, rest).
Proof.
  intros Hn Hr. destruct (number_begins n Hn) as (c & r & -> & Hc).
  apply number_char in Hc as (H1 & H2 & H3 & H4 & H5 & H6 & H7 & H8).
  assert (parse_number (String c r +:+ rest) = Some (String c r, rest)) as Hp
    by (by rewrite (parse_number_extends _ _ _ rest Hn)).
  rewrite string_app_cons in *. cbn [parse_value skip_space]. rewrite H1. cbn iota beta.
  rewrite H3, H4, H5, H6, H7, H8, Hp. done.
Qed.

Lemma parse_value_print j : forall fuel,
  well_formed j -> len (print j) < fuel -> reads_back (parse_value fuel) j.
Proof.
  induction j as [|b|n|s|xs IH|ms IH] using json_parts_ind;
    intros [|fuel] Hw Hf rest Hr; try (cbn in Hf; lia).
  - cbn [print]. rewrite !string_app_cons. change ("" +:+ rest) with rest. by destruct rest.
  - destruct b; cbn [print]; rewrite !string_app_cons; change ("" +:+ rest) with rest;
      by destruct rest.
  - by apply parse_number_value.
  - change (print (JString s)) with (print_string s). unfold print_string.
    rewrite string_app_cons, string_app_assoc, string_app_cons. change ("" +:+ ?s) with s.
    cbn [parse_value]. change (skip_space (String quote ?t)) with (String quote t).
    cbn iota beta. change (is_char 34 quote) with true. cbn iota. by rewrite parse_chars_escape.
  - destruct (decide (xs = [])) as [->|Hne]; [done|].
    apply json_all_array in Hw. rewrite print_array, len_String, len_app in Hf.
    apply parse_array; [done|done| |].
    + pose proof (commas_count (List.map print xs)) as Hc. rewrite length_map in Hc.
      assert (Forall (fun p => 0 < len p) (List.map print xs)) as Hp.
      { apply Forall_map. eapply Forall_impl; [exact Hw|]. apply print_nonempty. }
      specialize (Hc Hp). lia.
    + apply Forall_forall. intros x Hin.
      rewrite Forall_forall in Hw, IH. apply IH; [done|by apply Hw|].
      pose proof (commas_len (List.map print xs) (print x)) as Hc.
      specialize (Hc ltac:(by apply list_elem_of_fmap_2)). lia.
  - destruct (decide (ms = [])) as [->|Hne]; [done|].
    apply json_all_object in Hw. rewrite print_object, len_String, len_app in Hf.
    apply parse_object; [done| |].
    + pose proof (commas_count (List.map print_member ms)) as Hc. rewrite length_map in Hc.
      assert (Forall (fun p => 0 < len p) (List.map print_member ms)) as Hp.
      { apply Forall_map, Forall_forall. intros m _. pose proof (print_member_len m). lia. }
      specialize (Hc Hp). lia.
    + apply Forall_forall. intros m Hin.
      rewrite Forall_forall in Hw, IH. split; [by apply Hw|]. apply IH; [done|by apply Hw|].
      pose proof (commas_len (List.map print_member ms) (print_member m)) as Hc.
      specialize (Hc ltac:(by apply list_elem_of_fmap_2)).
      pose proof (print_member_len m). lia.
Qed.

(** [json.Marshal] and the reader are inverse. *)
Lemma parse_print j : well_formed j -> parse (print j) = Some j.
Proof.
  intros Hw. unfold parse. rewrite <- (string_app_nil_r (print j)) at 2.
  rewrite (parse_value_print j _ Hw) by (done || lia). done.
Qed.

Lemma print_inj j j' : well_formed j -> well_formed j' -> print j = print j' -> j = j'.
Proof.
  intros H H' E. apply parse_print in H, H'. rewrite E in H. by simplify_eq.
Qed.

(** ** Every text is read to its end

    The reader does not depend on its fuel, and the strings it returns are
    UTF-8. *)

Definition utf8_json : json -> Prop := json_all utf8 (fun _ => True).

Lemma skip_space_len s : len (skip_space s) <= len s.
Proof.
  induction s as [|c s IH]; cbn [skip_space]; [done|].
  destruct (json_space c); rewrite len_String; lia.
Qed.

Lemma expect_len n s t : expect n s = Some t -> len t < len s.
Proof.
  unfold expect. intros H. pose proof (skip_space_len s) as Hl.
  destruct (skip_space s) as [|c r]; [done|]. destruct (is_char n c); [|done].
  simplify_eq. rewrite len_String in Hl. lia.
Qed.

Lemma drop_chars_len n s : len (drop_chars n s) <= len s.
Proof.
  revert s. induction n as [|n IH]; intros [|c s]; cbn [drop_chars]; try done.
  specialize (IH s). rewrite len_String. lia.
Qed.

Definition shortens {A} (read : string -> option (A * string)) : Prop :=
  forall s x rest, read s = Some (x, rest) -> len rest < len s.

Definition not_longer {A} (read : string -> option (A * string)) : Prop :=
  forall s x rest, read s = Some (x, rest) -> len rest <= len s.

Lemma span_digits_len s : len (span_digits s).2 <= len s.
Proof.
  induction s as [|c s IH]; cbn [span_digits]; [done|]. destruct (is_digit c); [|done].
  rewrite len_String. destruct (span_digits s). cbn [snd] in *. lia.
Qed.

Lemma span_digits1_len : not_longer span_digits1.
Proof.
  intros s x r. unfold span_digits1. pose proof (span_digits_len s) as H.
  destruct (span_digits s). destruct (_ == _); [done|]. by intros [= <- <-].
Qed.

Lemma prepend_len head s r x rest :
  prepend head r = Some (x, rest) -> (forall y, r = Some (y, rest) -> len rest <= len s) ->
  len rest <= len s.
Proof. intros H Hr. apply prepend_Some in H as (y & Hy & _). eauto. Qed.

Lemma parse_unsigned_len : shortens parse_unsigned.
Proof.
  intros s x rest. unfold parse_unsigned.
  destruct (parse_integer s) as [[i s1]|] eqn:Hi; [|done].
  destruct (parse_fraction s1) as [[f s2]|] eqn:Hf; [|done]. intros H.
  apply prepend_Some in H as (y & Hy & _).
  assert (len s1 < len s) as H1.
  { destruct s as [|c s]; [done|]. cbn in Hi. rewrite len_String.
    destruct (is_char 48 c); [simplify_eq; lia|]. destruct (is_digit c); [|done].
    pose proof (span_digits_len s). destruct (span_digits s). simplify_eq/=. lia. }
  assert (len s2 <= len s1) as H2.
  { destruct s1 as [|c s1]; cbn in Hf; [by simplify_eq|].
    destruct (is_char 46 c); [|by simplify_eq].
    apply prepend_Some in Hf as (z & Hz & _). apply span_digits1_len in Hz.
    rewrite len_String. lia. }
  assert (len rest <= len s2) as H3.
  { destruct s2 as [|c s2]; cbn in Hy; [by simplify_eq|].
    destruct (is_char 101 c || is_char 69 c); [|by simplify_eq].
    destruct s2 as [|d s2]; [done|]. rewrite !len_String.
    destruct (is_char 43 d || is_char 45 d); apply prepend_Some in Hy as (z & Hz & _);
      apply span_digits1_len in Hz; rewrite ?len_String in Hz; lia. }
  lia.
Qed.

Lemma parse_number_len : shortens parse_number.
Proof.
  intros [|c s] x rest; [done|]. cbn [parse_number]. intros H. destruct (is_char 45 c).
  - apply prepend_Some in H as (y & Hy & _). apply parse_unsigned_len in Hy.
    rewrite len_String. lia.
  - by apply parse_unsigned_len in H.
Qed.

(** ** Reading arrays and objects, given a reader of their parts *)

Definition sound_reader (value : string -> option (json * string)) : Prop :=
  forall s j rest, value s = Some (j, rest) -> utf8_json j /\ len rest < len s.

Lemma parse_elements_sound value fuel s xs rest :
  sound_reader value -> parse_elements value fuel s = Some (xs, rest) ->
  Forall utf8_json xs /\ len rest < len s.
Proof.
  intros Hv. revert s xs. induction fuel as [|fuel IH]; intros s xs H; [done|]. cbn in H.
  destruct (value s) as [[x t]|] eqn:Hx; [|done]. apply Hv in Hx as [Hu Hl].
  pose proof (skip_space_len t) as Ht. destruct (skip_space t) as [|c r]; [done|].
  rewrite len_String in Ht. destruct (is_char 93 c).
  { simplify_eq. split; [by constructor|lia]. }
  destruct (is_char 44 c); [|done].
  destruct (parse_elements value fuel r) as [[ys t']|] eqn:Hr; [|done]. cbn in H. simplify_eq.
  apply IH in Hr as [? ?]. split; [by constructor|lia].
Qed.

Lemma parse_member_sound value s m rest :
  sound_reader value -> parse_member value s = Some (m, rest) ->
  (utf8 m.1 /\ utf8_json m.2) /\ len rest < len s.
Proof.
  intros Hv H. unfold parse_member in H.
  destruct (expect 34 s) as [s1|] eqn:H1; [|done]. apply expect_len in H1.
  destruct (parse_chars s1) as [[key s2]|] eqn:H2; [|done].
  apply parse_chars_sound in H2 as [Hk H2].
  destruct (expect 58 s2) as [s3|] eqn:H3; [|done]. apply expect_len in H3.
  destruct (value s3) as [[x s4]|] eqn:H4; [|done]. apply Hv in H4 as [Hx H4].
  cbn in H. simplify_eq. split; [done|lia].
Qed.

Lemma parse_members_sound value fuel s ms rest :
  sound_reader value -> parse_members value fuel s = Some (ms, rest) ->
  Forall (fun m => utf8 m.1 /\ utf8_json m.2) ms /\ len rest < len s.
Proof.
  intros Hv. revert s ms. induction fuel as [|fuel IH]; intros s ms H; [done|]. cbn in H.
  destruct (parse_member value s) as [[m t]|] eqn:Hx; [|done].
  apply parse_member_sound in Hx as [Hu Hl]; [|done].
  pose proof (skip_space_len t) as Ht. destruct (skip_space t) as [|c r]; [done|].
  rewrite len_String in Ht. destruct (is_char 125 c).
  { simplify_eq. split; [by constructor|lia]. }
  destruct (is_char 44 c); [|done].
  destruct (parse_members value fuel r) as [[ys t']|] eqn:Hr; [|done]. cbn in H. simplify_eq.
  apply IH in Hr as [? ?]. split; [by constructor|lia].
Qed.

Lemma literal_len word value c r j rest :
  literal word value (String c r) = Some (j, rest) -> 0 < len word ->
  j = value /\ len rest < len (String c r).
Proof.
  unfold literal. intros H Hw. destruct (HasPrefix _ _); [|done]. simplify_eq. split; [done|].
  destruct word as [|d word]; [cbn in Hw; lia|]. rewrite !len_String. cbn [drop_chars].
  pose proof (drop_chars_len (len word) r). lia.
Qed.

Lemma parse_value_sound fuel : sound_reader (parse_value fuel).
Proof.
  induction fuel as [|fuel IH]; intros s j rest H; [done|]. cbn [parse_value] in H.
  pose proof (skip_space_len s) as Hs. destruct (skip_space s) as [|c r]; [done|].
  cut (utf8_json j /\ len rest < len (String c r)); [intros [? ?]; split; [done|lia]|].
  clear s Hs. pose proof (skip_space_len r) as Hr.
  destruct (is_char 34 c).
  { destruct (parse_chars r) as [[x t]|] eqn:E; [|done]. apply parse_chars_sound in E as [? ?].
    cbn in H. simplify_eq. rewrite len_String. split; [done|lia]. }
  destruct (is_char 91 c).
  { destruct (skip_space r) as [|d r'] eqn:Er; [done|]. rewrite len_String in *.
    destruct (is_char 93 d); [simplify_eq; split; [done|lia]|].
    destruct (parse_elements _ _ r) as [[xs t]|] eqn:E; [|done].
    apply parse_elements_sound in E as [? ?]; [|done]. cbn in H. simplify_eq.
    split; [by apply json_all_array|lia]. }
  destruct (is_char 123 c).
  { destruct (skip_space r) as [|d r'] eqn:Er; [done|]. rewrite len_String in *.
    destruct (is_char 125 d); [simplify_eq; split; [done|lia]|].
    destruct (parse_members _ _ r) as [[xs t]|] eqn:E; [|done].
    apply parse_members_sound in E as [? ?]; [|done]. cbn in H. simplify_eq.
    split; [by apply json_all_object|lia]. }
  destruct (is_char 110 c); [by apply literal_len in H as [-> ?]; [|cbn; lia]|].
  destruct (is_char 116 c); [by apply literal_len in H as [-> ?]; [|cbn; lia]|].
  destruct (is_char 102 c); [by apply literal_len in H as [-> ?]; [|cbn; lia]|].
  destruct (parse_number _) as [[n t]|] eqn:E; [|done]. apply parse_number_len in E.
  cbn in H. by simplify_eq.
Qed.

Lemma parse_utf8 s j : parse s = Some j -> utf8_json j.
Proof.
  unfold parse. destruct (parse_value _ s) as [[x t]|] eqn:E; [|done].
  apply parse_value_sound in E as [? _]. destruct (_ == _); [|done]. by intros [= <-].
Qed.

(** ** The fuel is enough *)

Definition agree (n : nat) (v1 v2 : string -> option (json * string)) : Prop :=
  forall t, len t < n -> v1 t = v2 t.

Lemma parse_elements_fuel v1 v2 f1 f2 s :
  sound_reader v1 -> agree (S (len s)) v1 v2 -> len s < f1 -> len s < f2 ->
  parse_elements v1 f1 s = parse_elements v2 f2 s.
Proof.
  intros Hv. revert f2 s. induction f1 as [|f1 IH]; intros [|f2] s Ha H1 H2; try lia. cbn.
  rewrite <- (Ha s) by lia. destruct (v1 s) as [[x t]|] eqn:Hx; [|done].
  apply Hv in Hx as [_ Hl]. pose proof (skip_space_len t) as Ht.
  destruct (skip_space t) as [|c r]; [done|]. rewrite len_String in Ht.
  destruct (is_char 93 c); [done|]. destruct (is_char 44 c); [|done].
  rewrite (IH f2 r); [done| |lia|lia]. intros u Hu. apply Ha. lia.
Qed.

Lemma parse_member_agree v1 v2 s :
  agree (len s) v1 v2 -> parse_member v1 s = parse_member v2 s.
Proof.
  intros Ha. unfold parse_member.
  destruct (expect 34 s) as [s1|] eqn:H1; [|done]. apply expect_len in H1.
  destruct (parse_chars s1) as [[key s2]|] eqn:H2; [|done].
  apply parse_chars_sound in H2 as [_ H2].
  destruct (expect 58 s2) as [s3|] eqn:H3; [|done]. apply expect_len in H3.
  by rewrite (Ha s3) by lia.
Qed.

Lemma parse_members_fuel v1 v2 f1 f2 s :
  sound_reader v1 -> agree (S (len s)) v1 v2 -> len s < f1 -> len s < f2 ->
  parse_members v1 f1 s = parse_members v2 f2 s.
Proof.
  intros Hv. revert f2 s. induction f1 as [|f1 IH]; intros [|f2] s Ha H1 H2; try lia. cbn.
  rewrite <- (parse_member_agree v1 v2) by (intros u Hu; apply Ha; lia).
  destruct (parse_member v1 s) as [[x t]|] eqn:Hx; [|done].
  apply parse_member_sound in Hx as [_ Hl]; [|done]. pose proof (skip_space_len t) as Ht.
  destruct (skip_space t) as [|c r]; [done|]. rewrite len_String in Ht.
  destruct (is_char 125 c); [done|]. destruct (is_char 44 c); [|done].
  rewrite (IH f2 r); [done| |lia|lia]. intros u Hu. apply Ha. lia.
Qed.

(** Fuel beyond the length of the text changes nothing. *)
Lemma parse_value_fuel f1 f2 s :
  len s < f1 -> len s < f2 -> parse_value f1 s = parse_value f2 s.
Proof.
  revert f2 s. induction f1 as [|f1 IH]; intros [|f2] s H1 H2; try lia. cbn [parse_value].
  pose proof (skip_space_len s) as Hs. destruct (skip_space s) as [|c r]; [done|].
  rewrite len_String in Hs. destruct (is_char 34 c); [done|].
  assert (agree (S (len r)) (parse_value f1) (parse_value f2)) as Ha
    by (intros t Ht; apply IH; lia).
  rewrite (parse_elements_fuel _ (parse_value f2) f1 f2 r) by (done || lia || apply parse_value_sound).
  rewrite (parse_members_fuel _ (parse_value f2) f1 f2 r) by (done || lia || apply parse_value_sound).
  done.
Qed.

(** ** A printed value is one line *)

Definition one_line : string -> bool := all_chars (fun c => negb (Ascii.eqb c newline)).

Lemma escape_ascii_line c : one_line (escape_ascii c) = true.
Proof. destruct c as [[] [] [] [] [] [] [] []]; reflexivity. Qed.

Lemma not_newline c : 10 < code c -> negb (Ascii.eqb c newline) = true.
Proof. intros H. apply negb_true_iff, Ascii.eqb_neq. intros ->. change (10 < 10) in H. lia. Qed.

Lemma continuation_code c : continuation c = true -> 128 <= code c.
Proof. unfold continuation, in_range. intros H. go_simp. lia. Qed.

Lemma utf8_2_line a b : utf8_2 a b = true -> one_line (String a (String b "")) = true.
Proof.
  intros H. pose proof (utf8_2_lead _ _ H). unfold utf8_2 in H. apply andb_true_iff in H as [_ H].
  apply continuation_code in H. cbn. by rewrite !not_newline by lia.
Qed.

Lemma high_line a b c : 128 <= code a -> 128 <= code b -> 128 <= code c ->
  one_line (String a (String b (String c ""))) = true.
Proof. intros. cbn. by rewrite !not_newline by lia. Qed.

Lemma utf8_3_codes a b c : utf8_3 a b c = true -> 128 <= code b /\ 128 <= code c.
Proof.
  unfold utf8_3, continuation, in_range, is_char. intros H. apply andb_true_iff in H as [H Hc].
  apply andb_true_iff in Hc as [Hc%Nat.leb_le _]. split; [|lia].
  repeat first [rewrite orb_true_iff in H | rewrite andb_true_iff in H].
  rewrite !Nat.leb_le in H. lia.
Qed.

Lemma utf8_4_codes a b c d : utf8_4 a b c d = true -> 128 <= code b /\ 128 <= code c /\ 128 <= code d.
Proof.
  unfold utf8_4, continuation, in_range, is_char. intros H. apply andb_true_iff in H as [H Hd].
  apply andb_true_iff in H as [H Hc].
  apply andb_true_iff in Hc as [Hc%Nat.leb_le _]. apply andb_true_iff in Hd as [Hd%Nat.leb_le _].
  split_and!; [|lia|lia].
  repeat first [rewrite orb_true_iff in H | rewrite andb_true_iff in H].
  rewrite !Nat.leb_le in H. lia.
Qed.

Lemma one_line_app s t : one_line (s +:+ t) = one_line s && one_line t.
Proof. apply all_chars_app. Qed.

Lemma escape_three_line a b c : utf8_3 a b c = true -> one_line (escape_three a b c) = true.
Proof.
  intros H. pose proof (utf8_3_lead _ _ _ H). pose proof (utf8_3_codes _ _ _ H).
  unfold escape_three. destruct (_ && _ && _); [|apply high_line; lia].
  rewrite one_line_app. apply andb_true_iff. split; [done|]. cbn. rewrite andb_true_r.
  unfold hex_char. apply not_newline. unfold code.
  pose proof (Nat.mod_upper_bound (nat_of_ascii c) 16).
  destruct (_ <? _) eqn:E; go_simp; rewrite nat_ascii_embedding by lia; lia.
Qed.

Lemma escape_line s : utf8 s -> one_line (escape s) = true.
Proof.
  induction 1 as [|a s Ha Hs IH|a b s Ha Hs IH|a b c s Ha Hs IH|a b c d s Ha Hs IH]; [done|..].
  - cbn [escape]. rewrite Ha, one_line_app, escape_ascii_line. done.
  - pose proof (utf8_2_lead _ _ Ha). rewrite escape_multi by lia. cbn zeta iota beta. rewrite Ha.
    change (one_line (String a (String b "") +:+ escape s) = true).
    by rewrite one_line_app, utf8_2_line.
  - pose proof (utf8_3_lead _ _ _ Ha). rewrite escape_multi by lia. cbn zeta iota beta.
    rewrite utf8_2_not_lead, Ha by lia. by rewrite one_line_app, escape_three_line.
  - pose proof (utf8_4_lead _ _ _ _ Ha). pose proof (utf8_4_codes _ _ _ _ Ha).
    rewrite escape_multi by lia. cbn zeta iota beta.
    rewrite utf8_2_not_lead, utf8_3_not_lead, Ha by lia.
    change (one_line (String a "" +:+ (String b (String c (String d "")) +:+ escape s)) = true).
    rewrite !one_line_app, high_line, IH by lia. cbn. by rewrite not_newline by lia.
Qed.

(** The characters of numbers *)
Definition number_chars : string -> bool := all_chars (fun c => 32 <? code c).

Definition reads_number (read : string -> option (string * string)) : Prop :=
  forall s x r, read s = Some (x, r) -> number_chars x = true.

Lemma prepend_number head read s x r : number_chars head = true -> reads_number read ->
  prepend head (read s) = Some (x, r) -> number_chars x = true.
Proof.
  intros Hh Hr H. apply prepend_Some in H as (y & Hy & ->). unfold number_chars.
  rewrite all_chars_app. apply andb_true_iff. split; [exact Hh|exact (Hr _ _ _ Hy)].
Qed.

Lemma digit_number c : is_digit c = true -> (32 <? code c) = true.
Proof. unfold is_digit, in_range. intros H. go_simp. apply Nat.ltb_lt. lia. Qed.

Lemma span_digits_number s : number_chars (span_digits s).1 = true.
Proof.
  induction s as [|c s IH]; [done|]. cbn [span_digits]. destruct (is_digit c) eqn:E; [|done].
  destruct (span_digits s). unfold number_chars in *. cbn [fst all_chars] in *. by rewrite digit_number, IH.
Qed.

Lemma span_digits1_number : reads_number span_digits1.
Proof.
  intros s x r. unfold span_digits1. pose proof (span_digits_number s) as H.
  destruct (span_digits s). destruct (_ == _); [done|]. by intros [= <- <-].
Qed.

Lemma char_number n c : is_char n c = true -> 32 < n -> (32 <? code c) = true.
Proof. intros H Hn. apply Nat.eqb_eq in H. apply Nat.ltb_lt. lia. Qed.

Lemma one_char_number c : (32 <? code c) = true -> number_chars (String c "") = true.
Proof. intros H. unfold number_chars. cbn [all_chars]. by rewrite H. Qed.

Lemma parse_exponent_number : reads_number parse_exponent.
Proof.
  intros s x r H. destruct s as [|c s]; cbn in H; [by simplify_eq|].
  destruct (is_char 101 c || is_char 69 c) eqn:Hc; [|by simplify_eq].
  assert ((32 <? code c) = true) as Hc1.
  { apply orb_true_iff in Hc as [Hc|Hc]; (eapply char_number; [exact Hc|lia]). }
  destruct s as [|d s]; [done|]. destruct (is_char 43 d || is_char 45 d) eqn:Hd.
  - assert ((32 <? code d) = true) as Hd1.
    { apply orb_true_iff in Hd as [Hd|Hd]; (eapply char_number; [exact Hd|lia]). }
    eapply prepend_number; [|apply span_digits1_number|exact H].
    unfold number_chars. cbn [all_chars]. by rewrite Hc1, Hd1.
  - eapply prepend_number; [|apply span_digits1_number|exact H]. by apply one_char_number.
Qed.

Lemma parse_unsigned_number : reads_number parse_unsigned.
Proof.
  intros s x r. unfold parse_unsigned.
  destruct (parse_integer s) as [[i s1]|] eqn:Hi; [|done].
  destruct (parse_fraction s1) as [[f s2]|] eqn:Hf; [|done].
  apply prepend_number; [|apply parse_exponent_number]. unfold number_chars. rewrite all_chars_app.
  apply andb_true_iff. split.
  - destruct s as [|c s]; [done|]. cbn [parse_integer] in Hi. destruct (is_char 48 c) eqn:E.
    + injection Hi as <- <-. apply one_char_number. eapply char_number; [exact E|lia].
    + destruct (is_digit c) eqn:E'; [|done]. injection Hi as Hi.
      change (span_digits (String c s) = (i, s1)) in Hi.
      pose proof (span_digits_number (String c s)) as Hn. by rewrite Hi in Hn.
  - destruct s1 as [|c s1]; cbn in Hf; [by simplify_eq|].
    destruct (is_char 46 c) eqn:E; [|by simplify_eq].
    eapply prepend_number; [|apply span_digits1_number|exact Hf].
    apply one_char_number. eapply char_number; [exact E|lia].
Qed.

Lemma number_line n : parse_number n = Some (n, "") -> one_line n = true.
Proof.
  intros H. assert (number_chars n = true) as Hn.
  { destruct n as [|c s]; [done|]. cbn [parse_number] in H. destruct (is_char 45 c) eqn:E.
    - eapply prepend_number; [|apply parse_unsigned_number|exact H].
      apply one_char_number. eapply char_number; [exact E|lia].
    - by eapply parse_unsigned_number. }
  eapply all_chars_impl; [|exact Hn]. intros c Hc. apply Nat.ltb_lt in Hc. apply not_newline. lia.
Qed.

Lemma commas_line parts : Forall (fun p => one_line p = true) parts -> one_line (commas parts) = true.
Proof.
  induction 1 as [|p parts Hp Hps IH]; [done|]. destruct parts as [|q parts]; [done|].
  cbn [commas] in *. by rewrite !one_line_app, Hp, IH.
Qed.

Lemma print_string_line s : utf8 s -> one_line (print_string s) = true.
Proof.
  intros H. unfold print_string. change (one_line (String quote "" +:+ (escape s +:+ String quote "")) = true).
  by rewrite !one_line_app, escape_line.
Qed.

Lemma print_line j : well_formed j -> one_line (print j) = true.
Proof.
  induction j as [|[]|n|s|xs IH|ms IH] using json_parts_ind; intros Hw; try done.
  - by apply number_line.
  - by apply print_string_line.
  - apply json_all_array in Hw. cbn [print]. rewrite !one_line_app, commas_line; [done|].
    apply Forall_map. rewrite Forall_forall in *. intros x Hx. apply IH; [done|]. by apply Hw.
  - apply json_all_object in Hw. cbn [print]. rewrite !one_line_app, commas_line; [done|].
    apply Forall_map. rewrite Forall_forall in *. intros m Hm. destruct (Hw m Hm) as [Hk Hv].
    rewrite !one_line_app, print_string_line, (IH m Hm Hv) by done. done.
Qed.
