(* ===== verification/StrictJson.v ===== *)
(** * internal/strictjson, and decoding into Go types

    [Validate], [Decode] and [DecodeExact] of internal/strictjson/strictjson.go
    over the texts of GoJson, and what [json.Decoder.Decode] makes of a text
    for the types the components decode: strings, integers, booleans, pointers,
    slices and structs.

    A Go variable can be assigned several times by one document, since field
    names match without regard to case: a decoder takes the list of values that
    are assigned to its variable, in order, starting from the zero value. *)

From stdpp Require Import gmap strings list.
From Stdlib Require Import ZArith Ascii Lia.
From S2P Require Import Prelude GoString GoTime GoJson GoJsonCorrect.

(** ** Bounds and errors *)

Definition MaxDocumentBytes : Z := 8388608.
Definition maxDepth : nat := 64.

Definition ErrInvalid : goerror := errors_New "invalid JSON document".
Definition ErrDuplicate : goerror := errors_New "duplicate JSON object field".
Definition ErrTooLarge : goerror := errors_New "JSON document exceeds size limit".

(** The deepest nesting of arrays and objects; [json.Valid] accepts 10,000. *)
Fixpoint nesting (j : json) : Z :=
  match j with
  | JArray xs => 1 + foldr (fun x d => Z.max (nesting x) d) 0 xs
  | JObject ms => 1 + foldr (fun m d => Z.max (nesting m.2) d) 0 ms
  | _ => 0
  end%Z.

Definition json_Valid (data : string) : bool :=
  match parse data with
  | Some j => (nesting j <=? 10000)%Z
  | None => false
  end.

(** The walk over the tokens of a valid text: whether a field was seen twice in
    one object before anything too deep was met. *)
Section Inspect.
Context (inspect : json -> result bool).

Fixpoint inspect_members (seen : gset string) (ms : list (string * json)) : result bool :=
  match ms with
  | [] => Ok false
  | (key, value) :: rest =>
      if bool_decide (key ∈ seen) then Ok true
      else match inspect value with
           | Ok false => inspect_members ({[key]} ∪ seen) rest
           | stopped => stopped
           end
  end.

Fixpoint inspect_elements (xs : list json) : result bool :=
  match xs with
  | [] => Ok false
  | value :: rest =>
      match inspect value with
      | Ok false => inspect_elements rest
      | stopped => stopped
      end
  end.
End Inspect.

Fixpoint inspectValue (depth : nat) (j : json) : result bool :=
  if maxDepth <? depth then Err ErrInvalid
  else match j with
  | JObject ms => inspect_members (inspectValue (S depth)) ∅ ms
  | JArray xs => inspect_elements (inspectValue (S depth)) xs
  | _ => Ok false
  end.

Definition Validate (data : string) : option goerror :=
  if (len data =? 0) || (MaxDocumentBytes <? Z.of_nat (len data))%Z || negb (json_Valid data)
  then if (MaxDocumentBytes <? Z.of_nat (len data))%Z then Some ErrTooLarge else Some ErrInvalid
  else match parse data with
  | None => Some ErrInvalid
  | Some j =>
      match inspectValue 0 j with
      | Err _ => Some ErrInvalid
      | Ok true => Some ErrDuplicate
      | Ok false => None
      end
  end.

(** [Read] of a stream: what it holds, or an error while it is read.  A stream
    is read one byte further than the bound. *)
Definition Read (reader : option string) : result string :=
  match reader with
  | None => Err ErrInvalid
  | Some data =>
      if (MaxDocumentBytes <? Z.of_nat (len data))%Z then Err ErrTooLarge
      else match Validate data with
           | Some err => Err err
           | None => Ok data
           end
  end.

(** ** Decoding

    [strict] stands for [DisallowUnknownFields]. *)

Class Unmarshal (A : Type) := unmarshal : bool -> list json -> option A.
#[global] Arguments unmarshal {A _} strict values : simpl never.

Definition decode_into {A} `{Unmarshal A} (strict : bool) (data : string) : result A :=
  match Validate data with
  | Some err => Err err
  | None =>
      match parse data with
      | None => Err ErrInvalid
      | Some j =>
          match unmarshal strict [j] with
          | None => Err ErrInvalid
          | Some destination => Ok destination
          end
      end
  end.

Definition Decode {A} `{Unmarshal A} (data : string) : result A := decode_into false data.
Definition DecodeExact {A} `{Unmarshal A} (data : string) : result A := decode_into true data.

(** A null leaves the variable as it is. *)
Fixpoint assign {A} (read : json -> option A) (current : A) (values : list json) : option A :=
  match values with
  | [] => Some current
  | JNull :: rest => assign read current rest
  | value :: rest =>
      match read value with
      | Some a => assign read a rest
      | None => None
      end
  end.

#[export] Instance unmarshal_string : Unmarshal string := fun _ =>
  assign (fun j => match j with JString s => Some s | _ => None end) "".

#[export] Instance unmarshal_bool : Unmarshal bool := fun _ =>
  assign (fun j => match j with JBool b => Some b | _ => None end) false.

(** [strconv.ParseInt] of a number literal, in base 10 and 64 bits. *)
Fixpoint digits_value (acc : Z) (s : string) : option Z :=
  match s with
  | EmptyString => Some acc
  | String c r =>
      if is_digit c then digits_value (acc * 10 + Z.of_nat (code c - 48))%Z r else None
  end.

Definition in_int64 (z : Z) : option Z :=
  if ((min_int64 <=? z) && (z <=? max_int64))%Z then Some z else None.

Definition ParseInt (s : string) : option Z :=
  match s with
  | EmptyString => None
  | String c r =>
      if is_char 45 c
      then if r == "" then None
           else match digits_value 0 r with Some z => in_int64 (- z) | None => None end
      else match digits_value 0 s with Some z => in_int64 z | None => None end
  end.

#[export] Instance unmarshal_int : Unmarshal Z := fun _ =>
  assign (fun j => match j with JNumber n => ParseInt n | _ => None end) 0%Z.

Section Containers.
Context {A : Type} `{Unmarshal A} (strict : bool).

(** A null takes the pointer away; every other value is decoded into what the
    pointer refers to.  [pointee] are the values since the last null. *)
Fixpoint assign_pointer (pointee values : list json) : option (option A) :=
  let settled := match pointee with [] => Some None | _ => Some <$> unmarshal strict pointee end in
  match values with
  | [] => settled
  | JNull :: rest => match settled with None => None | Some _ => assign_pointer [] rest end
  | value :: rest => assign_pointer (pointee ++ [value]) rest
  end.

(** The values each element of a slice is assigned: an array is decoded over
    the elements the slice held before. *)
Fixpoint overlay (columns : list (list json)) (row : list json) : list (list json) :=
  match columns, row with
  | column :: columns, x :: row => (column ++ [x]) :: overlay columns row
  | [], row => List.map (fun x => [x]) row
  | columns, [] => columns
  end.

Fixpoint decode_columns (columns : list (list json)) : option (list A) :=
  match columns with
  | [] => Some []
  | column :: rest =>
      match unmarshal strict column, decode_columns rest with
      | Some a, Some r => Some (a :: r)
      | _, _ => None
      end
  end.

(** [columns] belong to the arrays since the slice was last nil or empty, and
    [n] elements of them are in the slice. *)
Fixpoint assign_slice (columns : list (list json)) (n : nat) (values : list json)
    : option (list A) :=
  match values with
  | [] => take n <$> decode_columns columns
  | JNull :: rest | JArray [] :: rest =>
      match decode_columns columns with None => None | Some _ => assign_slice [] 0 rest end
  | JArray row :: rest => assign_slice (overlay columns row) (length row) rest
  | _ => None
  end.
End Containers.

#[export] Instance unmarshal_pointer {A} `{Unmarshal A} : Unmarshal (option A) :=
  fun strict => assign_pointer strict [].
#[export] Instance unmarshal_slice {A} `{Unmarshal A} : Unmarshal (list A) :=
  fun strict => assign_slice strict [] 0.

(** ** Structs

    Names are compared as [foldName] folds them: ASCII letters by case, and the
    two other characters that fold to an ASCII letter. *)

Definition upper (c : ascii) : ascii :=
  if is_lower c then ascii_of_nat (code c - 32) else c.

Fixpoint foldName (s : string) : string :=
  match s with
  | EmptyString => EmptyString
  | String a r =>
      match r with
      | String b r' =>
          if is_char 197 a && is_char 191 b then String "S" (foldName r')
          else match r' with
               | String c r'' =>
                   if is_char 226 a && is_char 132 b && is_char 170 c
                   then String "K" (foldName r'') else String (upper a) (foldName r)
               | EmptyString => String (upper a) (foldName r)
               end
      | EmptyString => String (upper a) (foldName r)
      end
  end.

(** The field a key belongs to. *)
Definition resolve (names : list string) (key : string) : option string :=
  if bool_decide (key ∈ names) then Some key
  else List.find (fun name => foldName name == foldName key) names.

Definition known_key (names : list string) (key : string) : bool :=
  match resolve names key with Some _ => true | None => false end.

(** The members of the objects a struct is assigned, in order. *)
Fixpoint struct_members (values : list json) : option (list (string * json)) :=
  match values with
  | [] => Some []
  | JNull :: rest => struct_members rest
  | JObject ms :: rest => app ms <$> struct_members rest
  | _ => None
  end.

Definition members (strict : bool) (names : list string) (values : list json)
    : option (list (string * json)) :=
  match struct_members values with
  | None => None
  | Some ms =>
      if strict && negb (forallb (fun m => known_key names m.1) ms) then None else Some ms
  end.

(** The values of one field. *)
Definition gather (names : list string) (ms : list (string * json)) (name : string) : list json :=
  List.map snd
    (List.filter (fun m => bool_decide (resolve names m.1 = Some name)) ms).

(** ** Encoding

    [strconv.FormatInt] in base 10: twenty digits are enough for an [int64]. *)

Fixpoint digits_fuel (fuel : nat) (z : Z) (acc : string) : string :=
  match fuel with
  | 0 => acc
  | S fuel =>
      let acc := String (digit (Z.to_nat (z mod 10))) acc in
      if (z <? 10)%Z then acc else digits_fuel fuel (z / 10) acc
  end.

Definition FormatInt (z : Z) : string :=
  if (z <? 0)%Z then String "-" (digits_fuel 20 (- z) "") else digits_fuel 20 z "".

Class Marshal (A : Type) := marshal : A -> json.
#[global] Arguments marshal {A _} value : simpl never.

#[export] Instance marshal_string : Marshal string := JString.
#[export] Instance marshal_bool : Marshal bool := JBool.
#[export] Instance marshal_int : Marshal Z := fun z => JNumber (FormatInt z).

(** Slices are lists here, and the empty list is the nil slice. *)
#[export] Instance marshal_slice {A} `{Marshal A} : Marshal (list A) := fun xs =>
  match xs with [] => JNull | _ => JArray (List.map marshal xs) end.

(** The fields of a struct in the order of their declaration, each with the
    value that is written, if one is. *)
Definition fields : Type := list (string * list json).

Definition field {A} `{Marshal A} (name : string) (a : A) : string * list json :=
  (name, [marshal a]).

(** [omitempty] of a string, a slice and a pointer *)
Definition field_omitempty (name s : string) : string * list json :=
  (name, if s == "" then [] else [marshal s]).
Definition slice_omitempty {A} `{Marshal A} (name : string) (xs : list A) : string * list json :=
  (name, match xs with [] => [] | _ => [marshal xs] end).
(** A slice that is not nil *)
Definition slice_array {A} `{Marshal A} (name : string) (xs : list A) : string * list json :=
  (name, [JArray (List.map marshal xs)]).
Definition pointer_omitempty {A} `{Marshal A} (name : string) (p : option A)
    : string * list json :=
  (name, match p with None => [] | Some a => [marshal a] end).

Definition flatten (fs : fields) : list (string * json) :=
  flat_map (fun f => List.map (fun v => (f.1, v)) f.2) fs.

Definition JStruct (fs : fields) : json := JObject (flatten fs).

Definition json_Marshal {A} `{Marshal A} (a : A) : string := print (marshal a).
