(* ===== verification/StrictJsonCorrect.v ===== *)
(** * The laws of strict JSON

    What [Validate] accepts, decimal integers, and the round trip of the
    encoders and decoders, one law per type ([JsonLaws]). *)

From stdpp Require Import gmap strings list.
From Stdlib Require Import ZArith Ascii Lia.
From S2P Require Import Prelude GoString GoTime GoJson GoJsonCorrect StrictJson.

(** ** What the walk over the tokens accepts *)

(** How many containers a value of the tree lies in, at most. *)
Fixpoint height (j : json) : nat :=
  match j with
  | JArray xs => foldr (fun x d => S (height x) `max` d) 0 xs
  | JObject ms => foldr (fun m d => S (height m.2) `max` d) 0 ms
  | _ => 0
  end.

(** No object has two fields of one name. *)
Fixpoint distinct_fields (j : json) : Prop :=
  match j with
  | JArray xs => foldr (fun x P => distinct_fields x /\ P) True xs
  | JObject ms => NoDup ms.*1 /\ foldr (fun m P => distinct_fields m.2 /\ P) True ms
  | _ => True
  end.

Lemma foldr_and {A} (P : A -> Prop) xs : foldr (fun x Q => P x /\ Q) True xs <-> Forall P xs.
Proof. induction xs as [|x xs IH]; cbn; [done|]. by rewrite Forall_cons, IH. Qed.

Lemma foldr_max {A} (f : A -> nat) xs n :
  foldr (fun x d => S (f x) `max` d) 0 xs <= n <-> Forall (fun x => S (f x) <= n) xs.
Proof.
  induction xs as [|x xs IH]; cbn; [split; [done|lia]|]. rewrite Forall_cons, <- IH. lia.
Qed.

Lemma inspect_elements_exact inspect xs :
  inspect_elements inspect xs = Ok false <-> Forall (fun x => inspect x = Ok false) xs.
Proof.
  induction xs as [|x xs IH]; cbn; [done|]. rewrite Forall_cons, <- IH.
  destruct (inspect x) as [[]|]; split; try done; by intros [? ?].
Qed.

Lemma inspect_members_exact inspect seen ms :
  inspect_members inspect seen ms = Ok false <->
  NoDup ms.*1 /\ (forall key, key ∈ ms.*1 -> key ∉ seen) /\
  Forall (fun m => inspect m.2 = Ok false) ms.
Proof.
  revert seen. induction ms as [|[key x] ms IH]; intros seen.
  { cbn. split; [intros _|done]. split_and!; [constructor|by intros k ?%elem_of_nil|constructor]. }
  cbn. rewrite NoDup_cons, Forall_cons. case_bool_decide as Hin.
  { split; [done|]. intros (_ & H & _). destruct (H key); [by left|done]. }
  cbn. destruct (inspect x) as [[]|]; try (split; [done|by intros (_ & _ & ? & _)]).
  rewrite IH. split.
  - intros (Hd & Hs & Hf). split_and!; try done.
    + intros Hk. by apply (Hs key Hk), elem_of_union_l, elem_of_singleton.
    + intros k [->|Hk]%elem_of_cons; [done|]. intros Hk'. by apply (Hs k Hk), elem_of_union_r.
  - intros ((Hk & Hd) & Hs & _ & Hf). split_and!; try done.
    intros k Hk' [->%elem_of_singleton|Hi]%elem_of_union; [done|].
    apply (Hs k); [by right|done].
Qed.

Lemma inspect_parts {A} (part : A -> json) d xs :
  Forall (fun x => forall d,
    inspectValue d (part x) = Ok false <-> distinct_fields (part x) /\ d + height (part x) <= maxDepth) xs ->
  Forall (fun x => inspectValue (S d) (part x) = Ok false) xs <->
  Forall (fun x => distinct_fields (part x)) xs /\
  Forall (fun x => S (height (part x)) <= maxDepth - d) xs.
Proof.
  rewrite <- Forall_and, !Forall_forall. intros H.
  split; intros Hx x Hin; specialize (Hx x Hin); [apply H in Hx; [|done]|apply H; [done|]];
    split; try apply Hx; lia.
Qed.

Lemma depth_room d n : d <= maxDepth -> d + n <= maxDepth <-> n <= maxDepth - d.
Proof. lia. Qed.

Lemma inspectValue_exact j : forall d,
  inspectValue d j = Ok false <-> distinct_fields j /\ d + height j <= maxDepth.
Proof.
  induction j as [|b|n|s|xs IH|ms IH] using json_parts_ind; intros d; cbn [inspectValue];
    destruct (maxDepth <? d) eqn:E; go_simp; cbn [distinct_fields height];
    try (split; [done|intros [_ ?]; lia]); try (split; [intros _; split; [done|lia]|done]).
  - rewrite inspect_elements_exact, foldr_and, depth_room, (foldr_max height) by done.
    exact (inspect_parts id d xs IH).
  - rewrite inspect_members_exact, (foldr_and (fun m => distinct_fields m.2)), depth_room,
      (foldr_max (fun m => height m.2)), (inspect_parts snd d ms IH) by done.
    split; [intros (? & _ & ? & ?); by split_and!|]. intros [[? ?] ?]. split_and!; try done.
Qed.

Lemma nesting_height j : (nesting j <= Z.of_nat (height j) + 1)%Z.
Proof.
  induction j as [|b|n|s|xs IH|ms IH] using json_parts_ind; cbn [nesting height]; try lia.
  - induction IH as [|x xs Hx _ IHxs]; cbn in *; lia.
  - induction IH as [|m ms Hx _ IHms]; cbn in *; lia.
Qed.

(** A text is valid exactly when it is one JSON value of a permitted size, not
    too deep, without duplicate fields. *)
Lemma Validate_None data :
  Validate data = None <->
  (Z.of_nat (len data) <= MaxDocumentBytes)%Z /\
  exists j, parse data = Some j /\ distinct_fields j /\ height j <= maxDepth.
Proof.
  unfold Validate, json_Valid. destruct (_ <? _)%Z eqn:Hl; go_simp.
  { rewrite orb_true_r. cbn. split; [done|]. intros [? _]. lia. }
  rewrite orb_false_r. destruct (parse data) as [j|] eqn:Hp.
  2: { rewrite orb_true_r. split; [done|]. intros (_ & j & ? & _). done. }
  assert ((len data =? 0) = false) as ->.
  { apply Nat.eqb_neq. intros H. destruct data; [done|]. by rewrite len_String in H. }
  destruct (nesting j <=? 10000)%Z eqn:Hn; go_simp.
  - pose proof (inspectValue_exact j 0) as Hi. cbn [orb negb].
    destruct (inspectValue 0 j) as [[]|].
    + split; [done|]. intros (_ & k & [= <-] & Hk). by apply Hi in Hk.
    + split; [|done]. intros _. split; [done|]. exists j. split; [done|]. by apply Hi.
    + split; [done|]. intros (_ & k & [= <-] & Hk). by apply Hi in Hk.
  - split; [done|]. intros (_ & k & [= <-] & _ & Hh). pose proof (nesting_height j).
    unfold maxDepth in Hh. lia.
Qed.

Lemma Validate_too_large data :
  Validate data = Some ErrTooLarge <-> (MaxDocumentBytes < Z.of_nat (len data))%Z.
Proof.
  unfold Validate. destruct (_ <? _)%Z eqn:Hl; go_simp.
  { rewrite orb_true_r. cbn. done. }
  split; [|lia]. intros H. exfalso. repeat case_match; done.
Qed.

(** ** Decimal integers *)

Definition all_digits : string -> bool := all_chars is_digit.

Lemma digit_is_digit n : n < 10 -> is_digit (digit n) = true /\ code (digit n) = 48 + n.
Proof.
  intros H. unfold is_digit, in_range, digit, code. rewrite nat_ascii_embedding by lia.
  split; [|done]. apply andb_true_iff. rewrite !Nat.leb_le. lia.
Qed.

Lemma digits_value_app ds acc s : all_digits ds = true ->
  digits_value acc (ds +:+ s) =
  match digits_value acc ds with Some v => digits_value v s | None => None end.
Proof.
  revert acc. induction ds as [|c ds IH]; intros acc H; [done|].
  rewrite string_app_cons. cbn in *. go_simp. rewrite H. by apply IH.
Qed.

(** The digits written for [z] in front of [acc]. *)
Lemma digits_fuel_spec fuel z acc : (0 <= z < 10 ^ Z.of_nat fuel)%Z -> 0 < fuel ->
  exists ds, digits_fuel fuel z acc = ds +:+ acc /\ all_digits ds = true /\
    (forall v, digits_value v ds = Some (v * 10 ^ Z.of_nat (len ds) + z)%Z) /\
    exists c r, ds = String c r /\ (is_char 48 c = true -> r = "").
Proof.
  revert z acc. induction fuel as [|fuel IH]; intros z acc Hz Hf; [lia|].
  cbn [digits_fuel]. set (c := digit (Z.to_nat (z mod 10))).
  pose proof (Z.mod_pos_bound z 10 ltac:(lia)) as Hm.
  destruct (digit_is_digit (Z.to_nat (z mod 10)) ltac:(lia)) as [Hd Hc]. fold c in Hd, Hc.
  destruct (z <? 10)%Z eqn:E; go_simp.
  - exists (String c ""). rewrite (Z.mod_small z 10) in * by lia.
    split_and!; [done|by unfold all_digits; cbn; rewrite Hd| |by eauto].
    intros v. cbn. rewrite Hd, Hc. f_equal. lia.
  - assert (0 <= z / 10 < 10 ^ Z.of_nat fuel)%Z as Hq.
    { split; [apply Z.div_pos; lia|]. apply Z.div_lt_upper_bound; [lia|].
      rewrite <- Z.pow_succ_r, <- Nat2Z.inj_succ by lia. lia. }
    assert (0 < fuel) as Hf'.
    { destruct fuel; [|lia]. cbn in Hq. pose proof (Z.div_le_lower_bound z 10 1 ltac:(lia) ltac:(lia)). lia. }
    destruct (IH (z / 10)%Z (String c acc) Hq Hf') as (ds & -> & Hds & Hv & d & r & -> & Hr).
    exists (String d r +:+ String c ""). split_and!.
    + by rewrite string_app_assoc.
    + unfold all_digits in *. rewrite all_chars_app, Hds. cbn. by rewrite Hd.
    + intros v. rewrite digits_value_app, Hv by done. cbn [digits_value]. rewrite Hd, Hc.
      f_equal. rewrite len_app. change (len (String c "")) with 1.
      rewrite Nat2Z.inj_add, Z.pow_add_r by lia. pose proof (Z.div_mod z 10). lia.
    + exists d, (r +:+ String c ""). split; [done|]. intros Hh. exfalso.
      specialize (Hr Hh). subst r. apply char_of_code in Hh. subst d.
      pose proof (Z.div_le_lower_bound z 10 1 ltac:(lia) ltac:(lia)).
      specialize (Hv 0%Z). change (Some 0%Z = Some (0 * 10 ^ 1 + z / 10)%Z) in Hv.
      injection Hv. lia.
Qed.

Lemma all_digits_span ds s : all_digits ds = true -> ends_number s = true ->
  span_digits (ds +:+ s) = (ds, s).
Proof.
  intros H Hs. induction ds as [|c ds IH].
  - destruct s as [|c s]; [done|]. apply ends_number_inv in Hs as [Hc _].
    change (span_digits (String c s) = ("", String c s)). cbn [span_digits]. by rewrite Hc.
  - unfold all_digits in *. rewrite string_app_cons. cbn in *. go_simp. by rewrite H, IH.
Qed.

Lemma FormatInt_spec z : is_int64 z ->
  ParseInt (FormatInt z) = Some z /\ parse_number (FormatInt z) = Some (FormatInt z, "").
Proof.
  intros Hz. unfold is_int64, min_int64, max_int64 in Hz.
  assert (forall n, (0 <= n < 10 ^ 20)%Z -> exists c r, digits_fuel 20 n "" = String c r /\
    is_char 45 c = false /\ digits_value 0 (String c r) = Some n /\
    parse_unsigned (String c r) = Some (String c r, "")) as H.
  { intros n Hn. destruct (digits_fuel_spec 20 n "" Hn ltac:(lia)) as (ds & E & Hd & Hv & c & r & -> & Hr).
    rewrite string_app_nil_r in E. exists c, r. rewrite Hv. split; [exact E|]. clear E.
    split_and!; [|f_equal; lia|]; clear Hn Hv.
    - unfold all_digits in Hd. cbn in Hd. go_simp. unfold is_digit, in_range in H. go_simp.
      apply Nat.eqb_neq. lia.
    - assert (parse_integer (String c r) = Some (String c r, "")) as Hi.
      { unfold parse_integer. destruct (is_char 48 c) eqn:E0; [by rewrite Hr|].
        pose proof (all_digits_span (String c r) "" Hd eq_refl) as Hs.
        rewrite string_app_nil_r in Hs. rewrite Hs.
        unfold all_digits in Hd. cbn in Hd. go_simp. by rewrite H. }
      unfold parse_unsigned. rewrite Hi. cbn. by rewrite !string_app_nil_r. }
  unfold FormatInt. destruct (z <? 0)%Z eqn:E; [apply Z.ltb_lt in E|apply Z.ltb_ge in E].
  - destruct (H (- z)%Z ltac:(lia)) as (c & r & -> & Hc & Hv & Hp).
    unfold ParseInt, parse_number. change (is_char 45 "-") with true. cbn iota.
    change (String c r == "") with false. cbn iota. rewrite Hv, Hp. split; [|done].
    unfold in_int64, min_int64, max_int64. rewrite Z.opp_involutive.
    by rewrite (proj2 (Z.leb_le _ _)), (proj2 (Z.leb_le _ _)) by lia.
  - destruct (H z ltac:(lia)) as (c & r & -> & Hc & Hv & Hp).
    unfold ParseInt, parse_number. rewrite Hc, Hv, Hp. split; [|done].
    unfold in_int64, min_int64, max_int64.
    by rewrite (proj2 (Z.leb_le _ _)), (proj2 (Z.leb_le _ _)) by lia.
Qed.

(** ** Round trips

    The values of a type that survive a round trip, those whose strings are
    UTF-8 and whose integers are 64-bit; the law, and the depth of the tree. *)

Class JsonLaws (A : Type) `{!Marshal A, !Unmarshal A} := {
  wire : A -> Prop;
  json_depth : nat;
  wire_round a : wire a -> unmarshal true [marshal a] = Some a;
  wire_formed a : wire a -> well_formed (marshal a);
  wire_distinct a : distinct_fields (marshal a);
  wire_height a : height (marshal a) <= json_depth
}.

#[export] Instance string_laws : JsonLaws string.
Proof. by refine {| wire := utf8; json_depth := 0 |}. Defined.

#[export] Instance bool_laws : JsonLaws bool.
Proof. by refine {| wire := fun _ => True; json_depth := 0 |}. Defined.

#[export] Instance int_laws : JsonLaws Z.
Proof.
  refine {| wire := is_int64; json_depth := 0 |}; try done.
  - intros z Hz. unfold unmarshal, unmarshal_int, marshal, marshal_int. cbn [assign].
    by rewrite (proj1 (FormatInt_spec z Hz)).
  - intros z Hz. exact (proj2 (FormatInt_spec z Hz)).
Defined.

Lemma overlay_nil row : overlay [] row = List.map (fun x => [x]) row.
Proof. by destruct row. Qed.

Section SliceLaws.
Context {A : Type} `{JsonLaws A}.

Lemma decode_columns_marshal (xs : list A) : Forall wire xs ->
  decode_columns true (List.map (fun x => [x]) (List.map marshal xs)) = Some xs.
Proof.
  induction 1 as [|x xs Hx Hxs IH]; [done|]. cbn [List.map decode_columns].
  by rewrite wire_round, IH.
Qed.

Lemma slice_round (xs : list A) : Forall wire xs -> unmarshal true [marshal xs] = Some xs.
Proof.
  intros Hx. destruct xs as [|x xs]; [done|].
  change (take (length (List.map marshal (x :: xs))) <$>
    decode_columns true (overlay [] (List.map marshal (x :: xs))) = Some (x :: xs)).
  rewrite overlay_nil, (decode_columns_marshal (x :: xs) Hx), length_map.
  change (Some (take (length (x :: xs)) (x :: xs)) = Some (x :: xs)). by rewrite firstn_all.
Qed.

#[export] Instance slice_laws : JsonLaws (list A).
Proof.
  refine {| wire := Forall wire; json_depth := S json_depth |}.
  - apply slice_round.
  - intros [|x xs] Hx; [done|]. apply json_all_array, Forall_map.
    eapply Forall_impl; [exact Hx|]. apply wire_formed.
  - intros [|x xs]; [done|]. apply foldr_and, Forall_map, Forall_forall.
    intros y _. apply wire_distinct.
  - intros [|x xs]; [apply Nat.le_0_l|]. change (height (marshal (x :: xs))) with
      (foldr (fun y d => S (height y) `max` d) 0 (List.map marshal (x :: xs))).
    apply foldr_max, Forall_map, Forall_forall. intros y _. pose proof (wire_height y). lia.
Defined.
End SliceLaws.

(** Fields that are left out when empty. *)
Lemma string_omitempty s : utf8 s ->
  unmarshal true (field_omitempty "" s).2 = Some s.
Proof. intros H. cbn. destruct (s == "") eqn:E; [|done]. by apply String.eqb_eq in E as ->. Qed.

Lemma slice_omitempty_round `{JsonLaws A} (xs : list A) : Forall wire xs ->
  unmarshal true (slice_omitempty "" xs).2 = Some xs.
Proof. intros Hx. destruct xs; [done|]. by apply slice_round. Qed.

Lemma pointer_omitempty_round `{JsonLaws A} (p : option A) :
  (forall a, p = Some a -> wire a) -> (forall a : A, marshal a <> JNull) ->
  unmarshal true (pointer_omitempty "" p).2 = Some p.
Proof.
  intros Hw Hn. destruct p as [a|]; [|done]. cbn.
  unfold unmarshal, unmarshal_pointer. cbn [assign_pointer].
  pose proof (wire_round a (Hw a eq_refl)) as Hr. specialize (Hn a).
  destruct (marshal a) eqn:E; try done; cbn [app fmap option_fmap option_map]; by rewrite Hr.
Qed.

(** ** Structs *)

Definition keys (fs : fields) : list string := fs.*1.

Lemma resolve_known names key : key ∈ names -> resolve names key = Some key.
Proof. intros H. unfold resolve. by rewrite bool_decide_eq_true_2. Qed.

Lemma elem_of_flatten fs m : m ∈ flatten fs <-> exists f, f ∈ fs /\ m.1 = f.1 /\ m.2 ∈ f.2.
Proof.
  unfold flatten. rewrite list_elem_of_In, in_flat_map. setoid_rewrite in_map_iff.
  setoid_rewrite <- list_elem_of_In. destruct m as [k v]. split.
  - intros (f & Hf & w & Hw & Hin). simplify_eq. by exists f.
  - intros (f & Hf & Hk & Hv). cbn in *. subst. exists f. split; [done|]. by exists v.
Qed.

Lemma flatten_keys fs m : m ∈ flatten fs -> m.1 ∈ keys fs.
Proof.
  rewrite elem_of_flatten. intros (f & Hf & -> & _). by apply list_elem_of_fmap_2.
Qed.

Lemma members_struct fs : members true (keys fs) [JStruct fs] = Some (flatten fs).
Proof.
  unfold members. cbn. rewrite app_nil_r.
  assert (forallb (fun m => known_key (keys fs) m.1) (flatten fs) = true) as ->; [|done].
  apply forallb_elem. intros m Hm. unfold known_key.
  by rewrite (resolve_known _ _ (flatten_keys _ _ Hm)).
Qed.

Lemma gather_same k names vs : k ∈ names ->
  gather names (List.map (fun v => (k, v)) vs) k = vs.
Proof.
  intros Hk. unfold gather. induction vs as [|v vs IH]; [done|]. cbn.
  rewrite (resolve_known names k Hk), bool_decide_eq_true_2 by done. cbn. by rewrite IH.
Qed.

Lemma gather_other k k' names vs : k' ∈ names -> k' <> k ->
  gather names (List.map (fun v => (k', v)) vs) k = [].
Proof.
  intros Hk Hne. unfold gather. induction vs as [|v vs IH]; [done|]. cbn.
  rewrite (resolve_known names k' Hk), bool_decide_eq_false_2 by congruence. done.
Qed.

Lemma gather_app names ms ms' k : gather names (ms ++ ms') k = gather names ms k ++ gather names ms' k.
Proof. unfold gather. by rewrite List.filter_app, List.map_app. Qed.

Lemma flatten_cons k vs fs :
  flatten ((k, vs) :: fs) = List.map (fun v => (k, v)) vs ++ flatten fs.
Proof. done. Qed.

Lemma gather_absent names fs k : keys fs ⊆ names -> k ∉ keys fs -> gather names (flatten fs) k = [].
Proof.
  induction fs as [|[k2 vs2] fs IH]; [done|]. intros Hs Hk. cbn in Hs, Hk.
  apply not_elem_of_cons in Hk as [Hne Hk].
  rewrite flatten_cons, gather_app, gather_other, IH; [done|set_solver|done|set_solver|done].
Qed.

Lemma gather_fields names fs k vs :
  NoDup (keys fs) -> keys fs ⊆ names -> (k, vs) ∈ fs -> gather names (flatten fs) k = vs.
Proof.
  induction fs as [|[k' vs'] fs IH]; intros Hd Hs Hin; [by apply elem_of_nil in Hin|].
  cbn in Hd, Hs. apply NoDup_cons in Hd as [Hk' Hd]. rewrite flatten_cons, gather_app.
  assert (k' ∈ names) as Hin' by (apply Hs; left). assert (keys fs ⊆ names) as Hs' by set_solver.
  apply elem_of_cons in Hin as [[= <- <-]|Hin].
  - by rewrite gather_same, gather_absent, app_nil_r.
  - rewrite gather_other; [by apply IH|done|]. intros ->. apply Hk'.
    by apply (list_elem_of_fmap_2 fst _ (k, vs)).
Qed.

(** The value of a field that decodes to [a]. *)
Lemma gather_decodes {A} `{Unmarshal A} fs k vs (a : A) :
  NoDup (keys fs) -> (k, vs) ∈ fs -> unmarshal true vs = Some a ->
  unmarshal true (gather (keys fs) (flatten fs) k) = Some a.
Proof. intros Hd Hin Ha. by rewrite (gather_fields _ fs k vs). Qed.

Lemma struct_formed fs : Forall (fun f => utf8 f.1 /\ Forall well_formed f.2) fs ->
  well_formed (JStruct fs).
Proof.
  intros H. apply json_all_object, Forall_forall. intros m Hm.
  apply elem_of_flatten in Hm as (f & Hf & -> & Hv). rewrite Forall_forall in H.
  destruct (H f Hf) as [? Hw]. split; [done|]. rewrite Forall_forall in Hw. by apply Hw.
Qed.

Lemma flatten_nodup fs : NoDup (keys fs) -> Forall (fun f => length f.2 <= 1) fs ->
  NoDup (flatten fs).*1.
Proof.
  induction fs as [|[k vs] fs IH]; intros Hd Hl; [constructor|].
  apply NoDup_cons in Hd as [Hk Hd]. apply Forall_cons in Hl as [Hv Hl]. cbn.
  assert (forall x, x ∈ (flatten fs).*1 -> x ∈ keys fs) as Hsub.
  { intros x (m & -> & Hm)%list_elem_of_fmap. by apply flatten_keys. }
  destruct vs as [|v [|]]; [by apply IH| |cbn in Hv; lia].
  cbn. apply NoDup_cons. split; [|by apply IH]. intros Hin. by apply Hk, Hsub.
Qed.

Lemma struct_distinct fs : NoDup (keys fs) ->
  Forall (fun f => length f.2 <= 1 /\ Forall distinct_fields f.2) fs ->
  distinct_fields (JStruct fs).
Proof.
  intros Hd H. apply Forall_and in H as [Hl Hf]. split; [by apply flatten_nodup|].
  apply (foldr_and (fun m => distinct_fields m.2)), Forall_forall. intros m Hm.
  apply elem_of_flatten in Hm as (f & Hin & _ & Hv). rewrite Forall_forall in Hf.
  specialize (Hf f Hin). rewrite Forall_forall in Hf. by apply Hf.
Qed.

Lemma struct_height fs n : Forall (fun f => Forall (fun v => height v <= n) f.2) fs ->
  height (JStruct fs) <= S n.
Proof.
  intros H. apply (foldr_max (fun m => height m.2)), Forall_forall. intros m Hm.
  apply elem_of_flatten in Hm as (f & Hin & _ & Hv). rewrite Forall_forall in H.
  specialize (H f Hin). rewrite Forall_forall in H. specialize (H _ Hv). lia.
Qed.

(** ** Documents *)

Section Documents.
Context {A : Type} `{JsonLaws A} (shallow : json_depth <= maxDepth).

Definition fits (a : A) : Prop := (Z.of_nat (len (json_Marshal a)) <= MaxDocumentBytes)%Z.

(** A document that was written is accepted and read back. *)
Lemma DecodeExact_Marshal (a : A) : wire a -> fits a -> DecodeExact (json_Marshal a) = Ok a.
Proof.
  intros Hw Hf. unfold DecodeExact, decode_into, json_Marshal.
  pose proof (parse_print _ (wire_formed a Hw)) as Hp.
  assert (Validate (print (marshal a)) = None) as ->.
  { apply Validate_None. split; [exact Hf|]. exists (marshal a). split_and!; [done|apply wire_distinct|].
    etrans; [apply wire_height|done]. }
  by rewrite Hp, wire_round.
Qed.

(** If it is accepted, whatever its size, nothing else is read back. *)
Lemma DecodeExact_exact (a b : A) : wire a -> DecodeExact (json_Marshal a) = Ok b -> b = a.
Proof.
  intros Hw. unfold DecodeExact, decode_into, json_Marshal. destruct (Validate _); [done|].
  rewrite (parse_print _ (wire_formed a Hw)), wire_round by done. by intros [= <-].
Qed.

Lemma json_Marshal_inj (a b : A) : wire a -> wire b -> json_Marshal a = json_Marshal b -> a = b.
Proof.
  intros Ha Hb E. apply print_inj in E; [|by apply wire_formed..].
  pose proof (wire_round a Ha) as Hr. rewrite E, (wire_round b Hb) in Hr. by simplify_eq.
Qed.
End Documents.

(** ** What is decoded

    Values that were decoded survive a round trip, so they can be written
    again. *)

Class JsonSound (A : Type) `{JsonLaws A} :=
  decoded_wire strict values (a : A) :
    Forall utf8_json values -> unmarshal strict values = Some a -> wire a.

Lemma assign_sound {A} (read : json -> option A) (P : A -> Prop) current values a :
  (forall j x, utf8_json j -> read j = Some x -> P x) -> P current ->
  Forall utf8_json values -> assign read current values = Some a -> P a.
Proof.
  intros Hread Hc Hv. revert current Hc.
  induction Hv as [|j values Hj _ IH]; cbn; intros current Hc Ha; [by simplify_eq|].
  destruct j; [by eapply IH|..];
    (destruct (read _) eqn:E; [|done]; eapply IH; [eapply Hread; [exact Hj|exact E]|exact Ha]).
Qed.

#[export] Instance string_sound : JsonSound string.
Proof.
  intros strict values a Hv Ha. eapply (assign_sound _ utf8); [|constructor|exact Hv|exact Ha].
  intros [] x Hj Hx; try done. by injection Hx as <-.
Qed.

#[export] Instance bool_sound : JsonSound bool.
Proof. done. Qed.

Lemma ParseInt_int64 s z : ParseInt s = Some z -> is_int64 z.
Proof.
  assert (forall y, in_int64 y = Some z -> is_int64 z) as H.
  { intros y. unfold in_int64. destruct (_ && _)%Z eqn:E; intros H; simplify_eq.
    apply andb_true_iff in E as [?%Z.leb_le ?%Z.leb_le]. done. }
  unfold ParseInt. destruct s as [|c r]; [done|]. destruct (is_char 45 c).
  - destruct (r == ""); [done|]. destruct (digits_value _ _); [apply H|done].
  - destruct (digits_value _ _); [apply H|done].
Qed.

#[export] Instance int_sound : JsonSound Z.
Proof.
  intros strict values a Hv Ha. eapply (assign_sound _ is_int64); [| |exact Hv|exact Ha].
  - intros [] x _ Hx; try done. by eapply ParseInt_int64.
  - by unfold is_int64, min_int64, max_int64.
Qed.

Section Sound.
Context {A : Type} `{JsonSound A}.

Lemma pointer_sound strict values (p : option A) :
  Forall utf8_json values -> unmarshal strict values = Some p -> forall a, p = Some a -> wire a.
Proof.
  unfold unmarshal, unmarshal_pointer.
  assert (forall pointee, Forall utf8_json pointee -> Forall utf8_json values ->
    assign_pointer strict pointee values = Some p -> forall a, p = Some a -> wire a) as Hgo;
    [|by apply Hgo, Forall_nil_2].
  induction values as [|j values IH]; intros pointee Hp Hv Ha a ->; cbn in Ha.
  - destruct pointee as [|x pointee]; [done|].
    destruct (unmarshal strict (x :: pointee)) eqn:E; [|done]. cbn in Ha. simplify_eq.
    exact (decoded_wire _ _ _ Hp E).
  - apply Forall_cons in Hv as [Hj Hv].
    assert (assign_pointer strict (pointee ++ [j]) values = Some (Some a) -> wire a) as Hnext.
    { intros E. eapply IH; [|done|exact E|done]. apply Forall_app. split; [done|]. by constructor. }
    destruct j; try (by apply Hnext).
    destruct (match pointee with [] => _ | _ => _ end); [|done].
    exact (IH [] (Forall_nil_2 _) Hv Ha a eq_refl).
Qed.

Lemma decode_columns_sound strict columns (xs : list A) :
  Forall (Forall utf8_json) columns -> decode_columns strict columns = Some xs -> Forall wire xs.
Proof.
  intros Hc. revert xs. induction Hc as [|column columns Hcol _ IH]; cbn; intros xs Hx.
  { by simplify_eq. }
  destruct (unmarshal strict column) eqn:E; [|done].
  destruct (decode_columns strict columns); [|done]. simplify_eq.
  constructor; [exact (decoded_wire _ _ _ Hcol E)|by apply IH].
Qed.

Lemma overlay_utf8 columns row : Forall (Forall utf8_json) columns -> Forall utf8_json row ->
  Forall (Forall utf8_json) (overlay columns row).
Proof.
  intros Hc. revert row. induction Hc as [|column columns Hcol Hc IH]; intros row Hr.
  - rewrite overlay_nil. apply Forall_map. eapply Forall_impl; [exact Hr|].
    intros x Hx. by apply Forall_singleton.
  - destruct Hr as [|x row Hx Hr]; cbn; [by constructor|].
    constructor; [|by apply IH]. apply Forall_app. split; [done|]. by apply Forall_singleton.
Qed.

#[export] Instance slice_sound : JsonSound (list A).
Proof.
  intros strict values xs Hv Hx. unfold unmarshal, unmarshal_slice in Hx.
  assert (forall columns n, Forall (Forall utf8_json) columns ->
    assign_slice strict columns n values = Some xs -> Forall wire xs) as Hgo;
    [|exact (Hgo [] 0 (Forall_nil_2 _) Hx)].
  clear Hx. induction Hv as [|j values Hj Hv IH]; intros columns n Hc Hx; cbn in Hx.
  - destruct (decode_columns strict columns) eqn:E; [|done]. cbn in Hx. simplify_eq.
    apply Forall_take. exact (decode_columns_sound _ _ _ Hc E).
  - destruct j as [| | | |[|x row]|]; try done.
    + destruct (decode_columns _ _); [|done]. exact (IH [] 0 (Forall_nil_2 _) Hx).
    + destruct (decode_columns _ _); [|done]. exact (IH [] 0 (Forall_nil_2 _) Hx).
    + eapply IH; [|exact Hx]. apply overlay_utf8; [done|]. by apply json_all_array in Hj.
Qed.
End Sound.

(** The values of the fields of a struct. *)
Lemma members_sound strict names values ms :
  Forall utf8_json values -> members strict names values = Some ms ->
  Forall (fun m => utf8_json m.2) ms.
Proof.
  intros Hv Hm. unfold members in Hm. destruct (struct_members values) as [ms'|] eqn:E; [|done].
  assert (ms' = ms) as -> by (by destruct (_ && _); simplify_eq). clear Hm.
  revert ms E. induction Hv as [|j values Hj Hv IH]; cbn; intros ms E; [by simplify_eq|].
  destruct j as [| | | | |ms1]; try done; [by apply IH|].
  destruct (struct_members values); [|done]. cbn in E. simplify_eq. apply Forall_app.
  split; [|by apply IH]. apply json_all_object in Hj. eapply Forall_impl; [exact Hj|].
  intros m [_ ?]. done.
Qed.

Lemma gather_utf8 names ms k :
  Forall (fun m => utf8_json m.2) ms -> Forall utf8_json (gather names ms k).
Proof.
  intros Hm. unfold gather. apply Forall_map, Forall_forall. intros m Hin.
  apply list_elem_of_In, filter_In in Hin as [Hin _]. rewrite Forall_forall in Hm.
  by apply Hm, list_elem_of_In.
Qed.

(** What [DecodeExact] returns. *)
Lemma DecodeExact_wire `{JsonSound A} data (a : A) : DecodeExact data = Ok a -> wire a.
Proof.
  unfold DecodeExact, decode_into. intros E. destruct (Validate data); [done|].
  destruct (parse data) as [j|] eqn:Hp; [|done]. apply parse_utf8 in Hp.
  destruct (unmarshal true [j]) eqn:Hu; [|done]. simplify_eq.
  refine (decoded_wire _ _ _ _ Hu). by apply Forall_singleton.
Qed.
