(* ===== verification/GoRfc3339.v ===== *)
(** * Canonical UTC times

    [Format] with the RFC3339Nano layout and the reading of such texts.  A
    program that accepts a text only if the time it stands for is written the
    same way ([canonical]) accepts the texts in UTC of this layout, one for
    every instant of the years 0 to 9999 ([canonical_Format]). *)

From stdpp Require Import base strings list.
From Stdlib Require Import ZArith Lia String Ascii.
From S2P Require Import Prelude GoString GoTime GoDate GoJson GoJsonCorrect StrictJson StrictJsonCorrect.

#[local] Open Scope Z_scope.

(** ** Writing *)

(** The last [n] decimal digits. *)
Fixpoint fixed (n : nat) (z : Z) : string :=
  match n with
  | O => ""
  | S n => String (digit (Z.to_nat (z / 10 ^ Z.of_nat n mod 10))) (fixed n z)
  end.

(** [appendInt]: zero-padded to a width. *)
Definition appendInt (z : Z) (width : nat) : string :=
  if z <? 0 then "-" +:+ (if - z <? 10 ^ Z.of_nat width then fixed width (- z) else FormatInt (- z))
  else if z <? 10 ^ Z.of_nat width then fixed width z else FormatInt z.

Fixpoint trim_zeros (s : string) : string :=
  match s with
  | EmptyString => EmptyString
  | String c r =>
      let t := trim_zeros r in
      if is_char 48 c && (t == "") then EmptyString else String c t
  end.

Definition fraction (nanoseconds : Z) : string :=
  if nanoseconds =? 0 then "" else String "." (trim_zeros (fixed 9 nanoseconds)).

(** [t.UTC().Format(time.RFC3339Nano)] *)
Definition Format_RFC3339Nano (t : Time) : string :=
  let seconds := t / Second in
  let day := seconds / 86400 in
  let year := year_of day in
  let '(month, mday) := month_of 11 year 1 (day - days_before_year year) in
  let clock := seconds mod 86400 in
  appendInt year 4 +:+ String "-" (appendInt month 2 +:+ String "-" (appendInt mday 2 +:+
  String "T" (appendInt (clock / 3600) 2 +:+ String ":" (appendInt (clock / 60 mod 60) 2 +:+
  String ":" (appendInt (clock mod 60) 2 +:+ fraction (t mod Second) +:+ "Z"))))).

(** ** Reading *)

(** [n] digits at the front. *)
Fixpoint read_digits (n : nat) (acc : Z) (s : string) : option (Z * string) :=
  match n with
  | O => Some (acc, s)
  | S n =>
      match s with
      | String c r =>
          if is_digit c then read_digits n (acc * 10 + Z.of_nat (code c - 48)) r else None
      | EmptyString => None
      end
  end.

(** A two-digit number between bounds and the character after it. *)
Definition read_part (lo hi : Z) (after : ascii) (s : string) : option (Z * string) :=
  match read_digits 2 0 s with
  | Some (z, String c r) =>
      if Ascii.eqb c after && (lo <=? z) && (z <=? hi) then Some (z, r) else None
  | _ => None
  end.

(** The fraction of a second, up to nine digits, and the zone. *)
Definition read_zone (s : string) : option Z :=
  match s with
  | String c r =>
      if Ascii.eqb c "Z" && (r == "") then Some 0
      else if Ascii.eqb c "." then
        let '(ds, rest) := span_digits r in
        if (1 <=? len ds)%nat && (len ds <=? 9)%nat && (rest == "Z") then
          match digits_value 0 ds with
          | Some z => Some (z * 10 ^ Z.of_nat (9 - len ds))
          | None => None
          end
        else None
      else None
  | EmptyString => None
  end.

(** [time.Parse] with RFC3339Nano of a time in UTC. *)
Definition Parse_RFC3339Nano (s : string) : option Time :=
  match read_digits 4 0 s with
  | Some (year, String "-" s) =>
  match read_part 1 12 "-" s with
  | None => None
  | Some (month, s) =>
  match read_part 1 (days_in_month year month) "T" s with
  | None => None
  | Some (mday, s) =>
  match read_part 0 23 ":" s with
  | None => None
  | Some (hour, s) =>
  match read_part 0 59 ":" s with
  | None => None
  | Some (min, s) =>
  match read_digits 2 0 s with
  | None => None
  | Some (sec, s) =>
  if 59 <? sec then None else
  match read_zone s with
  | None => None
  | Some nanoseconds => Some (time_Date year month mday hour min sec + nanoseconds)
  end end end end end end
  | _ => None
  end.

(** The instant of a text that is written the way [Format] writes it. *)
Definition canonical (value : string) : option Time :=
  match Parse_RFC3339Nano value with
  | Some parsed => if Format_RFC3339Nano parsed != value then None else Some parsed
  | None => None
  end.

Example canonical_samples :
  canonical "2026-06-24T12:00:00Z" = Some (time_Date 2026 6 24 12 0 0) /\
  canonical "2024-02-29T23:59:58.5Z" = Some (time_Date 2024 2 29 23 59 58 + 500000000) /\
  canonical "2024-02-29T23:59:58.50Z" = None /\
  canonical "2023-02-29T23:59:58Z" = None /\
  canonical "2026-06-24T12:00:00+00:00" = None.
Proof. vm_compute. done. Qed.

(** ** The calendar *)

Lemma year_length year : days_before_year (year + 1) - days_before_year year = if leap year then 366 else 365.
Proof.
  unfold days_before_year, leap. replace (year + 1 - 1) with year by lia.
  destruct (year mod 4 =? 0) eqn:E4, (year mod 100 =? 0) eqn:E100, (year mod 400 =? 0) eqn:E400;
    cbn; go_simp; Z.div_mod_to_equations; lia.
Qed.

Lemma year_of_spec day :
  days_before_year (year_of day) <= day < days_before_year (year_of day + 1).
Proof.
  unfold year_of. set (guess := day * 400 / 146097 + 1).
  assert (days_before_year (guess - 1) <= day < days_before_year (guess + 2)) as H.
  { unfold days_before_year, guess. Z.div_mod_to_equations. lia. }
  destruct (day <? days_before_year guess) eqn:E1; go_simp.
  { replace (guess - 1 + 1) with guess by lia. lia. }
  destruct (days_before_year (guess + 1) <=? day) eqn:E2; go_simp; [|lia].
  replace (guess + 1 + 1) with (guess + 2) by lia. lia.
Qed.

Lemma days_in_month_bounds year month : 28 <= days_in_month year month <= 31.
Proof. unfold days_in_month. repeat case_match; lia. Qed.

Lemma days_before_month_S year n :
  days_before_month year (S n) = days_before_month year n + days_in_month year (Z.of_nat (S n)).
Proof. done. Qed.

Lemma year_months year : days_before_month year 12 = if leap year then 366 else 365.
Proof. cbn [days_before_month]. unfold days_in_month. cbn. destruct (leap year); done. Qed.

Lemma month_of_spec year fuel : forall n yday, (n + fuel = 11)%nat ->
  0 <= yday < days_before_month year 12 - days_before_month year n ->
  exists m d, month_of fuel year (Z.of_nat (S n)) yday = (Z.of_nat (S m), d) /\
    (m <= 11)%nat /\ 1 <= d <= days_in_month year (Z.of_nat (S m)) /\
    days_before_month year m + (d - 1) = days_before_month year n + yday.
Proof.
  induction fuel as [|fuel IH]; intros n yday Hn Hy.
  - assert (n = 11%nat) as -> by lia. exists 11%nat, (yday + 1).
    rewrite days_before_month_S in Hy. split_and!; [done|lia..].
  - cbn [month_of]. destruct (yday <? _) eqn:E; go_simp.
    + exists n, (yday + 1). split_and!; [done|lia..].
    + replace (Z.of_nat (S n) + 1) with (Z.of_nat (S (S n))) by lia.
      pose proof (days_before_month_S year n) as Hs.
      destruct (IH (S n) (yday - days_in_month year (Z.of_nat (S n)))) as (m & d & -> & Hm & Hd & Ht);
        [lia|lia|]. exists m, d. split_and!; [done|lia..].
Qed.

(** ** Digits read back *)

Lemma fixed_len n z : len (fixed n z) = n.
Proof. induction n as [|n IH]; [done|]. cbn [fixed]. by rewrite len_String, IH. Qed.

Lemma last_digits n z : z mod 10 ^ Z.of_nat (S n) =
  z / 10 ^ Z.of_nat n mod 10 * 10 ^ Z.of_nat n + z mod 10 ^ Z.of_nat n.
Proof.
  rewrite Nat2Z.inj_succ, Z.pow_succ_r, Z.mul_comm by lia.
  rewrite Z.rem_mul_r by (try apply Z.pow_nonzero; lia). lia.
Qed.

Lemma read_fixed n z acc s :
  read_digits n acc (fixed n z +:+ s) = Some (acc * 10 ^ Z.of_nat n + z mod 10 ^ Z.of_nat n, s).
Proof.
  revert acc. induction n as [|n IH]; intros acc.
  { cbn. rewrite Z.mod_1_r. do 2 f_equal. lia. }
  cbn [fixed]. rewrite string_app_cons. cbn [read_digits].
  pose proof (Z.mod_pos_bound (z / 10 ^ Z.of_nat n) 10 ltac:(lia)) as Hm.
  destruct (digit_is_digit (Z.to_nat (z / 10 ^ Z.of_nat n mod 10)) ltac:(lia)) as [-> ->].
  rewrite IH, last_digits, Nat2Z.inj_succ, Z.pow_succ_r by lia. do 2 f_equal. lia.
Qed.

Lemma read_appendInt n z s : 0 <= z < 10 ^ Z.of_nat n ->
  read_digits n 0 (appendInt z n +:+ s) = Some (z, s).
Proof.
  intros Hz. unfold appendInt. rewrite (proj2 (Z.ltb_ge z 0)), (proj2 (Z.ltb_lt z _)) by lia.
  rewrite read_fixed, Z.mod_small by lia. do 2 f_equal; lia.
Qed.

Lemma read_part_appendInt lo hi after z s :
  lo <= z <= hi -> 0 <= z < 100 ->
  read_part lo hi after (appendInt z 2 +:+ String after s) = Some (z, s).
Proof.
  intros Hz Hb. unfold read_part. rewrite read_appendInt by (cbn; lia).
  rewrite Ascii.eqb_refl, (proj2 (Z.leb_le lo z)), (proj2 (Z.leb_le z hi)) by lia. done.
Qed.

(** The digits that stay when zeros are trimmed stand for the same fraction. *)
Lemma trim_zeros_spec s acc v : digits_value acc s = Some v ->
  (len (trim_zeros s) <= len s)%nat /\ all_digits (trim_zeros s) = true /\
  exists w, digits_value acc (trim_zeros s) = Some w /\
    w * 10 ^ Z.of_nat (len s - len (trim_zeros s)) = v.
Proof.
  revert acc. induction s as [|c s IH]; intros acc H.
  { cbn in H. simplify_eq. split_and!; [done|done|]. exists v. split; [done|]. cbn. lia. }
  cbn [digits_value] in H. destruct (is_digit c) eqn:Hc; [|done].
  destruct (IH _ H) as (Hl & Hd & w & Hw & Hv). cbn [trim_zeros]. clear IH.
  destruct (is_char 48 c && (trim_zeros s == "")) eqn:E.
  - apply andb_true_iff in E as [E0 Et]. apply String.eqb_eq in Et. rewrite Et in *.
    apply char_of_code in E0. subst c. split_and!; [rewrite len_String; lia|done|].
    exists acc. split; [done|]. cbn in Hw. injection Hw as <-. rewrite <- Hv.
    rewrite len_String, !Nat.sub_0_r, Nat2Z.inj_succ, Z.pow_succ_r by lia.
    change (Z.of_nat (code (ascii_of_nat 48) - 48)) with 0. lia.
  - split_and!; [rewrite !len_String; lia|unfold all_digits in *; cbn; by rewrite Hc|].
    exists w. cbn [digits_value]. rewrite Hc, Hw. split; [done|]. by rewrite !len_String.
Qed.

Lemma digits_value_fixed n z acc :
  digits_value acc (fixed n z) = Some (acc * 10 ^ Z.of_nat n + z mod 10 ^ Z.of_nat n).
Proof.
  revert acc. induction n as [|n IH]; intros acc.
  { cbn. rewrite Z.mod_1_r. f_equal. lia. }
  cbn [fixed digits_value].
  pose proof (Z.mod_pos_bound (z / 10 ^ Z.of_nat n) 10 ltac:(lia)) as Hm.
  destruct (digit_is_digit (Z.to_nat (z / 10 ^ Z.of_nat n mod 10)) ltac:(lia)) as [-> ->].
  rewrite IH, last_digits, Nat2Z.inj_succ, Z.pow_succ_r by lia. f_equal. lia.
Qed.

Lemma read_zone_fraction ns : 0 <= ns < Second -> read_zone (fraction ns +:+ "Z") = Some ns.
Proof.
  unfold Second. intros Hn. unfold fraction. destruct (ns =? 0) eqn:E;
    [by apply Z.eqb_eq in E as ->|apply Z.eqb_neq in E].
  pose proof (digits_value_fixed 9 ns 0) as Hv. rewrite Z.mod_small in Hv by (cbn; lia).
  destruct (trim_zeros_spec _ _ _ Hv) as (Hl & Hd & w & Hw & Hm). rewrite fixed_len in Hl, Hm.
  rewrite string_app_cons. unfold read_zone.
  change (Ascii.eqb "." "Z") with false. change (Ascii.eqb "." ".") with true. cbn iota beta.
  set (ds := trim_zeros (fixed 9 ns)) in *.
  cbn [andb]. rewrite all_digits_span by done. cbn iota.
  assert (ds <> "") as Hne.
  { intros H0. rewrite H0 in Hw, Hm. injection Hw as <-. lia. }
  assert (1 <= len ds)%nat as H1 by (destruct ds; [done|rewrite len_String; lia]).
  rewrite (proj2 (Nat.leb_le 1 _)), (proj2 (Nat.leb_le _ 9)) by lia.
  change ("Z" == "Z") with true. cbn [andb]. cbn iota. rewrite Hw. f_equal. exact Hm.
Qed.

(** The years Go writes with four digits. *)
Definition four_digit_year (t : Time) : Prop :=
  time_Date 0 1 1 0 0 0 <= t < time_Date 10000 1 1 0 0 0.

Lemma year_of_range t : four_digit_year t -> 0 <= year_of (t / Second / 86400) <= 9999.
Proof.
  intros [H1 H2]. change (time_Date 0 1 1 0 0 0) with (-366 * 86400 * Second) in H1.
  change (time_Date 10000 1 1 0 0 0) with (3652059 * 86400 * Second) in H2. unfold Second in *.
  set (day := t / 1000000000 / 86400).
  assert (-366 <= day < 3652059) as Hd by (unfold day; Z.div_mod_to_equations; lia).
  pose proof (year_of_spec day) as [Ha Hb]. unfold days_before_year in *.
  Z.div_mod_to_equations. lia.
Qed.

Lemma Parse_Format t : four_digit_year t -> Parse_RFC3339Nano (Format_RFC3339Nano t) = Some t.
Proof.
  intros Ht. pose proof (year_of_range t Ht) as Hy. unfold Format_RFC3339Nano.
  set (day := t / Second / 86400) in *. set (year := year_of day) in *.
  pose proof (year_of_spec day) as Hs. fold year in Hs.
  pose proof (year_length year) as Hl. rewrite <- year_months in Hl.
  destruct (month_of_spec year 11 0 (day - days_before_year year)) as (m & d & Hmo & Hm & Hd & Hb);
    [done|change (days_before_month year 0) with 0; lia|].
  change (days_before_month year 0) with 0 in Hb.
  change (Z.of_nat 1) with 1 in Hmo. rewrite Hmo. cbn iota. clear Hmo.
  set (clock := t / Second mod 86400).
  pose proof (days_in_month_bounds year (Z.of_nat (S m))) as Hdm.
  assert (0 <= clock < 86400) as Hc by (apply Z.mod_pos_bound; lia).
  unfold Parse_RFC3339Nano. rewrite read_appendInt by (cbn; lia).
  rewrite read_part_appendInt by lia. cbn iota.
  rewrite read_part_appendInt by lia. cbn iota.
  rewrite read_part_appendInt by (Z.div_mod_to_equations; lia). cbn iota.
  rewrite read_part_appendInt by (Z.div_mod_to_equations; lia). cbn iota.
  rewrite read_appendInt by (cbn; Z.div_mod_to_equations; lia). cbn iota.
  rewrite (proj2 (Z.ltb_ge 59 _)) by (Z.div_mod_to_equations; lia).
  rewrite read_zone_fraction by (apply Z.mod_pos_bound; done). f_equal.
  unfold time_Date. replace (Z.to_nat (Z.of_nat (S m) - 1)) with m by lia.
  assert (days_before_year year + days_before_month year m + (d - 1) = day) as -> by lia.
  unfold clock, day, Minute, Second. Z.div_mod_to_equations. lia.
Qed.

Lemma canonical_Format t : four_digit_year t -> canonical (Format_RFC3339Nano t) = Some t.
Proof. intros H. unfold canonical. rewrite Parse_Format by done. by rewrite String.eqb_refl. Qed.

Lemma canonical_Some value t : canonical value = Some t -> Format_RFC3339Nano t = value.
Proof.
  unfold canonical. intros H. destruct (Parse_RFC3339Nano value); [|done].
  destruct (_ != _) eqn:E; go_simp. done.
Qed.

(** ** The characters of a time *)

Lemma all_ascii_utf8 s : all_chars is_ascii s = true -> utf8 s.
Proof.
  induction s as [|c s IH]; [constructor|]. cbn [all_chars]. intros [H1 H2]%andb_true_iff.
  constructor 2; auto.
Qed.

Lemma digit_ascii n : (n < 10)%nat -> is_ascii (digit n) = true.
Proof. intros H. do 10 (destruct n as [|n]; [done|]). lia. Qed.

Lemma mod10_digit z : is_ascii (digit (Z.to_nat (z mod 10))) = true.
Proof. apply digit_ascii. pose proof (Z.mod_pos_bound z 10 ltac:(lia)). lia. Qed.

Lemma fixed_ascii n z : all_chars is_ascii (fixed n z) = true.
Proof. induction n as [|n IH]; [done|]. cbn [fixed all_chars]. by rewrite mod10_digit, IH. Qed.

Lemma digits_fuel_ascii fuel z acc :
  all_chars is_ascii acc = true -> all_chars is_ascii (digits_fuel fuel z acc) = true.
Proof.
  revert z acc. induction fuel as [|fuel IH]; intros z acc H; [done|]. cbn [digits_fuel].
  assert (all_chars is_ascii (String (digit (Z.to_nat (z mod 10))) acc) = true) as Hd.
  { cbn [all_chars]. by rewrite mod10_digit. }
  destruct (z <? 10)%Z; [exact Hd|]. by apply IH.
Qed.

Lemma FormatInt_ascii z : all_chars is_ascii (FormatInt z) = true.
Proof.
  unfold FormatInt. destruct (z <? 0)%Z; [|by apply digits_fuel_ascii].
  cbn [all_chars]. by apply digits_fuel_ascii.
Qed.

Lemma appendInt_ascii z n : all_chars is_ascii (appendInt z n) = true.
Proof.
  unfold appendInt. destruct (z <? 0)%Z; [rewrite all_chars_app|].
  - destruct (_ <? _)%Z; [by rewrite fixed_ascii|by rewrite FormatInt_ascii].
  - destruct (_ <? _)%Z; [apply fixed_ascii|apply FormatInt_ascii].
Qed.

Lemma trim_zeros_chars f s : all_chars f s = true -> all_chars f (trim_zeros s) = true.
Proof.
  induction s as [|c s IH]; [done|]. cbn [all_chars trim_zeros]. intros [H1 H2]%andb_true_iff.
  destruct (_ && _); [done|]. cbn [all_chars]. by rewrite H1, IH.
Qed.

Lemma fraction_ascii ns : all_chars is_ascii (fraction ns) = true.
Proof.
  unfold fraction. destruct (ns =? 0)%Z; [done|]. cbn [all_chars].
  by rewrite trim_zeros_chars by apply fixed_ascii.
Qed.

Lemma Format_utf8 t : utf8 (Format_RFC3339Nano t).
Proof.
  apply all_ascii_utf8. unfold Format_RFC3339Nano. destruct (month_of _ _ _ _) as [month mday].
  repeat (rewrite all_chars_app || (cbn [all_chars]; rewrite ?appendInt_ascii, ?fraction_ascii)).
  by rewrite ?appendInt_ascii, ?fraction_ascii.
Qed.

Lemma canonical_utf8 value t : canonical value = Some t -> utf8 value.
Proof. intros H%canonical_Some. rewrite <- H. apply Format_utf8. Qed.
