(* ===== verification/GoDuration.v ===== *)
(** * Go durations as text

    [time.ParseDuration] and [Duration.String].  ParseDuration computes a
    fraction of a unit in floating point; [ParseDuration] here computes it
    exactly and truncates.  The two agree on every text that [String] writes,
    whose fractions are whole numbers of nanoseconds, and a program that keeps
    a text only if it is the one [String] writes for its value cannot tell them
    apart on the others. *)

From stdpp Require Import base strings list.
From Stdlib Require Import ZArith Lia String Ascii.
From S2P Require Import Prelude GoString GoTime StrictJson GoRfc3339.

#[local] Open Scope Z_scope.

Definition Microsecond : Duration := 1000.
Definition Millisecond : Duration := 1000000.

(** ** Writing *)

(** [fmtFrac]: the part of [u] below [10^prec], without trailing zeros. *)
Definition fmtFrac (u : Z) (prec : nat) : string :=
  let part := u mod 10 ^ Z.of_nat prec in
  if part =? 0 then "" else String "." (trim_zeros (fixed prec part)).

Definition scaled (u : Z) (prec : nat) (unit : string) : string :=
  FormatInt (u / 10 ^ Z.of_nat prec) +:+ fmtFrac u prec +:+ unit.

(** The micro sign of [String] and the Greek letter ParseDuration also takes. *)
Definition micro : string := String (ascii_of_nat 194) (String (ascii_of_nat 181) "s").
Definition mu : string := String (ascii_of_nat 206) (String (ascii_of_nat 188) "s").

Definition duration_text (u : Z) : string :=
  if u =? 0 then "0s"
  else if u <? Microsecond then scaled u 0 "ns"
  else if u <? Millisecond then scaled u 3 micro
  else if u <? Second then scaled u 6 "ms"
  else
    let seconds := u / Second in
    let minutes := seconds / 60 in
    let hours := minutes / 60 in
    (if 0 <? hours then FormatInt hours +:+ "h" else "") +:+
    (if 0 <? minutes then FormatInt (minutes mod 60) +:+ "m" else "") +:+
    FormatInt (seconds mod 60) +:+ fmtFrac u 9 +:+ "s".

Definition Duration_String (d : Duration) : string :=
  if d <? 0 then String "-" (duration_text (- d)) else duration_text d.

(** ** Reading *)

Definition unit_of (u : string) : option Z :=
  if u == "ns" then Some 1
  else if (u == "us") || (u == micro) || (u == mu) then Some Microsecond
  else if u == "ms" then Some Millisecond
  else if u == "s" then Some Second
  else if u == "m" then Some Minute
  else if u == "h" then Some Hour
  else None.

Definition two63 : Z := 9223372036854775808.

(** [leadingInt]; a value above [1<<63] is an error. *)
Fixpoint leadingInt (x : Z) (s : string) : option (Z * string) :=
  match s with
  | String c r =>
      if is_digit c then
        if two63 / 10 <? x then None
        else let y := x * 10 + Z.of_nat (code c - 48) in
             if two63 <? y then None else leadingInt y r
      else Some (x, s)
  | EmptyString => Some (x, s)
  end.

(** [leadingFraction]: digits that do not fit any more are skipped. *)
Fixpoint leadingFraction (x scale : Z) (overflow : bool) (s : string) : Z * Z * string :=
  match s with
  | String c r =>
      if is_digit c then
        if overflow || ((two63 - 1) / 10 <? x) then leadingFraction x scale true r
        else let y := x * 10 + Z.of_nat (code c - 48) in
             if two63 <? y then leadingFraction x scale true r
             else leadingFraction y (scale * 10) false r
      else (x, scale, s)
  | EmptyString => (x, scale, s)
  end.

Fixpoint unit_prefix (s : string) : string * string :=
  match s with
  | String c r =>
      if is_digit c || is_char 46 c then ("", s)
      else let '(u, rest) := unit_prefix r in (String c u, rest)
  | EmptyString => ("", "")
  end.

(** One number with its unit: its nanoseconds and the rest of the text. *)
Definition read_component (s : string) : option (Z * string) :=
  match s with
  | EmptyString => None
  | String c _ =>
      if negb (is_digit c || is_char 46 c) then None else
      match leadingInt 0 s with
      | None => None
      | Some (v, r) =>
          let pre := negb (len s =? len r)%nat in
          let '(f, scale, post, r) :=
            match r with
            | String d r' =>
                if is_char 46 d then
                  let '(f, scale, r'') := leadingFraction 0 1 false r' in
                  (f, scale, negb (len r' =? len r'')%nat, r'')
                else (0, 1, false, r)
            | EmptyString => (0, 1, false, r)
            end in
          if negb pre && negb post then None else
          let '(u, rest) := unit_prefix r in
          match unit_of u with
          | None => None
          | Some unit =>
              if two63 / unit <? v then None else
              let v := v * unit + f * unit / scale in
              if two63 <? v then None else Some (v, rest)
          end
      end
  end.

Fixpoint read_components (fuel : nat) (d : Z) (s : string) : option Z :=
  match fuel with
  | O => None
  | S fuel =>
      if s == "" then Some d else
      match read_component s with
      | None => None
      | Some (v, rest) => if two63 <? d + v then None else read_components fuel (d + v) rest
      end
  end.

(** Every component has at least one character. *)
Definition read_duration (neg : bool) (s : string) : option Duration :=
  if s == "0" then Some 0
  else if s == "" then None
  else match read_components (S (len s)) 0 s with
  | None => None
  | Some d => if neg then Some (int64_wrap (- d)) else if two63 - 1 <? d then None else Some d
  end.

Definition ParseDuration (s : string) : option Duration :=
  match s with
  | String c r =>
      if is_char 45 c then read_duration true r
      else if is_char 43 c then read_duration false r
      else read_duration false s
  | EmptyString => None
  end.

Example durations :
  List.map Duration_String [0; 5; 1500; 2000000; Second; 90 * Second; Hour; 3 * Hour + 250000000] =
    ["0s"; "5ns"; "1.5" +:+ micro; "2ms"; "1s"; "1m30s"; "1h0m0s"; "3h0m0.25s"] /\
  List.map ParseDuration ["0"; "5s"; "1m30s"; "90s"; "1.5h"; "1h0m0.25s"; "-2ms"; "5"; "s"; ".s"; "1d"] =
    [Some 0; Some (5 * Second); Some (90 * Second); Some (90 * Second); Some (90 * Minute);
     Some (Hour + 250000000); Some (-2000000); None; None; None; None].
Proof. vm_compute. done. Qed.
