(* ===== verification/JsonStructs.v ===== *)
(** * Struct types and their JSON texts

    Tactics that prove, from the list of its fields, that a record is read back
    from its text: the laws of [JsonLaws] and [JsonSound]. *)

From stdpp Require Import gmap strings list.
From Stdlib Require Import ZArith Ascii Lia.
From S2P Require Import Prelude GoString GoTime GoDate GoJson GoJsonCorrect StrictJson StrictJsonCorrect GoRfc3339.

(** ** Automation for struct types *)

(** A member of a literal list of fields. *)
Ltac json_member := unfold field, field_omitempty, slice_omitempty, slice_array, pointer_omitempty;
  repeat first [apply list_elem_of_here | apply list_elem_of_further].

Ltac json_nodup := apply (bool_decide_unpack _); vm_compute; exact Logic.I.

(** Decodes the fields of a struct one by one. *)
Ltac json_gather fs lookup :=
  rewrite (members_struct fs); cbn [mbind option_bind];
  repeat (erewrite (gather_decodes fs); [|json_nodup|json_member|lookup]; cbn [mbind option_bind]).

(** The values of a field: well formed, without duplicate fields, and not deep. *)
Section Fields.
Context {A : Type} `{JsonLaws A}.

Lemma field_formed k (a : A) : wire a -> Forall well_formed (field k a).2.
Proof. intros Hw. apply Forall_singleton. by apply wire_formed. Qed.

Lemma slice_formed k (xs : list A) : Forall wire xs -> Forall well_formed (slice_omitempty k xs).2.
Proof.
  intros Hx. destruct xs as [|x xs]; [constructor|]. apply Forall_singleton.
  by apply (wire_formed (x :: xs)).
Qed.

Lemma array_formed k (xs : list A) : Forall wire xs -> Forall well_formed (slice_array k xs).2.
Proof.
  intros Hx. apply Forall_singleton, json_all_array, Forall_map. eapply Forall_impl; [exact Hx|]. apply wire_formed.
Qed.

Lemma array_distinct k (xs : list A) :
  length (slice_array k xs).2 <= 1 /\ Forall distinct_fields (slice_array k xs).2.
Proof. split; [done|]. apply Forall_singleton, foldr_and, Forall_map, Forall_forall. intros y _. apply wire_distinct. Qed.

Lemma array_height k (xs : list A) n :
  S json_depth <= n -> Forall (fun v => height v <= n) (slice_array k xs).2.
Proof.
  intros Hn. apply Forall_singleton. etrans; [|exact Hn].
  change (foldr (fun y d => S (height y) `max` d) 0 (List.map marshal xs) <= S json_depth).
  apply foldr_max, Forall_map, Forall_forall. intros y _. pose proof (wire_height y). lia.
Qed.

Lemma array_round (xs : list A) : Forall wire xs -> unmarshal true (slice_array "" xs).2 = Some xs.
Proof.
  intros Hx. destruct xs as [|x xs]; [done|]. exact (slice_round (x :: xs) Hx).
Qed.

Lemma pointer_formed k (p : option A) :
  (forall a, p = Some a -> wire a) -> Forall well_formed (pointer_omitempty k p).2.
Proof. intros Hw. destruct p; [|constructor]. by apply Forall_singleton, wire_formed, Hw. Qed.

Lemma field_distinct k (a : A) :
  length (field k a).2 <= 1 /\ Forall distinct_fields (field k a).2.
Proof. split; [done|]. apply Forall_singleton, wire_distinct. Qed.

Lemma slice_distinct k (xs : list A) :
  length (slice_omitempty k xs).2 <= 1 /\ Forall distinct_fields (slice_omitempty k xs).2.
Proof.
  destruct xs as [|x xs]; [split; [cbn; lia|constructor]|]. split; [done|].
  apply Forall_singleton, wire_distinct.
Qed.

Lemma pointer_distinct k (p : option A) :
  length (pointer_omitempty k p).2 <= 1 /\ Forall distinct_fields (pointer_omitempty k p).2.
Proof.
  destruct p; [|split; [cbn; lia|constructor]]. split; [done|]. apply Forall_singleton, wire_distinct.
Qed.

Lemma field_height k (a : A) n : json_depth <= n -> Forall (fun v => height v <= n) (field k a).2.
Proof. intros Hn. apply Forall_singleton. etrans; [apply wire_height|done]. Qed.

Lemma slice_height k (xs : list A) n :
  S json_depth <= n -> Forall (fun v => height v <= n) (slice_omitempty k xs).2.
Proof.
  intros Hn. destruct xs as [|x xs]; [constructor|]. apply Forall_singleton.
  etrans; [apply (wire_height (x :: xs))|done].
Qed.

Lemma pointer_height k (p : option A) n :
  json_depth <= n -> Forall (fun v => height v <= n) (pointer_omitempty k p).2.
Proof.
  intros Hn. destruct p; [|constructor]. apply Forall_singleton. etrans; [apply wire_height|done].
Qed.
End Fields.

Lemma omitempty_formed k s : utf8 s -> Forall well_formed (field_omitempty k s).2.
Proof. intros H. cbn. destruct (s == ""); [constructor|by apply Forall_singleton]. Qed.

Lemma omitempty_distinct k s :
  length (field_omitempty k s).2 <= 1 /\ Forall distinct_fields (field_omitempty k s).2.
Proof. cbn. destruct (s == ""); (split; [cbn; lia|]); [constructor|by apply Forall_singleton]. Qed.

Lemma omitempty_height k s n : Forall (fun v => height v <= n) (field_omitempty k s).2.
Proof. cbn. destruct (s == ""); [constructor|]. apply Forall_singleton. apply Nat.le_0_l. Qed.

Ltac utf8_literal := repeat (apply utf8_ascii; [reflexivity|]); constructor.

Ltac json_fields tac := repeat (apply Forall_cons; split; [tac|]); try apply Forall_nil_2.

Ltac json_formed := apply struct_formed; json_fields
  ltac:(split; [cbn [fst field field_omitempty slice_omitempty slice_array pointer_omitempty]; utf8_literal|];
        first [apply omitempty_formed | apply slice_formed | apply array_formed | apply pointer_formed | apply field_formed];
        first [assumption | exact Logic.I]).

Ltac json_distinct := apply struct_distinct; [json_nodup|]; json_fields
  ltac:(first [apply omitempty_distinct | apply slice_distinct | apply array_distinct | apply pointer_distinct
              | apply field_distinct]).

Ltac json_height := apply struct_height; json_fields
  ltac:(first [apply omitempty_height | apply slice_height; cbn; lia | apply array_height; cbn; lia
              | apply pointer_height; cbn; lia | apply field_height; cbn; lia]).

(** How the values of one field are read back. *)
Ltac json_lookup := first
  [ eapply string_omitempty; eassumption
  | eapply slice_omitempty_round; eassumption
  | eapply array_round; eassumption
  | eapply pointer_omitempty_round; [eassumption|intros ? Hx; discriminate Hx]
  | apply wire_round; first [assumption | exact Logic.I] ].

(** ** What is decoded *)

Ltac json_decoded Hx :=
  let Hm := fresh "Hm" in
  match type of Hx with
  | context [members ?s ?n ?v] =>
      destruct (members s n v) as [ms|] eqn:Hm; [|discriminate Hx];
      apply members_sound in Hm; [|assumption]
  end; cbn [mbind option_bind] in Hx;
  repeat match type of Hx with
  | context [unmarshal ?s (gather ?n ?ms ?k)] =>
      let E := fresh "E" in
      destruct (unmarshal s (gather n ms k)) eqn:E; [|discriminate Hx];
      first [pose proof (pointer_sound _ _ _ (gather_utf8 _ _ _ Hm) E)
            |pose proof (decoded_wire _ _ _ (gather_utf8 _ _ _ Hm) E)]; clear E;
      cbn [mbind option_bind] in Hx
  end; injection Hx as <-.

Ltac json_parts := repeat match goal with |- _ /\ _ => split end; assumption.

(** * The length of JSON texts

    Bounds on the length of a text from the lengths of what is written. *)

(** ** ASCII texts *)

Lemma lower_digit_ascii c : lower_digit c = true -> is_ascii c = true.
Proof.
  unfold lower_digit, is_lower, is_digit, in_range, is_ascii. intros [H|H]%orb_true_iff; go_simp.
  all: apply Nat.ltb_lt; lia.
Qed.

Lemma hex_ascii c : is_hex_lower c = true -> is_ascii c = true.
Proof.
  unfold is_hex_lower, is_digit, in_range, is_ascii. intros [H|H]%orb_true_iff; go_simp.
  all: apply Nat.ltb_lt; lia.
Qed.

Lemma hex_utf8 s : all_chars is_hex_lower s = true -> utf8 s.
Proof. intros H. apply all_ascii_utf8. by apply (all_chars_impl _ _ _ hex_ascii). Qed.

Lemma one_of_ascii chars c : all_chars is_ascii chars = true -> one_of chars c = true -> is_ascii c = true.
Proof.
  unfold one_of. induction chars as [|d chars IH]; [done|]. cbn [all_chars any_char].
  intros [Hd Hs]%andb_true_iff [H|H]%orb_true_iff; [|by apply IH]. by apply Ascii.eqb_eq in H as ->.
Qed.

(** ** Escapes *)

Lemma len_escape_ascii c : len (escape_ascii c) <= 6.
Proof. apply Nat.leb_le. destruct c as [[] [] [] [] [] [] [] []]; vm_compute; reflexivity. Qed.


Lemma len_escape_three a b c : len (escape_three a b c) <= 6.
Proof. unfold escape_three. destruct (_ && _); [rewrite len_app; cbn; lia|cbn; lia]. Qed.

Lemma len_escape s : len (escape s) <= 6 * len s.
Proof.
  induction s as [s IH] using len_ind. destruct s as [|a r]; [done|]. cbn [escape].
  assert (len (String backslash "ufffd" +:+ escape r) <= 6 * len (String a r)) as Hinv.
  { rewrite len_app. change (len (String backslash "ufffd")) with 6. pose proof (IH r ltac:(rewrite len_String; lia)). rewrite len_String. lia. }
  destruct (is_ascii a).
  { rewrite len_app, len_String. pose proof (IH r ltac:(rewrite len_String; lia)). pose proof (len_escape_ascii a). lia. }
  destruct r as [|b r]; [exact Hinv|]. destruct (utf8_2 a b).
  { rewrite !len_String. pose proof (IH r ltac:(rewrite !len_String; lia)). lia. }
  destruct r as [|c r]; [exact Hinv|]. destruct (utf8_3 a b c).
  { rewrite len_app, !len_String. pose proof (IH r ltac:(rewrite !len_String; lia)).
    pose proof (len_escape_three a b c). lia. }
  destruct r as [|d r]; [exact Hinv|]. destruct (utf8_4 a b c d); [|exact Hinv].
  rewrite !len_String. pose proof (IH r ltac:(rewrite !len_String; lia)). lia.
Qed.

Lemma len_print_string s : len (print_string s) <= 6 * len s + 2.
Proof.
  unfold print_string. rewrite len_String, len_app. pose proof (len_escape s).
  change (len (String quote "")) with 1. lia.
Qed.

(** ** Structs *)

Definition sum (ns : list nat) : nat := foldr Nat.add 0 ns.

Lemma sum_app xs ys : sum (xs ++ ys) = sum xs + sum ys.
Proof. unfold sum. induction xs as [|x xs IH]; [done|]. cbn. rewrite IH. lia. Qed.

Lemma sum_cons x xs : sum (x :: xs) = x + sum xs.
Proof. done. Qed.

Lemma len_commas parts : len (commas parts) <= sum (List.map (fun p => S (len p)) parts).
Proof.
  induction parts as [|p parts IH]; [done|]. cbn [List.map]. rewrite sum_cons. destruct parts as [|q parts].
  - change (len p <= S (len p) + 0). lia.
  - change (commas (p :: q :: parts)) with (p +:+ "," +:+ commas (q :: parts)). rewrite !len_app.
    change (len ",") with 1. lia.
Qed.

Definition field_size (f : string * list json) : nat :=
  sum (List.map (fun v => len (print_string f.1) + 2 + len (print v)) f.2).

Lemma field_size_members k vs :
  sum (List.map (fun p => S (len p)) (List.map print_member (List.map (fun v => (k, v)) vs))) <=
  field_size (k, vs).
Proof.
  unfold field_size. cbn [fst snd]. induction vs as [|v vs IH]; [done|]. cbn [List.map]. rewrite !sum_cons.
  unfold print_member at 1. cbn [fst snd]. rewrite !len_app. change (len ":") with 1. lia.
Qed.

Lemma len_struct fs : len (print (JStruct fs)) <= 2 + sum (List.map field_size fs).
Proof.
  unfold JStruct. rewrite print_object, len_String, len_app. change (len "}") with 1.
  pose proof (len_commas (List.map print_member (flatten fs))) as H.
  assert (sum (List.map (fun p => S (len p)) (List.map print_member (flatten fs))) <= sum (List.map field_size fs));
    [|lia].
  clear H. induction fs as [|[k vs] fs IH]; [done|]. rewrite flatten_cons, !List.map_app, sum_app.
  change (List.map field_size ((k, vs) :: fs)) with (field_size (k, vs) :: List.map field_size fs).
  rewrite sum_cons. pose proof (field_size_members k vs). lia.
Qed.

Lemma field_size_one k v : field_size (k, [v]) = len (print_string k) + 2 + len (print v).
Proof. unfold field_size. cbn [List.map fst snd]. rewrite sum_cons. change (sum []) with 0. lia. Qed.

(** Names of up to forty characters with the quotes. *)
Definition short_name (k : string) : Prop := (len (print_string k) <=? 40) = true.

Lemma size_string k s n : short_name k -> len s <= n -> field_size (field k s) <= 44 + 6 * n.
Proof.
  intros Hk%Nat.leb_le Hn. unfold field. rewrite field_size_one. change (print (marshal s)) with (print_string s).
  pose proof (len_print_string s). lia.
Qed.

Lemma size_omitempty k s n : short_name k -> len s <= n -> field_size (field_omitempty k s) <= 44 + 6 * n.
Proof.
  intros Hk Hn. unfold field_omitempty. destruct (s == ""); [change (0 <= 44 + 6 * n); lia|].
  by apply size_string.
Qed.

Lemma size_pointer {A} `{Marshal A} k (p : option A) n : short_name k ->
  (forall a, p = Some a -> len (json_Marshal a) <= n) -> field_size (pointer_omitempty k p) <= 42 + n.
Proof.
  intros Hk%Nat.leb_le Hn. unfold pointer_omitempty. destruct p as [a|]; [|change (0 <= 42 + n); lia].
  rewrite field_size_one. specialize (Hn a eq_refl). unfold json_Marshal in Hn. lia.
Qed.

(** ** Numbers and times *)

Lemma len_digits_fuel fuel z acc : len (digits_fuel fuel z acc) <= fuel + len acc.
Proof.
  revert z acc. induction fuel as [|fuel IH]; intros z acc; [done|]. cbn [digits_fuel].
  destruct (z <? 10)%Z; [rewrite len_String; lia|].
  etrans; [apply IH|]. rewrite len_String. lia.
Qed.

Lemma len_FormatInt z : len (FormatInt z) <= 21.
Proof.
  unfold FormatInt. destruct (z <? 0)%Z; [rewrite len_String|].
  - pose proof (len_digits_fuel 20 (- z) ""). change (len "") with 0 in *. lia.
  - pose proof (len_digits_fuel 20 z ""). change (len "") with 0 in *. lia.
Qed.

Lemma len_appendInt z n : n <= 21 -> len (appendInt z n) <= 22.
Proof.
  intros Hn. unfold appendInt. destruct (z <? 0)%Z; [rewrite len_app; change (len "-") with 1|];
    (destruct (_ <? _)%Z; [rewrite fixed_len; lia|]).
  - pose proof (len_FormatInt (- z)). lia.
  - pose proof (len_FormatInt z). lia.
Qed.

Lemma len_trim_zeros s : len (trim_zeros s) <= len s.
Proof.
  induction s as [|c s IH]; [done|]. cbn [trim_zeros]. rewrite (len_String c s).
  destruct (_ && _); [apply Nat.le_0_l|]. rewrite len_String. lia.
Qed.

Lemma len_fraction ns : len (fraction ns) <= 10.
Proof.
  unfold fraction. destruct (ns =? 0)%Z; [apply Nat.le_0_l|]. rewrite len_String.
  pose proof (len_trim_zeros (fixed 9 ns)) as H. rewrite fixed_len in H. lia.
Qed.

Lemma len_Format t : len (Format_RFC3339Nano t) <= 148.
Proof.
  unfold Format_RFC3339Nano. destruct (month_of _ _ _ _) as [month mday].
  repeat (rewrite len_app || rewrite len_String).
  repeat match goal with |- context [len (appendInt ?z ?n)] =>
    let H := fresh in pose proof (len_appendInt z n ltac:(lia)) as H; revert H;
    generalize (len (appendInt z n)); intros ? ? end.
  pose proof (len_fraction (t mod Second)). change (len "") with 0. lia.
Qed.

Lemma size_int k (z : Z) : short_name k -> field_size (field k z) <= 63.
Proof.
  intros Hk%Nat.leb_le. unfold field. rewrite field_size_one. change (print (marshal z)) with (FormatInt z).
  pose proof (len_FormatInt z). lia.
Qed.

(** ** Fields of any type *)

Lemma size_field {A} `{Marshal A} k (a : A) n : short_name k -> len (json_Marshal a) <= n ->
  field_size (field k a) <= 42 + n.
Proof. intros Hk%Nat.leb_le Hn. unfold field. rewrite field_size_one. unfold json_Marshal in Hn. lia. Qed.

Lemma len_bool (b : bool) : len (json_Marshal b) <= 5.
Proof. apply Nat.leb_le. by destruct b. Qed.

Section Arrays.
Context {A : Type} `{Marshal A} (m n : nat).

Lemma len_array (xs : list A) : length xs <= m -> Forall (fun x => len (json_Marshal x) <= n) xs ->
  len (print (JArray (List.map marshal xs))) <= 2 + m * S n.
Proof.
  intros Hl Hx. rewrite print_array, len_String, len_app. change (len "]") with 1.
  pose proof (len_commas (List.map print (List.map marshal xs))) as Hc.
  assert (sum (List.map (fun p => S (len p)) (List.map print (List.map marshal xs))) <= length xs * S n); [|nia].
  clear Hl Hc. induction Hx as [|x xs Hx Hxs IH]; [done|]. cbn [List.map length]. rewrite sum_cons.
  unfold json_Marshal in Hx. lia.
Qed.

Lemma size_array k (xs : list A) : short_name k -> length xs <= m ->
  Forall (fun x => len (json_Marshal x) <= n) xs -> field_size (slice_array k xs) <= 44 + m * S n.
Proof.
  intros Hk%Nat.leb_le Hl Hx. unfold slice_array. rewrite field_size_one. pose proof (len_array xs Hl Hx). lia.
Qed.

Lemma len_slice (xs : list A) : length xs <= m -> Forall (fun x => len (json_Marshal x) <= n) xs ->
  len (json_Marshal xs) <= 4 + m * S n.
Proof.
  intros Hl Hx. destruct xs as [|x xs]; [unfold json_Marshal; change (len (print (marshal []))) with 4; lia|].
  pose proof (len_array (x :: xs) Hl Hx) as Hs. unfold json_Marshal.
  change (marshal (x :: xs)) with (JArray (List.map marshal (x :: xs))). lia.
Qed.

Lemma size_slice k (xs : list A) : short_name k -> length xs <= m ->
  Forall (fun x => len (json_Marshal x) <= n) xs -> field_size (slice_omitempty k xs) <= 46 + m * S n.
Proof.
  intros Hk Hl Hx. pose proof (size_field k xs (4 + m * S n) Hk (len_slice xs Hl Hx)).
  destruct xs; [change (0 <= 46 + m * S n); lia|]. unfold slice_omitempty. unfold field in *. lia.
Qed.
End Arrays.
