(* ===== verification/DrillTypes.v ===== *)
(** * The data of the backup drill

    The records of pkg/backup/drill/types.go, their JSON texts, and the digests
    of pkg/backup/drill/digest.go.  A nil slice and an empty one are the same
    list; where a slice without [omitempty] is empty its text is null. *)

From stdpp Require Import strings list.
From Stdlib Require Import ZArith Ascii Lia.
From S2P Require Import Prelude GoString GoTime GoSha256 GoJson StrictJson.

#[local] Open Scope Z_scope.

(** ** Constants *)

Definition PlanSchemaVersion : string := "cloudring.backup-drill.plan/v1".
Definition ApprovalSchemaVersion : string := "cloudring.backup-drill.approval/v1".
Definition AdapterRequestVersion : string := "cloudring.backup-drill.adapter-request/v1".
Definition AdapterResponseVersion : string := "cloudring.backup-drill.adapter-response/v1".
Definition JournalEntryVersion : string := "cloudring.backup-drill.journal-entry/v1".
Definition ReceiptSchemaVersion : string := "cloudring.backup-drill.execution-receipt/v1".
Definition AdapterProtocolVersion : string := "cloudring.backup-drill.adapter/v1".
Definition ApprovalTuplePrefix : string := "goal01-backup-restore".

Definition TargetKinds : list string :=
  ["Etcd"; "VirtualMachineClaim"; "Volume"; "Namespace"; "KubernetesClusterClaim"].

Definition ApplySteps : list string := [
  "approval-consumed"; "mutation-started"; "etcd-offcell-complete"; "velero-backup-complete";
  "restore-watch-create-observe-complete"; "etcd-sandbox-restored";
  "restore-validation-complete"; "cleanup-ready"; "isolated-targets-deleted";
  "residual-sweep-1"; "residual-sweep-2"; "proof-assembled"; "completed"].

(** ** Records and their texts *)

Record ObjectIdentity := {
  oi_Kind : string; oi_Namespace : string; oi_Name : string; oi_ScopeSHA256 : string
}.

Definition ObjectIdentity_fields (v : ObjectIdentity) : fields := [
  field "kind" (oi_Kind v); field_omitempty "namespace" (oi_Namespace v);
  field "name" (oi_Name v); field "scopeSha256" (oi_ScopeSHA256 v)].

#[export] Instance marshal_ObjectIdentity : Marshal ObjectIdentity := fun v => JStruct (ObjectIdentity_fields v).

Record IsolatedNamespace := {
  ns_RestoreIndex : Z; ns_RestoreName : string; ns_RestoreScopeSHA256 : string;
  ns_SourceNamespace : string; ns_Destination : ObjectIdentity
}.

Definition IsolatedNamespace_fields (v : IsolatedNamespace) : fields := [
  field "restoreIndex" (ns_RestoreIndex v); field "restoreName" (ns_RestoreName v);
  field "restoreScopeSha256" (ns_RestoreScopeSHA256 v);
  field "sourceNamespace" (ns_SourceNamespace v); field "destination" (ns_Destination v)].

#[export] Instance marshal_IsolatedNamespace : Marshal IsolatedNamespace := fun v => JStruct (IsolatedNamespace_fields v).

Record StorageLocation := {
  sl_Name : string; sl_UIDSHA256 : string; sl_Generation : Z; sl_ConfigSHA256 : string
}.

Definition StorageLocation_fields (v : StorageLocation) : fields := [
  field "name" (sl_Name v); field "uidSha256" (sl_UIDSHA256 v);
  field "generation" (sl_Generation v); field "configSha256" (sl_ConfigSHA256 v)].

#[export] Instance marshal_StorageLocation : Marshal StorageLocation := fun v => JStruct (StorageLocation_fields v).

Record ObjectStore := {
  os_Prefix : string; os_MinimumRetentionDays : Z; os_ObjectLockMode : string
}.

Definition ObjectStore_fields (v : ObjectStore) : fields := [
  field "prefix" (os_Prefix v); field "minimumRetentionDays" (os_MinimumRetentionDays v);
  field "objectLockMode" (os_ObjectLockMode v)].

#[export] Instance marshal_ObjectStore : Marshal ObjectStore := fun v => JStruct (ObjectStore_fields v).

Record Baseline := {
  bl_Kind : string; bl_IdentitySHA256 : string; bl_StateSHA256 : string; bl_DataSHA256 : string
}.

Definition Baseline_fields (v : Baseline) : fields := [
  field "kind" (bl_Kind v); field "identitySha256" (bl_IdentitySHA256 v);
  field "stateSha256" (bl_StateSHA256 v); field "dataSha256" (bl_DataSHA256 v)].

#[export] Instance marshal_Baseline : Marshal Baseline := fun v => JStruct (Baseline_fields v).

Record ExecutableIdentity := {
  ei_Name : string; ei_ExecutableSHA256 : string
}.

Definition ExecutableIdentity_fields (v : ExecutableIdentity) : fields := [
  field "name" (ei_Name v); field "executableSha256" (ei_ExecutableSHA256 v)].

#[export] Instance marshal_ExecutableIdentity : Marshal ExecutableIdentity := fun v => JStruct (ExecutableIdentity_fields v).

Record CleanupTarget := {
  ct_Kind : string; ct_Namespace : string; ct_Name : string;
  ct_PreconditionIdentitySHA256 : string
}.

Definition CleanupTarget_fields (v : CleanupTarget) : fields := [
  field "kind" (ct_Kind v); field_omitempty "namespace" (ct_Namespace v);
  field "name" (ct_Name v); field "preconditionIdentitySha256" (ct_PreconditionIdentitySHA256 v)].

#[export] Instance marshal_CleanupTarget : Marshal CleanupTarget := fun v => JStruct (CleanupTarget_fields v).

Record Plan := {
  pn_SchemaVersion : string; pn_OperationID : string; pn_ProofID : string;
  pn_InstallationID : string; pn_AcceptedPublicSHA : string; pn_AcceptedDownstreamSHA : string;
  pn_ClusterIdentitySHA256 : string; pn_BackupStorageLocation : StorageLocation;
  pn_ObjectStore : ObjectStore; pn_SourceBaselines : list Baseline;
  pn_Tool : ExecutableIdentity; pn_Adapter : ExecutableIdentity; pn_Backup : ObjectIdentity;
  pn_Restores : list ObjectIdentity; pn_IsolatedNamespaces : list IsolatedNamespace;
  pn_EtcdSandbox : ObjectIdentity; pn_CleanupTargets : list CleanupTarget;
  pn_AggregateProofPathToken : string; pn_IssuedAt : string; pn_ExpiresAt : string;
  pn_RunNonceSHA256 : string
}.

Definition Plan_fields (v : Plan) : fields := [
  field "schemaVersion" (pn_SchemaVersion v); field "operationId" (pn_OperationID v);
  field "proofId" (pn_ProofID v); field "installationId" (pn_InstallationID v);
  field "acceptedPublicSha" (pn_AcceptedPublicSHA v);
  field "acceptedDownstreamSha" (pn_AcceptedDownstreamSHA v);
  field "clusterIdentitySha256" (pn_ClusterIdentitySHA256 v);
  field "backupStorageLocation" (pn_BackupStorageLocation v);
  field "objectStore" (pn_ObjectStore v); field "sourceBaselines" (pn_SourceBaselines v);
  field "tool" (pn_Tool v); field "adapter" (pn_Adapter v); field "backup" (pn_Backup v);
  field "restores" (pn_Restores v); field "isolatedNamespaces" (pn_IsolatedNamespaces v);
  field "etcdSandbox" (pn_EtcdSandbox v); field "cleanupTargets" (pn_CleanupTargets v);
  field "aggregateProofPathToken" (pn_AggregateProofPathToken v);
  field "issuedAt" (pn_IssuedAt v); field "expiresAt" (pn_ExpiresAt v);
  field "runNonceSha256" (pn_RunNonceSHA256 v)].

#[export] Instance marshal_Plan : Marshal Plan := fun v => JStruct (Plan_fields v).

Record ApprovalReport := {
  ap_SchemaVersion : string; ap_OperationID : string; ap_PlanSHA256 : string;
  ap_ApprovalScopeSHA256 : string; ap_AdapterExecutableSHA256 : string; ap_IssuedAt : string;
  ap_ExpiresAt : string; ap_ApprovalTuple : string; ap_PreflightRequestSHA256 : string;
  ap_PreflightResponseSHA256 : string; ap_PreflightEvidenceRef : string;
  ap_PreflightEvidenceSHA256 : string; ap_PreflightBindingSHA256 : string;
  ap_ReportSHA256 : string
}.

Definition ApprovalReport_fields (v : ApprovalReport) : fields := [
  field "schemaVersion" (ap_SchemaVersion v); field "operationId" (ap_OperationID v);
  field "planSha256" (ap_PlanSHA256 v); field "approvalScopeSha256" (ap_ApprovalScopeSHA256 v);
  field "adapterExecutableSha256" (ap_AdapterExecutableSHA256 v);
  field "issuedAt" (ap_IssuedAt v); field "expiresAt" (ap_ExpiresAt v);
  field "approvalTuple" (ap_ApprovalTuple v);
  field "preflightRequestSha256" (ap_PreflightRequestSHA256 v);
  field "preflightResponseSha256" (ap_PreflightResponseSHA256 v);
  field "preflightEvidenceRef" (ap_PreflightEvidenceRef v);
  field "preflightEvidenceSha256" (ap_PreflightEvidenceSHA256 v);
  field "preflightBindingSha256" (ap_PreflightBindingSHA256 v);
  field "reportSha256" (ap_ReportSHA256 v)].

#[export] Instance marshal_ApprovalReport : Marshal ApprovalReport := fun v => JStruct (ApprovalReport_fields v).

Definition ApprovalReport_with_ReportSHA256 (v : ApprovalReport) (sha : string) : ApprovalReport := {|
  ap_SchemaVersion := ap_SchemaVersion v; ap_OperationID := ap_OperationID v;
  ap_PlanSHA256 := ap_PlanSHA256 v; ap_ApprovalScopeSHA256 := ap_ApprovalScopeSHA256 v;
  ap_AdapterExecutableSHA256 := ap_AdapterExecutableSHA256 v; ap_IssuedAt := ap_IssuedAt v;
  ap_ExpiresAt := ap_ExpiresAt v; ap_ApprovalTuple := ap_ApprovalTuple v;
  ap_PreflightRequestSHA256 := ap_PreflightRequestSHA256 v;
  ap_PreflightResponseSHA256 := ap_PreflightResponseSHA256 v;
  ap_PreflightEvidenceRef := ap_PreflightEvidenceRef v;
  ap_PreflightEvidenceSHA256 := ap_PreflightEvidenceSHA256 v;
  ap_PreflightBindingSHA256 := ap_PreflightBindingSHA256 v; ap_ReportSHA256 := sha
|}.

Record AdapterRequest := {
  rq_SchemaVersion : string; rq_ProtocolVersion : string; rq_OperationID : string;
  rq_PlanSHA256 : string; rq_ApprovalSHA256 : string; rq_ApprovalScopeSHA256 : string;
  rq_AdapterExecutableSHA256 : string; rq_Mode : string; rq_Step : string;
  rq_PreviousJournalSHA256 : string; rq_RequestID : string; rq_Plan : Plan;
  rq_RetainKinds : list string; rq_CleanupTargets : list CleanupTarget;
  rq_RequestSHA256 : string
}.

Definition AdapterRequest_fields (v : AdapterRequest) : fields := [
  field "schemaVersion" (rq_SchemaVersion v); field "protocolVersion" (rq_ProtocolVersion v);
  field "operationId" (rq_OperationID v); field "planSha256" (rq_PlanSHA256 v);
  field_omitempty "approvalSha256" (rq_ApprovalSHA256 v);
  field "approvalScopeSha256" (rq_ApprovalScopeSHA256 v);
  field "adapterExecutableSha256" (rq_AdapterExecutableSHA256 v); field "mode" (rq_Mode v);
  field "step" (rq_Step v);
  field_omitempty "previousJournalSha256" (rq_PreviousJournalSHA256 v);
  field "requestId" (rq_RequestID v); field "plan" (rq_Plan v);
  slice_omitempty "retainKinds" (rq_RetainKinds v);
  slice_omitempty "cleanupTargets" (rq_CleanupTargets v);
  field "requestSha256" (rq_RequestSHA256 v)].

#[export] Instance marshal_AdapterRequest : Marshal AdapterRequest := fun v => JStruct (AdapterRequest_fields v).

Definition AdapterRequest_with_RequestSHA256 (v : AdapterRequest) (sha : string) : AdapterRequest := {|
  rq_SchemaVersion := rq_SchemaVersion v; rq_ProtocolVersion := rq_ProtocolVersion v;
  rq_OperationID := rq_OperationID v; rq_PlanSHA256 := rq_PlanSHA256 v;
  rq_ApprovalSHA256 := rq_ApprovalSHA256 v; rq_ApprovalScopeSHA256 := rq_ApprovalScopeSHA256 v;
  rq_AdapterExecutableSHA256 := rq_AdapterExecutableSHA256 v; rq_Mode := rq_Mode v;
  rq_Step := rq_Step v; rq_PreviousJournalSHA256 := rq_PreviousJournalSHA256 v;
  rq_RequestID := rq_RequestID v; rq_Plan := rq_Plan v; rq_RetainKinds := rq_RetainKinds v;
  rq_CleanupTargets := rq_CleanupTargets v; rq_RequestSHA256 := sha
|}.

Definition AdapterRequest_with_RequestID (v : AdapterRequest) (id : string) : AdapterRequest := {|
  rq_SchemaVersion := rq_SchemaVersion v; rq_ProtocolVersion := rq_ProtocolVersion v;
  rq_OperationID := rq_OperationID v; rq_PlanSHA256 := rq_PlanSHA256 v;
  rq_ApprovalSHA256 := rq_ApprovalSHA256 v; rq_ApprovalScopeSHA256 := rq_ApprovalScopeSHA256 v;
  rq_AdapterExecutableSHA256 := rq_AdapterExecutableSHA256 v; rq_Mode := rq_Mode v;
  rq_Step := rq_Step v; rq_PreviousJournalSHA256 := rq_PreviousJournalSHA256 v;
  rq_RequestID := id; rq_Plan := rq_Plan v; rq_RetainKinds := rq_RetainKinds v;
  rq_CleanupTargets := rq_CleanupTargets v; rq_RequestSHA256 := rq_RequestSHA256 v
|}.

Record TargetResult := {
  tr_Kind : string; tr_SourceChecksumSHA256 : string; tr_RestoredChecksumSHA256 : string;
  tr_EvidenceRef : string; tr_EvidenceSHA256 : string
}.

Definition TargetResult_fields (v : TargetResult) : fields := [
  field "kind" (tr_Kind v); field "sourceChecksumSha256" (tr_SourceChecksumSHA256 v);
  field "restoredChecksumSha256" (tr_RestoredChecksumSHA256 v);
  field "evidenceRef" (tr_EvidenceRef v); field "evidenceSha256" (tr_EvidenceSHA256 v)].

#[export] Instance marshal_TargetResult : Marshal TargetResult := fun v => JStruct (TargetResult_fields v).

Definition TargetResult_names : list string := [
  "kind"; "sourceChecksumSha256"; "restoredChecksumSha256"; "evidenceRef"; "evidenceSha256"].

#[export] Instance unmarshal_TargetResult : Unmarshal TargetResult := fun strict values =>
  ms ← members strict TargetResult_names values;
  let get name := gather TargetResult_names ms name in
  v0 ← unmarshal strict (get "kind");
  v1 ← unmarshal strict (get "sourceChecksumSha256");
  v2 ← unmarshal strict (get "restoredChecksumSha256");
  v3 ← unmarshal strict (get "evidenceRef");
  v4 ← unmarshal strict (get "evidenceSha256");
  Some {|
    tr_Kind := v0; tr_SourceChecksumSHA256 := v1; tr_RestoredChecksumSHA256 := v2;
    tr_EvidenceRef := v3; tr_EvidenceSHA256 := v4
  |}.

Record Evidence := {
  ev_Ref : string; ev_SHA256 : string
}.

Definition Evidence_fields (v : Evidence) : fields := [
  field "ref" (ev_Ref v); field "sha256" (ev_SHA256 v)].

#[export] Instance marshal_Evidence : Marshal Evidence := fun v => JStruct (Evidence_fields v).

Definition Evidence_names : list string := [
  "ref"; "sha256"].

#[export] Instance unmarshal_Evidence : Unmarshal Evidence := fun strict values =>
  ms ← members strict Evidence_names values;
  let get name := gather Evidence_names ms name in
  v0 ← unmarshal strict (get "ref");
  v1 ← unmarshal strict (get "sha256");
  Some {|
    ev_Ref := v0; ev_SHA256 := v1
  |}.

Record RestoreObservation := {
  ro_RestoreName : string; ro_RestoreScopeSHA256 : string; ro_SourceNamespace : string;
  ro_DestinationNamespace : string; ro_DestinationScopeSHA256 : string; ro_EvidenceRef : string;
  ro_EvidenceSHA256 : string
}.

Definition RestoreObservation_fields (v : RestoreObservation) : fields := [
  field "restoreName" (ro_RestoreName v); field "restoreScopeSha256" (ro_RestoreScopeSHA256 v);
  field "sourceNamespace" (ro_SourceNamespace v);
  field "destinationNamespace" (ro_DestinationNamespace v);
  field "destinationScopeSha256" (ro_DestinationScopeSHA256 v);
  field "evidenceRef" (ro_EvidenceRef v); field "evidenceSha256" (ro_EvidenceSHA256 v)].

#[export] Instance marshal_RestoreObservation : Marshal RestoreObservation := fun v => JStruct (RestoreObservation_fields v).

Definition RestoreObservation_names : list string := [
  "restoreName"; "restoreScopeSha256"; "sourceNamespace"; "destinationNamespace";
  "destinationScopeSha256"; "evidenceRef"; "evidenceSha256"].

#[export] Instance unmarshal_RestoreObservation : Unmarshal RestoreObservation := fun strict values =>
  ms ← members strict RestoreObservation_names values;
  let get name := gather RestoreObservation_names ms name in
  v0 ← unmarshal strict (get "restoreName");
  v1 ← unmarshal strict (get "restoreScopeSha256");
  v2 ← unmarshal strict (get "sourceNamespace");
  v3 ← unmarshal strict (get "destinationNamespace");
  v4 ← unmarshal strict (get "destinationScopeSha256");
  v5 ← unmarshal strict (get "evidenceRef");
  v6 ← unmarshal strict (get "evidenceSha256");
  Some {|
    ro_RestoreName := v0; ro_RestoreScopeSHA256 := v1; ro_SourceNamespace := v2;
    ro_DestinationNamespace := v3; ro_DestinationScopeSHA256 := v4; ro_EvidenceRef := v5;
    ro_EvidenceSHA256 := v6
  |}.

Record AdapterResponse := {
  rs_SchemaVersion : string; rs_ProtocolVersion : string; rs_OperationID : string;
  rs_Step : string; rs_RequestSHA256 : string; rs_AdapterExecutableSHA256 : string;
  rs_Status : string; rs_Mutated : bool; rs_Evidence : Evidence;
  rs_RestoreObservations : list RestoreObservation; rs_Targets : list TargetResult;
  rs_IsolationEvidence : option Evidence; rs_CleanupEvidence : option Evidence;
  rs_ObjectLockDeleteDenialReceiptSHA256 : string; rs_AggregateProofArtifactSHA256 : string;
  rs_AggregateProofPathToken : string; rs_ResponseSHA256 : string
}.

Definition AdapterResponse_fields (v : AdapterResponse) : fields := [
  field "schemaVersion" (rs_SchemaVersion v); field "protocolVersion" (rs_ProtocolVersion v);
  field "operationId" (rs_OperationID v); field "step" (rs_Step v);
  field "requestSha256" (rs_RequestSHA256 v);
  field "adapterExecutableSha256" (rs_AdapterExecutableSHA256 v); field "status" (rs_Status v);
  field "mutated" (rs_Mutated v); field "evidence" (rs_Evidence v);
  slice_omitempty "restoreObservations" (rs_RestoreObservations v);
  slice_omitempty "targets" (rs_Targets v);
  pointer_omitempty "isolationEvidence" (rs_IsolationEvidence v);
  pointer_omitempty "cleanupEvidence" (rs_CleanupEvidence v);
  field_omitempty "objectLockDeleteDenialReceiptSha256" (rs_ObjectLockDeleteDenialReceiptSHA256 v);
  field_omitempty "aggregateProofArtifactSha256" (rs_AggregateProofArtifactSHA256 v);
  field_omitempty "aggregateProofPathToken" (rs_AggregateProofPathToken v);
  field "responseSha256" (rs_ResponseSHA256 v)].

#[export] Instance marshal_AdapterResponse : Marshal AdapterResponse := fun v => JStruct (AdapterResponse_fields v).

Definition AdapterResponse_names : list string := [
  "schemaVersion"; "protocolVersion"; "operationId"; "step"; "requestSha256";
  "adapterExecutableSha256"; "status"; "mutated"; "evidence"; "restoreObservations"; "targets";
  "isolationEvidence"; "cleanupEvidence"; "objectLockDeleteDenialReceiptSha256";
  "aggregateProofArtifactSha256"; "aggregateProofPathToken"; "responseSha256"].

#[export] Instance unmarshal_AdapterResponse : Unmarshal AdapterResponse := fun strict values =>
  ms ← members strict AdapterResponse_names values;
  let get name := gather AdapterResponse_names ms name in
  v0 ← unmarshal strict (get "schemaVersion");
  v1 ← unmarshal strict (get "protocolVersion");
  v2 ← unmarshal strict (get "operationId");
  v3 ← unmarshal strict (get "step");
  v4 ← unmarshal strict (get "requestSha256");
  v5 ← unmarshal strict (get "adapterExecutableSha256");
  v6 ← unmarshal strict (get "status");
  v7 ← unmarshal strict (get "mutated");
  v8 ← unmarshal strict (get "evidence");
  v9 ← unmarshal strict (get "restoreObservations");
  v10 ← unmarshal strict (get "targets");
  v11 ← unmarshal strict (get "isolationEvidence");
  v12 ← unmarshal strict (get "cleanupEvidence");
  v13 ← unmarshal strict (get "objectLockDeleteDenialReceiptSha256");
  v14 ← unmarshal strict (get "aggregateProofArtifactSha256");
  v15 ← unmarshal strict (get "aggregateProofPathToken");
  v16 ← unmarshal strict (get "responseSha256");
  Some {|
    rs_SchemaVersion := v0; rs_ProtocolVersion := v1; rs_OperationID := v2; rs_Step := v3;
    rs_RequestSHA256 := v4; rs_AdapterExecutableSHA256 := v5; rs_Status := v6; rs_Mutated := v7;
    rs_Evidence := v8; rs_RestoreObservations := v9; rs_Targets := v10;
    rs_IsolationEvidence := v11; rs_CleanupEvidence := v12;
    rs_ObjectLockDeleteDenialReceiptSHA256 := v13; rs_AggregateProofArtifactSHA256 := v14;
    rs_AggregateProofPathToken := v15; rs_ResponseSHA256 := v16
  |}.

Definition AdapterResponse_with_ResponseSHA256 (v : AdapterResponse) (sha : string) : AdapterResponse := {|
  rs_SchemaVersion := rs_SchemaVersion v; rs_ProtocolVersion := rs_ProtocolVersion v;
  rs_OperationID := rs_OperationID v; rs_Step := rs_Step v;
  rs_RequestSHA256 := rs_RequestSHA256 v;
  rs_AdapterExecutableSHA256 := rs_AdapterExecutableSHA256 v; rs_Status := rs_Status v;
  rs_Mutated := rs_Mutated v; rs_Evidence := rs_Evidence v;
  rs_RestoreObservations := rs_RestoreObservations v; rs_Targets := rs_Targets v;
  rs_IsolationEvidence := rs_IsolationEvidence v; rs_CleanupEvidence := rs_CleanupEvidence v;
  rs_ObjectLockDeleteDenialReceiptSHA256 := rs_ObjectLockDeleteDenialReceiptSHA256 v;
  rs_AggregateProofArtifactSHA256 := rs_AggregateProofArtifactSHA256 v;
  rs_AggregateProofPathToken := rs_AggregateProofPathToken v; rs_ResponseSHA256 := sha
|}.

Record JournalEntry := {
  je_SchemaVersion : string; je_Sequence : Z; je_OperationID : string; je_PlanSHA256 : string;
  je_ApprovalSHA256 : string; je_ApprovalScopeSHA256 : string;
  je_AdapterExecutableSHA256 : string; je_Step : string; je_RequestSHA256 : string;
  je_ResponseSHA256 : string; je_Response : option AdapterResponse;
  je_PreviousEntrySHA256 : string; je_RecordedAt : string; je_EntrySHA256 : string
}.

Definition JournalEntry_fields (v : JournalEntry) : fields := [
  field "schemaVersion" (je_SchemaVersion v); field "sequence" (je_Sequence v);
  field "operationId" (je_OperationID v); field "planSha256" (je_PlanSHA256 v);
  field "approvalSha256" (je_ApprovalSHA256 v);
  field "approvalScopeSha256" (je_ApprovalScopeSHA256 v);
  field "adapterExecutableSha256" (je_AdapterExecutableSHA256 v); field "step" (je_Step v);
  field "requestSha256" (je_RequestSHA256 v); field "responseSha256" (je_ResponseSHA256 v);
  pointer_omitempty "response" (je_Response v);
  field_omitempty "previousEntrySha256" (je_PreviousEntrySHA256 v);
  field "recordedAt" (je_RecordedAt v); field "entrySha256" (je_EntrySHA256 v)].

#[export] Instance marshal_JournalEntry : Marshal JournalEntry := fun v => JStruct (JournalEntry_fields v).

Definition JournalEntry_names : list string := [
  "schemaVersion"; "sequence"; "operationId"; "planSha256"; "approvalSha256";
  "approvalScopeSha256"; "adapterExecutableSha256"; "step"; "requestSha256"; "responseSha256";
  "response"; "previousEntrySha256"; "recordedAt"; "entrySha256"].

#[export] Instance unmarshal_JournalEntry : Unmarshal JournalEntry := fun strict values =>
  ms ← members strict JournalEntry_names values;
  let get name := gather JournalEntry_names ms name in
  v0 ← unmarshal strict (get "schemaVersion");
  v1 ← unmarshal strict (get "sequence");
  v2 ← unmarshal strict (get "operationId");
  v3 ← unmarshal strict (get "planSha256");
  v4 ← unmarshal strict (get "approvalSha256");
  v5 ← unmarshal strict (get "approvalScopeSha256");
  v6 ← unmarshal strict (get "adapterExecutableSha256");
  v7 ← unmarshal strict (get "step");
  v8 ← unmarshal strict (get "requestSha256");
  v9 ← unmarshal strict (get "responseSha256");
  v10 ← unmarshal strict (get "response");
  v11 ← unmarshal strict (get "previousEntrySha256");
  v12 ← unmarshal strict (get "recordedAt");
  v13 ← unmarshal strict (get "entrySha256");
  Some {|
    je_SchemaVersion := v0; je_Sequence := v1; je_OperationID := v2; je_PlanSHA256 := v3;
    je_ApprovalSHA256 := v4; je_ApprovalScopeSHA256 := v5; je_AdapterExecutableSHA256 := v6;
    je_Step := v7; je_RequestSHA256 := v8; je_ResponseSHA256 := v9; je_Response := v10;
    je_PreviousEntrySHA256 := v11; je_RecordedAt := v12; je_EntrySHA256 := v13
  |}.

Definition JournalEntry_with_EntrySHA256 (v : JournalEntry) (sha : string) : JournalEntry := {|
  je_SchemaVersion := je_SchemaVersion v; je_Sequence := je_Sequence v;
  je_OperationID := je_OperationID v; je_PlanSHA256 := je_PlanSHA256 v;
  je_ApprovalSHA256 := je_ApprovalSHA256 v; je_ApprovalScopeSHA256 := je_ApprovalScopeSHA256 v;
  je_AdapterExecutableSHA256 := je_AdapterExecutableSHA256 v; je_Step := je_Step v;
  je_RequestSHA256 := je_RequestSHA256 v; je_ResponseSHA256 := je_ResponseSHA256 v;
  je_Response := je_Response v; je_PreviousEntrySHA256 := je_PreviousEntrySHA256 v;
  je_RecordedAt := je_RecordedAt v; je_EntrySHA256 := sha
|}.

Record ExecutionReceipt := {
  er_SchemaVersion : string; er_OperationID : string; er_ProofID : string;
  er_InstallationID : string; er_PlanSHA256 : string; er_ApprovalSHA256 : string;
  er_ApprovalScopeSHA256 : string; er_AdapterExecutableSHA256 : string; er_Status : string;
  er_CompletedAt : string; er_JournalHeadSHA256 : string;
  er_ExecutionEvidenceResponseSHA256 : string; er_Targets : list TargetResult;
  er_IsolationEvidence : Evidence; er_CleanupEvidence : Evidence;
  er_ObjectLockDeleteDenialReceiptSHA256 : string; er_AggregateProofArtifactSHA256 : string;
  er_AggregateProofPathToken : string; er_ReceiptSHA256 : string
}.

Definition ExecutionReceipt_fields (v : ExecutionReceipt) : fields := [
  field "schemaVersion" (er_SchemaVersion v); field "operationId" (er_OperationID v);
  field "proofId" (er_ProofID v); field "installationId" (er_InstallationID v);
  field "planSha256" (er_PlanSHA256 v); field "approvalSha256" (er_ApprovalSHA256 v);
  field "approvalScopeSha256" (er_ApprovalScopeSHA256 v);
  field "adapterExecutableSha256" (er_AdapterExecutableSHA256 v); field "status" (er_Status v);
  field "completedAt" (er_CompletedAt v); field "journalHeadSha256" (er_JournalHeadSHA256 v);
  field "executionEvidenceResponseSha256" (er_ExecutionEvidenceResponseSHA256 v);
  field "targets" (er_Targets v); field "isolationEvidence" (er_IsolationEvidence v);
  field "cleanupEvidence" (er_CleanupEvidence v);
  field "objectLockDeleteDenialReceiptSha256" (er_ObjectLockDeleteDenialReceiptSHA256 v);
  field "aggregateProofArtifactSha256" (er_AggregateProofArtifactSHA256 v);
  field "aggregateProofPathToken" (er_AggregateProofPathToken v);
  field "receiptSha256" (er_ReceiptSHA256 v)].

#[export] Instance marshal_ExecutionReceipt : Marshal ExecutionReceipt := fun v => JStruct (ExecutionReceipt_fields v).

Definition ExecutionReceipt_with_ReceiptSHA256 (v : ExecutionReceipt) (sha : string) : ExecutionReceipt := {|
  er_SchemaVersion := er_SchemaVersion v; er_OperationID := er_OperationID v;
  er_ProofID := er_ProofID v; er_InstallationID := er_InstallationID v;
  er_PlanSHA256 := er_PlanSHA256 v; er_ApprovalSHA256 := er_ApprovalSHA256 v;
  er_ApprovalScopeSHA256 := er_ApprovalScopeSHA256 v;
  er_AdapterExecutableSHA256 := er_AdapterExecutableSHA256 v; er_Status := er_Status v;
  er_CompletedAt := er_CompletedAt v; er_JournalHeadSHA256 := er_JournalHeadSHA256 v;
  er_ExecutionEvidenceResponseSHA256 := er_ExecutionEvidenceResponseSHA256 v;
  er_Targets := er_Targets v; er_IsolationEvidence := er_IsolationEvidence v;
  er_CleanupEvidence := er_CleanupEvidence v;
  er_ObjectLockDeleteDenialReceiptSHA256 := er_ObjectLockDeleteDenialReceiptSHA256 v;
  er_AggregateProofArtifactSHA256 := er_AggregateProofArtifactSHA256 v;
  er_AggregateProofPathToken := er_AggregateProofPathToken v; er_ReceiptSHA256 := sha
|}.

(** ** Digests *)

(** [digest] of pkg/backup/drill/digest.go: the values are structs of strings,
    integers and booleans, so [json.Marshal] does not fail. *)
Definition digest {A} `{Marshal A} (value : A) : string := sha256_hex (json_Marshal value).

(** The anonymous structs some digests are taken of. *)
Definition digest_fields (fs : fields) : string := sha256_hex (print (JStruct fs)).

Definition PlanSHA256 (plan : Plan) : string := digest plan.

Definition ApprovalScopeSHA256 (plan : Plan) : string := digest_fields [
  field "schemaVersion" "cloudring.backup-drill.approval-scope/v1";
  field "planSha256" (PlanSHA256 plan); field "operationId" (pn_OperationID plan);
  field "proofId" (pn_ProofID plan); field "installationId" (pn_InstallationID plan);
  field "acceptedPublicSha" (pn_AcceptedPublicSHA plan);
  field "acceptedDownstreamSha" (pn_AcceptedDownstreamSHA plan);
  field "clusterSha256" (pn_ClusterIdentitySHA256 plan); field "adapter" (pn_Adapter plan)].

Definition PreflightBindingSHA256 (plan : Plan) (responseSHA256 evidenceRef evidenceSHA256 : string)
    : string := digest_fields [
  field "schemaVersion" "cloudring.backup-drill.preflight-binding/v1";
  field "approvalScopeSha256" (ApprovalScopeSHA256 plan);
  field "adapterExecutableSha256" (ei_ExecutableSHA256 (pn_Adapter plan));
  field "responseSha256" responseSHA256; field "evidenceRef" evidenceRef;
  field "evidenceSha256" evidenceSHA256].

Definition ApprovalSHA256 (report : ApprovalReport) : string := digest report.

Definition ApprovalReportSHA256 (report : ApprovalReport) : string :=
  digest (ApprovalReport_with_ReportSHA256 report "").
Definition AdapterRequestSHA256 (request : AdapterRequest) : string :=
  digest (AdapterRequest_with_RequestSHA256 request "").
Definition AdapterResponseSHA256 (response : AdapterResponse) : string :=
  digest (AdapterResponse_with_ResponseSHA256 response "").
Definition JournalEntrySHA256 (entry : JournalEntry) : string :=
  digest (JournalEntry_with_EntrySHA256 entry "").
Definition ExecutionReceiptSHA256 (receipt : ExecutionReceipt) : string :=
  digest (ExecutionReceipt_with_ReceiptSHA256 receipt "").
