(* ===== verification/DrillValidate.v ===== *)
(** * What the backup drill accepts

    The patterns and validators of pkg/backup/drill/validate.go for plans,
    approvals and adapter responses, and the requests of
    pkg/backup/drill/engine.go they are checked against. *)

From stdpp Require Import gmap strings list.
From Stdlib Require Import ZArith Ascii Lia.
From S2P Require Import Prelude GoString GoTime GoSha256 GoJson StrictJson GoRfc3339 DrillTypes.

#[local] Open Scope Z_scope.

(** ** Patterns *)

Definition idPattern : string -> bool :=
  match_first_rest lower_digit (fun c => lower_digit c || one_of "._:-" c) 0 127.

(** One letter or digit, or up to 63 characters between two of them. *)
Definition namePattern (s : string) : bool :=
  match s with
  | EmptyString => false
  | String c r =>
      lower_digit c && all_chars (fun c => lower_digit c || one_of ".-" c) r &&
      lower_digit (last_char c r) && (len r <=? 62)%nat
  end.

Definition kindPattern : string -> bool :=
  match_first_rest (fun c => is_lower c || is_upper c)
    (fun c => is_lower c || is_upper c || is_digit c || one_of "." c) 0 63.

Definition shaPattern : string -> bool := hex_of_length 64.
Definition gitSHAPattern : string -> bool := hex_of_length 40.

Definition tokenPattern : string -> bool :=
  match_first_rest lower_digit (fun c => lower_digit c || one_of "._/-" c) 0 228.

Definition validID (value : string) : bool := idPattern value.
Definition validName (value : string) : bool := namePattern value.

(** [hex.DecodeString] accepts what the pattern does. *)
Definition validSHA (value : string) : bool := shaPattern value.

Definition validPathToken (value : string) : bool :=
  tokenPattern value && negb (Contains value "..") && negb (HasPrefix value "/") &&
  match value with
  | EmptyString => true
  | String c r => negb (one_of ".-/" (last_char c r))
  end.

Definition validEvidence (ref sha : string) : bool := validPathToken ref && validSHA sha.

Definition validObject (value : ObjectIdentity) : bool :=
  validName (oi_Name value) &&
  ((oi_Namespace value == "") || validName (oi_Namespace value)) && validSHA (oi_ScopeSHA256 value).

Definition canonicalTime (value : string) : option Time := canonical value.

Definition string_in (xs : list string) (s : string) : bool := existsb (String.eqb s) xs.

Definition retainedKind (kind : string) : bool :=
  string_in ["Backup"; "DataUpload"; "ObjectStoreRecoveryPoint"; "RestoreAuditCR"] kind.

(** ** Plans *)

Definition valid_baseline (kind : string) (baseline : Baseline) : bool :=
  (bl_Kind baseline == kind) && validSHA (bl_IdentitySHA256 baseline) &&
  validSHA (bl_StateSHA256 baseline) && validSHA (bl_DataSHA256 baseline).

Definition restoreKinds : list string :=
  ["VirtualMachineClaim"; "Volume"; "Namespace"; "KubernetesClusterClaim"].

Definition valid_restore (kind : string) (restore : ObjectIdentity) : bool :=
  (oi_Kind restore == kind) && validObject restore.

Definition mappingRestoreIndexes : list nat := [0; 1; 2; 2; 3]%nat.

Definition bad_namespace : goerror :=
  errors_New "backup drill isolated namespace mapping is invalid, duplicated, or misassigned".

(** The loop over the namespace mappings: the restore each belongs to, and the
    destinations, scopes and mappings that were seen. *)
Fixpoint check_namespaces (restores : list ObjectIdentity) (index : nat)
    (mappings : list (nat * IsolatedNamespace)) (seenDestinations seenScopes seenMappings : gset string)
    : option goerror :=
  match mappings with
  | [] => None
  | (expectedRestoreIndex, mapping) :: rest =>
      if negb (ns_RestoreIndex mapping =? Z.of_nat expectedRestoreIndex)
      then Some (errors_New "backup drill isolated namespace mapping restore index is invalid")
      else match restores !! expectedRestoreIndex with
      | None => Some bad_namespace
      | Some restore =>
      let destination := ns_Destination mapping in
      let mappingIdentity := ns_RestoreName mapping +:+ "/" +:+ ns_SourceNamespace mapping in
      if (ns_RestoreName mapping != oi_Name restore) ||
         (ns_RestoreScopeSHA256 mapping != oi_ScopeSHA256 restore) ||
         negb (validName (ns_SourceNamespace mapping)) ||
         (oi_Kind destination != "Namespace") || (oi_Namespace destination != "") ||
         negb (validObject destination) || bool_decide (oi_Name destination ∈ seenDestinations) ||
         bool_decide (oi_ScopeSHA256 destination ∈ seenScopes) ||
         bool_decide (mappingIdentity ∈ seenMappings)
      then Some bad_namespace
      else if (index =? 2)%nat && (ns_SourceNamespace mapping != "platform-system") ||
              (index =? 3)%nat && (ns_SourceNamespace mapping != "flux-system")
      then Some (errors_New "backup drill Namespace restore must map platform-system and flux-system")
      else check_namespaces restores (S index) rest
             ({[oi_Name destination]} ∪ seenDestinations)
             ({[oi_ScopeSHA256 destination]} ∪ seenScopes) ({[mappingIdentity]} ∪ seenMappings)
      end
  end.

(** The loop over the cleanup targets. *)
Fixpoint check_cleanup (plan : Plan) (index : nat) (targets : list CleanupTarget)
    (seenCleanup : gset string) : option goerror :=
  match targets with
  | [] => None
  | target :: rest =>
      let identity := ct_Kind target +:+ "/" +:+ ct_Namespace target +:+ "/" +:+ ct_Name target in
      if negb (kindPattern (ct_Kind target)) || negb (validName (ct_Name target)) ||
         (ct_Namespace target != "") && negb (validName (ct_Namespace target)) ||
         negb (validSHA (ct_PreconditionIdentitySHA256 target)) ||
         bool_decide (identity ∈ seenCleanup) || retainedKind (ct_Kind target)
      then Some (errors_New "backup drill cleanup target is unsafe or duplicated")
      else if match pn_IsolatedNamespaces plan !! index with
              | Some mapping =>
                  (ct_Kind target != "Namespace") || (ct_Namespace target != "") ||
                  (ct_Name target != oi_Name (ns_Destination mapping))
              | None => false
              end
      then Some (errors_New "backup drill cleanup targets are not exact isolated namespaces")
      else if (index =? length (pn_IsolatedNamespaces plan))%nat &&
              ((ct_Kind target != "EtcdSandbox") || (ct_Namespace target != "") ||
               (ct_Name target != oi_Name (pn_EtcdSandbox plan)))
      then Some (errors_New "backup drill cleanup target is not the exact etcd sandbox")
      else check_cleanup plan (S index) rest ({[identity]} ∪ seenCleanup)
  end.

Definition plan_identity_valid (plan : Plan) : bool :=
  match canonicalTime (pn_IssuedAt plan), canonicalTime (pn_ExpiresAt plan) with
  | Some issued, Some expires =>
      (pn_SchemaVersion plan == PlanSchemaVersion) && validID (pn_OperationID plan) &&
      validID (pn_ProofID plan) && validID (pn_InstallationID plan) &&
      gitSHAPattern (pn_AcceptedPublicSHA plan) && gitSHAPattern (pn_AcceptedDownstreamSHA plan) &&
      validSHA (pn_ClusterIdentitySHA256 plan) && After expires issued &&
      (time_Sub expires issued <=? 30 * Minute) && validSHA (pn_RunNonceSHA256 plan)
  | _, _ => false
  end.

Definition plan_storage_valid (plan : Plan) : bool :=
  let location := pn_BackupStorageLocation plan in
  let store := pn_ObjectStore plan in
  validName (sl_Name location) && validSHA (sl_UIDSHA256 location) &&
  (1 <=? sl_Generation location) && validSHA (sl_ConfigSHA256 location) &&
  validPathToken (os_Prefix store) && (30 <=? os_MinimumRetentionDays store) &&
  (os_MinimumRetentionDays store <=? 36500) &&
  string_in ["governance"; "compliance"] (os_ObjectLockMode store).

Definition plan_executables_valid (plan : Plan) : bool :=
  (ei_Name (pn_Tool plan) == "cloudring-backup") && validSHA (ei_ExecutableSHA256 (pn_Tool plan)) &&
  validID (ei_Name (pn_Adapter plan)) && validSHA (ei_ExecutableSHA256 (pn_Adapter plan)).

Definition ValidatePlan (plan : Plan) : option goerror :=
  if negb (plan_identity_valid plan)
  then Some (errors_New "backup drill plan identity or validity window is invalid")
  else if negb (plan_storage_valid plan)
  then Some (errors_New "backup drill storage binding is invalid")
  else if negb (plan_executables_valid plan)
  then Some (errors_New "backup drill executable binding is invalid")
  else if (oi_Kind (pn_Backup plan) != "Backup") || negb (validObject (pn_Backup plan)) ||
          (oi_Kind (pn_EtcdSandbox plan) != "EtcdSandbox") || negb (validObject (pn_EtcdSandbox plan))
  then Some (errors_New "backup drill backup or etcd sandbox identity is invalid")
  else if negb (length (pn_SourceBaselines plan) =? length TargetKinds)%nat
  then Some (errors_New "backup drill requires exact source baselines")
  else if negb (forallb (fun kb => valid_baseline kb.1 kb.2) (zip TargetKinds (pn_SourceBaselines plan)))
  then Some (errors_New "backup drill source baselines are invalid or not canonical")
  else if negb (length (pn_Restores plan) =? length restoreKinds)%nat ||
          negb (length (pn_IsolatedNamespaces plan) =? 5)%nat
  then Some (errors_New "backup drill requires exact four restores and five isolated namespace mappings")
  else if negb (forallb (fun kr => valid_restore kr.1 kr.2) (zip restoreKinds (pn_Restores plan)))
  then Some (errors_New "backup drill restore identities are invalid or not canonical")
  else match check_namespaces (pn_Restores plan) 0
               (zip mappingRestoreIndexes (pn_IsolatedNamespaces plan)) ∅ ∅ ∅ with
  | Some err => Some err
  | None =>
  if negb (length (pn_CleanupTargets plan) =? length (pn_IsolatedNamespaces plan) + 1)%nat
  then Some (errors_New "backup drill cleanup targets are incomplete")
  else match check_cleanup plan 0 (pn_CleanupTargets plan) ∅ with
  | Some err => Some err
  | None =>
  if negb (validPathToken (pn_AggregateProofPathToken plan))
  then Some (errors_New "backup drill aggregate proof path token is invalid")
  else None
  end end.

(** ** Requests *)

Definition requestIdentity (request : AdapterRequest) : string :=
  rq_Mode request +:+ ":" +:+ take_chars 32 (digest_fields [
    field "OperationID" (rq_OperationID request); field "PlanSHA256" (rq_PlanSHA256 request);
    field "ApprovalSHA256" (rq_ApprovalSHA256 request); field "Step" (rq_Step request);
    field "Previous" (rq_PreviousJournalSHA256 request)]).

Definition zero_ApprovalReport : ApprovalReport := {|
  ap_SchemaVersion := ""; ap_OperationID := ""; ap_PlanSHA256 := ""; ap_ApprovalScopeSHA256 := "";
  ap_AdapterExecutableSHA256 := ""; ap_IssuedAt := ""; ap_ExpiresAt := ""; ap_ApprovalTuple := "";
  ap_PreflightRequestSHA256 := ""; ap_PreflightResponseSHA256 := "";
  ap_PreflightEvidenceRef := ""; ap_PreflightEvidenceSHA256 := "";
  ap_PreflightBindingSHA256 := ""; ap_ReportSHA256 := "" |}.

(** The request identity and digest of a request whose other fields are set. *)
Definition seal_request (request : AdapterRequest) : AdapterRequest :=
  let request := AdapterRequest_with_RequestID request (requestIdentity request) in
  AdapterRequest_with_RequestSHA256 request (AdapterRequestSHA256 request).

Definition base_request (plan : Plan) (approval : ApprovalReport) (mode step previous : string)
    (retain : list string) (cleanup : list CleanupTarget) : AdapterRequest := {|
  rq_SchemaVersion := AdapterRequestVersion; rq_ProtocolVersion := AdapterProtocolVersion;
  rq_OperationID := pn_OperationID plan; rq_PlanSHA256 := PlanSHA256 plan;
  rq_ApprovalSHA256 := if ap_SchemaVersion approval != "" then ApprovalSHA256 approval else "";
  rq_ApprovalScopeSHA256 := ApprovalScopeSHA256 plan;
  rq_AdapterExecutableSHA256 := ei_ExecutableSHA256 (pn_Adapter plan);
  rq_Mode := mode; rq_Step := step; rq_PreviousJournalSHA256 := previous; rq_RequestID := "";
  rq_Plan := plan; rq_RetainKinds := retain; rq_CleanupTargets := cleanup; rq_RequestSHA256 := "" |}.

Definition newAdapterRequest (plan : Plan) (approval : ApprovalReport) (mode step previous : string)
    : AdapterRequest :=
  seal_request (base_request plan approval mode step previous [] []).

(** The identity does not depend on the kinds and targets; the digest is taken
    again with them. *)
Definition newRollbackRequest (plan : Plan) (approval : ApprovalReport) (step previous : string)
    : AdapterRequest :=
  if step == "rollback-cleanup-requested" then
    seal_request (base_request plan approval "rollback" step previous
      ["Backup"; "DataUpload"; "ObjectStoreRecoveryPoint"; "RestoreAuditCR"] (pn_CleanupTargets plan))
  else newAdapterRequest plan approval "rollback" step previous.

(** ** Approvals *)

Definition ApprovalTuple (plan : Plan) (preflightBindingSHA256 : string) : string :=
  match canonicalTime (pn_IssuedAt plan) with
  | None => ""
  | Some issued =>
      if negb (validSHA preflightBindingSHA256) then ""
      else ApprovalTuplePrefix +:+ "@" +:+ FormatInt (Unix issued) +:+ "@" +:+
           pn_AcceptedDownstreamSHA plan +:+ "@" +:+ pn_RunNonceSHA256 plan +:+ "@" +:+
           ApprovalScopeSHA256 plan +:+ "@" +:+ preflightBindingSHA256
  end.

Definition preflightRequest (plan : Plan) : AdapterRequest :=
  newAdapterRequest plan zero_ApprovalReport "preflight" "preflight" "".

Definition validateApprovalBinding (plan : Plan) (approval : ApprovalReport) : option goerror :=
  match ValidatePlan plan with
  | Some err => Some err
  | None =>
  if (ap_SchemaVersion approval != ApprovalSchemaVersion) ||
     (ap_OperationID approval != pn_OperationID plan) ||
     (ap_PlanSHA256 approval != PlanSHA256 plan) ||
     (ap_ApprovalScopeSHA256 approval != ApprovalScopeSHA256 plan) ||
     (ap_AdapterExecutableSHA256 approval != ei_ExecutableSHA256 (pn_Adapter plan)) ||
     (ap_IssuedAt approval != pn_IssuedAt plan) || (ap_ExpiresAt approval != pn_ExpiresAt plan) ||
     (ap_PreflightRequestSHA256 approval != rq_RequestSHA256 (preflightRequest plan)) ||
     negb (validSHA (ap_PreflightResponseSHA256 approval)) ||
     negb (validEvidence (ap_PreflightEvidenceRef approval) (ap_PreflightEvidenceSHA256 approval)) ||
     (ap_PreflightBindingSHA256 approval !=
        PreflightBindingSHA256 plan (ap_PreflightResponseSHA256 approval)
          (ap_PreflightEvidenceRef approval) (ap_PreflightEvidenceSHA256 approval)) ||
     (ap_ApprovalTuple approval != ApprovalTuple plan (ap_PreflightBindingSHA256 approval)) ||
     (ap_ReportSHA256 approval != ApprovalReportSHA256 approval)
  then Some (errors_New "backup drill approval binding is invalid")
  else None
  end.

(** [now] is neither before the issue nor at or after the expiry. *)
Definition within (issuedAt expiresAt : string) (now : Time) : bool :=
  match canonicalTime issuedAt, canonicalTime expiresAt with
  | Some issued, Some expires => negb (Before now issued) && Before now expires
  | _, _ => false
  end.

Definition ValidateApproval (plan : Plan) (approval : ApprovalReport) (now : Time) : option goerror :=
  match validateApprovalBinding plan approval with
  | Some err => Some err
  | None =>
      if negb (within (ap_IssuedAt approval) (ap_ExpiresAt approval) now)
      then Some (errors_New "backup drill approval is stale") else None
  end.

(** ** Responses *)

Definition validateAdapterResponseBinding (request : AdapterRequest) (response : AdapterResponse)
    : option goerror :=
  if (rq_RequestSHA256 request != AdapterRequestSHA256 request) ||
     (rs_SchemaVersion response != AdapterResponseVersion) ||
     (rs_ProtocolVersion response != AdapterProtocolVersion) ||
     (rs_OperationID response != rq_OperationID request) || (rs_Step response != rq_Step request) ||
     (rs_RequestSHA256 response != rq_RequestSHA256 request) ||
     (rs_AdapterExecutableSHA256 response != rq_AdapterExecutableSHA256 request) ||
     negb (validEvidence (ev_Ref (rs_Evidence response)) (ev_SHA256 (rs_Evidence response))) ||
     (rs_ResponseSHA256 response != AdapterResponseSHA256 response)
  then Some (errors_New "backup drill adapter response binding is invalid")
  else None.

Definition mutation_steps : list string := [
  "etcd-offcell-complete"; "velero-backup-complete"; "restore-watch-create-observe-complete";
  "etcd-sandbox-restored"; "restore-validation-complete"; "isolated-targets-deleted"].

Definition observation_bound (mapping : IsolatedNamespace) (observation : RestoreObservation) : bool :=
  (ro_RestoreName observation == ns_RestoreName mapping) &&
  (ro_RestoreScopeSHA256 observation == ns_RestoreScopeSHA256 mapping) &&
  (ro_SourceNamespace observation == ns_SourceNamespace mapping) &&
  (ro_DestinationNamespace observation == oi_Name (ns_Destination mapping)) &&
  (ro_DestinationScopeSHA256 observation == oi_ScopeSHA256 (ns_Destination mapping)) &&
  validEvidence (ro_EvidenceRef observation) (ro_EvidenceSHA256 observation).

Definition ValidateAdapterResponse (request : AdapterRequest) (response : AdapterResponse)
    : option goerror :=
  match validateAdapterResponseBinding request response with
  | Some err => Some err
  | None =>
  if rq_Mode request == "preflight" then
    if (rq_Step request != "preflight") || (rs_Status response != "ready") || rs_Mutated response
    then Some (errors_New "backup drill preflight attempted or reported mutation") else None
  else if rq_Mode request == "apply" then
    let mutationStep := string_in mutation_steps (rq_Step request) in
    if (rs_Status response != "completed") || negb (Bool.eqb (rs_Mutated response) mutationStep)
    then Some (errors_New "backup drill apply step is not complete")
    else if rq_Step request == "restore-watch-create-observe-complete" then
      let mappings := pn_IsolatedNamespaces (rq_Plan request) in
      if negb (length (rs_RestoreObservations response) =? length mappings)%nat
      then Some (errors_New "backup drill combined restore observation evidence is incomplete")
      else if negb (forallb (fun mo => observation_bound mo.1 mo.2)
                      (zip mappings (rs_RestoreObservations response)))
      then Some (errors_New "backup drill combined restore observation evidence is not plan-bound")
      else None
    else if negb (length (rs_RestoreObservations response) =? 0)%nat
    then Some (errors_New "backup drill restore observation evidence appeared in the wrong phase")
    else None
  else if rq_Mode request == "rollback" then
    if rq_Step request == "rollback-safe-stop" then
      if (rs_Status response != "safe-stopped") || rs_Mutated response
      then Some (errors_New "backup drill rollback did not safe-stop") else None
    else if (rs_Status response != "completed") || negb (rs_Mutated response)
    then Some (errors_New "backup drill rollback cleanup failed") else None
  else Some (errors_New "backup drill adapter mode is invalid")
  end.

Definition target_proved (plan : Plan) (index : nat) (kind : string) (target : TargetResult) : bool :=
  match pn_SourceBaselines plan !! index with
  | None => false
  | Some baseline =>
      (tr_Kind target == kind) && (tr_SourceChecksumSHA256 target == bl_DataSHA256 baseline) &&
      (tr_SourceChecksumSHA256 target == tr_RestoredChecksumSHA256 target) &&
      validEvidence (tr_EvidenceRef target) (tr_EvidenceSHA256 target)
  end.

(** The loop over the targets, in the order of [TargetKinds]. *)
Fixpoint targets_proved (plan : Plan) (index : nat) (kinds : list string) (targets : list TargetResult)
    : bool :=
  match kinds, targets with
  | kind :: kinds, target :: targets =>
      target_proved plan index kind target && targets_proved plan (S index) kinds targets
  | _, _ => true
  end.

Definition validateProofResponse (plan : Plan) (response : AdapterResponse) : option goerror :=
  match rs_IsolationEvidence response, rs_CleanupEvidence response with
  | Some isolation, Some cleanup =>
      if (rs_Step response != "proof-assembled") ||
         negb (length (rs_Targets response) =? length TargetKinds)%nat ||
         negb (validEvidence (ev_Ref isolation) (ev_SHA256 isolation)) ||
         negb (validEvidence (ev_Ref cleanup) (ev_SHA256 cleanup)) ||
         negb (validSHA (rs_ObjectLockDeleteDenialReceiptSHA256 response)) ||
         negb (validSHA (rs_AggregateProofArtifactSHA256 response)) ||
         (rs_AggregateProofPathToken response != pn_AggregateProofPathToken plan)
      then Some (errors_New "backup drill proof response is incomplete")
      else if negb (targets_proved plan 0 TargetKinds (rs_Targets response))
      then Some (errors_New "backup drill proof response target is invalid")
      else None
  | _, _ => Some (errors_New "backup drill proof response is incomplete")
  end.
