(* ===== verification/DrillJournal.v ===== *)
(** * The drill's journal

    The entries of pkg/backup/drill/journal.go: their validation, the order of
    steps, the text of a journal, and the binding of a journal to a plan and an
    approval and the receipt of a completed one (pkg/backup/drill/engine.go,
    validate.go).  The file operations are in DrillFiles. *)

From stdpp Require Import gmap strings list.
From Stdlib Require Import ZArith Ascii Lia.
From S2P Require Import Prelude GoString GoTime GoSha256 GoJson StrictJson GoRfc3339 DrillTypes DrillValidate.

#[local] Open Scope Z_scope.

#[export] Instance Evidence_eq_dec : EqDecision Evidence.
Proof. solve_decision. Defined.
#[export] Instance TargetResult_eq_dec : EqDecision TargetResult.
Proof. solve_decision. Defined.

Definition maxJournalBytes : Z := 2097152.
Definition maxEntryBytes : Z := 131072.

(** ** One entry *)

Definition entry_valid (entry : JournalEntry) : bool :=
  (je_SchemaVersion entry == JournalEntryVersion) && (1 <=? je_Sequence entry) &&
  validID (je_OperationID entry) && validSHA (je_PlanSHA256 entry) &&
  validSHA (je_ApprovalSHA256 entry) && validSHA (je_ApprovalScopeSHA256 entry) &&
  validSHA (je_AdapterExecutableSHA256 entry) && validID (je_Step entry) &&
  validSHA (je_RequestSHA256 entry) && validSHA (je_ResponseSHA256 entry) &&
  (je_EntrySHA256 entry == JournalEntrySHA256 entry).

Definition response_bound (entry : JournalEntry) : bool :=
  match je_Response entry with
  | None => true
  | Some response =>
      (rs_ResponseSHA256 response == je_ResponseSHA256 entry) &&
      (rs_ResponseSHA256 response == AdapterResponseSHA256 response)
  end.

Definition entry_follows (entry previous : JournalEntry) : bool :=
  match canonicalTime (je_RecordedAt previous), canonicalTime (je_RecordedAt entry) with
  | Some previousTime, Some entryTime =>
      negb (Before entryTime previousTime) &&
      (je_Sequence entry =? int64_wrap (je_Sequence previous + 1)) &&
      (je_PreviousEntrySHA256 entry == je_EntrySHA256 previous) &&
      (je_OperationID entry == je_OperationID previous) &&
      (je_PlanSHA256 entry == je_PlanSHA256 previous) &&
      (je_ApprovalSHA256 entry == je_ApprovalSHA256 previous) &&
      (je_ApprovalScopeSHA256 entry == je_ApprovalScopeSHA256 previous) &&
      (je_AdapterExecutableSHA256 entry == je_AdapterExecutableSHA256 previous)
  | _, _ => false
  end.

Definition validateJournalEntry (entry : JournalEntry) (previous : option JournalEntry)
    : option goerror :=
  if negb (entry_valid entry) then Some (errors_New "backup drill journal entry is invalid")
  else if negb (response_bound entry)
  then Some (errors_New "backup drill journal response is not hash-bound")
  else match canonicalTime (je_RecordedAt entry) with
  | None => Some (errors_New "backup drill journal entry time is invalid")
  | Some _ =>
  match previous with
  | None =>
      if negb (je_Sequence entry =? 1) || (je_PreviousEntrySHA256 entry != "")
      then Some (errors_New "backup drill journal does not start at sequence one") else None
  | Some previous =>
      if negb (entry_follows entry previous)
      then Some (errors_New "backup drill journal entry changed transaction binding") else None
  end end.

(** ** The order of the steps *)

Definition terminal_step (step : string) : bool :=
  string_in ["rolled-back"; "rollback-failed"; "completed"] step.

Definition validTransition (entries : list JournalEntry) (next : string) : bool :=
  match last entries with
  | None => next == "approval-consumed"
  | Some entry =>
      let last := je_Step entry in
      if existsb (fun entry => je_Step entry == next) entries then false
      else if terminal_step last then false
      else if last == "rollback-safe-stop"
      then (next == "rollback-cleanup-requested") || (next == "rollback-failed")
      else if last == "rollback-cleanup-requested"
      then (next == "rolled-back") || (next == "rollback-failed")
      else if string_in ["rolled-back"; "rollback-failed"] next then false
      else if next == "rollback-safe-stop" then true
      else match ApplySteps !! length entries with
           | Some step => next == step
           | None => false
           end
  end.

Definition chain_error : goerror := errors_New "backup drill journal chain is invalid".
Definition count_error : goerror := errors_New "backup drill journal entry count is invalid".

(** The entries in order, each after those before it. *)
Fixpoint check_chain (validated entries : list JournalEntry) : option goerror :=
  match entries with
  | [] => None
  | entry :: rest =>
      if negb (is_nil (validateJournalEntry entry (last validated))) ||
         negb (validTransition validated (je_Step entry))
      then Some chain_error
      else check_chain (validated ++ [entry]) rest
  end.

Definition validateJournalEntries (entries : list JournalEntry) : option goerror :=
  if (length entries =? 0)%nat || (32 <? length entries)%nat then Some count_error
  else check_chain [] entries.

(** ** The text of a journal *)


(** [bytes.Split] at newlines: one more part than there are newlines. *)
Fixpoint split_lines (s : string) : list string :=
  match s with
  | EmptyString => [""]
  | String c r =>
      if Ascii.eqb c newline then "" :: split_lines r
      else match split_lines r with
           | line :: rest => String c line :: rest
           | [] => [String c ""]
           end
  end.

Fixpoint decode_lines (entries : list JournalEntry) (lines : list string)
    : result (list JournalEntry) :=
  match lines with
  | [] => Ok entries
  | line :: rest =>
      match DecodeExact line with
      | Err _ => Err (errors_New "backup drill journal contains invalid JSON")
      | Ok entry =>
          if negb (is_nil (validateJournalEntry entry (last entries))) ||
             negb (validTransition entries (je_Step entry))
          then Err chain_error
          else decode_lines (entries ++ [entry]) rest
      end
  end.

(** [payload] without the newline at its end. *)
Definition decodeJournal (payload : string) : result (list JournalEntry) :=
  let lines := split_lines (take_chars (len payload - 1) payload) in
  if (length lines =? 0)%nat || (32 <? length lines)%nat then Err count_error
  else decode_lines [] lines.

(** The line that is written for an entry. *)
Definition entry_line (entry : JournalEntry) : string :=
  json_Marshal entry +:+ String newline "".

Definition newJournalEntry (now : Time) (sequence : nat) (plan : Plan) (approval : ApprovalReport)
    (step requestSHA responseSHA previous : string) (response : option AdapterResponse)
    : JournalEntry :=
  let entry := {|
    je_SchemaVersion := JournalEntryVersion; je_Sequence := Z.of_nat sequence;
    je_OperationID := pn_OperationID plan; je_PlanSHA256 := PlanSHA256 plan;
    je_ApprovalSHA256 := ApprovalSHA256 approval;
    je_ApprovalScopeSHA256 := ApprovalScopeSHA256 plan;
    je_AdapterExecutableSHA256 := ei_ExecutableSHA256 (pn_Adapter plan);
    je_Step := step; je_RequestSHA256 := requestSHA; je_ResponseSHA256 := responseSHA;
    je_Response := response; je_PreviousEntrySHA256 := previous;
    je_RecordedAt := Format_RFC3339Nano now; je_EntrySHA256 := "" |} in
  JournalEntry_with_EntrySHA256 entry (JournalEntrySHA256 entry).

(** ** The digests of the steps no adapter takes *)

Definition approvalConsumedDigests (plan : Plan) (approval : ApprovalReport) : string * string :=
  (digest_fields [field "operationId" (pn_OperationID plan);
                  field "tuple" (ap_ApprovalTuple approval)],
   ap_PreflightResponseSHA256 approval).

Definition mutationStartedDigests (plan : Plan) (previous : string) : string * string :=
  (digest_fields [field "Step" "mutation-started"; field "Previous" previous],
   digest_fields [field "Status" "mutation-authorized"; field "Scope" (ApprovalScopeSHA256 plan)]).

Definition completedDigests (proofResponseSHA256 : string) : string * string :=
  (digest_fields [field "Step" "completed"; field "Proof" proofResponseSHA256], proofResponseSHA256).

Definition rollbackTerminalDigests (step previous adapterResponseSHA256 : string) : string * string :=
  (digest_fields [field "Step" step; field "Previous" previous],
   digest_fields [field "Status" step; field "AdapterResponse" adapterResponseSHA256]).

Definition adapterFailureSHA256 (reason : string) : string :=
  digest_fields [field "failure" reason].

(** ** The binding of a journal to its plan and approval *)

Definition rollbackStarted (entries : list JournalEntry) : bool :=
  existsb (fun entry => HasPrefix (je_Step entry) "rollback-" || (je_Step entry == "rolled-back"))
    entries.

Definition transaction_bound (plan : Plan) (approval : ApprovalReport) (entry : JournalEntry) : bool :=
  (je_OperationID entry == pn_OperationID plan) && (je_PlanSHA256 entry == PlanSHA256 plan) &&
  (je_ApprovalSHA256 entry == ApprovalSHA256 approval) &&
  (je_ApprovalScopeSHA256 entry == ApprovalScopeSHA256 plan) &&
  (je_AdapterExecutableSHA256 entry == ei_ExecutableSHA256 (pn_Adapter plan)).

(** An entry without a response that carries the given digests. *)
Definition derived (entry : JournalEntry) (digests : string * string) : bool :=
  is_nil (je_Response entry) && (je_RequestSHA256 entry == digests.1) &&
  (je_ResponseSHA256 entry == digests.2).

Definition step_request (plan : Plan) (approval : ApprovalReport) (step previous : string)
    : AdapterRequest :=
  if HasPrefix step "rollback-" then newRollbackRequest plan approval step previous
  else newAdapterRequest plan approval "apply" step previous.

Definition expectedFailure (step : string) : string :=
  if step == "rollback-safe-stop" then adapterFailureSHA256 "safe-stop-failed"
  else if step == "rollback-cleanup-requested" then adapterFailureSHA256 "adapter-execution-failed"
  else "".

(** An entry of an adapter step, given whether a failed answer is in order. *)
Definition check_adapter_entry (request : AdapterRequest) (failureAllowed : bool)
    (entry : JournalEntry) : option goerror :=
  if je_RequestSHA256 entry != rq_RequestSHA256 request
  then Some (errors_New "backup drill journal adapter response is stale or conflicting")
  else match je_Response entry with
  | None =>
      if negb failureAllowed || (je_ResponseSHA256 entry != expectedFailure (je_Step entry))
      then Some (errors_New "backup drill journal adapter failure is not exact") else None
  | Some response =>
      if je_ResponseSHA256 entry != rs_ResponseSHA256 response
      then Some (errors_New "backup drill journal adapter response digest conflicts")
      else if negb (is_nil (validateAdapterResponseBinding request response))
      then Some (errors_New "backup drill journal adapter response binding is invalid")
      else if negb (is_nil (ValidateAdapterResponse request response)) && negb failureAllowed
      then Some (errors_New "backup drill journal adapter response is invalid")
      else None
  end.

(** The entry at [index], with those around it. *)
Definition check_bound_entry (plan : Plan) (approval : ApprovalReport)
    (entries : list JournalEntry) (index : nat) (entry : JournalEntry) : option goerror :=
  let previous := match index with O => None | S n => entries !! n end in
  let next := entries !! S index in
  if negb (transaction_bound plan approval entry)
  then Some (errors_New "backup drill journal transaction binding changed")
  else if je_Step entry == "approval-consumed" then
    if negb (index =? 0)%nat || negb (derived entry (approvalConsumedDigests plan approval))
    then Some (errors_New "backup drill approval-consumed journal derivation is invalid") else None
  else if je_Step entry == "mutation-started" then
    if negb (index =? 1)%nat
    then Some (errors_New "backup drill mutation-started journal position is invalid")
    else match previous with
    | None => Some (errors_New "backup drill mutation-started journal position is invalid")
    | Some previous =>
        if negb (derived entry (mutationStartedDigests plan (je_EntrySHA256 previous)))
        then Some (errors_New "backup drill mutation-started journal derivation is invalid") else None
    end
  else if je_Step entry == "completed" then
    match previous with
    | None => Some (errors_New "backup drill completed journal predecessor is invalid")
    | Some previous =>
        if (je_Step previous != "proof-assembled") || is_nil (je_Response previous)
        then Some (errors_New "backup drill completed journal predecessor is invalid")
        else if negb (derived entry (completedDigests (je_ResponseSHA256 previous)))
        then Some (errors_New "backup drill completed journal derivation is invalid") else None
    end
  else if (je_Step entry == "rolled-back") || (je_Step entry == "rollback-failed") then
    match previous with
    | None => Some (errors_New "backup drill rollback terminal predecessor is absent")
    | Some previous =>
        if negb (derived entry (rollbackTerminalDigests (je_Step entry) (je_EntrySHA256 previous)
                                  (je_ResponseSHA256 previous)))
        then Some (errors_New "backup drill rollback terminal derivation is invalid") else None
    end
  else match previous with
  | None => Some (errors_New "backup drill journal begins with an adapter step")
  | Some previous =>
      let failedTerminal :=
        match next with Some entry => je_Step entry == "rollback-failed" | None => false end in
      let incompleteRollbackFailure := is_nil next && HasPrefix (je_Step entry) "rollback-" in
      check_adapter_entry (step_request plan approval (je_Step entry) (je_EntrySHA256 previous))
        (failedTerminal || incompleteRollbackFailure) entry
  end.

Fixpoint check_bound (plan : Plan) (approval : ApprovalReport) (entries : list JournalEntry)
    (index : nat) (rest : list JournalEntry) : option goerror :=
  match rest with
  | [] => None
  | entry :: rest =>
      match check_bound_entry plan approval entries index entry with
      | Some err => Some err
      | None => check_bound plan approval entries (S index) rest
      end
  end.

Definition verifyJournalBinding (plan : Plan) (approval : ApprovalReport)
    (entries : list JournalEntry) : option goerror :=
  match validateJournalEntries entries with
  | Some err => Some err
  | None => check_bound plan approval entries 0 entries
  end.

Definition rollbackResponseSucceeded (plan : Plan) (approval : ApprovalReport)
    (entries : list JournalEntry) (index : nat) : bool :=
  match index with
  | O => false
  | S before =>
      match entries !! index, entries !! before with
      | Some entry, Some previous =>
          match je_Response entry with
          | Some response =>
              if (je_Step entry != "rollback-safe-stop") &&
                 (je_Step entry != "rollback-cleanup-requested")
              then false
              else
                let request := newRollbackRequest plan approval (je_Step entry)
                                 (je_EntrySHA256 previous) in
                (je_RequestSHA256 entry == rq_RequestSHA256 request) &&
                is_nil (ValidateAdapterResponse request response)
          | None => false
          end
      | _, _ => false
      end
  end.
