(* ===== verification/DrillFiles.v ===== *)
(** * Files, locks and the adapter

    The calls the drill makes of the system, what they may answer, and the
    operations on the journal file built from them: [WriteNew] of
    internal/privateartifact/privateartifact.go, [CreateJournal] and the journal
    transactions of pkg/backup/drill/journal.go, and [invoke] of
    pkg/backup/drill/adapter.go.

    A file is known by its number; a name refers to at most one file.  A write
    that fails, or during which the process dies, leaves any part of its bytes;
    a lock is held by at most one process and is released when it dies. *)

From stdpp Require Import gmap strings list.
From Stdlib Require Import ZArith Ascii Lia.
From S2P Require Import Prelude GoString GoPath GoTime GoSha256 GoJson StrictJson GoRfc3339 Programs DrillTypes DrillValidate DrillJournal.

#[local] Open Scope Z_scope.

(** ** Calls *)

Inductive sys : Type -> Type :=
  | Clock : sys Time
  (** a call that looks at or prepares something nothing else here depends on *)
  | Probe : sys bool
  (** nothing has the name *)
  | Absent (path : string) : sys bool
  (** gives a finished file of these bytes a name that was free *)
  | Link (path data : string) : sys bool
  | Unlink (path : string) : sys unit
  (** the file that has the name, if it can be opened *)
  | Lookup (path : string) : sys (option nat)
  | Flock (file : nat) : sys bool
  (** the name still refers to the open file *)
  | SameFile (path : string) (file : nat) : sys bool
  | Size (file : nat) : sys (option Z)
  | ReadAll (file : nat) : sys (option string)
  | WriteAt (file : nat) (offset : Z) (data : string) : sys bool
  | Unlock (file : nat) : sys unit
  (** the adapter's output and error output for a request *)
  | Run (request : AdapterRequest) : sys (option (string * string)).

Abbreviation P := (prog sys).

(** ** Worlds *)

Record world := {
  w_names : gmap string nat;
  w_files : list string;
  w_locks : gmap nat nat
}.

Definition with_file (w : world) (file : nat) (data : string) : world :=
  {| w_names := w_names w; w_files := <[file := data]> (w_files w); w_locks := w_locks w |}.

(** Bytes written over a text, from an offset on. *)
Definition write_at (text : string) (offset : Z) (data : string) : string :=
  take_chars (Z.to_nat offset) text +:+ data +:+ drop_chars (Z.to_nat offset + len data) text.

Definition wrote (w : world) (file : nat) (offset : Z) (data : string) : world :=
  match w_files w !! file with
  | Some text => with_file w file (write_at text offset data)
  | None => w
  end.

Section Names.
Context (cwd : string).

(** [filepath.Abs] *)
Definition filepath_Abs (path : string) : string :=
  if path_IsAbs path then path_Clean path else path_Clean (cwd +:+ "/" +:+ path).

Definition named (w : world) (path : string) : option nat := w_names w !! filepath_Abs path.

Definition perform (i : nat) (X : Type) (e : sys X) (w : world) : X -> world -> Prop :=
  match e in sys X return X -> world -> Prop with
  | Clock | Probe | Run _ => fun _ w' => w' = w
  | Absent path => fun absent w' => w' = w /\ (absent = true -> named w path = None)
  | Link path data => fun linked w' =>
      if linked : bool then
        named w path = None /\
        w' = {| w_names := <[filepath_Abs path := length (w_files w)]> (w_names w);
                w_files := w_files w ++ [data]; w_locks := w_locks w |}
      else w' = w
  | Unlink path => fun _ w' =>
      w' = w \/
      w' = {| w_names := delete (filepath_Abs path) (w_names w);
              w_files := w_files w; w_locks := w_locks w |}
  | Lookup path => fun found w' => w' = w /\ forall file, found = Some file -> named w path = Some file
  | Flock file => fun locked w' =>
      if locked : bool then
        w_locks w !! file = None /\
        w' = {| w_names := w_names w; w_files := w_files w;
                w_locks := <[file := i]> (w_locks w) |}
      else w' = w
  | SameFile path file => fun same w' => w' = w /\ (same = true -> named w path = Some file)
  | Size file => fun size w' => w' = w /\ forall n, size = Some n ->
      exists text, w_files w !! file = Some text /\ n = Z.of_nat (len text)
  | ReadAll file => fun data w' => w' = w /\ forall text, data = Some text -> w_files w !! file = Some text
  | WriteAt file offset data => fun written w' =>
      exists part, w' = wrote w file offset part /\
        (if written : bool then part = data else HasPrefix data part = true)
  | Unlock file => fun _ w' =>
      w' = {| w_names := w_names w; w_files := w_files w;
              w_locks := match w_locks w !! file with
                         | Some holder => if decide (holder = i) then delete file (w_locks w) else w_locks w
                         | None => w_locks w
                         end |}
  end.
End Names.

(** A process that dies leaves its locks. *)
Definition killed (i : nat) (w : world) : world :=
  {| w_names := w_names w; w_files := w_files w;
     w_locks := filter (fun lock => lock.2 <> i) (w_locks w) |}.

(** ** internal/privateartifact *)

(** A step that fails with an error when the system does. *)
Definition need {A} (message : string) (k : P (result A)) : P (result A) :=
  ok ← call Probe;
  if ok : bool then k else Ret (Err (errors_New message)).

Definition WriteNew (path data : string) : P (result unit) :=
  let clean := path_Clean path in
  if (clean == ".") || (clean == "/")
  then Ret (Err (errors_New "private artifact path is invalid")) else
  need "private artifact directory is not a trusted directory" (
  need "open private artifact directory" (
  need "private artifact directory changed while opening" (
  absent ← call (Absent clean);
  if negb absent then Ret (Err (errors_New "private artifact destination already exists")) else
  need "generate private artifact temporary name" (
  need "create private artifact temporary file" (
  need "write private artifact" (
  need "sync private artifact" (
  need "close private artifact" (
  linked ← call (Link clean data);
  if negb linked then Ret (Err (errors_New "publish private artifact without overwrite")) else
  removed ← call Probe;
  if negb removed then
    _ ← call (Unlink clean); Ret (Err (errors_New "remove private artifact temporary link"))
  else
  synced ← call Probe;
  if negb synced then
    _ ← call (Unlink clean); Ret (Err (errors_New "sync private artifact directory"))
  else Ret (Ok tt))))))))).

(** ** Journal transactions *)

Record journalTransaction := { jt_path : string; jt_file : nat }.

Section Journal.
Context (cwd : string).

Definition CreateJournal (path : string) (entry : JournalEntry) : P (result unit) :=
  if negb (je_Sequence entry =? 1) || (je_Step entry != "approval-consumed") ||
     (je_PreviousEntrySHA256 entry != "")
  then Ret (Err (errors_New "backup drill initial journal entry is invalid"))
  else match validateJournalEntry entry None with
  | Some err => Ret (Err err)
  | None => WriteNew path (entry_line entry)
  end.

(** [openJournalRoot]: the clean path and the file that was selected. *)
Definition openJournalRoot (path : string) : P (result (string * nat)) :=
  let clean := filepath_Abs cwd (path_Clean path) in
  if clean == "/" then Ret (Err (errors_New "backup drill journal path is invalid")) else
  selected ← call (Lookup clean);
  match selected with
  | None => Ret (Err (errors_New "backup drill journal is not an exact owner-only regular file"))
  | Some selected =>
      need "open backup drill journal directory" (Ret (Ok (clean, selected)))
  end.

Definition openJournalTransaction (path : string) : P (result journalTransaction) :=
  root ← openJournalRoot path;
  match root with
  | Err err => Ret (Err err)
  | Ok (clean, selected) =>
  opened ← call (Lookup clean);
  match opened with
  | None => Ret (Err (errors_New "open backup drill journal transaction"))
  | Some file =>
  if negb (selected =? file)%nat
  then Ret (Err (errors_New "backup drill journal transaction inode is invalid")) else
  locked ← call (Flock file);
  if negb locked then Ret (Err (errors_New "lock backup drill journal transaction")) else
  same ← call (SameFile clean file);
  if negb same then
    _ ← call (Unlock file);
    Ret (Err (errors_New "backup drill journal changed while acquiring lock"))
  else Ret (Ok {| jt_path := clean; jt_file := file |})
  end end.

Definition load (t : journalTransaction) : P (result (list JournalEntry * Z)) :=
  let invalid := Ret (Err (errors_New "backup drill journal input is invalid")) in
  let changed := Ret (Err (errors_New "backup drill journal changed or is truncated")) in
  size ← call (Size (jt_file t));
  same ← call (SameFile (jt_path t) (jt_file t));
  match size with
  | None => invalid
  | Some size =>
  if negb same || (size <? 2) || (maxJournalBytes <? size) then invalid else
  need "seek backup drill journal" (
  payload ← call (ReadAll (jt_file t));
  same ← call (SameFile (jt_path t) (jt_file t));
  match payload with
  | None => changed
  | Some payload =>
  if negb same || negb (Z.of_nat (len payload) =? size) ||
     (maxJournalBytes <? Z.of_nat (len payload)) ||
     match String.get (len payload - 1) payload with
     | Some c => negb (Ascii.eqb c newline)
     | None => true
     end
  then changed
  else Ret (match decodeJournal payload with
            | Ok entries => Ok (entries, size)
            | Err err => Err err
            end)
  end)
  end.

Definition appendJournal (t : journalTransaction) (entry : JournalEntry) : P (result unit) :=
  loaded ← load t;
  match loaded with
  | Err _ => Ret (Err (errors_New "load backup drill journal before append"))
  | Ok (entries, loadedSize) =>
  match last entries with
  | None => Ret (Err (errors_New "load backup drill journal before append"))
  | Some previous =>
  if negb (is_nil (validateJournalEntry entry (Some previous))) ||
     negb (validTransition entries (je_Step entry))
  then Ret (Err (errors_New "backup drill journal append is not a valid transition")) else
  let payload := entry_line entry in
  let size := Z.of_nat (len payload) in
  if (maxEntryBytes <? size) || (maxJournalBytes <? loadedSize + size)
  then Ret (Err (errors_New "backup drill journal entry exceeds limit")) else
  opened ← call (Size (jt_file t));
  same ← call (SameFile (jt_path t) (jt_file t));
  if negb same || negb (bool_decide (opened = Some loadedSize))
  then Ret (Err (errors_New "backup drill journal changed before append")) else
  need "seek backup drill journal append" (
  written ← call (WriteAt (jt_file t) loadedSize payload);
  if negb written then Ret (Err (errors_New "append backup drill journal")) else
  need "sync backup drill journal" (
  opened ← call (Size (jt_file t));
  same ← call (SameFile (jt_path t) (jt_file t));
  if negb same || negb (bool_decide (opened = Some (loadedSize + size)))
  then Ret (Err (errors_New "backup drill journal changed after append")) else
  need "open backup drill journal directory" (
  need "sync backup drill journal directory" (Ret (Ok tt)))))
  end end.

Definition close (t : journalTransaction) : P unit := call (Unlock (jt_file t)).

(** [defer transaction.close()] *)
Definition closing {A} (t : journalTransaction) (body : P A) : P A :=
  a ← body; _ ← close t; Ret a.

Definition AppendJournal (path : string) (entry : JournalEntry) : P (result unit) :=
  opened ← openJournalTransaction path;
  match opened with
  | Err err => Ret (Err err)
  | Ok t => closing t (appendJournal t entry)
  end.

Definition LoadJournal (path : string) : P (result (list JournalEntry)) :=
  opened ← openJournalTransaction path;
  match opened with
  | Err err => Ret (Err err)
  | Ok t => closing t (
      loaded ← load t;
      Ret (match loaded with
           | Err err => Err err
           | Ok (entries, _) => Ok entries
           end))
  end.
End Journal.

(** ** The adapter *)

(** The identity of the pinned executable and the environment, name=value. *)
Record Adapter := { ad_IdentitySHA256 : string; ad_environment : list string }.

(** [bytes.ToLower], as far as the result is ASCII: besides the capital letters
    the characters U+0130 and U+212A become ASCII letters. *)
Fixpoint ToLower (s : string) : string :=
  match s with
  | EmptyString => EmptyString
  | String a r =>
      let kept := String (if is_upper a then ascii_of_nat (code a + 32) else a) (ToLower r) in
      match r with
      | String b r' =>
          if is_char 196 a && is_char 176 b then String "i" (ToLower r')
          else match r' with
               | String c r'' =>
                   if is_char 226 a && is_char 132 b && is_char 170 c
                   then String "k" (ToLower r'') else kept
               | EmptyString => kept
               end
      | EmptyString => kept
      end
  end.

Definition quoted (word : string) : string := String quote (word +:+ String quote "").

Definition forbidden_material : list string := [
  quoted "password"; quoted "token"; quoted "secret"; quoted "authorization"; quoted "cookie";
  "-----begin private key-----"; "-----begin rsa private key-----"].

Definition containsSecretLookingMaterial (value : string) : bool :=
  existsb (Contains (ToLower value)) forbidden_material.

(** The part of an entry after its first equals sign. *)
Fixpoint after_equals (s : string) : string :=
  match s with
  | EmptyString => EmptyString
  | String c r => if Ascii.eqb c "=" then r else after_equals r
  end.

Definition containsEnvironmentValue (adapter : Adapter) (output : string) : bool :=
  existsb (fun entry =>
    let value := after_equals entry in
    Contains output value || Contains output (escape value)) (ad_environment adapter).

Definition zero_AdapterResponse : AdapterResponse := {|
  rs_SchemaVersion := ""; rs_ProtocolVersion := ""; rs_OperationID := ""; rs_Step := "";
  rs_RequestSHA256 := ""; rs_AdapterExecutableSHA256 := ""; rs_Status := "";
  rs_Mutated := false; rs_Evidence := {| ev_Ref := ""; ev_SHA256 := "" |};
  rs_RestoreObservations := []; rs_Targets := []; rs_IsolationEvidence := None;
  rs_CleanupEvidence := None; rs_ObjectLockDeleteDenialReceiptSHA256 := "";
  rs_AggregateProofArtifactSHA256 := ""; rs_AggregateProofPathToken := "";
  rs_ResponseSHA256 := "" |}.

(** What the output of a run stands for. *)
Definition read_response (adapter : Adapter) (request : AdapterRequest) (stdout stderr : string)
    : AdapterResponse * option goerror :=
  let forbidden :=
    (zero_AdapterResponse,
     Some (errors_New "backup drill adapter emitted forbidden credential-like material")) in
  if containsEnvironmentValue adapter stdout || containsEnvironmentValue adapter stderr ||
     containsSecretLookingMaterial stdout || containsSecretLookingMaterial stderr
  then forbidden
  else match DecodeExact stdout with
  | Err _ => (zero_AdapterResponse, Some (errors_New "backup drill adapter response is invalid JSON"))
  | Ok response =>
      if containsEnvironmentValue adapter (json_Marshal response) then forbidden
      else (response, ValidateAdapterResponse request response)
  end.

Definition invoke (adapter : Adapter) (request : AdapterRequest)
    : P (AdapterResponse * option goerror) :=
  if (ad_IdentitySHA256 adapter != rq_AdapterExecutableSHA256 request) ||
     (rq_RequestSHA256 request != AdapterRequestSHA256 request)
  then Ret (zero_AdapterResponse, Some (errors_New "backup drill adapter request identity is invalid"))
  else
  output ← call (Run request);
  Ret (match output with
       | None => (zero_AdapterResponse, Some (errors_New "backup drill adapter execution failed"))
       | Some (stdout, stderr) => read_response adapter request stdout stderr
       end).
