(* ===== verification/DrillEngine.v ===== *)
(** * The drill's transaction

    [Preflight], [Apply], [Recover] and [Rollback] of pkg/backup/drill/engine.go,
    and [ValidateReceipt] of pkg/backup/drill/validate.go. *)

From stdpp Require Import gmap strings list.
From Stdlib Require Import ZArith Ascii Lia.
From S2P Require Import Prelude GoString GoPath GoTime GoSha256 GoJson StrictJson GoRfc3339 Programs DrillTypes DrillValidate DrillJournal DrillFiles.

#[local] Open Scope Z_scope.

(** ** Receipts *)

Definition receipt_of (plan : Plan) (approval : ApprovalReport) (completed : JournalEntry)
    (proof : AdapterResponse) (isolation cleanup : Evidence) : ExecutionReceipt :=
  let receipt := {|
    er_SchemaVersion := ReceiptSchemaVersion; er_OperationID := pn_OperationID plan;
    er_ProofID := pn_ProofID plan; er_InstallationID := pn_InstallationID plan;
    er_PlanSHA256 := PlanSHA256 plan; er_ApprovalSHA256 := ApprovalSHA256 approval;
    er_ApprovalScopeSHA256 := ApprovalScopeSHA256 plan;
    er_AdapterExecutableSHA256 := ei_ExecutableSHA256 (pn_Adapter plan);
    er_Status := "completed"; er_CompletedAt := je_RecordedAt completed;
    er_JournalHeadSHA256 := je_EntrySHA256 completed;
    er_ExecutionEvidenceResponseSHA256 := rs_ResponseSHA256 proof; er_Targets := rs_Targets proof;
    er_IsolationEvidence := isolation; er_CleanupEvidence := cleanup;
    er_ObjectLockDeleteDenialReceiptSHA256 := rs_ObjectLockDeleteDenialReceiptSHA256 proof;
    er_AggregateProofArtifactSHA256 := rs_AggregateProofArtifactSHA256 proof;
    er_AggregateProofPathToken := rs_AggregateProofPathToken proof; er_ReceiptSHA256 := "" |} in
  ExecutionReceipt_with_ReceiptSHA256 receipt (ExecutionReceiptSHA256 receipt).

(** The proof entry and the last one of a journal. *)
Definition last_two (entries : list JournalEntry) : option (JournalEntry * JournalEntry) :=
  match entries !! (length entries - 2)%nat, last entries with
  | Some proofEntry, Some completed => Some (proofEntry, completed)
  | _, _ => None
  end.

Definition receipt_matches (plan : Plan) (approval : ApprovalReport) (receipt : ExecutionReceipt)
    (completed : JournalEntry) (proof : AdapterResponse) : bool :=
  (er_SchemaVersion receipt == ReceiptSchemaVersion) && (er_OperationID receipt == pn_OperationID plan) &&
  (er_ProofID receipt == pn_ProofID plan) && (er_InstallationID receipt == pn_InstallationID plan) &&
  (er_PlanSHA256 receipt == PlanSHA256 plan) && (er_ApprovalSHA256 receipt == ApprovalSHA256 approval) &&
  (er_ApprovalScopeSHA256 receipt == ApprovalScopeSHA256 plan) &&
  (er_AdapterExecutableSHA256 receipt == ei_ExecutableSHA256 (pn_Adapter plan)) &&
  (er_Status receipt == "completed") && (er_CompletedAt receipt == je_RecordedAt completed) &&
  (er_JournalHeadSHA256 receipt == je_EntrySHA256 completed) &&
  (er_ExecutionEvidenceResponseSHA256 receipt == rs_ResponseSHA256 proof) &&
  bool_decide (er_Targets receipt = rs_Targets proof) &&
  bool_decide (Some (er_IsolationEvidence receipt) = rs_IsolationEvidence proof) &&
  bool_decide (Some (er_CleanupEvidence receipt) = rs_CleanupEvidence proof) &&
  (er_ObjectLockDeleteDenialReceiptSHA256 receipt == rs_ObjectLockDeleteDenialReceiptSHA256 proof) &&
  (er_AggregateProofArtifactSHA256 receipt == rs_AggregateProofArtifactSHA256 proof) &&
  (er_AggregateProofPathToken receipt == rs_AggregateProofPathToken proof) &&
  (er_ReceiptSHA256 receipt == ExecutionReceiptSHA256 receipt).

Definition ValidateReceipt (plan : Plan) (approval : ApprovalReport) (receipt : ExecutionReceipt)
    (entries : list JournalEntry) : option goerror :=
  match ValidatePlan plan with
  | Some err => Some err
  | None =>
  match validateApprovalBinding plan approval with
  | Some err => Some err
  | None =>
  if negb (length entries =? length ApplySteps)%nat ||
     negb (is_nil (validateJournalEntries entries)) ||
     negb (is_nil (verifyJournalBinding plan approval entries))
  then Some (errors_New "backup drill receipt journal binding is invalid")
  else
  let invalid := Some (errors_New "backup drill receipt proof journal entries are invalid") in
  match last_two entries with
  | None => invalid
  | Some (proofEntry, completed) =>
  match je_Response proofEntry with
  | None => invalid
  | Some proof =>
  if (je_Step completed != "completed") || (je_Step proofEntry != "proof-assembled") ||
     negb (is_nil (validateProofResponse plan proof))
  then invalid
  else if negb (receipt_matches plan approval receipt completed proof)
  then Some (errors_New "backup drill execution receipt binding is invalid")
  else if is_nil (canonicalTime (er_CompletedAt receipt)) ||
          negb (length (er_Targets receipt) =? length TargetKinds)%nat
  then Some (errors_New "backup drill execution receipt time or targets are invalid")
  else if negb (targets_proved plan 0 TargetKinds (er_Targets receipt))
  then Some (errors_New "backup drill target proof is invalid or not canonical")
  else if negb (bool_decide (List.map je_Step entries = ApplySteps))
  then Some (errors_New "backup drill receipt journal phases are incomplete")
  else None
  end end end end.

(** ** Preflight *)

Definition preflight_report (plan : Plan) (request : AdapterRequest) (response : AdapterResponse)
    : ApprovalReport :=
  let evidence := rs_Evidence response in
  let binding := PreflightBindingSHA256 plan (rs_ResponseSHA256 response) (ev_Ref evidence)
                   (ev_SHA256 evidence) in
  let report := {|
    ap_SchemaVersion := ApprovalSchemaVersion; ap_OperationID := pn_OperationID plan;
    ap_PlanSHA256 := PlanSHA256 plan; ap_ApprovalScopeSHA256 := ApprovalScopeSHA256 plan;
    ap_AdapterExecutableSHA256 := ei_ExecutableSHA256 (pn_Adapter plan);
    ap_IssuedAt := pn_IssuedAt plan; ap_ExpiresAt := pn_ExpiresAt plan;
    ap_ApprovalTuple := ApprovalTuple plan binding;
    ap_PreflightRequestSHA256 := rq_RequestSHA256 request;
    ap_PreflightResponseSHA256 := rs_ResponseSHA256 response;
    ap_PreflightEvidenceRef := ev_Ref evidence; ap_PreflightEvidenceSHA256 := ev_SHA256 evidence;
    ap_PreflightBindingSHA256 := binding; ap_ReportSHA256 := "" |} in
  ApprovalReport_with_ReportSHA256 report (ApprovalReportSHA256 report).

Definition adapter_of (plan : Plan) (adapter : option Adapter) : option Adapter :=
  match adapter with
  | Some adapter =>
      if ad_IdentitySHA256 adapter != ei_ExecutableSHA256 (pn_Adapter plan) then None
      else Some adapter
  | None => None
  end.

Definition Preflight (plan : Plan) (adapter : option Adapter) (now : Time) : P (result ApprovalReport) :=
  match adapter_of plan adapter with
  | None => Ret (Err (errors_New "backup drill preflight input binding is invalid"))
  | Some adapter =>
  match ValidatePlan plan with
  | Some err => Ret (Err err)
  | None =>
  if negb (within (pn_IssuedAt plan) (pn_ExpiresAt plan) now)
  then Ret (Err (errors_New "backup drill preflight plan is not fresh"))
  else
  let request := preflightRequest plan in
  invoked ← invoke adapter request;
  Ret (match invoked with
       | (_, Some err) => Err err
       | (response, None) =>
           let report := preflight_report plan request response in
           match ValidateApproval plan report now with
           | Some err => Err err
           | None => Ok report
           end
       end)
  end end.

(** ** Apply and recover *)

Definition validateExecutionInput (plan : Plan) (approval : ApprovalReport) (confirmation : string)
    (adapter : option Adapter) (now : Time) (requireFresh : bool) : result Adapter :=
  match adapter_of plan adapter with
  | None => Err (errors_New "backup drill execution adapter binding is invalid")
  | Some adapter =>
      let approvalErr := if requireFresh then ValidateApproval plan approval now
                         else validateApprovalBinding plan approval in
      if negb (is_nil approvalErr) || (confirmation != ap_ApprovalTuple approval)
      then Err (errors_New "backup drill execution approval, confirmation, or adapter binding is invalid")
      else Ok adapter
  end.

Section Engine.
Context (plan : Plan) (approval : ApprovalReport).

(** An adapter step and its entry, or the step that starts the mutation. *)
Definition apply_step (adapter : Adapter) (t : journalTransaction) (entries : list JournalEntry)
    (step : string) (previous : JournalEntry) : P (result JournalEntry) :=
  let record now request response recorded :=
    newJournalEntry now (length entries + 1) plan approval step request response
      (je_EntrySHA256 previous) recorded in
  if step == "mutation-started" then
    let '(requestSHA, responseSHA) := mutationStartedDigests plan (je_EntrySHA256 previous) in
    now ← call Clock;
    let entry := record now requestSHA responseSHA None in
    appended ← appendJournal t entry;
    Ret (match appended with
         | Err _ => Err (errors_New "record backup drill mutation start")
         | Ok _ => Ok entry
         end)
  else
  let request := newAdapterRequest plan approval "apply" step (je_EntrySHA256 previous) in
  invoked ← invoke adapter request;
  match invoked with
  | (_, Some err) => Ret (Err err)
  | (response, None) =>
  match if step == "proof-assembled" then validateProofResponse plan response else None with
  | Some err => Ret (Err err)
  | None =>
  now ← call Clock;
  let entry := record now (rq_RequestSHA256 request) (rs_ResponseSHA256 response) (Some response) in
  appended ← appendJournal t entry;
  Ret (match appended with
       | Err _ => Err (errors_New "append backup drill execution journal")
       | Ok _ => Ok entry
       end)
  end end.

(** The loop over the steps that are left; [fuel] bounds their number. *)
Fixpoint apply_loop (fuel : nat) (adapter : Adapter) (t : journalTransaction)
    (entries : list JournalEntry) : P (result (list JournalEntry)) :=
  if (length entries <? length ApplySteps - 1)%nat then
    match fuel, ApplySteps !! length entries, last entries with
    | S fuel, Some step, Some previous =>
        entry ← apply_step adapter t entries step previous;
        match entry with
        | Err err => Ret (Err err)
        | Ok entry => apply_loop fuel adapter t (entries ++ [entry])
        end
    | _, _, _ => Ret (Err (errors_New "unreachable"))
    end
  else Ret (Ok entries).

(** The entry of the completed proof: the last one, or the one before it. *)
Definition proof_of (entries : list JournalEntry) : option AdapterResponse :=
  match last entries with
  | None => None
  | Some entry =>
      if je_Step entry == "completed"
      then match entries !! (length entries - 2)%nat with
           | Some proofEntry => je_Response proofEntry
           | None => None
           end
      else je_Response entry
  end.

Definition append_completed (t : journalTransaction) (entries : list JournalEntry)
    (proof : AdapterResponse) : P (result unit) :=
  if (length entries =? length ApplySteps - 1)%nat then
    match last entries with
    | None => Ret (Err (errors_New "unreachable"))
    | Some previous =>
        let '(requestSHA, responseSHA) := completedDigests (rs_ResponseSHA256 proof) in
        now ← call Clock;
        appended ← appendJournal t (newJournalEntry now (length entries + 1) plan approval
                     "completed" requestSHA responseSHA (je_EntrySHA256 previous) None);
        Ret (match appended with
             | Err _ => Err (errors_New "record backup drill completion")
             | Ok _ => Ok tt
             end)
    end
  else Ret (Ok tt).

Definition make_receipt (entries : list JournalEntry) : result ExecutionReceipt :=
  let invalid := Err (errors_New "reloaded backup drill proof response is invalid") in
  match last_two entries with
  | None => invalid
  | Some (proofEntry, completed) =>
  match je_Response proofEntry with
  | None => invalid
  | Some proof =>
  match validateProofResponse plan proof, rs_IsolationEvidence proof, rs_CleanupEvidence proof with
  | None, Some isolation, Some cleanup =>
      let receipt := receipt_of plan approval completed proof isolation cleanup in
      match ValidateReceipt plan approval receipt entries with
      | Some err => Err err
      | None => Ok receipt
      end
  | _, _, _ => invalid
  end end end.

Definition runApply (t : journalTransaction) (adapter : Adapter) : P (result ExecutionReceipt) :=
  let unrecoverable := Ret (Err (errors_New "backup drill journal is not recoverable")) in
  loaded ← load t;
  match loaded with
  | Err _ => unrecoverable
  | Ok (entries, _) =>
  if negb (is_nil (verifyJournalBinding plan approval entries)) then unrecoverable
  else if rollbackStarted entries
  then Ret (Err (errors_New "backup drill apply cannot resume after rollback begins"))
  else
  applied ← apply_loop (length ApplySteps) adapter t entries;
  match applied with
  | Err err => Ret (Err err)
  | Ok entries =>
  let absent := Ret (Err (errors_New "backup drill proof response is absent from journal")) in
  match proof_of entries with
  | None => absent
  | Some proof =>
  if negb (is_nil (validateProofResponse plan proof)) then absent else
  completed ← append_completed t entries proof;
  match completed with
  | Err err => Ret (Err err)
  | Ok _ =>
  reloaded ← load t;
  Ret (match reloaded with
       | Err _ => Err (errors_New "reload completed backup drill journal")
       | Ok (entries, _) =>
           if negb (is_nil (verifyJournalBinding plan approval entries)) ||
              negb (length entries =? length ApplySteps)%nat
           then Err (errors_New "reload completed backup drill journal")
           else make_receipt entries
       end)
  end end end end.

Context (cwd : string).

Definition Apply (confirmation journalPath : string) (adapter : option Adapter)
    : P (result ExecutionReceipt) :=
  now ← call Clock;
  match validateExecutionInput plan approval confirmation adapter now true with
  | Err err => Ret (Err err)
  | Ok adapter =>
  absent ← call (Absent journalPath);
  if negb absent
  then Ret (Err (errors_New "backup drill journal destination is unavailable")) else
  let '(firstRequest, firstResponse) := approvalConsumedDigests plan approval in
  now ← call Clock;
  created ← CreateJournal journalPath
    (newJournalEntry now 1 plan approval "approval-consumed" firstRequest firstResponse "" None);
  match created with
  | Err _ => Ret (Err (errors_New "create backup drill journal before mutation"))
  | Ok _ =>
  opened ← openJournalTransaction cwd journalPath;
  match opened with
  | Err err => Ret (Err err)
  | Ok t => closing t (runApply t adapter)
  end end end.

Definition Recover (confirmation journalPath : string) (adapter : option Adapter)
    : P (result ExecutionReceipt) :=
  now ← call Clock;
  match validateExecutionInput plan approval confirmation adapter now false with
  | Err err => Ret (Err err)
  | Ok adapter =>
  opened ← openJournalTransaction cwd journalPath;
  match opened with
  | Err err => Ret (Err err)
  | Ok t => closing t (
      loaded ← load t;
      let unavailable := Ret (Err (errors_New "backup drill recovery journal is unavailable")) in
      match loaded with
      | Err _ => unavailable
      | Ok ([], _) => unavailable
      | Ok (entries, _) =>
          match verifyJournalBinding plan approval entries with
          | Some err => Ret (Err err)
          | None =>
              if rollbackStarted entries
              then Ret (Err (errors_New "backup drill recovery rejects a rollback-started run"))
              else runApply t adapter
          end
      end)
  end end.

(** ** Rollback *)

Definition appendRollbackTerminal (t : journalTransaction) (entries : list JournalEntry)
    (step : string) : P (option goerror) :=
  match last entries with
  | None => Ret (Some (errors_New "unreachable"))
  | Some previous =>
      let '(requestSHA, responseSHA) :=
        rollbackTerminalDigests step (je_EntrySHA256 previous) (je_ResponseSHA256 previous) in
      now ← call Clock;
      appended ← appendJournal t (newJournalEntry now (length entries + 1) plan approval step
                   requestSHA responseSHA (je_EntrySHA256 previous) None);
      Ret (match appended with
           | Err _ => Some (errors_New "record backup drill rollback outcome")
           | Ok _ => if step == "rollback-failed"
                     then Some (errors_New "backup drill rollback cleanup failed") else None
           end)
  end.

(** What is recorded of an answer: the response if it is bound to the request,
    or the digest of the failure. *)
Definition recorded_response (request : AdapterRequest) (response : AdapterResponse)
    : string * option AdapterResponse :=
  if validSHA (rs_ResponseSHA256 response) && is_nil (validateAdapterResponseBinding request response)
  then (rs_ResponseSHA256 response, Some response)
  else (expectedFailure (rq_Step request), None).

(** A rollback request to the adapter and its entry; the error is the adapter's. *)
Definition rollback_step (adapter : Adapter) (t : journalTransaction) (entries : list JournalEntry)
    (step : string) : P (result (JournalEntry * option goerror)) :=
  match last entries with
  | None => Ret (Err (errors_New "unreachable"))
  | Some previous =>
      let request := newRollbackRequest plan approval step (je_EntrySHA256 previous) in
      invoked ← invoke adapter request;
      let '(response, invokeErr) := invoked in
      let '(responseSHA, recorded) := recorded_response request response in
      now ← call Clock;
      let entry := newJournalEntry now (length entries + 1) plan approval step
                     (rq_RequestSHA256 request) responseSHA (je_EntrySHA256 previous) recorded in
      appended ← appendJournal t entry;
      Ret (match appended with Err err => Err err | Ok _ => Ok (entry, invokeErr) end)
  end.

Definition continueRollbackCleanup (adapter : Adapter) (t : journalTransaction)
    (entries : list JournalEntry) : P (option goerror) :=
  stepped ← rollback_step adapter t entries "rollback-cleanup-requested";
  match stepped with
  | Err _ => Ret (Some (errors_New "record backup drill rollback cleanup request"))
  | Ok (entry, invokeErr) =>
      appendRollbackTerminal t (entries ++ [entry])
        (if is_nil invokeErr then "rolled-back" else "rollback-failed")
  end.

Definition rollback_journal (adapter : Adapter) (t : journalTransaction)
    (entries : list JournalEntry) (last : JournalEntry) : P (option goerror) :=
  if je_Step last == "completed"
  then Ret (Some (errors_New "backup drill rollback journal is already complete"))
  else if je_Step last == "rolled-back" then Ret None
  else if je_Step last == "rollback-failed"
  then Ret (Some (errors_New "backup drill rollback previously failed"))
  else if je_Step last == "rollback-safe-stop" then
    if negb (rollbackResponseSucceeded plan approval entries (length entries - 1))
    then appendRollbackTerminal t entries "rollback-failed"
    else continueRollbackCleanup adapter t entries
  else if je_Step last == "rollback-cleanup-requested" then
    appendRollbackTerminal t entries
      (if rollbackResponseSucceeded plan approval entries (length entries - 1)
       then "rolled-back" else "rollback-failed")
  else
  stepped ← rollback_step adapter t entries "rollback-safe-stop";
  match stepped with
  | Err _ => Ret (Some (errors_New "record backup drill rollback safe-stop"))
  | Ok (entry, Some _) => appendRollbackTerminal t (entries ++ [entry]) "rollback-failed"
  | Ok (entry, None) => continueRollbackCleanup adapter t (entries ++ [entry])
  end.

Definition Rollback (confirmation journalPath : string) (adapter : option Adapter)
    : P (option goerror) :=
  now ← call Clock;
  match validateExecutionInput plan approval confirmation adapter now false with
  | Err err => Ret (Some err)
  | Ok adapter =>
  opened ← openJournalTransaction cwd journalPath;
  match opened with
  | Err err => Ret (Some err)
  | Ok t => closing t (
      loaded ← load t;
      let unavailable := Ret (Some (errors_New "backup drill rollback journal is unavailable")) in
      match loaded with
      | Err _ => unavailable
      | Ok (entries, _) =>
      match last entries with
      | None => unavailable
      | Some last =>
      match verifyJournalBinding plan approval entries with
      | Some err => Ret (Some err)
      | None => rollback_journal adapter t entries last
      end end end)
  end end.
End Engine.
