(* ===== verification/DrillCodec.v ===== *)
(** * The texts of the drill's records

    The round-trip laws of the records that are read back, adapter responses
    and journal entries; what is read holds UTF-8 strings and 64-bit integers;
    and no text holds a newline. *)

From stdpp Require Import gmap strings list.
From Stdlib Require Import ZArith Ascii Lia.
From S2P Require Import Prelude GoString GoTime GoSha256 GoJson GoJsonCorrect StrictJson StrictJsonCorrect JsonStructs DrillTypes DrillJournal.

(** ** The records that are read back *)

Definition wire_Evidence (v : Evidence) : Prop :=
  utf8 (ev_Ref v) /\ utf8 (ev_SHA256 v).

#[export] Instance Evidence_laws : JsonLaws Evidence.
Proof.
  refine {| wire := wire_Evidence; json_depth := 1 |}; intros v.
  - intros (? & ?). change (unmarshal_Evidence true [JStruct (Evidence_fields v)] = Some v).
    unfold unmarshal_Evidence. change Evidence_names with (keys (Evidence_fields v)).
    json_gather (Evidence_fields v) json_lookup. by destruct v.
  - intros (? & ?). json_formed.
  - json_distinct.
  - json_height.
Defined.

Definition wire_TargetResult (v : TargetResult) : Prop :=
  utf8 (tr_Kind v) /\ utf8 (tr_SourceChecksumSHA256 v) /\
  utf8 (tr_RestoredChecksumSHA256 v) /\ utf8 (tr_EvidenceRef v) /\
  utf8 (tr_EvidenceSHA256 v).

#[export] Instance TargetResult_laws : JsonLaws TargetResult.
Proof.
  refine {| wire := wire_TargetResult; json_depth := 1 |}; intros v.
  - intros (? & ? & ? & ? & ?). change (unmarshal_TargetResult true [JStruct (TargetResult_fields v)] = Some v).
    unfold unmarshal_TargetResult. change TargetResult_names with (keys (TargetResult_fields v)).
    json_gather (TargetResult_fields v) json_lookup. by destruct v.
  - intros (? & ? & ? & ? & ?). json_formed.
  - json_distinct.
  - json_height.
Defined.

Definition wire_RestoreObservation (v : RestoreObservation) : Prop :=
  utf8 (ro_RestoreName v) /\ utf8 (ro_RestoreScopeSHA256 v) /\
  utf8 (ro_SourceNamespace v) /\ utf8 (ro_DestinationNamespace v) /\
  utf8 (ro_DestinationScopeSHA256 v) /\ utf8 (ro_EvidenceRef v) /\
  utf8 (ro_EvidenceSHA256 v).

#[export] Instance RestoreObservation_laws : JsonLaws RestoreObservation.
Proof.
  refine {| wire := wire_RestoreObservation; json_depth := 1 |}; intros v.
  - intros (? & ? & ? & ? & ? & ? & ?). change (unmarshal_RestoreObservation true [JStruct (RestoreObservation_fields v)] = Some v).
    unfold unmarshal_RestoreObservation. change RestoreObservation_names with (keys (RestoreObservation_fields v)).
    json_gather (RestoreObservation_fields v) json_lookup. by destruct v.
  - intros (? & ? & ? & ? & ? & ? & ?). json_formed.
  - json_distinct.
  - json_height.
Defined.

Definition wire_AdapterResponse (v : AdapterResponse) : Prop :=
  utf8 (rs_SchemaVersion v) /\ utf8 (rs_ProtocolVersion v) /\ utf8 (rs_OperationID v) /\
  utf8 (rs_Step v) /\ utf8 (rs_RequestSHA256 v) /\ utf8 (rs_AdapterExecutableSHA256 v) /\
  utf8 (rs_Status v) /\ wire (rs_Evidence v) /\ Forall wire (rs_RestoreObservations v) /\
  Forall wire (rs_Targets v) /\ (forall a, rs_IsolationEvidence v = Some a -> wire a) /\
  (forall a, rs_CleanupEvidence v = Some a -> wire a) /\
  utf8 (rs_ObjectLockDeleteDenialReceiptSHA256 v) /\
  utf8 (rs_AggregateProofArtifactSHA256 v) /\ utf8 (rs_AggregateProofPathToken v) /\
  utf8 (rs_ResponseSHA256 v).

#[export] Instance AdapterResponse_laws : JsonLaws AdapterResponse.
Proof.
  refine {| wire := wire_AdapterResponse; json_depth := 3 |}; intros v.
  - intros (? & ? & ? & ? & ? & ? & ? & ? & ? & ? & ? & ? & ? & ? & ? & ?). change (unmarshal_AdapterResponse true [JStruct (AdapterResponse_fields v)] = Some v).
    unfold unmarshal_AdapterResponse. change AdapterResponse_names with (keys (AdapterResponse_fields v)).
    json_gather (AdapterResponse_fields v) json_lookup. by destruct v.
  - intros (? & ? & ? & ? & ? & ? & ? & ? & ? & ? & ? & ? & ? & ? & ? & ?). json_formed.
  - json_distinct.
  - json_height.
Defined.

Definition wire_JournalEntry (v : JournalEntry) : Prop :=
  utf8 (je_SchemaVersion v) /\ is_int64 (je_Sequence v) /\ utf8 (je_OperationID v) /\
  utf8 (je_PlanSHA256 v) /\ utf8 (je_ApprovalSHA256 v) /\ utf8 (je_ApprovalScopeSHA256 v) /\
  utf8 (je_AdapterExecutableSHA256 v) /\ utf8 (je_Step v) /\ utf8 (je_RequestSHA256 v) /\
  utf8 (je_ResponseSHA256 v) /\ (forall a, je_Response v = Some a -> wire a) /\
  utf8 (je_PreviousEntrySHA256 v) /\ utf8 (je_RecordedAt v) /\ utf8 (je_EntrySHA256 v).

#[export] Instance JournalEntry_laws : JsonLaws JournalEntry.
Proof.
  refine {| wire := wire_JournalEntry; json_depth := 4 |}; intros v.
  - intros (? & ? & ? & ? & ? & ? & ? & ? & ? & ? & ? & ? & ? & ?). change (unmarshal_JournalEntry true [JStruct (JournalEntry_fields v)] = Some v).
    unfold unmarshal_JournalEntry. change JournalEntry_names with (keys (JournalEntry_fields v)).
    json_gather (JournalEntry_fields v) json_lookup. by destruct v.
  - intros (? & ? & ? & ? & ? & ? & ? & ? & ? & ? & ? & ? & ? & ?). json_formed.
  - json_distinct.
  - json_height.
Defined.

(** ** What is decoded *)

#[export] Instance Evidence_sound : JsonSound Evidence.
Proof.
  intros strict values v Hv Hx. unfold unmarshal, unmarshal_Evidence in Hx. json_decoded Hx.
  unfold wire, Evidence_laws, wire_Evidence. json_parts.
Qed.

#[export] Instance TargetResult_sound : JsonSound TargetResult.
Proof.
  intros strict values v Hv Hx. unfold unmarshal, unmarshal_TargetResult in Hx. json_decoded Hx.
  unfold wire, TargetResult_laws, wire_TargetResult. json_parts.
Qed.

#[export] Instance RestoreObservation_sound : JsonSound RestoreObservation.
Proof.
  intros strict values v Hv Hx. unfold unmarshal, unmarshal_RestoreObservation in Hx. json_decoded Hx.
  unfold wire, RestoreObservation_laws, wire_RestoreObservation. json_parts.
Qed.

#[export] Instance AdapterResponse_sound : JsonSound AdapterResponse.
Proof.
  intros strict values v Hv Hx. unfold unmarshal, unmarshal_AdapterResponse in Hx. json_decoded Hx.
  unfold wire, AdapterResponse_laws, wire_AdapterResponse. json_parts.
Qed.

#[export] Instance JournalEntry_sound : JsonSound JournalEntry.
Proof.
  intros strict values v Hv Hx. unfold unmarshal, unmarshal_JournalEntry in Hx. json_decoded Hx.
  unfold wire, JournalEntry_laws, wire_JournalEntry. json_parts.
Qed.
