(* ===== verification/DrillJournalCorrect.v ===== *)
(** * The laws of the drill's journal

    The text of a journal and its entries determine each other; the steps of a
    journal follow one of a few patterns ([journal_shape]); a journal that is
    bound to a plan and an approval stays bound when the engine's entries are
    added ([Good_snoc]). *)

From stdpp Require Import gmap strings list.
From Stdlib Require Import ZArith Ascii Lia.
From S2P Require Import Prelude GoString GoTime GoSha256 GoJson GoJsonCorrect StrictJson StrictJsonCorrect GoRfc3339 JsonStructs DrillTypes DrillValidate DrillJournal DrillCodec.

(** ** Lines *)

Fixpoint journal_text (entries : list JournalEntry) : string :=
  match entries with
  | [] => ""
  | entry :: rest => entry_line entry +:+ journal_text rest
  end.

Lemma journal_text_app es es' : journal_text (es ++ es') = journal_text es +:+ journal_text es'.
Proof. induction es as [|e es IH]; [done|]. cbn. by rewrite IH, string_app_assoc. Qed.

Lemma journal_text_snoc es e : journal_text (es ++ [e]) = journal_text es +:+ entry_line e.
Proof. rewrite journal_text_app. cbn. by rewrite string_app_nil_r. Qed.

Fixpoint joined (lines : list string) : string :=
  match lines with
  | [] => ""
  | [line] => line
  | line :: rest => line +:+ String newline (joined rest)
  end.

Lemma journal_text_joined es : es <> [] ->
  journal_text es = joined (List.map json_Marshal es) +:+ String newline "".
Proof.
  induction es as [|e es IH]; [done|]. intros _. destruct es as [|e' es].
  - cbn. by rewrite string_app_nil_r.
  - change (entry_line e +:+ journal_text (e' :: es) =
      (json_Marshal e +:+ String newline (joined (List.map json_Marshal (e' :: es)))) +:+
      String newline ""). rewrite IH by done. unfold entry_line.
    by rewrite !string_app_assoc, !string_app_cons.
Qed.

Lemma split_lines_line line rest : one_line line = true ->
  split_lines (line +:+ String newline rest) = line :: split_lines rest.
Proof.
  induction line as [|c line IH]; intros H; [done|]. unfold one_line in *. cbn [all_chars] in H.
  apply andb_true_iff in H as [Hc H]. rewrite string_app_cons. cbn [split_lines].
  apply negb_true_iff in Hc. by rewrite Hc, IH.
Qed.

Lemma split_lines_last line : one_line line = true -> split_lines line = [line].
Proof.
  induction line as [|c line IH]; intros H; [done|]. unfold one_line in *. cbn [all_chars] in H.
  apply andb_true_iff in H as [Hc H]. cbn [split_lines].
  apply negb_true_iff in Hc. by rewrite Hc, IH.
Qed.

Lemma split_lines_joined lines : lines <> [] -> Forall (fun line => one_line line = true) lines ->
  split_lines (joined lines) = lines.
Proof.
  intros Hne H. induction H as [|line lines Hl Hs IH]; [done|].
  destruct lines as [|line' lines]; [by apply split_lines_last|].
  change (joined (line :: line' :: lines)) with (line +:+ String newline (joined (line' :: lines))).
  by rewrite split_lines_line, IH.
Qed.

Lemma take_chars_app n s t : n = len s -> take_chars n (s +:+ t) = s.
Proof.
  intros ->. induction s as [|c s IH]; [by destruct t|].
  rewrite string_app_cons, len_String. cbn [take_chars]. by rewrite IH.
Qed.

Lemma drop_chars_app s t : drop_chars (len s) (s +:+ t) = t.
Proof.
  induction s as [|c s IH]; [by destruct t|].
  rewrite string_app_cons, len_String. cbn [drop_chars]. by rewrite IH.
Qed.

Lemma entry_line_one_line (e : JournalEntry) : wire e -> one_line (json_Marshal e) = true.
Proof. intros H. by apply print_line, wire_formed. Qed.

(** ** Decoding *)

Lemma decode_lines_chain acc es : Forall (fun e => DecodeExact (json_Marshal e) = Ok e) es ->
  check_chain acc es = None -> decode_lines acc (List.map json_Marshal es) = Ok (acc ++ es).
Proof.
  intros H. revert acc. induction H as [|e es He Hes IH]; intros acc Hc.
  { by rewrite app_nil_r. }
  cbn [List.map decode_lines check_chain] in *. rewrite He.
  destruct (_ || _); [done|]. rewrite (IH _ Hc). by rewrite <- app_assoc.
Qed.

Lemma decode_lines_Ok acc lines es : decode_lines acc lines = Ok es ->
  exists more, es = acc ++ more /\ length more = length lines /\ check_chain acc more = None /\
    Forall wire more.
Proof.
  revert acc. induction lines as [|line lines IH]; cbn; intros acc H.
  { simplify_eq. exists []. rewrite app_nil_r. by split_and!. }
  destruct (DecodeExact line) as [e|] eqn:E; [|done]. destruct (_ || _) eqn:Ec; [done|].
  destruct (IH _ H) as (more & -> & Hl & Hc & Hw). exists (e :: more).
  rewrite <- app_assoc. split_and!; [done|cbn; lia| |].
  - cbn [check_chain]. by rewrite Ec.
  - constructor; [by apply DecodeExact_wire in E|done].
Qed.

Definition chain_ok (es : list JournalEntry) : Prop := validateJournalEntries es = None.

Lemma chain_ok_iff es :
  chain_ok es <-> 0 < length es <= 32 /\ check_chain [] es = None.
Proof.
  unfold chain_ok, validateJournalEntries.
  destruct ((length es =? 0) || (32 <? length es)) eqn:E.
  - split; [done|]. intros [? _]. apply orb_true_iff in E as [E|E]; go_simp; lia.
  - go_simp. split; [intros; split; [lia|done]|by intros [_ ?]].
Qed.

(** A decoded journal is a chain. *)
Lemma decodeJournal_Ok text es : decodeJournal text = Ok es -> chain_ok es /\ Forall wire es.
Proof.
  unfold decodeJournal. set (lines := split_lines _). intros H.
  destruct ((length lines =? 0) || (32 <? length lines)) eqn:E; [done|].
  apply decode_lines_Ok in H as (more & -> & Hl & Hc & Hw). cbn. split; [|done].
  apply chain_ok_iff. split; [|done]. rewrite Hl. go_simp. lia.
Qed.

Lemma len_entry_line e : len (entry_line e) = S (len (json_Marshal e)).
Proof. unfold entry_line. rewrite len_app. cbn. lia. Qed.

Definition line_fits (e : JournalEntry) : Prop := (Z.of_nat (len (entry_line e)) <= maxEntryBytes)%Z.

Lemma line_fits_decodes e : wire e -> line_fits e -> DecodeExact (json_Marshal e) = Ok e.
Proof.
  intros Hw Hl. apply (DecodeExact_Marshal (A := JournalEntry)); [|done|].
  - unfold maxDepth. cbn. lia.
  - unfold fits. unfold line_fits in Hl. rewrite len_entry_line in Hl.
    unfold maxEntryBytes, MaxDocumentBytes in *. lia.
Qed.

Lemma split_journal_text es : es <> [] -> Forall wire es ->
  split_lines (take_chars (len (journal_text es) - 1) (journal_text es)) = List.map json_Marshal es.
Proof.
  intros Hne Hw. rewrite journal_text_joined by done.
  rewrite take_chars_app by (rewrite len_app; cbn; lia). apply split_lines_joined; [by destruct es|].
  apply Forall_map. eapply Forall_impl; [exact Hw|]. apply entry_line_one_line.
Qed.

(** The text of a journal without overlong lines is decoded to its entries. *)
Lemma decode_journal_text es : chain_ok es -> Forall wire es -> Forall line_fits es ->
  decodeJournal (journal_text es) = Ok es.
Proof.
  intros Hc Hw Hl. apply chain_ok_iff in Hc as [Hn Hc].
  assert (es <> []) as Hne by (by intros ->; cbn in Hn; lia).
  unfold decodeJournal. rewrite split_journal_text, length_map by done.
  destruct ((length es =? 0) || (32 <? length es)) eqn:E.
  { apply orb_true_iff in E as [E|E]; go_simp; lia. }
  apply (decode_lines_chain []); [|done]. rewrite Forall_forall in *. intros e He.
  apply line_fits_decodes; auto.
Qed.

(** What is decoded of the text of entries is these entries. *)
Lemma decode_lines_text acc es es' : Forall wire es ->
  decode_lines acc (List.map json_Marshal es) = Ok es' -> es' = acc ++ es.
Proof.
  intros H. revert acc. induction H as [|e es He Hes IH]; intros acc; cbn [List.map decode_lines].
  { intros [= <-]. by rewrite app_nil_r. }
  destruct (DecodeExact (json_Marshal e)) as [e'|] eqn:E; [|done].
  destruct (_ || _); [done|]. intros Hd%IH. rewrite Hd, <- app_assoc. cbn. by rewrite (DecodeExact_exact _ _ He E).
Qed.

Lemma decode_journal_text_exact es es' : es <> [] -> Forall wire es ->
  decodeJournal (journal_text es) = Ok es' -> es' = es.
Proof.
  intros Hne Hw. unfold decodeJournal. rewrite split_journal_text by done.
  destruct (_ || _); [done|]. by apply decode_lines_text.
Qed.

(** ** The end of a text *)

Definition ends_line (text : string) : Prop := String.get (len text - 1) text = Some newline.

Lemma get_last s c : String.get (len (s +:+ String c "") - 1) (s +:+ String c "") = Some c.
Proof.
  rewrite len_app. cbn. replace (len s + 1 - 1) with (len s) by lia.
  induction s as [|d s IH]; [done|]. rewrite string_app_cons, len_String. exact IH.
Qed.

Lemma journal_text_ends es : es <> [] -> ends_line (journal_text es).
Proof. intros H. unfold ends_line. rewrite journal_text_joined by done. apply get_last. Qed.

Lemma string_snoc s : s <> "" -> exists t c, s = t +:+ String c "".
Proof.
  induction s as [|c s IH]; [done|]. intros _. destruct s as [|d s]; [by exists "", c|].
  destruct (IH ltac:(done)) as (t & e & ->). by exists (String c t), e.
Qed.

(** A journal with part of a line after it does not end with a newline. *)
Lemma torn_ends text part : part <> "" -> one_line part = true -> ~ ends_line (text +:+ part).
Proof.
  intros Hne Hl. destruct (string_snoc part Hne) as (t & c & ->). unfold ends_line.
  rewrite <- string_app_assoc, get_last. intros [= ->].
  unfold one_line in Hl. rewrite all_chars_app in Hl. cbn in Hl. by rewrite andb_false_r in Hl.
Qed.

Lemma HasPrefix_split s p : HasPrefix s p = true -> exists t, s = p +:+ t.
Proof.
  unfold HasPrefix. revert s. induction p as [|c p IH]; intros s H; [by exists s|].
  destruct s as [|d s]; [done|]. cbn in H. destruct (ascii_dec c d) as [->|]; [|done].
  destruct (IH s H) as [t ->]. by exists t.
Qed.

(** ** Chains, entry by entry *)

Lemma check_chain_app acc xs ys :
  check_chain acc (xs ++ ys) =
  match check_chain acc xs with Some err => Some err | None => check_chain (acc ++ xs) ys end.
Proof.
  revert acc. induction xs as [|x xs IH]; intros acc; cbn; [by rewrite app_nil_r|].
  destruct (_ || _); [done|]. rewrite IH. by rewrite <- app_assoc.
Qed.

Lemma chain_ok_snoc es e : es <> [] ->
  chain_ok (es ++ [e]) <->
  chain_ok es /\ length es < 32 /\ validateJournalEntry e (last es) = None /\
  validTransition es (je_Step e) = true.
Proof.
  intros Hne. rewrite !chain_ok_iff, check_chain_app, length_app. cbn.
  assert (0 < length es) by (destruct es; [done|cbn; lia]).
  destruct (check_chain [] es); [split; [by intros [_ ?]|by intros [[_ ?] _]]|].
  destruct (validateJournalEntry e (last es)) eqn:E1, (validTransition es (je_Step e)) eqn:E2; cbn;
    split; try (by intros [_ ?]); try (by intros (_ & _ & ? & ?)); intros; split_and!; naive_solver lia.
Qed.

Lemma chain_ok_single e :
  chain_ok [e] <-> validateJournalEntry e None = None /\ je_Step e = "approval-consumed".
Proof.
  rewrite chain_ok_iff. cbn. unfold validTransition. cbn.
  destruct (validateJournalEntry e None) eqn:E1; cbn; [split; [by intros [_ ?]|by intros [? _]]|].
  destruct (je_Step e == "approval-consumed") eqn:E2; cbn; go_simp.
  - split; [done|]. intros _. split; [lia|done].
  - split; [by intros [_ ?]|by intros [_ ?]].
Qed.

Lemma chain_ok_nonempty es : chain_ok es -> es <> [].
Proof. intros H ->. apply chain_ok_iff in H as [H _]. cbn in H. lia. Qed.

(** Induction along a chain. *)
Lemma chain_ind (Q : list JournalEntry -> Prop) :
  (forall e, chain_ok [e] -> Q [e]) ->
  (forall es e, chain_ok es -> Q es -> chain_ok (es ++ [e]) -> Q (es ++ [e])) ->
  forall es, chain_ok es -> Q es.
Proof.
  intros H1 Hs es. induction es as [|e es IH] using rev_ind; intros Hc.
  { by destruct (chain_ok_nonempty _ Hc). }
  destruct (decide (es = [])) as [->|Hne]; [by apply H1|].
  pose proof (proj1 (chain_ok_snoc es e Hne) Hc) as (Hes & _). apply Hs; auto.
Qed.

(** ** The steps of a journal *)

Definition steps (es : list JournalEntry) : list string := List.map je_Step es.

Lemma last_steps es : last (steps es) = je_Step <$> last es.
Proof. apply fmap_last. Qed.

Inductive follows (before : list string) (next : string) : string -> Prop :=
  | follows_stop l :
      l <> "rollback-safe-stop" -> l <> "rollback-cleanup-requested" ->
      next = "rollback-safe-stop" -> follows before next l
  | follows_apply l :
      l <> "rollback-safe-stop" -> l <> "rollback-cleanup-requested" ->
      ApplySteps !! length before = Some next -> follows before next l
  | follows_safe_stop :
      next = "rollback-cleanup-requested" \/ next = "rollback-failed" ->
      follows before next "rollback-safe-stop"
  | follows_cleanup :
      next = "rolled-back" \/ next = "rollback-failed" ->
      follows before next "rollback-cleanup-requested".

Lemma validTransition_true es next : es <> [] -> validTransition es next = true ->
  exists previous, last es = Some previous /\ terminal_step (je_Step previous) = false /\
    follows (steps es) next (je_Step previous).
Proof.
  intros Hne. unfold validTransition. destruct (last es) as [p|] eqn:Hl.
  2: { by apply last_None in Hl. }
  intros H. exists p. destruct (existsb _ es); [done|]. destruct (terminal_step (je_Step p)); [done|].
  split_and!; [done..|].
  destruct (je_Step p == "rollback-safe-stop") eqn:E1.
  { apply String.eqb_eq in E1. rewrite E1. apply follows_safe_stop.
    apply orb_true_iff in H as [H|H]; apply String.eqb_eq in H; auto. }
  destruct (je_Step p == "rollback-cleanup-requested") eqn:E2.
  { apply String.eqb_eq in E2 as ->. apply follows_cleanup.
    apply orb_true_iff in H as [H|H]; apply String.eqb_eq in H; auto. }
  apply String.eqb_neq in E1, E2.
  destruct (string_in _ next); [done|]. destruct (next == "rollback-safe-stop") eqn:E3.
  { apply String.eqb_eq in E3. by constructor 1. }
  destruct (ApplySteps !! length es) as [step|] eqn:E4; [|done]. apply String.eqb_eq in H. subst step.
  constructor 2; [done..|]. unfold steps. by rewrite length_map.
Qed.

Definition rollback_tails : list (list string) := [
  []; ["rollback-safe-stop"]; ["rollback-safe-stop"; "rollback-failed"];
  ["rollback-safe-stop"; "rollback-cleanup-requested"];
  ["rollback-safe-stop"; "rollback-cleanup-requested"; "rolled-back"];
  ["rollback-safe-stop"; "rollback-cleanup-requested"; "rollback-failed"]].

(** Steps towards completion, then maybe a rollback. *)
Definition journal_shape (ss : list string) : Prop :=
  exists k tail, 1 <= k <= 13 /\ tail ∈ rollback_tails /\ (tail <> [] -> k < 13) /\
    ss = take k ApplySteps ++ tail.

Ltac in_tails := unfold rollback_tails; repeat first [apply list_elem_of_here | apply list_elem_of_further].

Lemma last_app_cons {A} (xs : list A) y ys : last (xs ++ y :: ys) = last (y :: ys).
Proof.
  rewrite last_app. destruct (last (y :: ys)) eqn:E; [done|]. by apply last_None in E.
Qed.

Lemma apply_prefix_last k : 1 <= k <= 13 -> last (take k ApplySteps) = ApplySteps !! (k - 1).
Proof.
  intros Hk. rewrite last_lookup, length_take. change (length ApplySteps) with 13.
  rewrite Nat.min_l by lia. replace (pred k) with (k - 1) by lia. by rewrite lookup_take_lt by lia.
Qed.

Lemma apply_steps_rollback k step : ApplySteps !! k = Some step ->
  step <> "rollback-safe-stop" /\ step <> "rollback-cleanup-requested" /\
  step <> "rollback-failed" /\ step <> "rolled-back" /\ HasPrefix step "rollback-" = false /\
  (terminal_step step = true -> k = 12).
Proof. intros H. do 13 (destruct k as [|k]; [by simplify_eq/=|]). done. Qed.

Lemma shape_snoc ss next l : journal_shape ss -> last ss = Some l -> terminal_step l = false ->
  follows ss next l -> journal_shape (ss ++ [next]).
Proof.
  intros (k & tail & Hk & Ht & Hkt & ->) Hl Hterm Hf.
  unfold rollback_tails in Ht. repeat (apply elem_of_cons in Ht as [->|Ht]); [..|by apply elem_of_nil in Ht].
  - rewrite app_nil_r in *. rewrite apply_prefix_last in Hl by done.
    pose proof (apply_steps_rollback _ _ Hl) as (Hn1 & Hn2 & _ & _ & _ & _).
    assert (k <> 13) as Hk13 by (intros ->; cbn in Hl; by simplify_eq).
    inversion Hf as [? ? ? Hn|? ? ? Hn|Hn|Hn]; subst; try done.
    + exists k, ["rollback-safe-stop"]. split_and!; [lia|lia|in_tails|lia|done].
    + rewrite length_take in Hn. change (length ApplySteps) with 13 in Hn.
      rewrite Nat.min_l in Hn by lia. exists (S k), [].
      split_and!; [lia|lia|in_tails|done|]. by rewrite app_nil_r, (take_S_r _ _ next).
  - rewrite last_app_cons in Hl. injection Hl as <-.
    inversion Hf as [? Hn|? Hn|[->| ->]|]; try done.
    + exists k, ["rollback-safe-stop"; "rollback-cleanup-requested"].
      rewrite <- app_assoc. split_and!; [lia|lia|in_tails|intros; by apply Hkt|done].
    + exists k, ["rollback-safe-stop"; "rollback-failed"].
      rewrite <- app_assoc. split_and!; [lia|lia|in_tails|intros; by apply Hkt|done].
  - rewrite last_app_cons in Hl. by injection Hl as <-.
  - rewrite last_app_cons in Hl. injection Hl as <-.
    inversion Hf as [? ? Hn|? ? Hn| |[->| ->]]; try done.
    + exists k, ["rollback-safe-stop"; "rollback-cleanup-requested"; "rolled-back"].
      rewrite <- app_assoc. split_and!; [lia|lia|in_tails|intros; by apply Hkt|done].
    + exists k, ["rollback-safe-stop"; "rollback-cleanup-requested"; "rollback-failed"].
      rewrite <- app_assoc. split_and!; [lia|lia|in_tails|intros; by apply Hkt|done].
  - rewrite last_app_cons in Hl. by injection Hl as <-.
  - rewrite last_app_cons in Hl. by injection Hl as <-.
Qed.

Lemma chain_shape es : chain_ok es -> journal_shape (steps es).
Proof.
  revert es. apply chain_ind.
  - intros e He. apply chain_ok_single in He as [_ He]. unfold steps. cbn. rewrite He.
    exists 1, []. split_and!; [lia|lia|in_tails|done|done].
  - intros es e Hes IH Hc. pose proof (chain_ok_nonempty _ Hes) as Hne.
    apply chain_ok_snoc in Hc as (_ & _ & _ & Ht); [|done].
    apply validTransition_true in Ht as (p & Hp & Hterm & Hf); [|done].
    unfold steps. rewrite List.map_app. cbn. eapply shape_snoc; [exact IH| |exact Hterm|exact Hf].
    by rewrite last_steps, Hp.
Qed.

(** A journal has at most sixteen entries, so never too many. *)
Lemma chain_length es : chain_ok es -> length es <= 16.
Proof.
  intros H. apply chain_shape in H as (k & tail & Hk & Ht & Hkt & E).
  apply (f_equal length) in E. unfold steps in E. rewrite length_map, length_app, length_take in E.
  change (length ApplySteps) with 13 in E.
  unfold rollback_tails in Ht. repeat (apply elem_of_cons in Ht as [->|Ht]); [..|by apply elem_of_nil in Ht];
    cbn in E; try lia.
Qed.
