(* ===== verification/DrillBound.v ===== *)
(** * Journals bound to a plan and an approval

    What [verifyJournalBinding] accepts, entry by entry, and that the entries
    the engine adds keep a bound journal bound. *)

From stdpp Require Import gmap strings list.
From Stdlib Require Import ZArith Ascii Lia.
From S2P Require Import Prelude GoString GoTime GoDate GoSha256 GoJson GoJsonCorrect StrictJson StrictJsonCorrect GoRfc3339 JsonStructs DrillTypes DrillValidate DrillJournal DrillCodec DrillJournalCorrect.

#[local] Opaque sha256_hex.

(** ** Checked texts are UTF-8 *)

Lemma validSHA_utf8 s : validSHA s = true -> utf8 s.
Proof. unfold validSHA, shaPattern, hex_of_length. intros [H _]%andb_true_iff. by apply hex_utf8. Qed.

Lemma validID_utf8 s : validID s = true -> utf8 s.
Proof.
  unfold validID, idPattern, match_first_rest. destruct s as [|c s]; [done|]. intros H.
  apply andb_true_iff in H as [H _]. apply andb_true_iff in H as [H _].
  apply andb_true_iff in H as [H1 H2]. apply all_ascii_utf8. cbn [all_chars].
  rewrite (lower_digit_ascii _ H1). eapply all_chars_impl; [|exact H2]. intros d [Hd|Hd]%orb_true_iff.
  - by apply lower_digit_ascii.
  - by apply (one_of_ascii "._:-").
Qed.

Lemma sha256_hex_utf8 s : utf8 (sha256_hex s).
Proof. apply hex_utf8, sha256_hex_hex. Qed.

Lemma sha256_hex_valid s : validSHA (sha256_hex s) = true.
Proof.
  unfold validSHA, shaPattern, hex_of_length. by rewrite sha256_hex_hex, sha256_hex_len.
Qed.

Lemma is_nil_negb {A} (o : option A) : negb (is_nil o) = false <-> o = None.
Proof. by destruct o. Qed.

Definition previous_entry (previous : option JournalEntry) : Prop :=
  forall p, previous = Some p -> wire p.

(** An entry that is valid after others can be written and read back. *)
Lemma valid_entry_wire e previous : validateJournalEntry e previous = None -> previous_entry previous ->
  (forall response, je_Response e = Some response -> wire response) -> wire e.
Proof.
  intros H Hp Hr. unfold validateJournalEntry in H. destruct (entry_valid e) eqn:Hv; [|done]. cbn [negb] in H.
  destruct (response_bound e); [|done]. cbn [negb] in H.
  destruct (canonicalTime (je_RecordedAt e)) as [t|] eqn:Ht; [|done]. apply canonical_utf8 in Ht.
  unfold entry_valid in Hv. repeat (apply andb_true_iff in Hv as [Hv ?]).
  assert (is_int64 (je_Sequence e) /\ utf8 (je_PreviousEntrySHA256 e)) as [Hs Hprev].
  { destruct previous as [p|].
    - destruct (entry_follows e p) eqn:Hf; [|done]. unfold entry_follows in Hf.
      destruct (canonicalTime (je_RecordedAt p)), (canonicalTime (je_RecordedAt e)); [|done..].
      repeat (apply andb_true_iff in Hf as [Hf ?]).
      repeat match goal with E : (_ == _) = true |- _ => apply String.eqb_eq in E end.
      repeat match goal with E : (_ =? _)%Z = true |- _ => apply Z.eqb_eq in E end.
      split.
      + match goal with E : je_Sequence e = _ |- _ => rewrite E end. apply int64_wrap_range.
      + match goal with E : je_PreviousEntrySHA256 e = _ |- _ => rewrite E end.
        by destruct (Hp p eq_refl) as (_ & _ & _ & _ & _ & _ & _ & _ & _ & _ & _ & _ & _ & ?).
    - destruct (_ || _) eqn:E; [done|]. apply orb_false_iff in E as [E1 E2].
      apply negb_false_iff in E1, E2. apply Z.eqb_eq in E1. apply String.eqb_eq in E2.
      rewrite E1, E2. split; [done|constructor]. }
  repeat match goal with E : (_ == _) = true |- _ => apply String.eqb_eq in E end.
  split_and!; try done; try (by apply validSHA_utf8); try (by apply validID_utf8).
  - rewrite Hv. unfold JournalEntryVersion. utf8_literal.
  - match goal with E : je_EntrySHA256 e = _ |- _ => rewrite E end. apply sha256_hex_utf8.
Qed.

Lemma valid_response_bound request response : ValidateAdapterResponse request response = None ->
  validateAdapterResponseBinding request response = None.
Proof. unfold ValidateAdapterResponse. by destruct (validateAdapterResponseBinding request response). Qed.

Lemma chain_entry es e : chain_ok es -> e ∈ es -> exists previous, validateJournalEntry e previous = None.
Proof.
  intros Hc. revert es Hc. refine (chain_ind (fun es => e ∈ es -> _) _ _).
  - intros e' Hc He. apply list_elem_of_singleton in He as <-. apply chain_ok_single in Hc as [Hc _]. by eexists.
  - intros es e' Hes IH Hc He. apply elem_of_app in He as [He|He]; [by apply IH|].
    apply list_elem_of_singleton in He as <-. apply chain_ok_snoc in Hc as (_ & _ & Hc & _); [|by apply chain_ok_nonempty].
    by eexists.
Qed.

(** A valid entry carries its digest and its response's. *)
Lemma valid_entry_digests e previous : validateJournalEntry e previous = None ->
  je_EntrySHA256 e = JournalEntrySHA256 e /\
  forall response, je_Response e = Some response -> je_ResponseSHA256 e = rs_ResponseSHA256 response.
Proof.
  intros H. unfold validateJournalEntry in H. destruct (entry_valid e) eqn:Hv; [|done]. cbn [negb] in H.
  destruct (response_bound e) eqn:Hb; [|done]. unfold entry_valid in Hv.
  apply andb_true_iff in Hv as [_ Hv]. apply String.eqb_eq in Hv. split; [done|]. intros response Hr.
  unfold response_bound in Hb. rewrite Hr in Hb. apply andb_true_iff in Hb as [Hb _]. by apply String.eqb_eq in Hb.
Qed.

Lemma chain_response es e response : chain_ok es -> e ∈ es -> je_Response e = Some response ->
  je_ResponseSHA256 e = rs_ResponseSHA256 response.
Proof.
  intros Hc He. destruct (chain_entry es e Hc He) as [q Hq].
  apply valid_entry_digests in Hq as [_ Hq]. apply Hq.
Qed.

(** ** The entries of a bound journal *)

Section Bound.
Context (plan : Plan) (approval : ApprovalReport).

Lemma check_bound_iff entries i rest :
  check_bound plan approval entries i rest = None <->
  forall k x, rest !! k = Some x -> check_bound_entry plan approval entries (i + k) x = None.
Proof.
  revert i. induction rest as [|e rest IH]; intros i; [done|]. cbn [check_bound].
  destruct (check_bound_entry plan approval entries i e) as [err|] eqn:E.
  - split; [done|]. intros H. specialize (H 0 e eq_refl). rewrite Nat.add_0_r in H. congruence.
  - rewrite IH. split.
    + intros H [|k] x Hk; [by injection Hk as <-; rewrite Nat.add_0_r|].
      rewrite Nat.add_succ_r. by apply (H k x).
    + intros H k x Hk. specialize (H (S k) x Hk). by rewrite Nat.add_succ_r in H.
Qed.

Record bound (es : list JournalEntry) : Prop := {
  bound_approval : validateApprovalBinding plan approval = None;
  bound_chain : chain_ok es;
  bound_entries i x : es !! i = Some x -> check_bound_entry plan approval es i x = None;
  bound_wire : Forall wire es
}.

Lemma bound_verify es : bound es -> verifyJournalBinding plan approval es = None.
Proof.
  intros H. unfold verifyJournalBinding. rewrite (bound_chain _ H).
  apply check_bound_iff. intros k x. apply (bound_entries _ H).
Qed.

Lemma verify_bound es : validateApprovalBinding plan approval = None -> Forall wire es ->
  verifyJournalBinding plan approval es = None -> bound es.
Proof.
  unfold verifyJournalBinding. intros Ha Hw H.
  destruct (validateJournalEntries es) eqn:Hc; [done|].
  constructor; [done|done| |done]. intros k x. exact (proj1 (check_bound_iff es 0 es) H k x).
Qed.

Lemma bound_nonempty es : bound es -> es <> [].
Proof. intros H. apply chain_ok_nonempty, (bound_chain _ H). Qed.

Lemma lookup_snoc_before (es : list JournalEntry) e i : i < length es -> (es ++ [e]) !! i = es !! i.
Proof. intros H. by apply lookup_app_l. Qed.

Lemma previous_snoc (es : list JournalEntry) e i : i < length es ->
  match i with 0 => None | S n => (es ++ [e]) !! n end = match i with 0 => None | S n => es !! n end.
Proof. intros H. destruct i; [done|]. apply lookup_snoc_before. lia. Qed.

Lemma check_bound_entry_before es e i x : S i < length es ->
  check_bound_entry plan approval (es ++ [e]) i x = check_bound_entry plan approval es i x.
Proof.
  intros H. unfold check_bound_entry. by rewrite previous_snoc, lookup_snoc_before by lia.
Qed.

(** A failed answer is in order before [rollback-failed], a good one always. *)
Lemma check_adapter_entry_settled request failed failed' e :
  check_adapter_entry request failed e = None ->
  (failed = true -> failed' = true \/
    exists response, je_Response e = Some response /\ ValidateAdapterResponse request response = None) ->
  check_adapter_entry request failed' e = None.
Proof.
  unfold check_adapter_entry. destruct (_ != _); [done|]. intros H Hf. destruct failed'; [|destruct failed].
  - destruct (je_Response e); [|by destruct failed; cbn in *; destruct (_ != _)].
    destruct (_ != _); [done|]. destruct (negb _); [done|]. by rewrite andb_false_r.
  - destruct Hf as [?|(response & Hr & Hv)]; [done|done|]. rewrite Hr in *.
    destruct (_ != _); [done|]. destruct (negb _); [done|]. by rewrite Hv.
  - done.
Qed.

(** The last answer of a rollback is a success, or the rollback fails. *)
Definition settled (es : list JournalEntry) (next : string) : Prop :=
  forall p, last es = Some p -> HasPrefix (je_Step p) "rollback-" = true ->
  next = "rollback-failed" \/ rollbackResponseSucceeded plan approval es (length es - 1) = true.

Lemma check_bound_entry_last es e p : last es = Some p -> settled es (je_Step e) ->
  check_bound_entry plan approval es (length es - 1) p = None ->
  check_bound_entry plan approval (es ++ [e]) (length es - 1) p = None.
Proof.
  intros Hl Hs. assert (0 < length es) as Hn by (destruct es; [done|cbn; lia]).
  pose proof Hl as Hp. rewrite last_lookup in Hp. replace (pred (length es)) with (length es - 1) in Hp by lia.
  unfold check_bound_entry. rewrite previous_snoc by lia.
  replace (S (length es - 1)) with (length es) by lia.
  rewrite (list_lookup_middle es [] e (length es) eq_refl), (lookup_ge_None_2 es (length es)) by lia.
  destruct (negb (transaction_bound _ _ _)); [done|].
  destruct (je_Step p == "approval-consumed"); [done|]. destruct (je_Step p == "mutation-started"); [done|].
  destruct (je_Step p == "completed"); [done|]. destruct (_ || _); [done|].
  destruct (length es - 1) as [|n] eqn:En; [done|]. destruct (es !! n) as [q|] eqn:Hq; [|done].
  cbn [is_nil orb andb]. rewrite orb_false_r. intros H.
  apply (check_adapter_entry_settled _ _ _ _ H). intros Hr.
  destruct (Hs p Hl Hr) as [-> | Hok]; [by left|right].
  rewrite En in Hok. unfold rollbackResponseSucceeded in Hok. rewrite Hp, Hq in Hok.
  destruct (je_Response p) as [response|]; [|done]. exists response. split; [done|].
  destruct (_ && _); [done|]. unfold step_request. rewrite Hr.
  apply andb_true_iff in Hok as [_ Hok]. by apply is_nil_true in Hok.
Qed.

Lemma bound_snoc es e : bound es -> chain_ok (es ++ [e]) -> wire e -> settled es (je_Step e) ->
  check_bound_entry plan approval (es ++ [e]) (length es) e = None -> bound (es ++ [e]).
Proof.
  intros H Hc Hw Hs He. constructor; [apply (bound_approval _ H)|done| |].
  - intros i x [Hi|[Hi Hx]]%lookup_app_Some.
    + pose proof (lookup_lt_Some _ _ _ Hi) as Hlt. pose proof (bound_entries _ H i x Hi) as Hb.
      destruct (decide (S i = length es)) as [Hl|Hl].
      * replace i with (length es - 1) in * by lia. apply check_bound_entry_last; [|done..].
        rewrite last_lookup. by replace (pred (length es)) with (length es - 1) by lia.
      * by rewrite check_bound_entry_before by lia.
    + assert (i - length es = 0) as E by (apply lookup_lt_Some in Hx; cbn in Hx; lia).
      rewrite E in Hx. cbn in Hx. injection Hx as <-. by replace i with (length es) by lia.
  - apply Forall_app. split; [apply (bound_wire _ H)|by apply Forall_singleton].
Qed.

(** ** The checks of an entry, by its step *)

Ltac by_step Hs := unfold check_bound_entry; rewrite Hs; cbn [String.eqb Ascii.eqb Bool.eqb].

Section Checks.
Context (entries : list JournalEntry) (x q : JournalEntry) (Hx : transaction_bound plan approval x = true).

Lemma check_consumed : je_Step x = "approval-consumed" ->
  derived x (approvalConsumedDigests plan approval) = true ->
  check_bound_entry plan approval entries 0 x = None.
Proof. intros Hs Hd. by_step Hs. by rewrite Hx, Hd. Qed.

Lemma check_started : je_Step x = "mutation-started" -> entries !! 0 = Some q ->
  derived x (mutationStartedDigests plan (je_EntrySHA256 q)) = true ->
  check_bound_entry plan approval entries 1 x = None.
Proof. intros Hs Hq Hd. by_step Hs. by rewrite Hx, Hq, Hd. Qed.

Context (i : nat) (Hq : entries !! i = Some q).

Lemma check_completed : je_Step x = "completed" -> je_Step q = "proof-assembled" ->
  is_Some (je_Response q) -> derived x (completedDigests (je_ResponseSHA256 q)) = true ->
  check_bound_entry plan approval entries (S i) x = None.
Proof. intros Hs Hqs [r Hr] Hd. by_step Hs. by rewrite Hx, Hq, Hqs, Hr, Hd. Qed.

Lemma check_terminal : je_Step x = "rolled-back" \/ je_Step x = "rollback-failed" ->
  derived x (rollbackTerminalDigests (je_Step x) (je_EntrySHA256 q) (je_ResponseSHA256 q)) = true ->
  check_bound_entry plan approval entries (S i) x = None.
Proof. intros [Hs|Hs] Hd; rewrite Hs in Hd; by_step Hs; by rewrite Hx, Hq, Hd. Qed.

Definition adapter_step (step : string) : bool :=
  negb (string_in ["approval-consumed"; "mutation-started"; "completed"; "rolled-back"; "rollback-failed"]
          step).

Lemma check_adapter : adapter_step (je_Step x) = true -> entries !! S (S i) = None ->
  check_adapter_entry (step_request plan approval (je_Step x) (je_EntrySHA256 q))
    (HasPrefix (je_Step x) "rollback-") x = None ->
  check_bound_entry plan approval entries (S i) x = None.
Proof.
  unfold adapter_step, string_in. cbn [existsb]. intros Hs Hn Hc.
  apply negb_true_iff in Hs. repeat (apply orb_false_iff in Hs as [? Hs]).
  unfold check_bound_entry. rewrite Hx, Hq, Hn.
  repeat match goal with E : (je_Step x == _) = false |- _ => rewrite E; clear E end. exact Hc.
Qed.
End Checks.

(** ** The entries the engine adds *)

Lemma newJournalEntry_bound now n step request response previous recorded :
  transaction_bound plan approval
    (newJournalEntry now n plan approval step request response previous recorded) = true.
Proof.
  unfold transaction_bound, newJournalEntry, JournalEntry_with_EntrySHA256.
  cbn [je_OperationID je_PlanSHA256 je_ApprovalSHA256 je_ApprovalScopeSHA256 je_AdapterExecutableSHA256].
  by rewrite !String.eqb_refl.
Qed.

Lemma newJournalEntry_derived now n step digests previous :
  derived (newJournalEntry now n plan approval step digests.1 digests.2 previous None) digests = true.
Proof.
  unfold derived, newJournalEntry, JournalEntry_with_EntrySHA256.
  cbn [je_Response je_RequestSHA256 je_ResponseSHA256 is_nil]. by rewrite !String.eqb_refl.
Qed.

Lemma newJournalEntry_step now n step request response previous recorded :
  je_Step (newJournalEntry now n plan approval step request response previous recorded) = step.
Proof. done. Qed.

(** An entry with which, once it is accepted, the journal is still bound. *)
Definition extends (es : list JournalEntry) (e : JournalEntry) : Prop :=
  validateJournalEntry e (last es) = None -> validTransition es (je_Step e) = true ->
  bound (es ++ [e]).

Lemma extends_intro es e : bound es -> (forall response, je_Response e = Some response -> wire response) ->
  (chain_ok (es ++ [e]) -> settled es (je_Step e)) ->
  (chain_ok (es ++ [e]) -> check_bound_entry plan approval (es ++ [e]) (length es) e = None) ->
  extends es e.
Proof.
  intros H Hr Hs Hb Hv Ht. pose proof (bound_nonempty _ H) as Hne.
  pose proof (chain_length _ (bound_chain _ H)).
  assert (chain_ok (es ++ [e])) as Hc.
  { apply chain_ok_snoc; [done|]. split_and!; [apply (bound_chain _ H)|lia|done|done]. }
  apply bound_snoc; auto. apply (valid_entry_wire e _ Hv); [|done].
  intros p Hp. apply last_Some_elem_of in Hp. pose proof (bound_wire _ H) as Hw.
  rewrite Forall_forall in Hw. by apply Hw.
Qed.

Lemma not_started_settled es next : rollbackStarted es = false -> settled es next.
Proof.
  intros H p Hp Hr. apply last_Some_elem_of in Hp.
  assert (rollbackStarted es = true); [|congruence].
  apply existsb_elem. exists p. by rewrite Hr.
Qed.

Section Next.
Context (es : list JournalEntry) (p : JournalEntry) (now : Time).
Context (Hb : bound es) (Hp : last es = Some p).

#[local] Abbreviation new step digests recorded :=
  (newJournalEntry now (length es + 1) plan approval step digests.1 digests.2 (je_EntrySHA256 p) recorded).

Lemma previous_last e : (es ++ [e]) !! (length es - 1) = Some p /\ exists n, length es = S n.
Proof.
  pose proof (bound_nonempty _ Hb) as Hne. assert (0 < length es) by (destruct es; [done|cbn; lia]).
  split; [|exists (length es - 1); lia]. rewrite lookup_snoc_before by lia. rewrite last_lookup in Hp.
  by replace (length es - 1) with (pred (length es)) by lia.
Qed.

Lemma next_none e : (es ++ [e]) !! S (length es) = None.
Proof. apply lookup_ge_None_2. rewrite length_app. cbn. lia. Qed.

Lemma extends_started : rollbackStarted es = false -> length es = 1 ->
  extends es (new "mutation-started" (mutationStartedDigests plan (je_EntrySHA256 p)) None).
Proof.
  intros Hr Hl. apply extends_intro; [done|done|intros _; by apply not_started_settled|]. intros _.
  destruct (previous_last (new "mutation-started" (mutationStartedDigests plan (je_EntrySHA256 p)) None))
    as [Hq _]. rewrite Hl in Hq |- *.
  apply (check_started _ _ p); [apply newJournalEntry_bound|done|done|apply newJournalEntry_derived].
Qed.

Lemma check_adapter_new request failed step response recorded :
  (recorded = None -> failed = true /\ response = expectedFailure step) ->
  (forall r, recorded = Some r -> response = rs_ResponseSHA256 r /\ wire r /\
     validateAdapterResponseBinding request r = None /\
     (failed = false -> ValidateAdapterResponse request r = None)) ->
  check_adapter_entry request failed (new step (rq_RequestSHA256 request, response) recorded) = None.
Proof.
  intros Hn Hs. unfold check_adapter_entry, newJournalEntry, JournalEntry_with_EntrySHA256.
  cbn [je_RequestSHA256 je_ResponseSHA256 je_Response je_Step fst snd]. rewrite String.eqb_refl. cbn [negb].
  destruct recorded as [r|].
  - destruct (Hs r eq_refl) as (-> & _ & Hbind & Hv). rewrite String.eqb_refl, Hbind. cbn [negb is_nil].
    destruct failed; [by rewrite andb_false_r|]. by rewrite Hv.
  - destruct (Hn eq_refl) as [-> ->]. by rewrite String.eqb_refl.
Qed.

Lemma extends_adapter step request response recorded :
  adapter_step step = true -> request = step_request plan approval step (je_EntrySHA256 p) ->
  settled es step ->
  (recorded = None -> HasPrefix step "rollback-" = true /\ response = expectedFailure step) ->
  (forall r, recorded = Some r -> response = rs_ResponseSHA256 r /\ wire r /\
     validateAdapterResponseBinding request r = None /\
     (HasPrefix step "rollback-" = false -> ValidateAdapterResponse request r = None)) ->
  extends es (new step (rq_RequestSHA256 request, response) recorded).
Proof.
  intros Ha Hrq Hset Hn Hs. apply extends_intro; [done| |done|].
  { intros r Hr. by apply (Hs r). }
  intros _. destruct (previous_last (new step (rq_RequestSHA256 request, response) recorded)) as [Hq [n Hl]].
  rewrite Hl in Hq |- *. cbn [Nat.sub] in Hq. rewrite Nat.sub_0_r in Hq.
  apply (check_adapter _ _ p); [apply newJournalEntry_bound|done|done| |].
  - rewrite <- Hl. apply next_none.
  - rewrite newJournalEntry_step, <- Hrq, <- Hl. by apply check_adapter_new.
Qed.

Lemma extends_completed response : rollbackStarted es = false -> je_Step p = "proof-assembled" ->
  je_Response p = Some response ->
  extends es (new "completed" (completedDigests (rs_ResponseSHA256 response)) None).
Proof.
  intros Hr Hs Hre. apply extends_intro; [done|done|intros _; by apply not_started_settled|]. intros _.
  assert (je_ResponseSHA256 p = rs_ResponseSHA256 response) as Hsha.
  { apply (chain_response es); [apply (bound_chain _ Hb)|by apply last_Some_elem_of|done]. }
  destruct (previous_last (new "completed" (completedDigests (rs_ResponseSHA256 response)) None)) as [Hq [n Hl]].
  rewrite Hl in Hq |- *. cbn [Nat.sub] in Hq. rewrite Nat.sub_0_r in Hq.
  apply (check_completed _ _ p); [apply newJournalEntry_bound|done|done|done|by eexists|].
  rewrite Hsha. apply newJournalEntry_derived.
Qed.

Lemma extends_terminal step :
  step = "rollback-failed" \/ step = "rolled-back" /\
    rollbackResponseSucceeded plan approval es (length es - 1) = true ->
  extends es (new step (rollbackTerminalDigests step (je_EntrySHA256 p) (je_ResponseSHA256 p)) None).
Proof.
  intros Hs. apply extends_intro; [done|done| |].
  { intros _ q Hq _. destruct Hs as [-> |[_ Hs]]; [by left|by right]. }
  intros _.
  destruct (previous_last (new step (rollbackTerminalDigests step (je_EntrySHA256 p) (je_ResponseSHA256 p)) None))
    as [Hq [n Hl]].
  rewrite Hl in Hq |- *. cbn [Nat.sub] in Hq. rewrite Nat.sub_0_r in Hq.
  apply (check_terminal _ _ p); [apply newJournalEntry_bound|done| |].
  - rewrite newJournalEntry_step. naive_solver.
  - rewrite newJournalEntry_step. apply newJournalEntry_derived.
Qed.
End Next.
End Bound.

(** * The length of a journal line

    A line without a response, or with one that is not too long, is within
    [maxEntryBytes]. *)

(** ** Lines *)

Lemma len_sha value : validSHA value = true -> len value <= 64.
Proof. unfold validSHA, shaPattern, hex_of_length. intros [_ H]%andb_true_iff. apply Nat.eqb_eq in H. lia. Qed.

Lemma len_id value : validID value = true -> len value <= 128.
Proof.
  unfold validID, idPattern, match_first_rest. destruct value as [|c r]; [done|].
  intros [_ H]%andb_true_iff. apply Nat.leb_le in H. rewrite len_String. lia.
Qed.

(** A line is not much longer than the response in it. *)
Lemma entry_line_bound e (n : Z) : (0 <= n)%Z ->
  je_SchemaVersion e = JournalEntryVersion -> validID (je_OperationID e) = true ->
  validID (je_Step e) = true ->
  Forall (fun sha => len sha <= 64) [je_PlanSHA256 e; je_ApprovalSHA256 e; je_ApprovalScopeSHA256 e;
    je_AdapterExecutableSHA256 e; je_RequestSHA256 e; je_ResponseSHA256 e; je_PreviousEntrySHA256 e;
    je_EntrySHA256 e] ->
  len (je_RecordedAt e) <= 148 ->
  (forall response, je_Response e = Some response -> (Z.of_nat (len (json_Marshal response)) <= n)%Z) ->
  (Z.of_nat (len (entry_line e)) <= n + 7000)%Z.
Proof.
  intros Hn Hv Ho%len_id Hs%len_id Hsha Ht Hr. rewrite len_entry_line. unfold json_Marshal.
  change (marshal e) with (JStruct (JournalEntry_fields e)).
  pose proof (len_struct (JournalEntry_fields e)) as H. unfold JournalEntry_fields in H at 2.
  cbn [List.map] in H. rewrite !sum_cons in H. change (sum []) with 0 in H.
  repeat (apply Forall_cons in Hsha as [? Hsha]). rewrite Hv in H.
  pose proof (size_string "schemaVersion" JournalEntryVersion 40 eq_refl ltac:(apply Nat.leb_le; reflexivity)).
  pose proof (size_int "sequence" (je_Sequence e) eq_refl).
  pose proof (size_string "operationId" (je_OperationID e) 128 eq_refl ltac:(lia)).
  pose proof (size_string "planSha256" (je_PlanSHA256 e) 64 eq_refl ltac:(lia)).
  pose proof (size_string "approvalSha256" (je_ApprovalSHA256 e) 64 eq_refl ltac:(lia)).
  pose proof (size_string "approvalScopeSha256" (je_ApprovalScopeSHA256 e) 64 eq_refl ltac:(lia)).
  pose proof (size_string "adapterExecutableSha256" (je_AdapterExecutableSHA256 e) 64 eq_refl ltac:(lia)).
  pose proof (size_string "step" (je_Step e) 128 eq_refl ltac:(lia)).
  pose proof (size_string "requestSha256" (je_RequestSHA256 e) 64 eq_refl ltac:(lia)).
  pose proof (size_string "responseSha256" (je_ResponseSHA256 e) 64 eq_refl ltac:(lia)).
  assert (forall a, je_Response e = Some a -> len (json_Marshal a) <= Z.to_nat n) as Hr'.
  { intros a Ha. specialize (Hr a Ha). lia. }
  pose proof (size_pointer "response" (je_Response e) (Z.to_nat n) eq_refl Hr').
  pose proof (size_omitempty "previousEntrySha256" (je_PreviousEntrySHA256 e) 64 eq_refl ltac:(lia)).
  pose proof (size_string "recordedAt" (je_RecordedAt e) 148 eq_refl ltac:(lia)).
  pose proof (size_string "entrySha256" (je_EntrySHA256 e) 64 eq_refl ltac:(lia)).
  lia.
Qed.
