(* ===== verification/DrillHeld.v ===== *)
(** * Journal files under concurrency and crashes

    What a file holds, how appending changes it, what a process that holds a
    file's lock may rely on ([R]), and the specifications of the operations on
    journal files (DrillFiles) in the logic of Programs. *)

From stdpp Require Import gmap strings list relations.
From Stdlib Require Import ZArith Ascii Lia.
From S2P Require Import Prelude GoString GoPath GoTime GoSha256 GoJson GoJsonCorrect StrictJson StrictJsonCorrect GoRfc3339 Programs JsonStructs DrillTypes DrillValidate DrillJournal DrillFiles DrillEngine DrillCodec DrillJournalCorrect DrillBound.

#[local] Opaque sha256_hex.

(** ** The journal a text holds *)

Definition holds (text : string) (es : list JournalEntry) : Prop :=
  ends_line text /\ decodeJournal text = Ok es.

Lemma holds_functional text es es' : holds text es -> holds text es' -> es = es'.
Proof. intros [_ H] [_ H']. congruence. Qed.

Lemma holds_chain text es : holds text es -> chain_ok es /\ Forall wire es.
Proof. intros [_ H]. by apply decodeJournal_Ok in H. Qed.

Lemma ends_line_split text : text <> "" -> ends_line text -> exists body, text = body +:+ String newline "".
Proof.
  intros Hne H. destruct (string_snoc text Hne) as (t & c & ->). exists t.
  unfold ends_line in H. rewrite get_last in H. by injection H as ->.
Qed.

Lemma split_lines_cons s : exists line rest, split_lines s = line :: rest.
Proof.
  induction s as [|c s (line & rest & IH)]; cbn [split_lines]; [by eexists _, _|].
  rewrite IH. destruct (Ascii.eqb c newline); by eexists _, _.
Qed.

Lemma split_lines_app a b :
  split_lines (a +:+ String newline b) = split_lines a ++ split_lines b.
Proof.
  induction a as [|c a IH]; [done|]. rewrite string_app_cons. cbn [split_lines]. rewrite IH.
  destruct (Ascii.eqb c newline); [done|].
  destruct (split_lines_cons a) as (line & rest & ->). done.
Qed.

Lemma decode_lines_app acc xs ys : decode_lines acc (xs ++ ys) =
  match decode_lines acc xs with Ok es => decode_lines es ys | Err err => Err err end.
Proof.
  revert acc. induction xs as [|x xs IH]; intros acc; [done|]. cbn [decode_lines app].
  destruct (DecodeExact x); [|done]. destruct (_ || _); [done|]. apply IH.
Qed.

(** An accepted entry, appended as a line. *)
Lemma holds_append text es e : holds text es -> wire e -> line_fits e ->
  validateJournalEntry e (last es) = None -> validTransition es (je_Step e) = true ->
  holds (text +:+ entry_line e) (es ++ [e]).
Proof.
  intros [He Hd] Hw Hl Hv Ht. pose proof (decodeJournal_Ok _ _ Hd) as [Hc _].
  pose proof (chain_length _ Hc) as Hlen.
  assert (text <> "") as Hne by (intros ->; done).
  destruct (ends_line_split _ Hne He) as [body ->]. unfold entry_line.
  split; [unfold ends_line; rewrite <- string_app_assoc; apply get_last|]. revert Hd. unfold decodeJournal.
  rewrite (take_chars_app _ body) by (rewrite len_app; cbn; lia).
  rewrite <- (string_app_assoc (body +:+ _)), (take_chars_app _ ((body +:+ String newline "") +:+ json_Marshal e))
    by (rewrite (len_app (_ +:+ _)); cbn; lia).
  rewrite (string_app_assoc body), string_app_cons, split_lines_app.
  change ("" +:+ json_Marshal e) with (json_Marshal e).
  rewrite (split_lines_last (json_Marshal e)), length_app by (by apply entry_line_one_line).
  destruct ((length (split_lines body) =? 0) || (32 <? length (split_lines body))) eqn:E; [done|].
  intros Hd. pose proof (decode_lines_Ok _ _ _ Hd) as (more & -> & Hm & _ & _). cbn [app] in *.
  change (length [json_Marshal e]) with 1.
  destruct ((length (split_lines body) + 1 =? 0) || (32 <? length (split_lines body) + 1)) eqn:E'.
  { apply orb_true_iff in E' as [E'|E']; go_simp; lia. }
  rewrite decode_lines_app, Hd. cbn [decode_lines]. rewrite line_fits_decodes by done.
  by rewrite Hv, Ht.
Qed.

(** What is written of a line: nothing, all of it, or a part without its end. *)
Lemma line_prefix e part : HasPrefix (entry_line e) part = true ->
  part = "" \/ part = entry_line e \/ part <> "" /\ HasPrefix (json_Marshal e) part = true.
Proof.
  unfold entry_line. revert part. generalize (json_Marshal e). intros s.
  induction s as [|c s IH]; intros part H.
  - destruct part as [|d part]; [by left|]. right. left.
    change (HasPrefix (String newline "") (String d part) = true) in H. unfold HasPrefix in H. cbn in H.
    destruct (ascii_dec d newline) as [->|]; [|done]. destruct part; [reflexivity|discriminate H].
  - destruct part as [|d part]; [by left|]. right. rewrite string_app_cons in *. unfold HasPrefix in H. cbn in H.
    destruct (ascii_dec d c) as [->|]; [|done].
    assert (forall t, HasPrefix s t = true -> HasPrefix (String c s) (String c t) = true) as Hc.
    { intros t Ht. unfold HasPrefix. cbn. by destruct (ascii_dec c c). }
    destruct (IH part H) as [->|[->|[_ Hp]]]; [right|by left|right]; (split; [done|]); apply Hc; [|done].
    by destruct s.
Qed.

Lemma prefix_one_line s part : one_line s = true -> HasPrefix s part = true -> one_line part = true.
Proof.
  unfold one_line. intros Hs (t & ->)%HasPrefix_split. rewrite all_chars_app in Hs.
  by apply andb_true_iff in Hs as [? _].
Qed.

(** ** What others may change *)

Definition closed (text : string) : Prop :=
  exists es p, holds text es /\ last es = Some p /\ terminal_step (je_Step p) = true.

(** While [i] runs, the others keep its locks and the files it locked; files
    only grow, and not after a terminal entry. *)
Record rely (i : nat) (w w' : world) : Prop := {
  rely_lock file : w_locks w !! file = Some i -> w_locks w' !! file = Some i;
  rely_locked file text : w_locks w !! file = Some i -> w_files w !! file = Some text ->
    w_files w' !! file = Some text;
  rely_grows file text : w_files w !! file = Some text ->
    exists more, w_files w' !! file = Some (text +:+ more) /\ (closed text -> more = "")
}.

#[export] Instance rely_preorder i : PreOrder (rely i).
Proof.
  split.
  - intros w. constructor; [done..|]. intros file text H. exists "". by rewrite string_app_nil_r.
  - intros w1 w2 w3 [L1 K1 G1] [L2 K2 G2]. constructor.
    + auto.
    + eauto.
    + intros file text H. destruct (G1 _ _ H) as (m1 & H1 & C1). destruct (G2 _ _ H1) as (m2 & H2 & C2).
      exists (m1 +:+ m2). rewrite <- string_app_assoc. split; [done|]. intros Hc.
      rewrite (C1 Hc), string_app_nil_r in C2. rewrite (C1 Hc). by rewrite (C2 Hc).
Qed.

(** What the files of a world say for good. *)
Definition grows (w w' : world) : Prop := forall file text, w_files w !! file = Some text ->
  exists more, w_files w' !! file = Some (text +:+ more) /\ (closed text -> more = "").

Definition lasting {A} (Q : world -> A -> Prop) : Prop := forall w w' a, grows w w' -> Q w a -> Q w' a.

Lemma same_files_grow w w' : w_files w' = w_files w -> grows w w'.
Proof. intros Hf file text H. exists "". by rewrite Hf, string_app_nil_r. Qed.

(** A world with the same files in which [i] kept its locks. *)
Lemma rely_same_files i w w' : w_files w' = w_files w ->
  (forall file, w_locks w !! file = Some i -> w_locks w' !! file = Some i) -> rely i w w'.
Proof.
  intros Hf Hl. constructor; [done| |]; intros file text; rewrite Hf; [done|]. intros H. exists "".
  by rewrite string_app_nil_r.
Qed.

(** ** What a process may do

    The transaction a process works on has a plan and an approval. *)

Section Held.
Context (cwd : string) (plan : Plan) (approval : ApprovalReport).

(** The lock of a file that holds a bound journal. *)
Record owned (i : nat) (file : nat) (es : list JournalEntry) (w : world) : Prop := {
  owned_lock : w_locks w !! file = Some i;
  owned_text : exists text, w_files w !! file = Some text /\ holds text es;
  owned_bound : bound plan approval es
}.

Lemma owned_rely i file es w w' : rely i w w' -> owned i file es w -> owned i file es w'.
Proof.
  intros Hr [Hl (text & Ht & Hh) Hb]. constructor; [by apply Hr| |done].
  exists text. split; [|done]. by apply (rely_locked _ _ _ Hr).
Qed.

Definition may_append (i : nat) (w : world) (file : nat) (offset : Z) (data : string) : Prop :=
  exists text es e, w_locks w !! file = Some i /\ w_files w !! file = Some text /\ holds text es /\
    bound plan approval es /\ bound plan approval (es ++ [e]) /\ line_fits e /\ offset = Z.of_nat (len text) /\ data = entry_line e.

Definition may_create (data : string) : Prop :=
  exists e, bound plan approval [e] /\ data = entry_line e.

Definition allowed (may_run : AdapterRequest -> world -> Prop) (i : nat) (w : world) (X : Type)
    (e : sys X) : Prop :=
  match e with
  | WriteAt file offset data => may_append i w file offset data
  | Link _ data => may_create data
  | Run request => may_run request w
  | _ => True
  end.

(** *** What a step of an allowed process means for the others *)

Lemma bound_before es e : es <> [] -> bound plan approval (es ++ [e]) ->
  chain_ok es /\ validateJournalEntry e (last es) = None /\ validTransition es (je_Step e) = true /\ wire e.
Proof.
  intros Hne H. pose proof (bound_chain _ _ _ H) as Hc. apply chain_ok_snoc in Hc as (? & _ & ? & ?); [|done].
  pose proof (bound_wire _ _ _ H) as Hw. apply Forall_app in Hw as [_ Hw]. rewrite Forall_singleton in Hw. by split_and!.
Qed.

Lemma holds_nonempty text es : holds text es -> es <> [].
Proof. intros H. apply holds_chain in H as [H _]. by apply chain_ok_nonempty. Qed.

Lemma not_closed text es e : holds text es -> bound plan approval (es ++ [e]) -> ~ closed text.
Proof.
  intros Hh Hb (es' & p & Hh' & Hp & Ht). rewrite (holds_functional _ _ _ Hh' Hh) in Hp.
  pose proof (holds_nonempty _ _ Hh) as Hne.
  destruct (bound_before _ _ Hne Hb) as (_ & _ & Hv & _).
  apply validTransition_true in Hv as (q & Hq & Hn & _); [|done]. congruence.
Qed.

Lemma write_at_end text data : write_at text (Z.of_nat (len text)) data = text +:+ data.
Proof.
  unfold write_at. rewrite Nat2Z.id. replace text with (text +:+ "") at 2 by apply string_app_nil_r.
  rewrite take_chars_app by done.
  assert (drop_chars (len text + len data) text = "") as ->; [|by rewrite string_app_nil_r].
  generalize (len data). intros n. induction text as [|c text IH]; [by destruct n|].
  rewrite len_String. cbn [Nat.add drop_chars]. exact IH.
Qed.

Lemma allowed_rely may_run i i' w X (e : sys X) x w' :
  allowed may_run i w X e -> perform cwd i X e w x w' -> i' <> i -> rely i' w w'.
Proof.
  intros Ha Hp Hne. destruct e; cbn in Ha, Hp.
  all: try (subst w'; reflexivity).
  all: try (apply proj1 in Hp; subst w'; reflexivity).
  - destruct x; [|by subst w'; apply rely_preorder]. destruct Hp as [_ ->]. constructor; cbn; [done| |].
    + intros file text _ Hf. by apply lookup_app_l_Some.
    + intros file text Hf. exists "". rewrite string_app_nil_r. split; [|done]. by apply lookup_app_l_Some.
  - destruct Hp as [-> | ->]; [reflexivity|]. by apply rely_same_files.
  - destruct x; [|by subst w'; apply rely_preorder]. destruct Hp as [Hl ->]. apply rely_same_files; [done|].
    intros f Hf. cbn. rewrite lookup_insert_ne; [done|]. intros ->. congruence.
  - destruct Ha as (text & es & entry & Hl & Hf & Hh & _ & Hb & _ & -> & ->). destruct Hp as (part & -> & _).
    unfold wrote. rewrite Hf. constructor; cbn; [done| |].
    + intros f t Hlf Hft. rewrite list_lookup_insert_ne; [done|]. intros ->. congruence.
    + intros f t Hft. destruct (decide (f = file)) as [->|Hd].
      * rewrite Hf in Hft. injection Hft as <-. exists part. split.
        { rewrite list_lookup_insert_eq by (by eapply lookup_lt_Some). by rewrite write_at_end. }
        { intros Hc. by destruct (not_closed _ _ _ Hh Hb). }
      * exists "". rewrite string_app_nil_r, list_lookup_insert_ne by done. done.
  - subst w'. apply rely_same_files; [done|]. intros f Hf. cbn.
    destruct (w_locks w !! file) as [h|] eqn:E; [|done]. destruct (decide (h = i)) as [->|]; [|done].
    rewrite lookup_delete_ne; [done|]. intros ->. congruence.
Qed.

Lemma killed_rely i i' w : i' <> i -> rely i' w (killed i w).
Proof.
  intros Hne. apply rely_same_files; [done|]. intros f Hf. cbn. apply map_lookup_filter_Some. split; [done|]. cbn.
  congruence.
Qed.

(** *** Specifications of the operations on journal files *)

Section Specs.
Context (i : nat) (may_run : AdapterRequest -> world -> Prop).

#[local] Abbreviation WP := (wp (perform cwd) rely (fun _ => True) (allowed may_run i) i).

Lemma wp_need {A} message (k : P (result A)) Q w :
  (forall w1, rely i w w1 -> WP k Q w1) ->
  (forall w1, rely i w w1 -> Q w1 (Err (errors_New message))) -> WP (need message k) Q w.
Proof.
  intros Hk He. unfold need, call. cbn. intros w1 Hr _. split; [done|]. intros x w2 -> _.
  destruct x; [by apply Hk|by apply He].
Qed.

Lemma wp_ask {A X} (e : sys X) (k : X -> P A) Q w :
  (forall w1, rely i w w1 -> allowed may_run i w1 X e) ->
  (forall w1 x w2, rely i w w1 -> perform cwd i X e w1 x w2 -> WP (k x) Q w2) ->
  WP (x ← call e; k x) Q w.
Proof. intros He Hk w1 R1 _. split; [by apply He|]. intros x w2 Hx _. by eapply Hk. Qed.

Lemma wp_clock {A} (k : Time -> P A) Q w :
  (forall w1 now, rely i w w1 -> WP (k now) Q w1) -> WP (now ← call Clock; k now) Q w.
Proof. intros Hk. cbn. intros w1 R1 _. split; [done|]. intros now ? -> _. by apply Hk. Qed.

Definition loaded (file : nat) (r : result (list JournalEntry * Z)) (w : world) : Prop :=
  forall es size, r = Ok (es, size) ->
  exists text, w_files w !! file = Some text /\ holds text es /\ size = Z.of_nat (len text).

Ltac by_rely := repeat first [eassumption | reflexivity | etrans; [eassumption|]].

Lemma wp_load t Q w : w_locks w !! jt_file t = Some i ->
  (forall w1 r, rely i w w1 -> loaded (jt_file t) r w1 -> Q w1 r) -> WP (load t) Q w.
Proof.
  intros Hlock HQ. unfold load. cbn.
  intros w1 R1 _. split; [done|]. intros size ? [-> Hsize] _.
  intros w2 R2 _. split; [done|]. intros same ? [-> _] _.
  assert (rely i w w2) as R12 by by_rely.
  assert (forall w3 err, rely i w2 w3 -> Q w3 (Err err)) as Hfail.
  { intros w3 err R3. apply HQ; [by_rely|]. intros ? ? [=]. }
  destruct size as [size|]; [|by apply Hfail]. destruct (_ || _); [by apply Hfail|].
  apply wp_need; [|intros; by apply Hfail].
  intros w3 R3. cbn. intros w4 R4 _. split; [done|]. intros payload ? [-> Hp] _.
  intros w5 R5 _. split; [done|]. intros same' ? [-> _] _.
  assert (rely i w w4) as R14 by by_rely. assert (rely i w2 w5) as R25 by by_rely.
  destruct payload as [payload|]; [|by apply Hfail].
  destruct (_ || _) eqn:E; [by apply Hfail|]. cbn.
  destruct (decodeJournal payload) as [es|] eqn:Hd; [|by apply Hfail].
  apply HQ; [by_rely|]. intros es' size' [= <- <-].
  apply orb_false_iff in E as [E Hend]. apply orb_false_iff in E as [E _]. apply orb_false_iff in E as [_ E].
  apply negb_false_iff, Z.eqb_eq in E. exists payload. split_and!; [|split; [|done]|done].
  - apply (rely_locked _ _ _ R5); [|by apply Hp]. by apply (rely_lock _ _ _ R14).
  - unfold ends_line. destruct (String.get _ _) as [c|]; [|done]. apply negb_false_iff in Hend.
    by apply Ascii.eqb_eq in Hend as ->.
Qed.

Lemma loaded_owned file es es' size w :
  owned i file es w -> loaded file (Ok (es', size)) w ->
  es' = es /\ exists text, w_files w !! file = Some text /\ holds text es /\ size = Z.of_nat (len text).
Proof.
  intros [_ (text & Ht & Hh) _] Hl. destruct (Hl _ _ eq_refl) as (text' & Ht' & Hh' & Hs).
  rewrite Ht in Ht'. injection Ht' as <-. split; [by eapply holds_functional|]. by exists text.
Qed.

Lemma wp_append t es e Q w : owned i (jt_file t) es w -> extends plan approval es e ->
  (forall w1 r, (r = Ok tt -> owned i (jt_file t) (es ++ [e]) w1) -> Q w1 r) ->
  WP (appendJournal t e) Q w.
Proof.
  intros Ho Hext HQ. unfold appendJournal. apply wp_bind, wp_load; [apply Ho|].
  assert (forall w1 err, Q w1 (Err err)) as Hfail by (intros; apply HQ; intros [=]).
  intros w1 [[es' size]|] R1 Hl; [|apply Hfail].
  destruct (loaded_owned _ _ _ _ _ (owned_rely _ _ _ _ _ R1 Ho) Hl) as [-> (text & Ht & Hh & ->)].
  destruct (last es) as [p|] eqn:Hlast; [|apply Hfail].
  destruct (_ || _) eqn:E; [apply Hfail|]. apply orb_false_iff in E as [Hv Htr].
  apply is_nil_negb in Hv. apply negb_false_iff in Htr.
  destruct ((maxEntryBytes <? _)%Z || _) eqn:E; [apply Hfail|]. apply orb_false_iff in E as [Hfits _].
  apply Z.ltb_ge in Hfits. rewrite <- Hlast in Hv. pose proof (Hext Hv Htr) as Hb'.
  cbn. intros w2 R2 _. split; [done|]. intros opened ? [-> _] _.
  intros w3 R3 _. split; [done|]. intros same ? [-> _] _. destruct (_ || _); [apply Hfail|].
  apply wp_need; [|intros; apply Hfail]. intros w4 R4. cbn. intros w5 R5 _.
  assert (owned i (jt_file t) es w5) as Ho5 by (eapply owned_rely; [|exact Ho]; by_rely).
  assert (rely i w1 w5) as R15 by by_rely.
  assert (w_files w5 !! jt_file t = Some text) as Ht5.
  { apply (rely_locked _ _ _ R15); [|done]. apply (rely_lock _ _ _ R1), Ho. }
  split. { exists text, es, e. split_and!; try done; apply Ho5. }
  intros written w6 (part & -> & Hpart) _. destruct written; [subst part|apply Hfail]. cbn.
  assert (owned i (jt_file t) (es ++ [e]) (wrote w5 (jt_file t) (Z.of_nat (len text)) (entry_line e)))
    as Ho6.
  { unfold wrote. rewrite Ht5. constructor; cbn; [apply Ho5| |done]. exists (text +:+ entry_line e).
    rewrite list_lookup_insert_eq, write_at_end by (by eapply lookup_lt_Some). split; [done|].
    destruct (bound_before es e) as (_ & _ & _ & Hw); [by eapply holds_nonempty|done|].
    by apply holds_append. }
  apply wp_need; [|intros; apply Hfail]. intros w7 R7. cbn. intros w8 R8 _.
  split; [done|]. intros opened' ? [-> _] _. intros w9 R9 _. split; [done|]. intros same' ? [-> _] _.
  destruct (_ || _); [apply Hfail|].
  apply wp_need; [|intros; apply Hfail]. intros w10 R10. apply wp_need; [|intros; apply Hfail]. intros w11 R11.
  apply HQ. intros _. eapply owned_rely; [|exact Ho6]. by_rely.
Qed.

Lemma wp_open path Q w : (forall w1 err, Q w1 (Err err)) ->
  (forall w1 t, w_locks w1 !! jt_file t = Some i -> Q w1 (Ok t)) ->
  WP (openJournalTransaction cwd path) Q w.
Proof.
  intros Hfail HQ. unfold openJournalTransaction, openJournalRoot. apply wp_bind.
  destruct (_ == "/"); [by apply Hfail|].
  cbn. intros w1 R1 _. split; [done|]. intros selected w2 _ _. destruct selected as [selected|]; [|apply Hfail].
  apply wp_need; [|intros; apply Hfail]. intros w3 _.
  cbn. intros w4 _ _. split; [done|]. intros opened w5 _ _. destruct opened as [file|]; [|apply Hfail].
  destruct (negb _); [apply Hfail|]. cbn. intros w6 _ _. split; [done|]. intros locked w7 Hl _.
  destruct locked; [|apply Hfail]. destruct Hl as [_ ->]. cbn. intros w8 R8 _. split; [done|].
  intros same ? [-> _] _. destruct same; cbn.
  - apply HQ. apply (rely_lock _ _ _ R8). cbn. by rewrite lookup_insert_eq.
  - intros w9 _ _. split; [done|]. intros ? w10 _ _. apply Hfail.
Qed.

Lemma wp_WriteNew path data Q w : (exists e, bound plan approval [e] /\ data = entry_line e) ->
  (forall w1 r, Q w1 r) -> WP (WriteNew path data) Q w.
Proof.
  intros Hc HQ. unfold WriteNew. destruct (_ || _); [apply HQ|].
  do 3 (apply wp_need; [|intros; apply HQ]; intros).
  cbn. intros v4 _ _. split; [done|]. intros absent v5 _ _. destruct (negb absent); [apply HQ|].
  do 5 (apply wp_need; [|intros; apply HQ]; intros).
  cbn. intros v6 _ _. split; [exact Hc|]. intros linked v7 _ _. destruct (negb linked); [apply HQ|].
  cbn. intros v8 _ _. split; [done|]. intros removed v9 _ _. destruct (negb removed); cbn.
  { intros v10 _ _. split; [done|]. intros ? v11 _ _. apply HQ. }
  intros v10 _ _. split; [done|]. intros synced v11 _ _. destruct (negb synced); cbn; [|apply HQ].
  intros v12 _ _. split; [done|]. intros ? v13 _ _. apply HQ.
Qed.

Lemma zero_wire : wire zero_AdapterResponse.
Proof.
  unfold wire, AdapterResponse_laws, wire_AdapterResponse.
  split_and!; try apply utf8_nil; try apply Forall_nil_2; try (intros ? [=]; fail).
  all: try (split; apply utf8_nil). all: intros ? [=].
Qed.

Lemma wp_invoke adapter request Q w :
  (forall w1, rely i w w1 -> ad_IdentitySHA256 adapter = rq_AdapterExecutableSHA256 request -> may_run request w1) ->
  (forall w1 r, rely i w w1 -> (forall response, r = (response, None) ->
     wire response /\ ValidateAdapterResponse request response = None) ->
     (forall response err, r = (response, err) -> wire response) -> Q w1 r) ->
  WP (invoke adapter request) Q w.
Proof.
  intros Hrun HQ. unfold invoke.
  pose proof zero_wire as Hzero.
  assert (forall w1 err, rely i w w1 -> Q w1 (zero_AdapterResponse, Some err)) as Hfail.
  { intros w1 err R1. apply HQ; [done|by intros ? [=]|]. by intros ? ? [= <- _]. }
  destruct (_ || _) eqn:E; [by apply Hfail|]. apply orb_false_iff in E as [E _]. apply string_neqb_false in E.
  cbn. intros w1 R1 _. split; [by apply Hrun|]. intros output ? -> _.
  destruct output as [[stdout stderr]|]; [|by apply Hfail]. unfold read_response.
  destruct (_ || _); [by apply Hfail|]. destruct (DecodeExact stdout) as [response|] eqn:Hd; [|by apply Hfail].
  apply DecodeExact_wire in Hd. destruct (containsEnvironmentValue _ _); [by apply Hfail|].
  apply HQ; [done| |].
  - by intros r [= <- ->].
  - by intros r err [= <- _].
Qed.
End Specs.
End Held.
