(* ===== verification/DrillCorrect.v ===== *)
(** * The drill's transaction under concurrency and crashes

    The specifications of [Apply], [Recover] and [Rollback]: what their
    processes may do to journal files and ask of the adapter, and what their
    answers promise; and the pool of such processes. *)

From stdpp Require Import gmap strings list relations.
From Stdlib Require Import ZArith Ascii Lia.
From S2P Require Import Prelude GoString GoPath GoTime GoSha256 GoJson GoJsonCorrect StrictJson StrictJsonCorrect GoRfc3339 Programs JsonStructs DrillTypes DrillValidate DrillJournal DrillFiles DrillEngine DrillCodec DrillJournalCorrect DrillBound DrillHeld.

#[local] Opaque sha256_hex.

(** ** Journals before a rollback *)

Lemma running_steps es : chain_ok es -> rollbackStarted es = false ->
  1 <= length es <= 13 /\ steps es = take (length es) ApplySteps.
Proof.
  intros Hc Hr. apply chain_shape in Hc as (k & tail & Hk & Ht & _ & E).
  assert (forall s, s ∈ steps es -> s <> "rollback-safe-stop") as Hno.
  { intros s Hs ->. apply list_elem_of_In, in_map_iff in Hs as (e & He & Hin%list_elem_of_In).
    assert (rollbackStarted es = true); [|congruence]. apply existsb_elem. exists e. by rewrite He. }
  assert (tail = []) as ->.
  { unfold rollback_tails in Ht. repeat (apply elem_of_cons in Ht as [->|Ht]); [done|..|by apply elem_of_nil in Ht].
    all: destruct (Hno "rollback-safe-stop"); [rewrite E; apply elem_of_app; right; apply list_elem_of_here|done]. }
  rewrite app_nil_r in E. pose proof (f_equal length E) as Hl. unfold steps in Hl.
  rewrite length_map, length_take in Hl. change (length ApplySteps) with 13 in Hl.
  assert (length es = k) as -> by lia. done.
Qed.

Lemma running_last es p : chain_ok es -> rollbackStarted es = false -> last es = Some p ->
  ApplySteps !! (length es - 1) = Some (je_Step p).
Proof.
  intros Hc Hr Hp. destruct (running_steps es Hc Hr) as [Hn E].
  rewrite <- (apply_prefix_last (length es)), <- E, last_steps, Hp by lia. done.
Qed.

Lemma apply_step_kind n step : ApplySteps !! n = Some step -> 2 <= n -> n < 12 ->
  adapter_step step = true /\ HasPrefix step "rollback-" = false /\ (step == "mutation-started") = false.
Proof. intros H H2 H12. do 12 (destruct n as [|n]; [try lia; by simplify_eq/=|]). lia. Qed.

Lemma started_index n : ApplySteps !! n = Some "mutation-started" -> n = 1.
Proof. intros H. do 13 (destruct n as [|n]; [done|]). done. Qed.

Lemma step_index n step : ApplySteps !! n = Some step -> 1 <= n ->
  (step == "mutation-started") = false -> 2 <= n.
Proof. intros H Hn Hs. destruct n as [|[|n]]; [lia|by simplify_eq/=|lia]. Qed.

Lemma rollbackStarted_snoc es e : rollbackStarted es = false ->
  HasPrefix (je_Step e) "rollback-" = false -> je_Step e <> "rolled-back" ->
  rollbackStarted (es ++ [e]) = false.
Proof.
  intros H Hp Hr. unfold rollbackStarted in *. rewrite existsb_app, H. cbn [existsb].
  rewrite Hp. by apply String.eqb_neq in Hr as ->.
Qed.

Section Engine.
Context (cwd : string) (plan : Plan) (approval : ApprovalReport) (i : nat).

(** ** The requests a process may make of the adapter *)

Definition apply_due (request : AdapterRequest) (w : world) : Prop :=
  exists file es p step, owned plan approval i file es w /\ rollbackStarted es = false /\
    2 <= length es < 12 /\ last es = Some p /\ ApplySteps !! length es = Some step /\
    request = newAdapterRequest plan approval "apply" step (je_EntrySHA256 p).

Definition rollback_due (request : AdapterRequest) (w : world) : Prop :=
  exists file es p step, owned plan approval i file es w /\ last es = Some p /\
    (step = "rollback-safe-stop" /\ rollbackStarted es = false /\ length es < 13 \/
     step = "rollback-cleanup-requested" /\ je_Step p = "rollback-safe-stop" /\
       rollbackResponseSucceeded plan approval es (length es - 1) = true) /\
    request = newRollbackRequest plan approval step (je_EntrySHA256 p).

(** ** Applying *)

#[local] Abbreviation WA := (wp (perform cwd) rely (fun _ => True) (allowed plan approval apply_due i) i).
#[local] Abbreviation own := (owned plan approval i).

(** The journal of a run that goes on. *)
Record running (file : nat) (es : list JournalEntry) (w : world) : Prop := {
  running_owned : own file es w;
  running_steady : rollbackStarted es = false
}.

Lemma running_rely file es w w' : rely i w w' -> running file es w -> running file es w'.
Proof. intros Hr [Ho Hs]. split; [by eapply owned_rely|done]. Qed.

Lemma owned_chain file es w : own file es w -> chain_ok es.
Proof. intros H. apply (bound_chain _ _ _ (owned_bound _ _ _ _ _ _ H)). Qed.

Lemma wp_apply_step adapter t es step p Q w :
  running (jt_file t) es w -> last es = Some p -> ApplySteps !! length es = Some step -> length es < 12 ->
  (forall w1 err, Q w1 (Err err)) ->
  (forall w1 e, running (jt_file t) (es ++ [e]) w1 -> Q w1 (Ok e)) ->
  WA (apply_step plan approval adapter t es step p) Q w.
Proof.
  intros Hrun Hp Hstep Hlen Hfail HQ. pose proof (running_owned _ _ _ Hrun) as Hown.
  pose proof (running_steady _ _ _ Hrun) as Hst. pose proof (owned_bound _ _ _ _ _ _ Hown) as Hb.
  destruct (running_steps es (bound_chain _ _ _ Hb) Hst) as [Hn _].
  pose proof (apply_steps_rollback _ _ Hstep) as (_ & _ & _ & Hnr & Hpre & _).
  unfold apply_step. destruct (step == "mutation-started") eqn:Es.
  - apply String.eqb_eq in Es as ->.
    assert (length es = 1) as Hl1.
    { by apply started_index. }
    apply wp_clock. intros w1 now R1. apply wp_bind.
    eapply wp_append; [eapply owned_rely; [exact R1|exact Hown]|by apply (extends_started plan approval es p now)|].
    intros w2 [[]|err] Ho; cbn; [|apply Hfail]. apply HQ. split; [by apply Ho|].
    by apply rollbackStarted_snoc.
  - destruct (apply_step_kind (length es) step Hstep) as (Hk & _ & _); [|done|].
    { destruct (length es) as [|[|?]]; [lia|by simplify_eq/=|lia]. }
    apply wp_bind, wp_invoke.
    + intros w1 R1 _. exists (jt_file t), es, p, step. split_and!; try done; [by eapply owned_rely|].
      apply (step_index _ step); [done|lia|done].
    + intros w1 [response [err|]] R1 Hok _; [apply Hfail|]. destruct (Hok response eq_refl) as [Hw Hv].
      destruct (if step == "proof-assembled" then _ else _) as [err|]; [apply Hfail|].
      apply wp_clock. intros w2 now R2. apply wp_bind. eapply wp_append.
      * eapply owned_rely; [|exact Hown]. by etrans.
      * set (request := newAdapterRequest plan approval "apply" step (je_EntrySHA256 p)).
        apply (extends_adapter plan approval es p now Hb Hp step request); [done| | |done|].
        { unfold step_request. by rewrite Hpre. }
        { by apply not_started_settled. }
        { intros r [= <-]. split_and!; [done|done| |done]. by apply valid_response_bound. }
      * intros w3 [[]|err] Ho; cbn; [|apply Hfail]. apply HQ. split; [by apply Ho|].
        by apply rollbackStarted_snoc.
Qed.

Lemma wp_apply_loop fuel adapter t es Q w :
  running (jt_file t) es w -> (forall w1 err, Q w1 (Err err)) ->
  (forall w1 es', running (jt_file t) es' w1 -> 12 <= length es' -> Q w1 (Ok es')) ->
  WA (apply_loop plan approval fuel adapter t es) Q w.
Proof.
  revert es w. induction fuel as [|fuel IH]; intros es w Hrun Hfail HQ; cbn [apply_loop];
    change (length ApplySteps - 1) with 12;
    (destruct (Nat.ltb_spec (length es) 12) as [Hlt|Hge]; [|by apply HQ]).
  { apply Hfail. }
  destruct (ApplySteps !! length es) as [step|] eqn:Hstep; [|apply Hfail].
  destruct (last es) as [p|] eqn:Hp; [|apply Hfail].
  apply wp_bind. eapply wp_apply_step; [done..| |].
  - intros w1 err. apply Hfail.
  - intros w1 e Hrun'. apply IH; auto.
Qed.

Lemma wp_append_completed t es proof Q w :
  running (jt_file t) es w -> 12 <= length es -> proof_of es = Some proof ->
  (forall w1 err, Q w1 (Err err)) -> (forall w1 v, w_locks w1 !! jt_file t = Some i -> Q w1 (Ok v)) ->
  WA (append_completed plan approval t es proof) Q w.
Proof.
  intros Hrun Hlen Hproof Hfail HQ. pose proof (running_owned _ _ _ Hrun) as Hown.
  pose proof (running_steady _ _ _ Hrun) as Hst. pose proof (owned_bound _ _ _ _ _ _ Hown) as Hb.
  unfold append_completed. change (length ApplySteps - 1) with 12.
  destruct (Nat.eqb_spec (length es) 12) as [Hl|Hl]; [|apply HQ, Hown].
  destruct (last es) as [p|] eqn:Hp; [|apply Hfail].
  pose proof (running_last es p (bound_chain _ _ _ Hb) Hst Hp) as Hs. rewrite Hl in Hs.
  injection Hs as Hs. unfold proof_of in Hproof. rewrite Hp, <- Hs in Hproof.
  apply wp_clock. intros w1 now R1. apply wp_bind. eapply wp_append.
  - eapply owned_rely; [exact R1|exact Hown].
  - by apply (extends_completed plan approval es p now Hb Hp proof).
  - intros w2 [[]|err] Ho; cbn; [|apply Hfail]. apply HQ. by apply (Ho eq_refl).
Qed.

(** *** Receipts *)

Lemma ValidateReceipt_steps receipt es : ValidateReceipt plan approval receipt es = None ->
  steps es = ApplySteps.
Proof.
  unfold ValidateReceipt. destruct (ValidatePlan plan); [done|]. destruct (validateApprovalBinding _ _); [done|].
  destruct (_ || _); [done|]. cbn zeta. destruct (last_two es) as [[proofEntry completed]|]; [|done].
  destruct (je_Response proofEntry); [|done]. destruct (_ || _); [done|]. destruct (negb _); [done|].
  destruct (_ || _); [done|]. destruct (negb _); [done|].
  case_bool_decide as E; [done|]. done.
Qed.

Definition completed_run (receipt : ExecutionReceipt) (w : world) : Prop :=
  exists file text es, w_files w !! file = Some text /\ holds text es /\ bound plan approval es /\
    ValidateReceipt plan approval receipt es = None.

Lemma completed_closed receipt text es : holds text es -> ValidateReceipt plan approval receipt es = None ->
  closed text.
Proof.
  intros Hh Hr. apply ValidateReceipt_steps in Hr. pose proof (last_steps es) as Hl. rewrite Hr in Hl.
  destruct (last es) as [p|] eqn:Hp; [|done]. injection Hl as Hs. exists es, p. by rewrite <- Hs.
Qed.

Lemma completed_run_grows receipt w w' : grows w w' -> completed_run receipt w -> completed_run receipt w'.
Proof.
  intros Hr (file & text & es & Hf & Hh & Hb & Hv). destruct (Hr _ _ Hf) as (more & Hf' & Hc).
  rewrite (Hc (completed_closed _ _ _ Hh Hv)), string_app_nil_r in Hf'. by exists file, text, es.
Qed.

Lemma loaded_own file es size w : w_locks w !! file = Some i -> loaded file (Ok (es, size)) w ->
  validateApprovalBinding plan approval = None -> verifyJournalBinding plan approval es = None ->
  own file es w.
Proof.
  intros Hl Hf Ha Hv. destruct (Hf es size eq_refl) as (text & Ht & Hh & _).
  constructor; [done|by exists text|]. apply verify_bound; [done| |done]. by apply holds_chain in Hh as [_ ?].
Qed.

Lemma make_receipt_Ok es receipt : make_receipt plan approval es = Ok receipt ->
  ValidateReceipt plan approval receipt es = None.
Proof.
  unfold make_receipt. destruct (last_two es) as [[proofEntry completed]|]; [|done].
  destruct (je_Response proofEntry) as [proof|]; [|done]. destruct (validateProofResponse plan proof); [done|].
  destruct (rs_IsolationEvidence proof); [|done]. destruct (rs_CleanupEvidence proof); [|done].
  set (r := receipt_of _ _ _ _ _ _). destruct (ValidateReceipt plan approval r es) eqn:E; [done|].
  by intros [= <-].
Qed.

Context (Happroved : validateApprovalBinding plan approval = None).

Lemma wp_runApply t adapter Q w : w_locks w !! jt_file t = Some i ->
  (forall w1 err, Q w1 (Err err)) ->
  (forall w1 receipt, completed_run receipt w1 -> Q w1 (Ok receipt)) ->
  WA (runApply plan approval t adapter) Q w.
Proof.
  intros Hl Hfail HQ. unfold runApply. apply wp_bind, wp_load; [done|].
  intros w1 [[es size]|] R1 Hf; [|apply Hfail].
  destruct (verifyJournalBinding plan approval es) eqn:Hv; [apply Hfail|]. cbn [is_nil negb].
  destruct (rollbackStarted es) eqn:Hs; [apply Hfail|].
  apply wp_bind. apply wp_apply_loop; [|intros; apply Hfail|].
  { split; [|done]. eapply loaded_own; try done. by apply (rely_lock _ _ _ R1). }
  intros w2 es' Hrun Hlen. destruct (proof_of es') as [proof|] eqn:Hproof; [|apply Hfail].
  destruct (negb _); [apply Hfail|]. apply wp_bind, wp_append_completed; try done.
  intros w3 v Hl3. apply wp_bind, wp_load; [done|]. intros w4 [[es4 size4]|] R4 Hf4; [|apply Hfail]. cbn.
  destruct (verifyJournalBinding plan approval es4) eqn:Hv4; [apply Hfail|]. cbn [is_nil negb orb].
  destruct (negb _); [apply Hfail|].
  destruct (make_receipt plan approval es4) as [receipt|] eqn:Hr; [|apply Hfail].
  apply HQ. apply make_receipt_Ok in Hr.
  assert (own (jt_file t) es4 w4) as Ho by (eapply loaded_own; try done; by apply (rely_lock _ _ _ R4)).
  destruct (owned_text _ _ _ _ _ _ Ho) as (text & Ht & Hh). exists (jt_file t), text, es4.
  split_and!; try done. apply Ho.
Qed.

Lemma wp_closing {A} (G : guarantee) t (body : P A) Q w : lasting Q -> (forall w1, G w1 _ (Unlock (jt_file t))) ->
  wp (perform cwd) rely (fun _ => True) G i body Q w ->
  wp (perform cwd) rely (fun _ => True) G i (closing t body) Q w.
Proof.
  intros HQ HG Hb. unfold closing. apply wp_bind. eapply wp_mono; [|exact Hb].
  intros w1 a H1. cbn. intros w2 R2 _. split; [apply HG|]. intros ? w3 -> _.
  eapply HQ; [by apply same_files_grow|]. eapply HQ; [exact (rely_grows _ _ _ R2)|done].
Qed.

Definition receipt_true (w : world) (r : result ExecutionReceipt) : Prop :=
  forall receipt, r = Ok receipt -> completed_run receipt w.

Lemma receipt_true_lasting : lasting receipt_true.
Proof. intros w w' r Hg H receipt Hr. eapply completed_run_grows; eauto. Qed.

Lemma receipt_true_Err w err : receipt_true w (Err err).
Proof. by intros ? [=]. Qed.

Lemma wp_runApply_true t adapter w : w_locks w !! jt_file t = Some i ->
  WA (runApply plan approval t adapter) receipt_true w.
Proof.
  intros Hl. apply wp_runApply; [done|intros; apply receipt_true_Err|]. by intros w1 r Hr ? [= <-].
Qed.
End Engine.

Section Operations.
Context (cwd : string) (plan : Plan) (approval : ApprovalReport) (i : nat).

#[local] Abbreviation WA := (wp (perform cwd) rely (fun _ => True) (allowed plan approval (apply_due plan approval i) i) i).

Lemma execution_approved confirmation adapter now fresh a :
  validateExecutionInput plan approval confirmation adapter now fresh = Ok a ->
  validateApprovalBinding plan approval = None /\ adapter = Some a.
Proof.
  unfold validateExecutionInput, adapter_of. destruct adapter as [b|]; [|done].
  destruct (_ != ei_ExecutableSHA256 _); [done|]. destruct (_ || _) eqn:E; [done|]. intros [= ->].
  apply orb_false_iff in E as [E _]. apply is_nil_negb in E. split; [|done].
  destruct fresh; [|done]. unfold ValidateApproval in E. by destruct (validateApprovalBinding plan approval).
Qed.

Lemma first_entry_bound now : validateApprovalBinding plan approval = None ->
  let '(request, response) := approvalConsumedDigests plan approval in
  let e := newJournalEntry now 1 plan approval "approval-consumed" request response "" None in
  validateJournalEntry e None = None -> bound plan approval [e].
Proof.
  intros Ha. rewrite (surjective_pairing (approvalConsumedDigests plan approval)). cbn zeta beta.
  set (e := newJournalEntry _ _ _ _ _ _ _ _ _). intros Hv. constructor; [done| | |].
  - apply chain_ok_single. split; [done|]. apply newJournalEntry_step.
  - intros [|k] x [= <-]. apply check_consumed; [apply newJournalEntry_bound|apply newJournalEntry_step|].
    apply newJournalEntry_derived.
  - apply Forall_singleton. apply (valid_entry_wire e None Hv); [intros ? [=]|]. intros r [=].
Qed.

Lemma wp_CreateJournal path e Q w : (validateJournalEntry e None = None -> bound plan approval [e]) ->
  (forall w1 r, Q w1 r) -> WA (CreateJournal path e) Q w.
Proof.
  intros He HQ. unfold CreateJournal. destruct (_ || _); [apply HQ|].
  destruct (validateJournalEntry e None) eqn:Hv; [apply HQ|]. apply wp_WriteNew; [|done].
  exists e. auto.
Qed.

Lemma wp_Apply confirmation path adapter w :
  WA (Apply plan approval cwd confirmation path adapter) (receipt_true plan approval) w.
Proof.
  unfold Apply. apply wp_clock. intros w1 now R1.
  destruct (validateExecutionInput _ _ _ _ _ _) as [a|] eqn:Hin; [|apply receipt_true_Err].
  apply execution_approved in Hin as [Ha _].
  apply wp_ask; [done|]. intros w2 absent w3 R2 _. destruct absent; cbn [negb]; [|apply receipt_true_Err].
  generalize first_entry_bound. destruct (approvalConsumedDigests plan approval) as [request response].
  intros Hfirst.
  apply wp_clock. intros w4 now' R4. specialize (Hfirst now' Ha). cbn zeta beta in Hfirst.
  apply wp_bind, wp_CreateJournal; [exact Hfirst|]. intros w5 [created|]; [|apply receipt_true_Err].
  apply wp_bind, wp_open; [intros; apply receipt_true_Err|]. intros w6 t Hl.
  apply wp_closing; [apply receipt_true_lasting|done|]. by apply wp_runApply_true.
Qed.

Lemma wp_Recover confirmation path adapter w :
  WA (Recover plan approval cwd confirmation path adapter) (receipt_true plan approval) w.
Proof.
  unfold Recover. apply wp_clock. intros w1 now R1.
  destruct (validateExecutionInput _ _ _ _ _ _) as [a|] eqn:Hin; [|apply receipt_true_Err].
  apply execution_approved in Hin as [Ha _].
  apply wp_bind, wp_open; [intros; apply receipt_true_Err|]. intros w2 t Hl.
  apply wp_closing; [apply receipt_true_lasting|done|]. apply wp_bind, wp_load; [done|].
  intros w3 [[[|e es] size]|] R3 _; [apply receipt_true_Err| |apply receipt_true_Err].
  destruct (verifyJournalBinding _ _ _); [apply receipt_true_Err|].
  destruct (rollbackStarted _); [apply receipt_true_Err|].
  apply wp_runApply_true; [done|]. by apply (rely_lock _ _ _ R3).
Qed.

(** What [LoadJournal] answers stays the beginning of a file, whatever the
    operators do. *)
Definition load_true (w : world) (r : result (list JournalEntry)) : Prop :=
  forall es, r = Ok es -> exists file text more, w_files w !! file = Some (text +:+ more) /\ holds text es.

Lemma load_true_lasting : lasting load_true.
Proof.
  intros w w' r Hg H es Hr. destruct (H es Hr) as (file & text & more & Ht & Hh).
  destruct (Hg _ _ Ht) as (more' & Ht' & _). exists file, text, (more +:+ more'). by rewrite <- string_app_assoc.
Qed.

Lemma wp_LoadJournal path w : WA (LoadJournal cwd path) load_true w.
Proof.
  unfold LoadJournal. apply wp_bind, wp_open; [intros w1 err es [=]|]. intros w1 t Hl.
  apply wp_closing; [apply load_true_lasting|done|]. apply wp_bind, wp_load; [done|].
  intros w2 [[es size]|] R2 Hf; intros es' [=]; subst es'.
  destruct (Hf _ _ eq_refl) as (text & Ht & Hh & _). exists (jt_file t), text, "". by rewrite string_app_nil_r.
Qed.
End Operations.

(** ** Rolling back *)

Section Rollback.
Context (cwd : string) (plan : Plan) (approval : ApprovalReport) (i : nat).

#[local] Abbreviation WR :=
  (wp (perform cwd) rely (fun _ => True) (allowed plan approval (rollback_due plan approval i) i) i).
#[local] Abbreviation own := (owned plan approval i).

Definition rolled_back (w : world) : Prop :=
  exists file text es p, w_files w !! file = Some text /\ holds text es /\ bound plan approval es /\
    last es = Some p /\ je_Step p = "rolled-back".

Definition rollback_true (w : world) (r : option goerror) : Prop := r = None -> rolled_back w.

Lemma rollback_true_lasting : lasting rollback_true.
Proof.
  intros w w' r Hg H Hr. destruct (H Hr) as (file & text & es & p & Hf & Hh & Hb & Hp & Hs).
  destruct (Hg _ _ Hf) as (more & Hf' & Hc). rewrite Hc, string_app_nil_r in Hf'.
  - by exists file, text, es, p.
  - exists es, p. by rewrite Hs.
Qed.

Lemma owned_rolled_back file es p w : own file es w -> last es = Some p -> je_Step p = "rolled-back" ->
  rolled_back w.
Proof. intros [_ (text & Ht & Hh) Hb] Hp Hs. by exists file, text, es, p. Qed.

Lemma wp_terminal t es p step w : own (jt_file t) es w -> last es = Some p ->
  step = "rollback-failed" \/ step = "rolled-back" /\
    rollbackResponseSucceeded plan approval es (length es - 1) = true ->
  WR (appendRollbackTerminal plan approval t es step) rollback_true w.
Proof.
  intros Ho Hp Hs. unfold appendRollbackTerminal. rewrite Hp.
  generalize (fun now => extends_terminal plan approval es p now (owned_bound _ _ _ _ _ _ Ho) Hp step Hs).
  destruct (rollbackTerminalDigests step (je_EntrySHA256 p) (je_ResponseSHA256 p)) as [request response].
  intros Hext.
  apply wp_clock. intros w1 now R1. apply wp_bind. eapply wp_append; [by eapply owned_rely|apply Hext|].
  intros w2 [[]|err] Ho2; cbn; [|intros [=]]. destruct (step == "rollback-failed") eqn:E; [intros [=]|].
  intros _. destruct Hs as [->|[-> _]]; [done|].
  eapply owned_rolled_back; [by apply Ho2|by rewrite last_snoc|done].
Qed.

(** An answer that is recorded is bound to its request; a success always is. *)
Lemma recorded_response_spec request response digest recorded :
  recorded_response request response = (digest, recorded) ->
  (recorded = None -> digest = expectedFailure (rq_Step request)) /\
  (forall r, recorded = Some r -> r = response /\ digest = rs_ResponseSHA256 r /\
     validateAdapterResponseBinding request r = None) /\
  (ValidateAdapterResponse request response = None -> recorded = Some response).
Proof.
  unfold recorded_response. destruct (_ && _) eqn:E; intros [= <- <-].
  - apply andb_true_iff in E as [_ E]. apply is_nil_true in E. split_and!; [done| |done]. by intros r [= <-].
  - split_and!; [done|done|]. intros Hv%valid_response_bound.
    rewrite Hv, andb_true_r in E. unfold validateAdapterResponseBinding in Hv.
    destruct (_ || _) eqn:G in Hv; [done|]. apply orb_false_iff in G as [_ G]. apply string_neqb_false in G.
    rewrite G in E. unfold AdapterResponseSHA256, digest in E. by rewrite sha256_hex_valid in E.
Qed.

Definition rollback_step_due (es : list JournalEntry) (p : JournalEntry) (step : string) : Prop :=
  step = "rollback-safe-stop" /\ rollbackStarted es = false /\ length es < 13 \/
  step = "rollback-cleanup-requested" /\ je_Step p = "rollback-safe-stop" /\
    rollbackResponseSucceeded plan approval es (length es - 1) = true.

Lemma newRollbackRequest_step step previous : rq_Step (newRollbackRequest plan approval step previous) = step.
Proof. unfold newRollbackRequest. by destruct (step == "rollback-cleanup-requested"). Qed.

Lemma succeeded_snoc es p now step response digest :
  last es = Some p -> step = "rollback-safe-stop" \/ step = "rollback-cleanup-requested" ->
  let request := newRollbackRequest plan approval step (je_EntrySHA256 p) in
  let e := newJournalEntry now (length es + 1) plan approval step (rq_RequestSHA256 request) digest
             (je_EntrySHA256 p) (Some response) in
  ValidateAdapterResponse request response = None ->
  rollbackResponseSucceeded plan approval (es ++ [e]) (length (es ++ [e]) - 1) = true.
Proof.
  intros Hp Hs request e Hv. rewrite length_app. cbn [length].
  assert (exists n, length es = S n) as [n Hn] by (destruct es; [done|by eexists]).
  rewrite Hn. replace (S n + 1 - 1) with (S n) by lia. unfold rollbackResponseSucceeded.
  rewrite (list_lookup_middle es [] e (S n)) by done. rewrite lookup_app_l by lia.
  rewrite last_lookup, Hn in Hp. cbn [pred] in Hp. rewrite Hp.
  change (je_Response e) with (Some response). change (je_Step e) with step.
  change (je_RequestSHA256 e) with (rq_RequestSHA256 request). fold request. rewrite String.eqb_refl, Hv.
  by destruct Hs as [-> | ->].
Qed.

Lemma wp_rollback_step adapter t es p step Q w :
  own (jt_file t) es w -> last es = Some p -> rollback_step_due es p step ->
  (forall w1 err, Q w1 (Err err)) ->
  (forall w1 e err, own (jt_file t) (es ++ [e]) w1 -> je_Step e = step ->
    (err = None -> rollbackResponseSucceeded plan approval (es ++ [e]) (length (es ++ [e]) - 1) = true) ->
    Q w1 (Ok (e, err))) ->
  WR (rollback_step plan approval adapter t es step) Q w.
Proof.
  intros Ho Hp Hdue Hfail HQ. unfold rollback_step. rewrite Hp.
  set (request := newRollbackRequest plan approval step (je_EntrySHA256 p)). cbn zeta.
  assert (adapter_step step = true /\ HasPrefix step "rollback-" = true /\
    (step = "rollback-safe-stop" \/ step = "rollback-cleanup-requested")) as (Hk & Hpre & Hs).
  { destruct Hdue as [[-> _]|[-> _]]; auto. }
  assert (settled plan approval es step) as Hset.
  { destruct Hdue as [(-> & Hn & _)|(-> & _ & Hok)]; [by apply not_started_settled|]. intros q _ _. by right. }
  apply wp_bind, wp_invoke.
  - intros w1 R1 _. exists (jt_file t), es, p, step. split_and!; try done. by eapply owned_rely.
  - intros w1 [response err] R1 Hok Hw. specialize (Hw _ _ eq_refl).
    destruct (recorded_response request response) as [digest recorded] eqn:Hr.
    apply recorded_response_spec in Hr as (Hr1 & Hr2 & Hr3).
    apply wp_clock. intros w2 now R2. apply wp_bind. eapply wp_append.
    + eapply owned_rely; [|exact Ho]. by etrans.
    + apply (extends_adapter plan approval es p now (owned_bound _ _ _ _ _ _ Ho) Hp step request); [done| |done| |].
      * unfold step_request. by rewrite Hpre.
      * intros Hn. split; [done|]. rewrite (Hr1 Hn). unfold request. by rewrite newRollbackRequest_step.
      * intros r E. destruct (Hr2 r E) as (-> & -> & Hb). split_and!; [done|done|done|]. congruence.
    + intros w3 [[]|e3] Ho3; [|apply Hfail]. apply HQ; [by apply Ho3|done|].
      intros ->. destruct (Hok response eq_refl) as [_ Hv]. rewrite (Hr3 Hv).
      by apply succeeded_snoc.
Qed.

Lemma wp_cleanup adapter t es p w : own (jt_file t) es w -> last es = Some p ->
  je_Step p = "rollback-safe-stop" ->
  rollbackResponseSucceeded plan approval es (length es - 1) = true ->
  WR (continueRollbackCleanup plan approval adapter t es) rollback_true w.
Proof.
  intros Ho Hp Hs Hok. unfold continueRollbackCleanup. apply wp_bind.
  eapply wp_rollback_step; [done|done|by right|intros ? ? [=]|].
  intros w1 e err Ho1 He Hsucc. eapply wp_terminal; [done|by rewrite last_snoc|].
  destruct err; [by left|right]. auto.
Qed.

Lemma not_rolled_back es p : chain_ok es -> last es = Some p ->
  string_in ["rollback-safe-stop"; "rollback-cleanup-requested"; "rolled-back"; "rollback-failed"]
    (je_Step p) = false -> rollbackStarted es = false.
Proof.
  intros Hc Hp Hno. pose proof (last_steps es) as Hl. rewrite Hp in Hl. cbn in Hl.
  apply chain_shape in Hc as (k & tail & Hk & Ht & _ & E). unfold rollback_tails in Ht.
  repeat (apply elem_of_cons in Ht as [->|Ht]); [|..|by apply elem_of_nil in Ht].
  2-6: rewrite E, last_app_cons in Hl; injection Hl as Hl; rewrite <- Hl in Hno; by vm_compute in Hno.
  rewrite app_nil_r in E. unfold rollbackStarted. apply not_true_is_false. intros [e [He H]]%existsb_elem.
  assert (je_Step e ∈ steps es) as Hin by (by apply list_elem_of_In, in_map, list_elem_of_In).
  rewrite E in Hin. apply elem_of_take in Hin as (n & Hn & _).
  pose proof (apply_steps_rollback _ _ Hn) as (_ & _ & _ & Hr & Hpre & _). rewrite Hpre in H.
  apply String.eqb_eq in H. done.
Qed.

Lemma wp_rollback_journal adapter t es p w : own (jt_file t) es w -> last es = Some p ->
  WR (rollback_journal plan approval adapter t es p) rollback_true w.
Proof.
  intros Ho Hp. pose proof (bound_chain _ _ _ (owned_bound _ _ _ _ _ _ Ho)) as Hc. unfold rollback_journal.
  destruct (je_Step p == "completed") eqn:E1; [intros [=]|].
  destruct (je_Step p == "rolled-back") eqn:E2.
  { intros _. apply String.eqb_eq in E2. by eapply owned_rolled_back. }
  destruct (je_Step p == "rollback-failed") eqn:E3; [intros [=]|].
  destruct (je_Step p == "rollback-safe-stop") eqn:E4.
  { apply String.eqb_eq in E4.
    destruct (rollbackResponseSucceeded plan approval es (length es - 1)) eqn:Hok; cbn [negb].
    - by eapply wp_cleanup.
    - eapply wp_terminal; [done|done|by left]. }
  destruct (je_Step p == "rollback-cleanup-requested") eqn:E5.
  { destruct (rollbackResponseSucceeded plan approval es (length es - 1)) eqn:Hok.
    - eapply wp_terminal; [done|done|by right].
    - eapply wp_terminal; [done|done|by left]. }
  assert (rollbackStarted es = false) as Hst.
  { apply (not_rolled_back es p); [done..|]. unfold string_in. cbn [existsb]. by rewrite E2, E3, E4, E5. }
  assert (length es < 13) as Hlen.
  { destruct (running_steps es Hc Hst) as [Hn _]. destruct (decide (length es = 13)) as [H13|]; [|lia].
    pose proof (running_last es p Hc Hst Hp) as Hl. rewrite H13 in Hl. injection Hl as Hl.
    by rewrite <- Hl in E1. }
  apply wp_bind. eapply wp_rollback_step; [done|done|left; by split_and!|intros ? ? [=]|].
  intros w1 e err Ho1 He Hsucc. destruct err as [err|].
  - eapply wp_terminal; [done|by rewrite last_snoc|by left].
  - eapply wp_cleanup; [done|by rewrite last_snoc|done|auto].
Qed.

Lemma wp_Rollback confirmation path adapter w :
  WR (Rollback plan approval cwd confirmation path adapter) rollback_true w.
Proof.
  unfold Rollback. apply wp_clock. intros w1 now R1.
  destruct (validateExecutionInput _ _ _ _ _ _) as [a|] eqn:Hin; [|intros [=]].
  apply execution_approved in Hin as [Ha _].
  apply wp_bind, wp_open; [intros ? ? [=]|]. intros w2 t Hl.
  apply wp_closing; [apply rollback_true_lasting|done|]. apply wp_bind, wp_load; [done|].
  intros w3 [[es size]|] R3 Hf; [|intros [=]]. destruct (last es) as [p|] eqn:Hp; [|intros [=]].
  destruct (verifyJournalBinding plan approval es) eqn:Hv; [intros [=]|].
  eapply wp_rollback_journal; [|done]. eapply loaded_own; try done. by apply (rely_lock _ _ _ R3).
Qed.
End Rollback.
