(* ===== verification/DrillFacts.v ===== *)
(** * What the drill's journals and answers amount to

    The files a system of operators leaves behind, what a bound journal says of
    a completed run and of a rollback, and that the digest of the last entry
    determines the journal. *)

From stdpp Require Import gmap strings list relations.
From Stdlib Require Import ZArith Ascii Lia.
From S2P Require Import Prelude GoString GoTime GoPath GoSha256 Programs GoJson GoJsonCorrect StrictJson StrictJsonCorrect GoRfc3339 JsonStructs DrillTypes DrillValidate DrillJournal DrillFiles DrillEngine DrillCodec DrillJournalCorrect DrillBound DrillHeld DrillCorrect.

#[local] Opaque sha256_hex.

(** * Operators at work

    Any number of operators run the drill's operations on the same files, one
    call at a time in any order, and may die between two calls. *)

(** ** Operators *)

Inductive job :=
  | JPreflight (plan : Plan) (adapter : option Adapter) (now : Time)
  | JApply (plan : Plan) (approval : ApprovalReport) (confirmation path : string) (adapter : option Adapter)
  | JRecover (plan : Plan) (approval : ApprovalReport) (confirmation path : string) (adapter : option Adapter)
  | JRollback (plan : Plan) (approval : ApprovalReport) (confirmation path : string) (adapter : option Adapter).

Inductive outcome :=
  | Preflighted (r : result ApprovalReport)
  | Executed (r : result ExecutionReceipt)
  | RolledBack (r : option goerror).

Definition handler (cwd : string) (j : job) : P outcome :=
  match j with
  | JPreflight plan adapter now => r ← Preflight plan adapter now; Ret (Preflighted r)
  | JApply plan approval confirmation path adapter =>
      r ← Apply plan approval cwd confirmation path adapter; Ret (Executed r)
  | JRecover plan approval confirmation path adapter =>
      r ← Recover plan approval cwd confirmation path adapter; Ret (Executed r)
  | JRollback plan approval confirmation path adapter =>
      r ← Rollback plan approval cwd confirmation path adapter; Ret (RolledBack r)
  end.

Definition drill_step (cwd : string) := pool_step (perform cwd) killed (handler cwd).

(** The configurations that can be reached from a world without processes. *)
Definition reachable (cwd : string) (w : world) (c : world * list (job * option (P outcome))) : Prop :=
  rtc (drill_step cwd) (w, []) c.

(** ** What they may do and what their answers say *)

Definition preflight_allowed (plan : Plan) (X : Type) (e : sys X) : Prop :=
  match e with
  | Run request => request = preflightRequest plan /\ ValidatePlan plan = None
  | WriteAt _ _ _ | Link _ _ | Unlink _ => False
  | _ => True
  end.

Definition job_allowed (j : job) (i : nat) (w : world) (X : Type) (e : sys X) : Prop :=
  match j with
  | JPreflight plan _ _ => preflight_allowed plan X e
  | JApply plan approval _ _ _ | JRecover plan approval _ _ _ =>
      allowed plan approval (apply_due plan approval i) i w X e
  | JRollback plan approval _ _ _ => allowed plan approval (rollback_due plan approval i) i w X e
  end.

Definition job_true (j : job) (i : nat) (w : world) (r : outcome) : Prop :=
  match j, r with
  | JPreflight plan _ now, Preflighted r => forall report, r = Ok report -> ValidateApproval plan report now = None
  | JApply plan approval _ _ _, Executed r | JRecover plan approval _ _ _, Executed r =>
      receipt_true plan approval w r
  | JRollback plan approval _ _ _, RolledBack r => rollback_true plan approval w r
  | _, _ => False
  end.

Lemma job_true_lasting j i : lasting (job_true j i).
Proof.
  intros w w' r Hg. destruct j, r; cbn; auto.
  - intros H. by eapply receipt_true_lasting.
  - intros H. by eapply receipt_true_lasting.
  - intros H. by eapply rollback_true_lasting.
Qed.

Lemma preflight_calm cwd i i' plan w X (e : sys X) x w' :
  preflight_allowed plan X e -> perform cwd i X e w x w' -> i' <> i -> rely i' w w'.
Proof.
  intros Ha Hp Hne. apply (allowed_rely cwd plan zero_ApprovalReport
    (fun request _ => request = preflightRequest plan /\ ValidatePlan plan = None) i i' w X e x w'); [|done|done].
  by destruct e; cbn in *.
Qed.

Lemma job_rely cwd j i i' w X (e : sys X) x w' :
  job_allowed j i w X e -> perform cwd i X e w x w' -> i' <> i -> rely i' w w'.
Proof. destruct j; cbn; [by apply preflight_calm|apply allowed_rely..]. Qed.

Lemma wp_Preflight cwd plan adapter now i w :
  wp (perform cwd) rely (fun _ => True) (fun w X e => preflight_allowed plan X e) i (Preflight plan adapter now)
    (fun _ r => forall report, r = Ok report -> ValidateApproval plan report now = None) w.
Proof.
  unfold Preflight. destruct (adapter_of plan adapter) as [a|]; [|intros ? [=]].
  destruct (ValidatePlan plan) eqn:Hv; [intros ? [=]|]. destruct (negb _); [intros ? [=]|]. cbn zeta.
  apply wp_bind. unfold invoke. destruct (_ || _); [intros ? [=]|].
  intros w1 R1 _. split; [done|]. intros output w2 _ _.
  destruct output as [[stdout stderr]|]; [|intros ? [=]].
  cbn [mbind prog_mbind prog_bind]. destruct (read_response a (preflightRequest plan) stdout stderr) as [response [err|]]; [intros ? [=]|]. cbn. set (report := preflight_report _ _ _).
  intros r. destruct (ValidateApproval plan report now) eqn:E; [done|]. by intros [= <-].
Qed.

Lemma handler_wp cwd j i w :
  wp (perform cwd) rely (fun _ => True) (job_allowed j i) i (handler cwd j) (job_true j i) w.
Proof.
  destruct j; cbn [handler]; apply wp_bind; (eapply wp_mono;
    [|first [apply wp_Preflight | apply wp_Apply | apply wp_Recover | apply wp_Rollback]]); by cbn.
Qed.

Lemma reachable_ok cwd w c : reachable cwd w c ->
  pool_ok (perform cwd) rely (fun _ => True) job_allowed job_true c.
Proof.
  intros Hc. eapply (pool_sound (perform cwd) killed (handler cwd)); [..|done|exact Hc]; try done.
  - apply _.
  - intros j i i' w1 X e x w2 _. apply job_rely.
  - intros i i' w1 _ Hne. by apply killed_rely.
  - intros j i w1 w2 r Hr. apply job_true_lasting. exact (rely_grows _ _ _ Hr).
  - intros j i w1 _. apply handler_wp.
Qed.

(** * What the drill's journals and answers amount to *)

(** ** The files *)

(** A journal, perhaps with the beginning of the line of its next entry. *)
Definition journal_file (text : string) : Prop :=
  exists plan approval es, bound plan approval es /\
    (text = journal_text es \/
     exists e part, bound plan approval (es ++ [e]) /\ part <> "" /\
       HasPrefix (json_Marshal e) part = true /\ text = journal_text es +:+ part).

Lemma torn_holds_nothing es part e : wire e -> part <> "" -> HasPrefix (json_Marshal e) part = true ->
  forall es', ~ holds (journal_text es +:+ part) es'.
Proof.
  intros Hw Hne Hp es' [He _]. revert He. apply torn_ends; [done|].
  eapply prefix_one_line; [by apply entry_line_one_line|done].
Qed.

Lemma journal_file_holds text es : journal_file text -> holds text es -> text = journal_text es.
Proof.
  intros (plan & approval & es0 & Hb & [->|(e & part & Hb' & Hne & Hp & ->)]) Hh.
  - f_equal. symmetry. eapply decode_journal_text_exact; [by eapply bound_nonempty|apply Hb|apply Hh].
  - exfalso. pose proof (bound_wire _ _ _ Hb') as Hw. apply Forall_app in Hw as [_ Hw].
    rewrite Forall_singleton in Hw. by eapply torn_holds_nothing.
Qed.

Lemma journal_file_append text es e part plan approval :
  journal_file text -> holds text es -> bound plan approval es -> bound plan approval (es ++ [e]) ->
  HasPrefix (entry_line e) part = true -> journal_file (text +:+ part).
Proof.
  intros Hf Hh Hb Hb' Hp. rewrite (journal_file_holds _ _ Hf Hh).
  destruct (line_prefix e part Hp) as [->|[->|[Hne Hpart]]].
  - rewrite string_app_nil_r. exists plan, approval, es. auto.
  - rewrite <- journal_text_snoc. exists plan, approval, (es ++ [e]). auto.
  - exists plan, approval, es. split; [done|]. right. exists e, part. auto.
Qed.

Lemma HasPrefix_refl s : HasPrefix s s = true.
Proof. unfold HasPrefix. induction s as [|c s IH]; [done|]. cbn. by destruct (ascii_dec c c). Qed.

Definition all_journals (w : world) : Prop := Forall journal_file (w_files w).

(** A call an operator may make leaves only journals. *)
Lemma allowed_journals cwd plan approval may_run i w X (e : sys X) x w' :
  allowed plan approval may_run i w X e -> perform cwd i X e w x w' -> all_journals w -> all_journals w'.
Proof.
  intros Ha Hp HI. unfold all_journals in *. destruct e; cbn in Ha, Hp.
  all: try (subst w'; exact HI).
  all: try (apply proj1 in Hp; subst w'; exact HI).
  - destruct x; [|by subst w']. destruct Hp as [_ ->]. cbn. apply Forall_app. split; [done|].
    rewrite Forall_singleton. destruct Ha as (e & Hb & ->). exists plan, approval, [e]. split; [done|]. left.
    cbn. by rewrite string_app_nil_r.
  - destruct Hp as [-> | ->]; exact HI.
  - destruct x; [|by subst w']. by destruct Hp as [_ ->].
  - destruct Ha as (text & es & entry & Hl & Hf & Hh & Hb & Hb' & _ & -> & ->).
    destruct Hp as (part & -> & Hpart). unfold wrote. rewrite Hf. cbn. apply Forall_insert; [done|].
    rewrite write_at_end. eapply journal_file_append; try done.
    + by apply (Forall_lookup_1 _ _ _ _ HI Hf).
    + destruct x; [subst part; apply HasPrefix_refl|done].
Qed.

Lemma job_journals cwd j i w X (e : sys X) x w' :
  job_allowed j i w X e -> perform cwd i X e w x w' -> all_journals w -> all_journals w'.
Proof.
  destruct j; cbn; [|apply allowed_journals..]. intros Ha.
  apply (allowed_journals cwd plan zero_ApprovalReport
    (fun request _ => request = preflightRequest plan /\ ValidatePlan plan = None)).
  by destruct e; cbn in *.
Qed.

Lemma drill_step_ok cwd c c' :
  drill_step cwd c c' -> pool_ok (perform cwd) rely (fun _ => True) job_allowed job_true c ->
  (all_journals c.1 -> all_journals c'.1) /\ grows c.1 c'.1.
Proof.
  intros Hs Hok. destruct Hs as [w ps j|w ps i j X e k x w' Hi Hx|w ps i j p Hi]; cbn.
  - split; [done|]. by apply same_files_grow.
  - pose proof (pending_allowed _ _ _ _ _ _ i j X e k Hok Hi) as Ha. cbn in Ha. split.
    + by eapply job_journals.
    + assert (rely (S i) w w') as Hr by (eapply job_rely; [exact Ha|exact Hx|lia]). exact (rely_grows _ _ _ Hr).
  - split; [done|]. by apply same_files_grow.
Qed.

#[export] Instance grows_preorder : PreOrder grows.
Proof.
  split; [intros w; by apply same_files_grow|]. intros w1 w2 w3 G1 G2 file text H.
  destruct (G1 _ _ H) as (m1 & H1 & C1). destruct (G2 _ _ H1) as (m2 & H2 & C2).
  exists (m1 +:+ m2). rewrite <- string_app_assoc. split; [done|]. intros Hc.
  rewrite (C1 Hc), string_app_nil_r in C2. rewrite (C1 Hc). by rewrite (C2 Hc).
Qed.

Lemma reachable_journals cwd w c : all_journals w -> reachable cwd w c -> all_journals c.1.
Proof.
  intros Hw Hc. unfold reachable in Hc. revert Hc.
  apply (rtc_ind_r (fun c => all_journals c.1)); [done|].
  intros c1 c2 H1 Hs IH. eapply drill_step_ok; [exact Hs| |exact IH]. by eapply reachable_ok.
Qed.

Lemma reachable_grows cwd w c c' : reachable cwd w c -> rtc (drill_step cwd) c c' -> grows c.1 c'.1.
Proof.
  intros Hc Hs. induction Hs as [c|c1 c2 c3 H1 H2 IH]; [done|]. transitivity c2.1.
  - eapply drill_step_ok; [exact H1|]. by eapply reachable_ok.
  - apply IH. unfold reachable in *. by eapply rtc_r.
Qed.

(** ** A completed run *)

Lemma targets_proved_lookup plan kinds : forall index targets,
  targets_proved plan index kinds targets = true -> length targets = length kinds ->
  forall k kind, kinds !! k = Some kind -> exists target baseline,
    targets !! k = Some target /\ pn_SourceBaselines plan !! (index + k) = Some baseline /\
    tr_Kind target = kind /\ tr_RestoredChecksumSHA256 target = bl_DataSHA256 baseline.
Proof.
  induction kinds as [|kind kinds IH]; intros index [|target targets] H Hl k kind' Hk; try done.
  cbn [targets_proved] in H. apply andb_true_iff in H as [H1 H2]. destruct k as [|k].
  - injection Hk as <-. unfold target_proved in H1. destruct (pn_SourceBaselines plan !! index) as [b|] eqn:Hb; [|done].
    repeat (apply andb_true_iff in H1 as [H1 ?]). go_simp. exists target, b. rewrite Nat.add_0_r.
    split_and!; congruence.
  - destruct (IH (S index) targets H2 ltac:(by injection Hl) k kind' Hk) as (t & b & Ht & Hb & Hr).
    exists t, b. rewrite Nat.add_succ_r. done.
Qed.

Definition restored (plan : Plan) (receipt : ExecutionReceipt) : Prop :=
  forall k kind, TargetKinds !! k = Some kind -> exists target baseline,
    er_Targets receipt !! k = Some target /\ pn_SourceBaselines plan !! k = Some baseline /\
    tr_Kind target = kind /\ tr_RestoredChecksumSHA256 target = bl_DataSHA256 baseline.

Lemma receipt_facts plan approval receipt es : ValidateReceipt plan approval receipt es = None ->
  steps es = ApplySteps /\ restored plan receipt /\ er_ReceiptSHA256 receipt = ExecutionReceiptSHA256 receipt /\
  exists completed, last es = Some completed /\ er_JournalHeadSHA256 receipt = je_EntrySHA256 completed.
Proof.
  intros H. pose proof (ValidateReceipt_steps _ _ _ _ H) as Hs. split; [done|]. revert H.
  unfold ValidateReceipt. destruct (ValidatePlan plan); [done|]. destruct (validateApprovalBinding _ _); [done|].
  destruct (_ || _); [done|]. cbn zeta. unfold last_two.
  destruct (es !! _) as [proofEntry|]; [|done]. destruct (last es) as [completed|]; [|done].
  destruct (je_Response proofEntry) as [proof|]; [|done]. destruct (_ || _); [done|].
  destruct (receipt_matches _ _ _ _ _) eqn:Hm; [|done]. cbn [negb].
  destruct (_ || _) eqn:Hl; [done|]. destruct (targets_proved _ _ _ _) eqn:Ht; [|done]. intros _.
  apply orb_false_iff in Hl as [_ Hl]. apply negb_false_iff, Nat.eqb_eq in Hl.
  unfold receipt_matches in Hm. repeat (apply andb_true_iff in Hm as [Hm ?]).
  repeat match goal with E : (_ == _) = true |- _ => apply String.eqb_eq in E end.
  split_and!; [|done|by exists completed]. exact (targets_proved_lookup plan TargetKinds 0 _ Ht Hl).
Qed.

(** ** A completed rollback *)

Lemma check_adapter_success request e : check_adapter_entry request false e = None ->
  exists response, je_Response e = Some response /\ ValidateAdapterResponse request response = None.
Proof.
  unfold check_adapter_entry. destruct (_ != _); [done|]. destruct (je_Response e) as [r|]; [|done].
  destruct (_ != _); [done|]. destruct (negb _); [done|].
  destruct (ValidateAdapterResponse request r) eqn:E; [done|]. intros _. by exists r.
Qed.

(** An adapter's entry that is not followed by a failure records a success. *)
Lemma bound_answer plan approval es i q x n : bound plan approval es ->
  es !! i = Some q -> es !! S i = Some x -> es !! S (S i) = Some n ->
  adapter_step (je_Step x) = true -> je_Step n <> "rollback-failed" ->
  exists response, je_Response x = Some response /\
    ValidateAdapterResponse (step_request plan approval (je_Step x) (je_EntrySHA256 q)) response = None.
Proof.
  intros Hb Hq Hx Hn Hs Hf. pose proof (bound_entries _ _ _ Hb _ _ Hx) as H.
  unfold adapter_step, string_in in Hs. cbn [existsb] in Hs.
  apply negb_true_iff in Hs. repeat (apply orb_false_iff in Hs as [? Hs]).
  unfold check_bound_entry in H. rewrite Hq, Hn in H. destruct (negb (transaction_bound _ _ _)); [done|].
  repeat match goal with E : (je_Step x == _) = false |- _ => rewrite E in H; clear E end.
  apply String.eqb_neq in Hf. rewrite Hf in H. by apply check_adapter_success.
Qed.

Lemma rolled_back_shape es p : chain_ok es -> last es = Some p -> je_Step p = "rolled-back" ->
  exists run q stop cleanup, es = run ++ [q; stop; cleanup; p] /\
    je_Step stop = "rollback-safe-stop" /\ je_Step cleanup = "rollback-cleanup-requested" /\
    rollbackStarted (run ++ [q]) = false.
Proof.
  intros Hc Hp Hs. pose proof (last_steps es) as Hl. rewrite Hp in Hl. cbn in Hl. rewrite Hs in Hl.
  apply chain_shape in Hc as (k & tail & Hk & Ht & _ & E). unfold rollback_tails in Ht.
  repeat (apply elem_of_cons in Ht as [->|Ht]); [| | | | | |by apply elem_of_nil in Ht].
  1: { rewrite E, app_nil_r, apply_prefix_last in Hl by done. by apply apply_steps_rollback in Hl as (_ & _ & _ & ? & _). }
  1-3, 5: rewrite E, last_app_cons in Hl; discriminate Hl.
  unfold steps in E. apply map_eq_app in E as (before & after & -> & Hb & Ha).
  destruct after as [|stop [|cleanup [|p' [|? ?]]]]; try discriminate Ha. injection Ha as Hs1 Hs2 _.
  rewrite last_app_cons in Hp. injection Hp as ->.
  assert (before <> []) as Hne.
  { intros ->. cbn in Hb. destruct k; [lia|done]. }
  destruct (exists_last Hne) as (run & q & ->). exists run, q, stop, cleanup. rewrite <- app_assoc.
  split_and!; [done..|]. apply not_true_is_false. intros [e [He H]]%existsb_elem.
  assert (je_Step e ∈ List.map je_Step (run ++ [q])) as Hin by (by apply list_elem_of_In, in_map, list_elem_of_In).
  rewrite Hb in Hin. apply elem_of_take in Hin as (n & Hn & _).
  pose proof (apply_steps_rollback _ _ Hn) as (_ & _ & _ & Hr & Hpre & _). rewrite Hpre in H.
  by apply String.eqb_eq in H.
Qed.

(** Both answers of a rollback that succeeded. *)
Lemma rolled_back_answers plan approval es p : bound plan approval es -> last es = Some p ->
  je_Step p = "rolled-back" -> exists run q stop cleanup r1 r2,
    es = run ++ [q; stop; cleanup; p] /\ rollbackStarted (run ++ [q]) = false /\
    je_Response stop = Some r1 /\ je_Response cleanup = Some r2 /\
    ValidateAdapterResponse (newRollbackRequest plan approval "rollback-safe-stop" (je_EntrySHA256 q)) r1 = None /\
    ValidateAdapterResponse
      (newRollbackRequest plan approval "rollback-cleanup-requested" (je_EntrySHA256 stop)) r2 = None.
Proof.
  intros Hb Hp Hs.
  destruct (rolled_back_shape es p (bound_chain _ _ _ Hb) Hp Hs) as (run & q & stop & cleanup & E & H1 & H2 & Hr).
  assert (forall k, es !! (length run + k) = [q; stop; cleanup; p] !! k) as Hlook.
  { intros k. rewrite E, lookup_app_r by lia. f_equal. lia. }
  pose proof (Hlook 0) as L0. pose proof (Hlook 1) as L1. pose proof (Hlook 2) as L2. pose proof (Hlook 3) as L3.
  cbn in L0, L1, L2, L3. rewrite Nat.add_0_r in L0. rewrite Nat.add_1_r in L1.
  replace (length run + 2) with (S (S (length run))) in L2 by lia.
  replace (length run + 3) with (S (S (S (length run)))) in L3 by lia.
  destruct (bound_answer plan approval es (length run) q stop cleanup Hb L0 L1 L2) as (r1 & R1 & V1);
    [by rewrite H1|by rewrite H2|].
  destruct (bound_answer plan approval es (S (length run)) stop cleanup p Hb L1 L2 L3) as (r2 & R2 & V2);
    [by rewrite H2|by rewrite Hs|].
  rewrite H1 in V1. rewrite H2 in V2. exists run, q, stop, cleanup, r1, r2. split_and!; done.
Qed.

(** ** The head of a journal *)

(** The text whose digest an entry carries. *)
Definition entry_text (e : JournalEntry) : string :=
  json_Marshal (JournalEntry_with_EntrySHA256 e "").

Lemma entry_digest_inj a b qa qb : wire a -> wire b ->
  validateJournalEntry a qa = None -> validateJournalEntry b qb = None ->
  je_EntrySHA256 a = je_EntrySHA256 b -> a = b \/ collision (entry_text a) (entry_text b).
Proof.
  intros Wa Wb [Ha _]%valid_entry_digests [Hb _]%valid_entry_digests E.
  assert (forall e, wire e -> wire (JournalEntry_with_EntrySHA256 e "")) as Hw.
  { intros e (? & ? & ? & ? & ? & ? & ? & ? & ? & ? & ? & ? & ? & _). split_and!; try done. apply utf8_nil. }
  rewrite E in Ha. rewrite Ha in Hb. unfold JournalEntrySHA256, digest in Hb.
  apply sha256_hex_inj_or in Hb as [Hj|Hc]; [left|by right].
  apply json_Marshal_inj in Hj; [|by apply Hw..]. clear - E Hj. destruct a, b.
  unfold JournalEntry_with_EntrySHA256 in Hj. cbn in E, Hj. injection Hj. intros. by subst.
Qed.

Lemma chain_previous es e : es <> [] -> chain_ok (es ++ [e]) ->
  exists p, last es = Some p /\ je_PreviousEntrySHA256 e = je_EntrySHA256 p.
Proof.
  intros Hne Hc. apply chain_ok_snoc in Hc as (_ & _ & Hv & _); [|done].
  destruct (last es) as [p|] eqn:Hp; [|by apply last_None in Hp]. exists p. split; [done|].
  unfold validateJournalEntry in Hv. destruct (negb (entry_valid e)); [done|]. destruct (negb (response_bound e)); [done|].
  destruct (canonicalTime (je_RecordedAt e)); [|done]. destruct (entry_follows e p) eqn:Hf; [|done].
  unfold entry_follows in Hf. destruct (canonicalTime _); [|done]. destruct (canonicalTime _); [|done].
  repeat (apply andb_true_iff in Hf as [Hf ?]). by go_simp.
Qed.

Lemma chain_first e : chain_ok [e] -> je_PreviousEntrySHA256 e = "".
Proof.
  intros [Hv _]%chain_ok_single. unfold validateJournalEntry in Hv. destruct (negb (entry_valid e)); [done|].
  destruct (negb (response_bound e)); [done|]. destruct (canonicalTime (je_RecordedAt e)); [|done].
  destruct (_ || _) eqn:E; [done|]. apply orb_false_iff in E as [_ E]. by apply string_neqb_false in E.
Qed.

Lemma chain_sha_nonempty es p : chain_ok es -> last es = Some p -> je_EntrySHA256 p <> "".
Proof.
  intros Hc Hp. apply last_Some_elem_of in Hp. destruct (chain_entry es p Hc Hp) as [q [-> _]%valid_entry_digests].
  unfold JournalEntrySHA256, digest. intros E. pose proof (sha256_hex_len (json_Marshal (JournalEntry_with_EntrySHA256 p ""))) as Hl.
  by rewrite E in Hl.
Qed.

(** Two journals that go apart at a pair of entries whose digested texts
    collide, and are the same after it. *)
Definition journals_collide (es es' : list JournalEntry) : Prop :=
  exists before a before' b after, es = before ++ a :: after /\ es' = before' ++ b :: after /\
    collision (entry_text a) (entry_text b).

(** The digest of the last entry determines the whole journal. *)
Lemma head_determines es : forall es' e e', chain_ok es -> chain_ok es' -> Forall wire es -> Forall wire es' ->
  last es = Some e -> last es' = Some e' -> je_EntrySHA256 e = je_EntrySHA256 e' ->
  es = es' \/ journals_collide es es'.
Proof.
  induction es as [|a es IH] using rev_ind; intros es' e e' Hc Hc' Hw Hw' Hl Hl' E; [done|].
  rewrite last_snoc in Hl. injection Hl as ->.
  destruct es' as [|b es' _] using rev_ind; [done|]. rewrite last_snoc in Hl'. injection Hl' as ->.
  apply Forall_app in Hw as [Hw We], Hw' as [Hw' We']. rewrite Forall_singleton in We, We'.
  destruct (chain_entry _ e Hc) as [q Hq]; [by apply elem_of_app; right; apply list_elem_of_singleton|].
  destruct (chain_entry _ e' Hc') as [q' Hq']; [by apply elem_of_app; right; apply list_elem_of_singleton|].
  destruct (entry_digest_inj e e' q q' We We' Hq Hq' E) as [<-|?];
    [|by right; exists es, e, es', e', []].
  destruct (decide (es = [])) as [->|Hne], (decide (es' = [])) as [->|Hne'].
  - by left.
  - destruct (chain_previous es' e Hne' Hc') as (p & Hp & Hs). apply chain_first in Hc.
    apply chain_ok_snoc in Hc' as [Hc' _]; [|done]. destruct (chain_sha_nonempty es' p Hc' Hp). congruence.
  - destruct (chain_previous es e Hne Hc) as (p & Hp & Hs). apply chain_first in Hc'.
    apply chain_ok_snoc in Hc as [Hc _]; [|done]. destruct (chain_sha_nonempty es p Hc Hp). congruence.
  - destruct (chain_previous es e Hne Hc) as (p & Hp & Hs), (chain_previous es' e Hne' Hc') as (p' & Hp' & Hs').
    apply chain_ok_snoc in Hc as [Hc _], Hc' as [Hc' _]; [|done..].
    destruct (IH es' p p') as [->|(be & a & be' & b & af & -> & -> & Hab)]; try done;
      [congruence|by left|]. right. exists be, a, be', b, (af ++ [e]).
    by rewrite <- !app_assoc.
Qed.
