(* ===== verification/DrillRun.v ===== *)
(** * Runs without faults

    A system that answers every call without an error, and an adapter that
    answers every request: from any journal of a run that was interrupted before
    a rollback, [Recover] completes it and [Rollback] rolls it back. *)

From stdpp Require Import gmap strings list relations.
From Stdlib Require Import ZArith Ascii Lia.
From S2P Require Import Prelude GoString GoTime GoPath GoSha256 Programs GoJson GoJsonCorrect StrictJson StrictJsonCorrect GoRfc3339 JsonStructs DrillTypes DrillValidate DrillJournal DrillFiles DrillEngine DrillCodec DrillJournalCorrect DrillBound DrillHeld DrillCorrect.

#[local] Opaque sha256_hex.

(** ** Journals in order *)

Lemma entry_follows_facts e p : entry_follows e p = true ->
  je_Sequence e = int64_wrap (je_Sequence p + 1) /\ je_PreviousEntrySHA256 e = je_EntrySHA256 p.
Proof.
  unfold entry_follows. destruct (canonicalTime _); [|done]. destruct (canonicalTime _); [|done].
  intros H. repeat (apply andb_true_iff in H as [H ?]). go_simp. done.
Qed.

Lemma valid_entry_follows e p : validateJournalEntry e (Some p) = None -> entry_follows e p = true.
Proof.
  unfold validateJournalEntry. destruct (negb _); [done|]. destruct (negb _); [done|].
  destruct (canonicalTime _); [|done]. by destruct (entry_follows e p).
Qed.

Lemma chain_sequence es p : chain_ok es -> last es = Some p -> je_Sequence p = Z.of_nat (length es).
Proof.
  intros Hc. revert es Hc p. refine (chain_ind (fun es => forall p, _) _ _).
  - intros e [Hv _]%chain_ok_single p [= <-]. unfold validateJournalEntry in Hv.
    destruct (negb _); [done|]. destruct (negb _); [done|]. destruct (canonicalTime _); [|done].
    destruct (_ || _) eqn:E; [done|]. apply orb_false_iff in E as [E _]. by apply negb_false_iff, Z.eqb_eq in E.
  - intros es e Hes IH Hc p Hp. rewrite last_snoc in Hp. injection Hp as <-.
    pose proof (chain_length _ Hes) as Hl. pose proof (chain_ok_nonempty _ Hes) as Hne.
    apply chain_ok_snoc in Hc as (_ & _ & Hv & _); [|done].
    destruct (last es) as [q|] eqn:Hq; [|by apply last_None in Hq].
    apply valid_entry_follows, entry_follows_facts in Hv as [-> _].
    rewrite (IH q eq_refl), int64_wrap_id, length_app; cbn; [lia|].
    unfold is_int64, min_int64, max_int64. lia.
Qed.

Lemma bound_transaction plan approval es p : bound plan approval es -> p ∈ es ->
  transaction_bound plan approval p = true.
Proof.
  intros Hb (i & Hi)%list_elem_of_lookup. pose proof (bound_entries _ _ _ Hb i p Hi) as H.
  unfold check_bound_entry in H. by destruct (transaction_bound plan approval p).
Qed.

Lemma apply_steps_nodup : NoDup ApplySteps.
Proof. apply (bool_decide_unpack _). vm_compute. exact Logic.I. Qed.

(** The next step of a run is always in order. *)
Lemma next_transition es step : chain_ok es -> rollbackStarted es = false ->
  ApplySteps !! length es = Some step -> validTransition es step = true.
Proof.
  intros Hc Hr Hs. destruct (running_steps es Hc Hr) as [Hn E].
  destruct (last es) as [p|] eqn:Hp; [|by apply last_None in Hp as ->; cbn in Hn; lia].
  pose proof (running_last es p Hc Hr Hp) as Hl.
  pose proof (lookup_lt_Some _ _ _ Hs) as Hlt. change (length ApplySteps) with 13 in Hlt.
  pose proof (apply_steps_rollback _ _ Hs) as (N1 & N2 & N3 & N4 & _).
  pose proof (apply_steps_rollback _ _ Hl) as (L1 & L2 & L3 & L4 & _ & Lt).
  unfold validTransition. rewrite Hp.
  assert (existsb (fun e => je_Step e == step) es = false) as ->.
  { apply not_true_is_false. intros [e [He Hes]]%existsb_elem. apply String.eqb_eq in Hes.
    assert (step ∈ steps es) as Hin by (rewrite <- Hes; by apply list_elem_of_In, in_map, list_elem_of_In).
    rewrite E in Hin. apply elem_of_take in Hin as (k & Hk & Hlk).
    pose proof (NoDup_lookup _ _ _ _ apply_steps_nodup Hk Hs). lia. }
  destruct (terminal_step (je_Step p)) eqn:Ht; [specialize (Lt eq_refl); lia|].
  apply String.eqb_neq in L1, L2, N1, N3, N4. rewrite L1, L2. unfold string_in. cbn [existsb].
  rewrite N3, N4, N1, Hs. cbn. apply String.eqb_refl.
Qed.

Section Live.
Context (plan : Plan) (approval : ApprovalReport) (clock : Time) (Hclock : four_digit_year clock).
Context (Happroved : validateApprovalBinding plan approval = None).

(** ** The entries of a run are accepted *)

Definition not_after (p : JournalEntry) : Prop :=
  exists t, canonicalTime (je_RecordedAt p) = Some t /\ (t <= clock)%Z.

Lemma plan_valid : ValidatePlan plan = None.
Proof. unfold validateApprovalBinding in Happroved. by destruct (ValidatePlan plan). Qed.

Lemma plan_parts : validID (pn_OperationID plan) = true /\
  validSHA (ei_ExecutableSHA256 (pn_Adapter plan)) = true.
Proof.
  pose proof plan_valid as H. unfold ValidatePlan in H.
  destruct (plan_identity_valid plan) eqn:Hi; [|done]. cbn [negb] in H.
  destruct (plan_storage_valid plan); [|done]. cbn [negb] in H.
  destruct (plan_executables_valid plan) eqn:He; [|done]. split.
  - unfold plan_identity_valid in Hi. destruct (canonicalTime _); [|done]. destruct (canonicalTime _); [|done].
    by repeat (apply andb_true_iff in Hi as [Hi ?]).
  - unfold plan_executables_valid in He. by apply andb_true_iff in He as [_ He].
Qed.

#[local] Abbreviation new n step request response previous recorded :=
  (newJournalEntry clock n plan approval step request response previous recorded).

Definition response_for (response : string) (recorded : option AdapterResponse) : Prop :=
  forall r, recorded = Some r -> response = rs_ResponseSHA256 r /\ rs_ResponseSHA256 r = AdapterResponseSHA256 r.

Lemma new_entry_valid n step request response previous recorded :
  1 <= n -> validID step = true -> validSHA request = true -> validSHA response = true ->
  response_for response recorded ->
  let e := new n step request response previous recorded in
  entry_valid e = true /\ response_bound e = true /\ canonicalTime (je_RecordedAt e) = Some clock.
Proof.
  intros Hn Hs Hq Hr Hrec e. destruct plan_parts as [Hid Hsha]. split_and!.
  - unfold entry_valid. change (je_EntrySHA256 e) with (JournalEntrySHA256 e).
    change (je_SchemaVersion e) with JournalEntryVersion. change (je_Sequence e) with (Z.of_nat n).
    change (je_OperationID e) with (pn_OperationID plan). change (je_PlanSHA256 e) with (PlanSHA256 plan).
    change (je_ApprovalSHA256 e) with (ApprovalSHA256 approval).
    change (je_ApprovalScopeSHA256 e) with (ApprovalScopeSHA256 plan).
    change (je_AdapterExecutableSHA256 e) with (ei_ExecutableSHA256 (pn_Adapter plan)).
    change (je_Step e) with step. change (je_RequestSHA256 e) with request.
    change (je_ResponseSHA256 e) with response.
    assert ((1 <=? Z.of_nat n) = true)%Z as -> by (apply Z.leb_le; lia).
    unfold PlanSHA256, ApprovalSHA256, ApprovalScopeSHA256, digest, digest_fields.
    by rewrite !String.eqb_refl, !sha256_hex_valid, Hid, Hsha, Hs, Hq, Hr.
  - unfold response_bound. change (je_Response e) with recorded. change (je_ResponseSHA256 e) with response.
    destruct recorded as [r|]; [|done]. destruct (Hrec r eq_refl) as [-> <-]. by rewrite !String.eqb_refl.
  - by apply canonical_Format.
Qed.

Lemma first_entry_valid n step request response recorded : n = 1 ->
  validID step = true -> validSHA request = true -> validSHA response = true ->
  response_for response recorded ->
  validateJournalEntry (new n step request response "" recorded) None = None.
Proof.
  intros -> Hs Hq Hr Hrec.
  destruct (new_entry_valid 1 step request response "" recorded ltac:(lia) Hs Hq Hr Hrec) as (H1 & H2 & H3).
  unfold validateJournalEntry. by rewrite H1, H2, H3.
Qed.

Lemma next_entry_valid es p step request response recorded : bound plan approval es -> last es = Some p ->
  not_after p -> validID step = true -> validSHA request = true -> validSHA response = true ->
  response_for response recorded ->
  validateJournalEntry (new (length es + 1) step request response (je_EntrySHA256 p) recorded) (Some p) = None.
Proof.
  intros Hb Hp (t & Ht & Hle) Hs Hq Hr Hrec.
  destruct (new_entry_valid (length es + 1) step request response (je_EntrySHA256 p) recorded
    ltac:(lia) Hs Hq Hr Hrec) as (H1 & H2 & H3).
  set (e := newJournalEntry _ _ _ _ _ _ _ _ _) in *. unfold validateJournalEntry. rewrite H1, H2, H3. cbn [negb].
  pose proof (bound_chain _ _ _ Hb) as Hc. pose proof (chain_length _ Hc) as Hl.
  pose proof (bound_transaction _ _ _ p Hb (last_Some_elem_of _ _ Hp)) as Htr.
  unfold transaction_bound in Htr. repeat (apply andb_true_iff in Htr as [Htr ?]).
  repeat match goal with E : (_ == _) = true |- _ => apply String.eqb_eq in E end.
  assert (entry_follows e p = true) as ->; [|done]. unfold entry_follows. rewrite Ht, H3.
  change (je_Sequence e) with (Z.of_nat (length es + 1)).
  change (je_PreviousEntrySHA256 e) with (je_EntrySHA256 p).
  change (je_OperationID e) with (pn_OperationID plan). change (je_PlanSHA256 e) with (PlanSHA256 plan).
  change (je_ApprovalSHA256 e) with (ApprovalSHA256 approval).
  change (je_ApprovalScopeSHA256 e) with (ApprovalScopeSHA256 plan).
  change (je_AdapterExecutableSHA256 e) with (ei_ExecutableSHA256 (pn_Adapter plan)).
  rewrite (chain_sequence _ _ Hc Hp), int64_wrap_id by (unfold is_int64, min_int64, max_int64; lia).
  assert (Before clock t = false) as -> by (apply Z.ltb_ge; lia).
  assert ((Z.of_nat (length es + 1) =? Z.of_nat (length es) + 1) = true)%Z as -> by (apply Z.eqb_eq; lia).
  cbn [negb andb]. rewrite String.eqb_refl.
  repeat match goal with E : _ p = _ |- _ => rewrite E; clear E end. by rewrite !String.eqb_refl.
Qed.

(** ** A system without faults *)

Context (cwd : string) (reply : AdapterRequest -> option (string * string)).

Definition answer (X : Type) (e : sys X) (w : world) : X * world :=
  match e in sys X return X * world with
  | Clock => (clock, w)
  | Probe => (true, w)
  | Absent path => (bool_decide (named cwd w path = None), w)
  | Link path data =>
      match named cwd w path with
      | Some _ => (false, w)
      | None => (true, {| w_names := <[filepath_Abs cwd path := length (w_files w)]> (w_names w);
                          w_files := w_files w ++ [data]; w_locks := w_locks w |})
      end
  | Unlink path => (tt, {| w_names := delete (filepath_Abs cwd path) (w_names w);
                           w_files := w_files w; w_locks := w_locks w |})
  | Lookup path => (named cwd w path, w)
  | Flock file =>
      match w_locks w !! file with
      | Some _ => (false, w)
      | None => (true, {| w_names := w_names w; w_files := w_files w; w_locks := <[file := 0]> (w_locks w) |})
      end
  | SameFile path file => (bool_decide (named cwd w path = Some file), w)
  | Size file => ((fun text => Z.of_nat (len text)) <$> w_files w !! file, w)
  | ReadAll file => (w_files w !! file, w)
  | WriteAt file offset data => (true, wrote w file offset data)
  | Unlock file => (tt, {| w_names := w_names w; w_files := w_files w;
                           w_locks := match w_locks w !! file with
                                      | Some holder => if decide (holder = 0) then delete file (w_locks w) else w_locks w
                                      | None => w_locks w
                                      end |})
  | Run request => (reply request, w)
  end.

Lemma answer_possible w X (e : sys X) : perform cwd 0 X e w (answer X e w).1 (answer X e w).2.
Proof.
  destruct e; cbn; try done.
  - split; [done|]. intros H. by apply bool_decide_eq_true in H.
  - by destruct (named cwd w path) eqn:E; cbn.
  - by right.
  - by destruct (w_locks w !! file) eqn:E; cbn.
  - split; [done|]. intros H. by apply bool_decide_eq_true in H.
  - split; [done|]. intros n Hn. apply fmap_Some in Hn as (text & Ht & ->). by exists text.
  - by exists data.
Qed.

#[local] Abbreviation run := (exec answer).

(** The journal file of a transaction, with its lock. *)
Record ready (t : journalTransaction) (es : list JournalEntry) (w : world) : Prop := {
  ready_name : named cwd w (jt_path t) = Some (jt_file t);
  ready_text : w_files w !! jt_file t = Some (journal_text es);
  ready_bound : bound plan approval es;
  ready_lines : Forall line_fits es
}.

Lemma ready_holds t es w : ready t es w -> holds (journal_text es) es.
Proof.
  intros [_ _ Hb Hl]. split; [by eapply journal_text_ends, bound_nonempty|].
  by apply decode_journal_text; [apply Hb|apply Hb|].
Qed.

Lemma journal_text_len es : Forall line_fits es ->
  (Z.of_nat (len (journal_text es)) <= Z.of_nat (length es) * maxEntryBytes)%Z.
Proof.
  induction 1 as [|e es He Hes IH]; [done|]. cbn [journal_text length]. rewrite len_app.
  unfold line_fits in He. unfold maxEntryBytes in *. lia.
Qed.

Lemma journal_text_two es : es <> [] -> Forall wire es -> 2 <= len (journal_text es).
Proof.
  intros Hne Hw. destruct es as [|e es]; [done|]. cbn [journal_text]. rewrite len_app, len_entry_line.
  apply Forall_cons in Hw as [Hw _]. pose proof (print_nonempty _ (wire_formed e Hw)).
  change (print (marshal e)) with (json_Marshal e) in *. lia.
Qed.

Lemma ready_size t es w : ready t es w ->
  (2 <= Z.of_nat (len (journal_text es)) <= maxJournalBytes)%Z.
Proof.
  intros [_ _ Hb Hl]. pose proof (journal_text_len _ Hl). pose proof (chain_length _ (bound_chain _ _ _ Hb)).
  pose proof (journal_text_two es (bound_nonempty _ _ _ Hb) (bound_wire _ _ _ Hb)).
  unfold maxJournalBytes, maxEntryBytes in *. lia.
Qed.

Lemma run_load t es w : ready t es w ->
  run (load t) w = (Ok (es, Z.of_nat (len (journal_text es))), w).
Proof.
  intros H. pose proof (ready_size _ _ _ H) as Hs. pose proof (ready_holds _ _ _ H) as [Hend Hd].
  destruct H as [Hn Ht Hb Hl]. unfold load, call. cbn [exec mbind prog_mbind prog_bind answer].
  rewrite Ht, Hn, bool_decide_eq_true_2 by done. cbn [fmap option_fmap option_map negb orb].
  assert ((Z.of_nat (len (journal_text es)) <? 2) = false)%Z as -> by (apply Z.ltb_ge; lia).
  assert ((maxJournalBytes <? Z.of_nat (len (journal_text es))) = false)%Z as Hmax by (apply Z.ltb_ge; lia).
  rewrite Hmax. cbn [orb need call exec mbind prog_mbind prog_bind answer].
  rewrite Ht, Hn, bool_decide_eq_true_2, Z.eqb_refl, Hmax by done. cbn [negb orb].
  unfold ends_line in Hend. rewrite Hend, Hd. by rewrite Ascii.eqb_refl.
Qed.

Lemma run_append t es p e w : ready t es w -> last es = Some p -> validateJournalEntry e (Some p) = None ->
  validTransition es (je_Step e) = true -> line_fits e -> extends plan approval es e ->
  exists w', run (appendJournal t e) w = (Ok tt, w') /\ ready t (es ++ [e]) w' /\ w_locks w' = w_locks w.
Proof.
  intros H Hp Hv Htr Hfit Hext. pose proof Hv as Hb'. rewrite <- Hp in Hb'. specialize (Hext Hb' Htr). clear Hb'.
  pose proof (run_load _ _ _ H) as Hload. pose proof (ready_size _ _ _ H) as Hsize.
  assert (Forall line_fits (es ++ [e])) as Hlines by (apply Forall_app; split; [apply H|by apply Forall_singleton]).
  set (w' := with_file w (jt_file t) (journal_text es +:+ entry_line e)).
  assert (wrote w (jt_file t) (Z.of_nat (len (journal_text es))) (entry_line e) = w') as Hw.
  { unfold wrote, w'. by rewrite (ready_text _ _ _ H), write_at_end. }
  assert (w_files w' !! jt_file t = Some (journal_text (es ++ [e]))) as Ht'.
  { cbn. rewrite list_lookup_insert_eq by (eapply lookup_lt_Some, H). by rewrite journal_text_snoc. }
  assert (named cwd w' (jt_path t) = Some (jt_file t)) as Hn' by apply H.
  exists w'. split; [|split; [by constructor|done]].
  unfold appendJournal. rewrite exec_bind, Hload, Hp, Hv, Htr. cbn [is_nil negb orb].
  assert ((maxEntryBytes <? Z.of_nat (len (entry_line e)))%Z = false) as -> by (apply Z.ltb_ge, Hfit).
  assert ((maxJournalBytes <? Z.of_nat (len (journal_text es)) + Z.of_nat (len (entry_line e)))%Z = false) as ->.
  { apply Z.ltb_ge. pose proof (journal_text_len _ Hlines) as Hl. rewrite journal_text_snoc, len_app in Hl.
    pose proof (chain_length _ (bound_chain _ _ _ Hext)). unfold maxJournalBytes, maxEntryBytes in *. lia. }
  unfold need, call. cbn [orb exec mbind prog_mbind prog_bind answer].
  rewrite (ready_name _ _ _ H), (ready_text _ _ _ H), !bool_decide_eq_true_2 by done.
  cbn [fmap option_fmap option_map negb orb exec mbind prog_mbind prog_bind answer].
  rewrite Hw, Ht', Hn'. cbn [fmap option_fmap option_map].
  rewrite journal_text_snoc, len_app, Nat2Z.inj_add, !bool_decide_eq_true_2 by done. done.
Qed.

(** ** Applying to the end *)

Record going (t : journalTransaction) (es : list JournalEntry) (w : world) : Prop := {
  going_ready : ready t es w;
  going_steady : rollbackStarted es = false;
  going_time p : last es = Some p -> not_after p;
  going_proof : 12 <= length es ->
    exists proof, proof_of es = Some proof /\ validateProofResponse plan proof = None
}.

Definition small (response : AdapterResponse) : Prop := (Z.of_nat (len (json_Marshal response)) <= 65536)%Z.

(** The adapter's answer to a step, whatever the entry before it is. *)
Definition answers (adapter : Adapter) (step : string) : Prop :=
  forall previous, validSHA previous = true ->
  let request := newAdapterRequest plan approval "apply" step previous in
  exists stdout stderr response, reply request = Some (stdout, stderr) /\
    read_response adapter request stdout stderr = (response, None) /\ small response /\
    (step = "proof-assembled" -> validateProofResponse plan response = None).

Lemma read_response_None adapter request stdout stderr response :
  read_response adapter request stdout stderr = (response, None) ->
  wire response /\ ValidateAdapterResponse request response = None.
Proof.
  unfold read_response. destruct (_ || _); [done|].
  destruct (DecodeExact stdout) as [r|] eqn:Hd; [|done]. apply DecodeExact_wire in Hd.
  destruct (containsEnvironmentValue _ _); [done|]. by intros [= <- ->].
Qed.

Lemma valid_response_digest request response : ValidateAdapterResponse request response = None ->
  rs_ResponseSHA256 response = AdapterResponseSHA256 response.
Proof.
  intros H%valid_response_bound. unfold validateAdapterResponseBinding in H. destruct (_ || _) eqn:E; [done|].
  apply orb_false_iff in E as [_ E]. by apply string_neqb_false in E.
Qed.

Lemma step_id n step : ApplySteps !! n = Some step -> validID step = true.
Proof. intros H. do 13 (destruct n as [|n]; [by injection H as <-|]). done. Qed.

Lemma digest_len value : validSHA value = true -> len value <= 64.
Proof. exact (len_sha value). Qed.

Lemma new_fits n step request response previous recorded : validID step = true ->
  validSHA request = true -> validSHA response = true -> len previous <= 64 ->
  (forall r, recorded = Some r -> small r) -> line_fits (new n step request response previous recorded).
Proof.
  intros Hs Hq Hr Hp Hrec. destruct plan_parts as [Hid Hsha]. unfold line_fits, maxEntryBytes.
  etrans; [apply (entry_line_bound _ 65536); [done|done|exact Hid|exact Hs| |apply len_Format|exact Hrec]|lia].
  repeat (apply Forall_cons; split; [|]); try apply Forall_nil_2; [..|exact Hp|];
    apply len_sha; first [exact Hq | exact Hr | exact Hsha | apply sha256_hex_valid].
Qed.

Lemma apply_request_valid step previous :
  let request := newAdapterRequest plan approval "apply" step previous in
  rq_RequestSHA256 request = AdapterRequestSHA256 request /\ validSHA (rq_RequestSHA256 request) = true /\
  rq_AdapterExecutableSHA256 request = ei_ExecutableSHA256 (pn_Adapter plan).
Proof.
  split_and!; [done| |done].
  change (validSHA (sha256_hex (json_Marshal (AdapterRequest_with_RequestSHA256
    (AdapterRequest_with_RequestID (base_request plan approval "apply" step previous [] [])
      (requestIdentity (base_request plan approval "apply" step previous [] []))) ""))) = true).
  apply sha256_hex_valid.
Qed.

Lemma previous_valid es p : bound plan approval es -> last es = Some p -> validSHA (je_EntrySHA256 p) = true.
Proof.
  intros Hb Hp. apply last_Some_elem_of in Hp.
  destruct (chain_entry es p (bound_chain _ _ _ Hb) Hp) as [q [-> _]%valid_entry_digests]. apply sha256_hex_valid.
Qed.

Lemma new_not_after n step request response previous recorded :
  not_after (new n step request response previous recorded).
Proof. exists clock. split; [by apply canonical_Format|lia]. Qed.

(** A step that has been recorded. *)
Lemma going_snoc t es e w w' step : going t es w -> ready t (es ++ [e]) w' -> je_Step e = step ->
  ApplySteps !! length es = Some step -> not_after e -> length es < 12 ->
  (step = "proof-assembled" ->
    exists proof, je_Response e = Some proof /\ validateProofResponse plan proof = None) ->
  going t (es ++ [e]) w'.
Proof.
  intros Hg Hr <- Hstep Hna Hlen Hproof.
  pose proof (apply_steps_rollback _ _ Hstep) as (_ & _ & _ & Hnr & Hpre & _). constructor; [done| | |].
  - apply rollbackStarted_snoc; [apply Hg|done|done].
  - intros p Hp. rewrite last_snoc in Hp. by injection Hp as <-.
  - rewrite length_app. cbn [length]. intros H12. assert (length es = 11) as H11 by lia. rewrite H11 in Hstep.
    injection Hstep as Hstep. destruct (Hproof (eq_sym Hstep)) as (proof & Hp & Hv). exists proof. split; [|done].
    unfold proof_of. by rewrite last_snoc, <- Hstep.
Qed.

Lemma run_invoke adapter request stdout stderr w :
  ad_IdentitySHA256 adapter = rq_AdapterExecutableSHA256 request ->
  rq_RequestSHA256 request = AdapterRequestSHA256 request -> reply request = Some (stdout, stderr) ->
  run (invoke adapter request) w = (read_response adapter request stdout stderr, w).
Proof.
  intros Ha Hq Hr. unfold invoke. rewrite Ha, <- Hq, !String.eqb_refl. cbn [negb orb].
  unfold call. cbn [exec mbind prog_mbind prog_bind answer]. by rewrite Hr.
Qed.

Lemma run_apply_step adapter t es p step w :
  ad_IdentitySHA256 adapter = ei_ExecutableSHA256 (pn_Adapter plan) ->
  going t es w -> last es = Some p -> ApplySteps !! length es = Some step -> length es < 12 ->
  (step <> "mutation-started" -> answers adapter step) ->
  exists e w', run (apply_step plan approval adapter t es step p) w = (Ok e, w') /\
    going t (es ++ [e]) w' /\ w_locks w' = w_locks w.
Proof.
  intros Had Hg Hp Hstep Hlen Hans. pose proof (ready_bound _ _ _ (going_ready _ _ _ Hg)) as Hb.
  pose proof (going_steady _ _ _ Hg) as Hst. pose proof (going_time _ _ _ Hg p Hp) as Htime.
  destruct (running_steps es (bound_chain _ _ _ Hb) Hst) as [Hn _].
  pose proof (next_transition es step (bound_chain _ _ _ Hb) Hst Hstep) as Htr.
  pose proof (step_id _ _ Hstep) as Hid. pose proof (previous_valid es p Hb Hp) as Hprev.
  unfold apply_step. destruct (step == "mutation-started") eqn:Es.
  - apply String.eqb_eq in Es as ->. pose proof (started_index _ Hstep) as Hl1.
    pose proof (extends_started plan approval es p clock Hb Hp Hst Hl1) as Hext.
    destruct (mutationStartedDigests plan (je_EntrySHA256 p)) as [request response] eqn:Hd.
    assert (validSHA request = true /\ validSHA response = true) as [Hq Hr].
    { injection Hd as <- <-. split; apply sha256_hex_valid. }
    set (e := newJournalEntry clock (length es + 1) plan approval "mutation-started" request response
      (je_EntrySHA256 p) None) in *.
    assert (validateJournalEntry e (Some p) = None) as Hval by (by apply next_entry_valid).
    assert (line_fits e) as Hfit by (apply new_fits; [done|done|done|by apply len_sha|done]).
    destruct (run_append t es p e w (going_ready _ _ _ Hg) Hp Hval Htr Hfit Hext) as (w' & Hrun & Hr' & Hlk).
    exists e, w'. unfold call. cbn [exec mbind prog_mbind prog_bind answer]. fold e.
    change (prog_bind ?f ?q) with (q ≫= f). rewrite exec_bind, Hrun. split_and!; [done| |done].
    eapply going_snoc; try done. apply new_not_after.
  - destruct (Hans ltac:(by apply String.eqb_neq) (je_EntrySHA256 p) Hprev)
      as (stdout & stderr & response & Hreply & Hread & Hsmall & Hproof).
    pose proof (read_response_None _ _ _ _ _ Hread) as [Hw Hv].
    pose proof (valid_response_digest _ _ Hv) as Hdig.
    destruct (apply_request_valid step (je_EntrySHA256 p)) as (Hq1 & Hq2 & Hq3).
    pose proof (apply_steps_rollback _ _ Hstep) as (_ & _ & _ & _ & Hpre & _).
    destruct (apply_step_kind (length es) step Hstep) as (Hk & _ & _); [apply (step_index _ step); [done|lia|done]|done|].
    set (request := newAdapterRequest plan approval "apply" step (je_EntrySHA256 p)) in *.
    assert (validSHA (rs_ResponseSHA256 response) = true) as Hrs by (rewrite Hdig; apply sha256_hex_valid).
    set (e := newJournalEntry clock (length es + 1) plan approval step (rq_RequestSHA256 request)
      (rs_ResponseSHA256 response) (je_EntrySHA256 p) (Some response)).
    assert (extends plan approval es e) as Hext.
    { apply (extends_adapter plan approval es p clock Hb Hp step request); [done| | |done|].
      - unfold step_request. by rewrite Hpre.
      - by apply not_started_settled.
      - intros r [= <-]. split_and!; [done|done|by apply valid_response_bound|done]. }
    assert (validateJournalEntry e (Some p) = None) as Hval.
    { apply next_entry_valid; [exact Hb|exact Hp|exact Htime|exact Hid|exact Hq2|exact Hrs|].
      intros r [= <-]. split; [reflexivity|exact Hdig]. }
    assert (line_fits e) as Hfit.
    { apply new_fits; [exact Hid|exact Hq2|exact Hrs|by apply len_sha|].
      intros r [= <-]. exact Hsmall. }
    destruct (run_append t es p e w (going_ready _ _ _ Hg) Hp Hval Htr Hfit Hext) as (w' & Hrun & Hr' & Hlk).
    assert (not_after e) as Hna by apply new_not_after.
    exists e, w'. rewrite exec_bind, (run_invoke adapter request stdout stderr w) by congruence.
    rewrite Hread. destruct (step == "proof-assembled") eqn:Eproof.
    + apply String.eqb_eq in Eproof. rewrite Hproof by done.
      unfold call. cbn [exec mbind prog_mbind prog_bind answer]. fold e.
      change (prog_bind ?f ?q) with (q ≫= f). rewrite exec_bind, Hrun. split_and!; [done| |done].
      apply (going_snoc t es e w w' step Hg Hr' eq_refl Hstep Hna Hlen). intros _.
      exists response. split; [reflexivity|by apply Hproof].
    + apply String.eqb_neq in Eproof. unfold call. cbn [exec mbind prog_mbind prog_bind answer]. fold e.
      change (prog_bind ?f ?q) with (q ≫= f). rewrite exec_bind, Hrun. split_and!; [done| |done].
      apply (going_snoc t es e w w' step Hg Hr' eq_refl Hstep Hna Hlen). intros Habs. destruct (Eproof Habs).
Qed.

Lemma run_apply_loop adapter t fuel : forall es w,
  ad_IdentitySHA256 adapter = ei_ExecutableSHA256 (pn_Adapter plan) -> going t es w -> 12 - length es <= fuel ->
  (forall k step, length es <= k < 12 -> ApplySteps !! k = Some step -> step <> "mutation-started" ->
    answers adapter step) ->
  exists es' w', run (apply_loop plan approval fuel adapter t es) w = (Ok es', w') /\
    going t es' w' /\ 12 <= length es' /\ w_locks w' = w_locks w.
Proof.
  induction fuel as [|fuel IH]; intros es w Had Hg Hfuel Hans; cbn [apply_loop];
    change (length ApplySteps - 1) with 12;
    (destruct (Nat.ltb_spec (length es) 12) as [Hlt|Hge]; [|by exists es, w]); [lia|].
  pose proof (ready_bound _ _ _ (going_ready _ _ _ Hg)) as Hb.
  destruct (lookup_lt_is_Some_2 ApplySteps (length es)) as [step Hstep]; [change (length ApplySteps) with 13; lia|].
  destruct (last es) as [p|] eqn:Hp; [|apply last_None in Hp; by destruct (bound_nonempty _ _ _ Hb)].
  rewrite Hstep. destruct (run_apply_step adapter t es p step w) as (e & w1 & Hrun & Hg1 & Hl1); try done.
  { intros Hns. by apply (Hans (length es)). }
  destruct (IH (es ++ [e]) w1) as (es' & w' & Hrun' & Hg' & H12 & Hl'); try done.
  { rewrite length_app. cbn. lia. }
  { intros k s Hk. rewrite length_app in Hk. cbn in Hk. apply Hans. lia. }
  exists es', w'. rewrite exec_bind, Hrun. split_and!; [exact Hrun'|done|done|congruence].
Qed.

(** ** The receipt *)

Lemma chain_entry_valid es p : chain_ok es -> p ∈ es ->
  validSHA (je_ResponseSHA256 p) = true /\ is_Some (canonicalTime (je_RecordedAt p)).
Proof.
  intros Hc Hp. destruct (chain_entry es p Hc Hp) as [q Hq]. unfold validateJournalEntry in Hq.
  destruct (entry_valid p) eqn:Hv; [|done]. cbn [negb] in Hq. destruct (negb _); [done|].
  destruct (canonicalTime (je_RecordedAt p)); [|done]. split; [|by eexists].
  unfold entry_valid in Hv. apply andb_true_iff in Hv as [Hv _]. by apply andb_true_iff in Hv as [_ Hv].
Qed.

Lemma full_journal es : chain_ok es -> rollbackStarted es = false -> 12 <= length es ->
  exists p, es !! 11 = Some p /\ je_Step p = "proof-assembled" /\
    (length es = 12 -> last es = Some p) /\
    (length es <> 12 -> length es = 13 /\ exists c, last es = Some c /\ je_Step c = "completed").
Proof.
  intros Hc Hr H12. destruct (running_steps es Hc Hr) as [Hn E].
  destruct (lookup_lt_is_Some_2 es 11 ltac:(lia)) as [p Hp]. exists p.
  assert (steps es !! 11 = Some (je_Step p)) as Hs by (unfold steps; by rewrite list_lookup_fmap, Hp).
  rewrite E, lookup_take_lt in Hs by lia. injection Hs as Hs. split_and!; [done|done| |].
  - intros Hl. by rewrite last_lookup, Hl.
  - intros Hl. assert (length es = 13) as H13 by lia. split; [done|].
    destruct (last es) as [c|] eqn:Hlast; [|apply last_None in Hlast; by subst].
    pose proof (running_last es c Hc Hr Hlast) as Hcs. rewrite H13 in Hcs. injection Hcs as Hcs. by exists c.
Qed.

Lemma proof_of_full es p : chain_ok es -> rollbackStarted es = false -> 12 <= length es -> es !! 11 = Some p ->
  proof_of es = je_Response p.
Proof.
  intros Hc Hr H12 Hp. destruct (full_journal es Hc Hr H12) as (p' & Hp' & Hs & Hl12 & Hl13).
  rewrite Hp in Hp'. injection Hp' as <-. unfold proof_of. destruct (decide (length es = 12)) as [Hl|Hl].
  - rewrite (Hl12 Hl), Hs. done.
  - destruct (Hl13 Hl) as (H13 & c & -> & ->). rewrite H13. change (13 - 2) with 11. by rewrite Hp.
Qed.

Lemma make_receipt_full es proof : bound plan approval es -> rollbackStarted es = false -> length es = 13 ->
  proof_of es = Some proof -> validateProofResponse plan proof = None ->
  exists receipt, make_receipt plan approval es = Ok receipt.
Proof.
  intros Hb Hr H13 Hproof Hv. pose proof (bound_chain _ _ _ Hb) as Hc.
  destruct (full_journal es Hc Hr ltac:(lia)) as (p & Hp & Hs & _ & Hl). destruct (Hl ltac:(lia)) as (_ & c & Hlast & Hcs).
  rewrite (proof_of_full es p Hc Hr ltac:(lia) Hp) in Hproof.
  destruct (chain_entry_valid es c Hc (last_Some_elem_of _ _ Hlast)) as [_ [ct Hct]].
  destruct (running_steps es Hc Hr) as [_ Hsteps]. rewrite H13 in Hsteps. change (take 13 ApplySteps) with ApplySteps in Hsteps.
  pose proof Hv as Hv'. unfold validateProofResponse in Hv'.
  destruct (rs_IsolationEvidence proof) as [isolation|] eqn:Hiso; [|done].
  destruct (rs_CleanupEvidence proof) as [cleanup|] eqn:Hclean; [|done].
  destruct (_ || _) eqn:E in Hv'; [done|]. destruct (targets_proved plan 0 TargetKinds (rs_Targets proof)) eqn:Ht; [|done].
  repeat (apply orb_false_iff in E as [E ?]).
  match goal with H : negb (length (rs_Targets proof) =? _) = false |- _ => rename H into Hlen end.
  unfold make_receipt, last_two. rewrite H13, Hlast. change (13 - 2) with 11. rewrite Hp, Hproof, Hv, Hiso, Hclean.
  set (receipt := receipt_of plan approval c proof isolation cleanup).
  assert (ValidateReceipt plan approval receipt es = None) as ->; [|by eexists].
  unfold ValidateReceipt. rewrite plan_valid, Happroved, H13, (bound_verify _ _ _ Hb).
  unfold chain_ok in Hc. rewrite Hc. cbn [is_nil negb orb]. change (negb (13 =? length ApplySteps)) with false. cbn [orb].
  unfold last_two. rewrite H13, Hlast. change (13 - 2) with 11. rewrite Hp, Hproof, Hcs, Hs, Hv. cbn [is_nil negb orb].
  rewrite !String.eqb_refl. cbn [negb orb].
  assert (receipt_matches plan approval receipt c proof = true) as ->.
  { unfold receipt_matches. change (er_ReceiptSHA256 receipt) with (ExecutionReceiptSHA256 receipt).
    unfold receipt, receipt_of, ExecutionReceipt_with_ReceiptSHA256. cbn [er_SchemaVersion er_OperationID er_ProofID
      er_InstallationID er_PlanSHA256 er_ApprovalSHA256 er_ApprovalScopeSHA256 er_AdapterExecutableSHA256 er_Status
      er_CompletedAt er_JournalHeadSHA256 er_ExecutionEvidenceResponseSHA256 er_Targets er_IsolationEvidence
      er_CleanupEvidence er_ObjectLockDeleteDenialReceiptSHA256 er_AggregateProofArtifactSHA256
      er_AggregateProofPathToken].
    by rewrite !String.eqb_refl, Hiso, Hclean, !bool_decide_eq_true_2 by done. }
  change (er_CompletedAt receipt) with (je_RecordedAt c). change (er_Targets receipt) with (rs_Targets proof).
  rewrite Hct, Hlen, Ht. cbn [is_nil negb orb].
  assert (bool_decide (List.map je_Step es = ApplySteps) = true) as -> by (by apply bool_decide_eq_true_2). done.
Qed.

Lemma run_append_completed t es proof w : going t es w -> 12 <= length es ->
  proof_of es = Some proof -> validateProofResponse plan proof = None ->
  exists es' w', run (append_completed plan approval t es proof) w = (Ok tt, w') /\ ready t es' w' /\
    rollbackStarted es' = false /\ length es' = 13 /\ proof_of es' = Some proof /\ w_locks w' = w_locks w.
Proof.
  intros Hg H12 Hproof Hv. pose proof (ready_bound _ _ _ (going_ready _ _ _ Hg)) as Hb.
  pose proof (going_steady _ _ _ Hg) as Hst. pose proof (bound_chain _ _ _ Hb) as Hc.
  destruct (full_journal es Hc Hst H12) as (p & Hp & Hs & Hl12 & Hl13).
  unfold append_completed. change (length ApplySteps - 1) with 12.
  destruct (Nat.eqb_spec (length es) 12) as [Hl|Hl].
  2: { exists es, w. destruct (Hl13 Hl) as [? _]. split_and!; try done; apply Hg. }
  specialize (Hl12 Hl). pose proof (proof_of_full es p Hc Hst H12 Hp) as Hpr. rewrite Hproof in Hpr. symmetry in Hpr.
  pose proof (last_Some_elem_of _ _ Hl12) as Hin. destruct (chain_entry_valid es p Hc Hin) as [Hsha _].
  rewrite (chain_response es p proof Hc Hin Hpr) in Hsha. rewrite Hl12.
  pose proof (extends_completed plan approval es p clock Hb Hl12 proof Hst Hs Hpr) as Hext.
  assert (validSHA (completedDigests (rs_ResponseSHA256 proof)).1 = true) as Hq by apply sha256_hex_valid.
  unfold completedDigests in *. cbn [fst snd] in *.
  set (request := digest_fields _) in *. clearbody request.
  set (e := newJournalEntry clock (length es + 1) plan approval "completed" request (rs_ResponseSHA256 proof)
    (je_EntrySHA256 p) None) in *.
  pose proof (going_time _ _ _ Hg p Hl12) as Htime.
  assert (validateJournalEntry e (Some p) = None) as Hval by (by apply next_entry_valid).
  assert (line_fits e) as Hfit.
  { apply new_fits; [done|done|done|apply len_sha; by apply (previous_valid es)|done]. }
  assert (validTransition es (je_Step e) = true) as Htr by (apply next_transition; [done|done|by rewrite Hl]).
  destruct (run_append t es p e w (going_ready _ _ _ Hg) Hl12 Hval Htr Hfit Hext) as (w' & Hrun & Hr' & Hlk).
  assert (rollbackStarted (es ++ [e]) = false) as Hst' by (by apply rollbackStarted_snoc).
  exists (es ++ [e]), w'. unfold call. cbn [exec mbind prog_mbind prog_bind answer]. fold e.
  change (prog_bind ?f ?q) with (q ≫= f). rewrite exec_bind, Hrun. split_and!; try done.
  - rewrite length_app, Hl. done.
  - rewrite (proof_of_full (es ++ [e]) p); [done|apply (ready_bound _ _ _ Hr')|done|rewrite length_app; lia|].
    by rewrite lookup_app_l by lia.
Qed.

Lemma run_runApply t adapter es w :
  ad_IdentitySHA256 adapter = ei_ExecutableSHA256 (pn_Adapter plan) -> going t es w ->
  (forall k step, length es <= k < 12 -> ApplySteps !! k = Some step -> step <> "mutation-started" ->
    answers adapter step) ->
  exists receipt w', run (runApply plan approval t adapter) w = (Ok receipt, w') /\ w_locks w' = w_locks w.
Proof.
  intros Had Hg Hans. unfold runApply.
  rewrite exec_bind, (run_load _ _ _ (going_ready _ _ _ Hg)),
    (bound_verify _ _ _ (ready_bound _ _ _ (going_ready _ _ _ Hg))), (going_steady _ _ _ Hg). cbn [is_nil negb].
  destruct (run_apply_loop adapter t (length ApplySteps) es w) as (es1 & w1 & Hrun1 & Hg1 & H12 & Hl1); try done.
  { change (length ApplySteps) with 13. lia. }
  rewrite exec_bind, Hrun1. destruct (going_proof _ _ _ Hg1 H12) as (proof & Hproof & Hv).
  rewrite Hproof, Hv. cbn [is_nil negb].
  destruct (run_append_completed t es1 proof w1 Hg1 H12 Hproof Hv) as (es2 & w2 & Hrun2 & Hr2 & Hst2 & H13 & Hp2 & Hl2).
  rewrite exec_bind, Hrun2, exec_bind, (run_load _ _ _ Hr2), (bound_verify _ _ _ (ready_bound _ _ _ Hr2)), H13.
  cbn [is_nil negb orb]. change (negb (13 =? length ApplySteps)) with false. cbn iota.
  destruct (make_receipt_full es2 proof (ready_bound _ _ _ Hr2) Hst2 H13 Hp2 Hv) as [receipt ->].
  exists receipt, w2. split; [done|congruence].
Qed.

(** ** Recovery *)

Definition clean_path (path : string) : Prop :=
  path_IsAbs path = true /\ path_Clean path = path /\ path <> "/".

Lemma clean_Abs path : clean_path path -> filepath_Abs cwd (path_Clean path) = path.
Proof. intros (Ha & Hc & _). unfold filepath_Abs. by rewrite Hc, Ha, Hc. Qed.

Lemma run_open path file w : clean_path path -> named cwd w path = Some file -> w_locks w !! file = None ->
  run (openJournalTransaction cwd path) w =
  (Ok {| jt_path := path; jt_file := file |},
   {| w_names := w_names w; w_files := w_files w; w_locks := <[file := 0]> (w_locks w) |}).
Proof.
  intros Hpath Hn Hl. unfold openJournalTransaction, openJournalRoot. rewrite (clean_Abs path Hpath).
  destruct Hpath as (_ & _ & Hne). apply String.eqb_neq in Hne. rewrite Hne.
  unfold need, call. cbn [exec mbind prog_mbind prog_bind answer]. rewrite !Hn.
  cbn [exec mbind prog_mbind prog_bind answer]. rewrite !Hn, Nat.eqb_refl.
  cbn [negb exec mbind prog_mbind prog_bind answer]. rewrite Hl.
  cbn [negb exec mbind prog_mbind prog_bind answer].
  assert (named cwd {| w_names := w_names w; w_files := w_files w; w_locks := <[file:=0]> (w_locks w) |} path =
    Some file) as Hn' by exact Hn.
  rewrite Hn', bool_decide_eq_true_2 by done. done.
Qed.

Lemma run_closing {A} t (body : P A) w : (run (closing t body) w).1 = (run body w).1.
Proof.
  unfold closing. rewrite exec_bind. destruct (run body w) as [a w']. done.
Qed.

(** Whatever was recorded before the interruption, the run is completed. *)
Lemma run_Recover path file es adapter w :
  ad_IdentitySHA256 adapter = ei_ExecutableSHA256 (pn_Adapter plan) ->
  clean_path path -> named cwd w path = Some file -> w_locks w !! file = None ->
  going {| jt_path := path; jt_file := file |} es w ->
  (forall k step, length es <= k < 12 -> ApplySteps !! k = Some step -> step <> "mutation-started" ->
    answers adapter step) ->
  exists receipt, (run (Recover plan approval cwd (ap_ApprovalTuple approval) path (Some adapter)) w).1 = Ok receipt.
Proof.
  intros Had Hpath Hn Hl Hg Hans. unfold Recover, call. cbn [exec mbind prog_mbind prog_bind answer].
  unfold validateExecutionInput, adapter_of. rewrite Had, String.eqb_refl, Happroved, String.eqb_refl. cbn [negb is_nil orb].
  change (prog_bind ?f ?q) with (q ≫= f). rewrite exec_bind, (run_open path file w Hpath Hn Hl), run_closing.
  set (t := {| jt_path := path; jt_file := file |}) in *.
  set (w1 := {| w_names := w_names w; w_files := w_files w; w_locks := <[file:=0]> (w_locks w) |}).
  assert (going t es w1) as Hg1 by (destruct Hg as [[] ? ? ?]; constructor; [by constructor|done..]).
  rewrite exec_bind, (run_load _ _ _ (going_ready _ _ _ Hg1)).
  destruct (run_runApply t adapter es w1 Had Hg1 Hans) as (receipt & w2 & Hrun & _).
  pose proof (ready_bound _ _ _ (going_ready _ _ _ Hg1)) as Hb. exists receipt.
  destruct es as [|e es]; [by destruct (bound_nonempty _ _ _ Hb)|].
  by rewrite (bound_verify _ _ _ Hb), (going_steady _ _ _ Hg1), Hrun.
Qed.

(** *** From the beginning *)

Lemma approval_response_valid : validSHA (ap_PreflightResponseSHA256 approval) = true.
Proof.
  unfold validateApprovalBinding in Happroved. destruct (ValidatePlan plan); [done|].
  destruct (_ || _) eqn:E in Happroved; [done|]. do 4 (apply orb_false_iff in E as [E _]).
  apply orb_false_iff in E as [_ E]. by apply negb_false_iff in E.
Qed.

Definition published (w : world) (path data : string) : world :=
  {| w_names := <[path := length (w_files w)]> (w_names w); w_files := w_files w ++ [data];
     w_locks := w_locks w |}.

Lemma clean_Abs_self path : clean_path path -> filepath_Abs cwd path = path.
Proof. intros (Ha & Hc & _). unfold filepath_Abs. by rewrite Ha, Hc. Qed.

Lemma run_WriteNew path data w : clean_path path -> w_names w !! path = None ->
  run (WriteNew path data) w = (Ok tt, published w path data).
Proof.
  intros Hpath Hn. pose proof (clean_Abs_self path Hpath) as Habs. destruct Hpath as (Ha & Hc & Hne).
  assert ((path == ".") || (path == "/") = false) as Hok.
  { apply orb_false_iff. split; [|by apply String.eqb_neq]. apply String.eqb_neq. by intros ->. }
  unfold WriteNew. rewrite Hc, Hok. unfold need, call, named.
  cbn [exec mbind prog_mbind prog_bind answer]. unfold named. rewrite Habs, Hn, bool_decide_eq_true_2 by done.
  cbn [negb exec mbind prog_mbind prog_bind answer]. unfold named. rewrite Habs, Hn.
  cbn [negb exec mbind prog_mbind prog_bind answer]. done.
Qed.

Lemma run_Apply path adapter w :
  ad_IdentitySHA256 adapter = ei_ExecutableSHA256 (pn_Adapter plan) ->
  ValidateApproval plan approval clock = None -> clean_path path -> w_names w !! path = None ->
  w_locks w !! length (w_files w) = None ->
  (forall k step, 2 <= k < 12 -> ApplySteps !! k = Some step -> answers adapter step) ->
  exists receipt, (run (Apply plan approval cwd (ap_ApprovalTuple approval) path (Some adapter)) w).1 = Ok receipt.
Proof.
  intros Had Hfresh Hpath Hn Hl Hans. unfold Apply, call. cbn [exec mbind prog_mbind prog_bind answer].
  unfold validateExecutionInput, adapter_of. rewrite Had, String.eqb_refl, Hfresh, String.eqb_refl. cbn [negb is_nil orb].
  cbn [exec mbind prog_mbind prog_bind answer]. unfold named. rewrite (clean_Abs_self path Hpath), Hn.
  rewrite bool_decide_eq_true_2 by done. cbn [negb].
  generalize (first_entry_bound plan approval clock Happroved).
  assert (validSHA (approvalConsumedDigests plan approval).1 = true) as Hq by apply sha256_hex_valid.
  assert (validSHA (approvalConsumedDigests plan approval).2 = true) as Hr by apply approval_response_valid.
  destruct (approvalConsumedDigests plan approval) as [request response]. cbn [fst snd] in Hq, Hr. cbn zeta.
  set (e := newJournalEntry clock 1 plan approval "approval-consumed" request response "" None). intros Hb.
  assert (validateJournalEntry e None = None) as Hval by (by apply first_entry_valid).
  specialize (Hb Hval). assert (line_fits e) as Hfit by (apply new_fits; [done|done|done|cbn; lia|done]).
  cbn [exec mbind prog_mbind prog_bind answer]. fold e. change (prog_bind ?f ?q) with (q ≫= f).
  assert (run (CreateJournal path e) w = (Ok tt, published w path (entry_line e))) as Hcreate.
  { unfold CreateJournal. rewrite Hval. change (je_Sequence e) with 1%Z. change (je_Step e) with "approval-consumed".
    change (je_PreviousEntrySHA256 e) with "". cbn [negb orb Z.eqb]. rewrite String.eqb_refl.
    change (negb (Pos.eqb 1 1)) with false. cbn [negb orb].
    by apply run_WriteNew. }
  rewrite exec_bind, Hcreate.
  set (w1 := published w path (entry_line e)).
  assert (named cwd w1 path = Some (length (w_files w))) as Hn1.
  { unfold named. rewrite (clean_Abs_self path Hpath). cbn. by rewrite lookup_insert_eq. }
  rewrite exec_bind, (run_open path (length (w_files w)) w1 Hpath Hn1 Hl), run_closing.
  set (t := {| jt_path := path; jt_file := length (w_files w) |}).
  set (w2 := {| w_names := w_names w1; w_files := w_files w1; w_locks := <[length (w_files w):=0]> (w_locks w1) |}).
  destruct (run_runApply t adapter [e] w2 Had) as (receipt & w3 & Hrun & _).
  - constructor; [constructor|done| |cbn; lia].
    + exact Hn1.
    + cbn. rewrite lookup_app_r, Nat.sub_diag by done. by rewrite string_app_nil_r.
    + done.
    + by apply Forall_singleton.
    + intros p [= <-]. apply new_not_after.
  - intros k step Hk Hs Hns. apply (Hans k); [|done]. cbn in Hk. destruct k as [|[|k]]; [lia|by injection Hs as <-|lia].
  - exists receipt. by rewrite Hrun.
Qed.
End Live.

(** * Rollbacks without faults

    In the system of DrillRun, [Rollback] of an interrupted run succeeds: both
    answers of the adapter and the outcome are recorded. *)

Section Back.
Context (plan : Plan) (approval : ApprovalReport) (clock : Time) (Hclock : four_digit_year clock).
Context (Happroved : validateApprovalBinding plan approval = None).
Context (cwd : string) (reply : AdapterRequest -> option (string * string)).

#[local] Abbreviation run := (exec (answer clock cwd reply)).
#[local] Abbreviation ready := (ready plan approval cwd).
#[local] Abbreviation not_after := (not_after clock).
#[local] Abbreviation new n step request response previous recorded :=
  (newJournalEntry clock n plan approval step request response previous recorded).

Definition answers_rollback (adapter : Adapter) (step : string) : Prop :=
  forall previous, validSHA previous = true ->
  let request := newRollbackRequest plan approval step previous in
  exists stdout stderr response, reply request = Some (stdout, stderr) /\
    read_response adapter request stdout stderr = (response, None) /\ small response.

Lemma rollback_request_valid step previous :
  let request := newRollbackRequest plan approval step previous in
  rq_RequestSHA256 request = AdapterRequestSHA256 request /\ validSHA (rq_RequestSHA256 request) = true /\
  rq_AdapterExecutableSHA256 request = ei_ExecutableSHA256 (pn_Adapter plan).
Proof.
  unfold newRollbackRequest.
  assert (forall request, rq_RequestSHA256 (seal_request request) = AdapterRequestSHA256 (seal_request request) /\
    validSHA (rq_RequestSHA256 (seal_request request)) = true) as Hseal.
  { intros request. split; [reflexivity|]. unfold seal_request. cbn [AdapterRequest_with_RequestSHA256 rq_RequestSHA256].
    unfold AdapterRequestSHA256, digest. apply sha256_hex_valid. }
  destruct (step == "rollback-cleanup-requested"); cbn zeta.
  - split_and!; [apply Hseal|apply Hseal|reflexivity].
  - unfold newAdapterRequest. split_and!; [apply Hseal|apply Hseal|reflexivity].
Qed.

(** A journal that can go on. *)
Record open_at (t : journalTransaction) (es : list JournalEntry) (p : JournalEntry) (w : world) : Prop := {
  open_ready : ready t es w;
  open_last : last es = Some p;
  open_time : not_after p
}.

Lemma run_rollback_step adapter t es p step w :
  ad_IdentitySHA256 adapter = ei_ExecutableSHA256 (pn_Adapter plan) ->
  open_at t es p w -> rollback_step_due plan approval es p step -> validTransition es step = true ->
  answers_rollback adapter step ->
  exists e w', run (rollback_step plan approval adapter t es step) w = (Ok (e, None), w') /\
    open_at t (es ++ [e]) e w' /\ je_Step e = step /\
    rollbackResponseSucceeded plan approval (es ++ [e]) (length (es ++ [e]) - 1) = true.
Proof.
  intros Had [Hr Hp Htime] Hdue Htr Hans. pose proof (ready_bound _ _ _ _ _ _ Hr) as Hb.
  pose proof (previous_valid plan approval es p Hb Hp) as Hprev.
  destruct (Hans _ Hprev) as (stdout & stderr & response & Hreply & Hread & Hsmall).
  pose proof (read_response_None _ _ _ _ _ Hread) as [Hw Hv].
  pose proof (valid_response_digest _ _ Hv) as Hdig.
  destruct (rollback_request_valid step (je_EntrySHA256 p)) as (Hq1 & Hq2 & Hq3).
  assert (adapter_step step = true /\ HasPrefix step "rollback-" = true /\ validID step = true /\
    (step = "rollback-safe-stop" \/ step = "rollback-cleanup-requested")) as (Hk & Hpre & Hid & Hs).
  { destruct Hdue as [[-> _]|[-> _]]; auto. }
  assert (settled plan approval es step) as Hset.
  { destruct Hdue as [(-> & Hn & _)|(-> & _ & Hok)]; [by apply not_started_settled|]. intros q _ _. by right. }
  unfold rollback_step. rewrite Hp.
  set (request := newRollbackRequest plan approval step (je_EntrySHA256 p)) in *. cbn zeta.
  assert (validSHA (rs_ResponseSHA256 response) = true) as Hrs.
  { rewrite Hdig. unfold AdapterResponseSHA256, digest. apply sha256_hex_valid. }
  rewrite exec_bind, (run_invoke clock cwd reply adapter request stdout stderr w) by congruence.
  rewrite Hread. unfold recorded_response. rewrite Hrs, (valid_response_bound _ _ Hv). cbn [is_nil andb].
  set (e := newJournalEntry clock (length es + 1) plan approval step (rq_RequestSHA256 request)
    (rs_ResponseSHA256 response) (je_EntrySHA256 p) (Some response)).
  assert (extends plan approval es e) as Hext.
  { apply (extends_adapter plan approval es p clock Hb Hp step request); [done| |done|done|].
    - unfold step_request. by rewrite Hpre.
    - intros r [= <-]. split_and!; [reflexivity|exact Hw|by apply valid_response_bound|intros _; exact Hv]. }
  assert (validateJournalEntry e (Some p) = None) as Hval.
  { apply next_entry_valid; [exact Hclock|exact Happroved|exact Hb|exact Hp|exact Htime|exact Hid|exact Hq2|exact Hrs|].
    intros r [= <-]. split; [reflexivity|exact Hdig]. }
  assert (line_fits e) as Hfit.
  { apply new_fits; [exact Happroved|exact Hid|exact Hq2|exact Hrs|by apply len_sha|]. intros r [= <-]. exact Hsmall. }
  destruct (run_append plan approval clock cwd reply t es p e w Hr Hp Hval Htr Hfit Hext) as (w' & Hrun & Hr' & _).
  exists e, w'. unfold call. cbn [exec mbind prog_mbind prog_bind answer]. fold e.
  change (prog_bind ?f ?q) with (q ≫= f). rewrite exec_bind, Hrun. split_and!; [reflexivity| |reflexivity|].
  - constructor; [exact Hr'|apply last_snoc|by apply new_not_after].
  - by apply succeeded_snoc.
Qed.

Lemma run_terminal t es p w : open_at t es p w ->
  rollbackResponseSucceeded plan approval es (length es - 1) = true -> validTransition es "rolled-back" = true ->
  (run (appendRollbackTerminal plan approval t es "rolled-back") w).1 = None.
Proof.
  intros [Hr Hp Htime] Hok Htr. pose proof (ready_bound _ _ _ _ _ _ Hr) as Hb. unfold appendRollbackTerminal. rewrite Hp.
  assert (validSHA (je_ResponseSHA256 p) = true /\ validSHA (je_EntrySHA256 p) = true) as [Hsha Hprev].
  { split; [|by apply (previous_valid plan approval es)].
    eapply chain_entry_valid; [apply (bound_chain _ _ _ Hb)|by apply last_Some_elem_of]. }
  pose proof (extends_terminal plan approval es p clock Hb Hp "rolled-back" (or_intror (conj eq_refl Hok))) as Hext.
  assert (validSHA (rollbackTerminalDigests "rolled-back" (je_EntrySHA256 p) (je_ResponseSHA256 p)).1 = true /\
    validSHA (rollbackTerminalDigests "rolled-back" (je_EntrySHA256 p) (je_ResponseSHA256 p)).2 = true) as [Hq1 Hq2].
  { unfold rollbackTerminalDigests, digest_fields. cbn [fst snd]. split; apply sha256_hex_valid. }
  destruct (rollbackTerminalDigests "rolled-back" (je_EntrySHA256 p) (je_ResponseSHA256 p)) as [request response].
  cbn [fst snd] in *.
  set (e := newJournalEntry clock (length es + 1) plan approval "rolled-back" request response (je_EntrySHA256 p) None) in *.
  assert (validateJournalEntry e (Some p) = None) as Hval by (by apply next_entry_valid).
  assert (line_fits e) as Hfit by (apply new_fits; [exact Happroved|done|done|done|by apply len_sha|done]).
  destruct (run_append plan approval clock cwd reply t es p e w Hr Hp Hval Htr Hfit Hext) as (w' & Hrun & _ & _).
  unfold call. cbn [exec mbind prog_mbind prog_bind answer]. fold e.
  change (prog_bind ?f ?q) with (q ≫= f). by rewrite exec_bind, Hrun.
Qed.

(** ** The order of a rollback *)

Lemma not_started_without es step : rollbackStarted es = false ->
  HasPrefix step "rollback-" || (step == "rolled-back") = true -> existsb (fun e => je_Step e == step) es = false.
Proof.
  intros Hr Hs. apply not_true_is_false. intros [e [He Hes]]%existsb_elem. apply String.eqb_eq in Hes.
  assert (rollbackStarted es = true); [|congruence]. apply existsb_elem. exists e. by rewrite Hes.
Qed.

Lemma stop_transition es : chain_ok es -> rollbackStarted es = false -> length es < 13 ->
  validTransition es "rollback-safe-stop" = true.
Proof.
  intros Hc Hr Hlen. destruct (running_steps es Hc Hr) as [Hn _].
  destruct (last es) as [p|] eqn:Hp; [|apply last_None in Hp; by subst].
  pose proof (running_last es p Hc Hr Hp) as Hl. pose proof (apply_steps_rollback _ _ Hl) as (L1 & L2 & _ & _ & _ & Lt).
  unfold validTransition. rewrite Hp, not_started_without by done.
  destruct (terminal_step (je_Step p)) eqn:Ht; [specialize (Lt eq_refl); lia|].
  apply String.eqb_neq in L1, L2. by rewrite L1, L2.
Qed.

Lemma cleanup_transition es e : rollbackStarted es = false -> je_Step e = "rollback-safe-stop" ->
  validTransition (es ++ [e]) "rollback-cleanup-requested" = true.
Proof.
  intros Hr He. unfold validTransition. rewrite last_snoc, existsb_app, not_started_without by done.
  cbn [existsb]. by rewrite He.
Qed.

Lemma back_transition es e e' : rollbackStarted es = false -> je_Step e = "rollback-safe-stop" ->
  je_Step e' = "rollback-cleanup-requested" -> validTransition ((es ++ [e]) ++ [e']) "rolled-back" = true.
Proof.
  intros Hr He He'. unfold validTransition. rewrite last_snoc, !existsb_app, not_started_without by done.
  cbn [existsb]. by rewrite He, He'.
Qed.

(** Whatever was recorded before the interruption, if not the completion. *)
Lemma run_Rollback path file es p adapter w :
  ad_IdentitySHA256 adapter = ei_ExecutableSHA256 (pn_Adapter plan) ->
  clean_path path -> named cwd w path = Some file -> w_locks w !! file = None ->
  open_at {| jt_path := path; jt_file := file |} es p w -> rollbackStarted es = false -> length es < 13 ->
  answers_rollback adapter "rollback-safe-stop" -> answers_rollback adapter "rollback-cleanup-requested" ->
  (run (Rollback plan approval cwd (ap_ApprovalTuple approval) path (Some adapter)) w).1 = None.
Proof.
  intros Had Hpath Hn Hl Ho Hst Hlen Hstop Hclean. unfold Rollback, call. cbn [exec mbind prog_mbind prog_bind answer].
  unfold validateExecutionInput, adapter_of. rewrite Had, String.eqb_refl, Happroved, String.eqb_refl. cbn [negb is_nil orb].
  change (prog_bind ?f ?q) with (q ≫= f).
  rewrite exec_bind, (run_open clock cwd reply path file w Hpath Hn Hl), run_closing.
  set (t := {| jt_path := path; jt_file := file |}) in *.
  set (w1 := {| w_names := w_names w; w_files := w_files w; w_locks := <[file:=0]> (w_locks w) |}).
  assert (open_at t es p w1) as [Hr1 Hp Htime] by (destruct Ho as [[] ? ?]; constructor; [by constructor|done..]).
  rewrite exec_bind, (run_load plan approval clock cwd reply t es w1 Hr1), Hp.
  pose proof (ready_bound _ _ _ _ _ _ Hr1) as Hb. pose proof (bound_chain _ _ _ Hb) as Hc.
  rewrite (bound_verify _ _ _ Hb).
  pose proof (running_last es p Hc Hst Hp) as Hlast. pose proof (apply_steps_rollback _ _ Hlast) as (N1 & N2 & N3 & N4 & _ & Nt).
  assert (je_Step p <> "completed") as N5.
  { intros E. rewrite E in Nt. specialize (Nt eq_refl). destruct (running_steps es Hc Hst). lia. }
  apply String.eqb_neq in N1, N2, N3, N4, N5. unfold rollback_journal. rewrite N1, N2, N3, N4, N5.
  destruct (run_rollback_step adapter t es p "rollback-safe-stop" w1 Had) as (e1 & w2 & Hrun1 & Ho1 & He1 & Hok1);
    [constructor; [exact Hr1|exact Hp|exact Htime]|left; by split_and!|by apply stop_transition|exact Hstop|].
  rewrite exec_bind, Hrun1. unfold continueRollbackCleanup.
  destruct (run_rollback_step adapter t (es ++ [e1]) e1 "rollback-cleanup-requested" w2 Had)
    as (e2 & w3 & Hrun2 & Ho2 & He2 & Hok2); [exact Ho1|right; by split_and!|by apply cleanup_transition|exact Hclean|].
  rewrite exec_bind, Hrun2. cbn [is_nil]. eapply run_terminal; [exact Ho2|exact Hok2|by apply back_transition].
Qed.
End Back.
