(* ===== verification/DrillSamples.v ===== *)
(** * A sample drill

    A plan with its approval, and an adapter that answers every request of it,
    for the witnesses of the drill's theorems.  No digest is computed: the
    answers' texts are described by patterns. *)

From stdpp Require Import gmap strings list relations.
From Stdlib Require Import ZArith Ascii Lia.
From S2P Require Import Prelude GoString GoTime GoDate GoPath GoSha256 Programs GoJson GoJsonCorrect StrictJson StrictJsonCorrect GoRfc3339 JsonStructs DrillTypes DrillValidate DrillJournal DrillFiles DrillEngine DrillCodec DrillJournalCorrect DrillBound DrillHeld DrillCorrect DrillFacts DrillRun.

(** * Texts with digests in them

    A text of which all is known but some digests is described by a pattern;
    what the pattern rules out, no such text contains. *)

(** A known character, or some lower-case hexadecimal one. *)
Definition pattern : Type := list (option ascii).

Definition char_fits (c : ascii) (p : option ascii) : Prop :=
  match p with Some d => c = d | None => is_hex_lower c = true end.

Fixpoint fits_pattern (s : string) (p : pattern) : Prop :=
  match s, p with
  | EmptyString, [] => True
  | String c s, d :: p => char_fits c d /\ fits_pattern s p
  | _, _ => False
  end.

Fixpoint literal (s : string) : pattern :=
  match s with EmptyString => [] | String c r => Some c :: literal r end.

Definition sha_pattern : pattern := replicate 64 None.

Lemma fits_app s t p q : fits_pattern s p -> fits_pattern t q -> fits_pattern (s +:+ t) (p ++ q).
Proof.
  revert p. induction s as [|c s IH]; intros [|d p]; try done. rewrite string_app_cons. cbn.
  intros [H1 H2] Hq. split; [done|]. by apply IH.
Qed.

Lemma fits_literal s : fits_pattern s (literal s).
Proof. by induction s. Qed.

Lemma fits_hex h n : all_chars is_hex_lower h = true -> len h = n -> fits_pattern h (replicate n None).
Proof.
  revert n. induction h as [|c h IH]; intros n H Hl; [by subst|]. rewrite len_String in Hl. subst n.
  cbn [all_chars] in H. apply andb_true_iff in H as [H1 H2]. split; [done|]. by apply IH.
Qed.

Lemma fits_sha h : validSHA h = true -> fits_pattern h sha_pattern.
Proof.
  unfold validSHA, shaPattern, hex_of_length. intros [H1 H2]%andb_true_iff. apply Nat.eqb_eq in H2.
  by apply fits_hex.
Qed.

Lemma fits_len s p : fits_pattern s p -> len s = length p.
Proof.
  revert p. induction s as [|c s IH]; intros [|d p]; try done. intros [_ H]. rewrite len_String. cbn. f_equal. by apply IH.
Qed.

(** ** JSON objects *)

(** The value of a member: known, or a string that is a digest. *)
Definition member_fits (m : string * json) (p : string * option json) : Prop :=
  m.1 = p.1 /\ match p.2 with Some j => m.2 = j | None => exists h, m.2 = JString h /\ validSHA h = true end.

Definition member_pattern (p : string * option json) : pattern :=
  literal (print_string p.1 +:+ ":") ++
  match p.2 with Some j => literal (print j) | None => Some quote :: sha_pattern ++ [Some quote] end.

Fixpoint commas_pattern (ps : list (string * option json)) : pattern :=
  match ps with
  | [] => []
  | [p] => member_pattern p
  | p :: rest => member_pattern p ++ Some ","%char :: commas_pattern rest
  end.

Definition object_pattern (ps : list (string * option json)) : pattern :=
  Some "{"%char :: commas_pattern ps ++ [Some "}"%char].

Lemma hex_plain c : is_hex_lower c = true -> is_ascii c = true /\ escape_ascii c = String c "".
Proof.
  destruct c as [[] [] [] [] [] [] [] []]; cbv; intros H; (discriminate H || (split; reflexivity)).
Qed.

Lemma escape_hex h : all_chars is_hex_lower h = true -> escape h = h.
Proof.
  induction h as [|c h IH]; [done|]. cbn [all_chars escape]. intros [Hc Hh]%andb_true_iff.
  destruct (hex_plain c Hc) as [-> ->]. by rewrite IH.
Qed.

Lemma fits_member m p : member_fits m p -> fits_pattern (print_member m) (member_pattern p).
Proof.
  unfold member_fits. destruct m as [k v], p as [k' [j|]]; cbn [fst snd]; intros [-> H]; unfold print_member, member_pattern; cbn [fst snd].
  - subst v. rewrite <- string_app_assoc. apply fits_app; apply fits_literal.
  - destruct H as (h & -> & Hv). rewrite <- string_app_assoc. apply fits_app; [apply fits_literal|].
    change (print (JString h)) with (print_string h). unfold print_string. split; [done|].
    apply fits_app; [|by split].
    pose proof Hv as Hh. unfold validSHA, shaPattern, hex_of_length in Hh. apply andb_true_iff in Hh as [Hh _].
    rewrite escape_hex by done. by apply fits_sha.
Qed.

Lemma fits_commas ms ps : Forall2 member_fits ms ps ->
  fits_pattern (commas (List.map print_member ms)) (commas_pattern ps).
Proof.
  induction 1 as [|m p ms ps Hm Hms IH]; [done|]. destruct Hms as [|m' p' ms ps Hm' Hms].
  - by apply fits_member.
  - rewrite commas_more by done. apply fits_app; [by apply fits_member|]. by split.
Qed.

Lemma fits_object ms ps : Forall2 member_fits ms ps -> fits_pattern (print (JObject ms)) (object_pattern ps).
Proof. intros H. rewrite print_object. split; [done|]. apply fits_app; [by apply fits_commas|by split]. Qed.

(** ** What a text does not contain *)

Definition compatible (c : ascii) (p : option ascii) : bool :=
  match p with Some d => Ascii.eqb c d | None => is_hex_lower c end.

Fixpoint may_begin (p : pattern) (word : string) : bool :=
  match word, p with
  | EmptyString, _ => true
  | String c r, d :: p => if compatible c d then may_begin p r else false
  | String _ _, [] => false
  end.

Fixpoint may_contain (p : pattern) (word : string) : bool :=
  if may_begin p word then true else match p with [] => false | _ :: p => may_contain p word end.

Lemma may_begin_prefix s p word : fits_pattern s p -> HasPrefix s word = true -> may_begin p word = true.
Proof.
  unfold HasPrefix. revert s p. induction word as [|c word IH]; intros s p Hf H; [by destruct p|].
  destruct s as [|d s]; [done|]. destruct p as [|e p]; [done|]. destruct Hf as [Hd Hs]. cbn in H.
  destruct (ascii_dec c d) as [<-|]; [|done]. cbn [may_begin]. rewrite (IH s p Hs H).
  assert (compatible c e = true) as ->; [|done].
  destruct e as [e|]; cbn in *; [subst; apply Ascii.eqb_refl|done].
Qed.

Lemma may_contain_Contains s p word : fits_pattern s p -> Contains s word = true -> may_contain p word = true.
Proof.
  revert p. induction s as [|c s IH]; intros p Hf H; cbn [Contains] in H; apply orb_true_iff in H as [H|H].
  - destruct p; [|done]. cbn [may_contain]. by rewrite (may_begin_prefix _ _ _ Hf H).
  - done.
  - destruct p as [|d p]; [done|]. cbn [may_contain]. by rewrite (may_begin_prefix _ _ _ Hf H).
  - destruct p as [|d p]; [done|]. destruct Hf as [_ Hf]. cbn [may_contain]. rewrite (IH p Hf H). by destruct (may_begin _ _).
Qed.

(** ** Lower case *)

Definition lower_char (c : ascii) : ascii := if is_upper c then ascii_of_nat (code c + 32) else c.

Definition lower_pattern (p : pattern) : pattern :=
  List.map (fun d => match d with Some c => Some (lower_char c) | None => None end) p.

Definition ascii_pattern (p : pattern) : bool :=
  forallb (fun d => match d with Some c => is_ascii c | None => true end) p.

Lemma ToLower_ascii a r : is_ascii a = true -> ToLower (String a r) = String (lower_char a) (ToLower r).
Proof.
  intros Ha. unfold is_ascii in Ha. apply Nat.ltb_lt in Ha. cbn [ToLower].
  assert (forall n, 128 <= n -> is_char n a = false) as Hn.
  { intros n Hn. unfold is_char. apply Nat.eqb_neq. lia. }
  destruct r as [|b r]; [done|]. rewrite Hn by lia. destruct r as [|c r]; [done|]. by rewrite Hn by lia.
Qed.

Lemma hex_lower c : is_hex_lower c = true -> lower_char c = c.
Proof. destruct c as [[] [] [] [] [] [] [] []]; cbv; intros H; (discriminate H || reflexivity). Qed.

Lemma fits_lower s p : ascii_pattern p = true -> fits_pattern s p -> fits_pattern (ToLower s) (lower_pattern p).
Proof.
  revert p. induction s as [|c s IH]; intros [|d p] Ha Hf; try done. destruct Hf as [Hc Hf].
  unfold ascii_pattern in Ha. cbn [forallb] in Ha. apply andb_true_iff in Ha as [Hd Ha].
  assert (is_ascii c = true) as Hca.
  { destruct d as [d|]; cbn in *; [by subst|]. by apply hex_ascii. }
  rewrite ToLower_ascii by done. split; [|by apply IH].
  destruct d as [d|]; cbn in *; [by subst|]. by rewrite hex_lower.
Qed.

Definition forbidden_free (p : pattern) : bool :=
  ascii_pattern p && forallb (fun word => negb (may_contain (lower_pattern p) word)) forbidden_material.

Lemma forbidden_free_spec s p : forbidden_free p = true -> fits_pattern s p ->
  containsSecretLookingMaterial s = false.
Proof.
  unfold forbidden_free, containsSecretLookingMaterial. intros [Ha H]%andb_true_iff Hf.
  apply not_true_is_false. intros [word [Hw Hc]]%existsb_elem. rewrite forallb_elem in H. specialize (H word Hw).
  apply negb_true_iff in H. pose proof (may_contain_Contains _ _ word (fits_lower s p Ha Hf) Hc). congruence.
Qed.

(** * A sample drill *)

#[local] Open Scope Z_scope.
#[local] Opaque sha256_hex.

(** ** A plan *)

Definition sha_of (s : string) : string := take_chars 64 (s +:+ String.concat "" (replicate 64 "0")).

Definition restore_of (kind name scope : string) : ObjectIdentity :=
  {| oi_Kind := kind; oi_Namespace := "velero"; oi_Name := name; oi_ScopeSHA256 := sha_of scope |}.

Definition baseline_of (kind : string) : Baseline := {|
  bl_Kind := kind; bl_IdentitySHA256 := sha_of "1"; bl_StateSHA256 := sha_of "2"; bl_DataSHA256 := sha_of "3" |}.

Definition namespace_of (index : Z) (restore restore_scope source destination scope : string)
    : IsolatedNamespace := {|
  ns_RestoreIndex := index; ns_RestoreName := restore; ns_RestoreScopeSHA256 := sha_of restore_scope;
  ns_SourceNamespace := source;
  ns_Destination := {| oi_Kind := "Namespace"; oi_Namespace := ""; oi_Name := destination;
                       oi_ScopeSHA256 := sha_of scope |} |}.

Definition sample_namespaces : list IsolatedNamespace := [
  namespace_of 0 "restore-vm" "a0" "tenant-vm" "drill-vm" "b0";
  namespace_of 1 "restore-volume" "a1" "tenant-volume" "drill-volume" "b1";
  namespace_of 2 "restore-namespace" "a2" "platform-system" "drill-platform" "b2";
  namespace_of 2 "restore-namespace" "a2" "flux-system" "drill-flux" "b3";
  namespace_of 3 "restore-cluster" "a3" "tenant-cluster" "drill-cluster" "b4"].

Definition cleanup_of (kind name : string) : CleanupTarget :=
  {| ct_Kind := kind; ct_Namespace := ""; ct_Name := name; ct_PreconditionIdentitySHA256 := sha_of "c" |}.

Definition sample_plan : Plan := {|
  pn_SchemaVersion := PlanSchemaVersion; pn_OperationID := "drill-1"; pn_ProofID := "proof-1";
  pn_InstallationID := "installation-1"; pn_AcceptedPublicSHA := take_chars 40 (sha_of "e");
  pn_AcceptedDownstreamSHA := take_chars 40 (sha_of "f"); pn_ClusterIdentitySHA256 := sha_of "4";
  pn_BackupStorageLocation :=
    {| sl_Name := "default"; sl_UIDSHA256 := sha_of "5"; sl_Generation := 1; sl_ConfigSHA256 := sha_of "6" |};
  pn_ObjectStore :=
    {| os_Prefix := "backups/cell"; os_MinimumRetentionDays := 30; os_ObjectLockMode := "compliance" |};
  pn_SourceBaselines := List.map baseline_of TargetKinds;
  pn_Tool := {| ei_Name := "cloudring-backup"; ei_ExecutableSHA256 := sha_of "7" |};
  pn_Adapter := {| ei_Name := "adapter"; ei_ExecutableSHA256 := sha_of "8" |};
  pn_Backup := restore_of "Backup" "nightly" "9";
  pn_Restores := [restore_of "VirtualMachineClaim" "restore-vm" "a0"; restore_of "Volume" "restore-volume" "a1";
                  restore_of "Namespace" "restore-namespace" "a2";
                  restore_of "KubernetesClusterClaim" "restore-cluster" "a3"];
  pn_IsolatedNamespaces := sample_namespaces;
  pn_EtcdSandbox := {| oi_Kind := "EtcdSandbox"; oi_Namespace := ""; oi_Name := "etcd-drill"; oi_ScopeSHA256 := sha_of "0" |};
  pn_CleanupTargets :=
    List.map (fun mapping => cleanup_of "Namespace" (oi_Name (ns_Destination mapping))) sample_namespaces ++
    [cleanup_of "EtcdSandbox" "etcd-drill"];
  pn_AggregateProofPathToken := "proofs/aggregate"; pn_IssuedAt := "2026-06-24T12:00:00Z";
  pn_ExpiresAt := "2026-06-24T12:20:00Z"; pn_RunNonceSHA256 := sha_of "d" |}.

Example sample_plan_valid : ValidatePlan sample_plan = None.
Proof. vm_compute. reflexivity. Qed.

(** ** An approval *)

(** What [Preflight] reports is bound to its plan. *)
Lemma preflight_report_bound plan response : ValidatePlan plan = None ->
  validSHA (rs_ResponseSHA256 response) = true ->
  validEvidence (ev_Ref (rs_Evidence response)) (ev_SHA256 (rs_Evidence response)) = true ->
  validateApprovalBinding plan (preflight_report plan (preflightRequest plan) response) = None.
Proof.
  intros Hp Hr He. unfold validateApprovalBinding. rewrite Hp.
  set (report := preflight_report plan (preflightRequest plan) response).
  change (ap_SchemaVersion report) with ApprovalSchemaVersion. change (ap_OperationID report) with (pn_OperationID plan).
  change (ap_PlanSHA256 report) with (PlanSHA256 plan).
  change (ap_ApprovalScopeSHA256 report) with (ApprovalScopeSHA256 plan).
  change (ap_AdapterExecutableSHA256 report) with (ei_ExecutableSHA256 (pn_Adapter plan)).
  change (ap_IssuedAt report) with (pn_IssuedAt plan). change (ap_ExpiresAt report) with (pn_ExpiresAt plan).
  change (ap_PreflightRequestSHA256 report) with (rq_RequestSHA256 (preflightRequest plan)).
  change (ap_PreflightResponseSHA256 report) with (rs_ResponseSHA256 response).
  change (ap_PreflightEvidenceRef report) with (ev_Ref (rs_Evidence response)).
  change (ap_PreflightEvidenceSHA256 report) with (ev_SHA256 (rs_Evidence response)).
  change (ap_PreflightBindingSHA256 report) with (PreflightBindingSHA256 plan (rs_ResponseSHA256 response)
    (ev_Ref (rs_Evidence response)) (ev_SHA256 (rs_Evidence response))).
  change (ap_ApprovalTuple report) with (ApprovalTuple plan (PreflightBindingSHA256 plan (rs_ResponseSHA256 response)
    (ev_Ref (rs_Evidence response)) (ev_SHA256 (rs_Evidence response)))).
  change (ap_ReportSHA256 report) with (ApprovalReportSHA256 report).
  by rewrite !String.eqb_refl, Hr, He.
Qed.

Definition sample_evidence : Evidence := {| ev_Ref := "evidence/1"; ev_SHA256 := sha_of "ee" |}.

Definition observation_of (mapping : IsolatedNamespace) : RestoreObservation := {|
  ro_RestoreName := ns_RestoreName mapping; ro_RestoreScopeSHA256 := ns_RestoreScopeSHA256 mapping;
  ro_SourceNamespace := ns_SourceNamespace mapping;
  ro_DestinationNamespace := oi_Name (ns_Destination mapping);
  ro_DestinationScopeSHA256 := oi_ScopeSHA256 (ns_Destination mapping);
  ro_EvidenceRef := "evidence/2"; ro_EvidenceSHA256 := sha_of "ef" |}.

Definition target_of (kind : string) : TargetResult := {|
  tr_Kind := kind; tr_SourceChecksumSHA256 := sha_of "3"; tr_RestoredChecksumSHA256 := sha_of "3";
  tr_EvidenceRef := "evidence/3"; tr_EvidenceSHA256 := sha_of "ab" |}.

(** The answer to a step, with the digests of the request and of itself. *)
Definition sample_response (step request response : string) : AdapterResponse :=
  let proof := step == "proof-assembled" in {|
  rs_SchemaVersion := AdapterResponseVersion; rs_ProtocolVersion := AdapterProtocolVersion;
  rs_OperationID := "drill-1"; rs_Step := step; rs_RequestSHA256 := request;
  rs_AdapterExecutableSHA256 := sha_of "8";
  rs_Status := if step == "preflight" then "ready"
               else if step == "rollback-safe-stop" then "safe-stopped" else "completed";
  rs_Mutated := string_in ("rollback-cleanup-requested" :: mutation_steps) step;
  rs_Evidence := sample_evidence;
  rs_RestoreObservations := if step == "restore-watch-create-observe-complete"
                            then List.map observation_of sample_namespaces else [];
  rs_Targets := if proof then List.map target_of TargetKinds else [];
  rs_IsolationEvidence := if proof then Some sample_evidence else None;
  rs_CleanupEvidence := if proof then Some sample_evidence else None;
  rs_ObjectLockDeleteDenialReceiptSHA256 := if proof then sha_of "ac" else "";
  rs_AggregateProofArtifactSHA256 := if proof then sha_of "ad" else "";
  rs_AggregateProofPathToken := if proof then "proofs/aggregate" else "";
  rs_ResponseSHA256 := response |}.

Definition sealed (step request : string) : AdapterResponse :=
  sample_response step request (AdapterResponseSHA256 (sample_response step request "")).

Definition sample_approval : ApprovalReport :=
  preflight_report sample_plan (preflightRequest sample_plan)
    (sealed "preflight" (rq_RequestSHA256 (preflightRequest sample_plan))).

Lemma sealed_valid step request : validSHA (rs_ResponseSHA256 (sealed step request)) = true.
Proof.
  change (rs_ResponseSHA256 (sealed step request)) with (AdapterResponseSHA256 (sample_response step request "")).
  unfold AdapterResponseSHA256, digest. apply sha256_hex_valid.
Qed.

Lemma sample_approved : validateApprovalBinding sample_plan sample_approval = None.
Proof.
  apply preflight_report_bound; [exact sample_plan_valid|apply sealed_valid|]. change (validEvidence (ev_Ref sample_evidence) (ev_SHA256 sample_evidence) = true).
  vm_compute. reflexivity.
Qed.

(** ** An adapter *)

Definition sample_adapter : Adapter := {| ad_IdentitySHA256 := sha_of "8"; ad_environment := [] |}.

Definition sample_reply (request : AdapterRequest) : option (string * string) :=
  Some (json_Marshal (sealed (rq_Step request) (rq_RequestSHA256 request)), "").

Definition sample_steps : list string :=
  "preflight" :: "rollback-safe-stop" :: "rollback-cleanup-requested" :: drop 2 (take 12 ApplySteps).

(** What is known of the text of an answer. *)
Definition sample_pattern (step : string) : list (string * option json) :=
  List.map (fun m => (m.1, if string_in ["requestSha256"; "responseSha256"] m.1 then None else Some m.2))
    (flatten (AdapterResponse_fields (sample_response step "" ""))).

Definition pattern_ok (step : string) : bool :=
  let p := object_pattern (sample_pattern step) in
  forbidden_free p && (Z.of_nat (length p) <=? 65536).

Example sample_patterns_ok : forallb pattern_ok sample_steps = true.
Proof. vm_compute. reflexivity. Qed.

Lemma utf8_by_ascii s : all_chars is_ascii s = true -> utf8 s.
Proof. apply all_ascii_utf8. Qed.

Ltac each_step H := unfold sample_steps in H; cbn [drop take ApplySteps] in H;
  repeat (apply elem_of_cons in H as [->|H]); [..|by apply elem_of_nil in H].

Section Answer.
Context (step request response : string) (Hstep : step ∈ sample_steps).
Context (Hq : validSHA request = true) (Hr : validSHA response = true).

Lemma sample_wire : wire (sample_response step request response).
Proof.
  pose proof (validSHA_utf8 _ Hq). pose proof (validSHA_utf8 _ Hr).
  assert (wire sample_evidence) as He by (split; apply utf8_by_ascii; vm_compute; reflexivity).
  assert (Forall wire (List.map observation_of sample_namespaces)) as Ho.
  { repeat (apply Forall_cons; split); [..|apply Forall_nil_2];
      (split_and!; apply utf8_by_ascii; vm_compute; reflexivity). }
  assert (Forall wire (List.map target_of TargetKinds)) as Ht.
  { repeat (apply Forall_cons; split); [..|apply Forall_nil_2];
      (split_and!; apply utf8_by_ascii; vm_compute; reflexivity). }
  each_step Hstep;
    (split_and!; first [assumption | apply Forall_nil_2 | apply utf8_by_ascii; vm_compute; reflexivity
                       | intros ? [= <-]; assumption | intros ? [=]]).
Qed.

Lemma sample_members :
  Forall2 member_fits (flatten (AdapterResponse_fields (sample_response step request response)))
    (sample_pattern step).
Proof.
  each_step Hstep; cbv -[validSHA];
    repeat (apply Forall2_cons; split; [split; [reflexivity|first [reflexivity | by eexists]]|]); apply Forall2_nil_2.
Qed.

Lemma sample_text : fits_pattern (json_Marshal (sample_response step request response))
  (object_pattern (sample_pattern step)).
Proof. exact (fits_object _ _ sample_members). Qed.

Lemma sample_read adapter_request :
  read_response sample_adapter adapter_request (json_Marshal (sample_response step request response)) "" =
  (sample_response step request response,
   ValidateAdapterResponse adapter_request (sample_response step request response)) /\
  small (sample_response step request response).
Proof.
  pose proof sample_patterns_ok as Hok. rewrite forallb_elem in Hok. specialize (Hok step Hstep).
  unfold pattern_ok in Hok. apply andb_true_iff in Hok as [Hfree Hlen]. apply Z.leb_le in Hlen.
  pose proof (fits_len _ _ sample_text) as Hl. split.
  - unfold read_response. change (containsEnvironmentValue sample_adapter ?s) with false.
    rewrite (forbidden_free_spec _ _ Hfree sample_text). cbn [orb].
    change (containsSecretLookingMaterial "") with false. cbn [orb].
    assert (DecodeExact (json_Marshal (sample_response step request response)) =
      Ok (sample_response step request response)) as ->; [|done].
    apply (DecodeExact_Marshal (A := AdapterResponse)); [unfold maxDepth; cbn; lia|apply sample_wire|].
    unfold fits, MaxDocumentBytes. lia.
  - unfold small. lia.
Qed.
End Answer.

Definition sample_apply_steps : list string := drop 2 (take 12 ApplySteps).

Lemma sealed_digest step request :
  AdapterResponseSHA256 (sealed step request) = rs_ResponseSHA256 (sealed step request).
Proof. reflexivity. Qed.

Lemma sample_binding request : rq_RequestSHA256 request = AdapterRequestSHA256 request ->
  rq_OperationID request = "drill-1" -> rq_AdapterExecutableSHA256 request = sha_of "8" ->
  validateAdapterResponseBinding request (sealed (rq_Step request) (rq_RequestSHA256 request)) = None.
Proof.
  intros Hq Ho Ha. unfold validateAdapterResponseBinding. rewrite sealed_digest, <- Hq, Ho, Ha.
  generalize (rs_ResponseSHA256 (sealed (rq_Step request) (rq_RequestSHA256 request))). intros response.
  unfold sealed, sample_response. cbn [rs_SchemaVersion rs_ProtocolVersion rs_OperationID rs_Step rs_RequestSHA256
    rs_AdapterExecutableSHA256 rs_Evidence].
  rewrite !String.eqb_refl. change (validEvidence (ev_Ref sample_evidence) (ev_SHA256 sample_evidence)) with true.
  reflexivity.
Qed.

Lemma sample_valid_apply request : rq_RequestSHA256 request = AdapterRequestSHA256 request ->
  rq_OperationID request = "drill-1" -> rq_AdapterExecutableSHA256 request = sha_of "8" ->
  rq_Mode request = "apply" -> rq_Plan request = sample_plan -> rq_Step request ∈ sample_apply_steps ->
  ValidateAdapterResponse request (sealed (rq_Step request) (rq_RequestSHA256 request)) = None.
Proof.
  intros Hq Ho Ha Hm Hp Hs. unfold ValidateAdapterResponse. rewrite (sample_binding request Hq Ho Ha), Hm, Hp.
  unfold sealed. generalize (AdapterResponseSHA256 (sample_response (rq_Step request) (rq_RequestSHA256 request) "")).
  generalize (rq_RequestSHA256 request). revert Hs. generalize (rq_Step request). clear. intros step Hs h1 h2.
  unfold sample_apply_steps in Hs. cbn [drop take ApplySteps] in Hs.
  repeat (apply elem_of_cons in Hs as [->|Hs]); [..|by apply elem_of_nil in Hs]; vm_compute; reflexivity.
Qed.

Lemma sample_valid_proof request response :
  validateProofResponse sample_plan (sample_response "proof-assembled" request response) = None.
Proof. vm_compute. reflexivity. Qed.

Lemma sample_apply_steps_steps step : step ∈ sample_apply_steps -> step ∈ sample_steps.
Proof. intros H. unfold sample_steps. do 3 apply list_elem_of_further. exact H. Qed.

Lemma sample_answers step : step ∈ sample_apply_steps ->
  answers sample_plan sample_approval sample_reply sample_adapter step.
Proof.
  intros Hs previous Hprev. cbn zeta.
  pose proof (apply_request_valid sample_plan sample_approval step previous) as (H1 & H2 & H3).
  set (request := newAdapterRequest sample_plan sample_approval "apply" step previous) in *.
  change (rq_AdapterExecutableSHA256 request) with (sha_of "8") in H3.
  destruct (sample_read step (rq_RequestSHA256 request) (rs_ResponseSHA256 (sealed step (rq_RequestSHA256 request)))
    (sample_apply_steps_steps _ Hs) H2 (sealed_valid _ _) request) as [Hread Hsmall].
  exists (json_Marshal (sealed step (rq_RequestSHA256 request))), "", (sealed step (rq_RequestSHA256 request)).
  split_and!; [reflexivity| |exact Hsmall|].
  - change (sample_response step (rq_RequestSHA256 request) (rs_ResponseSHA256 (sealed step (rq_RequestSHA256 request))))
      with (sealed step (rq_RequestSHA256 request)) in Hread.
    assert (ValidateAdapterResponse request (sealed step (rq_RequestSHA256 request)) = None) as Hv.
    { apply (sample_valid_apply request H1); [reflexivity|reflexivity|reflexivity|reflexivity|exact Hs]. }
    rewrite Hv in Hread. exact Hread.
  - intros ->. apply sample_valid_proof.
Qed.

(** ** Runs of the sample *)

Definition sample_clock : Time := time_Date 2026 6 24 12 5 0.

Lemma sample_clock_year : four_digit_year sample_clock.
Proof. unfold four_digit_year. split; vm_compute; congruence. Qed.

Lemma sample_fresh : ValidateApproval sample_plan sample_approval sample_clock = None.
Proof.
  unfold ValidateApproval. rewrite sample_approved.
  change (within (ap_IssuedAt sample_approval) (ap_ExpiresAt sample_approval) sample_clock)
    with (within "2026-06-24T12:00:00Z" "2026-06-24T12:20:00Z" sample_clock).
  vm_compute. reflexivity.
Qed.

Definition sample_path : string := "/journals/drill-1".
Lemma sample_path_clean : clean_path sample_path.
Proof. split_and!; vm_compute; congruence. Qed.

Lemma sample_step_answers k step : (2 <= k < 12)%nat -> ApplySteps !! k = Some step ->
  answers sample_plan sample_approval sample_reply sample_adapter step.
Proof.
  intros Hk Hs. apply sample_answers. unfold sample_apply_steps. apply list_elem_of_lookup. exists (k - 2)%nat.
  rewrite lookup_drop, lookup_take_lt by lia. by replace (2 + (k - 2))%nat with k by lia.
Qed.

(** *** The rollback *)

Lemma sample_valid_rollback request : rq_RequestSHA256 request = AdapterRequestSHA256 request ->
  rq_OperationID request = "drill-1" -> rq_AdapterExecutableSHA256 request = sha_of "8" ->
  rq_Mode request = "rollback" ->
  rq_Step request = "rollback-safe-stop" \/ rq_Step request = "rollback-cleanup-requested" ->
  ValidateAdapterResponse request (sealed (rq_Step request) (rq_RequestSHA256 request)) = None.
Proof.
  intros Hq Ho Ha Hm Hs. unfold ValidateAdapterResponse. rewrite (sample_binding request Hq Ho Ha), Hm.
  unfold sealed. generalize (AdapterResponseSHA256 (sample_response (rq_Step request) (rq_RequestSHA256 request) "")).
  generalize (rq_RequestSHA256 request). revert Hs. generalize (rq_Step request). clear. intros step Hs h1 h2.
  destruct Hs as [-> | ->]; vm_compute; reflexivity.
Qed.

Lemma rollback_request_parts step previous :
  let request := newRollbackRequest sample_plan sample_approval step previous in
  rq_Step request = step /\ rq_Mode request = "rollback" /\ rq_OperationID request = "drill-1".
Proof. cbn zeta. unfold newRollbackRequest. destruct (step == "rollback-cleanup-requested"); split_and!; reflexivity. Qed.

Lemma sample_answers_rollback step : step = "rollback-safe-stop" \/ step = "rollback-cleanup-requested" ->
  answers_rollback sample_plan sample_approval sample_reply sample_adapter step.
Proof.
  intros Hs previous Hprev. cbn zeta.
  pose proof (rollback_request_valid sample_plan sample_approval step previous) as (H1 & H2 & H3).
  destruct (rollback_request_parts step previous) as (P1 & P2 & P3).
  set (request := newRollbackRequest sample_plan sample_approval step previous) in *.
  change (ei_ExecutableSHA256 (pn_Adapter sample_plan)) with (sha_of "8") in H3.
  assert (step ∈ sample_steps) as Hin.
  { unfold sample_steps. destruct Hs as [-> | ->]; [|apply list_elem_of_further]; apply list_elem_of_further, list_elem_of_here. }
  destruct (sample_read step (rq_RequestSHA256 request) (rs_ResponseSHA256 (sealed step (rq_RequestSHA256 request)))
    Hin H2 (sealed_valid _ _) request) as [Hread Hsmall].
  exists (json_Marshal (sealed step (rq_RequestSHA256 request))), "", (sealed step (rq_RequestSHA256 request)).
  split_and!; [unfold sample_reply; by rewrite P1| |exact Hsmall].
  change (sample_response step (rq_RequestSHA256 request) (rs_ResponseSHA256 (sealed step (rq_RequestSHA256 request))))
    with (sealed step (rq_RequestSHA256 request)) in Hread.
  assert (ValidateAdapterResponse request (sealed step (rq_RequestSHA256 request)) = None) as Hv.
  { rewrite <- P1 at 1. apply (sample_valid_rollback request H1 P3 H3 P2). by rewrite P1. }
  rewrite Hv in Hread. exact Hread.
Qed.

(** *** Worlds *)

Definition empty_world : world := {| w_names := ∅; w_files := []; w_locks := ∅ |}.

Definition sample_first : JournalEntry :=
  newJournalEntry sample_clock 1 sample_plan sample_approval "approval-consumed"
    (approvalConsumedDigests sample_plan sample_approval).1
    (approvalConsumedDigests sample_plan sample_approval).2 "" None.

(** A run that was interrupted after its journal was created. *)
Definition sample_world : world :=
  {| w_names := {[sample_path := 0%nat]}; w_files := [entry_line sample_first]; w_locks := ∅ |}.

Definition sample_transaction : journalTransaction := {| jt_path := sample_path; jt_file := 0 |}.

Lemma sample_first_valid : validateJournalEntry sample_first None = None.
Proof.
  apply first_entry_valid; [exact sample_clock_year|exact sample_approved|reflexivity|reflexivity| | |intros ? [=]].
  - unfold approvalConsumedDigests, digest_fields. cbn [fst]. apply sha256_hex_valid.
  - exact (approval_response_valid _ _ sample_approved).
Qed.

Lemma sample_named : named "/" sample_world sample_path = Some 0%nat.
Proof.
  unfold named. rewrite (clean_Abs_self "/" sample_path sample_path_clean). apply lookup_singleton_eq.
Qed.

Lemma sample_ready : ready sample_plan sample_approval "/" sample_transaction [sample_first] sample_world.
Proof.
  pose proof sample_first_valid as Hv. constructor.
  - exact sample_named.
  - cbn. by rewrite string_app_nil_r.
  - pose proof (first_entry_bound sample_plan sample_approval sample_clock sample_approved) as Hb.
    rewrite (surjective_pairing (approvalConsumedDigests sample_plan sample_approval)) in Hb. by apply Hb.
  - apply Forall_singleton. apply new_fits; [exact sample_approved|reflexivity| | |apply Nat.le_0_l|intros ? [=]].
    + unfold approvalConsumedDigests, digest_fields. cbn [fst]. apply sha256_hex_valid.
    + exact (approval_response_valid _ _ sample_approved).
Qed.

Lemma sample_time : not_after sample_clock sample_first.
Proof. apply new_not_after. exact sample_clock_year. Qed.

Lemma sample_going : going sample_plan sample_approval sample_clock "/" sample_transaction [sample_first] sample_world.
Proof.
  constructor; [exact sample_ready|reflexivity| |cbn; lia]. intros p [= <-]. exact sample_time.
Qed.

Lemma sample_open : open_at sample_plan sample_approval sample_clock "/" sample_transaction [sample_first]
  sample_first sample_world.
Proof. constructor; [exact sample_ready|reflexivity|exact sample_time]. Qed.

(** *** Up to the first request of the adapter *)

Definition run_of {X} (e : sys X) : option AdapterRequest :=
  match e with Run request => Some request | _ => None end.

Section FirstRun.
Context (clock : Time) (cwd : string) (reply : AdapterRequest -> option (string * string)).

Fixpoint first_run {A} (p : P A) (w : world) : option (AdapterRequest * world) :=
  match p with
  | Ret _ => None
  | Vis e k =>
      match run_of e with
      | Some request => Some (request, w)
      | None => let '(x, w') := answer clock cwd reply _ e w in first_run (k x) w'
      end
  end.

Fixpoint calm {A} (p : P A) : Prop :=
  match p with Ret _ => True | Vis e k => run_of e = None /\ forall x, calm (k x) end.

Lemma first_run_bind {A B} (p : P A) (f : A -> P B) w :
  first_run (p ≫= f) w =
  match first_run p w with
  | Some r => Some r
  | None => first_run (f (exec (answer clock cwd reply) p w).1) (exec (answer clock cwd reply) p w).2
  end.
Proof.
  revert w. induction p as [a|X e k IH]; intros w; [done|]. cbn. destruct (run_of e); [done|].
  destruct (answer clock cwd reply X e w) as [x w']. apply IH.
Qed.

Lemma calm_first_run {A} (p : P A) w : calm p -> first_run p w = None.
Proof.
  revert w. induction p as [a|X e k IH]; intros w; [done|]. cbn. intros [-> Hk].
  destruct (answer clock cwd reply X e w) as [x w']. by apply IH.
Qed.

Lemma calm_bind {A B} (p : P A) (f : A -> P B) : calm p -> (forall a, calm (f a)) -> calm (p ≫= f).
Proof. intros Hp Hf. induction p as [a|X e k IH]; [apply Hf|]. destruct Hp as [He Hk]. split; [done|]. intros x. by apply IH. Qed.

Lemma calm_ask {A X} (e : sys X) (k : X -> P A) : run_of e = None -> (forall x, calm (k x)) ->
  calm (x ← call e; k x).
Proof. done. Qed.

Ltac calm_call := apply calm_ask; [reflexivity|].

Lemma calm_need {A} message (k : P (result A)) : calm k -> calm (need message k).
Proof. intros Hk. unfold need. calm_call. intros ok. by destruct ok. Qed.

Ltac calm_if := cbn beta iota zeta;
  match goal with |- calm (if ?b then _ else _) => destruct b; [exact Logic.I|] end.

Lemma calm_load t : calm (load t).
Proof.
  unfold load. calm_call. intros size. calm_call. intros same. destruct size as [size|]; [|done].
  calm_if. apply calm_need. calm_call. intros payload. calm_call. intros same'.
  destruct payload; [|done]. calm_if. done.
Qed.

Lemma calm_open path : calm (openJournalTransaction cwd path).
Proof.
  unfold openJournalTransaction, openJournalRoot. apply calm_bind.
  - cbn zeta. calm_if. calm_call. intros [selected|]; [|done]. by apply calm_need.
  - intros [[clean selected]|]; [|done]. calm_call. intros [file|]; [|done]. calm_if.
    calm_call. intros [|]; [|done]. calm_call. intros [|]; [done|]. by calm_call.
Qed.

Lemma calm_append t e : calm (appendJournal t e).
Proof.
  unfold appendJournal. apply calm_bind; [apply calm_load|]. intros [[es size]|]; [|done].
  destruct (last es); [|done]. calm_if. calm_if.
  calm_call. intros opened. calm_call. intros same. calm_if. apply calm_need.
  calm_call. intros [|]; [|done]. apply calm_need. calm_call. intros opened'. calm_call. intros same'.
  calm_if. by do 2 apply calm_need.
Qed.

(** The request is reached, and is pending. *)
Lemma first_run_pending (j : job) (p : P outcome) w request w' : first_run p w = Some (request, w') ->
  exists k, rtc (drill_step cwd) (w, [(j, Some p)]) (w', [(j, Some (Vis (Run request) k))]).
Proof.
  revert w. induction p as [b|X e k IH]; intros w H; [done|]. cbn in H.
  destruct (run_of e) as [r|] eqn:E.
  - injection H as <- <-. assert (exists k', Vis e k = Vis (Run r) k') as [k' ->].
    { destruct e; try done. injection E as ->. by eexists. }
    exists k'. reflexivity.
  - pose proof (answer_possible clock cwd reply w X e) as Ha.
    destruct (answer clock cwd reply X e w) as [x w1]. cbn in Ha.
    destruct (IH x w1 H) as [k' Hk]. exists k'. eapply rtc_l; [|exact Hk].
    by apply (pool_call (perform cwd) killed (handler cwd) w [(j, Some (Vis e k))] 0 j X e k x w1).
Qed.
End FirstRun.

(** A recovery that comes to the first step of the adapter. *)
Lemma sample_first_run : exists e w',
  first_run sample_clock "/" sample_reply
    (Recover sample_plan sample_approval "/" (ap_ApprovalTuple sample_approval) sample_path (Some sample_adapter))
    sample_world =
  Some (newAdapterRequest sample_plan sample_approval "apply" "etcd-offcell-complete" (je_EntrySHA256 e), w').
Proof.
  pose proof (going_ready _ _ _ _ _ _ _ sample_going) as Hr.
  unfold Recover. rewrite first_run_bind. cbn [first_run call run_of answer exec fst snd].
  assert (validateExecutionInput sample_plan sample_approval (ap_ApprovalTuple sample_approval) (Some sample_adapter)
    sample_clock false = Ok sample_adapter) as ->.
  { unfold validateExecutionInput. change (adapter_of sample_plan (Some sample_adapter)) with (Some sample_adapter).
    by rewrite sample_approved, String.eqb_refl. }
  rewrite first_run_bind, calm_first_run by apply calm_open.
  rewrite (run_open sample_clock "/" sample_reply sample_path 0 sample_world sample_path_clean sample_named eq_refl).
  cbn [fst snd]. fold sample_transaction.
  set (w1 := {| w_names := w_names sample_world; w_files := w_files sample_world;
                w_locks := <[0%nat := 0%nat]> (w_locks sample_world) |}).
  assert (ready sample_plan sample_approval "/" sample_transaction [sample_first] w1) as Hr1
    by (destruct Hr; by constructor).
  assert (going sample_plan sample_approval sample_clock "/" sample_transaction [sample_first] w1) as Hg1
    by (destruct sample_going; by constructor).
  pose proof (ready_bound _ _ _ _ _ _ Hr1) as Hb.
  pose proof (run_load sample_plan sample_approval sample_clock "/" sample_reply sample_transaction [sample_first]
    w1 Hr1) as Hload.
  destruct (run_apply_step sample_plan sample_approval sample_clock sample_clock_year sample_approved "/" sample_reply
    sample_adapter sample_transaction [sample_first] sample_first "mutation-started" w1 eq_refl Hg1 eq_refl eq_refl
    ltac:(cbn; lia) (fun H => False_ind _ (H eq_refl))) as (e & w2 & Hrun & Hg2 & _).
  exists e, w2. unfold closing. rewrite first_run_bind. rewrite first_run_bind, calm_first_run by apply calm_load.
  rewrite Hload. cbn [fst snd]. rewrite (bound_verify _ _ _ Hb).
  change (rollbackStarted [sample_first]) with false. cbn iota.
  unfold runApply. rewrite first_run_bind, calm_first_run by apply calm_load.
  rewrite Hload. cbn [fst snd]. rewrite (bound_verify _ _ _ Hb).
  change (rollbackStarted [sample_first]) with false. cbn [is_nil negb].
  rewrite first_run_bind. change (length ApplySteps) with 13%nat.
  change (apply_loop sample_plan sample_approval 13 sample_adapter sample_transaction [sample_first]) with
    (entry ← apply_step sample_plan sample_approval sample_adapter sample_transaction [sample_first]
               "mutation-started" sample_first;
     match entry with
     | Err err => Ret (Err err)
     | Ok entry => apply_loop sample_plan sample_approval 12 sample_adapter sample_transaction
                     ([sample_first] ++ [entry])
     end).
  rewrite (first_run_bind sample_clock "/" sample_reply (apply_step _ _ _ _ _ _ _)).
  rewrite (calm_first_run sample_clock "/" sample_reply (apply_step _ _ _ _ _ _ _)).
  2: { unfold apply_step. change ("mutation-started" == "mutation-started") with true. cbn iota.
       destruct (mutationStartedDigests _ _). apply calm_ask; [reflexivity|]. intros now. apply calm_bind; [apply calm_append|by intros []]. }
  rewrite Hrun. cbn [fst snd].
  change (apply_loop sample_plan sample_approval 12 sample_adapter sample_transaction ([sample_first] ++ [e])) with
    (entry ← apply_step sample_plan sample_approval sample_adapter sample_transaction ([sample_first] ++ [e])
               "etcd-offcell-complete" e;
     match entry with
     | Err err => Ret (Err err)
     | Ok entry => apply_loop sample_plan sample_approval 11 sample_adapter sample_transaction
                     (([sample_first] ++ [e]) ++ [entry])
     end).
  rewrite (first_run_bind sample_clock "/" sample_reply (apply_step _ _ _ _ _ _ _)).
  unfold apply_step. change ("etcd-offcell-complete" == "mutation-started") with false. cbn iota zeta.
  rewrite first_run_bind. unfold invoke.
  destruct (apply_request_valid sample_plan sample_approval "etcd-offcell-complete" (je_EntrySHA256 e)) as (H1 & _ & H3).
  rewrite H3, <- H1. change (ei_ExecutableSHA256 (pn_Adapter sample_plan)) with (ad_IdentitySHA256 sample_adapter).
  rewrite !String.eqb_refl. cbn [negb orb]. reflexivity.
Qed.
