(* ===== verification/DrillTheorems.v ===== *)
(** * The properties of the backup drill

    Operators run [Preflight], [Apply], [Recover] and [Rollback] on the same
    files in any interleaving and may die between two calls ([reachable]); a
    system without faults answers in the order of one operator's calls. *)

From stdpp Require Import gmap strings list relations.
From Stdlib Require Import ZArith Ascii Lia.
From S2P Require Import Prelude GoString GoPath GoTime GoSha256 GoJson GoJsonCorrect StrictJson StrictJsonCorrect GoRfc3339 Programs JsonStructs DrillTypes DrillValidate DrillJournal DrillFiles DrillEngine DrillCodec DrillJournalCorrect DrillBound DrillHeld DrillCorrect DrillFacts DrillRun DrillSamples.

#[local] Opaque sha256_hex.

(** ** What the theorems speak of *)

(** The process [i] holds the lock of a file with these entries, which are a
    journal of the plan and its approval. *)
Definition holds_journal (plan : Plan) (approval : ApprovalReport) (i : nat) (es : list JournalEntry)
    (w : world) : Prop :=
  exists file text, w_locks w !! file = Some i /\ w_files w !! file = Some text /\
    decodeJournal text = Ok es /\ verifyJournalBinding plan approval es = None.

(** The steps of a run in their order, and no rollback. *)
Definition in_order (es : list JournalEntry) : Prop := steps es = take (length es) ApplySteps.

(** A request that is due to the adapter by the journal as it is. *)
Definition run_due (j : job) (i : nat) (request : AdapterRequest) (w : world) : Prop :=
  match j with
  | JPreflight plan _ _ => request = preflightRequest plan /\ ValidatePlan plan = None
  | JApply plan approval _ _ _ | JRecover plan approval _ _ _ =>
      exists es p step, holds_journal plan approval i es w /\ in_order es /\ 2 <= length es < 12 /\
        last es = Some p /\ ApplySteps !! length es = Some step /\
        request = newAdapterRequest plan approval "apply" step (je_EntrySHA256 p)
  | JRollback plan approval _ _ _ =>
      exists es p step, holds_journal plan approval i es w /\ last es = Some p /\
        (step = "rollback-safe-stop" /\ in_order es /\ length es < 13 \/
         step = "rollback-cleanup-requested" /\ je_Step p = "rollback-safe-stop" /\
           rollbackResponseSucceeded plan approval es (length es - 1) = true) /\
        request = newRollbackRequest plan approval step (je_EntrySHA256 p)
  end.

Lemma owned_holds plan approval i file es w : owned plan approval i file es w -> holds_journal plan approval i es w.
Proof.
  intros [Hl (text & Ht & _ & Hd) Hb]. exists file, text. split_and!; [done..|]. by apply bound_verify.
Qed.

(** What an operator alone does is one of the ways all may go. *)
Lemma exec_reachable cwd clock reply j w :
  reachable cwd w ((exec (answer clock cwd reply) (handler cwd j) w).2,
                   [(j, Some (Ret (exec (answer clock cwd reply) (handler cwd j) w).1))]).
Proof.
  refine (job_pool (answer clock cwd reply) (perform cwd) killed (handler cwd) 0 _ j [] w eq_refl).
  intros w1 X e. apply answer_possible.
Qed.

Lemma reachable_true cwd w c i j r : reachable cwd w c -> c.2 !! i = Some (j, Some (Ret r)) -> job_true j i c.1 r.
Proof. intros Hc Hi. by apply (finished_ok _ _ _ _ _ c i j r (reachable_ok _ _ _ Hc)). Qed.

(** ** Theorems *)

(** C15. In any interleaving of operators that start without files, and
    whatever dies at whatever call, every file is a journal bound to a plan and
    its approval, followed at most by the beginning of the line of one more
    entry that would keep it bound; and what a file holds stays: files only
    grow, and not after a completion or the end of a rollback. *)
Theorem journals_survive_crashes cwd w c c' file text :
  w_files w = [] -> reachable cwd w c -> rtc (drill_step cwd) c c' ->
  w_files c.1 !! file = Some text ->
  journal_file text /\
  exists more, w_files c'.1 !! file = Some (text +:+ more) /\ (closed text -> more = "").
Proof.
  intros Hw Hc Hs Ht. split; [|exact (reachable_grows cwd w c c' Hc Hs _ _ Ht)].
  assert (all_journals w) as Hall by (unfold all_journals; rewrite Hw; constructor).
  exact (Forall_lookup_1 _ _ _ _ (reachable_journals cwd w c Hall Hc) Ht).
Qed.

(** C16. An operator asks the adapter only for what the journal says is next,
    while it holds the journal's lock: a step of the run right after the
    entries of all the steps before it, of which the second authorised the
    mutation, and never after a rollback began; the safe stop of a run that is
    not complete; the cleanup after a safe stop that succeeded. *)
Theorem adapter_runs_are_journaled cwd w c i j request k :
  reachable cwd w c -> c.2 !! i = Some (j, Some (Vis (Run request) k)) -> run_due j i request c.1.
Proof.
  intros Hc Hi. pose proof (pending_allowed _ _ _ _ _ c i j _ (Run request) k (reachable_ok _ _ _ Hc) Hi) as H.
  assert (forall plan approval file es, owned plan approval i file es c.1 -> rollbackStarted es = false -> in_order es)
    as Hord.
  { intros plan approval file es Ho Hst. destruct (running_steps es); [|done|done]. by eapply owned_chain. }
  destruct j; cbn in H |- *.
  - exact H.
  - destruct H as (file & es & p & step & Ho & Hst & Hn & Hp & Hs & ->). exists es, p, step.
    split_and!; try done; [by eapply owned_holds|by eapply Hord|lia|lia].
  - destruct H as (file & es & p & step & Ho & Hst & Hn & Hp & Hs & ->). exists es, p, step.
    split_and!; try done; [by eapply owned_holds|by eapply Hord|lia|lia].
  - destruct H as (file & es & p & step & Ho & Hp & Hs & ->). exists es, p, step.
    split_and!; try done; [by eapply owned_holds|].
    destruct Hs as [(-> & Hst & Hl)|Hs]; [left|by right]. split_and!; [done|by eapply Hord|done].
Qed.

(** C17. A receipt proves a recovery: when [Apply] or [Recover] answers with
    one, in any interleaving and from any files, some file holds a journal bound
    to the plan and the approval with all thirteen steps in order, the receipt
    names the digest of its last entry, carries its own digest, and shows for
    every kind of target the restored checksum of the plan's baseline. *)
Theorem receipts_prove_recovery cwd w c i j plan approval receipt :
  reachable cwd w c -> c.2 !! i = Some (j, Some (Ret (Executed (Ok receipt)))) ->
  (exists confirmation path adapter, j = JApply plan approval confirmation path adapter \/
                                     j = JRecover plan approval confirmation path adapter) ->
  restored plan receipt /\ er_ReceiptSHA256 receipt = ExecutionReceiptSHA256 receipt /\
  exists file text es completed, w_files c.1 !! file = Some text /\ decodeJournal text = Ok es /\
    validateApprovalBinding plan approval = None /\ verifyJournalBinding plan approval es = None /\
    steps es = ApplySteps /\ last es = Some completed /\
    er_JournalHeadSHA256 receipt = je_EntrySHA256 completed.
Proof.
  intros Hc Hi Hj. pose proof (reachable_true cwd w c i j _ Hc Hi) as H.
  assert (completed_run plan approval receipt c.1) as (file & text & es & Ht & [_ Hd] & Hb & Hv).
  { destruct Hj as (confirmation & path & adapter & [-> | ->]); by apply H. }
  destruct (receipt_facts plan approval receipt es Hv) as (Hs & Hr & Hsha & completed & Hl & Hh).
  split_and!; [done|done|]. exists file, text, es, completed.
  split_and!; try done; [apply (bound_approval _ _ _ Hb)|by apply bound_verify].
Qed.

(** C18. A rollback that reports success is recorded with both its answers:
    some file holds a journal bound to the plan and the approval, without a
    completion, that ends with the safe stop, the cleanup and the outcome, and
    the two responses are valid for exactly the requests the journal calls
    for. *)
Theorem rollbacks_are_recorded cwd w c i plan approval confirmation path adapter :
  reachable cwd w c ->
  c.2 !! i = Some (JRollback plan approval confirmation path adapter, Some (Ret (RolledBack None))) ->
  exists file text run q stop cleanup outcome r1 r2, w_files c.1 !! file = Some text /\
    decodeJournal text = Ok (run ++ [q; stop; cleanup; outcome]) /\
    verifyJournalBinding plan approval (run ++ [q; stop; cleanup; outcome]) = None /\
    in_order (run ++ [q]) /\ je_Step outcome = "rolled-back" /\
    je_Response stop = Some r1 /\ je_Response cleanup = Some r2 /\
    ValidateAdapterResponse (newRollbackRequest plan approval "rollback-safe-stop" (je_EntrySHA256 q)) r1 = None /\
    ValidateAdapterResponse
      (newRollbackRequest plan approval "rollback-cleanup-requested" (je_EntrySHA256 stop)) r2 = None.
Proof.
  intros Hc Hi. pose proof (reachable_true cwd w c i _ _ Hc Hi eq_refl) as H.
  destruct H as (file & text & es & p & Ht & [_ Hd] & Hb & Hp & Hs).
  destruct (rolled_back_answers plan approval es p Hb Hp Hs)
    as (run & q & stop & cleanup & r1 & r2 & -> & Hr & H1 & H2 & H3 & H4).
  exists file, text, run, q, stop, cleanup, p, r1, r2.
  split_and!; [exact Ht|exact Hd|by apply bound_verify| |exact Hs|exact H1|exact H2|exact H3|exact H4].
  pose proof (bound_chain _ _ _ Hb) as Hch.
  assert (chain_ok (run ++ [q])) as Hrun.
  { replace (run ++ [q; stop; cleanup; p]) with ((((run ++ [q]) ++ [stop]) ++ [cleanup]) ++ [p]) in Hch
      by (by rewrite <- !app_assoc).
    do 3 (apply chain_ok_snoc in Hch as [Hch _]; [|by destruct run]). exact Hch. }
  destruct (running_steps _ Hrun Hr). done.
Qed.

(** C19. A run that was interrupted before its rollback began can be ended both
    ways: from any journal of the plan and its approval that no process holds,
    whose last entry is not later than the clock and in which no rollback has
    started, with the plan's adapter in a system that answers without faults,
    [Recover] returns a receipt if the adapter answers
    the steps that are left, where a journal of twelve entries or more, which
    already holds the proof of the recovery, must hold one that passes
    [validateProofResponse]; and [Rollback] of a run that is not complete, of
    less than thirteen entries, succeeds if the adapter answers its two
    requests.  Interrupted rollbacks are not the subject of this theorem. *)
Theorem interrupted_runs_can_be_ended plan approval clock cwd reply path file es p adapter w :
  four_digit_year clock -> validateApprovalBinding plan approval = None ->
  ad_IdentitySHA256 adapter = ei_ExecutableSHA256 (pn_Adapter plan) -> clean_path path ->
  named cwd w path = Some file -> w_locks w !! file = None ->
  open_at plan approval clock cwd {| jt_path := path; jt_file := file |} es p w -> rollbackStarted es = false ->
  let tuple := ap_ApprovalTuple approval in
  ((forall k step, length es <= k < 12 -> ApplySteps !! k = Some step -> step <> "mutation-started" ->
      answers plan approval reply adapter step) ->
   (12 <= length es -> exists proof, proof_of es = Some proof /\ validateProofResponse plan proof = None) ->
   exists receipt w',
     exec (answer clock cwd reply) (Recover plan approval cwd tuple path (Some adapter)) w = (Ok receipt, w')) /\
  ((forall step, step = "rollback-safe-stop" \/ step = "rollback-cleanup-requested" ->
      answers_rollback plan approval reply adapter step) ->
   length es < 13 ->
   exists w', exec (answer clock cwd reply) (Rollback plan approval cwd tuple path (Some adapter)) w = (None, w')).
Proof.
  intros Hclock Ha Had Hpath Hn Hl Ho Hst tuple. split.
  - intros Hans Hproof.
    destruct (run_Recover plan approval clock Hclock Ha cwd reply path file es adapter w Had Hpath Hn Hl) as [receipt Hr];
      [|exact Hans|].
    { destruct Ho as [Hr Hlast Ht]. constructor; [done|done| |done]. intros p' Hp'. congruence. }
    exists receipt, (exec (answer clock cwd reply) (Recover plan approval cwd tuple path (Some adapter)) w).2.
    unfold tuple. rewrite <- Hr. apply surjective_pairing.
  - intros Hans Hlen.
    pose proof (run_Rollback plan approval clock Hclock Ha cwd reply path file es p adapter w Had Hpath Hn Hl Ho Hst
      Hlen (Hans _ (or_introl eq_refl)) (Hans _ (or_intror eq_refl))) as Hr.
    exists (exec (answer clock cwd reply) (Rollback plan approval cwd tuple path (Some adapter)) w).2.
    unfold tuple. rewrite <- Hr at 1. apply surjective_pairing.
Qed.

(** C20. The digest of a journal's last entry, which a receipt names, stands
    for the whole journal: two accepted journals that end with the same digest
    are equal, or they part at two entries, one of each, whose digested texts
    are a SHA-256 collision, and agree after them. *)
Theorem journal_head_stands_for_journal text text' es es' e e' :
  decodeJournal text = Ok es -> decodeJournal text' = Ok es' -> last es = Some e -> last es' = Some e' ->
  je_EntrySHA256 e = je_EntrySHA256 e' -> es = es' \/ journals_collide es es'.
Proof.
  intros [Hc Hw]%decodeJournal_Ok [Hc' Hw']%decodeJournal_Ok. by apply head_determines.
Qed.

(** C40. Strict JSON is exact: a document is accepted when it is at most eight
    MiB long, one JSON value nested at most 64 deep, in which no object has two
    fields of the same name, and otherwise refused; a journal entry
    that was written is read back as it was, and no two entries have one text. *)
Theorem strict_json_is_exact data entry entry' :
  (Validate data = None <->
   (Z.of_nat (len data) <= MaxDocumentBytes)%Z /\
   exists j, parse data = Some j /\ distinct_fields j /\ height j <= maxDepth) /\
  (wire entry -> line_fits entry -> DecodeExact (json_Marshal entry) = Ok entry) /\
  (wire entry -> wire entry' -> json_Marshal entry = json_Marshal entry' -> entry = entry').
Proof.
  split_and!; [apply Validate_None|apply line_fits_decodes|apply (json_Marshal_inj (A := JournalEntry))].
Qed.

(** ** Witnesses *)

Definition sample_apply : job :=
  JApply sample_plan sample_approval (ap_ApprovalTuple sample_approval) sample_path (Some sample_adapter).
Definition sample_rollback : job :=
  JRollback sample_plan sample_approval (ap_ApprovalTuple sample_approval) sample_path (Some sample_adapter).

Lemma sample_completed : exists w receipt,
  reachable "/" empty_world (w, [(sample_apply, Some (Ret (Executed (Ok receipt))))]).
Proof.
  destruct (run_Apply sample_plan sample_approval sample_clock sample_clock_year sample_approved "/" sample_reply
    sample_path sample_adapter empty_world eq_refl sample_fresh sample_path_clean eq_refl eq_refl sample_step_answers)
    as [receipt Hr].
  pose proof (exec_reachable "/" sample_clock sample_reply sample_apply empty_world) as H.
  cbn [handler sample_apply] in H. rewrite exec_bind in H. cbn zeta in H.
  destruct (exec _ (Apply _ _ _ _ _ _) empty_world) as [r w] eqn:E in H, Hr. cbn in H, Hr. subst r.
  by exists w, receipt.
Qed.

Lemma sample_rolled_back : exists w,
  reachable "/" sample_world (w, [(sample_rollback, Some (Ret (RolledBack None)))]).
Proof.
  pose proof (run_Rollback sample_plan sample_approval sample_clock sample_clock_year sample_approved "/" sample_reply
    sample_path 0 [sample_first] sample_first sample_adapter sample_world eq_refl sample_path_clean sample_named eq_refl
    sample_open eq_refl ltac:(cbn; lia) (sample_answers_rollback _ (or_introl eq_refl))
    (sample_answers_rollback _ (or_intror eq_refl))) as Hr.
  pose proof (exec_reachable "/" sample_clock sample_reply sample_rollback sample_world) as H.
  cbn [handler sample_rollback] in H. rewrite exec_bind in H. cbn zeta in H.
  destruct (exec _ (Rollback _ _ _ _ _ _) sample_world) as [r w] eqn:E in H, Hr. cbn in H, Hr. subst r.
  by exists w.
Qed.

Lemma journals_survive_crashes_witness : exists c file text, reachable "/" empty_world c /\
  w_files c.1 !! file = Some text /\ closed text /\ journal_file text.
Proof.
  destruct sample_completed as (w & receipt & Hc).
  destruct (reachable_true _ _ _ 0 sample_apply _ Hc eq_refl receipt eq_refl) as (file & text & es & Ht & Hh & Hb & Hv).
  exists (w, [(sample_apply, Some (Ret (Executed (Ok receipt))))]), file, text.
  split; [exact Hc|]. split; [exact Ht|]. split; [exact (completed_closed _ _ _ _ _ Hh Hv)|].
  exact (proj1 (journals_survive_crashes "/" empty_world _ _ file text eq_refl Hc (rtc_refl _ _) Ht)).
Defined.

Definition sample_recover : job :=
  JRecover sample_plan sample_approval (ap_ApprovalTuple sample_approval) sample_path (Some sample_adapter).

Lemma adapter_runs_are_journaled_witness : exists c request k,
  reachable "/" sample_world c /\ c.2 !! 0 = Some (sample_recover, Some (Vis (Run request) k)) /\
  run_due sample_recover 0 request c.1.
Proof.
  destruct sample_first_run as (e & w & Hrun).
  destruct (first_run_pending sample_clock "/" sample_reply sample_recover (handler "/" sample_recover) sample_world
    (newAdapterRequest sample_plan sample_approval "apply" "etcd-offcell-complete" (je_EntrySHA256 e)) w)
    as [k Hk].
  { cbn [handler sample_recover]. rewrite first_run_bind, Hrun. reflexivity. }
  eexists _, _, k.
  assert (reachable "/" sample_world (w, [(sample_recover, Some (Vis (Run (newAdapterRequest sample_plan
    sample_approval "apply" "etcd-offcell-complete" (je_EntrySHA256 e))) k))])) as Hc.
  { eapply rtc_l; [apply (pool_spawn (perform "/") killed (handler "/") sample_world [] sample_recover)|exact Hk]. }
  split; [exact Hc|]. split; [reflexivity|].
  exact (adapter_runs_are_journaled "/" sample_world _ 0 sample_recover _ k Hc eq_refl).
Defined.

Lemma receipts_prove_recovery_witness : exists w receipt,
  reachable "/" empty_world (w, [(sample_apply, Some (Ret (Executed (Ok receipt))))]) /\ restored sample_plan receipt.
Proof.
  destruct sample_completed as (w & receipt & Hc). exists w, receipt. split; [exact Hc|].
  refine (proj1 (receipts_prove_recovery "/" empty_world _ 0 sample_apply sample_plan sample_approval receipt Hc eq_refl _)).
  eexists _, _, _. left. reflexivity.
Defined.

Lemma rollbacks_are_recorded_witness : exists c,
  reachable "/" sample_world c /\ exists file text, w_files c.1 !! file = Some text.
Proof.
  destruct sample_rolled_back as (w & Hc). eexists. split; [exact Hc|].
  destruct (rollbacks_are_recorded "/" sample_world _ 0 sample_plan sample_approval (ap_ApprovalTuple sample_approval)
    sample_path (Some sample_adapter) Hc eq_refl) as (file & text & run & q & stop & cleanup & outcome & r1 & r2 & Ht & _).
  exists file, text. exact Ht.
Defined.

Lemma interrupted_runs_can_be_ended_witness : exists receipt w',
  exec (answer sample_clock "/" sample_reply)
    (Recover sample_plan sample_approval "/" (ap_ApprovalTuple sample_approval) sample_path (Some sample_adapter))
    sample_world = (Ok receipt, w').
Proof.
  refine (proj1 (interrupted_runs_can_be_ended sample_plan sample_approval sample_clock "/" sample_reply sample_path 0
    [sample_first] sample_first sample_adapter sample_world sample_clock_year sample_approved eq_refl sample_path_clean
    sample_named eq_refl sample_open eq_refl) _ _).
  - intros k step Hk Hs Hns. apply (sample_step_answers k); [|exact Hs]. cbn in Hk.
    destruct k as [|[|k]]; [lia|by injection Hs as <-|lia].
  - cbn. intros H. lia.
Defined.

Lemma sample_decodes : decodeJournal (journal_text [sample_first]) = Ok [sample_first].
Proof. apply (ready_holds _ _ _ _ _ _ sample_ready). Qed.

Lemma journal_head_stands_for_journal_witness : 
  [sample_first] = [sample_first] \/ journals_collide [sample_first] [sample_first].
Proof.
  exact (journal_head_stands_for_journal _ _ _ _ sample_first sample_first sample_decodes sample_decodes
    eq_refl eq_refl eq_refl).
Defined.

Lemma strict_json_is_exact_witness : DecodeExact (json_Marshal sample_first) = Ok sample_first.
Proof.
  destruct sample_ready as [_ _ Hb Hl].
  exact (proj1 (proj2 (strict_json_is_exact "" sample_first sample_first))
    (Forall_inv (bound_wire _ _ _ Hb)) (Forall_inv Hl)).
Defined.
