(* ===== verification/OslTypes.v ===== *)
(** * One server lost: the data

    The records of pkg/resilience/oneserverloss/types.go with their JSON texts,
    and the hash of a Kubernetes node's identity of pkg/kubeidentity/hash.go.  A
    nil slice and an empty one are the same list. *)

From stdpp Require Import gmap strings list.
From Stdlib Require Import ZArith Ascii Lia.
From S2P Require Import Prelude GoString GoTime GoSort GoSha256 GoJson StrictJson.

#[local] Open Scope Z_scope.

(** ** Constants *)

Definition RequestSchemaVersion : string := "cloudring.one-server-loss.observation-request/v1".
Definition ReadyMarkerSchemaVersion : string := "cloudring.one-server-loss.ready-marker/v1".
Definition ReceiptSchemaVersion : string := "cloudring.one-server-loss.receipt/v1".
Definition ProbeRequestSchemaVersion : string := "cloudring.one-server-loss.data-probe-request/v1".
Definition ProbeResponseSchemaVersion : string := "cloudring.one-server-loss.data-probe-response/v1".
Definition ReadyMarkerStatus : string := "ready-for-fault".
Definition ReceiptStatus : string := "completed".
Definition PhasePreLoss : string := "pre-loss".
Definition PhaseLoss : string := "loss".
Definition PhaseRecovered : string := "recovered".
Definition controlPlaneMemberSetDomain : string := "cloudring.one-server-loss.control-plane-member-set/v1".

(** ** Node identities *)

Definition NodeUIDHashAlgorithm : string := "cloudring.kubernetes.node-uid-sha256/v1".
Definition maximumNodeUIDBytes : nat := 256.

(** [utf8.ValidString], as a function *)
Fixpoint ValidString (s : string) : bool :=
  match s with
  | EmptyString => true
  | String a r =>
      if is_ascii a then ValidString r else
      match r with
      | EmptyString => false
      | String b r =>
          if utf8_2 a b then ValidString r else
          match r with
          | EmptyString => false
          | String c r =>
              if utf8_3 a b c then ValidString r else
              match r with
              | EmptyString => false
              | String d r => if utf8_4 a b c d then ValidString r else false
              end
          end
      end
  end.

Definition NodeUIDSHA256 (uid : string) : string :=
  if (uid == "") || (maximumNodeUIDBytes <? len uid)%nat || negb (ValidString uid) then ""
  else sha256_hex (NodeUIDHashAlgorithm +:+ NUL +:+ uid).

#[local] Transparent Sum256 sha256_hex.

(** The fixed vectors of pkg/kubeidentity/hash_test.go *)
Example NodeUIDSHA256_vectors :
  NodeUIDSHA256 "550e8400-e29b-41d4-a716-446655440000" =
    "0d754603fbf7bcba0e2515a5693ce45cbc43081517b0bc9bf9ca8ea8bf3565c6" /\
  NodeUIDSHA256 " Node-UID-A " =
    "835d2c08cec135614912f50428dfdebef0e5a60da10eb375731f002a62118e1b" /\
  NodeUIDSHA256 "" = "" /\ NodeUIDSHA256 (String (ascii_of_nat 255) "") = "".
Proof. vm_compute. done. Qed.

#[local] Opaque Sum256 sha256_hex.

(** ** Records and their texts

    A map is written with its keys in order. *)

Definition key_lt (a b : string * string) : bool := string_lt a.1 b.1.

#[export] Instance marshal_map : Marshal (gmap string string) := fun m =>
  JObject (List.map (fun kv => (kv.1, marshal kv.2)) (sort_Slice key_lt (map_to_list m))).

Record WorkloadTarget := {
  wt_ID : string; wt_Namespace : string; wt_MatchLabels : gmap string string;
  wt_MinimumReadyPods : Z; wt_MinimumDistinctReadyNodes : Z
}.

Definition WorkloadTarget_fields (v : WorkloadTarget) : fields := [
  field "id" (wt_ID v); field "namespace" (wt_Namespace v);
  field "matchLabels" (wt_MatchLabels v); field "minimumReadyPods" (wt_MinimumReadyPods v);
  field "minimumDistinctReadyNodes" (wt_MinimumDistinctReadyNodes v)].

#[export] Instance marshal_WorkloadTarget : Marshal WorkloadTarget := fun v => JStruct (WorkloadTarget_fields v).

Record VMTarget := {
  vt_ID : string; vt_Namespace : string; vt_Name : string; vt_RequirePreLossOnTarget : bool;
  vt_MaximumUnavailableDuration : string
}.

Definition VMTarget_fields (v : VMTarget) : fields := [
  field "id" (vt_ID v); field "namespace" (vt_Namespace v); field "name" (vt_Name v);
  field "requirePreLossOnTarget" (vt_RequirePreLossOnTarget v);
  field "maximumUnavailableDuration" (vt_MaximumUnavailableDuration v)].

#[export] Instance marshal_VMTarget : Marshal VMTarget := fun v => JStruct (VMTarget_fields v).

Record DataProbeTarget := {
  dt_ID : string; dt_QueryRef : string; dt_MinimumValidatedBytes : Z
}.

Definition DataProbeTarget_fields (v : DataProbeTarget) : fields := [
  field "id" (dt_ID v); field "queryRef" (dt_QueryRef v);
  field "minimumValidatedBytes" (dt_MinimumValidatedBytes v)].

#[export] Instance marshal_DataProbeTarget : Marshal DataProbeTarget := fun v => JStruct (DataProbeTarget_fields v).

Record Request := {
  rq_SchemaVersion : string; rq_RunNonceSHA256 : string; rq_TargetNodeName : string;
  rq_PollInterval : string; rq_FaultArrivalTimeout : string; rq_MinimumLossWindow : string;
  rq_RecoveryTimeout : string; rq_RecoveryStabilityWindow : string;
  rq_MinimumControlPlaneMembers : Z; rq_Workloads : list WorkloadTarget; rq_VM : VMTarget;
  rq_DataProbe : DataProbeTarget
}.

Definition Request_fields (v : Request) : fields := [
  field "schemaVersion" (rq_SchemaVersion v); field "runNonceSha256" (rq_RunNonceSHA256 v);
  field "targetNodeName" (rq_TargetNodeName v); field "pollInterval" (rq_PollInterval v);
  field "faultArrivalTimeout" (rq_FaultArrivalTimeout v);
  field "minimumLossWindow" (rq_MinimumLossWindow v);
  field "recoveryTimeout" (rq_RecoveryTimeout v);
  field "recoveryStabilityWindow" (rq_RecoveryStabilityWindow v);
  field "minimumControlPlaneMembers" (rq_MinimumControlPlaneMembers v);
  field "workloads" (rq_Workloads v); field "vm" (rq_VM v); field "dataProbe" (rq_DataProbe v)].

#[export] Instance marshal_Request : Marshal Request := fun v => JStruct (Request_fields v).

Record ReadyMarker := {
  mk_SchemaVersion : string; mk_Status : string; mk_RequestSHA256 : string;
  mk_RunNonceSHA256 : string; mk_TargetNodeUIDSHA256 : string; mk_NodeUIDHashAlgorithm : string;
  mk_KubectlExecutableSHA256 : string; mk_ProbeAdapterSHA256 : string;
  mk_ControlPlaneMemberSetSHA256 : string; mk_BaselineControlPlaneNodes : Z;
  mk_BaselineEtcdMembers : Z; mk_BaselineAPIServerMembers : Z; mk_ReadyAt : string;
  mk_MarkerSHA256 : string
}.

Definition ReadyMarker_fields (v : ReadyMarker) : fields := [
  field "schemaVersion" (mk_SchemaVersion v); field "status" (mk_Status v);
  field "requestSha256" (mk_RequestSHA256 v); field "runNonceSha256" (mk_RunNonceSHA256 v);
  field "targetNodeUidSha256" (mk_TargetNodeUIDSHA256 v);
  field_omitempty "nodeUidHashAlgorithm" (mk_NodeUIDHashAlgorithm v);
  field "kubectlExecutableSha256" (mk_KubectlExecutableSHA256 v);
  field "probeAdapterSha256" (mk_ProbeAdapterSHA256 v);
  field_omitempty "controlPlaneMemberSetSha256" (mk_ControlPlaneMemberSetSHA256 v);
  field "baselineControlPlaneNodes" (mk_BaselineControlPlaneNodes v);
  field "baselineEtcdMembers" (mk_BaselineEtcdMembers v);
  field "baselineApiServerMembers" (mk_BaselineAPIServerMembers v);
  field "readyAt" (mk_ReadyAt v); field "markerSha256" (mk_MarkerSHA256 v)].

#[export] Instance marshal_ReadyMarker : Marshal ReadyMarker := fun v => JStruct (ReadyMarker_fields v).

Definition ReadyMarker_with_MarkerSHA256 (v : ReadyMarker) (sha : string) : ReadyMarker := {|
  mk_SchemaVersion := mk_SchemaVersion v; mk_Status := mk_Status v;
  mk_RequestSHA256 := mk_RequestSHA256 v; mk_RunNonceSHA256 := mk_RunNonceSHA256 v;
  mk_TargetNodeUIDSHA256 := mk_TargetNodeUIDSHA256 v;
  mk_NodeUIDHashAlgorithm := mk_NodeUIDHashAlgorithm v;
  mk_KubectlExecutableSHA256 := mk_KubectlExecutableSHA256 v;
  mk_ProbeAdapterSHA256 := mk_ProbeAdapterSHA256 v;
  mk_ControlPlaneMemberSetSHA256 := mk_ControlPlaneMemberSetSHA256 v;
  mk_BaselineControlPlaneNodes := mk_BaselineControlPlaneNodes v;
  mk_BaselineEtcdMembers := mk_BaselineEtcdMembers v;
  mk_BaselineAPIServerMembers := mk_BaselineAPIServerMembers v; mk_ReadyAt := mk_ReadyAt v;
  mk_MarkerSHA256 := sha
|}.

Record WorkloadEvidence := {
  we_ID : string; we_BindingSHA256 : string; we_ReadyPods : Z; we_DistinctReadyNodes : Z;
  we_MinimumReadyPods : Z; we_MinimumReadyNodes : Z
}.

Definition WorkloadEvidence_fields (v : WorkloadEvidence) : fields := [
  field "id" (we_ID v); field "bindingSha256" (we_BindingSHA256 v);
  field "readyPods" (we_ReadyPods v); field "distinctReadyNodes" (we_DistinctReadyNodes v);
  field "minimumReadyPods" (we_MinimumReadyPods v);
  field "minimumReadyNodes" (we_MinimumReadyNodes v)].

#[export] Instance marshal_WorkloadEvidence : Marshal WorkloadEvidence := fun v => JStruct (WorkloadEvidence_fields v).

Record VMEvidence := {
  ve_ID : string; ve_BindingSHA256 : string; ve_VMUIDSHA256 : string; ve_VMIUIDSHA256 : string;
  ve_VMReady : bool; ve_VMIReady : bool; ve_VMIOnTarget : bool
}.

Definition VMEvidence_fields (v : VMEvidence) : fields := [
  field "id" (ve_ID v); field "bindingSha256" (ve_BindingSHA256 v);
  field "vmUidSha256" (ve_VMUIDSHA256 v); field_omitempty "vmiUidSha256" (ve_VMIUIDSHA256 v);
  field "vmReady" (ve_VMReady v); field "vmiReady" (ve_VMIReady v);
  field "vmiOnTarget" (ve_VMIOnTarget v)].

#[export] Instance marshal_VMEvidence : Marshal VMEvidence := fun v => JStruct (VMEvidence_fields v).

Record DataProbeEvidence := {
  pe_ID : string; pe_BindingSHA256 : string; pe_Implementation : string; pe_Version : string;
  pe_RequestSHA256 : string; pe_AdapterExecutableSHA256 : string; pe_HashAlgorithm : string;
  pe_DataSHA256 : string; pe_ValidatedBytes : Z; pe_StartedAt : string; pe_CompletedAt : string
}.

Definition DataProbeEvidence_fields (v : DataProbeEvidence) : fields := [
  field "id" (pe_ID v); field "bindingSha256" (pe_BindingSHA256 v);
  field "implementation" (pe_Implementation v); field "version" (pe_Version v);
  field "requestSha256" (pe_RequestSHA256 v);
  field "adapterExecutableSha256" (pe_AdapterExecutableSHA256 v);
  field "hashAlgorithm" (pe_HashAlgorithm v); field "dataSha256" (pe_DataSHA256 v);
  field "validatedBytes" (pe_ValidatedBytes v); field "startedAt" (pe_StartedAt v);
  field "completedAt" (pe_CompletedAt v)].

#[export] Instance marshal_DataProbeEvidence : Marshal DataProbeEvidence := fun v => JStruct (DataProbeEvidence_fields v).

Record SampleEvidence := {
  sm_Sequence : Z; sm_Phase : string; sm_StartedAt : string; sm_ObservedAt : string;
  sm_TargetNodePresent : bool; sm_TargetNodeReady : bool; sm_TargetNodeUIDSHA256 : string;
  sm_ReadyZPassed : bool; sm_ControlPlaneReadyNodes : Z; sm_EtcdReadyMembers : Z;
  sm_APIServerReadyMembers : Z; sm_ControlPlaneMemberSetSHA256 : string;
  sm_TargetHostsEtcd : bool; sm_TargetHostsAPIServer : bool;
  sm_Workloads : list WorkloadEvidence; sm_VM : VMEvidence; sm_DataProbe : DataProbeEvidence;
  sm_SampleSHA256 : string
}.

Definition SampleEvidence_fields (v : SampleEvidence) : fields := [
  field "sequence" (sm_Sequence v); field "phase" (sm_Phase v);
  field "startedAt" (sm_StartedAt v); field "observedAt" (sm_ObservedAt v);
  field "targetNodePresent" (sm_TargetNodePresent v);
  field "targetNodeReady" (sm_TargetNodeReady v);
  field_omitempty "targetNodeUidSha256" (sm_TargetNodeUIDSHA256 v);
  field "readyzPassed" (sm_ReadyZPassed v);
  field "controlPlaneReadyNodes" (sm_ControlPlaneReadyNodes v);
  field "etcdReadyMembers" (sm_EtcdReadyMembers v);
  field "apiServerReadyMembers" (sm_APIServerReadyMembers v);
  field_omitempty "controlPlaneMemberSetSha256" (sm_ControlPlaneMemberSetSHA256 v);
  field "targetHostsEtcd" (sm_TargetHostsEtcd v);
  field "targetHostsApiServer" (sm_TargetHostsAPIServer v); field "workloads" (sm_Workloads v);
  field "vm" (sm_VM v); field "dataProbe" (sm_DataProbe v);
  field "sampleSha256" (sm_SampleSHA256 v)].

#[export] Instance marshal_SampleEvidence : Marshal SampleEvidence := fun v => JStruct (SampleEvidence_fields v).

Definition SampleEvidence_with_SampleSHA256 (v : SampleEvidence) (sha : string) : SampleEvidence := {|
  sm_Sequence := sm_Sequence v; sm_Phase := sm_Phase v; sm_StartedAt := sm_StartedAt v;
  sm_ObservedAt := sm_ObservedAt v; sm_TargetNodePresent := sm_TargetNodePresent v;
  sm_TargetNodeReady := sm_TargetNodeReady v;
  sm_TargetNodeUIDSHA256 := sm_TargetNodeUIDSHA256 v; sm_ReadyZPassed := sm_ReadyZPassed v;
  sm_ControlPlaneReadyNodes := sm_ControlPlaneReadyNodes v;
  sm_EtcdReadyMembers := sm_EtcdReadyMembers v;
  sm_APIServerReadyMembers := sm_APIServerReadyMembers v;
  sm_ControlPlaneMemberSetSHA256 := sm_ControlPlaneMemberSetSHA256 v;
  sm_TargetHostsEtcd := sm_TargetHostsEtcd v;
  sm_TargetHostsAPIServer := sm_TargetHostsAPIServer v; sm_Workloads := sm_Workloads v;
  sm_VM := sm_VM v; sm_DataProbe := sm_DataProbe v; sm_SampleSHA256 := sha
|}.

Definition SampleEvidence_with_ObservedAt (v : SampleEvidence) (sha : string) : SampleEvidence := {|
  sm_Sequence := sm_Sequence v; sm_Phase := sm_Phase v; sm_StartedAt := sm_StartedAt v;
  sm_ObservedAt := sha; sm_TargetNodePresent := sm_TargetNodePresent v;
  sm_TargetNodeReady := sm_TargetNodeReady v;
  sm_TargetNodeUIDSHA256 := sm_TargetNodeUIDSHA256 v; sm_ReadyZPassed := sm_ReadyZPassed v;
  sm_ControlPlaneReadyNodes := sm_ControlPlaneReadyNodes v;
  sm_EtcdReadyMembers := sm_EtcdReadyMembers v;
  sm_APIServerReadyMembers := sm_APIServerReadyMembers v;
  sm_ControlPlaneMemberSetSHA256 := sm_ControlPlaneMemberSetSHA256 v;
  sm_TargetHostsEtcd := sm_TargetHostsEtcd v;
  sm_TargetHostsAPIServer := sm_TargetHostsAPIServer v; sm_Workloads := sm_Workloads v;
  sm_VM := sm_VM v; sm_DataProbe := sm_DataProbe v; sm_SampleSHA256 := sm_SampleSHA256 v
|}.

Record PhaseEvidence := {
  ph_Phase : string; ph_StartedAt : string; ph_CompletedAt : string;
  ph_Samples : list SampleEvidence; ph_SamplesSHA256 : string
}.

Definition PhaseEvidence_fields (v : PhaseEvidence) : fields := [
  field "phase" (ph_Phase v); field "startedAt" (ph_StartedAt v);
  field "completedAt" (ph_CompletedAt v); field "samples" (ph_Samples v);
  field "samplesSha256" (ph_SamplesSHA256 v)].

#[export] Instance marshal_PhaseEvidence : Marshal PhaseEvidence := fun v => JStruct (PhaseEvidence_fields v).

Record Baseline := {
  bl_ControlPlaneNodes : Z; bl_EtcdMembers : Z; bl_APIServerMembers : Z;
  bl_VMUIDSHA256 : string; bl_DataSHA256 : string; bl_ValidatedBytes : Z;
  bl_ControlPlaneMemberSetSHA256 : string; bl_BaselineSHA256 : string
}.

Definition Baseline_fields (v : Baseline) : fields := [
  field "controlPlaneNodes" (bl_ControlPlaneNodes v); field "etcdMembers" (bl_EtcdMembers v);
  field "apiServerMembers" (bl_APIServerMembers v); field "vmUidSha256" (bl_VMUIDSHA256 v);
  field "dataSha256" (bl_DataSHA256 v); field "validatedBytes" (bl_ValidatedBytes v);
  field_omitempty "controlPlaneMemberSetSha256" (bl_ControlPlaneMemberSetSHA256 v);
  field "baselineSha256" (bl_BaselineSHA256 v)].

#[export] Instance marshal_Baseline : Marshal Baseline := fun v => JStruct (Baseline_fields v).

Definition Baseline_with_BaselineSHA256 (v : Baseline) (sha : string) : Baseline := {|
  bl_ControlPlaneNodes := bl_ControlPlaneNodes v; bl_EtcdMembers := bl_EtcdMembers v;
  bl_APIServerMembers := bl_APIServerMembers v; bl_VMUIDSHA256 := bl_VMUIDSHA256 v;
  bl_DataSHA256 := bl_DataSHA256 v; bl_ValidatedBytes := bl_ValidatedBytes v;
  bl_ControlPlaneMemberSetSHA256 := bl_ControlPlaneMemberSetSHA256 v; bl_BaselineSHA256 := sha
|}.

Record Receipt := {
  rc_SchemaVersion : string; rc_Status : string; rc_RequestSHA256 : string;
  rc_RunNonceSHA256 : string; rc_TargetNodeUIDSHA256 : string; rc_NodeUIDHashAlgorithm : string;
  rc_KubectlExecutableSHA256 : string; rc_ProbeAdapterSHA256 : string; rc_StartedAt : string;
  rc_ReadyMarkerAt : string; rc_CompletedAt : string; rc_PollInterval : string;
  rc_FaultArrivalTimeout : string; rc_MinimumLossWindow : string; rc_RecoveryTimeout : string;
  rc_RecoveryStabilityWindow : string; rc_MaximumVMUnavailable : string;
  rc_MinimumControlPlane : Z; rc_Baseline : Baseline; rc_PreLoss : PhaseEvidence;
  rc_Loss : PhaseEvidence; rc_Recovered : PhaseEvidence; rc_ReceiptSHA256 : string
}.

Definition Receipt_fields (v : Receipt) : fields := [
  field "schemaVersion" (rc_SchemaVersion v); field "status" (rc_Status v);
  field "requestSha256" (rc_RequestSHA256 v); field "runNonceSha256" (rc_RunNonceSHA256 v);
  field "targetNodeUidSha256" (rc_TargetNodeUIDSHA256 v);
  field_omitempty "nodeUidHashAlgorithm" (rc_NodeUIDHashAlgorithm v);
  field "kubectlExecutableSha256" (rc_KubectlExecutableSHA256 v);
  field "probeAdapterSha256" (rc_ProbeAdapterSHA256 v); field "startedAt" (rc_StartedAt v);
  field "readyMarkerAt" (rc_ReadyMarkerAt v); field "completedAt" (rc_CompletedAt v);
  field "pollInterval" (rc_PollInterval v);
  field "faultArrivalTimeout" (rc_FaultArrivalTimeout v);
  field "minimumLossWindow" (rc_MinimumLossWindow v);
  field "recoveryTimeout" (rc_RecoveryTimeout v);
  field "recoveryStabilityWindow" (rc_RecoveryStabilityWindow v);
  field "maximumVmUnavailable" (rc_MaximumVMUnavailable v);
  field "minimumControlPlane" (rc_MinimumControlPlane v); field "baseline" (rc_Baseline v);
  field "preLoss" (rc_PreLoss v); field "loss" (rc_Loss v); field "recovered" (rc_Recovered v);
  field "receiptSha256" (rc_ReceiptSHA256 v)].

#[export] Instance marshal_Receipt : Marshal Receipt := fun v => JStruct (Receipt_fields v).

Definition Receipt_with_ReceiptSHA256 (v : Receipt) (sha : string) : Receipt := {|
  rc_SchemaVersion := rc_SchemaVersion v; rc_Status := rc_Status v;
  rc_RequestSHA256 := rc_RequestSHA256 v; rc_RunNonceSHA256 := rc_RunNonceSHA256 v;
  rc_TargetNodeUIDSHA256 := rc_TargetNodeUIDSHA256 v;
  rc_NodeUIDHashAlgorithm := rc_NodeUIDHashAlgorithm v;
  rc_KubectlExecutableSHA256 := rc_KubectlExecutableSHA256 v;
  rc_ProbeAdapterSHA256 := rc_ProbeAdapterSHA256 v; rc_StartedAt := rc_StartedAt v;
  rc_ReadyMarkerAt := rc_ReadyMarkerAt v; rc_CompletedAt := rc_CompletedAt v;
  rc_PollInterval := rc_PollInterval v; rc_FaultArrivalTimeout := rc_FaultArrivalTimeout v;
  rc_MinimumLossWindow := rc_MinimumLossWindow v; rc_RecoveryTimeout := rc_RecoveryTimeout v;
  rc_RecoveryStabilityWindow := rc_RecoveryStabilityWindow v;
  rc_MaximumVMUnavailable := rc_MaximumVMUnavailable v;
  rc_MinimumControlPlane := rc_MinimumControlPlane v; rc_Baseline := rc_Baseline v;
  rc_PreLoss := rc_PreLoss v; rc_Loss := rc_Loss v; rc_Recovered := rc_Recovered v;
  rc_ReceiptSHA256 := sha
|}.

Record ProbeRequest := {
  pq_SchemaVersion : string; pq_RunNonceSHA256 : string; pq_ParentRequestSHA256 : string;
  pq_Phase : string; pq_Sequence : Z; pq_ProbeID : string; pq_QueryRef : string;
  pq_AdapterExecutableSHA256 : string
}.

Definition ProbeRequest_fields (v : ProbeRequest) : fields := [
  field "schemaVersion" (pq_SchemaVersion v); field "runNonceSha256" (pq_RunNonceSHA256 v);
  field "parentRequestSha256" (pq_ParentRequestSHA256 v); field "phase" (pq_Phase v);
  field "sequence" (pq_Sequence v); field "probeId" (pq_ProbeID v);
  field "queryRef" (pq_QueryRef v);
  field "adapterExecutableSha256" (pq_AdapterExecutableSHA256 v)].

#[export] Instance marshal_ProbeRequest : Marshal ProbeRequest := fun v => JStruct (ProbeRequest_fields v).

Record ProbeResponse := {
  rp_SchemaVersion : string; rp_Implementation : string; rp_Version : string;
  rp_RequestSHA256 : string; rp_AdapterExecutableSHA256 : string; rp_HashAlgorithm : string;
  rp_DataSHA256 : string; rp_ValidatedBytes : Z; rp_StartedAt : string; rp_CompletedAt : string
}.

Definition ProbeResponse_fields (v : ProbeResponse) : fields := [
  field "schemaVersion" (rp_SchemaVersion v); field "implementation" (rp_Implementation v);
  field "version" (rp_Version v); field "requestSha256" (rp_RequestSHA256 v);
  field "adapterExecutableSha256" (rp_AdapterExecutableSHA256 v);
  field "hashAlgorithm" (rp_HashAlgorithm v); field "dataSha256" (rp_DataSHA256 v);
  field "validatedBytes" (rp_ValidatedBytes v); field "startedAt" (rp_StartedAt v);
  field "completedAt" (rp_CompletedAt v)].

#[export] Instance marshal_ProbeResponse : Marshal ProbeResponse := fun v => JStruct (ProbeResponse_fields v).

Record Resource := {
  rs_Group : string; rs_Version : string; rs_Resource : string; rs_ListKind : string;
  rs_Kind : string
}.

Definition ErrNotFound : goerror := errors_New "Kubernetes object not found".

(** ** Digests *)

(** [digestJSON]; the types modelled here are always encoded. *)
Definition digestJSON {A} `{Marshal A} (value : A) : string := sha256_hex (json_Marshal value).
