(* ===== verification/OslValidate.v ===== *)
(** * One server lost: what is accepted

    The validators of pkg/resilience/oneserverloss/validate.go: requests, ready
    markers and receipts, with the patterns and canonical texts they use.

    The source dereferences the times of a phase only after [validatePhase] has
    read them, and those of a sample after [validateSampleSequence];
    [mustTimestamp], which is zero on a text that is no time, stands for the
    dereference. *)

From stdpp Require Import gmap strings list.
From Stdlib Require Import ZArith Ascii Lia.
From S2P Require Import Prelude GoString GoTime GoSort GoSha256 GoJson StrictJson GoRfc3339 GoDuration OslTypes.

#[local] Open Scope Z_scope.

Definition minimumPollInterval : Duration := Second.
Definition maximumPollInterval : Duration := 30 * Second.
Definition maximumPhaseTimeout : Duration := Hour.
Definition maximumSamples : Z := 4096.
Definition maximumReceiptBytes : Z := 7 * 1048576.

(** ** Patterns and texts *)

Definition safeIDPattern : string -> bool :=
  match_first_last lower_digit (fun c => lower_digit c || one_of ".-" c) lower_digit 61.
Definition dnsNamePattern : string -> bool :=
  match_first_last lower_digit (fun c => lower_digit c || one_of "-." c) lower_digit 251.
Definition labelNamePattern : string -> bool :=
  match_first_last alphanumeric (fun c => alphanumeric c || one_of "-_." c) alphanumeric 61.

(** The prefix before the slash has no slash, and neither has the name. *)
Definition labelKeyPattern (s : string) : bool :=
  match Split_char "/" s with
  | [name] => labelNamePattern name
  | [prefix; name] => dnsNamePattern prefix && labelNamePattern name
  | _ => false
  end.
Definition labelValuePattern (s : string) : bool := (s == "") || labelNamePattern s.
Definition versionPattern : string -> bool :=
  match_first_rest alphanumeric (fun c => alphanumeric c || one_of "-+._" c) 0 62.

Definition validSHA256 (value : string) : bool := hex_of_length 64 value.
Definition validSafeID (value : string) : bool := safeIDPattern value.

Definition validDNSName (value : string) : bool :=
  if (len value =? 0)%nat || (253 <? len value)%nat || negb (dnsNamePattern value) ||
     Contains value ".." then false
  else forallb (fun label => negb ((len label =? 0)%nat || (63 <? len label)%nat))
         (Split_char "." value).

Definition canonicalDuration (value : string) (minimum maximum : Duration) : result Duration :=
  match ParseDuration value with
  | None => Err (errors_New "duration is invalid")
  | Some parsed =>
      if (parsed <? minimum) || (maximum <? parsed) || (Duration_String parsed != value)
      then Err (errors_New "duration is invalid") else Ok parsed
  end.

Definition canonicalTimestamp (value : string) : option Time := canonical value.

Definition mustTimestamp (value : string) : Time := default time_zero (canonicalTimestamp value).

Definition canonicalSelector (labels : gmap string string) : string :=
  Join (List.map (fun kv => kv.1 +:+ "=" +:+ kv.2) (sort_Slice key_lt (map_to_list labels))) ",".

(** ** Requests *)

Record parsedRequest := {
  pr_poll : Duration; pr_faultTimeout : Duration; pr_lossWindow : Duration;
  pr_recoveryTimeout : Duration; pr_recoveryStability : Duration; pr_vmUnavailable : Duration;
  pr_requestSHA256 : string; pr_workloadBindings : gmap string string; pr_vmBinding : string;
  pr_probeBinding : string
}.

(** The durations of a request, each bounded by those before it. *)
Record windows := {
  wn_poll : Duration; wn_faultTimeout : Duration; wn_lossWindow : Duration;
  wn_recoveryTimeout : Duration; wn_recoveryStability : Duration; wn_vmUnavailable : Duration
}.

(** [prefix] is the part of the messages that requests and receipts differ in. *)
Definition parse_windows (prefix poll fault loss recovery stability vm : string) : result windows :=
  let invalid what := Err (errors_New (prefix +:+ what +:+ " is invalid")) in
  match canonicalDuration poll minimumPollInterval maximumPollInterval with
  | Err _ => invalid "poll interval"
  | Ok poll =>
  match canonicalDuration fault (2 * poll) maximumPhaseTimeout with
  | Err _ => invalid "fault timeout"
  | Ok faultTimeout =>
  match canonicalDuration loss (2 * poll) maximumPhaseTimeout with
  | Err _ => invalid "loss window"
  | Ok lossWindow =>
  match canonicalDuration recovery (lossWindow + 2 * poll) maximumPhaseTimeout with
  | Err _ => invalid "recovery timeout"
  | Ok recoveryTimeout =>
  match canonicalDuration stability (2 * poll) recoveryTimeout with
  | Err _ => invalid "recovery stability window"
  | Ok recoveryStability =>
  match canonicalDuration vm poll recoveryTimeout with
  | Err _ => invalid "VM timeout"
  | Ok vmUnavailable => Ok {|
      wn_poll := poll; wn_faultTimeout := faultTimeout; wn_lossWindow := lossWindow;
      wn_recoveryTimeout := recoveryTimeout; wn_recoveryStability := recoveryStability;
      wn_vmUnavailable := vmUnavailable |}
  end end end end end end.

Definition valid_labels (labels : gmap string string) : bool :=
  forallb (fun kv => labelKeyPattern kv.1 && labelValuePattern kv.2) (map_to_list labels).

(** The loop over the workload targets: their identifiers ascend. *)
Fixpoint bind_workloads (previousID : string) (bindings : gmap string string)
    (targets : list WorkloadTarget) : result (gmap string string) :=
  match targets with
  | [] => Ok bindings
  | target :: rest =>
      if negb (validSafeID (wt_ID target)) || negb (string_lt previousID (wt_ID target)) ||
         negb (validDNSName (wt_Namespace target)) ||
         (size (wt_MatchLabels target) =? 0)%nat || (16 <? size (wt_MatchLabels target))%nat ||
         (wt_MinimumReadyPods target <? 1) || (10000 <? wt_MinimumReadyPods target) ||
         (wt_MinimumDistinctReadyNodes target <? 1) ||
         (wt_MinimumReadyPods target <? wt_MinimumDistinctReadyNodes target)
      then Err (errors_New "one-server-loss workload target is invalid")
      else if negb (valid_labels (wt_MatchLabels target))
      then Err (errors_New "one-server-loss workload label binding is invalid")
      else bind_workloads (wt_ID target) (<[wt_ID target := digestJSON target]> bindings) rest
  end.

(** The number of samples a run can take, and the size of one. *)
Definition estimatedSamples (w : windows) : Z :=
  Z.quot (wn_faultTimeout w + wn_recoveryTimeout w) (wn_poll w) + 8.
Definition estimatedSampleBytes (request : Request) : Z :=
  2048 + Z.of_nat (length (rq_Workloads request)) * 512.

Definition validateRequest (request : Request) : result parsedRequest :=
  if (rq_SchemaVersion request != RequestSchemaVersion) ||
     negb (validSHA256 (rq_RunNonceSHA256 request)) ||
     negb (validDNSName (rq_TargetNodeName request)) ||
     (rq_MinimumControlPlaneMembers request <? 3) || (99 <? rq_MinimumControlPlaneMembers request) ||
     (length (rq_Workloads request) =? 0)%nat || (32 <? length (rq_Workloads request))%nat
  then Err (errors_New "one-server-loss request is invalid")
  else match parse_windows "one-server-loss " (rq_PollInterval request)
               (rq_FaultArrivalTimeout request) (rq_MinimumLossWindow request)
               (rq_RecoveryTimeout request) (rq_RecoveryStabilityWindow request)
               (vt_MaximumUnavailableDuration (rq_VM request)) with
  | Err err => Err err
  | Ok w =>
  if (maximumSamples <? estimatedSamples w) ||
     (maximumReceiptBytes <? estimatedSamples w * estimatedSampleBytes request)
  then Err (errors_New "one-server-loss request can exceed the evidence bound")
  else match bind_workloads "" ∅ (rq_Workloads request) with
  | Err err => Err err
  | Ok bindings =>
  let vm := rq_VM request in
  let probe := rq_DataProbe request in
  if negb (validSafeID (vt_ID vm)) || negb (validDNSName (vt_Namespace vm)) ||
     negb (validDNSName (vt_Name vm)) || negb (vt_RequirePreLossOnTarget vm)
  then Err (errors_New "one-server-loss VM target is invalid")
  else if negb (validSafeID (dt_ID probe)) || negb (validSafeID (dt_QueryRef probe)) ||
          (dt_MinimumValidatedBytes probe <? 1)
  then Err (errors_New "one-server-loss data probe target is invalid")
  else Ok {|
    pr_poll := wn_poll w; pr_faultTimeout := wn_faultTimeout w; pr_lossWindow := wn_lossWindow w;
    pr_recoveryTimeout := wn_recoveryTimeout w; pr_recoveryStability := wn_recoveryStability w;
    pr_vmUnavailable := wn_vmUnavailable w; pr_requestSHA256 := digestJSON request;
    pr_workloadBindings := bindings; pr_vmBinding := digestJSON vm;
    pr_probeBinding := digestJSON probe |}
  end end.

(** ** Ready markers *)

Definition markerDigest (marker : ReadyMarker) : string :=
  digestJSON (ReadyMarker_with_MarkerSHA256 marker "").

Definition ValidateReadyMarker (marker : ReadyMarker) : option goerror :=
  if (mk_SchemaVersion marker != ReadyMarkerSchemaVersion) || (mk_Status marker != ReadyMarkerStatus) ||
     negb (validSHA256 (mk_RequestSHA256 marker)) || negb (validSHA256 (mk_RunNonceSHA256 marker)) ||
     negb (validSHA256 (mk_TargetNodeUIDSHA256 marker)) ||
     negb (validSHA256 (mk_KubectlExecutableSHA256 marker)) ||
     negb (validSHA256 (mk_ProbeAdapterSHA256 marker)) ||
     (mk_BaselineControlPlaneNodes marker <? 3) || (mk_BaselineEtcdMembers marker <? 3) ||
     (mk_BaselineAPIServerMembers marker <? 3) || is_nil (canonicalTimestamp (mk_ReadyAt marker)) ||
     negb (validSHA256 (mk_MarkerSHA256 marker))
  then Some (errors_New "one-server-loss ready marker is invalid")
  else if (mk_NodeUIDHashAlgorithm marker != "") &&
          (mk_NodeUIDHashAlgorithm marker != NodeUIDHashAlgorithm) ||
          xorb (mk_NodeUIDHashAlgorithm marker == "") (mk_ControlPlaneMemberSetSHA256 marker == "") ||
          (mk_ControlPlaneMemberSetSHA256 marker != "") &&
          negb (validSHA256 (mk_ControlPlaneMemberSetSHA256 marker))
  then Some (errors_New "one-server-loss ready marker member set is invalid")
  else if markerDigest marker != mk_MarkerSHA256 marker
  then Some (errors_New "one-server-loss ready marker digest is invalid")
  else None.

Definition ValidateReadyMarkerFreshness (marker : ReadyMarker) (now : Time)
    (maximumAge maximumFutureSkew : Duration) : option goerror :=
  match ValidateReadyMarker marker with
  | Some err => Some err
  | None =>
      if IsZero now || (maximumAge <=? 0) || (maximumFutureSkew <? 0)
      then Some (errors_New "one-server-loss ready marker freshness policy is invalid")
      else
        let readyAt := mustTimestamp (mk_ReadyAt marker) in
        if Before readyAt (time_Add now (int64_wrap (- maximumAge)))
        then Some (errors_New "one-server-loss ready marker is stale")
        else if After readyAt (time_Add now maximumFutureSkew)
        then Some (errors_New "one-server-loss ready marker is from the future")
        else None
  end.

(** ** Receipts *)

Record member_set := { ms_Domain : string; ms_MemberUIDSHA256 : list string }.

Definition member_set_fields (v : member_set) : fields := [
  field "domain" (ms_Domain v); field "memberUidSha256" (ms_MemberUIDSHA256 v)].

#[export] Instance marshal_member_set : Marshal member_set := fun v => JStruct (member_set_fields v).

(** [previous] is the element before, in order. *)
Fixpoint distinct_hashes (previous : option string) (uids : list string) : bool :=
  match uids with
  | [] => true
  | uid :: rest =>
      validSHA256 uid && match previous with Some p => uid != p | None => true end &&
      distinct_hashes (Some uid) rest
  end.

Definition ControlPlaneMemberSetSHA256 (memberUIDSHA256 : list string) : string :=
  if (length memberUIDSHA256 <? 1)%nat || (10000 <? Z.of_nat (length memberUIDSHA256)) then ""
  else
    let canonical := sort_Strings memberUIDSHA256 in
    if distinct_hashes None canonical
    then digestJSON {| ms_Domain := controlPlaneMemberSetDomain; ms_MemberUIDSHA256 := canonical |}
    else "".

Definition baselineDigest (baseline : Baseline) : string :=
  digestJSON (Baseline_with_BaselineSHA256 baseline "").
Definition sampleDigest (sample : SampleEvidence) : string :=
  digestJSON (SampleEvidence_with_SampleSHA256 sample "").
(** The digest a sample is given last. *)
Definition seal_sample (sample : SampleEvidence) : SampleEvidence :=
  SampleEvidence_with_SampleSHA256 sample (sampleDigest sample).

Definition receiptDigest (receipt : Receipt) : string :=
  digestJSON (Receipt_with_ReceiptSHA256 receipt "").

Definition outside (lo hi z : Z) : bool := (z <? lo) || (hi <? z).

Definition validateBaseline (baseline : Baseline) (minimum : Z) : option goerror :=
  if outside minimum 10000 (bl_ControlPlaneNodes baseline) ||
     outside 3 10000 (bl_EtcdMembers baseline) || outside 3 10000 (bl_APIServerMembers baseline) ||
     negb (validSHA256 (bl_VMUIDSHA256 baseline)) || negb (validSHA256 (bl_DataSHA256 baseline)) ||
     (bl_ValidatedBytes baseline <? 1) || negb (validSHA256 (bl_BaselineSHA256 baseline))
  then Some (errors_New "one-server-loss baseline is invalid")
  else if (bl_ControlPlaneMemberSetSHA256 baseline != "") &&
          negb (validSHA256 (bl_ControlPlaneMemberSetSHA256 baseline))
  then Some (errors_New "one-server-loss baseline member set is invalid")
  else if baselineDigest baseline != bl_BaselineSHA256 baseline
  then Some (errors_New "one-server-loss baseline digest is invalid")
  else None.

Definition validatePhase (phase : PhaseEvidence) (expected : string) : option goerror :=
  if (ph_Phase phase != expected) || (length (ph_Samples phase) =? 0)%nat ||
     negb (validSHA256 (ph_SamplesSHA256 phase)) || is_nil (canonicalTimestamp (ph_StartedAt phase)) ||
     is_nil (canonicalTimestamp (ph_CompletedAt phase))
  then Some (errors_New "one-server-loss phase evidence is invalid")
  else if digestJSON (ph_Samples phase) != ph_SamplesSHA256 phase
  then Some (errors_New "one-server-loss phase sample digest is invalid")
  else None.

(** The workloads of a sample, their identifiers ascending. *)
Fixpoint safe_workloads (previousID : string) (workloads : list WorkloadEvidence) : option goerror :=
  match workloads with
  | [] => None
  | workload :: rest =>
      if negb (validSafeID (we_ID workload)) || negb (string_lt previousID (we_ID workload)) ||
         negb (validSHA256 (we_BindingSHA256 workload)) || outside 0 10000 (we_ReadyPods workload) ||
         outside 0 (we_ReadyPods workload) (we_DistinctReadyNodes workload) ||
         (we_MinimumReadyPods workload <? 1) || (we_MinimumReadyNodes workload <? 1) ||
         (we_MinimumReadyPods workload <? we_MinimumReadyNodes workload)
      then Some (errors_New "one-server-loss workload evidence is invalid")
      else safe_workloads (we_ID workload) rest
  end.

Definition safe_vm (vm : VMEvidence) : bool :=
  validSafeID (ve_ID vm) && validSHA256 (ve_BindingSHA256 vm) && validSHA256 (ve_VMUIDSHA256 vm) &&
  negb ((ve_VMIUIDSHA256 vm != "") && negb (validSHA256 (ve_VMIUIDSHA256 vm)) ||
        ve_VMIReady vm && (ve_VMIUIDSHA256 vm == "") ||
        ve_VMIOnTarget vm && (ve_VMIUIDSHA256 vm == "")).

Definition safe_probe (probe : DataProbeEvidence) (adapter : string) : bool :=
  validSafeID (pe_ID probe) && validSHA256 (pe_BindingSHA256 probe) &&
  versionPattern (pe_Implementation probe) && versionPattern (pe_Version probe) &&
  validSHA256 (pe_RequestSHA256 probe) && (pe_AdapterExecutableSHA256 probe == adapter) &&
  (pe_HashAlgorithm probe == "sha256") && validSHA256 (pe_DataSHA256 probe) &&
  negb (pe_ValidatedBytes probe <? 1).

(** The times of a sample: the probe runs within it. *)
Definition safe_times (sample : SampleEvidence) : bool :=
  match canonicalTimestamp (sm_StartedAt sample), canonicalTimestamp (sm_ObservedAt sample),
        canonicalTimestamp (pe_StartedAt (sm_DataProbe sample)),
        canonicalTimestamp (pe_CompletedAt (sm_DataProbe sample)) with
  | Some started, Some observed, Some probeStarted, Some probeCompleted =>
      negb (Before probeCompleted probeStarted || Before probeStarted started ||
            After probeCompleted observed)
  | _, _, _, _ => false
  end.

Definition validateSafeSample (sample : SampleEvidence) (receipt : Receipt) : option goerror :=
  if (sm_Phase sample != PhasePreLoss) && (sm_Phase sample != PhaseLoss) &&
       (sm_Phase sample != PhaseRecovered) || negb (sm_ReadyZPassed sample) ||
     (length (sm_Workloads sample) =? 0)%nat || (32 <? length (sm_Workloads sample))%nat ||
     sm_TargetNodePresent sample && negb (validSHA256 (sm_TargetNodeUIDSHA256 sample)) ||
     negb (sm_TargetNodePresent sample) && (sm_TargetNodeUIDSHA256 sample != "") ||
     sm_TargetNodeReady sample && negb (sm_TargetNodePresent sample) ||
     outside 0 10000 (sm_ControlPlaneReadyNodes sample) ||
     outside 0 10000 (sm_EtcdReadyMembers sample) ||
     outside 0 10000 (sm_APIServerReadyMembers sample) || negb (safe_vm (sm_VM sample)) ||
     negb (safe_probe (sm_DataProbe sample) (rc_ProbeAdapterSHA256 receipt)) ||
     negb (safe_times sample)
  then Some (errors_New "one-server-loss sample contains invalid safe evidence")
  else if (sm_ControlPlaneMemberSetSHA256 sample != "") &&
          negb (validSHA256 (sm_ControlPlaneMemberSetSHA256 sample))
  then Some (errors_New "one-server-loss sample member set is invalid")
  else safe_workloads "" (sm_Workloads sample).

Fixpoint sameWorkloadShape (ls rs : list WorkloadEvidence) : bool :=
  match ls, rs with
  | [], [] => true
  | l :: ls, r :: rs =>
      (we_ID l == we_ID r) && (we_BindingSHA256 l == we_BindingSHA256 r) &&
      (we_MinimumReadyPods l =? we_MinimumReadyPods r) &&
      (we_MinimumReadyNodes l =? we_MinimumReadyNodes r) && sameWorkloadShape ls rs
  | _, _ => false
  end.

(** What every sample shares with the first one. *)
Definition same_bindings (first sample : SampleEvidence) : bool :=
  sameWorkloadShape (sm_Workloads first) (sm_Workloads sample) &&
  (ve_BindingSHA256 (sm_VM sample) == ve_BindingSHA256 (sm_VM first)) &&
  (pe_BindingSHA256 (sm_DataProbe sample) == pe_BindingSHA256 (sm_DataProbe first)) &&
  (pe_Implementation (sm_DataProbe sample) == pe_Implementation (sm_DataProbe first)) &&
  (pe_Version (sm_DataProbe sample) == pe_Version (sm_DataProbe first)).

(** [first] and [previous] are the first sample and the time of the one before;
    there are none at the first. *)
Fixpoint check_samples (poll : Duration) (receipt : Receipt) (index : Z)
    (before : option (SampleEvidence * Time)) (probeRequests : gset string)
    (samples : list SampleEvidence) : option goerror :=
  match samples with
  | [] => None
  | sample :: rest =>
  match canonicalTimestamp (sm_StartedAt sample), canonicalTimestamp (sm_ObservedAt sample) with
  | Some started, Some observed =>
  if negb (sm_Sequence sample =? index + 1) || Before observed started ||
     negb (validSHA256 (sm_SampleSHA256 sample))
  then Some (errors_New "one-server-loss sample sequence is invalid")
  else if sampleDigest sample != sm_SampleSHA256 sample
  then Some (errors_New "one-server-loss sample digest is invalid")
  else if match before with
          | Some (_, previous) => Before started previous || Before observed previous ||
                                  (2 * poll <? time_Sub started previous)
          | None => false
          end
  then Some (errors_New "one-server-loss observation gap is invalid")
  else match validateSafeSample sample receipt with
  | Some err => Some err
  | None =>
  let request := pe_RequestSHA256 (sm_DataProbe sample) in
  if bool_decide (request ∈ probeRequests)
  then Some (errors_New "one-server-loss data-probe request was replayed")
  else
    let first := match before with Some (first, _) => first | None => sample end in
    if negb (is_nil before) && negb (same_bindings first sample)
    then Some (errors_New "one-server-loss sample binding changed")
    else check_samples poll receipt (index + 1) (Some (first, observed))
           ({[request]} ∪ probeRequests) rest
  end
  | _, _ => Some (errors_New "one-server-loss sample sequence is invalid")
  end end.

Definition validateSampleSequence (samples : list SampleEvidence) (poll : Duration)
    (receipt : Receipt) : option goerror :=
  check_samples poll receipt 0 None ∅ samples.

(** ** The health of a phase *)

Definition workloads_short (sample : SampleEvidence) : bool :=
  existsb (fun workload => (we_ReadyPods workload <? we_MinimumReadyPods workload) ||
                           (we_DistinctReadyNodes workload <? we_MinimumReadyNodes workload))
    (sm_Workloads sample).

Definition identity_changed (phase : string) (receipt : Receipt) (sample : SampleEvidence) : bool :=
  let baseline := rc_Baseline receipt in
  (sm_Phase sample != phase) || (ve_VMUIDSHA256 (sm_VM sample) != bl_VMUIDSHA256 baseline) ||
  (pe_DataSHA256 (sm_DataProbe sample) != bl_DataSHA256 baseline) ||
  negb (pe_ValidatedBytes (sm_DataProbe sample) =? bl_ValidatedBytes baseline) ||
  xorb (bl_ControlPlaneMemberSetSHA256 baseline != "") (sm_ControlPlaneMemberSetSHA256 sample != "").

Definition vmReadyOffTarget (sample : SampleEvidence) : bool :=
  ve_VMReady (sm_VM sample) && ve_VMIReady (sm_VM sample) && negb (ve_VMIOnTarget (sm_VM sample)).

(** What the samples before the loss and after the recovery share: the target
    is ready, and no member is missing. *)
Definition members_missing (receipt : Receipt) (sample : SampleEvidence) : bool :=
  let baseline := rc_Baseline receipt in
  negb (sm_TargetNodePresent sample) || negb (sm_TargetNodeReady sample) ||
  (sm_TargetNodeUIDSHA256 sample != rc_TargetNodeUIDSHA256 receipt) ||
  (bl_ControlPlaneMemberSetSHA256 baseline != "") &&
    (sm_ControlPlaneMemberSetSHA256 sample != bl_ControlPlaneMemberSetSHA256 baseline) ||
  (sm_ControlPlaneReadyNodes sample <? bl_ControlPlaneNodes baseline) ||
  (sm_EtcdReadyMembers sample <? bl_EtcdMembers baseline) ||
  (sm_APIServerReadyMembers sample <? bl_APIServerMembers baseline) ||
  negb (sm_TargetHostsEtcd sample) || negb (sm_TargetHostsAPIServer sample) ||
  negb (ve_VMReady (sm_VM sample)) || negb (ve_VMIReady (sm_VM sample)).

(** The loss: the target, and nothing but the target, is missing. *)
Definition loss_not_exact (receipt : Receipt) (sample : SampleEvidence) : bool :=
  let baseline := rc_Baseline receipt in
  sm_TargetNodeReady sample ||
  sm_TargetNodePresent sample && (sm_TargetNodeUIDSHA256 sample != rc_TargetNodeUIDSHA256 receipt) ||
  (bl_ControlPlaneMemberSetSHA256 baseline != "") &&
    (sm_ControlPlaneMemberSetSHA256 sample == bl_ControlPlaneMemberSetSHA256 baseline) ||
  negb (sm_ControlPlaneReadyNodes sample =? bl_ControlPlaneNodes baseline - 1) ||
  negb (sm_EtcdReadyMembers sample =? bl_EtcdMembers baseline - 1) ||
  negb (sm_APIServerReadyMembers sample =? bl_APIServerMembers baseline - 1).

(** The loop over the samples of a phase; [recovered] is [vmRecoveredOffTarget],
    the value it ends with is the result. *)
Fixpoint check_health (phase : string) (receipt : Receipt) (vmUnavailable : Duration)
    (recovered : bool) (samples : list SampleEvidence) : result bool :=
  match samples with
  | [] => Ok recovered
  | sample :: rest =>
      if identity_changed phase receipt sample
      then Err (errors_New "one-server-loss identity or data continuity failed")
      else if workloads_short sample
      then Err (errors_New "one-server-loss workload continuity failed")
      else if phase == PhasePreLoss then
        if members_missing receipt sample || negb (ve_VMIOnTarget (sm_VM sample))
        then Err (errors_New "one-server-loss pre-loss health failed")
        else check_health phase receipt vmUnavailable recovered rest
      else if phase == PhaseLoss then
        if loss_not_exact receipt sample
        then Err (errors_New "one-server-loss exact loss envelope failed")
        else
          let recovered := vmReadyOffTarget sample || recovered in
          let lossStarted := mustTimestamp (ph_StartedAt (rc_Loss receipt)) in
          let observed := mustTimestamp (sm_ObservedAt sample) in
          if negb recovered && (vmUnavailable <? time_Sub observed lossStarted)
          then Err (errors_New "one-server-loss VM continuity SLO failed")
          else check_health phase receipt vmUnavailable recovered rest
      else if phase == PhaseRecovered then
        if members_missing receipt sample
        then Err (errors_New "one-server-loss recovery health failed")
        else check_health phase receipt vmUnavailable recovered rest
      else check_health phase receipt vmUnavailable recovered rest
  end.

Definition validatePhaseHealth (samples : list SampleEvidence) (phase : string) (receipt : Receipt)
    (vmUnavailable : Duration) : option goerror :=
  match check_health phase receipt vmUnavailable false samples with
  | Err err => Some err
  | Ok recovered =>
      if (phase == PhaseLoss) &&
         (negb recovered ||
          match last samples with Some last => negb (vmReadyOffTarget last) | None => true end)
      then Some (errors_New "one-server-loss VM did not recover away from failed node")
      else None
  end.

(** ** The timeline of a receipt *)

Definition ready_matches_sample (receipt : Receipt) (ready : Time) : bool :=
  existsb (fun sample => match canonicalTimestamp (sm_ObservedAt sample) with
                         | Some observed => observed =? ready
                         | None => false
                         end)
    (ph_Samples (rc_PreLoss receipt)).

Definition same_time (a b : string) : bool := mustTimestamp a =? mustTimestamp b.

(** [firstPre], [firstLoss], [firstRecovery] and [lastRecovery] are samples of
    the phases, which are not empty. *)
Definition timeline_ok (receipt : Receipt) (w : windows)
    (firstPre firstLoss firstRecovery lastRecovery : SampleEvidence) : bool :=
  let pre := rc_PreLoss receipt in
  let loss := rc_Loss receipt in
  let recovery := rc_Recovered receipt in
  let ready := mustTimestamp (rc_ReadyMarkerAt receipt) in
  let lossStart := mustTimestamp (ph_StartedAt loss) in
  let lossComplete := mustTimestamp (ph_CompletedAt loss) in
  let recoveryStart := mustTimestamp (ph_StartedAt recovery) in
  let recoveryComplete := mustTimestamp (ph_CompletedAt recovery) in
  same_time (rc_StartedAt receipt) (ph_StartedAt pre) &&
  same_time (ph_CompletedAt pre) (ph_StartedAt loss) &&
  same_time (ph_CompletedAt loss) (ph_StartedAt recovery) &&
  same_time (rc_CompletedAt receipt) (ph_CompletedAt recovery) &&
  same_time (ph_StartedAt pre) (sm_StartedAt firstPre) &&
  same_time (ph_CompletedAt pre) (sm_ObservedAt firstLoss) &&
  same_time (ph_StartedAt loss) (sm_ObservedAt firstLoss) &&
  same_time (ph_CompletedAt loss) (sm_ObservedAt firstRecovery) &&
  same_time (ph_StartedAt recovery) (sm_ObservedAt firstRecovery) &&
  same_time (ph_CompletedAt recovery) (sm_ObservedAt lastRecovery) &&
  ready_matches_sample receipt ready &&
  negb (Before ready (time_Add (mustTimestamp (sm_ObservedAt firstPre)) (2 * wn_poll w)) ||
        After ready lossStart || (wn_faultTimeout w <? time_Sub lossStart ready) ||
        (time_Sub lossComplete lossStart <? wn_lossWindow w) ||
        (wn_recoveryTimeout w <? time_Sub recoveryComplete lossStart) ||
        (time_Sub recoveryComplete recoveryStart <? wn_recoveryStability w)).

Definition sample_time_valid (sample : SampleEvidence) : bool :=
  negb (is_nil (canonicalTimestamp (sm_ObservedAt sample))).

Definition validateTimeline (receipt : Receipt) (w : windows) : option goerror :=
  match ph_Samples (rc_PreLoss receipt), ph_Samples (rc_Loss receipt),
        ph_Samples (rc_Recovered receipt), last (ph_Samples (rc_Recovered receipt)) with
  | firstPre :: _, firstLoss :: _, firstRecovery :: _, Some lastRecovery =>
      if is_nil (canonicalTimestamp (sm_StartedAt firstPre)) ||
         negb (sample_time_valid firstPre) || negb (sample_time_valid firstLoss) ||
         negb (sample_time_valid firstRecovery) || negb (sample_time_valid lastRecovery)
      then Some (errors_New "one-server-loss receipt sample timeline is invalid")
      else if negb (timeline_ok receipt w firstPre firstLoss firstRecovery lastRecovery)
      then Some (errors_New "one-server-loss receipt phase timeline is invalid")
      else None
  | _, _, _, _ => Some (errors_New "one-server-loss receipt sample timeline is invalid")
  end.

Definition receipt_header_ok (receipt : Receipt) : bool :=
  (rc_SchemaVersion receipt == ReceiptSchemaVersion) && (rc_Status receipt == ReceiptStatus) &&
  validSHA256 (rc_RequestSHA256 receipt) && validSHA256 (rc_RunNonceSHA256 receipt) &&
  validSHA256 (rc_TargetNodeUIDSHA256 receipt) && validSHA256 (rc_KubectlExecutableSHA256 receipt) &&
  validSHA256 (rc_ProbeAdapterSHA256 receipt) && negb (outside 3 99 (rc_MinimumControlPlane receipt)) &&
  negb (is_nil (canonicalTimestamp (rc_StartedAt receipt))) &&
  negb (is_nil (canonicalTimestamp (rc_ReadyMarkerAt receipt))) &&
  negb (is_nil (canonicalTimestamp (rc_CompletedAt receipt))) && validSHA256 (rc_ReceiptSHA256 receipt).

Definition all_samples (receipt : Receipt) : list SampleEvidence :=
  ph_Samples (rc_PreLoss receipt) ++ ph_Samples (rc_Loss receipt) ++ ph_Samples (rc_Recovered receipt).

(** The checks of one receipt that return the first error. *)
Definition first_of (checks : list (option goerror)) : option goerror := first_error id checks.

Definition validate_evidence (receipt : Receipt) (w : windows) : option goerror :=
  first_of [
    validateBaseline (rc_Baseline receipt) (rc_MinimumControlPlane receipt);
    (if xorb (rc_NodeUIDHashAlgorithm receipt == "")
             (bl_ControlPlaneMemberSetSHA256 (rc_Baseline receipt) == "")
     then Some (errors_New "one-server-loss receipt member-set hash algorithm binding is invalid")
     else None);
    validatePhase (rc_PreLoss receipt) PhasePreLoss;
    validatePhase (rc_Loss receipt) PhaseLoss;
    validatePhase (rc_Recovered receipt) PhaseRecovered;
    (if (length (all_samples receipt) <? 7)%nat || (maximumSamples <? Z.of_nat (length (all_samples receipt)))
     then Some (errors_New "one-server-loss receipt sample count is invalid") else None);
    validateTimeline receipt w;
    validateSampleSequence (all_samples receipt) (wn_poll w) receipt;
    validatePhaseHealth (ph_Samples (rc_PreLoss receipt)) PhasePreLoss receipt (wn_vmUnavailable w);
    validatePhaseHealth (ph_Samples (rc_Loss receipt)) PhaseLoss receipt (wn_vmUnavailable w);
    validatePhaseHealth (ph_Samples (rc_Recovered receipt)) PhaseRecovered receipt (wn_vmUnavailable w);
    (if receiptDigest receipt != rc_ReceiptSHA256 receipt
     then Some (errors_New "one-server-loss receipt digest is invalid") else None)].

Definition receipt_windows (receipt : Receipt) : result windows :=
  parse_windows "one-server-loss receipt " (rc_PollInterval receipt) (rc_FaultArrivalTimeout receipt)
    (rc_MinimumLossWindow receipt) (rc_RecoveryTimeout receipt) (rc_RecoveryStabilityWindow receipt)
    (rc_MaximumVMUnavailable receipt).

Definition ValidateReceipt (receipt : option Receipt) : option goerror :=
  match receipt with
  | None => Some (errors_New "one-server-loss receipt is invalid")
  | Some receipt =>
      if negb (receipt_header_ok receipt)
      then Some (errors_New "one-server-loss receipt is invalid")
      else if (rc_NodeUIDHashAlgorithm receipt != "") &&
              (rc_NodeUIDHashAlgorithm receipt != NodeUIDHashAlgorithm)
      then Some (errors_New "one-server-loss receipt Node UID hash algorithm is invalid")
      else match receipt_windows receipt with
      | Err err => Some err
      | Ok w => validate_evidence receipt w
      end
  end.
