(* ===== verification/OslDecode.v ===== *)
(** * One server lost: reading the cluster

    The Kubernetes objects of pkg/resilience/oneserverloss/decode.go and the
    paged listing [listAll], as a program over the calls the observer makes.

    A [json.RawMessage] is the tree of its text: the text is a part of a page
    that was validated, so decoding it again decodes the tree. *)

From stdpp Require Import gmap strings list.
From Stdlib Require Import ZArith Ascii Lia.
From S2P Require Import Prelude GoString GoTime GoSort GoSha256 GoJson StrictJson GoRfc3339 GoDuration Programs OslTypes OslValidate.

#[local] Open Scope Z_scope.

(** ** The calls of the observer

    [Reader], [Probe], [ReadyBarrier] and [Clock] of types.go. *)

Inductive osl_call : Type -> Type :=
  | Now : osl_call Time
  | Sleep (duration : Duration) : osl_call (option goerror)
  | ReadyZ : osl_call (option goerror)
  | ListPage (resource : Resource) (namespace selector continuation : string) (limit : Z)
      : osl_call (result string)
  | Get (resource : Resource) (namespace name : string) : osl_call (result string)
  | Observe_ (request : ProbeRequest) : osl_call (result ProbeResponse)
  | ReadyForFault (marker : ReadyMarker) : osl_call (option goerror).

Definition osl : Type -> Type := prog osl_call.

(** ** Objects *)

Abbreviation RawMessage := json (only parsing).

(** The text assigned last. *)
#[export] Instance unmarshal_RawMessage : Unmarshal RawMessage :=
  fun _ values => Some (List.last values JNull).

(** The members of an object are added to a map. *)
Fixpoint add_members (m : gmap string string) (ms : list (string * json))
    : option (gmap string string) :=
  match ms with
  | [] => Some m
  | (key, value) :: rest =>
      match unmarshal_string false [value] with
      | Some v => add_members (<[key := v]> m) rest
      | None => None
      end
  end.

(** Null makes a map nil. *)
Fixpoint assign_map (m : gmap string string) (values : list json) : option (gmap string string) :=
  match values with
  | [] => Some m
  | JNull :: rest => assign_map ∅ rest
  | JObject ms :: rest =>
      match add_members m ms with Some m => assign_map m rest | None => None end
  | _ => None
  end.

#[export] Instance unmarshal_map : Unmarshal (gmap string string) := fun _ => assign_map ∅.

Record objectMetadata := {
  om_Name : string; om_Namespace : string; om_UID : string; om_ResourceVersion : string;
  om_Labels : gmap string string; om_DeletionTimestamp : option string
}.

Definition objectMetadata_names : list string := [
  "name"; "namespace"; "uid"; "resourceVersion"; "labels"; "deletionTimestamp"].

#[export] Instance unmarshal_objectMetadata : Unmarshal objectMetadata := fun strict values =>
  ms ← members strict objectMetadata_names values;
  let get name := gather objectMetadata_names ms name in
  v0 ← unmarshal strict (get "name");
  v1 ← unmarshal strict (get "namespace");
  v2 ← unmarshal strict (get "uid");
  v3 ← unmarshal strict (get "resourceVersion");
  v4 ← unmarshal strict (get "labels");
  v5 ← unmarshal strict (get "deletionTimestamp");
  Some {|
    om_Name := v0; om_Namespace := v1; om_UID := v2; om_ResourceVersion := v3; om_Labels := v4;
    om_DeletionTimestamp := v5
  |}.

Record condition := {
  cd_Type : string; cd_Status : string
}.

Definition condition_names : list string := [
  "type"; "status"].

#[export] Instance unmarshal_condition : Unmarshal condition := fun strict values =>
  ms ← members strict condition_names values;
  let get name := gather condition_names ms name in
  v0 ← unmarshal strict (get "type");
  v1 ← unmarshal strict (get "status");
  Some {|
    cd_Type := v0; cd_Status := v1
  |}.

Record nodeStatus := {
  ns_Conditions : list condition
}.

Definition nodeStatus_names : list string := [
  "conditions"].

#[export] Instance unmarshal_nodeStatus : Unmarshal nodeStatus := fun strict values =>
  ms ← members strict nodeStatus_names values;
  let get name := gather nodeStatus_names ms name in
  v0 ← unmarshal strict (get "conditions");
  Some {|
    ns_Conditions := v0
  |}.

Record nodeObject := {
  no_APIVersion : string; no_Kind : string; no_Metadata : objectMetadata; no_Status : nodeStatus
}.

Definition nodeObject_names : list string := [
  "apiVersion"; "kind"; "metadata"; "status"].

#[export] Instance unmarshal_nodeObject : Unmarshal nodeObject := fun strict values =>
  ms ← members strict nodeObject_names values;
  let get name := gather nodeObject_names ms name in
  v0 ← unmarshal strict (get "apiVersion");
  v1 ← unmarshal strict (get "kind");
  v2 ← unmarshal strict (get "metadata");
  v3 ← unmarshal strict (get "status");
  Some {|
    no_APIVersion := v0; no_Kind := v1; no_Metadata := v2; no_Status := v3
  |}.

Record podSpec := {
  px_NodeName : string
}.

Definition podSpec_names : list string := [
  "nodeName"].

#[export] Instance unmarshal_podSpec : Unmarshal podSpec := fun strict values =>
  ms ← members strict podSpec_names values;
  let get name := gather podSpec_names ms name in
  v0 ← unmarshal strict (get "nodeName");
  Some {|
    px_NodeName := v0
  |}.

Record podStatus := {
  ps_Phase : string; ps_Conditions : list condition
}.

Definition podStatus_names : list string := [
  "phase"; "conditions"].

#[export] Instance unmarshal_podStatus : Unmarshal podStatus := fun strict values =>
  ms ← members strict podStatus_names values;
  let get name := gather podStatus_names ms name in
  v0 ← unmarshal strict (get "phase");
  v1 ← unmarshal strict (get "conditions");
  Some {|
    ps_Phase := v0; ps_Conditions := v1
  |}.

Record podObject := {
  po_APIVersion : string; po_Kind : string; po_Metadata : objectMetadata; po_Spec : podSpec;
  po_Status : podStatus
}.

Definition podObject_names : list string := [
  "apiVersion"; "kind"; "metadata"; "spec"; "status"].

#[export] Instance unmarshal_podObject : Unmarshal podObject := fun strict values =>
  ms ← members strict podObject_names values;
  let get name := gather podObject_names ms name in
  v0 ← unmarshal strict (get "apiVersion");
  v1 ← unmarshal strict (get "kind");
  v2 ← unmarshal strict (get "metadata");
  v3 ← unmarshal strict (get "spec");
  v4 ← unmarshal strict (get "status");
  Some {|
    po_APIVersion := v0; po_Kind := v1; po_Metadata := v2; po_Spec := v3; po_Status := v4
  |}.

Record vmStatus := {
  vs_Ready : bool
}.

Definition vmStatus_names : list string := [
  "ready"].

#[export] Instance unmarshal_vmStatus : Unmarshal vmStatus := fun strict values =>
  ms ← members strict vmStatus_names values;
  let get name := gather vmStatus_names ms name in
  v0 ← unmarshal strict (get "ready");
  Some {|
    vs_Ready := v0
  |}.

Record vmObject := {
  vo_APIVersion : string; vo_Kind : string; vo_Metadata : objectMetadata; vo_Status : vmStatus
}.

Definition vmObject_names : list string := [
  "apiVersion"; "kind"; "metadata"; "status"].

#[export] Instance unmarshal_vmObject : Unmarshal vmObject := fun strict values =>
  ms ← members strict vmObject_names values;
  let get name := gather vmObject_names ms name in
  v0 ← unmarshal strict (get "apiVersion");
  v1 ← unmarshal strict (get "kind");
  v2 ← unmarshal strict (get "metadata");
  v3 ← unmarshal strict (get "status");
  Some {|
    vo_APIVersion := v0; vo_Kind := v1; vo_Metadata := v2; vo_Status := v3
  |}.

Record vmiStatus := {
  is_Phase : string; is_NodeName : string; is_Conditions : list condition
}.

Definition vmiStatus_names : list string := [
  "phase"; "nodeName"; "conditions"].

#[export] Instance unmarshal_vmiStatus : Unmarshal vmiStatus := fun strict values =>
  ms ← members strict vmiStatus_names values;
  let get name := gather vmiStatus_names ms name in
  v0 ← unmarshal strict (get "phase");
  v1 ← unmarshal strict (get "nodeName");
  v2 ← unmarshal strict (get "conditions");
  Some {|
    is_Phase := v0; is_NodeName := v1; is_Conditions := v2
  |}.

Record vmiObject := {
  io_APIVersion : string; io_Kind : string; io_Metadata : objectMetadata; io_Status : vmiStatus
}.

Definition vmiObject_names : list string := [
  "apiVersion"; "kind"; "metadata"; "status"].

#[export] Instance unmarshal_vmiObject : Unmarshal vmiObject := fun strict values =>
  ms ← members strict vmiObject_names values;
  let get name := gather vmiObject_names ms name in
  v0 ← unmarshal strict (get "apiVersion");
  v1 ← unmarshal strict (get "kind");
  v2 ← unmarshal strict (get "metadata");
  v3 ← unmarshal strict (get "status");
  Some {|
    io_APIVersion := v0; io_Kind := v1; io_Metadata := v2; io_Status := v3
  |}.

Record listMetadata := {
  lm_ResourceVersion : string; lm_Continue : string
}.

Definition listMetadata_names : list string := [
  "resourceVersion"; "continue"].

#[export] Instance unmarshal_listMetadata : Unmarshal listMetadata := fun strict values =>
  ms ← members strict listMetadata_names values;
  let get name := gather listMetadata_names ms name in
  v0 ← unmarshal strict (get "resourceVersion");
  v1 ← unmarshal strict (get "continue");
  Some {|
    lm_ResourceVersion := v0; lm_Continue := v1
  |}.

Record listEnvelope := {
  le_APIVersion : string; le_Kind : string; le_Metadata : listMetadata;
  le_Items : list json
}.

Definition listEnvelope_names : list string := [
  "apiVersion"; "kind"; "metadata"; "items"].

#[export] Instance unmarshal_listEnvelope : Unmarshal listEnvelope := fun strict values =>
  ms ← members strict listEnvelope_names values;
  let get name := gather listEnvelope_names ms name in
  v0 ← unmarshal strict (get "apiVersion");
  v1 ← unmarshal strict (get "kind");
  v2 ← unmarshal strict (get "metadata");
  v3 ← unmarshal strict (get "items");
  Some {|
    le_APIVersion := v0; le_Kind := v1; le_Metadata := v2; le_Items := v3
  |}.

Record objectEnvelope := {
  oe_APIVersion : string; oe_Kind : string; oe_Metadata : objectMetadata
}.

Definition objectEnvelope_names : list string := [
  "apiVersion"; "kind"; "metadata"].

#[export] Instance unmarshal_objectEnvelope : Unmarshal objectEnvelope := fun strict values =>
  ms ← members strict objectEnvelope_names values;
  let get name := gather objectEnvelope_names ms name in
  v0 ← unmarshal strict (get "apiVersion");
  v1 ← unmarshal strict (get "kind");
  v2 ← unmarshal strict (get "metadata");
  Some {|
    oe_APIVersion := v0; oe_Kind := v1; oe_Metadata := v2
  |}.

Definition nodeResource : Resource := {|
  rs_Group := ""; rs_Version := "v1"; rs_Resource := "nodes"; rs_ListKind := "NodeList";
  rs_Kind := "Node" |}.
Definition podResource : Resource := {|
  rs_Group := ""; rs_Version := "v1"; rs_Resource := "pods"; rs_ListKind := "PodList";
  rs_Kind := "Pod" |}.
Definition vmResource : Resource := {|
  rs_Group := "kubevirt.io"; rs_Version := "v1"; rs_Resource := "virtualmachines";
  rs_ListKind := "VirtualMachineList"; rs_Kind := "VirtualMachine" |}.
Definition vmiResource : Resource := {|
  rs_Group := "kubevirt.io"; rs_Version := "v1"; rs_Resource := "virtualmachineinstances";
  rs_ListKind := "VirtualMachineInstanceList"; rs_Kind := "VirtualMachineInstance" |}.

Definition apiVersion (resource : Resource) : string :=
  if rs_Group resource == "" then rs_Version resource
  else rs_Group resource +:+ "/" +:+ rs_Version resource.

Definition validObjectMetadata (metadata : objectMetadata) (namespace : string) : bool :=
  if negb (validDNSName (om_Name metadata)) || (om_UID metadata == "") ||
     (256 <? len (om_UID metadata))%nat || (om_ResourceVersion metadata == "") ||
     (256 <? len (om_ResourceVersion metadata))%nat ||
     match om_DeletionTimestamp metadata with
     | Some time => is_nil (canonicalTimestamp time)
     | None => false
     end
  then false else (namespace == "") || (om_Namespace metadata == namespace).

Definition objectTerminating (metadata : objectMetadata) : bool :=
  negb (is_nil (om_DeletionTimestamp metadata)).

(** There is one condition of the type, and it is true. *)
Fixpoint condition_loop (found : bool) (conditions : list condition) (expected : string) : bool :=
  match conditions with
  | [] => found
  | candidate :: rest =>
      if cd_Type candidate != expected then condition_loop found rest expected
      else if found || (cd_Status candidate != "True") then false
      else condition_loop true rest expected
  end.

Definition conditionTrue : list condition -> string -> bool := condition_loop false.

(** [strictjson.Decode] of a text that has been validated. *)
Definition Decode_raw {A} `{Unmarshal A} (raw : RawMessage) : option A := unmarshal false [raw].

Definition decodeNode (raw : RawMessage) : result nodeObject :=
  match Decode_raw raw with
  | Some node =>
      if (no_APIVersion node != "v1") || (no_Kind node != "Node") ||
         negb (validObjectMetadata (no_Metadata node) "")
      then Err (errors_New "decode Kubernetes Node") else Ok node
  | None => Err (errors_New "decode Kubernetes Node")
  end.

Definition decodePod (raw : RawMessage) (namespace : string) : result podObject :=
  match Decode_raw raw with
  | Some pod =>
      if (po_APIVersion pod != "v1") || (po_Kind pod != "Pod") ||
         negb (validObjectMetadata (po_Metadata pod) namespace)
      then Err (errors_New "decode Kubernetes Pod") else Ok pod
  | None => Err (errors_New "decode Kubernetes Pod")
  end.

Definition decodeVM (raw namespace name : string) : result vmObject :=
  match Decode raw with
  | Ok vm =>
      if (vo_APIVersion vm != "kubevirt.io/v1") || (vo_Kind vm != "VirtualMachine") ||
         negb (validObjectMetadata (vo_Metadata vm) namespace) || (om_Name (vo_Metadata vm) != name)
      then Err (errors_New "decode KubeVirt VirtualMachine") else Ok vm
  | Err _ => Err (errors_New "decode KubeVirt VirtualMachine")
  end.

Definition decodeVMI (raw namespace name : string) : result vmiObject :=
  match Decode raw with
  | Ok vmi =>
      if (io_APIVersion vmi != "kubevirt.io/v1") || (io_Kind vmi != "VirtualMachineInstance") ||
         negb (validObjectMetadata (io_Metadata vmi) namespace) || (om_Name (io_Metadata vmi) != name)
      then Err (errors_New "decode KubeVirt VirtualMachineInstance") else Ok vmi
  | Err _ => Err (errors_New "decode KubeVirt VirtualMachineInstance")
  end.

(** ** Listing *)

Definition maximumAggregateListBytes : Z := 32 * 1048576.

Definition identity_of (metadata : objectMetadata) : string :=
  om_Namespace metadata +:+ NUL +:+ om_Name metadata +:+ NUL +:+ om_UID metadata.

Definition objectSortIdentity (raw : RawMessage) : string :=
  match Decode_raw raw with
  | Some envelope => identity_of (oe_Metadata envelope)
  | None => ""
  end.

(** What a listing has collected: the items, in the order of the pages, the
    identities, the continuation tokens and the bytes read. *)
Record listing := {
  ls_resourceVersion : string; ls_items : list RawMessage; ls_identities : gset string;
  ls_seen : gset string; ls_bytes : Z
}.

Definition empty_listing : listing := {|
  ls_resourceVersion := ""; ls_items := []; ls_identities := ∅; ls_seen := ∅; ls_bytes := 0 |}.

(** The items of a page. *)
Fixpoint add_items (resource : Resource) (namespace : string) (items : list RawMessage)
    (identities : gset string) (page : list RawMessage) : result (list RawMessage * gset string) :=
  match page with
  | [] => Ok (items, identities)
  | raw :: rest =>
  match Decode_raw raw with
  | None => Err (errors_New "decode Kubernetes list item")
  | Some envelope =>
  if (oe_APIVersion envelope != apiVersion resource) || (oe_Kind envelope != rs_Kind resource) ||
     negb (validObjectMetadata (oe_Metadata envelope) namespace)
  then Err (errors_New "decode Kubernetes list item")
  else
    let identity := identity_of (oe_Metadata envelope) in
    if bool_decide (identity ∈ identities)
    then Err (errors_New "Kubernetes list contains duplicate identity")
    else if 10000 <? Z.of_nat (length (items ++ [raw]))
    then Err (errors_New "Kubernetes list exceeds object bound")
    else add_items resource namespace (items ++ [raw]) ({[identity]} ∪ identities) rest
  end end.

(** A page: the listing with it, and the token of the next one. *)
Definition add_page (resource : Resource) (namespace : string) (l : listing) (payload : string)
    : result (listing * string) :=
  let totalBytes := ls_bytes l + Z.of_nat (len payload) in
  if maximumAggregateListBytes <? totalBytes
  then Err (errors_New "Kubernetes list exceeds byte bound")
  else match Decode payload with
  | Err _ => Err (errors_New "decode Kubernetes list page")
  | Ok page =>
  let version := lm_ResourceVersion (le_Metadata page) in
  if (le_APIVersion page != apiVersion resource) || (le_Kind page != rs_ListKind resource) ||
     (version == "")
  then Err (errors_New "decode Kubernetes list page")
  else if (ls_resourceVersion l != "") && (ls_resourceVersion l != version)
  then Err (errors_New "Kubernetes list snapshot changed across pages")
  else match add_items resource namespace (ls_items l) (ls_identities l) (le_Items page) with
  | Err err => Err err
  | Ok (items, identities) =>
  let next := lm_Continue (le_Metadata page) in
  let l' := {| ls_resourceVersion := version; ls_items := items; ls_identities := identities;
               ls_seen := ls_seen l; ls_bytes := totalBytes |} in
  if next == "" then Ok (l', next)
  else if 8192 <? Z.of_nat (len next) then Err (errors_New "Kubernetes continuation token is invalid")
  else if bool_decide (next ∈ ls_seen l) then Err (errors_New "Kubernetes continuation cycle")
  else Ok ({| ls_resourceVersion := version; ls_items := items; ls_identities := identities;
              ls_seen := {[next]} ∪ ls_seen l; ls_bytes := totalBytes |}, next)
  end end.

Definition identity_lt (a b : RawMessage) : bool :=
  string_lt (objectSortIdentity a) (objectSortIdentity b).

(** [pages] more pages are read at most. *)
Fixpoint list_pages (pages : nat) (resource : Resource) (namespace selector : string)
    (l : listing) (continuation : string) : osl (result (list RawMessage)) :=
  match pages with
  | O => Ret (Err (errors_New "Kubernetes list exceeds page bound"))
  | S pages =>
      page ← call (ListPage resource namespace selector continuation 500);
      match page with
      | Err _ => Ret (Err (errors_New "read Kubernetes list page"))
      | Ok payload =>
          match add_page resource namespace l payload with
          | Err err => Ret (Err err)
          | Ok (l, next) =>
              if next == "" then Ret (Ok (sort_Slice identity_lt (ls_items l)))
              else list_pages pages resource namespace selector l next
          end
      end
  end.

Definition listAll (resource : Resource) (namespace selector : string)
    : osl (result (list RawMessage)) :=
  list_pages 20 resource namespace selector empty_listing "".
