(* ===== verification/OslSample.v ===== *)
(** * One server lost: one sample

    [sampler.next] of pkg/resilience/oneserverloss/sample.go: the state of the
    cluster at one moment, from listings and reads of the objects involved. *)

From stdpp Require Import gmap strings list.
From Stdlib Require Import ZArith Ascii Lia.
From S2P Require Import Prelude GoString GoTime GoSort GoSha256 GoJson StrictJson GoRfc3339 GoDuration Programs OslTypes OslValidate OslDecode.

#[local] Open Scope Z_scope.

(** A call that can fail, and what follows it when it does not. *)
Definition osl_try {A B} (p : osl (result A)) (f : A -> osl (result B)) : osl (result B) :=
  r ← p; match r with Err err => Ret (Err err) | Ok a => f a end.

Notation "'let*' x ':=' p 'in' k" := (osl_try p (fun x => k))
  (at level 10, x pattern, p at level 100, k at level 200).

Definition lift {A} (r : result A) : osl (result A) := Ret r.
Definition fail {A} (message : string) : osl (result A) := Ret (Err (errors_New message)).

(** The identities of the programs behind [Reader] and [Probe], which are
    pinned to their contents. *)
Record Reader := { rd_IdentitySHA256 : string }.
Record Probe := { pb_IdentitySHA256 : string }.

Record sampler := {
  sp_reader : option Reader; sp_probe : option Probe; sp_request : Request;
  sp_parsed : parsedRequest; sp_clock : bool; sp_sequence : Z
}.

(** ** Nodes *)

(** What the loop over the nodes has found: the identities of the ready
    control-plane nodes, the names of the ready nodes and of those that are
    control-plane nodes, and the target: present, ready, its hash. *)
Record node_scan := {
  nd_controlPlaneNodes : gset string; nd_readyNodeNames : gset string;
  nd_readyControlPlaneNames : gset string; nd_present : bool; nd_ready : bool; nd_uid : string
}.

Definition no_nodes : node_scan := {|
  nd_controlPlaneNodes := ∅; nd_readyNodeNames := ∅; nd_readyControlPlaneNames := ∅;
  nd_present := false; nd_ready := false; nd_uid := "" |}.

Definition node_ready (node : nodeObject) : bool :=
  negb (objectTerminating (no_Metadata node)) && conditionTrue (ns_Conditions (no_Status node)) "Ready".

Definition control_plane (node : nodeObject) : bool :=
  negb (is_nil (om_Labels (no_Metadata node) !! "node-role.kubernetes.io/control-plane")).

Definition scan_node (target : string) (scan : node_scan) (node : nodeObject) : node_scan :=
  let name := om_Name (no_Metadata node) in
  let uid := om_UID (no_Metadata node) in
  let ready := node_ready node in
  let member := ready && control_plane node in
  {| nd_controlPlaneNodes :=
       if member then {[uid]} ∪ nd_controlPlaneNodes scan else nd_controlPlaneNodes scan;
     nd_readyNodeNames :=
       if ready then {[name]} ∪ nd_readyNodeNames scan else nd_readyNodeNames scan;
     nd_readyControlPlaneNames :=
       if member then {[name]} ∪ nd_readyControlPlaneNames scan else nd_readyControlPlaneNames scan;
     nd_present := (name == target) || nd_present scan;
     nd_ready := if name == target then ready else nd_ready scan;
     nd_uid := if name == target then NodeUIDSHA256 uid else nd_uid scan |}.

Fixpoint scan_nodes (target : string) (scan : node_scan) (payloads : list json) : result node_scan :=
  match payloads with
  | [] => Ok scan
  | raw :: rest =>
      match decodeNode raw with
      | Err err => Err err
      | Ok node => scan_nodes target (scan_node target scan node) rest
      end
  end.

(** ** Pods *)

(** A pod that counts on one of the nodes. *)
Definition pod_ready (nodes : gset string) (pod : podObject) : bool :=
  let node := px_NodeName (po_Spec pod) in
  bool_decide (node ∈ nodes) && negb (objectTerminating (po_Metadata pod)) &&
  (ps_Phase (po_Status pod) == "Running") && (node != "") &&
  conditionTrue (ps_Conditions (po_Status pod)) "Ready".

(** The loop over pods: those accepted by [selected], with their errors. *)
Fixpoint select_pods (namespace violated : string) (selected : podObject -> bool)
    (payloads : list json) : result (list podObject) :=
  match payloads with
  | [] => Ok []
  | raw :: rest =>
      match decodePod raw namespace with
      | Err err => Err err
      | Ok pod =>
          if negb (selected pod) then Err (errors_New violated)
          else match select_pods namespace violated selected rest with
               | Err err => Err err
               | Ok pods => Ok (pod :: pods)
               end
      end
  end.

Definition pod_nodes (pods : list podObject) : gset string :=
  list_to_set (List.map (fun pod => px_NodeName (po_Spec pod)) pods).

Definition ready_pods (nodes : gset string) (pods : list podObject) : list podObject :=
  List.filter (pod_ready nodes) pods.

Definition has_component (component : string) (pod : podObject) : bool :=
  default "" (om_Labels (po_Metadata pod) !! "component") == component.

Definition controlPlanePods (s : sampler) (component : string) (nodes : gset string)
    : osl (result (Z * bool)) :=
  let* payloads := listAll podResource "kube-system" ("component=" +:+ component) in
  let* pods := lift (select_pods "kube-system" "Kubernetes control-plane list violated its selector"
                       (has_component component) payloads) in
  let hosts := pod_nodes (ready_pods nodes pods) in
  Ret (Ok (Z.of_nat (size hosts), bool_decide (rq_TargetNodeName (sp_request s) ∈ hosts))).

Definition labelsMatch (actual expected : gmap string string) : bool :=
  forallb (fun kv => default "" (actual !! kv.1) == kv.2) (map_to_list expected).

Definition sample_workload (s : sampler) (nodes : gset string) (target : WorkloadTarget)
    : osl (result WorkloadEvidence) :=
  let* payloads := listAll podResource (wt_Namespace target) (canonicalSelector (wt_MatchLabels target)) in
  let* pods := lift (select_pods (wt_Namespace target) "Kubernetes workload list violated its selector"
                       (fun pod => labelsMatch (om_Labels (po_Metadata pod)) (wt_MatchLabels target))
                       payloads) in
  let ready := ready_pods nodes pods in
  Ret (Ok {|
    we_ID := wt_ID target;
    we_BindingSHA256 := default "" (pr_workloadBindings (sp_parsed s) !! wt_ID target);
    we_ReadyPods := Z.of_nat (length ready);
    we_DistinctReadyNodes := Z.of_nat (size (pod_nodes ready));
    we_MinimumReadyPods := wt_MinimumReadyPods target;
    we_MinimumReadyNodes := wt_MinimumDistinctReadyNodes target |}).

Fixpoint sample_workloads (s : sampler) (nodes : gset string) (targets : list WorkloadTarget)
    : osl (result (list WorkloadEvidence)) :=
  match targets with
  | [] => Ret (Ok [])
  | target :: rest =>
      let* workload := sample_workload s nodes target in
      let* workloads := sample_workloads s nodes rest in
      Ret (Ok (workload :: workloads))
  end.

(** ** The virtual machine *)

Definition sample_vm (s : sampler) (nodes : gset string) : osl (result VMEvidence) :=
  let target := rq_VM (sp_request s) in
  payload ← call (Get vmResource (vt_Namespace target) (vt_Name target));
  match payload with
  | Err _ => fail "read exact VirtualMachine"
  | Ok vmPayload =>
  let* vm := lift (decodeVM vmPayload (vt_Namespace target) (vt_Name target)) in
  let evidence vmi ready on_target := {|
    ve_ID := vt_ID target; ve_BindingSHA256 := pr_vmBinding (sp_parsed s);
    ve_VMUIDSHA256 := digestJSON (om_UID (vo_Metadata vm)); ve_VMIUIDSHA256 := vmi;
    ve_VMReady := negb (objectTerminating (vo_Metadata vm)) && vs_Ready (vo_Status vm);
    ve_VMIReady := ready; ve_VMIOnTarget := on_target |} in
  payload ← call (Get vmiResource (vt_Namespace target) (vt_Name target));
  match payload with
  | Err err =>
      if errors_Is err ErrNotFound then Ret (Ok (evidence "" false false))
      else fail "read exact VirtualMachineInstance"
  | Ok vmiPayload =>
  let* vmi := lift (decodeVMI vmiPayload (vt_Namespace target) (vt_Name target)) in
  if objectTerminating (io_Metadata vmi) then Ret (Ok (evidence "" false false))
  else
    let node := is_NodeName (io_Status vmi) in
    Ret (Ok (evidence (digestJSON (om_UID (io_Metadata vmi)))
      (bool_decide (node ∈ nodes) && (is_Phase (io_Status vmi) == "Running") &&
       conditionTrue (is_Conditions (io_Status vmi)) "Ready")
      (node == rq_TargetNodeName (sp_request s))))
  end end.

(** ** The data probe *)

Definition validateProbeResponse (request : ProbeRequest) (response : ProbeResponse)
    (minimumBytes : Z) : option goerror :=
  let times_ok :=
    match canonicalTimestamp (rp_StartedAt response), canonicalTimestamp (rp_CompletedAt response) with
    | Some started, Some completed => negb (Before completed started)
    | _, _ => false
    end in
  if (rp_SchemaVersion response != ProbeResponseSchemaVersion) ||
     negb (versionPattern (rp_Implementation response)) || negb (versionPattern (rp_Version response)) ||
     (rp_RequestSHA256 response != digestJSON request) ||
     (rp_AdapterExecutableSHA256 response != pq_AdapterExecutableSHA256 request) ||
     negb (validSHA256 (rp_AdapterExecutableSHA256 response)) ||
     (rp_HashAlgorithm response != "sha256") || negb (validSHA256 (rp_DataSHA256 response)) ||
     (rp_ValidatedBytes response <? minimumBytes) || negb times_ok
  then Some (errors_New "data continuity probe response is invalid")
  else None.

Definition probe_identity (s : sampler) : string :=
  match sp_probe s with Some probe => pb_IdentitySHA256 probe | None => "" end.

Definition probe_request (s : sampler) (phase : string) : ProbeRequest := {|
  pq_SchemaVersion := ProbeRequestSchemaVersion; pq_RunNonceSHA256 := rq_RunNonceSHA256 (sp_request s);
  pq_ParentRequestSHA256 := pr_requestSHA256 (sp_parsed s); pq_Phase := phase;
  pq_Sequence := sp_sequence s; pq_ProbeID := dt_ID (rq_DataProbe (sp_request s));
  pq_QueryRef := dt_QueryRef (rq_DataProbe (sp_request s));
  pq_AdapterExecutableSHA256 := probe_identity s |}.

Definition sample_probe (s : sampler) (phase : string) : osl (result DataProbeEvidence) :=
  let request := probe_request s phase in
  response ← call (Observe_ request);
  match response with
  | Err _ => fail "data continuity probe failed"
  | Ok response =>
  match validateProbeResponse request response (dt_MinimumValidatedBytes (rq_DataProbe (sp_request s))) with
  | Some err => Ret (Err err)
  | None => Ret (Ok {|
      pe_ID := dt_ID (rq_DataProbe (sp_request s)); pe_BindingSHA256 := pr_probeBinding (sp_parsed s);
      pe_Implementation := rp_Implementation response; pe_Version := rp_Version response;
      pe_RequestSHA256 := rp_RequestSHA256 response;
      pe_AdapterExecutableSHA256 := rp_AdapterExecutableSHA256 response;
      pe_HashAlgorithm := rp_HashAlgorithm response; pe_DataSHA256 := rp_DataSHA256 response;
      pe_ValidatedBytes := rp_ValidatedBytes response; pe_StartedAt := rp_StartedAt response;
      pe_CompletedAt := rp_CompletedAt response |})
  end end.

(** ** A sample *)

(** The phase of a sample, from the one it is taken in and the target. *)
Definition phase_seen (phase : string) (target_ready : bool) : string :=
  if (phase == PhasePreLoss) && negb target_ready then PhaseLoss
  else if (phase == PhaseLoss) && target_ready then PhaseRecovered else phase.

Definition next_sequence (s : sampler) : sampler := {|
  sp_reader := sp_reader s; sp_probe := sp_probe s; sp_request := sp_request s;
  sp_parsed := sp_parsed s; sp_clock := sp_clock s; sp_sequence := sp_sequence s + 1 |}.

(** The sample but for its end and its digest. *)
Definition sample_state (s : sampler) (phase : string) (started : Time) : osl (result SampleEvidence) :=
  let* nodePayloads := listAll nodeResource "" "" in
  let* scan := lift (scan_nodes (rq_TargetNodeName (sp_request s)) no_nodes nodePayloads) in
  let members := ControlPlaneMemberSetSHA256 (List.map NodeUIDSHA256 (elements (nd_controlPlaneNodes scan))) in
  if members == "" then fail "control-plane member identity set is invalid" else
  let phase := phase_seen phase (nd_ready scan) in
  let* etcd := controlPlanePods s "etcd" (nd_readyControlPlaneNames scan) in
  let* apiserver := controlPlanePods s "kube-apiserver" (nd_readyControlPlaneNames scan) in
  let* workloads := sample_workloads s (nd_readyNodeNames scan) (rq_Workloads (sp_request s)) in
  let* vm := sample_vm s (nd_readyNodeNames scan) in
  let* probe := sample_probe s phase in
  Ret (Ok {|
    sm_Sequence := sp_sequence s; sm_Phase := phase; sm_StartedAt := Format_RFC3339Nano started;
    sm_ObservedAt := ""; sm_TargetNodePresent := nd_present scan;
    sm_TargetNodeReady := nd_ready scan; sm_TargetNodeUIDSHA256 := nd_uid scan;
    sm_ReadyZPassed := true;
    sm_ControlPlaneReadyNodes := Z.of_nat (size (nd_controlPlaneNodes scan));
    sm_EtcdReadyMembers := etcd.1; sm_APIServerReadyMembers := apiserver.1;
    sm_ControlPlaneMemberSetSHA256 := members; sm_TargetHostsEtcd := etcd.2;
    sm_TargetHostsAPIServer := apiserver.2; sm_Workloads := workloads; sm_VM := vm;
    sm_DataProbe := probe; sm_SampleSHA256 := "" |}).

(** The sample, and the sampler after it. *)
Definition next (s : sampler) (phase : string) : osl (result (SampleEvidence * sampler)) :=
  if is_nil (sp_reader s) || is_nil (sp_probe s) || negb (sp_clock s)
  then fail "one-server-loss sampler is invalid"
  else
  let s := next_sequence s in
  started ← call Now;
  ready ← call ReadyZ;
  if negb (is_nil ready) then fail "Kubernetes readyz failed" else
  let* sample := sample_state s phase started in
  observed ← call Now;
  Ret (Ok (seal_sample (SampleEvidence_with_ObservedAt sample (Format_RFC3339Nano observed)), s)).
