(* ===== verification/OslObserve.v ===== *)
(** * One server lost: the observation

    [Observe] of pkg/resilience/oneserverloss/observe.go: healthy samples, the
    ready marker, the loss, and the recovery, then the receipt.

    The four loops run until a sample ends them or an error does; a loop gets
    one unit of fuel for each sample it may take, and [None] is a run that had
    too few. *)

From stdpp Require Import gmap strings list.
From Stdlib Require Import ZArith Ascii Lia.
From S2P Require Import Prelude GoString GoTime GoSort GoSha256 GoJson StrictJson GoRfc3339 GoDuration Programs OslTypes OslValidate OslDecode OslSample.

#[local] Open Scope Z_scope.

(** ** Runs with fuel *)

Abbreviation run A := (osl (option (result A))).

Definition done {A} (a : A) : run A := Ret (Some (Ok a)).
Definition stop {A} (message : string) : run A := Ret (Some (Err (errors_New message))).
Definition stop_with {A} (err : goerror) : run A := Ret (Some (Err err)).
Definition out_of_fuel {A} : run A := Ret None.

Definition run_bind {A B} (p : run A) (f : A -> run B) : run B :=
  r ← p;
  match r with
  | None => out_of_fuel
  | Some (Err err) => stop_with err
  | Some (Ok a) => f a
  end.

Notation "'run*' x ':=' p 'in' k" := (run_bind p (fun x => k))
  (at level 10, x pattern, p at level 100, k at level 200).

(** A guard that returns an error. *)
Definition guard_ok {A} (err : option goerror) (k : run A) : run A :=
  match err with Some err => stop_with err | None => k end.

(** [clock.Sleep]: an error interrupts the observation. *)
Definition sleep {A} (poll : Duration) (interrupted : string) (k : run A) : run A :=
  err ← call (Sleep poll);
  if is_nil err then k else stop interrupted.

(** ** The health of a sample *)

Definition sampleHealth (sample : SampleEvidence) (phase : string) (minimumControlPlane : Z)
    (baseline : Baseline) (targetUID : string) (vmUnavailable : Duration) (lossStarted : Time)
    : option goerror :=
  let present :=
    sm_TargetNodePresent sample && sm_TargetNodeReady sample &&
    (sm_TargetNodeUIDSHA256 sample == targetUID) &&
    negb (sm_ControlPlaneReadyNodes sample <? bl_ControlPlaneNodes baseline) &&
    (sm_ControlPlaneMemberSetSHA256 sample == bl_ControlPlaneMemberSetSHA256 baseline) &&
    negb (sm_EtcdReadyMembers sample <? bl_EtcdMembers baseline) &&
    negb (sm_APIServerReadyMembers sample <? bl_APIServerMembers baseline) &&
    sm_TargetHostsEtcd sample && sm_TargetHostsAPIServer sample &&
    ve_VMReady (sm_VM sample) && ve_VMIReady (sm_VM sample) in
  if (sm_Phase sample != phase) || negb (sm_ReadyZPassed sample) ||
     (ve_VMUIDSHA256 (sm_VM sample) != bl_VMUIDSHA256 baseline) ||
     (pe_DataSHA256 (sm_DataProbe sample) != bl_DataSHA256 baseline) ||
     negb (pe_ValidatedBytes (sm_DataProbe sample) =? bl_ValidatedBytes baseline) ||
     (sm_ControlPlaneMemberSetSHA256 sample == "")
  then Some (errors_New "one-server-loss identity or data continuity failed")
  else if workloads_short sample
  then Some (errors_New "one-server-loss workload continuity failed")
  else if phase == PhasePreLoss then
    if negb present || negb (ve_VMIOnTarget (sm_VM sample)) ||
       (bl_ControlPlaneNodes baseline <? minimumControlPlane) || (bl_EtcdMembers baseline <? 3) ||
       (bl_APIServerMembers baseline <? 3)
    then Some (errors_New "one-server-loss pre-state health failed") else None
  else if phase == PhaseLoss then
    if sm_TargetNodeReady sample ||
       sm_TargetNodePresent sample && (sm_TargetNodeUIDSHA256 sample != targetUID) ||
       (sm_ControlPlaneMemberSetSHA256 sample == bl_ControlPlaneMemberSetSHA256 baseline) ||
       negb (sm_ControlPlaneReadyNodes sample =? bl_ControlPlaneNodes baseline - 1) ||
       negb (sm_EtcdReadyMembers sample =? bl_EtcdMembers baseline - 1) ||
       negb (sm_APIServerReadyMembers sample =? bl_APIServerMembers baseline - 1) ||
       negb (IsZero lossStarted) && negb (vmReadyOffTarget sample) &&
         (vmUnavailable <? time_Sub (mustTimestamp (sm_ObservedAt sample)) lossStarted)
    then Some (errors_New "one-server-loss loss-state health failed") else None
  else if phase == PhaseRecovered then
    if negb present then Some (errors_New "one-server-loss recovery-state health failed") else None
  else None.

Definition observationGap (previous current : SampleEvidence) (poll : Duration) : bool :=
  let before := mustTimestamp (sm_ObservedAt previous) in
  let after := mustTimestamp (sm_StartedAt current) in
  Before after before || (2 * poll <? time_Sub after before).

Definition observed_at (sample : SampleEvidence) : Time := mustTimestamp (sm_ObservedAt sample).

(** ** The run *)

(** What a run is fixed to once the first sample is taken. *)
Record subject := {
  sj_request : Request; sj_parsed : parsedRequest; sj_baseline : Baseline; sj_target : string
}.

Definition poll_of (j : subject) : Duration := pr_poll (sj_parsed j).

Definition health (j : subject) (phase : string) (lossStarted : Time) (sample : SampleEvidence)
    : option goerror :=
  sampleHealth sample phase (rq_MinimumControlPlaneMembers (sj_request j)) (sj_baseline j)
    (sj_target j) (pr_vmUnavailable (sj_parsed j)) lossStarted.

(** The samples of a phase so far, and the last of them. *)
Record taken := { tk_samples : list SampleEvidence; tk_last : SampleEvidence }.

Definition take_sample (t : taken) (sample : SampleEvidence) : taken :=
  {| tk_samples := tk_samples t ++ [sample]; tk_last := sample |}.

(** The healthy state before the loss, for two polling intervals. *)
Fixpoint pre_loop (fuel : nat) (j : subject) (stabilityStarted : Time) (t : taken) (s : sampler)
    : run (taken * sampler) :=
  if negb (time_Sub (observed_at (tk_last t)) stabilityStarted <? 2 * poll_of j) then done (t, s)
  else match fuel with
  | O => out_of_fuel
  | S fuel =>
      sleep (poll_of j) "one-server-loss pre-state observation interrupted" (
      r ← next s PhasePreLoss;
      match r with
      | Err _ => stop "one-server-loss pre-state did not remain stable"
      | Ok (sample, s) =>
          if sm_Phase sample != PhasePreLoss
          then stop "one-server-loss pre-state did not remain stable" else
          guard_ok (health j PhasePreLoss time_zero sample) (
          if observationGap (tk_last t) sample (poll_of j)
          then stop "one-server-loss pre-state observation gap"
          else pre_loop fuel j stabilityStarted (take_sample t sample) s)
      end)
  end.

(** The wait for the fault: the samples before it, and the first one of the
    loss. *)
Fixpoint fault_loop (fuel : nat) (j : subject) (faultDeadline : Time) (t : taken) (s : sampler)
    : run (taken * SampleEvidence * sampler) :=
  match fuel with
  | O => out_of_fuel
  | S fuel =>
      sleep (poll_of j) "one-server-loss fault observation interrupted" (
      r ← next s PhasePreLoss;
      match r with
      | Err err => stop_with err
      | Ok (sample, s) =>
          if observationGap (tk_last t) sample (poll_of j)
          then stop "one-server-loss fault arrival observation gap" else
          if sm_Phase sample == PhasePreLoss then
            if After (observed_at sample) faultDeadline
            then stop "one-server-loss fault did not arrive before timeout"
            else guard_ok (health j PhasePreLoss time_zero sample)
                   (fault_loop fuel j faultDeadline (take_sample t sample) s)
          else if (sm_Phase sample != PhaseLoss) || After (observed_at sample) faultDeadline
          then stop "one-server-loss fault transition is invalid"
          else done (t, sample, s)
      end)
  end.

(** The loss: its samples, and the first one of the recovery. *)
Fixpoint loss_loop (fuel : nat) (j : subject) (lossStarted recoveryDeadline : Time)
    (vmRecoveredOffTarget : bool) (t : taken) (s : sampler)
    : run (taken * SampleEvidence * sampler) :=
  match fuel with
  | O => out_of_fuel
  | S fuel =>
      sleep (poll_of j) "one-server-loss loss observation interrupted" (
      r ← next s PhaseLoss;
      match r with
      | Err err => stop_with err
      | Ok (sample, s) =>
          if observationGap (tk_last t) sample (poll_of j)
          then stop "one-server-loss loss observation gap" else
          let observed := observed_at sample in
          if After observed recoveryDeadline then stop "one-server-loss recovery timed out" else
          if sm_Phase sample == PhaseLoss then
            guard_ok (health j PhaseLoss lossStarted sample) (
            let vmRecoveredOffTarget := vmReadyOffTarget sample || vmRecoveredOffTarget in
            if negb vmRecoveredOffTarget &&
               (pr_vmUnavailable (sj_parsed j) <? time_Sub observed lossStarted)
            then stop "one-server-loss VM recovery exceeded SLO"
            else loss_loop fuel j lossStarted recoveryDeadline vmRecoveredOffTarget
                   (take_sample t sample) s)
          else if (sm_Phase sample != PhaseRecovered) ||
                  (time_Sub observed lossStarted <? pr_lossWindow (sj_parsed j)) ||
                  negb vmRecoveredOffTarget
          then stop "one-server-loss loss window is invalid"
          else guard_ok (health j PhaseRecovered lossStarted sample) (done (t, sample, s))
      end)
  end.

(** The recovered state, for the stability window. *)
Fixpoint recovery_loop (fuel : nat) (j : subject) (lossStarted recoveryStarted recoveryDeadline : Time)
    (t : taken) (s : sampler) : run taken :=
  if negb (time_Sub (observed_at (tk_last t)) recoveryStarted <? pr_recoveryStability (sj_parsed j))
  then done t
  else match fuel with
  | O => out_of_fuel
  | S fuel =>
      sleep (poll_of j) "one-server-loss recovery observation interrupted" (
      r ← next s PhaseRecovered;
      match r with
      | Err _ => stop "one-server-loss recovery did not remain stable"
      | Ok (sample, s) =>
          if sm_Phase sample != PhaseRecovered
          then stop "one-server-loss recovery did not remain stable" else
          if observationGap (tk_last t) sample (poll_of j) ||
             After (observed_at sample) recoveryDeadline
          then stop "one-server-loss recovery observation gap or timeout"
          else guard_ok (health j PhaseRecovered lossStarted sample)
                 (recovery_loop fuel j lossStarted recoveryStarted recoveryDeadline
                    (take_sample t sample) s)
      end)
  end.

Definition first_taken (sample : SampleEvidence) : taken :=
  {| tk_samples := [sample]; tk_last := sample |}.

(** The state the run is compared with: that of the first sample. *)
Definition baseline_of (first : SampleEvidence) : Baseline :=
  let baseline := {|
    bl_ControlPlaneNodes := sm_ControlPlaneReadyNodes first;
    bl_EtcdMembers := sm_EtcdReadyMembers first; bl_APIServerMembers := sm_APIServerReadyMembers first;
    bl_VMUIDSHA256 := ve_VMUIDSHA256 (sm_VM first);
    bl_DataSHA256 := pe_DataSHA256 (sm_DataProbe first);
    bl_ValidatedBytes := pe_ValidatedBytes (sm_DataProbe first);
    bl_ControlPlaneMemberSetSHA256 := sm_ControlPlaneMemberSetSHA256 first;
    bl_BaselineSHA256 := "" |} in
  Baseline_with_BaselineSHA256 baseline (baselineDigest baseline).

Definition phaseEvidence (phase startedAt completedAt : string) (samples : list SampleEvidence)
    : PhaseEvidence := {|
  ph_Phase := phase; ph_StartedAt := startedAt; ph_CompletedAt := completedAt;
  ph_Samples := samples; ph_SamplesSHA256 := digestJSON samples |}.

Definition marker_of (j : subject) (reader : Reader) (probe : Probe) (readyAt : string) : ReadyMarker :=
  let baseline := sj_baseline j in
  let marker := {|
    mk_SchemaVersion := ReadyMarkerSchemaVersion; mk_Status := ReadyMarkerStatus;
    mk_RequestSHA256 := pr_requestSHA256 (sj_parsed j);
    mk_RunNonceSHA256 := rq_RunNonceSHA256 (sj_request j);
    mk_TargetNodeUIDSHA256 := sj_target j; mk_NodeUIDHashAlgorithm := NodeUIDHashAlgorithm;
    mk_KubectlExecutableSHA256 := rd_IdentitySHA256 reader;
    mk_ProbeAdapterSHA256 := pb_IdentitySHA256 probe;
    mk_ControlPlaneMemberSetSHA256 := bl_ControlPlaneMemberSetSHA256 baseline;
    mk_BaselineControlPlaneNodes := bl_ControlPlaneNodes baseline;
    mk_BaselineEtcdMembers := bl_EtcdMembers baseline;
    mk_BaselineAPIServerMembers := bl_APIServerMembers baseline;
    mk_ReadyAt := readyAt; mk_MarkerSHA256 := "" |} in
  ReadyMarker_with_MarkerSHA256 marker (markerDigest marker).

Definition receipt_of (j : subject) (reader : Reader) (probe : Probe) (readyAt : string)
    (first firstLoss firstRecovery lastRecovery : SampleEvidence)
    (pre loss recovery : list SampleEvidence) : Receipt :=
  let request := sj_request j in
  let receipt := {|
    rc_SchemaVersion := ReceiptSchemaVersion; rc_Status := ReceiptStatus;
    rc_RequestSHA256 := pr_requestSHA256 (sj_parsed j); rc_RunNonceSHA256 := rq_RunNonceSHA256 request;
    rc_TargetNodeUIDSHA256 := sj_target j; rc_NodeUIDHashAlgorithm := NodeUIDHashAlgorithm;
    rc_KubectlExecutableSHA256 := rd_IdentitySHA256 reader;
    rc_ProbeAdapterSHA256 := pb_IdentitySHA256 probe;
    rc_StartedAt := sm_StartedAt first; rc_ReadyMarkerAt := readyAt;
    rc_CompletedAt := sm_ObservedAt lastRecovery; rc_PollInterval := rq_PollInterval request;
    rc_FaultArrivalTimeout := rq_FaultArrivalTimeout request;
    rc_MinimumLossWindow := rq_MinimumLossWindow request;
    rc_RecoveryTimeout := rq_RecoveryTimeout request;
    rc_RecoveryStabilityWindow := rq_RecoveryStabilityWindow request;
    rc_MaximumVMUnavailable := vt_MaximumUnavailableDuration (rq_VM request);
    rc_MinimumControlPlane := rq_MinimumControlPlaneMembers request; rc_Baseline := sj_baseline j;
    rc_PreLoss := phaseEvidence PhasePreLoss (sm_StartedAt first) (sm_ObservedAt firstLoss) pre;
    rc_Loss := phaseEvidence PhaseLoss (sm_ObservedAt firstLoss) (sm_ObservedAt firstRecovery) loss;
    rc_Recovered := phaseEvidence PhaseRecovered (sm_ObservedAt firstRecovery)
                      (sm_ObservedAt lastRecovery) recovery;
    rc_ReceiptSHA256 := "" |} in
  Receipt_with_ReceiptSHA256 receipt (receiptDigest receipt).

(** From the ready marker on: [t] are the healthy samples, [s] the sampler. *)
Definition after_ready (fuel : nat) (j : subject) (reader : Reader) (probe : Probe)
    (first : SampleEvidence) (t : taken) (s : sampler) : run Receipt :=
  let readyAt := sm_ObservedAt (tk_last t) in
  let marker := marker_of j reader probe readyAt in
  guard_ok (ValidateReadyMarker marker) (
  published ← call (ReadyForFault marker);
  if negb (is_nil published) then stop "publish one-server-loss ready marker" else
  let faultDeadline := time_Add (mustTimestamp readyAt) (pr_faultTimeout (sj_parsed j)) in
  run* (pre, firstLoss, s) := fault_loop fuel j faultDeadline t s in
  let lossStarted := observed_at firstLoss in
  let recoveryDeadline := time_Add lossStarted (pr_recoveryTimeout (sj_parsed j)) in
  guard_ok (health j PhaseLoss lossStarted firstLoss) (
  run* (loss, firstRecovery, s) :=
    loss_loop fuel j lossStarted recoveryDeadline (vmReadyOffTarget firstLoss)
      (first_taken firstLoss) s in
  let recoveryStarted := observed_at firstRecovery in
  run* recovery :=
    recovery_loop fuel j lossStarted recoveryStarted recoveryDeadline (first_taken firstRecovery) s in
  done (receipt_of j reader probe readyAt first firstLoss firstRecovery (tk_last recovery)
          (tk_samples pre) (tk_samples loss) (tk_samples recovery)))).

(** The observation up to the receipt it makes. [ctx], [barrier] and [clock]
    tell whether these arguments are not nil. *)
Definition make_receipt (fuel : nat) (ctx : bool) (reader : option Reader) (probe : option Probe)
    (barrier : bool) (request : Request) (clock : bool) : run Receipt :=
  match validateRequest request with
  | Err err => stop_with err
  | Ok parsed =>
  match reader, probe with
  | Some rd, Some pb =>
  if negb ctx || negb barrier || negb clock || negb (validSHA256 (rd_IdentitySHA256 rd)) ||
     negb (validSHA256 (pb_IdentitySHA256 pb))
  then stop "one-server-loss observer dependency is invalid"
  else
  let collector := {|
    sp_reader := reader; sp_probe := probe; sp_request := request; sp_parsed := parsed;
    sp_clock := clock; sp_sequence := 0 |} in
  r ← next collector PhasePreLoss;
  match r with
  | Err _ => stop "one-server-loss healthy pre-state is unavailable"
  | Ok (first, s) =>
      if sm_Phase first != PhasePreLoss
      then stop "one-server-loss healthy pre-state is unavailable"
      else
        let j := {| sj_request := request; sj_parsed := parsed; sj_baseline := baseline_of first;
                    sj_target := sm_TargetNodeUIDSHA256 first |} in
        guard_ok (health j PhasePreLoss time_zero first) (
        run* (t, s) := pre_loop fuel j (observed_at first) (first_taken first) s in
        after_ready fuel j rd pb first t s)
  end
  | _, _ => stop "one-server-loss observer dependency is invalid"
  end end.

(** The receipt is given out when it is valid. *)
Definition Observe (fuel : nat) (ctx : bool) (reader : option Reader) (probe : option Probe)
    (barrier : bool) (request : Request) (clock : bool) : run Receipt :=
  run* receipt := make_receipt fuel ctx reader probe barrier request clock in
  guard_ok (ValidateReceipt (Some receipt)) (done receipt).
