(* ===== verification/OslSurvive.v ===== *)
(** * One server lost: what an accepted receipt proves

    The survival of a server's loss, stated on the samples of a receipt, and
    that [ValidateReceipt] accepts receipts of survivals only. *)

From stdpp Require Import gmap strings list.
From Stdlib Require Import ZArith Lia.
From S2P Require Import Prelude GoString GoTime GoSort GoSha256 GoJson StrictJson GoRfc3339 GoDuration OslTypes OslValidate.

#[local] Open Scope Z_scope.
#[local] Opaque sha256_hex.

(** ** Windows *)

Record windows_ok (w : windows) : Prop := {
  wk_poll : Second <= wn_poll w <= 30 * Second;
  wk_fault : 2 * wn_poll w <= wn_faultTimeout w <= Hour;
  wk_loss : 2 * wn_poll w <= wn_lossWindow w <= Hour;
  wk_recovery : wn_lossWindow w + 2 * wn_poll w <= wn_recoveryTimeout w <= Hour;
  wk_stability : 2 * wn_poll w <= wn_recoveryStability w <= wn_recoveryTimeout w;
  wk_vm : wn_poll w <= wn_vmUnavailable w <= wn_recoveryTimeout w
}.

Lemma canonicalDuration_Ok value lo hi d :
  canonicalDuration value lo hi = Ok d -> lo <= d <= hi /\ Duration_String d = value.
Proof.
  unfold canonicalDuration. destruct (ParseDuration value) as [p|]; [|done].
  destruct ((p <? lo) || (hi <? p) || (Duration_String p != value)) eqn:E; [done|].
  intros H. simplify_eq. go_simp. split; [lia|done].
Qed.

Lemma parse_windows_ok prefix p f l r s v w : parse_windows prefix p f l r s v = Ok w -> windows_ok w.
Proof.
  unfold parse_windows. intros H.
  repeat match type of H with
  | context [match canonicalDuration ?a ?b ?c with _ => _ end] =>
      let E := fresh in destruct (canonicalDuration a b c) eqn:E; [apply canonicalDuration_Ok in E as [? _]|done]
  end. simplify_eq. by constructor.
Qed.

(** ** The survival *)

Definition began (s : SampleEvidence) : Time := mustTimestamp (sm_StartedAt s).
Definition seen (s : SampleEvidence) : Time := mustTimestamp (sm_ObservedAt s).

Definition started (r : Receipt) : Time := mustTimestamp (rc_StartedAt r).
Definition ready (r : Receipt) : Time := mustTimestamp (rc_ReadyMarkerAt r).
Definition completed (r : Receipt) : Time := mustTimestamp (rc_CompletedAt r).
Definition lost (r : Receipt) : Time := mustTimestamp (ph_StartedAt (rc_Loss r)).
Definition back (r : Receipt) : Time := mustTimestamp (ph_StartedAt (rc_Recovered r)).

(** What identifies a workload and what it must keep. *)
Definition workload_shape (wl : WorkloadEvidence) : string * string * Z * Z :=
  (we_ID wl, we_BindingSHA256 wl, we_MinimumReadyPods wl, we_MinimumReadyNodes wl).

(** Two samples of the same workloads, virtual machine and data probe. *)
Record same_targets (a b : SampleEvidence) : Prop := {
  st_workloads : List.map workload_shape (sm_Workloads a) = List.map workload_shape (sm_Workloads b);
  st_vm : ve_BindingSHA256 (sm_VM a) = ve_BindingSHA256 (sm_VM b);
  st_probe : pe_BindingSHA256 (sm_DataProbe a) = pe_BindingSHA256 (sm_DataProbe b);
  st_implementation : pe_Implementation (sm_DataProbe a) = pe_Implementation (sm_DataProbe b);
  st_version : pe_Version (sm_DataProbe a) = pe_Version (sm_DataProbe b)
}.

#[export] Instance same_targets_equivalence : Equivalence same_targets.
Proof.
  split.
  - intros a. by split.
  - intros a b []. by split.
  - intros a b c [] []. split; congruence.
Qed.

(** The virtual machine and the data are those of the start, there are
    workloads, and none is below its minimum. *)
Definition serving (r : Receipt) (s : SampleEvidence) : Prop :=
  ve_VMUIDSHA256 (sm_VM s) = bl_VMUIDSHA256 (rc_Baseline r) /\
  pe_DataSHA256 (sm_DataProbe s) = bl_DataSHA256 (rc_Baseline r) /\
  pe_ValidatedBytes (sm_DataProbe s) = bl_ValidatedBytes (rc_Baseline r) /\
  sm_ReadyZPassed s = true /\ sm_Workloads s <> [] /\
  Forall (fun wl => we_MinimumReadyPods wl <= we_ReadyPods wl /\
                    we_MinimumReadyNodes wl <= we_DistinctReadyNodes wl) (sm_Workloads s).

(** More than half of the members of the start. *)
Definition quorum (r : Receipt) (s : SampleEvidence) : Prop :=
  bl_ControlPlaneNodes (rc_Baseline r) < 2 * sm_ControlPlaneReadyNodes s /\
  bl_EtcdMembers (rc_Baseline r) < 2 * sm_EtcdReadyMembers s /\
  bl_APIServerMembers (rc_Baseline r) < 2 * sm_APIServerReadyMembers s.

(** The target is ready, and no member is missing; the member set, when it is
    recorded, is that of the start. *)
Definition whole (r : Receipt) (s : SampleEvidence) : Prop :=
  (bl_ControlPlaneMemberSetSHA256 (rc_Baseline r) <> "" ->
   sm_ControlPlaneMemberSetSHA256 s = bl_ControlPlaneMemberSetSHA256 (rc_Baseline r)) /\
  sm_TargetNodeReady s = true /\ sm_TargetNodeUIDSHA256 s = rc_TargetNodeUIDSHA256 r /\
  bl_ControlPlaneNodes (rc_Baseline r) <= sm_ControlPlaneReadyNodes s /\
  bl_EtcdMembers (rc_Baseline r) <= sm_EtcdReadyMembers s /\
  bl_APIServerMembers (rc_Baseline r) <= sm_APIServerReadyMembers s /\
  sm_TargetHostsEtcd s = true /\ sm_TargetHostsAPIServer s = true /\
  ve_VMReady (sm_VM s) = true /\ ve_VMIReady (sm_VM s) = true.

(** One member is missing, and the target is not ready; the member set, when it
    is recorded, is another one. *)
Definition one_lost (r : Receipt) (s : SampleEvidence) : Prop :=
  (bl_ControlPlaneMemberSetSHA256 (rc_Baseline r) <> "" ->
   sm_ControlPlaneMemberSetSHA256 s <> "" /\
   sm_ControlPlaneMemberSetSHA256 s <> bl_ControlPlaneMemberSetSHA256 (rc_Baseline r)) /\
  (sm_TargetNodePresent s = true -> sm_TargetNodeUIDSHA256 s = rc_TargetNodeUIDSHA256 r) /\
  sm_TargetNodeReady s = false /\
  sm_ControlPlaneReadyNodes s = bl_ControlPlaneNodes (rc_Baseline r) - 1 /\
  sm_EtcdReadyMembers s = bl_EtcdMembers (rc_Baseline r) - 1 /\
  sm_APIServerReadyMembers s = bl_APIServerMembers (rc_Baseline r) - 1.

Definition vm_moved (s : SampleEvidence) : Prop :=
  ve_VMReady (sm_VM s) = true /\ ve_VMIReady (sm_VM s) = true /\ ve_VMIOnTarget (sm_VM s) = false.

Record survived (r : Receipt) (w : windows) : Prop := {
  (** Every instant of the run is within a sample, or at most two polling
      intervals after one. *)
  sv_watched : forall t, started r <= t <= completed r ->
    exists s, s ∈ all_samples r /\ began s <= t <= seen s + 2 * wn_poll w;
  (** Every sample in its place, one after the other. *)
  sv_ordered : forall i j a b, all_samples r !! i = Some a -> all_samples r !! j = Some b -> (i < j)%nat ->
    began a <= seen a /\ seen a <= began b /\ sm_Sequence b = sm_Sequence a + Z.of_nat (j - i);
  sv_probes : NoDup (List.map (fun s => pe_RequestSHA256 (sm_DataProbe s)) (all_samples r));
  (** Any two samples are of the same workloads, machine and probe. *)
  sv_targets : forall a b, a ∈ all_samples r -> b ∈ all_samples r -> same_targets a b;
  sv_serving : Forall (fun s => serving r s /\ quorum r s) (all_samples r);
  sv_before : Forall (fun s => whole r s /\ ve_VMIOnTarget (sm_VM s) = true) (ph_Samples (rc_PreLoss r));
  sv_lost : Forall (one_lost r) (ph_Samples (rc_Loss r));
  sv_after : Forall (whole r) (ph_Samples (rc_Recovered r));
  (** The virtual machine is seen to run elsewhere by the first sample observed
      after the agreed time, or before, by a sample that began in time, and
      when the loss ends. *)
  sv_moved_by : forall i s, ph_Samples (rc_Loss r) !! i = Some s -> lost r + wn_vmUnavailable w < seen s ->
    exists j m, (j <= i)%nat /\ ph_Samples (rc_Loss r) !! j = Some m /\ vm_moved m;
  sv_moved : exists s, s ∈ ph_Samples (rc_Loss r) /\ vm_moved s /\
    began s <= lost r + wn_vmUnavailable w + 2 * wn_poll w;
  sv_moved_at_end : exists s, last (ph_Samples (rc_Loss r)) = Some s /\ vm_moved s;
  (** The loss comes after two healthy intervals, lasts, and is over in time. *)
  sv_stable : exists s, head (all_samples r) = Some s /\ seen s + 2 * wn_poll w <= ready r;
  sv_fault : ready r <= lost r <= ready r + wn_faultTimeout w;
  sv_window : lost r + wn_lossWindow w <= back r;
  sv_recovery : back r + wn_recoveryStability w <= completed r <= lost r + wn_recoveryTimeout w
}.

(** ** The sequence of samples *)

(** Each sample begins after the one before, and at most [gap] later. *)
Fixpoint chained (gap : Duration) (previous : option Time) (samples : list SampleEvidence) : Prop :=
  match samples with
  | [] => True
  | s :: rest =>
      began s <= seen s /\
      match previous with Some p => p <= began s <= p + gap | None => True end /\
      chained gap (Some (seen s)) rest
  end.

Lemma time_Sub_gap t u d : 0 <= d < max_int64 -> (d <? time_Sub t u) = false -> t <= u + d.
Proof. intros Hd H. go_simp. apply time_Sub_le_iff in H; lia. Qed.

Lemma sameWorkloadShape_iff ls rs :
  sameWorkloadShape ls rs = true <-> List.map workload_shape ls = List.map workload_shape rs.
Proof.
  revert rs. induction ls as [|l ls IH]; intros [|x rs]; cbn; [done..|].
  rewrite !andb_true_iff, !String.eqb_eq, !Z.eqb_eq, IH. unfold workload_shape. split.
  - intros ((((-> & ->) & ->) & ->) & ->). done.
  - intros [= -> -> -> -> ->]. done.
Qed.

Lemma same_bindings_targets first s : same_bindings first s = true <-> same_targets first s.
Proof.
  unfold same_bindings. rewrite !andb_true_iff, !String.eqb_eq, sameWorkloadShape_iff. split.
  - intros ((((? & ?) & ?) & ?) & ?). by split.
  - intros []. by split_and!.
Qed.

Definition probe_of (s : SampleEvidence) : string := pe_RequestSHA256 (sm_DataProbe s).

Lemma check_samples_inv poll r index before requests samples :
  0 <= 2 * poll < max_int64 -> check_samples poll r index before requests samples = None ->
  chained (2 * poll) (snd <$> before) samples /\
  (forall i s, samples !! i = Some s -> sm_Sequence s = index + Z.of_nat i + 1) /\
  Forall (fun s => probe_of s ∉ requests) samples /\ NoDup (List.map probe_of samples) /\
  Forall (fun s => validateSafeSample s r = None) samples /\
  (forall first, match before with Some (f, _) => Some f | None => head samples end = Some first ->
     Forall (same_targets first) samples).
Proof.
  intros Hp. revert index before requests. induction samples as [|s rest IH]; intros index before requests H.
  { split_and!; first [done | constructor | by constructor]. }
  cbn [check_samples] in H. unfold chained; fold chained. unfold began, seen, mustTimestamp.
  destruct (canonicalTimestamp (sm_StartedAt s)) as [st|]; [|done].
  destruct (canonicalTimestamp (sm_ObservedAt s)) as [ob|]; [|done].
  destruct (_ || _) eqn:E1 in H; [done|]. destruct (sampleDigest s != _); [done|].
  destruct (match before with Some _ => _ | None => _ end) eqn:E2 in H; [done|].
  destruct (validateSafeSample s r) eqn:Es; [done|]. cbn zeta in H.
  destruct (bool_decide _) eqn:E3 in H; [done|].
  destruct (_ && _) eqn:E4 in H; [done|]. apply IH in H as (Hc & Hs & Hr & Hn & Hv & Hb). clear IH.
  unfold Before in *. go_simp. split_and!; [done| |exact Hc|..].
  - destruct before as [[f p]|]; [|done]. cbn in *. go_simp.
    split; [done|]. apply time_Sub_gap; [lia|]. by apply Z.ltb_ge.
  - intros [|i] x Hx; cbn in Hx; simplify_eq; [lia|]. rewrite (Hs _ _ Hx). lia.
  - constructor; [done|]. eapply Forall_impl; [exact Hr|]. cbn. set_solver.
  - constructor; [|done]. intros Hin. apply list_elem_of_In, in_map_iff in Hin as (x & Hx & Hin).
    rewrite Forall_forall in Hr. apply list_elem_of_In in Hin.
    apply (Hr x Hin). unfold probe_of in *. set_solver.
  - by constructor.
  - intros first Hf. destruct before as [[f p]|].
    + injection Hf as ->. constructor; [|by apply Hb].
      cbn in E4. by apply negb_false_iff, same_bindings_targets in E4.
    + injection Hf as ->. constructor; [done|]. by apply Hb.
Qed.

(** No instant between the first and the last sample is far from one. *)
Lemma chained_covers gap previous s rest l t : chained gap previous (s :: rest) ->
  last (s :: rest) = Some l -> 0 <= gap -> began s <= t <= seen l ->
  exists x, x ∈ s :: rest /\ began x <= t <= seen x + gap.
Proof.
  revert previous s. induction rest as [|s' rest IH]; intros previous s (Hb & _ & Hc) Hl Hg Ht.
  { cbn in Hl. simplify_eq. exists l. split; [left|lia]. }
  destruct (decide (t <= seen s + gap)) as [Hd|Hd].
  { exists s. split; [left|lia]. }
  destruct (IH (Some (seen s)) s') as (x & Hx & Ht'); [exact Hc|exact Hl|exact Hg| |].
  { destruct Hc as (_ & Hs & _). cbn in Hs. lia. }
  exists x. split; [by right|exact Ht'].
Qed.

Lemma chained_after gap previous samples i s : chained gap (Some previous) samples ->
  samples !! i = Some s -> previous <= began s <= seen s.
Proof.
  revert previous i. induction samples as [|x rest IH]; intros previous i Hc Hi; [done|].
  destruct Hc as (Hb & Hp & Hc). destruct i as [|i]; cbn in Hi; [simplify_eq; lia|].
  specialize (IH _ _ Hc Hi). lia.
Qed.

Lemma chained_ordered gap previous samples i j a b : chained gap previous samples ->
  samples !! i = Some a -> samples !! j = Some b -> (i < j)%nat -> seen a <= began b.
Proof.
  revert previous i j. induction samples as [|x rest IH]; intros previous i j Hc Hi Hj Hij; [done|].
  destruct Hc as (Hb & Hp & Hc). destruct j as [|j]; [lia|]. cbn in Hj.
  destruct i as [|i]; cbn in Hi; [simplify_eq; by eapply chained_after|].
  eapply IH; [exact Hc|exact Hi|exact Hj|lia].
Qed.

Lemma chained_began gap previous samples i s :
  chained gap previous samples -> samples !! i = Some s -> began s <= seen s.
Proof.
  revert previous i. induction samples as [|x rest IH]; intros previous i Hc Hi; [done|].
  destruct Hc as (Hb & Hp & Hc). destruct i as [|i]; cbn in Hi; [by simplify_eq|]. by eapply IH.
Qed.

Lemma chained_app gap previous xs ys : chained gap previous (xs ++ ys) ->
  chained gap previous xs /\ exists p, chained gap p ys.
Proof.
  revert previous. induction xs as [|x xs IH]; intros previous H; cbn in *; [by eauto|].
  destruct H as (H1 & H2 & H3). apply IH in H3 as [H3 H4]. done.
Qed.

(** ** The health of the phases *)

(** The facts behind the guards a sample of a phase passes. *)
Lemma existsb_false_Forall {A} (f : A -> bool) xs :
  existsb f xs = false -> Forall (fun x => f x = false) xs.
Proof.
  induction xs as [|x xs IH]; cbn; [constructor|]. intros [H1 H2]%orb_false_iff. constructor; auto.
Qed.

Lemma sample_serving r phase s : identity_changed phase r s = false -> workloads_short s = false ->
  sm_ReadyZPassed s = true -> sm_Workloads s <> [] -> serving r s.
Proof.
  unfold identity_changed, workloads_short. intros H1 H2 H3 H4. cbn zeta in H1. go_simp.
  split_and!; try done. apply existsb_false_Forall in H2. eapply Forall_impl; [exact H2|].
  cbn. intros wl Hw. go_simp. lia.
Qed.

(** A guard that applies when [b] holds. *)
Lemma when_false b c : b && c = false -> b = true -> c = false.
Proof. intros H ->. exact H. Qed.

Lemma sample_whole r s : members_missing r s = false -> whole r s.
Proof.
  unfold members_missing, whole. intros H. cbn zeta in H. go_simp. split_and!; try done.
  intros Hb. apply string_neqb_true in Hb.
  match goal with H : _ && _ = false |- _ => by apply when_false, string_neqb_false in H end.
Qed.

Lemma sample_lost phase r s :
  identity_changed phase r s = false -> loss_not_exact r s = false -> one_lost r s.
Proof.
  unfold identity_changed, loss_not_exact, one_lost. intros Hi H. cbn zeta in H, Hi.
  repeat (apply orb_false_iff in H as [H ?]). apply orb_false_iff in Hi as [_ Hx].
  split_and!; go_simp; try done.
  - intros Hb. apply string_neqb_true in Hb. rewrite Hb in *. split.
    + apply string_neqb_true. by destruct (_ != _).
    + by apply String.eqb_neq.
  - intros Hb. rewrite Hb in *. by apply string_neqb_false.
Qed.

Lemma vmReadyOffTarget_moved s : vmReadyOffTarget s = true <-> vm_moved s.
Proof.
  unfold vmReadyOffTarget, vm_moved. rewrite !andb_true_iff, negb_true_iff. tauto.
Qed.

(** What each phase asks of a sample. *)
Definition phase_fact (phase : string) (r : Receipt) (s : SampleEvidence) : Prop :=
  if phase == PhasePreLoss then whole r s /\ ve_VMIOnTarget (sm_VM s) = true
  else if phase == PhaseLoss then one_lost r s
  else if phase == PhaseRecovered then whole r s else True.

Lemma check_health_inv phase r vm recovered samples b :
  check_health phase r vm recovered samples = Ok b ->
  Forall (fun s => identity_changed phase r s = false /\ workloads_short s = false /\
                   phase_fact phase r s) samples.
Proof.
  unfold phase_fact.
  revert recovered. induction samples as [|s rest IH]; intros recovered H; [constructor|].
  cbn [check_health] in H. destruct (identity_changed phase r s) eqn:E1; [done|].
  destruct (workloads_short s) eqn:E2; [done|]. cbn zeta in H.
  destruct (phase == PhasePreLoss); [|destruct (phase == PhaseLoss); [|destruct (phase == PhaseRecovered)]].
  - destruct (_ || _) eqn:E in H; [done|]. constructor; [|by eapply IH]. go_simp.
    split_and!; try done. by apply sample_whole.
  - destruct (loss_not_exact r s) eqn:E; [done|]. destruct (_ && _) in H; [done|].
    constructor; [|by eapply IH]. split_and!; try done. by eapply sample_lost.
  - destruct (members_missing r s) eqn:E; [done|]. constructor; [|by eapply IH].
    split_and!; try done. by apply sample_whole.
  - constructor; [done|by eapply IH].
Qed.

(** The first sample that sees the machine elsewhere begins in time: [previous]
    was seen before the limit, or there is none yet. *)
Lemma check_health_moved r vm gap previous samples :
  0 <= vm < max_int64 -> check_health PhaseLoss r vm false samples = Ok true ->
  chained gap previous samples ->
  match previous with Some p => p <= lost r + vm | None => True end ->
  (previous = None -> match samples with s :: _ => seen s = lost r | [] => True end) -> 0 <= gap ->
  exists s, s ∈ samples /\ vm_moved s /\ began s <= lost r + vm + gap.
Proof.
  intros Hvm. revert previous. induction samples as [|s rest IH]; intros previous H Hc Hp Hf Hg; [done|].
  cbn [check_health] in H. destruct (identity_changed PhaseLoss r s); [done|].
  destruct (workloads_short s); [done|]. change (PhaseLoss == PhasePreLoss) with false in H.
  change (PhaseLoss == PhaseLoss) with true in H. cbn iota zeta in H.
  destruct (loss_not_exact r s); [done|]. destruct Hc as (Hb & Hpr & Hc).
  destruct (vmReadyOffTarget s) eqn:Em.
  - exists s. split_and!; [left|by apply vmReadyOffTarget_moved|].
    destruct previous as [p|]; [lia|]. specialize (Hf eq_refl). lia.
  - cbn [orb negb andb] in H.
    destruct (vm <? _) eqn:E in H; [done|]. apply time_Sub_gap in E; [|lia].
    change (mustTimestamp (sm_ObservedAt s)) with (seen s) in E.
    change (mustTimestamp (ph_StartedAt (rc_Loss r))) with (lost r) in E.
    destruct (IH (Some (seen s))) as (x & Hx & Hm & Ht); [exact H|exact Hc|cbn; lia|done|done|].
    exists x. split_and!; [by right|done|done].
Qed.

(** No sample observed after the limit comes before the first that sees the
    machine elsewhere. *)
Lemma check_health_by r vm samples b i s :
  0 <= vm < max_int64 -> check_health PhaseLoss r vm false samples = Ok b ->
  samples !! i = Some s -> lost r + vm < seen s ->
  exists j m, (j <= i)%nat /\ samples !! j = Some m /\ vm_moved m.
Proof.
  intros Hvm. revert i. induction samples as [|x rest IH]; intros i H Hi Hs; [done|].
  cbn [check_health] in H. destruct (identity_changed PhaseLoss r x); [done|].
  destruct (workloads_short x); [done|]. change (PhaseLoss == PhasePreLoss) with false in H.
  change (PhaseLoss == PhaseLoss) with true in H. cbn iota zeta in H.
  destruct (loss_not_exact r x); [done|].
  destruct (vmReadyOffTarget x) eqn:Em.
  - exists 0%nat, x. split_and!; [lia|done|by apply vmReadyOffTarget_moved].
  - cbn [orb negb andb] in H. destruct (vm <? _) eqn:E in H; [done|].
    apply time_Sub_gap in E; [|lia].
    destruct i as [|i]; cbn in Hi; [injection Hi as ->; exfalso; unfold seen, lost in *; lia|].
    destruct (IH i H Hi Hs) as (j & m & Hj & Hm & Hmoved). exists (S j), m.
    split_and!; [lia|done|done].
Qed.

Lemma phase_facts samples phase r vm : validatePhaseHealth samples phase r vm = None ->
  Forall (fun s => identity_changed phase r s = false /\ workloads_short s = false /\
                   phase_fact phase r s) samples.
Proof.
  unfold validatePhaseHealth. destruct (check_health phase r vm false samples) as [b|] eqn:E; [|done].
  intros _. by eapply check_health_inv.
Qed.

Lemma loss_facts samples r vm : validatePhaseHealth samples PhaseLoss r vm = None ->
  check_health PhaseLoss r vm false samples = Ok true /\
  exists s, last samples = Some s /\ vm_moved s.
Proof.
  unfold validatePhaseHealth. destruct (check_health _ r vm false samples) as [b|] eqn:E; [|done].
  change (PhaseLoss == PhaseLoss) with true. cbn [andb].
  destruct (_ || _) eqn:E2; [done|]. intros _. apply orb_false_iff in E2 as [E2 E3].
  apply negb_false_iff in E2 as ->. destruct (last samples) as [s|]; [|done].
  split; [done|]. exists s. split; [done|]. by apply vmReadyOffTarget_moved, negb_false_iff.
Qed.

(** ** Accepted receipts *)

Lemma safe_readyz s r : validateSafeSample s r = None ->
  sm_ReadyZPassed s = true /\ sm_Workloads s <> [].
Proof.
  unfold validateSafeSample. destruct (_ || _) eqn:E; [done|]. intros _. go_simp. split; [done|].
  by destruct (sm_Workloads s).
Qed.

Lemma baseline_members b minimum : validateBaseline b minimum = None -> 3 <= minimum ->
  3 <= bl_ControlPlaneNodes b /\ 3 <= bl_EtcdMembers b /\ 3 <= bl_APIServerMembers b.
Proof.
  unfold validateBaseline, outside. destruct (_ || _) eqn:E; [done|]. intros _ H. go_simp. lia.
Qed.

(** The facts of a timeline. *)
Record timeline (r : Receipt) (w : windows) : Prop := {
  tl_first : exists s rest, ph_Samples (rc_PreLoss r) = s :: rest /\ started r = began s /\
    seen s + 2 * wn_poll w <= ready r;
  tl_loss : exists s rest, ph_Samples (rc_Loss r) = s :: rest /\ seen s = lost r;
  tl_last : exists s, last (ph_Samples (rc_Recovered r)) = Some s /\ completed r = seen s;
  tl_fault : ready r <= lost r <= ready r + wn_faultTimeout w;
  tl_window : lost r + wn_lossWindow w <= back r;
  tl_recovery : back r + wn_recoveryStability w <= completed r <= lost r + wn_recoveryTimeout w
}.

Lemma time_Sub_long t u d : min_int64 < d -> (time_Sub t u <? d) = false -> u + d <= t.
Proof. unfold time_Sub, min_int64, max_int64. intros Hd H. go_simp. lia. Qed.

Lemma validateTimeline_inv r w : windows_ok w -> validateTimeline r w = None -> timeline r w.
Proof.
  intros [Hp Hf Hl Hr Hs Hv]. unfold validateTimeline.
  destruct (ph_Samples (rc_PreLoss r)) as [|p ps] eqn:Ep; [done|].
  destruct (ph_Samples (rc_Loss r)) as [|l ls] eqn:El; [done|].
  destruct (ph_Samples (rc_Recovered r)) as [|b bs] eqn:Eb; [done|].
  destruct (last (b :: bs)) as [x|] eqn:Ex; [|done].
  destruct (_ || _); [done|]. destruct (negb (timeline_ok r w p l b x)) eqn:E; [done|]. intros _.
  unfold timeline_ok, same_time, Before, After, time_Add in E. cbn zeta in E. go_simp.
  unfold Hour, Minute, Second in *.
  repeat match goal with
  | H : time_Sub _ _ <= _ |- _ =>
      apply time_Sub_le_iff in H; [|unfold max_int64, Second; lia]
  | H : _ <= time_Sub _ _ |- _ => apply Z.ltb_ge, time_Sub_long in H; [|unfold min_int64, Second; lia]
  end.
  unfold started, ready, completed, lost, back, seen, began.
  constructor; rewrite ?Ep, ?El, ?Eb; [exists p, ps|exists l, ls|exists x|..];
    unfold started, ready, completed, lost, back, seen, began; split_and?; try done; lia.
Qed.

Lemma quorum_of r s : 3 <= bl_ControlPlaneNodes (rc_Baseline r) ->
  3 <= bl_EtcdMembers (rc_Baseline r) -> 3 <= bl_APIServerMembers (rc_Baseline r) ->
  whole r s \/ one_lost r s -> quorum r s.
Proof.
  unfold whole, one_lost, quorum. intros H1 H2 H3 [(_ & H)|(_ & _ & H)]; go_simp; lia.
Qed.

Lemma validate_evidence_survived r w : windows_ok w -> 3 <= rc_MinimumControlPlane r ->
  validate_evidence r w = None -> survived r w.
Proof.
  intros Hw Hm H. unfold validate_evidence, first_of in H. apply first_error_None in H.
  repeat match type of H with Forall _ (_ :: _) => apply Forall_cons in H as [? H] end. clear H.
  unfold id in *.
  match goal with H : validateTimeline _ _ = None |- _ => apply validateTimeline_inv in H as T; [|done] end.
  destruct T as [(p & ps & Ep & Hst & Hstable) (l & ls & El & Hlost) (x & Ex & Hx) Tf Tw Tr].
  destruct (wk_poll _ Hw) as [Hp1 Hp2]. unfold Second in Hp1, Hp2.
  match goal with H : validateSampleSequence _ _ _ = None |- _ =>
    apply check_samples_inv in H as (Hc & Hseq & _ & Hn & Hsafe & Hbind); [|unfold max_int64; lia] end.
  cbn [fmap option_fmap option_map] in Hc.
  match goal with H : validatePhaseHealth _ PhasePreLoss _ _ = None |- _ => apply phase_facts in H as Fp end.
  match goal with H : validatePhaseHealth _ PhaseRecovered _ _ = None |- _ => apply phase_facts in H as Fr end.
  match goal with H : validatePhaseHealth _ PhaseLoss _ _ = None |- _ =>
    apply phase_facts in H as Fl; apply loss_facts in H as [Hh Hend] end.
  match goal with H : validateBaseline _ _ = None |- _ => apply baseline_members in H as (B1 & B2 & B3); [|done] end.
  assert (forall s, s ∈ all_samples r -> serving r s /\ quorum r s) as Hserve.
  { intros s Hs. rewrite Forall_forall in Hsafe. pose proof (safe_readyz _ _ (Hsafe s Hs)) as [Hz Hwl].
    unfold all_samples in Hs. rewrite !elem_of_app in Hs. rewrite Forall_forall in Fp, Fl, Fr.
    destruct Hs as [Hs|[Hs|Hs]];
      [destruct (Fp s Hs) as (? & ? & F)|destruct (Fl s Hs) as (? & ? & F)|destruct (Fr s Hs) as (? & ? & F)];
      (split; [by eapply sample_serving|]); apply quorum_of; try done; [left; apply F|right; exact F|left; exact F]. }
  assert (chained (2 * wn_poll w) None (all_samples r)) as Hall by exact Hc.
  unfold all_samples in Hc. rewrite app_assoc, <- app_assoc in Hc.
  apply chained_app in Hc as [_ [q Hc]]. apply chained_app in Hc as [Hc _].
  constructor; try done.
  - intros t Ht. unfold all_samples in *. rewrite Ep in *. cbn [app] in *.
    eapply chained_covers; [exact Hall| |lia|rewrite <- Hst, <- Hx; exact Ht].
    rewrite app_comm_cons, !last_app, Ex. done.
  - intros i j a b Hi Hj Hij. split_and!.
    + by eapply chained_began.
    + by eapply chained_ordered.
    + rewrite (Hseq _ _ Hi), (Hseq _ _ Hj). lia.
  - assert (head (all_samples r) = Some p) as Hhead by (unfold all_samples; by rewrite Ep).
    specialize (Hbind p Hhead). rewrite Forall_forall in Hbind. intros a b Ha Hb.
    etrans; [symmetry; by apply Hbind|by apply Hbind].
  - apply Forall_forall. exact Hserve.
  - eapply Forall_impl; [exact Fp|]. intros s (_ & _ & F). exact F.
  - eapply Forall_impl; [exact Fl|]. intros s (_ & _ & F). exact F.
  - eapply Forall_impl; [exact Fr|]. intros s (_ & _ & F). exact F.
  - assert (0 <= wn_vmUnavailable w < max_int64) as Hv.
    { destruct Hw. unfold Hour, Minute, Second, max_int64 in *. lia. }
    intros i s Hi Hlate. by eapply check_health_by.
  - assert (0 <= wn_vmUnavailable w < max_int64) as Hv.
    { destruct Hw. unfold Hour, Minute, Second, max_int64 in *. lia. }
    rewrite El in *. destruct Hc as (Hb & _ & Hc).
    apply (check_health_moved r _ _ None); [exact Hv|exact Hh|by repeat split|exact Logic.I| |lia].
    intros _. exact Hlost.
  - exists p. unfold all_samples. rewrite Ep. done.
Qed.

Lemma receipt_minimum r : receipt_header_ok r = true -> 3 <= rc_MinimumControlPlane r.
Proof. unfold receipt_header_ok, outside. intros H. go_simp. lia. Qed.

Lemma ValidateReceipt_survived r : ValidateReceipt (Some r) = None ->
  exists w, receipt_windows r = Ok w /\ windows_ok w /\ survived r w.
Proof.
  unfold ValidateReceipt. destruct (receipt_header_ok r) eqn:E; [cbn [negb]|done].
  destruct (_ && _); [done|]. destruct (receipt_windows r) as [w|] eqn:Ew; [|done]. intros H.
  pose proof (parse_windows_ok _ _ _ _ _ _ _ _ Ew) as Hw. exists w. split_and!; [done|done|].
  apply validate_evidence_survived; [done|by apply receipt_minimum|done].
Qed.
