(* ===== verification/OslSeal.v ===== *)
(** * One server lost: sealed receipts are accepted

    A receipt whose digests are the ones its contents have, and whose contents
    have nothing a validator objects to, is accepted: the guards of
    validate.go, without those on digests.  One such receipt has the virtual
    machine down again, for longer than agreed, after it first ran elsewhere. *)

From stdpp Require Import gmap strings list.
From Stdlib Require Import ZArith Lia Ascii.
From S2P Require Import Prelude GoString GoTime GoSort GoDate GoSha256 GoJson StrictJson GoRfc3339 GoDuration OslTypes OslValidate OslObserve OslSurvive.

#[local] Open Scope Z_scope.
#[local] Opaque sha256_hex.

Lemma validSHA256_digest {A} `{Marshal A} (a : A) : validSHA256 (digestJSON a) = true.
Proof. unfold validSHA256, hex_of_length, digestJSON. by rewrite sha256_hex_hex, sha256_hex_len. Qed.

(** ** Seals *)

Definition seal_baseline (b : Baseline) : Baseline :=
  Baseline_with_BaselineSHA256 b (baselineDigest b).

Definition seal_phase (p : PhaseEvidence) : PhaseEvidence :=
  let samples := List.map seal_sample (ph_Samples p) in
  {| ph_Phase := ph_Phase p; ph_StartedAt := ph_StartedAt p; ph_CompletedAt := ph_CompletedAt p;
     ph_Samples := samples; ph_SamplesSHA256 := digestJSON samples |}.

Definition seal_receipt (r : Receipt) : Receipt :=
  Receipt_with_ReceiptSHA256 r (receiptDigest r).

Record sealed (r : Receipt) : Prop := {
  sd_receipt : rc_ReceiptSHA256 r = receiptDigest r;
  sd_baseline : bl_BaselineSHA256 (rc_Baseline r) = baselineDigest (rc_Baseline r);
  sd_phases : Forall (fun p => ph_SamplesSHA256 p = digestJSON (ph_Samples p))
                [rc_PreLoss r; rc_Loss r; rc_Recovered r];
  sd_samples : Forall (fun s => sm_SampleSHA256 s = sampleDigest s) (all_samples r)
}.

(** ** The guards that are not about digests *)

Definition baseline_facts (b : Baseline) (minimum : Z) : bool :=
  negb (outside minimum 10000 (bl_ControlPlaneNodes b)) && negb (outside 3 10000 (bl_EtcdMembers b)) &&
  negb (outside 3 10000 (bl_APIServerMembers b)) && validSHA256 (bl_VMUIDSHA256 b) &&
  validSHA256 (bl_DataSHA256 b) && negb (bl_ValidatedBytes b <? 1) &&
  negb ((bl_ControlPlaneMemberSetSHA256 b != "") && negb (validSHA256 (bl_ControlPlaneMemberSetSHA256 b))).

Definition phase_facts (p : PhaseEvidence) (expected : string) : bool :=
  (ph_Phase p == expected) && negb (length (ph_Samples p) =? 0)%nat &&
  negb (is_nil (canonicalTimestamp (ph_StartedAt p))) &&
  negb (is_nil (canonicalTimestamp (ph_CompletedAt p))).

Fixpoint sample_facts (poll : Duration) (receipt : Receipt) (index : Z)
    (before : option (SampleEvidence * Time)) (probeRequests : list string)
    (samples : list SampleEvidence) : bool :=
  match samples with
  | [] => true
  | sample :: rest =>
  match canonicalTimestamp (sm_StartedAt sample), canonicalTimestamp (sm_ObservedAt sample) with
  | Some started, Some observed =>
      let request := pe_RequestSHA256 (sm_DataProbe sample) in
      let first := match before with Some (first, _) => first | None => sample end in
      (sm_Sequence sample =? index + 1) && negb (Before observed started) &&
      match before with
      | Some (_, previous) =>
          negb (Before started previous || Before observed previous ||
                (2 * poll <? time_Sub started previous)) && same_bindings first sample
      | None => true
      end &&
      is_nil (validateSafeSample sample receipt) && negb (existsb (String.eqb request) probeRequests) &&
      sample_facts poll receipt (index + 1) (Some (first, observed)) (request :: probeRequests) rest
  | _, _ => false
  end end.

Definition evidence_facts (r : Receipt) (w : windows) : bool :=
  baseline_facts (rc_Baseline r) (rc_MinimumControlPlane r) &&
  negb (xorb (rc_NodeUIDHashAlgorithm r == "") (bl_ControlPlaneMemberSetSHA256 (rc_Baseline r) == "")) &&
  phase_facts (rc_PreLoss r) PhasePreLoss && phase_facts (rc_Loss r) PhaseLoss &&
  phase_facts (rc_Recovered r) PhaseRecovered &&
  negb ((length (all_samples r) <? 7)%nat || (maximumSamples <? Z.of_nat (length (all_samples r)))) &&
  is_nil (validateTimeline r w) && sample_facts (wn_poll w) r 0 None [] (all_samples r) &&
  is_nil (validatePhaseHealth (ph_Samples (rc_PreLoss r)) PhasePreLoss r (wn_vmUnavailable w)) &&
  is_nil (validatePhaseHealth (ph_Samples (rc_Loss r)) PhaseLoss r (wn_vmUnavailable w)) &&
  is_nil (validatePhaseHealth (ph_Samples (rc_Recovered r)) PhaseRecovered r (wn_vmUnavailable w)).

Definition header_facts (r : Receipt) : bool :=
  (rc_SchemaVersion r == ReceiptSchemaVersion) && (rc_Status r == ReceiptStatus) &&
  validSHA256 (rc_RequestSHA256 r) && validSHA256 (rc_RunNonceSHA256 r) &&
  validSHA256 (rc_TargetNodeUIDSHA256 r) && validSHA256 (rc_KubectlExecutableSHA256 r) &&
  validSHA256 (rc_ProbeAdapterSHA256 r) && negb (outside 3 99 (rc_MinimumControlPlane r)) &&
  negb (is_nil (canonicalTimestamp (rc_StartedAt r))) &&
  negb (is_nil (canonicalTimestamp (rc_ReadyMarkerAt r))) &&
  negb (is_nil (canonicalTimestamp (rc_CompletedAt r))) &&
  ((rc_NodeUIDHashAlgorithm r == "") || (rc_NodeUIDHashAlgorithm r == NodeUIDHashAlgorithm)).

Definition receipt_facts (r : Receipt) : bool :=
  header_facts r && match receipt_windows r with Ok w => evidence_facts r w | Err _ => false end.

(** ** Acceptance *)

Lemma sample_facts_ok poll r index before requests samples :
  Forall (fun s => sm_SampleSHA256 s = sampleDigest s) samples ->
  sample_facts poll r index before requests samples = true ->
  check_samples poll r index before (list_to_set requests) samples = None.
Proof.
  intros Hs. revert index before requests. induction Hs as [|s rest Hd Hs IH]; intros index before requests H; [done|].
  cbn [sample_facts] in H. cbn [check_samples].
  destruct (canonicalTimestamp (sm_StartedAt s)) as [st|]; [|done].
  destruct (canonicalTimestamp (sm_ObservedAt s)) as [ob|]; [|done]. cbn zeta in H |- *.
  rewrite !andb_true_iff in H. destruct H as (((((H1 & H2) & H3) & H4) & H5) & H6).
  rewrite H1, (proj1 (negb_true_iff _) H2), Hd.
  unfold sampleDigest at 1. rewrite validSHA256_digest, String.eqb_refl. cbn [negb orb andb].
  rewrite (proj1 (is_nil_true _) H4). apply negb_true_iff in H5.
  rewrite (bool_decide_eq_false_2 (_ ∈ _)).
  2:{ intros Hin. rewrite elem_of_list_to_set in Hin.
      assert (existsb (String.eqb (pe_RequestSHA256 (sm_DataProbe s))) requests = true) as He; [|congruence].
      apply existsb_exists. exists (pe_RequestSHA256 (sm_DataProbe s)).
      split; [by apply list_elem_of_In|apply String.eqb_refl]. }
  specialize (IH _ _ _ H6). destruct before as [[f p]|].
  - apply andb_true_iff in H3 as [H3 H7]. rewrite (proj1 (negb_true_iff _) H3), H7. exact IH.
  - exact IH.
Qed.

Lemma baseline_facts_ok b minimum : baseline_facts b minimum = true ->
  bl_BaselineSHA256 b = baselineDigest b -> validateBaseline b minimum = None.
Proof.
  unfold baseline_facts, validateBaseline. intros H Hd. rewrite !andb_true_iff, !negb_true_iff in H.
  destruct H as ((((((H1 & H2) & H3) & H4) & H5) & H6) & H7). rewrite H1, H2, H3, H4, H5, H6, H7, Hd.
  unfold baselineDigest at 1. by rewrite validSHA256_digest, String.eqb_refl.
Qed.

Lemma phase_facts_ok p expected : phase_facts p expected = true ->
  ph_SamplesSHA256 p = digestJSON (ph_Samples p) -> validatePhase p expected = None.
Proof.
  unfold phase_facts, validatePhase. intros H Hd. rewrite !andb_true_iff, !negb_true_iff in H.
  destruct H as (((H1 & H2) & H3) & H4). rewrite H1, H2, H3, H4, Hd.
  by rewrite validSHA256_digest, String.eqb_refl.
Qed.

Lemma evidence_facts_ok r w : sealed r -> evidence_facts r w = true -> validate_evidence r w = None.
Proof.
  intros [Hr Hb Hp Hs] H. unfold evidence_facts in H. rewrite !andb_true_iff in H.
  destruct H as ((((((((((H1 & H2) & H3) & H4) & H5) & H6) & H7) & H8) & H9) & H10) & H11).
  apply Forall_cons in Hp as [P1 Hp]. apply Forall_cons in Hp as [P2 Hp]. apply Forall_cons in Hp as [P3 _].
  unfold validate_evidence, first_of. apply first_error_None. unfold id.
  repeat apply Forall_cons_2; [..|constructor]; try by apply is_nil_true.
  - by apply baseline_facts_ok.
  - by rewrite (proj1 (negb_true_iff _) H2).
  - by apply phase_facts_ok.
  - by apply phase_facts_ok.
  - by apply phase_facts_ok.
  - by rewrite (proj1 (negb_true_iff _) H6).
  - exact (sample_facts_ok _ _ _ _ [] _ Hs H8).
  - by rewrite Hr, String.eqb_refl.
Qed.

Lemma receipt_facts_ok r : sealed r -> receipt_facts r = true -> ValidateReceipt (Some r) = None.
Proof.
  intros Hs H. unfold receipt_facts in H. apply andb_true_iff in H as [H Hw].
  destruct (receipt_windows r) as [w|] eqn:Ew; [|done].
  unfold header_facts in H. rewrite !andb_true_iff in H.
  destruct H as (((((((((((H1 & H2) & H3) & H4) & H5) & H6) & H7) & H8) & H9) & H10) & H11) & H12).
  unfold ValidateReceipt, receipt_header_ok.
  rewrite H1, H2, H3, H4, H5, H6, H7, H8, H9, H10, H11, (sd_receipt _ Hs).
  unfold receiptDigest at 1. rewrite validSHA256_digest. cbn [andb negb].
  assert ((rc_NodeUIDHashAlgorithm r != "") && (rc_NodeUIDHashAlgorithm r != NodeUIDHashAlgorithm) = false) as ->.
  { by apply orb_true_iff in H12 as [-> | ->]; [|rewrite andb_false_r]. }
  rewrite Ew. by apply evidence_facts_ok.
Qed.

(** Sealing what a receipt consists of seals the receipt. *)
Definition seal_all (r : Receipt) : Receipt := seal_receipt {|
  rc_SchemaVersion := rc_SchemaVersion r; rc_Status := rc_Status r;
  rc_RequestSHA256 := rc_RequestSHA256 r; rc_RunNonceSHA256 := rc_RunNonceSHA256 r;
  rc_TargetNodeUIDSHA256 := rc_TargetNodeUIDSHA256 r;
  rc_NodeUIDHashAlgorithm := rc_NodeUIDHashAlgorithm r;
  rc_KubectlExecutableSHA256 := rc_KubectlExecutableSHA256 r;
  rc_ProbeAdapterSHA256 := rc_ProbeAdapterSHA256 r; rc_StartedAt := rc_StartedAt r;
  rc_ReadyMarkerAt := rc_ReadyMarkerAt r; rc_CompletedAt := rc_CompletedAt r;
  rc_PollInterval := rc_PollInterval r; rc_FaultArrivalTimeout := rc_FaultArrivalTimeout r;
  rc_MinimumLossWindow := rc_MinimumLossWindow r; rc_RecoveryTimeout := rc_RecoveryTimeout r;
  rc_RecoveryStabilityWindow := rc_RecoveryStabilityWindow r;
  rc_MaximumVMUnavailable := rc_MaximumVMUnavailable r;
  rc_MinimumControlPlane := rc_MinimumControlPlane r; rc_Baseline := seal_baseline (rc_Baseline r);
  rc_PreLoss := seal_phase (rc_PreLoss r); rc_Loss := seal_phase (rc_Loss r);
  rc_Recovered := seal_phase (rc_Recovered r); rc_ReceiptSHA256 := "" |}.

Lemma seal_sample_sealed s : sm_SampleSHA256 (seal_sample s) = sampleDigest (seal_sample s).
Proof. done. Qed.

Lemma seal_all_sealed r : sealed (seal_all r).
Proof.
  constructor; [done|done|by repeat constructor|].
  unfold all_samples, seal_all. cbn. rewrite <- !map_app. apply Forall_map, Forall_true.
  intros s. apply seal_sample_sealed.
Qed.

(** * One server lost: sample receipts

    A cluster of three members is watched every second.  In [good_receipt] the
    virtual machine runs elsewhere two seconds after the target is lost; in
    [flapping_receipt] it is lost again for longer than is allowed. *)

Fixpoint repeat_char (n : nat) (c : ascii) : string :=
  match n with O => "" | S n => String c (repeat_char n c) end.

(** A hash written with one digit. *)
Definition hash (digit : string) : string :=
  match digit with String c _ => repeat_char 64 c | EmptyString => "" end.
Definition numbered_hash (n : Z) : string := appendInt n 4 +:+ repeat_char 60 (ascii_of_nat 101).

Definition noon : Time := time_Date 2026 6 24 12 0 0.
Definition second (n : Z) : string := Format_RFC3339Nano (noon + n * Second).

(** A sample of the members whose set is [members_set]. *)
Definition sample_at (members_set : string) (n : Z) (phase : string) (vm : VMEvidence) : SampleEvidence :=
  let lost := phase == PhaseLoss in
  let members := if lost then 2 else 3 in {|
    sm_Sequence := n + 1; sm_Phase := phase; sm_StartedAt := second n; sm_ObservedAt := second n;
    sm_TargetNodePresent := negb lost; sm_TargetNodeReady := negb lost;
    sm_TargetNodeUIDSHA256 := if lost then "" else hash "a"; sm_ReadyZPassed := true;
    sm_ControlPlaneReadyNodes := members; sm_EtcdReadyMembers := members;
    sm_APIServerReadyMembers := members;
    sm_ControlPlaneMemberSetSHA256 := if lost then hash "c" else members_set;
    sm_TargetHostsEtcd := negb lost; sm_TargetHostsAPIServer := negb lost;
    sm_Workloads := [{| we_ID := "shop"; we_BindingSHA256 := hash "1"; we_ReadyPods := 2;
      we_DistinctReadyNodes := 2; we_MinimumReadyPods := 2; we_MinimumReadyNodes := 1 |}];
    sm_VM := vm;
    sm_DataProbe := {| pe_ID := "ledger"; pe_BindingSHA256 := hash "2"; pe_Implementation := "probe";
      pe_Version := "1.0"; pe_RequestSHA256 := numbered_hash n; pe_AdapterExecutableSHA256 := hash "3";
      pe_HashAlgorithm := "sha256"; pe_DataSHA256 := hash "4"; pe_ValidatedBytes := 4096;
      pe_StartedAt := second n; pe_CompletedAt := second n |};
    sm_SampleSHA256 := "" |}.

Definition vm_with (vmi : string) (ready on_target : bool) : VMEvidence := {|
  ve_ID := "db"; ve_BindingSHA256 := hash "5"; ve_VMUIDSHA256 := hash "6"; ve_VMIUIDSHA256 := vmi;
  ve_VMReady := ready; ve_VMIReady := ready; ve_VMIOnTarget := on_target |}.

Definition on_target : VMEvidence := vm_with (hash "7") true true.
Definition down : VMEvidence := vm_with "" false false.
Definition elsewhere : VMEvidence := vm_with (hash "8") true false.

Definition phase_of (phase : string) (from to : Z) (samples : list SampleEvidence) : PhaseEvidence := {|
  ph_Phase := phase; ph_StartedAt := second from; ph_CompletedAt := second to; ph_Samples := samples;
  ph_SamplesSHA256 := "" |}.

(** Samples once a second from [n] on. *)
Fixpoint samples_from (members_set : string) (n : Z) (phase : string) (vms : list VMEvidence) : list SampleEvidence :=
  match vms with
  | [] => []
  | vm :: rest => sample_at members_set n phase vm :: samples_from members_set (n + 1) phase rest
  end.

(** Three samples before the loss, [vms] during it, three after it. *)
Definition receipt_with (members_set : string) (vms : list VMEvidence) : Receipt :=
  let back := 3 + Z.of_nat (length vms) in
  seal_all {|
    rc_SchemaVersion := ReceiptSchemaVersion; rc_Status := ReceiptStatus;
    rc_RequestSHA256 := hash "9"; rc_RunNonceSHA256 := hash "0"; rc_TargetNodeUIDSHA256 := hash "a";
    rc_NodeUIDHashAlgorithm := NodeUIDHashAlgorithm; rc_KubectlExecutableSHA256 := hash "d";
    rc_ProbeAdapterSHA256 := hash "3"; rc_StartedAt := second 0; rc_ReadyMarkerAt := second 2;
    rc_CompletedAt := second (back + 2); rc_PollInterval := "1s"; rc_FaultArrivalTimeout := "10s";
    rc_MinimumLossWindow := "2s"; rc_RecoveryTimeout := "1m0s"; rc_RecoveryStabilityWindow := "2s";
    rc_MaximumVMUnavailable := "3s"; rc_MinimumControlPlane := 3;
    rc_Baseline := {| bl_ControlPlaneNodes := 3; bl_EtcdMembers := 3; bl_APIServerMembers := 3;
      bl_VMUIDSHA256 := hash "6"; bl_DataSHA256 := hash "4"; bl_ValidatedBytes := 4096;
      bl_ControlPlaneMemberSetSHA256 := members_set; bl_BaselineSHA256 := "" |};
    rc_PreLoss := phase_of PhasePreLoss 0 3 (samples_from members_set 0 PhasePreLoss [on_target; on_target; on_target]);
    rc_Loss := phase_of PhaseLoss 3 back (samples_from members_set 3 PhaseLoss vms);
    rc_Recovered := phase_of PhaseRecovered back (back + 2)
      (samples_from members_set back PhaseRecovered [elsewhere; elsewhere; elsewhere]);
    rc_ReceiptSHA256 := "" |}.

Definition good_receipt : Receipt := receipt_with (hash "b") [down; down; elsewhere; elsewhere].

Definition flapping_receipt : Receipt :=
  receipt_with (hash "b") [down; elsewhere; down; down; down; down; down; down; elsewhere].

Lemma good_receipt_valid : ValidateReceipt (Some good_receipt) = None.
Proof. apply receipt_facts_ok; [apply seal_all_sealed|]. vm_compute. reflexivity. Qed.

(** ** A relapse

    The validator asks only that the virtual machine first runs elsewhere in
    time; the observer refuses any sample that has it down after that time. *)

Lemma flapping_receipt_valid : ValidateReceipt (Some flapping_receipt) = None.
Proof. apply receipt_facts_ok; [apply seal_all_sealed|]. vm_compute. reflexivity. Qed.

Definition observer_refuses (r : Receipt) (vmUnavailable : Duration) (s : SampleEvidence) : bool :=
  negb (is_nil (sampleHealth s PhaseLoss (rc_MinimumControlPlane r) (rc_Baseline r)
    (rc_TargetNodeUIDSHA256 r) vmUnavailable (mustTimestamp (ph_StartedAt (rc_Loss r))))).

Lemma relapses_are_accepted :
  ValidateReceipt (Some flapping_receipt) = None /\
  existsb (observer_refuses flapping_receipt (3 * Second)) (ph_Samples (rc_Loss flapping_receipt)) = true.
Proof. split; [exact flapping_receipt_valid|]. vm_compute. reflexivity. Qed.
