(* ===== verification/OslTrace.v ===== *)
(** * One server lost: the runs of the observer

    What the calls of a run say about the clock, and that a sample is taken
    between two readings of the clock, without sleeping and without a word to
    the fault procedure. *)

From stdpp Require Import gmap strings list sorting.
From Stdlib Require Import ZArith Lia.
From S2P Require Import Prelude GoString GoTime GoSort GoDate GoSha256 Programs GoJson StrictJson GoRfc3339 GoDuration OslTypes OslValidate OslDecode OslSample OslObserve OslSurvive.

#[local] Open Scope Z_scope.
#[local] Opaque sha256_hex.

Abbreviation osl_event := (event osl_call).

(** ** What an event says *)

Definition told (ev : osl_event) : option Time :=
  match ev with
  | Event e x => match e in osl_call X return X -> option Time with
                 | Now => Some
                 | _ => fun _ => None
                 end x
  end.

(** A sleep that was not interrupted. *)
Definition slept (ev : osl_event) : option Duration :=
  match ev with
  | Event e x => match e in osl_call X return X -> option Duration with
                 | Sleep d => fun err => if is_nil err then Some d else None
                 | _ => fun _ => None
                 end x
  end.

Definition signalled (ev : osl_event) : option ReadyMarker :=
  match ev with
  | Event e _ => match e with ReadyForFault marker => Some marker | _ => None end
  end.

Definition is_readyz (ev : osl_event) : bool :=
  match ev with Event e _ => match e with ReadyZ => true | _ => false end end.

(** The samples that were begun. *)
Definition samplings (tr : list osl_event) : nat := length (List.filter is_readyz tr).

(** A clock that does not go back, and does not go on more slowly than sleeps
    last; [now] is a lower bound of its next reading.  Its times have years of
    four digits. *)
Fixpoint ticking (now : Time) (tr : list osl_event) : Prop :=
  match tr with
  | [] => True
  | ev :: tr =>
      match told ev with
      | Some t => now <= t /\ four_digit_year t /\ ticking t tr
      | None => ticking (now + default 0 (slept ev)) tr
      end
  end.

Fixpoint clock_after (now : Time) (tr : list osl_event) : Time :=
  match tr with
  | [] => now
  | ev :: tr =>
      match told ev with
      | Some t => clock_after t tr
      | None => clock_after (now + default 0 (slept ev)) tr
      end
  end.

Lemma ticking_app now tr1 tr2 :
  ticking now (tr1 ++ tr2) <-> ticking now tr1 /\ ticking (clock_after now tr1) tr2.
Proof.
  revert now. induction tr1 as [|ev tr1 IH]; intros now; cbn; [tauto|].
  destruct (told ev); rewrite IH; tauto.
Qed.

Lemma clock_after_app now tr1 tr2 : clock_after now (tr1 ++ tr2) = clock_after (clock_after now tr1) tr2.
Proof. revert now. induction tr1 as [|ev tr1 IH]; intros now; cbn; [done|]. by destruct (told ev). Qed.

Lemma samplings_app tr1 tr2 : samplings (tr1 ++ tr2) = (samplings tr1 + samplings tr2)%nat.
Proof. unfold samplings. by rewrite List.filter_app, length_app. Qed.

(** ** Calls that read the cluster *)

Definition reading (ev : osl_event) : Prop :=
  match ev with
  | Event e _ =>
      match e with ListPage _ _ _ _ _ | Get _ _ _ | Observe_ _ => True | _ => False end
  end.

Definition reads {A} (p : osl A) : Prop := forall tr a, returns p tr a -> Forall reading tr.

Lemma reads_ret {A} (a : A) : reads (Ret a).
Proof. by intros tr b [-> _]. Qed.

Lemma reads_bind {A B} (p : osl A) (f : A -> osl B) : reads p -> (forall a, reads (f a)) -> reads (p ≫= f).
Proof.
  intros Hp Hf tr b H. apply returns_bind in H as (tr1 & tr2 & a & -> & H1 & H2).
  apply Forall_app. split; [by eapply Hp|by eapply Hf].
Qed.

Lemma reads_try {A B} (p : osl (result A)) (f : A -> osl (result B)) :
  reads p -> (forall a, reads (f a)) -> reads (osl_try p f).
Proof.
  intros Hp Hf. apply reads_bind; [done|]. intros [a|err]; [apply Hf|apply reads_ret].
Qed.

Lemma reads_call {X} (e : osl_call X) :
  (forall x, reading (Event e x)) -> reads (call e).
Proof. intros He tr a H. apply returns_call in H as ->. by apply Forall_singleton. Qed.

Create HintDb osl_reads.
#[export] Hint Resolve reads_ret reads_bind reads_try : osl_reads.

(** Walks over the branches of a program that only reads. *)
Ltac osl_reads :=
  repeat first
    [ apply reads_ret
    | apply reads_try; [|intros ?]
    | apply reads_bind; [|intros ?]
    | apply reads_call; intros ?; exact Logic.I
    | progress cbn beta iota zeta
    | match goal with
      | |- reads (if ?b then _ else _) => destruct b
      | |- reads (match ?x with _ => _ end) => destruct x
      end ].

Lemma list_pages_reads pages resource namespace selector l continuation :
  reads (list_pages pages resource namespace selector l continuation).
Proof.
  revert l continuation. induction pages as [|pages IH]; intros l continuation; cbn [list_pages];
    [apply reads_ret|]. apply reads_bind; [apply reads_call; intros ?; exact Logic.I|].
  intros [payload|]; [|apply reads_ret]. destruct (add_page _ _ _ _) as [[l' next]|]; [|apply reads_ret].
  destruct (next == ""); [apply reads_ret|apply IH].
Qed.

Lemma listAll_reads resource namespace selector : reads (listAll resource namespace selector).
Proof. apply list_pages_reads. Qed.

Lemma lift_reads {A} (r : result A) : reads (lift r).
Proof. apply reads_ret. Qed.

Lemma controlPlanePods_reads s component nodes : reads (controlPlanePods s component nodes).
Proof.
  unfold controlPlanePods. apply reads_try; [apply listAll_reads|]. intros ?. osl_reads.
Qed.

Lemma sample_workloads_reads s nodes targets : reads (sample_workloads s nodes targets).
Proof.
  induction targets as [|target rest IH]; cbn [sample_workloads]; [apply reads_ret|].
  apply reads_try; [|intros ?; apply reads_try; [exact IH|intros ?; apply reads_ret]].
  unfold sample_workload. apply reads_try; [apply listAll_reads|]. intros ?. osl_reads.
Qed.

Lemma sample_state_reads s phase started : reads (sample_state s phase started).
Proof.
  unfold sample_state. apply reads_try; [apply listAll_reads|]. intros payloads.
  apply reads_try; [apply lift_reads|]. intros scan. cbn zeta. destruct (_ == _); [apply reads_ret|].
  apply reads_try; [apply controlPlanePods_reads|]. intros etcd.
  apply reads_try; [apply controlPlanePods_reads|]. intros api.
  apply reads_try; [apply sample_workloads_reads|]. intros workloads.
  apply reads_try; [unfold sample_vm; osl_reads; apply lift_reads|]. intros vm.
  apply reads_try; [unfold sample_probe; osl_reads|]. intros probe. apply reads_ret.
Qed.

(** ** The run of a sample *)

Lemma returns_try {A B} (p : osl (result A)) (f : A -> osl (result B)) tr b :
  returns (osl_try p f) tr (Ok b) ->
  exists tr1 tr2 a, tr = tr1 ++ tr2 /\ returns p tr1 (Ok a) /\ returns (f a) tr2 (Ok b).
Proof.
  intros H. apply returns_bind in H as (tr1 & tr2 & [a|err] & -> & H1 & H2); [by exists tr1, tr2, a|].
  by destruct H2 as [_ H2].
Qed.

Lemma returns_lift {A} (r : result A) tr a : returns (lift r) tr (Ok a) -> tr = [] /\ r = Ok a.
Proof. intros [-> H]. by simplify_eq. Qed.

(** The parts of a sample's state, each with the run that read it. *)
Lemma sample_state_inv s phase started tr sample :
  returns (sample_state s phase started) tr (Ok sample) ->
  exists trN trE trA trW trV trP payloads scan etcd api workloads vm probe,
    tr = trN ++ trE ++ trA ++ trW ++ trV ++ trP /\
    returns (listAll nodeResource "" "") trN (Ok payloads) /\
    scan_nodes (rq_TargetNodeName (sp_request s)) no_nodes payloads = Ok scan /\
    returns (controlPlanePods s "etcd" (nd_readyControlPlaneNames scan)) trE (Ok etcd) /\
    returns (controlPlanePods s "kube-apiserver" (nd_readyControlPlaneNames scan)) trA (Ok api) /\
    returns (sample_workloads s (nd_readyNodeNames scan) (rq_Workloads (sp_request s))) trW (Ok workloads) /\
    returns (sample_vm s (nd_readyNodeNames scan)) trV (Ok vm) /\
    returns (sample_probe s (phase_seen phase (nd_ready scan))) trP (Ok probe) /\
    let members := ControlPlaneMemberSetSHA256 (List.map NodeUIDSHA256 (elements (nd_controlPlaneNodes scan))) in
    members <> "" /\ sample = {|
      sm_Sequence := sp_sequence s; sm_Phase := phase_seen phase (nd_ready scan);
      sm_StartedAt := Format_RFC3339Nano started;
      sm_ObservedAt := ""; sm_TargetNodePresent := nd_present scan;
      sm_TargetNodeReady := nd_ready scan; sm_TargetNodeUIDSHA256 := nd_uid scan;
      sm_ReadyZPassed := true;
      sm_ControlPlaneReadyNodes := Z.of_nat (size (nd_controlPlaneNodes scan));
      sm_EtcdReadyMembers := etcd.1; sm_APIServerReadyMembers := api.1;
      sm_ControlPlaneMemberSetSHA256 := members; sm_TargetHostsEtcd := etcd.2;
      sm_TargetHostsAPIServer := api.2; sm_Workloads := workloads; sm_VM := vm;
      sm_DataProbe := probe; sm_SampleSHA256 := "" |}.
Proof.
  unfold sample_state. intros H.
  apply returns_try in H as (trN & ? & payloads & -> & HN & H).
  apply returns_try in H as (? & ? & scan & -> & HS & H). apply returns_lift in HS as [-> HS].
  cbn zeta in H. destruct (_ == "") eqn:Em in H; [by destruct H as [_ H]|]. apply String.eqb_neq in Em.
  apply returns_try in H as (trE & ? & etcd & -> & HE & H).
  apply returns_try in H as (trA & ? & api & -> & HA & H).
  apply returns_try in H as (trW & ? & workloads & -> & HW & H).
  apply returns_try in H as (trV & ? & vm & -> & HV & H).
  apply returns_try in H as (trP & ? & probe & -> & HP & H). destruct H as [-> H]. simplify_eq.
  exists trN, trE, trA, trW, trV, trP, payloads, scan, etcd, api, workloads, vm, probe.
  rewrite app_nil_r. split_and!; done.
Qed.

Lemma reading_quiet ev : reading ev ->
  told ev = None /\ slept ev = None /\ signalled ev = None /\ is_readyz ev = false.
Proof. destruct ev as [X e x]. by destruct e. Qed.

(** The run of [next]: the clock, the readiness, the state, the clock. *)
Lemma next_inv s phase tr r : returns (next s phase) tr r ->
  (exists err, r = Err err /\ (samplings tr <= 1)%nat /\ Forall (fun ev => signalled ev = None) tr) \/
  exists sample t0 mid t1 state,
    r = Ok (seal_sample (SampleEvidence_with_ObservedAt state (Format_RFC3339Nano t1)), next_sequence s) /\
    sample = seal_sample (SampleEvidence_with_ObservedAt state (Format_RFC3339Nano t1)) /\
    tr = Event Now t0 :: Event ReadyZ None :: mid ++ [Event Now t1] /\
    returns (sample_state (next_sequence s) phase t0) mid (Ok state).
Proof.
  assert (forall tr, Forall reading tr -> (samplings tr = 0)%nat /\ Forall (fun ev => signalled ev = None) tr) as Hq.
  { intros q. induction 1 as [|ev q Hev _ [IH1 IH2]]; [by split; [|constructor]|].
    apply reading_quiet in Hev as (_ & _ & H1 & H2). split; [|by constructor].
    unfold samplings in *. cbn. by rewrite H2. }
  unfold next. destruct (_ || _).
  { intros [-> ->]. left. eexists. split_and!; [done|cbn; lia|constructor]. }
  cbn zeta. intros H. destruct H as (t0 & tr1 & -> & H). destruct H as (ready & tr2 & -> & H).
  destruct ready as [err|]; cbn beta iota delta [is_nil negb prog_bind prog_mbind] in H.
  { destruct H as [-> ->]. left. eexists. split_and!; [done|cbn; lia|by repeat constructor]. }
  apply returns_bind in H as (mid & rest & [state|err] & -> & H1 & H2);
    pose proof (sample_state_reads _ _ _ _ _ H1) as Hr; destruct (Hq _ Hr) as [Q1 Q2]; clear Hr.
  - right. destruct H2 as (t1 & tr3 & -> & -> & ->).
    exists (seal_sample (SampleEvidence_with_ObservedAt state (Format_RFC3339Nano t1))), t0, mid, t1, state.
    split_and!; done.
  - left. destruct H2 as [-> ->]. exists err. rewrite app_nil_r. split_and!; [done| |].
    + change (Event Now t0 :: Event ReadyZ None :: mid) with ([Event Now t0; Event ReadyZ None] ++ mid).
      rewrite samplings_app, Q1. cbn. lia.
    + constructor; [done|]. constructor; [done|]. exact Q2.
Qed.

(** What the clock says about a sample: the run starts at [now] at the earliest,
    and what follows it does so at the end of the sample. *)
Lemma next_clock s phase tr sample s' now : returns (next s phase) tr (Ok (sample, s')) -> ticking now tr ->
  now <= began sample <= seen sample /\ clock_after now tr = seen sample /\ four_digit_year (seen sample) /\
  samplings tr = 1%nat /\ s' = next_sequence s.
Proof.
  intros H Ht. apply next_inv in H as [(err & He & _)|(x & t0 & mid & t1 & state & He & _ & -> & Hs)]; [done|].
  simplify_eq. pose proof (sample_state_reads _ _ _ _ _ Hs) as Hr.
  apply sample_state_inv in Hs as Hi.
  destruct Hi as (? & ? & ? & ? & ? & ? & ? & ? & ? & ? & ? & ? & ? & _ & _ & _ & _ & _ & _ & _ & _ & _ & ->).
  destruct Ht as (H0 & Y0 & Ht). cbn [told] in Ht. change (ticking (t0 + 0) (mid ++ [Event Now t1])) in Ht.
  assert (forall n, ticking n (mid ++ [Event Now t1]) ->
    n <= t1 /\ four_digit_year t1 /\ clock_after n (mid ++ [Event Now t1]) = t1 /\
    samplings (mid ++ [Event Now t1]) = 0%nat) as Hm.
  { clear -Hr. induction Hr as [|ev mid Hev _ IH]; intros n Hn; [cbn in Hn; naive_solver|].
    apply reading_quiet in Hev as (E1 & E2 & _ & E4). cbn in Hn. rewrite E1, E2 in Hn. cbn in Hn.
    destruct (IH _ Hn) as (H1 & H2 & H3 & H4). cbn. rewrite E1, E2. cbn.
    split_and!; [lia|done|exact H3|]. unfold samplings in *. cbn. by rewrite E4. }
  destruct (Hm _ Ht) as (H1 & Y1 & H2 & H3). unfold began, seen, mustTimestamp. cbn.
  unfold canonicalTimestamp. rewrite !canonical_Format by done. cbn.
  split_and!; [lia|lia|exact H2|done| |done]. unfold samplings in *. cbn. by rewrite H3.
Qed.

(** * One server lost: listings are complete snapshots

    A listing returns every object of a chain of pages of one version, once,
    in order; and what a sample counts are sets of the objects listed while it
    was taken. *)

(** ** Listings *)

Section Listing.
Context (resource : Resource) (namespace selector : string).

(** An object of the listed kind. *)
Definition object_of (raw : json) : Prop :=
  exists envelope, Decode_raw raw = Some envelope /\ oe_APIVersion envelope = apiVersion resource /\
    oe_Kind envelope = rs_Kind resource /\ validObjectMetadata (oe_Metadata envelope) namespace = true.

(** A page of a version, which tells the token of the next one. *)
Definition page_of (version payload next : string) (items : list json) : Prop :=
  exists page, Decode payload = Ok page /\ le_APIVersion page = apiVersion resource /\
    le_Kind page = rs_ListKind resource /\ lm_ResourceVersion (le_Metadata page) = version /\
    lm_Continue (le_Metadata page) = next /\ le_Items page = items.

(** Pages that follow each other's tokens, to the last one. *)
Inductive page_chain (version : string) : string -> list osl_event -> list json -> Prop :=
  | chain_last token payload items :
      page_of version payload "" items ->
      page_chain version token [Event (ListPage resource namespace selector token 500) (Ok payload)] items
  | chain_next token payload items next tr rest :
      page_of version payload next items -> next <> "" -> page_chain version next tr rest ->
      page_chain version token
        (Event (ListPage resource namespace selector token 500) (Ok payload) :: tr) (items ++ rest).

(** A listing within a trace: the items of all pages, in order of identity. *)
Definition snapshot (tr : list osl_event) (items : list json) : Prop :=
  exists version all, version <> "" /\ page_chain version "" tr all /\ items ≡ₚ all /\
    Sorted (not_after identity_lt) items /\ NoDup (List.map objectSortIdentity items) /\
    Forall object_of items /\ (length tr <= 20)%nat /\ Z.of_nat (length items) <= 10000.

(** What is collected is consistent. *)
Definition collected (items : list json) (identities : gset string) : Prop :=
  NoDup (List.map objectSortIdentity items) /\ Forall object_of items /\
  Z.of_nat (length items) <= 10000 /\ identities = list_to_set (List.map objectSortIdentity items).

Lemma add_items_collected page items identities items' identities' :
  add_items resource namespace items identities page = Ok (items', identities') ->
  collected items identities -> items' = items ++ page /\ collected items' identities'.
Proof.
  revert items identities. induction page as [|raw page IH]; intros items identities H Hc; cbn [add_items] in H.
  { simplify_eq. by rewrite app_nil_r. }
  destruct (Decode_raw raw) as [env|] eqn:Er; [|done]. destruct (_ || _) eqn:E1 in H; [done|].
  cbn zeta in H. destruct (bool_decide _) eqn:E2 in H; [done|]. destruct (10000 <? _) eqn:E3 in H; [done|].
  apply Z.ltb_ge in E3. apply bool_decide_eq_false in E2. go_simp.
  assert (objectSortIdentity raw = identity_of (oe_Metadata env)) as Hid.
  { unfold objectSortIdentity. by rewrite Er. }
  apply IH in H as [-> H]; [split; [by rewrite <- app_assoc|exact H]|].
  destruct Hc as (Hn & Ho & _ & ->). unfold collected. rewrite map_app. split_and!.
  - apply NoDup_app. split_and!; [done| |by apply NoDup_singleton].
    cbn. intros k Hk Hk2. apply list_elem_of_singleton in Hk2 as ->. apply E2.
    rewrite <- Hid. by apply elem_of_list_to_set.
  - apply Forall_app. split; [done|]. apply Forall_singleton. by exists env.
  - done.
  - cbn. rewrite Hid, list_to_set_app_L. cbn. set_solver.
Qed.

Lemma list_pages_snapshot pages l token tr items :
  returns (list_pages pages resource namespace selector l token) tr (Ok items) ->
  collected (ls_items l) (ls_identities l) ->
  exists version rest, version <> "" /\ (ls_resourceVersion l = "" \/ ls_resourceVersion l = version) /\
    page_chain version token tr rest /\ items = sort_Slice identity_lt (ls_items l ++ rest) /\
    (length tr <= pages)%nat /\ exists ids, collected (ls_items l ++ rest) ids.
Proof.
  revert l token tr. induction pages as [|pages IH]; intros l token tr H Hc; cbn [list_pages] in H; [by destruct H|].
  destruct H as (page & tr' & -> & H). cbn beta iota delta [prog_bind prog_mbind] in H.
  destruct page as [payload|]; [|by destruct H].
  destruct (add_page resource namespace l payload) as [[l' next]|] eqn:Ea; [|by destruct H].
  unfold add_page in Ea. cbn zeta in Ea. destruct (maximumAggregateListBytes <? _); [done|].
  destruct (Decode payload) as [page|] eqn:Ed; [|done]. destruct (_ || _) eqn:E1 in Ea; [done|].
  destruct (_ && _) eqn:E2 in Ea; [done|].
  destruct (add_items _ _ _ _ _) as [[items' ids]|] eqn:Ei; [|done].
  apply add_items_collected in Ei as [-> Hc']; [|done].
  assert (lm_ResourceVersion (le_Metadata page) <> "" /\ (ls_resourceVersion l = "" \/
    ls_resourceVersion l = lm_ResourceVersion (le_Metadata page))) as [Hv Hl].
  { split; [by go_simp|]. apply andb_false_iff in E2 as [E2|E2]; go_simp; [by left|by right]. }
  assert (page_of (lm_ResourceVersion (le_Metadata page)) payload (lm_Continue (le_Metadata page)) (le_Items page)) as Hp.
  { exists page. go_simp. by split_and!. }
  destruct (lm_Continue (le_Metadata page) == "") eqn:E3.
  - injection Ea as <- <-. rewrite E3 in H. destruct H as [-> H]. injection H as ->. apply String.eqb_eq in E3.
    exists (lm_ResourceVersion (le_Metadata page)), (le_Items page). rewrite E3 in Hp.
    split_and!; [done|done|by constructor|done|cbn; lia|by exists ids].
  - destruct (8192 <? _) in Ea; [done|]. destruct (bool_decide _) in Ea; [done|]. injection Ea as <- <-.
    rewrite E3 in H. apply IH in H as (version & rest & H1 & H2 & H3 & -> & H5 & H6); [|exact Hc'].
    cbn in H2. destruct H2 as [H2|<-]; [done|]. apply String.eqb_neq in E3.
    exists (lm_ResourceVersion (le_Metadata page)), (le_Items page ++ rest).
    split_and!; [done|done|by econstructor|cbn; by rewrite <- app_assoc|cbn; lia|].
    destruct H6 as [ids' H6]. exists ids'. cbn in H6. by rewrite <- app_assoc in H6.
Qed.

Lemma listAll_snapshot tr items :
  returns (listAll resource namespace selector) tr (Ok items) -> snapshot tr items.
Proof.
  intros H. apply list_pages_snapshot in H as (version & all & Hv & _ & Hc & -> & Hl & ids & Hn & Ho & Hlen & _).
  - pose proof (sort_Slice_perm identity_lt all) as Hp. exists version, all.
    cbn [empty_listing ls_items app] in *. split_and!; [done|done|done| |by rewrite Hp|by rewrite Hp|done|by rewrite Hp].
    apply sort_Slice_sorted; unfold identity_lt; intros *; [apply string_lt_trans|apply string_lt_irrefl].
  - split_and!; [constructor|constructor|done|done].
Qed.
End Listing.

(** ** What is listed in a trace *)

(** The objects of a listing that is a part of the trace. *)
Definition listed {A} (tr : list osl_event) (resource : Resource) (namespace selector : string)
    (decode : json -> result A) (objects : list A) : Prop :=
  exists before mid after items, tr = before ++ mid ++ after /\
    snapshot resource namespace selector mid items /\
    Forall2 (fun raw object => decode raw = Ok object) items objects.

Lemma listed_within {A} big tr1 tr tr2 resource namespace selector (decode : json -> result A) objects :
  listed tr resource namespace selector decode objects -> big = tr1 ++ tr ++ tr2 ->
  listed big resource namespace selector decode objects.
Proof.
  intros (before & mid & after & items & -> & H) ->. exists (tr1 ++ before), mid, (after ++ tr2), items.
  split; [|exact H]. by rewrite <- !app_assoc.
Qed.

(** ** Nodes *)

Definition member_node (node : nodeObject) : bool := node_ready node && control_plane node.

Definition node_name (node : nodeObject) : string := om_Name (no_Metadata node).
Definition node_uid (node : nodeObject) : string := om_UID (no_Metadata node).

(** The names or identities of the nodes that pass a test. *)
Definition node_set (key : nodeObject -> string) (test : nodeObject -> bool) (nodes : list nodeObject) : gset string :=
  list_to_set (List.map key (List.filter test nodes)).

(** The last node with the target's name. *)
Definition target_node (target : string) (nodes : list nodeObject) : option nodeObject :=
  last (List.filter (fun node => node_name node == target) nodes).

Lemma node_set_snoc key test nodes node : node_set key test (nodes ++ [node]) =
  if test node then {[key node]} ∪ node_set key test nodes else node_set key test nodes.
Proof.
  unfold node_set. rewrite List.filter_app, map_app, list_to_set_app_L. cbn.
  destruct (test node); cbn; set_solver.
Qed.

(** The scan of the nodes seen so far. *)
Definition scanned (target : string) (nodes : list nodeObject) (scan : node_scan) : Prop :=
  nd_controlPlaneNodes scan = node_set node_uid member_node nodes /\
  nd_readyNodeNames scan = node_set node_name node_ready nodes /\
  nd_readyControlPlaneNames scan = node_set node_name member_node nodes /\
  nd_present scan = negb (is_nil (target_node target nodes)) /\
  nd_ready scan = match target_node target nodes with Some node => node_ready node | None => false end /\
  nd_uid scan = match target_node target nodes with Some node => NodeUIDSHA256 (node_uid node) | None => "" end.

Lemma scan_node_scanned target nodes scan node :
  scanned target nodes scan -> scanned target (nodes ++ [node]) (scan_node target scan node).
Proof.
  intros (H1 & H2 & H3 & H4 & H5 & H6).
  assert (target_node target (nodes ++ [node]) =
    if node_name node == target then Some node else target_node target nodes) as Ht.
  { unfold target_node. rewrite List.filter_app. cbn. destruct (_ == _); [by rewrite last_snoc|by rewrite app_nil_r]. }
  unfold scanned, scan_node. cbn. rewrite !node_set_snoc, Ht, H1, H2, H3, H4, H5, H6.
  unfold member_node, node_name, node_uid. by destruct (om_Name (no_Metadata node) == target).
Qed.

Lemma scan_nodes_scanned target payloads scan scan' seen_nodes :
  scan_nodes target scan payloads = Ok scan' -> scanned target seen_nodes scan ->
  exists nodes, Forall2 (fun raw node => decodeNode raw = Ok node) payloads nodes /\
    scanned target (seen_nodes ++ nodes) scan'.
Proof.
  revert scan seen_nodes. induction payloads as [|raw rest IH]; intros scan seen_nodes H Hs; cbn [scan_nodes] in H.
  { simplify_eq. exists []. rewrite app_nil_r. by split; [constructor|]. }
  destruct (decodeNode raw) as [node|] eqn:Ed; [|done].
  apply (scan_node_scanned _ _ _ node) in Hs. destruct (IH _ _ H Hs) as (nodes & Hd & Hn).
  exists (node :: nodes). rewrite <- app_assoc in Hn. by split; [constructor|].
Qed.

(** ** Pods *)

Lemma select_pods_inv namespace violated selected payloads pods :
  select_pods namespace violated selected payloads = Ok pods ->
  Forall2 (fun raw pod => decodePod raw namespace = Ok pod) payloads pods /\
  Forall (fun pod => selected pod = true) pods.
Proof.
  revert pods. induction payloads as [|raw rest IH]; intros pods H; cbn [select_pods] in H; [by simplify_eq|].
  destruct (decodePod raw namespace) as [pod|] eqn:Ed; [|done].
  destruct (selected pod) eqn:Es; [|done]. cbn [negb] in H.
  destruct (select_pods _ _ _ rest) as [pods'|]; [|done]. simplify_eq.
  destruct (IH _ eq_refl). by split; constructor.
Qed.

(** The nodes among [nodes] that a pod counts on. *)
Definition hosts_of (nodes : gset string) (pods : list podObject) (hosts : gset string) : Prop :=
  forall n, n ∈ hosts <-> n ∈ nodes /\ exists pod, pod ∈ pods /\ px_NodeName (po_Spec pod) = n /\
    objectTerminating (po_Metadata pod) = false /\ ps_Phase (po_Status pod) = "Running" /\ n <> "" /\
    conditionTrue (ps_Conditions (po_Status pod)) "Ready" = true.

Lemma pod_nodes_hosts nodes pods : hosts_of nodes pods (pod_nodes (ready_pods nodes pods)).
Proof.
  intros n. unfold pod_nodes, ready_pods. rewrite elem_of_list_to_set, list_elem_of_In, in_map_iff.
  setoid_rewrite List.filter_In. setoid_rewrite <- list_elem_of_In. unfold pod_ready. split.
  - intros (pod & <- & Hp & H). go_simp. split; [done|]. exists pod. by split_and!.
  - intros (Hn & pod & Hp & <- & H1 & H2 & H3 & H4). exists pod. split_and!; [done|done|].
    rewrite bool_decide_eq_true_2, H1, H2, String.eqb_refl, H4 by done. cbn.
    apply andb_true_iff. split; [|done]. by apply negb_true_iff, String.eqb_neq.
Qed.

Lemma controlPlanePods_inv s component nodes tr count on_target :
  returns (controlPlanePods s component nodes) tr (Ok (count, on_target)) ->
  exists pods hosts, listed tr podResource "kube-system" ("component=" +:+ component)
      (fun raw => decodePod raw "kube-system") pods /\
    hosts_of nodes pods hosts /\ count = Z.of_nat (size hosts) /\
    (on_target = true <-> rq_TargetNodeName (sp_request s) ∈ hosts).
Proof.
  unfold controlPlanePods. intros H. apply returns_try in H as (tr1 & ? & payloads & -> & H1 & H).
  apply returns_try in H as (? & ? & pods & -> & H2 & H). apply returns_lift in H2 as [-> H2].
  destruct H as [-> H]. injection H as -> ->. apply select_pods_inv in H2 as [H2 _].
  exists pods, (pod_nodes (ready_pods nodes pods)). split_and!; [|apply pod_nodes_hosts|done|].
  - exists [], tr1, [], payloads. apply listAll_snapshot in H1. cbn [app]. by split_and!.
  - apply bool_decide_eq_true.
Qed.

(** The pods of a workload: those ready on ready nodes are counted. *)
Definition workload_counted (nodes : gset string) (tr : list osl_event) (target : WorkloadTarget)
    (workload : WorkloadEvidence) : Prop :=
  exists pods hosts, listed tr podResource (wt_Namespace target) (canonicalSelector (wt_MatchLabels target))
      (fun raw => decodePod raw (wt_Namespace target)) pods /\
    Forall (fun pod => labelsMatch (om_Labels (po_Metadata pod)) (wt_MatchLabels target) = true) pods /\
    hosts_of nodes pods hosts /\ we_ID workload = wt_ID target /\
    we_ReadyPods workload = Z.of_nat (length (List.filter (pod_ready nodes) pods)) /\
    we_DistinctReadyNodes workload = Z.of_nat (size hosts) /\
    we_MinimumReadyPods workload = wt_MinimumReadyPods target /\
    we_MinimumReadyNodes workload = wt_MinimumDistinctReadyNodes target.

Lemma sample_workloads_inv s nodes targets tr workloads :
  returns (sample_workloads s nodes targets) tr (Ok workloads) ->
  Forall2 (workload_counted nodes tr) targets workloads.
Proof.
  revert tr workloads. induction targets as [|target rest IH]; intros tr workloads H; cbn [sample_workloads] in H.
  { destruct H as [_ H]. by simplify_eq. }
  apply returns_try in H as (tr1 & ? & workload & -> & H1 & H).
  apply returns_try in H as (tr2 & ? & others & -> & H2 & H). destruct H as [-> H]. simplify_eq.
  assert (forall a b t w, workload_counted nodes tr2 t w -> workload_counted nodes (a ++ tr2 ++ b) t w) as Hmono.
  { intros a b t w (pods & hosts & Hl & Hr). exists pods, hosts. split; [by eapply listed_within|exact Hr]. }
  constructor; [|eapply Forall2_impl; [exact (IH _ _ H2)|intros t w; apply Hmono]].
  unfold sample_workload in H1. apply returns_try in H1 as (tr3 & ? & payloads & -> & H3 & H1).
  apply returns_try in H1 as (? & ? & pods & -> & H4 & H1). apply returns_lift in H4 as [-> H4].
  destruct H1 as [-> H1]. injection H1 as ->. apply select_pods_inv in H4 as [H4 H5].
  exists pods, (pod_nodes (ready_pods nodes pods)).
  split_and!; try done; [|apply pod_nodes_hosts].
  exists [], tr3, (tr2 ++ []), payloads. apply listAll_snapshot in H3. rewrite !app_nil_r. cbn [app]. by split_and!.
Qed.
