(* ===== verification/OslBound.v ===== *)
(** * One server lost: the observation ends

    With a clock that keeps going, each loop of [Observe] takes a sample at
    least every polling interval and gives up at its deadline, so a run takes
    no more samples than its request was checked for. *)

From stdpp Require Import gmap strings list.
From Stdlib Require Import ZArith Lia.
From S2P Require Import Prelude GoString GoTime GoSort GoSha256 GoJson StrictJson GoRfc3339 GoDuration Programs OslTypes OslValidate OslDecode OslSample OslObserve OslSurvive OslTrace.

#[local] Open Scope Z_scope.
#[local] Opaque sha256_hex.

(** ** The parts of a run *)

Lemma returns_run_bind {A B} (p : run A) (f : A -> run B) tr r : returns (run_bind p f) tr r ->
  (returns p tr None /\ r = None) \/
  (exists err, returns p tr (Some (Err err)) /\ r = Some (Err err)) \/
  (exists tr1 tr2 a, tr = tr1 ++ tr2 /\ returns p tr1 (Some (Ok a)) /\ returns (f a) tr2 r).
Proof.
  unfold run_bind. intros H. apply returns_bind in H as (tr1 & tr2 & [[a|err]|] & -> & H1 & H2).
  - right. right. by exists tr1, tr2, a.
  - destruct H2 as [-> ->]. rewrite app_nil_r. right. left. by exists err.
  - destruct H2 as [-> ->]. rewrite app_nil_r. by left.
Qed.

Lemma returns_guard {A} err (k : run A) tr r : returns (guard_ok err k) tr r ->
  (exists e, tr = [] /\ r = Some (Err e)) \/ (err = None /\ returns k tr r).
Proof.
  destruct err as [e|]; cbn; [|by right]. intros [-> ->]. left. by exists e.
Qed.

(** One round of a loop: it sleeps and takes a sample, or it fails. *)
Lemma returns_round {A} poll message s phase (f : result (SampleEvidence * sampler) -> run A) tr r :
  (forall err tr r, returns (f (Err err)) tr r -> tr = [] /\ exists e, r = Some (Err e)) ->
  returns (sleep poll message (x ← next s phase; f x)) tr r ->
  (exists e, r = Some (Err e) /\ (samplings tr <= 1)%nat /\ Forall (fun ev => signalled ev = None) tr) \/
  (exists trN sample s' tr2, tr = (Event (Sleep poll) None :: trN) ++ tr2 /\
    returns (next s phase) trN (Ok (sample, s')) /\ returns (f (Ok (sample, s'))) tr2 r).
Proof.
  intros Hf (x & rest & -> & H). destruct x as [e|]; cbn beta iota delta [is_nil prog_bind prog_mbind] in H.
  { destruct H as [-> ->]. left. eexists. split_and!; [done|cbn; lia|by constructor]. }
  apply returns_bind in H as (trN & tr2 & [[sample s']|err] & -> & H1 & H2).
  - right. by exists trN, sample, s', tr2.
  - left. apply Hf in H2 as [-> [e ->]]. exists e. rewrite app_nil_r.
    apply next_inv in H1 as [(? & _ & Hn & Hs)|(? & ? & ? & ? & ? & ? & _)]; [|by simplify_eq].
    split_and!; [done|exact Hn|by constructor].
Qed.

(** ** Rounds and deadlines *)

(** A loop that goes on from a sample at [from]: it takes none, or all but the
    last come before the deadline, each a polling interval after the one before;
    and if it runs out of fuel so does the last one. *)
Definition within_deadline {A} (fuel : nat) (poll deadline from : Z) (tr : list osl_event)
    (r : option (result A)) : Prop :=
  samplings tr = 0%nat /\ r <> None \/
  (Z.of_nat (samplings tr) - 1) * poll <= deadline - from /\
  (r = None -> Z.of_nat fuel * poll <= deadline - from).

Lemma within_deadline_none {A} fuel poll deadline from (r : option (result A)) :
  r <> None -> within_deadline fuel poll deadline from [] r.
Proof. by left. Qed.

Lemma within_deadline_stop {A} fuel poll deadline from tr err :
  0 < poll -> from <= deadline -> (samplings tr <= 1)%nat ->
  within_deadline fuel poll deadline from tr (Some (Err err : result A)).
Proof. intros Hp Hd Hs. right. split; [nia|done]. Qed.

(** A round and what follows it. *)
Lemma within_deadline_round {A} fuel poll deadline from from' tr1 tr2 (r : option (result A)) :
  0 < poll -> samplings tr1 = 1%nat -> from + poll <= from' -> from <= deadline ->
  within_deadline fuel poll deadline from' tr2 r ->
  within_deadline (S fuel) poll deadline from (tr1 ++ tr2) r.
Proof.
  intros Hp H1 Hf Hd H. right. rewrite samplings_app, H1. destruct H as [[-> Hr]|[Hn Hr]].
  - split; [lia|done].
  - split; [lia|]. intros Hx. specialize (Hr Hx). lia.
Qed.

(** The clock after a round. *)
Lemma round_clock poll s phase trN sample s' now tr2 : 0 <= poll ->
  returns (next s phase) trN (Ok (sample, s')) ->
  ticking now ((Event (Sleep poll) None :: trN) ++ tr2) ->
  now + poll <= began sample <= seen sample /\ ticking (seen sample) tr2 /\
  clock_after now ((Event (Sleep poll) None :: trN) ++ tr2) = clock_after (seen sample) tr2 /\
  samplings (Event (Sleep poll) None :: trN) = 1%nat.
Proof.
  intros Hp Hn Ht. apply ticking_app in Ht as [Ht Ht2]. rewrite clock_after_app.
  change (ticking (now + poll) trN) in Ht.
  destruct (next_clock _ _ _ _ _ _ Hn Ht) as (H1 & H2 & _ & H3 & _).
  change (clock_after now (Event (Sleep poll) None :: trN)) with (clock_after (now + poll) trN) in *.
  rewrite H2 in *. split_and!; try done; lia.
Qed.

(** ** The loops *)

Section Loops.
Context (j : subject) (poll_positive : 0 < poll_of j) (poll_short : poll_of j < Hour).

(** A round that fails: there is no more than one sample, and no result. *)
Ltac failed_round := intros ? ? ? [-> ->]; split; [done|]; by eexists.

Lemma pre_loop_clock fuel stability t s tr r now : now = seen (tk_last t) -> ticking now tr ->
  returns (pre_loop fuel j stability t s) tr r ->
  within_deadline fuel (poll_of j) (stability + 2 * poll_of j - 1) now tr r /\
  (forall t' s', r = Some (Ok (t', s')) -> clock_after now tr = seen (tk_last t')).
Proof.
  revert t s tr now. induction fuel as [|fuel IH]; intros t s tr now Hnow Ht H; cbn [pre_loop] in H;
    destruct (negb _) eqn:E.
  1, 3: destruct H as [-> ->]; split; [by apply within_deadline_none|]; intros t' s' E'; by simplify_eq.
  all: apply negb_false_iff, Z.ltb_lt in E; change (observed_at ?x) with (seen x) in E; rewrite <- Hnow in E.
  all: assert (now <= stability + 2 * poll_of j - 1) as Hd
    by (clear -E poll_positive poll_short; unfold time_Sub, Hour, Minute, Second, min_int64, max_int64 in *; lia).
  { destruct H as [-> ->]. split; [|done]. right. split; [cbn; lia|intros _; lia]. }
  apply returns_round in H as [(e & -> & Hs & _)|(trN & sample & s' & tr2 & -> & Hn & H)]; [| |failed_round].
  { split; [by apply within_deadline_stop|done]. }
  destruct (round_clock (poll_of j) _ _ _ _ _ _ _ ltac:(lia) Hn Ht) as (Hb & Ht2 & Hc & Hs). rewrite Hc.
  enough (within_deadline fuel (poll_of j) (stability + 2 * poll_of j - 1) (seen sample) tr2 r /\
    forall t' s', r = Some (Ok (t', s')) -> clock_after (seen sample) tr2 = seen (tk_last t')) as [Hw Hr].
  { split; [|exact Hr]. apply (within_deadline_round _ _ _ _ (seen sample)); try done. lia. }
  destruct (_ != _) in H; [destruct H as [-> ->]; by split; [left|]|].
  apply returns_guard in H as [(e & -> & ->)|[_ H]]; [by split; [left|]|].
  destruct (observationGap _ _ _) in H; [destruct H as [-> ->]; by split; [left|]|].
  exact (IH (take_sample t sample) s' tr2 (seen sample) eq_refl Ht2 H).
Qed.

Lemma fault_loop_clock fuel deadline t s tr r now : now = seen (tk_last t) -> now <= deadline ->
  ticking now tr -> returns (fault_loop fuel j deadline t s) tr r ->
  within_deadline fuel (poll_of j) deadline now tr r /\
  (forall t' l s', r = Some (Ok (t', l, s')) -> clock_after now tr = seen l /\ now <= seen l <= deadline).
Proof.
  revert t s tr now. induction fuel as [|fuel IH]; intros t s tr now Hnow Hd Ht H; cbn [fault_loop] in H.
  { destruct H as [-> ->]. split; [|done]. right. split; [cbn; lia|intros _; lia]. }
  apply returns_round in H as [(e & -> & Hs & _)|(trN & sample & s' & tr2 & -> & Hn & H)]; [| |failed_round].
  { split; [by apply within_deadline_stop|done]. }
  destruct (round_clock (poll_of j) _ _ _ _ _ _ _ ltac:(lia) Hn Ht) as (Hb & Ht2 & Hc & Hs). rewrite Hc.
  enough (within_deadline fuel (poll_of j) deadline (seen sample) tr2 r /\
    forall t' l s', r = Some (Ok (t', l, s')) ->
      clock_after (seen sample) tr2 = seen l /\ seen sample <= seen l <= deadline) as [Hw Hr].
  { split; [apply (within_deadline_round _ _ _ _ (seen sample)); try done; lia|]. intros t' l s'' E'. destruct (Hr _ _ _ E'). split; [done|lia]. }
  destruct (observationGap _ _ _) in H; [destruct H as [-> ->]; by split; [left|]|].
  destruct (sm_Phase sample == PhasePreLoss).
  - destruct (After _ _) eqn:E in H; [destruct H as [-> ->]; by split; [left|]|].
    apply returns_guard in H as [(e & -> & ->)|[_ H]]; [by split; [left|]|].
    unfold After in E. apply Z.ltb_ge in E. exact (IH (take_sample t sample) s' tr2 (seen sample) eq_refl E Ht2 H).
  - destruct (_ || _) eqn:E in H; [destruct H as [-> ->]; by split; [left|]|].
    destruct H as [-> ->]. apply orb_false_iff in E as [_ E]. unfold After in E. apply Z.ltb_ge in E.
    split; [by left|]. intros t' l s'' E'. simplify_eq. split; [done|]. split; [lia|exact E].
Qed.

(** The samples of the loss come before the first one of the recovery. *)
Lemma loss_loop_clock fuel lossStarted deadline moved t s tr r now : now = seen (tk_last t) ->
  now <= deadline -> ticking now tr -> returns (loss_loop fuel j lossStarted deadline moved t s) tr r ->
  within_deadline fuel (poll_of j) deadline now tr r /\
  (forall t' b s', r = Some (Ok (t', b, s')) -> clock_after now tr = seen b /\
     now + Z.of_nat (samplings tr) * poll_of j <= seen b <= deadline).
Proof.
  revert moved t s tr now. induction fuel as [|fuel IH]; intros moved t s tr now Hnow Hd Ht H; cbn [loss_loop] in H.
  { destruct H as [-> ->]. split; [|done]. right. split; [cbn; lia|intros _; lia]. }
  apply returns_round in H as [(e & -> & Hs & _)|(trN & sample & s' & tr2 & -> & Hn & H)]; [| |failed_round].
  { split; [by apply within_deadline_stop|done]. }
  destruct (round_clock (poll_of j) _ _ _ _ _ _ _ ltac:(lia) Hn Ht) as (Hb & Ht2 & Hc & Hs).
  rewrite Hc, samplings_app, Hs.
  enough (within_deadline fuel (poll_of j) deadline (seen sample) tr2 r /\
    forall t' b s', r = Some (Ok (t', b, s')) -> clock_after (seen sample) tr2 = seen b /\
      seen sample + Z.of_nat (samplings tr2) * poll_of j <= seen b <= deadline) as [Hw Hr].
  { split; [apply (within_deadline_round _ _ _ _ (seen sample)); try done; lia|]. intros t' b s'' E'. destruct (Hr _ _ _ E'). split; [done|lia]. }
  destruct (observationGap _ _ _) in H; [destruct H as [-> ->]; by split; [left|]|]. cbn zeta in H.
  destruct (After _ _) eqn:E in H; [destruct H as [-> ->]; by split; [left|]|].
  unfold After in E. apply Z.ltb_ge in E. destruct (sm_Phase sample == PhaseLoss).
  - apply returns_guard in H as [(e & -> & ->)|[_ H]]; [by split; [left|]|].
    destruct (_ && _) in H; [destruct H as [-> ->]; by split; [left|]|]. exact (IH _ (take_sample t sample) s' tr2 (seen sample) eq_refl E Ht2 H).
  - destruct (_ || _) in H; [destruct H as [-> ->]; by split; [left|]|].
    apply returns_guard in H as [(e & -> & ->)|[_ [-> ->]]]; [by split; [left|]|].
    split; [by left|]. intros t' b s'' E'. simplify_eq. cbn. split; [done|]. split; [lia|exact E].
Qed.

Lemma recovery_loop_clock fuel lossStarted stability deadline t s tr r now : now = seen (tk_last t) ->
  now <= deadline -> ticking now tr ->
  returns (recovery_loop fuel j lossStarted stability deadline t s) tr r ->
  within_deadline fuel (poll_of j) deadline now tr r.
Proof.
  revert t s tr now. induction fuel as [|fuel IH]; intros t s tr now Hnow Hd Ht H; cbn [recovery_loop] in H;
    destruct (negb _).
  1, 3: destruct H as [-> ->]; by apply within_deadline_none.
  { destruct H as [-> ->]. right. split; [cbn; lia|intros _; lia]. }
  apply returns_round in H as [(e & -> & Hs & _)|(trN & sample & s' & tr2 & -> & Hn & H)]; [| |failed_round].
  { by apply within_deadline_stop. }
  destruct (round_clock (poll_of j) _ _ _ _ _ _ _ ltac:(lia) Hn Ht) as (Hb & Ht2 & _ & Hs).
  apply (within_deadline_round _ _ _ _ (seen sample)); [lia|done|lia|done|].
  destruct (_ != _) in H; [destruct H as [-> ->]; by left|].
  destruct (_ || _) eqn:E in H; [destruct H as [-> ->]; by left|].
  apply returns_guard in H as [(e & -> & ->)|[_ H]]; [by left|].
  apply orb_false_iff in E as [_ E]. unfold After in E. apply Z.ltb_ge in E. exact (IH (take_sample t sample) s' tr2 (seen sample) eq_refl E Ht2 H).
Qed.
End Loops.

(** ** The whole observation *)

Definition windows_of (parsed : parsedRequest) : windows := {|
  wn_poll := pr_poll parsed; wn_faultTimeout := pr_faultTimeout parsed;
  wn_lossWindow := pr_lossWindow parsed; wn_recoveryTimeout := pr_recoveryTimeout parsed;
  wn_recoveryStability := pr_recoveryStability parsed; wn_vmUnavailable := pr_vmUnavailable parsed |}.

Lemma validateRequest_ok request parsed : validateRequest request = Ok parsed ->
  windows_ok (windows_of parsed) /\ estimatedSamples (windows_of parsed) <= maximumSamples /\
  pr_requestSHA256 parsed = digestJSON request.
Proof.
  unfold validateRequest. destruct (_ || _); [done|].
  destruct (parse_windows _ _ _ _ _ _ _) as [w|] eqn:Ew; [|done]. apply parse_windows_ok in Ew.
  destruct (_ || _) eqn:E; [done|]. apply orb_false_iff in E as [E _]. apply Z.ltb_ge in E. destruct (bind_workloads _ _ _); [|done]. cbn zeta.
  destruct (_ || _); [done|]. destruct (_ || _); [done|]. intros [= <-]. by destruct w.
Qed.

Lemma samplings_cons ev tr : is_readyz ev = false -> samplings (ev :: tr) = samplings tr.
Proof. unfold samplings. cbn. by intros ->. Qed.

(** From the ready marker on. *)
Lemma after_ready_clock fuel j reader probe first t s tr r now :
  windows_ok (windows_of (sj_parsed j)) -> now = seen (tk_last t) -> ticking now tr ->
  returns (after_ready fuel j reader probe first t s) tr r ->
  let p := poll_of j in
  let wait := pr_faultTimeout (sj_parsed j) in
  let recovery := pr_recoveryTimeout (sj_parsed j) in
  Z.of_nat (samplings tr) * p <= wait + recovery + 2 * p /\
  (r = None -> Z.of_nat fuel * p <= wait + recovery).
Proof.
  intros [Hp Hf Hl Hr _ _] Hnow Ht H. cbn in Hp, Hf, Hl, Hr. cbn zeta.
  assert (0 < poll_of j) as Hp0 by (unfold poll_of, Second in *; lia).
  assert (poll_of j < Hour) as Hp1 by (unfold poll_of, Hour, Minute, Second in *; lia).
  fold (poll_of j) in Hp, Hf, Hl, Hr.
  unfold after_ready in H. cbn zeta in H.
  apply returns_guard in H as [(e & -> & ->)|[_ H]]; [split; [cbn; lia|done]|].
  destruct H as (published & tr1 & -> & H). rewrite samplings_cons by done.
  destruct published as [err|]; cbn beta iota delta [is_nil negb prog_bind prog_mbind] in H.
  { destruct H as [-> ->]. split; [cbn; lia|done]. }
  change (ticking (now + 0) tr1) in Ht. rewrite Z.add_0_r in Ht.
  change (mustTimestamp (sm_ObservedAt (tk_last t))) with (seen (tk_last t)) in H. rewrite <- Hnow in H.
  unfold time_Add in H.
  apply returns_run_bind in H as [[H ->]|[(err & H & ->)|(trF & tr2 & [[pre l] s1] & -> & HF & H)]].
  1, 2: destruct (fault_loop_clock j Hp0 fuel (now + pr_faultTimeout (sj_parsed j)) t s _ _ now Hnow ltac:(lia) Ht H) as [[[Hz Hn]|[Hn Hnone]] _];
    [first [done | split; [rewrite ?Hz; cbn; lia|done]]|split; [nia|intros Hx; first [done | specialize (Hnone eq_refl); lia]]].
  apply ticking_app in Ht as [Ht Ht2]. rewrite samplings_app.
  destruct (fault_loop_clock j Hp0 fuel (now + pr_faultTimeout (sj_parsed j)) t s _ _ now Hnow ltac:(lia) Ht HF) as [Hw Hc].
  destruct (Hc _ _ _ eq_refl) as [Hc1 Hc2]. rewrite Hc1 in Ht2. clear Hc Hc1.
  assert (Z.of_nat (samplings trF) * poll_of j <= pr_faultTimeout (sj_parsed j) + poll_of j) as HnF.
  { destruct Hw as [[Hz _]|[Hn _]]; [rewrite Hz; cbn|]; lia. } clear Hw HF Ht.
  enough (Z.of_nat (samplings tr2) * poll_of j <= pr_recoveryTimeout (sj_parsed j) + poll_of j /\
    (r = None -> Z.of_nat fuel * poll_of j <= pr_recoveryTimeout (sj_parsed j))) as [Ha Hb].
  { split; [lia|]. intros Hx. specialize (Hb Hx). lia. }
  apply returns_guard in H as [(e & -> & ->)|[_ H]]; [split; [cbn; lia|done]|].
  change (observed_at l) with (seen l) in H.
  apply returns_run_bind in H as [[H ->]|[(err & H & ->)|(trL & tr3 & [[loss b] s2] & -> & HL & H)]].
  1, 2: destruct (loss_loop_clock j Hp0 fuel (seen l) (seen l + pr_recoveryTimeout (sj_parsed j)) _ (first_taken l)
    _ _ _ (seen l) eq_refl ltac:(lia) Ht2 H) as [[[Hz Hn]|[Hn Hnone]] _];
    [first [done | split; [rewrite ?Hz; cbn; lia|done]]|split; [nia|intros Hx; first [done | specialize (Hnone eq_refl); lia]]].
  destruct (loss_loop_clock j Hp0 fuel (seen l) (seen l + pr_recoveryTimeout (sj_parsed j)) _ (first_taken l)
    _ _ _ (seen l) eq_refl ltac:(lia) (proj1 (proj1 (ticking_app _ _ _) Ht2)) HL) as [_ Hc].
  apply ticking_app in Ht2 as [_ Ht3]. rewrite samplings_app.
  destruct (Hc _ _ _ eq_refl) as [Hc1 Hc3]. rewrite Hc1 in Ht3. clear Hc Hc1 HL.
  change (observed_at b) with (seen b) in H.
  apply returns_run_bind in H as [[H ->]|[(err & H & ->)|(trR & tr4 & rec & -> & HR & H)]].
  1, 2: apply (recovery_loop_clock j Hp0 fuel (seen l) (seen b) (seen l + pr_recoveryTimeout (sj_parsed j)) (first_taken b) _ _ _ (seen b) eq_refl ltac:(lia) Ht3) in H
    as [[Hz Hn]|[Hn Hnone]];
    [first [done | split; [rewrite ?Hz; cbn; lia|done]]|split; [lia|intros Hx; first [done | specialize (Hnone eq_refl); lia]]].
  apply (recovery_loop_clock j Hp0 fuel (seen l) (seen b) (seen l + pr_recoveryTimeout (sj_parsed j)) (first_taken b) _ _ _ (seen b) eq_refl ltac:(lia)) in HR
    as HR'; [|by apply ticking_app in Ht3 as [Ht3 _]].
  assert (samplings tr4 = 0%nat /\ r <> None) as [Hz4 Hr4].
  { by destruct H as [-> ->]. }
  rewrite samplings_app, Hz4, Nat.add_0_r. split; [|intros Hx; destruct (Hr4 Hx)].
  destruct HR' as [[Hz _]|[Hn _]]; [rewrite Hz|]; lia.
Qed.

Lemma samplings_bound p n a : 0 < p -> 0 <= a -> Z.of_nat n * p <= a + 5 * p -> Z.of_nat n <= Z.quot a p + 5.
Proof.
  intros Hp Ha H. rewrite Z.quot_div_nonneg by lia.
  pose proof (Z.div_mod a p ltac:(lia)). pose proof (Z.mod_pos_bound a p Hp). nia.
Qed.

Lemma make_receipt_clock fuel ctx reader probe barrier request clock tr r now :
  ticking now tr -> returns (make_receipt fuel ctx reader probe barrier request clock) tr r ->
  maximumSamples <= Z.of_nat fuel ->
  r <> None /\ Z.of_nat (samplings tr) <= maximumSamples.
Proof.
  intros Ht H Hfuel. unfold make_receipt in H.
  assert (forall tr' (err : goerror), tr' = [] /\ r = Some (Err err) ->
    r <> None /\ Z.of_nat (samplings tr') <= maximumSamples) as Hstop by (by intros tr' err [-> ->]).
  destruct (validateRequest request) as [parsed|err] eqn:Ev; [|exact (Hstop _ _ H)].
  destruct reader as [rd|]; [|exact (Hstop _ _ H)]. destruct probe as [pb|]; [|exact (Hstop _ _ H)].
  destruct (_ || _); [exact (Hstop _ _ H)|]. cbn zeta in H.
  apply validateRequest_ok in Ev as (Hw & He & _).
  pose proof Hw as [Hp Hf Hl Hr _ _]. cbn in Hp, Hf, Hl, Hr.
  apply returns_bind in H as (tr1 & tr2 & x & -> & H1 & H). apply ticking_app in Ht as [Ht1 Ht2].
  destruct x as [[first s]|err].
  2:{ destruct H as [-> ->]. rewrite app_nil_r. split; [done|].
      apply next_inv in H1 as [(? & _ & Hn & _)|(? & ? & ? & ? & ? & ? & _)]; [|by simplify_eq].
      unfold maximumSamples. lia. }
  destruct (next_clock _ _ _ _ _ _ H1 Ht1) as (Hb & Hc & _ & Hs & _). rewrite Hc in Ht2.
  rewrite samplings_app, Hs.
  set (j := {| sj_request := request; sj_parsed := parsed; sj_baseline := baseline_of first;
               sj_target := sm_TargetNodeUIDSHA256 first |}) in *.
  assert (0 < poll_of j) as Hp0 by (unfold poll_of, j; cbn; unfold Second in *; lia).
  assert (poll_of j < Hour) as Hp1 by (unfold poll_of, j; cbn; unfold Hour, Minute, Second in *; lia).
  enough (r <> None /\ Z.of_nat (samplings tr2) * poll_of j <=
            pr_faultTimeout parsed + pr_recoveryTimeout parsed + 4 * poll_of j) as [Hr' Hn].
  { split; [exact Hr'|]. unfold estimatedSamples in He. cbn in He. fold (poll_of j) in He.
    pose proof (samplings_bound (poll_of j) (1 + samplings tr2) (pr_faultTimeout parsed + pr_recoveryTimeout parsed)
      Hp0 ltac:(unfold poll_of, j in *; cbn in *; lia) ltac:(lia)) as Hq.
    change (pr_poll parsed) with (poll_of j) in He. lia. }
  assert (Z.of_nat fuel * poll_of j > pr_faultTimeout parsed + pr_recoveryTimeout parsed + 2 * poll_of j) as Hfu.
  { unfold estimatedSamples in He. cbn in He. change (pr_poll parsed) with (poll_of j) in He.
    rewrite Z.quot_div_nonneg in He by (unfold poll_of, j in *; cbn in *; lia).
    pose proof (Z.div_mod (pr_faultTimeout parsed + pr_recoveryTimeout parsed) (poll_of j) ltac:(lia)).
    pose proof (Z.mod_pos_bound (pr_faultTimeout parsed + pr_recoveryTimeout parsed) (poll_of j) Hp0). nia. }
  destruct (_ != _) in H; [destruct H as [-> ->]; split; [done|cbn; lia]|].
  apply returns_guard in H as [(e & -> & ->)|[_ H]]; [split; [done|cbn; lia]|].
  change (observed_at first) with (seen first) in H.
  apply returns_run_bind in H as [[H ->]|[(err & H & ->)|(trP & tr3 & [t s1] & -> & HP & H)]].
  1, 2: destruct (pre_loop_clock j Hp0 Hp1 fuel (seen first) (first_taken first) _ _ _ (seen first) eq_refl Ht2 H)
    as [[[Hz Hn]|[Hn Hnone]] _];
    [first [done | split; [done|rewrite ?Hz; cbn; lia]]|split; [first [done | intros _; specialize (Hnone eq_refl); lia]|lia]].
  apply ticking_app in Ht2 as [Ht2 Ht3].
  destruct (pre_loop_clock j Hp0 Hp1 fuel (seen first) (first_taken first) _ _ _ (seen first) eq_refl Ht2 HP) as [Hpre Hpc].
  rewrite (Hpc _ _ eq_refl) in Ht3.
  destruct (after_ready_clock fuel j rd pb first t s1 _ _ _ Hw eq_refl Ht3 H) as [Ha Hb'].
  cbn zeta in Ha, Hb'. change (sj_parsed j) with parsed in Ha, Hb'. rewrite samplings_app. split.
  - intros Hx. specialize (Hb' Hx). lia.
  - rewrite Nat2Z.inj_add, Z.mul_add_distr_r. destruct Hpre as [[Hz _]|[Hn _]]; [rewrite Hz; lia|].
    assert (Z.of_nat (samplings trP) <= 2) by nia. nia.
Qed.

(** The validation of the receipt makes no calls. *)
Definition validated (r : option (result Receipt)) : option (result Receipt) :=
  match r with
  | Some (Ok receipt) => match ValidateReceipt (Some receipt) with None => r | Some err => Some (Err err) end
  | _ => r
  end.

Lemma Observe_returns fuel ctx reader probe barrier request clock tr r :
  returns (Observe fuel ctx reader probe barrier request clock) tr r <->
  exists r0, returns (make_receipt fuel ctx reader probe barrier request clock) tr r0 /\ r = validated r0.
Proof.
  unfold Observe, run_bind. rewrite returns_bind. split.
  - intros (tr1 & tr2 & r0 & -> & H1 & H2). exists r0.
    assert (tr2 = [] /\ r = validated r0) as [-> ->]; [|by rewrite app_nil_r].
    unfold validated. destruct r0 as [[receipt|err]|]; [|exact H2..]. unfold guard_ok in H2.
    destruct (ValidateReceipt (Some receipt)); exact H2.
  - intros (r0 & H1 & ->). exists tr, [], r0. split_and!; [by rewrite app_nil_r|exact H1|].
    unfold validated. destruct r0 as [[receipt|err]|]; [|done..]. unfold guard_ok.
    by destruct (ValidateReceipt (Some receipt)).
Qed.

Lemma Observe_clock fuel ctx reader probe barrier request clock tr r now :
  ticking now tr -> returns (Observe fuel ctx reader probe barrier request clock) tr r ->
  maximumSamples <= Z.of_nat fuel ->
  r <> None /\ Z.of_nat (samplings tr) <= maximumSamples.
Proof.
  intros Ht (r0 & H & ->)%Observe_returns Hf. destruct (make_receipt_clock _ _ _ _ _ _ _ _ _ _ Ht H Hf) as [Hr Hn].
  split; [|exact Hn]. destruct r0 as [[receipt|err]|]; [|done|done]. unfold validated.
  by destruct (ValidateReceipt (Some receipt)).
Qed.
