(* ===== verification/OslRuns.v ===== *)
(** * One server lost: what a run of the observer consists of

    The samples of a run, in the order they were taken; that the fault
    procedure is told to begin after a stable healthy state, once; and that a
    receipt holds every sample of its run. *)

From stdpp Require Import gmap strings list.
From Stdlib Require Import ZArith Lia.
From S2P Require Import Prelude GoString GoTime GoSort GoSha256 GoJson StrictJson GoRfc3339 GoDuration Programs OslTypes OslValidate OslDecode OslSample OslObserve OslSurvive OslSeal OslTrace OslBound.

#[local] Open Scope Z_scope.
#[local] Opaque sha256_hex.

(** ** Traces of samples *)

(** A trace in which these samples were taken, one after the other, with
    nothing but sleeps between them. *)
Inductive sampled : sampler -> list osl_event -> list SampleEvidence -> sampler -> Prop :=
  | sampled_nil s : sampled s [] [] s
  | sampled_sleep s d tr xs s' :
      sampled s tr xs s' -> sampled s (Event (Sleep d) None :: tr) xs s'
  | sampled_next s phase trN x s1 tr xs s' :
      returns (next s phase) trN (Ok (x, s1)) -> sampled s1 tr xs s' ->
      sampled s (trN ++ tr) (x :: xs) s'.

Lemma sampled_app s tr1 xs s1 tr2 ys s2 :
  sampled s tr1 xs s1 -> sampled s1 tr2 ys s2 -> sampled s (tr1 ++ tr2) (xs ++ ys) s2.
Proof.
  induction 1 as [|s d tr xs s' H IH|s phase trN x s1' tr xs s' Hn H IH]; intros H2; [done|..].
  - constructor. by apply IH.
  - rewrite <- app_assoc. cbn. econstructor; [exact Hn|by apply IH].
Qed.

Lemma sampled_round s phase poll trN x s1 tr xs s' :
  returns (next s phase) trN (Ok (x, s1)) -> sampled s1 tr xs s' ->
  sampled s ((Event (Sleep poll) None :: trN) ++ tr) (x :: xs) s'.
Proof. intros Hn H. cbn. constructor. by econstructor. Qed.

Definition unsignalled (tr : list osl_event) : Prop := Forall (fun ev => signalled ev = None) tr.

Lemma next_unsignalled s phase tr r : returns (next s phase) tr r -> unsignalled tr.
Proof.
  intros H. apply next_inv in H as [(e & _ & _ & H)|(x & t0 & mid & t1 & state & _ & _ & -> & H)]; [done|].
  apply sample_state_reads in H. constructor; [done|]. constructor; [done|].
  apply Forall_app. split; [|by constructor]. eapply Forall_impl; [exact H|].
  intros ev Hev. by apply reading_quiet in Hev as (_ & _ & Hs & _).
Qed.

Lemma sampled_unsignalled s tr xs s' : sampled s tr xs s' -> unsignalled tr.
Proof.
  induction 1 as [|s d tr xs s' H IH|s phase trN x s1' tr xs s' Hn H IH]; [constructor|by constructor|].
  apply Forall_app. split; [by eapply next_unsignalled|done].
Qed.

Definition sample_sealed (x : SampleEvidence) : Prop := sm_SampleSHA256 x = sampleDigest x.

Lemma sampled_sealed s tr xs s' : sampled s tr xs s' -> Forall sample_sealed xs.
Proof.
  induction 1 as [|s d tr xs s' H IH|s phase trN x s1' tr xs s' Hn H IH]; [constructor|done|].
  constructor; [|done]. apply next_inv in Hn as [(e & He & _)|(y & t0 & mid & t1 & state & He & _)]; [done|].
  injection He as -> _. apply seal_sample_sealed.
Qed.

(** ** The healthy state *)

(** What a sample before the loss shares with the first one. *)
Record healthy (request : Request) (first x : SampleEvidence) : Prop := {
  hl_phase : sm_Phase x = PhasePreLoss;
  hl_target : sm_TargetNodeReady x = true /\ sm_TargetNodeUIDSHA256 x = sm_TargetNodeUIDSHA256 first;
  hl_members : sm_ControlPlaneMemberSetSHA256 x = sm_ControlPlaneMemberSetSHA256 first;
  hl_count : rq_MinimumControlPlaneMembers request <= sm_ControlPlaneReadyNodes first <=
             sm_ControlPlaneReadyNodes x;
  hl_etcd : 3 <= sm_EtcdReadyMembers first <= sm_EtcdReadyMembers x;
  hl_api : 3 <= sm_APIServerReadyMembers first <= sm_APIServerReadyMembers x;
  hl_hosts : sm_TargetHostsEtcd x = true /\ sm_TargetHostsAPIServer x = true;
  hl_vm : ve_VMUIDSHA256 (sm_VM x) = ve_VMUIDSHA256 (sm_VM first) /\ ve_VMReady (sm_VM x) = true /\
          ve_VMIReady (sm_VM x) = true /\ ve_VMIOnTarget (sm_VM x) = true;
  hl_data : pe_DataSHA256 (sm_DataProbe x) = pe_DataSHA256 (sm_DataProbe first) /\
            pe_ValidatedBytes (sm_DataProbe x) = pe_ValidatedBytes (sm_DataProbe first);
  hl_workloads : Forall (fun wl => we_MinimumReadyPods wl <= we_ReadyPods wl /\
                   we_MinimumReadyNodes wl <= we_DistinctReadyNodes wl) (sm_Workloads x)
}.

Definition subject_of (request : Request) (parsed : parsedRequest) (first : SampleEvidence) : subject := {|
  sj_request := request; sj_parsed := parsed; sj_baseline := baseline_of first;
  sj_target := sm_TargetNodeUIDSHA256 first |}.

Lemma health_healthy request parsed first x :
  health (subject_of request parsed first) PhasePreLoss time_zero x = None -> healthy request first x.
Proof.
  unfold health, sampleHealth. cbn zeta. destruct (_ || _) eqn:E1; [done|].
  destruct (workloads_short x) eqn:E2; [done|]. change (PhasePreLoss == PhasePreLoss) with true. cbn iota.
  destruct (_ || _) eqn:E3 in |- *; [done|]. intros _. unfold workloads_short in E2.
  apply existsb_false_Forall in E2. cbn in *. go_simp. constructor; try done; try lia.
  eapply Forall_impl; [exact E2|]. cbn. intros wl Hw. go_simp. lia.
Qed.

(** Consecutive samples are at most two polling intervals apart. *)
Fixpoint gap_free (poll : Duration) (previous : SampleEvidence) (xs : list SampleEvidence) : Prop :=
  match xs with
  | [] => True
  | x :: rest => seen previous <= began x <= seen previous + 2 * poll /\ gap_free poll x rest
  end.

Lemma observationGap_false previous x poll : 0 <= poll < Hour ->
  observationGap previous x poll = false -> seen previous <= began x <= seen previous + 2 * poll.
Proof.
  unfold observationGap, Before. cbn zeta. intros Hp H. apply orb_false_iff in H as [H1 H2].
  apply Z.ltb_ge in H1. apply time_Sub_gap in H2; [done|]. unfold Hour, Minute, Second, max_int64 in *. lia.
Qed.

Lemma last_shift {A} (x d : A) xs : List.last (x :: xs) d = List.last xs x.
Proof.
  revert x d. induction xs as [|y xs IH]; intros x d; [done|].
  change (List.last (y :: xs) d = List.last (y :: xs) x). by rewrite !IH.
Qed.

(** ** The runs of the loops *)

Section Loops.
Context (request : Request) (parsed : parsedRequest) (first : SampleEvidence).
Context (poll_bound : 0 <= pr_poll parsed < Hour).
#[local] Abbreviation j := (subject_of request parsed first).

(** A round that fails: there is no sample after it. *)
Ltac failed_round := intros ? ? ? [-> ->]; split; [done|]; by eexists.

Lemma pre_loop_sampled fuel stability t s tr t' s' :
  returns (pre_loop fuel j stability t s) tr (Some (Ok (t', s'))) ->
  exists xs, sampled s tr xs s' /\ tk_samples t' = tk_samples t ++ xs /\
    List.last xs (tk_last t) = tk_last t' /\ Forall (healthy request first) xs /\
    gap_free (pr_poll parsed) (tk_last t) xs /\ stability + 2 * pr_poll parsed <= seen (tk_last t').
Proof.
  revert t s tr. induction fuel as [|fuel IH]; intros t s tr H; cbn [pre_loop] in H; destruct (negb _) eqn:E.
  1, 3: destruct H as [-> H]; simplify_eq; exists []; rewrite app_nil_r; split_and!; [apply sampled_nil|reflexivity|reflexivity|apply Forall_nil_2|exact Logic.I|];
    apply negb_true_iff, time_Sub_long in E; [exact E|];
    change (poll_of j) with (pr_poll parsed); clear -poll_bound; unfold min_int64; lia.
  { by destruct H. }
  apply returns_round in H as [(e & Hr & _)|(trN & sample & s1 & tr2 & -> & Hn & H)]; [done| |failed_round].
  destruct (_ != _) in H; [by destruct H|].
  apply returns_guard in H as [(e & _ & Hr)|[Hh H]]; [done|].
  destruct (observationGap _ _ _) eqn:Eg in H; [by destruct H|].
  apply observationGap_false in Eg; [|exact poll_bound].
  apply IH in H as (xs & Hs & Ht & Hl & Hx & Hg & Hw). exists (sample :: xs). split_and!; try done.
  - by eapply sampled_round.
  - rewrite Ht. cbn. by rewrite <- app_assoc.
  - by rewrite <- Hl, last_shift.
  - constructor; [by eapply health_healthy|done].
Qed.

Lemma fault_loop_sampled fuel deadline t s tr t' l s' :
  returns (fault_loop fuel j deadline t s) tr (Some (Ok (t', l, s'))) ->
  exists xs, sampled s tr (xs ++ [l]) s' /\ tk_samples t' = tk_samples t ++ xs.
Proof.
  revert t s tr. induction fuel as [|fuel IH]; intros t s tr H; cbn [fault_loop] in H; [by destruct H|].
  apply returns_round in H as [(e & Hr & _)|(trN & sample & s1 & tr2 & -> & Hn & H)]; [done| |failed_round].
  destruct (observationGap _ _ _) in H; [by destruct H|]. destruct (sm_Phase sample == PhasePreLoss).
  - destruct (After _ _) in H; [by destruct H|].
    apply returns_guard in H as [(e & _ & Hr)|[_ H]]; [done|]. apply IH in H as (xs & Hs & Ht).
    exists (sample :: xs). split; [by eapply sampled_round|]. rewrite Ht. cbn. by rewrite <- app_assoc.
  - destruct (_ || _) in H; [by destruct H|]. destruct H as [-> H]. simplify_eq.
    exists []. split; [eapply sampled_round; [exact Hn|constructor]|by rewrite app_nil_r].
Qed.

Lemma loss_loop_sampled fuel lossStarted deadline moved t s tr t' b s' :
  returns (loss_loop fuel j lossStarted deadline moved t s) tr (Some (Ok (t', b, s'))) ->
  exists xs, sampled s tr (xs ++ [b]) s' /\ tk_samples t' = tk_samples t ++ xs.
Proof.
  revert moved t s tr. induction fuel as [|fuel IH]; intros moved t s tr H; cbn [loss_loop] in H; [by destruct H|].
  apply returns_round in H as [(e & Hr & _)|(trN & sample & s1 & tr2 & -> & Hn & H)]; [done| |failed_round].
  destruct (observationGap _ _ _) in H; [by destruct H|]. cbn zeta in H.
  destruct (After _ _) in H; [by destruct H|]. destruct (sm_Phase sample == PhaseLoss).
  - apply returns_guard in H as [(e & _ & Hr)|[_ H]]; [done|]. destruct (_ && _) in H; [by destruct H|].
    apply IH in H as (xs & Hs & Ht).
    exists (sample :: xs). split; [by eapply sampled_round|]. rewrite Ht. cbn. by rewrite <- app_assoc.
  - destruct (_ || _) in H; [by destruct H|].
    apply returns_guard in H as [(e & _ & Hr)|[_ [-> H]]]; [done|]. simplify_eq.
    exists []. split; [eapply sampled_round; [exact Hn|constructor]|by rewrite app_nil_r].
Qed.

Lemma recovery_loop_sampled fuel lossStarted stability deadline t s tr t' :
  returns (recovery_loop fuel j lossStarted stability deadline t s) tr (Some (Ok t')) ->
  exists xs s', sampled s tr xs s' /\ tk_samples t' = tk_samples t ++ xs.
Proof.
  revert t s tr. induction fuel as [|fuel IH]; intros t s tr H; cbn [recovery_loop] in H; destruct (negb _).
  1, 3: destruct H as [-> H]; simplify_eq; exists [], s; rewrite app_nil_r; split; [constructor|done].
  { by destruct H. }
  apply returns_round in H as [(e & Hr & _)|(trN & sample & s1 & tr2 & -> & Hn & H)]; [done| |failed_round].
  destruct (_ != _) in H; [by destruct H|]. destruct (_ || _) in H; [by destruct H|].
  apply returns_guard in H as [(e & _ & Hr)|[_ H]]; [done|].
  apply IH in H as (xs & s' & Hs & Ht). exists (sample :: xs), s'.
  split; [by eapply sampled_round|]. rewrite Ht. cbn. by rewrite <- app_assoc.
Qed.
End Loops.

(** ** The signal *)

(** A loop says nothing to the fault procedure, whatever it ends with. *)
Lemma round_unsignalled {A} poll message s phase (f : result (SampleEvidence * sampler) -> run A) tr r :
  (forall err tr r, returns (f (Err err)) tr r -> tr = [] /\ exists e, r = Some (Err e)) ->
  (forall x s' tr, returns (f (Ok (x, s'))) tr r -> unsignalled tr) ->
  returns (sleep poll message (x ← next s phase; f x)) tr r -> unsignalled tr.
Proof.
  intros Hf Hk H. apply returns_round in H as [(e & _ & _ & H)|(trN & x & s' & tr2 & -> & Hn & H)]; [done| |done].
  apply Forall_app. split; [|by eapply Hk]. constructor; [done|]. by eapply next_unsignalled.
Qed.

Lemma guard_unsignalled {A} err (k : run A) tr r :
  (returns k tr r -> unsignalled tr) -> returns (guard_ok err k) tr r -> unsignalled tr.
Proof. intros Hk H. apply returns_guard in H as [(e & -> & _)|[_ H]]; [constructor|by apply Hk]. Qed.

Ltac stopped H := destruct H as [-> _]; constructor.
Ltac failed_round := intros ? ? ? [-> ->]; split; [done|]; by eexists.

Lemma pre_loop_unsignalled fuel j stability t s tr r :
  returns (pre_loop fuel j stability t s) tr r -> unsignalled tr.
Proof.
  revert t s tr. induction fuel as [|fuel IH]; intros t s tr H; cbn [pre_loop] in H; destruct (negb _).
  1-3: stopped H. revert H. apply round_unsignalled; [failed_round|]. intros x s' q H.
  destruct (_ != _) in H; [stopped H|]. revert H. apply guard_unsignalled. intros H.
  destruct (observationGap _ _ _) in H; [stopped H|by eapply IH].
Qed.

Lemma fault_loop_unsignalled fuel j deadline t s tr r :
  returns (fault_loop fuel j deadline t s) tr r -> unsignalled tr.
Proof.
  revert t s tr. induction fuel as [|fuel IH]; intros t s tr H; cbn [fault_loop] in H; [stopped H|].
  revert H. apply round_unsignalled; [failed_round|]. intros x s' q H.
  destruct (observationGap _ _ _) in H; [stopped H|]. destruct (sm_Phase x == PhasePreLoss).
  - destruct (After _ _) in H; [stopped H|]. revert H. apply guard_unsignalled. apply IH.
  - destruct (_ || _) in H; stopped H.
Qed.

Lemma loss_loop_unsignalled fuel j lossStarted deadline moved t s tr r :
  returns (loss_loop fuel j lossStarted deadline moved t s) tr r -> unsignalled tr.
Proof.
  revert moved t s tr. induction fuel as [|fuel IH]; intros moved t s tr H; cbn [loss_loop] in H; [stopped H|].
  revert H. apply round_unsignalled; [failed_round|]. intros x s' q H.
  destruct (observationGap _ _ _) in H; [stopped H|]. cbn zeta in H.
  destruct (After _ _) in H; [stopped H|]. destruct (sm_Phase x == PhaseLoss).
  - revert H. apply guard_unsignalled. intros H. destruct (_ && _) in H; [stopped H|by eapply IH].
  - destruct (_ || _) in H; [stopped H|]. revert H. apply guard_unsignalled. intros H. stopped H.
Qed.

Lemma recovery_loop_unsignalled fuel j lossStarted stability deadline t s tr r :
  returns (recovery_loop fuel j lossStarted stability deadline t s) tr r -> unsignalled tr.
Proof.
  revert t s tr. induction fuel as [|fuel IH]; intros t s tr H; cbn [recovery_loop] in H; destruct (negb _).
  1-3: stopped H. revert H. apply round_unsignalled; [failed_round|]. intros x s' q H.
  destruct (_ != _) in H; [stopped H|]. destruct (_ || _) in H; [stopped H|].
  revert H. apply guard_unsignalled. apply IH.
Qed.

Lemma run_bind_unsignalled {A B} (p : run A) (f : A -> run B) tr r :
  (forall tr r, returns p tr r -> unsignalled tr) ->
  (forall a tr, returns (f a) tr r -> unsignalled tr) -> returns (run_bind p f) tr r -> unsignalled tr.
Proof.
  intros Hp Hf H. apply returns_run_bind in H as [[H _]|[(e & H & _)|(tr1 & tr2 & a & -> & H1 & H2)]];
    [by eapply Hp|by eapply Hp|]. apply Forall_app. split; [by eapply Hp|by eapply Hf].
Qed.

(** After the ready marker there is one signal, and nothing but samples. *)
Lemma after_ready_signal fuel j reader probe first t s tr r :
  returns (after_ready fuel j reader probe first t s) tr r ->
  tr = [] \/ exists x rest,
    tr = Event (ReadyForFault (marker_of j reader probe (sm_ObservedAt (tk_last t)))) x :: rest /\
    ValidateReadyMarker (marker_of j reader probe (sm_ObservedAt (tk_last t))) = None /\ unsignalled rest.
Proof.
  unfold after_ready. cbn zeta. intros H. apply returns_guard in H as [(e & -> & _)|[Hm H]]; [by left|].
  destruct H as (x & rest & -> & H). right. exists x, rest. split_and!; [done|done|].
  destruct x as [e|]; cbn beta iota delta [is_nil negb prog_bind prog_mbind] in H; [stopped H|].
  revert H. apply run_bind_unsignalled; [intros ? ?; apply fault_loop_unsignalled|]. intros [[pre l] s1] q H.
  revert H. apply guard_unsignalled.
  apply run_bind_unsignalled; [intros ? ?; apply loss_loop_unsignalled|]. intros [[loss b] s2] q' H.
  revert H. apply run_bind_unsignalled; [intros ? ?; apply recovery_loop_unsignalled|]. intros rec q'' H. stopped H.
Qed.

(** ** The observation *)

Definition collector (reader : Reader) (probe : Probe) (request : Request) (parsed : parsedRequest) : sampler := {|
  sp_reader := Some reader; sp_probe := Some probe; sp_request := request; sp_parsed := parsed;
  sp_clock := true; sp_sequence := 0 |}.

(** A run that stops at once. *)
Ltac halted H := left; destruct H as [-> ->]; split; [constructor|done].

(** A run that signals, up to the signal. *)
Lemma make_receipt_signal fuel ctx reader probe barrier request clock tr r :
  returns (make_receipt fuel ctx reader probe barrier request clock) tr r ->
  (unsignalled tr /\ forall receipt, r <> Some (Ok receipt)) \/
  exists rd pb parsed tr1 tr2 first xs last s t,
    reader = Some rd /\ probe = Some pb /\ validateRequest request = Ok parsed /\
    tr = tr1 ++ tr2 /\ returns (after_ready fuel (subject_of request parsed first) rd pb first t s) tr2 r /\
    sampled (collector rd pb request parsed) tr1 (first :: xs) s /\
    List.last xs first = last /\ tk_last t = last /\ tk_samples t = first :: xs /\
    Forall (healthy request first) (first :: xs) /\ gap_free (pr_poll parsed) first xs /\
    seen first + 2 * pr_poll parsed <= seen last.
Proof.
  intros H. unfold make_receipt in H.
  destruct (validateRequest request) as [parsed|err] eqn:Ev; [|halted H].
  destruct reader as [rd|]; [|halted H]. destruct probe as [pb|]; [|halted H].
  destruct (_ || _) eqn:Eg in H; [halted H|]. cbn zeta in H.
  apply returns_bind in H as (tr1 & tr2 & x & -> & H1 & H).
  pose proof (next_unsignalled _ _ _ _ H1) as U1.
  assert (unsignalled tr2 -> unsignalled (tr1 ++ tr2)) as Hu by (intros ?; by apply Forall_app).
  destruct x as [[first s]|err]; [|left; destruct H as [-> ->]; split; [apply Hu; constructor|done]].
  destruct (_ != _) in H; [left; destruct H as [-> ->]; split; [apply Hu; constructor|done]|].
  apply returns_guard in H as [(e & -> & ->)|[Hh H]]; [left; split; [apply Hu; constructor|done]|].
  apply validateRequest_ok in Ev as Hw. destruct Hw as ([Hp _ _ _ _ _] & _ & _). cbn in Hp.
  assert (0 <= pr_poll parsed < Hour) as Hb by (unfold Hour, Minute, Second in *; lia).
  apply returns_run_bind in H as [[H ->]|[(e & H & ->)|(trP & tr3 & [t s1] & -> & HP & H)]].
  1, 2: left; split; [apply Hu; by eapply pre_loop_unsignalled|done].
  right. apply (pre_loop_sampled request parsed first Hb) in HP as (xs & Hs & Ht & Hl & Hx & Hgf & Hwait).
  assert (clock = true) as -> by (destruct clock; [done|]; by rewrite orb_true_r in Eg).
  exists rd, pb, parsed, (tr1 ++ trP), tr3, first, xs, (List.last xs first), s1, t.
  cbn in Hl. split_and!; [reflexivity|reflexivity|reflexivity|by rewrite <- app_assoc|exact H| |reflexivity
    |by rewrite Hl|exact Ht| |exact Hgf|rewrite Hl; exact Hwait].
  - econstructor; [exact H1|exact Hs].
  - constructor; [by eapply health_healthy|exact Hx].
Qed.

(** A run that ends in a receipt: the samples after the signal complete it. *)
Lemma after_ready_receipt fuel request parsed reader probe first t s tr receipt :
  0 <= pr_poll parsed < Hour ->
  returns (after_ready fuel (subject_of request parsed first) reader probe first t s) tr (Some (Ok receipt)) ->
  let marker := marker_of (subject_of request parsed first) reader probe (sm_ObservedAt (tk_last t)) in
  exists rest ys s', tr = Event (ReadyForFault marker) None :: rest /\ sampled s rest ys s' /\
    all_samples receipt = tk_samples t ++ ys /\ (Forall sample_sealed (all_samples receipt) -> sealed receipt) /\
    rc_ReadyMarkerAt receipt = sm_ObservedAt (tk_last t) /\
    rc_RequestSHA256 receipt = pr_requestSHA256 parsed /\
    rc_RunNonceSHA256 receipt = rq_RunNonceSHA256 request.
Proof.
  intros Hb H. cbn zeta. unfold after_ready in H. cbn zeta in H.
  apply returns_guard in H as [(e & _ & Hr)|[_ H]]; [done|]. destruct H as (x & rest & -> & H).
  destruct x as [e|]; cbn beta iota delta [is_nil negb prog_bind prog_mbind] in H; [by destruct H|].
  apply returns_run_bind in H as [[_ Hr]|[(e & _ & Hr)|(trF & tr2 & [[pre l] s1] & -> & HF & H)]]; [done..|].
  apply returns_guard in H as [(e & _ & Hr)|[_ H]]; [done|].
  apply returns_run_bind in H as [[_ Hr]|[(e & _ & Hr)|(trL & tr3 & [[loss b] s2] & -> & HL & H)]]; [done..|].
  apply returns_run_bind in H as [[_ Hr]|[(e & _ & Hr)|(trR & tr4 & rec & -> & HR & H)]]; [done..|].
  destruct H as [-> H]. simplify_eq.
  apply (fault_loop_sampled request parsed first) in HF as (xs & HF & Hpre).
  apply (loss_loop_sampled request parsed first) in HL as (ys & HL & Hloss).
  apply (recovery_loop_sampled request parsed first) in HR as (zs & s3 & HR & Hrec).
  eexists _, ((xs ++ [l]) ++ (ys ++ [b]) ++ zs), s3. split_and!; [reflexivity| | |intros Hs; split; [reflexivity|reflexivity|by repeat constructor|exact Hs]|reflexivity..].
  - rewrite app_nil_r. eapply sampled_app; [exact HF|]. by eapply sampled_app.
  - unfold all_samples. cbn. rewrite Hpre, Hloss, Hrec. cbn. by rewrite <- !app_assoc.
Qed.

Lemma Observe_receipt fuel ctx reader probe barrier request clock tr receipt :
  returns (Observe fuel ctx reader probe barrier request clock) tr (Some (Ok receipt)) ->
  exists rd pb parsed tr1 marker tr2 before after s s',
    reader = Some rd /\ probe = Some pb /\ validateRequest request = Ok parsed /\
    tr = tr1 ++ Event (ReadyForFault marker) None :: tr2 /\
    sampled (collector rd pb request parsed) tr1 before s /\ sampled s tr2 after s' /\
    all_samples receipt = before ++ after /\ ValidateReceipt (Some receipt) = None /\
    mk_ReadyAt marker = rc_ReadyMarkerAt receipt /\ rc_RequestSHA256 receipt = digestJSON request /\
    rc_RunNonceSHA256 receipt = rq_RunNonceSHA256 request.
Proof.
  intros ([[r0|err]|] & H & Hr0)%Observe_returns; [|discriminate Hr0..]. unfold validated in Hr0.
  destruct (ValidateReceipt (Some r0)) as [?|] eqn:Hok; [done|]. injection Hr0 as <-.
  apply make_receipt_signal in H as Hs.
  destruct Hs as [[_ Hu]|(rd & pb & parsed & tr1 & tr2 & first & xs & l & s & t & -> & -> & Hv & -> & Ha & Hs & _ & Hl & Ht & _)].
  - by destruct (Hu receipt).
  - apply validateRequest_ok in Hv as Hw. destruct Hw as ([Hp _ _ _ _ _] & _ & Hd). cbn in Hp.
    apply after_ready_receipt in Ha as (rest & ys & s' & -> & Hy & Hall & _ & Hr & Hq & Hn);
      [|unfold Hour, Minute, Second in *; lia].
    eexists rd, pb, parsed, tr1, _, rest, (first :: xs), ys, s, s'.
    split_and!; [reflexivity|reflexivity|exact Hv|reflexivity|exact Hs|exact Hy|by rewrite Hall, Ht|exact Hok| | |].
    + by rewrite Hr.
    + by rewrite Hq.
    + exact Hn.
Qed.

(** The digests of a receipt are those of its contents, so it is valid when its
    contents are. *)
Lemma make_receipt_sealed fuel ctx reader probe barrier request clock tr receipt :
  returns (make_receipt fuel ctx reader probe barrier request clock) tr (Some (Ok receipt)) -> sealed receipt.
Proof.
  intros H. apply make_receipt_signal in H as [[_ Hu]|(rd & pb & parsed & tr1 & tr2 & first & xs & l & s & t & -> & -> & Hv & -> & Ha & Hs & _ & Hl & Ht & _)].
  - by destruct (Hu receipt).
  - apply validateRequest_ok in Hv as ([Hp _ _ _ _ _] & _). cbn in Hp.
    apply after_ready_receipt in Ha as (rest & ys & s' & -> & Hy & Hall & Hseal & _);
      [|unfold Hour, Minute, Second in *; lia].
    apply Hseal. rewrite Hall, Ht. apply Forall_app. split; by eapply sampled_sealed.
Qed.

Lemma valid_contents_observed fuel ctx reader probe barrier request clock tr receipt :
  returns (make_receipt fuel ctx reader probe barrier request clock) tr (Some (Ok receipt)) ->
  receipt_facts receipt = true ->
  returns (Observe fuel ctx reader probe barrier request clock) tr (Some (Ok receipt)).
Proof.
  intros H Hf. apply Observe_returns. exists (Some (Ok receipt)). split; [exact H|].
  pose proof (receipt_facts_ok _ (make_receipt_sealed _ _ _ _ _ _ _ _ _ H) Hf) as Hv.
  unfold validated. by rewrite Hv.
Qed.
