(* ===== verification/OslTheorems.v ===== *)
(** * The properties of the one-server-loss evidence

    What an accepted receipt proves, that an observation ends, when the fault
    procedure is told to begin, and that receipts hold what was observed. *)

From stdpp Require Import gmap strings list.
From Stdlib Require Import ZArith Lia.
From S2P Require Import Prelude GoString GoTime GoSort GoSha256 GoJson StrictJson GoRfc3339 GoDuration Programs OslTypes OslValidate OslDecode OslSample OslObserve OslSurvive OslTrace OslBound OslRuns.

#[local] Open Scope Z_scope.
#[local] Opaque sha256_hex.

(** C21. A receipt that [ValidateReceipt] accepts is the record of a survival: no
    instant of the run is further than two polling intervals from a sample, the
    samples are in order and none is missing; in every one of them the virtual
    machine and the data are those of the start, the workloads (identifiers,
    binding digests and minima), the machine's and the probe's bindings are
    those of every other sample, no workload is below its minima, and the
    control plane has its quorum; exactly one server is missing during the
    loss and none before and after it; no sample of the loss observed after
    the agreed time comes before the first one that sees the virtual machine
    ready elsewhere, a sample that sees it there began at most two polling
    intervals after the agreed time, and the last one of the loss sees it
    there; and the loss and the recovery last and end as agreed. *)
Theorem receipts_prove_survival r : ValidateReceipt (Some r) = None ->
  exists w, receipt_windows r = Ok w /\ survived r w.
Proof. intros H. apply ValidateReceipt_survived in H as (w & Hw & _ & Hs). by exists w. Qed.

(** C22. An observation ends: with a clock that does not go back and sleeps that
    last, a run of [Observe] with one unit of fuel for each sample a receipt can
    hold comes to a receipt or an error, and takes no more samples than that. *)
Theorem observations_end fuel ctx reader probe barrier request clock tr r now :
  returns (Observe fuel ctx reader probe barrier request clock) tr r -> ticking now tr ->
  maximumSamples <= Z.of_nat fuel ->
  (exists answer, r = Some answer) /\ Z.of_nat (samplings tr) <= maximumSamples.
Proof.
  intros H Ht Hf. destruct (Observe_clock _ _ _ _ _ _ _ _ _ _ Ht H Hf) as [Hr Hn]. split; [|done].
  destruct r as [a|]; [by exists a|done].
Qed.

(** C23. The fault procedure is told to begin only after a stable healthy state,
    and only once: before the signal there are healthy samples without a gap
    over at least two polling intervals, the marker is valid and is dated by the
    last of them, and nothing else in the run is a signal. *)
Theorem faults_follow_stability fuel ctx reader probe barrier request clock tr r marker answer :
  returns (Observe fuel ctx reader probe barrier request clock) tr r ->
  Event (ReadyForFault marker) answer ∈ tr ->
  exists rd pb parsed tr1 tr2 first xs s,
    validateRequest request = Ok parsed /\ tr = tr1 ++ Event (ReadyForFault marker) answer :: tr2 /\
    unsignalled tr1 /\ unsignalled tr2 /\ sampled (collector rd pb request parsed) tr1 (first :: xs) s /\
    Forall (healthy request first) (first :: xs) /\ gap_free (pr_poll parsed) first xs /\
    seen first + 2 * pr_poll parsed <= seen (List.last xs first) /\
    mk_ReadyAt marker = sm_ObservedAt (List.last xs first) /\ ValidateReadyMarker marker = None.
Proof.
  intros H Hin.
  assert (forall tr', unsignalled tr' -> Event (ReadyForFault marker) answer ∉ tr') as Hno.
  { intros tr' Hu Hin'. unfold unsignalled in Hu. rewrite Forall_forall in Hu. by apply Hu in Hin'. }
  apply Observe_returns in H as (r0 & H & _).
  apply make_receipt_signal in H as [[Hu _]|(rd & pb & parsed & tr1 & tr2 & first & xs & l & s & t & _ & _ & Hv & -> & Ha & Hs & <- & Hl & _ & Hh & Hg & Hw)];
    [by destruct (Hno _ Hu)|].
  pose proof (sampled_unsignalled _ _ _ _ Hs) as Hu1. apply elem_of_app in Hin as [Hin|Hin]; [by destruct (Hno _ Hu1)|].
  apply after_ready_signal in Ha as [->|(x & rest & -> & Hm & Hu2)]; [by apply not_elem_of_nil in Hin|].
  apply elem_of_cons in Hin as [Hin|Hin]; [|by destruct (Hno _ Hu2)].
  pose proof (f_equal signalled Hin) as E. cbn in E. injection E as E. rewrite <- E in Hm.
  exists rd, pb, parsed, tr1, rest, first, xs, s.
  split_and!; [exact Hv|by rewrite Hin|exact Hu1|exact Hu2|exact Hs|exact Hh|exact Hg|exact Hw| |exact Hm].
  rewrite E, <- Hl. reflexivity.
Qed.

(** C24. A receipt holds its run: its samples are all the samples that were
    taken, in the order they were taken, those before the signal to the fault
    procedure first; it names the request, and it is valid. *)
Theorem receipts_hold_their_run fuel ctx reader probe barrier request clock tr receipt :
  returns (Observe fuel ctx reader probe barrier request clock) tr (Some (Ok receipt)) ->
  exists rd pb parsed tr1 marker tr2 before after s s',
    reader = Some rd /\ probe = Some pb /\ validateRequest request = Ok parsed /\
    tr = tr1 ++ Event (ReadyForFault marker) None :: tr2 /\
    sampled (collector rd pb request parsed) tr1 before s /\ sampled s tr2 after s' /\
    all_samples receipt = before ++ after /\ ValidateReceipt (Some receipt) = None /\
    mk_ReadyAt marker = rc_ReadyMarkerAt receipt /\ rc_RequestSHA256 receipt = digestJSON request /\
    rc_RunNonceSHA256 receipt = rq_RunNonceSHA256 request.
Proof. apply Observe_receipt. Qed.

(** C25. A sample counts the cluster: its members, its etcd and API servers and
    its workloads are counted on the objects that were listed while it was
    taken, each listing being complete, of one version and without duplicates. *)
Theorem samples_count_the_cluster s phase tr x s' : returns (next s phase) tr (Ok (x, s')) ->
  exists nodes etcd api etcd_hosts api_hosts,
    listed tr nodeResource "" "" decodeNode nodes /\
    listed tr podResource "kube-system" "component=etcd" (fun raw => decodePod raw "kube-system") etcd /\
    listed tr podResource "kube-system" "component=kube-apiserver" (fun raw => decodePod raw "kube-system") api /\
    sm_ControlPlaneReadyNodes x = Z.of_nat (size (node_set node_uid member_node nodes)) /\
    sm_ControlPlaneMemberSetSHA256 x = ControlPlaneMemberSetSHA256
      (List.map NodeUIDSHA256 (elements (node_set node_uid member_node nodes))) /\
    hosts_of (node_set node_name member_node nodes) etcd etcd_hosts /\
    sm_EtcdReadyMembers x = Z.of_nat (size etcd_hosts) /\
    (sm_TargetHostsEtcd x = true <-> rq_TargetNodeName (sp_request s) ∈ etcd_hosts) /\
    hosts_of (node_set node_name member_node nodes) api api_hosts /\
    sm_APIServerReadyMembers x = Z.of_nat (size api_hosts) /\
    (sm_TargetHostsAPIServer x = true <-> rq_TargetNodeName (sp_request s) ∈ api_hosts) /\
    sm_TargetNodeReady x = match target_node (rq_TargetNodeName (sp_request s)) nodes with
                           | Some node => node_ready node | None => false end /\
    Forall2 (workload_counted (node_set node_name node_ready nodes) tr)
      (rq_Workloads (sp_request s)) (sm_Workloads x).
Proof.
  intros H. apply next_inv in H as [(e & He & _)|(y & t0 & mid & t1 & state & He & _ & -> & Hs)]; [done|].
  injection He as -> _. cbn.
  apply sample_state_inv in Hs as (trN & trE & trA & trW & trV & trP & payloads & scan & [ne te] & [na ta] &
    workloads & vm & probe & -> & HN & HS & HE & HA & HW & _ & _ & Hm & ->). cbn.
  apply listAll_snapshot in HN.
  apply (scan_nodes_scanned _ _ _ _ []) in HS as (nodes & Hd & S1 & S2 & S3 & S4 & S5 & S6); [|by split_and!].
  cbn [app] in *.
  apply controlPlanePods_inv in HE as (etcd & eh & HE & HEh & HEc & HEt).
  apply controlPlanePods_inv in HA as (api & ah & HA & HAh & HAc & HAt).
  apply sample_workloads_inv in HW. rewrite S1. rewrite S3 in HEh, HAh. rewrite S2 in HW.
  exists nodes, etcd, api, eh, ah. split_and!; try done.
  - exists (Event Now t0 :: Event ReadyZ None :: []), trN, ((trE ++ trA ++ trW ++ trV ++ trP) ++ [Event Now t1]), payloads.
    split_and!; [|exact HN|exact Hd]. cbn. by rewrite <- !app_assoc.
  - apply (listed_within _ (Event Now t0 :: Event ReadyZ None :: trN) trE
      ((trA ++ trW ++ trV ++ trP) ++ [Event Now t1])); [exact HE|]. cbn. by rewrite <- !app_assoc.
  - apply (listed_within _ (Event Now t0 :: Event ReadyZ None :: trN ++ trE) trA
      ((trW ++ trV ++ trP) ++ [Event Now t1])); [exact HA|]. cbn. by rewrite <- !app_assoc.
  - eapply Forall2_impl; [exact HW|]. intros target wl (pods & hosts & Hl & Hr). exists pods, hosts. split; [|exact Hr].
    apply (listed_within _ (Event Now t0 :: Event ReadyZ None :: trN ++ trE ++ trA) trW
      ((trV ++ trP) ++ [Event Now t1])); [exact Hl|]. cbn. by rewrite <- !app_assoc.
Qed.
