(* ===== verification/OslCluster.v ===== *)
(** * One server lost: a sample cluster

    A cluster of three servers that loses one for four seconds, as a function
    that answers the observer's calls, and the run of [Observe] against it. *)

From stdpp Require Import gmap strings list.
From Stdlib Require Import ZArith Ascii Lia.
From S2P Require Import Prelude GoString GoTime GoDate GoSort GoSha256 GoJson StrictJson GoRfc3339 GoDuration Programs OslTypes OslValidate OslDecode OslSample OslObserve OslSurvive OslTrace OslBound OslRuns OslSeal OslTheorems.

#[local] Open Scope Z_scope.
#[local] Transparent Sum256 sha256_hex.

(** ** The objects *)

Definition text (s : string) : json := JString s.
Definition object (ms : list (string * json)) : json := JObject ms.

Definition metadata (name namespace uid : string) (labels : list (string * json)) : json := object [
  ("name", text name); ("namespace", text namespace); ("uid", text uid);
  ("resourceVersion", text "7"); ("labels", object labels)].

Definition ready_condition (ready : bool) : json := JArray [
  object [("type", text "Ready"); ("status", text (if ready then "True" else "False"))]].

Definition node_json (name : string) (ready : bool) : json := object [
  ("apiVersion", text "v1"); ("kind", text "Node");
  ("metadata", metadata name "" ("uid-" +:+ name) [("node-role.kubernetes.io/control-plane", text "")]);
  ("status", object [("conditions", ready_condition ready)])].

Definition pod_json (name namespace : string) (labels : list (string * json)) (node : string) : json := object [
  ("apiVersion", text "v1"); ("kind", text "Pod"); ("metadata", metadata name namespace ("uid-" +:+ name) labels);
  ("spec", object [("nodeName", text node)]);
  ("status", object [("phase", text "Running"); ("conditions", ready_condition true)])].

Definition page_json (kind next : string) (items : list json) : string := print (object [
  ("apiVersion", text "v1"); ("kind", text kind);
  ("metadata", object [("resourceVersion", text "40"); ("continue", text next)]); ("items", JArray items)]).

Definition component_pods (component : string) : list json :=
  List.map (fun node => pod_json (component +:+ "-" +:+ node) "kube-system" [("component", text component)] node)
    ["n1"; "n2"; "n3"].

Definition vm_json (kind : string) (status : list (string * json)) : string := print (object [
  ("apiVersion", text "kubevirt.io/v1"); ("kind", text kind);
  ("metadata", metadata "db" "shop" ("uid-" +:+ kind) []); ("status", object status)]).

(** ** The answers

    The world is the time; node n1 is lost from the fourth second to the eighth,
    and the machine runs on n2 from the sixth on.  A sleep takes twice as long as
    it was asked to. *)

Definition elapsed (now : Time) : Z := (now - noon) / Second.
Definition n1_ready (now : Time) : bool := (elapsed now <? 4) || (8 <=? elapsed now).

Definition list_answer (now : Time) (resource namespace selector token : string) : result string :=
  if resource == "nodes" then
    if token == "" then Ok (page_json "NodeList" "more" [node_json "n3" true; node_json "n1" (n1_ready now)])
    else Ok (page_json "NodeList" "" [node_json "n2" true])
  else if selector == "component=etcd" then Ok (page_json "PodList" "" (component_pods "etcd"))
  else if selector == "component=kube-apiserver" then Ok (page_json "PodList" "" (component_pods "kube-apiserver"))
  else Ok (page_json "PodList" "" [
    pod_json "shop-1" namespace [("app", text "shop")] "n2"; pod_json "shop-2" namespace [("app", text "shop")] "n3"]).

Definition get_answer (now : Time) (resource : string) : result string :=
  if resource == "virtualmachines" then Ok (vm_json "VirtualMachine" [("ready", JBool true)])
  else if elapsed now =? 4 then Err ErrNotFound
  else Ok (vm_json "VirtualMachineInstance" [("phase", text "Running");
         ("nodeName", text (if elapsed now <? 4 then "n1" else "n2")); ("conditions", ready_condition true)]).

Definition probe_answer (now : Time) (request : ProbeRequest) : ProbeResponse := {|
  rp_SchemaVersion := ProbeResponseSchemaVersion; rp_Implementation := "ledger"; rp_Version := "1.0";
  rp_RequestSHA256 := digestJSON request; rp_AdapterExecutableSHA256 := pq_AdapterExecutableSHA256 request;
  rp_HashAlgorithm := "sha256"; rp_DataSHA256 := hash "4"; rp_ValidatedBytes := 4096;
  rp_StartedAt := Format_RFC3339Nano now; rp_CompletedAt := Format_RFC3339Nano now |}.

Definition cluster X (e : osl_call X) (now : Time) : X * Time :=
  match e in osl_call X return X * Time with
  | Now => (now, now)
  | Sleep d => (None, now + 2 * d)
  | ReadyZ => (None, now)
  | ListPage resource namespace selector token _ => (list_answer now (rs_Resource resource) namespace selector token, now)
  | Get resource _ _ => (get_answer now (rs_Resource resource), now)
  | Observe_ request => (Ok (probe_answer now request), now)
  | ReadyForFault _ => (None, now)
  end.

Definition sample_request : Request := {|
  rq_SchemaVersion := RequestSchemaVersion; rq_RunNonceSHA256 := hash "0"; rq_TargetNodeName := "n1";
  rq_PollInterval := "1s"; rq_FaultArrivalTimeout := "10s"; rq_MinimumLossWindow := "2s";
  rq_RecoveryTimeout := "1m0s"; rq_RecoveryStabilityWindow := "4s"; rq_MinimumControlPlaneMembers := 3;
  rq_Workloads := [{| wt_ID := "shop"; wt_Namespace := "shop"; wt_MatchLabels := {["app" := "shop"]};
    wt_MinimumReadyPods := 2; wt_MinimumDistinctReadyNodes := 2 |}];
  rq_VM := {| vt_ID := "db"; vt_Namespace := "shop"; vt_Name := "db"; vt_RequirePreLossOnTarget := true;
    vt_MaximumUnavailableDuration := "3s" |};
  rq_DataProbe := {| dt_ID := "ledger"; dt_QueryRef := "totals"; dt_MinimumValidatedBytes := 1 |} |}.

Definition sample_reader : Reader := {| rd_IdentitySHA256 := hash "d" |}.
Definition sample_probe_program : Probe := {| pb_IdentitySHA256 := hash "3" |}.

Definition observation : run Receipt :=
  Observe 4096 true (Some sample_reader) (Some sample_probe_program) true sample_request true.

(** ** The run *)

(** Four-digit years, as a test. *)
Definition four_digit (t : Time) : bool :=
  (time_Date 0 1 1 0 0 0 <=? t) && (t <? time_Date 10000 1 1 0 0 0).

Fixpoint tickingb (now : Time) (tr : list osl_event) : bool :=
  match tr with
  | [] => true
  | ev :: tr =>
      match told ev with
      | Some t => (now <=? t) && four_digit t && tickingb t tr
      | None => tickingb (now + default 0 (slept ev)) tr
      end
  end.

Lemma tickingb_ticking now tr : tickingb now tr = true -> ticking now tr.
Proof.
  revert now. induction tr as [|ev tr IH]; intros now H; [done|]. cbn in *. destruct (told ev); [|by apply IH].
  apply andb_true_iff in H as [H1 H2]. apply andb_true_iff in H1 as [H1 H3]. unfold four_digit in H3.
  apply andb_true_iff in H3 as [H3 H4]. split_and!; [by apply Z.leb_le| |by apply IH].
  split; [by apply Z.leb_le|by apply Z.ltb_lt].
Qed.

Definition signals (tr : list osl_event) : bool := existsb (fun ev => negb (is_nil (signalled ev))) tr.

Lemma signals_In tr : signals tr = true -> exists marker answer, Event (ReadyForFault marker) answer ∈ tr.
Proof.
  intros H. apply existsb_exists in H as (ev & Hin & H). apply list_elem_of_In in Hin.
  destruct ev as [X e x]. destruct e; try done. by exists marker, x.
Qed.

(** The observer sees the loss through, and what the receipt holds is valid. *)
Definition run_is_good (run : list osl_event * option (result Receipt)) : bool :=
  match run with
  | (tr, Some (Ok receipt)) =>
      tickingb noon tr && signals tr && (length (all_samples receipt) =? 7)%nat && receipt_facts receipt
  | _ => false
  end.

Definition observed_receipt : run Receipt :=
  make_receipt 4096 true (Some sample_reader) (Some sample_probe_program) true sample_request true.

Lemma observed_run : run_is_good (run_trace cluster observed_receipt noon) = true.
Proof. vm_cast_no_check (eq_refl true). Qed.

Lemma good_run_facts (run : list osl_event * option (result Receipt)) :
  returns observed_receipt run.1 run.2 -> run_is_good run = true ->
  exists tr receipt marker answer,
    returns observation tr (Some (Ok receipt)) /\ ticking noon tr /\ Event (ReadyForFault marker) answer ∈ tr.
Proof.
  destruct run as [tr [[receipt|err]|]]; unfold run_is_good; intros Hr H; [|discriminate H|discriminate H].
  apply andb_true_iff in H as [H Hf]. apply andb_true_iff in H as [H _]. apply andb_true_iff in H as [Ht Hs].
  apply signals_In in Hs as (marker & answer & Hs). exists tr, receipt, marker, answer.
  exact (conj (valid_contents_observed _ _ _ _ _ _ _ _ _ Hr Hf) (conj (tickingb_ticking _ _ Ht) Hs)).
Qed.

Lemma observed_run_facts : exists tr receipt marker answer,
  returns observation tr (Some (Ok receipt)) /\ ticking noon tr /\ Event (ReadyForFault marker) answer ∈ tr.
Proof. exact (good_run_facts _ (run_trace_returns cluster observed_receipt noon) observed_run). Qed.

(** ** The properties at work *)

Lemma receipts_prove_survival_witness :
  ValidateReceipt (Some good_receipt) = None /\
  exists w, receipt_windows good_receipt = Ok w /\ survived good_receipt w.
Proof. split; [exact good_receipt_valid|]. apply receipts_prove_survival, good_receipt_valid. Defined.

Lemma enough_fuel : maximumSamples <= Z.of_nat 4096.
Proof. apply Z.leb_le. reflexivity. Qed.

Lemma observations_end_witness : exists tr r,
  returns observation tr r /\ ticking noon tr /\
  (exists answer, r = Some answer) /\ Z.of_nat (samplings tr) <= maximumSamples.
Proof.
  destruct observed_run_facts as (tr & receipt & marker & answer & H & Ht & _). exists tr, (Some (Ok receipt)).
  exact (conj H (conj Ht (observations_end _ _ _ _ _ _ _ _ _ _ H Ht enough_fuel))).
Defined.

Lemma faults_follow_stability_witness : exists tr r marker answer,
  returns observation tr r /\ Event (ReadyForFault marker) answer ∈ tr /\ ValidateReadyMarker marker = None.
Proof.
  destruct observed_run_facts as (tr & receipt & marker & answer & H & _ & Hs).
  exists tr, (Some (Ok receipt)), marker, answer.
  destruct (faults_follow_stability _ _ _ _ _ _ _ _ _ _ _ H Hs) as (? & ? & ? & ? & ? & ? & ? & ? & _ & _ & _ & _ & _ & _ & _ & _ & _ & Hv).
  exact (conj H (conj Hs Hv)).
Defined.

Lemma receipts_hold_their_run_witness : exists tr receipt,
  returns observation tr (Some (Ok receipt)) /\ ValidateReceipt (Some receipt) = None /\
  rc_RequestSHA256 receipt = digestJSON sample_request.
Proof.
  destruct observed_run_facts as (tr & receipt & marker & answer & H & _ & _). exists tr, receipt.
  destruct (receipts_hold_their_run _ _ _ _ _ _ _ _ _ H)
    as (? & ? & ? & ? & ? & ? & ? & ? & ? & ? & _ & _ & _ & _ & _ & _ & _ & Hv & _ & Hq & _).
  exact (conj H (conj Hv Hq)).
Defined.

(** One sample of the healthy cluster. *)
Definition sample_parsed : parsedRequest := {|
  pr_poll := Second; pr_faultTimeout := 10 * Second; pr_lossWindow := 2 * Second;
  pr_recoveryTimeout := Minute; pr_recoveryStability := 4 * Second; pr_vmUnavailable := 3 * Second;
  pr_requestSHA256 := hash "9"; pr_workloadBindings := {["shop" := hash "1"]}; pr_vmBinding := hash "5";
  pr_probeBinding := hash "2" |}.

Definition sample_sampler : sampler :=
  collector sample_reader sample_probe_program sample_request sample_parsed.

Definition sample_is_good (run : list osl_event * result (SampleEvidence * sampler)) : bool :=
  match run with (_, Ok (x, _)) => sm_ControlPlaneReadyNodes x =? 3 | _ => false end.

Lemma sample_taken : sample_is_good (run_trace cluster (next sample_sampler PhasePreLoss) noon) = true.
Proof. vm_cast_no_check (eq_refl true). Qed.

Lemma good_sample_facts (run : list osl_event * result (SampleEvidence * sampler)) :
  returns (next sample_sampler PhasePreLoss) run.1 run.2 -> sample_is_good run = true ->
  exists tr x s', returns (next sample_sampler PhasePreLoss) tr (Ok (x, s')) /\ sm_ControlPlaneReadyNodes x = 3.
Proof.
  destruct run as [tr [[x s']|err]]; unfold sample_is_good; intros Hr H; [|discriminate H].
  exists tr, x, s'. exact (conj Hr (proj1 (Z.eqb_eq _ _) H)).
Qed.

Lemma samples_count_the_cluster_witness : exists tr x s' nodes,
  returns (next sample_sampler PhasePreLoss) tr (Ok (x, s')) /\
  listed tr nodeResource "" "" decodeNode nodes /\
  sm_ControlPlaneReadyNodes x = 3 /\ size (node_set node_uid member_node nodes) = 3%nat.
Proof.
  destruct (good_sample_facts _ (run_trace_returns cluster (next sample_sampler PhasePreLoss) noon) sample_taken)
    as (tr & x & s' & Hr & H).
  destruct (samples_count_the_cluster _ _ _ _ _ Hr) as (nodes & ? & ? & ? & ? & Hl & _ & _ & Hc & _).
  exists tr, x, s', nodes. refine (conj Hr (conj Hl (conj H _))). rewrite H in Hc. lia.
Defined.
