(* ===== verification/HaTypes.v ===== *)
(** * Kubeadm waves: the data

    The records of pkg/kubeadm/ha_wave.go with their JSON texts.  A nil slice
    and an empty one are the same list; where the code makes an empty slice that
    is not nil, the field is written as an array. *)

From stdpp Require Import gmap strings list.
From Stdlib Require Import ZArith Ascii Lia.
From S2P Require Import Prelude GoString GoTime GoSort GoSha256 GoJson StrictJson.

#[local] Open Scope Z_scope.

(** ** Constants *)

Definition HAWaveSchemaVersion : string := "cloudring.kubeadm.ha-wave/v2".
Definition HAWaveInventorySchemaVersion : string := "cloudring.kubeadm.ha-wave-inventory/v2".
Definition HAWavePhaseOneToTwo : string := "one-to-two".
Definition HAWavePhaseTwoToThree : string := "two-to-three".
Definition maximumHAWaveEvidenceAge : Duration := 24 * Hour.
Definition maximumHAWaveFutureSkew : Duration := 5 * Minute.

Definition haWavePlanNonClaim : string :=
  "read-only phase plan; no kubeadm, etcd, node, workload, DNS, certificate, GitOps, backup, or provider mutation was attempted".
Definition haWaveVerifyNonClaim : string :=
  "read-only phase verification; observation does not perform or authorize kubeadm, etcd, node, workload, DNS, certificate, GitOps, backup, or provider mutation".

Definition haWaveSteps : list string := [
  "preserve the existing live endpoint and workloads";
  "promote exactly one member for this phase";
  "verify the target control-plane, etcd, and API-server counts before continuing";
  "stop after this phase; take and validate a new off-cell backup before any next phase"].
Definition haWaveRollback : list string := [
  "stop before another member change";
  "remove only the newly introduced member identified by the verification receipt using the recorded kubeadm and etcd rollback procedure";
  "verify the original live member set and workloads before retrying"].

(** ** Records and their texts *)

Record HAWaveCounts := {
  ct_ControlPlane : Z; ct_Etcd : Z; ct_APIServer : Z
}.

Definition HAWaveCounts_fields (v : HAWaveCounts) : fields := [
  field "controlPlane" (ct_ControlPlane v); field "etcd" (ct_Etcd v);
  field "apiServer" (ct_APIServer v)].

#[export] Instance marshal_HAWaveCounts : Marshal HAWaveCounts := fun v => JStruct (HAWaveCounts_fields v).

Definition HAWaveCounts_names : list string := [
  "controlPlane"; "etcd"; "apiServer"].

#[export] Instance unmarshal_HAWaveCounts : Unmarshal HAWaveCounts := fun strict values =>
  ms ← members strict HAWaveCounts_names values;
  let get name := gather HAWaveCounts_names ms name in
  v0 ← unmarshal strict (get "controlPlane");
  v1 ← unmarshal strict (get "etcd");
  v2 ← unmarshal strict (get "apiServer");
  Some {|
    ct_ControlPlane := v0; ct_Etcd := v1; ct_APIServer := v2
  |}.

Record HAWaveMemberIdentity := {
  mi_UIDSHA256 : string; mi_Ready : bool; mi_ControlPlane : bool; mi_EtcdMember : bool
}.

Definition HAWaveMemberIdentity_fields (v : HAWaveMemberIdentity) : fields := [
  field "uidSha256" (mi_UIDSHA256 v); field "ready" (mi_Ready v);
  field "controlPlane" (mi_ControlPlane v); field "etcdMember" (mi_EtcdMember v)].

#[export] Instance marshal_HAWaveMemberIdentity : Marshal HAWaveMemberIdentity := fun v => JStruct (HAWaveMemberIdentity_fields v).

Record OneServerLossReceiptBinding := {
  bd_ReceiptSHA256 : string; bd_RunNonceSHA256 : string; bd_TargetNodeUIDSHA256 : string;
  bd_KubectlExecutableSHA256 : string; bd_ProbeAdapterSHA256 : string;
  bd_NodeUIDHashAlgorithm : string; bd_ControlPlaneMemberSetSHA256 : string
}.

Definition OneServerLossReceiptBinding_fields (v : OneServerLossReceiptBinding) : fields := [
  field "receiptSha256" (bd_ReceiptSHA256 v); field "runNonceSha256" (bd_RunNonceSHA256 v);
  field "targetNodeUidSha256" (bd_TargetNodeUIDSHA256 v);
  field "kubectlExecutableSha256" (bd_KubectlExecutableSHA256 v);
  field "probeAdapterSha256" (bd_ProbeAdapterSHA256 v);
  field_omitempty "nodeUidHashAlgorithm" (bd_NodeUIDHashAlgorithm v);
  field_omitempty "controlPlaneMemberSetSha256" (bd_ControlPlaneMemberSetSHA256 v)].

#[export] Instance marshal_OneServerLossReceiptBinding : Marshal OneServerLossReceiptBinding := fun v => JStruct (OneServerLossReceiptBinding_fields v).

Record HAWaveInventoryReceipt := {
  ir_SchemaVersion : string; ir_CapturedAt : string; ir_InstallationID : string;
  ir_Distribution : string; ir_Bootstrap : string; ir_ServerVersion : string;
  ir_NodeUIDHashAlgorithm : string; ir_Members : list HAWaveMemberIdentity;
  ir_APIServerNodeUIDSHA256 : list string;
  ir_OneServerLossReceiptBinding : OneServerLossReceiptBinding; ir_ReceiptSHA256 : string
}.

Definition HAWaveInventoryReceipt_fields (v : HAWaveInventoryReceipt) : fields := [
  field "schemaVersion" (ir_SchemaVersion v); field "capturedAt" (ir_CapturedAt v);
  field "installationId" (ir_InstallationID v); field "distribution" (ir_Distribution v);
  field "bootstrap" (ir_Bootstrap v); field "serverVersion" (ir_ServerVersion v);
  field "nodeUidHashAlgorithm" (ir_NodeUIDHashAlgorithm v); field "members" (ir_Members v);
  field "apiServerNodeUidSha256" (ir_APIServerNodeUIDSHA256 v);
  field "oneServerLossReceiptBinding" (ir_OneServerLossReceiptBinding v);
  field "receiptSha256" (ir_ReceiptSHA256 v)].

#[export] Instance marshal_HAWaveInventoryReceipt : Marshal HAWaveInventoryReceipt := fun v => JStruct (HAWaveInventoryReceipt_fields v).

Definition HAWaveInventoryReceipt_with_ReceiptSHA256 (v : HAWaveInventoryReceipt) (sha : string) : HAWaveInventoryReceipt := {|
  ir_SchemaVersion := ir_SchemaVersion v; ir_CapturedAt := ir_CapturedAt v;
  ir_InstallationID := ir_InstallationID v; ir_Distribution := ir_Distribution v;
  ir_Bootstrap := ir_Bootstrap v; ir_ServerVersion := ir_ServerVersion v;
  ir_NodeUIDHashAlgorithm := ir_NodeUIDHashAlgorithm v; ir_Members := ir_Members v;
  ir_APIServerNodeUIDSHA256 := ir_APIServerNodeUIDSHA256 v;
  ir_OneServerLossReceiptBinding := ir_OneServerLossReceiptBinding v; ir_ReceiptSHA256 := sha
|}.

Record HAWaveCheck := {
  ck_ID : string; ck_Status : string; ck_Artifact : string; ck_SHA256 : string;
  ck_Detail : string
}.

Definition HAWaveCheck_fields (v : HAWaveCheck) : fields := [
  field "id" (ck_ID v); field "status" (ck_Status v);
  field_omitempty "artifact" (ck_Artifact v); field_omitempty "sha256" (ck_SHA256 v);
  field "detail" (ck_Detail v)].

#[export] Instance marshal_HAWaveCheck : Marshal HAWaveCheck := fun v => JStruct (HAWaveCheck_fields v).

Definition HAWaveCheck_names : list string := [
  "id"; "status"; "artifact"; "sha256"; "detail"].

#[export] Instance unmarshal_HAWaveCheck : Unmarshal HAWaveCheck := fun strict values =>
  ms ← members strict HAWaveCheck_names values;
  let get name := gather HAWaveCheck_names ms name in
  v0 ← unmarshal strict (get "id");
  v1 ← unmarshal strict (get "status");
  v2 ← unmarshal strict (get "artifact");
  v3 ← unmarshal strict (get "sha256");
  v4 ← unmarshal strict (get "detail");
  Some {|
    ck_ID := v0; ck_Status := v1; ck_Artifact := v2; ck_SHA256 := v3; ck_Detail := v4
  |}.

Record HAWavePlan := {
  pl_SchemaVersion : string; pl_GeneratedAt : string; pl_Status : string; pl_Phase : string;
  pl_InstallationID : string; pl_From : HAWaveCounts; pl_Target : HAWaveCounts;
  pl_PreflightInventoryReceiptSHA256 : string; pl_PreflightCapturedAt : string;
  pl_NodeUIDHashAlgorithm : string; pl_StartingMemberUIDSHA256 : list string;
  pl_StartingMemberSetSHA256 : string; pl_BackupGeneratedAt : string;
  pl_Checks : list HAWaveCheck; pl_Blockers : list string; pl_Steps : list string;
  pl_Rollback : list string; pl_MutationAllowed : bool; pl_NonClaim : string
}.

Definition HAWavePlan_fields (v : HAWavePlan) : fields := [
  field "schemaVersion" (pl_SchemaVersion v); field "generatedAt" (pl_GeneratedAt v);
  field "status" (pl_Status v); field_omitempty "phase" (pl_Phase v);
  field "installationId" (pl_InstallationID v); field "from" (pl_From v);
  field "target" (pl_Target v);
  field "preflightInventoryReceiptSha256" (pl_PreflightInventoryReceiptSHA256 v);
  field "preflightCapturedAt" (pl_PreflightCapturedAt v);
  field "nodeUidHashAlgorithm" (pl_NodeUIDHashAlgorithm v);
  slice_array "startingMemberUidSha256" (pl_StartingMemberUIDSHA256 v);
  field "startingMemberSetSha256" (pl_StartingMemberSetSHA256 v);
  field_omitempty "backupGeneratedAt" (pl_BackupGeneratedAt v);
  slice_array "checks" (pl_Checks v); slice_array "blockers" (pl_Blockers v);
  slice_omitempty "steps" (pl_Steps v); slice_omitempty "rollback" (pl_Rollback v);
  field "mutationAllowed" (pl_MutationAllowed v); field "nonClaim" (pl_NonClaim v)].

#[export] Instance marshal_HAWavePlan : Marshal HAWavePlan := fun v => JStruct (HAWavePlan_fields v).

Definition HAWavePlan_names : list string := [
  "schemaVersion"; "generatedAt"; "status"; "phase"; "installationId"; "from"; "target";
  "preflightInventoryReceiptSha256"; "preflightCapturedAt"; "nodeUidHashAlgorithm";
  "startingMemberUidSha256"; "startingMemberSetSha256"; "backupGeneratedAt"; "checks";
  "blockers"; "steps"; "rollback"; "mutationAllowed"; "nonClaim"].

#[export] Instance unmarshal_HAWavePlan : Unmarshal HAWavePlan := fun strict values =>
  ms ← members strict HAWavePlan_names values;
  let get name := gather HAWavePlan_names ms name in
  v0 ← unmarshal strict (get "schemaVersion");
  v1 ← unmarshal strict (get "generatedAt");
  v2 ← unmarshal strict (get "status");
  v3 ← unmarshal strict (get "phase");
  v4 ← unmarshal strict (get "installationId");
  v5 ← unmarshal strict (get "from");
  v6 ← unmarshal strict (get "target");
  v7 ← unmarshal strict (get "preflightInventoryReceiptSha256");
  v8 ← unmarshal strict (get "preflightCapturedAt");
  v9 ← unmarshal strict (get "nodeUidHashAlgorithm");
  v10 ← unmarshal strict (get "startingMemberUidSha256");
  v11 ← unmarshal strict (get "startingMemberSetSha256");
  v12 ← unmarshal strict (get "backupGeneratedAt");
  v13 ← unmarshal strict (get "checks");
  v14 ← unmarshal strict (get "blockers");
  v15 ← unmarshal strict (get "steps");
  v16 ← unmarshal strict (get "rollback");
  v17 ← unmarshal strict (get "mutationAllowed");
  v18 ← unmarshal strict (get "nonClaim");
  Some {|
    pl_SchemaVersion := v0; pl_GeneratedAt := v1; pl_Status := v2; pl_Phase := v3;
    pl_InstallationID := v4; pl_From := v5; pl_Target := v6;
    pl_PreflightInventoryReceiptSHA256 := v7; pl_PreflightCapturedAt := v8;
    pl_NodeUIDHashAlgorithm := v9; pl_StartingMemberUIDSHA256 := v10;
    pl_StartingMemberSetSHA256 := v11; pl_BackupGeneratedAt := v12; pl_Checks := v13;
    pl_Blockers := v14; pl_Steps := v15; pl_Rollback := v16; pl_MutationAllowed := v17;
    pl_NonClaim := v18
  |}.

Record HAWaveVerification := {
  vr_SchemaVersion : string; vr_GeneratedAt : string; vr_CompletedAt : string;
  vr_Status : string; vr_Phase : string; vr_InstallationID : string; vr_PlanSHA256 : string;
  vr_InventoryReceiptSHA256 : string; vr_OneServerLossReceiptSHA256 : string;
  vr_PreflightInventoryReceiptSHA256 : string; vr_NodeUIDHashAlgorithm : string;
  vr_StartingMemberUIDSHA256 : list string; vr_StartingMemberSetSHA256 : string;
  vr_FinalMemberUIDSHA256 : list string; vr_FinalMemberSetSHA256 : string;
  vr_IntroducedMemberUIDSHA256 : string; vr_Observed : HAWaveCounts;
  vr_FreshBackupVerified : bool; vr_PreviousWaveVerified : bool;
  vr_FinalOneServerLossVerified : bool; vr_Checks : list HAWaveCheck; vr_Blockers : list string;
  vr_MutationAttempted : bool; vr_NonClaim : string
}.

Definition HAWaveVerification_fields (v : HAWaveVerification) : fields := [
  field "schemaVersion" (vr_SchemaVersion v); field "generatedAt" (vr_GeneratedAt v);
  field "completedAt" (vr_CompletedAt v); field "status" (vr_Status v);
  field_omitempty "phase" (vr_Phase v); field_omitempty "installationId" (vr_InstallationID v);
  field_omitempty "planSha256" (vr_PlanSHA256 v);
  field_omitempty "inventoryReceiptSha256" (vr_InventoryReceiptSHA256 v);
  field_omitempty "oneServerLossReceiptSha256" (vr_OneServerLossReceiptSHA256 v);
  field_omitempty "preflightInventoryReceiptSha256" (vr_PreflightInventoryReceiptSHA256 v);
  field_omitempty "nodeUidHashAlgorithm" (vr_NodeUIDHashAlgorithm v);
  field "startingMemberUidSha256" (vr_StartingMemberUIDSHA256 v);
  field_omitempty "startingMemberSetSha256" (vr_StartingMemberSetSHA256 v);
  field "finalMemberUidSha256" (vr_FinalMemberUIDSHA256 v);
  field_omitempty "finalMemberSetSha256" (vr_FinalMemberSetSHA256 v);
  field_omitempty "introducedMemberUidSha256" (vr_IntroducedMemberUIDSHA256 v);
  field "observed" (vr_Observed v); field "freshBackupVerified" (vr_FreshBackupVerified v);
  field "previousWaveVerified" (vr_PreviousWaveVerified v);
  field "finalOneServerLossVerified" (vr_FinalOneServerLossVerified v);
  slice_array "checks" (vr_Checks v); slice_array "blockers" (vr_Blockers v);
  field "mutationAttempted" (vr_MutationAttempted v); field "nonClaim" (vr_NonClaim v)].

#[export] Instance marshal_HAWaveVerification : Marshal HAWaveVerification := fun v => JStruct (HAWaveVerification_fields v).

Definition HAWaveVerification_names : list string := [
  "schemaVersion"; "generatedAt"; "completedAt"; "status"; "phase"; "installationId";
  "planSha256"; "inventoryReceiptSha256"; "oneServerLossReceiptSha256";
  "preflightInventoryReceiptSha256"; "nodeUidHashAlgorithm"; "startingMemberUidSha256";
  "startingMemberSetSha256"; "finalMemberUidSha256"; "finalMemberSetSha256";
  "introducedMemberUidSha256"; "observed"; "freshBackupVerified"; "previousWaveVerified";
  "finalOneServerLossVerified"; "checks"; "blockers"; "mutationAttempted"; "nonClaim"].

#[export] Instance unmarshal_HAWaveVerification : Unmarshal HAWaveVerification := fun strict values =>
  ms ← members strict HAWaveVerification_names values;
  let get name := gather HAWaveVerification_names ms name in
  v0 ← unmarshal strict (get "schemaVersion");
  v1 ← unmarshal strict (get "generatedAt");
  v2 ← unmarshal strict (get "completedAt");
  v3 ← unmarshal strict (get "status");
  v4 ← unmarshal strict (get "phase");
  v5 ← unmarshal strict (get "installationId");
  v6 ← unmarshal strict (get "planSha256");
  v7 ← unmarshal strict (get "inventoryReceiptSha256");
  v8 ← unmarshal strict (get "oneServerLossReceiptSha256");
  v9 ← unmarshal strict (get "preflightInventoryReceiptSha256");
  v10 ← unmarshal strict (get "nodeUidHashAlgorithm");
  v11 ← unmarshal strict (get "startingMemberUidSha256");
  v12 ← unmarshal strict (get "startingMemberSetSha256");
  v13 ← unmarshal strict (get "finalMemberUidSha256");
  v14 ← unmarshal strict (get "finalMemberSetSha256");
  v15 ← unmarshal strict (get "introducedMemberUidSha256");
  v16 ← unmarshal strict (get "observed");
  v17 ← unmarshal strict (get "freshBackupVerified");
  v18 ← unmarshal strict (get "previousWaveVerified");
  v19 ← unmarshal strict (get "finalOneServerLossVerified");
  v20 ← unmarshal strict (get "checks");
  v21 ← unmarshal strict (get "blockers");
  v22 ← unmarshal strict (get "mutationAttempted");
  v23 ← unmarshal strict (get "nonClaim");
  Some {|
    vr_SchemaVersion := v0; vr_GeneratedAt := v1; vr_CompletedAt := v2; vr_Status := v3;
    vr_Phase := v4; vr_InstallationID := v5; vr_PlanSHA256 := v6;
    vr_InventoryReceiptSHA256 := v7; vr_OneServerLossReceiptSHA256 := v8;
    vr_PreflightInventoryReceiptSHA256 := v9; vr_NodeUIDHashAlgorithm := v10;
    vr_StartingMemberUIDSHA256 := v11; vr_StartingMemberSetSHA256 := v12;
    vr_FinalMemberUIDSHA256 := v13; vr_FinalMemberSetSHA256 := v14;
    vr_IntroducedMemberUIDSHA256 := v15; vr_Observed := v16; vr_FreshBackupVerified := v17;
    vr_PreviousWaveVerified := v18; vr_FinalOneServerLossVerified := v19; vr_Checks := v20;
    vr_Blockers := v21; vr_MutationAttempted := v22; vr_NonClaim := v23
  |}.

(** ** The steps in which a plan and a report are filled in *)

Definition plan_checked (v : HAWavePlan)
    (checks : list HAWaveCheck) (blockers : list string)
    : HAWavePlan := {|
  pl_SchemaVersion := pl_SchemaVersion v; pl_GeneratedAt := pl_GeneratedAt v;
  pl_Status := pl_Status v; pl_Phase := pl_Phase v; pl_InstallationID := pl_InstallationID v;
  pl_From := pl_From v; pl_Target := pl_Target v;
  pl_PreflightInventoryReceiptSHA256 := pl_PreflightInventoryReceiptSHA256 v;
  pl_PreflightCapturedAt := pl_PreflightCapturedAt v;
  pl_NodeUIDHashAlgorithm := pl_NodeUIDHashAlgorithm v;
  pl_StartingMemberUIDSHA256 := pl_StartingMemberUIDSHA256 v;
  pl_StartingMemberSetSHA256 := pl_StartingMemberSetSHA256 v;
  pl_BackupGeneratedAt := pl_BackupGeneratedAt v; pl_Checks := checks; pl_Blockers := blockers;
  pl_Steps := pl_Steps v; pl_Rollback := pl_Rollback v;
  pl_MutationAllowed := pl_MutationAllowed v; pl_NonClaim := pl_NonClaim v
|}.

Definition plan_preflight (v : HAWavePlan)
    (from : HAWaveCounts) (preflightInventoryReceiptSHA256 : string)
    (preflightCapturedAt : string) (nodeUIDHashAlgorithm : string)
    (startingMemberUIDSHA256 : list string) (startingMemberSetSHA256 : string)
    : HAWavePlan := {|
  pl_SchemaVersion := pl_SchemaVersion v; pl_GeneratedAt := pl_GeneratedAt v;
  pl_Status := pl_Status v; pl_Phase := pl_Phase v; pl_InstallationID := pl_InstallationID v;
  pl_From := from; pl_Target := pl_Target v;
  pl_PreflightInventoryReceiptSHA256 := preflightInventoryReceiptSHA256;
  pl_PreflightCapturedAt := preflightCapturedAt;
  pl_NodeUIDHashAlgorithm := nodeUIDHashAlgorithm;
  pl_StartingMemberUIDSHA256 := startingMemberUIDSHA256;
  pl_StartingMemberSetSHA256 := startingMemberSetSHA256;
  pl_BackupGeneratedAt := pl_BackupGeneratedAt v; pl_Checks := pl_Checks v;
  pl_Blockers := pl_Blockers v; pl_Steps := pl_Steps v; pl_Rollback := pl_Rollback v;
  pl_MutationAllowed := pl_MutationAllowed v; pl_NonClaim := pl_NonClaim v
|}.

Definition plan_phase (v : HAWavePlan) (phase : string) (target : HAWaveCounts) : HAWavePlan := {|
  pl_SchemaVersion := pl_SchemaVersion v; pl_GeneratedAt := pl_GeneratedAt v;
  pl_Status := pl_Status v; pl_Phase := phase; pl_InstallationID := pl_InstallationID v;
  pl_From := pl_From v; pl_Target := target;
  pl_PreflightInventoryReceiptSHA256 := pl_PreflightInventoryReceiptSHA256 v;
  pl_PreflightCapturedAt := pl_PreflightCapturedAt v;
  pl_NodeUIDHashAlgorithm := pl_NodeUIDHashAlgorithm v;
  pl_StartingMemberUIDSHA256 := pl_StartingMemberUIDSHA256 v;
  pl_StartingMemberSetSHA256 := pl_StartingMemberSetSHA256 v;
  pl_BackupGeneratedAt := pl_BackupGeneratedAt v; pl_Checks := pl_Checks v;
  pl_Blockers := pl_Blockers v; pl_Steps := pl_Steps v; pl_Rollback := pl_Rollback v;
  pl_MutationAllowed := pl_MutationAllowed v; pl_NonClaim := pl_NonClaim v
|}.

Definition plan_backup (v : HAWavePlan) (backupGeneratedAt : string) : HAWavePlan := {|
  pl_SchemaVersion := pl_SchemaVersion v; pl_GeneratedAt := pl_GeneratedAt v;
  pl_Status := pl_Status v; pl_Phase := pl_Phase v; pl_InstallationID := pl_InstallationID v;
  pl_From := pl_From v; pl_Target := pl_Target v;
  pl_PreflightInventoryReceiptSHA256 := pl_PreflightInventoryReceiptSHA256 v;
  pl_PreflightCapturedAt := pl_PreflightCapturedAt v;
  pl_NodeUIDHashAlgorithm := pl_NodeUIDHashAlgorithm v;
  pl_StartingMemberUIDSHA256 := pl_StartingMemberUIDSHA256 v;
  pl_StartingMemberSetSHA256 := pl_StartingMemberSetSHA256 v;
  pl_BackupGeneratedAt := backupGeneratedAt; pl_Checks := pl_Checks v;
  pl_Blockers := pl_Blockers v; pl_Steps := pl_Steps v; pl_Rollback := pl_Rollback v;
  pl_MutationAllowed := pl_MutationAllowed v; pl_NonClaim := pl_NonClaim v
|}.

Definition plan_ready (v : HAWavePlan)
    (status : string) (steps : list string) (rollback : list string)
    : HAWavePlan := {|
  pl_SchemaVersion := pl_SchemaVersion v; pl_GeneratedAt := pl_GeneratedAt v;
  pl_Status := status; pl_Phase := pl_Phase v; pl_InstallationID := pl_InstallationID v;
  pl_From := pl_From v; pl_Target := pl_Target v;
  pl_PreflightInventoryReceiptSHA256 := pl_PreflightInventoryReceiptSHA256 v;
  pl_PreflightCapturedAt := pl_PreflightCapturedAt v;
  pl_NodeUIDHashAlgorithm := pl_NodeUIDHashAlgorithm v;
  pl_StartingMemberUIDSHA256 := pl_StartingMemberUIDSHA256 v;
  pl_StartingMemberSetSHA256 := pl_StartingMemberSetSHA256 v;
  pl_BackupGeneratedAt := pl_BackupGeneratedAt v; pl_Checks := pl_Checks v;
  pl_Blockers := pl_Blockers v; pl_Steps := steps; pl_Rollback := rollback;
  pl_MutationAllowed := pl_MutationAllowed v; pl_NonClaim := pl_NonClaim v
|}.

Definition report_checked (v : HAWaveVerification)
    (checks : list HAWaveCheck) (blockers : list string)
    : HAWaveVerification := {|
  vr_SchemaVersion := vr_SchemaVersion v; vr_GeneratedAt := vr_GeneratedAt v;
  vr_CompletedAt := vr_CompletedAt v; vr_Status := vr_Status v; vr_Phase := vr_Phase v;
  vr_InstallationID := vr_InstallationID v; vr_PlanSHA256 := vr_PlanSHA256 v;
  vr_InventoryReceiptSHA256 := vr_InventoryReceiptSHA256 v;
  vr_OneServerLossReceiptSHA256 := vr_OneServerLossReceiptSHA256 v;
  vr_PreflightInventoryReceiptSHA256 := vr_PreflightInventoryReceiptSHA256 v;
  vr_NodeUIDHashAlgorithm := vr_NodeUIDHashAlgorithm v;
  vr_StartingMemberUIDSHA256 := vr_StartingMemberUIDSHA256 v;
  vr_StartingMemberSetSHA256 := vr_StartingMemberSetSHA256 v;
  vr_FinalMemberUIDSHA256 := vr_FinalMemberUIDSHA256 v;
  vr_FinalMemberSetSHA256 := vr_FinalMemberSetSHA256 v;
  vr_IntroducedMemberUIDSHA256 := vr_IntroducedMemberUIDSHA256 v; vr_Observed := vr_Observed v;
  vr_FreshBackupVerified := vr_FreshBackupVerified v;
  vr_PreviousWaveVerified := vr_PreviousWaveVerified v;
  vr_FinalOneServerLossVerified := vr_FinalOneServerLossVerified v; vr_Checks := checks;
  vr_Blockers := blockers; vr_MutationAttempted := vr_MutationAttempted v;
  vr_NonClaim := vr_NonClaim v
|}.

Definition report_plan (v : HAWaveVerification)
    (phase : string) (installationID : string) (planSHA256 : string)
    (preflightInventoryReceiptSHA256 : string) (nodeUIDHashAlgorithm : string)
    (startingMemberUIDSHA256 : list string) (startingMemberSetSHA256 : string)
    (previousWaveVerified : bool)
    : HAWaveVerification := {|
  vr_SchemaVersion := vr_SchemaVersion v; vr_GeneratedAt := vr_GeneratedAt v;
  vr_CompletedAt := vr_CompletedAt v; vr_Status := vr_Status v; vr_Phase := phase;
  vr_InstallationID := installationID; vr_PlanSHA256 := planSHA256;
  vr_InventoryReceiptSHA256 := vr_InventoryReceiptSHA256 v;
  vr_OneServerLossReceiptSHA256 := vr_OneServerLossReceiptSHA256 v;
  vr_PreflightInventoryReceiptSHA256 := preflightInventoryReceiptSHA256;
  vr_NodeUIDHashAlgorithm := nodeUIDHashAlgorithm;
  vr_StartingMemberUIDSHA256 := startingMemberUIDSHA256;
  vr_StartingMemberSetSHA256 := startingMemberSetSHA256;
  vr_FinalMemberUIDSHA256 := vr_FinalMemberUIDSHA256 v;
  vr_FinalMemberSetSHA256 := vr_FinalMemberSetSHA256 v;
  vr_IntroducedMemberUIDSHA256 := vr_IntroducedMemberUIDSHA256 v; vr_Observed := vr_Observed v;
  vr_FreshBackupVerified := vr_FreshBackupVerified v;
  vr_PreviousWaveVerified := previousWaveVerified;
  vr_FinalOneServerLossVerified := vr_FinalOneServerLossVerified v; vr_Checks := vr_Checks v;
  vr_Blockers := vr_Blockers v; vr_MutationAttempted := vr_MutationAttempted v;
  vr_NonClaim := vr_NonClaim v
|}.

Definition report_backup (v : HAWaveVerification)
    (freshBackupVerified : bool)
    : HAWaveVerification := {|
  vr_SchemaVersion := vr_SchemaVersion v; vr_GeneratedAt := vr_GeneratedAt v;
  vr_CompletedAt := vr_CompletedAt v; vr_Status := vr_Status v; vr_Phase := vr_Phase v;
  vr_InstallationID := vr_InstallationID v; vr_PlanSHA256 := vr_PlanSHA256 v;
  vr_InventoryReceiptSHA256 := vr_InventoryReceiptSHA256 v;
  vr_OneServerLossReceiptSHA256 := vr_OneServerLossReceiptSHA256 v;
  vr_PreflightInventoryReceiptSHA256 := vr_PreflightInventoryReceiptSHA256 v;
  vr_NodeUIDHashAlgorithm := vr_NodeUIDHashAlgorithm v;
  vr_StartingMemberUIDSHA256 := vr_StartingMemberUIDSHA256 v;
  vr_StartingMemberSetSHA256 := vr_StartingMemberSetSHA256 v;
  vr_FinalMemberUIDSHA256 := vr_FinalMemberUIDSHA256 v;
  vr_FinalMemberSetSHA256 := vr_FinalMemberSetSHA256 v;
  vr_IntroducedMemberUIDSHA256 := vr_IntroducedMemberUIDSHA256 v; vr_Observed := vr_Observed v;
  vr_FreshBackupVerified := freshBackupVerified;
  vr_PreviousWaveVerified := vr_PreviousWaveVerified v;
  vr_FinalOneServerLossVerified := vr_FinalOneServerLossVerified v; vr_Checks := vr_Checks v;
  vr_Blockers := vr_Blockers v; vr_MutationAttempted := vr_MutationAttempted v;
  vr_NonClaim := vr_NonClaim v
|}.

Definition report_inventory (v : HAWaveVerification)
    (observed : HAWaveCounts) (inventoryReceiptSHA256 : string)
    (finalMemberUIDSHA256 : list string) (finalMemberSetSHA256 : string)
    : HAWaveVerification := {|
  vr_SchemaVersion := vr_SchemaVersion v; vr_GeneratedAt := vr_GeneratedAt v;
  vr_CompletedAt := vr_CompletedAt v; vr_Status := vr_Status v; vr_Phase := vr_Phase v;
  vr_InstallationID := vr_InstallationID v; vr_PlanSHA256 := vr_PlanSHA256 v;
  vr_InventoryReceiptSHA256 := inventoryReceiptSHA256;
  vr_OneServerLossReceiptSHA256 := vr_OneServerLossReceiptSHA256 v;
  vr_PreflightInventoryReceiptSHA256 := vr_PreflightInventoryReceiptSHA256 v;
  vr_NodeUIDHashAlgorithm := vr_NodeUIDHashAlgorithm v;
  vr_StartingMemberUIDSHA256 := vr_StartingMemberUIDSHA256 v;
  vr_StartingMemberSetSHA256 := vr_StartingMemberSetSHA256 v;
  vr_FinalMemberUIDSHA256 := finalMemberUIDSHA256;
  vr_FinalMemberSetSHA256 := finalMemberSetSHA256;
  vr_IntroducedMemberUIDSHA256 := vr_IntroducedMemberUIDSHA256 v; vr_Observed := observed;
  vr_FreshBackupVerified := vr_FreshBackupVerified v;
  vr_PreviousWaveVerified := vr_PreviousWaveVerified v;
  vr_FinalOneServerLossVerified := vr_FinalOneServerLossVerified v; vr_Checks := vr_Checks v;
  vr_Blockers := vr_Blockers v; vr_MutationAttempted := vr_MutationAttempted v;
  vr_NonClaim := vr_NonClaim v
|}.

Definition report_introduced (v : HAWaveVerification)
    (introducedMemberUIDSHA256 : string)
    : HAWaveVerification := {|
  vr_SchemaVersion := vr_SchemaVersion v; vr_GeneratedAt := vr_GeneratedAt v;
  vr_CompletedAt := vr_CompletedAt v; vr_Status := vr_Status v; vr_Phase := vr_Phase v;
  vr_InstallationID := vr_InstallationID v; vr_PlanSHA256 := vr_PlanSHA256 v;
  vr_InventoryReceiptSHA256 := vr_InventoryReceiptSHA256 v;
  vr_OneServerLossReceiptSHA256 := vr_OneServerLossReceiptSHA256 v;
  vr_PreflightInventoryReceiptSHA256 := vr_PreflightInventoryReceiptSHA256 v;
  vr_NodeUIDHashAlgorithm := vr_NodeUIDHashAlgorithm v;
  vr_StartingMemberUIDSHA256 := vr_StartingMemberUIDSHA256 v;
  vr_StartingMemberSetSHA256 := vr_StartingMemberSetSHA256 v;
  vr_FinalMemberUIDSHA256 := vr_FinalMemberUIDSHA256 v;
  vr_FinalMemberSetSHA256 := vr_FinalMemberSetSHA256 v;
  vr_IntroducedMemberUIDSHA256 := introducedMemberUIDSHA256; vr_Observed := vr_Observed v;
  vr_FreshBackupVerified := vr_FreshBackupVerified v;
  vr_PreviousWaveVerified := vr_PreviousWaveVerified v;
  vr_FinalOneServerLossVerified := vr_FinalOneServerLossVerified v; vr_Checks := vr_Checks v;
  vr_Blockers := vr_Blockers v; vr_MutationAttempted := vr_MutationAttempted v;
  vr_NonClaim := vr_NonClaim v
|}.

Definition report_loss (v : HAWaveVerification)
    (finalOneServerLossVerified : bool) (oneServerLossReceiptSHA256 : string)
    : HAWaveVerification := {|
  vr_SchemaVersion := vr_SchemaVersion v; vr_GeneratedAt := vr_GeneratedAt v;
  vr_CompletedAt := vr_CompletedAt v; vr_Status := vr_Status v; vr_Phase := vr_Phase v;
  vr_InstallationID := vr_InstallationID v; vr_PlanSHA256 := vr_PlanSHA256 v;
  vr_InventoryReceiptSHA256 := vr_InventoryReceiptSHA256 v;
  vr_OneServerLossReceiptSHA256 := oneServerLossReceiptSHA256;
  vr_PreflightInventoryReceiptSHA256 := vr_PreflightInventoryReceiptSHA256 v;
  vr_NodeUIDHashAlgorithm := vr_NodeUIDHashAlgorithm v;
  vr_StartingMemberUIDSHA256 := vr_StartingMemberUIDSHA256 v;
  vr_StartingMemberSetSHA256 := vr_StartingMemberSetSHA256 v;
  vr_FinalMemberUIDSHA256 := vr_FinalMemberUIDSHA256 v;
  vr_FinalMemberSetSHA256 := vr_FinalMemberSetSHA256 v;
  vr_IntroducedMemberUIDSHA256 := vr_IntroducedMemberUIDSHA256 v; vr_Observed := vr_Observed v;
  vr_FreshBackupVerified := vr_FreshBackupVerified v;
  vr_PreviousWaveVerified := vr_PreviousWaveVerified v;
  vr_FinalOneServerLossVerified := finalOneServerLossVerified; vr_Checks := vr_Checks v;
  vr_Blockers := vr_Blockers v; vr_MutationAttempted := vr_MutationAttempted v;
  vr_NonClaim := vr_NonClaim v
|}.

Definition report_ready (v : HAWaveVerification) (status : string) : HAWaveVerification := {|
  vr_SchemaVersion := vr_SchemaVersion v; vr_GeneratedAt := vr_GeneratedAt v;
  vr_CompletedAt := vr_CompletedAt v; vr_Status := status; vr_Phase := vr_Phase v;
  vr_InstallationID := vr_InstallationID v; vr_PlanSHA256 := vr_PlanSHA256 v;
  vr_InventoryReceiptSHA256 := vr_InventoryReceiptSHA256 v;
  vr_OneServerLossReceiptSHA256 := vr_OneServerLossReceiptSHA256 v;
  vr_PreflightInventoryReceiptSHA256 := vr_PreflightInventoryReceiptSHA256 v;
  vr_NodeUIDHashAlgorithm := vr_NodeUIDHashAlgorithm v;
  vr_StartingMemberUIDSHA256 := vr_StartingMemberUIDSHA256 v;
  vr_StartingMemberSetSHA256 := vr_StartingMemberSetSHA256 v;
  vr_FinalMemberUIDSHA256 := vr_FinalMemberUIDSHA256 v;
  vr_FinalMemberSetSHA256 := vr_FinalMemberSetSHA256 v;
  vr_IntroducedMemberUIDSHA256 := vr_IntroducedMemberUIDSHA256 v; vr_Observed := vr_Observed v;
  vr_FreshBackupVerified := vr_FreshBackupVerified v;
  vr_PreviousWaveVerified := vr_PreviousWaveVerified v;
  vr_FinalOneServerLossVerified := vr_FinalOneServerLossVerified v; vr_Checks := vr_Checks v;
  vr_Blockers := vr_Blockers v; vr_MutationAttempted := vr_MutationAttempted v;
  vr_NonClaim := vr_NonClaim v
|}.
