(* ===== verification/HaWave.v ===== *)
(** * Kubeadm waves: the planner and the verifier

    pkg/kubeadm/ha_wave.go.  The files that can be opened are a function from
    paths to contents, the loaders of evidence are functions of the path and the
    time, and [system_time] is what [time.Now] answers when no clock is given. *)

From stdpp Require Import gmap strings list.
From Stdlib Require Import ZArith Ascii Lia.
From S2P Require Import Prelude GoString GoTime GoSort GoPath GoSha256 GoJson StrictJson GoRfc3339 OslTypes OslValidate HaTypes.

#[local] Open Scope Z_scope.

(** ** Texts *)

Definition validHAWaveSHA256 (value : string) : bool := hex_of_length 64 value.

Definition dns1123SubdomainPattern (value : string) : bool :=
  match_first_last lower_digit (fun c => lower_digit c || one_of "-." c) lower_digit (len value) value.

Definition validDNS1123Subdomain (value : string) : bool :=
  if (253 <? len value)%nat || negb (dns1123SubdomainPattern value) || Contains value ".." ||
     Contains value ".-" || Contains value "-." then false
  else forallb (fun label => negb (63 <? len label)%nat) (Split_char "." value).

(** [v], three numbers with dots between them, and perhaps a suffix *)
Definition version_number (s : string) : option string :=
  let '(digits, rest) := span_digits s in if digits == "" then None else Some rest.

(** This very character, and what follows it. *)
Definition one_char (n : nat) (s : string) : option string :=
  match s with
  | String c r => if is_char n c then Some r else None
  | EmptyString => None
  end.

Definition kubernetesVersionPattern (s : string) : bool :=
  match (r ← one_char 118 s; r ← version_number r; r ← one_char 46 r; r ← version_number r;
         r ← one_char 46 r; version_number r) with
  | None => false
  | Some EmptyString => true
  | Some (String c rest) =>
      one_of "-+" c && (rest != "") && all_chars (fun c => alphanumeric c || one_of ".-" c) rest
  end.

(** Versions and texts that are none, white space among them. *)
Example kubernetesVersionPattern_samples :
  List.map kubernetesVersionPattern ["v1.31.2"; "v1.31.2-rc.1"; "v10.0.0+k3s1"; " v1.31.2";
    "v1 .31.2"; "v1. 31.2"; "v1.31.2 "; "v1.31.2-"; "v1.31"; "v1.31.2.4"; "1.31.2"; ""] =
  [true; true; true; false; false; false; false; false; false; false; false; false].
Proof. vm_compute. reflexivity. Qed.

(** [strings.ToLower] of a text the pattern accepts *)
Definition lower_char (c : ascii) : ascii :=
  if is_upper c then ascii_of_nat (code c + 32) else c.
Fixpoint ToLower (s : string) : string :=
  match s with EmptyString => "" | String c r => String (lower_char c) (ToLower r) end.

(** [filepath.Base]: the last element that is not empty. *)
Definition path_Base (path : string) : string :=
  if path == "" then "." else
  match rev (List.filter (fun e => e != "") (split_slash path)) with
  | e :: _ => e
  | [] => "/"
  end.

Definition safeHAWaveArtifact (path : string) : string :=
  let trimmed := TrimSpace path in
  if trimmed == "" then "" else
  let base := path_Base (path_Clean trimmed) in
  if (base == ".") || (base == "/") || (128 <? len base)%nat then ""
  else match base with
       | EmptyString => base
       | String c rest =>
           if alphanumeric c && all_chars (fun c => alphanumeric c || one_of "._-" c) rest then base else ""
       end.

(** ** Times *)

Definition haWaveNow (system_time : Time) (clock : option Time) : Time := default system_time clock.

Definition formatHAWaveTime (value : Time) : string :=
  if IsZero value then "" else Format_RFC3339Nano value.

Definition parseHAWaveTime (value : string) : option Time := canonical value.

Definition canonicalHAWaveTime (value : string) : bool := negb (is_nil (parseHAWaveTime value)).

Definition freshHAWaveTime (value now : Time) : bool :=
  if IsZero value || IsZero now then false
  else negb (Before value (time_Add now (- maximumHAWaveEvidenceAge))) &&
       negb (After value (time_Add now maximumHAWaveFutureSkew)).

(** A comparison of a time that may not have parsed: the zero time stands for
    it where the code goes on. *)
Definition time_or_zero (t : option Time) : Time := default time_zero t.

(** ** Topologies *)

Definition haWaveCounts (value : Z) : HAWaveCounts := {|
  ct_ControlPlane := value; ct_Etcd := value; ct_APIServer := value |}.

Definition counts_eqb (a b : HAWaveCounts) : bool :=
  (ct_ControlPlane a =? ct_ControlPlane b) && (ct_Etcd a =? ct_Etcd b) &&
  (ct_APIServer a =? ct_APIServer b).

(** The number of members before the wave, and the wave. *)
Definition haWavePhase (current : HAWaveCounts) : option (Z * string) :=
  if negb (ct_ControlPlane current =? ct_Etcd current) ||
     negb (ct_ControlPlane current =? ct_APIServer current) then None
  else if ct_ControlPlane current =? 1 then Some (1, HAWavePhaseOneToTwo)
  else if ct_ControlPlane current =? 2 then Some (2, HAWavePhaseTwoToThree)
  else None.

(** ** Members *)

Fixpoint ascending_hashes (previous : option string) (uids : list string) : bool :=
  match uids with
  | [] => true
  | uid :: rest =>
      if negb (validHAWaveSHA256 uid) || match previous with Some p => uid == p | None => false end
      then false else ascending_hashes (Some uid) rest
  end.

Definition canonicalHAWaveMemberUIDs (memberUIDSHA256 : list string) : result (list string) :=
  let n := length memberUIDSHA256 in
  if ((n <? 1) || (3 <? n))%nat then Err (errors_New "HA-wave member identity set size is invalid") else
  let canonical := sort_Strings memberUIDSHA256 in
  if ascending_hashes None canonical then Ok canonical
  else Err (errors_New "HA-wave member identity set is invalid").

Definition HAWaveMemberSetSHA256 (memberUIDSHA256 : list string) : string :=
  match canonicalHAWaveMemberUIDs memberUIDSHA256 with
  | Err _ => ""
  | Ok canonical => ControlPlaneMemberSetSHA256 canonical
  end.

Definition is_canonical (uids : list string) : bool :=
  match canonicalHAWaveMemberUIDs uids with
  | Ok canonical => bool_decide (canonical = uids)
  | Err _ => false
  end.

(** The members that are not among the starting ones: one, or an error.  The
    starting ones that were found are taken out of the set. *)
Fixpoint introduced_member (startingSet : gset string) (introduced : string) (final : list string)
    : result (gset string * string) :=
  match final with
  | [] => Ok (startingSet, introduced)
  | uid :: rest =>
      if bool_decide (uid ∈ startingSet) then introduced_member (startingSet ∖ {[uid]}) introduced rest
      else if introduced != ""
      then Err (errors_New "HA-wave final member identity set contains multiple additions")
      else introduced_member startingSet uid rest
  end.

Definition validateHAWaveMemberTransition (starting final : list string) : result string :=
  if negb (is_canonical starting)
  then Err (errors_New "HA-wave starting member identity set is invalid")
  else if negb (is_canonical final) || negb (length final =? S (length starting))%nat
  then Err (errors_New "HA-wave final member identity set is invalid")
  else match introduced_member (list_to_set starting) "" final with
  | Err err => Err err
  | Ok (startingSet, introduced) =>
      if negb (bool_decide (startingSet = ∅)) || (introduced == "")
      then Err (errors_New "HA-wave final member identity set replaced or deleted a starting member")
      else Ok introduced
  end.

(** ** Inventory receipts *)

Definition HAWaveInventoryReceiptSHA256 (receipt : HAWaveInventoryReceipt) : string :=
  digestJSON (HAWaveInventoryReceipt_with_ReceiptSHA256 receipt "").

(** The members in ascending order, all healthy in every role. *)
Fixpoint check_members (previousUID : string) (members : list HAWaveMemberIdentity) : bool :=
  match members with
  | [] => true
  | member :: rest =>
      let uid := mi_UIDSHA256 member in
      if negb (validHAWaveSHA256 uid) || negb (string_lt previousUID uid) || negb (mi_Ready member) ||
         negb (mi_ControlPlane member) || negb (mi_EtcdMember member)
      then false else check_members uid rest
  end.

Fixpoint check_apiservers (memberUIDs : gset string) (previousUID : string) (uids : list string)
    : option goerror :=
  match uids with
  | [] => None
  | uid :: rest =>
      if negb (validHAWaveSHA256 uid) || negb (string_lt previousUID uid)
      then Some (errors_New "HA-wave API-server identity set is invalid")
      else if negb (bool_decide (uid ∈ memberUIDs))
      then Some (errors_New "HA-wave API-server identity is not a captured member")
      else check_apiservers memberUIDs uid rest
  end.

Definition haWaveInventoryMemberUIDs (inventory : HAWaveInventoryReceipt) : list string :=
  List.map mi_UIDSHA256 (ir_Members inventory).

Definition haWaveInventoryHasMember (inventory : HAWaveInventoryReceipt) (uid : string) : bool :=
  existsb (fun member => mi_UIDSHA256 member == uid) (ir_Members inventory).

Definition ValidateHAWaveInventoryReceipt (receipt : option HAWaveInventoryReceipt) (now : Time)
    : result HAWaveCounts :=
  match receipt with
  | None => Err (errors_New "HA-wave inventory receipt is invalid")
  | Some receipt =>
  if IsZero now || (ir_SchemaVersion receipt != HAWaveInventorySchemaVersion) ||
     negb (validDNS1123Subdomain (ir_InstallationID receipt)) ||
     (ir_Distribution receipt != "upstream") || (ir_Bootstrap receipt != "kubeadm") ||
     (ir_NodeUIDHashAlgorithm receipt != NodeUIDHashAlgorithm) ||
     negb (kubernetesVersionPattern (ir_ServerVersion receipt)) ||
     Contains (ToLower (ir_ServerVersion receipt)) "+k3s" ||
     negb (validHAWaveSHA256 (ir_ReceiptSHA256 receipt)) ||
     (ir_ReceiptSHA256 receipt != HAWaveInventoryReceiptSHA256 receipt)
  then Err (errors_New "HA-wave inventory receipt is invalid") else
  let n := length (ir_Members receipt) in
  match parseHAWaveTime (ir_CapturedAt receipt) with
  | None => Err (errors_New "HA-wave inventory receipt topology is invalid")
  | Some capturedAt =>
  if negb (freshHAWaveTime capturedAt now) || ((n <? 1) || (3 <? n))%nat ||
     negb (length (ir_APIServerNodeUIDSHA256 receipt) =? n)%nat
  then Err (errors_New "HA-wave inventory receipt topology is invalid")
  else if negb (check_members "" (ir_Members receipt))
  then Err (errors_New "HA-wave inventory member identity is invalid")
  else match check_apiservers (list_to_set (haWaveInventoryMemberUIDs receipt)) ""
               (ir_APIServerNodeUIDSHA256 receipt) with
  | Some err => Err err
  | None => Ok {| ct_ControlPlane := Z.of_nat n; ct_Etcd := Z.of_nat n;
                  ct_APIServer := Z.of_nat (length (ir_APIServerNodeUIDSHA256 receipt)) |}
  end end end.

(** * Kubeadm waves: plans and verifications

    The rest of pkg/kubeadm/ha_wave.go: what is read back from files, the plan
    of a wave and the verification of a wave that was carried out. *)

(** ** Checks *)

Definition appendUniqueHAWaveBlocker (values : list string) (value : string) : list string :=
  if existsb (String.eqb value) values then values else values ++ [value].

Definition passed (id detail artifact sha : string) : HAWaveCheck := {|
  ck_ID := id; ck_Status := "pass"; ck_Artifact := artifact; ck_SHA256 := sha; ck_Detail := detail |}.
Definition blocked (id detail artifact sha : string) : HAWaveCheck := {|
  ck_ID := id; ck_Status := "blocked"; ck_Artifact := artifact; ck_SHA256 := sha; ck_Detail := detail |}.

Definition plan_pass (id detail artifact sha : string) (plan : HAWavePlan) : HAWavePlan :=
  plan_checked plan (pl_Checks plan ++ [passed id detail artifact sha]) (pl_Blockers plan).
Definition plan_block (blocker id detail artifact sha : string) (plan : HAWavePlan) : HAWavePlan :=
  plan_checked plan (pl_Checks plan ++ [blocked id detail artifact sha])
    (appendUniqueHAWaveBlocker (pl_Blockers plan) blocker).

Definition report_pass (id detail artifact sha : string) (report : HAWaveVerification)
    : HAWaveVerification :=
  report_checked report (vr_Checks report ++ [passed id detail artifact sha]) (vr_Blockers report).
Definition report_block (blocker id detail artifact sha : string) (report : HAWaveVerification)
    : HAWaveVerification :=
  report_checked report (vr_Checks report ++ [blocked id detail artifact sha])
    (appendUniqueHAWaveBlocker (vr_Blockers report) blocker).

Definition findHAWaveCheck (checks : list HAWaveCheck) (id : string) : option HAWaveCheck :=
  List.find (fun check => ck_ID check == id) checks.

Definition hasPassingHAWaveCheck (checks : list HAWaveCheck) (id : string) : bool :=
  existsb (fun check => (ck_ID check == id) && (ck_Status check == "pass") &&
    validHAWaveSHA256 (ck_SHA256 check)) checks.

Definition ordered_check (check : HAWaveCheck) (id : string) : bool :=
  (ck_ID check == id) && (ck_Status check == "pass") && negb (blank (ck_Detail check)) &&
  (ck_Artifact check == safeHAWaveArtifact (ck_Artifact check)) &&
  if (id == "current_topology") || (id == "member_identity_transition") || (id == "target_topology")
  then (ck_Artifact check == "") && (ck_SHA256 check == "")
  else (ck_Artifact check != "") && validHAWaveSHA256 (ck_SHA256 check).

Fixpoint hasOrderedHAWaveChecks (checks : list HAWaveCheck) (ids : list string) : bool :=
  match checks, ids with
  | [], [] => true
  | check :: checks, id :: ids => ordered_check check id && hasOrderedHAWaveChecks checks ids
  | _, _ => false
  end.

Definition hasExactHAWavePlanChecks (checks : list HAWaveCheck) (previous : bool) : bool :=
  hasOrderedHAWaveChecks checks
    (["preflight_inventory"; "current_topology"; "fresh_backup"] ++ if previous then ["previous_wave"] else []).

Definition hasExactHAWaveVerificationChecks (checks : list HAWaveCheck) (final : bool) : bool :=
  hasOrderedHAWaveChecks checks
    (["plan"; "fresh_backup"; "inventory"; "member_identity_transition"; "target_topology"] ++
     if final then ["final_one_server_loss"] else []).

(** ** What a ready plan and a ready verification say *)

Definition plan_contract (plan : HAWavePlan) : bool :=
  match haWavePhase (pl_From plan), parseHAWaveTime (pl_PreflightCapturedAt plan),
        parseHAWaveTime (pl_GeneratedAt plan), parseHAWaveTime (pl_BackupGeneratedAt plan) with
  | Some (from, phase), Some preflightAt, Some generatedAt, Some backupAt =>
      (pl_SchemaVersion plan == HAWaveSchemaVersion) && (pl_Status plan == "ready") &&
      (pl_Phase plan == phase) && counts_eqb (pl_Target plan) (haWaveCounts (from + 1)) &&
      validDNS1123Subdomain (pl_InstallationID plan) && negb (pl_MutationAllowed plan) &&
      is_canonical (pl_StartingMemberUIDSHA256 plan) &&
      (Z.of_nat (length (pl_StartingMemberUIDSHA256 plan)) =? from) &&
      negb (After preflightAt generatedAt) &&
      negb ((phase == HAWavePhaseTwoToThree) && negb (After preflightAt backupAt)) &&
      (pl_NodeUIDHashAlgorithm plan == NodeUIDHashAlgorithm) &&
      validHAWaveSHA256 (pl_PreflightInventoryReceiptSHA256 plan) &&
      validHAWaveSHA256 (pl_StartingMemberSetSHA256 plan) &&
      (pl_StartingMemberSetSHA256 plan == HAWaveMemberSetSHA256 (pl_StartingMemberUIDSHA256 plan)) &&
      (length (pl_Blockers plan) =? 0)%nat && (pl_NonClaim plan == haWavePlanNonClaim) &&
      bool_decide (pl_Steps plan = haWaveSteps) && bool_decide (pl_Rollback plan = haWaveRollback) &&
      canonicalHAWaveTime (pl_GeneratedAt plan) && canonicalHAWaveTime (pl_BackupGeneratedAt plan) &&
      hasExactHAWavePlanChecks (pl_Checks plan) (phase == HAWavePhaseTwoToThree)
  | _, _, _, _ => false
  end.

Definition validateReadyHAWavePlan (plan : HAWavePlan) : option goerror :=
  if plan_contract plan then None
  else Some (errors_New "HA-wave plan contract is not ready and read-only").

(** The members a wave ends with, and whether the loss of a server was tried. *)
Definition wave_target (phase : string) : option (Z * bool) :=
  if phase == HAWavePhaseOneToTwo then Some (2, false)
  else if phase == HAWavePhaseTwoToThree then Some (3, true) else None.

Definition report_contract (report : HAWaveVerification) (want : Z) (finalRequired : bool) : bool :=
  match validateHAWaveMemberTransition (vr_StartingMemberUIDSHA256 report)
          (vr_FinalMemberUIDSHA256 report) with
  | Err _ => false
  | Ok introduced =>
      (vr_SchemaVersion report == HAWaveSchemaVersion) && (vr_Status report == "ready") &&
      validDNS1123Subdomain (vr_InstallationID report) &&
      counts_eqb (vr_Observed report) (haWaveCounts want) && vr_FreshBackupVerified report &&
      vr_PreviousWaveVerified report && (vr_NodeUIDHashAlgorithm report == NodeUIDHashAlgorithm) &&
      Bool.eqb (vr_FinalOneServerLossVerified report) finalRequired &&
      validHAWaveSHA256 (vr_PlanSHA256 report) && negb (vr_MutationAttempted report) &&
      (introduced == vr_IntroducedMemberUIDSHA256 report) &&
      (Z.of_nat (length (vr_FinalMemberUIDSHA256 report)) =? want) &&
      validHAWaveSHA256 (vr_PreflightInventoryReceiptSHA256 report) &&
      (vr_StartingMemberSetSHA256 report == HAWaveMemberSetSHA256 (vr_StartingMemberUIDSHA256 report)) &&
      (vr_FinalMemberSetSHA256 report == HAWaveMemberSetSHA256 (vr_FinalMemberUIDSHA256 report)) &&
      validHAWaveSHA256 (vr_InventoryReceiptSHA256 report) &&
      (if finalRequired then validHAWaveSHA256 (vr_OneServerLossReceiptSHA256 report)
       else vr_OneServerLossReceiptSHA256 report == "") &&
      (length (vr_Blockers report) =? 0)%nat && (vr_NonClaim report == haWaveVerifyNonClaim) &&
      canonicalHAWaveTime (vr_GeneratedAt report) && canonicalHAWaveTime (vr_CompletedAt report) &&
      (vr_GeneratedAt report == vr_CompletedAt report) &&
      hasExactHAWaveVerificationChecks (vr_Checks report) finalRequired
  end.

Definition validateReadyHAWaveVerification (report : HAWaveVerification) : option goerror :=
  match wave_target (vr_Phase report) with
  | None => Some (errors_New "HA-wave verification phase is invalid")
  | Some (want, finalRequired) =>
      if report_contract report want finalRequired then None
      else Some (errors_New "HA-wave verification contract is not ready and read-only")
  end.
