(* ===== verification/HaMembers.v ===== *)
(** * Kubeadm waves: sets of members

    What the canonical lists of member hashes are, what a transition from one to
    the next says, and what an accepted inventory holds. *)

From stdpp Require Import gmap strings list.
From Stdlib Require Import ZArith Ascii Sorted Lia.
From S2P Require Import Prelude GoString GoTime GoSort GoPath GoSha256 GoJson StrictJson GoRfc3339 OslTypes OslValidate OslSeal HaTypes HaWave.

#[local] Open Scope Z_scope.
#[local] Opaque sha256_hex.

Definition ascending (a b : string) : Prop := string_lt a b = true.

#[export] Instance ascending_trans : Transitive ascending.
Proof. intros a b c. apply string_lt_trans. Qed.

Lemma ascending_irrefl a : ~ ascending a a.
Proof. unfold ascending. by rewrite string_lt_irrefl. Qed.

Lemma ascending_asym a b : ascending a b -> ~ ascending b a.
Proof. intros H1 H2. exact (ascending_irrefl a (string_lt_trans _ _ _ H1 H2)). Qed.

(** One to three member hashes in ascending order, without duplicates. *)
Definition member_list (uids : list string) : Prop :=
  (1 <= length uids <= 3)%nat /\ Forall (fun uid => validHAWaveSHA256 uid = true) uids /\
  Sorted ascending uids.

Lemma ascending_nodup uids : Sorted ascending uids -> NoDup uids.
Proof.
  intros H. apply Sorted_StronglySorted in H; [|exact string_lt_trans]. induction H as [|x xs H IH Hx]; constructor; [|done].
  intros Hin. rewrite Forall_forall in Hx. exact (ascending_irrefl x (Hx x Hin)).
Qed.

Lemma member_list_nodup uids : member_list uids -> NoDup uids.
Proof. intros (_ & _ & H). by apply ascending_nodup. Qed.

Lemma valid_not_empty uid : validHAWaveSHA256 uid = true -> uid <> "".
Proof. by intros H ->. Qed.

(** Sorting leaves an ascending list as it is. *)
Lemma sort_ascending uids : Sorted ascending uids -> sort_Strings uids = uids.
Proof.
  induction 1 as [|x xs H IH Hx]; [done|]. change (sort_Strings (x :: xs)) with (sort_insert string_lt x (sort_Strings xs)). rewrite IH.
  destruct Hx as [|y xs Hxy]; [done|]. cbn. unfold ascending in Hxy. destruct (string_lt y x) eqn:E; [|done].
  by destruct (ascending_asym x y Hxy E).
Qed.

(** A sorted list without equal neighbours is ascending. *)
Lemma ascending_hashes_spec previous uids :
  Sorted (not_after string_lt) (option_list previous ++ uids) ->
  ascending_hashes previous uids = true <->
  Forall (fun uid => validHAWaveSHA256 uid = true) uids /\ Sorted ascending (option_list previous ++ uids).
Proof.
  revert previous. induction uids as [|uid uids IH]; intros previous Hs.
  { split; [|done]. intros _. split; [constructor|]. destruct previous; repeat constructor. }
  assert (Sorted (not_after string_lt) (uid :: uids)) as Hs'.
  { destruct previous; [by apply Sorted_inv in Hs as [Hs _]|done]. }
  specialize (IH (Some uid) Hs'). cbn [ascending_hashes option_list app] in *.
  destruct (validHAWaveSHA256 uid) eqn:Ev; cbn [negb orb].
  2:{ split; [done|]. intros [Hf _]. apply Forall_cons in Hf as [Hf _]. congruence. }
  destruct previous as [p|]; cbn [option_list app] in *.
  - destruct (uid == p) eqn:Ep.
    { apply String.eqb_eq in Ep as ->. split; [done|]. intros [_ H]. apply Sorted_inv in H as [_ H].
      apply HdRel_inv in H. by destruct (ascending_irrefl p). }
    rewrite IH, Forall_cons. split.
    + intros [Hf H]. split_and!; [done|done|]. constructor; [done|]. constructor.
      apply Sorted_inv in Hs as [_ Hs]. apply HdRel_inv in Hs. unfold not_after in Hs. unfold ascending.
      destruct (string_lt p uid) eqn:E; [done|]. apply String.eqb_neq in Ep.
      by destruct (Ep (string_lt_total _ _ Hs E)).
    + intros [[_ Hf] H]. split; [done|]. by apply Sorted_inv in H as [H _].
  - rewrite IH, Forall_cons. by split; [intros [? ?]|intros [[? ?] ?]].
Qed.

Lemma canonical_iff uids : is_canonical uids = true <-> member_list uids.
Proof.
  unfold is_canonical, canonicalHAWaveMemberUIDs, member_list.
  destruct (_ || _) eqn:El; [split; [done|]; intros (H & _); apply orb_true_iff in El as [El|El];
    [apply Nat.ltb_lt in El|apply Nat.ltb_lt in El]; lia|].
  apply orb_false_iff in El as [E1 E2]. apply Nat.ltb_ge in E1, E2.
  pose proof (sort_Slice_sorted string_lt string_lt_trans string_lt_irrefl uids) as Hs. fold (sort_Strings uids) in Hs.
  pose proof (ascending_hashes_spec None (sort_Strings uids) Hs) as Ha. cbn [option_list app] in Ha.
  destruct (ascending_hashes None (sort_Strings uids)) eqn:Eh.
  - rewrite bool_decide_eq_true. destruct (proj1 Ha eq_refl) as [Hf Hsort]. split.
    + intros E. rewrite E in Hf, Hsort. split_and!; [lia|lia|exact Hf|exact Hsort].
    + intros (_ & _ & H). by apply sort_ascending.
  - split; [done|]. intros (_ & Hf & H). rewrite (sort_ascending _ H) in Ha.
    exact (proj2 Ha (conj Hf H)).
Qed.

Lemma canonical_ok uids : member_list uids -> canonicalHAWaveMemberUIDs uids = Ok uids.
Proof.
  intros H. apply canonical_iff in H. unfold is_canonical in H.
  destruct (canonicalHAWaveMemberUIDs uids); [|done]. apply bool_decide_eq_true in H. by subst.
Qed.

(** The digest of a set of members is a hash. *)
Lemma distinct_ascending previous uids :
  ascending_hashes previous uids = distinct_hashes previous uids.
Proof.
  revert previous. induction uids as [|uid uids IH]; intros previous; [done|].
  cbn. rewrite IH. change (validSHA256 uid) with (validHAWaveSHA256 uid).
  destruct (validHAWaveSHA256 uid); [|done]. destruct previous; [|done]. cbn. by destruct (uid == _).
Qed.

Lemma member_set_digest uids : member_list uids ->
  HAWaveMemberSetSHA256 uids = digestJSON {| ms_Domain := controlPlaneMemberSetDomain; ms_MemberUIDSHA256 := uids |}.
Proof.
  intros H. unfold HAWaveMemberSetSHA256. rewrite (canonical_ok _ H). pose proof H as (Hl & Hf & Hs).
  unfold ControlPlaneMemberSetSHA256. rewrite (sort_ascending _ Hs), <- distinct_ascending.
  apply canonical_iff in H. unfold is_canonical, canonicalHAWaveMemberUIDs in H.
  rewrite (sort_ascending _ Hs) in H. destruct (_ || _) in H; [done|].
  destruct (ascending_hashes None uids); [|done].
  destruct (_ || _) eqn:E; [|done]. apply orb_true_iff in E as [E|E]; [apply Nat.ltb_lt in E|apply Z.ltb_lt in E]; lia.
Qed.

(** ** Transitions *)

Lemma introduced_member_spec final : forall startingSet introduced S m,
  NoDup final -> Forall (fun uid => uid <> "") final ->
  introduced_member startingSet introduced final = Ok (S, m) ->
  S = startingSet ∖ list_to_set final /\
  ((m = introduced /\ Forall (fun uid => uid ∈ startingSet) final) \/
   (introduced = "" /\ m ∈ final /\ (m ∉ startingSet) /\ forall uid, uid ∈ final -> uid <> m -> uid ∈ startingSet)).
Proof.
  induction final as [|uid final IH]; intros startingSet introduced S m Hn Hf H.
  { injection H as <- <-. split; [set_solver|]. left. by split. }
  apply NoDup_cons in Hn as [Hni Hn]. apply Forall_cons in Hf as [Hne Hf]. cbn [introduced_member] in H.
  destruct (bool_decide_reflect (uid ∈ startingSet)) as [Hin|Hin].
  - destruct (IH _ _ _ _ Hn Hf H) as [-> Hm]. split; [set_solver|].
    destruct Hm as [[-> Ha]|(-> & Hm & Hout & Ha)]; [left|right].
    + split; [done|]. constructor; [done|]. eapply Forall_impl; [exact Ha|]. set_solver.
    + assert (uid <> m) as Hu by (by intros ->). split_and!; [done|by right|set_solver|].
      intros x [->|Hx]%elem_of_cons Hxm; [done|]. specialize (Ha x Hx Hxm). set_solver.
  - destruct (introduced != "") eqn:Ei; [done|]. apply negb_false_iff, String.eqb_eq in Ei as ->.
    destruct (IH _ _ _ _ Hn Hf H) as [-> Hm]. split; [set_solver|]. right.
    destruct Hm as [[-> Ha]|(-> & _)]; [|done]. split_and!; [done|by left|done|].
    intros x [->|Hx]%elem_of_cons Hxm; [done|]. rewrite Forall_forall in Ha. by apply Ha.
Qed.

Lemma introduced_member_total final : forall startingSet introduced m,
  NoDup final -> m <> "" ->
  (forall uid, uid ∈ final -> uid <> m -> uid ∈ startingSet) -> m ∉ startingSet ->
  (introduced = "" \/ m ∉ final) ->
  introduced_member startingSet introduced final =
  Ok (startingSet ∖ list_to_set final, if bool_decide (m ∈ final) then m else introduced).
Proof.
  induction final as [|uid final IH]; intros startingSet introduced m Hn Hm Ha Hout Hi.
  { cbn. do 2 f_equal. set_solver. }
  apply NoDup_cons in Hn as [Hni Hn]. cbn [introduced_member].
  destruct (decide (uid = m)) as [->|Hne].
  - rewrite bool_decide_eq_false_2 by done. destruct Hi as [->|Hi]; [|set_solver]. cbn [negb].
    change (("" != "")) with false. cbn iota. rewrite (IH _ _ m); [|done|done|set_solver|done|by right].
    rewrite (bool_decide_eq_false_2 (m ∈ final)) by done. rewrite bool_decide_eq_true_2 by set_solver.
    do 2 f_equal. set_solver.
  - rewrite bool_decide_eq_true_2 by (apply Ha; set_solver).
    rewrite (IH _ _ m); [|done|done| |set_solver|set_solver].
    + rewrite (bool_decide_ext (m ∈ uid :: final) (m ∈ final)) by set_solver. do 2 f_equal. set_solver.
    + intros x Hx Hxm. apply elem_of_difference. split; [apply Ha; set_solver|]. set_solver.
Qed.

(** A transition adds one member and keeps the others. *)
Theorem transition_iff starting final m : validateHAWaveMemberTransition starting final = Ok m <->
  member_list starting /\ member_list final /\ (m ∉ starting) /\ final ≡ₚ m :: starting.
Proof.
  unfold validateHAWaveMemberTransition.
  destruct (is_canonical starting) eqn:Es.
  2:{ split; [done|]. intros (H & _). apply canonical_iff in H. congruence. }
  destruct (is_canonical final) eqn:Ef.
  2:{ split; [done|]. intros (_ & H & _). apply canonical_iff in H. congruence. }
  apply canonical_iff in Es, Ef. cbn [negb orb].
  pose proof (member_list_nodup _ Es) as Ns. pose proof (member_list_nodup _ Ef) as Nf.
  assert (Forall (fun uid => uid <> "") final) as Hne.
  { destruct Ef as (_ & Hv & _). eapply Forall_impl; [exact Hv|]. apply valid_not_empty. }
  destruct (length final =? S (length starting))%nat eqn:El; cbn [negb].
  2:{ split; [done|]. intros (_ & _ & _ & H). apply Permutation_length in H. by rewrite H, Nat.eqb_refl in El. }
  apply Nat.eqb_eq in El. split.
  - destruct (introduced_member _ _ _) as [[rest i]|] eqn:E; [|done].
    destruct (_ || _) eqn:Eb; [done|]. intros [= ->]. apply orb_false_iff in Eb as [E1 E2].
    apply negb_false_iff, bool_decide_eq_true in E1. apply String.eqb_neq in E2.
    destruct (introduced_member_spec _ _ _ _ _ Nf Hne E) as [-> [[? _]|(_ & Hm & Hout & Ha)]]; [done|].
    rewrite elem_of_list_to_set in Hout. split_and!; [done|done|done|].
    apply NoDup_Permutation; [done|by constructor|]. intros x. rewrite elem_of_cons. split.
    + intros Hx. destruct (decide (x = m)) as [->|Hxm]; [by left|right].
      specialize (Ha x Hx Hxm). by rewrite elem_of_list_to_set in Ha.
    + intros [->|Hx]; [done|]. destruct (decide (x ∈ final)) as [?|Hn]; [done|]. exfalso.
      assert (x ∈ (list_to_set starting : gset string) ∖ list_to_set final) as Hd by set_solver.
      rewrite E1 in Hd. set_solver.
  - intros (_ & _ & Hm & Hp).
    assert (m ∈ final) as Hin by (rewrite Hp; by left).
    assert (m <> "") as Hm0 by (rewrite Forall_forall in Hne; by apply Hne).
    rewrite (introduced_member_total final _ "" m); [|done|done| |by rewrite elem_of_list_to_set|by left].
    + rewrite (bool_decide_eq_true_2 (m ∈ final)) by done.
      assert ((list_to_set starting : gset string) ∖ list_to_set final = ∅) as ->.
      { apply elem_of_equiv_empty_L. intros x. rewrite elem_of_difference, !elem_of_list_to_set, Hp. set_solver. }
      rewrite bool_decide_eq_true_2 by done. cbn [negb orb]. by rewrite (proj2 (String.eqb_neq _ _) Hm0).
    + intros x Hx Hxm. rewrite Hp in Hx. apply elem_of_cons in Hx as [->|Hx]; [done|]. by apply elem_of_list_to_set.
Qed.

(** * Kubeadm waves: accepted inventories

    [ValidateHAWaveInventoryReceipt] accepts exactly the receipts described
    here: from one to three healthy members in ascending order, each of them an
    API server, captured lately and named by their own digest. *)

Definition healthy_member (m : HAWaveMemberIdentity) : Prop :=
  mi_Ready m = true /\ mi_ControlPlane m = true /\ mi_EtcdMember m = true.

Lemma check_members_spec previous members : check_members previous members = true <->
  Forall healthy_member members /\
  Forall (fun uid => validHAWaveSHA256 uid = true) (List.map mi_UIDSHA256 members) /\
  Sorted ascending (previous :: List.map mi_UIDSHA256 members).
Proof.
  revert previous. induction members as [|m ms IH]; intros previous.
  { cbn. split; [|done]. intros _. split_and!; repeat constructor. }
  cbn [check_members List.map]. destruct (_ || _) eqn:E.
  - split; [done|]. intros (Hh & Hv & Hs). apply Forall_cons in Hh as [(H1 & H2 & H3) _], Hv as [Hv _].
    apply Sorted_inv in Hs as [_ Hs]. apply HdRel_inv in Hs. unfold ascending in Hs.
    by rewrite Hv, Hs, H1, H2, H3 in E.
  - rewrite !orb_false_iff, !negb_false_iff in E. destruct E as ((((E1 & E2) & E3) & E4) & E5).
    rewrite IH, !Forall_cons. split.
    + intros (Hh & Hv & Hs). split_and!; try done. constructor; [done|]. by constructor.
    + intros ((_ & Hh) & (_ & Hv) & Hs). split_and!; try done. by apply Sorted_inv in Hs as [Hs _].
Qed.

Lemma check_apiservers_spec members previous uids : check_apiservers members previous uids = None <->
  Forall (fun uid => validHAWaveSHA256 uid = true) uids /\ Sorted ascending (previous :: uids) /\
  Forall (fun uid => uid ∈ members) uids.
Proof.
  revert previous. induction uids as [|uid uids IH]; intros previous.
  { cbn. split; [|done]. intros _. split_and!; repeat constructor. }
  cbn [check_apiservers]. destruct (_ || _) eqn:E.
  - split; [done|]. intros (Hv & Hs & _). apply Forall_cons in Hv as [Hv _].
    apply Sorted_inv in Hs as [_ Hs]. apply HdRel_inv in Hs. unfold ascending in Hs. by rewrite Hv, Hs in E.
  - apply orb_false_iff in E as [E1 E2]. apply negb_false_iff in E1, E2.
    destruct (bool_decide_reflect (uid ∈ members)) as [Hin|Hin]; cbn [negb].
    + rewrite IH, !Forall_cons. split.
      * intros (Hv & Hs & Ha). split_and!; try done. constructor; [done|]. by constructor.
      * intros ((_ & Hv) & Hs & (_ & Ha)). split_and!; try done. by apply Sorted_inv in Hs as [Hs _].
    + split; [done|]. intros (_ & _ & Ha). by apply Forall_cons in Ha as [Ha _].
Qed.

(** Ascending lists of one length with the same elements are equal. *)
Lemma ascending_unique xs ys : Sorted ascending xs -> Sorted ascending ys ->
  length xs = length ys -> (forall x, x ∈ xs -> x ∈ ys) -> xs = ys.
Proof.
  intros Hx Hy Hl Hi. rewrite <- (sort_ascending _ Hx), <- (sort_ascending _ Hy).
  apply sort_Strings_order. apply submseteq_length_Permutation; [|lia].
  apply NoDup_submseteq; [by apply ascending_nodup|done].
Qed.

Record accepted_inventory (r : HAWaveInventoryReceipt) (now : Time) : Prop := {
  ai_now : now <> 0;
  ai_schema : ir_SchemaVersion r = HAWaveInventorySchemaVersion;
  ai_installation : validDNS1123Subdomain (ir_InstallationID r) = true;
  ai_runtime : ir_Distribution r = "upstream" /\ ir_Bootstrap r = "kubeadm" /\
    kubernetesVersionPattern (ir_ServerVersion r) = true /\
    Contains (ToLower (ir_ServerVersion r)) "+k3s" = false;
  ai_algorithm : ir_NodeUIDHashAlgorithm r = NodeUIDHashAlgorithm;
  ai_digest : ir_ReceiptSHA256 r = HAWaveInventoryReceiptSHA256 r;
  ai_captured : exists t, parseHAWaveTime (ir_CapturedAt r) = Some t /\ freshHAWaveTime t now = true;
  ai_members : member_list (haWaveInventoryMemberUIDs r);
  ai_healthy : Forall healthy_member (ir_Members r);
  ai_apiservers : ir_APIServerNodeUIDSHA256 r = haWaveInventoryMemberUIDs r
}.

Lemma map_length_members r : length (haWaveInventoryMemberUIDs r) = length (ir_Members r).
Proof. apply length_map. Qed.

Lemma sorted_from uid uids : Sorted ascending (uid :: uids) -> Sorted ascending uids.
Proof. intros H. by apply Sorted_inv in H as [H _]. Qed.

(** Every hash is above the empty string. *)
Lemma sorted_above uids : Forall (fun uid => validHAWaveSHA256 uid = true) uids ->
  Sorted ascending uids -> Sorted ascending ("" :: uids).
Proof.
  intros Hv Hs. constructor; [done|]. destruct Hv as [|uid uids Hv _]; constructor.
  by destruct uid.
Qed.

Theorem accepted_inventory_iff r now counts : ValidateHAWaveInventoryReceipt (Some r) now = Ok counts <->
  accepted_inventory r now /\ counts = haWaveCounts (Z.of_nat (length (ir_Members r))).
Proof.
  unfold ValidateHAWaveInventoryReceipt. split.
  - match goal with |- (if ?b then _ else _) = _ -> _ => destruct b eqn:E1; [done|] end. cbn zeta.
    destruct (parseHAWaveTime _) as [t|] eqn:Et; [|done].
    match goal with |- (if ?b then _ else _) = _ -> _ => destruct b eqn:E2; [done|] end.
    destruct (check_members _ _) eqn:E3; [|done]. cbn [negb].
    destruct (check_apiservers _ _ _) eqn:E4; [done|]. intros [= <-].
    rewrite !orb_false_iff, !negb_false_iff in E1.
    destruct E1 as (((((((((A1 & A2) & A3) & A4) & A5) & A6) & A7) & A8) & _) & A10).
    rewrite !orb_false_iff, !negb_false_iff in E2. destruct E2 as ((B1 & B2 & B3) & B4).
    apply check_members_spec in E3 as (Hh & Hv & Hs). apply check_apiservers_spec in E4 as (Hv' & Hs' & Ha).
    apply String.eqb_eq in A2, A4, A5, A6, A10. apply Nat.ltb_ge in B2, B3. apply Nat.eqb_eq in B4.
    unfold IsZero in A1. apply Z.eqb_neq in A1. apply sorted_from in Hs, Hs'.
    assert (ir_APIServerNodeUIDSHA256 r = haWaveInventoryMemberUIDs r) as Hapi.
    { apply ascending_unique; [done|exact Hs|by rewrite map_length_members|].
      intros x Hx. rewrite Forall_forall in Ha. specialize (Ha x Hx). by rewrite elem_of_list_to_set in Ha. }
    split; [|by rewrite B4]. constructor; try done; [by exists t|].
    split_and!; [rewrite map_length_members; lia..|exact Hv|exact Hs].
  - intros [[H1 H2 H3 (H4 & H5 & H6 & H7) H8 H9 (t & Ht & Hf) (Hl & Hv & Hs) Hh Ha] ->].
    rewrite H2, H3, H4, H5, H6, H7, H8, <- H9, !String.eqb_refl.
    assert (validHAWaveSHA256 (ir_ReceiptSHA256 r) = true) as ->.
    { rewrite H9. exact (validSHA256_digest _). }
    assert (IsZero now = false) as -> by (by apply Z.eqb_neq). cbn [negb orb].
    rewrite Ht, Hf, Ha, map_length_members, Nat.eqb_refl. rewrite map_length_members in Hl.
    rewrite (proj2 (Nat.ltb_ge _ _)) by lia. rewrite (proj2 (Nat.ltb_ge _ _)) by lia. cbn [negb orb].
    rewrite (proj2 (check_members_spec "" _)) by (split_and!; [done|exact Hv|by apply sorted_above]).
    cbn [negb]. rewrite (proj2 (check_apiservers_spec _ _ _)); [done|].
    split_and!; [done|by apply sorted_above|]. apply Forall_forall. intros x Hx. by apply elem_of_list_to_set.
Qed.
