(* ===== verification/HaBuild.v ===== *)
(** * Kubeadm waves: planning and verifying a wave

    [BuildHAWavePlan], [VerifyHAWave] and the readers of pkg/kubeadm/ha_wave.go,
    step by step as the code fills in its plan and its report. *)

From stdpp Require Import gmap strings list.
From Stdlib Require Import ZArith Ascii Lia.
From S2P Require Import Prelude GoString GoPath GoTime GoSort GoSha256 GoJson StrictJson GoRfc3339 OslTypes OslValidate HaTypes HaWave.

#[local] Open Scope Z_scope.

(** ** What a deployment supplies

    A nil function is [None]; a loader may return nil. *)

Definition HAWaveBackupValidator : Type := string -> string -> Time -> Time * string * option goerror.
Definition HAWaveOneServerLossLoader : Type :=
  string -> Time -> option Receipt * string * option goerror.
Definition HAWaveInventoryLoader : Type :=
  string -> Time -> option HAWaveInventoryReceipt * string * option goerror.

Record HAWavePlanOptions := {
  po_InstallationID : string; po_Current : HAWaveCounts; po_PreflightInventoryPath : string;
  po_LoadPreflightInventory : option HAWaveInventoryLoader; po_BackupBarrierPath : string;
  po_PreviousWavePath : string; po_Now : option Time;
  po_ValidateBackup : option HAWaveBackupValidator
}.

Record HAWaveVerifyOptions := {
  vo_PlanPath : string; vo_BackupBarrierPath : string;
  vo_ValidateBackup : option HAWaveBackupValidator; vo_InventoryPath : string;
  vo_LoadInventory : option HAWaveInventoryLoader; vo_FinalOneServerLossPath : string;
  vo_Now : option Time; vo_LoadOneServerLossReceipt : option HAWaveOneServerLossLoader
}.

Section Files.
Context (files : string -> option string) (system_time : Time).

(** ** Reading *)

Definition readHAWaveJSON {A} `{Unmarshal A} (path : string) : result (A * string) :=
  if blank path then Err (errors_New "HA-wave evidence path is required") else
  match files (path_Clean path) with
  | None => Err (errors_New "HA-wave evidence is unavailable")
  | Some content =>
      match Read (Some content) with
      | Err _ => Err (errors_New "HA-wave evidence JSON is invalid")
      | Ok payload =>
          match DecodeExact payload with
          | Err _ => Err (errors_New "HA-wave evidence JSON is invalid")
          | Ok destination => Ok (destination, sha256_hex payload)
          end
      end
  end.

Definition ReadHAWavePlan (path : string) : result (HAWavePlan * string) :=
  match readHAWaveJSON path with
  | Ok (plan, sha) =>
      if is_nil (validateReadyHAWavePlan plan) then Ok (plan, sha)
      else Err (errors_New "HA-wave plan is invalid")
  | Err _ => Err (errors_New "HA-wave plan is invalid")
  end.

Definition ReadHAWaveVerification (path : string) : result (HAWaveVerification * string) :=
  match readHAWaveJSON path with
  | Ok (report, sha) =>
      if is_nil (validateReadyHAWaveVerification report) then Ok (report, sha)
      else Err (errors_New "HA-wave verification is invalid")
  | Err _ => Err (errors_New "HA-wave verification is invalid")
  end.

(** ** The plan *)

Definition new_plan (opts : HAWavePlanOptions) (now : Time) : HAWavePlan := {|
  pl_SchemaVersion := HAWaveSchemaVersion; pl_GeneratedAt := formatHAWaveTime now;
  pl_Status := "blocked"; pl_Phase := ""; pl_InstallationID := TrimSpace (po_InstallationID opts);
  pl_From := haWaveCounts 0; pl_Target := haWaveCounts 0; pl_PreflightInventoryReceiptSHA256 := "";
  pl_PreflightCapturedAt := ""; pl_NodeUIDHashAlgorithm := ""; pl_StartingMemberUIDSHA256 := [];
  pl_StartingMemberSetSHA256 := ""; pl_BackupGeneratedAt := ""; pl_Checks := []; pl_Blockers := [];
  pl_Steps := []; pl_Rollback := []; pl_MutationAllowed := false; pl_NonClaim := haWavePlanNonClaim |}.

Definition plan_clock (now : Time) (plan : HAWavePlan) : HAWavePlan :=
  if IsZero now
  then plan_block "ha_wave_clock_invalid" "clock" "a non-zero UTC planning time is required" "" "" plan
  else plan.

Definition plan_installation (plan : HAWavePlan) : HAWavePlan :=
  if negb (validDNS1123Subdomain (pl_InstallationID plan))
  then plan_block "ha_wave_installation_id_invalid" "installation_id"
         "a source-safe DNS-1123 installation id is required" "" "" plan
  else plan.

Definition preflight_invalid (artifact : string) : HAWavePlan -> HAWavePlan :=
  plan_block "ha_wave_preflight_inventory_invalid" "preflight_inventory"
    "a fresh identity-bound preflight inventory receipt is required" artifact "".

(** The preflight inventory, when it is acceptable, with its counts and digest. *)
Definition load_preflight (opts : HAWavePlanOptions) (now : Time) (plan : HAWavePlan)
    : option (HAWaveInventoryReceipt * HAWaveCounts * string) :=
  match po_LoadPreflightInventory opts with
  | None => None
  | Some load =>
      if safeHAWaveArtifact (po_PreflightInventoryPath opts) == "" then None else
      match load (po_PreflightInventoryPath opts) now with
      | (Some preflight, artifactSHA, None) =>
          match ValidateHAWaveInventoryReceipt (Some preflight) now,
                parseHAWaveTime (ir_CapturedAt preflight) with
          | Ok counts, Some preflightAt =>
              if After preflightAt now || negb (validHAWaveSHA256 artifactSHA) ||
                 (ir_InstallationID preflight != pl_InstallationID plan)
              then None else Some (preflight, counts, artifactSHA)
          | _, _ => None
          end
      | _ => None
      end
  end.

Definition plan_inventory (opts : HAWavePlanOptions) (now : Time) (plan : HAWavePlan) : HAWavePlan :=
  let preflightArtifact := safeHAWaveArtifact (po_PreflightInventoryPath opts) in
  match load_preflight opts now plan with
  | None => preflight_invalid preflightArtifact plan
  | Some (preflight, counts, artifactSHA) =>
      let members := haWaveInventoryMemberUIDs preflight in
      let plan := plan_preflight plan counts (ir_ReceiptSHA256 preflight) (ir_CapturedAt preflight)
                    (ir_NodeUIDHashAlgorithm preflight) members (HAWaveMemberSetSHA256 members) in
      let plan := plan_pass "preflight_inventory"
                    "starting control-plane and etcd member identities are bound by canonical SHA-256"
                    preflightArtifact artifactSHA plan in
      if negb (counts_eqb (po_Current opts) (haWaveCounts 0)) && negb (counts_eqb (po_Current opts) counts)
      then plan_block "ha_wave_current_topology_invalid" "current_topology_binding"
             "caller-supplied current counts must match the identity-bound preflight inventory" "" "" plan
      else plan
  end.

Definition plan_topology (plan : HAWavePlan) : HAWavePlan :=
  match haWavePhase (pl_From plan) with
  | None => plan_block "ha_wave_current_topology_invalid" "current_topology"
              "current control-plane, etcd, and API-server counts must be equal and exactly 1 or 2" "" "" plan
  | Some (from, phase) =>
      plan_pass "current_topology" ("phase=" +:+ phase +:+ " members=" +:+ FormatInt from) "" ""
        (plan_phase plan phase (haWaveCounts (from + 1)))
  end.

(** The plan, and the time of the backup the validator answered. *)
Definition plan_fresh_backup (opts : HAWavePlanOptions) (now : Time) (plan : HAWavePlan) : HAWavePlan * Time :=
  let backupArtifact := safeHAWaveArtifact (po_BackupBarrierPath opts) in
  if backupArtifact == ""
  then (plan_block "ha_wave_backup_artifact_invalid" "fresh_backup"
          "a source-safe off-cell backup artifact basename is required" "" "" plan, time_zero)
  else match po_ValidateBackup opts with
  | None => (plan_block "ha_wave_backup_validator_missing" "fresh_backup"
               "a deployment-owned off-cell backup validator is required" backupArtifact "" plan, time_zero)
  | Some validate =>
      let '(backupAt, backupSHA, err) := validate (po_BackupBarrierPath opts) (pl_InstallationID plan) now in
      if negb (is_nil err) || negb (freshHAWaveTime backupAt now) || negb (validHAWaveSHA256 backupSHA)
      then (plan_block "ha_wave_backup_invalid" "fresh_backup"
              "a fresh off-cell backup and restore barrier is required for this wave" backupArtifact "" plan,
            backupAt)
      else (plan_pass "fresh_backup" "fresh off-cell backup and restore barrier is valid"
              backupArtifact backupSHA (plan_backup plan (formatHAWaveTime backupAt)), backupAt)
  end.

(** A ready verification of the first wave that ended with the members found. *)
Definition previous_matches (plan : HAWavePlan) (previous : HAWaveVerification) : bool :=
  (vr_Phase previous == HAWavePhaseOneToTwo) && (vr_InstallationID previous == pl_InstallationID plan) &&
  counts_eqb (vr_Observed previous) (haWaveCounts 2) &&
  (vr_FinalMemberSetSHA256 previous == pl_StartingMemberSetSHA256 plan) &&
  bool_decide (vr_FinalMemberUIDSHA256 previous = pl_StartingMemberUIDSHA256 plan).

Definition plan_second_wave (opts : HAWavePlanOptions) (backupAt : Time) (plan : HAWavePlan) : HAWavePlan :=
  let previousArtifact := safeHAWaveArtifact (po_PreviousWavePath opts) in
  let invalid := plan_block "ha_wave_previous_verification_invalid" "previous_wave"
    "a ready one-to-two verification with two healthy members is required" previousArtifact "" plan in
  match ReadHAWaveVerification (po_PreviousWavePath opts) with
  | Err _ => invalid
  | Ok (previous, previousSHA) =>
      if (previousArtifact == "") || negb (previous_matches plan previous) then invalid else
      let block blocker detail := plan_block blocker "previous_wave" detail previousArtifact previousSHA plan in
      match parseHAWaveTime (vr_CompletedAt previous) with
      | None => block "ha_wave_interwave_backup_not_fresh"
          "the two-to-three off-cell backup must be newer than completion of the one-to-two wave"
      | Some completedAt =>
      if negb (After backupAt completedAt)
      then block "ha_wave_interwave_backup_not_fresh"
        "the two-to-three off-cell backup must be newer than completion of the one-to-two wave"
      else
      let stale := block "ha_wave_interwave_preflight_not_fresh"
        "the two-to-three preflight inventory must be newer than both the one-to-two verification and inter-wave backup" in
      match parseHAWaveTime (pl_PreflightCapturedAt plan) with
      | None => stale
      | Some preflightAt =>
          if negb (After preflightAt completedAt) || negb (After preflightAt backupAt) then stale
          else plan_pass "previous_wave"
            "one-to-two verification is ready; the inter-wave backup and subsequent preflight are strictly ordered"
            previousArtifact previousSHA plan
      end end
  end.

Definition plan_previous (opts : HAWavePlanOptions) (backupAt : Time) (plan : HAWavePlan) : HAWavePlan :=
  if pl_Phase plan == HAWavePhaseTwoToThree then plan_second_wave opts backupAt plan
  else if (pl_Phase plan == HAWavePhaseOneToTwo) && negb (blank (po_PreviousWavePath opts))
  then plan_block "ha_wave_previous_verification_unexpected" "previous_wave"
         "one-to-two must not consume a previous-wave verification"
         (safeHAWaveArtifact (po_PreviousWavePath opts)) "" plan
  else plan.

Definition BuildHAWavePlan (opts : HAWavePlanOptions) : HAWavePlan :=
  let now := haWaveNow system_time (po_Now opts) in
  let plan := plan_topology (plan_inventory opts now
                (plan_installation (plan_clock now (new_plan opts now)))) in
  let '(plan, backupAt) := plan_fresh_backup opts now plan in
  let plan := plan_previous opts backupAt plan in
  if (length (pl_Blockers plan) =? 0)%nat then plan_ready plan "ready" haWaveSteps haWaveRollback
  else plan.

(** ** The final one-server-loss receipt *)

Definition validateHAWaveOneServerLossReceipt (receipt : option Receipt)
    (inventory : option HAWaveInventoryReceipt) (target : HAWaveCounts)
    (now planGeneratedAt backupGeneratedAt : Time) : option goerror :=
  match ValidateReceipt receipt, receipt with
  | None, Some receipt =>
  match inventory with
  | None => Some (errors_New "one-server-loss baseline does not match target topology")
  | Some inventory =>
  let baseline := rc_Baseline receipt in
  if negb (bl_ControlPlaneNodes baseline =? ct_ControlPlane target) ||
     negb (bl_EtcdMembers baseline =? ct_Etcd target) ||
     negb (bl_APIServerMembers baseline =? ct_APIServer target) || (rc_MinimumControlPlane receipt <? 3)
  then Some (errors_New "one-server-loss baseline does not match target topology") else
  let binding := ir_OneServerLossReceiptBinding inventory in
  let memberSetSHA256 := HAWaveMemberSetSHA256 (haWaveInventoryMemberUIDs inventory) in
  if (bd_ReceiptSHA256 binding != rc_ReceiptSHA256 receipt) ||
     (bd_RunNonceSHA256 binding != rc_RunNonceSHA256 receipt) ||
     (bd_TargetNodeUIDSHA256 binding != rc_TargetNodeUIDSHA256 receipt) ||
     (bd_KubectlExecutableSHA256 binding != rc_KubectlExecutableSHA256 receipt) ||
     (bd_ProbeAdapterSHA256 binding != rc_ProbeAdapterSHA256 receipt) ||
     negb (validHAWaveSHA256 memberSetSHA256) ||
     (ir_NodeUIDHashAlgorithm inventory != NodeUIDHashAlgorithm) ||
     (rc_NodeUIDHashAlgorithm receipt != NodeUIDHashAlgorithm) ||
     (bd_NodeUIDHashAlgorithm binding != NodeUIDHashAlgorithm) ||
     (bd_ControlPlaneMemberSetSHA256 binding != memberSetSHA256) ||
     (bl_ControlPlaneMemberSetSHA256 baseline != memberSetSHA256) ||
     negb (haWaveInventoryHasMember inventory (rc_TargetNodeUIDSHA256 receipt))
  then Some (errors_New "one-server-loss receipt is not identity-bound to the inventory") else
  match parseHAWaveTime (rc_CompletedAt receipt), parseHAWaveTime (ir_CapturedAt inventory) with
  | Some completedAt, Some inventoryCapturedAt =>
      if negb (freshHAWaveTime completedAt now) || After completedAt now || After inventoryCapturedAt now ||
         negb (After completedAt planGeneratedAt) || negb (After completedAt backupGeneratedAt) ||
         negb (After inventoryCapturedAt completedAt)
      then Some (errors_New "one-server-loss receipt is stale or future-dated") else None
  | _, _ => Some (errors_New "one-server-loss receipt is stale or future-dated")
  end end
  | _, _ => Some (errors_New "one-server-loss receipt failed offline validation")
  end.

Definition unbound : OneServerLossReceiptBinding -> bool := fun b =>
  (bd_ReceiptSHA256 b == "") && (bd_RunNonceSHA256 b == "") && (bd_TargetNodeUIDSHA256 b == "") &&
  (bd_KubectlExecutableSHA256 b == "") && (bd_ProbeAdapterSHA256 b == "") &&
  (bd_NodeUIDHashAlgorithm b == "") && (bd_ControlPlaneMemberSetSHA256 b == "").

(** ** The verification *)

Definition new_report (now : Time) : HAWaveVerification := {|
  vr_SchemaVersion := HAWaveSchemaVersion; vr_GeneratedAt := formatHAWaveTime now;
  vr_CompletedAt := formatHAWaveTime now; vr_Status := "blocked"; vr_Phase := "";
  vr_InstallationID := ""; vr_PlanSHA256 := ""; vr_InventoryReceiptSHA256 := "";
  vr_OneServerLossReceiptSHA256 := ""; vr_PreflightInventoryReceiptSHA256 := "";
  vr_NodeUIDHashAlgorithm := ""; vr_StartingMemberUIDSHA256 := []; vr_StartingMemberSetSHA256 := "";
  vr_FinalMemberUIDSHA256 := []; vr_FinalMemberSetSHA256 := ""; vr_IntroducedMemberUIDSHA256 := "";
  vr_Observed := haWaveCounts 0; vr_FreshBackupVerified := false; vr_PreviousWaveVerified := false;
  vr_FinalOneServerLossVerified := false; vr_Checks := []; vr_Blockers := [];
  vr_MutationAttempted := false; vr_NonClaim := haWaveVerifyNonClaim |}.

Definition report_backup_step (opts : HAWaveVerifyOptions) (now : Time) (plan : HAWavePlan)
    (report : HAWaveVerification) : HAWaveVerification :=
  let backupArtifact := safeHAWaveArtifact (vo_BackupBarrierPath opts) in
  let invalid := report_block "ha_wave_backup_revalidation_invalid" "fresh_backup"
    "verification must reopen the exact fresh off-cell backup and restore barrier bound by the plan"
    backupArtifact "" report in
  match findHAWaveCheck (pl_Checks plan) "fresh_backup", vo_ValidateBackup opts with
  | Some plannedBackup, Some validate =>
      if backupArtifact == "" then invalid else
      let '(backupAt, backupSHA, backupErr) :=
        validate (vo_BackupBarrierPath opts) (pl_InstallationID plan) now in
      if negb (is_nil backupErr) || negb (freshHAWaveTime backupAt now) ||
         (formatHAWaveTime backupAt != pl_BackupGeneratedAt plan) ||
         (backupSHA != ck_SHA256 plannedBackup) || (backupArtifact != ck_Artifact plannedBackup)
      then invalid
      else report_pass "fresh_backup"
             "exact planned off-cell backup and restore barrier was reopened and remains fresh"
             (ck_Artifact plannedBackup) backupSHA (report_backup report true)
  | _, _ => invalid
  end.

(** The inventory after the wave, when it is acceptable. *)
Definition load_inventory (opts : HAWaveVerifyOptions) (now planGeneratedAt planBackupAt : Time)
    (plan : HAWavePlan) : option (HAWaveInventoryReceipt * HAWaveCounts * string) :=
  match vo_LoadInventory opts with
  | None => None
  | Some load =>
      if safeHAWaveArtifact (vo_InventoryPath opts) == "" then None else
      match load (vo_InventoryPath opts) now with
      | (Some inventory, inventorySHA, None) =>
          match ValidateHAWaveInventoryReceipt (Some inventory) now with
          | Err _ => None
          | Ok counts =>
              let inventoryCapturedAt := time_or_zero (parseHAWaveTime (ir_CapturedAt inventory)) in
              if negb (validHAWaveSHA256 inventorySHA) ||
                 (ir_InstallationID inventory != pl_InstallationID plan) ||
                 (ir_NodeUIDHashAlgorithm inventory != pl_NodeUIDHashAlgorithm plan) ||
                 negb (After inventoryCapturedAt planGeneratedAt) ||
                 negb (After inventoryCapturedAt planBackupAt) || After inventoryCapturedAt now
              then None else Some (inventory, counts, inventorySHA)
          end
      | _ => None
      end
  end.

Definition report_inventory_step (opts : HAWaveVerifyOptions)
    (inventory : option (HAWaveInventoryReceipt * HAWaveCounts * string)) (report : HAWaveVerification)
    : HAWaveVerification :=
  let inventoryArtifact := safeHAWaveArtifact (vo_InventoryPath opts) in
  match inventory with
  | None => report_block "ha_wave_inventory_receipt_invalid" "inventory"
      "a fresh identity-bound kubeadm inventory receipt is required; manual counts are not accepted"
      inventoryArtifact "" report
  | Some (inventory, counts, inventorySHA) =>
      let members := haWaveInventoryMemberUIDs inventory in
      report_pass "inventory"
        "healthy member counts were derived from an identity-bound kubeadm inventory receipt"
        inventoryArtifact inventorySHA
        (report_inventory report counts (ir_ReceiptSHA256 inventory) members (HAWaveMemberSetSHA256 members))
  end.

Definition report_transition_step (report : HAWaveVerification) : HAWaveVerification :=
  match validateHAWaveMemberTransition (vr_StartingMemberUIDSHA256 report)
          (vr_FinalMemberUIDSHA256 report) with
  | Err _ => report_block "ha_wave_member_identity_transition_invalid" "member_identity_transition"
      "final members must equal the exact starting set plus one unique introduced identity" "" "" report
  | Ok introducedMember => report_pass "member_identity_transition"
      "exactly one introduced member identity was added without replacement or deletion" "" ""
      (report_introduced report introducedMember)
  end.

Definition report_topology_step (plan : HAWavePlan) (report : HAWaveVerification) : HAWaveVerification :=
  let target := pl_Target plan in
  if negb (counts_eqb (vr_Observed report) target)
  then report_block "ha_wave_target_topology_not_observed" "target_topology"
         ("observed topology must exactly match target controlPlane=" +:+ FormatInt (ct_ControlPlane target) +:+
          " etcd=" +:+ FormatInt (ct_Etcd target) +:+ " apiServer=" +:+ FormatInt (ct_APIServer target)) "" "" report
  else report_pass "target_topology" ("observed healthy members=" +:+ FormatInt (ct_ControlPlane target)) "" "" report.

Definition report_loss_step (opts : HAWaveVerifyOptions) (now planGeneratedAt planBackupAt : Time)
    (plan : HAWavePlan) (inventory : option HAWaveInventoryReceipt) (report : HAWaveVerification)
    : HAWaveVerification :=
  let artifact := safeHAWaveArtifact (vo_FinalOneServerLossPath opts) in
  if counts_eqb (pl_Target plan) (haWaveCounts 3) then
    let invalid := report_block "ha_wave_final_one_server_loss_invalid" "final_one_server_loss"
      "a fresh final one-server-loss receipt bound to the recovered three-member topology is required"
      artifact "" report in
    match vo_LoadOneServerLossReceipt opts with
    | None => invalid
    | Some load =>
        if artifact == "" then invalid else
        match load (vo_FinalOneServerLossPath opts) now with
        | (Some receipt, artifactSHA, None) =>
            if negb (validHAWaveSHA256 artifactSHA) ||
               negb (is_nil (validateHAWaveOneServerLossReceipt (Some receipt) inventory (pl_Target plan) now
                               planGeneratedAt planBackupAt))
            then invalid
            else report_pass "final_one_server_loss"
                   "final one-server-loss receipt is valid after three members were observed" artifact artifactSHA
                   (report_loss report true (rc_ReceiptSHA256 receipt))
        | _ => invalid
        end
    end
  else
    let too_early := report_block "ha_wave_final_one_server_loss_too_early" "final_one_server_loss"
      "final one-server-loss evidence is forbidden before the three-member phase" in
    let report := match inventory with
                  | Some inventory =>
                      if negb (unbound (ir_OneServerLossReceiptBinding inventory))
                      then too_early (safeHAWaveArtifact (vo_InventoryPath opts)) "" report else report
                  | None => report
                  end in
    if negb (blank (vo_FinalOneServerLossPath opts)) then too_early artifact "" report else report.

Definition plan_invalid (artifact : string) : HAWaveVerification -> HAWaveVerification :=
  report_block "ha_wave_plan_invalid" "plan" "a ready versioned read-only HA-wave plan is required" artifact "".

Definition report_of_plan (plan : HAWavePlan) (planSHA artifact : string) (report : HAWaveVerification)
    : HAWaveVerification :=
  report_pass "plan" "ready HA-wave plan is bound by SHA-256" artifact planSHA
    (report_plan report (pl_Phase plan) (pl_InstallationID plan) planSHA
       (pl_PreflightInventoryReceiptSHA256 plan) (pl_NodeUIDHashAlgorithm plan)
       (pl_StartingMemberUIDSHA256 plan) (pl_StartingMemberSetSHA256 plan)
       ((pl_Phase plan == HAWavePhaseOneToTwo) || hasPassingHAWaveCheck (pl_Checks plan) "previous_wave")).

Definition VerifyHAWave (opts : HAWaveVerifyOptions) : HAWaveVerification :=
  let now := haWaveNow system_time (vo_Now opts) in
  let report := new_report now in
  if IsZero now
  then report_block "ha_wave_clock_invalid" "clock" "a non-zero UTC verification time is required" "" "" report
  else
  let planArtifact := safeHAWaveArtifact (vo_PlanPath opts) in
  match ReadHAWavePlan (vo_PlanPath opts) with
  | Err _ => plan_invalid planArtifact report
  | Ok (plan, planSHA) =>
  if planArtifact == "" then plan_invalid planArtifact report else
  let report := report_of_plan plan planSHA planArtifact report in
  match parseHAWaveTime (pl_GeneratedAt plan), parseHAWaveTime (pl_BackupGeneratedAt plan) with
  | Some planGeneratedAt, Some planBackupAt =>
      if After planGeneratedAt now || After planBackupAt now then plan_invalid planArtifact report else
      let inventory := load_inventory opts now planGeneratedAt planBackupAt plan in
      let report := report_loss_step opts now planGeneratedAt planBackupAt plan (fst ∘ fst <$> inventory)
        (report_topology_step plan (report_transition_step (report_inventory_step opts inventory
          (report_backup_step opts now plan report)))) in
      if (length (vr_Blockers report) =? 0)%nat then report_ready report "ready" else report
  | _, _ => plan_invalid planArtifact report
  end end.
End Files.
