(* ===== verification/HaReady.v ===== *)
(** * Kubeadm waves: what makes a plan ready

    Each step of [BuildHAWavePlan] either adds a blocker or adds what it found
    to the plan; so a plan is ready exactly when every step found what it asks
    for, and it is the plan written out here. *)

From stdpp Require Import gmap strings list.
From Stdlib Require Import ZArith Ascii Lia.
From S2P Require Import Prelude GoString GoPath GoTime GoSort GoSha256 GoJson StrictJson GoRfc3339 OslTypes OslValidate OslSeal HaTypes HaWave HaMembers HaBuild.

#[local] Open Scope Z_scope.
#[local] Opaque sha256_hex.

(** ** Topologies *)

Lemma counts_eqb_eq a b : counts_eqb a b = true <-> a = b.
Proof.
  unfold counts_eqb. rewrite !andb_true_iff, !Z.eqb_eq. destruct a, b; cbn. split.
  - by intros [[-> ->] ->].
  - by intros [= -> -> ->].
Qed.

Definition wave_name (n : Z) : string := if n =? 1 then HAWavePhaseOneToTwo else HAWavePhaseTwoToThree.

Lemma haWavePhase_counts n : 1 <= n <= 3 ->
  haWavePhase (haWaveCounts n) = if n =? 3 then None else Some (n, wave_name n).
Proof. intros H. assert (n = 1 \/ n = 2 \/ n = 3) as [->|[->| ->]] by lia; reflexivity. Qed.

(** ** What is asked of the evidence *)

Definition named (path : string) : Prop := safeHAWaveArtifact path <> "".

Section Ready.
Context (files : string -> option string) (system_time : Time) (opts : HAWavePlanOptions).

#[local] Abbreviation now := (haWaveNow system_time (po_Now opts)).
#[local] Abbreviation installation := (TrimSpace (po_InstallationID opts)).

(** The inventory before the wave: [preflight], in a file of digest [sha],
    captured at [t]. *)
Definition preflight_found (preflight : HAWaveInventoryReceipt) (sha : string) (t : Time) : Prop :=
  named (po_PreflightInventoryPath opts) /\
  (exists load, po_LoadPreflightInventory opts = Some load /\
    load (po_PreflightInventoryPath opts) now = (Some preflight, sha, None)) /\
  accepted_inventory preflight now /\ parseHAWaveTime (ir_CapturedAt preflight) = Some t /\ t <= now /\
  validHAWaveSHA256 sha = true /\ ir_InstallationID preflight = installation.

Definition backup_found (backupAt : Time) (sha : string) : Prop :=
  named (po_BackupBarrierPath opts) /\
  (exists validate, po_ValidateBackup opts = Some validate /\
    validate (po_BackupBarrierPath opts) installation now = (backupAt, sha, None)) /\
  freshHAWaveTime backupAt now = true /\ validHAWaveSHA256 sha = true.

(** The first wave ended with the members found, before the backup, and the
    inventory was captured after both. *)
Definition first_wave_found (preflight : HAWaveInventoryReceipt) (t backupAt : Time)
    (previous : HAWaveVerification) (sha : string) : Prop :=
  named (po_PreviousWavePath opts) /\
  ReadHAWaveVerification files (po_PreviousWavePath opts) = Ok (previous, sha) /\
  vr_Phase previous = HAWavePhaseOneToTwo /\ vr_InstallationID previous = installation /\
  vr_Observed previous = haWaveCounts 2 /\
  vr_FinalMemberSetSHA256 previous = HAWaveMemberSetSHA256 (haWaveInventoryMemberUIDs preflight) /\
  vr_FinalMemberUIDSHA256 previous = haWaveInventoryMemberUIDs preflight /\
  exists completedAt, parseHAWaveTime (vr_CompletedAt previous) = Some completedAt /\
    completedAt < backupAt /\ backupAt < t.

(** The check of the first wave, where there was one. *)
Definition previous_found (preflight : HAWaveInventoryReceipt) (t backupAt : Time)
    (checks : list HAWaveCheck) : Prop :=
  match length (ir_Members preflight) with
  | 1%nat => blank (po_PreviousWavePath opts) = true /\ checks = []
  | 2%nat => exists previous sha, first_wave_found preflight t backupAt previous sha /\
      checks = [passed "previous_wave"
        "one-to-two verification is ready; the inter-wave backup and subsequent preflight are strictly ordered"
        (safeHAWaveArtifact (po_PreviousWavePath opts)) sha]
  | _ => False
  end.

Definition current_agrees (preflight : HAWaveInventoryReceipt) : Prop :=
  po_Current opts = haWaveCounts 0 \/
  po_Current opts = haWaveCounts (Z.of_nat (length (ir_Members preflight))).

(** The plan of a wave from [n] members. *)
Definition plan_of (preflight : HAWaveInventoryReceipt) (sha : string) (backupAt : Time)
    (backupSHA : string) (checks : list HAWaveCheck) : HAWavePlan :=
  let n := Z.of_nat (length (ir_Members preflight)) in
  let members := haWaveInventoryMemberUIDs preflight in {|
    pl_SchemaVersion := HAWaveSchemaVersion; pl_GeneratedAt := formatHAWaveTime now;
    pl_Status := "ready"; pl_Phase := wave_name n; pl_InstallationID := installation;
    pl_From := haWaveCounts n; pl_Target := haWaveCounts (n + 1);
    pl_PreflightInventoryReceiptSHA256 := ir_ReceiptSHA256 preflight;
    pl_PreflightCapturedAt := ir_CapturedAt preflight;
    pl_NodeUIDHashAlgorithm := ir_NodeUIDHashAlgorithm preflight;
    pl_StartingMemberUIDSHA256 := members; pl_StartingMemberSetSHA256 := HAWaveMemberSetSHA256 members;
    pl_BackupGeneratedAt := formatHAWaveTime backupAt;
    pl_Checks := [
      passed "preflight_inventory"
        "starting control-plane and etcd member identities are bound by canonical SHA-256"
        (safeHAWaveArtifact (po_PreflightInventoryPath opts)) sha;
      passed "current_topology" ("phase=" +:+ wave_name n +:+ " members=" +:+ FormatInt n) "" "";
      passed "fresh_backup" "fresh off-cell backup and restore barrier is valid"
        (safeHAWaveArtifact (po_BackupBarrierPath opts)) backupSHA] ++ checks;
    pl_Blockers := []; pl_Steps := haWaveSteps; pl_Rollback := haWaveRollback;
    pl_MutationAllowed := false; pl_NonClaim := haWavePlanNonClaim |}.

Record wave_possible (preflight : HAWaveInventoryReceipt) (sha : string) (t backupAt : Time)
    (backupSHA : string) (checks : list HAWaveCheck) : Prop := {
  wp_now : now <> 0;
  wp_installation : validDNS1123Subdomain installation = true;
  wp_preflight : preflight_found preflight sha t;
  wp_current : current_agrees preflight;
  wp_backup : backup_found backupAt backupSHA;
  wp_previous : previous_found preflight t backupAt checks
}.

(** ** The steps *)

Definition unblocked (plan : HAWavePlan) : Prop := pl_Blockers plan = [].

Lemma blocks blocker id detail artifact sha plan : ~ unblocked (plan_block blocker id detail artifact sha plan).
Proof.
  unfold unblocked. cbn. unfold appendUniqueHAWaveBlocker. destruct (existsb _ _) eqn:E.
  - intros H. by rewrite H in E.
  - intros H. by destruct (app_cons_not_nil (pl_Blockers plan) [] blocker).
Qed.

Lemma load_preflight_iff plan preflight counts sha : pl_InstallationID plan = installation ->
  load_preflight opts now plan = Some (preflight, counts, sha) <->
  (exists t, preflight_found preflight sha t) /\
  counts = haWaveCounts (Z.of_nat (length (ir_Members preflight))).
Proof.
  intros Hi. unfold load_preflight, preflight_found, named. rewrite Hi. split.
  - destruct (po_LoadPreflightInventory opts) as [load|]; [|done].
    destruct (_ == "") eqn:Ea; [done|]. apply String.eqb_neq in Ea.
    destruct (load _ _) as [[[r|] s] [e|]] eqn:El; try done.
    destruct (ValidateHAWaveInventoryReceipt (Some r) now) as [c|] eqn:Ev; [|done].
    destruct (parseHAWaveTime _) as [t|] eqn:Et; [|done]. destruct (_ || _) eqn:E; [done|].
    intros [= -> -> ->]. rewrite !orb_false_iff, !negb_false_iff in E. destruct E as ((E1 & E2) & E3).
    apply String.eqb_eq in E3. apply Z.ltb_ge in E1. apply accepted_inventory_iff in Ev as [Ha ->].
    split; [|done]. exists t. split_and!; try done. by exists load.
  - intros [(t & Ha & (load & -> & ->) & Hv & -> & Ht & -> & ->) ->].
    rewrite (proj2 (String.eqb_neq _ _) Ha).
    rewrite (proj2 (accepted_inventory_iff _ _ _) (conj Hv eq_refl)), String.eqb_refl.
    unfold After. by rewrite (proj2 (Z.ltb_ge _ _) Ht).
Qed.

Lemma backup_step plan : pl_InstallationID plan = installation ->
  unblocked (plan_fresh_backup opts now plan).1 -> exists sha,
    backup_found (plan_fresh_backup opts now plan).2 sha /\ unblocked plan /\
    (plan_fresh_backup opts now plan).1 = plan_pass "fresh_backup"
      "fresh off-cell backup and restore barrier is valid" (safeHAWaveArtifact (po_BackupBarrierPath opts)) sha
      (plan_backup plan (formatHAWaveTime (plan_fresh_backup opts now plan).2)).
Proof.
  intros Hi. unfold plan_fresh_backup, backup_found, named. cbn zeta.
  destruct (_ == "") eqn:Ea; [by intros ?%blocks|]. apply String.eqb_neq in Ea.
  destruct (po_ValidateBackup opts) as [validate|] eqn:Ev; [|by intros ?%blocks].
  rewrite Hi. destruct (validate _ _ _) as [[at_ sha] err] eqn:Er. destruct (_ || _) eqn:E; [by intros ?%blocks|].
  rewrite !orb_false_iff, !negb_false_iff in E. destruct E as ((E1 & E2) & E3). apply is_nil_true in E1 as ->.
  intros H. exists sha. split_and!; [done| |done|done|exact H|done]. by exists validate.
Qed.

Lemma backup_does plan backupAt sha : pl_InstallationID plan = installation -> backup_found backupAt sha ->
  plan_fresh_backup opts now plan = (plan_pass "fresh_backup"
      "fresh off-cell backup and restore barrier is valid" (safeHAWaveArtifact (po_BackupBarrierPath opts)) sha
      (plan_backup plan (formatHAWaveTime backupAt)), backupAt).
Proof.
  intros Hi (Ha & (validate & Hv & Hr) & Hf & Hs). unfold plan_fresh_backup. cbn zeta.
  rewrite (proj2 (String.eqb_neq _ _) Ha), Hv, Hi, Hr, Hf, Hs. done.
Qed.

(** The plan after the steps on the inventory and the topology. *)
Definition plan_from (preflight : HAWaveInventoryReceipt) (sha : string) : HAWavePlan :=
  let n := Z.of_nat (length (ir_Members preflight)) in
  let members := haWaveInventoryMemberUIDs preflight in
  plan_pass "current_topology" ("phase=" +:+ wave_name n +:+ " members=" +:+ FormatInt n) "" ""
    (plan_phase (plan_pass "preflight_inventory"
       "starting control-plane and etcd member identities are bound by canonical SHA-256"
       (safeHAWaveArtifact (po_PreflightInventoryPath opts)) sha
       (plan_preflight (new_plan opts now) (haWaveCounts n) (ir_ReceiptSHA256 preflight)
          (ir_CapturedAt preflight) (ir_NodeUIDHashAlgorithm preflight) members
          (HAWaveMemberSetSHA256 members))) (wave_name n) (haWaveCounts (n + 1))).

#[local] Abbreviation before_backup :=
  (plan_topology (plan_inventory opts now (plan_installation (plan_clock now (new_plan opts now))))).

Lemma topology_step plan : unblocked (plan_topology plan) -> unblocked plan.
Proof. unfold plan_topology. destruct (haWavePhase _) as [[from phase]|]; [done|by intros ?%blocks]. Qed.

Lemma inventory_step plan : pl_InstallationID plan = installation -> unblocked (plan_inventory opts now plan) ->
  unblocked plan /\ exists preflight sha t, preflight_found preflight sha t /\ current_agrees preflight /\
    plan_inventory opts now plan =
    plan_pass "preflight_inventory"
       "starting control-plane and etcd member identities are bound by canonical SHA-256"
       (safeHAWaveArtifact (po_PreflightInventoryPath opts)) sha
       (plan_preflight plan (haWaveCounts (Z.of_nat (length (ir_Members preflight)))) (ir_ReceiptSHA256 preflight)
          (ir_CapturedAt preflight) (ir_NodeUIDHashAlgorithm preflight) (haWaveInventoryMemberUIDs preflight)
          (HAWaveMemberSetSHA256 (haWaveInventoryMemberUIDs preflight))).
Proof.
  intros Hi. unfold plan_inventory. cbn zeta.
  destruct (load_preflight opts now plan) as [[[preflight counts] sha]|] eqn:El; [|by intros ?%blocks].
  apply load_preflight_iff in El as [[t Ht] ->]; [|done].
  destruct (_ && _) eqn:Ec; [by intros ?%blocks|]. intros H. split; [exact H|].
  exists preflight, sha, t. split_and!; [done| |done]. unfold current_agrees.
  apply andb_false_iff in Ec as [Ec|Ec]; apply negb_false_iff, counts_eqb_eq in Ec; first [by left | by right].
Qed.

Lemma clock_step : unblocked (plan_installation (plan_clock now (new_plan opts now))) ->
  now <> 0 /\ validDNS1123Subdomain installation = true /\
  plan_installation (plan_clock now (new_plan opts now)) = new_plan opts now.
Proof.
  unfold plan_installation, plan_clock. destruct (IsZero now) eqn:Ez.
  - destruct (negb _); [by intros ?%blocks|by intros ?%blocks].
  - cbn [new_plan pl_InstallationID]. destruct (validDNS1123Subdomain installation) eqn:Ev; [|by intros ?%blocks].
    intros _. split_and!; [by apply Z.eqb_neq|done|done].
Qed.
Lemma start_step : unblocked before_backup ->
  now <> 0 /\ validDNS1123Subdomain installation = true /\
  exists preflight sha t, preflight_found preflight sha t /\ current_agrees preflight /\
    (length (ir_Members preflight) = 1%nat \/ length (ir_Members preflight) = 2%nat) /\
    before_backup = plan_from preflight sha.
Proof.
  intros H. apply topology_step in H as Hu.
  destruct (inventory_step (plan_installation (plan_clock now (new_plan opts now)))) as [Hv (preflight & sha & t & Hp & Hc & He)];
    [unfold plan_installation, plan_clock; destruct (IsZero now), (negb _); reflexivity|exact Hu|].
  destruct (clock_step Hv) as (Hn & Hi & E). split_and!; [done|done|]. exists preflight, sha, t.
  split_and!; [done|done|..]; rewrite He, E in *; unfold plan_topology in H |- *;
    cbn [plan_pass plan_checked plan_preflight pl_From] in H |- *;
    destruct Hp as (_ & _ & [_ _ _ _ _ _ _ (Hl & _) _ _] & _); rewrite map_length_members in Hl;
    rewrite haWavePhase_counts in H by lia; destruct (_ =? 3) eqn:E3 in H; try (by apply blocks in H);
    apply Z.eqb_neq in E3; [lia|].
  rewrite haWavePhase_counts by lia. by rewrite (proj2 (Z.eqb_neq _ _)) by lia.
Qed.

Lemma start_does preflight sha t : now <> 0 -> validDNS1123Subdomain installation = true ->
  preflight_found preflight sha t -> current_agrees preflight ->
  (length (ir_Members preflight) = 1%nat \/ length (ir_Members preflight) = 2%nat) ->
  before_backup = plan_from preflight sha.
Proof.
  intros Hn Hi Hp Hc Hl. unfold plan_clock, IsZero. rewrite (proj2 (Z.eqb_neq _ _) Hn).
  unfold plan_installation. cbn [new_plan pl_InstallationID]. rewrite Hi. cbn [negb].
  unfold plan_inventory. cbn zeta.
  rewrite (proj2 (load_preflight_iff (new_plan opts now) preflight _ sha eq_refl) (conj (ex_intro _ t Hp) eq_refl)).
  assert (negb (counts_eqb (po_Current opts) (haWaveCounts 0)) &&
    negb (counts_eqb (po_Current opts) (haWaveCounts (Z.of_nat (length (ir_Members preflight))))) = false) as ->.
  { apply andb_false_iff. destruct Hc as [Hc|Hc]; [left|right]; by apply negb_false_iff, counts_eqb_eq. }
  unfold plan_topology. cbn [plan_pass plan_checked plan_preflight pl_From].
  rewrite haWavePhase_counts by lia. by rewrite (proj2 (Z.eqb_neq _ _)) by lia.
Qed.

(** The fields the last step reads. *)
Definition holds_preflight (preflight : HAWaveInventoryReceipt) (plan : HAWavePlan) : Prop :=
  pl_Phase plan = wave_name (Z.of_nat (length (ir_Members preflight))) /\
  pl_InstallationID plan = installation /\
  pl_PreflightCapturedAt plan = ir_CapturedAt preflight /\
  pl_StartingMemberUIDSHA256 plan = haWaveInventoryMemberUIDs preflight /\
  pl_StartingMemberSetSHA256 plan = HAWaveMemberSetSHA256 (haWaveInventoryMemberUIDs preflight).

Lemma previous_matches_iff preflight plan previous : holds_preflight preflight plan ->
  previous_matches plan previous = true <->
  vr_Phase previous = HAWavePhaseOneToTwo /\ vr_InstallationID previous = installation /\
  vr_Observed previous = haWaveCounts 2 /\
  vr_FinalMemberSetSHA256 previous = HAWaveMemberSetSHA256 (haWaveInventoryMemberUIDs preflight) /\
  vr_FinalMemberUIDSHA256 previous = haWaveInventoryMemberUIDs preflight.
Proof.
  intros (_ & Hi & _ & Hm & Hs). unfold previous_matches. rewrite Hi, Hm, Hs.
  rewrite !andb_true_iff, !String.eqb_eq, counts_eqb_eq, bool_decide_eq_true. tauto.
Qed.

Lemma plan_checked_same plan : plan_checked plan (pl_Checks plan ++ []) (pl_Blockers plan) = plan.
Proof. rewrite app_nil_r. by destruct plan. Qed.

Lemma previous_step preflight t backupAt plan : holds_preflight preflight plan ->
  parseHAWaveTime (ir_CapturedAt preflight) = Some t ->
  (length (ir_Members preflight) = 1%nat \/ length (ir_Members preflight) = 2%nat) ->
  unblocked (plan_previous files opts backupAt plan) ->
  unblocked plan /\ exists checks, previous_found preflight t backupAt checks /\
    plan_previous files opts backupAt plan = plan_checked plan (pl_Checks plan ++ checks) (pl_Blockers plan).
Proof.
  intros Hh Ht Hl. pose proof Hh as (Hp & _ & Hc & _). unfold plan_previous, previous_found. rewrite Hp.
  destruct Hl as [Hl|Hl]; rewrite Hl.
  - change (wave_name (Z.of_nat 1) == HAWavePhaseTwoToThree) with false.
    change (wave_name (Z.of_nat 1) == HAWavePhaseOneToTwo) with true. cbn [andb].
    destruct (blank _) eqn:Eb; [|by intros ?%blocks]. intros H. split; [exact H|]. exists [].
    by rewrite plan_checked_same.
  - change (wave_name (Z.of_nat 2) == HAWavePhaseTwoToThree) with true. cbn iota. unfold plan_second_wave. cbn zeta.
    destruct (ReadHAWaveVerification files _) as [[previous sha]|] eqn:Er; [|by intros ?%blocks].
    destruct (_ || _) eqn:E; [by intros ?%blocks|]. apply orb_false_iff in E as [E1 E2].
    apply String.eqb_neq in E1. apply negb_false_iff, (previous_matches_iff _ _ _ Hh) in E2.
    destruct (parseHAWaveTime (vr_CompletedAt previous)) as [completedAt|] eqn:Ec; [|by intros ?%blocks].
    destruct (After backupAt completedAt) eqn:E3; [|by intros ?%blocks]. cbn [negb]. rewrite Hc, Ht.
    destruct (_ || _) eqn:E in |- *; [by intros ?%blocks|]. apply orb_false_iff in E as [E4 E5].
    apply negb_false_iff in E4, E5. unfold After in *. intros H. split; [exact H|].
    eexists. split; [|reflexivity]. exists previous, sha. split; [|reflexivity].
    split_and!; try apply E2; [done|done|]. exists completedAt. split_and!; [done|lia|lia].
Qed.

Lemma previous_does preflight t backupAt checks plan : holds_preflight preflight plan ->
  parseHAWaveTime (ir_CapturedAt preflight) = Some t -> previous_found preflight t backupAt checks ->
  plan_previous files opts backupAt plan = plan_checked plan (pl_Checks plan ++ checks) (pl_Blockers plan).
Proof.
  intros Hh Ht. pose proof Hh as (Hp & _ & Hc & _). unfold plan_previous, previous_found. rewrite Hp.
  destruct (length _) as [|[|[|n]]]; [done|..|done].
  - intros [Hb ->]. rewrite Hb, plan_checked_same.
    by change (wave_name (Z.of_nat 1) == HAWavePhaseTwoToThree) with false.
  - change (wave_name (Z.of_nat 2) == HAWavePhaseTwoToThree) with true. cbn iota.
    intros (previous & sha & (Hn & Hr & H1 & H2 & H3 & H4 & H5 & completedAt & Hd & Ho & Hb) & ->).
    unfold plan_second_wave. cbn zeta. rewrite Hr, (proj2 (String.eqb_neq _ _) Hn).
    rewrite (proj2 (previous_matches_iff _ _ _ Hh)) by by split_and!. cbn [negb orb].
    rewrite Hd, Hc, Ht. unfold After. rewrite (proj2 (Z.ltb_lt _ _) Ho), (proj2 (Z.ltb_lt _ _) Hb).
    by rewrite (proj2 (Z.ltb_lt completedAt t)) by lia.
Qed.

(** ** Ready plans *)

Lemma previous_length preflight t backupAt checks : previous_found preflight t backupAt checks ->
  length (ir_Members preflight) = 1%nat \/ length (ir_Members preflight) = 2%nat.
Proof. unfold previous_found. destruct (length _) as [|[|[|n]]]; try done; [by left|by right]. Qed.

Lemma possible_wave_is_planned preflight sha t backupAt backupSHA checks :
  wave_possible preflight sha t backupAt backupSHA checks ->
  BuildHAWavePlan files system_time opts = plan_of preflight sha backupAt backupSHA checks.
Proof.
  intros [Hn Hi Hp Hc Hb Hf]. pose proof (previous_length _ _ _ _ Hf) as Hl.
  assert (parseHAWaveTime (ir_CapturedAt preflight) = Some t) as Ht by apply Hp.
  unfold BuildHAWavePlan. cbn zeta. rewrite (start_does _ _ _ Hn Hi Hp Hc Hl).
  rewrite (backup_does (plan_from preflight sha) backupAt backupSHA eq_refl Hb).
  rewrite (previous_does preflight t backupAt checks _); [reflexivity|by repeat split|exact Ht|exact Hf].
Qed.

Lemma unblocked_ready plan : (length (pl_Blockers plan) =? 0)%nat = true <-> unblocked plan.
Proof. unfold unblocked. rewrite Nat.eqb_eq. by destruct (pl_Blockers plan). Qed.

Lemma ready_wave_possible :
  pl_Status (BuildHAWavePlan files system_time opts) = "ready" ->
  exists preflight sha t backupAt backupSHA checks, wave_possible preflight sha t backupAt backupSHA checks.
Proof.
  unfold BuildHAWavePlan. cbn zeta.
  destruct (plan_fresh_backup opts now before_backup) as [plan backupAt] eqn:Eb.
  destruct (_ =? 0)%nat eqn:E.
  2:{ intros H. exfalso. assert (pl_Status plan = "blocked") as Hs.
      { assert (plan = (plan_fresh_backup opts now before_backup).1) as -> by by rewrite Eb.
        assert (forall p, pl_Status (plan_fresh_backup opts now p).1 = pl_Status p) as ->.
        { intros p. unfold plan_fresh_backup. cbn zeta. destruct (_ == ""); [done|].
          destruct (po_ValidateBackup opts); [|done]. destruct (h _ _ _) as [[? ?] ?]. by destruct (_ || _). }
        assert (forall p, pl_Status (plan_topology p) = pl_Status p) as ->.
        { intros p. unfold plan_topology. by destruct (haWavePhase _) as [[? ?]|]. }
        assert (forall p, pl_Status (plan_inventory opts now p) = pl_Status p) as ->.
        { intros p. unfold plan_inventory. cbn zeta. destruct (load_preflight _ _ _) as [[[? ?] ?]|]; [|done].
          by destruct (_ && _). }
        unfold plan_installation, plan_clock. destruct (IsZero now); by destruct (negb _). }
      assert (pl_Status (plan_previous files opts backupAt plan) = pl_Status plan) as Hp; [|congruence].
      unfold plan_previous, plan_second_wave. cbn zeta.
      repeat (case_match; try reflexivity). }
  intros _. apply unblocked_ready in E.
  assert (unblocked plan) as Hu.
  { revert E. unfold plan_previous, plan_second_wave. cbn zeta.
    repeat (case_match; try (by intros ?%blocks); try (intros H'; exact H')). }
  destruct (backup_step before_backup) as (backupSHA & Hb & Hs & He); [|by rewrite Eb|].
  { unfold plan_topology, plan_inventory, plan_installation, plan_clock. cbn zeta.
    repeat (case_match; try reflexivity). }
  rewrite Eb in Hb, He. cbn [fst snd] in Hb, He.
  destruct (start_step Hs) as (Hn & Hi & preflight & sha & t & Hp & Hc & Hl & Hq).
  rewrite Hq in He. rewrite He in E.
  apply (previous_step preflight t backupAt) in E as [_ (checks & Hf & _)];
    [|by repeat split|apply Hp|exact Hl].
  exists preflight, sha, t, backupAt, backupSHA, checks. by constructor.
Qed.
End Ready.
