(* ===== verification/HaVerified.v ===== *)
(** * Kubeadm waves: what makes a verification ready

    As [HaReady] for [VerifyHAWave]: a report is ready exactly when every step
    found what it asks for, and it is the report written out here. *)

From stdpp Require Import gmap strings list.
From Stdlib Require Import ZArith Ascii Lia.
From S2P Require Import Prelude GoString GoPath GoTime GoSort GoSha256 GoJson StrictJson GoRfc3339 OslTypes OslValidate OslSeal HaTypes HaWave HaMembers HaBuild HaReady.

#[local] Open Scope Z_scope.
#[local] Opaque sha256_hex.

(** ** The receipt of the last wave *)

(** The receipt is valid, and it is about the members of the inventory: its
    baseline counts them, its digests are those the inventory is bound to, and
    the server that was lost is one of them. *)
Record bound_receipt (r : Receipt) (inventory : HAWaveInventoryReceipt) (target : HAWaveCounts) : Prop := {
  br_valid : ValidateReceipt (Some r) = None;
  br_counts : {| ct_ControlPlane := bl_ControlPlaneNodes (rc_Baseline r);
                 ct_Etcd := bl_EtcdMembers (rc_Baseline r);
                 ct_APIServer := bl_APIServerMembers (rc_Baseline r) |} = target;
  br_minimum : 3 <= rc_MinimumControlPlane r;
  br_binding : ir_OneServerLossReceiptBinding inventory = {|
    bd_ReceiptSHA256 := rc_ReceiptSHA256 r; bd_RunNonceSHA256 := rc_RunNonceSHA256 r;
    bd_TargetNodeUIDSHA256 := rc_TargetNodeUIDSHA256 r;
    bd_KubectlExecutableSHA256 := rc_KubectlExecutableSHA256 r;
    bd_ProbeAdapterSHA256 := rc_ProbeAdapterSHA256 r; bd_NodeUIDHashAlgorithm := NodeUIDHashAlgorithm;
    bd_ControlPlaneMemberSetSHA256 := HAWaveMemberSetSHA256 (haWaveInventoryMemberUIDs inventory) |};
  br_algorithm : ir_NodeUIDHashAlgorithm inventory = NodeUIDHashAlgorithm /\
    rc_NodeUIDHashAlgorithm r = NodeUIDHashAlgorithm;
  br_members : validHAWaveSHA256 (HAWaveMemberSetSHA256 (haWaveInventoryMemberUIDs inventory)) = true /\
    bl_ControlPlaneMemberSetSHA256 (rc_Baseline r) =
      HAWaveMemberSetSHA256 (haWaveInventoryMemberUIDs inventory);
  br_lost : rc_TargetNodeUIDSHA256 r ∈ haWaveInventoryMemberUIDs inventory
}.

(** The run ended after the plan and the backup, the inventory came later. *)
Definition receipt_in_time (r : Receipt) (inventory : HAWaveInventoryReceipt)
    (now planned backup : Time) : Prop :=
  exists completed captured, parseHAWaveTime (rc_CompletedAt r) = Some completed /\
    parseHAWaveTime (ir_CapturedAt inventory) = Some captured /\ freshHAWaveTime completed now = true /\
    planned < completed /\ backup < completed /\ completed < captured /\ captured <= now.

Lemma has_member_iff inventory uid :
  haWaveInventoryHasMember inventory uid = true <-> uid ∈ haWaveInventoryMemberUIDs inventory.
Proof.
  unfold haWaveInventoryHasMember, haWaveInventoryMemberUIDs. rewrite existsb_exists, list_elem_of_In, in_map_iff.
  split; intros (m & H1 & H2); exists m; rewrite ?String.eqb_eq in *; tauto.
Qed.

Lemma bound_receipt_iff r inventory target now planned backup :
  validateHAWaveOneServerLossReceipt (Some r) (Some inventory) target now planned backup = None <->
  bound_receipt r inventory target /\ receipt_in_time r inventory now planned backup.
Proof.
  unfold validateHAWaveOneServerLossReceipt, receipt_in_time. cbn zeta. split.
  - destruct (ValidateReceipt (Some r)) eqn:Ev; [done|].
    match goal with |- (if ?b then _ else _) = _ -> _ => destruct b eqn:E1; [done|] end.
    match goal with |- (if ?b then _ else _) = _ -> _ => destruct b eqn:E2; [done|] end.
    destruct (parseHAWaveTime (rc_CompletedAt r)) as [completed|] eqn:E3; [|done].
    destruct (parseHAWaveTime (ir_CapturedAt inventory)) as [captured|] eqn:E4; [|done].
    match goal with |- (if ?b then _ else _) = _ -> _ => destruct b eqn:E5; [done|] end. intros _.
    rewrite !orb_false_iff, !negb_false_iff, ?Z.eqb_eq, ?Z.ltb_ge in E1.
    rewrite !orb_false_iff, !negb_false_iff, ?String.eqb_eq in E2.
    rewrite !orb_false_iff, !negb_false_iff in E5. unfold After in E5.
    destruct E1 as (((A1 & A2) & A3) & A4).
    destruct E2 as (((((((((((B1 & B2) & B3) & B4) & B5) & B6) & B7) & B8) & B9) & B10) & B11) & B12).
    destruct E5 as (((((C1 & C2) & C3) & C4) & C5) & C6).
    apply Z.ltb_lt in C4, C5, C6. apply Z.ltb_ge in C2, C3.
    split; [|by exists completed, captured]. constructor; try done.
    + rewrite A1, A2, A3. by destruct target.
    + destruct (ir_OneServerLossReceiptBinding inventory); cbn in *. by subst.
    + by apply has_member_iff.
  - intros [[-> Hc Hm Hb (-> & ->) (Hs & ->) Hl%has_member_iff]
      (completed & captured & -> & -> & Hf & H1 & H2 & H3 & H4)].
    subst target. cbn [ct_ControlPlane ct_Etcd ct_APIServer]. rewrite Hb, !Z.eqb_refl. cbn.
    rewrite (proj2 (Z.ltb_ge _ _) Hm), Hs, Hl, !String.eqb_refl, Hf. cbn. unfold After.
    rewrite (proj2 (Z.ltb_lt _ _) H1), (proj2 (Z.ltb_lt _ _) H2), (proj2 (Z.ltb_lt _ _) H3).
    rewrite (proj2 (Z.ltb_ge _ _) H4). by rewrite (proj2 (Z.ltb_ge now completed)) by lia.
Qed.

(** ** What is asked of the evidence *)

Section Verified.
Context (files : string -> option string) (system_time : Time) (opts : HAWaveVerifyOptions).

#[local] Abbreviation now := (haWaveNow system_time (vo_Now opts)).

(** The plan, in a file of digest [sha], written at [planned] for a backup made
    at [backup]. *)
Definition plan_found (plan : HAWavePlan) (sha : string) (planned backup : Time) : Prop :=
  named (vo_PlanPath opts) /\ ReadHAWavePlan files (vo_PlanPath opts) = Ok (plan, sha) /\
  parseHAWaveTime (pl_GeneratedAt plan) = Some planned /\
  parseHAWaveTime (pl_BackupGeneratedAt plan) = Some backup /\ planned <= now /\ backup <= now.

(** The backup of the plan is there again, and still fresh. *)
Definition backup_reopened (plan : HAWavePlan) (check : HAWaveCheck) : Prop :=
  findHAWaveCheck (pl_Checks plan) "fresh_backup" = Some check /\
  named (vo_BackupBarrierPath opts) /\ safeHAWaveArtifact (vo_BackupBarrierPath opts) = ck_Artifact check /\
  exists validate backupAt, vo_ValidateBackup opts = Some validate /\
    validate (vo_BackupBarrierPath opts) (pl_InstallationID plan) now = (backupAt, ck_SHA256 check, None) /\
    freshHAWaveTime backupAt now = true /\ formatHAWaveTime backupAt = pl_BackupGeneratedAt plan.

(** The inventory after the wave: captured after the plan and the backup. *)
Definition inventory_found (plan : HAWavePlan) (planned backup : Time)
    (inventory : HAWaveInventoryReceipt) (sha : string) : Prop :=
  named (vo_InventoryPath opts) /\
  (exists load, vo_LoadInventory opts = Some load /\
    load (vo_InventoryPath opts) now = (Some inventory, sha, None)) /\
  accepted_inventory inventory now /\ validHAWaveSHA256 sha = true /\
  ir_InstallationID inventory = pl_InstallationID plan /\
  ir_NodeUIDHashAlgorithm inventory = pl_NodeUIDHashAlgorithm plan /\
  exists t, parseHAWaveTime (ir_CapturedAt inventory) = Some t /\ planned < t /\ backup < t /\ t <= now.

(** The loss of a server was tried with three members, and only then. *)
Definition loss_found (plan : HAWavePlan) (planned backup : Time) (inventory : HAWaveInventoryReceipt)
    (loss : option (Receipt * string)) : Prop :=
  match loss with
  | Some (receipt, sha) =>
      pl_Target plan = haWaveCounts 3 /\ named (vo_FinalOneServerLossPath opts) /\
      (exists load, vo_LoadOneServerLossReceipt opts = Some load /\
        load (vo_FinalOneServerLossPath opts) now = (Some receipt, sha, None)) /\
      validHAWaveSHA256 sha = true /\ bound_receipt receipt inventory (haWaveCounts 3) /\
      receipt_in_time receipt inventory now planned backup
  | None =>
      pl_Target plan <> haWaveCounts 3 /\ unbound (ir_OneServerLossReceiptBinding inventory) = true /\
      blank (vo_FinalOneServerLossPath opts) = true
  end.

Record wave_done (plan : HAWavePlan) (planSHA : string) (check : HAWaveCheck)
    (inventory : HAWaveInventoryReceipt) (inventorySHA introduced : string)
    (loss : option (Receipt * string)) (planned backup : Time) : Prop := {
  wd_now : now <> 0;
  wd_plan : plan_found plan planSHA planned backup;
  wd_backup : backup_reopened plan check;
  wd_inventory : inventory_found plan planned backup inventory inventorySHA;
  wd_members : validateHAWaveMemberTransition (pl_StartingMemberUIDSHA256 plan)
    (haWaveInventoryMemberUIDs inventory) = Ok introduced;
  wd_topology : haWaveCounts (Z.of_nat (length (ir_Members inventory))) = pl_Target plan;
  wd_loss : loss_found plan planned backup inventory loss
}.

(** The report of a wave that was carried out. *)
Definition report_of (plan : HAWavePlan) (planSHA : string) (check : HAWaveCheck)
    (inventory : HAWaveInventoryReceipt) (inventorySHA introduced : string)
    (loss : option (Receipt * string)) : HAWaveVerification :=
  let n := Z.of_nat (length (ir_Members inventory)) in
  let members := haWaveInventoryMemberUIDs inventory in {|
    vr_SchemaVersion := HAWaveSchemaVersion; vr_GeneratedAt := formatHAWaveTime now;
    vr_CompletedAt := formatHAWaveTime now; vr_Status := "ready"; vr_Phase := pl_Phase plan;
    vr_InstallationID := pl_InstallationID plan; vr_PlanSHA256 := planSHA;
    vr_InventoryReceiptSHA256 := ir_ReceiptSHA256 inventory;
    vr_OneServerLossReceiptSHA256 := match loss with Some (receipt, _) => rc_ReceiptSHA256 receipt | None => "" end;
    vr_PreflightInventoryReceiptSHA256 := pl_PreflightInventoryReceiptSHA256 plan;
    vr_NodeUIDHashAlgorithm := pl_NodeUIDHashAlgorithm plan;
    vr_StartingMemberUIDSHA256 := pl_StartingMemberUIDSHA256 plan;
    vr_StartingMemberSetSHA256 := pl_StartingMemberSetSHA256 plan;
    vr_FinalMemberUIDSHA256 := members; vr_FinalMemberSetSHA256 := HAWaveMemberSetSHA256 members;
    vr_IntroducedMemberUIDSHA256 := introduced; vr_Observed := haWaveCounts n;
    vr_FreshBackupVerified := true;
    vr_PreviousWaveVerified := (pl_Phase plan == HAWavePhaseOneToTwo) ||
      hasPassingHAWaveCheck (pl_Checks plan) "previous_wave";
    vr_FinalOneServerLossVerified := negb (is_nil loss);
    vr_Checks := [
      passed "plan" "ready HA-wave plan is bound by SHA-256" (safeHAWaveArtifact (vo_PlanPath opts)) planSHA;
      passed "fresh_backup" "exact planned off-cell backup and restore barrier was reopened and remains fresh"
        (ck_Artifact check) (ck_SHA256 check);
      passed "inventory" "healthy member counts were derived from an identity-bound kubeadm inventory receipt"
        (safeHAWaveArtifact (vo_InventoryPath opts)) inventorySHA;
      passed "member_identity_transition"
        "exactly one introduced member identity was added without replacement or deletion" "" "";
      passed "target_topology" ("observed healthy members=" +:+ FormatInt n) "" ""] ++
      match loss with
      | Some (_, sha) => [passed "final_one_server_loss"
          "final one-server-loss receipt is valid after three members were observed"
          (safeHAWaveArtifact (vo_FinalOneServerLossPath opts)) sha]
      | None => []
      end;
    vr_Blockers := []; vr_MutationAttempted := false; vr_NonClaim := haWaveVerifyNonClaim |}.

(** ** The steps *)

Definition clear (report : HAWaveVerification) : Prop := vr_Blockers report = [].

Lemma report_blocks blocker id detail artifact sha report :
  ~ clear (report_block blocker id detail artifact sha report).
Proof.
  unfold clear. cbn. unfold appendUniqueHAWaveBlocker. destruct (existsb _ _) eqn:E.
  - intros H. by rewrite H in E.
  - intros H. by destruct (app_cons_not_nil (vr_Blockers report) [] blocker).
Qed.

Lemma backup_again plan report : clear (report_backup_step opts now plan report) ->
  clear report /\ exists check, backup_reopened plan check.
Proof.
  unfold report_backup_step, backup_reopened, named. cbn zeta.
  destruct (findHAWaveCheck _ _) as [check|]; [|by intros ?%report_blocks].
  destruct (vo_ValidateBackup opts) as [validate|]; [|by intros ?%report_blocks].
  destruct (_ == "") eqn:Ea; [by intros ?%report_blocks|]. apply String.eqb_neq in Ea.
  destruct (validate _ _ _) as [[at_ sha] err] eqn:Er.
  match goal with |- clear (if ?b then _ else _) -> _ => destruct b eqn:E; [by intros ?%report_blocks|] end.
  rewrite !orb_false_iff, !negb_false_iff, ?String.eqb_eq in E.
  destruct E as ((((E1 & E2) & E3) & E4) & E5). apply is_nil_true in E1. subst.
  intros H. split; [exact H|]. exists check. split_and!; try done. by exists validate, at_.
Qed.

Lemma backup_passes plan check report : backup_reopened plan check ->
  report_backup_step opts now plan report = report_pass "fresh_backup"
    "exact planned off-cell backup and restore barrier was reopened and remains fresh"
    (ck_Artifact check) (ck_SHA256 check) (report_backup report true).
Proof.
  unfold report_backup_step, backup_reopened, named. intros (-> & Ha & Hc & validate & at_ & -> & -> & Hf & ->).
  cbn zeta. rewrite (proj2 (String.eqb_neq _ _) Ha), Hf, Hc, !String.eqb_refl. done.
Qed.

Lemma inventory_found_iff plan planned backup inventory counts sha :
  load_inventory opts now planned backup plan = Some (inventory, counts, sha) <->
  inventory_found plan planned backup inventory sha /\
  counts = haWaveCounts (Z.of_nat (length (ir_Members inventory))).
Proof.
  unfold load_inventory, inventory_found, named, time_or_zero. split.
  - destruct (vo_LoadInventory opts) as [load|]; [|done].
    destruct (_ == "") eqn:Ea; [done|]. apply String.eqb_neq in Ea.
    destruct (load _ _) as [[[r|] s] [e|]] eqn:El; try done.
    destruct (ValidateHAWaveInventoryReceipt (Some r) now) as [c|] eqn:Ev; [|done]. cbn zeta.
    match goal with |- (if ?b then _ else _) = _ -> _ => destruct b eqn:E; [done|] end. intros [= -> -> ->].
    rewrite !orb_false_iff, !negb_false_iff, ?String.eqb_eq in E. unfold After in E.
    destruct E as (((((E1 & E2) & E3) & E4) & E5) & E6). apply Z.ltb_lt in E4, E5. apply Z.ltb_ge in E6.
    apply accepted_inventory_iff in Ev as [Ha' ->]. split; [|done].
    destruct (ai_captured _ _ Ha') as (t & Ht & _). rewrite Ht in E4, E5, E6.
    split_and!; try done; [by exists load|by exists t].
  - intros [(Ha & (load & -> & ->) & Hv & -> & -> & -> & t & -> & H1 & H2 & H3) ->].
    rewrite (proj2 (String.eqb_neq _ _) Ha), (proj2 (accepted_inventory_iff _ _ _) (conj Hv eq_refl)).
    cbn. rewrite !String.eqb_refl. unfold After.
    by rewrite (proj2 (Z.ltb_lt _ _) H1), (proj2 (Z.ltb_lt _ _) H2), (proj2 (Z.ltb_ge _ _) H3).
Qed.

Lemma loss_step plan planned backup inventory report :
  clear (report_loss_step opts now planned backup plan (Some inventory) report) ->
  clear report /\ exists loss, loss_found plan planned backup inventory loss.
Proof.
  unfold report_loss_step, named. cbn zeta. destruct (counts_eqb _ _) eqn:Ec.
  - apply counts_eqb_eq in Ec. destruct (vo_LoadOneServerLossReceipt opts) as [load|] eqn:El; [|by intros ?%report_blocks].
    destruct (_ == "") eqn:Ea; [by intros ?%report_blocks|]. apply String.eqb_neq in Ea.
    destruct (load _ _) as [[[receipt|] sha] [e|]] eqn:Er; try by intros ?%report_blocks.
    match goal with |- clear (if ?b then _ else _) -> _ => destruct b eqn:E; [by intros ?%report_blocks|] end.
    rewrite !orb_false_iff, !negb_false_iff in E. destruct E as [E1 E2]. apply is_nil_true in E2.
    rewrite Ec in E2. apply bound_receipt_iff in E2 as [E2 E3].
    intros H. split; [exact H|]. exists (Some (receipt, sha)). split_and!; try done. by exists load.
  - assert (pl_Target plan <> haWaveCounts 3) as Hc by by intros H%counts_eqb_eq; rewrite H in Ec.
    destruct (unbound _) eqn:Eu; cbn [negb]; (destruct (blank _) eqn:Eb; cbn [negb]; [|by intros ?%report_blocks]);
      [|by intros ?%report_blocks].
    intros H. split; [exact H|]. by exists None.
Qed.

Lemma loss_does plan planned backup inventory loss report : loss_found plan planned backup inventory loss ->
  report_loss_step opts now planned backup plan (Some inventory) report =
  match loss with
  | Some (receipt, sha) => report_pass "final_one_server_loss"
      "final one-server-loss receipt is valid after three members were observed"
      (safeHAWaveArtifact (vo_FinalOneServerLossPath opts)) sha (report_loss report true (rc_ReceiptSHA256 receipt))
  | None => report
  end.
Proof.
  unfold report_loss_step, loss_found, named. cbn zeta. destruct loss as [[receipt sha]|].
  - intros (Ht & Ha & (load & -> & ->) & Hs & Hb & Hi).
    rewrite (proj2 (counts_eqb_eq _ _) Ht), (proj2 (String.eqb_neq _ _) Ha), Hs, Ht.
    by rewrite (proj2 (bound_receipt_iff _ _ _ _ _ _) (conj Hb Hi)).
  - intros (Ht & Hu & Hb). destruct (counts_eqb _ _) eqn:Ec; [by apply counts_eqb_eq in Ec|]. by rewrite Hu, Hb.
Qed.

(** ** Ready verifications *)

#[local] Abbreviation before_loss plan planSHA planned backup :=
  (report_topology_step plan (report_transition_step (report_inventory_step opts
    (load_inventory opts now planned backup plan)
    (report_backup_step opts now plan
      (report_of_plan plan planSHA (safeHAWaveArtifact (vo_PlanPath opts)) (new_report now)))))).

Lemma steps_clear plan planSHA planned backup :
  clear (before_loss plan planSHA planned backup) ->
  exists check inventory inventorySHA introduced,
    backup_reopened plan check /\ inventory_found plan planned backup inventory inventorySHA /\
    validateHAWaveMemberTransition (pl_StartingMemberUIDSHA256 plan)
      (haWaveInventoryMemberUIDs inventory) = Ok introduced /\
    haWaveCounts (Z.of_nat (length (ir_Members inventory))) = pl_Target plan.
Proof.
  destruct (load_inventory _ _ _ _ _) as [[[inventory counts] sha]|] eqn:Ei.
  - apply inventory_found_iff in Ei as [Hi ->]. unfold report_topology_step.
    destruct (negb _) eqn:Et; [by intros ?%report_blocks|]. apply negb_false_iff, counts_eqb_eq in Et.
    unfold report_transition_step, report_inventory_step in *. revert Et.
    destruct (validateHAWaveMemberTransition _ _) as [introduced|] eqn:Em; [|by intros _ ?%report_blocks].
    intros Et H. destruct (backup_again plan _ H) as [_ [check Hc]].
    rewrite (backup_passes _ _ _ Hc) in Em. by exists check, inventory, sha, introduced.
  - intros H. exfalso. unfold report_topology_step in H.
    destruct (negb _); [by apply report_blocks in H|]. unfold report_transition_step in H.
    destruct (validateHAWaveMemberTransition _ _); [|by apply report_blocks in H]. by apply report_blocks in H.
Qed.

Lemma done_wave_is_reported plan planSHA check inventory inventorySHA introduced loss planned backup :
  wave_done plan planSHA check inventory inventorySHA introduced loss planned backup ->
  VerifyHAWave files system_time opts = report_of plan planSHA check inventory inventorySHA introduced loss.
Proof.
  intros [Hn (Ha & Hr & Hg & Hb & H1 & H2) Hc Hi Hm Ht Hl]. unfold VerifyHAWave. cbn zeta.
  unfold IsZero at 1. rewrite (proj2 (Z.eqb_neq _ _) Hn), Hr, (proj2 (String.eqb_neq _ _) Ha), Hg, Hb. unfold After.
  rewrite (proj2 (Z.ltb_ge _ _) H1), (proj2 (Z.ltb_ge _ _) H2). cbn [orb].
  rewrite (proj2 (inventory_found_iff _ _ _ _ _ _) (conj Hi eq_refl)), (backup_passes _ _ _ Hc).
  unfold report_inventory_step, report_transition_step.
  cbn [report_pass report_checked report_inventory vr_StartingMemberUIDSHA256 vr_FinalMemberUIDSHA256
    report_backup report_of_plan report_plan].
  rewrite Hm. unfold report_topology_step. cbn zeta.
  cbn [report_pass report_checked report_introduced report_inventory vr_Observed].
  rewrite (proj2 (counts_eqb_eq _ _) Ht). cbn [negb option_fmap option_map fst]. 
  rewrite (loss_does _ _ _ _ _ _ Hl), <- Ht.
  unfold report_of. destruct loss as [[receipt sha]|]; reflexivity.
Qed.

(** The steps leave the status as it is. *)
Lemma backup_status plan report : vr_Status (report_backup_step opts now plan report) = vr_Status report.
Proof. unfold report_backup_step. cbn zeta. repeat (case_match; try reflexivity). Qed.

Lemma inventory_status inventory report :
  vr_Status (report_inventory_step opts inventory report) = vr_Status report.
Proof. unfold report_inventory_step. by destruct inventory as [[[? ?] ?]|]. Qed.

Lemma transition_status report : vr_Status (report_transition_step report) = vr_Status report.
Proof. unfold report_transition_step. by destruct (validateHAWaveMemberTransition _ _). Qed.

Lemma topology_status plan report : vr_Status (report_topology_step plan report) = vr_Status report.
Proof. unfold report_topology_step. cbn zeta. by destruct (negb _). Qed.

Lemma loss_status planned backup plan inventory report :
  vr_Status (report_loss_step opts now planned backup plan inventory report) = vr_Status report.
Proof. unfold report_loss_step. cbn zeta. repeat (case_match; try reflexivity). Qed.

Lemma ready_report_done : vr_Status (VerifyHAWave files system_time opts) = "ready" ->
  exists plan planSHA check inventory inventorySHA introduced loss planned backup,
    wave_done plan planSHA check inventory inventorySHA introduced loss planned backup.
Proof.
  unfold VerifyHAWave. cbn zeta. destruct (IsZero now) eqn:En; [done|].
  destruct (ReadHAWavePlan _ _) as [[plan planSHA]|] eqn:Er; [|done].
  destruct (_ == "") eqn:Ea; [done|]. apply String.eqb_neq in Ea.
  destruct (parseHAWaveTime (pl_GeneratedAt plan)) as [planned|] eqn:Eg; [|done].
  destruct (parseHAWaveTime (pl_BackupGeneratedAt plan)) as [backup|] eqn:Eb; [|done].
  destruct (_ || _) eqn:E; [done|]. apply orb_false_iff in E as [E1 E2]. unfold After in E1, E2.
  apply Z.ltb_ge in E1, E2. set (steps := before_loss plan planSHA planned backup).
  assert (forall inventory, clear (report_loss_step opts now planned backup plan inventory steps) -> clear steps) as Hk.
  { intros [inventory|] H; [by apply loss_step in H as [H _]|]. revert H. unfold report_loss_step. cbn zeta.
    repeat (case_match; try (by intros ?%report_blocks); try (intros H'; exact H')). }
  destruct (_ =? 0)%nat eqn:El.
  2:{ intros H. exfalso. unfold steps in H.
      by rewrite loss_status, topology_status, transition_status, inventory_status, backup_status in H. }
  intros _. assert (clear (report_loss_step opts now planned backup plan
    (fst ∘ fst <$> load_inventory opts now planned backup plan) steps)) as Hc.
  { unfold clear. by apply Nat.eqb_eq, nil_length_inv in El. }
  destruct (steps_clear plan planSHA planned backup (Hk _ Hc)) as (check & inventory & sha & introduced & H1 & H2 & H3 & H4).
  rewrite (proj2 (inventory_found_iff _ _ _ _ _ _) (conj H2 eq_refl)) in Hc. apply loss_step in Hc as [_ [loss Hl]].
  unfold IsZero in En. apply Z.eqb_neq in En.
  exists plan, planSHA, check, inventory, sha, introduced, loss, planned, backup. by constructor.
Qed.
End Verified.
