(* ===== verification/HaCodec.v ===== *)
(** * Kubeadm waves: plans and verifications as JSON

    The records that are read back from their texts. *)

From stdpp Require Import gmap strings list.
From Stdlib Require Import ZArith Ascii Lia.
From S2P Require Import Prelude GoString GoTime GoSort GoDate GoPath GoSha256 GoJson GoJsonCorrect StrictJson StrictJsonCorrect GoRfc3339 JsonStructs OslTypes OslValidate HaTypes HaWave HaBuild.

Definition wire_HAWaveCounts (v : HAWaveCounts) : Prop :=
  is_int64 (ct_ControlPlane v) /\ is_int64 (ct_Etcd v) /\ is_int64 (ct_APIServer v).

#[export] Instance HAWaveCounts_laws : JsonLaws HAWaveCounts.
Proof.
  refine {| wire := wire_HAWaveCounts; json_depth := 1 |}; intros v.
  - intros (? & ? & ?). change (unmarshal_HAWaveCounts true [JStruct (HAWaveCounts_fields v)] = Some v).
    unfold unmarshal_HAWaveCounts. change HAWaveCounts_names with (keys (HAWaveCounts_fields v)).
    json_gather (HAWaveCounts_fields v) json_lookup. by destruct v.
  - intros (? & ? & ?). json_formed.
  - json_distinct.
  - json_height.
Defined.

Definition wire_HAWaveCheck (v : HAWaveCheck) : Prop :=
  utf8 (ck_ID v) /\ utf8 (ck_Status v) /\ utf8 (ck_Artifact v) /\ utf8 (ck_SHA256 v) /\
  utf8 (ck_Detail v).

#[export] Instance HAWaveCheck_laws : JsonLaws HAWaveCheck.
Proof.
  refine {| wire := wire_HAWaveCheck; json_depth := 1 |}; intros v.
  - intros (? & ? & ? & ? & ?). change (unmarshal_HAWaveCheck true [JStruct (HAWaveCheck_fields v)] = Some v).
    unfold unmarshal_HAWaveCheck. change HAWaveCheck_names with (keys (HAWaveCheck_fields v)).
    json_gather (HAWaveCheck_fields v) json_lookup. by destruct v.
  - intros (? & ? & ? & ? & ?). json_formed.
  - json_distinct.
  - json_height.
Defined.

Definition wire_HAWavePlan (v : HAWavePlan) : Prop :=
  utf8 (pl_SchemaVersion v) /\ utf8 (pl_GeneratedAt v) /\ utf8 (pl_Status v) /\
  utf8 (pl_Phase v) /\ utf8 (pl_InstallationID v) /\ wire (pl_From v) /\
  wire (pl_Target v) /\ utf8 (pl_PreflightInventoryReceiptSHA256 v) /\
  utf8 (pl_PreflightCapturedAt v) /\ utf8 (pl_NodeUIDHashAlgorithm v) /\
  Forall wire (pl_StartingMemberUIDSHA256 v) /\ utf8 (pl_StartingMemberSetSHA256 v) /\
  utf8 (pl_BackupGeneratedAt v) /\ Forall wire (pl_Checks v) /\
  Forall wire (pl_Blockers v) /\ Forall wire (pl_Steps v) /\ Forall wire (pl_Rollback v) /\
  utf8 (pl_NonClaim v).

#[export] Instance HAWavePlan_laws : JsonLaws HAWavePlan.
Proof.
  refine {| wire := wire_HAWavePlan; json_depth := 3 |}; intros v.
  - intros (? & ? & ? & ? & ? & ? & ? & ? & ? & ? & ? & ? & ? & ? & ? & ? & ? & ?). change (unmarshal_HAWavePlan true [JStruct (HAWavePlan_fields v)] = Some v).
    unfold unmarshal_HAWavePlan. change HAWavePlan_names with (keys (HAWavePlan_fields v)).
    json_gather (HAWavePlan_fields v) json_lookup. by destruct v.
  - intros (? & ? & ? & ? & ? & ? & ? & ? & ? & ? & ? & ? & ? & ? & ? & ? & ? & ?). json_formed.
  - json_distinct.
  - json_height.
Defined.

Definition wire_HAWaveVerification (v : HAWaveVerification) : Prop :=
  utf8 (vr_SchemaVersion v) /\ utf8 (vr_GeneratedAt v) /\ utf8 (vr_CompletedAt v) /\
  utf8 (vr_Status v) /\ utf8 (vr_Phase v) /\ utf8 (vr_InstallationID v) /\
  utf8 (vr_PlanSHA256 v) /\ utf8 (vr_InventoryReceiptSHA256 v) /\
  utf8 (vr_OneServerLossReceiptSHA256 v) /\ utf8 (vr_PreflightInventoryReceiptSHA256 v) /\
  utf8 (vr_NodeUIDHashAlgorithm v) /\ Forall wire (vr_StartingMemberUIDSHA256 v) /\
  utf8 (vr_StartingMemberSetSHA256 v) /\ Forall wire (vr_FinalMemberUIDSHA256 v) /\
  utf8 (vr_FinalMemberSetSHA256 v) /\ utf8 (vr_IntroducedMemberUIDSHA256 v) /\
  wire (vr_Observed v) /\ Forall wire (vr_Checks v) /\ Forall wire (vr_Blockers v) /\
  utf8 (vr_NonClaim v).

#[export] Instance HAWaveVerification_laws : JsonLaws HAWaveVerification.
Proof.
  refine {| wire := wire_HAWaveVerification; json_depth := 3 |}; intros v.
  - intros (? & ? & ? & ? & ? & ? & ? & ? & ? & ? & ? & ? & ? & ? & ? & ? & ? & ? & ? & ?). change (unmarshal_HAWaveVerification true [JStruct (HAWaveVerification_fields v)] = Some v).
    unfold unmarshal_HAWaveVerification. change HAWaveVerification_names with (keys (HAWaveVerification_fields v)).
    json_gather (HAWaveVerification_fields v) json_lookup. by destruct v.
  - intros (? & ? & ? & ? & ? & ? & ? & ? & ? & ? & ? & ? & ? & ? & ? & ? & ? & ? & ? & ?). json_formed.
  - json_distinct.
  - json_height.
Defined.

(** * Kubeadm waves: the names of artifacts

    What [safeHAWaveArtifact] answers it answers again, and it is a short ASCII
    text. *)

(** ** Texts without white space *)

Definition visible (c : ascii) : bool := is_ascii c && negb (ascii_space c).

Lemma visible_not_space c : visible c = true ->
  ascii_space c = false /\ is_char 194 c = false /\ is_char 225 c = false /\ is_char 226 c = false /\
  is_char 227 c = false.
Proof. destruct c as [[] [] [] [] [] [] [] []]; by vm_compute. Qed.

Lemma trim_visible rev s : all_chars visible s = true -> trim_front rev s = s.
Proof.
  destruct s as [|a [|b [|c r]]]; [done|..]; cbn [all_chars trim_front]; rewrite ?andb_true_iff.
  - intros [(-> & _)%visible_not_space _]. done.
  - intros ((-> & Ha & _)%visible_not_space & (_ & Hb & _)%visible_not_space & _).
    unfold space2. rewrite Ha, Hb. by destruct rev.
  - intros ((-> & Ha & Ha1 & Ha2 & Ha3)%visible_not_space & (_ & Hb & _)%visible_not_space &
      (_ & Hc & Hc1 & Hc2 & Hc3)%visible_not_space & _).
    unfold space2, space3. rewrite Ha, Ha1, Ha2, Ha3, Hb, Hc1, Hc2, Hc3. by destruct rev.
Qed.

Lemma string_rev_app_spec s t acc : string_rev_app (string_rev_app s t) acc = string_rev_app t (s +:+ acc).
Proof. revert t acc. induction s as [|c s IH]; intros t acc; [done|]. cbn [string_rev_app]. by rewrite IH. Qed.

Lemma string_rev_involutive s : string_rev (string_rev s) = s.
Proof. unfold string_rev. rewrite string_rev_app_spec. apply string_app_nil_r. Qed.

Lemma all_chars_rev f s : all_chars f (string_rev s) = all_chars f s.
Proof.
  unfold string_rev. assert (forall t, all_chars f (string_rev_app s t) = all_chars f s && all_chars f t) as ->.
  { induction s as [|c s IH]; intros t; [done|]. cbn. rewrite IH. cbn. destruct (f c), (all_chars f s); done. }
  cbn. by rewrite andb_true_r.
Qed.

Lemma TrimSpace_visible s : all_chars visible s = true -> TrimSpace s = s.
Proof.
  intros H. unfold TrimSpace. rewrite (trim_visible false s H), trim_visible by by rewrite all_chars_rev.
  apply string_rev_involutive.
Qed.

(** ** Names of artifacts *)

Definition artifact_char (c : ascii) : bool := alphanumeric c || one_of "._-" c.

Definition artifact_name (name : string) : Prop :=
  match name with
  | EmptyString => False
  | String c rest => alphanumeric c = true /\ all_chars artifact_char rest = true /\ len name <= 128
  end.

Lemma artifact_char_facts c : artifact_char c = true ->
  visible c = true /\ negb (Ascii.eqb c slash) = true /\ is_ascii c = true.
Proof. destruct c as [[] [] [] [] [] [] [] []]; by vm_compute. Qed.

Lemma alphanumeric_not_dot c : alphanumeric c = true -> (c <> ".")%char.
Proof. intros H ->. by vm_compute in H. Qed.

Lemma artifact_name_chars name : artifact_name name -> all_chars artifact_char name = true.
Proof.
  destruct name as [|c r]; [done|]. intros (Hc & Hr & _). cbn. rewrite Hr. unfold artifact_char. by rewrite Hc.
Qed.

Lemma artifact_name_ascii name : artifact_name name -> all_chars is_ascii name = true.
Proof.
  intros H%artifact_name_chars. apply (all_chars_impl artifact_char); [|done].
  intros c Hc. by apply artifact_char_facts.
Qed.

Lemma artifact_name_len name : artifact_name name -> len name <= 128.
Proof. destruct name as [|c r]; [done|]. by intros (_ & _ & ?). Qed.

Lemma artifact_name_plain name : artifact_name name -> plain name = true.
Proof.
  intros H. unfold plain. assert (no_slash name = true) as ->.
  { apply (all_chars_impl artifact_char); [|by apply artifact_name_chars]. intros c Hc. by apply artifact_char_facts. }
  destruct name as [|c r]; [done|]. destruct H as (Hc & _). apply alphanumeric_not_dot in Hc.
  rewrite (proj2 (String.eqb_neq _ "")), (proj2 (String.eqb_neq _ ".")), (proj2 (String.eqb_neq _ "..")); [done|..];
    congruence.
Qed.

Lemma safe_artifact_name path name : safeHAWaveArtifact path = name -> name <> "" -> artifact_name name.
Proof.
  unfold safeHAWaveArtifact. cbn zeta. destruct (_ == ""); [by intros <-|].
  destruct (_ || _) eqn:E; [by intros <-|]. apply orb_false_iff in E as [_ E]. apply Nat.ltb_ge in E.
  destruct (path_Base _) as [|c rest]; [by intros <-|]. destruct (_ && _) eqn:Ec; [|by intros <-].
  apply andb_true_iff in Ec as [H1 H2]. intros <- _. split_and!; done.
Qed.

(** A name is its own name. *)
Lemma artifact_name_safe name : artifact_name name -> safeHAWaveArtifact name = name.
Proof.
  intros H. unfold safeHAWaveArtifact. cbn zeta. rewrite TrimSpace_visible.
  2:{ apply (all_chars_impl artifact_char); [|by apply artifact_name_chars]. intros c Hc. by apply artifact_char_facts. }
  pose proof (artifact_name_plain _ H) as Hp.
  assert (path_Clean name = name) as ->.
  { apply clean_below_iff. right. exists [name]. split_and!; [done|done|]. by constructor. }
  assert (name <> "" /\ name <> "." /\ no_slash name = true) as (H1 & H2 & H3).
  { unfold plain in Hp. go_simp. done. }
  unfold path_Base. rewrite (proj2 (String.eqb_neq _ _) H1), split_slash_element by done.
  cbn [List.filter]. rewrite (proj2 (String.eqb_neq name "") H1). cbn [negb rev app].
  assert (name <> "/") as H4 by (intros ->; discriminate H3).
  rewrite (proj2 (String.eqb_neq _ _) H2), (proj2 (String.eqb_neq _ _) H4).
  rewrite (proj2 (Nat.ltb_ge _ _) (artifact_name_len _ H)). cbn [orb].
  destruct name as [|c rest]; [done|]. destruct H as (-> & Hr & _). unfold artifact_char in Hr. by rewrite Hr.
Qed.

Lemma safe_artifact_again path : safeHAWaveArtifact path <> "" ->
  safeHAWaveArtifact (safeHAWaveArtifact path) = safeHAWaveArtifact path.
Proof. intros H. by apply artifact_name_safe, (safe_artifact_name path). Qed.

(** * Kubeadm waves: plans and verifications that are written

    A plan or a verification of short UTF-8 texts is read back from its text. *)

#[local] Open Scope Z_scope.
#[local] Opaque sha256_hex.

(** ** Short texts *)

Definition text (s : string) : Prop := utf8 s /\ (len s <= 300)%nat.

Lemma ascii_text s : all_chars is_ascii s = true -> (len s <=? 300)%nat = true -> text s.
Proof. intros H1 H2. split; [by apply all_ascii_utf8|by apply Nat.leb_le]. Qed.

Lemma sha_text s : validHAWaveSHA256 s = true -> text s.
Proof.
  unfold validHAWaveSHA256, hex_of_length. intros [H1 H2]%andb_true_iff. apply Nat.eqb_eq in H2.
  split; [by apply hex_utf8|lia].
Qed.

Lemma time_text s t : parseHAWaveTime s = Some t -> text s.
Proof.
  intros H. split; [by apply (canonical_utf8 s t)|]. apply canonical_Some in H. subst s.
  pose proof (len_Format t). lia.
Qed.

Lemma installation_text s : validDNS1123Subdomain s = true -> text s.
Proof.
  unfold validDNS1123Subdomain. destruct (_ || _) eqn:E; [done|]. intros _.
  rewrite !orb_false_iff, !negb_false_iff in E. destruct E as ((((E & H) & _) & _) & _). apply Nat.ltb_ge in E.
  split; [|lia]. apply all_ascii_utf8. unfold dns1123SubdomainPattern, match_first_last in H.
  destruct s as [|c s]; [done|]. rewrite !andb_true_iff in H. destruct H as (((H1 & H2) & _) & _).
  cbn [all_chars]. rewrite (lower_digit_ascii _ H1). cbn [andb]. eapply all_chars_impl; [|exact H2].
  intros d [Hd|Hd]%orb_true_iff; [by apply lower_digit_ascii|by apply (one_of_ascii "-.")].
Qed.

Lemma artifact_text s : artifact_name s -> text s.
Proof.
  intros H. split; [by apply all_ascii_utf8, artifact_name_ascii|]. apply artifact_name_len in H. lia.
Qed.

Lemma text_size s : text s -> (len (json_Marshal s) <= 1802)%nat.
Proof.
  intros [_ H]. change (json_Marshal s) with (print_string s). pose proof (len_print_string s). lia.
Qed.

Lemma texts_wire (ss : list string) : Forall text ss -> Forall wire ss.
Proof. intros H. eapply Forall_impl; [exact H|]. by intros s [Hs _]. Qed.

Lemma texts_size (ss : list string) : Forall text ss -> Forall (fun s => (len (json_Marshal s) <= 1802)%nat) ss.
Proof. intros H. eapply Forall_impl; [exact H|]. apply text_size. Qed.

(** ** Checks and counts *)

(** A bound on the length of a check *)
#[local] Abbreviation check_size := (2 + 5 * 1844)%nat.

Definition written_check (c : HAWaveCheck) : Prop :=
  text (ck_ID c) /\ text (ck_Status c) /\ text (ck_Artifact c) /\ text (ck_SHA256 c) /\ text (ck_Detail c).

Lemma text_field k s : short_name k -> text s -> (field_size (field k s) <= 1844)%nat.
Proof. intros Hk [_ H]. exact (size_string k s 300 Hk H). Qed.

Lemma text_omitempty k s : short_name k -> text s -> (field_size (field_omitempty k s) <= 1844)%nat.
Proof. intros Hk [_ H]. exact (size_omitempty k s 300 Hk H). Qed.

Lemma checks_field k (cs : list HAWaveCheck) : short_name k -> (length cs <= 8)%nat ->
  Forall (fun c => (len (json_Marshal c) <= check_size)%nat) cs ->
  (field_size (slice_array k cs) <= 44 + 8 * S check_size)%nat.
Proof. apply size_array. Qed.

Lemma counts_field k (c : HAWaveCounts) : short_name k -> (len (json_Marshal c) <= 200)%nat ->
  (field_size (field k c) <= 42 + 200)%nat.
Proof. apply size_field. Qed.

Ltac size_atom t := let x := fresh "size" in let E := fresh in remember t as x eqn:E; clear E.

Ltac size_step H :=
  match type of H with
  | context [field_size (field ?k ?s)] =>
      first [pose proof (text_field k s eq_refl ltac:(assumption))
            |pose proof (size_int k s eq_refl)
            |pose proof (size_field k s 5 eq_refl (len_bool s))
            |pose proof (counts_field k s eq_refl ltac:(assumption))
            |pose proof (size_field k s (4 + 8 * S 1802) eq_refl
               (len_slice 8 1802 s ltac:(assumption) ltac:(apply texts_size; assumption)))];
      size_atom (field_size (field k s))
  | context [field_size (field_omitempty ?k ?s)] =>
      pose proof (text_omitempty k s eq_refl ltac:(assumption));
      size_atom (field_size (field_omitempty k s))
  | context [field_size (slice_array ?k ?s)] =>
      first [pose proof (size_array 8 1802 k s eq_refl ltac:(assumption) ltac:(apply texts_size; assumption))
            |pose proof (checks_field k s eq_refl ltac:(assumption) ltac:(assumption))];
      size_atom (field_size (slice_array k s))
  | context [field_size (slice_omitempty ?k ?s)] =>
      pose proof (size_slice 8 1802 k s eq_refl ltac:(assumption) ltac:(apply texts_size; assumption));
      size_atom (field_size (slice_omitempty k s))
  end.

Lemma check_written c : written_check c -> wire c /\ (len (json_Marshal c) <= check_size)%nat.
Proof.
  intros (H1 & H2 & H3 & H4 & H5). split.
  - split_and!; by (apply H1 || apply H2 || apply H3 || apply H4 || apply H5).
  - unfold json_Marshal. change (marshal c) with (JStruct (HAWaveCheck_fields c)).
    pose proof (len_struct (HAWaveCheck_fields c)) as H. unfold HAWaveCheck_fields in H at 2.
    cbn [List.map] in H. rewrite !sum_cons in H. change (sum []) with 0%nat in H. repeat size_step H. lia.
Qed.

Lemma checks_written cs : Forall written_check cs ->
  Forall wire cs /\ Forall (fun c => (len (json_Marshal c) <= check_size)%nat) cs.
Proof. intros H. split; (eapply Forall_impl; [exact H|]; intros c Hc; by apply check_written). Qed.

Lemma counts_written n : 0 <= n <= 4 ->
  wire (haWaveCounts n) /\ (len (json_Marshal (haWaveCounts n)) <= 200)%nat.
Proof.
  intros Hn. assert (n = 0 \/ n = 1 \/ n = 2 \/ n = 3 \/ n = 4) as Hc by lia.
  split; [by repeat split; cbn; unfold is_int64, min_int64, max_int64; lia|].
  apply Nat.leb_le. destruct Hc as [->|[->|[->|[->| ->]]]]; reflexivity.
Qed.

(** ** Plans and verifications *)

Definition written_texts (ss : list string) : Prop := Forall text ss /\ (length ss <= 8)%nat.

Definition written_checks (cs : list HAWaveCheck) : Prop := Forall written_check cs /\ (length cs <= 8)%nat.

Definition written_plan (p : HAWavePlan) : Prop :=
  Forall text [pl_SchemaVersion p; pl_GeneratedAt p; pl_Status p; pl_Phase p; pl_InstallationID p;
    pl_PreflightInventoryReceiptSHA256 p; pl_PreflightCapturedAt p; pl_NodeUIDHashAlgorithm p;
    pl_StartingMemberSetSHA256 p; pl_BackupGeneratedAt p; pl_NonClaim p] /\
  Forall written_texts [pl_StartingMemberUIDSHA256 p; pl_Blockers p; pl_Steps p; pl_Rollback p] /\
  written_checks (pl_Checks p) /\
  Forall (fun c => exists n, c = haWaveCounts n /\ 0 <= n <= 4) [pl_From p; pl_Target p].

Definition written_report (r : HAWaveVerification) : Prop :=
  Forall text [vr_SchemaVersion r; vr_GeneratedAt r; vr_CompletedAt r; vr_Status r; vr_Phase r;
    vr_InstallationID r; vr_PlanSHA256 r; vr_InventoryReceiptSHA256 r; vr_OneServerLossReceiptSHA256 r;
    vr_PreflightInventoryReceiptSHA256 r; vr_NodeUIDHashAlgorithm r; vr_StartingMemberSetSHA256 r;
    vr_FinalMemberSetSHA256 r; vr_IntroducedMemberUIDSHA256 r; vr_NonClaim r] /\
  Forall written_texts [vr_StartingMemberUIDSHA256 r; vr_FinalMemberUIDSHA256 r; vr_Blockers r] /\
  written_checks (vr_Checks r) /\
  Forall (fun c => exists n, c = haWaveCounts n /\ 0 <= n <= 4) [vr_Observed r].

Ltac texts_apart := repeat match goal with
  | H : Forall _ (_ :: _) |- _ =>
      let H1 := fresh in let H2 := fresh in destruct (proj1 (Forall_cons _ _ _) H) as [H1 H2]; clear H
  | H : written_texts _ |- _ => destruct H
  | H : written_checks _ |- _ =>
      let H1 := fresh in let H2 := fresh in destruct H as [H1 H2]; apply checks_written in H1 as [? ?]
  | H : exists n, _ = haWaveCounts n /\ _ |- _ =>
      let H1 := fresh in let H2 := fresh in
      destruct H as (? & H1 & H2); apply counts_written in H2 as [? ?]; rewrite <- H1 in *; clear H1
  end.

Ltac texts_wire := first [assumption | apply texts_wire; assumption | match goal with H : text ?s |- utf8 ?s => apply H end].

Lemma plan_written p : written_plan p -> wire p /\ fits p.
Proof.
  intros (H1 & H2 & H3 & H4). texts_apart. split.
  - split_and!; texts_wire.
  - unfold fits, json_Marshal, MaxDocumentBytes. change (marshal p) with (JStruct (HAWavePlan_fields p)).
    pose proof (len_struct (HAWavePlan_fields p)) as Hsize. unfold HAWavePlan_fields in Hsize at 2.
    cbn [List.map] in Hsize. rewrite !sum_cons in Hsize. change (sum []) with 0%nat in Hsize.
    repeat size_step Hsize. lia.
Qed.

Lemma report_written r : written_report r -> wire r /\ fits r.
Proof.
  intros (H1 & H2 & H3 & H4). texts_apart. split.
  - split_and!; texts_wire.
  - unfold fits, json_Marshal, MaxDocumentBytes. change (marshal r) with (JStruct (HAWaveVerification_fields r)).
    pose proof (len_struct (HAWaveVerification_fields r)) as Hsize. unfold HAWaveVerification_fields in Hsize at 2.
    cbn [List.map] in Hsize. rewrite !sum_cons in Hsize. change (sum []) with 0%nat in Hsize.
    repeat size_step Hsize. lia.
Qed.

(** ** Reading back *)

Lemma written_is_read {A} `{J : JsonLaws A} (files : string -> option string) (path : string) (a : A) :
  (json_depth <= maxDepth)%nat -> wire a -> fits a ->
  blank path = false -> files (path_Clean path) = Some (json_Marshal a) ->
  readHAWaveJSON files path = Ok (a, sha256_hex (json_Marshal a)).
Proof.
  intros Hd Hw Hf Hp Hc. pose proof (DecodeExact_Marshal Hd a Hw Hf) as Hx.
  assert (Validate (json_Marshal a) = None) as Hv.
  { revert Hx. unfold DecodeExact, decode_into. by destruct (Validate _). }
  unfold readHAWaveJSON. rewrite Hp, Hc. unfold Read, fits in *.
  by rewrite (proj2 (Z.ltb_ge _ _) Hf), Hv, Hx.
Qed.
