(* ===== verification/HaBack.v ===== *)
(** * Kubeadm waves: ready artifacts are read back

    The plan that [BuildHAWavePlan] calls ready, and the report that
    [VerifyHAWave] calls ready, keep the contracts of [HaWave] and are read
    back from their JSON texts. *)

From stdpp Require Import gmap strings list.
From Stdlib Require Import ZArith Ascii Lia.
From S2P Require Import Prelude GoString GoTime GoSort GoDate GoPath GoSha256 GoJson GoJsonCorrect StrictJson StrictJsonCorrect GoRfc3339 JsonStructs OslTypes OslValidate OslSeal HaTypes HaWave HaMembers HaBuild HaReady HaVerified HaCodec.

#[local] Open Scope Z_scope.
#[local] Opaque sha256_hex.

(** * Kubeadm waves: the contracts of ready artifacts

    [validateReadyHAWavePlan] and [validateReadyHAWaveVerification] as lists of
    facts. *)

Lemma haWavePhase_Some c n phase : haWavePhase c = Some (n, phase) <->
  c = haWaveCounts n /\ (n = 1 \/ n = 2) /\ phase = wave_name n.
Proof.
  split.
  - unfold haWavePhase. destruct (_ || _) eqn:E; [done|]. go_simp.
    destruct (_ =? 1) eqn:E1; [|destruct (_ =? 2) eqn:E2; [|done]]; go_simp; intros [= <- <-];
      (split; [destruct c; cbn in *; unfold haWaveCounts; congruence|]); split; auto.
  - by intros (-> & [->| ->] & ->).
Qed.

Record ready_plan (p : HAWavePlan) (n : Z) (preflight generated backup : Time) : Prop := {
  rp_size : n = 1 \/ n = 2;
  rp_counts : pl_From p = haWaveCounts n /\ pl_Target p = haWaveCounts (n + 1);
  rp_phase : pl_Phase p = wave_name n;
  rp_times : parseHAWaveTime (pl_PreflightCapturedAt p) = Some preflight /\
    parseHAWaveTime (pl_GeneratedAt p) = Some generated /\
    parseHAWaveTime (pl_BackupGeneratedAt p) = Some backup;
  rp_order : preflight <= generated /\ (n = 2 -> backup < preflight);
  rp_header : pl_SchemaVersion p = HAWaveSchemaVersion /\ pl_Status p = "ready" /\
    pl_NonClaim p = haWavePlanNonClaim /\ pl_Steps p = haWaveSteps /\ pl_Rollback p = haWaveRollback /\
    pl_Blockers p = [] /\ pl_MutationAllowed p = false;
  rp_installation : validDNS1123Subdomain (pl_InstallationID p) = true;
  rp_members : member_list (pl_StartingMemberUIDSHA256 p) /\
    Z.of_nat (length (pl_StartingMemberUIDSHA256 p)) = n;
  rp_set : validHAWaveSHA256 (pl_StartingMemberSetSHA256 p) = true /\
    pl_StartingMemberSetSHA256 p = HAWaveMemberSetSHA256 (pl_StartingMemberUIDSHA256 p);
  rp_digests : pl_NodeUIDHashAlgorithm p = NodeUIDHashAlgorithm /\
    validHAWaveSHA256 (pl_PreflightInventoryReceiptSHA256 p) = true;
  rp_checks : hasExactHAWavePlanChecks (pl_Checks p) (n =? 2) = true
}.

Lemma wave_name_two n : n = 1 \/ n = 2 -> (wave_name n == HAWavePhaseTwoToThree) = (n =? 2).
Proof. by intros [->| ->]. Qed.

Lemma plan_contract_iff p : plan_contract p = true <-> exists n t g b, ready_plan p n t g b.
Proof.
  unfold plan_contract. split.
  - destruct (haWavePhase (pl_From p)) as [[n phase]|] eqn:Ep; [|done].
    destruct (parseHAWaveTime (pl_PreflightCapturedAt p)) as [t|] eqn:E1; [|done].
    destruct (parseHAWaveTime (pl_GeneratedAt p)) as [g|] eqn:E2; [|done].
    destruct (parseHAWaveTime (pl_BackupGeneratedAt p)) as [b|] eqn:E3; [|done].
    apply haWavePhase_Some in Ep as (Hf & Hn & ->). rewrite wave_name_two by done. intros H.
    rewrite !andb_true_iff, !negb_true_iff, !String.eqb_eq, !bool_decide_eq_true, counts_eqb_eq,
      canonical_iff, Z.eqb_eq, Nat.eqb_eq in H.
    unfold After in H. exists n, t, g, b. destruct_and? H. go_simp. constructor; try exact Hn; try done; try by split_and!.
    + split; [done|]. intros Hn2.
      match goal with H : _ && negb (b <? t) = false |- _ => rewrite Hn2 in H; cbn in H; go_simp; lia end.
    + split_and!; try done. by apply nil_length_inv.
  - intros (n & t & g & b & [Hn (Hf & Ht) Hp (H1 & H2 & H3) (Ho & Hb) (A1 & A2 & A3 & A4 & A5 & A6 & A7) Hi
      (Hm & Hl) (Hv & Hs) (Hg & Hr) Hc]).
    rewrite Hf. assert (haWavePhase (haWaveCounts n) = Some (n, wave_name n)) as -> by by apply haWavePhase_Some.
    rewrite H1, H2, H3, wave_name_two, Hc by done.
    rewrite !andb_true_iff, !negb_true_iff, !String.eqb_eq, !bool_decide_eq_true, counts_eqb_eq,
      canonical_iff, Z.eqb_eq, Nat.eqb_eq. unfold After.
    assert ((n =? 2) && negb (b <? t) = false) as ->.
    { destruct (n =? 2) eqn:E; [|done]. apply Z.eqb_eq in E. by rewrite (proj2 (Z.ltb_lt _ _) (Hb E)). }
    rewrite A6. unfold canonicalHAWaveTime. rewrite H2, H3. split_and!; try done. by apply Z.ltb_ge.
Qed.

(** ** Verifications *)

Record ready_report (r : HAWaveVerification) (n : Z) : Prop := {
  rr_size : n = 1 \/ n = 2;
  rr_phase : vr_Phase r = wave_name n;
  rr_observed : vr_Observed r = haWaveCounts (n + 1);
  rr_members : validateHAWaveMemberTransition (vr_StartingMemberUIDSHA256 r) (vr_FinalMemberUIDSHA256 r)
      = Ok (vr_IntroducedMemberUIDSHA256 r) /\ Z.of_nat (length (vr_FinalMemberUIDSHA256 r)) = n + 1;
  rr_sets : vr_StartingMemberSetSHA256 r = HAWaveMemberSetSHA256 (vr_StartingMemberUIDSHA256 r) /\
    vr_FinalMemberSetSHA256 r = HAWaveMemberSetSHA256 (vr_FinalMemberUIDSHA256 r);
  rr_header : vr_SchemaVersion r = HAWaveSchemaVersion /\ vr_Status r = "ready" /\
    vr_NonClaim r = haWaveVerifyNonClaim /\ vr_Blockers r = [] /\ vr_MutationAttempted r = false /\
    vr_NodeUIDHashAlgorithm r = NodeUIDHashAlgorithm;
  rr_verified : vr_FreshBackupVerified r = true /\ vr_PreviousWaveVerified r = true /\
    vr_FinalOneServerLossVerified r = (n =? 2);
  rr_installation : validDNS1123Subdomain (vr_InstallationID r) = true;
  rr_digests : Forall (fun sha => validHAWaveSHA256 sha = true)
    [vr_PlanSHA256 r; vr_PreflightInventoryReceiptSHA256 r; vr_InventoryReceiptSHA256 r];
  rr_loss : if n =? 2 then validHAWaveSHA256 (vr_OneServerLossReceiptSHA256 r) = true
            else vr_OneServerLossReceiptSHA256 r = "";
  rr_times : canonicalHAWaveTime (vr_GeneratedAt r) = true /\ vr_GeneratedAt r = vr_CompletedAt r;
  rr_checks : hasExactHAWaveVerificationChecks (vr_Checks r) (n =? 2) = true
}.

Lemma wave_target_name n : n = 1 \/ n = 2 -> wave_target (wave_name n) = Some (n + 1, n =? 2).
Proof. by intros [->| ->]. Qed.

Lemma wave_target_Some phase want final : wave_target phase = Some (want, final) ->
  exists n, (n = 1 \/ n = 2) /\ phase = wave_name n /\ want = n + 1 /\ final = (n =? 2).
Proof.
  unfold wave_target.
  destruct (phase == HAWavePhaseOneToTwo) eqn:E1; [|destruct (phase == HAWavePhaseTwoToThree) eqn:E2; [|done]]; go_simp; intros [= <- <-].
  - exists 1. split; [by left|done].
  - exists 2. split; [by right|done].
Qed.

Lemma ready_report_ok r n : ready_report r n -> validateReadyHAWaveVerification r = None.
Proof.
  intros [Hn Hp Ho (Ht & Hl) (H1 & H2) (A1 & A2 & A3 & A4 & A5 & A6) (B1 & B2 & B3) Hi Hd Hs (C1 & C2) Hc].
  apply Forall_cons in Hd as [D1 Hd]. apply Forall_cons in Hd as [D2 Hd]. apply Forall_cons in Hd as [D3 _].
  unfold validateReadyHAWaveVerification. rewrite Hp, wave_target_name by done. unfold report_contract.
  rewrite Ht, A1, A2, A3, A4, A5, A6, B1, B2, B3, Hi, Ho, Hl, H1, H2, <- C2, C1, Hc, D1, D2, D3, Z.eqb_refl,
    !String.eqb_refl, eqb_reflx.
  rewrite (proj2 (counts_eqb_eq _ _) eq_refl). cbn [andb negb length Nat.eqb].
  assert ((if n =? 2 then validHAWaveSHA256 (vr_OneServerLossReceiptSHA256 r)
           else vr_OneServerLossReceiptSHA256 r == "") = true) as ->; [|done].
  destruct (n =? 2); [done|]. by apply String.eqb_eq.
Qed.

Lemma ready_report_holds r : validateReadyHAWaveVerification r = None -> exists n, ready_report r n.
Proof.
  unfold validateReadyHAWaveVerification.
  destruct (wave_target (vr_Phase r)) as [[want final]|] eqn:Et; [|done].
  apply wave_target_Some in Et as (n & Hn & Hp & -> & ->). unfold report_contract.
  destruct (validateHAWaveMemberTransition _ _) as [introduced|] eqn:Em; [|done].
  match goal with |- (if ?b then _ else _) = _ -> _ => destruct b eqn:H; [|done] end. intros _.
  rewrite !andb_true_iff, !negb_true_iff, !String.eqb_eq, counts_eqb_eq, Z.eqb_eq, Nat.eqb_eq, eqb_true_iff in H.
  exists n. destruct_and? H. subst introduced. constructor; try done; try by split_and!.
  - split_and!; try done. by apply nil_length_inv.
  - by repeat constructor.
  - destruct (n =? 2); [done|]. by apply String.eqb_eq.
Qed.

(** * Kubeadm waves: ready artifacts are read back *)

(** ** Checks *)

Definition is_topology (id : string) : bool :=
  (id == "current_topology") || (id == "member_identity_transition") || (id == "target_topology").

Lemma named_check id detail artifact sha : is_topology id = false -> blank detail = false ->
  artifact_name artifact -> validHAWaveSHA256 sha = true ->
  ordered_check (passed id detail artifact sha) id = true.
Proof.
  unfold is_topology, ordered_check. intros Hi Hd Ha Hs. cbn [passed ck_ID ck_Status ck_Detail ck_Artifact ck_SHA256].
  rewrite Hi, Hd, (artifact_name_safe _ Ha), Hs, !String.eqb_refl. by destruct artifact.
Qed.

Lemma unnamed_check id detail : is_topology id = true -> blank detail = false ->
  ordered_check (passed id detail "" "") id = true.
Proof.
  unfold is_topology, ordered_check. intros Hi Hd. cbn [passed ck_ID ck_Status ck_Detail ck_Artifact ck_SHA256].
  by rewrite Hi, Hd, !String.eqb_refl.
Qed.

Lemma ordered_check_inv check id : ordered_check check id = true -> is_topology id = false ->
  ck_ID check = id /\ ck_Status check = "pass" /\ artifact_name (ck_Artifact check) /\
  validHAWaveSHA256 (ck_SHA256 check) = true.
Proof.
  unfold is_topology, ordered_check. intros H Hi. rewrite Hi in H. go_simp. split_and!; try done.
  by eapply safe_artifact_name.
Qed.

Lemma written_passed id detail artifact sha : text id -> text detail -> text artifact -> text sha ->
  written_check (passed id detail artifact sha).
Proof. intros H1 H2 H3 H4. split_and!; try done. by apply ascii_text. Qed.

Lemma empty_text : text "".
Proof. by apply ascii_text. Qed.

Lemma named_text path : named path -> text (safeHAWaveArtifact path).
Proof. intros H. by apply artifact_text, (safe_artifact_name path). Qed.

Lemma named_artifact path : named path -> artifact_name (safeHAWaveArtifact path).
Proof. intros H. by apply (safe_artifact_name path). Qed.

Lemma formatted_time t : t <> 0 -> four_digit_year t -> parseHAWaveTime (formatHAWaveTime t) = Some t.
Proof.
  intros Hn Hy. unfold parseHAWaveTime, formatHAWaveTime, IsZero. rewrite (proj2 (Z.eqb_neq _ _) Hn).
  by apply canonical_Format.
Qed.

Lemma fresh_nonzero t now : freshHAWaveTime t now = true -> t <> 0.
Proof. unfold freshHAWaveTime, IsZero. destruct (t =? 0) eqn:E; [done|]. by apply Z.eqb_neq in E. Qed.

Lemma member_texts uids : member_list uids -> written_texts uids.
Proof.
  intros (Hl & Hv & _). split; [|lia]. eapply Forall_impl; [exact Hv|]. intros uid. apply sha_text.
Qed.

Lemma member_set_valid uids : member_list uids -> validHAWaveSHA256 (HAWaveMemberSetSHA256 uids) = true.
Proof. intros H. rewrite (member_set_digest _ H). apply validSHA256_digest. Qed.

Ltac ascii_texts := by apply ascii_text.

Lemma ordered_in checks ids check : hasOrderedHAWaveChecks checks ids = true -> check ∈ checks ->
  exists id, ordered_check check id = true.
Proof.
  revert ids. induction checks as [|c checks IH]; intros [|id ids]; try done; [by intros _ ?%elem_of_nil|].
  cbn [hasOrderedHAWaveChecks]. intros [H1 H2]%andb_true_iff [->|Hin]%elem_of_cons; [by exists id|by apply (IH ids)].
Qed.

Lemma ordered_has checks ids id : hasOrderedHAWaveChecks checks ids = true -> id ∈ ids ->
  exists check, check ∈ checks /\ ordered_check check id = true.
Proof.
  revert ids. induction checks as [|c checks IH]; intros [|i ids]; try done; [by intros _ ?%elem_of_nil|].
  cbn [hasOrderedHAWaveChecks]. intros [H1 H2]%andb_true_iff [->|Hin]%elem_of_cons.
  - exists c. split; [by left|done].
  - destruct (IH ids H2 Hin) as (check & Hc & Ho). exists check. split; [by right|done].
Qed.

(** ** What is read *)

Lemma read_sha {A} `{Unmarshal A} files path (a : A) sha : readHAWaveJSON files path = Ok (a, sha) ->
  validHAWaveSHA256 sha = true.
Proof.
  unfold readHAWaveJSON. destruct (blank _); [done|]. destruct (files _); [|done].
  destruct (Read _); [|done]. destruct (DecodeExact _); [|done]. intros [= _ <-].
  unfold validHAWaveSHA256, hex_of_length. by rewrite sha256_hex_hex, sha256_hex_len.
Qed.

Lemma read_plan_ready files path plan sha : ReadHAWavePlan files path = Ok (plan, sha) ->
  validHAWaveSHA256 sha = true /\ exists n t g b, ready_plan plan n t g b.
Proof.
  unfold ReadHAWavePlan. destruct (readHAWaveJSON _ _) as [[p s]|] eqn:E; [|done]. apply read_sha in E.
  unfold validateReadyHAWavePlan. destruct (plan_contract p) eqn:Ec; [|done]. intros [= <- <-].
  split; [done|]. by apply plan_contract_iff.
Qed.

Lemma read_verification_ready files path report sha : ReadHAWaveVerification files path = Ok (report, sha) ->
  validHAWaveSHA256 sha = true /\ exists n, ready_report report n.
Proof.
  unfold ReadHAWaveVerification. destruct (readHAWaveJSON _ _) as [[r s]|] eqn:E; [|done]. apply read_sha in E.
  destruct (is_nil _) eqn:Ec; [|done]. apply is_nil_true, ready_report_holds in Ec. by intros [= <- <-].
Qed.

(** ** Plans *)

Section Plans.
Context (files : string -> option string) (system_time : Time) (opts : HAWavePlanOptions).
Context (preflight : HAWaveInventoryReceipt) (sha : string) (t backupAt : Time) (backupSHA : string).
Context (checks : list HAWaveCheck).

#[local] Abbreviation now := (haWaveNow system_time (po_Now opts)).
#[local] Abbreviation plan := (plan_of system_time opts preflight sha backupAt backupSHA checks).

Context (Hw : wave_possible files system_time opts preflight sha t backupAt backupSHA checks).
Context (Hnow : four_digit_year now) (Hbackup : four_digit_year backupAt).

Lemma planned_checks :
  hasExactHAWavePlanChecks (pl_Checks plan) (Z.of_nat (length (ir_Members preflight)) =? 2) = true /\
  written_checks (pl_Checks plan).
Proof.
  destruct Hw as [_ _ (Ha & _ & _ & _ & _ & Hs & _) _ (Hb & _ & _ & Hbs) Hp].
  pose proof (named_artifact _ Ha). pose proof (named_artifact _ Hb).
  cbn [plan_of pl_Checks]. unfold previous_found in Hp. destruct (length (ir_Members preflight)) as [|[|[|k]]] eqn:En; [done|..|done].
  - destruct Hp as [_ ->]. rewrite app_nil_r. split.
    + change (Z.of_nat 1 =? 2) with false. unfold hasExactHAWavePlanChecks. cbn [app hasOrderedHAWaveChecks].
      by rewrite named_check, unnamed_check, named_check.
    + split; [|cbn; lia]. repeat apply Forall_cons_2; [..|constructor]; apply written_passed;
        first [by apply sha_text | by apply named_text | ascii_texts].
  - destruct Hp as (previous & psha & (Hpn & Hr & _) & ->).
    assert (validHAWaveSHA256 psha = true) as Hps.
    { by apply read_verification_ready in Hr as [? _]. }
    pose proof (named_artifact _ Hpn). split.
    + change (Z.of_nat 2 =? 2) with true. unfold hasExactHAWavePlanChecks. cbn [app hasOrderedHAWaveChecks].
      by rewrite named_check, unnamed_check, named_check, named_check.
    + split; [|cbn; lia]. repeat apply Forall_cons_2; [..|constructor]; apply written_passed;
        first [by apply sha_text | by apply named_text | ascii_texts].
Qed.

Lemma wave_length : length (ir_Members preflight) = 1%nat \/ length (ir_Members preflight) = 2%nat.
Proof. destruct Hw as [_ _ _ _ _ Hp]. exact (previous_length files opts _ _ _ _ Hp). Qed.

Lemma planned_ready :
  ready_plan plan (Z.of_nat (length (ir_Members preflight))) t now backupAt /\ written_plan plan.
Proof.
  pose proof wave_length as Hl. destruct planned_checks as [Hc Hwc].
  destruct Hw as [Hn Hi (_ & _ & Hv & Ht & Ho & _ & He) _ (_ & _ & Hf & _) Hp].
  pose proof (fresh_nonzero _ _ Hf) as Hbn. destruct Hv as [_ _ _ _ Halg Hdig _ Hm _ _].
  assert (validHAWaveSHA256 (ir_ReceiptSHA256 preflight) = true) as Hds.
  { rewrite Hdig. exact (validSHA256_digest _). }
  pose proof (member_set_valid _ Hm) as Hset. split.
  - constructor; cbn [plan_of pl_From pl_Target pl_Phase pl_PreflightCapturedAt pl_GeneratedAt
      pl_BackupGeneratedAt pl_InstallationID pl_StartingMemberUIDSHA256 pl_StartingMemberSetSHA256
      pl_NodeUIDHashAlgorithm pl_PreflightInventoryReceiptSHA256]; try done.
    + lia.
    + split_and!; [done|by apply formatted_time..].
    + split; [done|]. intros Hn2. unfold previous_found in Hp.
      replace (length (ir_Members preflight)) with 2%nat in Hp by lia.
      destruct Hp as (? & ? & (_ & _ & _ & _ & _ & _ & _ & completedAt & _ & _ & Hb) & _). exact Hb.
    + split; [done|]. by rewrite map_length_members.
  - assert (Forall text [HAWaveSchemaVersion; "ready"; haWavePlanNonClaim; NodeUIDHashAlgorithm;
      wave_name (Z.of_nat (length (ir_Members preflight)))]) as Hlit.
    { destruct Hl as [-> | ->]; repeat constructor; ascii_texts. }
    repeat (apply Forall_cons in Hlit as [? Hlit]). split_and!.
    + cbn [plan_of pl_SchemaVersion pl_GeneratedAt pl_Status pl_Phase pl_InstallationID
        pl_PreflightInventoryReceiptSHA256 pl_PreflightCapturedAt pl_NodeUIDHashAlgorithm
        pl_StartingMemberSetSHA256 pl_BackupGeneratedAt pl_NonClaim]. rewrite Halg.
      repeat apply Forall_cons_2; try done; try (by apply sha_text); try (by apply installation_text);
        try (eapply time_text; first [eassumption|by apply formatted_time]).
    + cbn [plan_of pl_StartingMemberUIDSHA256 pl_Blockers pl_Steps pl_Rollback].
      repeat apply Forall_cons_2; [by apply member_texts|by split; [constructor|cbn; lia]|..|done];
        (split; [repeat apply Forall_cons_2; try done; ascii_texts|cbn; lia]).
    + done.
    + cbn [plan_of pl_From pl_Target]. repeat apply Forall_cons_2; [..|done]; eexists; (split; [done|lia]).
Qed.

Lemma planned_is_read (store : string -> option string) (path : string) :
  blank path = false -> store (path_Clean path) = Some (json_Marshal plan) ->
  ReadHAWavePlan store path = Ok (plan, sha256_hex (json_Marshal plan)).
Proof.
  intros Hp Hs. destruct planned_ready as [Hr [Hwire Hfits]%plan_written].
  unfold ReadHAWavePlan. rewrite (written_is_read store path plan) by (done || unfold maxDepth; cbn; lia).
  unfold validateReadyHAWavePlan. assert (plan_contract plan = true) as ->; [|done]. apply plan_contract_iff. eauto.
Qed.
End Plans.

(** ** Verifications *)

Section Reports.
Context (files : string -> option string) (system_time : Time) (opts : HAWaveVerifyOptions).
Context (plan : HAWavePlan) (planSHA : string) (check : HAWaveCheck).
Context (inventory : HAWaveInventoryReceipt) (inventorySHA introduced : string).
Context (loss : option (Receipt * string)) (planned backup : Time).

#[local] Abbreviation now := (haWaveNow system_time (vo_Now opts)).
#[local] Abbreviation report := (report_of system_time opts plan planSHA check inventory inventorySHA introduced loss).

Context (Hw : wave_done files system_time opts plan planSHA check inventory inventorySHA introduced loss planned backup).

Lemma reopened_check : artifact_name (ck_Artifact check) /\ validHAWaveSHA256 (ck_SHA256 check) = true.
Proof.
  destruct Hw as [_ (_ & Hr & _) (Hf & _) _ _ _ _]. apply read_plan_ready in Hr as [_ (n & t & g & b & Hr)].
  unfold findHAWaveCheck in Hf. apply find_some in Hf as [Hin Hid]. apply String.eqb_eq in Hid.
  destruct (ordered_in _ _ check (rp_checks _ _ _ _ _ Hr)) as [id Ho]; [by apply list_elem_of_In|].
  assert (id = "fresh_backup") as ->.
  { unfold ordered_check in Ho. go_simp. congruence. }
  by apply ordered_check_inv in Ho as (_ & _ & ? & ?).
Qed.

(** The number of members before the wave. *)
Lemma verified_size : exists n t g b, ready_plan plan n t g b /\ Z.of_nat (length (ir_Members inventory)) = n + 1 /\
  is_nil loss = negb (n =? 2).
Proof.
  destruct Hw as [_ (_ & Hr & _) _ _ _ Ht Hl]. apply read_plan_ready in Hr as [_ (n & t & g & b & Hr)].
  exists n, t, g, b. destruct (rp_counts _ _ _ _ _ Hr) as [_ Htarget]. rewrite Htarget in Ht. injection Ht as Ht _ _.
  split_and!; [done|done|]. pose proof (rp_size _ _ _ _ _ Hr) as Hn. unfold loss_found in Hl.
  rewrite Htarget in Hl. destruct loss as [[receipt lsha]|].
  - destruct Hl as [[= Hl _ _] _]. by rewrite (proj2 (Z.eqb_eq n 2)) by lia.
  - destruct Hl as [Hl _]. destruct (n =? 2) eqn:E; [|done]. apply Z.eqb_eq in E as ->. done.
Qed.

Lemma previous_verified n t g b : ready_plan plan n t g b ->
  (pl_Phase plan == HAWavePhaseOneToTwo) || hasPassingHAWaveCheck (pl_Checks plan) "previous_wave" = true.
Proof.
  intros Hr. rewrite (rp_phase _ _ _ _ _ Hr). destruct (rp_size _ _ _ _ _ Hr) as [->| ->]; [done|].
  apply orb_true_iff. right. pose proof (rp_checks _ _ _ _ _ Hr) as Hc. change (2 =? 2) with true in Hc.
  destruct (ordered_has _ _ "previous_wave" Hc) as (c & Hin & Ho);
    [apply list_elem_of_In; cbn; tauto|]. apply ordered_check_inv in Ho as (H1 & H2 & _ & H3); [|done].
  unfold hasPassingHAWaveCheck. apply existsb_exists. exists c. rewrite H1, H2, H3. split; [by apply list_elem_of_In|done].
Qed.

Lemma reported_checks : hasExactHAWaveVerificationChecks (vr_Checks report) (negb (is_nil loss)) = true /\
  written_checks (vr_Checks report).
Proof.
  destruct verified_size as (n & t & g & b & Hr & Hl & _). pose proof (rp_size _ _ _ _ _ Hr) as Hn.
  destruct reopened_check as [Hca Hcs].
  destruct Hw as [_ (Hp & Hrd & _) _ (Hi & _ & _ & His & _) _ _ Hloss]. apply read_plan_ready in Hrd as [Hps _].
  pose proof (named_artifact _ Hp). pose proof (named_artifact _ Hi).
  assert (blank ("observed healthy members=" +:+ FormatInt (Z.of_nat (length (ir_Members inventory)))) = false /\
    text ("observed healthy members=" +:+ FormatInt (Z.of_nat (length (ir_Members inventory))))) as [Hb Ht].
  { rewrite Hl. destruct Hn as [-> | ->]; (split; [reflexivity|ascii_texts]). }
  cbn [report_of vr_Checks]. unfold loss_found in Hloss. destruct loss as [[receipt lsha]|].
  - destruct Hloss as (_ & Hf & _ & Hfs & _). pose proof (named_artifact _ Hf). split.
    + unfold hasExactHAWaveVerificationChecks. cbn [app hasOrderedHAWaveChecks is_nil negb].
      by rewrite named_check, named_check, named_check, unnamed_check, unnamed_check, named_check.
    + split; [|cbn; lia]. cbn [app]. repeat apply Forall_cons_2; [..|constructor]; apply written_passed;
        first [by apply sha_text | by apply artifact_text | ascii_texts | done].
  - split.
    + unfold hasExactHAWaveVerificationChecks. cbn [app hasOrderedHAWaveChecks is_nil negb].
      by rewrite named_check, named_check, named_check, unnamed_check, unnamed_check.
    + split; [|cbn; lia]. cbn [app]. repeat apply Forall_cons_2; [..|constructor]; apply written_passed;
        first [by apply sha_text | by apply artifact_text | ascii_texts | done].
Qed.

Lemma loss_digest : match loss with
  | Some (receipt, _) => validHAWaveSHA256 (rc_ReceiptSHA256 receipt) = true
  | None => True end.
Proof.
  destruct Hw as [_ _ _ _ _ _ Hl]. unfold loss_found in Hl. destruct loss as [[receipt lsha]|]; [|done].
  destruct Hl as (_ & _ & _ & _ & [Hv _ _ _ _ _ _] & _). unfold ValidateReceipt in Hv.
  destruct (receipt_header_ok receipt) eqn:E; [|done]. unfold receipt_header_ok in E.
  apply andb_true_iff in E as [_ E]. exact E.
Qed.

Lemma reported_ready : four_digit_year now ->
  (exists n, Z.of_nat (length (ir_Members inventory)) = n + 1 /\ ready_report report n) /\ written_report report.
Proof.
  intros Hy. destruct verified_size as (n & t & g & b & Hr & Hl & Hloss). pose proof (rp_size _ _ _ _ _ Hr) as Hn.
  destruct reported_checks as [Hc Hwc]. pose proof loss_digest as Hld. pose proof (previous_verified _ _ _ _ Hr) as Hprev.
  destruct Hw as [Hnow (_ & Hrd & _) _ (_ & _ & [_ _ _ _ Halg Hdig _ Hm _ _] & _ & _ & Ha & _) Hmem _ _].
  apply read_plan_ready in Hrd as [Hps _]. rewrite Hloss, negb_involutive in Hc.
  destruct Hr as [_ _ Hphase _ _ _ Hins [Hsm _] [Hss Hse] [Hpalg Hpre] _].
  assert (validHAWaveSHA256 (ir_ReceiptSHA256 inventory) = true) as Hds.
  { rewrite Hdig. exact (validSHA256_digest _). }
  pose proof (proj1 (transition_iff _ _ _) Hmem) as (_ & _ & _ & Hperm).
  pose proof (member_set_valid _ Hm) as Hset. pose proof (formatted_time _ Hnow Hy) as Hf. split.
  - exists n. split; [exact Hl|]. constructor; cbn [report_of vr_Phase vr_Observed vr_StartingMemberUIDSHA256
      vr_FinalMemberUIDSHA256 vr_IntroducedMemberUIDSHA256 vr_StartingMemberSetSHA256 vr_FinalMemberSetSHA256
      vr_FreshBackupVerified vr_PreviousWaveVerified vr_FinalOneServerLossVerified vr_InstallationID
      vr_PlanSHA256 vr_PreflightInventoryReceiptSHA256 vr_InventoryReceiptSHA256 vr_OneServerLossReceiptSHA256
      vr_GeneratedAt vr_CompletedAt]; try done; try by rewrite Hl.
    + by rewrite map_length_members.
    + split_and!; [done|exact Hprev|]. by rewrite Hloss, negb_involutive.
    + by repeat constructor.
    + destruct loss as [[receipt lsha]|]; cbn in Hloss; by destruct (n =? 2).
    + split; [|done]. unfold canonicalHAWaveTime. by rewrite Hf.
  - assert (Forall text [HAWaveSchemaVersion; "ready"; haWaveVerifyNonClaim; NodeUIDHashAlgorithm; wave_name n]) as Hlit.
    { destruct Hn as [-> | ->]; repeat constructor; ascii_texts. }
    repeat (apply Forall_cons in Hlit as [? Hlit]). split_and!.
    + cbn [report_of vr_SchemaVersion vr_GeneratedAt vr_CompletedAt vr_Status vr_Phase vr_InstallationID vr_PlanSHA256
        vr_InventoryReceiptSHA256 vr_OneServerLossReceiptSHA256 vr_PreflightInventoryReceiptSHA256
        vr_NodeUIDHashAlgorithm vr_StartingMemberSetSHA256 vr_FinalMemberSetSHA256
        vr_IntroducedMemberUIDSHA256 vr_NonClaim]. rewrite Hpalg, Hphase.
      repeat apply Forall_cons_2; try done; try (by apply sha_text); try (by apply installation_text);
        try (by eapply time_text).
      * destruct loss as [[receipt lsha]|]; [by apply sha_text|apply empty_text].
      * apply sha_text. destruct Hm as (_ & Hv & _). rewrite Forall_forall in Hv. apply Hv. rewrite Hperm. by left.
    + cbn [report_of vr_StartingMemberUIDSHA256 vr_FinalMemberUIDSHA256 vr_Blockers].
      repeat apply Forall_cons_2; [by apply member_texts..|by split; [constructor|cbn; lia]|done].
    + done.
    + cbn [report_of vr_Observed]. repeat apply Forall_cons_2; [..|done]. eexists. split; [done|lia].
Qed.

Lemma reported_is_read (store : string -> option string) (path : string) : four_digit_year now ->
  blank path = false -> store (path_Clean path) = Some (json_Marshal report) ->
  ReadHAWaveVerification store path = Ok (report, sha256_hex (json_Marshal report)).
Proof.
  intros Hy Hp Hs. destruct (reported_ready Hy) as [[n [_ Hr]] [Hwire Hfits]%report_written].
  unfold ReadHAWaveVerification. rewrite (written_is_read store path report) by (done || unfold maxDepth; cbn; lia).
  by rewrite (ready_report_ok _ _ Hr).
Qed.
End Reports.
