(* ===== verification/HaTheorems.v ===== *)
(** * Kubeadm waves: the theorems

    What the planner and the verifier of pkg/kubeadm/ha_wave.go promise. *)

From stdpp Require Import gmap strings list.
From Stdlib Require Import ZArith Ascii Lia.
From S2P Require Import Prelude GoString GoPath GoTime GoSort GoDate GoSha256 GoJson StrictJson GoRfc3339 OslTypes OslValidate OslSurvive HaTypes HaWave HaMembers HaBuild HaReady HaVerified HaBack.

#[local] Open Scope Z_scope.
#[local] Opaque sha256_hex.

(** ** What ready artifacts rest on *)

(** A day before and five minutes after [now] are written with four digits. *)
Definition in_years (now : Time) : Prop :=
  four_digit_year (now - maximumHAWaveEvidenceAge) /\ four_digit_year (now + maximumHAWaveFutureSkew).

Lemma in_years_now now : in_years now -> four_digit_year now.
Proof.
  unfold in_years, four_digit_year, maximumHAWaveEvidenceAge, maximumHAWaveFutureSkew, Hour, Minute, Second. lia.
Qed.

Lemma in_years_fresh now t : in_years now -> freshHAWaveTime t now = true -> four_digit_year t.
Proof.
  unfold in_years, four_digit_year, freshHAWaveTime, Before, After, time_Add. intros [[H1 _] [_ H2]].
  destruct (_ || _); [done|]. intros H. go_simp. lia.
Qed.

Lemma named_not_blank path : named path -> blank path = false.
Proof. unfold named, safeHAWaveArtifact, blank. destruct (TrimSpace path == ""); done. Qed.

Definition stored (files : string -> option string) (path content : string) : Prop :=
  files (path_Clean path) = Some content.

Lemma ready_plan_back files store system_time opts path :
  in_years (haWaveNow system_time (po_Now opts)) -> blank path = false ->
  pl_Status (BuildHAWavePlan files system_time opts) = "ready" ->
  stored store path (json_Marshal (BuildHAWavePlan files system_time opts)) ->
  ReadHAWavePlan store path = Ok (BuildHAWavePlan files system_time opts,
    sha256_hex (json_Marshal (BuildHAWavePlan files system_time opts))).
Proof.
  intros Hy Hb (preflight & sha & t & backupAt & backupSHA & checks & Hw)%ready_wave_possible Hs. unfold stored in Hs.
  rewrite (possible_wave_is_planned _ _ _ _ _ _ _ _ _ Hw) in Hs |- *. pose proof (wp_backup _ _ _ _ _ _ _ _ _ Hw) as (_ & _ & Hf & _).
  apply (planned_is_read files system_time opts preflight sha t backupAt backupSHA checks Hw); try done.
  - by apply in_years_now.
  - by eapply in_years_fresh.
Qed.

Lemma ready_report_back files store system_time opts path :
  four_digit_year (haWaveNow system_time (vo_Now opts)) -> blank path = false ->
  vr_Status (VerifyHAWave files system_time opts) = "ready" ->
  stored store path (json_Marshal (VerifyHAWave files system_time opts)) ->
  ReadHAWaveVerification store path = Ok (VerifyHAWave files system_time opts,
    sha256_hex (json_Marshal (VerifyHAWave files system_time opts))).
Proof.
  intros Hy Hb (plan & planSHA & check & inventory & sha & introduced & loss & planned & backup & Hw)%ready_report_done Hs.
  unfold stored in Hs. rewrite (done_wave_is_reported _ _ _ _ _ _ _ _ _ _ _ _ Hw) in Hs |- *.
  by apply (reported_is_read files system_time opts plan planSHA check inventory sha introduced loss planned backup Hw).
Qed.

(** ** Plans *)

(** C28. A plan is ready exactly when all the evidence is there: a clock, an
    installation name, a fresh inventory of one or two healthy members that
    agrees with the counts of the caller, a fresh backup with restore, and for
    the second wave a ready verification of the first one that ended with the
    same members before the backup, which was made before the inventory; the
    plan is then the one written out in [plan_of]. *)
Theorem plans_are_ready_exactly files system_time opts plan :
  (BuildHAWavePlan files system_time opts = plan /\ pl_Status plan = "ready") <->
  exists preflight sha t backupAt backupSHA checks,
    wave_possible files system_time opts preflight sha t backupAt backupSHA checks /\
    plan = plan_of system_time opts preflight sha backupAt backupSHA checks.
Proof.
  split.
  - intros [<- (preflight & sha & t & backupAt & backupSHA & checks & Hw)%ready_wave_possible].
    exists preflight, sha, t, backupAt, backupSHA, checks. split; [exact Hw|].
    by apply (possible_wave_is_planned _ _ _ _ _ _ _ _ _ Hw).
  - intros (preflight & sha & t & backupAt & backupSHA & checks & Hw & ->). split; [|done].
    by apply (possible_wave_is_planned _ _ _ _ _ _ _ _ _ Hw).
Qed.

(** ** Verifications *)

(** A report is ready exactly when every step of the verification found its
    evidence: the plan, its backup again, an inventory captured later with one
    member more, and the run without a server where there are three; the report
    is then the one written out in [report_of]. *)
Theorem verifications_are_ready_exactly files system_time opts report :
  (VerifyHAWave files system_time opts = report /\ vr_Status report = "ready") <->
  exists plan planSHA check inventory inventorySHA introduced loss planned backup,
    wave_done files system_time opts plan planSHA check inventory inventorySHA introduced loss planned backup /\
    report = report_of system_time opts plan planSHA check inventory inventorySHA introduced loss.
Proof.
  split.
  - intros [<- (plan & planSHA & check & inventory & sha & introduced & loss & planned & backup & Hw)%ready_report_done].
    exists plan, planSHA, check, inventory, sha, introduced, loss, planned, backup. split; [exact Hw|].
    by apply (done_wave_is_reported _ _ _ _ _ _ _ _ _ _ _ _ Hw).
  - intros (plan & planSHA & check & inventory & sha & introduced & loss & planned & backup & Hw & ->). split; [|done].
    by apply (done_wave_is_reported _ _ _ _ _ _ _ _ _ _ _ _ Hw).
Qed.

(** The evidence of a ready report on a wave from [n] members. *)
Record one_more_member (opts : HAWaveVerifyOptions) (now : Time) (plan : HAWavePlan) (n : Z)
    (inventory : HAWaveInventoryReceipt) (report : HAWaveVerification) : Prop := {
  om_size : n = 1 \/ n = 2;
  om_phase : pl_Phase plan = wave_name n /\ vr_Phase report = wave_name n;
  om_installation : vr_InstallationID report = pl_InstallationID plan /\
    ir_InstallationID inventory = pl_InstallationID plan;
  om_loaded : exists load sha, vo_LoadInventory opts = Some load /\
    load (vo_InventoryPath opts) now = (Some inventory, sha, None);
  om_inventory : accepted_inventory inventory now;
  om_observed : vr_Observed report = haWaveCounts (n + 1) /\ Z.of_nat (length (ir_Members inventory)) = n + 1;
  om_members : vr_StartingMemberUIDSHA256 report = pl_StartingMemberUIDSHA256 plan /\
    vr_FinalMemberUIDSHA256 report = haWaveInventoryMemberUIDs inventory /\
    Z.of_nat (length (vr_StartingMemberUIDSHA256 report)) = n /\ NoDup (vr_FinalMemberUIDSHA256 report) /\
    (vr_IntroducedMemberUIDSHA256 report ∉ vr_StartingMemberUIDSHA256 report) /\
    vr_FinalMemberUIDSHA256 report ≡ₚ vr_IntroducedMemberUIDSHA256 report :: vr_StartingMemberUIDSHA256 report;
  (** With three members the cluster was watched while it lost one of them. *)
  om_loss : if n =? 2 then
      exists receipt w completed, bound_receipt receipt inventory (haWaveCounts 3) /\
        receipt_windows receipt = Ok w /\ survived receipt w /\
        rc_ReceiptSHA256 receipt = vr_OneServerLossReceiptSHA256 report /\
        rc_TargetNodeUIDSHA256 receipt ∈ vr_FinalMemberUIDSHA256 report /\
        parseHAWaveTime (rc_CompletedAt receipt) = Some completed /\
        (forall planned, parseHAWaveTime (pl_GeneratedAt plan) = Some planned -> planned < completed) /\
        (forall backup, parseHAWaveTime (pl_BackupGeneratedAt plan) = Some backup -> backup < completed)
    else vr_OneServerLossReceiptSHA256 report = "" /\ unbound (ir_OneServerLossReceiptBinding inventory) = true
}.

Lemma done_adds_one files system_time opts plan planSHA check inventory inventorySHA introduced loss planned backup :
  wave_done files system_time opts plan planSHA check inventory inventorySHA introduced loss planned backup ->
  exists n, one_more_member opts (haWaveNow system_time (vo_Now opts)) plan n inventory
    (report_of system_time opts plan planSHA check inventory inventorySHA introduced loss).
Proof.
  intros Hw. destruct (verified_size _ _ _ _ _ _ _ _ _ _ _ _ Hw) as (n & t & g & b & Hr & Hl & Hloss).
  destruct Hw as [_ (_ & _ & Hg & Hb & _) _ (_ & (load & Hlo & Hld) & Ha & _ & Hi & _) Hm _ Hlf]. exists n.
  apply transition_iff in Hm as (Hs & Hf & Hn & Hp). constructor.
  - exact (rp_size _ _ _ _ _ Hr).
  - by pose proof (rp_phase _ _ _ _ _ Hr).
  - done.
  - by exists load, inventorySHA.
  - exact Ha.
  - split; [|exact Hl]. cbn [report_of vr_Observed]. by rewrite Hl.
  - cbn [report_of vr_StartingMemberUIDSHA256 vr_FinalMemberUIDSHA256 vr_IntroducedMemberUIDSHA256].
    split_and!; try done; [apply (rp_members _ _ _ _ _ Hr)|apply ascending_nodup, Hf].
  - unfold loss_found in Hlf. destruct loss as [[receipt lsha]|]; cbn [is_nil] in Hloss; destruct (n =? 2); try done.
    + destruct Hlf as (_ & _ & _ & _ & Hbr & completed & captured & Hc & _ & _ & H1 & H2 & _).
      destruct (ValidateReceipt_survived _ (br_valid _ _ _ Hbr)) as (w & Hw & _ & Hsv).
      exists receipt, w, completed. split_and!; try done; [apply (br_lost _ _ _ Hbr)|..]; congruence.
    + by destruct Hlf as (_ & Hu & _).
Qed.

(** C27. A ready verification is about the plan in its file and about an
    inventory of healthy members that has exactly one member more than the
    plan starts from; a server was lost for a while only when there are three
    members, and then the cluster survived it, after the plan and its backup. *)
Theorem verified_waves_add_one_member files system_time opts :
  vr_Status (VerifyHAWave files system_time opts) = "ready" ->
  exists plan sha n inventory,
    ReadHAWavePlan files (vo_PlanPath opts) = Ok (plan, sha) /\
    vr_PlanSHA256 (VerifyHAWave files system_time opts) = sha /\
    one_more_member opts (haWaveNow system_time (vo_Now opts)) plan n inventory
      (VerifyHAWave files system_time opts).
Proof.
  intros (plan & planSHA & check & inventory & sha & introduced & loss & planned & backup & Hw)%ready_report_done.
  destruct (done_adds_one _ _ _ _ _ _ _ _ _ _ _ _ Hw) as [n Hn].
  rewrite (done_wave_is_reported _ _ _ _ _ _ _ _ _ _ _ _ Hw). exists plan, planSHA, n, inventory.
  split_and!; [|done|exact Hn]. by destruct (wd_plan _ _ _ _ _ _ _ _ _ _ _ _ Hw) as (_ & ? & _).
Qed.

(** ** Artifacts *)

(** C29. A ready plan and a ready verification that are stored as JSON are read
    back as they are, with the digests of their texts. *)
Theorem ready_artifacts_read_back files s1 opts s2 vopts store plan_path report_path :
  let plan := BuildHAWavePlan files s1 opts in
  let report := VerifyHAWave files s2 vopts in
  in_years (haWaveNow s1 (po_Now opts)) -> four_digit_year (haWaveNow s2 (vo_Now vopts)) ->
  blank plan_path = false -> blank report_path = false ->
  stored store plan_path (json_Marshal plan) -> stored store report_path (json_Marshal report) ->
  (pl_Status plan = "ready" ->
   ReadHAWavePlan store plan_path = Ok (plan, sha256_hex (json_Marshal plan))) /\
  (vr_Status report = "ready" ->
   ReadHAWaveVerification store report_path = Ok (report, sha256_hex (json_Marshal report))).
Proof.
  intros plan report H1 H2 H3 H4 H5 H6. split; intros H.
  - by apply ready_plan_back.
  - by apply ready_report_back.
Qed.

(** ** Both waves *)

(** The verification of a plan that was stored is about that plan. *)
Lemma stored_plan_verified files s1 o1 s2 v1 : in_years (haWaveNow s1 (po_Now o1)) ->
  pl_Status (BuildHAWavePlan files s1 o1) = "ready" ->
  stored files (vo_PlanPath v1) (json_Marshal (BuildHAWavePlan files s1 o1)) ->
  vr_Status (VerifyHAWave files s2 v1) = "ready" ->
  exists n inventory, one_more_member v1 (haWaveNow s2 (vo_Now v1)) (BuildHAWavePlan files s1 o1) n inventory
    (VerifyHAWave files s2 v1).
Proof.
  intros Hy Hp Hs (plan & planSHA & check & inventory & sha & introduced & loss & planned & backup & Hw)%ready_report_done.
  destruct (wd_plan _ _ _ _ _ _ _ _ _ _ _ _ Hw) as (Hn & Hr & _).
  rewrite (ready_plan_back _ _ _ _ _ Hy (named_not_blank _ Hn) Hp Hs) in Hr. injection Hr as <- <-.
  rewrite (done_wave_is_reported _ _ _ _ _ _ _ _ _ _ _ _ Hw).
  destruct (done_adds_one _ _ _ _ _ _ _ _ _ _ _ _ Hw) as [n Hm]. by exists n, inventory.
Qed.

(** A plan of the second wave starts where the stored verification ended. *)
Lemma stored_report_planned files s2 v1 s3 o2 : four_digit_year (haWaveNow s2 (vo_Now v1)) ->
  vr_Status (VerifyHAWave files s2 v1) = "ready" ->
  stored files (po_PreviousWavePath o2) (json_Marshal (VerifyHAWave files s2 v1)) ->
  pl_Status (BuildHAWavePlan files s3 o2) = "ready" ->
  pl_Phase (BuildHAWavePlan files s3 o2) = HAWavePhaseTwoToThree ->
  vr_Phase (VerifyHAWave files s2 v1) = HAWavePhaseOneToTwo /\
  pl_StartingMemberUIDSHA256 (BuildHAWavePlan files s3 o2) = vr_FinalMemberUIDSHA256 (VerifyHAWave files s2 v1) /\
  pl_InstallationID (BuildHAWavePlan files s3 o2) = vr_InstallationID (VerifyHAWave files s2 v1).
Proof.
  intros Hy Hr Hs (preflight & sha & t & backupAt & backupSHA & checks & Hw)%ready_wave_possible Hp.
  rewrite (possible_wave_is_planned _ _ _ _ _ _ _ _ _ Hw) in Hp |- *.
  cbn [plan_of pl_Phase pl_StartingMemberUIDSHA256 pl_InstallationID] in *.
  destruct Hw as [_ _ _ _ _ Hf]. unfold previous_found in Hf.
  destruct (length (ir_Members preflight)) as [|[|[|k]]]; [done|discriminate Hp| |done].
  destruct Hf as (previous & psha & (Hn & Hrd & H1 & H2 & _ & _ & H3 & _) & _).
  rewrite (ready_report_back _ _ _ _ _ Hy (named_not_blank _ Hn) Hr Hs) in Hrd. by injection Hrd as <- <-.
Qed.

(** C26. The first wave, the second wave planned on its verification, and the
    verification of the second wave: the one member of the beginning is still
    there, two different ones were added, and the three survived the loss of
    one of them after the second wave was planned. *)
Theorem two_waves_make_three_members files s1 o1 s2 v1 s3 o2 s4 v2 :
  let plan1 := BuildHAWavePlan files s1 o1 in let done1 := VerifyHAWave files s2 v1 in
  let plan2 := BuildHAWavePlan files s3 o2 in let done2 := VerifyHAWave files s4 v2 in
  in_years (haWaveNow s1 (po_Now o1)) -> in_years (haWaveNow s2 (vo_Now v1)) ->
  in_years (haWaveNow s3 (po_Now o2)) ->
  pl_Status plan1 = "ready" -> stored files (vo_PlanPath v1) (json_Marshal plan1) ->
  vr_Status done1 = "ready" -> stored files (po_PreviousWavePath o2) (json_Marshal done1) ->
  pl_Status plan2 = "ready" -> pl_Phase plan2 = HAWavePhaseTwoToThree ->
  stored files (vo_PlanPath v2) (json_Marshal plan2) -> vr_Status done2 = "ready" ->
  exists a b c, NoDup [a; b; c] /\
    pl_StartingMemberUIDSHA256 plan1 = [a] /\ vr_FinalMemberUIDSHA256 done1 ≡ₚ [a; b] /\
    pl_StartingMemberUIDSHA256 plan2 = vr_FinalMemberUIDSHA256 done1 /\
    vr_FinalMemberUIDSHA256 done2 ≡ₚ [a; b; c] /\ vr_Observed done2 = haWaveCounts 3 /\
    vr_InstallationID done2 = pl_InstallationID plan1 /\
    exists receipt w completed, receipt_windows receipt = Ok w /\ survived receipt w /\
      rc_ReceiptSHA256 receipt = vr_OneServerLossReceiptSHA256 done2 /\
      rc_TargetNodeUIDSHA256 receipt ∈ [a; b; c] /\
      parseHAWaveTime (rc_CompletedAt receipt) = Some completed /\ haWaveNow s3 (po_Now o2) < completed.
Proof.
  intros plan1 done1 plan2 done2 Y1 Y2 Y3 R1 S1 R2 S2 R3 P2 S3 R4.
  destruct (stored_plan_verified _ _ _ _ _ Y1 R1 S1 R2) as (n1 & inventory1 & O1).
  destruct (stored_report_planned _ _ _ _ _ (in_years_now _ Y2) R2 S2 R3 P2) as (H1 & H2 & H3).
  destruct (stored_plan_verified _ _ _ _ _ Y3 R3 S3 R4) as (n2 & inventory2 & O2).
  change (BuildHAWavePlan files s1 o1) with plan1 in O1. change (VerifyHAWave files s2 v1) with done1 in O1, H1, H2, H3.
  change (BuildHAWavePlan files s3 o2) with plan2 in O2, H2, H3. change (VerifyHAWave files s4 v2) with done2 in O2.
  destruct O1 as [N1 (_ & V1) (I1 & _) _ _ _ (M1 & _ & L1 & _ & _ & F1) _].
  destruct O2 as [N2 (V2 & _) (I2 & _) _ _ (C2 & _) (M2 & _ & _ & D2 & _ & F2) Hloss].
  assert (n1 = 1) as -> by (destruct N1 as [->| ->]; [done|]; rewrite H1 in V1; discriminate V1).
  assert (n2 = 2) as -> by (destruct N2 as [->| ->]; [|done]; rewrite P2 in V2; discriminate V2).
  rewrite M1 in L1, F1. rewrite M2, H2 in F2. destruct (pl_StartingMemberUIDSHA256 plan1) as [|a [|? ?]]; cbn in L1; try lia.
  exists a, (vr_IntroducedMemberUIDSHA256 done1), (vr_IntroducedMemberUIDSHA256 done2).
  assert (vr_FinalMemberUIDSHA256 done2 ≡ₚ
    [a; vr_IntroducedMemberUIDSHA256 done1; vr_IntroducedMemberUIDSHA256 done2]) as Hp.
  { rewrite F2, F1. symmetry. exact (Permutation_rev [a; _; _]). }
  destruct Hloss as (receipt & w & completed & _ & Hw & Hsv & Hd & Ht & Hc & Ho & _).
  destruct (ready_wave_possible _ _ _ R3) as (? & ? & ? & ? & ? & ? & W2).
  assert (parseHAWaveTime (pl_GeneratedAt plan2) = Some (haWaveNow s3 (po_Now o2))) as Hg.
  { unfold plan2. rewrite (possible_wave_is_planned _ _ _ _ _ _ _ _ _ W2).
    apply formatted_time; [apply W2|by apply in_years_now]. }
  split_and!; try done; [by rewrite <- Hp|by rewrite F1; apply perm_swap|congruence|].
  exists receipt, w, completed. split_and!; try done; [by rewrite <- Hp|by apply Ho].
Qed.
