(* ===== verification/HaSamples.v ===== *)
(** * Kubeadm waves: a cluster that grows from one member to three

    One member before ten o'clock, a second one planned at 10:05 and verified at
    10:25, a third one planned at 10:55 and verified at 12:15, after a server
    was lost for a while at noon. *)

From stdpp Require Import gmap strings list.
From Stdlib Require Import ZArith Ascii Sorted Lia.
From S2P Require Import Prelude GoString GoPath GoTime GoDate GoSort GoSha256 GoJson StrictJson GoRfc3339 OslTypes OslValidate OslSeal HaTypes HaWave HaMembers HaBuild HaReady HaVerified HaBack HaTheorems.

#[local] Open Scope Z_scope.
#[local] Opaque sha256_hex.

(** A time of that day *)
Definition clock_at (hours minutes : Z) : Time := time_Date 2026 6 24 hours minutes 0.

(** ** Inventories *)

Definition healthy_at (uid : string) : HAWaveMemberIdentity := {|
  mi_UIDSHA256 := uid; mi_Ready := true; mi_ControlPlane := true; mi_EtcdMember := true |}.

Definition sealed_inventory (r : HAWaveInventoryReceipt) : HAWaveInventoryReceipt :=
  HAWaveInventoryReceipt_with_ReceiptSHA256 r (HAWaveInventoryReceiptSHA256 r).

Definition inventory_of (uids : list string) (captured : Time) (binding : OneServerLossReceiptBinding)
    : HAWaveInventoryReceipt := sealed_inventory {|
  ir_SchemaVersion := HAWaveInventorySchemaVersion; ir_CapturedAt := formatHAWaveTime captured;
  ir_InstallationID := "cell-1"; ir_Distribution := "upstream"; ir_Bootstrap := "kubeadm";
  ir_ServerVersion := "v1.31.2"; ir_NodeUIDHashAlgorithm := NodeUIDHashAlgorithm;
  ir_Members := List.map healthy_at uids; ir_APIServerNodeUIDSHA256 := uids;
  ir_OneServerLossReceiptBinding := binding; ir_ReceiptSHA256 := "" |}.

Definition no_binding : OneServerLossReceiptBinding := {|
  bd_ReceiptSHA256 := ""; bd_RunNonceSHA256 := ""; bd_TargetNodeUIDSHA256 := "";
  bd_KubectlExecutableSHA256 := ""; bd_ProbeAdapterSHA256 := ""; bd_NodeUIDHashAlgorithm := "";
  bd_ControlPlaneMemberSetSHA256 := "" |}.

Lemma inventory_members uids captured binding :
  haWaveInventoryMemberUIDs (inventory_of uids captured binding) = uids.
Proof.
  unfold inventory_of, sealed_inventory, haWaveInventoryMemberUIDs.
  cbn [HAWaveInventoryReceipt_with_ReceiptSHA256 ir_Members]. rewrite List.map_map. apply List.map_id.
Qed.

Lemma inventory_accepted uids captured binding now : is_canonical uids = true ->
  parseHAWaveTime (formatHAWaveTime captured) = Some captured -> freshHAWaveTime captured now = true ->
  accepted_inventory (inventory_of uids captured binding) now.
Proof.
  intros Hu Hc Hf. constructor; try done.
  - unfold freshHAWaveTime, IsZero in Hf. destruct (now =? 0) eqn:E; [by rewrite orb_true_r in Hf|by apply Z.eqb_neq].
  - by exists captured.
  - rewrite inventory_members. by apply canonical_iff.
  - apply Forall_forall. intros m (uid & <- & _)%list_elem_of_In%in_map_iff. done.
  - by rewrite inventory_members.
Qed.

(** ** The documents *)

Definition one : list string := [hash "a"].
Definition two : list string := [hash "a"; hash "c"].
Definition three : list string := [hash "a"; hash "c"; hash "f"].
Definition three_set : string := "5a66b14903c7d343b3496d33041779a9f4e25032b528a3b49e67cfe07ce4639f".

Lemma three_set_digest : HAWaveMemberSetSHA256 three = three_set.
Proof. vm_compute. reflexivity. Qed.

Definition wave_receipt : Receipt := receipt_with three_set [down; down; elsewhere; elsewhere].

Lemma wave_receipt_valid : ValidateReceipt (Some wave_receipt) = None.
Proof. apply receipt_facts_ok; [apply seal_all_sealed|]. vm_compute. reflexivity. Qed.

Definition wave_binding : OneServerLossReceiptBinding := {|
  bd_ReceiptSHA256 := rc_ReceiptSHA256 wave_receipt; bd_RunNonceSHA256 := rc_RunNonceSHA256 wave_receipt;
  bd_TargetNodeUIDSHA256 := rc_TargetNodeUIDSHA256 wave_receipt;
  bd_KubectlExecutableSHA256 := rc_KubectlExecutableSHA256 wave_receipt;
  bd_ProbeAdapterSHA256 := rc_ProbeAdapterSHA256 wave_receipt; bd_NodeUIDHashAlgorithm := NodeUIDHashAlgorithm;
  bd_ControlPlaneMemberSetSHA256 := three_set |}.

Definition inventory1 := inventory_of one (clock_at 10 0) no_binding.
Definition inventory2 := inventory_of two (clock_at 10 20) no_binding.
Definition inventory3 := inventory_of two (clock_at 10 50) no_binding.
Definition inventory4 := inventory_of three (clock_at 12 10) wave_binding.

Definition load_inventory_of (inventory : HAWaveInventoryReceipt) : option HAWaveInventoryLoader :=
  Some (fun _ _ => (Some inventory, hash "1", None)).
Definition backup_of (backupAt : Time) (sha : string) : option HAWaveBackupValidator :=
  Some (fun _ _ _ => (backupAt, sha, None)).

Definition plan_options1 : HAWavePlanOptions := {|
  po_InstallationID := "cell-1"; po_Current := haWaveCounts 0; po_PreflightInventoryPath := "inventory-1.json";
  po_LoadPreflightInventory := load_inventory_of inventory1; po_BackupBarrierPath := "backup-1.json";
  po_PreviousWavePath := ""; po_Now := Some (clock_at 10 5);
  po_ValidateBackup := backup_of (clock_at 9 50) (hash "2") |}.

Definition verify_options1 : HAWaveVerifyOptions := {|
  vo_PlanPath := "plan-1.json"; vo_BackupBarrierPath := "backup-1.json";
  vo_ValidateBackup := backup_of (clock_at 9 50) (hash "2"); vo_InventoryPath := "inventory-2.json";
  vo_LoadInventory := load_inventory_of inventory2; vo_FinalOneServerLossPath := "";
  vo_Now := Some (clock_at 10 25); vo_LoadOneServerLossReceipt := None |}.

Definition plan_options2 : HAWavePlanOptions := {|
  po_InstallationID := "cell-1"; po_Current := haWaveCounts 2; po_PreflightInventoryPath := "inventory-3.json";
  po_LoadPreflightInventory := load_inventory_of inventory3; po_BackupBarrierPath := "backup-2.json";
  po_PreviousWavePath := "wave-1.json"; po_Now := Some (clock_at 10 55);
  po_ValidateBackup := backup_of (clock_at 10 40) (hash "3") |}.

Definition verify_options2 : HAWaveVerifyOptions := {|
  vo_PlanPath := "plan-2.json"; vo_BackupBarrierPath := "backup-2.json";
  vo_ValidateBackup := backup_of (clock_at 10 40) (hash "3"); vo_InventoryPath := "inventory-4.json";
  vo_LoadInventory := load_inventory_of inventory4; vo_FinalOneServerLossPath := "loss.json";
  vo_Now := Some (clock_at 12 15);
  vo_LoadOneServerLossReceipt := Some (fun _ _ => (Some wave_receipt, hash "4", None)) |}.

(** ** The artifacts of the two waves *)

Definition wave_plan1 : HAWavePlan :=
  plan_of 0 plan_options1 inventory1 (hash "1") (clock_at 9 50) (hash "2") [].
Definition backup_check (artifact sha : string) : HAWaveCheck :=
  passed "fresh_backup" "fresh off-cell backup and restore barrier is valid" artifact sha.
Definition wave_report1 : HAWaveVerification :=
  report_of 0 verify_options1 wave_plan1 (sha256_hex (json_Marshal wave_plan1))
    (backup_check "backup-1.json" (hash "2")) inventory2 (hash "1") (hash "c") None.
Definition wave_plan2 : HAWavePlan :=
  plan_of 0 plan_options2 inventory3 (hash "1") (clock_at 10 40) (hash "3")
    [passed "previous_wave"
       "one-to-two verification is ready; the inter-wave backup and subsequent preflight are strictly ordered"
       "wave-1.json" (sha256_hex (json_Marshal wave_report1))].
Definition wave_report2 : HAWaveVerification :=
  report_of 0 verify_options2 wave_plan2 (sha256_hex (json_Marshal wave_plan2))
    (backup_check "backup-2.json" (hash "3")) inventory4 (hash "1") (hash "f") (Some (wave_receipt, hash "4")).

Definition evidence (path : string) : option string :=
  if path == "plan-1.json" then Some (json_Marshal wave_plan1) else
  if path == "wave-1.json" then Some (json_Marshal wave_report1) else
  if path == "plan-2.json" then Some (json_Marshal wave_plan2) else None.

(** ** Every step finds its evidence *)

Definition clocked (t : Time) : Prop := t <> 0 /\ four_digit_year t.

Ltac clock_fact := split; [|split]; vm_compute; congruence.
Ltac path_named := let H := fresh in intros H; vm_compute in H; discriminate H.

Lemma clocked_round t : clocked t -> parseHAWaveTime (formatHAWaveTime t) = Some t.
Proof. intros [H1 H2]. by apply formatted_time. Qed.

Lemma clock_round h m : clocked (clock_at h m) ->
  parseHAWaveTime (formatHAWaveTime (clock_at h m)) = Some (clock_at h m).
Proof. apply clocked_round. Qed.

Lemma inventory_at uids h m binding now : is_canonical uids = true -> clocked (clock_at h m) ->
  freshHAWaveTime (clock_at h m) now = true -> accepted_inventory (inventory_of uids (clock_at h m) binding) now.
Proof. intros Hu Hc Hf. apply inventory_accepted; [exact Hu|by apply clock_round|exact Hf]. Qed.

Lemma found_preflight files opts uids h m :
  po_LoadPreflightInventory opts = load_inventory_of (inventory_of uids (clock_at h m) no_binding) ->
  named (po_PreflightInventoryPath opts) -> is_canonical uids = true -> clocked (clock_at h m) ->
  freshHAWaveTime (clock_at h m) (haWaveNow files (po_Now opts)) = true ->
  clock_at h m <= haWaveNow files (po_Now opts) -> TrimSpace (po_InstallationID opts) = "cell-1" ->
  preflight_found files opts (inventory_of uids (clock_at h m) no_binding) (hash "1") (clock_at h m).
Proof.
  intros Hl Hn Hu Hc Hf Ho Hi. split_and!; [done| |by apply inventory_at|by apply clock_round|done|reflexivity|by rewrite Hi].
  eexists. split; [exact Hl|reflexivity].
Qed.

Lemma found_backup s opts at_ sha : po_ValidateBackup opts = backup_of at_ sha ->
  named (po_BackupBarrierPath opts) -> freshHAWaveTime at_ (haWaveNow s (po_Now opts)) = true ->
  validHAWaveSHA256 sha = true -> backup_found s opts at_ sha.
Proof. intros Hv Hn Hf Hs. split_and!; [done| |done|done]. eexists. split; [exact Hv|reflexivity]. Qed.

Lemma wave1_possible : wave_possible evidence 0 plan_options1 inventory1 (hash "1") (clock_at 10 0)
  (clock_at 9 50) (hash "2") [].
Proof.
  constructor.
  - path_named.
  - vm_compute. reflexivity.
  - apply found_preflight; [reflexivity|path_named|vm_compute; reflexivity|clock_fact|vm_compute; reflexivity| |vm_compute; reflexivity].
    apply Z.leb_le. vm_compute. reflexivity.
  - by left.
  - apply found_backup; [reflexivity|path_named|vm_compute; reflexivity..].
  - split; [vm_compute; reflexivity|reflexivity].
Qed.

Lemma evidence_plan1 : stored evidence (vo_PlanPath verify_options1) (json_Marshal wave_plan1).
Proof. reflexivity. Qed.
Lemma evidence_report1 : stored evidence (po_PreviousWavePath plan_options2) (json_Marshal wave_report1).
Proof. reflexivity. Qed.
Lemma evidence_plan2 : stored evidence (vo_PlanPath verify_options2) (json_Marshal wave_plan2).
Proof. reflexivity. Qed.

Lemma years h m : four_digit_year (clock_at h m - maximumHAWaveEvidenceAge) ->
  four_digit_year (clock_at h m + maximumHAWaveFutureSkew) -> in_years (clock_at h m).
Proof. by split. Qed.

Ltac year_fact := split; split; vm_compute; congruence.

Lemma years1 : in_years (haWaveNow 0 (po_Now plan_options1)).
Proof. year_fact. Qed.
Lemma years2 : in_years (haWaveNow 0 (vo_Now verify_options1)).
Proof. year_fact. Qed.
Lemma years3 : in_years (haWaveNow 0 (po_Now plan_options2)).
Proof. year_fact. Qed.
Lemma years4 : in_years (haWaveNow 0 (vo_Now verify_options2)).
Proof. year_fact. Qed.

Lemma wave1_planned : BuildHAWavePlan evidence 0 plan_options1 = wave_plan1.
Proof. apply (possible_wave_is_planned _ _ _ _ _ _ _ _ _ wave1_possible). Qed.

Lemma wave1_plan_read : ReadHAWavePlan evidence (vo_PlanPath verify_options1) =
  Ok (wave_plan1, sha256_hex (json_Marshal wave_plan1)).
Proof.
  pose proof (ready_plan_back evidence evidence 0 plan_options1 (vo_PlanPath verify_options1) years1 eq_refl) as H.
  rewrite wave1_planned in H. exact (H eq_refl evidence_plan1).
Qed.

Lemma found_inventory opts plan planned backup uids h m binding :
  vo_LoadInventory opts = load_inventory_of (inventory_of uids (clock_at h m) binding) ->
  named (vo_InventoryPath opts) -> is_canonical uids = true -> clocked (clock_at h m) ->
  freshHAWaveTime (clock_at h m) (haWaveNow 0 (vo_Now opts)) = true ->
  pl_InstallationID plan = "cell-1" -> pl_NodeUIDHashAlgorithm plan = NodeUIDHashAlgorithm ->
  planned < clock_at h m -> backup < clock_at h m -> clock_at h m <= haWaveNow 0 (vo_Now opts) ->
  inventory_found 0 opts plan planned backup (inventory_of uids (clock_at h m) binding) (hash "1").
Proof.
  intros Hl Hn Hu Hc Hf Hi Ha H1 H2 H3. split_and!; [done| |by apply inventory_at|reflexivity|by rewrite Hi|by rewrite Ha|].
  - eexists. split; [exact Hl|reflexivity].
  - exists (clock_at h m). split_and!; [by apply clock_round|done|done|done].
Qed.

Ltac z_fact := first [apply Z.leb_le | apply Z.ltb_lt]; vm_compute; reflexivity.

Lemma wave1_done : wave_done evidence 0 verify_options1 wave_plan1 (sha256_hex (json_Marshal wave_plan1))
  (backup_check "backup-1.json" (hash "2")) inventory2 (hash "1") (hash "c") None (clock_at 10 5) (clock_at 9 50).
Proof.
  constructor.
  - path_named.
  - split; [path_named|]. split; [exact wave1_plan_read|].
    split; [exact (clock_round 10 5 ltac:(clock_fact))|]. split; [exact (clock_round 9 50 ltac:(clock_fact))|].
    split; z_fact.
  - split; [reflexivity|]. split; [path_named|]. split; [reflexivity|].
    eexists _, (clock_at 9 50). split; [reflexivity|]. split; [reflexivity|]. split; [vm_compute; reflexivity|reflexivity].
  - apply found_inventory; [reflexivity|path_named|vm_compute; reflexivity|clock_fact|vm_compute; reflexivity
      |reflexivity|reflexivity|z_fact|z_fact|z_fact].
  - change (validateHAWaveMemberTransition one two = Ok (hash "c")). vm_compute. reflexivity.
  - reflexivity.
  - split; [discriminate|]. split; [reflexivity|vm_compute; reflexivity].
Qed.

Lemma wave1_verified : VerifyHAWave evidence 0 verify_options1 = wave_report1.
Proof. apply (done_wave_is_reported _ _ _ _ _ _ _ _ _ _ _ _ wave1_done). Qed.

Lemma wave1_report_read : ReadHAWaveVerification evidence (po_PreviousWavePath plan_options2) =
  Ok (wave_report1, sha256_hex (json_Marshal wave_report1)).
Proof.
  pose proof (ready_report_back evidence evidence 0 verify_options1 (po_PreviousWavePath plan_options2)
    (in_years_now _ years2) eq_refl) as H.
  rewrite wave1_verified in H. exact (H eq_refl evidence_report1).
Qed.

Lemma wave1_completed : parseHAWaveTime (vr_CompletedAt wave_report1) = Some (clock_at 10 25).
Proof. exact (clock_round 10 25 ltac:(clock_fact)). Qed.

Lemma same_members : haWaveInventoryMemberUIDs inventory2 = haWaveInventoryMemberUIDs inventory3.
Proof. unfold inventory2, inventory3. by rewrite !inventory_members. Qed.

Lemma wave2_possible : wave_possible evidence 0 plan_options2 inventory3 (hash "1") (clock_at 10 50)
  (clock_at 10 40) (hash "3") [passed "previous_wave"
       "one-to-two verification is ready; the inter-wave backup and subsequent preflight are strictly ordered"
       "wave-1.json" (sha256_hex (json_Marshal wave_report1))].
Proof.
  constructor.
  - path_named.
  - vm_compute. reflexivity.
  - apply found_preflight; [reflexivity|path_named|vm_compute; reflexivity|clock_fact|vm_compute; reflexivity|z_fact|vm_compute; reflexivity].
  - by right.
  - apply found_backup; [reflexivity|path_named|vm_compute; reflexivity..].
  - exists wave_report1, (sha256_hex (json_Marshal wave_report1)). split; [|reflexivity].
    split; [path_named|]. split; [exact wave1_report_read|]. split; [reflexivity|]. split; [reflexivity|].
    split; [reflexivity|]. split; [exact (f_equal HAWaveMemberSetSHA256 same_members)|].
    split; [exact same_members|]. exists (clock_at 10 25). split; [exact wave1_completed|]. split; z_fact.
Qed.

Lemma wave2_planned : BuildHAWavePlan evidence 0 plan_options2 = wave_plan2.
Proof. apply (possible_wave_is_planned _ _ _ _ _ _ _ _ _ wave2_possible). Qed.

Lemma wave2_plan_read : ReadHAWavePlan evidence (vo_PlanPath verify_options2) =
  Ok (wave_plan2, sha256_hex (json_Marshal wave_plan2)).
Proof.
  pose proof (ready_plan_back evidence evidence 0 plan_options2 (vo_PlanPath verify_options2) years3 eq_refl) as H.
  rewrite wave2_planned in H. exact (H eq_refl evidence_plan2).
Qed.

Lemma wave_receipt_bound : bound_receipt wave_receipt inventory4 (haWaveCounts 3).
Proof.
  assert (HAWaveMemberSetSHA256 (haWaveInventoryMemberUIDs inventory4) = three_set) as Hs.
  { unfold inventory4. rewrite inventory_members. exact three_set_digest. }
  constructor.
  - exact wave_receipt_valid.
  - reflexivity.
  - apply Z.leb_le. reflexivity.
  - rewrite Hs. reflexivity.
  - split; reflexivity.
  - rewrite Hs. split; reflexivity.
  - unfold inventory4. rewrite inventory_members. by left.
Qed.

Lemma wave_receipt_in_time :
  receipt_in_time wave_receipt inventory4 (haWaveNow 0 (vo_Now verify_options2)) (clock_at 10 55) (clock_at 10 40).
Proof.
  exists (noon + 9 * Second), (clock_at 12 10).
  split. { exact (canonical_Format (noon + 9 * Second) ltac:(split; vm_compute; congruence)). }
  split; [exact (clock_round 12 10 ltac:(clock_fact))|]. split; [vm_compute; reflexivity|].
  split; [z_fact|]. split; [z_fact|]. split; z_fact.
Qed.

Lemma wave2_done : wave_done evidence 0 verify_options2 wave_plan2 (sha256_hex (json_Marshal wave_plan2))
  (backup_check "backup-2.json" (hash "3")) inventory4 (hash "1") (hash "f") (Some (wave_receipt, hash "4"))
  (clock_at 10 55) (clock_at 10 40).
Proof.
  constructor.
  - path_named.
  - split; [path_named|]. split; [exact wave2_plan_read|].
    split; [exact (clock_round 10 55 ltac:(clock_fact))|]. split; [exact (clock_round 10 40 ltac:(clock_fact))|].
    split; z_fact.
  - split; [reflexivity|]. split; [path_named|]. split; [reflexivity|].
    eexists _, (clock_at 10 40). split; [reflexivity|]. split; [reflexivity|]. split; [vm_compute; reflexivity|reflexivity].
  - apply found_inventory; [reflexivity|path_named|vm_compute; reflexivity|clock_fact|vm_compute; reflexivity
      |reflexivity|reflexivity|z_fact|z_fact|z_fact].
  - change (validateHAWaveMemberTransition two three = Ok (hash "f")). vm_compute. reflexivity.
  - reflexivity.
  - split; [reflexivity|]. split; [path_named|]. split; [eexists; split; reflexivity|]. split; [reflexivity|].
    split; [exact wave_receipt_bound|exact wave_receipt_in_time].
Qed.

Lemma wave2_verified : VerifyHAWave evidence 0 verify_options2 = wave_report2.
Proof. apply (done_wave_is_reported _ _ _ _ _ _ _ _ _ _ _ _ wave2_done). Qed.

(** ** Witnesses *)

(** Both plans are ready, by their evidence. *)
Lemma plans_are_ready_exactly_witness :
  (BuildHAWavePlan evidence 0 plan_options1 = wave_plan1 /\ pl_Status wave_plan1 = "ready") /\
  (BuildHAWavePlan evidence 0 plan_options2 = wave_plan2 /\ pl_Status wave_plan2 = "ready").
Proof.
  split; apply plans_are_ready_exactly; do 6 eexists.
  - split; [exact wave1_possible|reflexivity].
  - split; [exact wave2_possible|reflexivity].
Defined.

Lemma verified_waves_add_one_member_witness :
  vr_Status (VerifyHAWave evidence 0 verify_options2) = "ready" /\
  exists plan sha n inventory,
    ReadHAWavePlan evidence (vo_PlanPath verify_options2) = Ok (plan, sha) /\
    one_more_member verify_options2 (clock_at 12 15) plan n inventory (VerifyHAWave evidence 0 verify_options2).
Proof.
  assert (vr_Status (VerifyHAWave evidence 0 verify_options2) = "ready") as H.
  { rewrite wave2_verified. reflexivity. }
  split; [exact H|]. destruct (verified_waves_add_one_member _ _ _ H) as (plan & sha & n & inventory & Hr & _ & Ho).
  exists plan, sha, n, inventory. exact (conj Hr Ho).
Defined.

Lemma ready_artifacts_read_back_witness :
  ReadHAWavePlan evidence "plan-1.json" = Ok (wave_plan1, sha256_hex (json_Marshal wave_plan1)) /\
  ReadHAWaveVerification evidence "wave-1.json" = Ok (wave_report1, sha256_hex (json_Marshal wave_report1)).
Proof.
  pose proof (ready_artifacts_read_back evidence 0 plan_options1 0 verify_options1 evidence "plan-1.json" "wave-1.json")
    as H. cbv zeta in H. rewrite wave1_planned, wave1_verified in H.
  destruct (H years1 (in_years_now _ years2) eq_refl eq_refl evidence_plan1 evidence_report1) as [Hp Hr].
  exact (conj (Hp eq_refl) (Hr eq_refl)).
Defined.

Lemma two_waves_make_three_members_witness :
  vr_Observed (VerifyHAWave evidence 0 verify_options2) = haWaveCounts 3 /\
  exists a b c, NoDup [a; b; c] /\ vr_FinalMemberUIDSHA256 wave_report2 ≡ₚ [a; b; c].
Proof.
  pose proof (two_waves_make_three_members evidence 0 plan_options1 0 verify_options1 0 plan_options2 0 verify_options2)
    as H. cbv zeta in H. rewrite wave1_planned, wave1_verified, wave2_planned, wave2_verified in H.
  destruct (H years1 years2 years3 eq_refl evidence_plan1 eq_refl evidence_report1 eq_refl eq_refl evidence_plan2 eq_refl)
    as (a & b & c & Hn & _ & _ & _ & Hp & Ho & _).
  rewrite wave2_verified. split; [exact Ho|]. exists a, b, c. exact (conj Hn Hp).
Defined.
