(* ===== verification/GoPublicKeys.v ===== *)
(** * Public keys

    What the code uses of math/big, crypto/rsa, crypto/ecdsa and
    crypto/elliptic: the bytes of an integer, RSA signatures with the padding
    of PKCS #1 v1.5 over SHA-256 and ECDSA signatures over P-256. *)

From stdpp Require Import strings list.
From Stdlib Require Import ZArith Ascii Lia.
From S2P Require Import Prelude GoString GoTime GoSha256 GoCrypto.

#[local] Open Scope Z_scope.

(** ** [big.Int] *)

Definition BitLen (z : Z) : Z := if z =? 0 then 0 else Z.log2 (Z.abs z) + 1.

(** The bytes a magnitude needs. *)
Definition byte_len (z : Z) : nat := Z.to_nat ((BitLen z + 7) / 8).

Definition Int_Bytes (z : Z) : list Z := be_bytes (byte_len z) (Z.abs z).

Definition Int_SetBytes : list Z -> Z := be_value.

Lemma byte_len_enough z : Z.abs z < 256 ^ Z.of_nat (byte_len z).
Proof.
  unfold byte_len, BitLen. destruct (Z.eqb_spec z 0) as [->|Hz]; [done|].
  assert (0 <= Z.log2 (Z.abs z)) as Hl by apply Z.log2_nonneg.
  rewrite Z2Nat.id by (apply Z.div_pos; lia).
  change 256 with (2 ^ 8). rewrite <- Z.pow_mul_r by (try apply Z.div_pos; lia).
  eapply Z.lt_le_trans; [apply Z.log2_spec; lia|].
  apply Z.pow_le_mono_r; [lia|]. generalize dependent (Z.log2 (Z.abs z)). intros l Hl.
  Z.to_euclidean_division_equations; lia.
Qed.

Lemma Int_SetBytes_Bytes z : Int_SetBytes (Int_Bytes z) = Z.abs z.
Proof.
  unfold Int_SetBytes, Int_Bytes. rewrite be_value_bytes. apply Z.mod_small.
  split; [lia|apply byte_len_enough].
Qed.

Lemma Int_Bytes_bytes z : Forall is_byte (Int_Bytes z).
Proof. apply be_bytes_bytes. Qed.

Lemma Int_Bytes_length z : length (Int_Bytes z) = byte_len z.
Proof. apply be_bytes_length. Qed.

Lemma byte_len_pos z : z <> 0 -> (0 < byte_len z)%nat.
Proof.
  intros Hz. unfold byte_len, BitLen. destruct (Z.eqb_spec z 0); [done|].
  pose proof (Z.log2_nonneg (Z.abs z)) as Hl. generalize dependent (Z.log2 (Z.abs z)). intros l Hl.
  apply Nat2Z.inj_lt. rewrite Z2Nat.id by (apply Z.div_pos; lia). Z.to_euclidean_division_equations; lia.
Qed.

Lemma byte_len_bound z n : Z.abs z < 256 ^ Z.of_nat n -> (byte_len z <= n)%nat.
Proof.
  intros Hz. unfold byte_len, BitLen. destruct (Z.eqb_spec z 0) as [->|Hne]; [apply Nat.le_0_l|].
  change 256 with (2 ^ 8) in Hz. rewrite <- Z.pow_mul_r in Hz by lia.
  apply Z.log2_lt_pow2 in Hz; [|lia]. apply Nat2Z.inj_le.
  pose proof (Z.log2_nonneg (Z.abs z)) as Hl. generalize dependent (Z.log2 (Z.abs z)). intros l ? Hl.
  rewrite Z2Nat.id by (apply Z.div_pos; lia). Z.to_euclidean_division_equations; lia.
Qed.

Lemma be_value_zeros n bytes : be_value (repeat 0 n ++ bytes) = be_value bytes.
Proof.
  unfold be_value. rewrite foldl_app. f_equal. induction n as [|n IH]; [done|exact IH].
Qed.

(** ** Modular exponentiation *)

Fixpoint pow_mod (b : Z) (e : positive) (m : Z) : Z :=
  match e with
  | xH => b mod m
  | xO e => let h := pow_mod b e m in h * h mod m
  | xI e => let h := pow_mod b e m in (h * h mod m) * b mod m
  end.

Lemma pow_mod_spec b e m : 0 < m -> pow_mod b e m = b ^ Zpos e mod m.
Proof.
  intros Hm. induction e as [e IH|e IH|]; cbn [pow_mod].
  - rewrite IH, <- Zmult_mod, Zmult_mod_idemp_l.
    replace (Zpos e~1) with (Zpos e + Zpos e + 1) by lia. by rewrite !Z.pow_add_r, Z.pow_1_r by lia.
  - rewrite IH, <- Zmult_mod. replace (Zpos e~0) with (Zpos e + Zpos e) by lia. by rewrite Z.pow_add_r by lia.
  - by rewrite Z.pow_1_r.
Qed.

(** ** RSA *)

(** The ASN.1 prefix of a SHA-256 digest. *)
Definition sha256_prefix : list Z :=
  [48; 49; 48; 13; 6; 9; 96; 134; 72; 1; 101; 3; 4; 2; 1; 5; 0; 4; 32].

(** A digest padded to [k] bytes. *)
Definition pkcs1_encoded (k : nat) (digest : list Z) : list Z :=
  [0; 1] ++ repeat 255 (k - (length digest + 22)) ++ [0] ++ sha256_prefix ++ digest.

Record rsa_PublicKey := { rsa_N : option Z; rsa_E : Z }.

(** [rsa.VerifyPKCS1v15] of a SHA-256 digest: whether it answers no error.  The
    sign of a modulus is not looked at.  A nil key, on which Go panics, is an
    error here; the keys the code verifies with are not nil. *)
Definition VerifyPKCS1v15 (pub : option rsa_PublicKey) (digest signature : list Z) : bool :=
  match pub with
  | Some {| rsa_N := Some modulus; rsa_E := exponent |} =>
      let modulus := Z.abs modulus in
      let k := byte_len modulus in
      (1024 <=? BitLen modulus) && Z.odd modulus &&
      (2 <=? exponent) && Z.odd exponent && (exponent <=? 2147483647) &&
      (length signature =? k)%nat && (be_value signature <? modulus) &&
      (length digest + 30 <=? k)%nat &&
      bool_decide (be_bytes k (pow_mod (be_value signature) (Z.to_pos exponent) modulus) =
                   pkcs1_encoded k digest)
  | _ => false
  end.

(** ** The curve P-256 *)

Definition p256_p : Z := 2 ^ 256 - 2 ^ 224 + 2 ^ 192 + 2 ^ 96 - 1.
Definition p256_b : Z := 0x5ac635d8aa3a93e7b3ebbd55769886bc651d06b0cc53b0f63bce3c3e27d2604b.
Definition p256_n : Z := 0xffffffff00000000ffffffffffffffffbce6faada7179e84f3b9cac2fc632551.
Definition p256_G : Z * Z :=
  (0x6b17d1f2e12c4247f8bce6e563a440f277037d812deb33a0f4a13945d898c296,
   0x4fe342e2fe1a7f9b8ee7eb4a7c0f9e162bce33576b315ececbb6406837bf51f5).

(** [Curve.IsOnCurve] *)
Definition P256_IsOnCurve (x y : Z) : bool :=
  (0 <=? x) && (x <? p256_p) && (0 <=? y) && (y <? p256_p) &&
  (y * y mod p256_p =? (x * x * x - 3 * x + p256_b) mod p256_p).

(** Points are [None], the point at infinity, or affine. *)
Definition inverse_mod (z m : Z) : Z := pow_mod z (Z.to_pos (m - 2)) m.

Definition p256_add (a b : option (Z * Z)) : option (Z * Z) :=
  match a, b with
  | None, c | c, None => c
  | Some (x1, y1), Some (x2, y2) =>
      if (x1 =? x2) && ((y1 + y2) mod p256_p =? 0) then None else
      let slope := if x1 =? x2
        then (3 * x1 * x1 - 3) * inverse_mod (2 * y1) p256_p
        else (y2 - y1) * inverse_mod (x2 - x1) p256_p in
      let x := (slope * slope - x1 - x2) mod p256_p in
      Some (x, (slope * (x1 - x) - y1) mod p256_p)
  end.

Fixpoint p256_mult (k : positive) (a : option (Z * Z)) : option (Z * Z) :=
  match k with
  | xH => a
  | xO k => let h := p256_mult k a in p256_add h h
  | xI k => let h := p256_mult k a in p256_add (p256_add h h) a
  end.

Definition p256_scalar (k : Z) (a : option (Z * Z)) : option (Z * Z) :=
  if k <=? 0 then None else p256_mult (Z.to_pos k) a.

(** The curves of crypto/elliptic.  The code looks at the name of a curve and
    uses no other than P-256. *)
Inductive Curve := P256 | P224 | P384 | P521.

Definition Params_Name (curve : Curve) : string :=
  match curve with P256 => "P-256" | P224 => "P-224" | P384 => "P-384" | P521 => "P-521" end.

Record ecdsa_PublicKey := { ec_Curve : option Curve; ec_X : option Z; ec_Y : option Z }.

Definition p256_verify (x y : Z) (digest : list Z) (r s : Z) : bool :=
  P256_IsOnCurve x y && (0 <? r) && (r <? p256_n) && (0 <? s) && (s <? p256_n) &&
  let w := inverse_mod s p256_n in
  let e := be_value digest in
  match p256_add (p256_scalar (e * w mod p256_n) (Some p256_G))
                 (p256_scalar (r * w mod p256_n) (Some (x, y))) with
  | None => false
  | Some (px, _) => px mod p256_n =? r
  end.

(** [ecdsa.Verify] of a SHA-256 digest with a key of the curve P-256; the code
    verifies with no other key. *)
Definition ecdsa_Verify (pub : option ecdsa_PublicKey) (digest : list Z) (r s : Z) : bool :=
  match pub with
  | Some {| ec_Curve := Some P256; ec_X := Some x; ec_Y := Some y |} => p256_verify x y digest r s
  | _ => false
  end.
