(* ===== verification/IdentityTokens.v ===== *)
(** * Identity: runtimes, keys and tokens

    pkg/identity: identity.go, jwt.go, discovery_jwks.go and jwks_parse.go.  The
    header and the claims of a token are the members of a JSON object; a missing
    member is [None].  An interface value that holds a public key is one of the
    two kinds the package knows, each a pointer that may be nil, or another. *)

From stdpp Require Import gmap strings list.
From Stdlib Require Import ZArith Ascii Lia.
From S2P Require Import Prelude GoString GoTime GoSha256 GoCrypto GoHttp GoJson StrictJson GoPublicKeys.

#[local] Open Scope Z_scope.

(** ** [time.Time.Add] at the edge, and [strconv.Quote]

    A token chooses its times, so the sum of seconds can leave 64 bits; [Add]
    then stops at the bound and keeps the nanoseconds. *)

Definition Add (t : Time) (d : Duration) : Time :=
  let seconds := (t + d) / Second in
  let seconds := if max_int64 <? seconds then max_int64
                 else if seconds <? min_int64 then - max_int64 else seconds in
  seconds * Second + (t + d) mod Second.

(** The %q verb, on ASCII; other bytes are written as they are. *)
Definition quote_char (c : ascii) : string :=
  let short (e : ascii) := String backslash (String e EmptyString) in
  let n := code c in
  if Ascii.eqb c quote || Ascii.eqb c backslash then short c
  else if (n =? 7)%nat then short "a"%char else if (n =? 8)%nat then short "b"%char
  else if (n =? 12)%nat then short "f"%char else if (n =? 10)%nat then short "n"%char
  else if (n =? 13)%nat then short "r"%char else if (n =? 9)%nat then short "t"%char
  else if (n =? 11)%nat then short "v"%char
  else if (n <? 32)%nat || (n =? 127)%nat
  then String backslash (String "x"%char (String (hex_char (n / 16)) (String (hex_char (n mod 16)) EmptyString)))
  else String c EmptyString.

Fixpoint quote_chars (s : string) : string :=
  match s with EmptyString => EmptyString | String c s => quote_char c +:+ quote_chars s end.

Definition Quote (s : string) : string :=
  String quote (quote_chars s +:+ String quote EmptyString).

(** ** Configuration *)

Definition errJWTRejected : goerror := errors_New "jwt rejected".

Inductive PublicKey :=
  | RSAKey (key : option rsa_PublicKey)
  | ECDSAKey (key : option ecdsa_PublicKey)
  | OtherKey.

Record SigningKey := {
  sk_KeyID : string; sk_Algorithm : string; sk_PublicKey : PublicKey;
  sk_ActiveFrom : Time; sk_ActiveUntil : Time
}.

Record RuntimeConfig := {
  idc_Issuer : string; idc_AuthorizationEndpoint : string; idc_TokenEndpoint : string;
  idc_JWKSURI : string; idc_Audience : string; idc_AuthorizedParty : string;
  idc_ExpectedJOSEType : string; idc_JWTClassClaim : string; idc_ExpectedJWTClass : string;
  idc_AllowedAlgorithms : list string; idc_RequiredClaims : list string;
  idc_GroupsClaim : string; idc_NamespacesClaim : string; idc_TokenMaxLifetime : Duration;
  idc_ClockSkew : Duration; idc_JWKSCacheTTL : Duration; idc_RotationOverlap : Duration;
  idc_Keys : list SigningKey
}.

Record Runtime := { rt_config : RuntimeConfig }.

Definition isAllowedAlgorithm (allowed : list string) (alg : string) : bool :=
  existsb (fun value => value == alg) allowed.

Definition containsString (values : list string) (want : string) : bool :=
  existsb (fun value => value == want) values.

Definition containsAnyString (values candidates : list string) : bool :=
  existsb (fun candidate => containsString values candidate) candidates.

(** ** Published keys *)

Record JWK := {
  jwk_KTY : string; jwk_Use : string; jwk_KID : string; jwk_Alg : string;
  jwk_N : string; jwk_E : string; jwk_Crv : string; jwk_X : string; jwk_Y : string
}.

Record JWKS := { jwks_Keys : list JWK }.

Definition fixedWidthBytes (value : Z) (width : nat) : list Z :=
  let raw := Int_Bytes value in
  if (width <=? length raw)%nat then raw else repeat 0 (width - length raw) ++ raw.

Definition publicJWK (key : SigningKey) : result JWK :=
  let weak := Err (errors_New ("rsa key " +:+ Quote (sk_KeyID key) +:+
    " must be at least 2048 bits with a safe odd exponent")) in
  let wrong_curve := Err (errors_New ("ecdsa key " +:+ Quote (sk_KeyID key) +:+ " must use ES256 P-256")) in
  match sk_PublicKey key with
  | RSAKey (Some {| rsa_N := Some modulus; rsa_E := exponent |}) =>
      if (BitLen modulus <? 2048) || (exponent <? 65537) || (Z.rem exponent 2 =? 0) then weak
      else if sk_Algorithm key != "RS256"
      then Err (errors_New ("rsa key " +:+ Quote (sk_KeyID key) +:+ " must use RS256"))
      else Ok {| jwk_KTY := "RSA"; jwk_Use := "sig"; jwk_KID := sk_KeyID key;
                 jwk_Alg := sk_Algorithm key; jwk_N := b64_encode (Int_Bytes modulus);
                 jwk_E := b64_encode (Int_Bytes exponent); jwk_Crv := ""; jwk_X := ""; jwk_Y := "" |}
  | RSAKey _ => weak
  | ECDSAKey (Some {| ec_Curve := Some curve; ec_X := Some x; ec_Y := Some y |}) =>
      if (sk_Algorithm key != "ES256") || (Params_Name curve != "P-256") || negb (P256_IsOnCurve x y)
      then wrong_curve
      else Ok {| jwk_KTY := "EC"; jwk_Use := "sig"; jwk_KID := sk_KeyID key;
                 jwk_Alg := sk_Algorithm key; jwk_N := ""; jwk_E := ""; jwk_Crv := "P-256";
                 jwk_X := b64_encode (fixedWidthBytes x 32); jwk_Y := b64_encode (fixedWidthBytes y 32) |}
  | ECDSAKey _ => wrong_curve
  | OtherKey => Err (errors_New ("unsupported public key type for " +:+ Quote (sk_KeyID key)))
  end.

Definition keyPublished (key : SigningKey) (now : Time) (cacheTTL overlap : Duration) : bool :=
  if negb (IsZero (sk_ActiveFrom key)) &&
     Before now (Add (sk_ActiveFrom key) (int64_wrap (- cacheTTL)))
  then false
  else if IsZero (sk_ActiveUntil key) then true
  else Before now (Add (sk_ActiveUntil key) overlap).

(** The keys that can be written; [publicJWK] fails on none that a runtime
    holds. *)
Definition published_jwk (config : RuntimeConfig) (now : Time) (key : SigningKey) : option JWK :=
  if negb (keyPublished key now (idc_JWKSCacheTTL config) (idc_RotationOverlap config)) then None
  else match publicJWK key with Ok jwk => Some jwk | Err _ => None end.

Definition Runtime_JWKS (runtime : Runtime) (now : Time) : JWKS :=
  {| jwks_Keys := omap (published_jwk (rt_config runtime) now) (idc_Keys (rt_config runtime)) |}.

Definition keyByID (runtime : Runtime) (kid alg : string) (now : Time) : option SigningKey :=
  let config := rt_config runtime in
  List.find (fun key => (sk_KeyID key == kid) && (sk_Algorithm key == alg) &&
    keyPublished key now (idc_JWKSCacheTTL config) (idc_RotationOverlap config)) (idc_Keys config).

(** ** Runtimes *)

Definition endpoint_ok `{NetParsers} (endpoint : string) : bool :=
  match url_Parse endpoint with
  | None => false
  | Some parsed =>
      (url_Scheme parsed == "https") && (url_Host parsed != "") && negb (url_HasUser parsed) &&
      (url_RawQuery parsed == "") && (url_Fragment parsed == "")
  end.

Fixpoint check_algorithms (algorithms : gset string) (allowed : list string) : option goerror :=
  match allowed with
  | [] => None
  | alg :: rest =>
      if (alg != "RS256") && (alg != "ES256")
      then Some (errors_New ("forbidden or unsupported algorithm " +:+ Quote alg))
      else if bool_decide (alg ∈ algorithms)
      then Some (errors_New ("duplicate allowed algorithm " +:+ Quote alg))
      else check_algorithms ({[alg]} ∪ algorithms) rest
  end.

Fixpoint check_claims (required : gset string) (claims : list string) : option goerror :=
  match claims with
  | [] => None
  | claim :: rest =>
      if (claim == "") || bool_decide (claim ∈ required)
      then Some (errors_New ("required claim " +:+ Quote claim +:+ " is empty or duplicated"))
      else check_claims ({[claim]} ∪ required) rest
  end.

Fixpoint check_keys (allowed : list string) (keyIDs : gset string) (keys : list SigningKey)
  : option goerror :=
  match keys with
  | [] => None
  | key :: rest =>
      if sk_KeyID key == "" then Some (errors_New "signing key id is required")
      else if bool_decide (sk_KeyID key ∈ keyIDs)
      then Some (errors_New ("duplicate signing key id " +:+ Quote (sk_KeyID key)))
      else if negb (isAllowedAlgorithm allowed (sk_Algorithm key))
      then Some (errors_New ("signing key " +:+ Quote (sk_KeyID key) +:+
             " uses disallowed algorithm " +:+ Quote (sk_Algorithm key)))
      else if negb (IsZero (sk_ActiveFrom key)) && negb (IsZero (sk_ActiveUntil key)) &&
              negb (Before (sk_ActiveFrom key) (sk_ActiveUntil key))
      then Some (errors_New ("signing key " +:+ Quote (sk_KeyID key) +:+ " activation window is invalid"))
      else match publicJWK key with
           | Err err => Some err
           | Ok _ => check_keys allowed ({[sk_KeyID key]} ∪ keyIDs) rest
           end
  end.

(** The texts a configuration must have, by their labels. *)
Definition required_texts (config : RuntimeConfig) : gmap string string := list_to_map [
  ("issuer", idc_Issuer config); ("authorization endpoint", idc_AuthorizationEndpoint config);
  ("token endpoint", idc_TokenEndpoint config); ("jwks uri", idc_JWKSURI config);
  ("audience", idc_Audience config); ("authorized party", idc_AuthorizedParty config);
  ("expected jose type", idc_ExpectedJOSEType config); ("jwt class claim", idc_JWTClassClaim config);
  ("expected jwt class", idc_ExpectedJWTClass config); ("groups claim", idc_GroupsClaim config);
  ("namespaces claim", idc_NamespacesClaim config)].

Definition required_claims (config : RuntimeConfig) : list string :=
  ["iss"; "aud"; "azp"; "exp"; "iat"; "sub"; idc_JWTClassClaim config; idc_GroupsClaim config;
   idc_NamespacesClaim config].

Definition validateRuntimeConfig `{NetParsers} (config : RuntimeConfig) : option goerror :=
  match map_first_error (fun label value =>
    if value == "" then Some (errors_New (label +:+ " is required")) else None)
    (required_texts config) with
  | Some err => Some err
  | None =>
  if ((idc_ExpectedJWTClass config == "id") && (idc_ExpectedJOSEType config != "JWT")) ||
     ((idc_ExpectedJWTClass config == "access") && (idc_ExpectedJOSEType config != "at+jwt")) ||
     ((idc_ExpectedJWTClass config != "id") && (idc_ExpectedJWTClass config != "access"))
  then Some (errors_New "jwt class and JOSE type must form an explicit id or access profile")
  else match first_error (fun endpoint => if endpoint_ok endpoint then None
      else Some (errors_New ("identity endpoint must be an https URL: " +:+ Quote endpoint)))
    [idc_Issuer config; idc_AuthorizationEndpoint config; idc_TokenEndpoint config; idc_JWKSURI config] with
  | Some err => Some err
  | None =>
  if (length (idc_AllowedAlgorithms config) =? 0)%nat
  then Some (errors_New "at least one asymmetric algorithm is required")
  else match check_algorithms ∅ (idc_AllowedAlgorithms config) with
  | Some err => Some err
  | None =>
  match check_claims ∅ (idc_RequiredClaims config) with
  | Some err => Some err
  | None =>
  match first_error (fun claim => if containsString (idc_RequiredClaims config) claim then None
      else Some (errors_New ("required claim " +:+ Quote claim +:+ " is missing from policy")))
    (required_claims config) with
  | Some err => Some err
  | None =>
  if (idc_TokenMaxLifetime config <=? 0) || (idc_ClockSkew config <? 0) ||
     (idc_JWKSCacheTTL config <=? 0) || (idc_RotationOverlap config <=? 0)
  then Some (errors_New "token, skew, cache, and rotation durations must be configured")
  else if idc_RotationOverlap config <? duration_add (idc_TokenMaxLifetime config) (idc_ClockSkew config)
  then Some (errors_New "rotation overlap must cover the maximum token lifetime plus verification clock skew")
  else if (length (idc_Keys config) =? 0)%nat
  then Some (errors_New "at least one signing key is required")
  else check_keys (idc_AllowedAlgorithms config) ∅ (idc_Keys config)
  end end end end end.

(** A copy of a key is the key; a nil part makes it the nil pointer. *)
Definition clonePublicKey (publicKey : PublicKey) : PublicKey :=
  match publicKey with
  | RSAKey (Some {| rsa_N := Some n; rsa_E := e |}) => RSAKey (Some {| rsa_N := Some n; rsa_E := e |})
  | RSAKey _ => RSAKey None
  | ECDSAKey (Some {| ec_Curve := curve; ec_X := Some x; ec_Y := Some y |}) =>
      ECDSAKey (Some {| ec_Curve := curve; ec_X := Some x; ec_Y := Some y |})
  | ECDSAKey _ => ECDSAKey None
  | OtherKey => OtherKey
  end.

Definition clone_key (key : SigningKey) : SigningKey :=
  {| sk_KeyID := sk_KeyID key; sk_Algorithm := sk_Algorithm key;
     sk_PublicKey := clonePublicKey (sk_PublicKey key);
     sk_ActiveFrom := sk_ActiveFrom key; sk_ActiveUntil := sk_ActiveUntil key |}.

Definition normalizeConfig (config : RuntimeConfig) : RuntimeConfig :=
  {| idc_Issuer := idc_Issuer config; idc_AuthorizationEndpoint := idc_AuthorizationEndpoint config;
     idc_TokenEndpoint := idc_TokenEndpoint config; idc_JWKSURI := idc_JWKSURI config;
     idc_Audience := idc_Audience config; idc_AuthorizedParty := idc_AuthorizedParty config;
     idc_ExpectedJOSEType := idc_ExpectedJOSEType config; idc_JWTClassClaim := idc_JWTClassClaim config;
     idc_ExpectedJWTClass := idc_ExpectedJWTClass config;
     idc_AllowedAlgorithms := idc_AllowedAlgorithms config;
     idc_RequiredClaims := idc_RequiredClaims config; idc_GroupsClaim := idc_GroupsClaim config;
     idc_NamespacesClaim := idc_NamespacesClaim config;
     idc_TokenMaxLifetime := idc_TokenMaxLifetime config; idc_ClockSkew := idc_ClockSkew config;
     idc_JWKSCacheTTL := idc_JWKSCacheTTL config; idc_RotationOverlap := idc_RotationOverlap config;
     idc_Keys := List.map clone_key (idc_Keys config) |}.

Definition NewRuntime `{NetParsers} (config : RuntimeConfig) : result Runtime :=
  match validateRuntimeConfig config with
  | Some err => Err err
  | None => Ok {| rt_config := normalizeConfig config |}
  end.

(** ** Tokens *)

Definition maxCompactJWTBytes : Z := Z.shiftl 64 10.
Definition maxEncodedJWTSegmentBytes : Z := Z.shiftl 24 10.

Record VerifiedClaims := {
  vc_Issuer : string; vc_Audience : list string; vc_ExpiresAt : Time; vc_IssuedAt : Time;
  vc_Subject : string; vc_Nonce : string; vc_Groups : list string; vc_Namespaces : list string
}.

(** The members of an object, as a Go map from strings to any value. *)
Definition Members : Type := gmap string json.

Definition add_member (ms : Members) (m : string * json) : Members := <[m.1 := m.2]> ms.

Fixpoint assign_members (current : Members) (values : list json) : option Members :=
  match values with
  | [] => Some current
  | JNull :: rest => assign_members ∅ rest
  | JObject ms :: rest => assign_members (foldl add_member current ms) rest
  | _ :: _ => None
  end.

#[export] Instance unmarshal_members : Unmarshal Members := fun _ => assign_members ∅.

(** The assertion of a value to a string: the empty string when it is none. *)
Definition as_string (value : option json) : string :=
  match value with Some (JString s) => s | _ => "" end.

Definition decodeJSONSegment (segment : string) : result Members :=
  if (len segment =? 0)%nat || (maxEncodedJWTSegmentBytes <? Z.of_nat (len segment))
  then Err (errors_New "jwt JSON segment size is invalid")
  else match b64_decode segment with
       | None => Err (errors_New "illegal base64 data")
       | Some data => Decode (bytes_string data)
       end.

Definition numericTime (value : option json) : result Time :=
  match value with
  | Some (JNumber typed) =>
      match ParseInt typed with
      | None => Err (errors_New "strconv.ParseInt")
      | Some integer => Ok (time_Unix integer)
      end
  | _ => Err (errors_New "claim is not numeric")
  end.

Fixpoint claim_items (items : list json) : result (list string) :=
  match items with
  | [] => Ok []
  | JString text :: rest =>
      if text == "" then Err (errors_New "non-string claim item")
      else match claim_items rest with
           | Ok values => Ok (text :: values)
           | Err err => Err err
           end
  | _ :: _ => Err (errors_New "non-string claim item")
  end.

(** A decoder makes no [[]string]: the case for it is not reached. *)
Definition claimStrings (value : option json) : result (list string) :=
  match value with
  | Some (JString typed) =>
      if typed == "" then Err (errors_New "empty string claim") else Ok [typed]
  | Some (JArray typed) => claim_items typed
  | _ => Err (errors_New "claim is not string or string array")
  end.

Definition verifySignature (alg : string) (publicKey : PublicKey) (signingInput : string)
    (signature : list Z) : option goerror :=
  let digest := Sum256 signingInput in
  let wrong_type := Some (Errorf_w "wrong public key type: " errJWTRejected) in
  let invalid := Some (Errorf_w "invalid jwt signature: " errJWTRejected) in
  if alg == "RS256" then
    match publicKey with
    | RSAKey pub => if VerifyPKCS1v15 pub digest signature then None else invalid
    | _ => wrong_type
    end
  else if alg == "ES256" then
    match publicKey with
    | ECDSAKey pub =>
        if negb (length signature =? 64)%nat then invalid
        else
        let r := Int_SetBytes (take 32 signature) in
        let s := Int_SetBytes (drop 32 signature) in
        if ecdsa_Verify pub digest r s then None else invalid
    | _ => wrong_type
    end
  else Some (Errorf_w ("unsupported jwt algorithm " +:+ Quote alg +:+ ": ") errJWTRejected).

Definition issuedWithinSigningWindow (key : SigningKey) (issuedAt : Time) : bool :=
  if negb (IsZero (sk_ActiveFrom key)) && Before issuedAt (sk_ActiveFrom key) then false
  else if negb (IsZero (sk_ActiveUntil key)) && negb (Before issuedAt (sk_ActiveUntil key)) then false
  else true.

Definition validateClaims (runtime : Runtime) (raw : Members) (now : Time) : result VerifiedClaims :=
  let config := rt_config runtime in
  let rejected prefix := Err (Errorf_w prefix errJWTRejected) in
  match first_error (fun claim => match raw !! claim with
      | Some _ => None
      | None => Some (Errorf_w ("missing required claim " +:+ Quote claim +:+ ": ") errJWTRejected)
      end) (idc_RequiredClaims config) with
  | Some err => Err err
  | None =>
  let issuer := as_string (raw !! "iss") in
  if issuer != idc_Issuer config then rejected "wrong issuer: " else
  match claimStrings (raw !! "aud") with
  | Err _ => rejected "wrong audience: "
  | Ok audiences =>
  if negb (containsString audiences (idc_Audience config)) then rejected "wrong audience: " else
  let authorizedParty := as_string (raw !! "azp") in
  if authorizedParty != idc_AuthorizedParty config then rejected "wrong authorized party: " else
  let jwtClass := as_string (raw !! idc_JWTClassClaim config) in
  if jwtClass != idc_ExpectedJWTClass config then rejected "wrong jwt class: " else
  match numericTime (raw !! "exp") with
  | Err _ => rejected "invalid exp claim: "
  | Ok exp =>
  if negb (Before now (Add exp (idc_ClockSkew config))) then rejected "expired JWT: " else
  match numericTime (raw !! "iat") with
  | Err _ => rejected "invalid iat claim: "
  | Ok iat =>
  if After iat (Add now (idc_ClockSkew config)) then rejected "iat in future: " else
  if negb (After exp iat) then rejected "exp must be after iat: " else
  if match raw !! "nbf" with
     | None => false
     | Some rawNotBefore =>
         match numericTime (Some rawNotBefore) with
         | Err _ => true
         | Ok notBefore => Before (Add now (idc_ClockSkew config)) notBefore
         end
     end
  then rejected "invalid or future nbf claim: " else
  if (0 <? idc_TokenMaxLifetime config) && (idc_TokenMaxLifetime config <? time_Sub exp iat)
  then rejected "token lifetime exceeds policy: " else
  let subject := as_string (raw !! "sub") in
  if subject == "" then rejected "missing subject: " else
  let nonce := as_string (raw !! "nonce") in
  match claimStrings (raw !! idc_GroupsClaim config) with
  | Err _ | Ok [] => rejected "missing groups claim: "
  | Ok groups =>
  match claimStrings (raw !! idc_NamespacesClaim config) with
  | Err _ | Ok [] => rejected "missing namespace claim: "
  | Ok namespaces =>
      Ok {| vc_Issuer := issuer; vc_Audience := audiences; vc_ExpiresAt := exp; vc_IssuedAt := iat;
            vc_Subject := subject; vc_Nonce := nonce; vc_Groups := groups;
            vc_Namespaces := namespaces |}
  end end end end end end.

Definition VerifyJWT (runtime : Runtime) (token : string) (now : Time) : result VerifiedClaims :=
  let config := rt_config runtime in
  let rejected prefix := Err (Errorf_w prefix errJWTRejected) in
  if (len token =? 0)%nat || (maxCompactJWTBytes <? Z.of_nat (len token))
  then rejected "compact jwt size is invalid: " else
  match Split_char "."%char token with
  | [part0; part1; part2] =>
      match decodeJSONSegment part0 with
      | Err _ => rejected "invalid jwt header: "
      | Ok header =>
      let alg := as_string (header !! "alg") in
      let kid := as_string (header !! "kid") in
      let typ := as_string (header !! "typ") in
      match header !! "crit" with
      | Some _ => rejected "critical jwt headers are unsupported: "
      | None =>
      if (alg == "") || (alg == "none") || (alg == "HS256") ||
         negb (isAllowedAlgorithm (idc_AllowedAlgorithms config) alg)
      then rejected ("forbidden jwt algorithm " +:+ Quote alg +:+ ": ") else
      if kid == "" then rejected "missing jwt kid: " else
      if typ != idc_ExpectedJOSEType config
      then rejected ("wrong jwt JOSE type " +:+ Quote typ +:+ ": ") else
      match keyByID runtime kid alg now with
      | None => rejected ("unknown jwt kid " +:+ Quote kid +:+ ": ")
      | Some key =>
      let signingInput := part0 +:+ "." +:+ part1 in
      match b64_decode part2 with
      | None => rejected "invalid jwt signature encoding: "
      | Some signature =>
      match verifySignature alg (sk_PublicKey key) signingInput signature with
      | Some err => Err err
      | None =>
      match decodeJSONSegment part1 with
      | Err _ => rejected "invalid jwt claims: "
      | Ok rawClaims =>
      match validateClaims runtime rawClaims now with
      | Err err => Err err
      | Ok claims =>
          if negb (issuedWithinSigningWindow key (vc_IssuedAt claims))
          then rejected "jwt issued outside signing-key activation window: "
          else Ok claims
      end end end end end end end
  | _ => rejected "compact jwt must have three parts: "
  end.

Definition maxAuthorizationValue : nat := 4 * 1024.

Definition validOpaqueAuthorizationValue (value : string) : bool :=
  (value != "") && (len value <=? maxAuthorizationValue)%nat &&
  negb (any_char (fun c => is_char 0 c || is_char 13 c || is_char 10 c) value).

Definition VerifyIDToken (runtime : Runtime) (token : string) (now : Time) (expectedNonce : string)
  : result VerifiedClaims :=
  if negb (validOpaqueAuthorizationValue expectedNonce)
  then Err (Errorf_w "expected nonce is invalid: " errJWTRejected)
  else match VerifyJWT runtime token now with
  | Err err => Err err
  | Ok claims =>
      if negb (len (vc_Nonce claims) =? len expectedNonce)%nat || (vc_Nonce claims != expectedNonce)
      then Err (Errorf_w "id token nonce mismatch: " errJWTRejected)
      else Ok claims
  end.

(** ** Reading published keys (jwks_parse.go) *)

Definition decode_part (what kid part : string) : result (list Z) :=
  match b64_decode part with
  | None => Err (Errorf_w ("decode " +:+ what +:+ " for " +:+ Quote kid +:+ ": ") (errors_New "illegal base64 data"))
  | Some data => Ok data
  end.

Definition rsaPublicKeyFromJWK (jwk : JWK) : result rsa_PublicKey :=
  if (jwk_Alg jwk != "RS256") || (jwk_N jwk == "") || (jwk_E jwk == "")
  then Err (errors_New ("rsa jwk " +:+ Quote (jwk_KID jwk) +:+ " must declare RS256 modulus and exponent"))
  else match decode_part "rsa modulus" (jwk_KID jwk) (jwk_N jwk) with
  | Err err => Err err
  | Ok modulus =>
  match decode_part "rsa exponent" (jwk_KID jwk) (jwk_E jwk) with
  | Err err => Err err
  | Ok exponent =>
      let exponentValue := Int_SetBytes exponent in
      if (max_int64 <? exponentValue) || (2147483647 <? exponentValue)
      then Err (errors_New ("rsa jwk " +:+ Quote (jwk_KID jwk) +:+ " has invalid exponent"))
      else
      let e := exponentValue in
      let modulusValue := Int_SetBytes modulus in
      if (BitLen modulusValue <? 2048) || (e <? 65537) || (Z.rem e 2 =? 0)
      then Err (errors_New ("rsa jwk " +:+ Quote (jwk_KID jwk) +:+ " has a weak modulus or unsafe exponent"))
      else Ok {| rsa_N := Some modulusValue; rsa_E := e |}
  end end.

Definition ecdsaPublicKeyFromJWK (jwk : JWK) : result ecdsa_PublicKey :=
  if (jwk_Alg jwk != "ES256") || (jwk_Crv jwk != "P-256") || (jwk_X jwk == "") || (jwk_Y jwk == "")
  then Err (errors_New ("ecdsa jwk " +:+ Quote (jwk_KID jwk) +:+ " must declare ES256 P-256 coordinates"))
  else match decode_part "ecdsa x" (jwk_KID jwk) (jwk_X jwk) with
  | Err err => Err err
  | Ok x =>
  match decode_part "ecdsa y" (jwk_KID jwk) (jwk_Y jwk) with
  | Err err => Err err
  | Ok y =>
      if negb (length x =? 32)%nat || negb (length y =? 32)%nat
      then Err (errors_New ("ecdsa jwk " +:+ Quote (jwk_KID jwk) +:+ " coordinates must be 32 bytes"))
      else if negb (P256_IsOnCurve (Int_SetBytes x) (Int_SetBytes y))
      then Err (errors_New ("ecdsa jwk " +:+ Quote (jwk_KID jwk) +:+ " point is not on P-256"))
      else Ok {| ec_Curve := Some P256; ec_X := Some (Int_SetBytes x); ec_Y := Some (Int_SetBytes y) |}
  end end.

Definition unbounded_key (jwk : JWK) (key : PublicKey) : SigningKey :=
  {| sk_KeyID := jwk_KID jwk; sk_Algorithm := jwk_Alg jwk; sk_PublicKey := key;
     sk_ActiveFrom := time_zero; sk_ActiveUntil := time_zero |}.

Definition signingKeyFromJWK (jwk : JWK) : result SigningKey :=
  if (jwk_KID jwk == "") || (jwk_Alg jwk == "") then Err (errors_New "jwk kid and alg are required")
  else if (jwk_Use jwk != "") && (jwk_Use jwk != "sig")
  then Err (errors_New ("jwk " +:+ Quote (jwk_KID jwk) +:+ " is not a signing key"))
  else if jwk_KTY jwk == "RSA" then
    match rsaPublicKeyFromJWK jwk with
    | Err err => Err err
    | Ok key => Ok (unbounded_key jwk (RSAKey (Some key)))
    end
  else if jwk_KTY jwk == "EC" then
    match ecdsaPublicKeyFromJWK jwk with
    | Err err => Err err
    | Ok key => Ok (unbounded_key jwk (ECDSAKey (Some key)))
    end
  else Err (errors_New ("unsupported jwk kty " +:+ Quote (jwk_KTY jwk))).

Fixpoint read_keys (keyIDs : gset string) (jwks : list JWK) : result (list SigningKey) :=
  match jwks with
  | [] => Ok []
  | jwk :: rest =>
      if bool_decide (jwk_KID jwk ∈ keyIDs)
      then Err (errors_New ("duplicate jwk kid " +:+ Quote (jwk_KID jwk)))
      else match signingKeyFromJWK jwk with
      | Err err => Err err
      | Ok key =>
          match read_keys ({[jwk_KID jwk]} ∪ keyIDs) rest with
          | Err err => Err err
          | Ok keys => Ok (key :: keys)
          end
      end
  end.

Definition SigningKeysFromJWKS (jwks : JWKS) : result (list SigningKey) :=
  match read_keys ∅ (jwks_Keys jwks) with
  | Err err => Err err
  | Ok [] => Err (errors_New "jwks must contain at least one signing key")
  | Ok keys => Ok keys
  end.

(** ** Discovery *)

Record DiscoveryMetadata := {
  dm_Issuer : string; dm_AuthorizationEndpoint : string; dm_TokenEndpoint : string;
  dm_JWKSURI : string; dm_ResponseTypesSupported : list string;
  dm_SubjectTypesSupported : list string; dm_IDTokenSigningAlgValuesSupported : list string;
  dm_TokenEndpointAuthMethodsSupported : list string; dm_ClaimsSupported : list string;
  dm_CodeChallengeMethodsSupported : list string; dm_CloudRINGJWKSCacheTTLSeconds : Z;
  dm_CloudRINGJWKSRotationOverlapSeconds : Z; dm_CloudRINGManagementPanelIAMGate : string;
  dm_CloudRINGBootstrapAdminSecretPolicy : string;
  dm_CloudRINGBrowserWriteCSRFRequirement : string
}.

Definition Discovery (runtime : Runtime) : DiscoveryMetadata :=
  let config := rt_config runtime in
  {| dm_Issuer := idc_Issuer config;
     dm_AuthorizationEndpoint := idc_AuthorizationEndpoint config;
     dm_TokenEndpoint := idc_TokenEndpoint config;
     dm_JWKSURI := idc_JWKSURI config;
     dm_ResponseTypesSupported := ["code"];
     dm_SubjectTypesSupported := ["public"];
     dm_IDTokenSigningAlgValuesSupported := idc_AllowedAlgorithms config;
     dm_TokenEndpointAuthMethodsSupported := ["client_secret_basic"; "private_key_jwt"];
     dm_ClaimsSupported := idc_RequiredClaims config;
     dm_CodeChallengeMethodsSupported := ["S256"];
     dm_CloudRINGJWKSCacheTTLSeconds := duration_div (idc_JWKSCacheTTL config) Second;
     dm_CloudRINGJWKSRotationOverlapSeconds := duration_div (idc_RotationOverlap config) Second;
     dm_CloudRINGManagementPanelIAMGate := "deny-until-authenticated-token-valid-and-iam-allow";
     dm_CloudRINGBootstrapAdminSecretPolicy :=
       "exactly-one-admin-env-or-external-secret-references-only";
     dm_CloudRINGBrowserWriteCSRFRequirement := "required" |}.

Fixpoint unique_strings (seen : gset string) (values : list string) : bool :=
  match values with
  | [] => true
  | value :: rest =>
      if value == "" then false
      else if bool_decide (value ∈ seen) then false
      else unique_strings ({[value]} ∪ seen) rest
  end.

Definition validUniqueStrings (values : list string) : bool :=
  if (length values =? 0)%nat then false else unique_strings ∅ values.

Definition discovery_lists (discovery : DiscoveryMetadata) : gmap string (list string) := list_to_map [
  ("response types", dm_ResponseTypesSupported discovery);
  ("subject types", dm_SubjectTypesSupported discovery);
  ("signing algorithms", dm_IDTokenSigningAlgValuesSupported discovery);
  ("token auth methods", dm_TokenEndpointAuthMethodsSupported discovery);
  ("pkce methods", dm_CodeChallengeMethodsSupported discovery)].

Definition ValidateOIDCDiscovery (runtime : Runtime) (discovery : DiscoveryMetadata) : option goerror :=
  let config := rt_config runtime in
  let rejected prefix := Some (Errorf_w prefix errJWTRejected) in
  if dm_Issuer discovery != idc_Issuer config then rejected "discovery issuer mismatch: "
  else if dm_JWKSURI discovery != idc_JWKSURI config then rejected "discovery jwks uri mismatch: "
  else if dm_AuthorizationEndpoint discovery != idc_AuthorizationEndpoint config
  then rejected "discovery authorization endpoint mismatch: "
  else if dm_TokenEndpoint discovery != idc_TokenEndpoint config
  then rejected "discovery token endpoint mismatch: "
  else match map_first_error (fun label values =>
    if negb (validUniqueStrings values)
    then rejected ("discovery " +:+ label +:+ " contain an empty or duplicate value: ")
    else None) (discovery_lists discovery) with
  | Some err => Some err
  | None =>
  if negb (containsString (dm_ResponseTypesSupported discovery) "code")
  then rejected "discovery does not support authorization code: "
  else if negb (containsAnyString (dm_SubjectTypesSupported discovery) ["public"; "pairwise"])
  then rejected "discovery has no standard subject type: "
  else if negb (containsString (dm_CodeChallengeMethodsSupported discovery) "S256")
  then rejected "discovery does not support PKCE S256: "
  else if negb (containsAnyString (dm_TokenEndpointAuthMethodsSupported discovery)
                  ["none"; "client_secret_basic"; "private_key_jwt"])
  then rejected "discovery has no supported token endpoint authentication method: "
  else if negb (length (dm_ClaimsSupported discovery) =? 0)%nat &&
          negb (validUniqueStrings (dm_ClaimsSupported discovery))
  then rejected "discovery claims contain an empty or duplicate value: "
  else if existsb (containsString (dm_IDTokenSigningAlgValuesSupported discovery))
            (idc_AllowedAlgorithms config)
  then None
  else rejected "discovery has no configured asymmetric signing algorithm: "
  end.

Definition ValidateCloudRINGDiscoveryPolicy (runtime : Runtime) (discovery : DiscoveryMetadata)
  : option goerror :=
  let config := rt_config runtime in
  if negb (dm_CloudRINGJWKSCacheTTLSeconds discovery =? duration_div (idc_JWKSCacheTTL config) Second) ||
     negb (dm_CloudRINGJWKSRotationOverlapSeconds discovery =?
           duration_div (idc_RotationOverlap config) Second) ||
     (dm_CloudRINGManagementPanelIAMGate discovery !=
      "deny-until-authenticated-token-valid-and-iam-allow") ||
     (dm_CloudRINGBootstrapAdminSecretPolicy discovery !=
      "exactly-one-admin-env-or-external-secret-references-only") ||
     (dm_CloudRINGBrowserWriteCSRFRequirement discovery != "required")
  then Some (Errorf_w "cloudring discovery policy mismatch: " errJWTRejected)
  else None.

Definition ValidateDiscovery (runtime : Runtime) (discovery : DiscoveryMetadata) : option goerror :=
  match ValidateOIDCDiscovery runtime discovery with
  | Some err => Some err
  | None => ValidateCloudRINGDiscoveryPolicy runtime discovery
  end.
