(* ===== verification/IdentityFlows.v ===== *)
(** * Identity: authorization flows and the adapter to the policy

    pkg/identity/authorization_code.go, bootstrap.go and management.go, and
    pkg/iam/oidc_verifier.go.  [rand] answers the reads of random bytes by their
    number; [NetParsers] parses URLs. *)

From stdpp Require Import gmap strings list.
From Stdlib Require Import ZArith Ascii Lia.
From S2P Require Import Prelude GoString GoTime GoSort GoSha256 GoCrypto GoHttp GoJson StrictJson IamTypes GoPublicKeys IdentityTokens.

#[local] Open Scope Z_scope.

(** ** [url.Values] as a query *)

Definition unreserved (c : ascii) : bool := alphanumeric c || one_of "-_.~" c.

Definition upper_hex (n : nat) : ascii := ascii_of_nat (if (n <? 10)%nat then 48 + n else 55 + n).

Fixpoint QueryEscape (s : string) : string :=
  match s with
  | EmptyString => EmptyString
  | String c s =>
      if unreserved c then String c (QueryEscape s)
      else if is_char 32 c then String "+"%char (QueryEscape s)
      else String "%"%char (String (upper_hex (code c / 16)) (String (upper_hex (code c mod 16)) (QueryEscape s)))
  end.

Definition key_before (a b : string * list string) : bool := string_lt a.1 b.1.

(** [Values.Encode]: the keys in order, each with its values. *)
Definition Values_Encode (values : Values) : string :=
  Join (flat_map (fun kv => List.map (fun v => QueryEscape kv.1 +:+ "=" +:+ QueryEscape v) kv.2)
    (sort_Slice key_before (map_to_list values))) "&".

Definition Values_Set (values : Values) (key value : string) : Values := <[key := [value]]> values.

(** ** Secrets *)

Definition pkceMethodS256 : string := "S256".
Definition minPKCEVerifierLength : nat := 43.
Definition maxPKCEVerifierLength : nat := 128.
Definition authorizationSecretSize : nat := 32.

Record PKCE := { pkce_Verifier : string; pkce_Challenge : string; pkce_Method : string }.

Record AuthorizationSecrets := { as_State : string; as_Nonce : string; as_PKCE : PKCE }.

Definition validPKCEVerifier (verifier : string) : bool :=
  if (len verifier <? minPKCEVerifierLength)%nat || (maxPKCEVerifierLength <? len verifier)%nat
  then false
  else all_chars unreserved verifier.

Definition PKCEChallenge (verifier : string) : result string :=
  if negb (validPKCEVerifier verifier)
  then Err (errors_New "pkce verifier must contain 43 to 128 unreserved characters")
  else Ok (b64_encode (Sum256 verifier)).

(** The [k]-th read of random bytes. *)
Definition randomAuthorizationValue (rand : nat -> nat -> result (list Z)) (k size : nat)
  : result string :=
  match rand k size with
  | Err err => Err err
  | Ok raw => Ok (b64_encode raw)
  end.

Definition GeneratePKCE (rand : nat -> nat -> result (list Z)) (k : nat) : result PKCE :=
  match randomAuthorizationValue rand k 64 with
  | Err err => Err err
  | Ok verifier =>
      match PKCEChallenge verifier with
      | Err err => Err err
      | Ok challenge =>
          Ok {| pkce_Verifier := verifier; pkce_Challenge := challenge; pkce_Method := pkceMethodS256 |}
      end
  end.

Definition GenerateAuthorizationSecrets (rand : nat -> nat -> result (list Z))
  : result AuthorizationSecrets :=
  match randomAuthorizationValue rand 0 authorizationSecretSize with
  | Err err => Err err
  | Ok state =>
  match randomAuthorizationValue rand 1 authorizationSecretSize with
  | Err err => Err err
  | Ok nonce =>
  match GeneratePKCE rand 2 with
  | Err err => Err err
  | Ok pkce => Ok {| as_State := state; as_Nonce := nonce; as_PKCE := pkce |}
  end end end.

(** ** Requests *)

Record AuthorizationURLRequest := {
  ur_AuthorizationEndpoint : string; ur_ClientID : string; ur_RedirectURI : string;
  ur_Scopes : list string; ur_State : string; ur_Nonce : string; ur_PKCE : PKCE
}.

Record AuthorizationCodeRequest := {
  cr_TokenEndpoint : string; cr_ClientID : string; cr_RedirectURI : string; cr_Code : string;
  cr_PKCEVerifier : string
}.

(** What [parseHTTPSURL] and [BuildAuthorizationURL] change of a parsed URL is
    its path and its query. *)
Record EditedURL := { eu_Parsed : URL; eu_Path : string; eu_RawQuery : string }.

Definition parseHTTPSURL `{NetParsers} (raw : string) (allowPath : bool) : result EditedURL :=
  if (len raw =? 0)%nat || (maxAuthorizationValue <? len raw)%nat
  then Err (errors_New "https URL is required and bounded")
  else
  let refused := Err (errors_New "https URL must not contain credentials, query, or fragment") in
  match url_Parse raw with
  | None => refused
  | Some parsed =>
      if (url_Scheme parsed != "https") || (url_Host parsed == "") || url_HasUser parsed ||
         (url_RawQuery parsed != "") || (url_Fragment parsed != "")
      then refused
      else Ok {| eu_Parsed := parsed;
                 eu_Path := if negb allowPath && (url_Path parsed == "") then "/" else url_Path parsed;
                 eu_RawQuery := url_RawQuery parsed |}
  end.

Definition validateAuthorizationClient `{NetParsers} (clientID redirectURI : string) : option goerror :=
  if negb (validOpaqueAuthorizationValue clientID)
  then Some (errors_New "authorization client id is required and bounded")
  else match parseHTTPSURL redirectURI true with
       | Err err => Some (Errorf_w "redirect uri: " err)
       | Ok _ => None
       end.

Definition scope_space (c : ascii) : bool := is_char 32 c || is_char 9 c || is_char 13 c || is_char 10 c.

Fixpoint check_scopes (seen : gset string) (scopes : list string) : option goerror :=
  match scopes with
  | [] => None
  | scope :: rest =>
      if (scope == "") || any_char scope_space scope
      then Some (errors_New "authorization scope contains an invalid value")
      else if bool_decide (scope ∈ seen)
      then Some (errors_New "authorization scope contains a duplicate value")
      else check_scopes ({[scope]} ∪ seen) rest
  end.

(** [URL.Query] *)
Definition Query (u : EditedURL) : Values := default ∅ (ParseQuery (eu_RawQuery u)).

Definition authorization_values (request : AuthorizationURLRequest) (query : Values) : Values :=
  let query := Values_Set query "response_type" "code" in
  let query := Values_Set query "client_id" (ur_ClientID request) in
  let query := Values_Set query "redirect_uri" (ur_RedirectURI request) in
  let query := Values_Set query "scope" (Join (ur_Scopes request) " ") in
  let query := Values_Set query "state" (ur_State request) in
  let query := Values_Set query "nonce" (ur_Nonce request) in
  let query := Values_Set query "code_challenge" (pkce_Challenge (ur_PKCE request)) in
  Values_Set query "code_challenge_method" pkceMethodS256.

Definition BuildAuthorizationURL `{NetParsers} (request : AuthorizationURLRequest) : result EditedURL :=
  match parseHTTPSURL (ur_AuthorizationEndpoint request) false with
  | Err err => Err (Errorf_w "authorization endpoint: " err)
  | Ok endpoint =>
  match validateAuthorizationClient (ur_ClientID request) (ur_RedirectURI request) with
  | Some err => Err err
  | None =>
  if negb (validOpaqueAuthorizationValue (ur_State request)) ||
     negb (validOpaqueAuthorizationValue (ur_Nonce request))
  then Err (errors_New "authorization state and nonce are required and bounded")
  else if (pkce_Method (ur_PKCE request) != pkceMethodS256) || (pkce_Challenge (ur_PKCE request) == "")
  then Err (errors_New "authorization request requires PKCE S256")
  else if match PKCEChallenge (pkce_Verifier (ur_PKCE request)) with
          | Err _ => true
          | Ok challenge => challenge != pkce_Challenge (ur_PKCE request)
          end
  then Err (errors_New "authorization PKCE verifier and challenge do not match")
  else if (length (ur_Scopes request) =? 0)%nat
  then Err (errors_New "authorization scope is required")
  else match check_scopes ∅ (ur_Scopes request) with
  | Some err => Err err
  | None =>
      Ok {| eu_Parsed := eu_Parsed endpoint; eu_Path := eu_Path endpoint;
            eu_RawQuery := Values_Encode (authorization_values request (Query endpoint)) |}
  end end end.

Definition BuildTokenRequest `{NetParsers} (request : AuthorizationCodeRequest) : result Values :=
  match parseHTTPSURL (cr_TokenEndpoint request) false with
  | Err err => Err (Errorf_w "token endpoint: " err)
  | Ok _ =>
  match validateAuthorizationClient (cr_ClientID request) (cr_RedirectURI request) with
  | Some err => Err err
  | None =>
  if negb (validOpaqueAuthorizationValue (cr_Code request))
  then Err (errors_New "authorization code is required and bounded")
  else match PKCEChallenge (cr_PKCEVerifier request) with
  | Err err => Err err
  | Ok _ =>
      Ok (list_to_map [("grant_type", ["authorization_code"]); ("client_id", [cr_ClientID request]);
        ("redirect_uri", [cr_RedirectURI request]); ("code", [cr_Code request]);
        ("code_verifier", [cr_PKCEVerifier request])])
  end end end.

Definition ValidateAuthorizationCallback (values : Values) (expectedState : string) : result string :=
  if negb (validOpaqueAuthorizationValue expectedState)
  then Err (errors_New "expected authorization state is required and bounded")
  else if negb (length (default [] (values !! "state")) =? 1)%nat
  then Err (errors_New "authorization callback contains duplicate or missing state")
  else
  let state := Values_Get values "state" in
  if negb (len state =? len expectedState)%nat || (state != expectedState)
  then Err (errors_New "authorization state mismatch")
  else if Values_Get values "error" != ""
  then Err (errors_New "authorization provider returned an error")
  else
  let code := Values_Get values "code" in
  if negb (validOpaqueAuthorizationValue code)
  then Err (errors_New "authorization code is required and bounded")
  else if negb (length (default [] (values !! "code")) =? 1)%nat
  then Err (errors_New "authorization callback contains duplicate code values")
  else Ok code.

(** ** Bootstrap administrators *)

Record SecretKeyRef := { skr_Name : string; skr_Key : string }.

Record CredentialRef := {
  cred_Env : string; cred_ExternalSecretRef : option SecretKeyRef; cred_Plaintext : string
}.

Record SecretManagerRef := { smr_Provider : string; smr_Reference : string }.

Record BootstrapAdmin := {
  ba_Username : CredentialRef; ba_PasswordHashRef : CredentialRef;
  ba_RecoveryCodes : SecretManagerRef; ba_MFARequired : bool; ba_RotateAfterFirstLogin : bool;
  ba_AdditionalSecretRefs : list SecretManagerRef
}.

Definition envNamePattern (s : string) : bool :=
  match s with
  | EmptyString => false
  | String c s => is_upper c && all_chars (fun c => is_upper c || is_digit c || is_char 95 c) s
  end.

Definition CredentialRef_validate (ref : CredentialRef) (label : string) : option goerror :=
  if cred_Plaintext ref != ""
  then Some (errors_New (label +:+ " must not include plaintext credential material"))
  else if (cred_Env ref != "") && negb (envNamePattern (cred_Env ref))
  then Some (errors_New (label +:+ " env reference is invalid"))
  else match cred_ExternalSecretRef ref with
  | Some secret =>
      if (skr_Name secret == "") || (skr_Key secret == "")
      then Some (errors_New (label +:+ " external secret reference is incomplete"))
      else if cred_Env ref != ""
      then Some (errors_New (label +:+ " must reference exactly one env or external secret source"))
      else None
  | None =>
      if cred_Env ref == ""
      then Some (errors_New (label +:+ " must reference exactly one env or external secret source"))
      else None
  end.

Definition ValidateBootstrapAdmins (admins : list BootstrapAdmin) : option goerror :=
  match admins with
  | [admin] =>
      match CredentialRef_validate (ba_Username admin) "username" with
      | Some err => Some err
      | None =>
      match CredentialRef_validate (ba_PasswordHashRef admin) "password hash" with
      | Some err => Some err
      | None =>
      if (smr_Provider (ba_RecoveryCodes admin) == "") || (smr_Reference (ba_RecoveryCodes admin) == "")
      then Some (errors_New "recovery codes must reference an external secret manager")
      else if negb (ba_MFARequired admin)
      then Some (errors_New "bootstrap admin must be MFA-ready")
      else if negb (ba_RotateAfterFirstLogin admin)
      then Some (errors_New "bootstrap admin must rotate after first login")
      else None
      end end
  | _ => Some (errors_New ("expected exactly one bootstrap admin, got " +:+
           FormatInt (Z.of_nat (length admins))))
  end.

(** ** The gate of the management panel *)

Record ManagementDecision := {
  md_Authenticated : bool; md_TokenValid : bool; md_IAMAllow : bool; md_IAMErr : string
}.

Definition ManagementPanelAllowed (decision : ManagementDecision) : bool :=
  md_Authenticated decision && md_TokenValid decision && md_IAMAllow decision &&
  (md_IAMErr decision == "").

(** ** The adapter to the policy (pkg/iam/oidc_verifier.go) *)

Record OIDCProof := {
  op_IDToken : string; op_Nonce : string; op_MFA : MFAAssurance; op_Session : SessionAssurance
}.

Definition OIDCProofSource : Type := Context_ -> result OIDCProof.

Definition OIDCProofFunc_OIDCProof (source : option OIDCProofSource) : OIDCProofSource := fun ctx =>
  match source with None => Err ErrAuthentication | Some source => source ctx end.

Record OIDCAuthenticationVerifier := {
  ov_runtime : option Runtime; ov_source : option OIDCProofSource
}.

Definition NewOIDCAuthenticationVerifier (runtime : option Runtime) (source : option OIDCProofSource)
  : result OIDCAuthenticationVerifier :=
  match runtime, source with
  | Some _, Some _ => Ok {| ov_runtime := runtime; ov_source := source |}
  | _, _ => Err (errors_New "iam: oidc runtime and proof source are required")
  end.

(** The policy only passes contexts that are not nil. *)
Definition OIDC_Authenticate (verifier : option OIDCAuthenticationVerifier) : AuthenticationVerifier :=
  fun ctx _ at_ =>
  let refused := (zero_AuthenticationResult, Some ErrAuthentication) in
  match verifier with
  | Some {| ov_runtime := Some runtime; ov_source := Some source |} =>
      match source ctx with
      | Err _ => refused
      | Ok proof =>
          match VerifyIDToken runtime (op_IDToken proof) at_ (op_Nonce proof) with
          | Err _ => refused
          | Ok claims =>
              ({| ar_SubjectID := vc_Subject claims; ar_APITokenRef := "";
                  ar_CredentialClass := CredentialClassInteractiveSession;
                  ar_MFA := op_MFA proof; ar_Session := op_Session proof;
                  ar_Proof := {| ap_VerifiedAt := at_; ap_ExpiresAt := vc_ExpiresAt claims |} |}, None)
          end
      end
  | _ => refused
  end.

(** ** A query is read back *)

Definition query_char (c : ascii) : bool := unreserved c || is_char 43 c || is_char 37 c.

(** All characters satisfy a decidable property. *)
Lemma all_ascii (f : ascii -> bool) :
  forallb (fun n => f (ascii_of_nat n)) (seq 0 256) = true -> forall c, f c = true.
Proof.
  intros H c. rewrite forallb_forall in H. rewrite <- (ascii_nat_embedding c). apply H.
  apply in_seq. pose proof (nat_ascii_bounded c). lia.
Qed.

Lemma escaped_char c : let (h, l) := (upper_hex (code c / 16), upper_hex (code c mod 16)) in
  query_char h = true /\ query_char l = true /\
  (match unhex h, unhex l with
   | Some h, Some l => bool_decide (ascii_of_nat (16 * h + l) = c)
   | _, _ => false end = true) /\
  (unreserved c = true -> is_char 37 c = false /\ is_char 43 c = false).
Proof.
  assert ((let (h, l) := (upper_hex (code c / 16), upper_hex (code c mod 16)) in
    query_char h && query_char l &&
    (match unhex h, unhex l with
     | Some h, Some l => bool_decide (ascii_of_nat (16 * h + l) = c)
     | _, _ => false end) &&
    (negb (unreserved c) || (negb (is_char 37 c) && negb (is_char 43 c)))) = true) as H.
  { revert c. apply all_ascii. vm_compute. reflexivity. }
  cbv zeta in H |- *. apply andb_true_iff in H as [H H4]. apply andb_true_iff in H as [H H3].
  apply andb_true_iff in H as [H1 H2]. split_and!; try done.
  intros Hu. rewrite Hu in H4. cbn in H4. apply andb_true_iff in H4 as [H4 H5].
  apply negb_true_iff in H4, H5. done.
Qed.

Lemma QueryEscape_chars s : all_chars query_char (QueryEscape s) = true.
Proof.
  induction s as [|c s IH]; [done|]. cbn [QueryEscape].
  destruct (escaped_char c) as (H1 & H2 & _).
  destruct (unreserved c) eqn:Hu; [|destruct (is_char 32 c)]; cbn [all_chars]; rewrite IH.
  - unfold query_char. by rewrite Hu.
  - done.
  - by rewrite H1, H2.
Qed.

Lemma QueryUnescape_Escape s : QueryUnescape (QueryEscape s) = Some s.
Proof.
  induction s as [|c s IH]; [done|]. cbn [QueryEscape].
  destruct (escaped_char c) as (_ & _ & H3 & H4).
  destruct (unreserved c) eqn:Hu; [|destruct (is_char 32 c) eqn:Hs]; cbn [QueryUnescape].
  - destruct (H4 eq_refl) as [-> ->]. by rewrite IH.
  - cbn. rewrite IH. cbn. unfold is_char in Hs. apply Nat.eqb_eq in Hs.
    do 2 f_equal. rewrite <- (ascii_nat_embedding c). unfold code in Hs. by rewrite Hs.
  - change (is_char 37 "%"%char) with true. cbn [mbind option_bind].
    destruct (unhex (upper_hex (code c / 16))) as [h|]; [|done].
    destruct (unhex (upper_hex (code c mod 16))) as [l|]; [|done].
    cbn [mbind option_bind]. rewrite IH. cbn [mbind option_bind]. by apply bool_decide_eq_true in H3 as ->.
Qed.

(** A part without a character is cut before it. *)
Lemma cut_before sep s rest : all_chars (fun c => negb (Ascii.eqb c sep)) s = true ->
  cut sep (s +:+ String sep rest) = (s, rest).
Proof.
  induction s as [|c s IH]; intros H; [change ("" +:+ String sep rest) with (String sep rest); cbn [cut]; by rewrite Ascii.eqb_refl|].
  rewrite string_app_cons. cbn [cut]. cbn [all_chars] in H.
  apply andb_true_iff in H as [Hc H]. apply negb_true_iff in Hc as ->. by rewrite IH.
Qed.

Lemma cut_none sep s : all_chars (fun c => negb (Ascii.eqb c sep)) s = true -> cut sep s = (s, "").
Proof.
  induction s as [|c s IH]; intros H; [done|]. cbn [cut]. cbn [all_chars] in H.
  apply andb_true_iff in H as [Hc H]. apply negb_true_iff in Hc as ->. by rewrite IH.
Qed.

Lemma Contains_char c s : all_chars (fun d => negb (Ascii.eqb d c)) s = true ->
  Contains s (String c "") = false.
Proof.
  induction s as [|d s IH]; intros H; [done|]. cbn [all_chars] in H.
  apply andb_true_iff in H as [Hd H]. cbn [Contains]. rewrite IH by done.
  unfold HasPrefix. cbn. destruct (ascii_dec c d) as [->|Hne]; [by rewrite Ascii.eqb_refl in Hd|done].
Qed.

Lemma query_char_not n c : query_char c = true -> (n = 38 \/ n = 59 \/ n = 61)%nat ->
  negb (Ascii.eqb c (ascii_of_nat n)) = true.
Proof.
  intros Hc Hn. assert (implb (query_char c) (negb (Ascii.eqb c (ascii_of_nat n))) = true) as H.
  { clear Hc. revert c. apply all_ascii. by destruct Hn as [->|[->| ->]]; vm_compute. }
  by rewrite Hc in H.
Qed.

Definition encoded_pair (kv : string * string) : string :=
  QueryEscape kv.1 +:+ "=" +:+ QueryEscape kv.2.

Lemma escaped_avoids n s : (n = 38 \/ n = 59 \/ n = 61)%nat ->
  all_chars (fun c => negb (Ascii.eqb c (ascii_of_nat n))) (QueryEscape s) = true.
Proof.
  intros Hn. eapply all_chars_impl; [|apply (QueryEscape_chars s)]. intros c Hc. by apply query_char_not.
Qed.

Lemma encoded_avoids n kv : (n = 38 \/ n = 59)%nat ->
  all_chars (fun c => negb (Ascii.eqb c (ascii_of_nat n))) (encoded_pair kv) = true.
Proof.
  intros Hn. unfold encoded_pair. rewrite !all_chars_app.
  rewrite !escaped_avoids by tauto. by destruct Hn as [-> | ->].
Qed.

Lemma next_pair_encoded kv query rest : cut "&"%char query = (encoded_pair kv, rest) ->
  next_pair query = Some (Some kv, rest).
Proof.
  intros Hc. unfold next_pair. rewrite Hc, (Contains_char ";"%char) by (apply (encoded_avoids 59); auto).
  destruct (encoded_pair kv == "") eqn:He.
  { apply String.eqb_eq in He. unfold encoded_pair in He. by destruct (QueryEscape kv.1). }
  unfold encoded_pair. rewrite string_app_cons. change ("" +:+ ?s) with s.
  rewrite (cut_before "="%char) by (apply (escaped_avoids 61); auto).
  rewrite !QueryUnescape_Escape. cbn. by destruct kv.
Qed.

Lemma ParseQuery_pairs pairs values fuel : (length pairs < fuel)%nat ->
  ParseQuery_fuel fuel (Join (List.map encoded_pair pairs) "&") values =
  Some (foldl (fun vs kv => Values_add vs kv.1 kv.2) values pairs).
Proof.
  revert values fuel. induction pairs as [|kv pairs IH]; intros values [|fuel] Hf; cbn in Hf; try lia; [done|].
  assert (Join (List.map encoded_pair (kv :: pairs)) "&" <> "") as Hne.
  { assert (exists c r, encoded_pair kv = String c r) as (c & r & He).
    { unfold encoded_pair. destruct (QueryEscape kv.1); by eexists _, _. }
    cbn [List.map Join]. rewrite He. by destruct (List.map encoded_pair pairs). }
  cbn [ParseQuery_fuel]. apply String.eqb_neq in Hne as ->.
  rewrite (next_pair_encoded kv _ (Join (List.map encoded_pair pairs) "&")).
  - destruct kv as [k v]. rewrite IH by lia. done.
  - destruct pairs as [|q pairs]; cbn [List.map Join].
    + apply cut_none. apply (encoded_avoids 38); auto.
    + rewrite string_app_cons. apply cut_before, (encoded_avoids 38). auto.
Qed.

(** The values of one key, and of all keys. *)
Lemma add_values (values : gmap string (list string)) k vs : vs <> [] ->
  foldl (fun m kv => Values_add m kv.1 kv.2) values (List.map (fun v => (k, v)) vs) =
  <[k := default [] (values !! k) ++ vs]> values.
Proof.
  revert values. induction vs as [|v [|w vs] IH]; intros values Hne; [done|done|].
  cbn [List.map foldl] in IH |- *. rewrite IH by done. unfold Values_add. cbn. unfold Values in *.
  rewrite lookup_insert_eq, insert_insert_eq. cbn. by rewrite <- app_assoc.
Qed.

Definition value_pairs (kvs : list (string * list string)) : list (string * string) :=
  flat_map (fun kv => List.map (fun v => (kv.1, v)) kv.2) kvs.

Lemma add_all_values (values : gmap string (list string)) kvs :
  NoDup (List.map fst kvs) -> Forall (fun kv => kv.2 <> []) kvs ->
  Forall (fun kv => values !! kv.1 = None) kvs ->
  foldl (fun m kv => Values_add m kv.1 kv.2) values (value_pairs kvs) = list_to_map kvs ∪ values.
Proof.
  revert values. induction kvs as [|[k vs] kvs IH]; intros values Hn Hne Hv; cbn [value_pairs flat_map].
  - cbn. by rewrite (left_id_L ∅ (∪)).
  - cbn [List.map] in Hn. apply NoDup_cons in Hn as [Hn1 Hn]. apply Forall_cons in Hne as [Hne1 Hne].
    apply Forall_cons in Hv as [Hv1 Hv]. cbn in Hn1, Hne1, Hv1 |- *.
    rewrite foldl_app, add_values, Hv1 by done. cbn. rewrite IH; try done.
    + rewrite <- insert_union_r, <- insert_union_l; [done|].
      apply not_elem_of_list_to_map_1. done.
    + rewrite Forall_forall in Hv |- *. intros kv Hin. rewrite lookup_insert_ne; [by apply Hv|].
      intros ->. apply Hn1. by apply list_elem_of_fmap_2.
Qed.

Lemma encoded_length pairs : (length pairs <= len (Join (List.map encoded_pair pairs) "&"))%nat.
Proof.
  induction pairs as [|kv pairs IH]; [cbn; lia|].
  assert (1 <= len (encoded_pair kv))%nat as Hl by (unfold encoded_pair; rewrite !len_app; cbn; lia).
  destruct pairs as [|q pairs]; [exact Hl|]. cbn [List.map Join length] in IH |- *.
  rewrite !len_app. lia.
Qed.

Lemma Values_Encode_pairs values : Values_Encode values =
  Join (List.map encoded_pair (value_pairs (sort_Slice key_before (map_to_list values)))) "&".
Proof.
  unfold Values_Encode. f_equal. generalize (sort_Slice key_before (map_to_list values)). intros kvs.
  unfold value_pairs. induction kvs as [|kv rest IH]; [done|].
  cbn [flat_map]. by rewrite List.map_app, List.map_map, IH.
Qed.

(** [ParseQuery] reads back what [Values.Encode] writes. *)
Lemma ParseQuery_Encode values : (forall k vs, values !! k = Some vs -> vs <> []) ->
  ParseQuery (Values_Encode values) = Some values.
Proof.
  intros Hne. rewrite Values_Encode_pairs. set (kvs := sort_Slice key_before (map_to_list values)).
  assert (kvs ≡ₚ map_to_list values) as Hp by apply sort_Slice_perm.
  unfold ParseQuery. rewrite ParseQuery_pairs by (pose proof (encoded_length (value_pairs kvs)); lia).
  f_equal. rewrite add_all_values.
  - rewrite (right_id_L ∅ (∪)). etrans; [|apply list_to_map_to_list].
    apply list_to_map_proper; [|done]. change (NoDup kvs.*1). rewrite Hp. apply NoDup_fst_map_to_list.
  - change (NoDup kvs.*1). rewrite Hp. apply NoDup_fst_map_to_list.
  - rewrite Hp. apply Forall_forall. intros [k vs] Hin%elem_of_map_to_list. by eapply Hne.
  - by apply Forall_forall.
Qed.
