(* ===== verification/IdentityTheorems.v ===== *)
(** * Identity: what a token proves

    What a runtime that [NewRuntime] accepts holds, when [VerifyJWT] accepts a
    token, and what follows for the life of tokens, for those who read the
    published keys, for authorization requests and for the policy. *)

From stdpp Require Import gmap strings list fin_maps.
From Stdlib Require Import ZArith Zpow_facts Ascii Lia.
From S2P Require Import Prelude GoString GoTime GoSort GoSha256 GoCrypto GoHttp GoJson StrictJson IamTypes IamAudit IamPolicy IamVerify IamSpec IamCorrect IamTheorems GoPublicKeys IdentityTokens IdentityFlows.

#[local] Open Scope Z_scope.
#[local] Opaque Sum256 P256_IsOnCurve p256_verify pow_mod.

(** ** Runtimes *)

Lemma containsString_iff values want : containsString values want = true <-> want ∈ values.
Proof.
  unfold containsString. rewrite existsb_elem. split.
  - intros (x & Hx & He). by apply String.eqb_eq in He as <-.
  - intros H. exists want. split; [done|apply String.eqb_refl].
Qed.

Lemma isAllowedAlgorithm_iff allowed alg : isAllowedAlgorithm allowed alg = true <-> alg ∈ allowed.
Proof. apply containsString_iff. Qed.

Lemma check_algorithms_None seen allowed : check_algorithms seen allowed = None ->
  Forall (fun alg => alg = "RS256" \/ alg = "ES256") allowed.
Proof.
  revert seen. induction allowed as [|alg rest IH]; intros seen; cbn; [constructor|].
  destruct (_ && _) eqn:E; [done|]. case_bool_decide as Hs; [done|]. intros H. constructor; [|by eapply IH].
  apply andb_false_iff in E as [E|E]; apply string_neqb_false in E; auto.
Qed.

(** A key that can be published and whose window is not empty. *)
Record KeyOk (allowed : list string) (key : SigningKey) : Prop := {
  ko_id : sk_KeyID key <> "";
  ko_allowed : sk_Algorithm key ∈ allowed;
  ko_window : sk_ActiveFrom key <> 0 -> sk_ActiveUntil key <> 0 ->
    sk_ActiveFrom key < sk_ActiveUntil key;
  ko_public : exists jwk, publicJWK key = Ok jwk
}.

Lemma check_keys_None allowed seen keys : check_keys allowed seen keys = None <->
  Forall (KeyOk allowed) keys /\ NoDup (List.map sk_KeyID keys) /\
  Forall (fun key => sk_KeyID key ∉ seen) keys.
Proof.
  revert seen. induction keys as [|key rest IH]; intros seen; cbn [check_keys List.map].
  { split; [|done]. intros _. split_and!; constructor. }
  rewrite !Forall_cons, NoDup_cons. unfold IsZero, Before.
  destruct (String.eqb_spec (sk_KeyID key) "") as [Hid|Hid].
  { split; [done|]. intros ((Hk & _) & _). by destruct (ko_id _ _ Hk). }
  case_bool_decide as Hseen; [split; [done|naive_solver]|].
  destruct (isAllowedAlgorithm allowed (sk_Algorithm key)) eqn:Hal; cbn [negb].
  2: { split; [done|]. intros ((Hk & _) & _). pose proof (ko_allowed _ _ Hk) as Ha.
       apply isAllowedAlgorithm_iff in Ha. congruence. }
  apply isAllowedAlgorithm_iff in Hal.
  destruct (_ && _ && _) eqn:Hw.
  { split; [done|]. intros ((Hk & _) & _). pose proof (ko_window _ _ Hk). go_simp. lia. }
  destruct (publicJWK key) as [jwk|err] eqn:Hpub.
  2: { split; [done|]. intros ((Hk & _) & _). destruct (ko_public _ _ Hk). congruence. }
  rewrite IH. assert (KeyOk allowed key) as Hok.
  { constructor; [done..| |by eexists]. intros H1 H2.
    apply andb_false_iff in Hw as [Hw|Hw]; [|go_simp; lia].
    apply andb_false_iff in Hw as [Hw|Hw]; go_simp; lia. }
  split.
  - intros (H1 & H2 & H3). split_and!; [done..| |done|done|].
    + intros (key' & He & Hin)%list_elem_of_fmap. rewrite Forall_forall in H3.
      specialize (H3 _ Hin). set_solver.
    + eapply Forall_impl; [exact H3|]. set_solver.
  - intros ((_ & H1) & (H2 & H3) & _ & H4). split_and!; [done..|].
    rewrite Forall_forall in H4 |- *. intros key' Hin Hx.
    apply elem_of_union in Hx as [Hx|Hx]; [|by eapply H4].
    apply elem_of_singleton in Hx. apply H2. rewrite <- Hx. by apply list_elem_of_fmap_2.
Qed.

(** The keys [publicJWK] writes. *)
Lemma publicJWK_Ok key jwk : publicJWK key = Ok jwk ->
  (exists n e, sk_PublicKey key = RSAKey (Some {| rsa_N := Some n; rsa_E := e |}) /\
     2048 <= BitLen n /\ 65537 <= e /\ Z.odd e = true /\ sk_Algorithm key = "RS256" /\
     jwk = {| jwk_KTY := "RSA"; jwk_Use := "sig"; jwk_KID := sk_KeyID key; jwk_Alg := "RS256";
              jwk_N := b64_encode (Int_Bytes n); jwk_E := b64_encode (Int_Bytes e);
              jwk_Crv := ""; jwk_X := ""; jwk_Y := "" |}) \/
  (exists x y, sk_PublicKey key =
       ECDSAKey (Some {| ec_Curve := Some P256; ec_X := Some x; ec_Y := Some y |}) /\
     P256_IsOnCurve x y = true /\ sk_Algorithm key = "ES256" /\
     jwk = {| jwk_KTY := "EC"; jwk_Use := "sig"; jwk_KID := sk_KeyID key; jwk_Alg := "ES256";
              jwk_N := ""; jwk_E := ""; jwk_Crv := "P-256";
              jwk_X := b64_encode (fixedWidthBytes x 32); jwk_Y := b64_encode (fixedWidthBytes y 32) |}).
Proof.
  unfold publicJWK. destruct key as [kid alg pk from until]. cbn.
  destruct pk as [[[[n|] e]|]|[[[curve|] [x|] [y|]]|]|]; cbn; try done.
  - destruct (_ || _ || _) eqn:E; [done|]. destruct (alg != "RS256") eqn:Ea; [done|]. intros H.
    go_simp. simplify_eq. left. exists n, e. split_and!; try done; try lia.
    assert (Z.rem e 2 <> 0) as Hr by done. rewrite Z.rem_mod_nonneg in Hr by lia.
    rewrite Zmod_odd in Hr. by destruct (Z.odd e).
  - destruct (_ || _) eqn:E; [done|]. intros H. go_simp. simplify_eq. right.
    assert (curve = P256) as -> by (by destruct curve). by exists x, y.
Qed.

Lemma clone_public key : (exists jwk, publicJWK key = Ok jwk) -> clone_key key = key.
Proof.
  intros (jwk & [(n & e & H & _)|(x & y & H & _)]%publicJWK_Ok);
    destruct key; cbn in H; subst; done.
Qed.

(** What [validateRuntimeConfig] establishes. *)
Record ConfigOk (config : RuntimeConfig) : Prop := {
  co_keys : Forall (KeyOk (idc_AllowedAlgorithms config)) (idc_Keys config);
  co_ids : NoDup (List.map sk_KeyID (idc_Keys config));
  co_algorithms : Forall (fun alg => alg = "RS256" \/ alg = "ES256") (idc_AllowedAlgorithms config);
  co_lifetime : 0 < idc_TokenMaxLifetime config;
  co_skew : 0 <= idc_ClockSkew config;
  co_ttl : 0 < idc_JWKSCacheTTL config;
  co_overlap : duration_add (idc_TokenMaxLifetime config) (idc_ClockSkew config) <=
    idc_RotationOverlap config;
  co_some : idc_Keys config <> []
}.

Section Runtimes.
Context `{NetParsers}.

Lemma validateRuntimeConfig_None config : validateRuntimeConfig config = None -> ConfigOk config.
Proof.
  unfold validateRuntimeConfig.
  destruct (map_first_error _ _); [done|]. destruct (_ || _ || _); [done|].
  destruct (first_error _ [_; _; _; _]); [done|]. destruct (length (idc_AllowedAlgorithms config) =? 0)%nat; [done|].
  destruct (check_algorithms _ _) eqn:Ea; [done|]. destruct (check_claims _ _); [done|].
  destruct (first_error _ (required_claims config)); [done|].
  destruct (_ || _ || _ || _) eqn:Ed; [done|]. destruct (_ <? duration_add _ _) eqn:Eo; [done|].
  destruct (length (idc_Keys config) =? 0)%nat eqn:Ek; [done|].
  intros (Hk & Hn & _)%check_keys_None. apply check_algorithms_None in Ea. go_simp.
  constructor; try done; try lia. intros Hnil. by rewrite Hnil in Ek.
Qed.

(** The same configuration with other keys. *)
Definition with_keys (config : RuntimeConfig) (keys : list SigningKey) : RuntimeConfig :=
  {| idc_Issuer := idc_Issuer config; idc_AuthorizationEndpoint := idc_AuthorizationEndpoint config;
     idc_TokenEndpoint := idc_TokenEndpoint config; idc_JWKSURI := idc_JWKSURI config;
     idc_Audience := idc_Audience config; idc_AuthorizedParty := idc_AuthorizedParty config;
     idc_ExpectedJOSEType := idc_ExpectedJOSEType config; idc_JWTClassClaim := idc_JWTClassClaim config;
     idc_ExpectedJWTClass := idc_ExpectedJWTClass config;
     idc_AllowedAlgorithms := idc_AllowedAlgorithms config;
     idc_RequiredClaims := idc_RequiredClaims config; idc_GroupsClaim := idc_GroupsClaim config;
     idc_NamespacesClaim := idc_NamespacesClaim config;
     idc_TokenMaxLifetime := idc_TokenMaxLifetime config; idc_ClockSkew := idc_ClockSkew config;
     idc_JWKSCacheTTL := idc_JWKSCacheTTL config; idc_RotationOverlap := idc_RotationOverlap config;
     idc_Keys := keys |}.

Lemma validate_with_keys config keys : validateRuntimeConfig config = None -> keys <> [] ->
  check_keys (idc_AllowedAlgorithms config) ∅ keys = None ->
  validateRuntimeConfig (with_keys config keys) = None.
Proof.
  intros Hv Hne Hk. unfold validateRuntimeConfig in *. cbn [with_keys idc_Issuer
    idc_AuthorizationEndpoint idc_TokenEndpoint idc_JWKSURI idc_ExpectedJOSEType idc_ExpectedJWTClass
    idc_AllowedAlgorithms idc_RequiredClaims idc_TokenMaxLifetime idc_ClockSkew idc_JWKSCacheTTL
    idc_RotationOverlap idc_Keys].
  change (required_texts (with_keys config keys)) with (required_texts config).
  change (required_claims (with_keys config keys)) with (required_claims config).
  repeat match type of Hv with
  | match ?x with _ => _ end = None => destruct x; try done
  end.
  by destruct keys.
Qed.

(** The keys of a runtime are the keys it was configured with. *)
Lemma NewRuntime_Ok config runtime : NewRuntime config = Ok runtime ->
  runtime = {| rt_config := config |} /\ validateRuntimeConfig config = None.
Proof.
  unfold NewRuntime. destruct (validateRuntimeConfig config) eqn:E; [done|]. intros H'. injection H' as <-.
  split; [|done]. f_equal. apply validateRuntimeConfig_None in E. unfold normalizeConfig.
  assert (List.map clone_key (idc_Keys config) = idc_Keys config) as ->; [|by destruct config].
  pose proof (co_keys _ E) as Hk. induction Hk as [|key keys Hk _ IH]; [done|]. cbn.
  rewrite IH, clone_public; [done|apply Hk].
Qed.

Lemma NewRuntime_valid config : validateRuntimeConfig config = None ->
  NewRuntime config = Ok {| rt_config := config |}.
Proof.
  intros Hv. destruct (NewRuntime config) as [runtime|] eqn:E.
  - by apply NewRuntime_Ok in E as [-> _].
  - unfold NewRuntime in E. by rewrite Hv in E.
Qed.

End Runtimes.

(** ** Claims *)

(** What the claims of a token say, and the times at which they hold. *)
Record ClaimsHold (config : RuntimeConfig) (raw : Members) (now : Time) (claims : VerifiedClaims)
  : Prop := {
  ch_required : forall claim, claim ∈ idc_RequiredClaims config -> is_Some (raw !! claim);
  ch_issuer : as_string (raw !! "iss") = idc_Issuer config /\ vc_Issuer claims = idc_Issuer config;
  ch_audience : claimStrings (raw !! "aud") = Ok (vc_Audience claims) /\
    idc_Audience config ∈ vc_Audience claims;
  ch_party : as_string (raw !! "azp") = idc_AuthorizedParty config;
  ch_class : as_string (raw !! idc_JWTClassClaim config) = idc_ExpectedJWTClass config;
  ch_expires : numericTime (raw !! "exp") = Ok (vc_ExpiresAt claims) /\
    now < Add (vc_ExpiresAt claims) (idc_ClockSkew config);
  ch_issued : numericTime (raw !! "iat") = Ok (vc_IssuedAt claims) /\
    vc_IssuedAt claims <= Add now (idc_ClockSkew config);
  ch_order : vc_IssuedAt claims < vc_ExpiresAt claims;
  ch_not_before : forall value, raw !! "nbf" = Some value ->
    exists notBefore, numericTime (Some value) = Ok notBefore /\
      notBefore <= Add now (idc_ClockSkew config);
  ch_lifetime : 0 < idc_TokenMaxLifetime config ->
    time_Sub (vc_ExpiresAt claims) (vc_IssuedAt claims) <= idc_TokenMaxLifetime config;
  ch_subject : as_string (raw !! "sub") = vc_Subject claims /\ vc_Subject claims <> "";
  ch_nonce : as_string (raw !! "nonce") = vc_Nonce claims;
  ch_groups : claimStrings (raw !! idc_GroupsClaim config) = Ok (vc_Groups claims) /\
    vc_Groups claims <> [];
  ch_namespaces : claimStrings (raw !! idc_NamespacesClaim config) = Ok (vc_Namespaces claims) /\
    vc_Namespaces claims <> []
}.

Lemma validateClaims_iff runtime raw now claims :
  validateClaims runtime raw now = Ok claims <-> ClaimsHold (rt_config runtime) raw now claims.
Proof.
  unfold validateClaims, Before, After. set (config := rt_config runtime).
  destruct (first_error _ _) as [err|] eqn:Hreq.
  { split; [done|]. intros Hc. apply first_error_Some in Hreq as (claim & Hin & Hq).
    destruct (ch_required _ _ _ _ Hc _ Hin) as [v Hv]. by rewrite Hv in Hq. }
  rewrite first_error_None, Forall_forall in Hreq.
  assert (forall claim, claim ∈ idc_RequiredClaims config -> is_Some (raw !! claim)) as Hreq'.
  { intros claim Hin. specialize (Hreq _ Hin). by destruct (raw !! claim). }
  clear Hreq. split.
  - intros H. repeat (case_match; try done); go_simp; simplify_eq; split; cbn; try done.
    all: try (split; [done|]); try done; try lia; try (by apply containsString_iff).
    all: intros; go_simp; try lia; naive_solver.
  - intros [_ [Hiss Hiss'] [Haud Haud'] Hazp Hcls [Hexp Hexp'] [Hiat Hiat'] Hord Hnbf Hlife [Hsub Hsub'] Hnon [Hgr Hgr'] [Hns Hns']].
    rewrite Hiss, String.eqb_refl, Haud. cbn [negb].
    apply containsString_iff in Haud' as ->. cbn [negb]. rewrite Hazp, String.eqb_refl, Hcls, String.eqb_refl, Hexp, Hiat. cbn [negb].
    apply Z.ltb_lt in Hexp' as ->. cbn [negb].
    destruct (_ <? vc_IssuedAt claims) eqn:E; [go_simp; lia|]. clear E.
    apply Z.ltb_lt in Hord as ->. cbn [negb].
    assert (match raw !! "nbf" with None => false | Some v => match numericTime (Some v) with
      | Err _ => true | Ok nb => Add now (idc_ClockSkew config) <? nb end end = false) as ->.
    { destruct (raw !! "nbf") as [v|]; [|done]. destruct (Hnbf v eq_refl) as (nb & -> & Hnb). apply Z.ltb_ge. lia. }
    destruct ((0 <? idc_TokenMaxLifetime config) && _) eqn:E; [go_simp; lia|].
    rewrite Hsub. apply String.eqb_neq in Hsub' as ->. rewrite Hgr, Hns.
    destruct (vc_Groups claims) eqn:Eg, (vc_Namespaces claims) eqn:En; try done.
    f_equal. destruct claims; cbn in *. by subst.
Qed.

(** ** Tokens *)

Lemma Split_char_Join sep s : Join (Split_char sep s) (String sep "") = s.
Proof.
  assert (forall x parts, Join (x :: parts) (String sep "") =
    x +:+ match parts with [] => "" | _ => String sep (Join parts (String sep "")) end) as Hj.
  { intros x [|q qs]; cbn [Join]; [by rewrite string_app_nil_r|done]. }
  induction s as [|c s IH]; [done|]. cbn [Split_char].
  assert (exists p ps, Split_char sep s = p :: ps) as (p & ps & E).
  { destruct s; cbn; repeat case_match; eauto. }
  rewrite E in *. rewrite Hj in IH. destruct (Ascii.eqb_spec c sep) as [->|Hc].
  - rewrite Hj, Hj. cbn. by rewrite IH.
  - rewrite Hj, string_app_cons. by rewrite IH.
Qed.

(** Everything [VerifyJWT] looks at. *)
Record TokenParts (runtime : Runtime) (token : string) (now : Time) (claims : VerifiedClaims)
    (part0 part1 part2 : string) (header raw : Members) (key : SigningKey) (signature : list Z)
  : Prop := {
  tp_size : token <> "" /\ Z.of_nat (len token) <= maxCompactJWTBytes;
  tp_parts : Split_char "."%char token = [part0; part1; part2];
  tp_header : decodeJSONSegment part0 = Ok header;
  tp_critical : header !! "crit" = None;
  tp_algorithm : as_string (header !! "alg") ∈ idc_AllowedAlgorithms (rt_config runtime) /\
    as_string (header !! "alg") ∉ [""; "none"; "HS256"];
  tp_kid : as_string (header !! "kid") <> "";
  tp_type : as_string (header !! "typ") = idc_ExpectedJOSEType (rt_config runtime);
  tp_key : keyByID runtime (as_string (header !! "kid")) (as_string (header !! "alg")) now = Some key;
  tp_encoding : b64_decode part2 = Some signature;
  tp_signature : verifySignature (as_string (header !! "alg")) (sk_PublicKey key)
    (part0 +:+ "." +:+ part1) signature = None;
  tp_payload : decodeJSONSegment part1 = Ok raw;
  tp_claims : validateClaims runtime raw now = Ok claims;
  tp_window : issuedWithinSigningWindow key (vc_IssuedAt claims) = true
}.

Lemma VerifyJWT_iff runtime token now claims : VerifyJWT runtime token now = Ok claims <->
  exists part0 part1 part2 header raw key signature,
    TokenParts runtime token now claims part0 part1 part2 header raw key signature.
Proof.
  unfold VerifyJWT.
  destruct ((len token =? 0)%nat || _) eqn:Hsize.
  { split; [done|]. intros (? & ? & ? & ? & ? & ? & ? & [[H1 H2] _ _ _ _ _ _ _ _ _ _ _ _]).
    apply orb_true_iff in Hsize as [Hs|Hs]; go_simp; [|lia]. by destruct token. }
  assert (token <> "" /\ Z.of_nat (len token) <= maxCompactJWTBytes) as Hsz.
  { go_simp. split; [|lia]. by intros ->. }
  clear Hsize. split.
  - intros H. go_cases H. do 7 eexists. split; eauto; go_simp; try done.
    split; [by apply isAllowedAlgorithm_iff|]. set_solver.
  - intros (? & ? & ? & header & raw & key & signature & [_ -> -> -> [H1 H2] H3 H4 H5 -> H6 -> H7 H8]).
    rewrite H5, H6, H7, H8, H4. apply isAllowedAlgorithm_iff in H1 as ->.
    apply String.eqb_neq in H3 as ->. rewrite String.eqb_refl.
    destruct (_ == "") eqn:E1; [go_simp; set_solver|].
    destruct (_ == "none") eqn:E2; [go_simp; set_solver|].
    by destruct (_ == "HS256") eqn:E3; [go_simp; set_solver|].
Qed.

Lemma keyByID_Some runtime kid alg now key : keyByID runtime kid alg now = Some key ->
  key ∈ idc_Keys (rt_config runtime) /\ sk_KeyID key = kid /\ sk_Algorithm key = alg /\
  keyPublished key now (idc_JWKSCacheTTL (rt_config runtime))
    (idc_RotationOverlap (rt_config runtime)) = true.
Proof.
  unfold keyByID. intros [Hin Hk]%List.find_some. go_simp. split_and!; try done.
  by apply list_elem_of_In.
Qed.

(** Key identifiers are unique, so the first key that fits is the only one. *)
Lemma keyByID_unique runtime now key : ConfigOk (rt_config runtime) ->
  key ∈ idc_Keys (rt_config runtime) ->
  keyPublished key now (idc_JWKSCacheTTL (rt_config runtime))
    (idc_RotationOverlap (rt_config runtime)) = true ->
  keyByID runtime (sk_KeyID key) (sk_Algorithm key) now = Some key.
Proof.
  intros Hok Hin Hp. unfold keyByID. pose proof (co_ids _ Hok) as Hn. clear Hok.
  induction (idc_Keys (rt_config runtime)) as [|k ks IH]; [set_solver|]. cbn.
  cbn in Hn. apply NoDup_cons in Hn as [Hn1 Hn2]. apply elem_of_cons in Hin as [<-|Hin].
  - by rewrite !String.eqb_refl, Hp.
  - destruct (String.eqb_spec (sk_KeyID k) (sk_KeyID key)) as [He|_]; [|by apply IH].
    exfalso. apply Hn1. rewrite He. by apply list_elem_of_fmap_2.
Qed.

(** The key made the signature: over RSA, its power is the padded digest of the
    input; over P-256, the equation of ECDSA holds. *)
Definition Signed (key : PublicKey) (input : string) (signature : list Z) : Prop :=
  (exists n e, key = RSAKey (Some {| rsa_N := Some n; rsa_E := e |}) /\
     2048 <= BitLen n /\ Z.odd n = true /\ 65537 <= e /\ Z.odd e = true /\
     length signature = byte_len (Z.abs n) /\ be_value signature < Z.abs n /\
     be_bytes (byte_len (Z.abs n)) (be_value signature ^ e mod Z.abs n) =
       pkcs1_encoded (byte_len (Z.abs n)) (Sum256 input)) \/
  (exists x y, key = ECDSAKey (Some {| ec_Curve := Some P256; ec_X := Some x; ec_Y := Some y |}) /\
     P256_IsOnCurve x y = true /\ length signature = 64%nat /\
     p256_verify x y (Sum256 input) (be_value (take 32 signature)) (be_value (drop 32 signature)) = true).

Lemma odd_abs n : Z.odd (Z.abs n) = Z.odd n.
Proof. by destruct n as [|[]|[]]. Qed.

Lemma verifySignature_Signed key jwk input signature : publicJWK key = Ok jwk ->
  verifySignature (sk_Algorithm key) (sk_PublicKey key) input signature = None ->
  Signed (sk_PublicKey key) input signature.
Proof.
  intros [(n & e & Hk & Hb & He & Ho & Ha & _)|(x & y & Hk & Hc & Ha & _)]%publicJWK_Ok Hv;
    rewrite Hk, Ha in *; unfold verifySignature in Hv;
    cbn -[VerifyPKCS1v15 ecdsa_Verify] in Hv.
  - left. exists n, e. destruct (VerifyPKCS1v15 _ _ _) eqn:E; [|done]. cbn in E. go_simp.
    assert (n <> 0) as Hn by (by intros ->).
    repeat match goal with
    | H : context [Z.odd (Z.abs n)] |- _ => rewrite odd_abs in H
    | H : context [pow_mod _ _ _] |- _ => rewrite pow_mod_spec, Z2Pos.id in H by lia
    end.
    by split_and!.
  - right. exists x, y. destruct (negb _) eqn:El; [done|]. destruct (ecdsa_Verify _ _ _ _) eqn:E; [|done].
    go_simp. by split_and!.
Qed.

Lemma issuedWithin_iff key issuedAt : issuedWithinSigningWindow key issuedAt = true <->
  (sk_ActiveFrom key <> 0 -> sk_ActiveFrom key <= issuedAt) /\
  (sk_ActiveUntil key <> 0 -> issuedAt < sk_ActiveUntil key).
Proof.
  unfold issuedWithinSigningWindow, IsZero, Before.
  destruct (Z.eqb_spec (sk_ActiveFrom key) 0), (Z.eqb_spec (sk_ActiveUntil key) 0),
    (Z.ltb_spec issuedAt (sk_ActiveFrom key)), (Z.ltb_spec issuedAt (sk_ActiveUntil key)); cbn;
    intuition (try done; try lia).
Qed.

(** ** Times *)

Lemma Add_le t d : min_int64 * Second <= t + d -> Add t d <= t + d.
Proof.
  unfold Add, min_int64, max_int64, Second in *. intros H.
  repeat case_match; go_simp; Z.to_euclidean_division_equations; lia.
Qed.

Lemma Add_exact t d : is_int64 ((t + d) / Second) -> Add t d = t + d.
Proof.
  unfold Add, is_int64. intros [H1 H2].
  destruct (Z.ltb_spec max_int64 ((t + d) / Second)); [lia|].
  destruct (Z.ltb_spec ((t + d) / Second) min_int64); [lia|]. unfold Second.
  Z.to_euclidean_division_equations; lia.
Qed.

(** A time that a sum can reach: its seconds have 64 bits. *)
Definition representable (t : Time) : Prop := min_int64 * Second <= t < (max_int64 + 1) * Second.

Lemma Add_representable t d : representable (t + d) -> Add t d = t + d.
Proof.
  unfold representable, min_int64, max_int64. intros H. apply Add_exact. unfold is_int64, Second, min_int64, max_int64 in *.
  Z.to_euclidean_division_equations; lia.
Qed.

Lemma numericTime_representable value t : numericTime value = Ok t -> representable t.
Proof.
  unfold numericTime. destruct value as [[]|]; try done. case_match; [|done]. intros H'. injection H' as <-.
  unfold time_Unix. pose proof (int64_wrap_range (z + unix_epoch)) as H'. unfold is_int64 in H'.
  unfold representable, Second. lia.
Qed.

(** ** Published keys *)

#[local] Transparent P256_IsOnCurve.

Lemma P256_IsOnCurve_range x y : P256_IsOnCurve x y = true ->
  (0 <= x < 256 ^ 32) /\ (0 <= y < 256 ^ 32).
Proof.
  unfold P256_IsOnCurve. intros H. assert (p256_p < 256 ^ 32) by done. go_simp. lia.
Qed.

#[local] Opaque P256_IsOnCurve.

Lemma fixedWidthBytes_spec z : 0 <= z < 256 ^ 32 ->
  Forall is_byte (fixedWidthBytes z 32) /\ length (fixedWidthBytes z 32) = 32%nat /\
  be_value (fixedWidthBytes z 32) = z.
Proof.
  intros Hz. unfold fixedWidthBytes. rewrite Int_Bytes_length.
  assert (byte_len z <= 32)%nat as Hl by (apply byte_len_bound; change (Z.of_nat 32) with 32; lia).
  pose proof (Int_SetBytes_Bytes z) as Hv. unfold Int_SetBytes in Hv.
  destruct (Nat.leb_spec 32 (byte_len z)).
  - split_and!; [apply Int_Bytes_bytes|rewrite Int_Bytes_length; lia|rewrite Hv; lia].
  - split_and!.
    + apply Forall_app_2; [|apply Int_Bytes_bytes]. apply Forall_forall.
      intros b Hb%list_elem_of_In%repeat_spec. by subst.
    + rewrite length_app, repeat_length, Int_Bytes_length. lia.
    + rewrite be_value_zeros, Hv. lia.
Qed.

(** What crypto/rsa asks of a key: a positive modulus and an exponent of at most
    31 bits. *)
Definition plain_key (key : SigningKey) : Prop :=
  match sk_PublicKey key with
  | RSAKey (Some {| rsa_N := Some n; rsa_E := e |}) => 0 < n /\ e <= 2147483647
  | _ => True
  end.

(** A key as a reader of the published set has it: without its window. *)
Definition unwindowed (key : SigningKey) : SigningKey :=
  {| sk_KeyID := sk_KeyID key; sk_Algorithm := sk_Algorithm key; sk_PublicKey := sk_PublicKey key;
     sk_ActiveFrom := time_zero; sk_ActiveUntil := time_zero |}.

Lemma Int_Bytes_nonempty z : z <> 0 -> b64_encode (Int_Bytes z) <> "".
Proof.
  intros Hz. apply b64_encode_nonempty. intros He. pose proof (Int_Bytes_length z) as Hl.
  rewrite He in Hl. cbn in Hl. pose proof (byte_len_pos z Hz). lia.
Qed.

Lemma fixedWidthBytes_nonempty z : 0 <= z < 256 ^ 32 -> b64_encode (fixedWidthBytes z 32) <> "".
Proof.
  intros Hz. apply b64_encode_nonempty. intros He.
  destruct (fixedWidthBytes_spec z Hz) as (_ & Hl & _). by rewrite He in Hl.
Qed.

#[local] Opaque b64_decode b64_encode Int_Bytes fixedWidthBytes BitLen Z.rem.

Lemma signingKeyFromJWK_public key jwk : publicJWK key = Ok jwk -> sk_KeyID key <> "" ->
  plain_key key -> signingKeyFromJWK jwk = Ok (unwindowed key).
Proof.
  intros [(n & e & Hk & Hb & He & Ho & Ha & ->)|(x & y & Hk & Hc & Ha & ->)]%publicJWK_Ok Hid Hp;
    unfold signingKeyFromJWK; cbn; apply String.eqb_neq in Hid as ->; cbn; unfold plain_key in Hp;
    rewrite Hk in Hp.
  - destruct Hp as [Hn He']. unfold rsaPublicKeyFromJWK, decode_part. cbn.
    rewrite (proj2 (String.eqb_neq _ _) (Int_Bytes_nonempty n ltac:(lia))).
    rewrite (proj2 (String.eqb_neq _ _) (Int_Bytes_nonempty e ltac:(lia))). cbn.
    rewrite !b64_round_trip by apply Int_Bytes_bytes. rewrite !Int_SetBytes_Bytes, !Z.abs_eq by lia.
    destruct (Z.ltb_spec max_int64 e); [unfold max_int64 in *; lia|].
    destruct (Z.ltb_spec 2147483647 e); [lia|]. cbn.
    destruct (Z.ltb_spec (BitLen n) 2048); [lia|]. destruct (Z.ltb_spec e 65537); [lia|]. cbn.
    destruct (Z.eqb_spec (Z.rem e 2) 0) as [Hr|_].
    { rewrite Z.rem_mod_nonneg, Zmod_odd, Ho in Hr by lia. done. }
    unfold unbounded_key, unwindowed. cbn. by rewrite Hk, Ha.
  - destruct (P256_IsOnCurve_range _ _ Hc) as [Hx Hy]. unfold ecdsaPublicKeyFromJWK, decode_part. cbn.
    rewrite (proj2 (String.eqb_neq _ _) (fixedWidthBytes_nonempty x Hx)).
    rewrite (proj2 (String.eqb_neq _ _) (fixedWidthBytes_nonempty y Hy)). cbn.
    destruct (fixedWidthBytes_spec x Hx) as (Hx1 & Hx2 & Hx3).
    destruct (fixedWidthBytes_spec y Hy) as (Hy1 & Hy2 & Hy3).
    rewrite !b64_round_trip by done. rewrite Hx2, Hy2. unfold Int_SetBytes. rewrite Hx3, Hy3, Hc. cbn.
    unfold unbounded_key, unwindowed. cbn. by rewrite Hk, Ha.
Qed.

#[local] Transparent b64_decode b64_encode Int_Bytes fixedWidthBytes BitLen Z.rem.

(** The published set is read back, without the windows. *)
Lemma read_published config now seen keys :
  Forall (KeyOk (idc_AllowedAlgorithms config)) keys -> Forall plain_key keys ->
  NoDup (List.map sk_KeyID keys) -> Forall (fun key => sk_KeyID key ∉ seen) keys ->
  read_keys seen (omap (published_jwk config now) keys) =
  Ok (List.map unwindowed (List.filter (fun key =>
    keyPublished key now (idc_JWKSCacheTTL config) (idc_RotationOverlap config)) keys)).
Proof.
  revert seen. induction keys as [|key keys IH]; intros seen Hok Hpl Hn Hs; [done|].
  apply Forall_cons in Hok as [Hk Hok]. apply Forall_cons in Hpl as [Hp Hpl].
  apply Forall_cons in Hs as [Hs1 Hs]. cbn in Hn. apply NoDup_cons in Hn as [Hn1 Hn].
  cbn [omap list_omap]. cbn [List.filter]. unfold published_jwk at 1.
  destruct (keyPublished key now _ _); cbn [negb]; [|by apply IH].
  destruct (ko_public _ _ Hk) as [jwk Hj]. rewrite Hj. cbn [read_keys].
  assert (jwk_KID jwk = sk_KeyID key) as ->.
  { apply publicJWK_Ok in Hj as [(? & ? & _ & _ & _ & _ & _ & ->)|(? & ? & _ & _ & _ & ->)]; done. }
  rewrite bool_decide_eq_false_2 by done.
  rewrite (signingKeyFromJWK_public key jwk) by (done || apply Hk).
  rewrite IH; try done.
  apply Forall_forall. intros k Hin Hx. apply elem_of_union in Hx as [Hx%elem_of_singleton|Hx].
  - apply Hn1. rewrite <- Hx. by apply list_elem_of_fmap_2.
  - rewrite Forall_forall in Hs. by apply (Hs _ Hin).
Qed.

Lemma unwindowed_published key now cacheTTL overlap :
  keyPublished (unwindowed key) now cacheTTL overlap = true.
Proof. done. Qed.

Lemma unwindowed_public key : publicJWK (unwindowed key) = publicJWK key.
Proof. done. Qed.

(** ** Theorems *)

#[local] Opaque validateRuntimeConfig.

Section Theorems.
Context `{NetParsers}.

(** The text of an accepted token, its signature and the key that made it. *)
Definition SignedText (config : RuntimeConfig) (token : string) (key : SigningKey) : Prop :=
  exists part0 part1 part2 signature, token = part0 +:+ "." +:+ part1 +:+ "." +:+ part2 /\
    b64_decode part2 = Some signature /\ key ∈ idc_Keys config /\
    Signed (sk_PublicKey key) (part0 +:+ "." +:+ part1) signature.

Lemma token_signed config token now claims part0 part1 part2 header raw key signature :
  ConfigOk config ->
  TokenParts {| rt_config := config |} token now claims part0 part1 part2 header raw key signature ->
  token = part0 +:+ "." +:+ part1 +:+ "." +:+ part2 /\ key ∈ idc_Keys config /\
  Signed (sk_PublicKey key) (part0 +:+ "." +:+ part1) signature.
Proof.
  intros Hok Ht. destruct (keyByID_Some _ _ _ _ _ (tp_key _ _ _ _ _ _ _ _ _ _ _ Ht)) as (Hin & _ & Ha & _).
  pose proof (co_keys _ Hok) as Hk. rewrite Forall_forall in Hk.
  destruct (ko_public _ _ (Hk _ Hin)) as [jwk Hj].
  pose proof (tp_signature _ _ _ _ _ _ _ _ _ _ _ Ht) as Hs. rewrite <- Ha in Hs. split_and!.
  - rewrite <- (Split_char_Join "."%char token), (tp_parts _ _ _ _ _ _ _ _ _ _ _ Ht). done.
  - done.
  - by eapply verifySignature_Signed.
Qed.

(** C30. An accepted token is signed: it has three parts, the third decodes to a
    signature of the first two by a key of the configuration, an RSA key of at
    least 2048 bits or a key on P-256, that is published and in whose window
    the token was issued; the answered claims are those of the second part,
    they name the configured issuer, audience and party, and they hold now. *)
Theorem accepted_tokens_are_signed config runtime token now claims :
  NewRuntime config = Ok runtime -> VerifyJWT runtime token now = Ok claims ->
  exists part0 part1 part2 signature raw key,
    token = part0 +:+ "." +:+ part1 +:+ "." +:+ part2 /\
    b64_decode part2 = Some signature /\
    key ∈ idc_Keys config /\
    Signed (sk_PublicKey key) (part0 +:+ "." +:+ part1) signature /\
    keyPublished key now (idc_JWKSCacheTTL config) (idc_RotationOverlap config) = true /\
    (sk_ActiveFrom key <> 0 -> sk_ActiveFrom key <= vc_IssuedAt claims) /\
    (sk_ActiveUntil key <> 0 -> vc_IssuedAt claims < sk_ActiveUntil key) /\
    decodeJSONSegment part1 = Ok raw /\ ClaimsHold config raw now claims.
Proof.
  intros [-> Hv]%NewRuntime_Ok (p0 & p1 & p2 & header & raw & key & signature & Ht)%VerifyJWT_iff.
  apply validateRuntimeConfig_None in Hv. destruct (token_signed _ _ _ _ _ _ _ _ _ _ _ Hv Ht) as (? & ? & ?).
  destruct Ht as [_ _ _ _ _ _ _ Hkey Henc _ Hpay Hcl Hwin].
  apply keyByID_Some in Hkey as (_ & _ & _ & Hp). apply issuedWithin_iff in Hwin as [Hw1 Hw2].
  apply validateClaims_iff in Hcl. by exists p0, p1, p2, signature, raw, key.
Qed.

(** A time-valid token stays published and in time. *)
Lemma token_lasts config raw key now later claims :
  ConfigOk config -> key ∈ idc_Keys config ->
  idc_TokenMaxLifetime config + idc_ClockSkew config < max_int64 ->
  representable (later + idc_ClockSkew config) ->
  (sk_ActiveUntil key <> 0 -> representable (sk_ActiveUntil key + idc_RotationOverlap config)) ->
  0 <= now <= later -> later < Add (vc_ExpiresAt claims) (idc_ClockSkew config) ->
  keyPublished key now (idc_JWKSCacheTTL config) (idc_RotationOverlap config) = true ->
  (sk_ActiveUntil key <> 0 -> vc_IssuedAt claims < sk_ActiveUntil key) ->
  ClaimsHold config raw now claims ->
  keyPublished key later (idc_JWKSCacheTTL config) (idc_RotationOverlap config) = true /\
  ClaimsHold config raw later claims.
Proof.
  intros Hok Hin Hov Hr Hu Hnl Hexp Hp Hw Hc.
  pose proof (co_lifetime _ Hok) as Hl. pose proof (co_skew _ Hok) as Hs.
  pose proof (co_overlap _ Hok) as Ho. unfold duration_add in Ho.
  rewrite int64_wrap_id in Ho by (unfold is_int64, min_int64; lia).
  assert (Add now (idc_ClockSkew config) <= Add later (idc_ClockSkew config)) as Hadd.
  { rewrite (Add_representable later) by done. etrans; [apply Add_le|lia].
    unfold min_int64, Second. lia. }
  split.
  - unfold keyPublished, IsZero, Before in *.
    destruct (_ && _) eqn:E1 in Hp; [done|].
    destruct (negb (sk_ActiveFrom key =? 0) && (later <? _)) eqn:E2.
    { apply andb_true_iff in E2 as [E2 E3]. rewrite E2 in E1. cbn in E1. go_simp. lia. }
    destruct (Z.eqb_spec (sk_ActiveUntil key) 0) as [|Hne]; [done|].
    apply Z.ltb_lt. rewrite Add_representable by auto. specialize (Hw Hne). specialize (Hu Hne).
    pose proof (ch_lifetime _ _ _ _ Hc Hl) as Hlife. apply time_Sub_le in Hlife; [|lia].
    pose proof (numericTime_representable _ _ (proj1 (ch_expires _ _ _ _ Hc))) as He.
    assert (min_int64 * Second <= vc_ExpiresAt claims + idc_ClockSkew config) by (unfold representable in He; lia).
    pose proof (Add_le (vc_ExpiresAt claims) (idc_ClockSkew config)). lia.
  - destruct Hc. constructor; try done.
    + naive_solver.
    + naive_solver lia.
    + intros v Hv. destruct (ch_not_before0 _ Hv) as (nb & Hnb & Hle). exists nb. split; [done|lia].
Qed.

(** C31. A token lasts until it expires: once a runtime accepts it, it accepts
    it with the same claims at every later time before the expiry plus the
    skew, whatever keys are retired in between: a key is published for as long
    as a token it signed can be valid.  The lifetime plus the skew must not
    overflow, and the ends of the keys' overlaps are times. *)
Theorem tokens_last_until_they_expire config runtime token now later claims :
  NewRuntime config = Ok runtime ->
  idc_TokenMaxLifetime config + idc_ClockSkew config < max_int64 ->
  (forall key, key ∈ idc_Keys config -> sk_ActiveUntil key <> 0 ->
     representable (sk_ActiveUntil key + idc_RotationOverlap config)) ->
  VerifyJWT runtime token now = Ok claims ->
  0 <= now <= later -> later < Add (vc_ExpiresAt claims) (idc_ClockSkew config) ->
  representable (later + idc_ClockSkew config) ->
  VerifyJWT runtime token later = Ok claims.
Proof.
  intros [-> Hv]%NewRuntime_Ok Hov Hu Ht Hnl Hexp Hr. apply validateRuntimeConfig_None in Hv.
  apply VerifyJWT_iff in Ht as (p0 & p1 & p2 & header & raw & key & signature & Ht).
  destruct Ht as [Hsz Hps Hh Hcr Hal Hkid Hty Hkey Henc Hsig Hpay Hcl Hwin].
  apply keyByID_Some in Hkey as (Hin & Hid & Ha & Hp). cbn in Hin, Hp, Hal, Hty.
  apply validateClaims_iff in Hcl. cbn in Hcl. pose proof Hwin as Hw. apply issuedWithin_iff in Hw as [_ Hw].
  destruct (token_lasts config raw key now later claims) as [Hp' Hc']; eauto.
  apply VerifyJWT_iff. exists p0, p1, p2, header, raw, key, signature. constructor; try done.
  - rewrite <- Hid, <- Ha. by apply keyByID_unique.
  - by apply validateClaims_iff.
Qed.

(** The keys that were published at a time are keys of a configuration. *)
Lemma published_keys_check config fetched :
  ConfigOk config -> let keys := List.filter (fun key =>
    keyPublished key fetched (idc_JWKSCacheTTL config) (idc_RotationOverlap config)) (idc_Keys config) in
  check_keys (idc_AllowedAlgorithms config) ∅ (List.map unwindowed keys) = None.
Proof.
  intros Hok keys. apply check_keys_None. split_and!.
  - apply Forall_forall. intros k (key & -> & Hin)%list_elem_of_fmap. subst keys.
    apply list_elem_of_In, List.filter_In in Hin as [Hin%list_elem_of_In _].
    pose proof (co_keys _ Hok) as Hk. rewrite Forall_forall in Hk. destruct (Hk _ Hin) as [? ? ? [jwk Hj]].
    constructor; [done..|by exists jwk].
  - pose proof (co_ids _ Hok) as Hn. rewrite List.map_map. cbn. subst keys.
    induction (idc_Keys config) as [|k ks IH]; [constructor|]. cbn in Hn |- *.
    apply NoDup_cons in Hn as [Hn1 Hn]. case_match; [|by apply IH]. cbn. apply NoDup_cons. split; [|by apply IH].
    intros (key & He & Hin)%list_elem_of_fmap. apply Hn1. rewrite He. apply list_elem_of_fmap_2.
    by apply list_elem_of_In, List.filter_In in Hin as [Hin%list_elem_of_In _].
  - apply Forall_forall. intros k _. set_solver.
Qed.

(** A key that signs was published one cache lifetime before, and a key that is
    published was not withdrawn before. *)
Lemma published_in_caches key issuedAt fetched now cacheTTL overlap :
  0 <= sk_ActiveFrom key -> 0 < cacheTTL -> is_int64 cacheTTL ->
  (sk_ActiveFrom key <> 0 -> sk_ActiveFrom key <= issuedAt) ->
  issuedAt <= fetched + cacheTTL -> fetched <= now ->
  keyPublished key now cacheTTL overlap = true -> keyPublished key fetched cacheTTL overlap = true.
Proof.
  intros Hfrom Httl H64 Hw Hiat Hf Hp. unfold keyPublished, IsZero, Before in *.
  destruct (_ && _) eqn:E1 in Hp; [done|].
  destruct (negb (sk_ActiveFrom key =? 0) && (fetched <? _)) eqn:E2.
  - go_simp. specialize (Hw ltac:(done)).
    rewrite int64_wrap_id in * by (unfold is_int64, min_int64, max_int64 in *; lia).
    pose proof (Add_le (sk_ActiveFrom key) (- cacheTTL)) as Hle.
    unfold is_int64, min_int64, max_int64, Second in *. lia.
  - destruct (sk_ActiveUntil key =? 0); [done|]. go_simp. apply Z.ltb_lt. lia.
Qed.

(** C32. A cache of the published keys is enough: a relying party that read the
    issuer's key set makes a runtime of it, and this runtime accepts every token
    that the issuer accepts now and that says it was issued at most one cache
    lifetime after the reading, with the same claims: successors are published
    before they sign and retired keys as long as their tokens live.  (A token
    whose issue the skew lets lie further ahead may be signed by a successor
    the reading did not show.)  The issuer's keys must be readable: RSA keys
    have a positive modulus and an exponent of at most 31 bits, which
    [NewRuntime] does not ask for and [SigningKeysFromJWKS] does; the starts of
    their windows are not before year 1, and the cache lifetime is a 64-bit
    duration. *)
Theorem caches_accept_the_issuers_tokens config issuer token fetched now claims :
  NewRuntime config = Ok issuer ->
  Forall plain_key (idc_Keys config) ->
  (forall key, key ∈ idc_Keys config -> 0 <= sk_ActiveFrom key) ->
  is_int64 (idc_JWKSCacheTTL config) ->
  VerifyJWT issuer token now = Ok claims -> fetched <= now ->
  vc_IssuedAt claims <= fetched + idc_JWKSCacheTTL config ->
  exists keys party,
    SigningKeysFromJWKS (Runtime_JWKS issuer fetched) = Ok keys /\
    NewRuntime (with_keys config keys) = Ok party /\
    VerifyJWT party token now = Ok claims.
Proof.
  intros [-> Hv]%NewRuntime_Ok Hpl Hfrom H64 Ht Hf Hiat. pose proof (validateRuntimeConfig_None _ Hv) as Hok.
  apply VerifyJWT_iff in Ht as (p0 & p1 & p2 & header & raw & key & signature & Ht).
  destruct Ht as [Hsz Hps Hh Hcr Hal Hkid Hty Hkey Henc Hsig Hpay Hcl Hwin].
  apply keyByID_Some in Hkey as (Hin & Hid & Ha & Hp). cbn in Hin, Hp, Hal, Hty.
  apply issuedWithin_iff in Hwin as [Hw _]. pose proof (co_ttl _ Hok) as Httl.
  assert (keyPublished key fetched (idc_JWKSCacheTTL config) (idc_RotationOverlap config) = true) as Hp'.
  { apply (published_in_caches key (vc_IssuedAt claims) fetched now); auto. }
  set (published := List.filter (fun key =>
    keyPublished key fetched (idc_JWKSCacheTTL config) (idc_RotationOverlap config)) (idc_Keys config)).
  assert (unwindowed key ∈ List.map unwindowed published) as Hin'.
  { apply list_elem_of_fmap_2, list_elem_of_In, List.filter_In. split; [by apply list_elem_of_In|done]. }
  assert (List.map unwindowed published <> []) as Hne by
    (intros He; rewrite He in Hin'; by apply not_elem_of_nil in Hin').
  pose proof (published_keys_check config fetched Hok) as Hck. cbv zeta in Hck. fold published in Hck.
  pose proof (validate_with_keys config _ Hv Hne Hck) as Hv'. clear Hv.
  exists (List.map unwindowed published), {| rt_config := with_keys config (List.map unwindowed published) |}.
  split; [|split; [exact (NewRuntime_valid _ Hv')|]].
  - clear Hv'. unfold SigningKeysFromJWKS, Runtime_JWKS. cbn [jwks_Keys rt_config].
    rewrite read_published; [|apply Hok|done|apply Hok|apply Forall_forall; intros; apply not_elem_of_empty].
    fold published. by destruct (List.map unwindowed published).
  - apply validateRuntimeConfig_None in Hv'. apply VerifyJWT_iff.
    exists p0, p1, p2, header, raw, (unwindowed key), signature. constructor; try done.
    rewrite <- Hid, <- Ha. by apply (keyByID_unique _ now (unwindowed key)).
Qed.

Lemma VerifyIDToken_Ok runtime token now nonce claims :
  VerifyIDToken runtime token now nonce = Ok claims ->
  VerifyJWT runtime token now = Ok claims /\ vc_Nonce claims = nonce.
Proof.
  unfold VerifyIDToken. destruct (negb _); [done|]. destruct (VerifyJWT runtime token now); [|done].
  destruct (_ || _) eqn:E; [done|]. intros H'. injection H' as <-. by go_simp.
Qed.

Lemma session_class request : ClassMatches request CredentialClassInteractiveSession ->
  pr_APITokenRef (req_Subject request) = "" /\ req_SupportGrantRef request = "" /\
  req_BreakGlass request = false.
Proof. unfold ClassMatches. intros Hc. repeat case_match; go_simp; try done; naive_solver. Qed.

(** C33. An allow behind the OIDC adapter is backed by a token: the proof source
    gave an ID token for its nonce that a key of the runtime's configuration
    signed, that the runtime accepts and that has not expired even without the
    skew; the token's subject is the principal the request names, and the
    request uses no API token, no support grant and no break-glass. *)
Theorem oidc_allows_are_backed_by_tokens {S} config runtime source verifier (policy : Policy S) ctx
    request wall s s' d :
  NewRuntime config = Ok runtime ->
  NewOIDCAuthenticationVerifier (Some runtime) (Some source) = Ok verifier ->
  p_authenticator policy = Some (OIDC_Authenticate (Some verifier)) ->
  AuthorizeContext policy (Some ctx) request wall s = (s', d) -> d_Allowed d = true ->
  exists proof claims key,
    source ctx = Ok proof /\
    VerifyIDToken runtime (op_IDToken proof) (requestTime policy wall) (op_Nonce proof) = Ok claims /\
    SignedText config (op_IDToken proof) key /\
    vc_Nonce claims = op_Nonce proof /\ requestTime policy wall < vc_ExpiresAt claims /\
    vc_Subject claims = pr_ID (req_Subject request) /\
    is_Some (p_Principals policy !! pr_ID (req_Subject request)) /\
    pr_APITokenRef (req_Subject request) = "" /\ req_SupportGrantRef request = "" /\
    req_BreakGlass request = false.
Proof.
  intros [-> Hv]%NewRuntime_Ok Hver Hauth Hrun Hal. apply validateRuntimeConfig_None in Hv.
  cbn in Hver. injection Hver as <-.
  apply (AuthorizeContext_allowed _ _ _ _ _ _ _ Hrun) in Hal as (result & subject & Hvd & Hid & _).
  destruct Hvd as (authenticator & Ha & Hr & Hfresh). rewrite Hauth in Ha. injection Ha as <-.
  unfold OIDC_Authenticate in Hr. cbn in Hr. destruct (source ctx) as [proof|]; [|done].
  destruct (VerifyIDToken _ _ _ _) as [claims|] eqn:Ht; [|done]. injection Hr as <-.
  pose proof (VerifyIDToken_Ok _ _ _ _ _ Ht) as [Hj Hn].
  apply VerifyJWT_iff in Hj as (p0 & p1 & p2 & header & raw & key & signature & Hp).
  destruct (token_signed _ _ _ _ _ _ _ _ _ _ _ Hv Hp) as (Htok & Hin & Hs).
  destruct Hid as (_ & Hsub & Hcls & _ & _ & _ & _ & Hprin & _). cbn in Hsub, Hcls.
  apply session_class in Hcls. exists proof, claims, key. split_and!; try apply Hcls; try done.
  - exists p0, p1, p2, signature. split_and!; try done. apply Hp.
  - apply Hfresh.
Qed.

(** A list of distinct texts, none empty. *)
Lemma check_algorithms_unique seen allowed : check_algorithms seen allowed = None ->
  unique_strings seen allowed = true.
Proof.
  revert seen. induction allowed as [|alg rest IH]; intros seen; cbn; [done|].
  destruct (_ && _) eqn:E; [done|]. case_bool_decide as Hs; [done|]. intros Hc.
  destruct (String.eqb_spec alg "") as [->|_]; [done|]. by apply IH.
Qed.

Lemma check_claims_unique seen claims : check_claims seen claims = None ->
  unique_strings seen claims = true.
Proof.
  revert seen. induction claims as [|claim rest IH]; intros seen; cbn; [done|].
  destruct (claim == "") eqn:E; [done|]. cbn. case_bool_decide as Hs; [done|]. apply IH.
Qed.

#[local] Transparent validateRuntimeConfig.

(** A runtime accepts the discovery document it publishes. *)
Theorem own_discovery_is_valid config runtime : NewRuntime config = Ok runtime ->
  ValidateDiscovery runtime (Discovery runtime) = None.
Proof.
  intros [-> Hv]%NewRuntime_Ok. unfold validateRuntimeConfig in Hv.
  destruct (map_first_error _ _); [done|]. destruct (_ || _ || _); [done|].
  destruct (first_error _ [_; _; _; _]); [done|].
  destruct (length (idc_AllowedAlgorithms config) =? 0)%nat eqn:Hl; [done|].
  destruct (check_algorithms _ _) eqn:Ha; [done|]. destruct (check_claims _ _) eqn:Hc; [done|]. clear Hv.
  apply check_algorithms_unique in Ha. apply check_claims_unique in Hc.
  unfold ValidateDiscovery, ValidateOIDCDiscovery, ValidateCloudRINGDiscoveryPolicy.
  cbn [Discovery rt_config dm_Issuer dm_JWKSURI dm_AuthorizationEndpoint dm_TokenEndpoint
    dm_ClaimsSupported dm_IDTokenSigningAlgValuesSupported dm_CloudRINGJWKSCacheTTLSeconds
    dm_CloudRINGJWKSRotationOverlapSeconds]. rewrite !String.eqb_refl, !Z.eqb_refl. cbn [negb].
  rewrite (proj2 (map_first_error_None _ _)).
  2: { intros label values Hin. apply elem_of_list_to_map_2 in Hin.
       assert (validUniqueStrings values = true) as ->; [|done].
       repeat (apply elem_of_cons in Hin as [Hin|Hin]; [injection Hin as -> ->; try reflexivity|]);
         [|by apply not_elem_of_nil in Hin].
       unfold validUniqueStrings. cbn. by rewrite Hl. }
  unfold validUniqueStrings. rewrite Hc.
  replace (existsb _ _) with true; [by destruct (length (idc_RequiredClaims config) =? 0)%nat|].
  symmetry. apply existsb_elem. destruct (idc_AllowedAlgorithms config) as [|alg rest]; [done|].
  exists alg. split; [left|]. apply containsString_iff. left.
Qed.

#[local] Opaque validateRuntimeConfig.

Lemma parseHTTPSURL_Ok raw allowPath u : parseHTTPSURL raw allowPath = Ok u ->
  url_Parse raw = Some (eu_Parsed u) /\ url_Scheme (eu_Parsed u) = "https" /\
  url_HasUser (eu_Parsed u) = false /\ eu_RawQuery u = "".
Proof.
  unfold parseHTTPSURL. destruct (_ || _); [done|]. destruct (url_Parse raw) as [parsed|]; [|done].
  destruct (_ || _) eqn:E in |- *; [done|]. intros H'. injection H' as <-. cbn. go_simp. done.
Qed.

(** Every parameter of an authorization request has one value. *)
Lemma authorization_values_full request k vs :
  authorization_values request ∅ !! k = Some vs -> vs <> [].
Proof.
  unfold authorization_values, Values_Set, Values. intros Hk.
  repeat (apply lookup_insert_Some in Hk as [[_ <-]|[_ Hk]]; [done|]). by rewrite lookup_empty in Hk.
Qed.

Lemma PKCEChallenge_inj a b challenge : PKCEChallenge a = Ok challenge -> PKCEChallenge b = Ok challenge ->
  a = b \/ collision a b.
Proof.
  unfold PKCEChallenge. destruct (negb _); [done|]. intros Ha. destruct (negb _); [done|]. intros Hb.
  injection Ha as Ha. injection Hb as Hb. subst challenge. apply Sum256_inj_or.
  apply (f_equal b64_decode) in Hb. rewrite !b64_round_trip in Hb by apply Sum256_bytes. congruence.
Qed.

Lemma one_value (values : Values) key : (length (default [] (values !! key)) =? 1)%nat = true ->
  values !! key = Some [Values_Get values key].
Proof.
  unfold Values_Get, Values in *. intros H1. apply Nat.eqb_eq in H1.
  by destruct (values !! key) as [[|v [|]]|].
Qed.

Lemma ValidateAuthorizationCallback_Ok values expected code :
  ValidateAuthorizationCallback values expected = Ok code ->
  values !! "state" = Some [expected] /\ values !! "code" = Some [code] /\ code <> "".
Proof.
  unfold ValidateAuthorizationCallback.
  destruct (negb (validOpaqueAuthorizationValue expected)); [done|].
  destruct (negb (length (default [] (values !! "state")) =? 1)%nat) eqn:E1; [done|].
  destruct (negb (len _ =? _)%nat || _) eqn:E2; [done|]. destruct (_ != "") eqn:E3; [done|].
  destruct (negb (validOpaqueAuthorizationValue _)) eqn:E4; [done|].
  destruct (negb (length (default [] (values !! "code")) =? 1)%nat) eqn:E5; [done|].
  intros Hc. injection Hc as <-.
  apply negb_false_iff in E1, E5. apply one_value in E1, E5. rewrite E1, E5.
  unfold validOpaqueAuthorizationValue in E4. go_simp. by subst.
Qed.

(** C34. An authorization request is bound: the query of the URL reads back as
    exactly the request's parameters, with the method S256 and the challenge of
    its verifier; another verifier passes for this challenge only if it
    collides with it under SHA-256; and a callback is only accepted with the
    one state of the request, and its one code is the answer. *)
Theorem authorization_requests_are_bound request u : BuildAuthorizationURL request = Ok u ->
  (url_Parse (ur_AuthorizationEndpoint request) = Some (eu_Parsed u) /\
   url_Scheme (eu_Parsed u) = "https" /\ url_HasUser (eu_Parsed u) = false) /\
  ParseQuery (eu_RawQuery u) = Some {[
    "response_type" := ["code"]; "client_id" := [ur_ClientID request];
    "redirect_uri" := [ur_RedirectURI request]; "scope" := [Join (ur_Scopes request) " "];
    "state" := [ur_State request]; "nonce" := [ur_Nonce request];
    "code_challenge" := [pkce_Challenge (ur_PKCE request)]; "code_challenge_method" := ["S256"] ]} /\
  (forall verifier, PKCEChallenge verifier = Ok (pkce_Challenge (ur_PKCE request)) ->
     verifier = pkce_Verifier (ur_PKCE request) \/ collision verifier (pkce_Verifier (ur_PKCE request))) /\
  (forall values code, ValidateAuthorizationCallback values (ur_State request) = Ok code ->
     values !! "state" = Some [ur_State request] /\ values !! "code" = Some [code] /\ code <> "").
Proof.
  unfold BuildAuthorizationURL. destruct (parseHTTPSURL _ _) as [endpoint|] eqn:He; [|done].
  destruct (validateAuthorizationClient _ _); [done|]. destruct (_ || _) eqn:E1 in |- *; [done|].
  destruct (_ || _) eqn:E2 in |- *; [done|].
  destruct (PKCEChallenge (pkce_Verifier _)) as [challenge|] eqn:Hch; [|done].
  destruct (challenge != _) eqn:E3; [done|]. destruct (_ =? 0)%nat; [done|].
  destruct (check_scopes _ _); [done|]. intros Hu. injection Hu as <-. cbn [eu_Parsed eu_RawQuery].
  apply parseHTTPSURL_Ok in He as (Hp & Hs & Hh & Hq). go_simp. split_and!; try done.
  - unfold Query. rewrite Hq. change (ParseQuery "") with (Some (∅ : Values)). cbn [default].
    rewrite ParseQuery_Encode; [|apply authorization_values_full]. f_equal.
  - intros verifier Hv. by eapply PKCEChallenge_inj.
  - intros values code. apply ValidateAuthorizationCallback_Ok.
Qed.

End Theorems.

(** ** Samples

    A runtime with one RSA key and a token it accepts.  The modulus is 257 times
    the padded digest of the token, so that the padded digest is its own power:
    by Fermat's little theorem for 257, without an exponentiation. *)

Lemma fermat_257 z : z mod 257 <> 0 -> z ^ 65536 mod 257 = 1.
Proof.
  intros Hz. assert (forallb (fun r => pow_mod (Z.of_nat r) 65536 257 =? 1) (seq 1 256) = true) as H
    by (vm_compute; reflexivity).
  rewrite forallb_forall in H. pose proof (Z.mod_pos_bound z 257 ltac:(lia)) as Hb.
  specialize (H (Z.to_nat (z mod 257))). rewrite in_seq, Z2Nat.id in H by lia.
  specialize (H ltac:(lia)). apply Z.eqb_eq in H. rewrite pow_mod_spec in H by lia.
  by rewrite Zpower_mod by lia.
Qed.

Lemma own_power em : 0 < em -> em mod 257 <> 0 -> em ^ 65537 mod (257 * em) = em.
Proof.
  intros He Hm. pose proof (fermat_257 em Hm) as Hf.
  replace (em ^ 65537) with (em * em ^ 65536) by
    (change 65537 with (1 + 65536); by rewrite Z.pow_add_r, Z.pow_1_r by easy).
  generalize dependent (em ^ 65536). intros x Hf. pose proof (Z.div_mod x 257 ltac:(easy)) as Hd.
  rewrite Hf in Hd. symmetry. apply Z.mod_unique_pos with (q := x / 257); [lia|]. nia.
Qed.

Definition own_key (em : Z) : option rsa_PublicKey := Some {| rsa_N := Some (257 * em); rsa_E := 65537 |}.

Lemma own_signature em digest : 0 < em < 256 ^ 257 -> Z.odd em = true -> em mod 257 <> 0 ->
  1024 <= BitLen (257 * em) -> byte_len (257 * em) = 257%nat ->
  length digest = 32%nat -> be_bytes 257 em = pkcs1_encoded 257 digest ->
  VerifyPKCS1v15 (own_key em) digest (be_bytes 257 em) = true.
Proof.
  intros Hb Ho Hm Hbl Hk Hl He. unfold own_key, VerifyPKCS1v15. rewrite Z.abs_eq by lia.
  rewrite Hk, Z.odd_mul, Ho, be_bytes_length, Hl, be_value_bytes.
  rewrite (Z.mod_small em) by (change (Z.of_nat 257) with 257; lia).
  rewrite pow_mod_spec by lia. change (Z.pos (Z.to_pos 65537)) with 65537.
  rewrite own_power by (done || lia). rewrite He, bool_decide_eq_true_2 by done.
  apply Z.leb_le in Hbl as ->. destruct (Z.ltb_spec em (257 * em)); [done|lia].
Qed.

#[local] Transparent Sum256 P256_IsOnCurve p256_verify validateRuntimeConfig.

#[export] Instance https_parsers : NetParsers := {
  url_Parse s :=
    if HasPrefix s "https://" then
      let (host, path) := cut "/"%char (TrimPrefix s "https://") in
      Some {| url_Scheme := "https"; url_Opaque := ""; url_HasUser := false; url_Host := host;
              url_Hostname := host; url_Port := ""; url_Path := "/" +:+ path; url_RawQuery := "";
              url_Fragment := ""; url_String := s |}
    else None;
  net_SplitHostPort s := Some (cut ":"%char s);
  net_ParseIP _ := false
}.

Definition seconds_json (t : Time) : json := JNumber (FormatInt (Unix t)).

Definition sample_header : string := print (JObject
  [("alg", JString "RS256"); ("kid", JString "key-1"); ("typ", JString "JWT")]).

Definition sample_payload : string := print (JObject [
  ("iss", JString "https://id.example"); ("aud", JString "cloudring"); ("azp", JString "cloudring");
  ("exp", seconds_json (at_noon + 30 * Minute)); ("iat", seconds_json (at_noon - Minute));
  ("sub", JString "tenant-admin-a"); ("nonce", JString "nonce-1"); ("use", JString "id");
  ("groups", JArray [JString "operators"]); ("namespaces", JArray [JString "tenant-a-system"])]).

Definition sample_part0 : string := Eval vm_compute in b64_encode (string_bytes sample_header).
Definition sample_part1 : string := Eval vm_compute in b64_encode (string_bytes sample_payload).
Definition sample_digest : list Z := Eval vm_compute in Sum256 (sample_part0 +:+ "." +:+ sample_part1).
Definition sample_em : Z := Eval vm_compute in be_value (pkcs1_encoded 257 sample_digest).
Definition sample_part2 : string := Eval vm_compute in b64_encode (be_bytes 257 sample_em).
Definition sample_token : string :=
  Eval vm_compute in sample_part0 +:+ "." +:+ sample_part1 +:+ "." +:+ sample_part2.

(** A key that has just been retired and its successor, the generator of P-256. *)
Definition sample_key : SigningKey :=
  {| sk_KeyID := "key-1"; sk_Algorithm := "RS256"; sk_PublicKey := RSAKey (own_key sample_em);
     sk_ActiveFrom := at_noon - 24 * Hour; sk_ActiveUntil := at_noon |}.

Definition sample_keys : list SigningKey := [sample_key;
  {| sk_KeyID := "key-2"; sk_Algorithm := "ES256";
     sk_PublicKey := ECDSAKey (Some {| ec_Curve := Some P256; ec_X := Some p256_G.1; ec_Y := Some p256_G.2 |});
     sk_ActiveFrom := at_noon; sk_ActiveUntil := time_zero |}].

Definition sample_config : RuntimeConfig := {|
  idc_Issuer := "https://id.example"; idc_AuthorizationEndpoint := "https://id.example/authorize";
  idc_TokenEndpoint := "https://id.example/token"; idc_JWKSURI := "https://id.example/jwks";
  idc_Audience := "cloudring"; idc_AuthorizedParty := "cloudring"; idc_ExpectedJOSEType := "JWT";
  idc_JWTClassClaim := "use"; idc_ExpectedJWTClass := "id"; idc_AllowedAlgorithms := ["RS256"; "ES256"];
  idc_RequiredClaims := ["iss"; "aud"; "azp"; "exp"; "iat"; "sub"; "use"; "groups"; "namespaces"];
  idc_GroupsClaim := "groups"; idc_NamespacesClaim := "namespaces"; idc_TokenMaxLifetime := Hour;
  idc_ClockSkew := Minute; idc_JWKSCacheTTL := 5 * Minute; idc_RotationOverlap := 2 * Hour;
  idc_Keys := sample_keys
|}.

Definition sample_runtime : Runtime := {| rt_config := sample_config |}.

Lemma sample_runtime_made : NewRuntime sample_config = Ok sample_runtime.
Proof. vm_compute. reflexivity. Qed.

Definition sample_claims : VerifiedClaims :=
  {| vc_Issuer := "https://id.example"; vc_Audience := ["cloudring"];
     vc_ExpiresAt := at_noon + 30 * Minute; vc_IssuedAt := at_noon - Minute;
     vc_Subject := "tenant-admin-a"; vc_Nonce := "nonce-1"; vc_Groups := ["operators"];
     vc_Namespaces := ["tenant-a-system"] |}.

Definition members_of (segment : string) : Members :=
  match decodeJSONSegment segment with Ok ms => ms | Err _ => ∅ end.

Lemma sample_verifies : verifySignature "RS256" (RSAKey (own_key sample_em))
  (sample_part0 +:+ "." +:+ sample_part1) (be_bytes 257 sample_em) = None.
Proof.
  unfold verifySignature. cbn [String.eqb Ascii.eqb Bool.eqb andb].
  replace (Sum256 (sample_part0 +:+ "." +:+ sample_part1)) with sample_digest by (vm_compute; reflexivity).
  by rewrite own_signature by (vm_compute; (reflexivity || (split; reflexivity) || done)).
Qed.

(** The token is accepted at noon, after its key was retired. *)
Lemma sample_accepted : VerifyJWT sample_runtime sample_token at_noon = Ok sample_claims.
Proof.
  apply VerifyJWT_iff. exists sample_part0, sample_part1, sample_part2, (members_of sample_part0),
    (members_of sample_part1), sample_key, (be_bytes 257 sample_em).
  constructor. 10: exact sample_verifies.
  all: try (vm_compute; reflexivity).
  - split; [done|vm_compute; discriminate].
  - split; [vm_compute; left|]. apply (bool_decide_unpack _). vm_compute. done.
  - vm_compute. discriminate.
Qed.

Lemma accepted_tokens_are_signed_witness : exists part0 part1 part2 signature raw key,
  sample_token = part0 +:+ "." +:+ part1 +:+ "." +:+ part2 /\
  b64_decode part2 = Some signature /\ key ∈ sample_keys /\
  Signed (sk_PublicKey key) (part0 +:+ "." +:+ part1) signature /\
  decodeJSONSegment part1 = Ok raw /\ ClaimsHold sample_config raw at_noon sample_claims.
Proof.
  destruct (accepted_tokens_are_signed sample_config sample_runtime sample_token at_noon sample_claims
    sample_runtime_made sample_accepted)
    as (p0 & p1 & p2 & signature & raw & key & H1 & H2 & H3 & H4 & _ & _ & _ & H5 & H6).
  by exists p0, p1, p2, signature, raw, key.
Defined.

(** Half an hour later the token has expired, but for the skew. *)
Lemma tokens_last_until_they_expire_witness :
  VerifyJWT sample_runtime sample_token (at_noon + 30 * Minute) = Ok sample_claims.
Proof.
  apply (tokens_last_until_they_expire sample_config sample_runtime sample_token at_noon).
  - exact sample_runtime_made.
  - vm_compute. reflexivity.
  - intros key Hin _. apply elem_of_cons in Hin as [->|Hin%list_elem_of_singleton]; [|subst key];
      split; vm_compute; (discriminate || reflexivity).
  - exact sample_accepted.
  - split; vm_compute; discriminate.
  - vm_compute. reflexivity.
  - split; vm_compute; (discriminate || reflexivity).
Defined.

(** A relying party read the keys four minutes before, and the token was issued
    three minutes after that. *)
Lemma caches_accept_the_issuers_tokens_witness : exists keys party,
  SigningKeysFromJWKS (Runtime_JWKS sample_runtime (at_noon - 4 * Minute)) = Ok keys /\
  NewRuntime (with_keys sample_config keys) = Ok party /\
  VerifyJWT party sample_token at_noon = Ok sample_claims.
Proof.
  apply (caches_accept_the_issuers_tokens sample_config sample_runtime).
  - exact sample_runtime_made.
  - repeat constructor; vm_compute; (discriminate || reflexivity).
  - intros key Hin. apply elem_of_cons in Hin as [->|Hin%list_elem_of_singleton]; [|subst key];
      vm_compute; discriminate.
  - split; vm_compute; discriminate.
  - exact sample_accepted.
  - vm_compute. discriminate.
  - vm_compute. discriminate.
Defined.

(** The policy of the contract verifier behind the adapter. *)
Definition sample_source : OIDCProofSource := fun _ =>
  Ok {| op_IDToken := sample_token; op_Nonce := "nonce-1";
        op_MFA := {| mfa_Required := true; mfa_Satisfied := true;
                     mfa_MethodClass := MFAMethodExternalIDP |};
        op_Session := {| sa_State := SessionStateFresh; sa_MaxAgeSeconds := 3600;
                         sa_ReauthenticationRequired := false |} |}.

Definition sample_adapter : OIDCAuthenticationVerifier :=
  {| ov_runtime := Some sample_runtime; ov_source := Some sample_source |}.

Definition sample_policy : Policy MemoryAuditSink :=
  set_authenticator (edgePolicy at_noon) (Some (OIDC_Authenticate (Some sample_adapter))).

Definition sample_result : AuthenticationResult :=
  {| ar_SubjectID := "tenant-admin-a"; ar_APITokenRef := "";
     ar_CredentialClass := CredentialClassInteractiveSession;
     ar_MFA := {| mfa_Required := true; mfa_Satisfied := true;
                  mfa_MethodClass := MFAMethodExternalIDP |};
     ar_Session := {| sa_State := SessionStateFresh; sa_MaxAgeSeconds := 3600;
                      sa_ReauthenticationRequired := false |};
     ar_Proof := {| ap_VerifiedAt := at_noon; ap_ExpiresAt := at_noon + 30 * Minute |} |}.

Lemma sample_adapter_answers ctx request :
  OIDC_Authenticate (Some sample_adapter) ctx request at_noon = (sample_result, None).
Proof.
  unfold OIDC_Authenticate, sample_adapter, sample_source, VerifyIDToken. cbn [op_IDToken op_Nonce].
  rewrite sample_accepted. reflexivity.
Qed.

Lemma sample_allowed : d_Allowed (AuthorizeContext sample_policy (Some context_Background)
  manage_request 0 NewMemoryAuditSink).2 = true.
Proof.
  unfold AuthorizeContext, authenticate.
  change (requestTime sample_policy 0) with at_noon.
  change (p_authenticator sample_policy) with (Some (OIDC_Authenticate (Some sample_adapter))).
  cbv iota. rewrite sample_adapter_answers. vm_compute. reflexivity.
Qed.

Lemma oidc_allows_are_backed_by_tokens_witness : exists proof claims key,
  sample_source context_Background = Ok proof /\
  VerifyIDToken sample_runtime (op_IDToken proof) at_noon (op_Nonce proof) = Ok claims /\
  SignedText sample_config (op_IDToken proof) key /\ vc_Subject claims = "tenant-admin-a".
Proof.
  destruct (oidc_allows_are_backed_by_tokens sample_config sample_runtime sample_source sample_adapter
    sample_policy context_Background manage_request 0 NewMemoryAuditSink _ _ sample_runtime_made
    eq_refl eq_refl (surjective_pairing _) sample_allowed)
    as (proof & claims & key & H1 & H2 & H3 & _ & _ & H4 & _).
  by exists proof, claims, key.
Defined.

Definition sample_verifier : string := "dBjftJeZ4CVP-mB92K27uhbUJU1p1r_wW1gFWFOEjXk".

(** The challenge is that of appendix B of RFC 7636. *)
Definition sample_request : AuthorizationURLRequest := {|
  ur_AuthorizationEndpoint := "https://id.example/authorize"; ur_ClientID := "cloudring";
  ur_RedirectURI := "https://portal.example/callback"; ur_Scopes := ["openid"; "groups"];
  ur_State := "state & more"; ur_Nonce := "nonce-1";
  ur_PKCE := {| pkce_Verifier := sample_verifier;
    pkce_Challenge := "E9Melhoa2OwvFrEMTJguCHaoeK1t8URWbuGJSstw-cM"; pkce_Method := "S256" |} |}.

Lemma authorization_requests_are_bound_witness : exists u, BuildAuthorizationURL sample_request = Ok u /\
  url_Scheme (eu_Parsed u) = "https" /\
  forall values code, ValidateAuthorizationCallback values "state & more" = Ok code ->
    values !! "state" = Some ["state & more"].
Proof.
  destruct (BuildAuthorizationURL sample_request) as [u|err] eqn:Hu; [|vm_compute in Hu; discriminate Hu].
  destruct (authorization_requests_are_bound sample_request u Hu) as ((_ & Hs & _) & _ & _ & Hc).
  exists u. split; [done|]. split; [done|]. intros values code Hv. by apply (Hc values code).
Defined.

Example sample_query : match BuildAuthorizationURL sample_request with
  | Ok u => eu_RawQuery u = "client_id=cloudring&code_challenge=E9Melhoa2OwvFrEMTJguCHaoeK1t8URWbuGJSstw-cM&code_challenge_method=S256&nonce=nonce-1&redirect_uri=https%3A%2F%2Fportal.example%2Fcallback&response_type=code&scope=openid+groups&state=state+%26+more"
  | Err _ => False
  end.
Proof. vm_compute. reflexivity. Qed.

(** ** A sum that wraps

    [validateRuntimeConfig] compares the overlap with a sum of 64-bit durations:
    a lifetime close to the longest duration passes with any overlap. *)
Definition wrapping_config : RuntimeConfig :=
  {| idc_Issuer := idc_Issuer sample_config;
     idc_AuthorizationEndpoint := idc_AuthorizationEndpoint sample_config;
     idc_TokenEndpoint := idc_TokenEndpoint sample_config; idc_JWKSURI := idc_JWKSURI sample_config;
     idc_Audience := idc_Audience sample_config; idc_AuthorizedParty := idc_AuthorizedParty sample_config;
     idc_ExpectedJOSEType := idc_ExpectedJOSEType sample_config;
     idc_JWTClassClaim := idc_JWTClassClaim sample_config;
     idc_ExpectedJWTClass := idc_ExpectedJWTClass sample_config;
     idc_AllowedAlgorithms := idc_AllowedAlgorithms sample_config;
     idc_RequiredClaims := idc_RequiredClaims sample_config;
     idc_GroupsClaim := idc_GroupsClaim sample_config;
     idc_NamespacesClaim := idc_NamespacesClaim sample_config;
     idc_TokenMaxLifetime := max_int64; idc_ClockSkew := Minute; idc_JWKSCacheTTL := Minute;
     idc_RotationOverlap := 1; idc_Keys := sample_keys |}.

Lemma wrapping_overlaps_are_accepted :
  NewRuntime wrapping_config = Ok {| rt_config := wrapping_config |} /\
  idc_RotationOverlap wrapping_config < idc_TokenMaxLifetime wrapping_config.
Proof. split; vm_compute; reflexivity. Qed.
